(* ===== verification/_CoqProject ===== *)
-Q . S2P
Prelude.v
Machine.v
Trace.v
Mdio.v
MepaCore.v
MepaCoreSpec.v
MepaApi.v
Enums.v
Lan8814Regs.v
Lan8814Types.v
Lan8814Access.v
Lan8814Burst.v
SimPhy.v
AccessLemmas.v
Lan8814Conf.v
Lan8814Poll.v
Lan8814Gpio.v
Lan8814Diag.v
Lan8814Driver.v
Lan8814Ts.v
Lan8814TsClass.v
Lan8814TsApi.v
Lan8814Api.v
Lan8814Isolation.v
Lan8814ConfSpec.v
Lan8814ModeSpec.v
Lan8814PollSpec.v
Lan8814GpioSpec.v
Lan8814DiagSpec.v
Lan8814DriverSpec.v
Lan8814Dump.v
Lan8814Run.v
Lan8814DumpSpec.v
Lan8814TsSpec.v
Lan8814TsClassSpec.v
Bytes.v
Sha256.v
Sha256Spec.v
PhyLib.v
PhyLibSpec.v
PhyDefines.v
Lan8x8xRegs.v
Lan8x8x.v
Lan8x8xApi.v
Lan8x8xSafe.v
Lan8x8xSpec.v
Lan884x.v
Lan884xSpec.v
Ksz9031.v
Ksz9031Spec.v
DummyPhy.v
Lan867x.v
Lan867xSpec.v
Lan8770Regs.v
Lan8770.v
Lan8770Diag.v
Lan8770Api.v
Lan8770Trace.v
Lan8770Spec.v
Lan8770SqiSpec.v
Lan8770DiagSpec.v
Lan8770PoolSpec.v
Lan80xxRegs.v
Lan80xxMacsecTypes.v
Lan80xxCsr.v
Lan80xxMcu.v
Lan80xxPacketSpec.v
Lan80xxMcuSim.v
Lan80xxMcuSpec.v
Lan80xxCsrSpec.v
Lan80xxMacsecRegs.v
Lan80xxMacsec.v
Lan80xxMacsecSa.v
Lan80xxMacsecApi.v
Lan80xxMacsecAlloc.v
Lan80xxMacsecLogic.v
Lan80xxMacsecQuiet.v
Lan80xxMacsecSim.v
Lan80xxMacsecSpec.v
MepaFamilies.v
