(* ===== verification/Prelude.v ===== *)
(** * MEPA verification library

    A model of the Microchip Ethernet PHY API (MEPA), the C library under
    [src/], with the theorems that say what the modelled functions do.

    ** The program

    MEPA puts many families of Ethernet PHYs behind one API.  An application
    calls [mepa_*] functions ([mepa/common/src/phy.c]); each looks up a
    function pointer in the driver's table of the device and calls it.  A
    driver reaches its PHY through callouts that the application supplies
    (MIIM, MMD and SPI accesses, a lock, memory), keeps its state in private
    data per device, and links the ports of a chip to a base port.  The parts
    developed here are the driver-independent core, the LAN8814 driver with its
    PTP time stamping, the shared PHY library, the LAN867x, LAN8770, LAN8x8x,
    LAN884x, KSZ9031 and dummy PHY drivers, and of the LAN80xx driver the
    register access, the mailbox to the microcontroller of the chip, the hash of
    the firmware image and the management of MACsec.

    ** How the code is modelled

    - A C integer is a [Z]; conversions to [w] bits are written out ([u8],
      [u16], [u32], [u64], [i64] of this file), bit operations are those of
      [Z].  Enums are integers, since C lets them hold any value.
    - A function of a driver is a state transformer ([Machine]): over the bus
      with the PHYs behind it, the table of the devices' private data and the
      log of callouts.  [None] is undefined behaviour: a NULL or dangling
      pointer, a NULL callout that is called, an access out of bounds, a signed
      overflow of 64 bits; for the loops listed below also that they have not
      ended.  An early return is an [if] whose branch is the function's result;
      the macros that leave the calling function take the rest of it as an
      argument.
    - The callouts are type classes ([Callout], [Callout80]), arguments of
      every definition: what the application and the PHY do is not fixed.
      [uninit] is the value of a variable that is read before it is written.
      Callouts do not call the library.
    - Private data is in one table for all devices, so a pointer to another
      device ([base_dev]) is aliasing, not a copy.
    - The C functions keep their names; a definition with another name is a
      loop, a branch or a block of one, named in the text next to it.

    ** The files

    Foundations
    - [Prelude] (this file): integers, bits, lists; [Machine]: the state, the
      callouts, the lock and address discipline ([disc], [safe]; for histories
      with dumps and deletions [goes]); [Trace]: a
      program logic over any reading of the transactions of a bus as register
      accesses (class [Reading]; [does]: which registers a function reads and
      writes, whatever they contain); [Mdio]: the reading of the registers
      behind the address windows 13/14 and 22/23 ([decode]), an instance of
      it; [Bytes]: arrays of bytes.

    [mepa/common/src/phy.c]
    - [MepaCore]: identification of a PHY, allocation, driver search, dispatch;
      [MepaCoreSpec]: its theorems; [MepaApi]: all functions of the API, with
      the pointer of the driver's tables that each tests and calls;
      [MepaFamilies] (last of all): the list of driver families with the tables
      of all drivers, and the driver that a PHY gets.

    [mepa/microchip/lan8814/src/lan8814.c], [lan8814_private.h]
    - [Enums], [Lan8814Regs], [Lan8814Types]: enumerations, register map,
      structs.
    - [Lan8814Access], [Lan8814Burst]: the register accessors, with their rules
      in that logic, for private data of any type, since the LAN884x driver has
      the same; [AccessLemmas], [SimPhy]: its tools and a concrete PHY for
      the witnesses.
    - [Lan8814Conf] (configuration, events, EEE, reset), [Lan8814Poll] (link
      state machine), [Lan8814Gpio] (pins, clocks), [Lan8814Diag] (cable
      diagnostics, self-test, loopbacks, PRBS, SerDes), [Lan8814Driver] (the
      other entry points), [Lan8814Api] (the driver table and calls through
      it), each with the theorems in [Lan8814ConfSpec] and [Lan8814ModeSpec],
      [Lan8814PollSpec], [Lan8814GpioSpec], [Lan8814DiagSpec],
      [Lan8814DriverSpec]; [Lan8814Isolation]: a call touches its port only;
      [Lan8814Dump] and [Lan8814DumpSpec]: the register dumps of both source
      files, with the deletion of a device; [Lan8814Run]: histories of calls,
      dumps and deletions.

    [mepa/microchip/lan8814/src/lan8814_ts.c]
    - [Lan8814Ts] (time counter, latencies, FIFO, events), [Lan8814TsClass]
      (classifiers, PTP clocks), [Lan8814TsApi] (the [mepa_ts_*] calls), with
      [Lan8814TsSpec] and [Lan8814TsClassSpec].

    [mepa/microchip/common/src/phy_lib.c]
    - [PhyLib]: clause 22 and MMD registers, polling, the register dump;
      [PhyLibSpec].

    [mepa/microchip/lan8x8x/src]
    - [PhyDefines] ([phy_defines.h]), [Lan8x8xRegs], [Lan8x8x] (reset, set-up of
      both sides, configuration, events, LEDs, link status), [Lan8x8xApi] (the
      entry points, the probe and the driver table): the whole driver of the
      100BASE-T1 and 1000BASE-T1 PHYs, over [PhyLib].
    - [Lan8x8xSafe]: histories of calls on any bus, and the invariant [ready] of
      the private data; [Lan8x8xSpec]: lists of register operations and what
      they write ([performs], [writes]), the set-up as such a list computed from
      the data of the port ([setup_ops]), and the theorems.

    [mepa/microchip/lan867x/src]
    - [Lan867x]: the whole driver of the 10BASE-T1S PHY; [Lan867xSpec].

    [mepa/microchip/lan8770/src]
    - [Lan8770Regs], [Lan8770] (register banks, initialisation, configuration,
      wake-up, events), [Lan8770Diag] (signal quality, cable diagnostics),
      [Lan8770Api] (the driver table): the whole driver of the 100BASE-T1 PHY.
    - [Lan8770Trace]: its registers as another instance of [Trace], with the
      waits for the indirect accesses; [Lan8770Spec], [Lan8770DiagSpec],
      [Lan8770SqiSpec] (the sort of the readings), [Lan8770PoolSpec] (creation
      and deletion in the static table of devices).

    [mepa/microchip/lan884x/src]
    - [Lan884x]: the whole driver of the RGMII PHY; [Lan884xSpec].

    [mepa/ksz9031/phy_driver.c], [mepa/dummy_phy/src]
    - [Ksz9031]: the whole driver, over the callouts of [Callout] and for clause
      45 those of [Callout45]; [Ksz9031Spec], with a logic for any bus, failing
      ones included ([runs]).
    - [DummyPhy]: a driver without a PHY.

    [mepa/microchip/lan80xx/src]
    - [Lan80xxRegs], [Lan80xxCsr]: address translation and register access over
      SPI or MDIO ([lan80xx_private.c]); [Lan80xxCsrSpec].
    - [Lan80xxMcu]: the mailbox, its packets and commands ([lan80xx_private.c],
      [lan80xx_mcu.c]); [Lan80xxPacketSpec]; [Lan80xxMcuSim]: the other side of
      the mailbox, with the firmware's answers as a parameter;
      [Lan80xxMcuSpec]: what the commands do with them.
    - [Sha256] ([sha256/sha256.c] and its use in [lan80xx_private.c]), with the
      standard and the refinement in [Sha256Spec].
    - MACsec ([lan80xx_macsec_private.c], [lan80xx_macsec.c]):
      [Lan80xxMacsecTypes], [Lan80xxMacsecRegs]; [Lan80xxMacsec] (the tables,
      the searches and the programming of one association), [Lan80xxMacsecSa]
      (associations, channels, patterns, SecYs, counters), [Lan80xxMacsecApi]
      (the [_priv] functions and the entry points with the lock).
    - [Lan80xxMacsecAlloc]: the abstract machine of who owns which record,
      channel and hardware index, with its invariant; [Lan80xxMacsecLogic]: the
      map from the tables to it and a program logic over it;
      [Lan80xxMacsecQuiet]: the functions that do not move ownership;
      [Lan80xxMacsecSim]: those that do, as steps of the machine;
      [Lan80xxMacsecSpec]: the calls and the theorems about them.

    ** What the theorems show

    - Safety of the LAN8814 driver as a whole: any history of API calls, register
      dumps and deletions on linked devices, with the conditions that
      [good_history] lists, runs without undefined behaviour, takes and releases
      the lock in pairs and accesses the bus under it ([api_run_safe]); a call
      touches its own port ([api_call_isolated]).  The same discipline for the
      LAN867x ([t1s_run_safe]) and the LAN8x8x, dumps and deletions included,
      whose calls also keep every port such that it can be set up again
      ([lan8x8x_run_safe]).  A device of the LAN8770 that is created and
      deleted leaves its table as it was ([lan8770_create_delete]).
    - Dispatch: every function of the API calls the driver's function named
      after it, or reports that there is none; two of them can call NULL
      ([api_dispatch], [api_null_call]).  Whatever drivers are built in, a PHY of
      one of Microchip's families is probed by its own driver, and by the default
      driver only when that fails ([mepa_create_picks]).
    - Functional specifications at the level of registers: configuration,
      reset, events, link poll, loopbacks, time stamping, classifiers, for
      every content of the registers.
    - State machines: restart of a hanging auto-negotiation, the link state
      that is reported, the links between ports.
    - The LAN8770, at its banks of registers, with the values and the sequences of
      accesses written out: initialisation and configuration when the chip is
      never busy ([ReadyBus]; [lan8770_init_spec], [lan8770_conf_set_spec]), the
      wait for an indirect access of a busy one ([bank_rd_wait]), the signal
      quality as the mean of the readings in the middle ([sqi_read_spec],
      [sqi_sort_sorts]), the verdict on a cable, which reports a fault up to 35 m
      only ([cable_verdict]).
    - The LAN8x8x, with the tables of values written out: the operations of a
      set-up, in order, up to the start and what follows it ([sets_up]); probing
      fills in the data of a port from the straps and sets it up
      ([lan8x8x_probe_spec]); a new configuration is refused, half stored,
      stored, or stored and set up ([lan8x8x_conf_set_spec]); a reset sets up
      with the data there is ([lan8x8x_reset_spec]); which interrupts a change of
      the events leaves enabled ([lan8x8x_event_enable_spec]); the status of the
      link ([lan8x8x_poll_spec]).
    - The LAN884x: the interface that was set, with its clock delays, is read
      back from the strap and the delay lines ([pfe_if_set_get]); the status of
      the link ([pfe_poll_spec]).  The KSZ9031, on any bus: what a configuration
      and a poll do up to the first access that fails, and which errors are
      reported ([ksz_conf_set_spec], [ksz_poll_spec]).  The register dumps of the
      LAN8814 only read ([debug_dump_reads]).
    - Equivalence and refinement: the event loop and a mask per event, clause 45
      debug addresses and the registers they name, the register reads of the
      LAN80xx over SPI and MDIO ([csr_rd_transports]), the streamed hash and
      FIPS 180-4.
    - Round trips: what was configured is read back; packets are created,
      accepted and decoded.
    - The mailbox of the LAN80xx, whatever the firmware answers: the packets
      that a write to the programmable memory sends, and how each answer ends
      or continues the call ([otp_write_spec]; the same for reads in
      [otp_read_spec]), and the time-out ([memory_read_timeout]).
    - MACsec on the LAN80xx, for the 49 entry points of [macsec_call] and not for
      the others: a call, also one that fails half way, is a sequence of steps
      of the machine of owners ([macsec_call_steps]), so no record, channel or
      hardware index is ever shared or lost ([macsec_calls_exclusive]), and the
      SecY that a deletion names gives everything back
      ([macsec_secy_del_releases]).
    - Errors: a failing bus (the PLCA configuration of the LAN867x, on any bus),
      corrupted packets, timeouts, refused requests, and what the code
      does wrong with some of them, listed as findings in the manifest.
    - Types and bounds: register values keep their width; the rate adjustment
      and the poll counter at the limits of their types.

    ** Bounds and fuel

    - The waits for cable diagnostics and for a link make at most 100 turns, as
      in the source; the event loop looks at 32 bits.
    - [fifo_loop]: 8 entries at most per read.  [tx_ts_loop] empties the FIFO:
      it stops at the first invalid entry, and its [turns] run out only when
      the PHY shows that many valid ones ([tx_ts_get_spec]).
    - [update_loop] of the hash: one turn per byte is enough, since each turn
      takes at least one.
    - Mailbox: a 16-bit length in steps of four ends within 16384 turns or not
      at all; the wait for an answer within timeout + 2 turns; a transfer of
      the programmable memory within as many turns as bytes, since no piece is
      empty; the dump of a packet in 64 turns, after which its 8-bit index
      repeats.  The wait for a busy microcontroller has no bound in the source:
      [turns] is an argument.
    - The waits of the LAN8770 for a bank access have no bound in the source
      either: [fuel] is the number of reads of the status the chip needs, and
      [bank_rd_wait] says so much is enough.
    - MACsec: the loops run over the tables (64 or 128 records, 4 associations
      per channel) and are folds over those counts; the wait for packets in
      flight polls 100 times, as in the source.  The wait for the update of the
      lowest packet number does not read the register again, so it ends at once
      or never; the second is [None].
    - Polling of [phy_lib.c] ends when the timer of the application says so:
      the polls the timer allows are an argument.

    ** What is not modelled

    - Trace output and the texts of the register dumps; that two threads may
      both fill the list of driver families.
    - LAN80xx: the firmware update and the SerDes configuration commands, which
      go through the power-on initialisation of the chip; initialisation, port
      configuration and time stamping.  Of MACsec the set-up of the block,
      default actions, control frames, MTU, frame capture, events, direct
      register access, the counters of SecYs and ports and the counts of
      instances: they do not move the ownership that the theorems are about.
    - The other drivers (VTSS, AQR, Intel, LAN887x), but for their driver tables:
      vendored or large register sequences of their own.
    - Concurrency: the library relies on the application's lock, so calls are
      sequences; the discipline of the lock is a theorem.

    Next in order: the rest of MACsec, the firmware update of the LAN80xx over
    this mailbox, the LAN887x driver, also built on [phy_lib.c], and the LAN80xx
    time stamping. *)

From Stdlib Require Import ZArith Lia List Bool.
From stdpp Require Import base list.

Declare Scope mepa_scope.
Delimit Scope mepa_scope with mepa.
#[global] Open Scope Z_scope.

(** ** C integers

    A C value is a [Z]; the conversion to an unsigned type of [w] bits is the
    remainder modulo [2^w], to a signed one the representative in
    [[-2^(w-1), 2^(w-1))]. *)

Definition u8 (x : Z) : Z := x mod 2 ^ 8.
Definition u16 (x : Z) : Z := x mod 2 ^ 16.
Definition u32 (x : Z) : Z := x mod 2 ^ 32.
Definition u64 (x : Z) : Z := x mod 2 ^ 64.
Definition i64 (x : Z) : Z := (x + 2 ^ 63) mod 2 ^ 64 - 2 ^ 63.

(** C truth values: [0] is false and everything else is true; a comparison
    yields [0] or [1].  [mepa_bool_t] is [uint8_t], so it is a [Z] too. *)
Definition tb (x : Z) : bool := negb (x =? 0).
Definition cb (b : bool) : Z := if b then 1 else 0.
Definition TRUE : Z := 1.
Definition FALSE : Z := 0.

Notation "x .& y" := (Z.land x y) (at level 40, left associativity) : mepa_scope.
Notation "x .| y" := (Z.lor x y) (at level 50, left associativity) : mepa_scope.
Notation "x .<< y" := (Z.shiftl x y) (at level 38, left associativity) : mepa_scope.
Notation "x .>> y" := (Z.shiftr x y) (at level 38, left associativity) : mepa_scope.
Notation "'.~' x" := (Z.lnot x) (at level 30, right associativity) : mepa_scope.
#[global] Open Scope mepa_scope.

(** Read-modify-write of a 16-bit register: the bits of [mask] come from
    [v], the others from [old]. *)
Definition rmw (old v mask : Z) : Z := u16 ((old .& .~ mask) .| (v .& mask)).

Create HintDb mepa discriminated.

Lemma cb_tb b : tb (cb b) = b.
Proof. by destruct b. Qed.

Lemma u8_range x : 0 <= u8 x < 256.
Proof. apply Z.mod_pos_bound. lia. Qed.
Lemma u16_range x : 0 <= u16 x < 65536.
Proof. apply Z.mod_pos_bound. lia. Qed.
Lemma u32_range x : 0 <= u32 x < 4294967296.
Proof. apply Z.mod_pos_bound. lia. Qed.
Lemma u64_range x : 0 <= u64 x < 18446744073709551616.
Proof. apply Z.mod_pos_bound. lia. Qed.

Lemma u8_small x : 0 <= x < 256 -> u8 x = x.
Proof. intros. by apply Z.mod_small. Qed.
Lemma u16_small x : 0 <= x < 65536 -> u16 x = x.
Proof. intros. by apply Z.mod_small. Qed.
Lemma u32_small x : 0 <= x < 4294967296 -> u32 x = x.
Proof. intros. by apply Z.mod_small. Qed.
Lemma u64_small x : 0 <= x < 18446744073709551616 -> u64 x = x.
Proof. intros. by apply Z.mod_small. Qed.
Lemma i64_small x : - 9223372036854775808 <= x < 9223372036854775808 -> i64 x = x.
Proof. intros. unfold i64. rewrite Z.mod_small; lia. Qed.

Lemma u16_u16 x : u16 (u16 x) = u16 x.
Proof. unfold u16. by rewrite Z.mod_mod. Qed.

#[export] Hint Resolve u8_range u16_range u32_range u64_range : mepa.

(** ** Bit-level reasoning *)

Lemma u16_land x : u16 x = x .& 65535.
Proof. unfold u16. by rewrite <- Z.land_ones. Qed.

Lemma testbit_u16 x i : 0 <= i -> Z.testbit (u16 x) i = (i <? 16) && Z.testbit x i.
Proof.
  intros Hi. unfold u16. destruct (Z.ltb_spec i 16).
  - by rewrite Z.mod_pow2_bits_low.
  - rewrite Z.mod_pow2_bits_high; [done | lia].
Qed.

Lemma testbit_u32 x i : 0 <= i -> Z.testbit (u32 x) i = (i <? 32) && Z.testbit x i.
Proof.
  intros Hi. unfold u32. destruct (Z.ltb_spec i 32).
  - by rewrite Z.mod_pow2_bits_low.
  - rewrite Z.mod_pow2_bits_high; [done | lia].
Qed.

Lemma testbit_small x n i : 0 <= n -> 0 <= x < 2 ^ n -> n <= i -> Z.testbit x i = false.
Proof.
  intros Hn Hx Hi. rewrite <- (Z.mod_small x (2 ^ n)) by done.
  apply Z.mod_pow2_bits_high. lia.
Qed.

(** The read-modify-write, bit by bit. *)
Lemma testbit_rmw old v mask i :
  0 <= i ->
  Z.testbit (rmw old v mask) i =
  (i <? 16) && (if Z.testbit mask i then Z.testbit v i else Z.testbit old i).
Proof.
  intros Hi. unfold rmw. rewrite testbit_u16 by done.
  rewrite Z.lor_spec, !Z.land_spec, Z.lnot_spec by done.
  by destruct (Z.testbit mask i), (Z.testbit v i), (Z.testbit old i).
Qed.

Lemma rmw_range old v mask : 0 <= rmw old v mask < 65536.
Proof. apply u16_range. Qed.

(** Writing the full mask replaces the register. *)
Lemma rmw_all old v : rmw old v 65535 = u16 v.
Proof.
  apply Z.bits_inj'. intros i Hi. rewrite testbit_rmw, testbit_u16 by done.
  change 65535 with (Z.ones 16). rewrite Z.testbit_ones_nonneg by lia.
  by destruct (Z.ltb_spec i 16).
Qed.

Lemma rmw_full old v : 0 <= v < 65536 -> rmw old v 65535 = v.
Proof. intros Hv. by rewrite rmw_all, u16_small. Qed.

(** A register that already has the bits is not changed. *)
Lemma rmw_same old mask : 0 <= old < 65536 -> rmw old old mask = old.
Proof.
  intros Ho. apply Z.bits_inj'. intros i Hi. rewrite testbit_rmw by done.
  destruct (Z.testbit mask i), (Z.ltb_spec i 16); try done;
    symmetry; apply (testbit_small old 16); lia.
Qed.

(** Two 16-bit halves and the 32-bit word they make. *)
Lemma split32 v : 0 <= v < 4294967296 -> ((v .>> 16) .& 65535) .<< 16 .| (v .& 65535) = v.
Proof.
  intros Hv. apply Z.bits_inj'. intros i Hi.
  rewrite Z.lor_spec, Z.shiftl_spec by done.
  change 65535 with (Z.ones 16).
  destruct (Z.ltb_spec i 16).
  - rewrite (Z.testbit_neg_r _ (i - 16)), orb_false_l by lia.
    rewrite Z.land_spec, Z.testbit_ones_nonneg, (proj2 (Z.ltb_lt i 16)) by lia.
    by rewrite andb_true_r.
  - rewrite Z.land_spec, Z.shiftr_spec by lia.
    rewrite Z.land_spec, !Z.testbit_ones_nonneg by lia.
    rewrite (proj2 (Z.ltb_ge i 16)) by lia. rewrite andb_false_r, orb_false_r.
    replace (i - 16 + 16) with i by lia.
    destruct (Z.ltb_spec (i - 16) 16); [by rewrite andb_true_r|].
    rewrite andb_false_r. symmetry. apply (testbit_small v 32); lia.
Qed.

Lemma split32_halves v :
  0 <= v < 4294967296 -> 0 <= (v .>> 16) .& 65535 < 65536 /\ 0 <= v .& 65535 < 65536.
Proof.
  intros. change 65535 with (Z.ones 16).
  rewrite !Z.land_ones by lia. split; apply Z.mod_pos_bound; lia.
Qed.

(** A high part and a low part that do not overlap. *)
Lemma lor_disjoint k n x : 0 <= n -> 0 <= x < 2 ^ n -> (k .<< n) .| x = k * 2 ^ n + x.
Proof.
  intros Hn Hx. rewrite <- Z.shiftl_mul_pow2 by done.
  rewrite Z.add_nocarry_lor; [done|].
  apply Z.bits_inj'. intros i Hi. rewrite Z.land_spec, Z.shiftl_spec, Z.bits_0 by done.
  destruct (Z.ltb_spec i n).
  - by rewrite Z.testbit_neg_r by lia.
  - rewrite (testbit_small x n i) by done. apply andb_false_r.
Qed.

(** Testing a flag of a word. *)
Lemma tb_bit v k : 0 <= k -> tb (v .& (1 .<< k)) = Z.testbit v k.
Proof.
  intros Hk. unfold tb. rewrite Z.shiftl_1_l, Z.land_comm.
  destruct (Z.testbit v k) eqn:E.
  - apply negb_true_iff, Z.eqb_neq. intros H.
    assert (Z.testbit (2 ^ k .& v) k = false) as H' by (rewrite H; apply Z.bits_0).
    rewrite Z.land_spec, Z.pow2_bits_true, E in H' by done. done.
  - apply negb_false_iff, Z.eqb_eq, Z.bits_inj'. intros i Hi.
    rewrite Z.land_spec, Z.pow2_bits_eqb, Z.bits_0 by done.
    destruct (Z.eqb_spec k i) as [->|]; [by rewrite E|done].
Qed.

(** Writing one flag of a register. *)
Lemma testbit_flag old n b i : 0 <= n < 16 -> 0 <= i < 16 ->
  Z.testbit (rmw old (if b : bool then 1 .<< n else 0) (1 .<< n)) i =
  if i =? n then b else Z.testbit old i.
Proof.
  intros Hn Hi. rewrite testbit_rmw, (proj2 (Z.ltb_lt i 16)), andb_true_l by lia.
  rewrite Z.shiftl_1_l, Z.pow2_bits_eqb, (Z.eqb_sym n i) by lia.
  destruct (Z.eqb_spec i n) as [->|]; [|done].
  destruct b; [by apply Z.pow2_bits_true; lia|apply Z.bits_0].
Qed.

(** ** Lists *)

Fixpoint list_set {A} (l : list A) (i : nat) (x : A) : list A :=
  match l, i with
  | [], _ => []
  | _ :: t, O => x :: t
  | h :: t, S j => h :: list_set t j x
  end.

Lemma list_set_length {A} (l : list A) i x : length (list_set l i x) = length l.
Proof. revert i. induction l; intros [|i]; simpl; auto. Qed.

(** The halves of a 32-bit word. *)
Lemma half_hi x : 0 <= x < 2 ^ 32 -> (x .>> 16) .& 0xFFFF = x / 65536.
Proof.
  intros Hx. change 0xFFFF with (Z.ones 16). rewrite Z.land_ones, Z.shiftr_div_pow2 by lia.
  change (2 ^ 16) with 65536. apply Z.mod_small. split; [apply Z.div_pos; lia|].
  apply Z.div_lt_upper_bound; lia.
Qed.
Lemma half_lo x : x .& 0xFFFF = x mod 65536.
Proof. change 0xFFFF with (Z.ones 16). by rewrite Z.land_ones. Qed.
Lemma join32 hi lo : 0 <= hi < 65536 -> 0 <= lo < 65536 -> u32 (hi .<< 16) .| lo = hi * 65536 + lo.
Proof.
  intros Hh Hl. assert (u32 (hi .<< 16) = hi .<< 16) as ->.
  { apply u32_small. rewrite Z.shiftl_mul_pow2 by lia. lia. }
  by apply lor_disjoint.
Qed.
Lemma half_range x : 0 <= x < 2 ^ 32 -> 0 <= x / 65536 < 65536.
Proof. intros. split; [apply Z.div_pos; lia|apply Z.div_lt_upper_bound; lia]. Qed.
Lemma low30 nh : nh .& 0x3FFF = nh mod 16384.
Proof. change 0x3FFF with (Z.ones 14). by rewrite Z.land_ones. Qed.
Lemma low14_range nh : 0 <= nh mod 16384 < 65536.
Proof. pose proof (Z.mod_pos_bound nh 16384 ltac:(lia)). lia. Qed.

(** A 32-bit time as the code keeps it in a pair of registers. *)
Lemma u32_half_hi x : u16 (u32 x .>> 16) = u32 x / 65536.
Proof.
  pose proof (u32_range x). rewrite Z.shiftr_div_pow2 by lia. change (2 ^ 16) with 65536.
  apply u16_small, half_range. lia.
Qed.

(** Setting one bit of a 16-bit word. *)
Lemma lor_bit x k : 0 <= k < 16 -> 0 <= x < 65536 -> u16 (x .| 2 ^ k) = Z.setbit x k.
Proof.
  intros Hk Hx. apply Z.bits_inj'. intros i Hi.
  rewrite testbit_u16, Z.setbit_eqb, Z.lor_spec, Z.pow2_bits_eqb by lia.
  destruct (Z.ltb_spec i 16); cbn; [by rewrite orb_comm|].
  rewrite (testbit_small x 16) by lia. by destruct (Z.eqb_spec k i); [lia|].
Qed.
Lemma rmw_bit y k : 0 <= k < 16 -> 0 <= y < 65536 -> rmw y (2 ^ k) (2 ^ k) = Z.setbit y k.
Proof.
  intros Hk Hy. rewrite <- lor_bit by done. apply Z.bits_inj'. intros i Hi.
  rewrite testbit_rmw, testbit_u16, Z.lor_spec, Z.pow2_bits_eqb by lia.
  by destruct (k =? i), (Z.testbit y i).
Qed.

(** What a loop [for (i = 0; i < n; i++)] keeps. *)
Lemma fold_seq_ind {A} (P : nat -> A -> Prop) (f : A -> nat -> A) n a :
  P 0%nat a -> (forall i a, (i < n)%nat -> P i a -> P (S i) (f a i)) -> P n (fold_left f (seq 0 n) a).
Proof.
  intros H0 HS. assert (forall k, (k <= n)%nat -> P k (fold_left f (seq 0 k) a)) as H; [|by apply H].
  induction k as [|k IH]; intros Hk; [done|].
  rewrite seq_S, fold_left_app. cbn. apply HS; [lia|]. apply IH. lia.
Qed.
