(* ===== verification/Machine.v ===== *)
(** * Machine: the state a PHY driver runs in

    A driver function is a state transformer over a [world]: the bus with the
    PHYs behind it, the table of the devices' private data ([dev->data], one
    entry per [mepa_device_t *], which is represented by its address), and the
    chronological log of the callouts made.  [None] is undefined behaviour
    (a NULL or dangling pointer, a NULL callout, an access out of bounds).

    The callouts ([mepa/include/microchip/ethernet/phy/api/phy.h]) belong to
    the application: they are the class [Callout], an argument of every
    definition. *)

From Stdlib Require Import ZArith Lia List Bool String.
From stdpp Require Import base gmap strings list.
From S2P Require Import Prelude.

(** What the driver does that somebody else can see. *)
Inductive event :=
  | EvEnter                                       (** [lock_enter] *)
  | EvExit                                        (** [lock_exit] *)
  | EvRd (dev addr rc : Z) (v : option Z)         (** [miim_read] *)
  | EvWr (dev addr v rc : Z)                      (** [miim_write] *)
  | EvSleep (n : Z)                               (** [MEPA_MSLEEP] or [MEPA_NSLEEP], with its argument *)
  | EvCall (port : Z) (args : list Z).            (** an application callback *)

(** The application's callouts.  A NULL function pointer is [None]; a read
    yields the return code and the value it stored through the pointer, if it
    stored one.  [uninit] gives the indeterminate value of a C variable that
    is read before it is written. *)
Class Callout (B : Type) := {
  miim_read : option (Z -> Z -> B -> (Z * option Z) * B);
  miim_write : option (Z -> Z -> Z -> B -> Z * B);
  lock_enter : bool;
  lock_exit : bool;
  uninit : string -> Z;
}.

Record world (B D : Type) := World {
  w_bus : B;
  w_data : gmap Z D;
  w_log : list event;
}.
Arguments World {B D}. Arguments w_bus {B D}. Arguments w_data {B D}. Arguments w_log {B D}.

Definition M (B D A : Type) : Type := world B D -> option (A * world B D).

Definition ret {B D A} (a : A) : M B D A := fun w => Some (a, w).
Definition bind {B D A C} (m : M B D A) (k : A -> M B D C) : M B D C :=
  fun w => match m w with Some (a, w') => k a w' | None => None end.

Notation "x <- m ;; k" := (bind m (fun x => k))
  (at level 100, m at next level, k at level 200, right associativity) : mepa_scope.
Notation "'let*' p <- m ;; k" := (bind m (fun p => k))
  (at level 100, p pattern, m at next level, k at level 200, right associativity) : mepa_scope.
Notation "m ;;; k" := (bind m (fun _ => k))
  (at level 100, k at level 200, right associativity) : mepa_scope.

(** [mepa_rc] values ([me/include/microchip/ethernet/common.h]). *)
Definition MEPA_RC_OK : Z := 0.
Definition MEPA_RC_ERROR : Z := -1.
Definition MEPA_RC_INCOMPLETE : Z := -3.
Definition MEPA_RC_NOT_IMPLEMENTED : Z := -4.

Section Machine.
Context {B D : Type} {CO : Callout B}.
Implicit Types w : world B D.

Definition undefined {A} : M B D A := fun _ => None.

(** [*p] for a device pointer [p]; NULL is [None]. *)
Definition deref (p : option Z) : M B D Z :=
  match p with Some d => ret d | None => undefined end.

(** [l[i]] for an array [l]: out of its bounds it is undefined. *)
Definition arr {A} (l : list A) (i : Z) : M B D A :=
  if i <? 0 then undefined else
  match l !! Z.to_nat i with Some x => ret x | None => undefined end.

(** The result [x] of a signed 64-bit operation: an overflow is undefined. *)
Definition ck64 (x : Z) : M B D Z :=
  if (- 2 ^ 63 <=? x) && (x <? 2 ^ 63) then ret x else undefined.

(** [dev->data], and a store to one of its members. *)
Definition data_of (dev : Z) : M B D D :=
  fun w => match w_data w !! dev with Some d => Some (d, w) | None => None end.
Definition upd (dev : Z) (f : D -> D) : M B D unit :=
  fun w => match w_data w !! dev with
           | Some d => Some (tt, World (w_bus w) (<[dev := f d]> (w_data w)) (w_log w))
           | None => None
           end.

Definition log (e : event) : M B D unit :=
  fun w => Some (tt, World (w_bus w) (w_data w) (w_log w ++ [e])).

(** [dev->callout->miim_read(dev->callout_ctx, addr, &value)]: the address
    parameter is [uint8_t]. *)
Definition co_read (dev addr : Z) : M B D (Z * option Z) :=
  fun w => match miim_read with
           | None => None
           | Some f =>
               let '((rc, v), b) := f dev (u8 addr) (w_bus w) in
               Some ((rc, option_map u16 v),
                     World b (w_data w) (w_log w ++ [EvRd dev (u8 addr) rc (option_map u16 v)]))
           end.
(** [dev->callout->miim_write(dev->callout_ctx, addr, value)]: the value
    parameter is [uint16_t]. *)
Definition co_write (dev addr v : Z) : M B D Z :=
  fun w => match miim_write with
           | None => None
           | Some f =>
               let '(rc, b) := f dev (u8 addr) (u16 v) (w_bus w) in
               Some (rc, World b (w_data w) (w_log w ++ [EvWr dev (u8 addr) (u16 v) rc]))
           end.

Definition msleep (ms : Z) : M B D unit := log (EvSleep ms).
Definition mepa_enter : M B D unit := if lock_enter then log EvEnter else ret tt.
Definition mepa_exit : M B D unit := if lock_exit then log EvExit else ret tt.

(** [#define MEPA_RC(expr)]: leave the function when the code is negative. *)
Definition try_rc (m : M B D Z) (k : M B D Z) : M B D Z :=
  bind m (fun rc => if rc <? MEPA_RC_OK then ret rc else k).

(** Straight-line sequences. *)
Fixpoint seq_ {A} (f : A -> M B D unit) (l : list A) : M B D unit :=
  match l with [] => ret tt | a :: t => bind (f a) (fun _ => seq_ f t) end.

(** ** The lock and address discipline

    Chronologically: the lock is not re-entered and not left twice, every bus
    access is made with the lock held and addresses one of the 32 registers of
    clause 22, and application callbacks run with the lock released. *)
Fixpoint disc (h : bool) (tr : list event) : option bool :=
  match tr with
  | [] => Some h
  | EvEnter :: t => if h then None else disc true t
  | EvExit :: t => if h then disc false t else None
  | EvRd _ a _ _ :: t => if h && (0 <=? a) && (a <? 32) then disc h t else None
  | EvWr _ a _ _ :: t => if h && (0 <=? a) && (a <? 32) then disc h t else None
  | EvSleep _ :: t => disc h t
  | EvCall _ _ :: t => if h then None else disc h t
  end.

Lemma disc_app h h1 tr1 tr2 : disc h tr1 = Some h1 -> disc h (tr1 ++ tr2) = disc h1 tr2.
Proof.
  revert h. induction tr1 as [|[] tr1 IH]; intros h; simpl; intros H; simplify_eq; try done.
  all: try (case_match; simplify_eq; by apply IH).
  by apply IH.
Qed.

(** [safe Inv h m h']: from a device table that satisfies [Inv], [m] runs to
    completion (it meets no undefined behaviour), keeps [Inv], and its callouts
    follow the discipline, from lock state [h] to lock state [h']. *)
Definition safe (Inv : gmap Z D -> Prop) (h : bool) {A} (m : M B D A) (h' : bool) : Prop :=
  forall w, Inv (w_data w) ->
  exists a w' tr, m w = Some (a, w') /\ Inv (w_data w') /\
    w_log w' = w_log w ++ tr /\ disc h tr = Some h'.

Section Rules.
Variable Inv : gmap Z D -> Prop.

Lemma safe_ret h {A} (a : A) : safe Inv h (ret a) h.
Proof. intros w Hw. exists a, w, []. rewrite app_nil_r. auto. Qed.

Lemma safe_bind h h1 h2 {A C} (m : M B D A) (k : A -> M B D C) :
  safe Inv h m h1 -> (forall a, safe Inv h1 (k a) h2) -> safe Inv h (bind m k) h2.
Proof.
  intros Hm Hk w Hw. destruct (Hm w Hw) as (a & w1 & t1 & E1 & I1 & L1 & D1).
  destruct (Hk a w1 I1) as (c & w2 & t2 & E2 & I2 & L2 & D2).
  exists c, w2, (t1 ++ t2). unfold bind. rewrite E1. split_and!; [done|done| |].
  - by rewrite L2, L1, app_assoc.
  - by rewrite (disc_app _ _ _ _ D1).
Qed.

Lemma safe_if h h' {A} (b : bool) (m1 m2 : M B D A) :
  safe Inv h m1 h' -> safe Inv h m2 h' -> safe Inv h (if b then m1 else m2) h'.
Proof. by destruct b. Qed.

Lemma safe_try h h1 (m k : M B D Z) :
  safe Inv h m h1 -> safe Inv h1 k h1 -> safe Inv h (try_rc m k) h1.
Proof. intros. eapply safe_bind; [done|]. intros. by apply safe_if; [apply safe_ret|]. Qed.

Lemma safe_seq h {A} (f : A -> M B D unit) l :
  (forall a, safe Inv h (f a) h) -> safe Inv h (seq_ f l) h.
Proof. intros Hf. induction l; simpl; [apply safe_ret|]. by eapply safe_bind. Qed.

Lemma safe_log h h' e : disc h [e] = Some h' -> safe Inv h (log e) h'.
Proof. intros He w Hw. by exists tt, (World (w_bus w) (w_data w) (w_log w ++ [e])), [e]. Qed.

Lemma safe_msleep h ms : safe Inv h (msleep ms) h.
Proof. by apply safe_log. Qed.

Lemma safe_data_of h dev :
  (forall t, Inv t -> is_Some (t !! dev)) -> safe Inv h (data_of dev) h.
Proof.
  intros Hd w Hw. destruct (Hd _ Hw) as [d Ed]. exists d, w, [].
  unfold data_of. rewrite Ed, app_nil_r. auto.
Qed.

Lemma safe_arr {A C} (l : list A) i (k : A -> M B D C) h h' :
  0 <= i < Z.of_nat (length l) -> (forall x, l !! Z.to_nat i = Some x -> safe Inv h (k x) h') ->
  safe Inv h (bind (arr l i) k) h'.
Proof.
  intros Hi Hk. destruct (lookup_lt_is_Some_2 l (Z.to_nat i)) as [x Hx]; [lia|].
  intros w Hw. unfold bind, arr. rewrite Hx. destruct (Z.ltb_spec i 0); [lia|]. by apply Hk.
Qed.

Lemma safe_in_ck64 x h : - 2 ^ 63 <= x < 2 ^ 63 -> safe Inv h (ck64 x) h.
Proof.
  intros Hx. unfold ck64. destruct (Z.leb_spec (- 2 ^ 63) x); [|lia].
  destruct (Z.ltb_spec x (2 ^ 63)); [|lia]. apply safe_ret.
Qed.
Lemma safe_ck64 {C} x (k : Z -> M B D C) h h' :
  - 2 ^ 63 <= x < 2 ^ 63 -> safe Inv h (k x) h' -> safe Inv h (bind (ck64 x) k) h'.
Proof.
  intros Hx Hk. unfold ck64. destruct (Z.leb_spec (- 2 ^ 63) x); [|lia].
  destruct (Z.ltb_spec x (2 ^ 63)); [|lia]. exact Hk.
Qed.

(** [returns P m]: every result of [m] satisfies [P]. *)
Definition returns {A} (P : A -> Prop) (m : M B D A) : Prop :=
  forall w a w', m w = Some (a, w') -> P a.
Lemma returns_ret {A} (P : A -> Prop) a : P a -> returns P (ret a).
Proof. by intros Ha w x w' [= <- _]. Qed.
Lemma returns_bind {A C} (P : C -> Prop) (m : M B D A) (k : A -> M B D C) :
  (forall a, returns P (k a)) -> returns P (bind m k).
Proof.
  intros Hk w c w'. unfold bind. destruct (m w) as [[a w1]|]; [|done]. apply Hk.
Qed.
Lemma returns_bind_with {A C} (P : A -> Prop) (Q : C -> Prop) (m : M B D A) (k : A -> M B D C) :
  returns P m -> (forall a, P a -> returns Q (k a)) -> returns Q (bind m k).
Proof.
  intros Hm Hk w c w'. unfold bind. destruct (m w) as [[a w1]|] eqn:Hw; [|done].
  apply Hk. by eapply Hm.
Qed.
Lemma returns_arr {A} (P : A -> Prop) l i :
  Forall P l -> returns P (arr l i).
Proof.
  intros Hl w x w'. unfold arr. destruct (i <? 0); [done|]. destruct (l !! _) eqn:Hx; [|done].
  intros [= <- _]. by eapply Forall_lookup.
Qed.
Lemma returns_ck64 (P : Z -> Prop) x : P x -> returns P (ck64 x).
Proof. intros Hx. unfold ck64. destruct (_ && _); [by apply returns_ret|done]. Qed.
Lemma safe_bind_returns h h1 h2 {A C} (P : A -> Prop) (m : M B D A) (k : A -> M B D C) :
  safe Inv h m h1 -> returns P m -> (forall a, P a -> safe Inv h1 (k a) h2) ->
  safe Inv h (bind m k) h2.
Proof.
  intros Hm HP Hk w Hw. destruct (Hm w Hw) as (a & w1 & t1 & E1 & I1 & L1 & D1).
  destruct (Hk a (HP _ _ _ E1) w1 I1) as (c & w2 & t2 & E2 & I2 & L2 & D2).
  exists c, w2, (t1 ++ t2). unfold bind. rewrite E1. split_and!; [done|done| |].
  - by rewrite L2, L1, app_assoc.
  - by rewrite (disc_app _ _ _ _ D1).
Qed.

Lemma safe_upd h dev f :
  (forall t, Inv t -> is_Some (t !! dev)) ->
  (forall t d, Inv t -> t !! dev = Some d -> Inv (<[dev := f d]> t)) ->
  safe Inv h (upd dev f) h.
Proof.
  intros Hd Hf w Hw. destruct (Hd _ Hw) as [d Ed].
  exists tt, (World (w_bus w) (<[dev := f d]> (w_data w)) (w_log w)), [].
  unfold upd. rewrite Ed, app_nil_r. split_and!; [done|by apply Hf|done|done].
Qed.

End Rules.

(** The callouts a driver of this library is used with: both MIIM accesses
    and both lock functions are installed. *)
Class CalloutOk := {
  ok_read : exists f, miim_read = Some f;
  ok_write : exists f, miim_write = Some f;
  ok_enter : lock_enter = true;
  ok_exit : lock_exit = true;
}.

Section BusRules.
Context {OK : CalloutOk}.
Variable Inv : gmap Z D -> Prop.

Lemma safe_enter : safe Inv false mepa_enter true.
Proof. unfold mepa_enter. rewrite ok_enter. by apply safe_log. Qed.
Lemma safe_exit : safe Inv true mepa_exit false.
Proof. unfold mepa_exit. rewrite ok_exit. by apply safe_log. Qed.

Lemma disc_addr_ok a : 0 <= a < 32 -> (true && (0 <=? u8 a) && (u8 a <? 32)) = true.
Proof. intros. rewrite u8_small by lia. simpl. lia. Qed.

Lemma safe_co_read dev a : 0 <= a < 32 -> safe Inv true (co_read dev a) true.
Proof.
  intros Ha w Hw. destruct ok_read as [f Ef]. unfold co_read. rewrite Ef.
  destruct (f dev (u8 a) (w_bus w)) as [[rc v] b].
  eexists _, _, [_]. split_and!; [done|done|done|].
  cbn [disc]. by rewrite disc_addr_ok.
Qed.

Lemma safe_co_write dev a v : 0 <= a < 32 -> safe Inv true (co_write dev a v) true.
Proof.
  intros Ha w Hw. destruct ok_write as [f Ef]. unfold co_write. rewrite Ef.
  destruct (f dev (u8 a) (u16 v) (w_bus w)) as [rc b].
  eexists _, _, [_]. split_and!; [done|done|done|].
  cbn [disc]. by rewrite disc_addr_ok.
Qed.
End BusRules.

(** ** Running a computation *)

Lemma bind_Some {A C} (m : M B D A) (k : A -> M B D C) w c w2 :
  bind m k w = Some (c, w2) <->
  exists a w1, m w = Some (a, w1) /\ k a w1 = Some (c, w2).
Proof.
  unfold bind. split.
  - destruct (m w) as [[a w1]|] eqn:E; [|done]. eauto.
  - by intros (a & w1 & -> & H).
Qed.

Lemma bind_eq {A C} (m : M B D A) (k : A -> M B D C) w a w1 :
  m w = Some (a, w1) -> bind m k w = k a w1.
Proof. intros H. unfold bind. by rewrite H. Qed.

Lemma bind_ret {A C} (a : A) (k : A -> M B D C) w : bind (ret a) k w = k a w.
Proof. done. Qed.
End Machine.

Create HintDb safe discriminated.
#[export] Hint Resolve safe_ret safe_msleep safe_enter safe_exit : safe.
#[export] Hint Extern 1 (safe _ true (co_read _ _) _) => apply safe_co_read; lia : safe.
#[export] Hint Extern 1 (safe _ true (co_write _ _ _) _) => apply safe_co_write; lia : safe.

(** Follow the structure of the program; calls are closed by the [safe]
    database, which has one lemma per function. *)
Ltac safe_step :=
  match goal with
  | |- safe _ _ (bind _ _) _ => eapply safe_bind; [|intros ?]
  | |- safe _ _ (try_rc _ _) _ => eapply safe_try
  | |- safe _ _ (ret _) _ => apply safe_ret
  | |- safe _ _ (if _ then _ else _) _ => apply safe_if
  | |- safe _ _ (seq_ _ _) _ => apply safe_seq; intros ?
  | |- safe _ _ (match ?x with _ => _ end) _ => destruct x
  | |- safe _ _ _ _ => solve [eauto 3 with safe]
  end.
Ltac safe_auto := intros; repeat (safe_step; cbv zeta).

Arguments M : simpl never.
Arguments bind : simpl never.
Arguments ret : simpl never.

(** The indeterminate value of an uninitialised [uint16_t] variable. *)
Definition uninit16 {B} {CO : Callout B} (name : string) : Z := u16 (uninit name).

(** ** Histories with dumps and deletions

    [safe] is for programs that keep one invariant and call the application
    without the lock.  A debug dump calls the print function with the lock held,
    and deleting a device changes which devices there are: [goes P P'] takes
    device tables that satisfy [P] to ones that satisfy [P'], and its discipline
    is [disc] but for what is printed. *)

(** The print function is called for port 0 of the log. *)
Definition prints (e : event) : bool := match e with EvCall p _ => p =? 0 | _ => false end.
Definition unprinted (tr : list event) : list event := List.filter (fun e => negb (prints e)) tr.

Lemma unprinted_app tr1 tr2 : unprinted (tr1 ++ tr2) = unprinted tr1 ++ unprinted tr2.
Proof. apply List.filter_app. Qed.

Lemma disc_unprinted h h' tr : disc h tr = Some h' -> disc h (unprinted tr) = Some h'.
Proof.
  revert h. induction tr as [|e tr IH]; intros h; [done|]. unfold unprinted. cbn [List.filter].
  destruct (prints e) eqn:Ep; cbn [negb].
  - destruct e; try done. cbn [disc]. destruct h; [done|]. apply IH.
  - destruct e; cbn [disc]; try (by apply IH); destruct h; try done; cbn [andb]; try (by apply IH);
      destruct (_ && _); try done; by apply IH.
Qed.

Section Histories.
Context {B D : Type}.
Local Abbreviation M := (M B D).
Implicit Types P : gmap Z D -> Prop.

Definition goes P P' (h : bool) {A} (m : M A) (h' : bool) : Prop :=
  forall w, P (w_data w) ->
  exists a w' tr, m w = Some (a, w') /\ P' (w_data w') /\
    w_log w' = w_log w ++ tr /\ disc h (unprinted tr) = Some h'.

Lemma goes_of_safe P h {A} (m : M A) h' : safe P h m h' -> goes P P h m h'.
Proof.
  intros Hm w Hw. destruct (Hm w Hw) as (a & w' & tr & E1 & L & T & D1). exists a, w', tr. split_and!; try done.
  by apply disc_unprinted.
Qed.
Lemma goes_ret P h {A} (a : A) : goes P P h (ret a) h.
Proof. apply goes_of_safe, safe_ret. Qed.
Lemma goes_bind P P1 P' h h1 h' {A C} (m : M A) (k : A -> M C) :
  goes P P1 h m h1 -> (forall a, goes P1 P' h1 (k a) h') -> goes P P' h (bind m k) h'.
Proof.
  intros Hm Hk w Hw. destruct (Hm w Hw) as (a & w1 & tr1 & E2 & L1 & T1 & D1).
  destruct (Hk a w1 L1) as (c & w2 & tr2 & E3 & L2 & T2 & D2).
  exists c, w2, (tr1 ++ tr2). rewrite (bind_eq _ _ _ _ _ E2). split_and!; [done|done| |].
  - by rewrite T2, T1, app_assoc.
  - by rewrite unprinted_app, (disc_app _ _ _ _ D1).
Qed.
Lemma goes_print P h l : goes P P h (log (EvCall 0 l)) h.
Proof. intros w Hw. eexists tt, _, [EvCall 0 l]. by split_and!. Qed.
Lemma goes_data {A} P P' dev (k : D -> M A) h h' :
  (forall t, P t -> is_Some (t !! dev)) -> (forall d, goes P P' h (k d) h') -> goes P P' h (bind (data_of dev) k) h'.
Proof.
  intros Hd Hk w Hw. destruct (Hd _ Hw) as (p & Hp). destruct (Hk p w Hw) as (a & w' & tr & H).
  exists a, w', tr. erewrite bind_eq; [done|]. unfold data_of. by rewrite Hp.
Qed.
Lemma goes_seq {X} P (f : X -> M unit) l h : (forall x, In x l -> goes P P h (f x) h) -> goes P P h (seq_ f l) h.
Proof.
  induction l as [|x l IH]; cbn [seq_]; intros Hf; [apply goes_ret|].
  eapply goes_bind; [apply Hf; by left|]. intros _. apply IH. intros y Hy. apply Hf. by right.
Qed.
End Histories.
