(* ===== verification/Trace.v ===== *)
(** * Trace: a program logic over the log of bus transactions

    A PHY gives the MIIM transactions a meaning: which of its registers they
    read and write.  [Reading acc] is such a meaning, a relation between a log
    and the accesses of type [acc] it makes, and [does] is a program logic on
    the accesses a function makes, for any meaning and any private data.
    [Mdio] and [Lan8770Spec] are two instances. *)

From Stdlib Require Import ZArith Lia List Bool String.
From stdpp Require Import base gmap strings list.
From S2P Require Import Prelude Machine.

(** Events that reach no register. *)
Definition silent (e : event) : bool :=
  match e with EvEnter | EvExit | EvSleep _ => true | _ => false end.

Class Reading (acc : Type) := {
  reads : list event -> list acc -> Prop;
  reads_nil : reads [] [];
  reads_app tr1 tr2 l1 l2 : reads tr1 l1 -> reads tr2 l2 -> reads (tr1 ++ tr2) (l1 ++ l2);
  reads_silent e : silent e = true -> reads [e] [];
}.

(** ** A logic of register accesses *)

(** Every bus transaction succeeds and a read stores a value. *)
Class BusOk {B : Type} (CO : Callout B) : Prop := {
  bus_read : exists f, miim_read = Some f /\
    forall dev a b, exists v b', f dev a b = ((MEPA_RC_OK, Some v), b');
  bus_write : exists f, miim_write = Some f /\
    forall dev a v b, exists b', f dev a v b = (MEPA_RC_OK, b');
}.

Section Does.
Context {B D acc : Type} {CO : Callout B} {RD : Reading acc} {OK : BusOk CO}.
Local Abbreviation M := (M B D).
Local Abbreviation table := (gmap Z D).

(** From device table [t], whatever the registers contain, [m] runs to
    completion and [Q] holds of its result, the table it leaves, and the
    register accesses it made. *)
Definition does {A} (m : M A) (t : table) (Q : A -> table -> list acc -> Prop) : Prop :=
  forall w, w_data w = t -> exists a w' tr accs,
    m w = Some (a, w') /\ w_log w' = w_log w ++ tr /\ reads tr accs /\
    Q a (w_data w') accs.

Lemma does_ret {A} (a : A) t Q : Q a t [] -> does (ret a) t Q.
Proof.
  intros HQ w <-. exists a, w, [], []. rewrite app_nil_r. split_and!; [done|done|apply reads_nil|done].
Qed.

Lemma does_bind {A C} (m : M A) (k : A -> M C) t Q :
  does m t (fun a t1 l1 => does (k a) t1 (fun c t2 l2 => Q c t2 (l1 ++ l2))) ->
  does (bind m k) t Q.
Proof.
  intros Hm w Hw. destruct (Hm w Hw) as (a & w1 & tr1 & l1 & E1 & L1 & D1 & H1).
  destruct (H1 w1 eq_refl) as (c & w2 & tr2 & l2 & E2 & L2 & D2 & HQ).
  exists c, w2, (tr1 ++ tr2), (l1 ++ l2). rewrite (bind_eq _ _ _ _ _ E1).
  split_and!; [done| |by apply reads_app|done].
  by rewrite L2, L1, app_assoc.
Qed.

Lemma does_mono {A} (m : M A) t (Q Q' : A -> table -> list acc -> Prop) :
  does m t Q -> (forall a t' l, Q a t' l -> Q' a t' l) -> does m t Q'.
Proof.
  intros Hm HQ w Hw. destruct (Hm w Hw) as (a & w' & tr & l & E & L & D1 & H).
  exists a, w', tr, l. split_and!; auto.
Qed.

Lemma does_log e t (Q : unit -> table -> list acc -> Prop) :
  reads [e] [] -> Q tt t [] -> does (log e) t Q.
Proof.
  intros He HQ w <-. eexists tt, _, [e], []. by split_and!.
Qed.

Lemma does_msleep ms t (Q : unit -> table -> list acc -> Prop) :
  Q tt t [] -> does (msleep ms) t Q.
Proof. apply does_log. by apply reads_silent. Qed.
Lemma does_enter t (Q : unit -> table -> list acc -> Prop) :
  Q tt t [] -> does mepa_enter t Q.
Proof. unfold mepa_enter. destruct lock_enter; [apply does_log; by apply reads_silent|by apply does_ret]. Qed.
Lemma does_exit t (Q : unit -> table -> list acc -> Prop) :
  Q tt t [] -> does mepa_exit t Q.
Proof. unfold mepa_exit. destruct lock_exit; [apply does_log; by apply reads_silent|by apply does_ret]. Qed.

Lemma does_data_of dev d t (Q : D -> table -> list acc -> Prop) :
  t !! dev = Some d -> Q d t [] -> does (data_of dev) t Q.
Proof.
  intros Hd HQ w <-. exists d, w, [], []. unfold data_of. rewrite Hd, app_nil_r.
  split_and!; [done|done|apply reads_nil|done].
Qed.

Lemma does_upd dev d f t (Q : unit -> table -> list acc -> Prop) :
  t !! dev = Some d -> Q tt (<[dev := f d]> t) [] -> does (upd dev f) t Q.
Proof.
  intros Hd HQ w <-. eexists tt, _, [], []. unfold upd. rewrite Hd, app_nil_r.
  split_and!; [done|done|apply reads_nil|done].
Qed.

Lemma does_ck64 x t (Q : Z -> table -> list acc -> Prop) :
  - 2 ^ 63 <= x < 2 ^ 63 -> Q x t [] -> does (ck64 x) t Q.
Proof.
  intros [Hl Hu] HQ. unfold ck64. apply Z.leb_le in Hl. apply Z.ltb_lt in Hu. rewrite Hl, Hu.
  by apply does_ret.
Qed.
Lemma does_arr {A} (l : list A) i a t (Q : A -> table -> list acc -> Prop) :
  0 <= i -> l !! Z.to_nat i = Some a -> Q a t [] -> does (arr l i) t Q.
Proof.
  intros Hi Hl HQ. unfold arr. rewrite (proj2 (Z.ltb_ge i 0)) by lia. rewrite Hl. by apply does_ret.
Qed.

Lemma does_deref p d t (Q : Z -> table -> list acc -> Prop) :
  p = Some d -> Q d t [] -> does (deref p) t Q.
Proof. intros -> HQ. by apply does_ret. Qed.

(** *** One bus transaction at a time *)
Definition steps {A} (m : M A) (P : A -> list event -> Prop) : Prop :=
  forall w, exists a w' tr, m w = Some (a, w') /\ w_data w' = w_data w /\
    w_log w' = w_log w ++ tr /\ P a tr.

Lemma steps_bind {A C} (m : M A) (k : A -> M C) P :
  steps m (fun a tr => steps (k a) (fun c tr' => P c (tr ++ tr'))) -> steps (bind m k) P.
Proof.
  intros Hm w. destruct (Hm w) as (a & w1 & tr1 & E1 & T1 & L1 & H1).
  destruct (H1 w1) as (c & w2 & tr2 & E2 & T2 & L2 & H2).
  exists c, w2, (tr1 ++ tr2). rewrite (bind_eq _ _ _ _ _ E1).
  split_and!; [done|congruence| |done]. by rewrite L2, L1, app_assoc.
Qed.
Lemma steps_ret {A} (a : A) P : P a [] -> steps (ret a) P.
Proof. intros HP w. exists a, w, []. by rewrite app_nil_r. Qed.

Lemma steps_co_read dev a (P : Z * option Z -> list event -> Prop) :
  (forall v, 0 <= v < 65536 -> P (0, Some v) [EvRd dev (u8 a) 0 (Some v)]) ->
  steps (co_read dev a) P.
Proof.
  intros HP w. destruct bus_read as (f & Ef & Hf).
  unfold co_read. rewrite Ef. destruct (Hf dev (u8 a) (w_bus w)) as (v & b' & ->).
  eexists _, _, _. split_and!; [done|done|done|]. apply HP. apply u16_range.
Qed.
Lemma steps_co_write dev a v (P : Z -> list event -> Prop) :
  P 0 [EvWr dev (u8 a) (u16 v) 0] -> steps (co_write dev a v) P.
Proof.
  intros HP w. destruct bus_write as (f & Ef & Hf).
  unfold co_write. rewrite Ef. destruct (Hf dev (u8 a) (u16 v) (w_bus w)) as (b' & ->).
  eexists _, _, _. by split_and!.
Qed.

Lemma steps_does {A} (m : M A) t (Q : A -> table -> list acc -> Prop) :
  steps m (fun a tr => exists accs, reads tr accs /\ Q a t accs) -> does m t Q.
Proof.
  intros Hm w <-. destruct (Hm w) as (a & w' & tr & E & T & L & accs & D1 & HQ).
  exists a, w', tr, accs. rewrite T. by split_and!.
Qed.

Lemma steps_mono {A} (m : M A) (P P' : A -> list event -> Prop) :
  steps m P -> (forall a tr, P a tr -> P' a tr) -> steps m P'.
Proof.
  intros Hm HP w. destruct (Hm w) as (a & w' & tr & E & T & L & H).
  exists a, w', tr. split_and!; auto.
Qed.
End Does.

(** One step of a register-level proof, and a straight-line program; drivers
    add their accessors. *)
Ltac does_basic :=
  lazymatch goal with
  | |- does (bind _ _) _ _ => apply does_bind
  | |- does (ret _) _ _ => apply does_ret
  | |- does (try_rc _ _) _ _ => apply does_bind
  | |- does (msleep _) _ _ => apply does_msleep
  | |- does mepa_enter _ _ => apply does_enter
  | |- does mepa_exit _ _ => apply does_exit
  | |- does (data_of ?d) ?t _ =>
      first [ eapply does_data_of; [eassumption|]
            | eapply does_data_of; [apply lookup_insert_eq|] ]
  | |- does (upd _ _) _ _ =>
      first [ eapply does_upd; [eassumption|]
            | eapply does_upd; [apply lookup_insert_eq|] ]; rewrite ?insert_insert_eq
  | |- does (seq_ _ _) _ _ => cbn [seq_]
  end.
