(* ===== verification/Mdio.v ===== *)
(** * Mdio: registers behind the MIIM bus

    What a log of MIIM transactions means: [decode] reads it the way a PHY
    does, through the address latches of registers 13/14 (IEEE 802.3 annex
    22D) and 22/23 (the extended pages of Microchip's PHYs); it is the meaning
    that the logic of [Trace] is used with in the drivers of these PHYs. *)

From Stdlib Require Import ZArith Lia List Bool String.
From stdpp Require Import base gmap strings list.
From S2P Require Import Prelude Machine Trace.

(** ** What a log of MIIM transactions does to the PHY's registers

    Registers 13/14 (IEEE 802.3 annex 22D) and 22/23 are windows: bits 15:14
    of the control register select address (0) or data, and the low bits the
    MMD device or the page.  The extended window increments the address after
    each data access when bit 15 is set. *)

(** Page (or MMD device) and address of a register. *)
Definition ereg : Type := Z * Z.

Inductive reg := Direct (a : Z) | Ext (page addr : Z) | Mmd (mmd addr : Z).
Inductive access := ARd (dev : Z) (r : reg) (v : Z) | AWr (dev : Z) (r : reg) (v : Z).

Record latch := Latch { ep_ctrl : Z; ep_addr : Z; mmd_ctrl : Z; mmd_addr : Z }.

Definition window (l : latch) (a : Z) : option reg * latch :=
  if a =? 14 then
    if (mmd_ctrl l .>> 14) =? 0 then (None, l)
    else (Some (Mmd (mmd_ctrl l .& 31) (mmd_addr l)), l)
  else if a =? 23 then
    if (ep_ctrl l .>> 14) =? 0 then (None, l)
    else (Some (Ext (ep_ctrl l .& 16383) (ep_addr l)),
          if (ep_ctrl l .>> 14) =? 1 then l
          else Latch (ep_ctrl l) (u16 (ep_addr l + 1)) (mmd_ctrl l) (mmd_addr l))
  else if (a =? 13) || (a =? 22) then (None, l)
  else (Some (Direct a), l).

(** A write to a control register, or to a window in address mode. *)
Definition latch_wr (l : latch) (a v : Z) : latch :=
  if a =? 13 then Latch (ep_ctrl l) (ep_addr l) v (mmd_addr l)
  else if a =? 14 then Latch (ep_ctrl l) (ep_addr l) (mmd_ctrl l) v
  else if a =? 22 then Latch v (ep_addr l) (mmd_ctrl l) (mmd_addr l)
  else if a =? 23 then Latch (ep_ctrl l) v (mmd_ctrl l) (mmd_addr l)
  else l.

Definition put (ls : Z -> latch) (dev : Z) (l : latch) : Z -> latch :=
  fun x => if x =? dev then l else ls x.

Definition decode1 (ls : Z -> latch) (e : event) : (Z -> latch) * list access :=
  match e with
  | EvRd dev a rc (Some v) =>
      match window (ls dev) a with
      | (Some r, l) => (put ls dev l, [ARd dev r v])
      | (None, l) => (put ls dev l, [])
      end
  | EvWr dev a v rc =>
      match window (ls dev) a with
      | (Some r, l) => (put ls dev l, [AWr dev r v])
      | (None, l) => (put ls dev (latch_wr l a v), [])
      end
  | _ => (ls, [])
  end.

Fixpoint decode (ls : Z -> latch) (tr : list event) : list access :=
  match tr with
  | [] => []
  | e :: t => snd (decode1 ls e) ++ decode (fst (decode1 ls e)) t
  end.

Fixpoint latches (ls : Z -> latch) (tr : list event) : Z -> latch :=
  match tr with [] => ls | e :: t => latches (fst (decode1 ls e)) t end.

(** The log [tr] accesses the registers [accs], wherever the windows pointed
    before it. *)
Definition decodes (tr : list event) (accs : list access) : Prop :=
  forall ls, decode ls tr = accs.

Lemma decode_app ls tr1 tr2 :
  decode ls (tr1 ++ tr2) = decode ls tr1 ++ decode (latches ls tr1) tr2.
Proof.
  revert ls. induction tr1 as [|e tr1 IH]; intros ls; [done|].
  cbn [decode latches app]. by rewrite IH, app_assoc.
Qed.

Lemma decodes_app tr1 tr2 a1 a2 :
  decodes tr1 a1 -> decodes tr2 a2 -> decodes (tr1 ++ tr2) (a1 ++ a2).
Proof. intros H1 H2 ls. by rewrite decode_app, H1, H2. Qed.

Lemma put_same ls dev l : put ls dev l dev = l.
Proof. unfold put. by rewrite Z.eqb_refl. Qed.

(** One transaction on a window whose latches are known. *)
Lemma decode_rd ls dev a v tr o l accs :
  window (ls dev) a = (o, l) -> decode (put ls dev l) tr = accs ->
  decode ls (EvRd dev a 0 (Some v) :: tr) =
  match o with Some r => ARd dev r v :: accs | None => accs end.
Proof. intros E <-. cbn [decode decode1]. rewrite E. by destruct o. Qed.
Lemma decode_wr_latch ls dev a v tr l accs :
  window (ls dev) a = (None, l) -> decode (put ls dev (latch_wr l a v)) tr = accs ->
  decode ls (EvWr dev a v 0 :: tr) = accs.
Proof. intros E <-. cbn [decode decode1]. by rewrite E. Qed.
Lemma decode_wr ls dev a v tr r l accs :
  window (ls dev) a = (Some r, l) -> decode (put ls dev l) tr = accs ->
  decode ls (EvWr dev a v 0 :: tr) = AWr dev r v :: accs.
Proof. intros E <-. cbn [decode decode1]. by rewrite E. Qed.

Lemma decodes_nil : decodes [] [].
Proof. done. Qed.

#[export] Instance mdio_reading : Reading access := {|
  reads := decodes; reads_nil := decodes_nil; reads_app := decodes_app;
  reads_silent := ltac:(by intros []);
|}.

(** The registers that are not windows. *)
Definition plain (a : Z) : bool :=
  (0 <=? a) && (a <? 32) && negb (existsb (Z.eqb a) [13; 14; 22; 23]).
(** The pages and addresses a window can select. *)
Definition ep_ok (p : ereg) : bool :=
  (0 <=? fst p) && (fst p <? 16384) && (0 <=? snd p) && (snd p <? 65536).
Definition mmd_ok (p : ereg) : bool :=
  (0 <=? fst p) && (fst p <? 32) && (0 <=? snd p) && (snd p <? 65536).

Lemma window_func k x : 0 <= k < 4 -> 0 <= x < 16384 ->
  (k * 16384 + x) .>> 14 = k /\ (k * 16384 + x) .& 16383 = x.
Proof.
  intros Hk Hx. change 16384 with (2 ^ 14). rewrite Z.shiftr_div_pow2 by done.
  change 16383 with (Z.ones 14). rewrite Z.land_ones by done. split.
  - rewrite Z.div_add_l by done. rewrite Z.div_small; lia.
  - rewrite Z.add_comm, Z.mod_add by done. apply Z.mod_small. lia.
Qed.
Lemma mmd_func x : 0 <= x < 32 ->
  x .>> 14 = 0 /\ (16384 + x) .>> 14 = 1 /\ (16384 + x) .& 31 = x.
Proof.
  intros Hx. destruct (window_func 0 x) as [H0 _]; [lia..|].
  destruct (window_func 1 x) as [H1 _]; [lia..|]. split_and!; [done|done|].
  change 31 with (Z.ones 5). rewrite Z.land_ones by done.
  replace (16384 + x) with (x + 512 * 2 ^ 5) by lia.
  rewrite Z.mod_add by done. apply Z.mod_small. lia.
Qed.

(** A window in address mode, and in data mode. *)
Lemma window_mmd c a m d : 0 <= m < 32 ->
  window (Latch c a m d) 14 = (None, Latch c a m d) /\
  window (Latch c a (16384 + m) d) 14 = (Some (Mmd m d), Latch c a (16384 + m) d).
Proof.
  intros Hm. destruct (mmd_func m Hm) as (H0 & H1 & H2).
  unfold window. cbn -[Z.add Z.land Z.shiftr Z.eqb].
  rewrite H0, H1, H2. done.
Qed.
Lemma window_ep c a m d : 0 <= c < 16384 ->
  window (Latch c a m d) 23 = (None, Latch c a m d) /\
  window (Latch (16384 + c) a m d) 23 = (Some (Ext c a), Latch (16384 + c) a m d) /\
  window (Latch (32768 + c) a m d) 23 =
    (Some (Ext c a), Latch (32768 + c) (u16 (a + 1)) m d).
Proof.
  intros Hc. destruct (window_func 0 c) as (H0 & _); [lia..|].
  destruct (window_func 1 c) as (H1 & H1'); [lia..|].
  destruct (window_func 2 c) as (H2 & H2'); [lia..|].
  change (0 * 16384 + c) with c in H0. change (1 * 16384) with 16384 in *.
  change (2 * 16384) with 32768 in *.
  unfold window. cbn -[Z.add Z.land Z.shiftr Z.eqb Z.mul].
  rewrite H0, H1, H2, H1', H2'. done.
Qed.

Lemma decodes_plain_rd dev a v : plain a = true ->
  decodes [EvRd dev (u8 a) 0 (Some v)] [ARd dev (Direct a) v].
Proof.
  unfold plain. intros Ha ls. rewrite u8_small by (cbn in Ha; lia).
  eapply (decode_rd _ _ _ _ _ (Some _)); [|done].
  unfold window. cbn in Ha. by repeat case_match; try lia.
Qed.
(** A write to a register of clause 22. *)
Lemma decodes_direct_wr dev a v : plain a = true -> decodes [EvWr dev (u8 a) v 0] [AWr dev (Direct a) v].
Proof.
  unfold plain. intros Ha ls. rewrite u8_small by (cbn in Ha; lia). eapply decode_wr; [|done].
  unfold window. cbn in Ha. by repeat case_match; try lia.
Qed.
