(* ===== verification/MepaCore.v ===== *)
(** * MepaCore: the driver-independent part of the library

    [mepa/common/src/phy.c]: identification of a PHY, allocation of a device,
    the search of [mepa_create] through the drivers, and the dispatch of an
    API function through a driver's table of function pointers. *)

From Stdlib Require Import ZArith Lia List Bool String.
From stdpp Require Import base list.
From S2P Require Import Prelude Machine.

(** ** Identification *)

Definition MEPA_GLOBAL_REG_DEV_ID : Z := 0x1E.
Definition MEPA_SILICON_REVISION_REG : Z := 0x2.
Definition MEPA_REG_DEV_ID_1 : Z := 0x1.
Definition MEPA_REG_ADDR_0 : Z := 0.
Definition MEPA_REG_ADDR_2 : Z := 2.
Definition MEPA_REG_ADDR_3 : Z := 3.

(** The callouts that [mepa_phy_id_get] uses; a read yields the value stored
    through the pointer, if one was stored. *)
Record id_callout (B : Type) := {
  id_spi_read : option (Z -> Z -> Z -> B -> option Z * B);    (** port, mmd, address *)
  id_mmd_read : option (Z -> Z -> B -> option Z * B);         (** mmd, address *)
  id_miim_read : option (Z -> B -> option Z * B);             (** address *)
}.
Arguments id_spi_read {B}. Arguments id_mmd_read {B}. Arguments id_miim_read {B}.

(** [*(uint16_t * )&x = v] for a [uint32_t x], on a little or a big endian
    host. *)
Definition store16 (le : bool) (x v : Z) : Z :=
  if le then (x .& 0xFFFF0000) .| u16 v else (u16 v .<< 16) .| (x .& 0xFFFF).

Section Id.
Context {B : Type} (le : bool) (co : id_callout B).

(** [if (spi_read) spi_read(.., &x); else if (mmd_read) mmd_read(.., (uint16_t * )&x);] *)
Definition id_read (port_no mmd addr x : Z) (b : B) : Z * B :=
  match id_spi_read co, id_mmd_read co with
  | Some f, _ => let '(v, b) := f port_no mmd addr b in (default x (option_map u32 v), b)
  | None, Some f => let '(v, b) := f mmd addr b in (default x (option_map (store16 le x) v), b)
  | None, None => (x, b)
  end.

Definition special_ids : list Z :=
  [ 0x8484; 0x8487; 0x8488; 0x8489; 0x8490; 0x8491;
    0x8254; 0x8256; 0x8257; 0x8258; 0x8044; 0x8043;
    0x8042; 0x8024; 0x8023; 0x8022; 0x8268; 0x8267;
    0x8264; 0x8263; 0x8262 ].

Definition read16 (f : B -> option Z * B) (x : Z) (b : B) : Z * B :=
  let '(v, b) := f b in (default x (option_map (store16 le x) v), b).

Definition mepa_phy_id_get (port_no : Z) (b : B) : Z * B :=
  let '(reg3, b) := id_read port_no MEPA_GLOBAL_REG_DEV_ID MEPA_REG_ADDR_0 0 b in
  let reg3 := reg3 .& 0xFFFF in
  if existsb (Z.eqb reg3) special_ids then (reg3, b) else
  let '(reg2, b) := id_read port_no MEPA_GLOBAL_REG_DEV_ID MEPA_SILICON_REVISION_REG 0 b in
  let reg2 := reg2 .& 0xFFFF in
  if (reg3 =? 0) && (reg2 =? 0xA0) then (0x8044, b) else
  let '(reg2, reg3, b) :=
    match id_miim_read co with
    | Some f => let '(reg2, b) := read16 (f MEPA_REG_ADDR_2) 0 b in
                let '(reg3, b) := read16 (f MEPA_REG_ADDR_3) 0 b in (reg2, reg3, b)
    | None => (0, 0, b)
    end in
  let '(reg2, reg3, b) :=
    match id_mmd_read co with
    | Some f =>
        if (reg2 =? 0) && (reg3 =? 0) then
          let '(reg2, b) := read16 (f MEPA_REG_DEV_ID_1 MEPA_REG_ADDR_2) reg2 b in
          let '(reg3, b) := read16 (f MEPA_REG_DEV_ID_1 MEPA_REG_ADDR_3) reg3 b in (reg2, reg3, b)
        else (reg2, reg3, b)
    | None => (reg2, reg3, b)
    end in
  let reg2 := reg2 .& 0xFFFF in
  let reg3 := reg3 .& 0xFFFF in
  (u32 (reg2 .<< 16) .| reg3, b).
End Id.

(** ** Allocation *)

Definition size_align (s : Z) : Z :=
  if tb (s mod 8) then (s / 8 + 1) * 8 else s.

(** The memory [mem_alloc] returned ([None]: NULL), as a list of 64-bit words;
    the loop clears [size / 8] of them. *)
Fixpoint clear_words (n : nat) (mem : list Z) : option (list Z) :=
  match n, mem with
  | O, _ => Some mem
  | S n, _ :: mem => option_map (cons 0) (clear_words n mem)
  | S n, [] => None
  end.
Definition mepa_mem_alloc_int (mem_alloc : option (Z -> option (list Z))) (size : Z)
  : option (option (list Z)) :=
  match mem_alloc with
  | None => Some None
  | Some alloc =>
      let size := size_align size in
      match alloc size with
      | None => Some None
      | Some mem => option_map Some (clear_words (Z.to_nat (size / 8)) mem)
      end
  end.

(** ** The driver search of [mepa_create] *)

(** A driver's identification and its entry points: [drv_slots] lists the
    function pointers of [mepa_driver_t] that are not NULL, with the function
    they point to. *)
Record mepa_driver_t := Mk_mepa_driver_t {
  drv_id : Z;
  drv_mask : Z;
  drv_slots : list (string * string);
}.

(** [driver->fn] *)
Fixpoint slot_lookup (l : list (string * string)) (slot : string) : option string :=
  match l with
  | [] => None
  | (s, f) :: l => if String.eqb s slot then Some f else slot_lookup l slot
  end.
Definition drv_fn (d : mepa_driver_t) (slot : string) : option string :=
  slot_lookup (drv_slots d) slot.

Section Create.
Context {W Dev : Type}.
(** [driver->mepa_driver_probe]: an effect on the world and a device or NULL. *)
Variable probe : mepa_driver_t -> W -> option Dev * W.

Definition drv_matches (phy_id : Z) (d : mepa_driver_t) : bool :=
  (drv_id d .& drv_mask d) =? (phy_id .& drv_mask d).

(** The inner loop, over the drivers of one family. *)
Fixpoint create_family (phy_id : Z) (drvs : list mepa_driver_t) (w : W) : option Dev * W :=
  match drvs with
  | [] => (None, w)
  | driver :: drvs =>
      if drv_matches phy_id driver then
        let '(dev, w) := probe driver w in
        match dev with
        | Some dev => (Some dev, w)
        | None => create_family phy_id drvs w
        end
      else create_family phy_id drvs w
  end.

(** The outer loop, over the families; an absent family is an empty list. *)
Fixpoint create_search (phy_id : Z) (lib : list (list mepa_driver_t)) (w : W) : option Dev * W :=
  match lib with
  | [] => (None, w)
  | drvs :: lib =>
      let '(dev, w) := create_family phy_id drvs w in
      match dev with
      | Some dev => (Some dev, w)
      | None => create_search phy_id lib w
      end
  end.

(** [mepa_create]: a board that asks for a dummy PHY is not identified. *)
Definition mepa_create (phy_id_get : W -> Z * W) (dummy_phy_cap : Z)
    (lib : list (list mepa_driver_t)) (w : W) : option Dev * W :=
  let '(phy_id, w) := if dummy_phy_cap >? 0 then (0xdeadbeef, w) else phy_id_get w in
  create_search phy_id lib w.
End Create.

(** ** Dispatch *)

(** [if (!dev || !dev->drv->fn) return NOT_IMPLEMENTED; return dev->drv->fn(..);]
    [drv] is [None] for a NULL device; [exec] runs a function by name. *)
Definition dispatch {W : Type} (exec : string -> W -> option (Z * W))
    (drv : option mepa_driver_t) (slot : string) (w : W) : option (Z * W) :=
  match drv with
  | None => Some (MEPA_RC_NOT_IMPLEMENTED, w)
  | Some d => match drv_fn d slot with
              | None => Some (MEPA_RC_NOT_IMPLEMENTED, w)
              | Some f => exec f w
              end
  end.

(** ** Properties *)

Lemma size_align_spec s : 0 <= s ->
  s <= size_align s < s + 8 /\ size_align s mod 8 = 0.
Proof.
  intros Hs. unfold size_align, tb. destruct (Z.eqb_spec (s mod 8) 0) as [H|H]; simpl.
  - lia.
  - rewrite Z.mod_mul by lia. pose proof (Z.div_mod s 8). pose proof (Z.mod_pos_bound s 8). lia.
Qed.

Lemma clear_words_ok n mem :
  (n <= length mem)%nat -> clear_words n mem = Some (repeat 0 n ++ drop n mem).
Proof.
  revert mem. induction n as [|n IH]; intros mem Hn; [done|].
  destruct mem as [|x mem]; cbn in Hn |- *; [lia|]. by rewrite IH by lia.
Qed.

Lemma store16_le x v : store16 true x v .& 0xFFFF = u16 v.
Proof.
  unfold store16. rewrite Z.land_lor_distr_l, <- Z.land_assoc.
  change (0xFFFF0000 .& 0xFFFF) with 0. rewrite Z.land_0_r, Z.lor_0_l.
  by rewrite <- u16_land, u16_u16.
Qed.

Lemma store16_be v : store16 false 0 v .& 0xFFFF = 0.
Proof.
  unfold store16. rewrite Z.land_0_l, Z.lor_0_r. change 0xFFFF with (Z.ones 16).
  rewrite Z.land_ones, Z.shiftl_mul_pow2 by lia. by apply Z.mod_mul.
Qed.

(** How the search visits the drivers: the probes it makes, in order. *)
Lemma create_family_spec {W Dev} (probe : mepa_driver_t -> W -> option Dev * W) phy_id drvs w r w' :
  create_family probe phy_id drvs w = (r, w') ->
  exists tried rest : list mepa_driver_t,
    filter (fun d => drv_matches phy_id d = true) drvs = tried ++ rest /\
    match r with
    | None => rest = [] /\ w' = foldl (fun w d => snd (probe d w)) w tried
    | Some dev => exists init last, tried = init ++ [last] /\
        probe last (foldl (fun w d => snd (probe d w)) w init) = (Some dev, w')
    end.
Proof.
  revert w. induction drvs as [|d drvs IH]; intros w; cbn [create_family]; intros H.
  { injection H as <- <-. by exists [], []. }
  rewrite filter_cons. destruct (drv_matches phy_id d) eqn:Hd.
  - rewrite decide_True by done. destruct (probe d w) as [[dev|] w1] eqn:Hp.
    + injection H as <- <-. exists [d], (filter (fun d => drv_matches phy_id d = true) drvs).
      split; [done|]. by exists [], d.
    + destruct (IH w1 H) as (tried & rest & E & Hr). exists (d :: tried), rest.
      rewrite E. split; [done|]. destruct r as [dev|].
      * destruct Hr as (init & last & -> & Hl). exists (d :: init), last.
        split; [done|]. cbn [foldl]. by rewrite Hp.
      * destruct Hr as [-> ->]. split; [done|]. cbn [foldl]. by rewrite Hp.
  - rewrite decide_False by done. by apply IH.
Qed.
