(* ===== verification/MepaCoreSpec.v ===== *)
(** * MepaCoreSpec: identification, allocation and driver search

    What the driver-independent functions of [phy.c] promise. *)

From Stdlib Require Import ZArith Lia List Bool.
From stdpp Require Import base list.
From S2P Require Import Prelude Machine MepaCore.

(** ** The driver search *)
Section Create.
Context {W Dev : Type} (probe : mepa_driver_t -> W -> option Dev * W).

(** The world after probing the drivers [l] in vain. *)
Definition probed (l : list mepa_driver_t) (w : W) : W := foldl (fun w d => snd (probe d w)) w l.

Lemma create_search_concat id lib w :
  create_search probe id lib w = create_family probe id (concat lib) w.
Proof.
  revert w. induction lib as [|drvs lib IH]; intros w; cbn; [done|].
  assert (forall l1 l2 w, create_family probe id (l1 ++ l2) w =
    match create_family probe id l1 w with
    | (Some d, w') => (Some d, w')
    | (None, w') => create_family probe id l2 w'
    end) as Happ.
  { clear. induction l1 as [|d l1 IH]; intros l2 w; cbn; [done|].
    destruct (drv_matches id d); [|apply IH]. destruct (probe d w) as [[dev|] w']; [done|apply IH]. }
  rewrite Happ. destruct (create_family probe id drvs w) as [[d|] w']; [done|apply IH].
Qed.

(** The search of [mepa_create] probes the drivers that match the PHY
    identifier, in the order of the families and of the rows in them, each at
    most once, and yields the device of the first probe that succeeds; it
    yields NULL only after all of them failed. *)
Theorem create_search_first id lib w :
  let '(r, w') := create_search probe id lib w in
  exists tried rest,
    List.filter (drv_matches id) (concat lib) = tried ++ rest /\
    match r with
    | None => rest = [] /\ w' = probed tried w
    | Some dev => exists init d, tried = init ++ [d] /\ probe d (probed init w) = (Some dev, w') /\
        forall pre d' post, init = pre ++ d' :: post -> fst (probe d' (probed pre w)) = None
    end.
Proof.
  rewrite create_search_concat. generalize (concat lib). clear lib. intros drvs. revert w.
  induction drvs as [|d drvs IH]; intros w; cbn; [by exists [], []|].
  destruct (drv_matches id d) eqn:Hd; [|apply IH].
  destruct (probe d w) as [[dev|] w1] eqn:Hp.
  - exists [d], (List.filter (drv_matches id) drvs). split; [done|]. exists [], d.
    split_and!; [done|done|]. intros [|? ?]; discriminate.
  - specialize (IH w1). destruct (create_family probe id drvs w1) as [r w'].
    destruct IH as (tried & rest & -> & Hr). exists (d :: tried), rest. split; [done|].
    assert (forall l, probed (d :: l) w = probed l w1) as Hw by (intros; cbn; by rewrite Hp).
    destruct r as [dev|].
    + destruct Hr as (init & d1 & -> & H1 & Hn). exists (d :: init), d1. split; [done|].
      rewrite Hw. split; [done|]. intros [|d2 pre] d' post [= <- E].
      * cbn. by rewrite Hp.
      * rewrite Hw. eapply Hn. exact E.
    + rewrite Hw. exact Hr.
Qed.
End Create.

(** ** Identification *)
Section Id.
Context {B : Type}.

(** A bus with MDIO only: reads always succeed. *)
Definition mdio (f : Z -> B -> Z * B) : id_callout B :=
  {| id_spi_read := None; id_mmd_read := None;
     id_miim_read := Some (fun a b => let '(v, b) := f a b in (Some v, b)) |}.

Lemma id_mdio le f port b :
  mepa_phy_id_get le (mdio f) port b =
  let '(v2, b) := f 2 b in let '(v3, b) := f 3 b in
  (u32 ((store16 le 0 v2 .& 0xFFFF) .<< 16) .| (store16 le 0 v3 .& 0xFFFF), b).
Proof.
  unfold mepa_phy_id_get, id_read, read16. cbn -[Z.land Z.shiftl u32 store16].
  unfold MEPA_REG_ADDR_2, MEPA_REG_ADDR_3.
  destruct (f 2 b) as [v2 b2], (f 3 b2) as [v3 b3]. done.
Qed.

(** On a bus with MDIO only, a little-endian host identifies a PHY by
    registers 2 (upper half) and 3 (lower half), read in this order. *)
Theorem phy_id_mdio (f : Z -> B -> Z * B) port b :
  mepa_phy_id_get true (mdio f) port b =
  let '(v2, b) := f 2 b in let '(v3, b) := f 3 b in (u16 v2 * 65536 + u16 v3, b).
Proof.
  rewrite id_mdio. destruct (f 2 b) as [v2 b2], (f 3 b2) as [v3 b3]. f_equal.
  rewrite !store16_le. pose proof (u16_range v2). pose proof (u16_range v3).
  rewrite u32_small by (rewrite Z.shiftl_mul_pow2 by lia; lia).
  by apply (lor_disjoint _ 16).
Qed.

(** On a big-endian host the same PHY is always identified as 0: the
    16-bit reads go to the upper half of 32-bit variables, and the mask keeps
    the lower one. *)
Theorem phy_id_big_endian (f : Z -> B -> Z * B) port b :
  fst (mepa_phy_id_get false (mdio f) port b) = 0.
Proof.
  rewrite id_mdio. destruct (f 2 b) as [v2 b2], (f 3 b2) as [v3 b3].
  by rewrite !store16_be.
Qed.
End Id.

(** ** Allocation *)

(** A device allocation asks for the size rounded up to a multiple of 8;
    if the application returns that much, all of the size asked for is zero,
    the memory beyond it is not touched, and no store is out of bounds. *)
Theorem mem_alloc_zeroed (alloc : Z -> option (list Z)) size mem :
  0 <= size -> alloc (size_align size) = Some mem ->
  size_align size <= 8 * Z.of_nat (length mem) ->
  exists n, mepa_mem_alloc_int (Some alloc) size = Some (Some (repeat 0 n ++ drop n mem)) /\
    size <= 8 * Z.of_nat n < size + 8.
Proof.
  intros Hs Ha Hl. destruct (size_align_spec size Hs) as [Hr Hm].
  unfold mepa_mem_alloc_int. rewrite Ha. exists (Z.to_nat (size_align size / 8)).
  pose proof (Z.div_mod (size_align size) 8).
  assert (0 <= size_align size / 8) by (apply Z.div_pos; lia).
  rewrite clear_words_ok by lia. split; [done|]. rewrite Z2Nat.id by done. lia.
Qed.

Lemma mem_alloc_zeroed_witness :
  exists n, mepa_mem_alloc_int (Some (fun n => Some (repeat 7 (Z.to_nat (n / 8) + 2)))) 20 =
    Some (Some (repeat 0 n ++ drop n [7; 7; 7; 7; 7])) /\ 20 <= 8 * Z.of_nat n < 20 + 8.
Proof.
  apply (mem_alloc_zeroed _ 20 [7; 7; 7; 7; 7]).
  - lia.
  - reflexivity.
  - vm_compute. discriminate.
Defined.
