(* ===== verification/MepaApi.v ===== *)
(** * MepaApi: the functions of the API and the drivers' slots they call

    The second half of [mepa/common/src/phy.c]: every API function looks up a
    function pointer in the driver's table of the device, or in the table of
    time stamping, MACsec, TC10 or T1S functions that this table points to,
    and calls it.  [mepa_apis] lists them all: the parameters after [dev], the
    pointers that are compared with NULL, the one that is called, and with which
    arguments.  [run_api] is what such a function does for a driver.
    [mepa_traverse], which walks no driver, is not among them. *)

From Stdlib Require Import ZArith Lia List Bool String.
From stdpp Require Import base list.
From S2P Require Import Prelude Machine MepaCore.
#[local] Open Scope string_scope.

(** The tables of a driver: [mepa_driver_t] and those it points to. *)
Record driver := Driver {
  d_main : mepa_driver_t;
  d_sub : string -> option (list (string * string));
}.

(** [dev->drv->s], [dev->drv->t] for a pointer to a table, [dev->drv->t->s]. *)
Inductive ptr := Slot (s : string) | Table (t : string) | Member (t s : string).

(** The function or the table that a pointer names; the inner [None] is NULL,
    the outer one a load through NULL. *)
Definition load (d : driver) (p : ptr) : option (option string) :=
  match p with
  | Slot s => Some (drv_fn (d_main d) s)
  | Table t => Some (match d_sub d t with Some _ => Some t | None => None end)
  | Member t s => match d_sub d t with Some l => Some (slot_lookup l s) | None => None end
  end.

(** A function of the API: [api_guards] are tested in this order, and the
    function returns [api_null] when one of them is NULL; the objects of
    [api_clears] are filled with zeros before the call, and without
    [api_result] the function returns [MEPA_RC_OK] instead of what the driver
    returned. *)
Record api_fn := Api {
  api_name : string;
  api_params : list string;
  api_guards : list ptr;
  api_null : Z;
  api_clears : list string;
  api_target : ptr;
  api_args : list string;
  api_result : bool;
}.
(** The two usual forms. *)
Definition api (name : string) (params : list string) (slot : string) : api_fn :=
  Api name params [Slot slot] MEPA_RC_NOT_IMPLEMENTED [] (Slot slot) params true.
Definition api_in (table name : string) (params : list string) (slot : string) : api_fn :=
  Api name params [Table table; Member table slot] MEPA_RC_NOT_IMPLEMENTED [] (Member table slot) params true.

Inductive outcome :=
  | Returns (rc : Z)
  | Calls (f : string) (args : list string) (result : bool)
  | Null_deref.

Fixpoint run_guards (d : driver) (guards : list ptr) (null : Z) (k : outcome) : outcome :=
  match guards with
  | [] => k
  | p :: guards =>
      match load d p with
      | None => Null_deref
      | Some None => Returns null
      | Some (Some _) => run_guards d guards null k
      end
  end.
(** The function on a device with this driver; [None] is a NULL device. *)
Definition run_api (a : api_fn) (dev : option driver) : outcome :=
  match dev with
  | None => Returns (api_null a)
  | Some d =>
      run_guards d (api_guards a) (api_null a)
        (match load d (api_target a) with
         | Some (Some f) => Calls f (api_args a) (api_result a)
         | _ => Null_deref
         end)
  end.

(** ** The functions, in the order of the file *)

(** [mepa_delete] to [mepa_clause22_read]. *)
Definition apis_1 : list api_fn :=
  [ api "mepa_delete" [] "mepa_driver_delete";
    api "mepa_reset" ["rst_conf"] "mepa_driver_reset";
    api "mepa_poll" ["status"] "mepa_driver_poll";
    api "mepa_conf_set" ["conf"] "mepa_driver_conf_set";
    api "mepa_conf_get" ["conf"] "mepa_driver_conf_get";
    api "mepa_if_set" ["intf"] "mepa_driver_if_set";
    api "mepa_if_get" ["speed"; "intf"] "mepa_driver_if_get";
    api "mepa_power_set" ["power"] "mepa_driver_power_set";
    api "mepa_cable_diag_start" ["mode"] "mepa_driver_cable_diag_start";
    api "mepa_cable_diag_get" ["result"] "mepa_driver_cable_diag_get";
    api "mepa_media_set" ["phy_media_if"] "mepa_driver_media_set";
    api "mepa_media_get" ["phy_media_if"] "mepa_driver_media_get";
    api "mepa_aneg_status_get" ["status"] "mepa_driver_aneg_status_get";
    api "mepa_clause22_read" ["address"; "value"] "mepa_driver_clause22_read" ].

(** [mepa_clause22_write] to [mepa_phy_info_get]. *)
Definition apis_2 : list api_fn :=
  [ api "mepa_clause22_write" ["address"; "value"] "mepa_driver_clause22_write";
    api "mepa_clause45_read" ["address"; "value"] "mepa_driver_clause45_read";
    api "mepa_clause45_write" ["address"; "value"] "mepa_driver_clause45_write";
    api "mepa_event_enable_set" ["event"; "enable"] "mepa_driver_event_enable_set";
    api "mepa_event_enable_get" ["event"] "mepa_driver_event_enable_get";
    api "mepa_event_poll" ["ev_mask"] "mepa_driver_event_poll";
    api "mepa_loopback_set" ["loopback"] "mepa_driver_loopback_set";
    api "mepa_loopback_get" ["loopback"] "mepa_driver_loopback_get";
    api "mepa_gpio_mode_set" ["data"] "mepa_driver_gpio_mode_set";
    api "mepa_gpio_out_set" ["gpio_no"; "value"] "mepa_driver_gpio_out_set";
    api "mepa_gpio_in_get" ["gpio_no"; "value"] "mepa_driver_gpio_in_get";
    api "mepa_synce_clock_conf_set" ["conf"] "mepa_driver_synce_clock_conf_set";
    api "mepa_link_base_port" ["base_dev"; "packet_idx"] "mepa_driver_link_base_port";
    Api "mepa_phy_info_get" ["phy_info"] [Slot "mepa_driver_phy_info_get"] MEPA_RC_NOT_IMPLEMENTED ["phy_info"]
      (Slot "mepa_driver_phy_info_get") ["phy_info"] true ].

(** [mepa_isolate_mode_conf] to [mepa_ts_reset]. *)
Definition apis_3 : list api_fn :=
  [ api "mepa_isolate_mode_conf" ["iso_en"] "mepa_driver_isolate_mode_conf";
    api "mepa_i2c_read"
      ["i2c_mux"; "i2c_reg_addr"; "i2c_dev_addr"; "word_access"; "cnt"; "value"] "mepa_driver_phy_i2c_read";
    api "mepa_i2c_write"
      ["i2c_mux"; "i2c_reg_addr"; "i2c_dev_addr"; "word_access"; "cnt"; "value"] "mepa_driver_phy_i2c_write";
    Api "mepa_i2c_clock_select" ["clk_value"] [Slot "mepa_driver_phy_i2c_write"] MEPA_RC_NOT_IMPLEMENTED []
      (Slot "mepa_driver_phy_i2c_clock_select") ["clk_value"] true;
    Api "mepa_fefi_set" ["fefi_conf"] [Slot "mepa_driver_phy_fefi_get"] MEPA_RC_NOT_IMPLEMENTED []
      (Slot "mepa_driver_phy_fefi_set") ["fefi_conf"] true;
    api "mepa_fefi_get" ["fefi_conf"] "mepa_driver_phy_fefi_get";
    api "mepa_fefi_detect" ["detect"] "mepa_driver_phy_fefi_detect";
    api "mepa_chip_temp_get" ["temp"] "mepa_driver_chip_temp_get";
    api "mepa_eee_mode_conf_set" ["conf"] "mepa_driver_eee_mode_conf_set";
    api "mepa_eee_mode_conf_get" ["conf"] "mepa_driver_eee_mode_conf_get";
    api "mepa_eee_status_get"
      ["advertisement"; "rx_in_power_save_state"; "tx_in_power_save_state"] "mepa_driver_eee_status_get";
    api_in "mepa_ts" "mepa_ts_mode_set" ["enable"] "mepa_ts_mode_set";
    api_in "mepa_ts" "mepa_ts_mode_get" ["enable"] "mepa_ts_mode_get";
    api_in "mepa_ts" "mepa_ts_reset" ["conf"] "mepa_ts_reset" ].

(** [mepa_ts_init_conf_set] to [mepa_ts_egress_latency_get]. *)
Definition apis_4 : list api_fn :=
  [ api_in "mepa_ts" "mepa_ts_init_conf_set" ["conf"] "mepa_ts_init_conf_set";
    api_in "mepa_ts" "mepa_ts_init_conf_get" ["conf"] "mepa_ts_init_conf_get";
    api_in "mepa_ts" "mepa_ts_ltc_ls_en" ["type"] "mepa_ts_ltc_ls_en";
    api_in "mepa_ts" "mepa_ts_ltc_get" ["ts"] "mepa_ts_ltc_get";
    api_in "mepa_ts" "mepa_ts_ltc_set" ["ts"] "mepa_ts_ltc_set";
    api_in "mepa_ts" "mepa_ts_delay_asymmetry_get" ["delay"] "mepa_ts_delay_asymmetry_get";
    api_in "mepa_ts" "mepa_ts_delay_asymmetry_set" ["delay"] "mepa_ts_delay_asymmetry_set";
    api_in "mepa_ts" "mepa_ts_path_delay_get" ["delay"] "mepa_ts_path_delay_get";
    api_in "mepa_ts" "mepa_ts_path_delay_set" ["delay"] "mepa_ts_path_delay_set";
    api_in "mepa_ts" "mepa_ts_egress_latency_get" ["latency"] "mepa_ts_egress_latency_get" ].

(** [mepa_ts_egress_latency_set] to [mepa_ts_tx_classifier_conf_get]. *)
Definition apis_5 : list api_fn :=
  [ api_in "mepa_ts" "mepa_ts_egress_latency_set" ["latency"] "mepa_ts_egress_latency_set";
    api_in "mepa_ts" "mepa_ts_ingress_latency_get" ["latency"] "mepa_ts_ingress_latency_get";
    api_in "mepa_ts" "mepa_ts_ingress_latency_set" ["latency"] "mepa_ts_ingress_latency_set";
    api_in "mepa_ts" "mepa_ts_clock_rateadj_get" ["rateadj"] "mepa_ts_clock_rateadj_get";
    api_in "mepa_ts" "mepa_ts_clock_rateadj_set" ["rateadj"] "mepa_ts_clock_rateadj_set";
    api_in "mepa_ts" "mepa_ts_clock_adj1ns" ["incr"] "mepa_ts_clock_adj1ns";
    api_in "mepa_ts" "mepa_ts_pps_conf_get" ["conf"] "mepa_ts_pps_conf_get";
    api_in "mepa_ts" "mepa_ts_pps_conf_set" ["conf"] "mepa_ts_pps_conf_set";
    api_in "mepa_ts" "mepa_ts_rx_classifier_conf_get" ["flow_index"; "conf"] "mepa_ts_rx_classifier_conf_get";
    api_in "mepa_ts" "mepa_ts_tx_classifier_conf_get" ["flow_index"; "conf"] "mepa_ts_tx_classifier_conf_get" ].

(** [mepa_ts_rx_classifier_conf_set] to [mepa_ts_event_poll]. *)
Definition apis_6 : list api_fn :=
  [ api_in "mepa_ts" "mepa_ts_rx_classifier_conf_set" ["flow_index"; "conf"] "mepa_ts_rx_classifier_conf_set";
    api_in "mepa_ts" "mepa_ts_tx_classifier_conf_set" ["flow_index"; "conf"] "mepa_ts_tx_classifier_conf_set";
    api_in "mepa_ts" "mepa_ts_rx_clock_conf_get" ["clock_id"; "conf"] "mepa_ts_rx_clock_conf_get";
    api_in "mepa_ts" "mepa_ts_tx_clock_conf_get" ["clock_id"; "conf"] "mepa_ts_tx_clock_conf_get";
    api_in "mepa_ts" "mepa_ts_rx_clock_conf_set" ["clock_id"; "conf"] "mepa_ts_rx_clock_conf_set";
    api_in "mepa_ts" "mepa_ts_tx_clock_conf_set" ["clock_id"; "conf"] "mepa_ts_tx_clock_conf_set";
    api_in "mepa_ts" "mepa_ts_stats_get" ["stat"] "mepa_ts_stats_get";
    api_in "mepa_ts" "mepa_ts_event_set" ["enable"; "ev_mask"] "mepa_ts_event_set";
    api_in "mepa_ts" "mepa_ts_event_get" ["ev_mask"] "mepa_ts_event_get";
    api_in "mepa_ts" "mepa_ts_event_poll" ["status"] "mepa_ts_event_poll" ].

(** [mepa_ts_fifo_read_install] to [mepa_start_of_frame_conf_get]. *)
Definition apis_7 : list api_fn :=
  [ Api "mepa_ts_fifo_read_install" ["rd_cb"]
      [Table "mepa_ts"; Member "mepa_ts" "mepa_ts_fifo_read_install"] MEPA_RC_NOT_IMPLEMENTED []
      (Member "mepa_ts" "mepa_ts_fifo_read_install") ["rd_cb"] false;
    api_in "mepa_ts" "mepa_ts_fifo_empty" [] "mepa_ts_fifo_empty";
    api_in "mepa_ts" "mepa_ts_fifo_get" ["ts_list"; "size"; "num"] "mepa_ts_fifo_get";
    api_in "mepa_ts" "mepa_ts_fifo_signature_set" ["sig_mask"] "mepa_ts_fifo_signature_set";
    api_in "mepa_ts" "mepa_ts_fifo_signature_get" ["sig_mask"] "mepa_ts_fifo_signature_get";
    api_in "mepa_ts" "mepa_ts_test_config" ["test_id"; "reg_dump"] "mepa_ts_test_config";
    api_in "mepa_ts" "mepa_ts_pch_mch_error_info_get" ["info"] "mepa_ts_pch_mch_error_info_get";
    api_in "mepa_ts" "mepa_ts_csr_reg_read" ["mmd"; "csr_address"; "regvalue"] "mepa_ts_csr_reg_read";
    api_in "mepa_ts" "mepa_ts_csr_reg_write" ["mmd"; "csr_address"; "regvalue"] "mepa_ts_csr_reg_write";
    api "mepa_debug_info_dump" ["pr"; "info"] "mepa_debug_info_dump";
    api "mepa_sqi_read" ["value"] "mepa_driver_sqi_read";
    api "mepa_start_of_frame_conf_set" ["conf"] "mepa_driver_start_of_frame_conf_set";
    api "mepa_start_of_frame_conf_get" ["rd_val"] "mepa_driver_start_of_frame_conf_get" ].

(** [mepa_framepreempt_set] to [mepa_macsec_secy_controlled_set]. *)
Definition apis_8 : list api_fn :=
  [ api "mepa_framepreempt_set" ["value"] "mepa_driver_framepreempt_set";
    api "mepa_framepreempt_get" ["value"] "mepa_driver_framepreempt_get";
    api "mepa_selftest_start" ["inf"] "mepa_driver_selftest_start";
    api "mepa_selftest_read" ["inf"] "mepa_driver_selftest_read";
    api_in "mepa_macsec" "mepa_macsec_init_set" ["macsec_init"] "mepa_macsec_init_set";
    api_in "mepa_macsec" "mepa_macsec_init_get" ["macsec_init"] "mepa_macsec_init_get";
    api_in "mepa_macsec" "mepa_macsec_secy_conf_add" ["port"; "conf"] "mepa_macsec_secy_conf_add";
    api_in "mepa_macsec" "mepa_macsec_secy_conf_update" ["port"; "conf"] "mepa_macsec_secy_conf_update";
    api_in "mepa_macsec" "mepa_macsec_secy_conf_get" ["port"; "conf"] "mepa_macsec_secy_conf_get";
    api_in "mepa_macsec" "mepa_macsec_secy_conf_del" ["port"] "mepa_macsec_secy_conf_del";
    api_in "mepa_macsec" "mepa_macsec_secy_controlled_set" ["port"; "enable"] "mepa_macsec_secy_controlled_set" ].

(** [mepa_macsec_secy_controlled_get] to [mepa_macsec_rx_sc_status_get]. *)
Definition apis_9 : list api_fn :=
  [ api_in "mepa_macsec" "mepa_macsec_secy_controlled_get" ["port"; "enable"] "mepa_macsec_secy_controlled_get";
    api_in "mepa_macsec" "mepa_macsec_secy_port_status_get" ["port"; "status"] "mepa_macsec_secy_port_status_get";
    api_in "mepa_macsec" "mepa_macsec_port_get_next"
      ["port_no"; "search_macsec_port"; "found_macsec_port"] "mepa_macsec_port_get_next";
    api_in "mepa_macsec" "mepa_macsec_rx_sc_add" ["port"; "sci"] "mepa_macsec_rx_sc_add";
    api_in "mepa_macsec" "mepa_macsec_rx_sc_update" ["port"; "sci"; "conf"] "mepa_macsec_rx_sc_update";
    api_in "mepa_macsec" "mepa_macsec_rx_sc_get_conf" ["port"; "sci"; "conf"] "mepa_macsec_rx_sc_get_conf";
    api_in "mepa_macsec" "mepa_macsec_rx_sc_get_next" ["port"; "search_sci"; "found_sci"] "mepa_macsec_rx_sc_get_next";
    api_in "mepa_macsec" "mepa_macsec_rx_sc_del" ["port"; "sci"] "mepa_macsec_rx_sc_del";
    api_in "mepa_macsec" "mepa_macsec_rx_sc_status_get" ["port"; "sci"; "status"] "mepa_macsec_rx_sc_status_get" ].

(** [mepa_macsec_tx_sc_set] to [mepa_macsec_rx_sa_disable]. *)
Definition apis_10 : list api_fn :=
  [ api_in "mepa_macsec" "mepa_macsec_tx_sc_set" ["port"] "mepa_macsec_tx_sc_set";
    api_in "mepa_macsec" "mepa_macsec_tx_sc_update" ["port"; "conf"] "mepa_macsec_tx_sc_update";
    api_in "mepa_macsec" "mepa_macsec_tx_sc_get_conf" ["port"; "conf"] "mepa_macsec_tx_sc_get_conf";
    api_in "mepa_macsec" "mepa_macsec_tx_sc_del" ["port"] "mepa_macsec_tx_sc_del";
    api_in "mepa_macsec" "mepa_macsec_tx_sc_status_get" ["port"; "status"] "mepa_macsec_tx_sc_status_get";
    api_in "mepa_macsec" "mepa_macsec_rx_sa_set" ["port"; "sci"; "an"; "lowest_pn"; "sak"] "mepa_macsec_rx_sa_set";
    api_in "mepa_macsec" "mepa_macsec_rx_sa_get"
      ["port"; "sci"; "an"; "lowest_pn"; "sak"; "active"] "mepa_macsec_rx_sa_get";
    api_in "mepa_macsec" "mepa_macsec_rx_sa_activate" ["port"; "sci"; "an"] "mepa_macsec_rx_sa_activate";
    api_in "mepa_macsec" "mepa_macsec_rx_sa_disable" ["port"; "sci"; "an"] "mepa_macsec_rx_sa_disable" ].

(** [mepa_macsec_rx_sa_del] to [mepa_macsec_tx_sa_get]. *)
Definition apis_11 : list api_fn :=
  [ api_in "mepa_macsec" "mepa_macsec_rx_sa_del" ["port"; "sci"; "an"] "mepa_macsec_rx_sa_del";
    api_in "mepa_macsec" "mepa_macsec_rx_sa_lowest_pn_update"
      ["port"; "sci"; "an"; "lowest_pn"] "mepa_macsec_rx_sa_lowest_pn_update";
    api_in "mepa_macsec" "mepa_macsec_rx_sa_status_get" ["port"; "sci"; "an"; "status"] "mepa_macsec_rx_sa_status_get";
    api_in "mepa_macsec" "mepa_macsec_rx_seca_set"
      ["port"; "sci"; "an"; "lowest_pn"; "sak"; "ssci"] "mepa_macsec_rx_seca_set";
    api_in "mepa_macsec" "mepa_macsec_rx_seca_get"
      ["port"; "sci"; "an"; "lowest_pn"; "sak"; "active"; "ssci"] "mepa_macsec_rx_seca_get";
    api_in "mepa_macsec" "mepa_macsec_rx_seca_lowest_pn_update"
      ["port"; "sci"; "an"; "lowest_pn"] "mepa_macsec_rx_seca_lowest_pn_update";
    api_in "mepa_macsec" "mepa_macsec_tx_sa_set"
      ["port"; "an"; "next_pn"; "confidentiality"; "sak"] "mepa_macsec_tx_sa_set";
    api_in "mepa_macsec" "mepa_macsec_tx_sa_get"
      ["port"; "an"; "next_pn"; "confidentiality"; "sak"; "active"] "mepa_macsec_tx_sa_get" ].

(** [mepa_macsec_tx_sa_activate] to [mepa_macsec_common_counters_get]. *)
Definition apis_12 : list api_fn :=
  [ api_in "mepa_macsec" "mepa_macsec_tx_sa_activate" ["port"; "an"] "mepa_macsec_tx_sa_activate";
    api_in "mepa_macsec" "mepa_macsec_tx_sa_disable" ["port"; "an"] "mepa_macsec_tx_sa_disable";
    api_in "mepa_macsec" "mepa_macsec_tx_sa_del" ["port"; "an"] "mepa_macsec_tx_sa_del";
    api_in "mepa_macsec" "mepa_macsec_tx_sa_status_get" ["port"; "an"; "status"] "mepa_macsec_tx_sa_status_get";
    api_in "mepa_macsec" "mepa_macsec_tx_seca_set"
      ["port"; "an"; "next_pn"; "confidentiality"; "sak"; "ssci"] "mepa_macsec_tx_seca_set";
    api_in "mepa_macsec" "mepa_macsec_tx_seca_get"
      ["port"; "an"; "next_pn"; "confidentiality"; "sak"; "active"; "ssci"] "mepa_macsec_tx_seca_get";
    api_in "mepa_macsec" "mepa_macsec_controlled_counters_get"
      ["port"; "counters"] "mepa_macsec_controlled_counters_get";
    api_in "mepa_macsec" "mepa_macsec_uncontrolled_counters_get"
      ["port_no"; "counters"] "mepa_macsec_uncontrolled_counters_get";
    api_in "mepa_macsec" "mepa_macsec_common_counters_get" ["port_no"; "counters"] "mepa_macsec_common_counters_get" ].

(** [mepa_macsec_secy_cap_get] to [mepa_macsec_control_frame_match_conf_set]. *)
Definition apis_13 : list api_fn :=
  [ api_in "mepa_macsec" "mepa_macsec_secy_cap_get" ["port_no"; "cap"] "mepa_macsec_secy_cap_get";
    api_in "mepa_macsec" "mepa_macsec_secy_counters_get" ["port"; "counters"] "mepa_macsec_secy_counters_get";
    api_in "mepa_macsec" "mepa_macsec_counters_update" ["port_no"] "mepa_macsec_counters_update";
    api_in "mepa_macsec" "mepa_macsec_counters_clear" ["port_no"] "mepa_macsec_counters_clear";
    api_in "mepa_macsec" "mepa_macsec_rx_sc_counters_get" ["port"; "sci"; "counters"] "mepa_macsec_rx_sc_counters_get";
    api_in "mepa_macsec" "mepa_macsec_tx_sc_counters_get" ["port"; "counters"] "mepa_macsec_tx_sc_counters_get";
    api_in "mepa_macsec" "mepa_macsec_tx_sa_counters_get" ["port"; "an"; "counters"] "mepa_macsec_tx_sa_counters_get";
    api_in "mepa_macsec" "mepa_macsec_rx_sa_counters_get"
      ["port"; "sci"; "an"; "counters"] "mepa_macsec_rx_sa_counters_get";
    api_in "mepa_macsec" "mepa_macsec_control_frame_match_conf_set"
      ["port_no"; "conf"; "rule_id"] "mepa_macsec_control_frame_match_conf_set" ].

(** [mepa_macsec_control_frame_match_conf_del] to [mepa_macsec_bypass_mode_get]. *)
Definition apis_14 : list api_fn :=
  [ api_in "mepa_macsec" "mepa_macsec_control_frame_match_conf_del"
      ["port_no"; "rule_id"] "mepa_macsec_control_frame_match_conf_del";
    api_in "mepa_macsec" "mepa_macsec_control_frame_match_conf_get"
      ["port_no"; "conf"; "rule_id"] "mepa_macsec_control_frame_match_conf_get";
    api_in "mepa_macsec" "mepa_macsec_pattern_set"
      ["port"; "direction"; "action"; "pattern"] "mepa_macsec_pattern_set";
    api_in "mepa_macsec" "mepa_macsec_pattern_del" ["port"; "direction"; "action"] "mepa_macsec_pattern_del";
    api_in "mepa_macsec" "mepa_macsec_pattern_get"
      ["port"; "direction"; "action"; "pattern"] "mepa_macsec_pattern_get";
    api_in "mepa_macsec" "mepa_macsec_default_action_set" ["port_no"; "policy"] "mepa_macsec_default_action_set";
    api_in "mepa_macsec" "mepa_macsec_default_action_get" ["port_no"; "policy"] "mepa_macsec_default_action_get";
    api_in "mepa_macsec" "mepa_macsec_bypass_mode_set" ["port_no"; "bypass"] "mepa_macsec_bypass_mode_set";
    api_in "mepa_macsec" "mepa_macsec_bypass_mode_get" ["port_no"; "bypass"] "mepa_macsec_bypass_mode_get" ].

(** [mepa_macsec_bypass_tag_set] to [mepa_macsec_event_poll]. *)
Definition apis_15 : list api_fn :=
  [ api_in "mepa_macsec" "mepa_macsec_bypass_tag_set" ["port"; "tag"] "mepa_macsec_bypass_tag_set";
    api_in "mepa_macsec" "mepa_macsec_bypass_tag_get" ["port"; "tag"] "mepa_macsec_bypass_tag_get";
    api_in "mepa_macsec" "mepa_macsec_mtu_set" ["port_no"; "mtu_conf"] "mepa_macsec_mtu_set";
    api_in "mepa_macsec" "mepa_macsec_mtu_get" ["port_no"; "mtu_conf"] "mepa_macsec_mtu_get";
    api_in "mepa_macsec" "mepa_macsec_frame_capture_set" ["port_no"; "capture"] "mepa_macsec_frame_capture_set";
    api_in "mepa_macsec" "mepa_macsec_frame_get"
      ["port_no"; "buf_length"; "return_length"; "frame"] "mepa_macsec_frame_get";
    api_in "mepa_macsec" "mepa_macsec_event_enable_set"
      ["port_no"; "ev_mask"; "enable"] "mepa_macsec_event_enable_set";
    api_in "mepa_macsec" "mepa_macsec_event_enable_get" ["port_no"; "ev_mask"] "mepa_macsec_event_enable_get";
    api_in "mepa_macsec" "mepa_macsec_event_poll" ["port_no"; "ev_mask"] "mepa_macsec_event_poll" ].

(** [mepa_macsec_event_seq_threshold_set] to [mepa_macsec_hmac_counters_get]. *)
Definition apis_16 : list api_fn :=
  [ api_in "mepa_macsec" "mepa_macsec_event_seq_threshold_set"
      ["port_no"; "threshold"] "mepa_macsec_event_seq_threshold_set";
    api_in "mepa_macsec" "mepa_macsec_event_seq_threshold_get"
      ["port_no"; "threshold"] "mepa_macsec_event_seq_threshold_get";
    api_in "mepa_macsec" "mepa_macsec_event_xpn_seq_threshold_set"
      ["port_no"; "threshold"] "mepa_macsec_event_xpn_seq_threshold_set";
    api_in "mepa_macsec" "mepa_macsec_event_xpn_seq_threshold_get"
      ["port_no"; "threshold"] "mepa_macsec_event_xpn_seq_threshold_get";
    api_in "mepa_macsec" "mepa_macsec_egr_intr_sa_get" ["port_no"; "port"; "an"] "mepa_macsec_egr_intr_sa_get";
    api_in "mepa_macsec" "mepa_macsec_csr_read" ["port_no"; "mmd"; "addr"; "value"] "mepa_macsec_csr_read";
    api_in "mepa_macsec" "mepa_macsec_csr_write" ["port_no"; "mmd"; "addr"; "value"] "mepa_macsec_csr_write";
    api_in "mepa_macsec" "mepa_macsec_dbg_counter_get" ["port_no"; "counters"] "mepa_macsec_dbg_counter_get";
    api_in "mepa_macsec" "mepa_macsec_hmac_counters_get"
      ["port_no"; "counters"; "clear"] "mepa_macsec_hmac_counters_get" ].

(** [mepa_macsec_lmac_counters_get] to [mepa_macsec_controlled_counters_clear]. *)
Definition apis_17 : list api_fn :=
  [ api_in "mepa_macsec" "mepa_macsec_lmac_counters_get"
      ["port_no"; "counters"; "clear"] "mepa_macsec_lmac_counters_get";
    api_in "mepa_macsec" "mepa_macsec_is_capable" ["port_no"; "capable"] "mepa_macsec_is_capable";
    api_in "mepa_macsec" "mepa_macsec_dbg_reg_dump" ["port_no"; "pr"] "mepa_macsec_dbg_reg_dump";
    api_in "mepa_macsec" "mepa_macsec_inst_count_get" ["port_no"; "count"] "mepa_macsec_inst_count_get";
    api_in "mepa_macsec" "mepa_macsec_lmac_counters_clear" ["port_no"] "mepa_macsec_lmac_counters_clear";
    api_in "mepa_macsec" "mepa_macsec_hmac_counters_clear" ["port_no"] "mepa_macsec_hmac_counters_clear";
    api_in "mepa_macsec" "mepa_macsec_debug_counters_clear" ["port_no"] "mepa_macsec_debug_counters_clear";
    api_in "mepa_macsec" "mepa_macsec_common_counters_clear" ["port_no"] "mepa_macsec_common_counters_clear";
    api_in "mepa_macsec" "mepa_macsec_uncontrolled_counters_clear"
      ["port_no"] "mepa_macsec_uncontrolled_counters_clear";
    api_in "mepa_macsec" "mepa_macsec_controlled_counters_clear" ["port"] "mepa_macsec_controlled_counters_clear" ].

(** [mepa_macsec_rxsa_counters_clear] to [mepa_mac_block_mtu_set]. *)
Definition apis_18 : list api_fn :=
  [ api_in "mepa_macsec" "mepa_macsec_rxsa_counters_clear" ["port"; "sci"; "an"] "mepa_macsec_rxsa_counters_clear";
    api_in "mepa_macsec" "mepa_macsec_rxsc_counters_clear" ["port"; "sci"] "mepa_macsec_rxsc_counters_clear";
    api_in "mepa_macsec" "mepa_macsec_txsa_counters_clear" ["port"; "an"] "mepa_macsec_txsa_counters_clear";
    api_in "mepa_macsec" "mepa_macsec_txsc_counters_clear" ["port"] "mepa_macsec_txsc_counters_clear";
    api_in "mepa_macsec" "mepa_macsec_secy_counters_clear" ["port"] "mepa_macsec_secy_counters_clear";
    api_in "mepa_macsec" "mepa_macsec_port_enable_status_get"
      ["port_no"; "status"] "mepa_macsec_port_enable_status_get";
    api_in "mepa_macsec" "mepa_macsec_rxsa_an_status_get"
      ["port"; "sci"; "an"; "status"] "mepa_macsec_rxsa_an_status_get";
    api_in "mepa_macsec" "mepa_mac_block_mtu_get" ["port_no"; "mtu_value"; "mtu_tag_check"] "mepa_mac_block_mtu_get";
    api_in "mepa_macsec" "mepa_mac_block_mtu_set" ["port_no"; "mtu_value"; "mtu_tag_check"] "mepa_mac_block_mtu_set" ].

(** [mepa_macsec_fcbuf_frame_gap_comp_set] to [mepa_tc10_set_sleep_support]. *)
Definition apis_19 : list api_fn :=
  [ api_in "mepa_macsec" "mepa_macsec_fcbuf_frame_gap_comp_set"
      ["port_no"; "frm_gap"] "mepa_macsec_fcbuf_frame_gap_comp_set";
    api_in "mepa_macsec" "mepa_macsec_dbg_fcb_block_reg_dump" ["port_no"; "pr"] "mepa_macsec_dbg_fcb_block_reg_dump";
    api_in "mepa_macsec" "mepa_macsec_dbg_frm_match_handling_ctrl_reg_dump"
      ["port_no"; "pr"] "mepa_macsec_dbg_frm_match_handling_ctrl_reg_dump";
    api_in "mepa_macsec" "mepa_macsec_dbg_reconfig" ["port_no"] "mepa_macsec_dbg_reconfig";
    api_in "mepa_macsec" "mepa_macsec_dbg_update_seq_set"
      ["port"; "sci"; "an"; "egr"; "disable"] "mepa_macsec_dbg_update_seq_set";
    api "mepa_prbs_set" ["type"; "direction"; "prbs_conf"] "mepa_driver_prbs_set";
    api "mepa_prbs_get" ["type"; "direction"; "prbs_conf"] "mepa_driver_prbs_get";
    api "mepa_prbs_monitor_set" ["value"] "mepa_driver_prbs_monitor_set";
    api "mepa_prbs_monitor_get" ["value"] "mepa_driver_prbs_monitor_get";
    api "mepa_serdes_tx_conf_set" ["value"] "mepa_driver_serdes_tx_conf_set";
    Api "mepa_capability" ["capability"] [Slot "mepa_capability"] 0 [] (Slot "mepa_capability") ["capability"] true;
    api_in "mepa_tc10" "mepa_tc10_set_sleep_support" ["enable"] "mepa_tc10_set_sleep_support" ].

(** [mepa_tc10_get_sleep_support] to [mepa_tc10_send_sleep_request]. *)
Definition apis_20 : list api_fn :=
  [ api_in "mepa_tc10" "mepa_tc10_get_sleep_support" ["enable"] "mepa_tc10_get_sleep_support";
    api_in "mepa_tc10" "mepa_tc10_set_wakeup_support" ["mode"] "mepa_tc10_set_wakeup_support";
    api_in "mepa_tc10" "mepa_tc10_get_wakeup_support" ["mode"] "mepa_tc10_get_wakeup_support";
    api_in "mepa_tc10" "mepa_tc10_set_wakeup_fwd_support" ["mode"] "mepa_tc10_set_wakeup_fwd_support";
    api_in "mepa_tc10" "mepa_tc10_get_wakeup_fwd_support" ["mode"] "mepa_tc10_get_wakeup_fwd_support";
    api_in "mepa_tc10" "mepa_tc10_set_wake_pin_polarity" ["pin"; "polarity"] "mepa_tc10_set_wake_pin_polarity";
    api_in "mepa_tc10" "mepa_tc10_get_wake_pin_polarity" ["pin"; "polarity"] "mepa_tc10_get_wake_pin_polarity";
    api_in "mepa_tc10" "mepa_tc10_set_pin_mode" ["pin"; "mode"] "mepa_tc10_set_pin_mode";
    api_in "mepa_tc10" "mepa_tc10_get_pin_mode" ["pin"; "mode"] "mepa_tc10_get_pin_mode";
    api_in "mepa_tc10" "mepa_tc10_send_sleep_request" ["req"] "mepa_tc10_send_sleep_request" ].

(** [mepa_tc10_get_state] to [mepa_t1s_get_plca_config]. *)
Definition apis_21 : list api_fn :=
  [ api_in "mepa_tc10" "mepa_tc10_get_state" ["state"; "indication"] "mepa_tc10_get_state";
    api_in "mepa_tc10" "mepa_tc10_send_wake_request" [] "mepa_tc10_send_wake_request";
    api "mepa_warmstart_conf_end" [] "mepa_driver_warmrestart_conf_end";
    api "mepa_warmstart_conf_get" ["restart"] "mepa_driver_warmrestart_conf_get";
    api "mepa_warmstart_conf_set" ["restart"] "mepa_driver_warmrestart_conf_set";
    api "mepa_phy_qsgmii_sync" [] "mepa_driver_phy_qsgmii_sync";
    api_in "mepa_t1s" "mepa_t1s_set_plca_config" ["cfg"] "mepa_driver_t1s_set_plca_config";
    api_in "mepa_t1s" "mepa_t1s_get_plca_config" ["cfg"] "mepa_driver_t1s_get_plca_config" ].

Definition mepa_apis : list api_fn :=
  concat [apis_1; apis_2; apis_3; apis_4; apis_5; apis_6; apis_7; apis_8; apis_9; apis_10; apis_11; apis_12; apis_13; apis_14; apis_15; apis_16; apis_17; apis_18; apis_19; apis_20; apis_21].

(** ** A row of a driver table

    The driver of the Malibu family ([mepa/vtss/src/vtss.c]); [sub] are its
    time stamping and MACsec tables. *)
Definition malibu_drivers : mepa_driver_t := Mk_mepa_driver_t 0x8250 0x0000FFF0
  [ ("mepa_driver_delete", "phy_10g_delete");
    ("mepa_driver_reset", "malibu_10g_reset");
    ("mepa_capability", "malibu_10g_capability");
    ("mepa_driver_poll", "phy_10g_poll");
    ("mepa_driver_conf_set", "phy_10g_conf_set");
    ("mepa_driver_conf_get", "phy_10g_conf_get");
    ("mepa_driver_if_set", "mscc_if_set");
    ("mepa_driver_if_get", "malibu_10g_if_get");
    ("mepa_driver_power_set", "malibu_10g_power_set");
    ("mepa_driver_event_poll", "malibu_10g_event_poll");
    ("mepa_driver_probe", "phy_10g_probe");
    ("mepa_driver_gpio_out_set", "malibu_10g_gpio_write");
    ("mepa_driver_gpio_in_get", "malibu_10g_gpio_read");
    ("mepa_driver_phy_info_get", "phy_10g_info_get");
    ("mepa_driver_clause45_read", "phy_10g_clause45_read");
    ("mepa_driver_clause45_write", "phy_10g_clause45_write");
    ("mepa_driver_event_enable_set", "malibu_10g_event_enable_set");
    ("mepa_driver_event_enable_get", "malibu_10g_event_enable_get");
    ("mepa_driver_phy_i2c_read", "malibu_10g_i2c_read");
    ("mepa_driver_phy_i2c_write", "malibu_10g_i2c_write");
    ("mepa_driver_warmrestart_conf_get", "phy_10g_warmrestart_conf_get");
    ("mepa_driver_warmrestart_conf_end", "phy_10g_warmrestart_conf_end");
    ("mepa_driver_warmrestart_conf_set", "phy_10g_warmrestart_conf_set");
    ("mepa_driver_synce_clock_conf_set", "phy_10g_synce_clk_conf_set");
    ("mepa_debug_info_dump", "phy_debug_info_dump") ].

(** ** What an API function does *)

(** Everything that is loaded has been tested before, in this order, and the
    arguments are the parameters. *)
Definition guarded (a : api_fn) : bool :=
  match api_target a, api_guards a with
  | Slot s, [Slot s'] => String.eqb s s'
  | Member t s, [Table t'; Member t'' s'] => String.eqb t t' && String.eqb t t'' && String.eqb s s'
  | _, _ => false
  end && bool_decide (api_args a = api_params a) &&
  Z.eqb (api_null a) (if String.eqb (api_name a) "mepa_capability" then 0%Z else MEPA_RC_NOT_IMPLEMENTED).
Definition unguarded : list string := ["mepa_i2c_clock_select"; "mepa_fefi_set"].

Lemma all_guarded :
  forallb (fun a => guarded a || existsb (String.eqb (api_name a)) unguarded) mepa_apis = true.
Proof. vm_compute. reflexivity. Qed.
Lemma apis_guarded a : In a mepa_apis -> ~ In (api_name a) unguarded -> guarded a = true.
Proof.
  intros Ha Hn. pose proof all_guarded as H. rewrite forallb_forall in H. specialize (H a Ha).
  apply orb_true_iff in H as [H|H]; [done|]. apply existsb_exists in H as (n & Hin & En).
  apply String.eqb_eq in En. destruct Hn. by rewrite En.
Qed.

(** The member that an API function [mepa_x] calls is [mepa_x] of a table, or
    [mepa_driver_x] or [mepa_driver_phy_x] of the driver, [warmstart] being
    spelled [warmrestart] there. *)
Definition member_of (p : ptr) : string := match p with Slot s | Member _ s => s | Table t => t end.
Definition respelled (x : string) : string :=
  if String.prefix "warmstart" x then "warmrestart" ++ substring 9 (String.length x) x else x.
Definition named_after (a : api_fn) : bool :=
  let x := respelled (substring 5 (String.length (api_name a)) (api_name a)) in
  existsb (String.eqb (member_of (api_target a))) [api_name a; "mepa_driver_" ++ x; "mepa_driver_phy_" ++ x].
Lemma all_named : forallb named_after mepa_apis = true.
Proof. vm_compute. reflexivity. Qed.

(** The function a pointer of the tables names, if any. *)
Definition fn_of (d : driver) (p : ptr) : option string := default None (load d p).

Lemma guarded_call a d : guarded a = true ->
  run_api a (Some d) =
  match fn_of d (api_target a) with
  | Some f => Calls f (api_params a) (api_result a)
  | None => Returns (api_null a)
  end.
Proof.
  unfold guarded. rewrite !andb_true_iff. intros [[Hg Ha] _]. apply bool_decide_eq_true in Ha.
  unfold run_api, fn_of. destruct (api_target a) as [s|t|t s]; [|done|].
  - destruct (api_guards a) as [|[s'|t'|t' s'] [|? ?]]; try done. apply String.eqb_eq in Hg as <-.
    cbn [run_guards load default]. destruct (drv_fn (d_main d) s); [by rewrite Ha|done].
  - destruct (api_guards a) as [|[s'|t'|t' s'] [|[s2|t2|t2 s2] [|? ?]]]; try done.
    rewrite !andb_true_iff, !String.eqb_eq in Hg. destruct Hg as [[<- <-] <-].
    cbn [run_guards load]. destruct (d_sub d t) as [l|]; [|done]. cbn [default].
    destruct (slot_lookup l s); [by rewrite Ha|done].
Qed.

(** C40. An API function, two aside, on any device: without a device, without
    the table it needs or without the function in it, it returns
    [MEPA_RC_NOT_IMPLEMENTED] (the capability query returns 0); otherwise it
    calls that function of the driver, which is the one named after it ([mepa_x]
    calls [mepa_x], [mepa_driver_x] or [mepa_driver_phy_x], where a warm start
    is called a warm restart), with its own arguments, in their order. *)
Theorem api_dispatch a dev :
  In a mepa_apis -> ~ In (api_name a) unguarded ->
  named_after a = true /\
  api_null a = (if String.eqb (api_name a) "mepa_capability" then 0%Z else MEPA_RC_NOT_IMPLEMENTED) /\
  run_api a dev =
  match (d ← dev; fn_of d (api_target a)) with
  | Some f => Calls f (api_params a) (api_result a)
  | None => Returns (api_null a)
  end.
Proof.
  intros Ha Hn. pose proof (apis_guarded a Ha Hn) as Hg. split_and!.
  - pose proof all_named as H. rewrite forallb_forall in H. by apply H.
  - unfold guarded in Hg. apply andb_true_iff in Hg as [_ Hg]. by apply Z.eqb_eq.
  - destruct dev as [d|]; [|done]. cbn [option_bind]. by apply guarded_call.
Qed.

(** Two API functions test another pointer than the one they call, and they
    are the only ones that can call through NULL: selecting the clock of the
    I2C bus, and setting the far-end fault mode. *)
Theorem api_null_call a :
  In a mepa_apis -> (exists d, run_api a (Some d) = Null_deref) <-> In (api_name a) unguarded.
Proof.
  intros Ha. split.
  - intros [d Hd]. destruct (in_dec string_dec (api_name a) unguarded) as [|Hn]; [done|].
    rewrite guarded_call in Hd by by apply apis_guarded. by destruct (fn_of _ _).
  - pose (d := fun slot => Driver (Mk_mepa_driver_t 0 0 [(slot, "f")]) (fun _ => None)).
    assert (forallb (fun a => negb (existsb (String.eqb (api_name a)) unguarded) ||
      match run_api a (Some (d "mepa_driver_phy_i2c_write")), run_api a (Some (d "mepa_driver_phy_fefi_get")) with
      | Null_deref, _ | _, Null_deref => true | _, _ => false end) mepa_apis = true) as H by (vm_compute; reflexivity).
    intros Hn. rewrite forallb_forall in H. specialize (H a Ha). apply orb_true_iff in H as [H|H].
    + apply negb_true_iff in H. rewrite <- not_true_iff_false in H. destruct H. apply existsb_exists.
      exists (api_name a). split; [done|apply String.eqb_refl].
    + destruct (run_api a (Some (d "mepa_driver_phy_i2c_write"))) eqn:E1; [| |by eexists];
        destruct (run_api a (Some (d "mepa_driver_phy_fefi_get"))) eqn:E2; try done; by eexists.
Qed.

(** ** Witnesses *)
Definition poll_api : api_fn := api "mepa_poll" ["status"] "mepa_driver_poll".
Definition i2c_clock_api : api_fn :=
  Api "mepa_i2c_clock_select" ["clk_value"] [Slot "mepa_driver_phy_i2c_write"] MEPA_RC_NOT_IMPLEMENTED []
    (Slot "mepa_driver_phy_i2c_clock_select") ["clk_value"] true.
Definition malibu : driver := Driver malibu_drivers (fun _ => None).

(** The driver of the Malibu family has the one function and not the other. *)
Example malibu_crash : run_api i2c_clock_api (Some malibu) = Null_deref.
Proof. reflexivity. Qed.

Lemma api_dispatch_witness :
  In poll_api mepa_apis /\ ~ In (api_name poll_api) unguarded /\
  named_after poll_api = true /\ api_null poll_api = MEPA_RC_NOT_IMPLEMENTED /\ run_api poll_api (Some malibu) = Calls "phy_10g_poll" ["status"] true.
Proof.
  assert (In poll_api mepa_apis) as Ha by (cbn; auto 10).
  assert (~ In (api_name poll_api) unguarded) as Hn by (intros [?|[?|[]]]; discriminate).
  split; [exact Ha|]. split; [exact Hn|]. exact (api_dispatch poll_api (Some malibu) Ha Hn).
Defined.
Lemma api_null_call_witness :
  In i2c_clock_api mepa_apis /\ exists d, run_api i2c_clock_api (Some d) = Null_deref.
Proof.
  assert (In i2c_clock_api mepa_apis) as Ha.
  { unfold mepa_apis. cbn [concat]. do 2 (apply in_or_app; right). apply in_or_app. left. cbn. auto 10. }
  split; [exact Ha|]. apply (api_null_call i2c_clock_api Ha). left. reflexivity.
Defined.
