(* ===== verification/Enums.v ===== *)
(** * Enums: the enumerations of the MEPA API

    The enumerators of [common.h], [types.h] and [phy_ts.h] with the values the
    C rules give them. *)

From Stdlib Require Import ZArith.
From S2P Require Import Prelude.

(** [mesa_port_speed_t] *)
Definition MESA_SPEED_UNDEFINED : Z := 0.
Definition MESA_SPEED_10M : Z := 1.
Definition MESA_SPEED_100M : Z := 2.
Definition MESA_SPEED_1G : Z := 3.
Definition MESA_SPEED_2500M : Z := 4.
Definition MESA_SPEED_5G : Z := 5.
Definition MESA_SPEED_10G : Z := 6.
Definition MESA_SPEED_12G : Z := 7.
Definition MESA_SPEED_25G : Z := 8.
Definition MESA_SPEED_AUTO : Z := 9.

(** [mesa_port_interface_t] *)
Definition MESA_PORT_INTERFACE_NO_CONNECTION : Z := 0.
Definition MESA_PORT_INTERFACE_LOOPBACK : Z := 1.
Definition MESA_PORT_INTERFACE_INTERNAL : Z := 2.
Definition MESA_PORT_INTERFACE_MII : Z := 3.
Definition MESA_PORT_INTERFACE_GMII : Z := 4.
Definition MESA_PORT_INTERFACE_RGMII : Z := 5.
Definition MESA_PORT_INTERFACE_RGMII_ID : Z := 6.
Definition MESA_PORT_INTERFACE_RGMII_RXID : Z := 7.
Definition MESA_PORT_INTERFACE_RGMII_TXID : Z := 8.
Definition MESA_PORT_INTERFACE_TBI : Z := 9.
Definition MESA_PORT_INTERFACE_RTBI : Z := 10.
Definition MESA_PORT_INTERFACE_SGMII : Z := 11.
Definition MESA_PORT_INTERFACE_SGMII_2G5 : Z := 12.
Definition MESA_PORT_INTERFACE_SGMII_CISCO : Z := 13.
Definition MESA_PORT_INTERFACE_SERDES : Z := 14.
Definition MESA_PORT_INTERFACE_VAUI : Z := 15.
Definition MESA_PORT_INTERFACE_100FX : Z := 16.
Definition MESA_PORT_INTERFACE_XAUI : Z := 17.
Definition MESA_PORT_INTERFACE_RXAUI : Z := 18.
Definition MESA_PORT_INTERFACE_XGMII : Z := 19.
Definition MESA_PORT_INTERFACE_SPI4 : Z := 20.
Definition MESA_PORT_INTERFACE_QSGMII : Z := 21.
Definition MESA_PORT_INTERFACE_SFI : Z := 22.
Definition MESA_PORT_INTERFACE_USXGMII : Z := 23.
Definition MESA_PORT_INTERFACE_USGMII : Z := 24.
Definition MESA_PORT_INTERFACE_QXGMII : Z := 25.
Definition MESA_PORT_INTERFACE_DXGMII_5G : Z := 26.
Definition MESA_PORT_INTERFACE_DXGMII_10G : Z := 27.
Definition MESA_PORT_INTERFACE_CPU : Z := 28.
Definition MESA_PORT_INTERFACE_MASQUERADING : Z := 29.
Definition MESA_PORT_INTERFACE_RMII : Z := 30.

(** [mepa_manual_neg_t] *)
Definition MEPA_MANUAL_NEG_DISABLED : Z := 0.
Definition MEPA_MANUAL_NEG_REF : Z := 1.
Definition MEPA_MANUAL_NEG_CLIENT : Z := 2.

(** [mepa_media_mode_t] *)
Definition MEPA_MEDIA_MODE_AUTO : Z := 0.
Definition MEPA_MEDIA_MODE_MDI : Z := 1.
Definition MEPA_MEDIA_MODE_MDIX : Z := 2.

(** [mepa_gpio_mode_t] *)
Definition MEPA_GPIO_MODE_NONE : Z := 0.
Definition MEPA_GPIO_MODE_IN : Z := 1.
Definition MEPA_GPIO_MODE_OUT : Z := 2.
Definition MEPA_GPIO_MODE_ALT : Z := 3.
Definition MEPA_GPIO_MODE_LED_LINK_ACTIVITY : Z := 4.
Definition MEPA_GPIO_MODE_LED_LINK1000_ACTIVITY : Z := 5.
Definition MEPA_GPIO_MODE_LED_LINK100_ACTIVITY : Z := 6.
Definition MEPA_GPIO_MODE_LED_LINK10_ACTIVITY : Z := 7.
Definition MEPA_GPIO_MODE_LED_LINK100_1000_ACTIVITY : Z := 8.
Definition MEPA_GPIO_MODE_LED_LINK10_1000_ACTIVITY : Z := 9.
Definition MEPA_GPIO_MODE_LED_LINK10_100_ACTIVITY : Z := 10.
Definition MEPA_GPIO_MODE_LED_LINK100BASE_FX_1000BASE_X_ACTIVITY : Z := 11.
Definition MEPA_GPIO_MODE_LED_DUPLEX_COLLISION : Z := 12.
Definition MEPA_GPIO_MODE_LED_COLLISION : Z := 13.
Definition MEPA_GPIO_MODE_LED_ACTIVITY : Z := 14.
Definition MEPA_GPIO_MODE_LED_BASE100_FX_1000BASE_X_FIBER_ACTIVITY : Z := 15.
Definition MEPA_GPIO_MODE_LED_AUTONEGOTIATION_FAULT : Z := 16.
Definition MEPA_GPIO_MODE_LED_LINK1000BASE_X_ACTIVITY : Z := 17.
Definition MEPA_GPIO_MODE_LED_LINK100BASE_FX_ACTIVITY : Z := 18.
Definition MEPA_GPIO_MODE_LED_BASE1000_ACTIVITY : Z := 19.
Definition MEPA_GPIO_MODE_LED_BASE100_FX_ACTIVITY : Z := 20.
Definition MEPA_GPIO_MODE_LED_FORCE_LED_OFF : Z := 21.
Definition MEPA_GPIO_MODE_LED_FORCE_LED_ON : Z := 22.
Definition MEPA_GPIO_MODE_LED_FAST_LINK_FAIL : Z := 23.
Definition MEPA_GPIO_MODE_LED_LINK_TX : Z := 24.
Definition MEPA_GPIO_MODE_LED_LINK_RX : Z := 25.
Definition MEPA_GPIO_MODE_LED_LINK_FAULT : Z := 26.
Definition MEPA_GPIO_MODE_LED_LINK_NO_ACT_ANY_SPEED : Z := 27.
Definition MEPA_GPIO_MODE_LED_LOCAL_RXER_STATUS : Z := 28.
Definition MEPA_GPIO_MODE_LED_REMOTE_RXER_STATUS : Z := 29.
Definition MEPA_GPIO_MODE_LED_NEGOTIATED_SPEED : Z := 30.
Definition MEPA_GPIO_MODE_LED_MASTER_SLAVE_MODE : Z := 31.
Definition MEPA_GPIO_MODE_LED_PCS_TX_ERR_STATUS : Z := 32.
Definition MEPA_GPIO_MODE_LED_PCS_RX_ERR_STATUS : Z := 33.
Definition MEPA_GPIO_MODE_LED_PCS_TX_ACTIVITY : Z := 34.
Definition MEPA_GPIO_MODE_LED_PCS_RX_ACTIVITY : Z := 35.
Definition MEPA_GPIO_MODE_LED_WAKE_ON_LAN : Z := 36.
Definition MEPA_GPIO_MODE_LED_DISABLE_EXTENDED : Z := 37.
Definition MEPA_GPIO_MODE_RCVRD_CLK_OUT1 : Z := 38.
Definition MEPA_GPIO_MODE_RCVRD_CLK_OUT2 : Z := 39.
Definition MEPA_GPIO_MODE_PTP_REF_CLK : Z := 40.
Definition MEPA_GPIO_MODE_PTP_REF_ADJ : Z := 41.
Definition MEPA_GPIO_MODE_PUSH_PULL : Z := 42.
Definition MEPA_GPIO_MODE_OPEN_SOURCE : Z := 43.
Definition MEPA_GPIO_MODE_OPEN_DRAIN : Z := 44.
Definition MEPA_GPIO_MODE_ACTIVE_LOW : Z := 45.
Definition MEPA_GPIO_MODE_ACTIVE_HIGH : Z := 46.

(** [mepa_led_num_t] *)
Definition MEPA_LED0 : Z := 0.
Definition MEPA_LED1 : Z := 1.
Definition MEPA_LED2 : Z := 2.
Definition MEPA_LED3 : Z := 3.

(** [mepa_eee_mode_t] *)
Definition MEPA_EEE_DISABLE : Z := 0.
Definition MEPA_EEE_ENABLE : Z := 1.
Definition MEPA_EEE_REG_UPDATE : Z := 2.

(** [mepa_reset_point_t] *)
Definition MEPA_RESET_POINT_DEFAULT : Z := 0.
Definition MEPA_RESET_POINT_PRE : Z := 1.
Definition MEPA_RESET_POINT_POST : Z := 2.
Definition MEPA_RESET_POINT_POST_MAC : Z := 3.

(** [mepa_synce_clock_src_t] *)
Definition MEPA_SYNCE_CLOCK_SRC_DISABLED : Z := 0.
Definition MEPA_SYNCE_CLOCK_SRC_SERDES_MEDIA : Z := 1.
Definition MEPA_SYNCE_CLOCK_SRC_COPPER_MEDIA : Z := 2.
Definition MEPA_SYNCE_CLOCK_SRC_CLOCK_IN_1 : Z := 3.
Definition MEPA_SYNCE_CLOCK_SRC_CLOCK_IN_2 : Z := 4.
Definition MEPA_SYNCE_CLOCK_SRC_LINE0 : Z := 5.
Definition MEPA_SYNCE_CLOCK_SRC_LINE1 : Z := 6.
Definition MEPA_SYNCE_CLOCK_SRC_LINE2 : Z := 7.
Definition MEPA_SYNCE_CLOCK_SRC_LINE3 : Z := 8.
Definition MEPA_SYNCE_CLOCK_SRC_HOST0 : Z := 9.
Definition MEPA_SYNCE_CLOCK_SRC_HOST1 : Z := 10.
Definition MEPA_SYNCE_CLOCK_SRC_HOST2 : Z := 11.
Definition MEPA_SYNCE_CLOCK_SRC_HOST3 : Z := 12.
Definition MEPA_SYNCE_CLOCK_SRC_SREFCLK : Z := 13.
Definition MEPA_SYNCE_CLOCK_SRC_PTP_LTC : Z := 14.

(** [mepa_synce_clock_dst_t] *)
Definition MEPA_SYNCE_CLOCK_DST_1 : Z := 0.
Definition MEPA_SYNCE_CLOCK_DST_2 : Z := 1.
Definition MEPA_SYNCE_CLOCK_DST_3 : Z := 2.
Definition MEPA_SYNCE_CLOCK_DST_4 : Z := 3.
Definition MEPA_SYNCE_CLOCK_DST_SCKOUT : Z := 4.
Definition MEPA_SYNCE_CLOCK_DST_NONE : Z := 5.
Definition MEPA_SYNCE_CLOCK_DST_MAX : Z := 6.

(** [mepa_freq_t] *)
Definition MEPA_FREQ_25M : Z := 0.
Definition MEPA_FREQ_31_25M : Z := 1.
Definition MEPA_FREQ_62_5M : Z := 2.
Definition MEPA_FREQ_125M : Z := 3.
Definition MEPA_FREQ_155_52M : Z := 4.
Definition MEPA_FREQ_156_25M : Z := 5.
Definition MEPA_FREQ_161_13M : Z := 6.
Definition MEPA_FREQ_311_04M : Z := 7.
Definition MEPA_FREQ_322_27M : Z := 8.
Definition MEPA_FREQ_75M : Z := 9.
Definition MEPA_FREQ_37_50M : Z := 10.
Definition MEPA_FREQ_79_58M : Z := 11.
Definition MEPA_FREQ_39_79M : Z := 12.
Definition MEPA_FREQ_15_62M : Z := 13.
Definition MEPA_FREQ_128_90M : Z := 14.
Definition MEPA_FREQ_64_45M : Z := 15.
Definition MEPA_FREQ_32_22M : Z := 16.
Definition MEPA_FREQ_80_56M : Z := 17.

(** [mepa_prbs_pattern_t] *)
Definition MEPA_PRBS7 : Z := 0.
Definition MEPA_PRBS9 : Z := 1.
Definition MEPA_PRBS11 : Z := 2.
Definition MEPA_PRBS15 : Z := 3.
Definition MEPA_PRBS23 : Z := 4.
Definition MEPA_PRBS31 : Z := 5.
Definition MEPA_CLOCK_PATTERN : Z := 6.
Definition MEPA_USER_DEFINED_PATTERN : Z := 7.
Definition MEPA_PCS_SQAURE_PATTERN : Z := 8.
Definition MEPA_PCS_LOCAL_FAULT_SEQ : Z := 9.
Definition MEPA_PCS_ZERO_SEQ : Z := 10.
Definition MEPA_PCS_SCRAMBLED_TEST_PATTERN : Z := 11.

(** [mepa_prbs_clock_t] *)
Definition MEPA_PRBS_CLK25_MHZ : Z := 0.
Definition MEPA_PRBS_CLK125_MHZ : Z := 1.

(** [mepa_prbs_loopback_t] *)
Definition MEPA_PRBS_INTERNAL_LOOPBACK : Z := 0.
Definition MEPA_PRBS_EXTERNAL_LOOPBACK : Z := 1.

(** [mepa_phy_prbs_type_t] *)
Definition MEPA_PHY_PRBS_TYPE_SERDES : Z := 0.
Definition MEPA_PHY_PRBS_TYPE_PCS : Z := 1.
Definition MEPA_PHY_PRBS_TYPE_CNT : Z := 2.

(** [mepa_phy_prbs_direction_t] *)
Definition MEPA_PHY_DIRECTION_HOST : Z := 0.
Definition MEPA_PHY_DIRECTION_LINE : Z := 1.
Definition MEPA_PHY_DIRECTION_CNT : Z := 2.

(** [mepa_ts_clock_freq_t] *)
Definition MEPA_TS_CLOCK_FREQ_25M : Z := 0.
Definition MEPA_TS_CLOCK_FREQ_125M : Z := 1.
Definition MEPA_TS_CLOCK_FREQ_15625M : Z := 2.
Definition MEPA_TS_CLOCK_FREQ_200M : Z := 3.
Definition MEPA_TS_CLOCK_FREQ_250M : Z := 4.
Definition MEPA_TS_CLOCK_FREQ_500M : Z := 5.
Definition MEPA_TS_CLOCK_FREQ_MAX : Z := 6.
Definition MEPA_TS_CLOCK_FREQ_NONE : Z := 7.

(** [mepa_ts_rx_timestamp_pos_t] *)
Definition MEPA_TS_RX_TIMESTAMP_POS_IN_PTP : Z := 0.
Definition MEPA_TS_RX_TIMESTAMP_POS_AT_END : Z := 1.

(** [mepa_ts_rx_timestamp_len_t] *)
Definition MEPA_TS_RX_TIMESTAMP_LEN_30BIT : Z := 0.
Definition MEPA_TS_RX_TIMESTAMP_LEN_32BIT : Z := 1.

(** [mepa_ts_fifo_mode_t] *)
Definition MEPA_TS_FIFO_MODE_NORMAL : Z := 0.
Definition MEPA_TS_FIFO_MODE_SPI : Z := 1.

(** [mepa_ts_ptp_clock_mode_t] *)
Definition MEPA_TS_PTP_CLOCK_MODE_NONE : Z := 0.
Definition MEPA_TS_PTP_CLOCK_MODE_BC1STEP : Z := 1.
Definition MEPA_TS_PTP_CLOCK_MODE_BC2STEP : Z := 2.
Definition MEPA_TS_PTP_CLOCK_MODE_TC1STEP : Z := 3.
Definition MEPA_TS_PTP_CLOCK_MODE_TC2STEP : Z := 4.

(** [mepa_ts_ptp_delaym_type_t] *)
Definition MEPA_TS_PTP_DELAYM_P2P : Z := 0.
Definition MEPA_TS_PTP_DELAYM_E2E : Z := 1.

(** [mepa_ts_ls_type_t] *)
Definition MEPA_TS_CMD_LOAD : Z := 0.
Definition MEPA_TS_CMD_SAVE : Z := 1.
Definition MEPA_TS_ADJ_CMD_CLEAR : Z := 2.
Definition MEPA_TS_CMD_DELTA : Z := 3.
Definition MEPA_TS_CMD_TOD : Z := 4.

(** [mepa_ts_clock_src_t] *)
Definition MEPA_TS_CLOCK_SRC_EXTERNAL : Z := 0.
Definition MEPA_TS_CLOCK_SRC_CLIENT_RX : Z := 1.
Definition MEPA_TS_CLOCK_SRC_CLIENT_TX : Z := 2.
Definition MEPA_TS_CLOCK_SRC_INTERNAL : Z := 3.
Definition MEPA_TS_CLOCK_SRC_125MHZ_INTERNAL_SYS_PLL : Z := 4.
Definition MEPA_TS_CLOCK_SRC_125MHZ_QSGMII_REC_CLOCK : Z := 5.
Definition MEPA_TS_CLOCK_SRC_EXT_1588_REF_CLOCK : Z := 6.
Definition MEPA_TS_CLOCK_SRC_RESERVED : Z := 7.
Definition MEPA_TS_CLOCK_SRC_FROM_RX_PORT0 : Z := 8.
Definition MEPA_TS_CLOCK_SRC_FROM_RX_PORT1 : Z := 9.
Definition MEPA_TS_CLOCK_SRC_FROM_RX_PORT2 : Z := 10.
Definition MEPA_TS_CLOCK_SRC_FROM_RX_PORT3 : Z := 11.
Definition MEPA_TS_CLOCK_SRC_NONE : Z := 12.

(** [mepa_ts_tc_op_mode_t] *)
Definition MEPA_TS_TC_OP_MODE_A : Z := 0.
Definition MEPA_TS_TC_OP_MODE_B : Z := 1.
Definition MEPA_TS_TC_OP_MODE_C : Z := 2.

(** [mepa_ts_pkt_encap_t] *)
Definition MEPA_TS_ENCAP_NONE : Z := 0.
Definition MEPA_TS_ENCAP_ETH_PTP : Z := 1.
Definition MEPA_TS_ENCAP_ETH_IP_PTP : Z := 2.
Definition MEPA_TS_ENCAP_ETH_HSR_PTP : Z := 3.
Definition MEPA_TS_ENCAP_ETH_IP_IP_PTP : Z := 4.
Definition MEPA_TS_ENCAP_ETH_ETH_PTP : Z := 5.
Definition MEPA_TS_ENCAP_ETH_ETH_IP_PTP : Z := 6.
Definition MEPA_TS_ENCAP_ETH_MPLS_IP_PTP : Z := 7.
Definition MEPA_TS_ENCAP_ETH_MPLS_ETH_PTP : Z := 8.
Definition MEPA_TS_ENCAP_ETH_MPLS_ETH_IP_PTP : Z := 9.

(** [mepa_ts_mac_match_mode_t] *)
Definition MEPA_TS_ETH_ADDR_MATCH_ANY : Z := 0.
Definition MEPA_TS_ETH_ADDR_MATCH_48BIT : Z := 1.
Definition MEPA_TS_ETH_ADDR_MATCH_ANY_UNICAST : Z := 2.
Definition MEPA_TS_ETH_ADDR_MATCH_ANY_MULTICAST : Z := 3.

(** [mepa_ts_mac_match_select_t] *)
Definition MEPA_TS_ETH_MATCH_NONE : Z := 0.
Definition MEPA_TS_ETH_MATCH_DEST_ADDR : Z := 1.
Definition MEPA_TS_ETH_MATCH_SRC_ADDR : Z := 2.
Definition MEPA_TS_ETH_MATCH_SRC_OR_DEST : Z := 3.

(** [mepa_ts_ip_ver_t] *)
Definition MEPA_TS_IP_VER_4 : Z := 0.
Definition MEPA_TS_IP_VER_6 : Z := 1.

(** [mepa_ts_ip_match_select_t] *)
Definition MEPA_TS_IP_MATCH_NONE : Z := 0.
Definition MEPA_TS_IP_MATCH_DEST : Z := 1.
Definition MEPA_TS_IP_MATCH_SRC : Z := 2.
Definition MEPA_TS_IP_MATCH_SRC_OR_DEST : Z := 3.

(** [mepa_ts_match_mode_t] *)
Definition MEPA_TS_MATCH_MODE_RANGE : Z := 0.
Definition MEPA_TS_MATCH_MODE_VALUE : Z := 1.

Definition MEPA_SPEED_UNDEFINED : Z := MESA_SPEED_UNDEFINED.
Definition MEPA_SPEED_10M : Z := MESA_SPEED_10M.
Definition MEPA_SPEED_100M : Z := MESA_SPEED_100M.
Definition MEPA_SPEED_1G : Z := MESA_SPEED_1G.
Definition MEPA_SPEED_AUTO : Z := MESA_SPEED_AUTO.
Definition MEPA_TS_EGR_ENGINE_ERR : Z := 8.
Definition MEPA_TS_EGR_RW_FCS_ERR : Z := 16.
Definition MEPA_TS_EGR_TIMESTAMP_CAPTURED : Z := 32.
Definition MEPA_TS_EGR_FIFO_OVERFLOW : Z := 64.
Definition MEPA_TS_FIFO_MAX_ENTRIES : Z := 8.

(** Events, cable diagnostics and capabilities. *)
Definition MEPA_LINK_LOS : Z := 1.
Definition MEPA_FAST_LINK_FAIL : Z := 2.
Definition MEPA_CABLE_DIAG_STATUS_OPEN : Z := 1.
Definition MEPA_CABLE_DIAG_STATUS_SHORT : Z := 2.
Definition MEPA_CABLE_DIAG_STATUS_ABNORM : Z := 4.
Definition MEPA_CABLE_DIAG_STATUS_UNKNOWN : Z := 16.
Definition MEPA_CAP_SPEED_1G : Z := 100000003.
Definition MEPA_CAP_TS_GEN_3 : Z := 100000009.
Definition MEPA_CAP_TS_NONE : Z := 100000010.
Definition MEPA_CAP_SPEED_MASK_1G : Z := 1.
Definition MEPA_CAP_TS_MASK_GEN_3 : Z := 64.
Definition MEPA_CAP_TS_MASK_NONE : Z := 128.

(** Layers and groups of the debug dumps. *)
Definition MEPA_DEBUG_LAYER_ALL : Z := 0.
Definition MEPA_DEBUG_LAYER_AIL : Z := 1.
Definition MEPA_DEBUG_LAYER_CIL : Z := 2.
Definition MEPA_DEBUG_GROUP_ALL : Z := 0.
Definition MEPA_DEBUG_GROUP_PHY : Z := 1.
Definition MEPA_DEBUG_GROUP_PHY_TS : Z := 2.
