(* ===== verification/Lan8814Regs.v ===== *)
(** * Lan8814Regs: the register map of the LAN8814

    The macros of [mepa/microchip/common/include/lan8814_registers.h] and
    [mepa/microchip/lan8814/src/lan8814_ts_registers.h] that the driver uses,
    under their own names.  A macro that expands to a page (or MMD) number and
    an address is a pair. *)

From Stdlib Require Import ZArith.
From S2P Require Import Prelude Machine Trace Mdio.

Definition LAN8814_BIT (x : Z) : Z := 1 .<< x.
Definition LAN8814_BIT_MASK (x : Z) : Z := (1 .<< x) - 1.
Definition LAN8814_EXTRACT_BITFIELD (value offset width : Z) : Z :=
  (value .>> offset) .& LAN8814_BIT_MASK width.
Definition LAN8814_ENCODE_BITFIELD (value offset width : Z) : Z :=
  (value .& LAN8814_BIT_MASK width) .<< offset.
Definition LAN8814_ENCODE_BITMASK (offset width : Z) : Z :=
  LAN8814_BIT_MASK width .<< offset.


Definition LAN8814_DEF_MASK : Z := 65535.
Definition LAN8814_EXT_PAGE_0 : Z := 0.
Definition LAN8814_EXT_PAGE_1 : Z := 1.
Definition LAN8814_EXT_PAGE_2 : Z := 2.
Definition LAN8814_EXT_PAGE_3 : Z := 3.
Definition LAN8814_EXT_PAGE_4 : Z := 4.
Definition LAN8814_EXT_PAGE_5 : Z := 5.
Definition LAN8814_EXT_PAGE_28 : Z := 28.
Definition LAN8814_EXT_PAGE_29 : Z := 29.
Definition LAN8814_EXT_PAGE_31 : Z := 31.
Definition LAN8814_MMD_3 : Z := 3.
Definition LAN8814_MMD_7 : Z := 7.
Definition LAN8814_DEF_DRV_ID : Z := 2233952.
Definition LAN8814_INT_PHY_DRV_ID : Z := 2233968.
Definition LAN8842_DRV_ID : Z := 2234048.
Definition LAN8804_SKU : Z := 34820.
Definition LAN8832_SKU : Z := 34866.
Definition LAN8814_BASIC_CONTROL : Z := 0.
Definition LAN8814_F_BASIC_CTRL_SPEED_SEL_BIT_1 : Z := LAN8814_BIT 6.
Definition LAN8814_F_BASIC_CTRL_DUP_MODE : Z := LAN8814_BIT 8.
Definition LAN8814_F_BASIC_CTRL_RESTART_ANEG : Z := LAN8814_BIT 9.
Definition LAN8814_F_BASIC_CTRL_ISO_MODE_EN : Z := LAN8814_BIT 10.
Definition LAN8814_F_BASIC_CTRL_SOFT_POW_DOWN : Z := LAN8814_BIT 11.
Definition LAN8814_F_BASIC_CTRL_ANEG_ENA : Z := LAN8814_BIT 12.
Definition LAN8814_F_BASIC_CTRL_SPEED_SEL_BIT_0 : Z := LAN8814_BIT 13.
Definition LAN8814_F_BASIC_CTRL_LOOPBACK : Z := LAN8814_BIT 14.
Definition LAN8814_F_BASIC_CTRL_SOFT_RESET : Z := LAN8814_BIT 15.
Definition LAN8814_BASIC_STATUS : Z := 1.
Definition LAN8814_F_BASIC_STATUS_LINK_STATUS : Z := LAN8814_BIT 2.
Definition LAN8814_F_BASIC_STATUS_ANEG_COMPLETE : Z := LAN8814_BIT 5.
Definition LAN8814_DEVICE_ID_2 : Z := 3.
Definition LAN8814_X_DEV_ID_MODEL (x : Z) : Z := LAN8814_EXTRACT_BITFIELD x 4 6.
Definition LAN8814_X_DEV_ID_REV (x : Z) : Z := LAN8814_EXTRACT_BITFIELD x 0 4.
Definition LAN8814_ANEG_ADVERTISEMENT : Z := 4.
Definition LAN8814_ANEG_LP_BASE : Z := 5.
Definition LAN8814_F_ANEG_LP_BASE_10_T_HALF_DUP : Z := LAN8814_BIT 5.
Definition LAN8814_F_ANEG_LP_BASE_10_T_FULL_DUP : Z := LAN8814_BIT 6.
Definition LAN8814_F_ANEG_LP_BASE_100_X_HALF_DUP : Z := LAN8814_BIT 7.
Definition LAN8814_F_ANEG_LP_BASE_100_X_FULL_DUP : Z := LAN8814_BIT 8.
Definition LAN8814_F_ANEG_LP_BASE_SYM_PAUSE : Z := LAN8814_BIT 10.
Definition LAN8814_F_ANEG_LP_BASE_ASYM_PAUSE : Z := LAN8814_BIT 11.
Definition LAN8814_ANEG_MSTR_SLV_CTRL : Z := 9.
Definition LAN8814_F_ANEG_MSTR_SLV_CTRL_1000_T_FULL_DUP : Z := LAN8814_BIT 9.
Definition LAN8814_F_ANEG_MSTR_SLV_CTRL_CFG_VAL : Z := LAN8814_BIT 11.
Definition LAN8814_F_ANEG_MSTR_SLV_CTRL_CFG_ENA : Z := LAN8814_BIT 12.
Definition LAN8814_ANEG_MSTR_SLV_STATUS : Z := 10.
Definition LAN8814_F_ANEG_MSTR_SLV_STATUS_CFG_FAULT : Z := LAN8814_BIT 15.
Definition LAN8814_F_ANEG_MSTR_SLV_STATUS_CFG_RES : Z := LAN8814_BIT 14.
Definition LAN8814_F_ANEG_MSTR_SLV_LOCAL_RCVR_STATUS : Z := LAN8814_BIT 13.
Definition LAN8814_F_ANEG_MSTR_SLV_REMOTE_RCVR_STATUS : Z := LAN8814_BIT 12.
Definition LAN8814_F_ANEG_MSTR_SLV_STATUS_1000_T_FULL_DUP : Z := LAN8814_BIT 11.
Definition LAN8814_MMD_ACCESS_CTRL : Z := 13.
Definition LAN8814_F_MMD_ACCESS_CTRL_MMD_FUNC : Z := 16384.
Definition LAN8814_MMD_ACCESS_ADDR_DATA : Z := 14.
Definition LAN8814_PCS_LOOP_POLARITY_CTRL : Z := 17.
Definition LAN8814_F_PCS_LOOP_CTRL_PORT_LOOP : Z := LAN8814_BIT 8.
Definition LAN8814_CABLE_DIAG : Z := 18.
Definition LAN8814_F_CABLE_DIAG_TEST_ENA : Z := LAN8814_BIT 15.
Definition LAN8814_F_CABLE_TEST_PAIR (x : Z) : Z := LAN8814_ENCODE_BITFIELD x 12 2.
Definition LAN8814_M_CABLE_TEST_PAIR : Z := LAN8814_ENCODE_BITMASK 12 2.
Definition LAN8814_X_CABLE_DIAG_STATUS (x : Z) : Z := LAN8814_EXTRACT_BITFIELD x 8 2.
Definition LAN8814_X_CABLE_DIAG_DATA (x : Z) : Z := LAN8814_EXTRACT_BITFIELD x 0 8.
Definition LAN8814_DIGITAL_AX_AN_STATUS : Z := 20.
Definition LAN8814_F_SIG_DET : Z := LAN8814_BIT 13.
Definition LAN8814_F_LINK_DET : Z := LAN8814_BIT 14.
Definition LAN8814_EXT_PAGE_ACCESS_CTRL : Z := 22.
Definition LAN8814_F_EXT_PAGE_ACCESS_CTRL_EP_FUNC : Z := 16384.
Definition LAN8814_F_EXT_PAGE_ACCESS_CTRL_INCR_RD_WR : Z := 32768.
Definition LAN8814_EXT_PAGE_ACCESS_ADDR_DATA : Z := 23.
Definition LAN8814_GPHY_INTR_ENA : Z := 24.
Definition LAN8814_F_GPHY_INTR_ENA_FLF_INTR : Z := LAN8814_BIT 12.
Definition LAN8814_F_GPHY_INTR_ENA_LINK_DOWN : Z := LAN8814_BIT 2.
Definition LAN8814_GPHY_INTR_STATUS : Z := 27.
Definition LAN8814_GPHY_DBG_CTL1 : Z := 28.
Definition LAN8814_F_MDI_SET : Z := LAN8814_BIT 7.
Definition LAN8814_F_SWAPOFF : Z := LAN8814_BIT 6.
Definition LAN8814_RESV_CON_LOOP : Z := 30.
Definition LAN8814_CONTROL : Z := 31.
Definition LAN8814_F_CONTROL_SOFT_RESET : Z := LAN8814_BIT 1.
Definition LAN8814_F_1000T_SPEED_STATUS : Z := LAN8814_BIT 6.
Definition LAN8814_F_CONTROL_RESERVED : Z := LAN8814_BIT 14.
Definition LAN8814_FLF_CONFIG_STATUS : ereg := (LAN8814_EXT_PAGE_0, 15).
Definition LAN8814_FLF_CFG_STAT_LINK_DOWN : Z := LAN8814_BIT 0.
Definition LAN8814_FLF_CFG_STAT_FLF_ENABLE : Z := LAN8814_BIT 1.
Definition LAN8814_DFE_INIT2_100 : ereg := (LAN8814_EXT_PAGE_1, 119).
Definition LAN8814_PGA_TABLE_1G_ENTRY_0 : ereg := (LAN8814_EXT_PAGE_1, 121).
Definition LAN8814_PGA_TABLE_1G_ENTRY_1 : ereg := (LAN8814_EXT_PAGE_1, 122).
Definition LAN8814_PGA_TABLE_1G_ENTRY_2 : ereg := (LAN8814_EXT_PAGE_1, 123).
Definition LAN8814_PGA_TABLE_1G_ENTRY_3 : ereg := (LAN8814_EXT_PAGE_1, 124).
Definition LAN8814_PGA_TABLE_1G_ENTRY_4 : ereg := (LAN8814_EXT_PAGE_1, 125).
Definition LAN8814_PGA_TABLE_1G_ENTRY_5 : ereg := (LAN8814_EXT_PAGE_1, 126).
Definition LAN8814_PGA_TABLE_1G_ENTRY_6 : ereg := (LAN8814_EXT_PAGE_1, 127).
Definition LAN8814_PGA_TABLE_1G_ENTRY_7 : ereg := (LAN8814_EXT_PAGE_1, 128).
Definition LAN8814_PGA_TABLE_1G_ENTRY_8 : ereg := (LAN8814_EXT_PAGE_1, 129).
Definition LAN8814_PGA_TABLE_1G_ENTRY_9 : ereg := (LAN8814_EXT_PAGE_1, 130).
Definition LAN8814_PGA_TABLE_1G_ENTRY_10 : ereg := (LAN8814_EXT_PAGE_1, 131).
Definition LAN8814_PGA_TABLE_1G_ENTRY_11 : ereg := (LAN8814_EXT_PAGE_1, 132).
Definition LAN8814_PGA_TABLE_1G_ENTRY_12 : ereg := (LAN8814_EXT_PAGE_1, 133).
Definition LAN8814_PGA_TABLE_1G_ENTRY_13 : ereg := (LAN8814_EXT_PAGE_1, 134).
Definition LAN8814_PGA_TABLE_1G_ENTRY_14 : ereg := (LAN8814_EXT_PAGE_1, 135).
Definition LAN8814_PGA_TABLE_1G_ENTRY_15 : ereg := (LAN8814_EXT_PAGE_1, 136).
Definition LAN8814_PGA_TABLE_1G_ENTRY_16 : ereg := (LAN8814_EXT_PAGE_1, 137).
Definition LAN8814_PGA_TABLE_1G_ENTRY_17 : ereg := (LAN8814_EXT_PAGE_1, 138).
Definition LAN8814_PD_CONTROLS : ereg := (LAN8814_EXT_PAGE_1, 157).
Definition LAN8814_LINK_QUALITY_MONITOR_SETTING : ereg := (LAN8814_EXT_PAGE_1, 142).
Definition LAN8814_DCQ_CTRL : ereg := (LAN8814_EXT_PAGE_1, 230).
Definition LAN8814_F_DCQ_CTRL_READ_CAPTURE : Z := LAN8814_BIT 15.
Definition LAN8814_M_DCQ_CTRL_CHANNEL_MASK : Z := LAN8814_ENCODE_BITMASK 0 2.
Definition LAN8814_DCQ_SQI : ereg := (LAN8814_EXT_PAGE_1, 228).
Definition LAN8814_X_DCQ_SQI_VALUE (x : Z) : Z := LAN8814_EXTRACT_BITFIELD x 1 3.
Definition LAN8814_OPERATION_MODE_STRAP_LOW : ereg := (LAN8814_EXT_PAGE_2, 2).
Definition LAN8814_SELFTEST_PKT_CNT_LO : ereg := (LAN8814_EXT_PAGE_2, 9).
Definition LAN8814_SELFTEST_PKT_CNT_HI : ereg := (LAN8814_EXT_PAGE_2, 10).
Definition LAN8814_SELFTEST_FRAME_CNT : ereg := (LAN8814_EXT_PAGE_2, 12).
Definition LAN8814_F_SELFTEST_FRAME_CNT_EN : Z := LAN8814_BIT 0.
Definition LAN8814_SELFTEST_PGEN_EN : ereg := (LAN8814_EXT_PAGE_2, 13).
Definition LAN8814_F_SELFTEST_PGEN_EN : Z := LAN8814_BIT 0.
Definition LAN8814_SELFTEST_EN_REG : ereg := (LAN8814_EXT_PAGE_2, 14).
Definition LAN8814_F_SELFTEST_RX_CRC_CHK_EN : Z := LAN8814_BIT 8.
Definition LAN8814_F_SELFTEST_TX_CRC_CHK_EN : Z := LAN8814_BIT 4.
Definition LAN8814_F_SELFTEST_EN : Z := LAN8814_BIT 0.
Definition LAN8814_1000BT_FIX_LATENCY_ENABLE : ereg := (LAN8814_EXT_PAGE_2, 15).
Definition LAN8814_SELFTEST_GOOD_CNT_LO : ereg := (LAN8814_EXT_PAGE_2, 60).
Definition LAN8814_SELFTEST_GOOD_CNT_HI : ereg := (LAN8814_EXT_PAGE_2, 61).
Definition LAN8814_SELFTEST_ERR_CNT_LO : ereg := (LAN8814_EXT_PAGE_2, 62).
Definition LAN8814_SELFTEST_ERR_CNT_HI : ereg := (LAN8814_EXT_PAGE_2, 63).
Definition LAN8814_ALIGN_SWAP : ereg := (LAN8814_EXT_PAGE_2, 74).
Definition LAN8814_F_ALIGN_TX_A_B_SWAP : Z := LAN8814_BIT 1.
Definition LAN8814_M_ALIGN_TX_SWAP : Z := LAN8814_ENCODE_BITMASK 0 2.
Definition LAN8814_SOF : ereg := (LAN8814_EXT_PAGE_2, 75).
Definition LAN8814_M_SOF_PREEMPTION_ENABLE : Z := LAN8814_ENCODE_BITMASK 8 2.
Definition LAN8814_OPERATION_MODE_STRAP_HIGH : ereg := (LAN8814_EXT_PAGE_2, 81).
Definition LAN8814_EEE_WAKE_TX_TIMER : ereg := (LAN8814_EXT_PAGE_3, 14).
Definition LAN8814_CHIP_HARD_RESET : ereg := (LAN8814_EXT_PAGE_4, 8).
Definition LAN8814_GPIO_EN1 : ereg := (LAN8814_EXT_PAGE_4, 32).
Definition LAN8814_GPIO_EN2 : ereg := (LAN8814_EXT_PAGE_4, 33).
Definition LAN8814_GPIO_DIR1 : ereg := (LAN8814_EXT_PAGE_4, 34).
Definition LAN8814_GPIO_DIR2 : ereg := (LAN8814_EXT_PAGE_4, 35).
Definition LAN8814_GPIO_DATA1 : ereg := (LAN8814_EXT_PAGE_4, 38).
Definition LAN8814_GPIO_DATA2 : ereg := (LAN8814_EXT_PAGE_4, 39).
Definition LAN8814_GPIO_SOF_SEL : ereg := (LAN8814_EXT_PAGE_4, 49).
Definition LAN8814_M_GPIO_SOF_SEL_SOF0 : Z := LAN8814_ENCODE_BITMASK 0 3.
Definition LAN8814_M_GPIO_SOF_SEL_SOF1 : Z := LAN8814_ENCODE_BITMASK 3 3.
Definition LAN8814_M_GPIO_SOF_SEL_SOF2 : Z := LAN8814_ENCODE_BITMASK 6 3.
Definition LAN8814_M_GPIO_SOF_SEL_SOF3 : Z := LAN8814_ENCODE_BITMASK 9 3.
Definition LAN8814_CHIP_LVL_INTR_STATUS : ereg := (LAN8814_EXT_PAGE_4, 51).
Definition LAN8814_INTR_CTRL : ereg := (LAN8814_EXT_PAGE_4, 52).
Definition LAN8814_INTR_CTRL_CHIP_LVL_ENA : Z := LAN8814_BIT 0.
Definition LAN8814_QSGMII_HARD_RESET : ereg := (LAN8814_EXT_PAGE_4, 66).
Definition LAN8814_QSGMII_SOFT_RESET : ereg := (LAN8814_EXT_PAGE_4, 67).
Definition LAN8814_QSGMII_SOFT_RESET_BIT : Z := LAN8814_BIT 0.
Definition LAN8814_QSGMII_AUTO_ANEG : ereg := (LAN8814_EXT_PAGE_4, 69).
Definition LAN8814_F_QSGMII_AUTO_ANEG_AUTO_ANEG_ENA : Z := LAN8814_BIT 0.
Definition LAN8814_QSGMII_SERDES_TX_CTRL : ereg := (LAN8814_EXT_PAGE_4, 129).
Definition LAN8814_QSGMII_SERDES_TX_LEVEL (x : Z) : Z := LAN8814_ENCODE_BITFIELD x 7 7.
Definition LAN8814_QSGMII_SERDES_TX_BOOST (x : Z) : Z := LAN8814_ENCODE_BITFIELD x 0 7.
Definition LAN8814_QSGMII_SERDES_MISC_CTRL : ereg := (LAN8814_EXT_PAGE_4, 137).
Definition LAN8814_F_QSGMII_SERDES_MISC_CTRL_LB_MODE : Z := LAN8814_BIT 4.
Definition LAN8814_RCVRD_CLK_OUT_SEL_1 : ereg := (LAN8814_EXT_PAGE_4, 256).
Definition LAN8814_RCVRD_CLK_OUT_DIV_1 : ereg := (LAN8814_EXT_PAGE_4, 257).
Definition LAN8814_RCVRD_CLK_OUT_SEL_2 : ereg := (LAN8814_EXT_PAGE_4, 258).
Definition LAN8814_RCVRD_CLK_OUT_DIV_2 : ereg := (LAN8814_EXT_PAGE_4, 259).
Definition LAN8814_SERDES_CR_CONTROL : ereg := (LAN8814_EXT_PAGE_4, 139).
Definition LAN8814_F_SERDES_CR_CONTROL_0 : Z := LAN8814_BIT 0.
Definition LAN8814_F_SERDES_CR_CONTROL_1 : Z := LAN8814_BIT 1.
Definition LAN8814_SERDES_CR_ADDR : ereg := (LAN8814_EXT_PAGE_4, 140).
Definition LAN8814_SERDES_CR_DATA : ereg := (LAN8814_EXT_PAGE_4, 141).
Definition LAN8814_SERDES_CLOCK_CONF : ereg := (LAN8814_EXT_PAGE_4, 142).
Definition LAN8814_LED_CONTROL_REG1 : ereg := (LAN8814_EXT_PAGE_5, 0).
Definition LAN8814_F_LED_CONTROL_KSZ_LED_MODE : Z := LAN8814_BIT 6.
Definition LAN8814_LED_CONTROL_REG2 : ereg := (LAN8814_EXT_PAGE_5, 1).
Definition LAN8814_QSGMII_PCS1G_ANEG_CONFIG : ereg := (LAN8814_EXT_PAGE_5, 19).
Definition LAN8814_F_QSGMII_PCS1G_ANEG_CONFIG_ANEG_ENA : Z := LAN8814_BIT 3.
Definition LAN8814_F_QSGMII_PCS1G_ANEG_CONFIG_ANEG_RESTART : Z := LAN8814_BIT 4.
Definition LAN8814_QSGMII_PCS1G_ANEG_TX_ADVERTISE_CAP : ereg := (LAN8814_EXT_PAGE_5, 20).
Definition LAN8814_QSGMII_PCS1G_DEBUG : ereg := (LAN8814_EXT_PAGE_5, 24).
Definition LAN8814_F_QSGMII_PCS1G_DBG_GMII_LOOPBACK : Z := LAN8814_BIT 0.
Definition LAN8814_F_QSGMII_PCS1G_DBG_TBI_HOST_LOOPBACK : Z := LAN8814_BIT 1.
Definition LAN8814_RX_RA_FIFO_THRESHOLDS_1 : ereg := (LAN8814_EXT_PAGE_5, 32).
Definition LAN8814_RX_RA_FIFO_THRESHOLDS_2 : ereg := (LAN8814_EXT_PAGE_5, 33).
Definition LAN8814_RX_RA_FIFO_THRESHOLDS_3 : ereg := (LAN8814_EXT_PAGE_5, 34).
Definition LAN8814_TX_RA_FIFO_THRESHOLDS_1 : ereg := (LAN8814_EXT_PAGE_5, 38).
Definition LAN8814_TX_RA_FIFO_THRESHOLDS_2 : ereg := (LAN8814_EXT_PAGE_5, 39).
Definition LAN8814_TX_RA_FIFO_THRESHOLDS_3 : ereg := (LAN8814_EXT_PAGE_5, 40).
Definition LAN8814_TX_RA_FIFO_RESET : ereg := (LAN8814_EXT_PAGE_5, 44).
Definition LAN8814_RX_RA_FIFO_RESET : ereg := (LAN8814_EXT_PAGE_5, 45).
Definition LAN8814_POWER_MGMT_MODE_3 : ereg := (LAN8814_EXT_PAGE_28, 19).
Definition LAN8814_POWER_MGMT_MODE_4 : ereg := (LAN8814_EXT_PAGE_28, 20).
Definition LAN8814_POWER_MGMT_MODE_5 : ereg := (LAN8814_EXT_PAGE_28, 21).
Definition LAN8814_POWER_MGMT_MODE_6 : ereg := (LAN8814_EXT_PAGE_28, 22).
Definition LAN8814_POWER_MGMT_MODE_7 : ereg := (LAN8814_EXT_PAGE_28, 23).
Definition LAN8814_POWER_MGMT_MODE_8 : ereg := (LAN8814_EXT_PAGE_28, 24).
Definition LAN8814_POWER_MGMT_MODE_9 : ereg := (LAN8814_EXT_PAGE_28, 25).
Definition LAN8814_POWER_MGMT_MODE_10 : ereg := (LAN8814_EXT_PAGE_28, 26).
Definition LAN8814_POWER_MGMT_MODE_11 : ereg := (LAN8814_EXT_PAGE_28, 27).
Definition LAN8814_POWER_MGMT_MODE_12 : ereg := (LAN8814_EXT_PAGE_28, 28).
Definition LAN8814_POWER_MGMT_MODE_13 : ereg := (LAN8814_EXT_PAGE_28, 29).
Definition LAN8814_POWER_MGMT_MODE_14 : ereg := (LAN8814_EXT_PAGE_28, 30).
Definition LAN8814_ANALOG_CONTROL_4 : ereg := (LAN8814_EXT_PAGE_28, 4).
Definition LAN8814_AFED_CONTROL : ereg := (LAN8814_EXT_PAGE_28, 9).
Definition LAN8814_ANALOG_CONTROL_1 : ereg := (LAN8814_EXT_PAGE_29, 1).
Definition LAN8814_ANALOG_CONTROL_10 : ereg := (LAN8814_EXT_PAGE_29, 13).
Definition LAN8814_CLOCK_MANAGEMENT_MODE_5 : ereg := (LAN8814_EXT_PAGE_31, 13).
Definition LAN8814_EEE_PCS_STATUS : ereg := (LAN8814_MMD_3, 1).
Definition LAN8814_EEE_ADVERTISEMENT : ereg := (LAN8814_MMD_7, 60).
Definition LAN8814_EEE_100_BT : Z := LAN8814_BIT 1.
Definition LAN8814_EEE_1000_BT : Z := LAN8814_BIT 2.
Definition LAN8814_LINK_PARTNER_EEE_ABILITY : ereg := (LAN8814_MMD_7, 61).
Definition LAN8814_F_LP_EEE_ABILITY_100_BT : Z := LAN8814_BIT 1.
Definition LAN8814_F_LP_EEE_ABILITY_1000_BT : Z := LAN8814_BIT 2.
Definition LAN8814_1588_PLL_DIVEDER : ereg := (LAN8814_EXT_PAGE_4, 323).
Definition LAN8814_1588_PLL_DIVR_F (x : Z) : Z := LAN8814_ENCODE_BITFIELD x 10 14.
Definition LAN8814_1588_PLL_DIVF_F (x : Z) : Z := LAN8814_ENCODE_BITFIELD x 3 9.
Definition LAN8814_1588_PLL_DIVQ_F (x : Z) : Z := LAN8814_ENCODE_BITFIELD x 0 2.
Definition LAN8814_PTP_CMD_CTL : ereg := (LAN8814_EXT_PAGE_4, 512).
Definition LAN8814_PTP_CMD_CTL_LTC_STEP_NANOSECONDS : Z := LAN8814_BIT 6.
Definition LAN8814_PTP_CMD_CTL_LTC_LOAD : Z := LAN8814_BIT 4.
Definition LAN8814_PTP_CMD_CTL_LTC_READ : Z := LAN8814_BIT 3.
Definition LAN8814_PTP_CMD_CTL_LTC_TEMP_RATE_SEL : Z := LAN8814_BIT 2.
Definition LAN8814_PTP_CMD_CTL_ENABLE : Z := LAN8814_BIT 1.
Definition LAN8814_PTP_GENERAL_CONFIG : ereg := (LAN8814_EXT_PAGE_4, 513).
Definition LAN8814_PTP_REF_CLK_CFG : ereg := (LAN8814_EXT_PAGE_4, 514).
Definition LAN8814_PTP_REF_CLK_CFG_REF_CLK_SOURCE_F (x : Z) : Z := LAN8814_ENCODE_BITFIELD x 10 3.
Definition LAN8814_PTP_REF_CLK_CFG_REF_CLK_PERIOD_OVERRIDE : Z := LAN8814_BIT 9.
Definition LAN8814_PTP_REF_CLK_CFG_REF_CLK_PERIOD_F (x : Z) : Z := LAN8814_ENCODE_BITFIELD x 0 9.
Definition LAN8814_PTP_LTC_SET_SEC_HI : ereg := (LAN8814_EXT_PAGE_4, 517).
Definition LAN8814_PTP_LTC_SET_SEC_MID : ereg := (LAN8814_EXT_PAGE_4, 518).
Definition LAN8814_PTP_LTC_SET_SEC_LO : ereg := (LAN8814_EXT_PAGE_4, 519).
Definition LAN8814_PTP_LTC_SET_NS_HI : ereg := (LAN8814_EXT_PAGE_4, 520).
Definition LAN8814_PTP_LTC_SET_NS_LO : ereg := (LAN8814_EXT_PAGE_4, 521).
Definition LAN8814_PTP_LTC_RATE_ADJ_HI : ereg := (LAN8814_EXT_PAGE_4, 524).
Definition LAN8814_PTP_LTC_RATE_ADJ_HI_DIR : Z := LAN8814_BIT 15.
Definition LAN8814_PTP_LTC_RATE_ADJ_LO : ereg := (LAN8814_EXT_PAGE_4, 525).
Definition LAN8814_PTP_LTC_STEP_ADJ_HI : ereg := (LAN8814_EXT_PAGE_4, 530).
Definition LAN8814_PTP_LTC_STEP_ADJ_DIR : Z := LAN8814_BIT 15.
Definition LAN8814_PTP_LTC_STEP_ADJ_LO : ereg := (LAN8814_EXT_PAGE_4, 531).
Definition LAN8814_PTP_LTC_EXT_ADJ_CFG : ereg := (LAN8814_EXT_PAGE_4, 532).
Definition LAN8814_PTP_LTC_EXT_ADJ_MODE : Z := LAN8814_BIT 4.
Definition LAN8814_PTP_LTC_EXT_ADJ_LOAD_EN : Z := LAN8814_BIT 0.
Definition LAN8814_PTP_LTC_TARGET_SEC_HI_A : ereg := (LAN8814_EXT_PAGE_4, 533).
Definition LAN8814_PTP_LTC_TARGET_SEC_LO_A : ereg := (LAN8814_EXT_PAGE_4, 534).
Definition LAN8814_PTP_LTC_TARGET_NS_HI_A : ereg := (LAN8814_EXT_PAGE_4, 535).
Definition LAN8814_PTP_LTC_TARGET_NS_LO_A : ereg := (LAN8814_EXT_PAGE_4, 536).
Definition LAN8814_PTP_LTC_TARGET_RELOAD_SEC_HI_A : ereg := (LAN8814_EXT_PAGE_4, 537).
Definition LAN8814_PTP_LTC_TARGET_RELOAD_SEC_LO_A : ereg := (LAN8814_EXT_PAGE_4, 538).
Definition LAN8814_PTP_LTC_TARGET_RELOAD_NS_HI_A : ereg := (LAN8814_EXT_PAGE_4, 539).
Definition LAN8814_PTP_LTC_TARGET_RELOAD_NS_LO_A : ereg := (LAN8814_EXT_PAGE_4, 540).
Definition LAN8814_PTP_LTC_TARGET_SEC_HI_B : ereg := (LAN8814_EXT_PAGE_4, 543).
Definition LAN8814_PTP_LTC_TARGET_SEC_LO_B : ereg := (LAN8814_EXT_PAGE_4, 544).
Definition LAN8814_PTP_LTC_TARGET_NS_HI_B : ereg := (LAN8814_EXT_PAGE_4, 545).
Definition LAN8814_PTP_LTC_TARGET_NS_LO_B : ereg := (LAN8814_EXT_PAGE_4, 546).
Definition LAN8814_PTP_LTC_TARGET_RELOAD_SEC_HI_B : ereg := (LAN8814_EXT_PAGE_4, 547).
Definition LAN8814_PTP_LTC_TARGET_RELOAD_SEC_LO_B : ereg := (LAN8814_EXT_PAGE_4, 548).
Definition LAN8814_PTP_LTC_TARGET_RELOAD_NS_HI_B : ereg := (LAN8814_EXT_PAGE_4, 549).
Definition LAN8814_PTP_LTC_TARGET_RELOAD_NS_LO_B : ereg := (LAN8814_EXT_PAGE_4, 550).
Definition LAN8814_PTP_LTC_RD_SEC_HI : ereg := (LAN8814_EXT_PAGE_4, 553).
Definition LAN8814_PTP_LTC_RD_SEC_MID : ereg := (LAN8814_EXT_PAGE_4, 554).
Definition LAN8814_PTP_LTC_RD_SEC_LO : ereg := (LAN8814_EXT_PAGE_4, 555).
Definition LAN8814_PTP_LTC_RD_NS_HI : ereg := (LAN8814_EXT_PAGE_4, 556).
Definition LAN8814_PTP_LTC_RD_NS_LO : ereg := (LAN8814_EXT_PAGE_4, 557).
Definition LAN8814_PTP_LTC_RD_SUBNS_HI : ereg := (LAN8814_EXT_PAGE_4, 558).
Definition LAN8814_PTP_LTC_RD_SUBNS_LO : ereg := (LAN8814_EXT_PAGE_4, 559).
Definition LAN8814_PTP_GPIO_CAP_MAP_LO : ereg := (LAN8814_EXT_PAGE_4, 562).
Definition LAN8814_PTP_GPIO_CAP_0_MAP_F (x : Z) : Z := LAN8814_ENCODE_BITFIELD x 0 4.
Definition LAN8814_PTP_GPIO_CAP_0_MAP : Z := LAN8814_ENCODE_BITMASK 0 4.
Definition LAN8814_PTP_GPIO_CAP_EN : ereg := (LAN8814_EXT_PAGE_4, 563).
Definition LAN8814_PTP_GPIO_RE_CAPTURE_EN_F (x : Z) : Z := LAN8814_ENCODE_BITFIELD x 0 8.
Definition LAN8814_PTP_GPIO_RE_CAPTURE_EN : Z := LAN8814_ENCODE_BITMASK 0 8.
Definition LAN8814_PTP_GPIO_CAP_LOCK : ereg := (LAN8814_EXT_PAGE_4, 564).
Definition LAN8814_PTP_GPIO_RE_CLOCK_SEC_HI : ereg := (LAN8814_EXT_PAGE_4, 565).
Definition LAN8814_PTP_GPIO_RE_CLOCK_SEC_LO : ereg := (LAN8814_EXT_PAGE_4, 566).
Definition LAN8814_PTP_GPIO_RE_CLOCK_NS_HI : ereg := (LAN8814_EXT_PAGE_4, 567).
Definition LAN8814_PTP_GPIO_RE_CLOCK_NS_LO : ereg := (LAN8814_EXT_PAGE_4, 568).
Definition LAN8814_PTP_LTC_HARD_RESET : ereg := (LAN8814_EXT_PAGE_4, 575).
Definition LAN8814_PTP_LTC_HARD_RESET_CMD : Z := LAN8814_BIT 0.
Definition LAN8814_PTP_LTC_SOFT_RESET : ereg := (LAN8814_EXT_PAGE_4, 576).
Definition LAN8814_PTP_OPERATING_MODE : ereg := (LAN8814_EXT_PAGE_4, 577).
Definition LAN8814_PTP_OPERATING_MODE_VAL_F (x : Z) : Z := LAN8814_ENCODE_BITFIELD x 0 2.
Definition LAN8814_PTP_OPERATING_MODE_VAL : Z := LAN8814_ENCODE_BITMASK 0 2.
Definition LAN8814_PTP_TSU_INT_EN : ereg := (LAN8814_EXT_PAGE_5, 512).
Definition LAN8814_PTP_TSU_INT_TX_TS_OVRFL_EN : Z := LAN8814_BIT 3.
Definition LAN8814_PTP_TSU_INT_TX_TS_EN : Z := LAN8814_BIT 2.
Definition LAN8814_PTP_TSU_INT_STS : ereg := (LAN8814_EXT_PAGE_5, 513).
Definition LAN8814_PTP_TX_TS_OVRFL_INT : Z := LAN8814_BIT 3.
Definition LAN8814_PTP_TX_TS_INT : Z := LAN8814_BIT 2.
Definition LAN8814_PTP_RX_USER_MAC_HI : ereg := (LAN8814_EXT_PAGE_5, 515).
Definition LAN8814_PTP_RX_USER_MAC_MID : ereg := (LAN8814_EXT_PAGE_5, 516).
Definition LAN8814_PTP_RX_USER_MAC_LO : ereg := (LAN8814_EXT_PAGE_5, 517).
Definition LAN8814_PTP_RX_USER_IP_ADDR_0 : ereg := (LAN8814_EXT_PAGE_5, 518).
Definition LAN8814_PTP_RX_USER_IP_ADDR_1 : ereg := (LAN8814_EXT_PAGE_5, 519).
Definition LAN8814_PTP_RX_USER_IP_ADDR_2 : ereg := (LAN8814_EXT_PAGE_5, 520).
Definition LAN8814_PTP_RX_USER_IP_ADDR_3 : ereg := (LAN8814_EXT_PAGE_5, 521).
Definition LAN8814_PTP_RX_USER_IP_ADDR_4 : ereg := (LAN8814_EXT_PAGE_5, 522).
Definition LAN8814_PTP_RX_USER_IP_ADDR_5 : ereg := (LAN8814_EXT_PAGE_5, 523).
Definition LAN8814_PTP_RX_USER_IP_ADDR_6 : ereg := (LAN8814_EXT_PAGE_5, 524).
Definition LAN8814_PTP_RX_USER_IP_ADDR_7 : ereg := (LAN8814_EXT_PAGE_5, 525).
Definition LAN8814_PTP_RX_USER_IP_MASK_0 : ereg := (LAN8814_EXT_PAGE_5, 526).
Definition LAN8814_PTP_RX_USER_IP_MASK_1 : ereg := (LAN8814_EXT_PAGE_5, 527).
Definition LAN8814_PTP_RX_USER_IP_MASK_2 : ereg := (LAN8814_EXT_PAGE_5, 528).
Definition LAN8814_PTP_RX_USER_IP_MASK_3 : ereg := (LAN8814_EXT_PAGE_5, 529).
Definition LAN8814_PTP_RX_USER_IP_MASK_4 : ereg := (LAN8814_EXT_PAGE_5, 530).
Definition LAN8814_PTP_RX_USER_IP_MASK_5 : ereg := (LAN8814_EXT_PAGE_5, 531).
Definition LAN8814_PTP_RX_USER_IP_MASK_6 : ereg := (LAN8814_EXT_PAGE_5, 532).
Definition LAN8814_PTP_RX_USER_IP_MASK_7 : ereg := (LAN8814_EXT_PAGE_5, 533).
Definition LAN8814_PTP_VLAN_ETH_TYPE_ID : ereg := (LAN8814_EXT_PAGE_5, 534).
Definition LAN8814_VLAN1_TYPE_ID : ereg := (LAN8814_EXT_PAGE_5, 535).
Definition LAN8814_VLAN1_TYPE_SELECT_F (x : Z) : Z := LAN8814_ENCODE_BITFIELD x 12 2.
Definition LAN8814_VLAN1_TYPE_ID_VAL_F (x : Z) : Z := LAN8814_ENCODE_BITFIELD x 0 11.
Definition LAN8814_VLAN1_ID_MASK : ereg := (LAN8814_EXT_PAGE_5, 536).
Definition LAN8814_VLAN1_ID_MASK_VAL_F (x : Z) : Z := LAN8814_ENCODE_BITFIELD x 0 11.
Definition LAN8814_VLAN1_VID_RANGE_UP : ereg := (LAN8814_EXT_PAGE_5, 537).
Definition LAN8814_VLAN1_VID_RANGE_EN : Z := LAN8814_BIT 12.
Definition LAN8814_VLAN1_VID_RANGE_UP_VAL_F (x : Z) : Z := LAN8814_ENCODE_BITFIELD x 0 11.
Definition LAN8814_VLAN1_VID_RANGE_LO : ereg := (LAN8814_EXT_PAGE_5, 538).
Definition LAN8814_VLAN2_TYPE_ID : ereg := (LAN8814_EXT_PAGE_5, 539).
Definition LAN8814_VLAN2_TYPE_SELECT_F (x : Z) : Z := LAN8814_ENCODE_BITFIELD x 12 2.
Definition LAN8814_VLAN2_TYPE_ID_VAL_F (x : Z) : Z := LAN8814_ENCODE_BITFIELD x 0 11.
Definition LAN8814_VLAN2_ID_MASK : ereg := (LAN8814_EXT_PAGE_5, 540).
Definition LAN8814_VLAN2_ID_MASK_VAL_F (x : Z) : Z := LAN8814_ENCODE_BITFIELD x 0 11.
Definition LAN8814_VLAN2_VID_RANGE_UP : ereg := (LAN8814_EXT_PAGE_5, 541).
Definition LAN8814_VLAN2_VID_RANGE_EN : Z := LAN8814_BIT 12.
Definition LAN8814_VLAN2_VID_RANGE_UP_VAL_F (x : Z) : Z := LAN8814_ENCODE_BITFIELD x 0 11.
Definition LAN8814_VLAN2_VID_RANGE_LO : ereg := (LAN8814_EXT_PAGE_5, 542).
Definition LAN8814_LLC_TYPE_ID : ereg := (LAN8814_EXT_PAGE_5, 543).
Definition LAN8814_PTP_RX_LATENCY_10 : ereg := (LAN8814_EXT_PAGE_5, 544).
Definition LAN8814_PTP_TX_LATENCY_10 : ereg := (LAN8814_EXT_PAGE_5, 545).
Definition LAN8814_PTP_RX_LATENCY_100 : ereg := (LAN8814_EXT_PAGE_5, 546).
Definition LAN8814_PTP_TX_LATENCY_100 : ereg := (LAN8814_EXT_PAGE_5, 547).
Definition LAN8814_PTP_RX_LATENCY_1000 : ereg := (LAN8814_EXT_PAGE_5, 548).
Definition LAN8814_PTP_TX_LATENCY_1000 : ereg := (LAN8814_EXT_PAGE_5, 549).
Definition LAN8814_PTP_ASYM_DLY_HI : ereg := (LAN8814_EXT_PAGE_5, 550).
Definition LAN8814_PTP_ASYM_DLY_LO : ereg := (LAN8814_EXT_PAGE_5, 551).
Definition LAN8814_PTP_PEERDLY_HI : ereg := (LAN8814_EXT_PAGE_5, 552).
Definition LAN8814_PTP_PEERDLY_LO : ereg := (LAN8814_EXT_PAGE_5, 553).
Definition LAN8814_PTP_CAP_INFO : ereg := (LAN8814_EXT_PAGE_5, 554).
Definition LAN8814_PTP_TX_USER_MAC_HI : ereg := (LAN8814_EXT_PAGE_5, 555).
Definition LAN8814_PTP_TX_USER_MAC_MID : ereg := (LAN8814_EXT_PAGE_5, 556).
Definition LAN8814_PTP_TX_USER_MAC_LO : ereg := (LAN8814_EXT_PAGE_5, 557).
Definition LAN8814_PTP_TX_USER_IP_ADDR_0 : ereg := (LAN8814_EXT_PAGE_5, 558).
Definition LAN8814_PTP_TX_USER_IP_ADDR_1 : ereg := (LAN8814_EXT_PAGE_5, 559).
Definition LAN8814_PTP_TX_USER_IP_ADDR_2 : ereg := (LAN8814_EXT_PAGE_5, 560).
Definition LAN8814_PTP_TX_USER_IP_ADDR_3 : ereg := (LAN8814_EXT_PAGE_5, 561).
Definition LAN8814_PTP_TX_USER_IP_ADDR_4 : ereg := (LAN8814_EXT_PAGE_5, 562).
Definition LAN8814_PTP_TX_USER_IP_ADDR_5 : ereg := (LAN8814_EXT_PAGE_5, 563).
Definition LAN8814_PTP_TX_USER_IP_ADDR_6 : ereg := (LAN8814_EXT_PAGE_5, 564).
Definition LAN8814_PTP_TX_USER_IP_ADDR_7 : ereg := (LAN8814_EXT_PAGE_5, 565).
Definition LAN8814_PTP_TX_USER_IP_MASK_0 : ereg := (LAN8814_EXT_PAGE_5, 566).
Definition LAN8814_PTP_TX_USER_IP_MASK_1 : ereg := (LAN8814_EXT_PAGE_5, 567).
Definition LAN8814_PTP_TX_USER_IP_MASK_2 : ereg := (LAN8814_EXT_PAGE_5, 568).
Definition LAN8814_PTP_TX_USER_IP_MASK_3 : ereg := (LAN8814_EXT_PAGE_5, 569).
Definition LAN8814_PTP_TX_USER_IP_MASK_4 : ereg := (LAN8814_EXT_PAGE_5, 570).
Definition LAN8814_PTP_TX_USER_IP_MASK_5 : ereg := (LAN8814_EXT_PAGE_5, 571).
Definition LAN8814_PTP_TX_USER_IP_MASK_6 : ereg := (LAN8814_EXT_PAGE_5, 572).
Definition LAN8814_PTP_TX_USER_IP_MASK_7 : ereg := (LAN8814_EXT_PAGE_5, 573).
Definition LAN8814_PTP_RX_PARSE_CONFIG : ereg := (LAN8814_EXT_PAGE_5, 578).
Definition LAN8814_PTP_RX_PARSE_CONFIG_PEER_NONPEER_MIX : Z := LAN8814_BIT 14.
Definition LAN8814_PTP_RX_PARSE_CONFIG_MAC_DA_EN : Z := LAN8814_BIT 11.
Definition LAN8814_PTP_RX_PARSE_CONFIG_MAC_DA_MODE_F (x : Z) : Z := LAN8814_ENCODE_BITFIELD x 8 3.
Definition LAN8814_PTP_RX_PARSE_CONFIG_UDP_SPORT_EN : Z := LAN8814_BIT 6.
Definition LAN8814_PTP_RX_PARSE_CONFIG_UDP_DPORT_EN : Z := LAN8814_BIT 5.
Definition LAN8814_PTP_RX_PARSE_CONFIG_IPV6_EN : Z := LAN8814_BIT 2.
Definition LAN8814_PTP_RX_PARSE_CONFIG_IPV4_EN : Z := LAN8814_BIT 1.
Definition LAN8814_PTP_RX_PARSE_CONFIG_LAYER2_EN : Z := LAN8814_BIT 0.
Definition LAN8814_PTP_RX_PARSE_VLAN_CONFIG : ereg := (LAN8814_EXT_PAGE_5, 579).
Definition LAN8814_PTP_RX_PARSE_VLAN_TAG_COUNT_F (x : Z) : Z := LAN8814_ENCODE_BITFIELD x 4 3.
Definition LAN8814_PTP_RX_PARSE_VLAN_VLAN2_CHECK_EN : Z := LAN8814_BIT 1.
Definition LAN8814_PTP_RX_PARSE_VLAN_VLAN1_CHECK_EN : Z := LAN8814_BIT 0.
Definition LAN8814_PTP_RX_PARSE_L2_ADDR_EN : ereg := (LAN8814_EXT_PAGE_5, 580).
Definition LAN8814_PTP_RX_PARSE_L2_MAC_EN_F (x : Z) : Z := LAN8814_ENCODE_BITFIELD x 0 2.
Definition LAN8814_PTP_RX_PARSE_IP_ADDR_EN : ereg := (LAN8814_EXT_PAGE_5, 581).
Definition LAN8814_PTP_RX_PARSE_IP_DA_EN : Z := LAN8814_BIT 13.
Definition LAN8814_PTP_RX_PARSE_IPv6_UMAC_EN_F (x : Z) : Z := LAN8814_ENCODE_BITFIELD x 6 2.
Definition LAN8814_PTP_RX_PARSE_IPv6_IP_EN_F (x : Z) : Z := LAN8814_ENCODE_BITFIELD x 4 2.
Definition LAN8814_PTP_RX_PARSE_IPv4_UMAC_EN_F (x : Z) : Z := LAN8814_ENCODE_BITFIELD x 2 2.
Definition LAN8814_PTP_RX_PARSE_IPv4_IP_EN_F (x : Z) : Z := LAN8814_ENCODE_BITFIELD x 0 2.
Definition LAN8814_PTP_RX_PARSE_UDP_SRC_PORT : ereg := (LAN8814_EXT_PAGE_5, 582).
Definition LAN8814_PTP_RX_PARSE_UDP_DEST_PORT : ereg := (LAN8814_EXT_PAGE_5, 583).
Definition LAN8814_PTP_RX_VERSION : ereg := (LAN8814_EXT_PAGE_5, 584).
Definition LAN8814_PTP_RX_DOMAIN_DOMAIN_LO : ereg := (LAN8814_EXT_PAGE_5, 585).
Definition LAN8814_PTP_RX_DOMAIN_DOMAIN_LO_RANGE_EN : Z := LAN8814_BIT 15.
Definition LAN8814_PTP_RX_DOMAIN_DOMAIN_LO_RANGE_LO_F (x : Z) : Z := LAN8814_ENCODE_BITFIELD x 0 8.
Definition LAN8814_PTP_RX_DOMAIN_MASK_DOMAIN_UP : ereg := (LAN8814_EXT_PAGE_5, 586).
Definition LAN8814_PTP_RX_SDOID_SDOID_LO : ereg := (LAN8814_EXT_PAGE_5, 587).
Definition LAN8814_PTP_RX_SDOID_SDOID_LO_RANGE_EN : Z := LAN8814_BIT 15.
Definition LAN8814_PTP_RX_SDOID_MASK_SDOID_UP : ereg := (LAN8814_EXT_PAGE_5, 588).
Definition LAN8814_PTP_RX_TIMESTAMP_EN : ereg := (LAN8814_EXT_PAGE_5, 589).
Definition LAN8814_PTP_RX_TIMESTAMP_CONFIG : ereg := (LAN8814_EXT_PAGE_5, 590).
Definition LAN8814_PTP_RX_PTP_ALT_MASTER_EN : Z := LAN8814_BIT 2.
Definition LAN8814_PTP_RX_PTP_UDP_CHKSUM_DIS : Z := LAN8814_BIT 1.
Definition LAN8814_PTP_RX_MOD : ereg := (LAN8814_EXT_PAGE_5, 591).
Definition LAN8814_PTP_RX_MOD_PTP_INSERT_TS_32BIT : Z := LAN8814_BIT 1.
Definition LAN8814_PTP_RX_MOD_PTP_INSERT_TS_EN : Z := LAN8814_BIT 0.
Definition LAN8814_PTP_RX_RSVD_BYTE_CFG : ereg := (LAN8814_EXT_PAGE_5, 592).
Definition LAN8814_PTP_RX_TAIL_TAG : ereg := (LAN8814_EXT_PAGE_5, 593).
Definition LAN8814_PTP_RX_TAIL_TAG_ER_FORWARD : Z := LAN8814_BIT 8.
Definition LAN8814_PTP_RX_TAIL_TAG_INSERT_IFG_F (x : Z) : Z := LAN8814_ENCODE_BITFIELD x 4 3.
Definition LAN8814_PTP_RX_TAIL_TAG_EN : Z := LAN8814_BIT 0.
Definition LAN8814_PTP_RX_CF_MOD_EN : ereg := (LAN8814_EXT_PAGE_5, 594).
Definition LAN8814_PTP_RX_CF_CFG : ereg := (LAN8814_EXT_PAGE_5, 595).
Definition LAN8814_PTP_RX_PTP_MAX_CF_DIS : Z := LAN8814_BIT 1.
Definition LAN8814_PTP_RX_PTP_CF_METHOD : Z := LAN8814_BIT 0.
Definition LAN8814_PTP_RX_TS_NS_HI : ereg := (LAN8814_EXT_PAGE_5, 596).
Definition LAN8814_PTP_RX_TS_NS_PTP_TX_TS_VALID : Z := LAN8814_BIT 15.
Definition LAN8814_PTP_RX_TS_NS_LO : ereg := (LAN8814_EXT_PAGE_5, 597).
Definition LAN8814_PTP_RX_TS_SEC_HI : ereg := (LAN8814_EXT_PAGE_5, 598).
Definition LAN8814_PTP_RX_TS_SEC_LO : ereg := (LAN8814_EXT_PAGE_5, 599).
Definition LAN8814_PTP_RX_MSG_HEADER1 : ereg := (LAN8814_EXT_PAGE_5, 600).
Definition LAN8814_PTP_RX_MSG_HEADER2 : ereg := (LAN8814_EXT_PAGE_5, 601).
Definition LAN8814_PTP_RX_PDREQ_NS_HI : ereg := (LAN8814_EXT_PAGE_5, 605).
Definition LAN8814_F_PTP_RX_PDREQ_AUTO_UPDATE : Z := LAN8814_BIT 15.
Definition LAN8814_PTP_RX_CHKSUM_DROPPED_CNT_HI : ereg := (LAN8814_EXT_PAGE_5, 610).
Definition LAN8814_PTP_RX_CHKSUM_DROPPED_CNT_LO : ereg := (LAN8814_EXT_PAGE_5, 611).
Definition LAN8814_PTP_RX_FRMS_MOD_CNT_HI : ereg := (LAN8814_EXT_PAGE_5, 612).
Definition LAN8814_PTP_RX_FRMS_MOD_CNT_LO : ereg := (LAN8814_EXT_PAGE_5, 613).
Definition LAN8814_PTP_TX_PARSE_CONFIG : ereg := (LAN8814_EXT_PAGE_5, 642).
Definition LAN8814_PTP_TX_PARSE_CONFIG_PEER_NONPEER_MIX : Z := LAN8814_BIT 14.
Definition LAN8814_PTP_TX_PARSE_CONFIG_MAC_DA_EN : Z := LAN8814_BIT 11.
Definition LAN8814_PTP_TX_PARSE_CONFIG_MAC_DA_MODE_F (x : Z) : Z := LAN8814_ENCODE_BITFIELD x 8 3.
Definition LAN8814_PTP_TX_PARSE_CONFIG_UDP_SPORT_EN : Z := LAN8814_BIT 6.
Definition LAN8814_PTP_TX_PARSE_CONFIG_UDP_DPORT_EN : Z := LAN8814_BIT 5.
Definition LAN8814_PTP_TX_PARSE_CONFIG_IPV6_EN : Z := LAN8814_BIT 2.
Definition LAN8814_PTP_TX_PARSE_CONFIG_IPV4_EN : Z := LAN8814_BIT 1.
Definition LAN8814_PTP_TX_PARSE_CONFIG_LAYER2_EN : Z := LAN8814_BIT 0.
Definition LAN8814_PTP_TX_PARSE_VLAN_CONFIG : ereg := (LAN8814_EXT_PAGE_5, 643).
Definition LAN8814_PTP_TX_PARSE_VLAN_TAG_COUNT_F (x : Z) : Z := LAN8814_ENCODE_BITFIELD x 4 3.
Definition LAN8814_PTP_TX_PARSE_VLAN_VLAN2_CHECK_EN : Z := LAN8814_BIT 1.
Definition LAN8814_PTP_TX_PARSE_VLAN_VLAN1_CHECK_EN : Z := LAN8814_BIT 0.
Definition LAN8814_PTP_TX_PARSE_L2_ADDR_EN : ereg := (LAN8814_EXT_PAGE_5, 644).
Definition LAN8814_PTP_TX_PARSE_L2_MAC_EN_F (x : Z) : Z := LAN8814_ENCODE_BITFIELD x 0 2.
Definition LAN8814_PTP_TX_PARSE_IP_ADDR_EN : ereg := (LAN8814_EXT_PAGE_5, 645).
Definition LAN8814_PTP_TX_PARSE_IP_DA_EN : Z := LAN8814_BIT 13.
Definition LAN8814_PTP_TX_PARSE_IPv6_UMAC_EN_F (x : Z) : Z := LAN8814_ENCODE_BITFIELD x 6 2.
Definition LAN8814_PTP_TX_PARSE_IPv6_IP_EN_F (x : Z) : Z := LAN8814_ENCODE_BITFIELD x 4 2.
Definition LAN8814_PTP_TX_PARSE_IPv4_UMAC_EN_F (x : Z) : Z := LAN8814_ENCODE_BITFIELD x 2 2.
Definition LAN8814_PTP_TX_PARSE_IPv4_IP_EN_F (x : Z) : Z := LAN8814_ENCODE_BITFIELD x 0 2.
Definition LAN8814_PTP_TX_PARSE_UDP_SRC_PORT : ereg := (LAN8814_EXT_PAGE_5, 646).
Definition LAN8814_PTP_TX_PARSE_UDP_DEST_PORT : ereg := (LAN8814_EXT_PAGE_5, 647).
Definition LAN8814_PTP_TX_VERSION : ereg := (LAN8814_EXT_PAGE_5, 648).
Definition LAN8814_PTP_TX_DOMAIN_DOMAIN_LO : ereg := (LAN8814_EXT_PAGE_5, 649).
Definition LAN8814_PTP_TX_DOMAIN_DOMAIN_LO_RANGE_EN : Z := LAN8814_BIT 15.
Definition LAN8814_PTP_TX_DOMAIN_DOMAIN_LO_RANGE_LO_F (x : Z) : Z := LAN8814_ENCODE_BITFIELD x 0 8.
Definition LAN8814_PTP_TX_DOMAIN_MASK_DOMAIN_UP : ereg := (LAN8814_EXT_PAGE_5, 650).
Definition LAN8814_PTP_TX_SDOID_SDOID_LO : ereg := (LAN8814_EXT_PAGE_5, 651).
Definition LAN8814_PTP_TX_SDOID_SDOID_LO_RANGE_EN : Z := LAN8814_BIT 15.
Definition LAN8814_PTP_TX_SDOID_MASK_SDOID_UP : ereg := (LAN8814_EXT_PAGE_5, 652).
Definition LAN8814_PTP_TX_TIMESTAMP_EN : ereg := (LAN8814_EXT_PAGE_5, 653).
Definition LAN8814_PTP_TX_TIMESTAMP_CONFIG : ereg := (LAN8814_EXT_PAGE_5, 654).
Definition LAN8814_PTP_TX_PTP_ALT_MASTER_EN : Z := LAN8814_BIT 2.
Definition LAN8814_PTP_TX_PTP_UDP_CHKSUM_DIS : Z := LAN8814_BIT 1.
Definition LAN8814_PTP_TX_MOD : ereg := (LAN8814_EXT_PAGE_5, 655).
Definition LAN8814_PTP_TX_MOD_PDRESP_TA_INSERT : Z := LAN8814_BIT 13.
Definition LAN8814_PTP_TX_MOD_SYNC_TS_INSERT : Z := LAN8814_BIT 12.
Definition LAN8814_PTP_TX_MOD_FOLLOWUP_TS_INSERT : Z := LAN8814_BIT 11.
Definition LAN8814_PTP_TX_MOD_PDRESPFOLLOWUP_TS_INSERT : Z := LAN8814_BIT 9.
Definition LAN8814_PTP_TX_RSVD_BYTE_CFG : ereg := (LAN8814_EXT_PAGE_5, 656).
Definition LAN8814_PTP_TX_TAIL_TAG : ereg := (LAN8814_EXT_PAGE_5, 657).
Definition LAN8814_PTP_TX_CF_MOD_EN : ereg := (LAN8814_EXT_PAGE_5, 658).
Definition LAN8814_PTP_TX_CF_CFG : ereg := (LAN8814_EXT_PAGE_5, 659).
Definition LAN8814_PTP_TX_PTP_MAX_CF_DIS : Z := LAN8814_BIT 1.
Definition LAN8814_PTP_TX_PTP_CF_METHOD : Z := LAN8814_BIT 0.
Definition LAN8814_PTP_TX_TS_NS_HI : ereg := (LAN8814_EXT_PAGE_5, 660).
Definition LAN8814_PTP_TX_TS_NS_PTP_TX_TS_VALID : Z := LAN8814_BIT 15.
Definition LAN8814_PTP_TX_TS_NS_LO : ereg := (LAN8814_EXT_PAGE_5, 661).
Definition LAN8814_PTP_TX_TS_SEC_HI : ereg := (LAN8814_EXT_PAGE_5, 662).
Definition LAN8814_PTP_TX_TS_SEC_LO : ereg := (LAN8814_EXT_PAGE_5, 663).
Definition LAN8814_PTP_TX_MSG_HEADER1 : ereg := (LAN8814_EXT_PAGE_5, 664).
Definition LAN8814_PTP_TX_MSG_HEADER2 : ereg := (LAN8814_EXT_PAGE_5, 665).
Definition LAN8814_PTP_TX_CHKSUM_DROPPED_CNT_HI : ereg := (LAN8814_EXT_PAGE_5, 679).
Definition LAN8814_PTP_TX_CHKSUM_DROPPED_CNT_LO : ereg := (LAN8814_EXT_PAGE_5, 680).
Definition LAN8814_PTP_TX_FRMS_MOD_CNT_HI : ereg := (LAN8814_EXT_PAGE_5, 681).
Definition LAN8814_PTP_TX_FRMS_MOD_CNT_LO : ereg := (LAN8814_EXT_PAGE_5, 682).
Definition LAN8814_PTP_TSU_GEN_CONF : ereg := (LAN8814_EXT_PAGE_5, 704).
Definition LAN8814_PTP_TSU_GEN_CONF_TS_CRC_PKT : Z := LAN8814_BIT 2.
Definition LAN8814_PTP_TSU_GEN_CONF_PREEMPTION_EN : Z := LAN8814_BIT 1.
Definition LAN8814_PTP_TSU_GEN_CONF_EN : Z := LAN8814_BIT 0.
Definition LAN8814_PTP_TSU_HARD_RESET : ereg := (LAN8814_EXT_PAGE_5, 705).
Definition LAN8814_PTP_TSU_SOFT_RESET : ereg := (LAN8814_EXT_PAGE_5, 706).
Definition LAN8814_PTP_PCH_FORMAT_MISMATCH : ereg := (LAN8814_EXT_PAGE_5, 707).
Definition LAN8814_PTP_PCH_FORMAT_MISMATCH_PKT_TYPE : Z := LAN8814_BIT 3.
Definition LAN8814_PTP_PCH_FORMAT_MISMATCH_EXT_TYPE : Z := LAN8814_BIT 2.
Definition LAN8814_PTP_PCH_FORMAT_MISMATCH_CRC_ERR : Z := LAN8814_BIT 1.
Definition LAN8814_PTP_PCH_FORMAT_MISMATCH_SUB_PORT_ID : Z := LAN8814_BIT 0.
