(* ===== verification/Lan8814Types.v ===== *)
(** * Lan8814Types: the data of the LAN8814 driver

    The structs of the API ([types.h], [phy_ts.h]) that the driver reads and
    its private data ([lan8814_private.h]).  Every scalar member is a [Z] (a C
    enum is an [int] and may hold any value); [rest] stands for members that
    are only ever copied, [addr_words] for the eight words of the address
    union.  [X_0] is the object of type [X] that [memset(p, 0, sizeof(X))]
    leaves.  A union of a range and a value/mask pair overlays its members, so
    it is one pair: [first] is [range.upper] and [value.val], [second] is
    [range.lower] and [value.mask]. *)

From Stdlib Require Import ZArith List.
From S2P Require Import Prelude.
Import ListNotations.

Record phy_dev_info_t := Mk_phy_dev_info_t {
  dev_model : Z;
  dev_rev : Z;
  dev_sku : Z;
}.
Definition phy_dev_info_t_0 : phy_dev_info_t := Mk_phy_dev_info_t 0 0 0.
Definition set_dev_model (v : Z) (s : phy_dev_info_t) : phy_dev_info_t := Mk_phy_dev_info_t v (s.(dev_rev)) (s.(dev_sku)).
Definition set_dev_rev (v : Z) (s : phy_dev_info_t) : phy_dev_info_t := Mk_phy_dev_info_t (s.(dev_model)) v (s.(dev_sku)).
Definition set_dev_sku (v : Z) (s : phy_dev_info_t) : phy_dev_info_t := Mk_phy_dev_info_t (s.(dev_model)) (s.(dev_rev)) v.

Record mepa_aneg_adv_t := Mk_mepa_aneg_adv_t {
  adv_speed_10m_hdx : Z;
  adv_speed_10m_fdx : Z;
  adv_speed_100m_hdx : Z;
  adv_speed_100m_fdx : Z;
  adv_speed_1g_fdx : Z;
  adv_speed_1g_hdx : Z;
  adv_tx_remote_fault : Z;
  adv_rest : list Z;
}.
Definition mepa_aneg_adv_t_0 : mepa_aneg_adv_t := Mk_mepa_aneg_adv_t 0 0 0 0 0 0 0 [].
Definition set_adv_speed_10m_hdx (v : Z) (s : mepa_aneg_adv_t) : mepa_aneg_adv_t := Mk_mepa_aneg_adv_t v (s.(adv_speed_10m_fdx)) (s.(adv_speed_100m_hdx)) (s.(adv_speed_100m_fdx)) (s.(adv_speed_1g_fdx)) (s.(adv_speed_1g_hdx)) (s.(adv_tx_remote_fault)) (s.(adv_rest)).
Definition set_adv_speed_10m_fdx (v : Z) (s : mepa_aneg_adv_t) : mepa_aneg_adv_t := Mk_mepa_aneg_adv_t (s.(adv_speed_10m_hdx)) v (s.(adv_speed_100m_hdx)) (s.(adv_speed_100m_fdx)) (s.(adv_speed_1g_fdx)) (s.(adv_speed_1g_hdx)) (s.(adv_tx_remote_fault)) (s.(adv_rest)).
Definition set_adv_speed_100m_hdx (v : Z) (s : mepa_aneg_adv_t) : mepa_aneg_adv_t := Mk_mepa_aneg_adv_t (s.(adv_speed_10m_hdx)) (s.(adv_speed_10m_fdx)) v (s.(adv_speed_100m_fdx)) (s.(adv_speed_1g_fdx)) (s.(adv_speed_1g_hdx)) (s.(adv_tx_remote_fault)) (s.(adv_rest)).
Definition set_adv_speed_100m_fdx (v : Z) (s : mepa_aneg_adv_t) : mepa_aneg_adv_t := Mk_mepa_aneg_adv_t (s.(adv_speed_10m_hdx)) (s.(adv_speed_10m_fdx)) (s.(adv_speed_100m_hdx)) v (s.(adv_speed_1g_fdx)) (s.(adv_speed_1g_hdx)) (s.(adv_tx_remote_fault)) (s.(adv_rest)).
Definition set_adv_speed_1g_fdx (v : Z) (s : mepa_aneg_adv_t) : mepa_aneg_adv_t := Mk_mepa_aneg_adv_t (s.(adv_speed_10m_hdx)) (s.(adv_speed_10m_fdx)) (s.(adv_speed_100m_hdx)) (s.(adv_speed_100m_fdx)) v (s.(adv_speed_1g_hdx)) (s.(adv_tx_remote_fault)) (s.(adv_rest)).
Definition set_adv_speed_1g_hdx (v : Z) (s : mepa_aneg_adv_t) : mepa_aneg_adv_t := Mk_mepa_aneg_adv_t (s.(adv_speed_10m_hdx)) (s.(adv_speed_10m_fdx)) (s.(adv_speed_100m_hdx)) (s.(adv_speed_100m_fdx)) (s.(adv_speed_1g_fdx)) v (s.(adv_tx_remote_fault)) (s.(adv_rest)).
Definition set_adv_tx_remote_fault (v : Z) (s : mepa_aneg_adv_t) : mepa_aneg_adv_t := Mk_mepa_aneg_adv_t (s.(adv_speed_10m_hdx)) (s.(adv_speed_10m_fdx)) (s.(adv_speed_100m_hdx)) (s.(adv_speed_100m_fdx)) (s.(adv_speed_1g_fdx)) (s.(adv_speed_1g_hdx)) v (s.(adv_rest)).

Record mepa_conf_t := Mk_mepa_conf_t {
  conf_speed : Z;
  conf_fdx : Z;
  conf_flow_control : Z;
  conf_adv_dis : Z;
  conf_admin_enable : Z;
  conf_aneg : mepa_aneg_adv_t;
  conf_mac_if_aneg_ena : Z;
  conf_man_neg : Z;
  conf_mdi_mode : Z;
  conf_rest : list Z;
}.
Definition mepa_conf_t_0 : mepa_conf_t := Mk_mepa_conf_t 0 0 0 0 0 mepa_aneg_adv_t_0 0 0 0 [].
Definition set_conf_speed (v : Z) (s : mepa_conf_t) : mepa_conf_t := Mk_mepa_conf_t v (s.(conf_fdx)) (s.(conf_flow_control)) (s.(conf_adv_dis)) (s.(conf_admin_enable)) (s.(conf_aneg)) (s.(conf_mac_if_aneg_ena)) (s.(conf_man_neg)) (s.(conf_mdi_mode)) (s.(conf_rest)).
Definition set_conf_fdx (v : Z) (s : mepa_conf_t) : mepa_conf_t := Mk_mepa_conf_t (s.(conf_speed)) v (s.(conf_flow_control)) (s.(conf_adv_dis)) (s.(conf_admin_enable)) (s.(conf_aneg)) (s.(conf_mac_if_aneg_ena)) (s.(conf_man_neg)) (s.(conf_mdi_mode)) (s.(conf_rest)).
Definition set_conf_flow_control (v : Z) (s : mepa_conf_t) : mepa_conf_t := Mk_mepa_conf_t (s.(conf_speed)) (s.(conf_fdx)) v (s.(conf_adv_dis)) (s.(conf_admin_enable)) (s.(conf_aneg)) (s.(conf_mac_if_aneg_ena)) (s.(conf_man_neg)) (s.(conf_mdi_mode)) (s.(conf_rest)).
Definition set_conf_adv_dis (v : Z) (s : mepa_conf_t) : mepa_conf_t := Mk_mepa_conf_t (s.(conf_speed)) (s.(conf_fdx)) (s.(conf_flow_control)) v (s.(conf_admin_enable)) (s.(conf_aneg)) (s.(conf_mac_if_aneg_ena)) (s.(conf_man_neg)) (s.(conf_mdi_mode)) (s.(conf_rest)).
Definition set_conf_admin_enable (v : Z) (s : mepa_conf_t) : mepa_conf_t := Mk_mepa_conf_t (s.(conf_speed)) (s.(conf_fdx)) (s.(conf_flow_control)) (s.(conf_adv_dis)) v (s.(conf_aneg)) (s.(conf_mac_if_aneg_ena)) (s.(conf_man_neg)) (s.(conf_mdi_mode)) (s.(conf_rest)).
Definition set_conf_aneg (v : mepa_aneg_adv_t) (s : mepa_conf_t) : mepa_conf_t := Mk_mepa_conf_t (s.(conf_speed)) (s.(conf_fdx)) (s.(conf_flow_control)) (s.(conf_adv_dis)) (s.(conf_admin_enable)) v (s.(conf_mac_if_aneg_ena)) (s.(conf_man_neg)) (s.(conf_mdi_mode)) (s.(conf_rest)).
Definition set_conf_mac_if_aneg_ena (v : Z) (s : mepa_conf_t) : mepa_conf_t := Mk_mepa_conf_t (s.(conf_speed)) (s.(conf_fdx)) (s.(conf_flow_control)) (s.(conf_adv_dis)) (s.(conf_admin_enable)) (s.(conf_aneg)) v (s.(conf_man_neg)) (s.(conf_mdi_mode)) (s.(conf_rest)).
Definition set_conf_man_neg (v : Z) (s : mepa_conf_t) : mepa_conf_t := Mk_mepa_conf_t (s.(conf_speed)) (s.(conf_fdx)) (s.(conf_flow_control)) (s.(conf_adv_dis)) (s.(conf_admin_enable)) (s.(conf_aneg)) (s.(conf_mac_if_aneg_ena)) v (s.(conf_mdi_mode)) (s.(conf_rest)).
Definition set_conf_mdi_mode (v : Z) (s : mepa_conf_t) : mepa_conf_t := Mk_mepa_conf_t (s.(conf_speed)) (s.(conf_fdx)) (s.(conf_flow_control)) (s.(conf_adv_dis)) (s.(conf_admin_enable)) (s.(conf_aneg)) (s.(conf_mac_if_aneg_ena)) (s.(conf_man_neg)) v (s.(conf_rest)).

Record mepa_aneg_t := Mk_mepa_aneg_t {
  aneg_obey_pause : Z;
  aneg_generate_pause : Z;
}.
Definition mepa_aneg_t_0 : mepa_aneg_t := Mk_mepa_aneg_t 0 0.
Definition set_aneg_obey_pause (v : Z) (s : mepa_aneg_t) : mepa_aneg_t := Mk_mepa_aneg_t v (s.(aneg_generate_pause)).
Definition set_aneg_generate_pause (v : Z) (s : mepa_aneg_t) : mepa_aneg_t := Mk_mepa_aneg_t (s.(aneg_obey_pause)) v.

Record mepa_status_t := Mk_mepa_status_t {
  st_link : Z;
  st_speed : Z;
  st_master : Z;
  st_fdx : Z;
  st_aneg : mepa_aneg_t;
  st_copper : Z;
  st_fiber : Z;
}.
Definition mepa_status_t_0 : mepa_status_t := Mk_mepa_status_t 0 0 0 0 mepa_aneg_t_0 0 0.
Definition set_st_link (v : Z) (s : mepa_status_t) : mepa_status_t := Mk_mepa_status_t v (s.(st_speed)) (s.(st_master)) (s.(st_fdx)) (s.(st_aneg)) (s.(st_copper)) (s.(st_fiber)).
Definition set_st_speed (v : Z) (s : mepa_status_t) : mepa_status_t := Mk_mepa_status_t (s.(st_link)) v (s.(st_master)) (s.(st_fdx)) (s.(st_aneg)) (s.(st_copper)) (s.(st_fiber)).
Definition set_st_master (v : Z) (s : mepa_status_t) : mepa_status_t := Mk_mepa_status_t (s.(st_link)) (s.(st_speed)) v (s.(st_fdx)) (s.(st_aneg)) (s.(st_copper)) (s.(st_fiber)).
Definition set_st_fdx (v : Z) (s : mepa_status_t) : mepa_status_t := Mk_mepa_status_t (s.(st_link)) (s.(st_speed)) (s.(st_master)) v (s.(st_aneg)) (s.(st_copper)) (s.(st_fiber)).
Definition set_st_aneg (v : mepa_aneg_t) (s : mepa_status_t) : mepa_status_t := Mk_mepa_status_t (s.(st_link)) (s.(st_speed)) (s.(st_master)) (s.(st_fdx)) v (s.(st_copper)) (s.(st_fiber)).
Definition set_st_copper (v : Z) (s : mepa_status_t) : mepa_status_t := Mk_mepa_status_t (s.(st_link)) (s.(st_speed)) (s.(st_master)) (s.(st_fdx)) (s.(st_aneg)) v (s.(st_fiber)).
Definition set_st_fiber (v : Z) (s : mepa_status_t) : mepa_status_t := Mk_mepa_status_t (s.(st_link)) (s.(st_speed)) (s.(st_master)) (s.(st_fdx)) (s.(st_aneg)) (s.(st_copper)) v.

Record mepa_cable_diag_result_t := Mk_mepa_cable_diag_result_t {
  cd_link : Z;
  cd_status : list Z;
  cd_length : list Z;
}.
Definition mepa_cable_diag_result_t_0 : mepa_cable_diag_result_t := Mk_mepa_cable_diag_result_t 0 [0; 0; 0; 0] [0; 0; 0; 0].
Definition set_cd_link (v : Z) (s : mepa_cable_diag_result_t) : mepa_cable_diag_result_t := Mk_mepa_cable_diag_result_t v (s.(cd_status)) (s.(cd_length)).
Definition set_cd_status (v : list Z) (s : mepa_cable_diag_result_t) : mepa_cable_diag_result_t := Mk_mepa_cable_diag_result_t (s.(cd_link)) v (s.(cd_length)).
Definition set_cd_length (v : list Z) (s : mepa_cable_diag_result_t) : mepa_cable_diag_result_t := Mk_mepa_cable_diag_result_t (s.(cd_link)) (s.(cd_status)) v.

Record mepa_loopback_t := Mk_mepa_loopback_t {
  lb_far_end_ena : Z;
  lb_near_end_ena : Z;
  lb_connector_ena : Z;
  lb_mac_serdes_input_ena : Z;
  lb_mac_serdes_facility_ena : Z;
  lb_mac_serdes_equip_ena : Z;
  lb_media_serdes_input_ena : Z;
  lb_media_serdes_facility_ena : Z;
  lb_media_serdes_equip_ena : Z;
  lb_qsgmii_pcs_tbi_ena : Z;
  lb_qsgmii_pcs_gmii_ena : Z;
  lb_qsgmii_serdes_ena : Z;
}.
Definition mepa_loopback_t_0 : mepa_loopback_t := Mk_mepa_loopback_t 0 0 0 0 0 0 0 0 0 0 0 0.
Definition set_lb_far_end_ena (v : Z) (s : mepa_loopback_t) : mepa_loopback_t := Mk_mepa_loopback_t v (s.(lb_near_end_ena)) (s.(lb_connector_ena)) (s.(lb_mac_serdes_input_ena)) (s.(lb_mac_serdes_facility_ena)) (s.(lb_mac_serdes_equip_ena)) (s.(lb_media_serdes_input_ena)) (s.(lb_media_serdes_facility_ena)) (s.(lb_media_serdes_equip_ena)) (s.(lb_qsgmii_pcs_tbi_ena)) (s.(lb_qsgmii_pcs_gmii_ena)) (s.(lb_qsgmii_serdes_ena)).
Definition set_lb_near_end_ena (v : Z) (s : mepa_loopback_t) : mepa_loopback_t := Mk_mepa_loopback_t (s.(lb_far_end_ena)) v (s.(lb_connector_ena)) (s.(lb_mac_serdes_input_ena)) (s.(lb_mac_serdes_facility_ena)) (s.(lb_mac_serdes_equip_ena)) (s.(lb_media_serdes_input_ena)) (s.(lb_media_serdes_facility_ena)) (s.(lb_media_serdes_equip_ena)) (s.(lb_qsgmii_pcs_tbi_ena)) (s.(lb_qsgmii_pcs_gmii_ena)) (s.(lb_qsgmii_serdes_ena)).
Definition set_lb_connector_ena (v : Z) (s : mepa_loopback_t) : mepa_loopback_t := Mk_mepa_loopback_t (s.(lb_far_end_ena)) (s.(lb_near_end_ena)) v (s.(lb_mac_serdes_input_ena)) (s.(lb_mac_serdes_facility_ena)) (s.(lb_mac_serdes_equip_ena)) (s.(lb_media_serdes_input_ena)) (s.(lb_media_serdes_facility_ena)) (s.(lb_media_serdes_equip_ena)) (s.(lb_qsgmii_pcs_tbi_ena)) (s.(lb_qsgmii_pcs_gmii_ena)) (s.(lb_qsgmii_serdes_ena)).
Definition set_lb_mac_serdes_input_ena (v : Z) (s : mepa_loopback_t) : mepa_loopback_t := Mk_mepa_loopback_t (s.(lb_far_end_ena)) (s.(lb_near_end_ena)) (s.(lb_connector_ena)) v (s.(lb_mac_serdes_facility_ena)) (s.(lb_mac_serdes_equip_ena)) (s.(lb_media_serdes_input_ena)) (s.(lb_media_serdes_facility_ena)) (s.(lb_media_serdes_equip_ena)) (s.(lb_qsgmii_pcs_tbi_ena)) (s.(lb_qsgmii_pcs_gmii_ena)) (s.(lb_qsgmii_serdes_ena)).
Definition set_lb_mac_serdes_facility_ena (v : Z) (s : mepa_loopback_t) : mepa_loopback_t := Mk_mepa_loopback_t (s.(lb_far_end_ena)) (s.(lb_near_end_ena)) (s.(lb_connector_ena)) (s.(lb_mac_serdes_input_ena)) v (s.(lb_mac_serdes_equip_ena)) (s.(lb_media_serdes_input_ena)) (s.(lb_media_serdes_facility_ena)) (s.(lb_media_serdes_equip_ena)) (s.(lb_qsgmii_pcs_tbi_ena)) (s.(lb_qsgmii_pcs_gmii_ena)) (s.(lb_qsgmii_serdes_ena)).
Definition set_lb_mac_serdes_equip_ena (v : Z) (s : mepa_loopback_t) : mepa_loopback_t := Mk_mepa_loopback_t (s.(lb_far_end_ena)) (s.(lb_near_end_ena)) (s.(lb_connector_ena)) (s.(lb_mac_serdes_input_ena)) (s.(lb_mac_serdes_facility_ena)) v (s.(lb_media_serdes_input_ena)) (s.(lb_media_serdes_facility_ena)) (s.(lb_media_serdes_equip_ena)) (s.(lb_qsgmii_pcs_tbi_ena)) (s.(lb_qsgmii_pcs_gmii_ena)) (s.(lb_qsgmii_serdes_ena)).
Definition set_lb_media_serdes_input_ena (v : Z) (s : mepa_loopback_t) : mepa_loopback_t := Mk_mepa_loopback_t (s.(lb_far_end_ena)) (s.(lb_near_end_ena)) (s.(lb_connector_ena)) (s.(lb_mac_serdes_input_ena)) (s.(lb_mac_serdes_facility_ena)) (s.(lb_mac_serdes_equip_ena)) v (s.(lb_media_serdes_facility_ena)) (s.(lb_media_serdes_equip_ena)) (s.(lb_qsgmii_pcs_tbi_ena)) (s.(lb_qsgmii_pcs_gmii_ena)) (s.(lb_qsgmii_serdes_ena)).
Definition set_lb_media_serdes_facility_ena (v : Z) (s : mepa_loopback_t) : mepa_loopback_t := Mk_mepa_loopback_t (s.(lb_far_end_ena)) (s.(lb_near_end_ena)) (s.(lb_connector_ena)) (s.(lb_mac_serdes_input_ena)) (s.(lb_mac_serdes_facility_ena)) (s.(lb_mac_serdes_equip_ena)) (s.(lb_media_serdes_input_ena)) v (s.(lb_media_serdes_equip_ena)) (s.(lb_qsgmii_pcs_tbi_ena)) (s.(lb_qsgmii_pcs_gmii_ena)) (s.(lb_qsgmii_serdes_ena)).
Definition set_lb_media_serdes_equip_ena (v : Z) (s : mepa_loopback_t) : mepa_loopback_t := Mk_mepa_loopback_t (s.(lb_far_end_ena)) (s.(lb_near_end_ena)) (s.(lb_connector_ena)) (s.(lb_mac_serdes_input_ena)) (s.(lb_mac_serdes_facility_ena)) (s.(lb_mac_serdes_equip_ena)) (s.(lb_media_serdes_input_ena)) (s.(lb_media_serdes_facility_ena)) v (s.(lb_qsgmii_pcs_tbi_ena)) (s.(lb_qsgmii_pcs_gmii_ena)) (s.(lb_qsgmii_serdes_ena)).
Definition set_lb_qsgmii_pcs_tbi_ena (v : Z) (s : mepa_loopback_t) : mepa_loopback_t := Mk_mepa_loopback_t (s.(lb_far_end_ena)) (s.(lb_near_end_ena)) (s.(lb_connector_ena)) (s.(lb_mac_serdes_input_ena)) (s.(lb_mac_serdes_facility_ena)) (s.(lb_mac_serdes_equip_ena)) (s.(lb_media_serdes_input_ena)) (s.(lb_media_serdes_facility_ena)) (s.(lb_media_serdes_equip_ena)) v (s.(lb_qsgmii_pcs_gmii_ena)) (s.(lb_qsgmii_serdes_ena)).
Definition set_lb_qsgmii_pcs_gmii_ena (v : Z) (s : mepa_loopback_t) : mepa_loopback_t := Mk_mepa_loopback_t (s.(lb_far_end_ena)) (s.(lb_near_end_ena)) (s.(lb_connector_ena)) (s.(lb_mac_serdes_input_ena)) (s.(lb_mac_serdes_facility_ena)) (s.(lb_mac_serdes_equip_ena)) (s.(lb_media_serdes_input_ena)) (s.(lb_media_serdes_facility_ena)) (s.(lb_media_serdes_equip_ena)) (s.(lb_qsgmii_pcs_tbi_ena)) v (s.(lb_qsgmii_serdes_ena)).
Definition set_lb_qsgmii_serdes_ena (v : Z) (s : mepa_loopback_t) : mepa_loopback_t := Mk_mepa_loopback_t (s.(lb_far_end_ena)) (s.(lb_near_end_ena)) (s.(lb_connector_ena)) (s.(lb_mac_serdes_input_ena)) (s.(lb_mac_serdes_facility_ena)) (s.(lb_mac_serdes_equip_ena)) (s.(lb_media_serdes_input_ena)) (s.(lb_media_serdes_facility_ena)) (s.(lb_media_serdes_equip_ena)) (s.(lb_qsgmii_pcs_tbi_ena)) (s.(lb_qsgmii_pcs_gmii_ena)) v.

Record mepa_synce_clock_conf_t := Mk_mepa_synce_clock_conf_t {
  sy_src : Z;
  sy_dst : Z;
  sy_freq : Z;
  sy_squelch : Z;
}.
Definition mepa_synce_clock_conf_t_0 : mepa_synce_clock_conf_t := Mk_mepa_synce_clock_conf_t 0 0 0 0.
Definition set_sy_src (v : Z) (s : mepa_synce_clock_conf_t) : mepa_synce_clock_conf_t := Mk_mepa_synce_clock_conf_t v (s.(sy_dst)) (s.(sy_freq)) (s.(sy_squelch)).
Definition set_sy_dst (v : Z) (s : mepa_synce_clock_conf_t) : mepa_synce_clock_conf_t := Mk_mepa_synce_clock_conf_t (s.(sy_src)) v (s.(sy_freq)) (s.(sy_squelch)).
Definition set_sy_freq (v : Z) (s : mepa_synce_clock_conf_t) : mepa_synce_clock_conf_t := Mk_mepa_synce_clock_conf_t (s.(sy_src)) (s.(sy_dst)) v (s.(sy_squelch)).
Definition set_sy_squelch (v : Z) (s : mepa_synce_clock_conf_t) : mepa_synce_clock_conf_t := Mk_mepa_synce_clock_conf_t (s.(sy_src)) (s.(sy_dst)) (s.(sy_freq)) v.

Record mepa_start_of_frame_conf_t := Mk_mepa_start_of_frame_conf_t {
  sof_sof_no : Z;
  sof_ingress : Z;
  sof_sof_preemption_mode : Z;
}.
Definition mepa_start_of_frame_conf_t_0 : mepa_start_of_frame_conf_t := Mk_mepa_start_of_frame_conf_t 0 0 0.
Definition set_sof_sof_no (v : Z) (s : mepa_start_of_frame_conf_t) : mepa_start_of_frame_conf_t := Mk_mepa_start_of_frame_conf_t v (s.(sof_ingress)) (s.(sof_sof_preemption_mode)).
Definition set_sof_ingress (v : Z) (s : mepa_start_of_frame_conf_t) : mepa_start_of_frame_conf_t := Mk_mepa_start_of_frame_conf_t (s.(sof_sof_no)) v (s.(sof_sof_preemption_mode)).
Definition set_sof_sof_preemption_mode (v : Z) (s : mepa_start_of_frame_conf_t) : mepa_start_of_frame_conf_t := Mk_mepa_start_of_frame_conf_t (s.(sof_sof_no)) (s.(sof_ingress)) v.

Record mepa_selftest_info_t := Mk_mepa_selftest_info_t {
  sti_speed : Z;
  sti_mdi : Z;
  sti_frames : Z;
  sti_good_cnt : Z;
  sti_err_cnt : Z;
}.
Definition mepa_selftest_info_t_0 : mepa_selftest_info_t := Mk_mepa_selftest_info_t 0 0 0 0 0.
Definition set_sti_speed (v : Z) (s : mepa_selftest_info_t) : mepa_selftest_info_t := Mk_mepa_selftest_info_t v (s.(sti_mdi)) (s.(sti_frames)) (s.(sti_good_cnt)) (s.(sti_err_cnt)).
Definition set_sti_mdi (v : Z) (s : mepa_selftest_info_t) : mepa_selftest_info_t := Mk_mepa_selftest_info_t (s.(sti_speed)) v (s.(sti_frames)) (s.(sti_good_cnt)) (s.(sti_err_cnt)).
Definition set_sti_frames (v : Z) (s : mepa_selftest_info_t) : mepa_selftest_info_t := Mk_mepa_selftest_info_t (s.(sti_speed)) (s.(sti_mdi)) v (s.(sti_good_cnt)) (s.(sti_err_cnt)).
Definition set_sti_good_cnt (v : Z) (s : mepa_selftest_info_t) : mepa_selftest_info_t := Mk_mepa_selftest_info_t (s.(sti_speed)) (s.(sti_mdi)) (s.(sti_frames)) v (s.(sti_err_cnt)).
Definition set_sti_err_cnt (v : Z) (s : mepa_selftest_info_t) : mepa_selftest_info_t := Mk_mepa_selftest_info_t (s.(sti_speed)) (s.(sti_mdi)) (s.(sti_frames)) (s.(sti_good_cnt)) v.

Record mepa_phy_prbs_generator_conf_t := Mk_mepa_phy_prbs_generator_conf_t {
  prbs_enable : Z;
  prbs_prbsn_sel : Z;
  prbs_clk : Z;
  prbs_loopback : Z;
  prbs_user_pattern : list Z;
}.
Definition mepa_phy_prbs_generator_conf_t_0 : mepa_phy_prbs_generator_conf_t := Mk_mepa_phy_prbs_generator_conf_t 0 0 0 0 [].
Definition set_prbs_enable (v : Z) (s : mepa_phy_prbs_generator_conf_t) : mepa_phy_prbs_generator_conf_t := Mk_mepa_phy_prbs_generator_conf_t v (s.(prbs_prbsn_sel)) (s.(prbs_clk)) (s.(prbs_loopback)) (s.(prbs_user_pattern)).
Definition set_prbs_prbsn_sel (v : Z) (s : mepa_phy_prbs_generator_conf_t) : mepa_phy_prbs_generator_conf_t := Mk_mepa_phy_prbs_generator_conf_t (s.(prbs_enable)) v (s.(prbs_clk)) (s.(prbs_loopback)) (s.(prbs_user_pattern)).
Definition set_prbs_clk (v : Z) (s : mepa_phy_prbs_generator_conf_t) : mepa_phy_prbs_generator_conf_t := Mk_mepa_phy_prbs_generator_conf_t (s.(prbs_enable)) (s.(prbs_prbsn_sel)) v (s.(prbs_loopback)) (s.(prbs_user_pattern)).
Definition set_prbs_loopback (v : Z) (s : mepa_phy_prbs_generator_conf_t) : mepa_phy_prbs_generator_conf_t := Mk_mepa_phy_prbs_generator_conf_t (s.(prbs_enable)) (s.(prbs_prbsn_sel)) (s.(prbs_clk)) v (s.(prbs_user_pattern)).
Definition set_prbs_user_pattern (v : list Z) (s : mepa_phy_prbs_generator_conf_t) : mepa_phy_prbs_generator_conf_t := Mk_mepa_phy_prbs_generator_conf_t (s.(prbs_enable)) (s.(prbs_prbsn_sel)) (s.(prbs_clk)) (s.(prbs_loopback)) v.

Record mepa_phy_eee_conf_t := Mk_mepa_phy_eee_conf_t {
  eee_eee_mode : Z;
  eee_eee_ena_phy : Z;
}.
Definition mepa_phy_eee_conf_t_0 : mepa_phy_eee_conf_t := Mk_mepa_phy_eee_conf_t 0 0.
Definition set_eee_eee_mode (v : Z) (s : mepa_phy_eee_conf_t) : mepa_phy_eee_conf_t := Mk_mepa_phy_eee_conf_t v (s.(eee_eee_ena_phy)).
Definition set_eee_eee_ena_phy (v : Z) (s : mepa_phy_eee_conf_t) : mepa_phy_eee_conf_t := Mk_mepa_phy_eee_conf_t (s.(eee_eee_mode)) v.

Record mepa_serdes_tx_conf_t := Mk_mepa_serdes_tx_conf_t {
  tx_level : Z;
  tx_boost : Z;
}.
Definition mepa_serdes_tx_conf_t_0 : mepa_serdes_tx_conf_t := Mk_mepa_serdes_tx_conf_t 0 0.
Definition set_tx_level (v : Z) (s : mepa_serdes_tx_conf_t) : mepa_serdes_tx_conf_t := Mk_mepa_serdes_tx_conf_t v (s.(tx_boost)).
Definition set_tx_boost (v : Z) (s : mepa_serdes_tx_conf_t) : mepa_serdes_tx_conf_t := Mk_mepa_serdes_tx_conf_t (s.(tx_level)) v.

Record mepa_reset_param_t := Mk_mepa_reset_param_t {
  rst_media_intf : Z;
  rst_reset_point : Z;
  rst_framepreempt_en : Z;
}.
Definition mepa_reset_param_t_0 : mepa_reset_param_t := Mk_mepa_reset_param_t 0 0 0.
Definition set_rst_media_intf (v : Z) (s : mepa_reset_param_t) : mepa_reset_param_t := Mk_mepa_reset_param_t v (s.(rst_reset_point)) (s.(rst_framepreempt_en)).
Definition set_rst_reset_point (v : Z) (s : mepa_reset_param_t) : mepa_reset_param_t := Mk_mepa_reset_param_t (s.(rst_media_intf)) v (s.(rst_framepreempt_en)).
Definition set_rst_framepreempt_en (v : Z) (s : mepa_reset_param_t) : mepa_reset_param_t := Mk_mepa_reset_param_t (s.(rst_media_intf)) (s.(rst_reset_point)) v.

Record mepa_gpio_conf_t := Mk_mepa_gpio_conf_t {
  gpio_gpio_no : Z;
  gpio_led_num : Z;
  gpio_mode : Z;
}.
Definition mepa_gpio_conf_t_0 : mepa_gpio_conf_t := Mk_mepa_gpio_conf_t 0 0 0.
Definition set_gpio_gpio_no (v : Z) (s : mepa_gpio_conf_t) : mepa_gpio_conf_t := Mk_mepa_gpio_conf_t v (s.(gpio_led_num)) (s.(gpio_mode)).
Definition set_gpio_led_num (v : Z) (s : mepa_gpio_conf_t) : mepa_gpio_conf_t := Mk_mepa_gpio_conf_t (s.(gpio_gpio_no)) v (s.(gpio_mode)).
Definition set_gpio_mode (v : Z) (s : mepa_gpio_conf_t) : mepa_gpio_conf_t := Mk_mepa_gpio_conf_t (s.(gpio_gpio_no)) (s.(gpio_led_num)) v.

Record lan8814_phy_downshift_t := Mk_lan8814_phy_downshift_t {
  dsh_dsh_enable : Z;
  dsh_dsh_thr_cnt : Z;
}.
Definition lan8814_phy_downshift_t_0 : lan8814_phy_downshift_t := Mk_lan8814_phy_downshift_t 0 0.
Definition set_dsh_dsh_enable (v : Z) (s : lan8814_phy_downshift_t) : lan8814_phy_downshift_t := Mk_lan8814_phy_downshift_t v (s.(dsh_dsh_thr_cnt)).
Definition set_dsh_dsh_thr_cnt (v : Z) (s : lan8814_phy_downshift_t) : lan8814_phy_downshift_t := Mk_lan8814_phy_downshift_t (s.(dsh_dsh_enable)) v.

Record mepa_timestamp_t := Mk_mepa_timestamp_t {
  tm_seconds_high : Z;
  tm_seconds_low : Z;
  tm_nanoseconds : Z;
  tm_picoseconds : Z;
}.
Definition mepa_timestamp_t_0 : mepa_timestamp_t := Mk_mepa_timestamp_t 0 0 0 0.
Definition set_tm_seconds_high (v : Z) (s : mepa_timestamp_t) : mepa_timestamp_t := Mk_mepa_timestamp_t v (s.(tm_seconds_low)) (s.(tm_nanoseconds)) (s.(tm_picoseconds)).
Definition set_tm_seconds_low (v : Z) (s : mepa_timestamp_t) : mepa_timestamp_t := Mk_mepa_timestamp_t (s.(tm_seconds_high)) v (s.(tm_nanoseconds)) (s.(tm_picoseconds)).
Definition set_tm_nanoseconds (v : Z) (s : mepa_timestamp_t) : mepa_timestamp_t := Mk_mepa_timestamp_t (s.(tm_seconds_high)) (s.(tm_seconds_low)) v (s.(tm_picoseconds)).
Definition set_tm_picoseconds (v : Z) (s : mepa_timestamp_t) : mepa_timestamp_t := Mk_mepa_timestamp_t (s.(tm_seconds_high)) (s.(tm_seconds_low)) (s.(tm_nanoseconds)) v.

Record mepa_ts_pps_conf_t := Mk_mepa_ts_pps_conf_t {
  pps_width_adj : Z;
  pps_offset : Z;
  pps_output_enable : Z;
}.
Definition mepa_ts_pps_conf_t_0 : mepa_ts_pps_conf_t := Mk_mepa_ts_pps_conf_t 0 0 0.
Definition set_pps_width_adj (v : Z) (s : mepa_ts_pps_conf_t) : mepa_ts_pps_conf_t := Mk_mepa_ts_pps_conf_t v (s.(pps_offset)) (s.(pps_output_enable)).
Definition set_pps_offset (v : Z) (s : mepa_ts_pps_conf_t) : mepa_ts_pps_conf_t := Mk_mepa_ts_pps_conf_t (s.(pps_width_adj)) v (s.(pps_output_enable)).
Definition set_pps_output_enable (v : Z) (s : mepa_ts_pps_conf_t) : mepa_ts_pps_conf_t := Mk_mepa_ts_pps_conf_t (s.(pps_width_adj)) (s.(pps_offset)) v.

Record mepa_mch_pch_t := Mk_mepa_mch_pch_t {
  mp_pch_en : Z;
  mp_save_ts_with_crc_err : Z;
  mp_mch_en : Z;
  mp_ts_len_ing : Z;
  mp_ts_len_egr : Z;
}.
Definition mepa_mch_pch_t_0 : mepa_mch_pch_t := Mk_mepa_mch_pch_t 0 0 0 0 0.
Definition set_mp_pch_en (v : Z) (s : mepa_mch_pch_t) : mepa_mch_pch_t := Mk_mepa_mch_pch_t v (s.(mp_save_ts_with_crc_err)) (s.(mp_mch_en)) (s.(mp_ts_len_ing)) (s.(mp_ts_len_egr)).
Definition set_mp_save_ts_with_crc_err (v : Z) (s : mepa_mch_pch_t) : mepa_mch_pch_t := Mk_mepa_mch_pch_t (s.(mp_pch_en)) v (s.(mp_mch_en)) (s.(mp_ts_len_ing)) (s.(mp_ts_len_egr)).
Definition set_mp_mch_en (v : Z) (s : mepa_mch_pch_t) : mepa_mch_pch_t := Mk_mepa_mch_pch_t (s.(mp_pch_en)) (s.(mp_save_ts_with_crc_err)) v (s.(mp_ts_len_ing)) (s.(mp_ts_len_egr)).
Definition set_mp_ts_len_ing (v : Z) (s : mepa_mch_pch_t) : mepa_mch_pch_t := Mk_mepa_mch_pch_t (s.(mp_pch_en)) (s.(mp_save_ts_with_crc_err)) (s.(mp_mch_en)) v (s.(mp_ts_len_egr)).
Definition set_mp_ts_len_egr (v : Z) (s : mepa_mch_pch_t) : mepa_mch_pch_t := Mk_mepa_mch_pch_t (s.(mp_pch_en)) (s.(mp_save_ts_with_crc_err)) (s.(mp_mch_en)) (s.(mp_ts_len_ing)) v.

Record mepa_ts_init_conf_t := Mk_mepa_ts_init_conf_t {
  ti_clk_freq : Z;
  ti_clk_src : Z;
  ti_rx_ts_pos : Z;
  ti_rx_ts_len : Z;
  ti_tx_fifo_mode : Z;
  ti_tx_ts_len : Z;
  ti_tx_fifo_spi_conf : Z;
  ti_auto_clear_ls : Z;
  ti_tc_op_mode : Z;
  ti_dly_req_recv_10byte_ts : Z;
  ti_tx_auto_followup_ts : Z;
  ti_mch_pch_conf : mepa_mch_pch_t;
}.
Definition mepa_ts_init_conf_t_0 : mepa_ts_init_conf_t := Mk_mepa_ts_init_conf_t 0 0 0 0 0 0 0 0 0 0 0 mepa_mch_pch_t_0.
Definition set_ti_clk_freq (v : Z) (s : mepa_ts_init_conf_t) : mepa_ts_init_conf_t := Mk_mepa_ts_init_conf_t v (s.(ti_clk_src)) (s.(ti_rx_ts_pos)) (s.(ti_rx_ts_len)) (s.(ti_tx_fifo_mode)) (s.(ti_tx_ts_len)) (s.(ti_tx_fifo_spi_conf)) (s.(ti_auto_clear_ls)) (s.(ti_tc_op_mode)) (s.(ti_dly_req_recv_10byte_ts)) (s.(ti_tx_auto_followup_ts)) (s.(ti_mch_pch_conf)).
Definition set_ti_clk_src (v : Z) (s : mepa_ts_init_conf_t) : mepa_ts_init_conf_t := Mk_mepa_ts_init_conf_t (s.(ti_clk_freq)) v (s.(ti_rx_ts_pos)) (s.(ti_rx_ts_len)) (s.(ti_tx_fifo_mode)) (s.(ti_tx_ts_len)) (s.(ti_tx_fifo_spi_conf)) (s.(ti_auto_clear_ls)) (s.(ti_tc_op_mode)) (s.(ti_dly_req_recv_10byte_ts)) (s.(ti_tx_auto_followup_ts)) (s.(ti_mch_pch_conf)).
Definition set_ti_rx_ts_pos (v : Z) (s : mepa_ts_init_conf_t) : mepa_ts_init_conf_t := Mk_mepa_ts_init_conf_t (s.(ti_clk_freq)) (s.(ti_clk_src)) v (s.(ti_rx_ts_len)) (s.(ti_tx_fifo_mode)) (s.(ti_tx_ts_len)) (s.(ti_tx_fifo_spi_conf)) (s.(ti_auto_clear_ls)) (s.(ti_tc_op_mode)) (s.(ti_dly_req_recv_10byte_ts)) (s.(ti_tx_auto_followup_ts)) (s.(ti_mch_pch_conf)).
Definition set_ti_rx_ts_len (v : Z) (s : mepa_ts_init_conf_t) : mepa_ts_init_conf_t := Mk_mepa_ts_init_conf_t (s.(ti_clk_freq)) (s.(ti_clk_src)) (s.(ti_rx_ts_pos)) v (s.(ti_tx_fifo_mode)) (s.(ti_tx_ts_len)) (s.(ti_tx_fifo_spi_conf)) (s.(ti_auto_clear_ls)) (s.(ti_tc_op_mode)) (s.(ti_dly_req_recv_10byte_ts)) (s.(ti_tx_auto_followup_ts)) (s.(ti_mch_pch_conf)).
Definition set_ti_tx_fifo_mode (v : Z) (s : mepa_ts_init_conf_t) : mepa_ts_init_conf_t := Mk_mepa_ts_init_conf_t (s.(ti_clk_freq)) (s.(ti_clk_src)) (s.(ti_rx_ts_pos)) (s.(ti_rx_ts_len)) v (s.(ti_tx_ts_len)) (s.(ti_tx_fifo_spi_conf)) (s.(ti_auto_clear_ls)) (s.(ti_tc_op_mode)) (s.(ti_dly_req_recv_10byte_ts)) (s.(ti_tx_auto_followup_ts)) (s.(ti_mch_pch_conf)).
Definition set_ti_tx_ts_len (v : Z) (s : mepa_ts_init_conf_t) : mepa_ts_init_conf_t := Mk_mepa_ts_init_conf_t (s.(ti_clk_freq)) (s.(ti_clk_src)) (s.(ti_rx_ts_pos)) (s.(ti_rx_ts_len)) (s.(ti_tx_fifo_mode)) v (s.(ti_tx_fifo_spi_conf)) (s.(ti_auto_clear_ls)) (s.(ti_tc_op_mode)) (s.(ti_dly_req_recv_10byte_ts)) (s.(ti_tx_auto_followup_ts)) (s.(ti_mch_pch_conf)).
Definition set_ti_tx_fifo_spi_conf (v : Z) (s : mepa_ts_init_conf_t) : mepa_ts_init_conf_t := Mk_mepa_ts_init_conf_t (s.(ti_clk_freq)) (s.(ti_clk_src)) (s.(ti_rx_ts_pos)) (s.(ti_rx_ts_len)) (s.(ti_tx_fifo_mode)) (s.(ti_tx_ts_len)) v (s.(ti_auto_clear_ls)) (s.(ti_tc_op_mode)) (s.(ti_dly_req_recv_10byte_ts)) (s.(ti_tx_auto_followup_ts)) (s.(ti_mch_pch_conf)).
Definition set_ti_auto_clear_ls (v : Z) (s : mepa_ts_init_conf_t) : mepa_ts_init_conf_t := Mk_mepa_ts_init_conf_t (s.(ti_clk_freq)) (s.(ti_clk_src)) (s.(ti_rx_ts_pos)) (s.(ti_rx_ts_len)) (s.(ti_tx_fifo_mode)) (s.(ti_tx_ts_len)) (s.(ti_tx_fifo_spi_conf)) v (s.(ti_tc_op_mode)) (s.(ti_dly_req_recv_10byte_ts)) (s.(ti_tx_auto_followup_ts)) (s.(ti_mch_pch_conf)).
Definition set_ti_tc_op_mode (v : Z) (s : mepa_ts_init_conf_t) : mepa_ts_init_conf_t := Mk_mepa_ts_init_conf_t (s.(ti_clk_freq)) (s.(ti_clk_src)) (s.(ti_rx_ts_pos)) (s.(ti_rx_ts_len)) (s.(ti_tx_fifo_mode)) (s.(ti_tx_ts_len)) (s.(ti_tx_fifo_spi_conf)) (s.(ti_auto_clear_ls)) v (s.(ti_dly_req_recv_10byte_ts)) (s.(ti_tx_auto_followup_ts)) (s.(ti_mch_pch_conf)).
Definition set_ti_dly_req_recv_10byte_ts (v : Z) (s : mepa_ts_init_conf_t) : mepa_ts_init_conf_t := Mk_mepa_ts_init_conf_t (s.(ti_clk_freq)) (s.(ti_clk_src)) (s.(ti_rx_ts_pos)) (s.(ti_rx_ts_len)) (s.(ti_tx_fifo_mode)) (s.(ti_tx_ts_len)) (s.(ti_tx_fifo_spi_conf)) (s.(ti_auto_clear_ls)) (s.(ti_tc_op_mode)) v (s.(ti_tx_auto_followup_ts)) (s.(ti_mch_pch_conf)).
Definition set_ti_tx_auto_followup_ts (v : Z) (s : mepa_ts_init_conf_t) : mepa_ts_init_conf_t := Mk_mepa_ts_init_conf_t (s.(ti_clk_freq)) (s.(ti_clk_src)) (s.(ti_rx_ts_pos)) (s.(ti_rx_ts_len)) (s.(ti_tx_fifo_mode)) (s.(ti_tx_ts_len)) (s.(ti_tx_fifo_spi_conf)) (s.(ti_auto_clear_ls)) (s.(ti_tc_op_mode)) (s.(ti_dly_req_recv_10byte_ts)) v (s.(ti_mch_pch_conf)).
Definition set_ti_mch_pch_conf (v : mepa_mch_pch_t) (s : mepa_ts_init_conf_t) : mepa_ts_init_conf_t := Mk_mepa_ts_init_conf_t (s.(ti_clk_freq)) (s.(ti_clk_src)) (s.(ti_rx_ts_pos)) (s.(ti_rx_ts_len)) (s.(ti_tx_fifo_mode)) (s.(ti_tx_ts_len)) (s.(ti_tx_fifo_spi_conf)) (s.(ti_auto_clear_ls)) (s.(ti_tc_op_mode)) (s.(ti_dly_req_recv_10byte_ts)) (s.(ti_tx_auto_followup_ts)) v.

Record mepa_range_value := Mk_mepa_range_value {
  rv_first : Z;
  rv_second : Z;
}.
Definition mepa_range_value_0 : mepa_range_value := Mk_mepa_range_value 0 0.
Definition set_rv_first (v : Z) (s : mepa_range_value) : mepa_range_value := Mk_mepa_range_value v (s.(rv_second)).
Definition set_rv_second (v : Z) (s : mepa_range_value) : mepa_range_value := Mk_mepa_range_value (s.(rv_first)) v.

Record mepa_ts_match := Mk_mepa_ts_match {
  mt_mode : Z;
  mt_match : mepa_range_value;
}.
Definition mepa_ts_match_0 : mepa_ts_match := Mk_mepa_ts_match 0 mepa_range_value_0.
Definition set_mt_mode (v : Z) (s : mepa_ts_match) : mepa_ts_match := Mk_mepa_ts_match v (s.(mt_match)).
Definition set_mt_match (v : mepa_range_value) (s : mepa_ts_match) : mepa_ts_match := Mk_mepa_ts_match (s.(mt_mode)) v.

Record mepa_ts_vlan_conf_t := Mk_mepa_ts_vlan_conf_t {
  vl_pbb_en : Z;
  vl_tpid : Z;
  vl_etype : Z;
  vl_num_tag : Z;
  vl_outer_tag : mepa_ts_match;
  vl_inner_tag : mepa_ts_match;
}.
Definition mepa_ts_vlan_conf_t_0 : mepa_ts_vlan_conf_t := Mk_mepa_ts_vlan_conf_t 0 0 0 0 mepa_ts_match_0 mepa_ts_match_0.
Definition set_vl_pbb_en (v : Z) (s : mepa_ts_vlan_conf_t) : mepa_ts_vlan_conf_t := Mk_mepa_ts_vlan_conf_t v (s.(vl_tpid)) (s.(vl_etype)) (s.(vl_num_tag)) (s.(vl_outer_tag)) (s.(vl_inner_tag)).
Definition set_vl_tpid (v : Z) (s : mepa_ts_vlan_conf_t) : mepa_ts_vlan_conf_t := Mk_mepa_ts_vlan_conf_t (s.(vl_pbb_en)) v (s.(vl_etype)) (s.(vl_num_tag)) (s.(vl_outer_tag)) (s.(vl_inner_tag)).
Definition set_vl_etype (v : Z) (s : mepa_ts_vlan_conf_t) : mepa_ts_vlan_conf_t := Mk_mepa_ts_vlan_conf_t (s.(vl_pbb_en)) (s.(vl_tpid)) v (s.(vl_num_tag)) (s.(vl_outer_tag)) (s.(vl_inner_tag)).
Definition set_vl_num_tag (v : Z) (s : mepa_ts_vlan_conf_t) : mepa_ts_vlan_conf_t := Mk_mepa_ts_vlan_conf_t (s.(vl_pbb_en)) (s.(vl_tpid)) (s.(vl_etype)) v (s.(vl_outer_tag)) (s.(vl_inner_tag)).
Definition set_vl_outer_tag (v : mepa_ts_match) (s : mepa_ts_vlan_conf_t) : mepa_ts_vlan_conf_t := Mk_mepa_ts_vlan_conf_t (s.(vl_pbb_en)) (s.(vl_tpid)) (s.(vl_etype)) (s.(vl_num_tag)) v (s.(vl_inner_tag)).
Definition set_vl_inner_tag (v : mepa_ts_match) (s : mepa_ts_vlan_conf_t) : mepa_ts_vlan_conf_t := Mk_mepa_ts_vlan_conf_t (s.(vl_pbb_en)) (s.(vl_tpid)) (s.(vl_etype)) (s.(vl_num_tag)) (s.(vl_outer_tag)) v.

Record mepa_ts_classifier_eth_t := Mk_mepa_ts_classifier_eth_t {
  eth_mac_match_mode : Z;
  eth_mac_match_select : Z;
  eth_mac_addr : list Z;
  eth_vlan_check : Z;
  eth_vlan_conf : mepa_ts_vlan_conf_t;
}.
Definition mepa_ts_classifier_eth_t_0 : mepa_ts_classifier_eth_t := Mk_mepa_ts_classifier_eth_t 0 0 [0; 0; 0; 0; 0; 0] 0 mepa_ts_vlan_conf_t_0.
Definition set_eth_mac_match_mode (v : Z) (s : mepa_ts_classifier_eth_t) : mepa_ts_classifier_eth_t := Mk_mepa_ts_classifier_eth_t v (s.(eth_mac_match_select)) (s.(eth_mac_addr)) (s.(eth_vlan_check)) (s.(eth_vlan_conf)).
Definition set_eth_mac_match_select (v : Z) (s : mepa_ts_classifier_eth_t) : mepa_ts_classifier_eth_t := Mk_mepa_ts_classifier_eth_t (s.(eth_mac_match_mode)) v (s.(eth_mac_addr)) (s.(eth_vlan_check)) (s.(eth_vlan_conf)).
Definition set_eth_mac_addr (v : list Z) (s : mepa_ts_classifier_eth_t) : mepa_ts_classifier_eth_t := Mk_mepa_ts_classifier_eth_t (s.(eth_mac_match_mode)) (s.(eth_mac_match_select)) v (s.(eth_vlan_check)) (s.(eth_vlan_conf)).
Definition set_eth_vlan_check (v : Z) (s : mepa_ts_classifier_eth_t) : mepa_ts_classifier_eth_t := Mk_mepa_ts_classifier_eth_t (s.(eth_mac_match_mode)) (s.(eth_mac_match_select)) (s.(eth_mac_addr)) v (s.(eth_vlan_conf)).
Definition set_eth_vlan_conf (v : mepa_ts_vlan_conf_t) (s : mepa_ts_classifier_eth_t) : mepa_ts_classifier_eth_t := Mk_mepa_ts_classifier_eth_t (s.(eth_mac_match_mode)) (s.(eth_mac_match_select)) (s.(eth_mac_addr)) (s.(eth_vlan_check)) v.

Record mepa_ts_classifier_ip_t := Mk_mepa_ts_classifier_ip_t {
  ip_ip_ver : Z;
  ip_ip_match_mode : Z;
  ip_addr_words : list Z;
  ip_udp_sport_en : Z;
  ip_udp_dport_en : Z;
  ip_udp_sport : Z;
  ip_udp_dport : Z;
}.
Definition mepa_ts_classifier_ip_t_0 : mepa_ts_classifier_ip_t := Mk_mepa_ts_classifier_ip_t 0 0 [0; 0; 0; 0; 0; 0; 0; 0] 0 0 0 0.
Definition set_ip_ip_ver (v : Z) (s : mepa_ts_classifier_ip_t) : mepa_ts_classifier_ip_t := Mk_mepa_ts_classifier_ip_t v (s.(ip_ip_match_mode)) (s.(ip_addr_words)) (s.(ip_udp_sport_en)) (s.(ip_udp_dport_en)) (s.(ip_udp_sport)) (s.(ip_udp_dport)).
Definition set_ip_ip_match_mode (v : Z) (s : mepa_ts_classifier_ip_t) : mepa_ts_classifier_ip_t := Mk_mepa_ts_classifier_ip_t (s.(ip_ip_ver)) v (s.(ip_addr_words)) (s.(ip_udp_sport_en)) (s.(ip_udp_dport_en)) (s.(ip_udp_sport)) (s.(ip_udp_dport)).
Definition set_ip_addr_words (v : list Z) (s : mepa_ts_classifier_ip_t) : mepa_ts_classifier_ip_t := Mk_mepa_ts_classifier_ip_t (s.(ip_ip_ver)) (s.(ip_ip_match_mode)) v (s.(ip_udp_sport_en)) (s.(ip_udp_dport_en)) (s.(ip_udp_sport)) (s.(ip_udp_dport)).
Definition set_ip_udp_sport_en (v : Z) (s : mepa_ts_classifier_ip_t) : mepa_ts_classifier_ip_t := Mk_mepa_ts_classifier_ip_t (s.(ip_ip_ver)) (s.(ip_ip_match_mode)) (s.(ip_addr_words)) v (s.(ip_udp_dport_en)) (s.(ip_udp_sport)) (s.(ip_udp_dport)).
Definition set_ip_udp_dport_en (v : Z) (s : mepa_ts_classifier_ip_t) : mepa_ts_classifier_ip_t := Mk_mepa_ts_classifier_ip_t (s.(ip_ip_ver)) (s.(ip_ip_match_mode)) (s.(ip_addr_words)) (s.(ip_udp_sport_en)) v (s.(ip_udp_sport)) (s.(ip_udp_dport)).
Definition set_ip_udp_sport (v : Z) (s : mepa_ts_classifier_ip_t) : mepa_ts_classifier_ip_t := Mk_mepa_ts_classifier_ip_t (s.(ip_ip_ver)) (s.(ip_ip_match_mode)) (s.(ip_addr_words)) (s.(ip_udp_sport_en)) (s.(ip_udp_dport_en)) v (s.(ip_udp_dport)).
Definition set_ip_udp_dport (v : Z) (s : mepa_ts_classifier_ip_t) : mepa_ts_classifier_ip_t := Mk_mepa_ts_classifier_ip_t (s.(ip_ip_ver)) (s.(ip_ip_match_mode)) (s.(ip_addr_words)) (s.(ip_udp_sport_en)) (s.(ip_udp_dport_en)) (s.(ip_udp_sport)) v.

Record mepa_ts_classifier_ptp_t := Mk_mepa_ts_classifier_ptp_t {
  ptp_version : mepa_range_value;
  ptp_minor_version : mepa_range_value;
  ptp_domain : mepa_ts_match;
  ptp_sdoid : mepa_ts_match;
}.
Definition mepa_ts_classifier_ptp_t_0 : mepa_ts_classifier_ptp_t := Mk_mepa_ts_classifier_ptp_t mepa_range_value_0 mepa_range_value_0 mepa_ts_match_0 mepa_ts_match_0.
Definition set_ptp_version (v : mepa_range_value) (s : mepa_ts_classifier_ptp_t) : mepa_ts_classifier_ptp_t := Mk_mepa_ts_classifier_ptp_t v (s.(ptp_minor_version)) (s.(ptp_domain)) (s.(ptp_sdoid)).
Definition set_ptp_minor_version (v : mepa_range_value) (s : mepa_ts_classifier_ptp_t) : mepa_ts_classifier_ptp_t := Mk_mepa_ts_classifier_ptp_t (s.(ptp_version)) v (s.(ptp_domain)) (s.(ptp_sdoid)).
Definition set_ptp_domain (v : mepa_ts_match) (s : mepa_ts_classifier_ptp_t) : mepa_ts_classifier_ptp_t := Mk_mepa_ts_classifier_ptp_t (s.(ptp_version)) (s.(ptp_minor_version)) v (s.(ptp_sdoid)).
Definition set_ptp_sdoid (v : mepa_ts_match) (s : mepa_ts_classifier_ptp_t) : mepa_ts_classifier_ptp_t := Mk_mepa_ts_classifier_ptp_t (s.(ptp_version)) (s.(ptp_minor_version)) (s.(ptp_domain)) v.

Record mepa_ts_classifier_t := Mk_mepa_ts_classifier_t {
  cl_enable : Z;
  cl_pkt_encap_type : Z;
  cl_clock_id : Z;
  cl_eth_class_conf : mepa_ts_classifier_eth_t;
  cl_ip_class_conf : mepa_ts_classifier_ip_t;
  cl_rest : list Z;
}.
Definition mepa_ts_classifier_t_0 : mepa_ts_classifier_t := Mk_mepa_ts_classifier_t 0 0 0 mepa_ts_classifier_eth_t_0 mepa_ts_classifier_ip_t_0 [].
Definition set_cl_enable (v : Z) (s : mepa_ts_classifier_t) : mepa_ts_classifier_t := Mk_mepa_ts_classifier_t v (s.(cl_pkt_encap_type)) (s.(cl_clock_id)) (s.(cl_eth_class_conf)) (s.(cl_ip_class_conf)) (s.(cl_rest)).
Definition set_cl_pkt_encap_type (v : Z) (s : mepa_ts_classifier_t) : mepa_ts_classifier_t := Mk_mepa_ts_classifier_t (s.(cl_enable)) v (s.(cl_clock_id)) (s.(cl_eth_class_conf)) (s.(cl_ip_class_conf)) (s.(cl_rest)).
Definition set_cl_clock_id (v : Z) (s : mepa_ts_classifier_t) : mepa_ts_classifier_t := Mk_mepa_ts_classifier_t (s.(cl_enable)) (s.(cl_pkt_encap_type)) v (s.(cl_eth_class_conf)) (s.(cl_ip_class_conf)) (s.(cl_rest)).
Definition set_cl_eth_class_conf (v : mepa_ts_classifier_eth_t) (s : mepa_ts_classifier_t) : mepa_ts_classifier_t := Mk_mepa_ts_classifier_t (s.(cl_enable)) (s.(cl_pkt_encap_type)) (s.(cl_clock_id)) v (s.(cl_ip_class_conf)) (s.(cl_rest)).
Definition set_cl_ip_class_conf (v : mepa_ts_classifier_ip_t) (s : mepa_ts_classifier_t) : mepa_ts_classifier_t := Mk_mepa_ts_classifier_t (s.(cl_enable)) (s.(cl_pkt_encap_type)) (s.(cl_clock_id)) (s.(cl_eth_class_conf)) v (s.(cl_rest)).

Record mepa_ts_ptp_clock_conf_t := Mk_mepa_ts_ptp_clock_conf_t {
  clk_enable : Z;
  clk_ptp_class_conf : mepa_ts_classifier_ptp_t;
  clk_clk_mode : Z;
  clk_delaym_type : Z;
  clk_cf_update : Z;
}.
Definition mepa_ts_ptp_clock_conf_t_0 : mepa_ts_ptp_clock_conf_t := Mk_mepa_ts_ptp_clock_conf_t 0 mepa_ts_classifier_ptp_t_0 0 0 0.
Definition set_clk_enable (v : Z) (s : mepa_ts_ptp_clock_conf_t) : mepa_ts_ptp_clock_conf_t := Mk_mepa_ts_ptp_clock_conf_t v (s.(clk_ptp_class_conf)) (s.(clk_clk_mode)) (s.(clk_delaym_type)) (s.(clk_cf_update)).
Definition set_clk_ptp_class_conf (v : mepa_ts_classifier_ptp_t) (s : mepa_ts_ptp_clock_conf_t) : mepa_ts_ptp_clock_conf_t := Mk_mepa_ts_ptp_clock_conf_t (s.(clk_enable)) v (s.(clk_clk_mode)) (s.(clk_delaym_type)) (s.(clk_cf_update)).
Definition set_clk_clk_mode (v : Z) (s : mepa_ts_ptp_clock_conf_t) : mepa_ts_ptp_clock_conf_t := Mk_mepa_ts_ptp_clock_conf_t (s.(clk_enable)) (s.(clk_ptp_class_conf)) v (s.(clk_delaym_type)) (s.(clk_cf_update)).
Definition set_clk_delaym_type (v : Z) (s : mepa_ts_ptp_clock_conf_t) : mepa_ts_ptp_clock_conf_t := Mk_mepa_ts_ptp_clock_conf_t (s.(clk_enable)) (s.(clk_ptp_class_conf)) (s.(clk_clk_mode)) v (s.(clk_cf_update)).
Definition set_clk_cf_update (v : Z) (s : mepa_ts_ptp_clock_conf_t) : mepa_ts_ptp_clock_conf_t := Mk_mepa_ts_ptp_clock_conf_t (s.(clk_enable)) (s.(clk_ptp_class_conf)) (s.(clk_clk_mode)) (s.(clk_delaym_type)) v.

Record mepa_ts_stats_t := Mk_mepa_ts_stats_t {
  stats_ingr_pream_shrink_err : Z;
  stats_egr_pream_shrink_err : Z;
  stats_ingr_fcs_err : Z;
  stats_egr_fcs_err : Z;
  stats_ingr_frm_mod_cnt : Z;
  stats_egr_frm_mod_cnt : Z;
  stats_ts_fifo_tx_cnt : Z;
  stats_ts_fifo_drop_cnt : Z;
}.
Definition mepa_ts_stats_t_0 : mepa_ts_stats_t := Mk_mepa_ts_stats_t 0 0 0 0 0 0 0 0.
Definition set_stats_ingr_pream_shrink_err (v : Z) (s : mepa_ts_stats_t) : mepa_ts_stats_t := Mk_mepa_ts_stats_t v (s.(stats_egr_pream_shrink_err)) (s.(stats_ingr_fcs_err)) (s.(stats_egr_fcs_err)) (s.(stats_ingr_frm_mod_cnt)) (s.(stats_egr_frm_mod_cnt)) (s.(stats_ts_fifo_tx_cnt)) (s.(stats_ts_fifo_drop_cnt)).
Definition set_stats_egr_pream_shrink_err (v : Z) (s : mepa_ts_stats_t) : mepa_ts_stats_t := Mk_mepa_ts_stats_t (s.(stats_ingr_pream_shrink_err)) v (s.(stats_ingr_fcs_err)) (s.(stats_egr_fcs_err)) (s.(stats_ingr_frm_mod_cnt)) (s.(stats_egr_frm_mod_cnt)) (s.(stats_ts_fifo_tx_cnt)) (s.(stats_ts_fifo_drop_cnt)).
Definition set_stats_ingr_fcs_err (v : Z) (s : mepa_ts_stats_t) : mepa_ts_stats_t := Mk_mepa_ts_stats_t (s.(stats_ingr_pream_shrink_err)) (s.(stats_egr_pream_shrink_err)) v (s.(stats_egr_fcs_err)) (s.(stats_ingr_frm_mod_cnt)) (s.(stats_egr_frm_mod_cnt)) (s.(stats_ts_fifo_tx_cnt)) (s.(stats_ts_fifo_drop_cnt)).
Definition set_stats_egr_fcs_err (v : Z) (s : mepa_ts_stats_t) : mepa_ts_stats_t := Mk_mepa_ts_stats_t (s.(stats_ingr_pream_shrink_err)) (s.(stats_egr_pream_shrink_err)) (s.(stats_ingr_fcs_err)) v (s.(stats_ingr_frm_mod_cnt)) (s.(stats_egr_frm_mod_cnt)) (s.(stats_ts_fifo_tx_cnt)) (s.(stats_ts_fifo_drop_cnt)).
Definition set_stats_ingr_frm_mod_cnt (v : Z) (s : mepa_ts_stats_t) : mepa_ts_stats_t := Mk_mepa_ts_stats_t (s.(stats_ingr_pream_shrink_err)) (s.(stats_egr_pream_shrink_err)) (s.(stats_ingr_fcs_err)) (s.(stats_egr_fcs_err)) v (s.(stats_egr_frm_mod_cnt)) (s.(stats_ts_fifo_tx_cnt)) (s.(stats_ts_fifo_drop_cnt)).
Definition set_stats_egr_frm_mod_cnt (v : Z) (s : mepa_ts_stats_t) : mepa_ts_stats_t := Mk_mepa_ts_stats_t (s.(stats_ingr_pream_shrink_err)) (s.(stats_egr_pream_shrink_err)) (s.(stats_ingr_fcs_err)) (s.(stats_egr_fcs_err)) (s.(stats_ingr_frm_mod_cnt)) v (s.(stats_ts_fifo_tx_cnt)) (s.(stats_ts_fifo_drop_cnt)).
Definition set_stats_ts_fifo_tx_cnt (v : Z) (s : mepa_ts_stats_t) : mepa_ts_stats_t := Mk_mepa_ts_stats_t (s.(stats_ingr_pream_shrink_err)) (s.(stats_egr_pream_shrink_err)) (s.(stats_ingr_fcs_err)) (s.(stats_egr_fcs_err)) (s.(stats_ingr_frm_mod_cnt)) (s.(stats_egr_frm_mod_cnt)) v (s.(stats_ts_fifo_drop_cnt)).
Definition set_stats_ts_fifo_drop_cnt (v : Z) (s : mepa_ts_stats_t) : mepa_ts_stats_t := Mk_mepa_ts_stats_t (s.(stats_ingr_pream_shrink_err)) (s.(stats_egr_pream_shrink_err)) (s.(stats_ingr_fcs_err)) (s.(stats_egr_fcs_err)) (s.(stats_ingr_frm_mod_cnt)) (s.(stats_egr_frm_mod_cnt)) (s.(stats_ts_fifo_tx_cnt)) v.

Record mepa_ts_fifo_sig_t := Mk_mepa_ts_fifo_sig_t {
  sig_msg_type : Z;
  sig_domain_num : Z;
  sig_src_port_identity : list Z;
  sig_sequence_id : Z;
  sig_crc_src_port : Z;
  sig_has_crc_src : Z;
  sig_dmac_addr : list Z;
  sig_dmac_sig_supported : Z;
  sig_dest_ipv4 : list Z;
  sig_ipv4_sig_supported : Z;
  sig_ipv6_dest_addr : list Z;
  sig_ipv6_sig_supported : Z;
}.
Definition mepa_ts_fifo_sig_t_0 : mepa_ts_fifo_sig_t := Mk_mepa_ts_fifo_sig_t 0 0 (repeat 0 10) 0 0 0 (repeat 0 6) 0 (repeat 0 4) 0 (repeat 0 16) 0.
Definition set_sig_msg_type (v : Z) (s : mepa_ts_fifo_sig_t) : mepa_ts_fifo_sig_t := Mk_mepa_ts_fifo_sig_t v (s.(sig_domain_num)) (s.(sig_src_port_identity)) (s.(sig_sequence_id)) (s.(sig_crc_src_port)) (s.(sig_has_crc_src)) (s.(sig_dmac_addr)) (s.(sig_dmac_sig_supported)) (s.(sig_dest_ipv4)) (s.(sig_ipv4_sig_supported)) (s.(sig_ipv6_dest_addr)) (s.(sig_ipv6_sig_supported)).
Definition set_sig_domain_num (v : Z) (s : mepa_ts_fifo_sig_t) : mepa_ts_fifo_sig_t := Mk_mepa_ts_fifo_sig_t (s.(sig_msg_type)) v (s.(sig_src_port_identity)) (s.(sig_sequence_id)) (s.(sig_crc_src_port)) (s.(sig_has_crc_src)) (s.(sig_dmac_addr)) (s.(sig_dmac_sig_supported)) (s.(sig_dest_ipv4)) (s.(sig_ipv4_sig_supported)) (s.(sig_ipv6_dest_addr)) (s.(sig_ipv6_sig_supported)).
Definition set_sig_src_port_identity (v : list Z) (s : mepa_ts_fifo_sig_t) : mepa_ts_fifo_sig_t := Mk_mepa_ts_fifo_sig_t (s.(sig_msg_type)) (s.(sig_domain_num)) v (s.(sig_sequence_id)) (s.(sig_crc_src_port)) (s.(sig_has_crc_src)) (s.(sig_dmac_addr)) (s.(sig_dmac_sig_supported)) (s.(sig_dest_ipv4)) (s.(sig_ipv4_sig_supported)) (s.(sig_ipv6_dest_addr)) (s.(sig_ipv6_sig_supported)).
Definition set_sig_sequence_id (v : Z) (s : mepa_ts_fifo_sig_t) : mepa_ts_fifo_sig_t := Mk_mepa_ts_fifo_sig_t (s.(sig_msg_type)) (s.(sig_domain_num)) (s.(sig_src_port_identity)) v (s.(sig_crc_src_port)) (s.(sig_has_crc_src)) (s.(sig_dmac_addr)) (s.(sig_dmac_sig_supported)) (s.(sig_dest_ipv4)) (s.(sig_ipv4_sig_supported)) (s.(sig_ipv6_dest_addr)) (s.(sig_ipv6_sig_supported)).
Definition set_sig_crc_src_port (v : Z) (s : mepa_ts_fifo_sig_t) : mepa_ts_fifo_sig_t := Mk_mepa_ts_fifo_sig_t (s.(sig_msg_type)) (s.(sig_domain_num)) (s.(sig_src_port_identity)) (s.(sig_sequence_id)) v (s.(sig_has_crc_src)) (s.(sig_dmac_addr)) (s.(sig_dmac_sig_supported)) (s.(sig_dest_ipv4)) (s.(sig_ipv4_sig_supported)) (s.(sig_ipv6_dest_addr)) (s.(sig_ipv6_sig_supported)).
Definition set_sig_has_crc_src (v : Z) (s : mepa_ts_fifo_sig_t) : mepa_ts_fifo_sig_t := Mk_mepa_ts_fifo_sig_t (s.(sig_msg_type)) (s.(sig_domain_num)) (s.(sig_src_port_identity)) (s.(sig_sequence_id)) (s.(sig_crc_src_port)) v (s.(sig_dmac_addr)) (s.(sig_dmac_sig_supported)) (s.(sig_dest_ipv4)) (s.(sig_ipv4_sig_supported)) (s.(sig_ipv6_dest_addr)) (s.(sig_ipv6_sig_supported)).
Definition set_sig_dmac_addr (v : list Z) (s : mepa_ts_fifo_sig_t) : mepa_ts_fifo_sig_t := Mk_mepa_ts_fifo_sig_t (s.(sig_msg_type)) (s.(sig_domain_num)) (s.(sig_src_port_identity)) (s.(sig_sequence_id)) (s.(sig_crc_src_port)) (s.(sig_has_crc_src)) v (s.(sig_dmac_sig_supported)) (s.(sig_dest_ipv4)) (s.(sig_ipv4_sig_supported)) (s.(sig_ipv6_dest_addr)) (s.(sig_ipv6_sig_supported)).
Definition set_sig_dmac_sig_supported (v : Z) (s : mepa_ts_fifo_sig_t) : mepa_ts_fifo_sig_t := Mk_mepa_ts_fifo_sig_t (s.(sig_msg_type)) (s.(sig_domain_num)) (s.(sig_src_port_identity)) (s.(sig_sequence_id)) (s.(sig_crc_src_port)) (s.(sig_has_crc_src)) (s.(sig_dmac_addr)) v (s.(sig_dest_ipv4)) (s.(sig_ipv4_sig_supported)) (s.(sig_ipv6_dest_addr)) (s.(sig_ipv6_sig_supported)).
Definition set_sig_dest_ipv4 (v : list Z) (s : mepa_ts_fifo_sig_t) : mepa_ts_fifo_sig_t := Mk_mepa_ts_fifo_sig_t (s.(sig_msg_type)) (s.(sig_domain_num)) (s.(sig_src_port_identity)) (s.(sig_sequence_id)) (s.(sig_crc_src_port)) (s.(sig_has_crc_src)) (s.(sig_dmac_addr)) (s.(sig_dmac_sig_supported)) v (s.(sig_ipv4_sig_supported)) (s.(sig_ipv6_dest_addr)) (s.(sig_ipv6_sig_supported)).
Definition set_sig_ipv4_sig_supported (v : Z) (s : mepa_ts_fifo_sig_t) : mepa_ts_fifo_sig_t := Mk_mepa_ts_fifo_sig_t (s.(sig_msg_type)) (s.(sig_domain_num)) (s.(sig_src_port_identity)) (s.(sig_sequence_id)) (s.(sig_crc_src_port)) (s.(sig_has_crc_src)) (s.(sig_dmac_addr)) (s.(sig_dmac_sig_supported)) (s.(sig_dest_ipv4)) v (s.(sig_ipv6_dest_addr)) (s.(sig_ipv6_sig_supported)).
Definition set_sig_ipv6_dest_addr (v : list Z) (s : mepa_ts_fifo_sig_t) : mepa_ts_fifo_sig_t := Mk_mepa_ts_fifo_sig_t (s.(sig_msg_type)) (s.(sig_domain_num)) (s.(sig_src_port_identity)) (s.(sig_sequence_id)) (s.(sig_crc_src_port)) (s.(sig_has_crc_src)) (s.(sig_dmac_addr)) (s.(sig_dmac_sig_supported)) (s.(sig_dest_ipv4)) (s.(sig_ipv4_sig_supported)) v (s.(sig_ipv6_sig_supported)).
Definition set_sig_ipv6_sig_supported (v : Z) (s : mepa_ts_fifo_sig_t) : mepa_ts_fifo_sig_t := Mk_mepa_ts_fifo_sig_t (s.(sig_msg_type)) (s.(sig_domain_num)) (s.(sig_src_port_identity)) (s.(sig_sequence_id)) (s.(sig_crc_src_port)) (s.(sig_has_crc_src)) (s.(sig_dmac_addr)) (s.(sig_dmac_sig_supported)) (s.(sig_dest_ipv4)) (s.(sig_ipv4_sig_supported)) (s.(sig_ipv6_dest_addr)) v.

Record mepa_pch_mch_mismatch_info_t := Mk_mepa_pch_mch_mismatch_info_t {
  mm_subportid_mismatch : Z;
  mm_crc_error : Z;
  mm_ext_type_mismatch : Z;
  mm_pkt_type_mismatch : Z;
}.
Definition mepa_pch_mch_mismatch_info_t_0 : mepa_pch_mch_mismatch_info_t := Mk_mepa_pch_mch_mismatch_info_t 0 0 0 0.
Definition set_mm_subportid_mismatch (v : Z) (s : mepa_pch_mch_mismatch_info_t) : mepa_pch_mch_mismatch_info_t := Mk_mepa_pch_mch_mismatch_info_t v (s.(mm_crc_error)) (s.(mm_ext_type_mismatch)) (s.(mm_pkt_type_mismatch)).
Definition set_mm_crc_error (v : Z) (s : mepa_pch_mch_mismatch_info_t) : mepa_pch_mch_mismatch_info_t := Mk_mepa_pch_mch_mismatch_info_t (s.(mm_subportid_mismatch)) v (s.(mm_ext_type_mismatch)) (s.(mm_pkt_type_mismatch)).
Definition set_mm_ext_type_mismatch (v : Z) (s : mepa_pch_mch_mismatch_info_t) : mepa_pch_mch_mismatch_info_t := Mk_mepa_pch_mch_mismatch_info_t (s.(mm_subportid_mismatch)) (s.(mm_crc_error)) v (s.(mm_pkt_type_mismatch)).
Definition set_mm_pkt_type_mismatch (v : Z) (s : mepa_pch_mch_mismatch_info_t) : mepa_pch_mch_mismatch_info_t := Mk_mepa_pch_mch_mismatch_info_t (s.(mm_subportid_mismatch)) (s.(mm_crc_error)) (s.(mm_ext_type_mismatch)) v.

Record mepa_fifo_ts_entry_t := Mk_mepa_fifo_ts_entry_t {
  fe_sig : mepa_ts_fifo_sig_t;
  fe_ts : mepa_timestamp_t;
}.
Definition mepa_fifo_ts_entry_t_0 : mepa_fifo_ts_entry_t := Mk_mepa_fifo_ts_entry_t mepa_ts_fifo_sig_t_0 mepa_timestamp_t_0.
Definition set_fe_sig (v : mepa_ts_fifo_sig_t) (s : mepa_fifo_ts_entry_t) : mepa_fifo_ts_entry_t := Mk_mepa_fifo_ts_entry_t v (s.(fe_ts)).
Definition set_fe_ts (v : mepa_timestamp_t) (s : mepa_fifo_ts_entry_t) : mepa_fifo_ts_entry_t := Mk_mepa_fifo_ts_entry_t (s.(fe_sig)) v.

Record lan8814_ts_port_latencies_t := Mk_lan8814_ts_port_latencies_t {
  lat_rx10mbps : Z;
  lat_rx100mbps : Z;
  lat_rx1000mbps : Z;
  lat_tx10mbps : Z;
  lat_tx100mbps : Z;
  lat_tx1000mbps : Z;
}.
Definition lan8814_ts_port_latencies_t_0 : lan8814_ts_port_latencies_t := Mk_lan8814_ts_port_latencies_t 0 0 0 0 0 0.
Definition set_lat_rx10mbps (v : Z) (s : lan8814_ts_port_latencies_t) : lan8814_ts_port_latencies_t := Mk_lan8814_ts_port_latencies_t v (s.(lat_rx100mbps)) (s.(lat_rx1000mbps)) (s.(lat_tx10mbps)) (s.(lat_tx100mbps)) (s.(lat_tx1000mbps)).
Definition set_lat_rx100mbps (v : Z) (s : lan8814_ts_port_latencies_t) : lan8814_ts_port_latencies_t := Mk_lan8814_ts_port_latencies_t (s.(lat_rx10mbps)) v (s.(lat_rx1000mbps)) (s.(lat_tx10mbps)) (s.(lat_tx100mbps)) (s.(lat_tx1000mbps)).
Definition set_lat_rx1000mbps (v : Z) (s : lan8814_ts_port_latencies_t) : lan8814_ts_port_latencies_t := Mk_lan8814_ts_port_latencies_t (s.(lat_rx10mbps)) (s.(lat_rx100mbps)) v (s.(lat_tx10mbps)) (s.(lat_tx100mbps)) (s.(lat_tx1000mbps)).
Definition set_lat_tx10mbps (v : Z) (s : lan8814_ts_port_latencies_t) : lan8814_ts_port_latencies_t := Mk_lan8814_ts_port_latencies_t (s.(lat_rx10mbps)) (s.(lat_rx100mbps)) (s.(lat_rx1000mbps)) v (s.(lat_tx100mbps)) (s.(lat_tx1000mbps)).
Definition set_lat_tx100mbps (v : Z) (s : lan8814_ts_port_latencies_t) : lan8814_ts_port_latencies_t := Mk_lan8814_ts_port_latencies_t (s.(lat_rx10mbps)) (s.(lat_rx100mbps)) (s.(lat_rx1000mbps)) (s.(lat_tx10mbps)) v (s.(lat_tx1000mbps)).
Definition set_lat_tx1000mbps (v : Z) (s : lan8814_ts_port_latencies_t) : lan8814_ts_port_latencies_t := Mk_lan8814_ts_port_latencies_t (s.(lat_rx10mbps)) (s.(lat_rx100mbps)) (s.(lat_rx1000mbps)) (s.(lat_tx10mbps)) (s.(lat_tx100mbps)) v.

Record lan8814_ts_port_conf_t := Mk_lan8814_ts_port_conf_t {
  tp_tsu_en : Z;
  tp_ingress_latency : Z;
  tp_egress_latency : Z;
  tp_path_delay : Z;
  tp_delay_asym : Z;
  tp_rate_adj : Z;
  tp_event_mask : Z;
  tp_pps_conf : mepa_ts_pps_conf_t;
  tp_rx_pkt_conf : mepa_ts_classifier_t;
  tp_tx_pkt_conf : mepa_ts_classifier_t;
  tp_rx_clock_conf : mepa_ts_ptp_clock_conf_t;
  tp_tx_clock_conf : mepa_ts_ptp_clock_conf_t;
  tp_port_latencies : lan8814_ts_port_latencies_t;
}.
Definition lan8814_ts_port_conf_t_0 : lan8814_ts_port_conf_t := Mk_lan8814_ts_port_conf_t 0 0 0 0 0 0 0 mepa_ts_pps_conf_t_0 mepa_ts_classifier_t_0 mepa_ts_classifier_t_0 mepa_ts_ptp_clock_conf_t_0 mepa_ts_ptp_clock_conf_t_0 lan8814_ts_port_latencies_t_0.
Definition set_tp_tsu_en (v : Z) (s : lan8814_ts_port_conf_t) : lan8814_ts_port_conf_t := Mk_lan8814_ts_port_conf_t v (s.(tp_ingress_latency)) (s.(tp_egress_latency)) (s.(tp_path_delay)) (s.(tp_delay_asym)) (s.(tp_rate_adj)) (s.(tp_event_mask)) (s.(tp_pps_conf)) (s.(tp_rx_pkt_conf)) (s.(tp_tx_pkt_conf)) (s.(tp_rx_clock_conf)) (s.(tp_tx_clock_conf)) (s.(tp_port_latencies)).
Definition set_tp_ingress_latency (v : Z) (s : lan8814_ts_port_conf_t) : lan8814_ts_port_conf_t := Mk_lan8814_ts_port_conf_t (s.(tp_tsu_en)) v (s.(tp_egress_latency)) (s.(tp_path_delay)) (s.(tp_delay_asym)) (s.(tp_rate_adj)) (s.(tp_event_mask)) (s.(tp_pps_conf)) (s.(tp_rx_pkt_conf)) (s.(tp_tx_pkt_conf)) (s.(tp_rx_clock_conf)) (s.(tp_tx_clock_conf)) (s.(tp_port_latencies)).
Definition set_tp_egress_latency (v : Z) (s : lan8814_ts_port_conf_t) : lan8814_ts_port_conf_t := Mk_lan8814_ts_port_conf_t (s.(tp_tsu_en)) (s.(tp_ingress_latency)) v (s.(tp_path_delay)) (s.(tp_delay_asym)) (s.(tp_rate_adj)) (s.(tp_event_mask)) (s.(tp_pps_conf)) (s.(tp_rx_pkt_conf)) (s.(tp_tx_pkt_conf)) (s.(tp_rx_clock_conf)) (s.(tp_tx_clock_conf)) (s.(tp_port_latencies)).
Definition set_tp_path_delay (v : Z) (s : lan8814_ts_port_conf_t) : lan8814_ts_port_conf_t := Mk_lan8814_ts_port_conf_t (s.(tp_tsu_en)) (s.(tp_ingress_latency)) (s.(tp_egress_latency)) v (s.(tp_delay_asym)) (s.(tp_rate_adj)) (s.(tp_event_mask)) (s.(tp_pps_conf)) (s.(tp_rx_pkt_conf)) (s.(tp_tx_pkt_conf)) (s.(tp_rx_clock_conf)) (s.(tp_tx_clock_conf)) (s.(tp_port_latencies)).
Definition set_tp_delay_asym (v : Z) (s : lan8814_ts_port_conf_t) : lan8814_ts_port_conf_t := Mk_lan8814_ts_port_conf_t (s.(tp_tsu_en)) (s.(tp_ingress_latency)) (s.(tp_egress_latency)) (s.(tp_path_delay)) v (s.(tp_rate_adj)) (s.(tp_event_mask)) (s.(tp_pps_conf)) (s.(tp_rx_pkt_conf)) (s.(tp_tx_pkt_conf)) (s.(tp_rx_clock_conf)) (s.(tp_tx_clock_conf)) (s.(tp_port_latencies)).
Definition set_tp_rate_adj (v : Z) (s : lan8814_ts_port_conf_t) : lan8814_ts_port_conf_t := Mk_lan8814_ts_port_conf_t (s.(tp_tsu_en)) (s.(tp_ingress_latency)) (s.(tp_egress_latency)) (s.(tp_path_delay)) (s.(tp_delay_asym)) v (s.(tp_event_mask)) (s.(tp_pps_conf)) (s.(tp_rx_pkt_conf)) (s.(tp_tx_pkt_conf)) (s.(tp_rx_clock_conf)) (s.(tp_tx_clock_conf)) (s.(tp_port_latencies)).
Definition set_tp_event_mask (v : Z) (s : lan8814_ts_port_conf_t) : lan8814_ts_port_conf_t := Mk_lan8814_ts_port_conf_t (s.(tp_tsu_en)) (s.(tp_ingress_latency)) (s.(tp_egress_latency)) (s.(tp_path_delay)) (s.(tp_delay_asym)) (s.(tp_rate_adj)) v (s.(tp_pps_conf)) (s.(tp_rx_pkt_conf)) (s.(tp_tx_pkt_conf)) (s.(tp_rx_clock_conf)) (s.(tp_tx_clock_conf)) (s.(tp_port_latencies)).
Definition set_tp_pps_conf (v : mepa_ts_pps_conf_t) (s : lan8814_ts_port_conf_t) : lan8814_ts_port_conf_t := Mk_lan8814_ts_port_conf_t (s.(tp_tsu_en)) (s.(tp_ingress_latency)) (s.(tp_egress_latency)) (s.(tp_path_delay)) (s.(tp_delay_asym)) (s.(tp_rate_adj)) (s.(tp_event_mask)) v (s.(tp_rx_pkt_conf)) (s.(tp_tx_pkt_conf)) (s.(tp_rx_clock_conf)) (s.(tp_tx_clock_conf)) (s.(tp_port_latencies)).
Definition set_tp_rx_pkt_conf (v : mepa_ts_classifier_t) (s : lan8814_ts_port_conf_t) : lan8814_ts_port_conf_t := Mk_lan8814_ts_port_conf_t (s.(tp_tsu_en)) (s.(tp_ingress_latency)) (s.(tp_egress_latency)) (s.(tp_path_delay)) (s.(tp_delay_asym)) (s.(tp_rate_adj)) (s.(tp_event_mask)) (s.(tp_pps_conf)) v (s.(tp_tx_pkt_conf)) (s.(tp_rx_clock_conf)) (s.(tp_tx_clock_conf)) (s.(tp_port_latencies)).
Definition set_tp_tx_pkt_conf (v : mepa_ts_classifier_t) (s : lan8814_ts_port_conf_t) : lan8814_ts_port_conf_t := Mk_lan8814_ts_port_conf_t (s.(tp_tsu_en)) (s.(tp_ingress_latency)) (s.(tp_egress_latency)) (s.(tp_path_delay)) (s.(tp_delay_asym)) (s.(tp_rate_adj)) (s.(tp_event_mask)) (s.(tp_pps_conf)) (s.(tp_rx_pkt_conf)) v (s.(tp_rx_clock_conf)) (s.(tp_tx_clock_conf)) (s.(tp_port_latencies)).
Definition set_tp_rx_clock_conf (v : mepa_ts_ptp_clock_conf_t) (s : lan8814_ts_port_conf_t) : lan8814_ts_port_conf_t := Mk_lan8814_ts_port_conf_t (s.(tp_tsu_en)) (s.(tp_ingress_latency)) (s.(tp_egress_latency)) (s.(tp_path_delay)) (s.(tp_delay_asym)) (s.(tp_rate_adj)) (s.(tp_event_mask)) (s.(tp_pps_conf)) (s.(tp_rx_pkt_conf)) (s.(tp_tx_pkt_conf)) v (s.(tp_tx_clock_conf)) (s.(tp_port_latencies)).
Definition set_tp_tx_clock_conf (v : mepa_ts_ptp_clock_conf_t) (s : lan8814_ts_port_conf_t) : lan8814_ts_port_conf_t := Mk_lan8814_ts_port_conf_t (s.(tp_tsu_en)) (s.(tp_ingress_latency)) (s.(tp_egress_latency)) (s.(tp_path_delay)) (s.(tp_delay_asym)) (s.(tp_rate_adj)) (s.(tp_event_mask)) (s.(tp_pps_conf)) (s.(tp_rx_pkt_conf)) (s.(tp_tx_pkt_conf)) (s.(tp_rx_clock_conf)) v (s.(tp_port_latencies)).
Definition set_tp_port_latencies (v : lan8814_ts_port_latencies_t) (s : lan8814_ts_port_conf_t) : lan8814_ts_port_conf_t := Mk_lan8814_ts_port_conf_t (s.(tp_tsu_en)) (s.(tp_ingress_latency)) (s.(tp_egress_latency)) (s.(tp_path_delay)) (s.(tp_delay_asym)) (s.(tp_rate_adj)) (s.(tp_event_mask)) (s.(tp_pps_conf)) (s.(tp_rx_pkt_conf)) (s.(tp_tx_pkt_conf)) (s.(tp_rx_clock_conf)) (s.(tp_tx_clock_conf)) v.

Record lan8814_ts_data_t := Mk_lan8814_ts_data_t {
  ts_ptp_en : Z;
  ts_tsu_op_mode : Z;
  ts_clk_freq : Z;
  ts_clk_src : Z;
  ts_rx_ts_pos : Z;
  ts_rx_ts_len : Z;
  ts_tx_fifo_ts_len : Z;
  ts_tx_fifo_mode : Z;
  ts_ts_port_conf : lan8814_ts_port_conf_t;
  ts_tx_spi_en : Z;
  ts_fifo_cb : option Z;
  ts_default_latencies : lan8814_ts_port_latencies_t;
  ts_pps : mepa_ts_pps_conf_t;
  ts_tx_auto_followup_ts : Z;
  ts_ts_init_done : Z;
  ts_tc_op_mode : Z;
  ts_mch_pch : mepa_mch_pch_t;
}.
Definition lan8814_ts_data_t_0 : lan8814_ts_data_t := Mk_lan8814_ts_data_t 0 0 0 0 0 0 0 0 lan8814_ts_port_conf_t_0 0 None lan8814_ts_port_latencies_t_0 mepa_ts_pps_conf_t_0 0 0 0 mepa_mch_pch_t_0.
Definition set_ts_ptp_en (v : Z) (s : lan8814_ts_data_t) : lan8814_ts_data_t := Mk_lan8814_ts_data_t v (s.(ts_tsu_op_mode)) (s.(ts_clk_freq)) (s.(ts_clk_src)) (s.(ts_rx_ts_pos)) (s.(ts_rx_ts_len)) (s.(ts_tx_fifo_ts_len)) (s.(ts_tx_fifo_mode)) (s.(ts_ts_port_conf)) (s.(ts_tx_spi_en)) (s.(ts_fifo_cb)) (s.(ts_default_latencies)) (s.(ts_pps)) (s.(ts_tx_auto_followup_ts)) (s.(ts_ts_init_done)) (s.(ts_tc_op_mode)) (s.(ts_mch_pch)).
Definition set_ts_tsu_op_mode (v : Z) (s : lan8814_ts_data_t) : lan8814_ts_data_t := Mk_lan8814_ts_data_t (s.(ts_ptp_en)) v (s.(ts_clk_freq)) (s.(ts_clk_src)) (s.(ts_rx_ts_pos)) (s.(ts_rx_ts_len)) (s.(ts_tx_fifo_ts_len)) (s.(ts_tx_fifo_mode)) (s.(ts_ts_port_conf)) (s.(ts_tx_spi_en)) (s.(ts_fifo_cb)) (s.(ts_default_latencies)) (s.(ts_pps)) (s.(ts_tx_auto_followup_ts)) (s.(ts_ts_init_done)) (s.(ts_tc_op_mode)) (s.(ts_mch_pch)).
Definition set_ts_clk_freq (v : Z) (s : lan8814_ts_data_t) : lan8814_ts_data_t := Mk_lan8814_ts_data_t (s.(ts_ptp_en)) (s.(ts_tsu_op_mode)) v (s.(ts_clk_src)) (s.(ts_rx_ts_pos)) (s.(ts_rx_ts_len)) (s.(ts_tx_fifo_ts_len)) (s.(ts_tx_fifo_mode)) (s.(ts_ts_port_conf)) (s.(ts_tx_spi_en)) (s.(ts_fifo_cb)) (s.(ts_default_latencies)) (s.(ts_pps)) (s.(ts_tx_auto_followup_ts)) (s.(ts_ts_init_done)) (s.(ts_tc_op_mode)) (s.(ts_mch_pch)).
Definition set_ts_clk_src (v : Z) (s : lan8814_ts_data_t) : lan8814_ts_data_t := Mk_lan8814_ts_data_t (s.(ts_ptp_en)) (s.(ts_tsu_op_mode)) (s.(ts_clk_freq)) v (s.(ts_rx_ts_pos)) (s.(ts_rx_ts_len)) (s.(ts_tx_fifo_ts_len)) (s.(ts_tx_fifo_mode)) (s.(ts_ts_port_conf)) (s.(ts_tx_spi_en)) (s.(ts_fifo_cb)) (s.(ts_default_latencies)) (s.(ts_pps)) (s.(ts_tx_auto_followup_ts)) (s.(ts_ts_init_done)) (s.(ts_tc_op_mode)) (s.(ts_mch_pch)).
Definition set_ts_rx_ts_pos (v : Z) (s : lan8814_ts_data_t) : lan8814_ts_data_t := Mk_lan8814_ts_data_t (s.(ts_ptp_en)) (s.(ts_tsu_op_mode)) (s.(ts_clk_freq)) (s.(ts_clk_src)) v (s.(ts_rx_ts_len)) (s.(ts_tx_fifo_ts_len)) (s.(ts_tx_fifo_mode)) (s.(ts_ts_port_conf)) (s.(ts_tx_spi_en)) (s.(ts_fifo_cb)) (s.(ts_default_latencies)) (s.(ts_pps)) (s.(ts_tx_auto_followup_ts)) (s.(ts_ts_init_done)) (s.(ts_tc_op_mode)) (s.(ts_mch_pch)).
Definition set_ts_rx_ts_len (v : Z) (s : lan8814_ts_data_t) : lan8814_ts_data_t := Mk_lan8814_ts_data_t (s.(ts_ptp_en)) (s.(ts_tsu_op_mode)) (s.(ts_clk_freq)) (s.(ts_clk_src)) (s.(ts_rx_ts_pos)) v (s.(ts_tx_fifo_ts_len)) (s.(ts_tx_fifo_mode)) (s.(ts_ts_port_conf)) (s.(ts_tx_spi_en)) (s.(ts_fifo_cb)) (s.(ts_default_latencies)) (s.(ts_pps)) (s.(ts_tx_auto_followup_ts)) (s.(ts_ts_init_done)) (s.(ts_tc_op_mode)) (s.(ts_mch_pch)).
Definition set_ts_tx_fifo_ts_len (v : Z) (s : lan8814_ts_data_t) : lan8814_ts_data_t := Mk_lan8814_ts_data_t (s.(ts_ptp_en)) (s.(ts_tsu_op_mode)) (s.(ts_clk_freq)) (s.(ts_clk_src)) (s.(ts_rx_ts_pos)) (s.(ts_rx_ts_len)) v (s.(ts_tx_fifo_mode)) (s.(ts_ts_port_conf)) (s.(ts_tx_spi_en)) (s.(ts_fifo_cb)) (s.(ts_default_latencies)) (s.(ts_pps)) (s.(ts_tx_auto_followup_ts)) (s.(ts_ts_init_done)) (s.(ts_tc_op_mode)) (s.(ts_mch_pch)).
Definition set_ts_tx_fifo_mode (v : Z) (s : lan8814_ts_data_t) : lan8814_ts_data_t := Mk_lan8814_ts_data_t (s.(ts_ptp_en)) (s.(ts_tsu_op_mode)) (s.(ts_clk_freq)) (s.(ts_clk_src)) (s.(ts_rx_ts_pos)) (s.(ts_rx_ts_len)) (s.(ts_tx_fifo_ts_len)) v (s.(ts_ts_port_conf)) (s.(ts_tx_spi_en)) (s.(ts_fifo_cb)) (s.(ts_default_latencies)) (s.(ts_pps)) (s.(ts_tx_auto_followup_ts)) (s.(ts_ts_init_done)) (s.(ts_tc_op_mode)) (s.(ts_mch_pch)).
Definition set_ts_ts_port_conf (v : lan8814_ts_port_conf_t) (s : lan8814_ts_data_t) : lan8814_ts_data_t := Mk_lan8814_ts_data_t (s.(ts_ptp_en)) (s.(ts_tsu_op_mode)) (s.(ts_clk_freq)) (s.(ts_clk_src)) (s.(ts_rx_ts_pos)) (s.(ts_rx_ts_len)) (s.(ts_tx_fifo_ts_len)) (s.(ts_tx_fifo_mode)) v (s.(ts_tx_spi_en)) (s.(ts_fifo_cb)) (s.(ts_default_latencies)) (s.(ts_pps)) (s.(ts_tx_auto_followup_ts)) (s.(ts_ts_init_done)) (s.(ts_tc_op_mode)) (s.(ts_mch_pch)).
Definition set_ts_tx_spi_en (v : Z) (s : lan8814_ts_data_t) : lan8814_ts_data_t := Mk_lan8814_ts_data_t (s.(ts_ptp_en)) (s.(ts_tsu_op_mode)) (s.(ts_clk_freq)) (s.(ts_clk_src)) (s.(ts_rx_ts_pos)) (s.(ts_rx_ts_len)) (s.(ts_tx_fifo_ts_len)) (s.(ts_tx_fifo_mode)) (s.(ts_ts_port_conf)) v (s.(ts_fifo_cb)) (s.(ts_default_latencies)) (s.(ts_pps)) (s.(ts_tx_auto_followup_ts)) (s.(ts_ts_init_done)) (s.(ts_tc_op_mode)) (s.(ts_mch_pch)).
Definition set_ts_fifo_cb (v : option Z) (s : lan8814_ts_data_t) : lan8814_ts_data_t := Mk_lan8814_ts_data_t (s.(ts_ptp_en)) (s.(ts_tsu_op_mode)) (s.(ts_clk_freq)) (s.(ts_clk_src)) (s.(ts_rx_ts_pos)) (s.(ts_rx_ts_len)) (s.(ts_tx_fifo_ts_len)) (s.(ts_tx_fifo_mode)) (s.(ts_ts_port_conf)) (s.(ts_tx_spi_en)) v (s.(ts_default_latencies)) (s.(ts_pps)) (s.(ts_tx_auto_followup_ts)) (s.(ts_ts_init_done)) (s.(ts_tc_op_mode)) (s.(ts_mch_pch)).
Definition set_ts_default_latencies (v : lan8814_ts_port_latencies_t) (s : lan8814_ts_data_t) : lan8814_ts_data_t := Mk_lan8814_ts_data_t (s.(ts_ptp_en)) (s.(ts_tsu_op_mode)) (s.(ts_clk_freq)) (s.(ts_clk_src)) (s.(ts_rx_ts_pos)) (s.(ts_rx_ts_len)) (s.(ts_tx_fifo_ts_len)) (s.(ts_tx_fifo_mode)) (s.(ts_ts_port_conf)) (s.(ts_tx_spi_en)) (s.(ts_fifo_cb)) v (s.(ts_pps)) (s.(ts_tx_auto_followup_ts)) (s.(ts_ts_init_done)) (s.(ts_tc_op_mode)) (s.(ts_mch_pch)).
Definition set_ts_pps (v : mepa_ts_pps_conf_t) (s : lan8814_ts_data_t) : lan8814_ts_data_t := Mk_lan8814_ts_data_t (s.(ts_ptp_en)) (s.(ts_tsu_op_mode)) (s.(ts_clk_freq)) (s.(ts_clk_src)) (s.(ts_rx_ts_pos)) (s.(ts_rx_ts_len)) (s.(ts_tx_fifo_ts_len)) (s.(ts_tx_fifo_mode)) (s.(ts_ts_port_conf)) (s.(ts_tx_spi_en)) (s.(ts_fifo_cb)) (s.(ts_default_latencies)) v (s.(ts_tx_auto_followup_ts)) (s.(ts_ts_init_done)) (s.(ts_tc_op_mode)) (s.(ts_mch_pch)).
Definition set_ts_tx_auto_followup_ts (v : Z) (s : lan8814_ts_data_t) : lan8814_ts_data_t := Mk_lan8814_ts_data_t (s.(ts_ptp_en)) (s.(ts_tsu_op_mode)) (s.(ts_clk_freq)) (s.(ts_clk_src)) (s.(ts_rx_ts_pos)) (s.(ts_rx_ts_len)) (s.(ts_tx_fifo_ts_len)) (s.(ts_tx_fifo_mode)) (s.(ts_ts_port_conf)) (s.(ts_tx_spi_en)) (s.(ts_fifo_cb)) (s.(ts_default_latencies)) (s.(ts_pps)) v (s.(ts_ts_init_done)) (s.(ts_tc_op_mode)) (s.(ts_mch_pch)).
Definition set_ts_ts_init_done (v : Z) (s : lan8814_ts_data_t) : lan8814_ts_data_t := Mk_lan8814_ts_data_t (s.(ts_ptp_en)) (s.(ts_tsu_op_mode)) (s.(ts_clk_freq)) (s.(ts_clk_src)) (s.(ts_rx_ts_pos)) (s.(ts_rx_ts_len)) (s.(ts_tx_fifo_ts_len)) (s.(ts_tx_fifo_mode)) (s.(ts_ts_port_conf)) (s.(ts_tx_spi_en)) (s.(ts_fifo_cb)) (s.(ts_default_latencies)) (s.(ts_pps)) (s.(ts_tx_auto_followup_ts)) v (s.(ts_tc_op_mode)) (s.(ts_mch_pch)).
Definition set_ts_tc_op_mode (v : Z) (s : lan8814_ts_data_t) : lan8814_ts_data_t := Mk_lan8814_ts_data_t (s.(ts_ptp_en)) (s.(ts_tsu_op_mode)) (s.(ts_clk_freq)) (s.(ts_clk_src)) (s.(ts_rx_ts_pos)) (s.(ts_rx_ts_len)) (s.(ts_tx_fifo_ts_len)) (s.(ts_tx_fifo_mode)) (s.(ts_ts_port_conf)) (s.(ts_tx_spi_en)) (s.(ts_fifo_cb)) (s.(ts_default_latencies)) (s.(ts_pps)) (s.(ts_tx_auto_followup_ts)) (s.(ts_ts_init_done)) v (s.(ts_mch_pch)).
Definition set_ts_mch_pch (v : mepa_mch_pch_t) (s : lan8814_ts_data_t) : lan8814_ts_data_t := Mk_lan8814_ts_data_t (s.(ts_ptp_en)) (s.(ts_tsu_op_mode)) (s.(ts_clk_freq)) (s.(ts_clk_src)) (s.(ts_rx_ts_pos)) (s.(ts_rx_ts_len)) (s.(ts_tx_fifo_ts_len)) (s.(ts_tx_fifo_mode)) (s.(ts_ts_port_conf)) (s.(ts_tx_spi_en)) (s.(ts_fifo_cb)) (s.(ts_default_latencies)) (s.(ts_pps)) (s.(ts_tx_auto_followup_ts)) (s.(ts_ts_init_done)) (s.(ts_tc_op_mode)) v.

Record phy_data_t := Mk_phy_data_t {
  pd_init_done : Z;
  pd_packet_idx : Z;
  pd_port_no : Z;
  pd_conf : mepa_conf_t;
  pd_events : Z;
  pd_loopback : mepa_loopback_t;
  pd_qsgmii_phy_aneg_dis : Z;
  pd_dev : phy_dev_info_t;
  pd_synce_conf : mepa_synce_clock_conf_t;
  pd_base_dev : option Z;
  pd_link_status : Z;
  pd_speed_status : Z;
  pd_fdx_status : Z;
  pd_cable_diag : mepa_cable_diag_result_t;
  pd_sof_conf : mepa_start_of_frame_conf_t;
  pd_framepreempt_en : Z;
  pd_mdi_mode : Z;
  pd_post_mac_rst : Z;
  pd_aneg_after_link_up : Z;
  pd_crc_workaround : Z;
  pd_ts_state : lan8814_ts_data_t;
  pd_prbs_conf : mepa_phy_prbs_generator_conf_t;
  pd_prbs_init : Z;
  pd_eee_conf : mepa_phy_eee_conf_t;
  pd_dsh_conf : lan8814_phy_downshift_t;
  pd_loop_cnt : Z;
  pd_rep_cnt : Z;
  pd_dsh_complete : Z;
  pd_aneg_flag : Z;
}.
Definition phy_data_t_0 : phy_data_t := Mk_phy_data_t 0 0 0 mepa_conf_t_0 0 mepa_loopback_t_0 0 phy_dev_info_t_0 mepa_synce_clock_conf_t_0 None 0 0 0 mepa_cable_diag_result_t_0 mepa_start_of_frame_conf_t_0 0 0 0 0 0 lan8814_ts_data_t_0 mepa_phy_prbs_generator_conf_t_0 0 mepa_phy_eee_conf_t_0 lan8814_phy_downshift_t_0 0 0 0 0.
Definition set_pd_init_done (v : Z) (s : phy_data_t) : phy_data_t := Mk_phy_data_t v (s.(pd_packet_idx)) (s.(pd_port_no)) (s.(pd_conf)) (s.(pd_events)) (s.(pd_loopback)) (s.(pd_qsgmii_phy_aneg_dis)) (s.(pd_dev)) (s.(pd_synce_conf)) (s.(pd_base_dev)) (s.(pd_link_status)) (s.(pd_speed_status)) (s.(pd_fdx_status)) (s.(pd_cable_diag)) (s.(pd_sof_conf)) (s.(pd_framepreempt_en)) (s.(pd_mdi_mode)) (s.(pd_post_mac_rst)) (s.(pd_aneg_after_link_up)) (s.(pd_crc_workaround)) (s.(pd_ts_state)) (s.(pd_prbs_conf)) (s.(pd_prbs_init)) (s.(pd_eee_conf)) (s.(pd_dsh_conf)) (s.(pd_loop_cnt)) (s.(pd_rep_cnt)) (s.(pd_dsh_complete)) (s.(pd_aneg_flag)).
Definition set_pd_packet_idx (v : Z) (s : phy_data_t) : phy_data_t := Mk_phy_data_t (s.(pd_init_done)) v (s.(pd_port_no)) (s.(pd_conf)) (s.(pd_events)) (s.(pd_loopback)) (s.(pd_qsgmii_phy_aneg_dis)) (s.(pd_dev)) (s.(pd_synce_conf)) (s.(pd_base_dev)) (s.(pd_link_status)) (s.(pd_speed_status)) (s.(pd_fdx_status)) (s.(pd_cable_diag)) (s.(pd_sof_conf)) (s.(pd_framepreempt_en)) (s.(pd_mdi_mode)) (s.(pd_post_mac_rst)) (s.(pd_aneg_after_link_up)) (s.(pd_crc_workaround)) (s.(pd_ts_state)) (s.(pd_prbs_conf)) (s.(pd_prbs_init)) (s.(pd_eee_conf)) (s.(pd_dsh_conf)) (s.(pd_loop_cnt)) (s.(pd_rep_cnt)) (s.(pd_dsh_complete)) (s.(pd_aneg_flag)).
Definition set_pd_port_no (v : Z) (s : phy_data_t) : phy_data_t := Mk_phy_data_t (s.(pd_init_done)) (s.(pd_packet_idx)) v (s.(pd_conf)) (s.(pd_events)) (s.(pd_loopback)) (s.(pd_qsgmii_phy_aneg_dis)) (s.(pd_dev)) (s.(pd_synce_conf)) (s.(pd_base_dev)) (s.(pd_link_status)) (s.(pd_speed_status)) (s.(pd_fdx_status)) (s.(pd_cable_diag)) (s.(pd_sof_conf)) (s.(pd_framepreempt_en)) (s.(pd_mdi_mode)) (s.(pd_post_mac_rst)) (s.(pd_aneg_after_link_up)) (s.(pd_crc_workaround)) (s.(pd_ts_state)) (s.(pd_prbs_conf)) (s.(pd_prbs_init)) (s.(pd_eee_conf)) (s.(pd_dsh_conf)) (s.(pd_loop_cnt)) (s.(pd_rep_cnt)) (s.(pd_dsh_complete)) (s.(pd_aneg_flag)).
Definition set_pd_conf (v : mepa_conf_t) (s : phy_data_t) : phy_data_t := Mk_phy_data_t (s.(pd_init_done)) (s.(pd_packet_idx)) (s.(pd_port_no)) v (s.(pd_events)) (s.(pd_loopback)) (s.(pd_qsgmii_phy_aneg_dis)) (s.(pd_dev)) (s.(pd_synce_conf)) (s.(pd_base_dev)) (s.(pd_link_status)) (s.(pd_speed_status)) (s.(pd_fdx_status)) (s.(pd_cable_diag)) (s.(pd_sof_conf)) (s.(pd_framepreempt_en)) (s.(pd_mdi_mode)) (s.(pd_post_mac_rst)) (s.(pd_aneg_after_link_up)) (s.(pd_crc_workaround)) (s.(pd_ts_state)) (s.(pd_prbs_conf)) (s.(pd_prbs_init)) (s.(pd_eee_conf)) (s.(pd_dsh_conf)) (s.(pd_loop_cnt)) (s.(pd_rep_cnt)) (s.(pd_dsh_complete)) (s.(pd_aneg_flag)).
Definition set_pd_events (v : Z) (s : phy_data_t) : phy_data_t := Mk_phy_data_t (s.(pd_init_done)) (s.(pd_packet_idx)) (s.(pd_port_no)) (s.(pd_conf)) v (s.(pd_loopback)) (s.(pd_qsgmii_phy_aneg_dis)) (s.(pd_dev)) (s.(pd_synce_conf)) (s.(pd_base_dev)) (s.(pd_link_status)) (s.(pd_speed_status)) (s.(pd_fdx_status)) (s.(pd_cable_diag)) (s.(pd_sof_conf)) (s.(pd_framepreempt_en)) (s.(pd_mdi_mode)) (s.(pd_post_mac_rst)) (s.(pd_aneg_after_link_up)) (s.(pd_crc_workaround)) (s.(pd_ts_state)) (s.(pd_prbs_conf)) (s.(pd_prbs_init)) (s.(pd_eee_conf)) (s.(pd_dsh_conf)) (s.(pd_loop_cnt)) (s.(pd_rep_cnt)) (s.(pd_dsh_complete)) (s.(pd_aneg_flag)).
Definition set_pd_loopback (v : mepa_loopback_t) (s : phy_data_t) : phy_data_t := Mk_phy_data_t (s.(pd_init_done)) (s.(pd_packet_idx)) (s.(pd_port_no)) (s.(pd_conf)) (s.(pd_events)) v (s.(pd_qsgmii_phy_aneg_dis)) (s.(pd_dev)) (s.(pd_synce_conf)) (s.(pd_base_dev)) (s.(pd_link_status)) (s.(pd_speed_status)) (s.(pd_fdx_status)) (s.(pd_cable_diag)) (s.(pd_sof_conf)) (s.(pd_framepreempt_en)) (s.(pd_mdi_mode)) (s.(pd_post_mac_rst)) (s.(pd_aneg_after_link_up)) (s.(pd_crc_workaround)) (s.(pd_ts_state)) (s.(pd_prbs_conf)) (s.(pd_prbs_init)) (s.(pd_eee_conf)) (s.(pd_dsh_conf)) (s.(pd_loop_cnt)) (s.(pd_rep_cnt)) (s.(pd_dsh_complete)) (s.(pd_aneg_flag)).
Definition set_pd_qsgmii_phy_aneg_dis (v : Z) (s : phy_data_t) : phy_data_t := Mk_phy_data_t (s.(pd_init_done)) (s.(pd_packet_idx)) (s.(pd_port_no)) (s.(pd_conf)) (s.(pd_events)) (s.(pd_loopback)) v (s.(pd_dev)) (s.(pd_synce_conf)) (s.(pd_base_dev)) (s.(pd_link_status)) (s.(pd_speed_status)) (s.(pd_fdx_status)) (s.(pd_cable_diag)) (s.(pd_sof_conf)) (s.(pd_framepreempt_en)) (s.(pd_mdi_mode)) (s.(pd_post_mac_rst)) (s.(pd_aneg_after_link_up)) (s.(pd_crc_workaround)) (s.(pd_ts_state)) (s.(pd_prbs_conf)) (s.(pd_prbs_init)) (s.(pd_eee_conf)) (s.(pd_dsh_conf)) (s.(pd_loop_cnt)) (s.(pd_rep_cnt)) (s.(pd_dsh_complete)) (s.(pd_aneg_flag)).
Definition set_pd_dev (v : phy_dev_info_t) (s : phy_data_t) : phy_data_t := Mk_phy_data_t (s.(pd_init_done)) (s.(pd_packet_idx)) (s.(pd_port_no)) (s.(pd_conf)) (s.(pd_events)) (s.(pd_loopback)) (s.(pd_qsgmii_phy_aneg_dis)) v (s.(pd_synce_conf)) (s.(pd_base_dev)) (s.(pd_link_status)) (s.(pd_speed_status)) (s.(pd_fdx_status)) (s.(pd_cable_diag)) (s.(pd_sof_conf)) (s.(pd_framepreempt_en)) (s.(pd_mdi_mode)) (s.(pd_post_mac_rst)) (s.(pd_aneg_after_link_up)) (s.(pd_crc_workaround)) (s.(pd_ts_state)) (s.(pd_prbs_conf)) (s.(pd_prbs_init)) (s.(pd_eee_conf)) (s.(pd_dsh_conf)) (s.(pd_loop_cnt)) (s.(pd_rep_cnt)) (s.(pd_dsh_complete)) (s.(pd_aneg_flag)).
Definition set_pd_synce_conf (v : mepa_synce_clock_conf_t) (s : phy_data_t) : phy_data_t := Mk_phy_data_t (s.(pd_init_done)) (s.(pd_packet_idx)) (s.(pd_port_no)) (s.(pd_conf)) (s.(pd_events)) (s.(pd_loopback)) (s.(pd_qsgmii_phy_aneg_dis)) (s.(pd_dev)) v (s.(pd_base_dev)) (s.(pd_link_status)) (s.(pd_speed_status)) (s.(pd_fdx_status)) (s.(pd_cable_diag)) (s.(pd_sof_conf)) (s.(pd_framepreempt_en)) (s.(pd_mdi_mode)) (s.(pd_post_mac_rst)) (s.(pd_aneg_after_link_up)) (s.(pd_crc_workaround)) (s.(pd_ts_state)) (s.(pd_prbs_conf)) (s.(pd_prbs_init)) (s.(pd_eee_conf)) (s.(pd_dsh_conf)) (s.(pd_loop_cnt)) (s.(pd_rep_cnt)) (s.(pd_dsh_complete)) (s.(pd_aneg_flag)).
Definition set_pd_base_dev (v : option Z) (s : phy_data_t) : phy_data_t := Mk_phy_data_t (s.(pd_init_done)) (s.(pd_packet_idx)) (s.(pd_port_no)) (s.(pd_conf)) (s.(pd_events)) (s.(pd_loopback)) (s.(pd_qsgmii_phy_aneg_dis)) (s.(pd_dev)) (s.(pd_synce_conf)) v (s.(pd_link_status)) (s.(pd_speed_status)) (s.(pd_fdx_status)) (s.(pd_cable_diag)) (s.(pd_sof_conf)) (s.(pd_framepreempt_en)) (s.(pd_mdi_mode)) (s.(pd_post_mac_rst)) (s.(pd_aneg_after_link_up)) (s.(pd_crc_workaround)) (s.(pd_ts_state)) (s.(pd_prbs_conf)) (s.(pd_prbs_init)) (s.(pd_eee_conf)) (s.(pd_dsh_conf)) (s.(pd_loop_cnt)) (s.(pd_rep_cnt)) (s.(pd_dsh_complete)) (s.(pd_aneg_flag)).
Definition set_pd_link_status (v : Z) (s : phy_data_t) : phy_data_t := Mk_phy_data_t (s.(pd_init_done)) (s.(pd_packet_idx)) (s.(pd_port_no)) (s.(pd_conf)) (s.(pd_events)) (s.(pd_loopback)) (s.(pd_qsgmii_phy_aneg_dis)) (s.(pd_dev)) (s.(pd_synce_conf)) (s.(pd_base_dev)) v (s.(pd_speed_status)) (s.(pd_fdx_status)) (s.(pd_cable_diag)) (s.(pd_sof_conf)) (s.(pd_framepreempt_en)) (s.(pd_mdi_mode)) (s.(pd_post_mac_rst)) (s.(pd_aneg_after_link_up)) (s.(pd_crc_workaround)) (s.(pd_ts_state)) (s.(pd_prbs_conf)) (s.(pd_prbs_init)) (s.(pd_eee_conf)) (s.(pd_dsh_conf)) (s.(pd_loop_cnt)) (s.(pd_rep_cnt)) (s.(pd_dsh_complete)) (s.(pd_aneg_flag)).
Definition set_pd_speed_status (v : Z) (s : phy_data_t) : phy_data_t := Mk_phy_data_t (s.(pd_init_done)) (s.(pd_packet_idx)) (s.(pd_port_no)) (s.(pd_conf)) (s.(pd_events)) (s.(pd_loopback)) (s.(pd_qsgmii_phy_aneg_dis)) (s.(pd_dev)) (s.(pd_synce_conf)) (s.(pd_base_dev)) (s.(pd_link_status)) v (s.(pd_fdx_status)) (s.(pd_cable_diag)) (s.(pd_sof_conf)) (s.(pd_framepreempt_en)) (s.(pd_mdi_mode)) (s.(pd_post_mac_rst)) (s.(pd_aneg_after_link_up)) (s.(pd_crc_workaround)) (s.(pd_ts_state)) (s.(pd_prbs_conf)) (s.(pd_prbs_init)) (s.(pd_eee_conf)) (s.(pd_dsh_conf)) (s.(pd_loop_cnt)) (s.(pd_rep_cnt)) (s.(pd_dsh_complete)) (s.(pd_aneg_flag)).
Definition set_pd_fdx_status (v : Z) (s : phy_data_t) : phy_data_t := Mk_phy_data_t (s.(pd_init_done)) (s.(pd_packet_idx)) (s.(pd_port_no)) (s.(pd_conf)) (s.(pd_events)) (s.(pd_loopback)) (s.(pd_qsgmii_phy_aneg_dis)) (s.(pd_dev)) (s.(pd_synce_conf)) (s.(pd_base_dev)) (s.(pd_link_status)) (s.(pd_speed_status)) v (s.(pd_cable_diag)) (s.(pd_sof_conf)) (s.(pd_framepreempt_en)) (s.(pd_mdi_mode)) (s.(pd_post_mac_rst)) (s.(pd_aneg_after_link_up)) (s.(pd_crc_workaround)) (s.(pd_ts_state)) (s.(pd_prbs_conf)) (s.(pd_prbs_init)) (s.(pd_eee_conf)) (s.(pd_dsh_conf)) (s.(pd_loop_cnt)) (s.(pd_rep_cnt)) (s.(pd_dsh_complete)) (s.(pd_aneg_flag)).
Definition set_pd_cable_diag (v : mepa_cable_diag_result_t) (s : phy_data_t) : phy_data_t := Mk_phy_data_t (s.(pd_init_done)) (s.(pd_packet_idx)) (s.(pd_port_no)) (s.(pd_conf)) (s.(pd_events)) (s.(pd_loopback)) (s.(pd_qsgmii_phy_aneg_dis)) (s.(pd_dev)) (s.(pd_synce_conf)) (s.(pd_base_dev)) (s.(pd_link_status)) (s.(pd_speed_status)) (s.(pd_fdx_status)) v (s.(pd_sof_conf)) (s.(pd_framepreempt_en)) (s.(pd_mdi_mode)) (s.(pd_post_mac_rst)) (s.(pd_aneg_after_link_up)) (s.(pd_crc_workaround)) (s.(pd_ts_state)) (s.(pd_prbs_conf)) (s.(pd_prbs_init)) (s.(pd_eee_conf)) (s.(pd_dsh_conf)) (s.(pd_loop_cnt)) (s.(pd_rep_cnt)) (s.(pd_dsh_complete)) (s.(pd_aneg_flag)).
Definition set_pd_sof_conf (v : mepa_start_of_frame_conf_t) (s : phy_data_t) : phy_data_t := Mk_phy_data_t (s.(pd_init_done)) (s.(pd_packet_idx)) (s.(pd_port_no)) (s.(pd_conf)) (s.(pd_events)) (s.(pd_loopback)) (s.(pd_qsgmii_phy_aneg_dis)) (s.(pd_dev)) (s.(pd_synce_conf)) (s.(pd_base_dev)) (s.(pd_link_status)) (s.(pd_speed_status)) (s.(pd_fdx_status)) (s.(pd_cable_diag)) v (s.(pd_framepreempt_en)) (s.(pd_mdi_mode)) (s.(pd_post_mac_rst)) (s.(pd_aneg_after_link_up)) (s.(pd_crc_workaround)) (s.(pd_ts_state)) (s.(pd_prbs_conf)) (s.(pd_prbs_init)) (s.(pd_eee_conf)) (s.(pd_dsh_conf)) (s.(pd_loop_cnt)) (s.(pd_rep_cnt)) (s.(pd_dsh_complete)) (s.(pd_aneg_flag)).
Definition set_pd_framepreempt_en (v : Z) (s : phy_data_t) : phy_data_t := Mk_phy_data_t (s.(pd_init_done)) (s.(pd_packet_idx)) (s.(pd_port_no)) (s.(pd_conf)) (s.(pd_events)) (s.(pd_loopback)) (s.(pd_qsgmii_phy_aneg_dis)) (s.(pd_dev)) (s.(pd_synce_conf)) (s.(pd_base_dev)) (s.(pd_link_status)) (s.(pd_speed_status)) (s.(pd_fdx_status)) (s.(pd_cable_diag)) (s.(pd_sof_conf)) v (s.(pd_mdi_mode)) (s.(pd_post_mac_rst)) (s.(pd_aneg_after_link_up)) (s.(pd_crc_workaround)) (s.(pd_ts_state)) (s.(pd_prbs_conf)) (s.(pd_prbs_init)) (s.(pd_eee_conf)) (s.(pd_dsh_conf)) (s.(pd_loop_cnt)) (s.(pd_rep_cnt)) (s.(pd_dsh_complete)) (s.(pd_aneg_flag)).
Definition set_pd_mdi_mode (v : Z) (s : phy_data_t) : phy_data_t := Mk_phy_data_t (s.(pd_init_done)) (s.(pd_packet_idx)) (s.(pd_port_no)) (s.(pd_conf)) (s.(pd_events)) (s.(pd_loopback)) (s.(pd_qsgmii_phy_aneg_dis)) (s.(pd_dev)) (s.(pd_synce_conf)) (s.(pd_base_dev)) (s.(pd_link_status)) (s.(pd_speed_status)) (s.(pd_fdx_status)) (s.(pd_cable_diag)) (s.(pd_sof_conf)) (s.(pd_framepreempt_en)) v (s.(pd_post_mac_rst)) (s.(pd_aneg_after_link_up)) (s.(pd_crc_workaround)) (s.(pd_ts_state)) (s.(pd_prbs_conf)) (s.(pd_prbs_init)) (s.(pd_eee_conf)) (s.(pd_dsh_conf)) (s.(pd_loop_cnt)) (s.(pd_rep_cnt)) (s.(pd_dsh_complete)) (s.(pd_aneg_flag)).
Definition set_pd_post_mac_rst (v : Z) (s : phy_data_t) : phy_data_t := Mk_phy_data_t (s.(pd_init_done)) (s.(pd_packet_idx)) (s.(pd_port_no)) (s.(pd_conf)) (s.(pd_events)) (s.(pd_loopback)) (s.(pd_qsgmii_phy_aneg_dis)) (s.(pd_dev)) (s.(pd_synce_conf)) (s.(pd_base_dev)) (s.(pd_link_status)) (s.(pd_speed_status)) (s.(pd_fdx_status)) (s.(pd_cable_diag)) (s.(pd_sof_conf)) (s.(pd_framepreempt_en)) (s.(pd_mdi_mode)) v (s.(pd_aneg_after_link_up)) (s.(pd_crc_workaround)) (s.(pd_ts_state)) (s.(pd_prbs_conf)) (s.(pd_prbs_init)) (s.(pd_eee_conf)) (s.(pd_dsh_conf)) (s.(pd_loop_cnt)) (s.(pd_rep_cnt)) (s.(pd_dsh_complete)) (s.(pd_aneg_flag)).
Definition set_pd_aneg_after_link_up (v : Z) (s : phy_data_t) : phy_data_t := Mk_phy_data_t (s.(pd_init_done)) (s.(pd_packet_idx)) (s.(pd_port_no)) (s.(pd_conf)) (s.(pd_events)) (s.(pd_loopback)) (s.(pd_qsgmii_phy_aneg_dis)) (s.(pd_dev)) (s.(pd_synce_conf)) (s.(pd_base_dev)) (s.(pd_link_status)) (s.(pd_speed_status)) (s.(pd_fdx_status)) (s.(pd_cable_diag)) (s.(pd_sof_conf)) (s.(pd_framepreempt_en)) (s.(pd_mdi_mode)) (s.(pd_post_mac_rst)) v (s.(pd_crc_workaround)) (s.(pd_ts_state)) (s.(pd_prbs_conf)) (s.(pd_prbs_init)) (s.(pd_eee_conf)) (s.(pd_dsh_conf)) (s.(pd_loop_cnt)) (s.(pd_rep_cnt)) (s.(pd_dsh_complete)) (s.(pd_aneg_flag)).
Definition set_pd_crc_workaround (v : Z) (s : phy_data_t) : phy_data_t := Mk_phy_data_t (s.(pd_init_done)) (s.(pd_packet_idx)) (s.(pd_port_no)) (s.(pd_conf)) (s.(pd_events)) (s.(pd_loopback)) (s.(pd_qsgmii_phy_aneg_dis)) (s.(pd_dev)) (s.(pd_synce_conf)) (s.(pd_base_dev)) (s.(pd_link_status)) (s.(pd_speed_status)) (s.(pd_fdx_status)) (s.(pd_cable_diag)) (s.(pd_sof_conf)) (s.(pd_framepreempt_en)) (s.(pd_mdi_mode)) (s.(pd_post_mac_rst)) (s.(pd_aneg_after_link_up)) v (s.(pd_ts_state)) (s.(pd_prbs_conf)) (s.(pd_prbs_init)) (s.(pd_eee_conf)) (s.(pd_dsh_conf)) (s.(pd_loop_cnt)) (s.(pd_rep_cnt)) (s.(pd_dsh_complete)) (s.(pd_aneg_flag)).
Definition set_pd_ts_state (v : lan8814_ts_data_t) (s : phy_data_t) : phy_data_t := Mk_phy_data_t (s.(pd_init_done)) (s.(pd_packet_idx)) (s.(pd_port_no)) (s.(pd_conf)) (s.(pd_events)) (s.(pd_loopback)) (s.(pd_qsgmii_phy_aneg_dis)) (s.(pd_dev)) (s.(pd_synce_conf)) (s.(pd_base_dev)) (s.(pd_link_status)) (s.(pd_speed_status)) (s.(pd_fdx_status)) (s.(pd_cable_diag)) (s.(pd_sof_conf)) (s.(pd_framepreempt_en)) (s.(pd_mdi_mode)) (s.(pd_post_mac_rst)) (s.(pd_aneg_after_link_up)) (s.(pd_crc_workaround)) v (s.(pd_prbs_conf)) (s.(pd_prbs_init)) (s.(pd_eee_conf)) (s.(pd_dsh_conf)) (s.(pd_loop_cnt)) (s.(pd_rep_cnt)) (s.(pd_dsh_complete)) (s.(pd_aneg_flag)).
Definition set_pd_prbs_conf (v : mepa_phy_prbs_generator_conf_t) (s : phy_data_t) : phy_data_t := Mk_phy_data_t (s.(pd_init_done)) (s.(pd_packet_idx)) (s.(pd_port_no)) (s.(pd_conf)) (s.(pd_events)) (s.(pd_loopback)) (s.(pd_qsgmii_phy_aneg_dis)) (s.(pd_dev)) (s.(pd_synce_conf)) (s.(pd_base_dev)) (s.(pd_link_status)) (s.(pd_speed_status)) (s.(pd_fdx_status)) (s.(pd_cable_diag)) (s.(pd_sof_conf)) (s.(pd_framepreempt_en)) (s.(pd_mdi_mode)) (s.(pd_post_mac_rst)) (s.(pd_aneg_after_link_up)) (s.(pd_crc_workaround)) (s.(pd_ts_state)) v (s.(pd_prbs_init)) (s.(pd_eee_conf)) (s.(pd_dsh_conf)) (s.(pd_loop_cnt)) (s.(pd_rep_cnt)) (s.(pd_dsh_complete)) (s.(pd_aneg_flag)).
Definition set_pd_prbs_init (v : Z) (s : phy_data_t) : phy_data_t := Mk_phy_data_t (s.(pd_init_done)) (s.(pd_packet_idx)) (s.(pd_port_no)) (s.(pd_conf)) (s.(pd_events)) (s.(pd_loopback)) (s.(pd_qsgmii_phy_aneg_dis)) (s.(pd_dev)) (s.(pd_synce_conf)) (s.(pd_base_dev)) (s.(pd_link_status)) (s.(pd_speed_status)) (s.(pd_fdx_status)) (s.(pd_cable_diag)) (s.(pd_sof_conf)) (s.(pd_framepreempt_en)) (s.(pd_mdi_mode)) (s.(pd_post_mac_rst)) (s.(pd_aneg_after_link_up)) (s.(pd_crc_workaround)) (s.(pd_ts_state)) (s.(pd_prbs_conf)) v (s.(pd_eee_conf)) (s.(pd_dsh_conf)) (s.(pd_loop_cnt)) (s.(pd_rep_cnt)) (s.(pd_dsh_complete)) (s.(pd_aneg_flag)).
Definition set_pd_eee_conf (v : mepa_phy_eee_conf_t) (s : phy_data_t) : phy_data_t := Mk_phy_data_t (s.(pd_init_done)) (s.(pd_packet_idx)) (s.(pd_port_no)) (s.(pd_conf)) (s.(pd_events)) (s.(pd_loopback)) (s.(pd_qsgmii_phy_aneg_dis)) (s.(pd_dev)) (s.(pd_synce_conf)) (s.(pd_base_dev)) (s.(pd_link_status)) (s.(pd_speed_status)) (s.(pd_fdx_status)) (s.(pd_cable_diag)) (s.(pd_sof_conf)) (s.(pd_framepreempt_en)) (s.(pd_mdi_mode)) (s.(pd_post_mac_rst)) (s.(pd_aneg_after_link_up)) (s.(pd_crc_workaround)) (s.(pd_ts_state)) (s.(pd_prbs_conf)) (s.(pd_prbs_init)) v (s.(pd_dsh_conf)) (s.(pd_loop_cnt)) (s.(pd_rep_cnt)) (s.(pd_dsh_complete)) (s.(pd_aneg_flag)).
Definition set_pd_dsh_conf (v : lan8814_phy_downshift_t) (s : phy_data_t) : phy_data_t := Mk_phy_data_t (s.(pd_init_done)) (s.(pd_packet_idx)) (s.(pd_port_no)) (s.(pd_conf)) (s.(pd_events)) (s.(pd_loopback)) (s.(pd_qsgmii_phy_aneg_dis)) (s.(pd_dev)) (s.(pd_synce_conf)) (s.(pd_base_dev)) (s.(pd_link_status)) (s.(pd_speed_status)) (s.(pd_fdx_status)) (s.(pd_cable_diag)) (s.(pd_sof_conf)) (s.(pd_framepreempt_en)) (s.(pd_mdi_mode)) (s.(pd_post_mac_rst)) (s.(pd_aneg_after_link_up)) (s.(pd_crc_workaround)) (s.(pd_ts_state)) (s.(pd_prbs_conf)) (s.(pd_prbs_init)) (s.(pd_eee_conf)) v (s.(pd_loop_cnt)) (s.(pd_rep_cnt)) (s.(pd_dsh_complete)) (s.(pd_aneg_flag)).
Definition set_pd_loop_cnt (v : Z) (s : phy_data_t) : phy_data_t := Mk_phy_data_t (s.(pd_init_done)) (s.(pd_packet_idx)) (s.(pd_port_no)) (s.(pd_conf)) (s.(pd_events)) (s.(pd_loopback)) (s.(pd_qsgmii_phy_aneg_dis)) (s.(pd_dev)) (s.(pd_synce_conf)) (s.(pd_base_dev)) (s.(pd_link_status)) (s.(pd_speed_status)) (s.(pd_fdx_status)) (s.(pd_cable_diag)) (s.(pd_sof_conf)) (s.(pd_framepreempt_en)) (s.(pd_mdi_mode)) (s.(pd_post_mac_rst)) (s.(pd_aneg_after_link_up)) (s.(pd_crc_workaround)) (s.(pd_ts_state)) (s.(pd_prbs_conf)) (s.(pd_prbs_init)) (s.(pd_eee_conf)) (s.(pd_dsh_conf)) v (s.(pd_rep_cnt)) (s.(pd_dsh_complete)) (s.(pd_aneg_flag)).
Definition set_pd_rep_cnt (v : Z) (s : phy_data_t) : phy_data_t := Mk_phy_data_t (s.(pd_init_done)) (s.(pd_packet_idx)) (s.(pd_port_no)) (s.(pd_conf)) (s.(pd_events)) (s.(pd_loopback)) (s.(pd_qsgmii_phy_aneg_dis)) (s.(pd_dev)) (s.(pd_synce_conf)) (s.(pd_base_dev)) (s.(pd_link_status)) (s.(pd_speed_status)) (s.(pd_fdx_status)) (s.(pd_cable_diag)) (s.(pd_sof_conf)) (s.(pd_framepreempt_en)) (s.(pd_mdi_mode)) (s.(pd_post_mac_rst)) (s.(pd_aneg_after_link_up)) (s.(pd_crc_workaround)) (s.(pd_ts_state)) (s.(pd_prbs_conf)) (s.(pd_prbs_init)) (s.(pd_eee_conf)) (s.(pd_dsh_conf)) (s.(pd_loop_cnt)) v (s.(pd_dsh_complete)) (s.(pd_aneg_flag)).
Definition set_pd_dsh_complete (v : Z) (s : phy_data_t) : phy_data_t := Mk_phy_data_t (s.(pd_init_done)) (s.(pd_packet_idx)) (s.(pd_port_no)) (s.(pd_conf)) (s.(pd_events)) (s.(pd_loopback)) (s.(pd_qsgmii_phy_aneg_dis)) (s.(pd_dev)) (s.(pd_synce_conf)) (s.(pd_base_dev)) (s.(pd_link_status)) (s.(pd_speed_status)) (s.(pd_fdx_status)) (s.(pd_cable_diag)) (s.(pd_sof_conf)) (s.(pd_framepreempt_en)) (s.(pd_mdi_mode)) (s.(pd_post_mac_rst)) (s.(pd_aneg_after_link_up)) (s.(pd_crc_workaround)) (s.(pd_ts_state)) (s.(pd_prbs_conf)) (s.(pd_prbs_init)) (s.(pd_eee_conf)) (s.(pd_dsh_conf)) (s.(pd_loop_cnt)) (s.(pd_rep_cnt)) v (s.(pd_aneg_flag)).
Definition set_pd_aneg_flag (v : Z) (s : phy_data_t) : phy_data_t := Mk_phy_data_t (s.(pd_init_done)) (s.(pd_packet_idx)) (s.(pd_port_no)) (s.(pd_conf)) (s.(pd_events)) (s.(pd_loopback)) (s.(pd_qsgmii_phy_aneg_dis)) (s.(pd_dev)) (s.(pd_synce_conf)) (s.(pd_base_dev)) (s.(pd_link_status)) (s.(pd_speed_status)) (s.(pd_fdx_status)) (s.(pd_cable_diag)) (s.(pd_sof_conf)) (s.(pd_framepreempt_en)) (s.(pd_mdi_mode)) (s.(pd_post_mac_rst)) (s.(pd_aneg_after_link_up)) (s.(pd_crc_workaround)) (s.(pd_ts_state)) (s.(pd_prbs_conf)) (s.(pd_prbs_init)) (s.(pd_eee_conf)) (s.(pd_dsh_conf)) (s.(pd_loop_cnt)) (s.(pd_rep_cnt)) (s.(pd_dsh_complete)) v.
