(* ===== verification/Lan8814Access.v ===== *)
(** * Lan8814Access: the register accesses of the LAN8814 driver

    The accessors of [lan8814.c] (direct, extended page and MMD registers): the
    lemmas [does_*] say which register each of them reads and writes, as rules
    of the program logic of [Mdio], and [safe_*] that they keep its lock and
    address discipline.  The accessors do not touch the private data, so they
    and their rules are for any type of it ([Lan884x] uses them too). *)

From Stdlib Require Import ZArith Lia List Bool String.
From stdpp Require Import base gmap strings list.
From S2P Require Import Prelude Machine Trace Mdio Enums Lan8814Regs Lan8814Types.

(** ** The accessors *)
Section Access.
Context {B D : Type} {CO : Callout B}.
Local Abbreviation M := (M B D).

(** A read reports [MEPA_RC_OK] whatever the callout returned; the variable
    behind the pointer keeps [cur] when the callout stored nothing. *)
Definition lan8814_direct_reg_rd (dev addr cur : Z) : M (Z * Z) :=
  let* (_, v) <- co_read dev addr ;;
  ret (MEPA_RC_OK, default cur v).

Definition lan8814_direct_reg_wr (dev addr value mask : Z) : M Z :=
  let value := u16 value in
  let mask := u16 mask in
  let* (rc, v) <- co_read dev addr ;;
  if rc =? MEPA_RC_OK then
    let reg_val := default value v in
    let reg_val := if negb (mask =? LAN8814_DEF_MASK)
                   then u16 ((reg_val .& .~ mask) .| (value .& mask))
                   else value in
    co_write dev addr reg_val ;;;
    ret MEPA_RC_OK
  else ret MEPA_RC_OK.

Definition lan8814_ext_reg_rd (dev page addr cur : Z) : M (Z * Z) :=
  rc <- co_write dev LAN8814_EXT_PAGE_ACCESS_CTRL page ;;
  if rc <? MEPA_RC_OK then ret (rc, cur) else
  rc <- co_write dev LAN8814_EXT_PAGE_ACCESS_ADDR_DATA addr ;;
  if rc <? MEPA_RC_OK then ret (rc, cur) else
  rc <- co_write dev LAN8814_EXT_PAGE_ACCESS_CTRL
          (LAN8814_F_EXT_PAGE_ACCESS_CTRL_EP_FUNC .| page) ;;
  if rc <? MEPA_RC_OK then ret (rc, cur) else
  let* (rc, v) <- lan8814_direct_reg_rd dev LAN8814_EXT_PAGE_ACCESS_ADDR_DATA cur ;;
  if rc <? MEPA_RC_OK then ret (rc, v) else
  ret (MEPA_RC_OK, v).

Definition lan8814_ext_reg_wr (dev page addr value mask : Z) : M Z :=
  try_rc (co_write dev LAN8814_EXT_PAGE_ACCESS_CTRL page) (
  try_rc (co_write dev LAN8814_EXT_PAGE_ACCESS_ADDR_DATA addr) (
  try_rc (co_write dev LAN8814_EXT_PAGE_ACCESS_CTRL
            (LAN8814_F_EXT_PAGE_ACCESS_CTRL_EP_FUNC .| page)) (
  try_rc (lan8814_direct_reg_wr dev LAN8814_EXT_PAGE_ACCESS_ADDR_DATA value mask) (
  ret MEPA_RC_OK)))).

Definition lan8814_ext_incr_reg_rd (dev page addr cur start_addr : Z) : M (Z * Z) :=
  rc <- (if tb start_addr then
           try_rc (co_write dev LAN8814_EXT_PAGE_ACCESS_CTRL page) (
           try_rc (co_write dev LAN8814_EXT_PAGE_ACCESS_ADDR_DATA addr) (
           try_rc (co_write dev LAN8814_EXT_PAGE_ACCESS_CTRL
                     (LAN8814_F_EXT_PAGE_ACCESS_CTRL_INCR_RD_WR .| page)) (
           ret MEPA_RC_OK)))
         else ret MEPA_RC_OK) ;;
  if rc <? MEPA_RC_OK then ret (rc, cur) else
  let* (rc, v) <- lan8814_direct_reg_rd dev LAN8814_EXT_PAGE_ACCESS_ADDR_DATA cur ;;
  if rc <? MEPA_RC_OK then ret (rc, v) else
  ret (MEPA_RC_OK, v).

Definition lan8814_mmd_reg_rd (dev mmd addr cur : Z) : M (Z * Z) :=
  rc <- lan8814_direct_reg_wr dev LAN8814_MMD_ACCESS_CTRL mmd LAN8814_DEF_MASK ;;
  if rc <? MEPA_RC_OK then ret (rc, cur) else
  rc <- lan8814_direct_reg_wr dev LAN8814_MMD_ACCESS_ADDR_DATA addr LAN8814_DEF_MASK ;;
  if rc <? MEPA_RC_OK then ret (rc, cur) else
  rc <- lan8814_direct_reg_wr dev LAN8814_MMD_ACCESS_CTRL
          (LAN8814_F_MMD_ACCESS_CTRL_MMD_FUNC .| mmd) LAN8814_DEF_MASK ;;
  if rc <? MEPA_RC_OK then ret (rc, cur) else
  let* (rc, v) <- lan8814_direct_reg_rd dev LAN8814_MMD_ACCESS_ADDR_DATA cur ;;
  if rc <? MEPA_RC_OK then ret (rc, v) else
  ret (MEPA_RC_OK, v).

Definition lan8814_mmd_reg_wr (dev mmd addr value mask : Z) : M Z :=
  try_rc (lan8814_direct_reg_wr dev LAN8814_MMD_ACCESS_CTRL mmd LAN8814_DEF_MASK) (
  try_rc (lan8814_direct_reg_wr dev LAN8814_MMD_ACCESS_ADDR_DATA addr LAN8814_DEF_MASK) (
  try_rc (lan8814_direct_reg_wr dev LAN8814_MMD_ACCESS_CTRL
            (LAN8814_F_MMD_ACCESS_CTRL_MMD_FUNC .| mmd) LAN8814_DEF_MASK) (
  try_rc (lan8814_direct_reg_wr dev LAN8814_MMD_ACCESS_ADDR_DATA value mask) (
  ret MEPA_RC_OK)))).

(** The macros, as statements: the return code is dropped. *)
Definition RD (dev addr cur : Z) : M Z :=
  let* (_, v) <- lan8814_direct_reg_rd dev addr cur ;; ret v.
Definition WRM (dev addr val mask : Z) : M unit :=
  lan8814_direct_reg_wr dev addr val mask ;;; ret tt.
Definition WR (dev addr value : Z) : M unit := WRM dev addr value 65535.
Definition EP_RD (dev : Z) (page_addr : ereg) (cur : Z) : M Z :=
  let* (_, v) <- lan8814_ext_reg_rd dev (fst page_addr) (snd page_addr) cur ;; ret v.
Definition EP_WRM (dev : Z) (page_addr : ereg) (value mask : Z) : M unit :=
  lan8814_ext_reg_wr dev (fst page_addr) (snd page_addr) value mask ;;; ret tt.
Definition EP_WR (dev : Z) (page_addr : ereg) (value : Z) : M unit :=
  EP_WRM dev page_addr value 65535.
Definition EP_RD_INCR (dev : Z) (page_addr : ereg) (cur start : Z) : M Z :=
  let* (_, v) <- lan8814_ext_incr_reg_rd dev (fst page_addr) (snd page_addr) cur start ;; ret v.
Definition MMD_RD (dev : Z) (mmd_addr : ereg) (cur : Z) : M Z :=
  let* (_, v) <- lan8814_mmd_reg_rd dev (fst mmd_addr) (snd mmd_addr) cur ;; ret v.
Definition MMD_WR (dev : Z) (mmd_addr : ereg) (value : Z) : M unit :=
  lan8814_mmd_reg_wr dev (fst mmd_addr) (snd mmd_addr) value 65535 ;;; ret tt.
End Access.


(** A table of full writes to extended registers, in order. *)
Definition ep_wr_list {B D} {CO : Callout B} (dev : Z) (l : list (ereg * Z)) : M B D unit :=
  seq_ (fun x => EP_WR dev (fst x) (snd x)) l.

Section Does.
Context {B D : Type} {CO : Callout B} {OK : BusOk CO}.
Local Abbreviation M := (M B D).
Local Abbreviation table := (gmap Z D).

(** ** What each accessor does

    One bus transaction at a time, with the latches it leaves. *)
Lemma steps_direct_reg_rd dev a cur (P : Z * Z -> list event -> Prop) :
  (forall v, 0 <= v < 65536 -> P (0, v) [EvRd dev (u8 a) 0 (Some v)]) ->
  steps (lan8814_direct_reg_rd (D := D) dev a cur) P.
Proof.
  intros HP. apply steps_bind, steps_co_read. intros v Hv. apply steps_ret.
  by apply HP.
Qed.

Lemma rmw_wr x v m : 0 <= x < 65536 ->
  (if negb (u16 m =? LAN8814_DEF_MASK)
   then u16 ((x .& .~ u16 m) .| (u16 v .& u16 m)) else u16 v) = rmw x v m.
Proof.
  intros Hx. apply Z.bits_inj'. intros i Hi. rewrite testbit_rmw by done.
  destruct (Z.eqb_spec (u16 m) LAN8814_DEF_MASK) as [Hm|Hm]; simpl.
  - assert (Z.testbit (u16 m) i = (i <? 16)) as Hb.
    { rewrite Hm. change LAN8814_DEF_MASK with (Z.ones 16).
      rewrite Z.testbit_ones by lia. lia. }
    rewrite testbit_u16 in Hb |- * by done.
    destruct (i <? 16), (Z.testbit m i); done.
  - rewrite testbit_u16, Z.lor_spec, !Z.land_spec, Z.lnot_spec, !testbit_u16 by done.
    by destruct (i <? 16), (Z.testbit m i), (Z.testbit x i), (Z.testbit v i).
Qed.

Lemma steps_direct_reg_wr dev a v m (P : Z -> list event -> Prop) :
  (forall x, 0 <= x < 65536 ->
     P 0 [EvRd dev (u8 a) 0 (Some x); EvWr dev (u8 a) (rmw x v m) 0]) ->
  steps (lan8814_direct_reg_wr (D := D) dev a v m) P.
Proof.
  intros HP. apply steps_bind, steps_co_read. intros x Hx.
  change (0 =? MEPA_RC_OK) with true. cbv iota zeta.
  apply steps_bind, steps_co_write, steps_ret. cbn [app].
  change (default (u16 v) (Some x)) with x. rewrite rmw_wr, u16_small by (done || apply rmw_range).
  exact (HP x Hx).
Qed.

(** The three transactions that point a window at a register. *)
Definition mmd_open dev mmd addr x1 x2 x3 : list event :=
  [EvRd dev 13 0 (Some x1); EvWr dev 13 mmd 0;
   EvRd dev 14 0 (Some x2); EvWr dev 14 addr 0;
   EvRd dev 13 0 (Some x3); EvWr dev 13 (16384 + mmd) 0].
Definition ep_open dev page addr func : list event :=
  [EvWr dev 22 page 0; EvWr dev 23 addr 0; EvWr dev 22 (func * 16384 + page) 0].

Lemma decode_mmd_open dev mmd addr x1 x2 x3 tr accs : 0 <= mmd < 32 ->
  (forall ls c a, ls dev = Latch c a (16384 + mmd) addr -> decode ls tr = accs) ->
  decodes (mmd_open dev mmd addr x1 x2 x3 ++ tr) accs.
Proof.
  intros Hm Htr ls. destruct (ls dev) as [c a m d] eqn:E. unfold mmd_open. cbn [app].
  eapply (decode_rd _ _ _ _ _ None); [done|].
  eapply decode_wr_latch; [done|]. rewrite put_same, E. cbn -[decode].
  eapply (decode_rd _ _ _ _ _ None).
  { rewrite put_same. exact (proj1 (window_mmd _ _ _ _ Hm)). }
  eapply decode_wr_latch.
  { rewrite put_same. exact (proj1 (window_mmd _ _ _ _ Hm)). }
  eapply (decode_rd _ _ _ _ _ None); [done|].
  eapply decode_wr_latch; [done|]. rewrite !put_same. cbn -[decode Z.add].
  eapply Htr. by rewrite put_same.
Qed.

Lemma decode_ep_open dev page addr func tr accs : 0 <= page < 16384 -> 1 <= func < 4 ->
  (forall ls m d, ls dev = Latch (func * 16384 + page) addr m d -> decode ls tr = accs) ->
  decodes (ep_open dev page addr func ++ tr) accs.
Proof.
  intros Hp Hf Htr ls. destruct (ls dev) as [c a m d] eqn:E. unfold ep_open. cbn [app].
  eapply decode_wr_latch; [done|]. rewrite E. cbn -[decode Z.add Z.mul].
  eapply decode_wr_latch.
  { rewrite put_same. exact (proj1 (window_ep _ _ _ _ Hp)). }
  eapply decode_wr_latch; [done|]. rewrite !put_same. cbn -[decode Z.add Z.mul].
  eapply Htr. by rewrite put_same.
Qed.

Lemma decodes_plain_wr dev a x v : plain a = true ->
  decodes [EvRd dev (u8 a) 0 (Some x); EvWr dev (u8 a) v 0]
    [ARd dev (Direct a) x; AWr dev (Direct a) v].
Proof.
  intros Ha. apply (decodes_app [_] [_] [_] [_]); [by apply decodes_plain_rd|].
  unfold plain in Ha. intros ls. rewrite u8_small by (cbn in Ha; lia).
  eapply decode_wr; [|done].
  unfold window. cbn in Ha. by repeat case_match; try lia.
Qed.

Lemma mmd_ctrl_word mmd : 0 <= mmd < 32 ->
  LAN8814_F_MMD_ACCESS_CTRL_MMD_FUNC .| mmd = 16384 + mmd.
Proof. intros. apply (lor_disjoint 1 14); lia. Qed.
Lemma ep_ctrl_word f page : 0 <= page < 16384 ->
  (f .<< 14) .| page = f * 16384 + page.
Proof. intros. apply (lor_disjoint f 14); lia. Qed.

Lemma does_direct_reg_rd dev a cur t (Q : Z * Z -> table -> list access -> Prop) :
  plain a = true ->
  (forall v, 0 <= v < 65536 -> Q (0, v) t [ARd dev (Direct a) v]) ->
  does (lan8814_direct_reg_rd dev a cur) t Q.
Proof.
  intros Ha HQ. apply steps_does, steps_direct_reg_rd. intros v Hv.
  eexists. split; [by apply decodes_plain_rd | by apply HQ].
Qed.

Lemma does_direct_reg_wr dev a v m t (Q : Z -> table -> list access -> Prop) :
  plain a = true ->
  (forall x, 0 <= x < 65536 ->
     Q 0 t [ARd dev (Direct a) x; AWr dev (Direct a) (rmw x v m)]) ->
  does (lan8814_direct_reg_wr dev a v m) t Q.
Proof.
  intros Ha HQ. apply steps_does, steps_direct_reg_wr. intros x Hx.
  eexists. split; [by apply decodes_plain_wr | by apply HQ].
Qed.

Lemma does_mmd_reg_rd dev mmd addr cur t (Q : Z * Z -> table -> list access -> Prop) :
  mmd_ok (mmd, addr) = true ->
  (forall v, 0 <= v < 65536 -> Q (0, v) t [ARd dev (Mmd mmd addr) v]) ->
  does (lan8814_mmd_reg_rd dev mmd addr cur) t Q.
Proof.
  intros Hok HQ. assert (0 <= mmd < 32 /\ 0 <= addr < 65536) as [Hm Ha].
  { unfold mmd_ok in Hok. cbn in Hok. lia. }
  apply steps_does. apply steps_bind, steps_direct_reg_wr. intros x1 _.
  apply steps_bind, steps_direct_reg_wr. intros x2 _.
  apply steps_bind, steps_direct_reg_wr. intros x3 _.
  apply steps_bind, steps_direct_reg_rd. intros v Hv. apply steps_ret.
  rewrite mmd_ctrl_word, !rmw_full by lia. eexists. split; [|by apply HQ].
  apply (decode_mmd_open dev mmd addr x1 x2 x3 [EvRd dev 14 0 (Some v)]); [done|].
  intros ls c a E. eapply (decode_rd _ _ _ _ _ (Some _)); [|done].
  rewrite E. exact (proj2 (window_mmd _ _ _ _ Hm)).
Qed.

Lemma does_mmd_reg_wr dev mmd addr v m t (Q : Z -> table -> list access -> Prop) :
  mmd_ok (mmd, addr) = true ->
  (forall x, 0 <= x < 65536 ->
     Q 0 t [ARd dev (Mmd mmd addr) x; AWr dev (Mmd mmd addr) (rmw x v m)]) ->
  does (lan8814_mmd_reg_wr dev mmd addr v m) t Q.
Proof.
  intros Hok HQ. assert (0 <= mmd < 32 /\ 0 <= addr < 65536) as [Hm Ha].
  { unfold mmd_ok in Hok. cbn in Hok. lia. }
  apply steps_does. apply steps_bind, steps_direct_reg_wr. intros x1 _.
  apply steps_bind, steps_direct_reg_wr. intros x2 _.
  apply steps_bind, steps_direct_reg_wr. intros x3 _.
  apply steps_bind, steps_direct_reg_wr. intros x Hx. apply steps_ret.
  rewrite mmd_ctrl_word, !rmw_full by lia. eexists. split; [|by apply HQ].
  apply (decode_mmd_open dev mmd addr x1 x2 x3
           [EvRd dev 14 0 (Some x); EvWr dev 14 (rmw x v m) 0]); [done|].
  intros ls c a E. eapply (decode_rd _ _ _ _ _ (Some _)).
  { rewrite E. exact (proj2 (window_mmd _ _ _ _ Hm)). }
  eapply decode_wr; [|done]. rewrite put_same. exact (proj2 (window_mmd _ _ _ _ Hm)).
Qed.

Lemma does_ext_reg_rd dev page addr cur t (Q : Z * Z -> table -> list access -> Prop) :
  ep_ok (page, addr) = true ->
  (forall v, 0 <= v < 65536 -> Q (0, v) t [ARd dev (Ext page addr) v]) ->
  does (lan8814_ext_reg_rd dev page addr cur) t Q.
Proof.
  intros Hok HQ. assert (0 <= page < 16384 /\ 0 <= addr < 65536) as [Hp Ha].
  { unfold ep_ok in Hok. cbn in Hok. lia. }
  apply steps_does. apply steps_bind, steps_co_write.
  apply steps_bind, steps_co_write. apply steps_bind, steps_co_write.
  apply steps_bind, steps_direct_reg_rd. intros v Hv. apply steps_ret.
  change LAN8814_F_EXT_PAGE_ACCESS_CTRL_EP_FUNC with (1 .<< 14).
  rewrite ep_ctrl_word, !u16_small by lia. eexists. split; [|by apply HQ].
  apply (decode_ep_open dev page addr 1 [EvRd dev 23 0 (Some v)]); [lia..|].
  intros ls m d E. eapply (decode_rd _ _ _ _ _ (Some _)); [|done].
  rewrite E. exact (proj1 (proj2 (window_ep _ _ _ _ Hp))).
Qed.

Lemma does_ext_reg_wr dev page addr v m t (Q : Z -> table -> list access -> Prop) :
  ep_ok (page, addr) = true ->
  (forall x, 0 <= x < 65536 ->
     Q 0 t [ARd dev (Ext page addr) x; AWr dev (Ext page addr) (rmw x v m)]) ->
  does (lan8814_ext_reg_wr dev page addr v m) t Q.
Proof.
  intros Hok HQ. assert (0 <= page < 16384 /\ 0 <= addr < 65536) as [Hp Ha].
  { unfold ep_ok in Hok. cbn in Hok. lia. }
  apply steps_does. apply steps_bind, steps_co_write.
  apply steps_bind, steps_co_write. apply steps_bind, steps_co_write.
  apply steps_bind, steps_direct_reg_wr. intros x Hx. apply steps_ret.
  change LAN8814_F_EXT_PAGE_ACCESS_CTRL_EP_FUNC with (1 .<< 14).
  rewrite ep_ctrl_word, !u16_small by lia. eexists. split; [|by apply HQ].
  apply (decode_ep_open dev page addr 1
           [EvRd dev 23 0 (Some x); EvWr dev 23 (rmw x v m) 0]); [lia..|].
  intros ls m' d E. eapply (decode_rd _ _ _ _ _ (Some _)).
  { rewrite E. exact (proj1 (proj2 (window_ep _ _ _ _ Hp))). }
  eapply decode_wr; [|done]. rewrite put_same. exact (proj1 (proj2 (window_ep _ _ _ _ Hp))).
Qed.

(** The macros. *)
Lemma does_RD dev a cur t (Q : Z -> table -> list access -> Prop) :
  plain a = true ->
  (forall v, 0 <= v < 65536 -> Q v t [ARd dev (Direct a) v]) -> does (RD dev a cur) t Q.
Proof.
  intros Ha HQ. apply does_bind, does_direct_reg_rd; [done|]. intros v Hv.
  by apply does_ret, HQ.
Qed.
Lemma does_WRM dev a v m t (Q : unit -> table -> list access -> Prop) :
  plain a = true ->
  (forall x, 0 <= x < 65536 ->
     Q tt t [ARd dev (Direct a) x; AWr dev (Direct a) (rmw x v m)]) ->
  does (WRM dev a v m) t Q.
Proof.
  intros Ha HQ. apply does_bind, does_direct_reg_wr; [done|]. intros x Hx.
  by apply does_ret, HQ.
Qed.
Lemma does_WR dev a v t (Q : unit -> table -> list access -> Prop) :
  plain a = true ->
  (forall x, 0 <= x < 65536 ->
     Q tt t [ARd dev (Direct a) x; AWr dev (Direct a) (u16 v)]) ->
  does (WR dev a v) t Q.
Proof.
  intros Ha HQ. apply does_WRM; [done|]. intros x Hx. rewrite rmw_all. by apply HQ.
Qed.
Lemma does_EP_RD dev p cur t (Q : Z -> table -> list access -> Prop) :
  ep_ok p = true ->
  (forall v, 0 <= v < 65536 -> Q v t [ARd dev (Ext (fst p) (snd p)) v]) ->
  does (EP_RD dev p cur) t Q.
Proof.
  intros Ha HQ. apply does_bind, does_ext_reg_rd; [by destruct p|]. intros v Hv.
  by apply does_ret, HQ.
Qed.
Lemma does_EP_WRM dev p v m t (Q : unit -> table -> list access -> Prop) :
  ep_ok p = true ->
  (forall x, 0 <= x < 65536 ->
     Q tt t [ARd dev (Ext (fst p) (snd p)) x; AWr dev (Ext (fst p) (snd p)) (rmw x v m)]) ->
  does (EP_WRM dev p v m) t Q.
Proof.
  intros Ha HQ. apply does_bind, does_ext_reg_wr; [by destruct p|]. intros x Hx.
  by apply does_ret, HQ.
Qed.
Lemma does_EP_WR dev p v t (Q : unit -> table -> list access -> Prop) :
  ep_ok p = true ->
  (forall x, 0 <= x < 65536 ->
     Q tt t [ARd dev (Ext (fst p) (snd p)) x; AWr dev (Ext (fst p) (snd p)) (u16 v)]) ->
  does (EP_WR dev p v) t Q.
Proof.
  intros Ha HQ. apply does_EP_WRM; [done|]. intros x Hx. rewrite rmw_all. by apply HQ.
Qed.
Lemma does_MMD_RD dev p cur t (Q : Z -> table -> list access -> Prop) :
  mmd_ok p = true ->
  (forall v, 0 <= v < 65536 -> Q v t [ARd dev (Mmd (fst p) (snd p)) v]) ->
  does (MMD_RD dev p cur) t Q.
Proof.
  intros Ha HQ. apply does_bind, does_mmd_reg_rd; [by destruct p|]. intros v Hv.
  by apply does_ret, HQ.
Qed.
Lemma does_MMD_WR dev p v t (Q : unit -> table -> list access -> Prop) :
  mmd_ok p = true ->
  (forall x, 0 <= x < 65536 ->
     Q tt t [ARd dev (Mmd (fst p) (snd p)) x; AWr dev (Mmd (fst p) (snd p)) (u16 v)]) ->
  does (MMD_WR dev p v) t Q.
Proof.
  intros Ha HQ. apply does_bind, does_mmd_reg_wr; [by destruct p|]. intros x Hx.
  rewrite rmw_all. by apply does_ret, HQ.
Qed.

End Does.

(** One step of a register-level proof; [does_auto] runs a straight-line
    program, leaving the values it reads universally quantified. *)
Ltac does_step :=
  lazymatch goal with
  | |- does (RD _ _ _) _ _ => apply does_RD; [reflexivity|intros ? ?]
  | |- does (WR _ _ _) _ _ => apply does_WR; [reflexivity|intros ? _]
  | |- does (WRM _ _ _ _) _ _ => apply does_WRM; [reflexivity|intros ? ?]
  | |- does (EP_RD _ _ _) _ _ => apply does_EP_RD; [reflexivity|intros ? ?]
  | |- does (EP_WR _ _ _) _ _ => apply does_EP_WR; [reflexivity|intros ? _]
  | |- does (EP_WRM _ _ _ _) _ _ => apply does_EP_WRM; [reflexivity|intros ? ?]
  | |- does (MMD_RD _ _ _) _ _ => apply does_MMD_RD; [reflexivity|intros ? ?]
  | |- does (MMD_WR _ _ _) _ _ => apply does_MMD_WR; [reflexivity|intros ? _]
  | |- _ => does_basic
  end.
Ltac does_auto := repeat (does_step; cbv beta zeta iota; cbn [fst snd]).

(** ** Safety of the accessors

    [linked E]: every device of the environment [E] has private data, which
    names its base port and whose time stamping state is in range; [EnvOk]: the
    base port is a device of [E] too. *)
Record env := Env { e_devs : Z -> bool; e_base : Z -> Z }.

Class EnvOk (E : env) : Prop :=
  env_base : forall d, e_devs E d = true -> e_devs E (e_base E d) = true.

(** The clock frequency indexes the latency tables, and sums of the latencies
    stay far from the ends of their 64-bit type. *)
Definition latency_ok (x : Z) : Prop := - 2 ^ 61 <= x <= 2 ^ 61.
Definition latencies_ok (l : lan8814_ts_port_latencies_t) : Prop :=
  latency_ok (lat_rx10mbps l) /\ latency_ok (lat_rx100mbps l) /\ latency_ok (lat_rx1000mbps l) /\
  latency_ok (lat_tx10mbps l) /\ latency_ok (lat_tx100mbps l) /\ latency_ok (lat_tx1000mbps l).
Definition ts_wf (s : lan8814_ts_data_t) : Prop :=
  0 <= ts_clk_freq s < 6 /\ latencies_ok (ts_default_latencies s) /\
  latencies_ok (tp_port_latencies (ts_ts_port_conf s)).

Definition port_ok (E : env) (dev : Z) (p : phy_data_t) : Prop :=
  pd_base_dev p = Some (e_base E dev) /\ ts_wf (pd_ts_state p).
Definition linked (E : env) (t : gmap Z phy_data_t) : Prop :=
  forall d, e_devs E d = true -> exists p, t !! d = Some p /\ port_ok E d p.

Lemma ts_wf_0 : ts_wf lan8814_ts_data_t_0.
Proof. unfold ts_wf, latencies_ok, latency_ok. cbn. lia. Qed.

Section SafeAccess.
Context {B : Type} {CO : Callout B} {OK : CalloutOk (CO := CO)} (E : env).
Local Abbreviation M := (M B phy_data_t).
Local Abbreviation Inv := (linked E).

Lemma safe_data {A} dev (k : phy_data_t -> M A) h h' :
  e_devs E dev = true ->
  (forall d, pd_base_dev d = Some (e_base E dev) -> ts_wf (pd_ts_state d) -> safe Inv h (k d) h') ->
  safe Inv h (bind (data_of dev) k) h'.
Proof.
  intros Hdev Hk w Hw. destruct (Hw dev Hdev) as (p & Hp & Hb & Ht).
  destruct (Hk p Hb Ht w Hw) as (a & w' & tr & H). exists a, w', tr.
  erewrite bind_eq; [done|]. unfold data_of. by rewrite Hp.
Qed.

Lemma safe_upd_dev dev f h :
  e_devs E dev = true ->
  (forall d, port_ok E dev d -> port_ok E dev (f d)) ->
  safe Inv h (upd (B := B) dev f) h.
Proof.
  intros Hdev Hf. apply safe_upd.
  - intros t Ht. destruct (Ht dev Hdev) as (p & Hp & _). by exists p.
  - intros t d Ht Hd x Hx. destruct (Ht x Hx) as (p & Hp & Hbp).
    destruct (decide (x = dev)) as [->|Hne].
    + exists (f d). rewrite lookup_insert_eq. split; [done|]. apply Hf. congruence.
    + exists p. by rewrite lookup_insert_ne.
Qed.

Lemma safe_deref {A} p b (k : Z -> M A) h h' :
  p = Some b -> safe Inv h (k b) h' -> safe Inv h (bind (deref p) k) h'.
Proof. by intros ->. Qed.

Lemma safe_direct_reg_rd dev a cur : 0 <= a < 32 ->
  safe Inv true (lan8814_direct_reg_rd dev a cur) true.
Proof. intros. unfold lan8814_direct_reg_rd. safe_auto. Qed.
Lemma safe_direct_reg_wr dev a v m : 0 <= a < 32 ->
  safe Inv true (lan8814_direct_reg_wr dev a v m) true.
Proof. intros. unfold lan8814_direct_reg_wr. safe_auto. Qed.

Local Ltac acc := first [apply safe_co_write | apply safe_direct_reg_rd | apply safe_direct_reg_wr];
  split; vm_compute; congruence.
Local Ltac go := intros; cbv delta [LAN8814_EXT_PAGE_ACCESS_CTRL LAN8814_EXT_PAGE_ACCESS_ADDR_DATA
    LAN8814_MMD_ACCESS_CTRL LAN8814_MMD_ACCESS_ADDR_DATA]; repeat first [acc | safe_step].

Lemma safe_ext_reg_rd dev p a cur : safe Inv true (lan8814_ext_reg_rd dev p a cur) true.
Proof. unfold lan8814_ext_reg_rd. go. Qed.
Lemma safe_ext_reg_wr dev p a v m : safe Inv true (lan8814_ext_reg_wr dev p a v m) true.
Proof. unfold lan8814_ext_reg_wr. go. Qed.
Lemma safe_ext_incr_reg_rd dev p a cur s :
  safe Inv true (lan8814_ext_incr_reg_rd dev p a cur s) true.
Proof. unfold lan8814_ext_incr_reg_rd. go. Qed.
Lemma safe_mmd_reg_rd dev p a cur : safe Inv true (lan8814_mmd_reg_rd dev p a cur) true.
Proof. unfold lan8814_mmd_reg_rd. go. Qed.
Lemma safe_mmd_reg_wr dev p a v m : safe Inv true (lan8814_mmd_reg_wr dev p a v m) true.
Proof. unfold lan8814_mmd_reg_wr. go. Qed.

#[local] Hint Resolve safe_direct_reg_rd safe_direct_reg_wr safe_ext_reg_rd safe_ext_reg_wr
  safe_ext_incr_reg_rd safe_mmd_reg_rd safe_mmd_reg_wr : safe.

Lemma safe_RD dev a cur : 0 <= a < 32 -> safe Inv true (RD dev a cur) true.
Proof. unfold RD. safe_auto. Qed.
Lemma safe_WRM dev a v m : 0 <= a < 32 -> safe Inv true (WRM dev a v m) true.
Proof. unfold WRM. safe_auto. Qed.
Lemma safe_WR dev a v : 0 <= a < 32 -> safe Inv true (WR dev a v) true.
Proof. apply safe_WRM. Qed.
Lemma safe_EP_RD dev p cur : safe Inv true (EP_RD dev p cur) true.
Proof. unfold EP_RD. safe_auto. Qed.
Lemma safe_EP_WRM dev p v m : safe Inv true (EP_WRM dev p v m) true.
Proof. unfold EP_WRM. safe_auto. Qed.
Lemma safe_EP_WR dev p v : safe Inv true (EP_WR dev p v) true.
Proof. apply safe_EP_WRM. Qed.
Lemma safe_EP_RD_INCR dev p cur s : safe Inv true (EP_RD_INCR dev p cur s) true.
Proof. unfold EP_RD_INCR. safe_auto. Qed.
Lemma safe_MMD_RD dev p cur : safe Inv true (MMD_RD dev p cur) true.
Proof. unfold MMD_RD. safe_auto. Qed.
Lemma safe_MMD_WR dev p v : safe Inv true (MMD_WR dev p v) true.
Proof. unfold MMD_WR. safe_auto. Qed.
Lemma safe_ep_wr_list dev l : safe Inv true (ep_wr_list dev l) true.
Proof. apply safe_seq. intros. apply safe_EP_WR. Qed.
End SafeAccess.

#[export] Hint Resolve env_base : safe.
#[export] Hint Resolve safe_ext_reg_rd safe_ext_reg_wr safe_ext_incr_reg_rd safe_mmd_reg_rd
  safe_mmd_reg_wr safe_EP_RD safe_EP_WRM safe_EP_WR safe_EP_RD_INCR safe_MMD_RD safe_MMD_WR
  safe_ep_wr_list : safe.
#[export] Hint Extern 1 (safe _ true (lan8814_direct_reg_rd _ _ _) _) =>
  apply safe_direct_reg_rd; split; vm_compute; congruence : safe.
#[export] Hint Extern 1 (safe _ true (lan8814_direct_reg_wr _ _ _ _) _) =>
  apply safe_direct_reg_wr; split; vm_compute; congruence : safe.
#[export] Hint Extern 1 (safe _ true (RD _ _ _) _) =>
  apply safe_RD; split; vm_compute; congruence : safe.
#[export] Hint Extern 1 (safe _ true (WR _ _ _) _) =>
  apply safe_WR; split; vm_compute; congruence : safe.
#[export] Hint Extern 1 (safe _ true (WRM _ _ _ _) _) =>
  apply safe_WRM; split; vm_compute; congruence : safe.

(** Safety of a driver function: the private data of a device of the
    environment is there and names its base port, and a member that is
    assigned is not [base_dev]. *)
Ltac lan_step :=
  lazymatch goal with
  | |- safe _ _ (bind (data_of _) _) _ =>
      apply safe_data; [solve [eauto 3 with safe] | intros ? ? ?]
  | |- safe _ _ (bind (deref _) _) _ =>
      eapply safe_deref; [first [reflexivity | eassumption]|]
  | H : pd_base_dev ?d = Some _ |- safe _ _ (match pd_base_dev ?d with _ => _ end) _ =>
      rewrite H
  | |- safe _ _ (upd _ _) _ =>
      apply safe_upd_dev; [solve [eauto 3 with safe] | intros ? HH; solve [exact HH | split; [reflexivity | exact (proj2 HH)]]]
  | |- _ => safe_step
  end.
Tactic Notation "lan_safe" reference(f) :=
  intros; unfold f; repeat (lan_step; cbv beta zeta).
