(* ===== verification/Lan8814Burst.v ===== *)
(** * Lan8814Burst: reading consecutive extended registers

    [EP_RD_INCR] opens a window that increments its address after every access;
    the reads that follow name a register, but it is the window that decides
    which one is read.  [does_in] continues the access logic inside such a
    burst: the window is at a known page and address. *)

From Stdlib Require Import ZArith Lia List Bool String.
From stdpp Require Import base gmap strings list.
From S2P Require Import Prelude Machine Enums Lan8814Regs Lan8814Types Trace Mdio Lan8814Access.

Section Burst.
Context {B : Type} {CO : Callout B} {OK : BusOk CO}.
Local Abbreviation M := (M B phy_data_t).
Local Abbreviation table := (gmap Z phy_data_t).

(** Like [does], when the incrementing window of [dev] is at [page], [addr]. *)
Definition does_in (dev page addr : Z) {A} (m : M A) (t : table)
    (Q : A -> table -> list access -> Prop) : Prop :=
  forall w, w_data w = t -> exists a w' tr accs,
    m w = Some (a, w') /\ w_log w' = w_log w ++ tr /\
    (forall ls c m' d, ls dev = Latch c addr m' d -> c = 32768 + page -> decode ls tr = accs) /\
    Q a (w_data w') accs.

(** The end of a burst. *)
Lemma does_in_end dev page addr {A} (m : M A) t Q : does m t Q -> does_in dev page addr m t Q.
Proof.
  intros Hm w Hw. destruct (Hm w Hw) as (a & w' & tr & l & H1 & H2 & H3 & H4).
  exists a, w', tr, l. split_and!; auto.
Qed.

(** A step without bus access. *)
Lemma does_in_silent dev page addr {A C} (a : A) (m : M A) (k : A -> M C) t Q :
  (forall w, m w = Some (a, w)) -> does_in dev page addr (k a) t Q ->
  does_in dev page addr (bind m k) t Q.
Proof.
  intros Hm Hk w Hw. destruct (Hk w Hw) as (c & w' & tr & l & H1 & H2 & H3 & H4).
  exists c, w', tr, l. rewrite (bind_eq _ _ _ _ _ (Hm w)). split_and!; auto.
Qed.
Lemma does_in_if dev page addr {A} (b : bool) (m1 m2 : M A) t Q :
  (b = true -> does_in dev page addr m1 t Q) -> (b = false -> does_in dev page addr m2 t Q) ->
  does_in dev page addr (if b then m1 else m2) t Q.
Proof. intros H1 H2. destruct b; auto. Qed.

Lemma decode_incr ls dev page addr m d v tr accs :
  0 <= page < 16384 -> ls dev = Latch (32768 + page) addr m d ->
  (forall ls' m' d', ls' dev = Latch (32768 + page) (u16 (addr + 1)) m' d' -> decode ls' tr = accs) ->
  decode ls (EvRd dev 23 0 (Some v) :: tr) = ARd dev (Ext page addr) v :: accs.
Proof.
  intros Hp E Htr. pose proof (proj2 (proj2 (window_ep page addr m d Hp))) as Hw.
  eapply (decode_rd _ _ _ _ _ (Some _)); [by rewrite E|].
  eapply Htr. by rewrite put_same.
Qed.

(** The reads of a burst: the next one, and the first. *)
Lemma does_in_next dev page addr p cur {A} (k : Z -> M A) t Q :
  0 <= page < 16384 ->
  (forall v, 0 <= v < 65536 -> does_in dev page (u16 (addr + 1)) (k v) t
     (fun a t' l => Q a t' (ARd dev (Ext page addr) v :: l))) ->
  does_in dev page addr (bind (EP_RD_INCR dev p cur FALSE) k) t Q.
Proof.
  intros Hp Hk w Hw.
  assert (steps (EP_RD_INCR (D := phy_data_t) (CO := CO) dev p cur FALSE)
    (fun v tr => 0 <= v < 65536 /\ tr = [EvRd dev 23 0 (Some v)])) as Hs.
  { apply steps_bind, steps_bind, steps_ret. apply steps_bind, steps_direct_reg_rd. intros v Hv.
    do 2 apply steps_ret. by split. }
  destruct (Hs w) as (v & w1 & tr1 & E1 & D1 & L1 & Hv & ->).
  destruct (Hk v Hv w1) as (a & w2 & tr2 & l & E2 & L2 & Hd & HQ); [congruence|].
  exists a, w2, (EvRd dev 23 0 (Some v) :: tr2), (ARd dev (Ext page addr) v :: l).
  rewrite (bind_eq _ _ _ _ _ E1). split_and!; [done| | |done].
  - by rewrite L2, L1, <- app_assoc.
  - intros ls c m' d E ->. eapply decode_incr; [done|done|]. intros ls' m'' d' E'. by eapply Hd.
Qed.

Lemma does_burst dev p cur {A} (k : Z -> M A) t Q :
  ep_ok p = true ->
  (forall v, 0 <= v < 65536 -> does_in dev (fst p) (u16 (snd p + 1)) (k v) t
     (fun a t' l => Q a t' (ARd dev (Ext (fst p) (snd p)) v :: l))) ->
  does (bind (EP_RD_INCR dev p cur TRUE) k) t Q.
Proof.
  intros Hok Hk w Hw. destruct p as [page addr]. cbn [fst snd] in Hk.
  assert (0 <= page < 16384 /\ 0 <= addr < 65536) as [Hp Ha] by (unfold ep_ok in Hok; cbn in Hok; lia).
  assert (steps (EP_RD_INCR (D := phy_data_t) (CO := CO) dev (page, addr) cur TRUE)
    (fun v tr => 0 <= v < 65536 /\ tr = ep_open dev page addr 2 ++ [EvRd dev 23 0 (Some v)])) as Hs.
  { apply steps_bind, steps_bind.
    do 3 (apply steps_bind, steps_co_write; change (0 <? MEPA_RC_OK) with false; cbv iota).
    apply steps_ret. change (MEPA_RC_OK <? MEPA_RC_OK) with false. cbv iota.
    apply steps_bind, steps_direct_reg_rd. intros v Hv. do 2 apply steps_ret. split; [done|].
    change LAN8814_F_EXT_PAGE_ACCESS_CTRL_INCR_RD_WR with (2 .<< 14).
    cbn [fst snd]. rewrite ep_ctrl_word, !u16_small by lia. done. }
  destruct (Hs w) as (v & w1 & tr1 & E1 & D1 & L1 & Hv & ->).
  destruct (Hk v Hv w1) as (a & w2 & tr2 & l & E2 & L2 & Hd & HQ); [congruence|].
  exists a, w2, (ep_open dev page addr 2 ++ (EvRd dev 23 0 (Some v) :: tr2)), (ARd dev (Ext page addr) v :: l).
  rewrite (bind_eq _ _ _ _ _ E1). split_and!; [done| | |done].
  - rewrite L2, L1, <- !app_assoc. done.
  - apply decode_ep_open; [lia..|]. intros ls m d E. change (2 * 16384) with 32768 in E.
    eapply decode_incr; [done|done|]. intros ls' m' d' E'. by eapply Hd.
Qed.
End Burst.

(** The steps of a burst: the register that is read is the named one when the
    address of the window, computed, is its address. *)
Ltac burst_step :=
  lazymatch goal with
  | |- does (bind (EP_RD_INCR _ _ _ TRUE) _) _ _ => apply does_burst; [reflexivity|intros ? ?]
  | |- does_in _ _ _ (bind (EP_RD_INCR _ _ _ FALSE) _) _ _ => apply does_in_next; [split; vm_compute; congruence|intros ? ?]
  end; cbv beta zeta;
  lazymatch goal with
  | |- does_in ?d ?p ?a ?m ?t ?Q =>
      let p' := eval vm_compute in p in let a' := eval vm_compute in a in
      change (does_in d p' a' m t Q)
  end.
