(* ===== verification/SimPhy.v ===== *)
(** * SimPhy: a PHY that remembers what was written

    A concrete instance of the callouts, for the witnesses: registers behind
    the windows of [Lan8814Access], all zero at first, and a read returns what
    the last write stored. *)

From Stdlib Require Import ZArith Lia List Bool String.
From stdpp Require Import base gmap strings list.
From S2P Require Import Prelude Machine Lan8814Types Trace Mdio Lan8814Access.

Definition reg_eqb (r1 r2 : reg) : bool :=
  match r1, r2 with
  | Direct a, Direct b => a =? b
  | Ext p a, Ext q b => (p =? q) && (a =? b)
  | Mmd p a, Mmd q b => (p =? q) && (a =? b)
  | _, _ => false
  end.

Record sim := Sim { sim_regs : list (Z * reg * Z); sim_ls : Z -> latch }.

Fixpoint reg_get (l : list (Z * reg * Z)) (dev : Z) (r : reg) : Z :=
  match l with
  | [] => 0
  | (d, r', v) :: l => if (d =? dev) && reg_eqb r' r then v else reg_get l dev r
  end.

Definition sim_read (dev a : Z) (s : sim) : (Z * option Z) * sim :=
  let '(o, l) := window (sim_ls s dev) a in
  ((0, Some (match o with Some r => reg_get (sim_regs s) dev r | None => 0 end)),
   Sim (sim_regs s) (put (sim_ls s) dev l)).
Definition sim_write (dev a v : Z) (s : sim) : Z * sim :=
  let '(o, l) := window (sim_ls s dev) a in
  (0, match o with
      | Some r => Sim ((dev, r, v) :: sim_regs s) (put (sim_ls s) dev l)
      | None => Sim (sim_regs s) (put (sim_ls s) dev (latch_wr l a v))
      end).

#[export] Instance sim_callout : Callout sim :=
  {| miim_read := Some sim_read; miim_write := Some sim_write;
     lock_enter := true; lock_exit := true; uninit := fun _ => 0 |}.

#[export] Instance sim_callout_ok : CalloutOk (CO := sim_callout).
Proof. by split; try eexists. Qed.

#[export] Instance sim_bus_ok : BusOk sim_callout.
Proof.
  split; eexists; (split; [done|]).
  - intros dev a b. unfold sim_read. destruct (window _ _). by eexists _, _.
  - intros dev a v b. unfold sim_write. destruct (window _ _). by eexists.
Qed.

(** A chip with four ports, devices 100 to 103, the first of them the base
    port; every port has the private data [d]. *)
Definition quad : env :=
  Env (fun d => (100 <=? d) && (d <=? 103)) (fun _ => 100).
#[export] Instance quad_ok : EnvOk quad.
Proof. by intros d _. Qed.

Definition quad_table (d : phy_data_t) : gmap Z phy_data_t :=
  list_to_map (map (fun i => (100 + i, set_pd_packet_idx i (set_pd_base_dev (Some 100) d)))
                   [0; 1; 2; 3]).
Definition quad_world (d : phy_data_t) : world sim phy_data_t :=
  World (Sim [] (fun _ => Latch 0 0 0 0)) (quad_table d) [].

Lemma quad_linked d : ts_wf (pd_ts_state d) -> linked quad (quad_table d).
Proof.
  intros Ht x Hx. cbn in Hx.
  assert (x = 100 \/ x = 101 \/ x = 102 \/ x = 103) as H by lia.
  destruct H as [-> | [-> | [-> | ->]]]; (eexists; split; [reflexivity|]; by split).
Qed.
