(* ===== verification/AccessLemmas.v ===== *)
(** * AccessLemmas: reasoning on lists of register accesses

    The values a program writes to a register ([wrote], [last_wr]), the
    registers it touches ([only]), and how they distribute over [++]. *)

From Stdlib Require Import ZArith Lia List Bool String.
From stdpp Require Import base gmap strings list.
From S2P Require Import Prelude Machine Lan8814Regs Lan8814Types Trace Mdio Lan8814Access SimPhy.

Lemma reg_eqb_spec r1 r2 : reg_eqb r1 r2 = true <-> r1 = r2.
Proof.
  destruct r1, r2; cbn; rewrite ?andb_true_iff, ?Z.eqb_eq; try (split; congruence);
    (split; [intros [-> ->]; done | intros H; by simplify_eq]).
Qed.
Lemma reg_eqb_refl r : reg_eqb r r = true.
Proof. by apply reg_eqb_spec. Qed.

#[export] Instance reg_eq_dec : EqDecision reg.
Proof. solve_decision. Defined.

(** Does the access write register [r] of [dev]? *)
Definition writes (dev : Z) (r : reg) (a : access) : option Z :=
  match a with
  | AWr d r' v => if (d =? dev) && reg_eqb r' r then Some v else None
  | ARd _ _ _ => None
  end.

(** The values written to [r], in order. *)
Definition wrote (dev : Z) (r : reg) (l : list access) : list Z := omap (writes dev r) l.
Definition last_wr (dev : Z) (r : reg) (l : list access) : option Z := last (wrote dev r l).

(** Everything a program writes to [dev], in order. *)
Definition all_wr (dev : Z) (l : list access) : list (reg * Z) :=
  omap (fun a => match a with
                 | AWr d r v => if d =? dev then Some (r, v) else None
                 | ARd _ _ _ => None
                 end) l.

Lemma all_wr_app dev l1 l2 : all_wr dev (l1 ++ l2) = all_wr dev l1 ++ all_wr dev l2.
Proof. apply omap_app. Qed.
Lemma all_wr_rd dev d r v l : all_wr dev (ARd d r v :: l) = all_wr dev l.
Proof. done. Qed.
Lemma all_wr_wr dev r v l : all_wr dev (AWr dev r v :: l) = (r, v) :: all_wr dev l.
Proof. unfold all_wr. cbn. by rewrite Z.eqb_refl. Qed.

Definition acc_dev (a : access) : Z := match a with ARd d _ _ => d | AWr d _ _ => d end.
Definition acc_reg (a : access) : reg := match a with ARd _ r _ => r | AWr _ r _ => r end.

(** Every access is to one of the registers [S] of [dev]. *)
Definition only (dev : Z) (S : list reg) (l : list access) : Prop :=
  Forall (fun a => acc_dev a = dev /\ acc_reg a ∈ S) l.

Lemma wrote_app dev r l1 l2 : wrote dev r (l1 ++ l2) = wrote dev r l1 ++ wrote dev r l2.
Proof. apply omap_app. Qed.

Lemma wrote_only dev r S l : only dev S l -> r ∉ S -> wrote dev r l = [].
Proof.
  intros Hl Hr. induction Hl as [|a l [Hd Ha] _ IH]; [done|].
  destruct a as [d r' v|d r' v]; cbn in *; [done|].
  destruct (Z.eqb_spec d dev); cbn; [|done].
  destruct (reg_eqb r' r) eqn:E; [|done]. apply reg_eqb_spec in E. by subst.
Qed.

Lemma wrote_other dev dev' r S l : only dev S l -> dev <> dev' -> wrote dev' r l = [].
Proof.
  intros Hl Hd. induction Hl as [|a l [Ha _] _ IH]; [done|].
  destruct a as [d r' v|d r' v]; cbn in *; [done|].
  rewrite (proj2 (Z.eqb_neq d dev')) by congruence. done.
Qed.

Lemma only_nil dev S : only dev S [].
Proof. constructor. Qed.
Lemma only_app dev S l1 l2 : only dev S l1 -> only dev S l2 -> only dev S (l1 ++ l2).
Proof. apply Forall_app_2. Qed.
Lemma only_cons dev S a l :
  acc_dev a = dev -> acc_reg a ∈ S -> only dev S l -> only dev S (a :: l).
Proof. by constructor. Qed.
Lemma only_mono dev S S' l : only dev S l -> S ⊆ S' -> only dev S' l.
Proof. intros Hl HS. eapply Forall_impl; [exact Hl|]. intros a [? ?]. split; [done|]. by apply HS. Qed.

Lemma last_wr_app dev r l1 l2 :
  last_wr dev r (l1 ++ l2) =
  match last_wr dev r l2 with Some v => Some v | None => last_wr dev r l1 end.
Proof.
  unfold last_wr. rewrite wrote_app. destruct (wrote dev r l2) as [|v l] using rev_ind.
  - by rewrite app_nil_r.
  - by rewrite app_assoc, !last_snoc.
Qed.
Lemma last_wr_only dev r S l : only dev S l -> r ∉ S -> last_wr dev r l = None.
Proof. intros Hl Hr. unfold last_wr. by erewrite wrote_only. Qed.

(** The accesses to the registers [rs] of [dev], reads and writes, in order. *)
Definition seen (dev : Z) (rs : list reg) (l : list access) : list access :=
  List.filter (fun a => (acc_dev a =? dev) && existsb (reg_eqb (acc_reg a)) rs) l.

Lemma seen_parts dev rs l1 l2 : seen dev rs (l1 ++ l2) = seen dev rs l1 ++ seen dev rs l2.
Proof. apply List.filter_app. Qed.
Lemma seen_only dev rs S l :
  only dev S l -> forallb (fun r => negb (existsb (reg_eqb r) rs)) S = true -> seen dev rs l = [].
Proof.
  intros Hl HS. rewrite forallb_forall in HS. induction Hl as [|a l [_ Ha] _ IH]; [done|].
  unfold seen. cbn [List.filter]. apply list_elem_of_In, HS, negb_true_iff in Ha. rewrite Ha, andb_false_r. exact IH.
Qed.
Lemma seen_cons dev rs a l : seen dev rs (a :: l) =
  if (acc_dev a =? dev) && existsb (reg_eqb (acc_reg a)) rs then a :: seen dev rs l else seen dev rs l.
Proof. done. Qed.

(** The accesses of an explicit list to some registers, and of the parts that
    access none of them. *)
Ltac seen_tac :=
  rewrite ?seen_parts;
  repeat match goal with
    | H : only ?dev _ ?l |- context [seen ?dev ?rs ?l] =>
        rewrite (seen_only dev rs _ l H) by (vm_compute; reflexivity)
    end;
  repeat first
    [ rewrite seen_cons; cbn [acc_dev acc_reg]; rewrite Z.eqb_refl; cbn [andb];
      match goal with |- context [if existsb ?f ?l then _ else _] =>
        let b := eval vm_compute in (existsb f l) in change (existsb f l) with b end; cbv iota
    | change (seen ?dev ?rs []) with (@nil access) ];
  cbn [app]; rewrite ?app_nil_r; cbn [app].

(** Membership in, and inclusion of, explicit lists of registers. *)
Ltac in_tac := cbn; repeat first [apply list_elem_of_here | apply list_elem_of_further].
Ltac sub_tac :=
  let x := fresh in intros x; cbn; rewrite ?elem_of_app, ?elem_of_cons, ?elem_of_nil; tauto.
Ltac not_in := apply (bool_decide_unpack _); vm_compute; exact I.
Ltac only_tac :=
  repeat first
    [ apply only_nil
    | apply only_cons; [reflexivity | solve [in_tac] |]
    | apply only_app
    | (eapply only_mono; [eassumption | solve [sub_tac]]) ].

(** One access decides a register's field: what [rmw] leaves in it. *)
Lemma testbit_last old v m i :
  0 <= i < 16 -> Z.testbit (rmw old v m) i = if Z.testbit m i then Z.testbit v i else Z.testbit old i.
Proof. intros. rewrite testbit_rmw by lia. by rewrite (proj2 (Z.ltb_lt i 16)) by lia. Qed.

(** A write of the whole register. *)
Lemma rmw_def x v : rmw x v LAN8814_DEF_MASK = u16 v.
Proof. apply rmw_all. Qed.

(** The writes of an explicit list of accesses. *)
Ltac all_wr_tac :=
  cbn [app]; rewrite ?app_nil_r; repeat first [rewrite all_wr_rd | rewrite all_wr_wr | rewrite all_wr_app].
