(* ===== verification/Lan8814Conf.v ===== *)
(** * Lan8814Conf: configuration of a LAN8814 port

    The first part of [lan8814.c]: identification, initialisation and silicon
    workarounds, the port configuration [lan8814_conf_set_], events, EEE,
    frame preemption, reset and downshift.  A static function that the source
    calls without looking at its return code is called the same way here. *)

From Stdlib Require Import ZArith Lia List Bool String.
From stdpp Require Import base gmap strings list.
From S2P Require Import Prelude Machine Enums Lan8814Regs Lan8814Types Trace Mdio Lan8814Access.

Section Conf.
Context {B : Type} {CO : Callout B}.
Local Abbreviation M := (M B phy_data_t).

Definition lan8814_is_lan8814 (dev : Z) : M bool :=
  data <- data_of dev ;; ret (dev_model (pd_dev data) =? 0x26).
Definition lan8814_is_lan8842 (dev : Z) : M bool :=
  data <- data_of dev ;; ret (dev_model (pd_dev data) =? 0x2c).
Definition lan8814_is_lan966x (dev : Z) : M bool :=
  data <- data_of dev ;; ret (dev_model (pd_dev data) =? 0x27).

Definition lan8814_has_ptp (dev : Z) : M Z :=
  data <- data_of dev ;;
  b <- lan8814_is_lan966x dev ;;
  if b then ret FALSE else
  b <- lan8814_is_lan8814 dev ;;
  if b then ret (cb ((dev_sku (pd_dev data) =? 0x8814) || (dev_sku (pd_dev data) =? 0x8818))) else
  b <- lan8814_is_lan8842 dev ;;
  if b then ret (cb (dev_sku (pd_dev data) =? 0x8842)) else
  ret FALSE.

(** [X->member = v] for a nested member of the private data. *)
Definition set_dev (f : phy_dev_info_t -> phy_dev_info_t) (d : phy_data_t) : phy_data_t :=
  set_pd_dev (f (pd_dev d)) d.
Definition set_conf (f : mepa_conf_t -> mepa_conf_t) (d : phy_data_t) : phy_data_t :=
  set_pd_conf (f (pd_conf d)) d.
Definition set_eee (f : mepa_phy_eee_conf_t -> mepa_phy_eee_conf_t) (d : phy_data_t) : phy_data_t :=
  set_pd_eee_conf (f (pd_eee_conf d)) d.
Definition set_dsh (f : lan8814_phy_downshift_t -> lan8814_phy_downshift_t) (d : phy_data_t)
  : phy_data_t := set_pd_dsh_conf (f (pd_dsh_conf d)) d.

Definition lan8814_get_device_info (dev : Z) : M Z :=
  id <- RD dev LAN8814_DEVICE_ID_2 (uninit16 "lan8814_get_device_info.id") ;;
  upd dev (set_dev (set_dev_model (u8 (LAN8814_X_DEV_ID_MODEL id)))) ;;;
  upd dev (set_dev (set_dev_rev (u8 (LAN8814_X_DEV_ID_REV id)))) ;;;
  ret MEPA_RC_OK.

Definition lan8814_init_conf (dev : Z) : M Z :=
  lan8814_get_device_info dev ;;;
  b <- lan8814_is_lan8814 dev ;;
  (if b then
     data <- data_of dev ;;
     if pd_packet_idx data mod 4 =? 0 then
       msleep 1 ;;;
       if negb (tb (pd_qsgmii_phy_aneg_dis data)) then
         EP_WRM dev LAN8814_QSGMII_AUTO_ANEG 0 LAN8814_F_QSGMII_AUTO_ANEG_AUTO_ANEG_ENA ;;;
         upd dev (set_pd_qsgmii_phy_aneg_dis TRUE)
       else ret tt
     else ret tt
   else ret tt) ;;;
  WR dev LAN8814_GPHY_INTR_ENA 0 ;;;
  EP_WRM dev LAN8814_PTP_TSU_INT_EN 0 LAN8814_DEF_MASK ;;;
  RD dev LAN8814_GPHY_INTR_STATUS (uninit16 "lan8814_init_conf.val") ;;;
  EP_WRM dev LAN8814_INTR_CTRL LAN8814_INTR_CTRL_CHIP_LVL_ENA LAN8814_INTR_CTRL_CHIP_LVL_ENA ;;;
  ret MEPA_RC_OK.

Definition lan8814_qsgmii_tx_abilities (dev speed duplex : Z) : M unit :=
  let value := 0x1 in
  eee_val <- MMD_RD dev LAN8814_LINK_PARTNER_EEE_ABILITY
               (uninit16 "lan8814_qsgmii_tx_abilities.eee_val") ;;
  let value :=
    if speed =? MEPA_SPEED_1G then
      value .| (if tb (eee_val .& LAN8814_F_LP_EEE_ABILITY_1000_BT) then 0x180 else 0)
    else if speed =? MEPA_SPEED_100M then
      value .| (if tb (eee_val .& LAN8814_F_LP_EEE_ABILITY_100_BT) then 0x180 else 0)
    else value in
  let value := if tb duplex then value .| LAN8814_BIT 12 else value in
  let value := value .| (if speed =? MEPA_SPEED_1G then LAN8814_BIT 10
                         else if speed =? MEPA_SPEED_100M then LAN8814_BIT 9 else 0) in
  let value := value .| LAN8814_BIT 14 in
  EP_WR dev LAN8814_QSGMII_PCS1G_ANEG_TX_ADVERTISE_CAP value ;;;
  EP_WRM dev LAN8814_QSGMII_PCS1G_ANEG_CONFIG
    LAN8814_F_QSGMII_PCS1G_ANEG_CONFIG_ANEG_RESTART
    LAN8814_F_QSGMII_PCS1G_ANEG_CONFIG_ANEG_RESTART.

Definition lan8814_qsgmii_aneg (dev ena : Z) : M Z :=
  b <- lan8814_is_lan966x dev ;;
  if b then ret MEPA_RC_OK else
  (if negb (tb ena) then
     EP_WRM dev LAN8814_QSGMII_PCS1G_ANEG_CONFIG 0
       LAN8814_F_QSGMII_PCS1G_ANEG_CONFIG_ANEG_ENA
   else
     EP_WRM dev LAN8814_QSGMII_PCS1G_ANEG_CONFIG
       LAN8814_F_QSGMII_PCS1G_ANEG_CONFIG_ANEG_ENA
       LAN8814_F_QSGMII_PCS1G_ANEG_CONFIG_ANEG_ENA) ;;;
  ret MEPA_RC_OK.

Definition lan8814_rev_workaround (dev : Z) : M Z :=
  data <- data_of dev ;;
  (if dev_rev (pd_dev data) >=? 2 then ret tt
   else EP_WRM dev LAN8814_ALIGN_SWAP LAN8814_F_ALIGN_TX_A_B_SWAP LAN8814_M_ALIGN_TX_SWAP) ;;;
  b <- lan8814_is_lan966x dev ;;
  (if b && (dev_rev (pd_dev data) <=? 2) then
     EP_WR dev LAN8814_1000BT_FIX_LATENCY_ENABLE 1 ;;;
     EP_WR dev LAN8814_CLOCK_MANAGEMENT_MODE_5 0x27e ;;;
     EP_RD dev LAN8814_LINK_QUALITY_MONITOR_SETTING
       (uninit16 "lan8814_rev_workaround.val") ;;;
     EP_WRM dev LAN8814_OPERATION_MODE_STRAP_LOW 0x8 0x8
   else ret tt) ;;;
  b <- lan8814_is_lan966x dev ;;
  if b then ret MEPA_RC_OK else
  EP_WR dev LAN8814_ANALOG_CONTROL_1 0x40 ;;;
  EP_WR dev LAN8814_ANALOG_CONTROL_10 0x1 ;;;
  if dev_rev (pd_dev data) >=? 2 then ret MEPA_RC_OK else
  if dev_rev (pd_dev data) >=? 1 then ret MEPA_RC_OK else
  EP_WR dev LAN8814_OPERATION_MODE_STRAP_LOW 0x2 ;;;
  EP_WR dev LAN8814_OPERATION_MODE_STRAP_HIGH 0xc001 ;;;
  ret MEPA_RC_OK.

Definition lan8814_workaround_after_reset (dev : Z) : M Z :=
  ep_wr_list dev
    [ (LAN8814_AFED_CONTROL, 0xe214);
      (LAN8814_ANALOG_CONTROL_4, 0x81e0);
      (LAN8814_EEE_WAKE_TX_TIMER, 0x1f);
      (LAN8814_ALIGN_SWAP, 0x02);
      (LAN8814_ANALOG_CONTROL_1, 0x40);
      (LAN8814_ANALOG_CONTROL_10, 0x01);
      (LAN8814_PD_CONTROLS, 0x248b);
      (LAN8814_DFE_INIT2_100, 0x3c30);
      (LAN8814_PGA_TABLE_1G_ENTRY_0, 0x10a);
      (LAN8814_PGA_TABLE_1G_ENTRY_1, 0xed);
      (LAN8814_PGA_TABLE_1G_ENTRY_2, 0xd3);
      (LAN8814_PGA_TABLE_1G_ENTRY_3, 0xbc);
      (LAN8814_PGA_TABLE_1G_ENTRY_4, 0xa8);
      (LAN8814_PGA_TABLE_1G_ENTRY_5, 0x96);
      (LAN8814_PGA_TABLE_1G_ENTRY_6, 0x85);
      (LAN8814_PGA_TABLE_1G_ENTRY_7, 0x77);
      (LAN8814_PGA_TABLE_1G_ENTRY_8, 0x6a);
      (LAN8814_PGA_TABLE_1G_ENTRY_9, 0x5e);
      (LAN8814_PGA_TABLE_1G_ENTRY_10, 0x54);
      (LAN8814_PGA_TABLE_1G_ENTRY_11, 0x4b);
      (LAN8814_PGA_TABLE_1G_ENTRY_12, 0x43);
      (LAN8814_PGA_TABLE_1G_ENTRY_13, 0x3c);
      (LAN8814_PGA_TABLE_1G_ENTRY_14, 0x35);
      (LAN8814_PGA_TABLE_1G_ENTRY_15, 0x2f);
      (LAN8814_PGA_TABLE_1G_ENTRY_16, 0x2a);
      (LAN8814_PGA_TABLE_1G_ENTRY_17, 0x26);
      (LAN8814_POWER_MGMT_MODE_3, 0x6677);
      (LAN8814_POWER_MGMT_MODE_4, 0x6677);
      (LAN8814_POWER_MGMT_MODE_5, 0x6677);
      (LAN8814_POWER_MGMT_MODE_6, 0x6677);
      (LAN8814_POWER_MGMT_MODE_7, 0x0077);
      (LAN8814_POWER_MGMT_MODE_8, 0x4377);
      (LAN8814_POWER_MGMT_MODE_9, 0x4377);
      (LAN8814_POWER_MGMT_MODE_10, 0x6677);
      (LAN8814_POWER_MGMT_MODE_11, 0x0777);
      (LAN8814_POWER_MGMT_MODE_12, 0x0777);
      (LAN8814_POWER_MGMT_MODE_13, 0x6677);
      (LAN8814_POWER_MGMT_MODE_14, 0x6677) ] ;;;
  WR dev LAN8814_BASIC_CONTROL 0x1340 ;;;
  WR dev LAN8814_ANEG_ADVERTISEMENT 0x05e1 ;;;
  ret MEPA_RC_OK.

Definition lan8814_workaround_half_duplex (dev : Z) : M Z :=
  ep_wr_list dev
    [ (LAN8814_RX_RA_FIFO_THRESHOLDS_1, 0x200);
      (LAN8814_RX_RA_FIFO_THRESHOLDS_2, 0x404);
      (LAN8814_RX_RA_FIFO_THRESHOLDS_3, 0x608);
      (LAN8814_TX_RA_FIFO_THRESHOLDS_1, 0x200);
      (LAN8814_TX_RA_FIFO_THRESHOLDS_2, 0x404);
      (LAN8814_TX_RA_FIFO_THRESHOLDS_3, 0x608) ] ;;;
  ret MEPA_RC_OK.

Definition lan8814_workaround_fifo_reset (dev : Z) : M Z :=
  EP_WR dev LAN8814_TX_RA_FIFO_RESET 1 ;;;
  EP_WR dev LAN8814_RX_RA_FIFO_RESET 1 ;;;
  ret MEPA_RC_OK.

(** A port without a base port is left alone. *)
Definition lan8814_framepreempt_set_ (dev enable : Z) : M Z :=
  data <- data_of dev ;;
  match pd_base_dev data with
  | None => ret MEPA_RC_OK
  | Some base_dev =>
      (if base_dev =? dev then upd base_dev (set_pd_framepreempt_en enable) else ret tt) ;;;
      val <- EP_RD dev LAN8814_PTP_TSU_GEN_CONF 0 ;;
      base_data <- data_of base_dev ;;
      let val := if tb (pd_framepreempt_en base_data)
                 then val .| LAN8814_PTP_TSU_GEN_CONF_PREEMPTION_EN
                 else val .& .~ LAN8814_PTP_TSU_GEN_CONF_PREEMPTION_EN in
      EP_WRM dev LAN8814_PTP_TSU_GEN_CONF val LAN8814_DEF_MASK ;;;
      ret MEPA_RC_OK
  end.

Definition lan8814_selftest_stop (dev : Z) : M Z :=
  val <- EP_RD dev LAN8814_SELFTEST_PGEN_EN (uninit16 "lan8814_selftest_stop.val") ;;
  (if tb (val .& LAN8814_F_SELFTEST_PGEN_EN) then
     EP_WR dev LAN8814_SELFTEST_PGEN_EN 0 ;;;
     WR dev LAN8814_RESV_CON_LOOP 0xfc00
   else ret tt) ;;;
  ret MEPA_RC_OK.

(** The [switch]: MDI falls through to MDI-X. *)
Definition lan8814_conf_mdi_mode (dev mode : Z) : M Z :=
  data <- data_of dev ;;
  let old_mode := conf_mdi_mode (pd_conf data) in
  if old_mode =? mode then ret MEPA_RC_OK else
  val <- RD dev LAN8814_GPHY_DBG_CTL1 (uninit16 "lan8814_conf_mdi_mode.val") ;;
  let val := val .& .~ LAN8814_F_MDI_SET in
  let val :=
    if mode =? MEPA_MEDIA_MODE_MDI then val .| LAN8814_F_MDI_SET .| LAN8814_F_SWAPOFF
    else if mode =? MEPA_MEDIA_MODE_MDIX then val .| LAN8814_F_SWAPOFF
    else val .& .~ LAN8814_F_SWAPOFF in
  WRM dev LAN8814_GPHY_DBG_CTL1 val LAN8814_DEF_MASK ;;;
  upd dev (set_conf (set_conf_mdi_mode mode)) ;;;
  ret MEPA_RC_OK.

(** The loop of [lan8814_event_enable_set_] over the [bits] of the event
    word that are still to be looked at. *)
Fixpoint event_enable_loop (dev enable : Z) (bits : list Z) (ev_in ev_mask : Z) : M Z :=
  match bits with
  | [] => ret ev_mask
  | i :: bits =>
      let bit := ev_in .& (1 .<< i) in
      let* (ev_in, ev_mask) <-
        (if bit =? MEPA_LINK_LOS then
           ret (ev_in .& .~ MEPA_LINK_LOS, ev_mask .| LAN8814_F_GPHY_INTR_ENA_LINK_DOWN)
         else if bit =? MEPA_FAST_LINK_FAIL then
           let val := LAN8814_FLF_CFG_STAT_LINK_DOWN .| LAN8814_FLF_CFG_STAT_FLF_ENABLE in
           EP_WRM dev LAN8814_FLF_CONFIG_STATUS (if tb enable then val else 0) val ;;;
           ret (ev_in .& .~ MEPA_FAST_LINK_FAIL, ev_mask .| LAN8814_F_GPHY_INTR_ENA_FLF_INTR)
         else ret (ev_in, ev_mask)) ;;
      if ev_in =? 0 then ret ev_mask
      else event_enable_loop dev enable bits ev_in ev_mask
  end.

Definition lan8814_event_enable_set_ (dev event enable : Z) : M Z :=
  data <- data_of dev ;;
  upd dev (set_pd_events (if tb enable then pd_events data .| event
                          else pd_events data .& .~ event)) ;;;
  ev_mask <- event_enable_loop dev enable (map Z.of_nat (seq 0 32)) event 0 ;;
  WRM dev LAN8814_GPHY_INTR_ENA (if tb enable then ev_mask else 0) ev_mask ;;;
  ret MEPA_RC_OK.

(** [if ((data->conf.speed == 10M || 100M) && !data->conf.fdx) fifo_reset(dev);] *)
Definition conf_fifo_reset (dev : Z) (old : mepa_conf_t) : M unit :=
  if ((conf_speed old =? MEPA_SPEED_10M) || (conf_speed old =? MEPA_SPEED_100M)) &&
     negb (tb (conf_fdx old))
  then lan8814_workaround_fifo_reset dev ;;; ret tt else ret tt.

(** The branch of an auto-negotiated speed; [old] is [data->conf]. *)
Definition conf_set_aneg (dev : Z) (config old : mepa_conf_t) : M unit :=
  let aneg := conf_aneg config in
  conf_fifo_reset dev old ;;;
  let restart_aneg := negb (conf_admin_enable old =? conf_admin_enable config) in
  let new_value := if tb (adv_speed_1g_fdx aneg)
                   then LAN8814_F_ANEG_MSTR_SLV_CTRL_1000_T_FULL_DUP else 0 in
  let mask := LAN8814_F_ANEG_MSTR_SLV_CTRL_1000_T_FULL_DUP in
  let new_value :=
    if tb (conf_man_neg config) then
      new_value .| LAN8814_F_ANEG_MSTR_SLV_CTRL_CFG_ENA
        .| (if conf_man_neg config =? MEPA_MANUAL_NEG_REF
            then LAN8814_F_ANEG_MSTR_SLV_CTRL_CFG_VAL else 0)
    else new_value in
  let mask := mask .| (LAN8814_F_ANEG_MSTR_SLV_CTRL_CFG_VAL .|
                       LAN8814_F_ANEG_MSTR_SLV_CTRL_CFG_ENA) in
  let restart_aneg :=
    if negb (adv_speed_1g_fdx aneg =? adv_speed_1g_fdx (conf_aneg old)) ||
       (tb (conf_man_neg config) && negb (conf_man_neg config =? conf_man_neg old))
    then true else restart_aneg in
  WRM dev LAN8814_ANEG_MSTR_SLV_CTRL new_value mask ;;;
  let flag x n := cb (tb x) .<< n in
  let new_value :=
    flag (adv_tx_remote_fault aneg) 13 .|
    flag (conf_flow_control config) 11 .|
    flag (conf_flow_control config) 10 .|
    flag (adv_speed_100m_fdx aneg) 8 .|
    flag (adv_speed_100m_hdx aneg) 7 .|
    flag (adv_speed_10m_fdx aneg) 6 .|
    flag (adv_speed_10m_hdx aneg) 5 .|
    (1 .<< 0) in
  old_value <- RD dev LAN8814_ANEG_ADVERTISEMENT (uninit16 "lan8814_conf_set_.old_value") ;;
  let restart_aneg := if negb (old_value =? new_value) then true else restart_aneg in
  WR dev LAN8814_ANEG_ADVERTISEMENT new_value ;;;
  let new_value := LAN8814_F_BASIC_CTRL_ANEG_ENA in
  WRM dev LAN8814_BASIC_CONTROL new_value (new_value .| LAN8814_F_BASIC_CTRL_SOFT_POW_DOWN) ;;;
  if restart_aneg then
    WRM dev LAN8814_BASIC_CONTROL LAN8814_F_BASIC_CTRL_RESTART_ANEG
      LAN8814_F_BASIC_CTRL_RESTART_ANEG
  else ret tt.

(** The branch of a forced speed. *)
Definition conf_set_forced (dev : Z) (config old : mepa_conf_t) : M unit :=
  conf_fifo_reset dev old ;;;
  let new_value :=
    (cb (conf_speed config =? MEPA_SPEED_100M) .<< 13) .| (0 .<< 12) .|
    (cb (tb (conf_fdx config)) .<< 8) .|
    (cb (conf_speed config =? MEPA_SPEED_1G) .<< 6) in
  let mask := LAN8814_BIT 13 .| LAN8814_BIT 12 .| LAN8814_BIT 8 .| LAN8814_BIT 6 .|
              LAN8814_F_BASIC_CTRL_SOFT_POW_DOWN .| LAN8814_F_BASIC_CTRL_ANEG_ENA in
  WRM dev LAN8814_BASIC_CONTROL new_value mask ;;;
  if negb (tb (conf_fdx config)) then lan8814_workaround_half_duplex dev ;;; ret tt
  else ret tt.

(** The body of [if (config->admin.enable)]. *)
Definition conf_set_enabled (dev : Z) (config : mepa_conf_t) (qsgmii_aneg : Z) : M unit :=
  lan8814_conf_mdi_mode dev (conf_mdi_mode config) ;;;
  data <- data_of dev ;;
  (if negb (qsgmii_aneg =? conf_mac_if_aneg_ena (pd_conf data)) then
     lan8814_qsgmii_aneg dev qsgmii_aneg ;;; ret tt
   else ret tt) ;;;
  WRM dev LAN8814_GPHY_INTR_ENA 0 LAN8814_F_GPHY_INTR_ENA_FLF_INTR ;;;
  if (conf_speed config =? MEPA_SPEED_AUTO) || (conf_speed config =? MEPA_SPEED_1G)
  then conf_set_aneg dev config (pd_conf data)
  else if negb (conf_speed config =? MEPA_SPEED_UNDEFINED)
  then conf_set_forced dev config (pd_conf data)
  else ret tt.

(** From [if (lan8814_is_lan966x(dev))] on. *)
Definition conf_set_finish (dev : Z) (config : mepa_conf_t) (qsgmii_aneg : Z) : M Z :=
  b <- lan8814_is_lan966x dev ;;
  (if b then WRM dev LAN8814_CONTROL LAN8814_F_CONTROL_RESERVED LAN8814_F_CONTROL_RESERVED
   else ret tt) ;;;
  RD dev LAN8814_GPHY_INTR_STATUS (uninit16 "lan8814_conf_set_.new_value") ;;;
  upd dev (set_pd_conf config) ;;;
  upd dev (set_conf (set_conf_mac_if_aneg_ena qsgmii_aneg)) ;;;
  data <- data_of dev ;;
  lan8814_event_enable_set_ dev (pd_events data) TRUE ;;;
  ret MEPA_RC_OK.

(** [lan8814_conf_set_]; in the call of [lan8814_reset_] the pointer is
    [&data->conf] itself, and no store to [data->conf] precedes the last read
    of [*config] (the MDI mode is only stored when it differs), so the
    configuration is an argument by value. *)
Definition lan8814_conf_set_ (dev : Z) (config : mepa_conf_t) : M Z :=
  let qsgmii_aneg := if negb (conf_speed config =? MEPA_SPEED_AUTO) then FALSE
                     else conf_mac_if_aneg_ena config in
  (if tb (conf_admin_enable config) then conf_set_enabled dev config qsgmii_aneg
   else
     WRM dev LAN8814_BASIC_CONTROL LAN8814_F_BASIC_CTRL_SOFT_POW_DOWN
       LAN8814_F_BASIC_CTRL_SOFT_POW_DOWN) ;;;
  conf_set_finish dev config qsgmii_aneg.

Definition lan8814_eee_mode_conf_set_ (dev : Z) (conf : mepa_phy_eee_conf_t) : M Z :=
  reconfigure <-
    (if eee_eee_mode conf =? MEPA_EEE_REG_UPDATE then
       upd dev (set_eee (set_eee_eee_mode
         (if tb (eee_eee_ena_phy conf) then MEPA_EEE_ENABLE else MEPA_EEE_DISABLE))) ;;;
       upd dev (set_eee (set_eee_eee_ena_phy (eee_eee_ena_phy conf))) ;;;
       ret true
     else if tb (eee_eee_ena_phy conf) && (eee_eee_mode conf =? MEPA_EEE_DISABLE) then
       upd dev (set_eee (set_eee_eee_ena_phy FALSE)) ;;; ret true
     else if negb (tb (eee_eee_ena_phy conf)) && (eee_eee_mode conf =? MEPA_EEE_ENABLE) then
       upd dev (set_eee (set_eee_eee_ena_phy TRUE)) ;;; ret true
     else ret false) ;;
  (if negb (eee_eee_mode conf =? MEPA_EEE_REG_UPDATE) then
     upd dev (set_eee (set_eee_eee_mode (eee_eee_mode conf)))
   else ret tt) ;;;
  (if (reconfigure : bool) then
     data <- data_of dev ;;
     (if tb (eee_eee_ena_phy (pd_eee_conf data)) then
        MMD_WR dev LAN8814_EEE_ADVERTISEMENT (LAN8814_EEE_100_BT .| LAN8814_EEE_1000_BT)
      else MMD_WR dev LAN8814_EEE_ADVERTISEMENT 0) ;;;
     WRM dev LAN8814_BASIC_CONTROL LAN8814_F_BASIC_CTRL_RESTART_ANEG
       LAN8814_F_BASIC_CTRL_RESTART_ANEG
   else ret tt) ;;;
  ret MEPA_RC_OK.

(** [if (!data->init_done) { .. }] *)
Definition reset_init (dev : Z) : M unit :=
  data <- data_of dev ;;
  if negb (tb (pd_init_done data)) then
    lan8814_init_conf dev ;;;
    lan8814_rev_workaround dev ;;;
    lan8814_qsgmii_aneg dev FALSE ;;;
    upd dev (set_pd_init_done TRUE) ;;;
    upd dev (fun d => set_pd_rep_cnt (if tb (pd_rep_cnt d) then pd_rep_cnt d else 1) d) ;;;
    b <- lan8814_is_lan8814 dev ;;
    if b then
      upd dev (set_pd_crc_workaround TRUE) ;;;
      upd dev (set_pd_aneg_after_link_up FALSE)
    else ret tt
  else ret tt.

(** From [// Reconfigure the phy after reset] on. *)
Definition reset_reconfigure (dev : Z) : M unit :=
  data <- data_of dev ;;
  lan8814_conf_set_ dev (pd_conf data) ;;;
  upd dev (set_eee (set_eee_eee_mode MEPA_EEE_REG_UPDATE)) ;;;
  data <- data_of dev ;;
  lan8814_eee_mode_conf_set_ dev (pd_eee_conf data) ;;;
  data <- data_of dev ;;
  (if tb (pd_events data) then
     lan8814_event_enable_set_ dev (pd_events data) TRUE ;;; ret tt
   else ret tt) ;;;
  b <- lan8814_is_lan8814 dev ;;
  if b then
    EP_WR dev LAN8814_QSGMII_SOFT_RESET 0x1 ;;;
    WRM dev LAN8814_BASIC_CONTROL LAN8814_F_BASIC_CTRL_RESTART_ANEG
      LAN8814_F_BASIC_CTRL_RESTART_ANEG ;;;
    upd dev (set_pd_post_mac_rst TRUE)
  else ret tt.

Definition lan8814_reset_ (dev : Z) (rst_conf : mepa_reset_param_t) : M Z :=
  (if rst_reset_point rst_conf =? MEPA_RESET_POINT_DEFAULT then
     reset_init dev ;;;
     lan8814_selftest_stop dev ;;;
     WRM dev LAN8814_BASIC_CONTROL LAN8814_F_BASIC_CTRL_SOFT_RESET
       LAN8814_F_BASIC_CTRL_SOFT_RESET ;;;
     msleep 1 ;;;
     lan8814_workaround_after_reset dev ;;;
     reset_reconfigure dev
   else ret tt) ;;;
  lan8814_framepreempt_set_ dev (rst_framepreempt_en rst_conf) ;;;
  ret MEPA_RC_OK.

Definition lan8814_rep_count_set (dev rep_cnt : Z) : M Z :=
  upd dev (set_pd_rep_cnt (u8 rep_cnt)) ;;;
  ret MEPA_RC_OK.

Definition lan8814_downshift_conf_set (dev : Z) (dsh : lan8814_phy_downshift_t) : M Z :=
  mepa_enter ;;;
  data <- data_of dev ;;
  (if negb (tb (dsh_dsh_enable dsh)) && tb (dsh_dsh_enable (pd_dsh_conf data)) then
     WRM dev LAN8814_BASIC_CONTROL LAN8814_F_BASIC_CTRL_RESTART_ANEG
       LAN8814_F_BASIC_CTRL_RESTART_ANEG
   else ret tt) ;;;
  upd dev (set_dsh (set_dsh_dsh_enable (dsh_dsh_enable dsh))) ;;;
  upd dev (set_dsh (set_dsh_dsh_thr_cnt (dsh_dsh_thr_cnt dsh))) ;;;
  mepa_exit ;;;
  ret MEPA_RC_OK.

Definition lan8814_downshift (dev : Z) : M Z :=
  val <- RD dev LAN8814_ANEG_MSTR_SLV_CTRL 0 ;;
  let val := val .& .~ (LAN8814_F_ANEG_MSTR_SLV_CTRL_CFG_VAL .|
                        LAN8814_F_ANEG_MSTR_SLV_CTRL_1000_T_FULL_DUP) in
  WRM dev LAN8814_ANEG_MSTR_SLV_CTRL val
    (LAN8814_F_ANEG_MSTR_SLV_CTRL_1000_T_FULL_DUP .| LAN8814_F_ANEG_MSTR_SLV_CTRL_CFG_VAL) ;;;
  WRM dev LAN8814_BASIC_CONTROL LAN8814_F_BASIC_CTRL_ANEG_ENA
    (LAN8814_F_BASIC_CTRL_ANEG_ENA .| LAN8814_F_BASIC_CTRL_SOFT_POW_DOWN) ;;;
  WRM dev LAN8814_BASIC_CONTROL LAN8814_F_BASIC_CTRL_RESTART_ANEG
    LAN8814_F_BASIC_CTRL_RESTART_ANEG ;;;
  upd dev (set_pd_dsh_complete 1) ;;;
  ret MEPA_RC_OK.

Definition mas_if_set (mac_if : Z) : Z :=
  if negb (mac_if =? MESA_PORT_INTERFACE_SGMII) then MEPA_RC_ERROR else MEPA_RC_OK.
Definition mas_if_get : Z * Z := (MEPA_RC_OK, MESA_PORT_INTERFACE_SGMII).
End Conf.

(** ** Safety *)
Section Safe.
Context {B : Type} {CO : Callout B} {OK : CalloutOk (CO := CO)} (E : env) {EOK : EnvOk E}.
Local Abbreviation safe := (safe (B := B) (linked E)).
Implicit Types dev : Z.

Lemma safe_is_lan8814 dev h : e_devs E dev = true -> safe h (lan8814_is_lan8814 dev) h.
Proof. lan_safe lan8814_is_lan8814. Qed.
Lemma safe_is_lan8842 dev h : e_devs E dev = true -> safe h (lan8814_is_lan8842 dev) h.
Proof. lan_safe lan8814_is_lan8842. Qed.
Lemma safe_is_lan966x dev h : e_devs E dev = true -> safe h (lan8814_is_lan966x dev) h.
Proof. lan_safe lan8814_is_lan966x. Qed.
#[local] Hint Resolve safe_is_lan8814 safe_is_lan8842 safe_is_lan966x : safe.
Lemma safe_has_ptp dev h : e_devs E dev = true -> safe h (lan8814_has_ptp dev) h.
Proof. lan_safe lan8814_has_ptp. Qed.
Lemma safe_get_device_info dev :
  e_devs E dev = true -> safe true (lan8814_get_device_info dev) true.
Proof. lan_safe lan8814_get_device_info. Qed.
#[local] Hint Resolve safe_get_device_info : safe.
Lemma safe_init_conf dev : e_devs E dev = true -> safe true (lan8814_init_conf dev) true.
Proof. lan_safe lan8814_init_conf. Qed.
Lemma safe_qsgmii_tx_abilities dev s d :
  e_devs E dev = true -> safe true (lan8814_qsgmii_tx_abilities dev s d) true.
Proof. lan_safe lan8814_qsgmii_tx_abilities. Qed.
Lemma safe_qsgmii_aneg dev ena :
  e_devs E dev = true -> safe true (lan8814_qsgmii_aneg dev ena) true.
Proof. lan_safe lan8814_qsgmii_aneg. Qed.
Lemma safe_rev_workaround dev :
  e_devs E dev = true -> safe true (lan8814_rev_workaround dev) true.
Proof. lan_safe lan8814_rev_workaround. Qed.
Lemma safe_workaround_after_reset dev : safe true (lan8814_workaround_after_reset dev) true.
Proof. lan_safe lan8814_workaround_after_reset. Qed.
Lemma safe_workaround_half_duplex dev : safe true (lan8814_workaround_half_duplex dev) true.
Proof. lan_safe lan8814_workaround_half_duplex. Qed.
Lemma safe_workaround_fifo_reset dev : safe true (lan8814_workaround_fifo_reset dev) true.
Proof. lan_safe lan8814_workaround_fifo_reset. Qed.
Lemma safe_framepreempt_set_ dev en :
  e_devs E dev = true -> safe true (lan8814_framepreempt_set_ dev en) true.
Proof. lan_safe lan8814_framepreempt_set_. Qed.
Lemma safe_selftest_stop dev : safe true (lan8814_selftest_stop dev) true.
Proof. lan_safe lan8814_selftest_stop. Qed.
Lemma safe_conf_mdi_mode dev mode :
  e_devs E dev = true -> safe true (lan8814_conf_mdi_mode dev mode) true.
Proof. lan_safe lan8814_conf_mdi_mode. Qed.
#[local] Hint Resolve safe_init_conf safe_qsgmii_aneg safe_rev_workaround
  safe_workaround_after_reset safe_workaround_half_duplex safe_workaround_fifo_reset
  safe_framepreempt_set_ safe_selftest_stop safe_conf_mdi_mode : safe.
Lemma safe_event_enable_loop dev en bits ev m :
  safe true (event_enable_loop dev en bits ev m) true.
Proof.
  revert ev m. induction bits as [|i bits IH]; intros; cbn [event_enable_loop]; [safe_auto|].
  safe_auto.
Qed.
#[local] Hint Resolve safe_event_enable_loop : safe.
Lemma safe_event_enable_set_ dev ev en :
  e_devs E dev = true -> safe true (lan8814_event_enable_set_ dev ev en) true.
Proof. lan_safe lan8814_event_enable_set_. Qed.
#[local] Hint Resolve safe_event_enable_set_ : safe.
Lemma safe_conf_fifo_reset dev old : safe true (conf_fifo_reset dev old) true.
Proof. lan_safe conf_fifo_reset. Qed.
#[local] Hint Resolve safe_conf_fifo_reset : safe.
Lemma safe_conf_set_aneg dev c old : safe true (conf_set_aneg dev c old) true.
Proof. lan_safe conf_set_aneg. Qed.
Lemma safe_conf_set_forced dev c old : safe true (conf_set_forced dev c old) true.
Proof. lan_safe conf_set_forced. Qed.
#[local] Hint Resolve safe_conf_set_aneg safe_conf_set_forced : safe.
Lemma safe_conf_set_enabled dev c q :
  e_devs E dev = true -> safe true (conf_set_enabled dev c q) true.
Proof. lan_safe conf_set_enabled. Qed.
Lemma safe_conf_set_finish dev c q :
  e_devs E dev = true -> safe true (conf_set_finish dev c q) true.
Proof. lan_safe conf_set_finish. Qed.
#[local] Hint Resolve safe_conf_set_enabled safe_conf_set_finish : safe.
Lemma safe_conf_set_ dev conf :
  e_devs E dev = true -> safe true (lan8814_conf_set_ dev conf) true.
Proof. lan_safe lan8814_conf_set_. Qed.
Lemma safe_eee_mode_conf_set_ dev conf :
  e_devs E dev = true -> safe true (lan8814_eee_mode_conf_set_ dev conf) true.
Proof. lan_safe lan8814_eee_mode_conf_set_. Qed.
#[local] Hint Resolve safe_conf_set_ safe_eee_mode_conf_set_ : safe.
Lemma safe_reset_init dev : e_devs E dev = true -> safe true (reset_init dev) true.
Proof. lan_safe reset_init. Qed.
Lemma safe_reset_reconfigure dev :
  e_devs E dev = true -> safe true (reset_reconfigure dev) true.
Proof. lan_safe reset_reconfigure. Qed.
#[local] Hint Resolve safe_reset_init safe_reset_reconfigure : safe.
Lemma safe_reset_ dev rst :
  e_devs E dev = true -> safe true (lan8814_reset_ dev rst) true.
Proof. lan_safe lan8814_reset_. Qed.
Lemma safe_rep_count_set dev n :
  e_devs E dev = true -> safe false (lan8814_rep_count_set dev n) false.
Proof. lan_safe lan8814_rep_count_set. Qed.
Lemma safe_downshift_conf_set dev d :
  e_devs E dev = true -> safe false (lan8814_downshift_conf_set dev d) false.
Proof. lan_safe lan8814_downshift_conf_set. Qed.
Lemma safe_downshift dev :
  e_devs E dev = true -> safe true (lan8814_downshift dev) true.
Proof. lan_safe lan8814_downshift. Qed.
End Safe.
#[export] Hint Resolve safe_is_lan8814 safe_is_lan8842 safe_is_lan966x safe_has_ptp
  safe_get_device_info safe_init_conf safe_qsgmii_tx_abilities safe_qsgmii_aneg
  safe_rev_workaround safe_workaround_after_reset safe_workaround_half_duplex
  safe_workaround_fifo_reset safe_framepreempt_set_ safe_selftest_stop safe_conf_mdi_mode
  safe_event_enable_set_ safe_conf_set_ safe_eee_mode_conf_set_ safe_reset_
  safe_rep_count_set safe_downshift_conf_set safe_downshift : safe.
