(* ===== verification/Lan8814Poll.v ===== *)
(** * Lan8814Poll: the link state machine of [lan8814_poll]

    One poll reads the PHY status and steps a state machine kept in the
    private data: restart of a stuck auto-negotiation, downshift to 100M, the
    soft reset of a 100M forced link, the one-time restart after the first 1G
    link up (CRC workaround), and the work at link changes.  The labels of the
    C function are definitions: [poll_end] is the code at [end:]. *)

From Stdlib Require Import ZArith Lia List Bool String.
From stdpp Require Import base gmap strings list.
From S2P Require Import Prelude Machine Enums Lan8814Regs Lan8814Types Trace Mdio Lan8814Access Lan8814Conf.

Section Poll.
Context {B : Type} {CO : Callout B}.
Local Abbreviation M := (M B phy_data_t).

(** Speed and duplex of the basic control register. *)
Definition poll_speed (val2 : Z) : Z :=
  let speed := cb (tb (val2 .& LAN8814_F_BASIC_CTRL_SPEED_SEL_BIT_0)) .|
               (cb (tb (val2 .& LAN8814_F_BASIC_CTRL_SPEED_SEL_BIT_1)) .<< 1) in
  if speed =? 0 then MEPA_SPEED_10M
  else if speed =? 1 then MEPA_SPEED_100M
  else if speed =? 2 then MEPA_SPEED_1G else MEPA_SPEED_UNDEFINED.
Definition poll_fdx (val2 : Z) : Z := cb (tb (val2 .& LAN8814_F_BASIC_CTRL_DUP_MODE)).

(** [data->loop_cnt++] on a [uint8_t]. *)
Definition incr_loop_cnt (d : phy_data_t) : phy_data_t :=
  set_pd_loop_cnt (u8 (pd_loop_cnt d + 1)) d.

(** A new link state, in [end:]. *)
Definition poll_link_change (dev : Z) (status : mepa_status_t) (val : Z) : M unit :=
  data <- data_of dev ;;
  (if tb (st_link status) then
     (if ((conf_speed (pd_conf data) =? MEPA_SPEED_AUTO) ||
          (conf_speed (pd_conf data) =? MEPA_SPEED_1G)) &&
         tb (conf_mac_if_aneg_ena (pd_conf data))
      then lan8814_qsgmii_tx_abilities dev (st_speed status) (st_fdx status)
      else ret tt) ;;;
     if ((st_speed status =? MEPA_SPEED_10M) || (st_speed status =? MEPA_SPEED_100M)) &&
        (st_fdx status =? FALSE)
     then lan8814_workaround_half_duplex dev ;;; ret tt
     else ret tt
   else
     lan8814_workaround_fifo_reset dev ;;;
     if tb (pd_dsh_complete data) then
       let val := val .| (LAN8814_F_ANEG_MSTR_SLV_CTRL_CFG_VAL .|
                          LAN8814_F_ANEG_MSTR_SLV_CTRL_1000_T_FULL_DUP) in
       WRM dev LAN8814_ANEG_MSTR_SLV_CTRL val
         (LAN8814_F_ANEG_MSTR_SLV_CTRL_1000_T_FULL_DUP .|
          LAN8814_F_ANEG_MSTR_SLV_CTRL_CFG_VAL) ;;;
       upd dev (set_pd_dsh_complete 0) ;;;
       upd dev (set_pd_loop_cnt 0) ;;;
       upd dev (set_pd_aneg_after_link_up FALSE)
     else ret tt) ;;;
  upd dev (set_pd_loop_cnt 0) ;;;
  upd dev (set_pd_aneg_flag 0).

Definition poll_end (dev : Z) (status : mepa_status_t) (val : Z) : M (Z * mepa_status_t) :=
  b <- lan8814_is_lan8814 dev ;;
  data <- data_of dev ;;
  (if b && negb (st_link status =? pd_link_status data)
   then poll_link_change dev status val else ret tt) ;;;
  upd dev (set_pd_link_status (st_link status)) ;;;
  upd dev (set_pd_speed_status (st_speed status)) ;;;
  upd dev (set_pd_fdx_status (st_fdx status)) ;;;
  mepa_exit ;;;
  ret (MEPA_RC_OK, status).

(** The downshift counter. *)
Definition poll_downshift (dev : Z) (status : mepa_status_t) (val2 val3 : Z) : M unit :=
  data <- data_of dev ;;
  if tb (dsh_dsh_enable (pd_dsh_conf data)) && negb (tb (st_link status)) &&
     (tb (val2 .& LAN8814_F_1000T_SPEED_STATUS) && tb (val3 .& LAN8814_F_LINK_DET) &&
      tb (pd_aneg_flag data)) && negb (tb (pd_dsh_complete data))
  then
    upd dev incr_loop_cnt ;;;
    data <- data_of dev ;;
    if pd_loop_cnt data >? dsh_dsh_thr_cnt (pd_dsh_conf data) * pd_rep_cnt data then
      lan8814_downshift dev ;;;
      upd dev (set_pd_loop_cnt 0) ;;;
      upd dev (set_pd_aneg_flag FALSE)
    else ret tt
  else ret tt.

(** The restart of a stuck auto-negotiation (MEPA 555). *)
Definition poll_aneg_stuck (dev : Z) (status : mepa_status_t) (val val3 : Z) : M unit :=
  data <- data_of dev ;;
  if negb (tb (st_link status)) && negb (tb (val .& LAN8814_F_BASIC_STATUS_ANEG_COMPLETE)) &&
     tb (val3 .& LAN8814_F_SIG_DET) && negb (tb (pd_aneg_flag data))
  then
    upd dev incr_loop_cnt ;;;
    data <- data_of dev ;;
    if pd_loop_cnt data >? 2 * pd_rep_cnt data then
      upd dev (set_pd_loop_cnt 0) ;;;
      WRM dev LAN8814_BASIC_CONTROL LAN8814_F_BASIC_CTRL_RESTART_ANEG
        LAN8814_F_BASIC_CTRL_RESTART_ANEG ;;;
      upd dev (set_pd_aneg_flag TRUE)
    else ret tt
  else ret tt.

(** The 1G link of the workaround for CRC errors. *)
Definition poll_crc_workaround (dev : Z) (status : mepa_status_t) (val2 : Z) : M mepa_status_t :=
  data <- data_of dev ;;
  if negb (tb (val2 .& LAN8814_F_ANEG_MSTR_SLV_LOCAL_RCVR_STATUS) &&
           tb (val2 .& LAN8814_F_ANEG_MSTR_SLV_REMOTE_RCVR_STATUS)) ||
     negb (tb (pd_post_mac_rst data)) then
    ret (set_st_link 0 status)
  else if negb (tb (pd_aneg_after_link_up data)) then
    WRM dev LAN8814_BASIC_CONTROL LAN8814_F_BASIC_CTRL_RESTART_ANEG
      LAN8814_F_BASIC_CTRL_RESTART_ANEG ;;;
    upd dev (set_pd_aneg_after_link_up TRUE) ;;;
    upd dev (set_pd_loop_cnt 0) ;;;
    ret (set_st_link 0 status)
  else
    upd dev (set_pd_crc_workaround FALSE) ;;;
    upd dev (set_pd_aneg_after_link_up FALSE) ;;;
    ret (set_st_fdx 1 (set_st_speed MEPA_SPEED_1G status)).

(** Speed and duplex from the advertisement of the link partner. *)
Definition poll_resolve (dev : Z) (status : mepa_status_t) (val val2 : Z) : M mepa_status_t :=
  data <- data_of dev ;;
  let aneg := conf_aneg (pd_conf data) in
  let got s f := ret (set_st_fdx f (set_st_speed s status)) in
  if tb (val2 .& LAN8814_F_ANEG_MSTR_SLV_STATUS_1000_T_FULL_DUP) &&
     tb (adv_speed_1g_fdx aneg) && negb (tb (pd_dsh_complete data)) then
    if tb (pd_crc_workaround data) then poll_crc_workaround dev status val2
    else got MEPA_SPEED_1G 1
  else if tb (val .& LAN8814_F_ANEG_LP_BASE_100_X_FULL_DUP) && tb (adv_speed_100m_fdx aneg) then
    got MEPA_SPEED_100M 1
  else if tb (val .& LAN8814_F_ANEG_LP_BASE_100_X_HALF_DUP) && tb (adv_speed_100m_hdx aneg) then
    got MEPA_SPEED_100M 0
  else if tb (val .& LAN8814_F_ANEG_LP_BASE_10_T_FULL_DUP) && tb (adv_speed_10m_fdx aneg) then
    got MEPA_SPEED_10M 1
  else if tb (val .& LAN8814_F_ANEG_LP_BASE_10_T_HALF_DUP) && tb (adv_speed_10m_hdx aneg) then
    got MEPA_SPEED_10M 0
  else ret status.

(** Flow control of the link. *)
Definition poll_pause (dev : Z) (status : mepa_status_t) (val : Z) : M mepa_status_t :=
  data <- data_of dev ;;
  let lp_sym_pause := tb (val .& LAN8814_F_ANEG_LP_BASE_SYM_PAUSE) in
  let lp_asym_pause := tb (val .& LAN8814_F_ANEG_LP_BASE_ASYM_PAUSE) in
  let fc := tb (conf_flow_control (pd_conf data)) in
  ret (set_st_aneg (Mk_mepa_aneg_t (cb (fc && (lp_sym_pause || lp_asym_pause)))
                                   (cb (fc && lp_sym_pause))) status).

(** Auto-negotiated link; [val] is the basic status register. *)
Definition poll_aneg (dev : Z) (status : mepa_status_t) (val : Z) : M (Z * mepa_status_t) :=
  data <- data_of dev ;;
  let near_end := tb (lb_near_end_ena (pd_loopback data)) in
  let status := set_st_fdx 1 (set_st_speed MEPA_SPEED_UNDEFINED status) in
  let status :=
    if negb near_end && tb (st_link status) &&
       negb (tb (val .& LAN8814_F_BASIC_STATUS_ANEG_COMPLETE)) then set_st_link 0 status
    else if near_end then set_st_speed MEPA_SPEED_1G status
    else status in
  val3 <- RD dev LAN8814_DIGITAL_AX_AN_STATUS 0 ;;
  val2 <- RD dev LAN8814_CONTROL (uninit16 "lan8814_poll.val2") ;;
  poll_downshift dev status val2 val3 ;;;
  poll_aneg_stuck dev status val val3 ;;;
  if negb (tb (st_link status)) || near_end then poll_end dev status val else
  val <- RD dev LAN8814_ANEG_LP_BASE val ;;
  val2 <- RD dev LAN8814_ANEG_MSTR_SLV_STATUS val2 ;;
  status <- poll_resolve dev status val val2 ;;
  status <- poll_pause dev status val ;;
  poll_end dev status val.

(** Forced speed, with the soft reset of MEPA 503. *)
Definition poll_forced (dev : Z) (status : mepa_status_t) (val : Z) : M (Z * mepa_status_t) :=
  val2 <- RD dev LAN8814_BASIC_CONTROL (uninit16 "lan8814_poll.val2") ;;
  let status := set_st_fdx (poll_fdx val2) (set_st_speed (poll_speed val2) status) in
  val2 <- RD dev LAN8814_DIGITAL_AX_AN_STATUS val2 ;;
  val <- RD dev LAN8814_CONTROL val ;;
  val <- (if (st_speed status =? MEPA_SPEED_100M) &&
             (tb (val2 .& LAN8814_F_LINK_DET) && negb (tb (st_link status))) then
            data <- data_of dev ;;
            upd dev incr_loop_cnt ;;;
            if pd_loop_cnt data >? 2 * pd_rep_cnt data then
              let val := val .| LAN8814_F_CONTROL_SOFT_RESET in
              WRM dev LAN8814_CONTROL val LAN8814_F_CONTROL_SOFT_RESET ;;;
              upd dev (set_pd_loop_cnt 0) ;;;
              ret val
            else ret val
          else ret val) ;;
  poll_end dev status val.

Definition lan8814_poll (dev : Z) (status : mepa_status_t) : M (Z * mepa_status_t) :=
  mepa_enter ;;;
  data <- data_of dev ;;
  if negb (tb (conf_admin_enable (pd_conf data))) then
    let status := mepa_status_t_0 in
    upd dev (set_pd_link_status (st_link status)) ;;;
    upd dev (set_pd_speed_status (st_speed status)) ;;;
    upd dev (set_pd_fdx_status (st_fdx status)) ;;;
    upd dev (set_pd_loop_cnt 0) ;;;
    upd dev (set_pd_aneg_flag 0) ;;;
    upd dev (set_pd_dsh_complete 0) ;;;
    mepa_exit ;;;
    ret (MEPA_RC_OK, status)
  else
  val <- RD dev LAN8814_BASIC_STATUS (uninit16 "lan8814_poll.val") ;;
  let status := set_st_link (cb (tb (val .& LAN8814_F_BASIC_STATUS_LINK_STATUS))) status in
  if negb (lb_near_end_ena (pd_loopback data) =? TRUE) &&
     (lb_connector_ena (pd_loopback data) =? TRUE) then
    val2 <- RD dev LAN8814_BASIC_CONTROL (uninit16 "lan8814_poll.val2") ;;
    poll_end dev (set_st_fdx (poll_fdx val2) (set_st_speed (poll_speed val2) status)) val
  else
  let status := if lb_near_end_ena (pd_loopback data) =? TRUE
                then set_st_link 1 status else status in
  if (conf_speed (pd_conf data) =? MEPA_SPEED_AUTO) ||
     (conf_speed (pd_conf data) =? MEPA_SPEED_1G)
  then poll_aneg dev status val
  else poll_forced dev status val.
End Poll.

(** ** Safety *)
Section Safe.
Context {B : Type} {CO : Callout B} {OK : CalloutOk (CO := CO)} (E : env) {EOK : EnvOk E}.
Local Abbreviation safe := (safe (B := B) (linked E)).

Lemma safe_poll_link_change dev s v :
  e_devs E dev = true -> safe true (poll_link_change dev s v) true.
Proof. lan_safe poll_link_change. Qed.
#[local] Hint Resolve safe_poll_link_change : safe.
Lemma safe_poll_end dev s v :
  e_devs E dev = true -> safe true (poll_end dev s v) false.
Proof. lan_safe poll_end. Qed.
Lemma safe_poll_downshift dev s v v3 :
  e_devs E dev = true -> safe true (poll_downshift dev s v v3) true.
Proof. lan_safe poll_downshift. Qed.
Lemma safe_poll_aneg_stuck dev s v v3 :
  e_devs E dev = true -> safe true (poll_aneg_stuck dev s v v3) true.
Proof. lan_safe poll_aneg_stuck. Qed.
Lemma safe_poll_crc_workaround dev s v :
  e_devs E dev = true -> safe true (poll_crc_workaround dev s v) true.
Proof. lan_safe poll_crc_workaround. Qed.
#[local] Hint Resolve safe_poll_end safe_poll_downshift safe_poll_aneg_stuck
  safe_poll_crc_workaround : safe.
Lemma safe_poll_resolve dev s v v2 :
  e_devs E dev = true -> safe true (poll_resolve dev s v v2) true.
Proof. lan_safe poll_resolve. Qed.
Lemma safe_poll_pause dev s v :
  e_devs E dev = true -> safe true (poll_pause dev s v) true.
Proof. lan_safe poll_pause. Qed.
#[local] Hint Resolve safe_poll_resolve safe_poll_pause : safe.
Lemma safe_poll_aneg dev s v :
  e_devs E dev = true -> safe true (poll_aneg dev s v) false.
Proof. lan_safe poll_aneg. Qed.
Lemma safe_poll_forced dev s v :
  e_devs E dev = true -> safe true (poll_forced dev s v) false.
Proof. lan_safe poll_forced. Qed.
#[local] Hint Resolve safe_poll_aneg safe_poll_forced : safe.
Lemma safe_poll dev s :
  e_devs E dev = true -> safe false (lan8814_poll dev s) false.
Proof. lan_safe lan8814_poll. Qed.
End Safe.
#[export] Hint Resolve safe_poll : safe.
