(* ===== verification/Lan8814Gpio.v ===== *)
(** * Lan8814Gpio: LEDs, GPIOs, recovered clocks and start of frame

    The part of [lan8814.c] that routes functions to the pins of the chip. *)

From Stdlib Require Import ZArith Lia List Bool String.
From stdpp Require Import base gmap strings list.
From S2P Require Import Prelude Machine Enums Lan8814Regs Lan8814Types Trace Mdio Lan8814Access Lan8814Conf.

Section Gpio.
Context {B : Type} {CO : Callout B}.
Local Abbreviation M := (M B phy_data_t).

Definition led_num_to_gpio_mapping (dev led_num : Z) : M Z :=
  data <- data_of dev ;;
  let gpio := 11 in
  let idx := pd_packet_idx data mod 4 in
  let pick a b := if led_num =? MEPA_LED0 then a else b in
  if idx =? 0 then
    b1 <- lan8814_is_lan8814 dev ;;
    b2 <- lan8814_is_lan966x dev ;;
    let gpio := if b1 || b2 then pick 11 12 else gpio in
    b <- lan8814_is_lan8842 dev ;;
    ret (if b then pick 14 15 else gpio)
  else if idx =? 1 then ret (pick 17 18)
  else if idx =? 2 then ret (pick 19 20)
  else if idx =? 3 then ret (pick 13 14)
  else ret gpio.

Definition led_mepa_mode_to_lan8814 (mode : Z) : Z :=
  if mode =? MEPA_GPIO_MODE_LED_LINK_ACTIVITY then 0
  else if mode =? MEPA_GPIO_MODE_LED_LINK1000_ACTIVITY then 1
  else if mode =? MEPA_GPIO_MODE_LED_LINK100_ACTIVITY then 2
  else if mode =? MEPA_GPIO_MODE_LED_LINK10_ACTIVITY then 3
  else if mode =? MEPA_GPIO_MODE_LED_LINK100_1000_ACTIVITY then 4
  else if mode =? MEPA_GPIO_MODE_LED_LINK10_1000_ACTIVITY then 5
  else if mode =? MEPA_GPIO_MODE_LED_LINK10_100_ACTIVITY then 6
  else if mode =? MEPA_GPIO_MODE_LED_DUPLEX_COLLISION then 8
  else if mode =? MEPA_GPIO_MODE_LED_COLLISION then 9
  else if mode =? MEPA_GPIO_MODE_LED_ACTIVITY then 10
  else if mode =? MEPA_GPIO_MODE_LED_AUTONEGOTIATION_FAULT then 12
  else if mode =? MEPA_GPIO_MODE_LED_FORCE_LED_OFF then 14
  else if mode =? MEPA_GPIO_MODE_LED_FORCE_LED_ON then 15
  else if mode =? MEPA_GPIO_MODE_LED_DISABLE_EXTENDED then 0xf0
  else 0xff.

Definition lan8814_led_mode_set (dev led_mode led_num : Z) : M Z :=
  if negb (led_num =? MEPA_LED0) && negb (led_num =? MEPA_LED1)
  then ret MEPA_RC_NOT_IMPLEMENTED else
  let mode := led_mepa_mode_to_lan8814 led_mode in
  if mode =? 0xff then ret MEPA_RC_NOT_IMPLEMENTED else
  (if mode =? MEPA_GPIO_MODE_LED_DISABLE_EXTENDED then
     EP_WRM dev LAN8814_LED_CONTROL_REG1 LAN8814_F_LED_CONTROL_KSZ_LED_MODE
       LAN8814_F_LED_CONTROL_KSZ_LED_MODE
   else
     EP_WRM dev LAN8814_LED_CONTROL_REG1 0 LAN8814_F_LED_CONTROL_KSZ_LED_MODE ;;;
     EP_WRM dev LAN8814_LED_CONTROL_REG2 (LAN8814_ENCODE_BITFIELD mode (led_num * 4) 4)
       (LAN8814_ENCODE_BITMASK (led_num * 4) 4)) ;;;
  ret MEPA_RC_OK.

(** [rest] is the code after the first [if], for the GPIO it leaves in [gpio_no]. *)
Definition lan8814_gpio_mode_private (dev : Z) (conf : mepa_gpio_conf_t) : M Z :=
  let mode := gpio_mode conf in
  let io := (mode =? MEPA_GPIO_MODE_OUT) || (mode =? MEPA_GPIO_MODE_IN) in
  let gpio_en := cb io in
  let dir := if io then cb (mode =? MEPA_GPIO_MODE_OUT) else 0 in
  let gpio_no := gpio_gpio_no conf in
  let rest (gpio_no : Z) : M Z :=
    (if gpio_no <? 16 then
       let val := 1 .<< gpio_no in
       let dir := dir .<< gpio_no in
       EP_WRM dev LAN8814_GPIO_EN2 (if tb gpio_en then val else 0) val ;;;
       if tb gpio_en then EP_WRM dev LAN8814_GPIO_DIR2 dir val else ret tt
     else if gpio_no <? 24 then
       let val := 1 .<< (gpio_no - 16) in
       let dir := dir .<< (gpio_no - 16) in
       EP_WRM dev LAN8814_GPIO_EN1 (if tb gpio_en then val else 0) val ;;;
       if tb gpio_en then EP_WRM dev LAN8814_GPIO_DIR1 dir val else ret tt
     else ret tt) ;;;
    ret MEPA_RC_OK in
  if io then rest gpio_no
  else if (mode >=? MEPA_GPIO_MODE_LED_LINK_ACTIVITY) &&
          (mode <=? MEPA_GPIO_MODE_LED_DISABLE_EXTENDED) then
    try_rc (lan8814_led_mode_set dev mode (gpio_led_num conf)) (
    gpio_no <- led_num_to_gpio_mapping dev (gpio_led_num conf) ;;
    rest gpio_no)
  else if (mode =? MEPA_GPIO_MODE_RCVRD_CLK_OUT1) || (mode =? MEPA_GPIO_MODE_RCVRD_CLK_OUT2) then
    rest (if mode =? MEPA_GPIO_MODE_RCVRD_CLK_OUT1 then 9 else 10)
  else rest gpio_no.

(** The check the three GPIO functions make before they take the lock. *)
Definition gpio_not_valid (dev gpio_no : Z) : M bool :=
  b1 <- lan8814_is_lan8814 dev ;;
  b2 <- lan8814_is_lan966x dev ;;
  b3 <- lan8814_is_lan8842 dev ;;
  ret ((b1 && (gpio_no >? 23)) || (b2 && (gpio_no >? 23)) || (b3 && (gpio_no >? 15))).

Definition lan8814_gpio_mode_set (dev : Z) (gpio_conf : mepa_gpio_conf_t) : M Z :=
  bad <- gpio_not_valid dev (gpio_gpio_no gpio_conf) ;;
  if (bad : bool) then ret MEPA_RC_NOT_IMPLEMENTED else
  mepa_enter ;;;
  rc <- lan8814_gpio_mode_private dev gpio_conf ;;
  mepa_exit ;;;
  ret rc.

Definition lan8814_gpio_out_set (dev gpio_no value : Z) : M Z :=
  bad <- gpio_not_valid dev gpio_no ;;
  if (bad : bool) then ret MEPA_RC_NOT_IMPLEMENTED else
  mepa_enter ;;;
  (if gpio_no <? 16 then
     let val := 1 .<< gpio_no in
     EP_WRM dev LAN8814_GPIO_DATA2 (if tb value then val else 0) val
   else if gpio_no <? 24 then
     let val := 1 .<< (gpio_no - 16) in
     EP_WRM dev LAN8814_GPIO_DATA1 (if tb value then val else 0) val
   else ret tt) ;;;
  mepa_exit ;;;
  ret MEPA_RC_OK.

(** [value] is what the caller's variable holds. *)
Definition lan8814_gpio_in_get (dev gpio_no value : Z) : M (Z * Z) :=
  bad <- gpio_not_valid dev gpio_no ;;
  if (bad : bool) then ret (MEPA_RC_NOT_IMPLEMENTED, value) else
  mepa_enter ;;;
  value <- (if gpio_no <? 16 then
              val <- EP_RD dev LAN8814_GPIO_DATA2 0 ;;
              ret (cb (tb ((val .>> gpio_no) .& 0x1)))
            else if gpio_no <? 24 then
              val <- EP_RD dev LAN8814_GPIO_DATA1 0 ;;
              ret (cb (tb ((val .>> (gpio_no - 16)) .& 0x1)))
            else ret value) ;;
  mepa_exit ;;;
  ret (MEPA_RC_OK, value).

Definition lan8814_recovered_clk_set (dev : Z) (conf : mepa_synce_clock_conf_t) : M Z :=
  data <- data_of dev ;;
  mepa_enter ;;;
  let dst1 := sy_dst conf =? MEPA_SYNCE_CLOCK_DST_1 in
  let gpio_conf := Mk_mepa_gpio_conf_t (if dst1 then 9 else 10)
                     (uninit "lan8814_recovered_clk_set.gpio_conf.led_num")
                     (if dst1 then MEPA_GPIO_MODE_RCVRD_CLK_OUT1
                      else MEPA_GPIO_MODE_RCVRD_CLK_OUT2) in
  rc <- lan8814_gpio_mode_private dev gpio_conf ;;
  let divider := if sy_freq conf =? MEPA_FREQ_25M then 5
                 else if sy_freq conf =? MEPA_FREQ_31_25M then 4 else 1 in
  let clkout_src :=
    if sy_src conf =? MEPA_SYNCE_CLOCK_SRC_DISABLED then 7
    else if sy_src conf =? MEPA_SYNCE_CLOCK_SRC_COPPER_MEDIA then pd_packet_idx data mod 4
    else if sy_src conf =? MEPA_SYNCE_CLOCK_SRC_CLOCK_IN_1 then 4
    else if sy_src conf =? MEPA_SYNCE_CLOCK_SRC_CLOCK_IN_2 then 5
    else 7 in
  (if dst1 then
     EP_WR dev LAN8814_RCVRD_CLK_OUT_SEL_1 clkout_src ;;;
     EP_WR dev LAN8814_RCVRD_CLK_OUT_DIV_1 divider
   else if sy_dst conf =? MEPA_SYNCE_CLOCK_DST_2 then
     EP_WR dev LAN8814_RCVRD_CLK_OUT_SEL_2 clkout_src ;;;
     EP_WR dev LAN8814_RCVRD_CLK_OUT_DIV_2 divider
   else ret tt) ;;;
  mepa_exit ;;;
  upd dev (set_pd_synce_conf conf) ;;;
  ret rc.

Definition lan8814_port_flow_mapping_get (packet_idx ingress : Z) : Z * Z :=
  let idx := packet_idx mod 4 in
  let pick a b := (MEPA_RC_OK, if tb ingress then a else b) in
  if idx =? 0 then pick 1 0
  else if idx =? 1 then pick 3 2
  else if idx =? 2 then pick 5 4
  else if idx =? 3 then pick 7 6
  else (MEPA_RC_ERROR, uninit "lan8814_start_of_frame_conf_set.map_val").

(** The field and the pin of a start-of-frame output; no other output exists. *)
Definition sof_field (sof_no : Z) : option (Z * Z * Z) :=
  if sof_no =? 0 then Some (LAN8814_M_GPIO_SOF_SEL_SOF0, 0, 15)
  else if sof_no =? 1 then Some (LAN8814_M_GPIO_SOF_SEL_SOF1, 3, 21)
  else if sof_no =? 2 then Some (LAN8814_M_GPIO_SOF_SEL_SOF2, 6, 16)
  else if sof_no =? 3 then Some (LAN8814_M_GPIO_SOF_SEL_SOF3, 9, 23)
  else None.

(** From [// Enabling SOF preemption] to [do_exit]. *)
Definition sof_finish (dev : Z) (sof_conf : mepa_start_of_frame_conf_t) (val gpio_no led : Z) : M Z :=
  val <- EP_RD dev LAN8814_SOF val ;;
  let val := val .& .~ LAN8814_M_SOF_PREEMPTION_ENABLE in
  let val := val .| (sof_sof_preemption_mode sof_conf .<< 8) in
  EP_WR dev LAN8814_SOF val ;;;
  rc <- lan8814_gpio_mode_private dev (Mk_mepa_gpio_conf_t gpio_no led MEPA_GPIO_MODE_OUT) ;;
  if negb (rc =? MEPA_RC_OK) then ret rc else
  upd dev (set_pd_sof_conf sof_conf) ;;;
  ret MEPA_RC_OK.

Definition lan8814_start_of_frame_conf_set (dev : Z) (sof_conf : mepa_start_of_frame_conf_t) : M Z :=
  data <- data_of dev ;;
  mepa_enter ;;;
  rc <- (let '(rc, map_val) :=
           lan8814_port_flow_mapping_get (pd_packet_idx data) (sof_ingress sof_conf) in
         if negb (rc =? MEPA_RC_OK) then ret rc else
         val <- EP_RD dev LAN8814_GPIO_SOF_SEL
                  (uninit16 "lan8814_start_of_frame_conf_set.val") ;;
         match sof_field (sof_sof_no sof_conf) with
         | None => ret MEPA_RC_ERROR
         | Some (mask, shift, gpio_no) =>
             let val := val .& .~ mask in
             let val := val .| (map_val .<< shift) in
             if sof_sof_preemption_mode sof_conf >? 3 then ret MEPA_RC_ERROR else
             EP_WR dev LAN8814_GPIO_SOF_SEL val ;;;
             sof_finish dev sof_conf val gpio_no
               (uninit "lan8814_start_of_frame_conf_set.gpio_conf.led_num")
         end) ;;
  mepa_exit ;;;
  ret rc.

Definition lan8842_start_of_frame_conf_set (dev : Z) (sof_conf : mepa_start_of_frame_conf_t) : M Z :=
  mepa_enter ;;;
  rc <- (if negb (sof_sof_no sof_conf =? 0) then ret MEPA_RC_ERROR else
         if sof_sof_preemption_mode sof_conf >? 3 then ret MEPA_RC_ERROR else
         EP_RD dev LAN8814_GPIO_SOF_SEL (uninit16 "lan8842_start_of_frame_conf_set.val") ;;;
         let val := cb (tb (sof_ingress sof_conf)) in
         EP_WR dev LAN8814_GPIO_SOF_SEL val ;;;
         sof_finish dev sof_conf val 13
           (uninit "lan8842_start_of_frame_conf_set.gpio_conf.led_num")) ;;
  mepa_exit ;;;
  ret rc.

Definition lan8814_start_of_frame_conf_get (dev : Z) : M (Z * mepa_start_of_frame_conf_t) :=
  data <- data_of dev ;;
  mepa_enter ;;;
  mepa_exit ;;;
  ret (MEPA_RC_OK, pd_sof_conf data).

Definition lan8814_isolate_mode_conf (dev iso_en : Z) : M Z :=
  mepa_enter ;;;
  (if iso_en =? TRUE then
     WRM dev LAN8814_BASIC_CONTROL LAN8814_F_BASIC_CTRL_ISO_MODE_EN
       LAN8814_F_BASIC_CTRL_ISO_MODE_EN
   else WRM dev LAN8814_BASIC_CONTROL 0 LAN8814_F_BASIC_CTRL_ISO_MODE_EN) ;;;
  mepa_exit ;;;
  ret MEPA_RC_OK.

(** [value] is what the caller's variable holds. *)
Definition lan8814_sqi_read (dev value : Z) : M (Z * Z) :=
  data <- data_of dev ;;
  mepa_enter ;;;
  r <- (if (conf_speed (pd_conf data) =? MEPA_SPEED_10M) || negb (tb (pd_link_status data)) ||
           negb (tb (conf_admin_enable (pd_conf data)))
        then ret (MEPA_RC_ERROR, value) else
        val <- EP_RD dev LAN8814_DCQ_CTRL (uninit16 "lan8814_sqi_read.val") ;;
        let val := val .& .~ LAN8814_M_DCQ_CTRL_CHANNEL_MASK in
        let val := val .| LAN8814_F_DCQ_CTRL_READ_CAPTURE in
        EP_WR dev LAN8814_DCQ_CTRL val ;;;
        val <- EP_RD dev LAN8814_DCQ_SQI val ;;
        ret (MEPA_RC_OK, LAN8814_X_DCQ_SQI_VALUE val)) ;;
  mepa_exit ;;;
  ret r.
End Gpio.

(** ** Safety *)
Section Safe.
Context {B : Type} {CO : Callout B} {OK : CalloutOk (CO := CO)} (E : env) {EOK : EnvOk E}.
Local Abbreviation safe := (safe (B := B) (linked E)).

Lemma safe_led_num_to_gpio_mapping dev n h :
  e_devs E dev = true -> safe h (led_num_to_gpio_mapping dev n) h.
Proof. lan_safe led_num_to_gpio_mapping. Qed.
Lemma safe_led_mode_set dev m n : safe true (lan8814_led_mode_set dev m n) true.
Proof. lan_safe lan8814_led_mode_set. Qed.
#[local] Hint Resolve safe_led_num_to_gpio_mapping safe_led_mode_set : safe.
Lemma safe_gpio_mode_private dev c :
  e_devs E dev = true -> safe true (lan8814_gpio_mode_private dev c) true.
Proof. lan_safe lan8814_gpio_mode_private. Qed.
Lemma safe_gpio_not_valid dev n h :
  e_devs E dev = true -> safe h (gpio_not_valid dev n) h.
Proof. lan_safe gpio_not_valid. Qed.
#[local] Hint Resolve safe_gpio_mode_private safe_gpio_not_valid : safe.
Lemma safe_gpio_mode_set dev c :
  e_devs E dev = true -> safe false (lan8814_gpio_mode_set dev c) false.
Proof. lan_safe lan8814_gpio_mode_set. Qed.
Lemma safe_gpio_out_set dev n v :
  e_devs E dev = true -> safe false (lan8814_gpio_out_set dev n v) false.
Proof. lan_safe lan8814_gpio_out_set. Qed.
Lemma safe_gpio_in_get dev n v :
  e_devs E dev = true -> safe false (lan8814_gpio_in_get dev n v) false.
Proof. lan_safe lan8814_gpio_in_get. Qed.
Lemma safe_recovered_clk_set dev c :
  e_devs E dev = true -> safe false (lan8814_recovered_clk_set dev c) false.
Proof. lan_safe lan8814_recovered_clk_set. Qed.
Lemma safe_sof_finish dev c v n l :
  e_devs E dev = true -> safe true (sof_finish dev c v n l) true.
Proof. lan_safe sof_finish. Qed.
#[local] Hint Resolve safe_sof_finish : safe.
Lemma safe_start_of_frame_conf_set dev c :
  e_devs E dev = true -> safe false (lan8814_start_of_frame_conf_set dev c) false.
Proof. lan_safe lan8814_start_of_frame_conf_set. Qed.
Lemma safe_start_of_frame_conf_set_8842 dev c :
  e_devs E dev = true -> safe false (lan8842_start_of_frame_conf_set dev c) false.
Proof. lan_safe lan8842_start_of_frame_conf_set. Qed.
Lemma safe_start_of_frame_conf_get dev :
  e_devs E dev = true -> safe false (lan8814_start_of_frame_conf_get dev) false.
Proof. lan_safe lan8814_start_of_frame_conf_get. Qed.
Lemma safe_isolate_mode_conf dev i : safe false (lan8814_isolate_mode_conf dev i) false.
Proof. lan_safe lan8814_isolate_mode_conf. Qed.
Lemma safe_sqi_read dev v :
  e_devs E dev = true -> safe false (lan8814_sqi_read dev v) false.
Proof. lan_safe lan8814_sqi_read. Qed.
End Safe.
#[export] Hint Resolve safe_gpio_mode_private safe_gpio_mode_set safe_gpio_out_set
  safe_gpio_in_get safe_recovered_clk_set safe_start_of_frame_conf_set
  safe_start_of_frame_conf_set_8842 safe_start_of_frame_conf_get safe_isolate_mode_conf
  safe_sqi_read : safe.
