(* ===== verification/Lan8814Diag.v ===== *)
(** * Lan8814Diag: cable diagnostics, self-test, loopbacks, PRBS and SerDes

    The diagnostic functions of [lan8814.c]. *)

From Stdlib Require Import ZArith Lia List Bool String.
From stdpp Require Import base gmap strings list.
From S2P Require Import Prelude Machine Enums Lan8814Regs Lan8814Types Trace Mdio Lan8814Access Lan8814Conf.

Definition LAN8814_CABLE_MODE_POWER_DOWN : Z := 2.
Definition LAN8814_CABLE_NORMAL : Z := 0.
Definition LAN8814_CABLE_OPEN : Z := 1.
Definition LAN8814_CABLE_SHORT : Z := 2.
Definition LAN8814_CABLE_FAIL : Z := 3.

Section Diag.
Context {B : Type} {CO : Callout B}.
Local Abbreviation M := (M B phy_data_t).

(** ** Cable diagnostics *)

(** At most [n] more turns of the waiting loop; the source starts with 100. *)
Fixpoint wait_cable (dev : Z) (n : nat) (value : Z) : M bool :=
  match n with
  | O => ret false
  | S n =>
      value <- RD dev LAN8814_CABLE_DIAG value ;;
      if tb (value .& LAN8814_F_CABLE_DIAG_TEST_ENA)
      then msleep 10 ;;; wait_cable dev n value
      else ret true
  end.
Definition lan8814_wait_for_cable_diagnostics (dev : Z) : M bool :=
  wait_cable dev 100 (uninit16 "lan8814_wait_for_cable_diagnostics.value").

Definition lan8814_cab_diag_enter_config (dev : Z) : M Z :=
  WRM dev LAN8814_BASIC_CONTROL LAN8814_F_BASIC_CTRL_SOFT_RESET
    LAN8814_F_BASIC_CTRL_SOFT_RESET ;;;
  msleep 1 ;;;
  let value := LAN8814_F_BASIC_CTRL_SPEED_SEL_BIT_1 .| LAN8814_F_BASIC_CTRL_DUP_MODE in
  WR dev LAN8814_BASIC_CONTROL value ;;;
  WRM dev LAN8814_ANEG_MSTR_SLV_CTRL LAN8814_F_ANEG_MSTR_SLV_CTRL_CFG_ENA
    LAN8814_F_ANEG_MSTR_SLV_CTRL_CFG_ENA ;;;
  WRM dev LAN8814_GPHY_DBG_CTL1 LAN8814_F_SWAPOFF LAN8814_F_SWAPOFF ;;;
  msleep 50 ;;;
  ret MEPA_RC_OK.

(** [rst_cfg] is zero but for the reset point. *)
Definition lan8814_restore_config_ (dev : Z) : M Z :=
  lan8814_reset_ dev (set_rst_reset_point MEPA_RESET_POINT_DEFAULT mepa_reset_param_t_0) ;;;
  ret MEPA_RC_OK.

Definition set_diag (f : mepa_cable_diag_result_t -> mepa_cable_diag_result_t) (d : phy_data_t)
  : phy_data_t := set_pd_cable_diag (f (pd_cable_diag d)) d.
Definition diag_status (pair : nat) (v : Z) (r : mepa_cable_diag_result_t) :=
  set_cd_status (list_set (cd_status r) pair v) r.
Definition diag_length (pair : nat) (v : Z) (r : mepa_cable_diag_result_t) :=
  set_cd_length (list_set (cd_length r) pair v) r.

(** [0.8 * MEPA_ABS(data - 22)], truncated; the product with [n <= 233] of the
    double nearest to 0.8 truncates to [4n/5]. *)
Definition cable_length (data : Z) : Z := 4 * Z.abs (data - 22) / 5.

(** One turn of the measuring loop. *)
Definition cab_diag_pair (dev : Z) (pair : nat) : M unit :=
  WRM dev LAN8814_CABLE_DIAG 0 LAN8814_F_CABLE_DIAG_TEST_ENA ;;;
  let value := LAN8814_F_CABLE_DIAG_TEST_ENA .| LAN8814_F_CABLE_TEST_PAIR (Z.of_nat pair) in
  let mask := LAN8814_F_CABLE_DIAG_TEST_ENA .| LAN8814_M_CABLE_TEST_PAIR in
  WRM dev LAN8814_CABLE_DIAG value mask ;;;
  done <- lan8814_wait_for_cable_diagnostics dev ;;
  if (done : bool) then
    value <- RD dev LAN8814_CABLE_DIAG value ;;
    let status := LAN8814_X_CABLE_DIAG_STATUS value in
    if (status =? LAN8814_CABLE_OPEN) || (status =? LAN8814_CABLE_SHORT) then
      upd dev (set_diag (diag_status pair
        (if status =? LAN8814_CABLE_SHORT then MEPA_CABLE_DIAG_STATUS_SHORT
         else MEPA_CABLE_DIAG_STATUS_OPEN))) ;;;
      upd dev (set_diag (diag_length pair (cable_length (LAN8814_X_CABLE_DIAG_DATA value))))
    else if status =? LAN8814_CABLE_FAIL then
      upd dev (set_diag (diag_status pair MEPA_CABLE_DIAG_STATUS_ABNORM))
    else ret tt
  else ret tt.

Definition lan8814_cab_diag_start_ (dev mode : Z) : M Z :=
  seq_ (fun pair =>
          upd dev (set_diag (diag_status pair MEPA_CABLE_DIAG_STATUS_UNKNOWN)) ;;;
          upd dev (set_diag (diag_length pair 0)) ;;;
          upd dev (set_diag (set_cd_link FALSE))) [0; 1; 2; 3]%nat ;;;
  if mode =? LAN8814_CABLE_MODE_POWER_DOWN then ret MEPA_RC_ERROR else
  value <- RD dev LAN8814_BASIC_STATUS (uninit16 "lan8814_cab_diag_start_.value") ;;
  upd dev (set_diag (set_cd_link (cb (tb (value .& LAN8814_F_BASIC_STATUS_LINK_STATUS))))) ;;;
  data <- data_of dev ;;
  if tb (cd_link (pd_cable_diag data)) then ret MEPA_RC_OK else
  lan8814_cab_diag_enter_config dev ;;;
  seq_ (cab_diag_pair dev) [0; 1; 2; 3]%nat ;;;
  lan8814_restore_config_ dev ;;;
  ret MEPA_RC_OK.

Definition lan8814_cab_diag_start (dev mode : Z) : M Z :=
  mepa_enter ;;;
  rc <- lan8814_cab_diag_start_ dev mode ;;
  mepa_exit ;;;
  ret rc.

Definition lan8814_cab_diag_get (dev : Z) : M (Z * mepa_cable_diag_result_t) :=
  data <- data_of dev ;;
  mepa_enter ;;;
  mepa_exit ;;;
  ret (MEPA_RC_OK, pd_cable_diag data).

(** ** Self-test *)

(** At most [n] more turns of the loop that waits for the link. *)
Fixpoint wait_link (dev : Z) (n : nat) (val : Z) : M bool :=
  match n with
  | O => ret false
  | S n =>
      val <- RD dev LAN8814_BASIC_STATUS val ;;
      if tb (val .& LAN8814_F_BASIC_STATUS_LINK_STATUS) then ret true
      else msleep 10 ;;; wait_link dev n val
  end.

(** From [// 2. setup number of packet gen] on. *)
Definition selftest_run (dev : Z) (frames : Z) : M Z :=
  EP_WR dev LAN8814_SELFTEST_FRAME_CNT 0 ;;;
  EP_WR dev LAN8814_SELFTEST_PKT_CNT_LO (frames .& 0xFFFF) ;;;
  EP_WR dev LAN8814_SELFTEST_PKT_CNT_HI ((frames .& 0xFFFF0000) .>> 16) ;;;
  EP_WR dev LAN8814_SELFTEST_FRAME_CNT LAN8814_F_SELFTEST_FRAME_CNT_EN ;;;
  EP_WR dev LAN8814_SELFTEST_EN_REG 0 ;;;
  EP_WR dev LAN8814_SELFTEST_EN_REG
    (LAN8814_F_SELFTEST_RX_CRC_CHK_EN .| LAN8814_F_SELFTEST_TX_CRC_CHK_EN .|
     LAN8814_F_SELFTEST_EN) ;;;
  EP_WR dev LAN8814_SELFTEST_PGEN_EN LAN8814_F_SELFTEST_PGEN_EN ;;;
  ret MEPA_RC_OK.

(** The link the test runs on: from [// Set AN] to the forced speed.  The
    result is what [val] holds then. *)
Definition selftest_link (dev : Z) (inf : mepa_selftest_info_t) : M Z :=
  let val := LAN8814_F_BASIC_CTRL_SPEED_SEL_BIT_1 .| LAN8814_F_BASIC_CTRL_DUP_MODE .|
             LAN8814_F_BASIC_CTRL_RESTART_ANEG .| LAN8814_F_BASIC_CTRL_ANEG_ENA in
  WR dev LAN8814_BASIC_CONTROL val ;;;
  msleep 10 ;;;
  (if sti_speed inf =? MEPA_SPEED_1G then
     WR dev LAN8814_RESV_CON_LOOP 0xfc08 ;;;
     WR dev LAN8814_ANEG_MSTR_SLV_CTRL
       (LAN8814_F_ANEG_MSTR_SLV_CTRL_1000_T_FULL_DUP .|
        LAN8814_F_ANEG_MSTR_SLV_CTRL_CFG_VAL .| LAN8814_F_ANEG_MSTR_SLV_CTRL_CFG_ENA)
   else
     val <- RD dev LAN8814_GPHY_DBG_CTL1 val ;;
     let val := val .& .~ LAN8814_F_MDI_SET in
     let val := if sti_mdi inf =? MEPA_MEDIA_MODE_MDI
                then val .| LAN8814_F_MDI_SET .| LAN8814_F_SWAPOFF
                else val .| LAN8814_F_SWAPOFF in
     WRM dev LAN8814_GPHY_DBG_CTL1 val LAN8814_DEF_MASK) ;;;
  let val := LAN8814_F_BASIC_CTRL_DUP_MODE in
  let val := if sti_speed inf =? MEPA_SPEED_1G
             then val .| LAN8814_F_BASIC_CTRL_SPEED_SEL_BIT_1
             else if sti_speed inf =? MEPA_SPEED_100M
             then val .| LAN8814_F_BASIC_CTRL_SPEED_SEL_BIT_0 else val in
  WR dev LAN8814_BASIC_CONTROL val ;;;
  ret val.

(** A NULL [inf] is [None]. *)
Definition lan8814_selftest_start_ (dev : Z) (inf : option mepa_selftest_info_t) : M Z :=
  match inf with
  | None => ret MEPA_RC_ERROR
  | Some inf =>
      if negb (sti_speed inf =? MEPA_SPEED_1G) && (sti_mdi inf =? MEPA_MEDIA_MODE_AUTO)
      then ret MEPA_RC_ERROR else
      val <- EP_RD dev LAN8814_SELFTEST_PGEN_EN (uninit16 "lan8814_selftest_start_.val") ;;
      if tb (val .& LAN8814_F_SELFTEST_PGEN_EN) then ret MEPA_RC_ERROR else
      WRM dev LAN8814_BASIC_CONTROL LAN8814_F_BASIC_CTRL_SOFT_RESET
        LAN8814_F_BASIC_CTRL_SOFT_RESET ;;;
      msleep 1 ;;;
      val <- selftest_link dev inf ;;
      link_up <- wait_link dev 100 val ;;
      if negb (link_up : bool) then
        lan8814_restore_config_ dev ;;;
        ret MEPA_RC_ERROR
      else
      msleep 500 ;;;
      selftest_run dev (sti_frames inf)
  end.

Definition lan8814_selftest_start (dev : Z) (inf : option mepa_selftest_info_t) : M Z :=
  mepa_enter ;;;
  rc <- lan8814_selftest_start_ dev inf ;;
  mepa_exit ;;;
  ret rc.

(** What [lan8814_selftest_read] reports when the test is enabled. *)
Definition selftest_report (dev : Z) (inf : mepa_selftest_info_t) (val : Z)
  : M mepa_selftest_info_t :=
  val <- RD dev LAN8814_GPHY_DBG_CTL1 val ;;
  let mdi := if tb (val .& LAN8814_F_MDI_SET) then MEPA_MEDIA_MODE_MDI
             else if tb (val .& LAN8814_F_SWAPOFF) then MEPA_MEDIA_MODE_MDIX
             else MEPA_MEDIA_MODE_AUTO in
  val <- RD dev LAN8814_BASIC_CONTROL val ;;
  let speed := if tb (val .& LAN8814_F_BASIC_CTRL_SPEED_SEL_BIT_0) then MEPA_SPEED_100M
               else if tb (val .& LAN8814_F_BASIC_CTRL_SPEED_SEL_BIT_1) then MEPA_SPEED_1G
               else MEPA_SPEED_10M in
  hi <- EP_RD dev LAN8814_SELFTEST_PKT_CNT_HI val ;;
  lo <- EP_RD dev LAN8814_SELFTEST_PKT_CNT_LO hi ;;
  let frames := u32 (hi .<< 16) .| lo in
  lo <- EP_RD dev LAN8814_SELFTEST_GOOD_CNT_LO 0 ;;
  hi <- EP_RD dev LAN8814_SELFTEST_GOOD_CNT_HI 0 ;;
  let good := u32 (hi .<< 16) .| lo in
  lo <- EP_RD dev LAN8814_SELFTEST_ERR_CNT_LO 0 ;;
  hi <- EP_RD dev LAN8814_SELFTEST_ERR_CNT_HI 0 ;;
  let err := u32 (hi .<< 16) .| lo in
  ret (Mk_mepa_selftest_info_t speed mdi frames good err).

Definition lan8814_selftest_read (dev : Z) (inf : option mepa_selftest_info_t)
  : M (Z * option mepa_selftest_info_t) :=
  match inf with
  | None => ret (MEPA_RC_ERROR, None)
  | Some inf =>
      let inf := set_sti_err_cnt 0 (set_sti_good_cnt 0 (set_sti_frames 0 inf)) in
      mepa_enter ;;;
      val <- EP_RD dev LAN8814_SELFTEST_PGEN_EN (uninit16 "lan8814_selftest_read.val") ;;
      r <- (if negb (tb (val .& LAN8814_F_SELFTEST_PGEN_EN)) then ret (MEPA_RC_ERROR, inf) else
            inf <- selftest_report dev inf val ;;
            (if tb (sti_frames inf) &&
                (sti_frames inf =? u32 (sti_good_cnt inf + sti_err_cnt inf))
             then lan8814_selftest_stop dev ;;; ret tt else ret tt) ;;;
            ret (MEPA_RC_OK, inf)) ;;
      mepa_exit ;;;
      ret (fst r, Some (snd r))
  end.

(** ** SerDes and PRBS *)

Definition lan8814_serdes_set (dev addr data op_rd : Z) : M Z :=
  EP_WR dev LAN8814_SERDES_CR_ADDR addr ;;;
  (if negb (tb op_rd) then
     EP_WR dev LAN8814_SERDES_CR_DATA data ;;;
     val <- EP_RD dev LAN8814_SERDES_CR_CONTROL (uninit16 "lan8814_serdes_set.val") ;;
     let val := val .| (LAN8814_F_SERDES_CR_CONTROL_1 .| LAN8814_F_SERDES_CR_CONTROL_0) in
     EP_WR dev LAN8814_SERDES_CR_CONTROL val
   else
     val <- EP_RD dev LAN8814_SERDES_CR_CONTROL (uninit16 "lan8814_serdes_set.val") ;;
     let val := val .& .~ LAN8814_F_SERDES_CR_CONTROL_1 in
     let val := val .| LAN8814_F_SERDES_CR_CONTROL_0 in
     EP_WR dev LAN8814_SERDES_CR_CONTROL val ;;;
     EP_RD dev LAN8814_SERDES_CR_DATA val ;;;
     ret tt) ;;;
  ret MEPA_RC_OK.

(** The loop over a table of [struct serd_set]: stops at the first error. *)
Fixpoint serdes_table (dev : Z) (l : list (Z * Z * Z)) : M Z :=
  match l with
  | [] => ret MEPA_RC_OK
  | (addr, data, op_rd) :: l =>
      rc <- lan8814_serdes_set dev addr data op_rd ;;
      if rc <? 0 then ret rc else serdes_table dev l
  end.

Definition lan8814_prbs7_init (dev : Z) : M Z :=
  serdes_table dev
    [(0x1018, 0x0aa8, 0); (0x1018, 0x0550, 0); (0x0011, 0x004c, 0); (0x0011, 0x084c, 0);
    (0x1001, 0x0040, 0); (0x1001, 0x00c0, 0); (0x1006, 0x1000, 0); (0x1006, 0x3000, 0);
    (0x0011, 0x084e, 0); (0x1000, 0x0200, 0); (0x1000, 0x0280, 0); (0x1005, 0x0008, 0);
    (0x1005, 0x0028, 0); (0x1000, 0x02a0, 0); (0x0015, 0x0000, 0); (0x0015, 0x1000, 0);
    (0x0012, 0x0000, 0); (0x0012, 0x0200, 0); (0x0013, 0x0000, 0); (0x0013, 0x0000, 0);
    (0x0013, 0x2000, 0); (0x1001, 0x00c0, 0); (0x1001, 0x00c4, 0); (0x1006, 0x3000, 0);
    (0x1006, 0x3004, 0); (0x0012, 0x8200, 0); (0x0015, 0x5000, 0); (0x0015, 0x5009, 0);
    (0x0015, 0x5029, 0); (0x0015, 0x5429, 0); (0x1002, 0x007f, 0); (0x1002, 0x0c7f, 0);
    (0x1002, 0x4c7f, 0); (0x1003, 0x0000, 0); (0x1003, 0x0020, 0); (0x0003, 0x0010, 0);
    (0x0003, 0x0012, 0); (0x0003, 0x0010, 0); (0x1001, 0x01c4, 0); (0x1001, 0x03c4, 0);
    (0x1006, 0x3004, 0); (0x1006, 0x3084, 0); (0x1006, 0x3284, 0); (0x1006, 0x3a84, 0);
    (0x1006, 0x3a9c, 0); (0x1006, 0x3abc, 0); (0x1005, 0x0028, 0); (0x1005, 0x0228, 0);
    (0x1005, 0x0228, 0); (0x1005, 0x022a, 0); (0x1005, 0x122a, 0); (0x1005, 0x322a, 0);
    (0x1005, 0x326a, 0); (0x1005, 0x32ea, 0); (0x1005, 0x36ea, 0); (0x1005, 0x3eea, 0);
    (0x0012, 0x8600, 0); (0x0012, 0x8200, 0); (0x1015, 0x03e0, 0); (0x1015, 0x03e6, 0);
    (0x1001, 0x0384, 0); (0x1006, 0x2abc, 0); (0x1005, 0x3eee, 0); (0x1005, 0x3efe, 0);
    (0x101c, 0x0000, 1); (0x1005, 0x3ebe, 0); (0x1015, 0x25c6, 0)].

Definition lan8814_prbs7_clk (dev clk : Z) : M Z :=
  val <- EP_RD dev LAN8814_SERDES_CLOCK_CONF (uninit16 "lan8814_prbs7_clk.val") ;;
  if (clk =? MEPA_PRBS_CLK125_MHZ) && (val =? 0x0016) then
    serdes_table dev
    [(0x0010, 0x0001, 0); (0x0011, 0x08a2, 0); (0x0011, 0x0aa2, 0); (0x0011, 0x0aa3, 0)]
  else if (clk =? MEPA_PRBS_CLK25_MHZ) && (val =? 0x0006) then
    serdes_table dev
    [(0x0010, 0x0000, 0); (0x0011, 0x0992, 0); (0x0011, 0x0b92, 0); (0x0011, 0x0b93, 0)]
  else ret MEPA_RC_ERROR.

Definition lan8814_prbs7_loopback (dev loopback : Z) : M Z :=
  if loopback =? MEPA_PRBS_INTERNAL_LOOPBACK then
    serdes_table dev
    [(0x1000, 0x02a1, 0); (0x1000, 0x02a3, 0); (0x1000, 0x02a3, 0); (0x1000, 0x0aa3, 0);
    (0x1000, 0x0aa3, 0); (0x1000, 0x2aa3, 0); (0x1000, 0x2aa3, 0); (0x1000, 0x2aab, 0);
    (0x1000, 0x2bab, 0); (0x1000, 0x2beb, 0); (0x1000, 0x2bfb, 0)]
  else ret MEPA_RC_ERROR.

Definition lan8814_prbs7_enable (dev : Z) : M Z :=
  serdes_table dev
    [(0x1015, 0x0000, 0); (0x1015, 0x25c4, 0); (0x1016, 0x0004, 0); (0x1016, 0x0004, 0);
    (0x1016, 0x0014, 0); (0x1016, 0x0004, 0); (0x1016, 0x0014, 0); (0x1016, 0x0004, 0)].

Definition lan8814_prbs7_set (dev enable clk loopback : Z) : M Z :=
  if tb enable then
    try_rc (lan8814_prbs7_init dev) (
    try_rc (lan8814_prbs7_loopback dev loopback) (
    try_rc (lan8814_prbs7_clk dev clk) (
    try_rc (lan8814_prbs7_enable dev) (
    ret MEPA_RC_OK))))
  else
    try_rc (lan8814_serdes_set dev 0x1015 0x0000 0) (
    EP_WR dev LAN8814_QSGMII_HARD_RESET 0x1 ;;;
    ret MEPA_RC_OK).

(** A NULL [prbs_conf] is [None]. *)
Definition lan8814_prbs_set (dev type direction : Z)
    (prbs_conf : option mepa_phy_prbs_generator_conf_t) : M Z :=
  match prbs_conf with
  | None => ret MEPA_RC_ERROR
  | Some conf =>
      if (type >=? MEPA_PHY_PRBS_TYPE_CNT) || (direction >=? MEPA_PHY_DIRECTION_CNT)
      then ret MEPA_RC_ERROR else
      if (direction =? MEPA_PHY_DIRECTION_HOST) && (type =? MEPA_PHY_PRBS_TYPE_SERDES) &&
         (prbs_prbsn_sel conf =? MEPA_PRBS7) then
        mepa_enter ;;;
        rc <- lan8814_prbs7_set dev (prbs_enable conf) (prbs_clk conf) (prbs_loopback conf) ;;
        mepa_exit ;;;
        upd dev (set_pd_prbs_conf conf) ;;;
        ret (if rc <? 0 then rc else MEPA_RC_OK)
      else ret MEPA_RC_ERROR
  end.

Definition lan8814_prbs_get (dev : Z) : M (Z * mepa_phy_prbs_generator_conf_t) :=
  data <- data_of dev ;;
  mepa_enter ;;;
  mepa_exit ;;;
  ret (MEPA_RC_OK, pd_prbs_conf data).

Definition lan8814_prbs_monitor_set (dev prbsn_sel : Z) : M Z :=
  if prbsn_sel =? MEPA_PRBS7 then
    mepa_enter ;;;
    rc <- lan8814_serdes_set dev 0x1015 0x0014 0 ;;
    mepa_exit ;;;
    ret rc
  else ret MEPA_RC_ERROR.

(** The result is the code and [no_of_errors]. *)
Definition lan8814_prbs_monitor_get (dev prbsn_sel no_of_errors : Z) : M (Z * Z) :=
  if prbsn_sel =? MEPA_PRBS7 then
    mepa_enter ;;;
    EP_WR dev LAN8814_SERDES_CR_ADDR 0x1017 ;;;
    val <- EP_RD dev LAN8814_SERDES_CR_CONTROL (uninit16 "lan8814_prbs_monitor_get.val") ;;
    let val := val .& .~ LAN8814_F_SERDES_CR_CONTROL_1 in
    let val := val .| LAN8814_F_SERDES_CR_CONTROL_0 in
    EP_WR dev LAN8814_SERDES_CR_CONTROL val ;;;
    val <- EP_RD dev LAN8814_SERDES_CR_DATA val ;;
    mepa_exit ;;;
    ret (MEPA_RC_OK, val)
  else ret (MEPA_RC_ERROR, no_of_errors).

Definition lan8814_serdes_tx_conf_set (dev : Z) (tx_conf : mepa_serdes_tx_conf_t) : M Z :=
  data <- data_of dev ;;
  match pd_base_dev data with
  | None => ret MEPA_RC_ERROR
  | Some base_dev =>
      if negb (base_dev =? dev) then ret MEPA_RC_ERROR else
      mepa_enter ;;;
      rc <- (if tx_boost tx_conf >? 127 then ret MEPA_RC_ERROR else
             if tx_level tx_conf >? 127 then ret MEPA_RC_ERROR else
             let value := LAN8814_QSGMII_SERDES_TX_LEVEL (tx_level tx_conf) .|
                          LAN8814_QSGMII_SERDES_TX_BOOST (tx_boost tx_conf) in
             EP_WRM base_dev LAN8814_QSGMII_SERDES_TX_CTRL value 0x3fff ;;;
             EP_WRM base_dev LAN8814_QSGMII_SOFT_RESET LAN8814_QSGMII_SOFT_RESET_BIT
               LAN8814_QSGMII_SOFT_RESET_BIT ;;;
             ret MEPA_RC_OK) ;;
      mepa_exit ;;;
      ret rc
  end.

(** ** Loopbacks *)

(** [if (new == TRUE) on(); else if (old == TRUE) off();] *)
Definition lb_switch (new old : Z) (on off : M unit) : M unit :=
  if new =? TRUE then on else if old =? TRUE then off else ret tt.

Definition lb_far_end (dev new old : Z) : M unit :=
  lb_switch new old
    (WRM dev LAN8814_PCS_LOOP_POLARITY_CTRL LAN8814_F_PCS_LOOP_CTRL_PORT_LOOP
       LAN8814_F_PCS_LOOP_CTRL_PORT_LOOP)
    (WRM dev LAN8814_PCS_LOOP_POLARITY_CTRL 0 LAN8814_F_PCS_LOOP_CTRL_PORT_LOOP).

(** Remove the 1000 Mbps configuration and restart auto-negotiation. *)
Definition lb_restore_aneg (dev : Z) : M unit :=
  WRM dev LAN8814_ANEG_MSTR_SLV_CTRL 0
    (LAN8814_F_ANEG_MSTR_SLV_CTRL_CFG_ENA .| LAN8814_F_ANEG_MSTR_SLV_CTRL_CFG_VAL) ;;;
  WRM dev LAN8814_BASIC_CONTROL
    (LAN8814_F_BASIC_CTRL_ANEG_ENA .| LAN8814_F_BASIC_CTRL_RESTART_ANEG)
    (LAN8814_F_BASIC_CTRL_ANEG_ENA .| LAN8814_F_BASIC_CTRL_RESTART_ANEG).

Definition lb_force_1g (dev : Z) : M unit :=
  WRM dev LAN8814_BASIC_CONTROL 0 LAN8814_F_BASIC_CTRL_ANEG_ENA ;;;
  WRM dev LAN8814_BASIC_CONTROL LAN8814_F_BASIC_CTRL_SPEED_SEL_BIT_1
    (LAN8814_F_BASIC_CTRL_SPEED_SEL_BIT_1 .| LAN8814_F_BASIC_CTRL_SPEED_SEL_BIT_0).

Definition lb_near_end (dev new old : Z) (aneg : bool) : M unit :=
  lb_switch new old
    (WRM dev LAN8814_BASIC_CONTROL LAN8814_F_BASIC_CTRL_LOOPBACK LAN8814_F_BASIC_CTRL_LOOPBACK ;;;
     if aneg then lb_force_1g dev else ret tt)
    (WRM dev LAN8814_BASIC_CONTROL 0 LAN8814_F_BASIC_CTRL_LOOPBACK ;;;
     (if aneg then lb_restore_aneg dev else ret tt) ;;;
     EP_WR dev LAN8814_POWER_MGMT_MODE_5 0x6677 ;;;
     EP_WR dev LAN8814_POWER_MGMT_MODE_6 0x6677 ;;;
     EP_WR dev LAN8814_POWER_MGMT_MODE_8 0x4377 ;;;
     EP_WR dev LAN8814_POWER_MGMT_MODE_11 0x4377).

Definition lb_connector (dev new old speed : Z) (aneg : bool) : M unit :=
  let sel := LAN8814_F_BASIC_CTRL_SPEED_SEL_BIT_1 .| LAN8814_F_BASIC_CTRL_SPEED_SEL_BIT_0 in
  let mstr := LAN8814_F_ANEG_MSTR_SLV_CTRL_CFG_VAL .| LAN8814_F_ANEG_MSTR_SLV_CTRL_CFG_ENA in
  lb_switch new old
    ((if aneg then
        lb_force_1g dev ;;;
        WRM dev LAN8814_ANEG_MSTR_SLV_CTRL mstr mstr
      else if speed =? MEPA_SPEED_100M then
        WRM dev LAN8814_BASIC_CONTROL LAN8814_F_BASIC_CTRL_SPEED_SEL_BIT_0 sel
      else if speed =? MEPA_SPEED_10M then WRM dev LAN8814_BASIC_CONTROL 0 sel
      else ret tt) ;;;
     WR dev LAN8814_RESV_CON_LOOP 0xfc08)
    ((if aneg then lb_restore_aneg dev else ret tt) ;;;
     WR dev LAN8814_RESV_CON_LOOP 0xfc00).

Definition lb_ep (dev new old : Z) (r : ereg) (bit : Z) : M unit :=
  lb_switch new old (EP_WRM dev r bit bit) (EP_WRM dev r 0 bit).

Definition lan8814_loopback_set (dev : Z) (loopback : mepa_loopback_t) : M Z :=
  data <- data_of dev ;;
  if (lb_mac_serdes_input_ena loopback =? TRUE) || (lb_mac_serdes_facility_ena loopback =? TRUE) ||
     (lb_mac_serdes_equip_ena loopback =? TRUE) || (lb_media_serdes_input_ena loopback =? TRUE) ||
     (lb_media_serdes_facility_ena loopback =? TRUE) ||
     (lb_media_serdes_equip_ena loopback =? TRUE)
  then ret MEPA_RC_NOT_IMPLEMENTED else
  mepa_enter ;;;
  let old := pd_loopback data in
  let speed := conf_speed (pd_conf data) in
  let aneg := (speed =? MEPA_SPEED_AUTO) || (speed =? MEPA_SPEED_1G) in
  lb_far_end dev (lb_far_end_ena loopback) (lb_far_end_ena old) ;;;
  lb_near_end dev (lb_near_end_ena loopback) (lb_near_end_ena old) aneg ;;;
  lb_connector dev (lb_connector_ena loopback) (lb_connector_ena old) speed aneg ;;;
  lb_ep dev (lb_qsgmii_pcs_tbi_ena loopback) (lb_qsgmii_pcs_tbi_ena old)
    LAN8814_QSGMII_PCS1G_DEBUG LAN8814_F_QSGMII_PCS1G_DBG_TBI_HOST_LOOPBACK ;;;
  lb_ep dev (lb_qsgmii_pcs_gmii_ena loopback) (lb_qsgmii_pcs_gmii_ena old)
    LAN8814_QSGMII_PCS1G_DEBUG LAN8814_F_QSGMII_PCS1G_DBG_GMII_LOOPBACK ;;;
  lb_ep dev (lb_qsgmii_serdes_ena loopback) (lb_qsgmii_serdes_ena old)
    LAN8814_QSGMII_SERDES_MISC_CTRL LAN8814_F_QSGMII_SERDES_MISC_CTRL_LB_MODE ;;;
  upd dev (set_pd_loopback loopback) ;;;
  mepa_exit ;;;
  ret MEPA_RC_OK.

Definition lan8814_loopback_get (dev : Z) : M (Z * mepa_loopback_t) :=
  data <- data_of dev ;;
  mepa_enter ;;;
  mepa_exit ;;;
  ret (MEPA_RC_OK, pd_loopback data).
End Diag.

(** ** Safety *)
Section Safe.
Context {B : Type} {CO : Callout B} {OK : CalloutOk (CO := CO)} (E : env) {EOK : EnvOk E}.
Local Abbreviation safe := (safe (B := B) (linked E)).

Lemma safe_wait_cable dev n v : safe true (wait_cable dev n v) true.
Proof. revert v. induction n; intros; cbn [wait_cable]; safe_auto. Qed.
Lemma safe_wait_link dev n v : safe true (wait_link dev n v) true.
Proof. revert v. induction n; intros; cbn [wait_link]; safe_auto. Qed.
#[local] Hint Resolve safe_wait_cable safe_wait_link : safe.
Lemma safe_wait_for_cable_diagnostics dev :
  safe true (lan8814_wait_for_cable_diagnostics dev) true.
Proof. apply safe_wait_cable. Qed.
Lemma safe_cab_diag_enter_config dev : safe true (lan8814_cab_diag_enter_config dev) true.
Proof. lan_safe lan8814_cab_diag_enter_config. Qed.
Lemma safe_restore_config_ dev :
  e_devs E dev = true -> safe true (lan8814_restore_config_ dev) true.
Proof. lan_safe lan8814_restore_config_. Qed.
#[local] Hint Resolve safe_wait_for_cable_diagnostics safe_cab_diag_enter_config
  safe_restore_config_ : safe.
Lemma safe_cab_diag_pair dev p : e_devs E dev = true -> safe true (cab_diag_pair dev p) true.
Proof. lan_safe cab_diag_pair. Qed.
#[local] Hint Resolve safe_cab_diag_pair : safe.
Lemma safe_cab_diag_start_ dev m :
  e_devs E dev = true -> safe true (lan8814_cab_diag_start_ dev m) true.
Proof. lan_safe lan8814_cab_diag_start_. Qed.
#[local] Hint Resolve safe_cab_diag_start_ : safe.
Lemma safe_cab_diag_start dev m :
  e_devs E dev = true -> safe false (lan8814_cab_diag_start dev m) false.
Proof. lan_safe lan8814_cab_diag_start. Qed.
Lemma safe_cab_diag_get dev :
  e_devs E dev = true -> safe false (lan8814_cab_diag_get dev) false.
Proof. lan_safe lan8814_cab_diag_get. Qed.
Lemma safe_selftest_run dev n : safe true (selftest_run dev n) true.
Proof. lan_safe selftest_run. Qed.
Lemma safe_selftest_link dev i : safe true (selftest_link dev i) true.
Proof. lan_safe selftest_link. Qed.
#[local] Hint Resolve safe_selftest_run safe_selftest_link : safe.
Lemma safe_selftest_start_ dev i :
  e_devs E dev = true -> safe true (lan8814_selftest_start_ dev i) true.
Proof. lan_safe lan8814_selftest_start_. Qed.
#[local] Hint Resolve safe_selftest_start_ : safe.
Lemma safe_selftest_start dev i :
  e_devs E dev = true -> safe false (lan8814_selftest_start dev i) false.
Proof. lan_safe lan8814_selftest_start. Qed.
Lemma safe_selftest_report dev i v : safe true (selftest_report dev i v) true.
Proof. lan_safe selftest_report. Qed.
#[local] Hint Resolve safe_selftest_report : safe.
Lemma safe_selftest_read dev i : safe false (lan8814_selftest_read dev i) false.
Proof. lan_safe lan8814_selftest_read. Qed.
Lemma safe_serdes_set dev a d o : safe true (lan8814_serdes_set dev a d o) true.
Proof. lan_safe lan8814_serdes_set. Qed.
#[local] Hint Resolve safe_serdes_set : safe.
Lemma safe_serdes_table dev l : safe true (serdes_table dev l) true.
Proof. induction l as [|[[a d] o] l IH]; cbn [serdes_table]; safe_auto. Qed.
#[local] Hint Resolve safe_serdes_table : safe.
Lemma safe_prbs7_init dev : safe true (lan8814_prbs7_init dev) true.
Proof. apply safe_serdes_table. Qed.
Lemma safe_prbs7_clk dev c : safe true (lan8814_prbs7_clk dev c) true.
Proof. lan_safe lan8814_prbs7_clk. Qed.
Lemma safe_prbs7_loopback dev c : safe true (lan8814_prbs7_loopback dev c) true.
Proof. lan_safe lan8814_prbs7_loopback. Qed.
Lemma safe_prbs7_enable dev : safe true (lan8814_prbs7_enable dev) true.
Proof. apply safe_serdes_table. Qed.
#[local] Hint Resolve safe_prbs7_init safe_prbs7_clk safe_prbs7_loopback safe_prbs7_enable : safe.
Lemma safe_prbs7_set dev e c l : safe true (lan8814_prbs7_set dev e c l) true.
Proof. lan_safe lan8814_prbs7_set. Qed.
#[local] Hint Resolve safe_prbs7_set : safe.
Lemma safe_prbs_set dev t d c :
  e_devs E dev = true -> safe false (lan8814_prbs_set dev t d c) false.
Proof. lan_safe lan8814_prbs_set. Qed.
Lemma safe_prbs_get dev :
  e_devs E dev = true -> safe false (lan8814_prbs_get dev) false.
Proof. lan_safe lan8814_prbs_get. Qed.
Lemma safe_prbs_monitor_set dev s : safe false (lan8814_prbs_monitor_set dev s) false.
Proof. lan_safe lan8814_prbs_monitor_set. Qed.
Lemma safe_prbs_monitor_get dev s n : safe false (lan8814_prbs_monitor_get dev s n) false.
Proof. lan_safe lan8814_prbs_monitor_get. Qed.
Lemma safe_serdes_tx_conf_set dev c :
  e_devs E dev = true -> safe false (lan8814_serdes_tx_conf_set dev c) false.
Proof. lan_safe lan8814_serdes_tx_conf_set. Qed.

Lemma safe_lb_switch n o m1 m2 :
  safe true m1 true -> safe true m2 true -> safe true (lb_switch n o m1 m2) true.
Proof. lan_safe lb_switch. Qed.
Lemma safe_lb_restore_aneg dev : safe true (lb_restore_aneg dev) true.
Proof. lan_safe lb_restore_aneg. Qed.
Lemma safe_lb_force_1g dev : safe true (lb_force_1g dev) true.
Proof. lan_safe lb_force_1g. Qed.
#[local] Hint Resolve safe_lb_restore_aneg safe_lb_force_1g : safe.
Lemma safe_lb_far_end dev n o : safe true (lb_far_end dev n o) true.
Proof. apply safe_lb_switch; safe_auto. Qed.
Lemma safe_lb_near_end dev n o a : safe true (lb_near_end dev n o a) true.
Proof. apply safe_lb_switch; safe_auto. Qed.
Lemma safe_lb_connector dev n o s a : safe true (lb_connector dev n o s a) true.
Proof. apply safe_lb_switch; safe_auto. Qed.
Lemma safe_lb_ep dev n o r b : safe true (lb_ep dev n o r b) true.
Proof. apply safe_lb_switch; safe_auto. Qed.
#[local] Hint Resolve safe_lb_far_end safe_lb_near_end safe_lb_connector safe_lb_ep : safe.
Lemma safe_loopback_set dev l :
  e_devs E dev = true -> safe false (lan8814_loopback_set dev l) false.
Proof. lan_safe lan8814_loopback_set. Qed.
Lemma safe_loopback_get dev :
  e_devs E dev = true -> safe false (lan8814_loopback_get dev) false.
Proof. lan_safe lan8814_loopback_get. Qed.
End Safe.
#[export] Hint Resolve safe_cab_diag_start safe_cab_diag_get safe_selftest_start
  safe_selftest_read safe_prbs_set safe_prbs_get safe_prbs_monitor_set
  safe_prbs_monitor_get safe_serdes_tx_conf_set safe_loopback_set safe_loopback_get : safe.
