(* ===== verification/Lan8814Driver.v ===== *)
(** * Lan8814Driver: the entry points of the LAN8814 driver

    The functions of [lan8814.c] that its driver table names and that are not
    in the files before: they take the lock around the static functions,
    decode debug addresses, report capabilities, and create the device. *)

From Stdlib Require Import ZArith Lia List Bool String.
From stdpp Require Import base gmap strings list.
From S2P Require Import Prelude Machine Enums Lan8814Regs Lan8814Types Trace Mdio Lan8814Access Lan8814Conf.

(** [mepa_phy_info_t]; [ts_base] is a device pointer. *)
Record mepa_phy_info_t := Mk_mepa_phy_info_t {
  pi_part_number : Z;
  pi_revision : Z;
  pi_cap : Z;
  pi_ts_base_port : Z;
  pi_ts_base : option Z;
  pi_manufactor_name : string;
  pi_model_name : string;
}.

Section Driver.
Context {B : Type} {CO : Callout B}.
Local Abbreviation M := (M B phy_data_t).

Definition lan8814_reset (dev : Z) (rst_conf : mepa_reset_param_t) : M Z :=
  mepa_enter ;;;
  rc <- lan8814_reset_ dev rst_conf ;;
  mepa_exit ;;;
  ret rc.

Definition lan8814_conf_set (dev : Z) (config : mepa_conf_t) : M Z :=
  mepa_enter ;;;
  rc <- lan8814_conf_set_ dev config ;;
  mepa_exit ;;;
  ret rc.

Definition lan8814_conf_get (dev : Z) : M (Z * mepa_conf_t) :=
  data <- data_of dev ;;
  mepa_enter ;;;
  mepa_exit ;;;
  ret (MEPA_RC_OK, pd_conf data).

Definition lan8814_if_set (mac_if : Z) : Z :=
  if negb (mac_if =? MESA_PORT_INTERFACE_QSGMII) then MEPA_RC_ERROR else MEPA_RC_OK.
Definition lan8814_if_get : Z * Z := (MEPA_RC_OK, MESA_PORT_INTERFACE_QSGMII).
Definition lan8842_if_set (mac_if : Z) : Z :=
  if negb (mac_if =? MESA_PORT_INTERFACE_SGMII) then MEPA_RC_ERROR else MEPA_RC_OK.
Definition lan8842_if_get : Z * Z := (MEPA_RC_OK, MESA_PORT_INTERFACE_SGMII).

(** The code and [master_cfg_fault], [master]. *)
Definition lan8814_aneg_status_get (dev : Z) : M (Z * (Z * Z)) :=
  mepa_enter ;;;
  val <- RD dev LAN8814_ANEG_MSTR_SLV_STATUS (uninit16 "lan8814_aneg_status_get.val") ;;
  let master_cfg_fault :=
    if tb (val .& LAN8814_F_ANEG_MSTR_SLV_STATUS_CFG_FAULT) then TRUE else FALSE in
  let master :=
    if tb (val .& LAN8814_F_ANEG_MSTR_SLV_STATUS_CFG_RES) then TRUE else FALSE in
  mepa_exit ;;;
  ret (MEPA_RC_OK, (master_cfg_fault, master)).

Definition lan8814_direct_reg_read (dev address value : Z) : M (Z * Z) :=
  let addr := u32 address .& 0x1f in
  mepa_enter ;;;
  r <- lan8814_direct_reg_rd dev addr value ;;
  mepa_exit ;;;
  ret r.

Definition lan8814_direct_reg_write (dev address value : Z) : M Z :=
  let addr := u32 address .& 0x1f in
  mepa_enter ;;;
  rc <- lan8814_direct_reg_wr dev addr value 0xFFFF ;;
  mepa_exit ;;;
  ret rc.

Definition lan8814_ext_mmd_reg_read (dev address value : Z) : M (Z * Z) :=
  let page_mmd := (u32 address .>> 16) .& 0xffff in
  let addr := u32 address .& 0xffff in
  let mmd := page_mmd .>> 11 in
  mepa_enter ;;;
  r <- (if tb mmd then lan8814_mmd_reg_rd dev mmd addr value
        else lan8814_ext_reg_rd dev page_mmd addr value) ;;
  mepa_exit ;;;
  ret r.

Definition lan8814_ext_mmd_reg_write (dev address value : Z) : M Z :=
  let page_mmd := (u32 address .>> 16) .& 0xffff in
  let addr := u32 address .& 0xffff in
  let mmd := page_mmd .>> 11 in
  mepa_enter ;;;
  rc <- (if tb mmd then lan8814_mmd_reg_wr dev mmd addr value 0xFFFF
         else lan8814_ext_reg_wr dev page_mmd addr value 0xFFFF) ;;
  mepa_exit ;;;
  ret rc.

Definition lan8814_event_enable_set (dev event enable : Z) : M Z :=
  mepa_enter ;;;
  rc <- lan8814_event_enable_set_ dev event enable ;;
  mepa_exit ;;;
  ret rc.

Definition lan8814_event_enable_get (dev : Z) : M (Z * Z) :=
  data <- data_of dev ;;
  mepa_enter ;;;
  mepa_exit ;;;
  ret (MEPA_RC_OK, pd_events data).

Definition lan8814_event_status_poll (dev : Z) : M (Z * Z) :=
  data <- data_of dev ;;
  let status := 0 in
  mepa_enter ;;;
  let* (rc, val) <- lan8814_direct_reg_rd dev LAN8814_GPHY_INTR_STATUS
                      (uninit16 "lan8814_event_status_poll.val") ;;
  let status := if tb (val .& LAN8814_F_GPHY_INTR_ENA_LINK_DOWN)
                then status .| (pd_events data .& MEPA_LINK_LOS) else status in
  let status := if tb (val .& LAN8814_F_GPHY_INTR_ENA_FLF_INTR)
                then status .| (pd_events data .& MEPA_FAST_LINK_FAIL) else status in
  mepa_exit ;;;
  ret (rc, status).

(** The base port's [port_no] is read for the trace. *)
Definition lan8814_link_base_port (dev : Z) (base_dev : option Z) (packet_idx : Z) : M Z :=
  data_of dev ;;;
  base <- deref base_dev ;;
  data_of base ;;;
  mepa_enter ;;;
  upd dev (set_pd_base_dev base_dev) ;;;
  upd dev (set_pd_packet_idx (u8 packet_idx)) ;;;
  mepa_exit ;;;
  ret MEPA_RC_OK.

Definition lan8814_capability_priv (dev capability : Z) : M Z :=
  if capability =? MEPA_CAP_TS_NONE then
    b <- lan8814_has_ptp dev ;; ret (cb (negb (tb b)))
  else if capability =? MEPA_CAP_TS_GEN_3 then lan8814_has_ptp dev
  else if capability =? MEPA_CAP_SPEED_1G then ret 1
  else ret 0.

Definition lan8814_capability (dev capability : Z) : M Z :=
  mepa_enter ;;;
  c <- lan8814_capability_priv dev capability ;;
  mepa_exit ;;;
  ret c.

(** The three [if]s that set bits of [phy_info->cap]. *)
Definition cap_mask (dev cap : Z) : M Z :=
  c <- lan8814_capability_priv dev MEPA_CAP_TS_GEN_3 ;;
  let cap := if tb c then cap .| MEPA_CAP_TS_MASK_GEN_3 else cap in
  c <- lan8814_capability_priv dev MEPA_CAP_TS_NONE ;;
  let cap := if tb c then cap .| MEPA_CAP_TS_MASK_NONE else cap in
  c <- lan8814_capability_priv dev MEPA_CAP_SPEED_1G ;;
  ret (if tb c then cap .| MEPA_CAP_SPEED_MASK_1G else cap).

(** [drv_id] is [dev->drv->id]; [info] is what the caller's struct holds. *)
Definition lan8814_info_get (dev drv_id : Z) (info : mepa_phy_info_t) : M (Z * mepa_phy_info_t) :=
  data <- data_of dev ;;
  base_port_no <- (match pd_base_dev data with
                   | Some b => base_data <- data_of b ;; ret (pd_port_no base_data)
                   | None => ret 0
                   end) ;;
  let '(part, model) :=
    if (drv_id =? LAN8814_DEF_DRV_ID) || (drv_id =? LAN8814_INT_PHY_DRV_ID)
    then (8814, "LAN8814"%string)
    else if drv_id =? LAN8804_SKU then (8804, "LAN8804"%string)
    else (pi_part_number info, pi_model_name info) in
  cap <- cap_mask dev 0 ;;
  let '(port, base) :=
    if drv_id =? LAN8804_SKU then (0, None) else (base_port_no, pd_base_dev data) in
  ret (MEPA_RC_OK,
       Mk_mepa_phy_info_t part (dev_rev (pd_dev data)) cap port base "Microchip" model).

Definition lan8842_get_device_info (dev : Z) : M Z :=
  mepa_enter ;;;
  rc <- lan8814_get_device_info dev ;;
  mepa_exit ;;;
  ret rc.

(** [phy_info->cap] is not assigned before bits are set in it. *)
Definition lan8842_info_get (dev drv_id : Z) (info : mepa_phy_info_t) : M (Z * mepa_phy_info_t) :=
  rc <- lan8842_get_device_info dev ;;
  if negb (rc =? MEPA_RC_OK) then ret (rc, info) else
  let '(part, model) := if drv_id =? LAN8842_DRV_ID then (8842, "LAN8842"%string)
                        else (8832, "LAN8832"%string) in
  data <- data_of dev ;;
  cap <- cap_mask dev (pi_cap info) ;;
  ret (MEPA_RC_OK,
       Mk_mepa_phy_info_t part (dev_rev (pd_dev data)) cap 0 None "Microchip" model).

Definition lan8814_eee_mode_conf_set (dev : Z) (conf : mepa_phy_eee_conf_t) : M Z :=
  mepa_enter ;;;
  rc <- lan8814_eee_mode_conf_set_ dev conf ;;
  mepa_exit ;;;
  ret rc.

Definition lan8814_eee_mode_conf_get (dev : Z) : M (Z * mepa_phy_eee_conf_t) :=
  data <- data_of dev ;;
  mepa_enter ;;;
  mepa_exit ;;;
  ret (MEPA_RC_OK, pd_eee_conf data).

(** The code and [advertisement], [rx_in_power_save_state],
    [tx_in_power_save_state]; the registers are read without the lock. *)
Definition lan8814_eee_status_get (dev : Z) : M (Z * (Z * Z * Z)) :=
  reg_value <- MMD_RD dev LAN8814_LINK_PARTNER_EEE_ABILITY 0 ;;
  let advertisement := u8 (reg_value .>> 1) in
  reg_value <- MMD_RD dev LAN8814_EEE_PCS_STATUS reg_value ;;
  let rx := if tb (reg_value .& 0x0100) then TRUE else FALSE in
  let tx := if tb (reg_value .& 0x0200) then TRUE else FALSE in
  ret (MEPA_RC_OK, (advertisement, rx, tx)).

(** [want] tells whether the caller's pointer is not NULL. *)
Definition lan8814_framepreempt_get (dev : Z) (want : bool) : M (Z * Z) :=
  data <- data_of dev ;;
  base_data <- (match pd_base_dev data with
                | Some b => d <- data_of b ;; ret (Some d)
                | None => ret None
                end) ;;
  if negb want then ret (MEPA_RC_ERROR, 0) else
  mepa_enter ;;;
  let value := match base_data with Some d => pd_framepreempt_en d | None => FALSE end in
  mepa_exit ;;;
  ret (MEPA_RC_OK, value).

Definition lan8814_framepreempt_set (dev enable : Z) : M Z :=
  mepa_enter ;;;
  rc <- lan8814_framepreempt_set_ dev enable ;;
  mepa_exit ;;;
  ret rc.

(** The SKU, read from extended register 4.11 before there is a device. *)
Definition probe_sku (ctx : Z) : M Z :=
  co_write ctx LAN8814_EXT_PAGE_ACCESS_CTRL 4 ;;;
  co_write ctx LAN8814_EXT_PAGE_ACCESS_ADDR_DATA 11 ;;;
  co_write ctx LAN8814_EXT_PAGE_ACCESS_CTRL 0x4004 ;;;
  let* (_, v) <- co_read ctx LAN8814_EXT_PAGE_ACCESS_ADDR_DATA ;;
  ret (default 0 v).

(** [mepa_create_int] for the device [dev]: its private data is cleared. *)
Definition new_data (dev : Z) : M unit :=
  fun w => Some (tt, World (w_bus w) (<[dev := phy_data_t_0]> (w_data w)) (w_log w)).

(** [lan8814_probe]: [ctx] is the bus behind [callout_ctx] and [mem] the
    device that [mepa_create_int] carves out of the [mem_alloc] callout
    ([None]: out of memory), its private data cleared; on success [ctx] is the
    new device's bus.  The result is the row of the driver table the device
    got, and the device. *)
Definition lan8814_probe (drv : nat) (ctx : Z) (mem : option Z) (numeric_handle : Z)
  : M (option (nat * Z)) :=
  match @miim_read B CO, @miim_write B CO with
  | Some _, Some _ =>
      sku <- probe_sku ctx ;;
      let drv := if sku =? LAN8804_SKU then 1%nat else drv in
      let drv := if sku =? LAN8832_SKU then 4%nat else drv in
      match mem with
      | None => ret None
      | Some dev =>
          new_data dev ;;;
          upd dev (set_pd_port_no numeric_handle) ;;;
          upd dev (set_pd_events 0) ;;;
          lan8814_get_device_info dev ;;;
          upd dev (set_dev (set_dev_sku sku)) ;;;
          ret (Some (drv, dev))
      end
  | _, _ => ret None
  end.
End Driver.

(** ** Safety *)
Section Safe.
Context {B : Type} {CO : Callout B} {OK : CalloutOk (CO := CO)} (E : env) {EOK : EnvOk E}.
Local Abbreviation safe := (safe (B := B) (linked E)).

Lemma safe_reset dev r : e_devs E dev = true -> safe false (lan8814_reset dev r) false.
Proof. lan_safe lan8814_reset. Qed.
Lemma safe_conf_set dev c : e_devs E dev = true -> safe false (lan8814_conf_set dev c) false.
Proof. lan_safe lan8814_conf_set. Qed.
Lemma safe_conf_get dev : e_devs E dev = true -> safe false (lan8814_conf_get dev) false.
Proof. lan_safe lan8814_conf_get. Qed.
Lemma safe_aneg_status_get dev : safe false (lan8814_aneg_status_get dev) false.
Proof. lan_safe lan8814_aneg_status_get. Qed.
Lemma clause22_addr a : 0 <= u32 a .& 0x1f < 32.
Proof. change 0x1f with (Z.ones 5). rewrite Z.land_ones by lia. by apply Z.mod_pos_bound. Qed.
Lemma safe_direct_reg_read dev a v : safe false (lan8814_direct_reg_read dev a v) false.
Proof.
  unfold lan8814_direct_reg_read. lan_step; [lan_step|]. lan_step; [|repeat lan_step].
  apply safe_direct_reg_rd, clause22_addr.
Qed.
Lemma safe_direct_reg_write dev a v : safe false (lan8814_direct_reg_write dev a v) false.
Proof.
  unfold lan8814_direct_reg_write. lan_step; [lan_step|]. lan_step; [|repeat lan_step].
  apply safe_direct_reg_wr, clause22_addr.
Qed.
Lemma safe_ext_mmd_reg_read dev a v : safe false (lan8814_ext_mmd_reg_read dev a v) false.
Proof. lan_safe lan8814_ext_mmd_reg_read. Qed.
Lemma safe_ext_mmd_reg_write dev a v : safe false (lan8814_ext_mmd_reg_write dev a v) false.
Proof. lan_safe lan8814_ext_mmd_reg_write. Qed.
Lemma safe_event_enable_set dev e n :
  e_devs E dev = true -> safe false (lan8814_event_enable_set dev e n) false.
Proof. lan_safe lan8814_event_enable_set. Qed.
Lemma safe_event_enable_get dev :
  e_devs E dev = true -> safe false (lan8814_event_enable_get dev) false.
Proof. lan_safe lan8814_event_enable_get. Qed.
Lemma safe_event_status_poll dev :
  e_devs E dev = true -> safe false (lan8814_event_status_poll dev) false.
Proof. lan_safe lan8814_event_status_poll. Qed.
Lemma safe_capability_priv dev c h :
  e_devs E dev = true -> safe h (lan8814_capability_priv dev c) h.
Proof. lan_safe lan8814_capability_priv. Qed.
#[local] Hint Resolve safe_capability_priv : safe.
Lemma safe_capability dev c :
  e_devs E dev = true -> safe false (lan8814_capability dev c) false.
Proof. lan_safe lan8814_capability. Qed.
Lemma safe_cap_mask dev c h : e_devs E dev = true -> safe h (cap_mask dev c) h.
Proof. lan_safe cap_mask. Qed.
#[local] Hint Resolve safe_cap_mask : safe.
Lemma safe_info_get dev i n :
  e_devs E dev = true -> safe false (lan8814_info_get dev i n) false.
Proof. lan_safe lan8814_info_get. Qed.
Lemma safe_get_device_info_8842 dev :
  e_devs E dev = true -> safe false (lan8842_get_device_info dev) false.
Proof. lan_safe lan8842_get_device_info. Qed.
#[local] Hint Resolve safe_get_device_info_8842 : safe.
Lemma safe_info_get_8842 dev i n :
  e_devs E dev = true -> safe false (lan8842_info_get dev i n) false.
Proof. lan_safe lan8842_info_get. Qed.
Lemma safe_eee_mode_conf_set dev c :
  e_devs E dev = true -> safe false (lan8814_eee_mode_conf_set dev c) false.
Proof. lan_safe lan8814_eee_mode_conf_set. Qed.
Lemma safe_eee_mode_conf_get dev :
  e_devs E dev = true -> safe false (lan8814_eee_mode_conf_get dev) false.
Proof. lan_safe lan8814_eee_mode_conf_get. Qed.
Lemma safe_framepreempt_get dev b :
  e_devs E dev = true -> safe false (lan8814_framepreempt_get dev b) false.
Proof. lan_safe lan8814_framepreempt_get. Qed.
Lemma safe_framepreempt_set dev b :
  e_devs E dev = true -> safe false (lan8814_framepreempt_set dev b) false.
Proof. lan_safe lan8814_framepreempt_set. Qed.
End Safe.
#[export] Hint Resolve safe_reset safe_conf_set safe_conf_get safe_aneg_status_get
  safe_direct_reg_read safe_direct_reg_write safe_ext_mmd_reg_read safe_ext_mmd_reg_write
  safe_event_enable_set safe_event_enable_get safe_event_status_poll safe_capability
  safe_info_get safe_info_get_8842 safe_eee_mode_conf_set safe_eee_mode_conf_get
  safe_framepreempt_get safe_framepreempt_set : safe.
