(* ===== verification/Lan8814Ts.v ===== *)
(** * Lan8814Ts: the PTP local time counter and the port's time stamping unit

    The first part of [lan8814_ts.c]: initialisation of the chip's time stamping
    block and of a port's unit, the local time counter (LTC) and its rate, the
    path delays and latencies, the pulse per second, events, statistics and the
    time stamp FIFO.  A pointer argument is an [option] where the function
    tests it ([MEPA_ASSERT]), and the object it points to where it does not. *)

From Stdlib Require Import ZArith Lia List Bool String.
From stdpp Require Import base gmap strings list.
From S2P Require Import Prelude Machine Enums Lan8814Regs Lan8814Types Trace Mdio Lan8814Access.

Definition CLK_PERIOD_250_MHZ : Z := 4.
Definition CLK_PERIOD_200_MHZ : Z := 5.
Definition LAN8814_TS_MODE_STANDALONE : Z := 1.
Definition MEPA_TS_FIFO_SUCCESS : Z := 0.

(** Rows by clock frequency; columns 1000, 100, 10 Mb/s. *)
Definition lan8814_ing_latencies : list (list Z) :=
  [ [415; 144; 8377]; [0; 0; 0]; [0; 0; 0]; [417; 1441; 8380]; [415; 627; 8377] ].
Definition lan8814_egr_latencies : list (list Z) :=
  [ [196; 296; 11353]; [0; 0; 0]; [0; 0; 0]; [189; 300; 11355]; [186; 296; 11353] ].
(** Columns by port speed (undefined, 10, 100, 1000 Mb/s). *)
Definition lan8814_twostep_egr_lat_adj : list (list Z) :=
  [ [0; 11198; 112; 125]; [0; 0; 0; 0]; [0; 0; 0; 0];
    [0; 11197; 1125; 120]; [0; 11198; 1120; 115]; [0; 0; 0; 0] ].

Definition def_mac : list Z := [0x01; 0x1B; 0x19; 0x00; 0x00; 0x00].

(** ** Default classifiers *)

Definition get_default_ts_eth_class (conf : mepa_ts_classifier_eth_t) : mepa_ts_classifier_eth_t :=
  let vlan := set_vl_num_tag 0 (set_vl_etype 0x88f7 (set_vl_tpid 0x88A8
                (set_vl_pbb_en FALSE (eth_vlan_conf conf)))) in
  Mk_mepa_ts_classifier_eth_t MEPA_TS_ETH_ADDR_MATCH_ANY MEPA_TS_ETH_MATCH_DEST_ADDR
    def_mac FALSE vlan.

Definition get_default_ts_ip_class (conf : mepa_ts_classifier_ip_t) : mepa_ts_classifier_ip_t :=
  Mk_mepa_ts_classifier_ip_t MEPA_TS_IP_VER_4 MEPA_TS_IP_MATCH_DEST (repeat 0 8)
    FALSE TRUE 0 319.

Definition get_default_ts_ptp_class (conf : mepa_ts_classifier_ptp_t) : mepa_ts_classifier_ptp_t :=
  Mk_mepa_ts_classifier_ptp_t (Mk_mepa_range_value 2 2) (Mk_mepa_range_value 1 0)
    (Mk_mepa_ts_match MEPA_TS_MATCH_MODE_VALUE (Mk_mepa_range_value 0 0xF))
    (Mk_mepa_ts_match MEPA_TS_MATCH_MODE_VALUE (Mk_mepa_range_value 0 0)).

Definition get_default_ts_clock_cfg (clk_conf : mepa_ts_ptp_clock_conf_t) : mepa_ts_ptp_clock_conf_t :=
  set_clk_ptp_class_conf (get_default_ts_ptp_class (clk_ptp_class_conf clk_conf))
    (set_clk_enable FALSE (set_clk_delaym_type MEPA_TS_PTP_DELAYM_E2E
      (set_clk_clk_mode MEPA_TS_PTP_CLOCK_MODE_NONE clk_conf))).

Definition get_default_ts_classifier_cfg (conf : mepa_ts_classifier_t) : mepa_ts_classifier_t :=
  set_cl_ip_class_conf (get_default_ts_ip_class (cl_ip_class_conf conf))
    (set_cl_eth_class_conf (get_default_ts_eth_class (cl_eth_class_conf conf))
      (set_cl_clock_id 0 (set_cl_pkt_encap_type MEPA_TS_ENCAP_NONE conf))).

(** [a == b] for device pointers. *)
Definition ptr_is (p : option Z) (dev : Z) : bool :=
  match p with Some b => b =? dev | None => false end.

(** The clock source field of the reference clock register. *)
Definition ref_clk_source (clk_src : Z) : option Z :=
  if clk_src =? MEPA_TS_CLOCK_SRC_125MHZ_INTERNAL_SYS_PLL then Some 0
  else if clk_src =? MEPA_TS_CLOCK_SRC_125MHZ_QSGMII_REC_CLOCK then Some 1
  else if clk_src =? MEPA_TS_CLOCK_SRC_EXT_1588_REF_CLOCK then Some 2
  else if clk_src =? MEPA_TS_CLOCK_SRC_RESERVED then Some 3
  else if clk_src =? MEPA_TS_CLOCK_SRC_FROM_RX_PORT0 then Some 4
  else if clk_src =? MEPA_TS_CLOCK_SRC_FROM_RX_PORT1 then Some 5
  else if clk_src =? MEPA_TS_CLOCK_SRC_FROM_RX_PORT2 then Some 6
  else if clk_src =? MEPA_TS_CLOCK_SRC_FROM_RX_PORT3 then Some 7
  else None.

(** The clock period field, and the PLL divider where it is programmed. *)
Definition ref_clk_period (clk_freq : Z) : option (Z * option Z) :=
  if clk_freq =? MEPA_TS_CLOCK_FREQ_25M then
    Some (4, Some (LAN8814_1588_PLL_DIVQ_F 2 .| LAN8814_1588_PLL_DIVF_F 0x13
                   .| LAN8814_1588_PLL_DIVR_F 0))
  else if clk_freq =? MEPA_TS_CLOCK_FREQ_200M then
    Some (5, Some (LAN8814_1588_PLL_DIVQ_F 3 .| LAN8814_1588_PLL_DIVF_F 0x1F
                   .| LAN8814_1588_PLL_DIVR_F 4))
  else if clk_freq =? MEPA_TS_CLOCK_FREQ_250M then Some (4, None)
  else None.

Section Ts.
Context {B : Type} {CO : Callout B}.
Local Abbreviation M := (M B phy_data_t).

(** Stores to members of [data->ts_state]. *)
Definition upd_ts (dev : Z) (f : lan8814_ts_data_t -> lan8814_ts_data_t) : M unit :=
  upd dev (fun d => set_pd_ts_state (f (pd_ts_state d)) d).
Definition upd_tp (dev : Z) (f : lan8814_ts_port_conf_t -> lan8814_ts_port_conf_t) : M unit :=
  upd_ts dev (fun s => set_ts_ts_port_conf (f (ts_ts_port_conf s)) s).
Definition upd_dlat (dev : Z) (f : lan8814_ts_port_latencies_t -> lan8814_ts_port_latencies_t) : M unit :=
  upd_ts dev (fun s => set_ts_default_latencies (f (ts_default_latencies s)) s).
Definition upd_plat (dev : Z) (f : lan8814_ts_port_latencies_t -> lan8814_ts_port_latencies_t) : M unit :=
  upd_tp dev (fun s => set_tp_port_latencies (f (tp_port_latencies s)) s).

(** ** Initialisation *)

Definition lan8814_tsu_block_init (dev : Z) (ts_init_conf : mepa_ts_init_conf_t) : M Z :=
  data_of dev ;;;
  if negb (ti_tx_fifo_mode ts_init_conf =? MEPA_TS_FIFO_MODE_NORMAL) then ret MEPA_RC_ERROR else
  clock_cfg <- EP_RD dev LAN8814_PTP_REF_CLK_CFG 0 ;;
  match ref_clk_source (ti_clk_src ts_init_conf) with
  | None => ret MEPA_RC_ERROR
  | Some src =>
  let clock_cfg := clock_cfg .| LAN8814_PTP_REF_CLK_CFG_REF_CLK_SOURCE_F src in
  match ref_clk_period (ti_clk_freq ts_init_conf) with
  | None => ret MEPA_RC_ERROR
  | Some (period, pll_div) =>
  match pll_div with
  | Some pll_div => EP_WRM dev LAN8814_1588_PLL_DIVEDER pll_div LAN8814_DEF_MASK
  | None => ret tt
  end ;;;
  let clock_cfg := clock_cfg .| LAN8814_PTP_REF_CLK_CFG_REF_CLK_PERIOD_F period in
  let clock_cfg := clock_cfg .| LAN8814_PTP_REF_CLK_CFG_REF_CLK_PERIOD_OVERRIDE in
  EP_WRM dev LAN8814_PTP_REF_CLK_CFG clock_cfg LAN8814_DEF_MASK ;;;
  let val :=
    if tb (mp_mch_en (ti_mch_pch_conf ts_init_conf)) then LAN8814_PTP_OPERATING_MODE_VAL_F 3
    else if tb (mp_pch_en (ti_mch_pch_conf ts_init_conf)) then LAN8814_PTP_OPERATING_MODE_VAL_F 2
    else LAN8814_PTP_OPERATING_MODE_VAL_F 1 in
  EP_WRM dev LAN8814_PTP_OPERATING_MODE val LAN8814_PTP_OPERATING_MODE_VAL ;;;
  let val := LAN8814_PTP_CMD_CTL_ENABLE .| LAN8814_PTP_CMD_CTL_LTC_TEMP_RATE_SEL in
  EP_WRM dev LAN8814_PTP_CMD_CTL val val ;;;
  ret MEPA_RC_OK
  end
  end.

(** The assignments from the configuration to [data->ts_state]. *)
Definition port_init_state (c : mepa_ts_init_conf_t) (s : lan8814_ts_data_t) : lan8814_ts_data_t :=
  set_ts_mch_pch (ti_mch_pch_conf c) (set_ts_tc_op_mode (ti_tc_op_mode c)
  (set_ts_tx_auto_followup_ts (ti_tx_auto_followup_ts c) (set_ts_rx_ts_pos (ti_rx_ts_pos c)
  (set_ts_rx_ts_len (ti_rx_ts_len c) (set_ts_tsu_op_mode LAN8814_TS_MODE_STANDALONE
  (set_ts_tx_fifo_ts_len (ti_tx_ts_len c) (set_ts_tx_fifo_mode (ti_tx_fifo_mode c)
  (set_ts_clk_freq (ti_clk_freq c) (set_ts_clk_src (ti_clk_src c) s))))))))).

(** [initialise classifier config state], and the clock config. *)
Definition port_init_classifiers (p : lan8814_ts_port_conf_t) : lan8814_ts_port_conf_t :=
  set_tp_tx_clock_conf (get_default_ts_clock_cfg (tp_tx_clock_conf p))
    (set_tp_rx_clock_conf (get_default_ts_clock_cfg (tp_rx_clock_conf p))
      (set_tp_tx_pkt_conf (get_default_ts_classifier_cfg (tp_tx_pkt_conf p))
        (set_tp_rx_pkt_conf (get_default_ts_classifier_cfg (tp_rx_pkt_conf p)) p))).

(** One default latency: read from a table, written to its register and
    stored as a time interval. *)
Definition default_latency (dev : Z) (table : list (list Z)) (freq column : Z) (r : ereg)
    (store : Z -> lan8814_ts_port_latencies_t -> lan8814_ts_port_latencies_t) : M Z :=
  row <- arr table freq ;;
  val <- arr row column ;;
  EP_WRM dev r val LAN8814_DEF_MASK ;;;
  upd_dlat dev (store (val .<< 16)) ;;;
  ret val.

Definition lan8814_ts_port_init (dev : Z) (ts_init_conf : mepa_ts_init_conf_t) : M Z :=
  data <- data_of dev ;;
  (if negb (tb (ts_ts_init_done (pd_ts_state data))) then
     EP_WR dev LAN8814_PTP_TSU_HARD_RESET 0x1 ;;; msleep 2
   else ret tt) ;;;
  upd_ts dev (port_init_state ts_init_conf) ;;;
  (if ti_rx_ts_pos ts_init_conf =? MEPA_TS_RX_TIMESTAMP_POS_AT_END then
     let val := LAN8814_PTP_RX_TAIL_TAG_EN .| LAN8814_PTP_RX_TAIL_TAG_INSERT_IFG_F 1
                .| LAN8814_PTP_RX_TAIL_TAG_ER_FORWARD in
     EP_WRM dev LAN8814_PTP_RX_TAIL_TAG val LAN8814_DEF_MASK
   else ret tt) ;;;
  upd_tp dev port_init_classifiers ;;;
  let freq := ti_clk_freq ts_init_conf in
  default_latency dev lan8814_ing_latencies freq 2 LAN8814_PTP_RX_LATENCY_10 set_lat_rx10mbps ;;;
  default_latency dev lan8814_ing_latencies freq 1 LAN8814_PTP_RX_LATENCY_100 set_lat_rx100mbps ;;;
  default_latency dev lan8814_ing_latencies freq 0 LAN8814_PTP_RX_LATENCY_1000 set_lat_rx1000mbps ;;;
  default_latency dev lan8814_egr_latencies freq 2 LAN8814_PTP_TX_LATENCY_10 set_lat_tx10mbps ;;;
  default_latency dev lan8814_egr_latencies freq 1 LAN8814_PTP_TX_LATENCY_100 set_lat_tx100mbps ;;;
  val <- default_latency dev lan8814_egr_latencies freq 0 LAN8814_PTP_TX_LATENCY_1000 set_lat_tx1000mbps ;;
  val <- EP_RD dev LAN8814_PTP_TSU_GEN_CONF val ;;
  let val := if tb (mp_save_ts_with_crc_err (ti_mch_pch_conf ts_init_conf))
             then val .| LAN8814_PTP_TSU_GEN_CONF_TS_CRC_PKT
             else val .& .~ LAN8814_PTP_TSU_GEN_CONF_TS_CRC_PKT in
  EP_WRM dev LAN8814_PTP_TSU_GEN_CONF val LAN8814_PTP_TSU_GEN_CONF_TS_CRC_PKT ;;;
  upd_ts dev (set_ts_ts_init_done TRUE) ;;;
  ret MEPA_RC_OK.

Definition lan8814_ts_init_conf_set (dev : Z) (ts_init_conf : option mepa_ts_init_conf_t) : M Z :=
  data <- data_of dev ;;
  match ts_init_conf with
  | None => ret MEPA_RC_ERROR
  | Some ts_init_conf =>
  rc <- (if ptr_is (pd_base_dev data) dev then
           mepa_enter ;;;
           EP_WRM dev LAN8814_PTP_LTC_HARD_RESET LAN8814_PTP_LTC_HARD_RESET_CMD LAN8814_DEF_MASK ;;;
           rc <- lan8814_tsu_block_init dev ts_init_conf ;;
           mepa_exit ;;;
           ret rc
         else ret MEPA_RC_OK) ;;
  if negb (rc =? MEPA_RC_OK) then ret rc else
  mepa_enter ;;;
  rc <- lan8814_ts_port_init dev ts_init_conf ;;
  mepa_exit ;;;
  ret rc
  end.

(** [ts_init_conf] is what the caller's struct holds. *)
Definition lan8814_ts_init_conf_get (dev : Z) (ts_init_conf : option mepa_ts_init_conf_t)
  : M (Z * option mepa_ts_init_conf_t) :=
  data <- data_of dev ;;
  match ts_init_conf with
  | None => ret (MEPA_RC_ERROR, None)
  | Some c =>
  mepa_enter ;;;
  let s := pd_ts_state data in
  mepa_exit ;;;
  ret (MEPA_RC_OK,
       Some (Mk_mepa_ts_init_conf_t (ts_clk_freq s) (ts_clk_src s) (ts_rx_ts_pos s) (ts_rx_ts_len s)
         (ts_tx_fifo_mode s) (ts_tx_fifo_ts_len s) (ts_tx_spi_en s) FALSE (ts_tc_op_mode s) FALSE
         (ts_tx_auto_followup_ts s) (ts_mch_pch s)))
  end.

Definition lan8814_ts_mode_set (dev enable : Z) : M Z :=
  data_of dev ;;;
  mepa_enter ;;;
  let val := if tb enable then LAN8814_PTP_TSU_GEN_CONF_EN else 0 in
  EP_WRM dev LAN8814_PTP_TSU_GEN_CONF val LAN8814_PTP_TSU_GEN_CONF_EN ;;;
  upd_ts dev (set_ts_ptp_en (u8 enable)) ;;;
  mepa_exit ;;;
  ret MEPA_RC_OK.

Definition lan8814_ts_reset (dev : Z) : M Z :=
  mepa_enter ;;;
  mepa_exit ;;;
  ret MEPA_RC_OK.

Definition lan8814_ts_mode_get (dev : Z) : M (Z * Z) :=
  data <- data_of dev ;;
  mepa_enter ;;;
  mepa_exit ;;;
  ret (MEPA_RC_OK, ts_ptp_en (pd_ts_state data)).

(** ** The local time counter *)

Definition lan8814_ts_ltc_ls_en_set (dev ls_type : Z) : M Z :=
  let gpio := 3 in
  let ls_pps := TRUE in
  data <- data_of dev ;;
  match pd_base_dev data with
  | None => ret MEPA_RC_ERROR
  | Some _ =>
  mepa_enter ;;;
  (if ptr_is (pd_base_dev data) dev then
     if ls_type =? MEPA_TS_CMD_LOAD then
       if ls_pps =? TRUE then
         EP_WRM dev LAN8814_PTP_LTC_EXT_ADJ_CFG 0 LAN8814_DEF_MASK
       else
         EP_WRM dev LAN8814_PTP_CMD_CTL LAN8814_PTP_CMD_CTL_LTC_LOAD LAN8814_PTP_CMD_CTL_LTC_LOAD
     else if ls_type =? MEPA_TS_CMD_SAVE then
       if ls_pps =? TRUE then
         EP_WRM dev LAN8814_PTP_GPIO_CAP_MAP_LO (LAN8814_PTP_GPIO_CAP_0_MAP_F gpio)
           LAN8814_PTP_GPIO_CAP_0_MAP ;;;
         EP_WRM dev LAN8814_PTP_GPIO_CAP_EN (LAN8814_PTP_GPIO_RE_CAPTURE_EN_F 1)
           LAN8814_PTP_GPIO_RE_CAPTURE_EN ;;;
         EP_WRM dev LAN8814_PTP_GPIO_CAP_LOCK 0 LAN8814_DEF_MASK
       else
         EP_WRM dev LAN8814_PTP_CMD_CTL LAN8814_PTP_CMD_CTL_LTC_READ LAN8814_PTP_CMD_CTL_LTC_READ
     else if ls_type =? MEPA_TS_ADJ_CMD_CLEAR then
       EP_WRM dev LAN8814_PTP_LTC_EXT_ADJ_CFG 0 LAN8814_DEF_MASK
     else ret tt
   else ret tt) ;;;
  mepa_exit ;;;
  ret MEPA_RC_OK
  end.

(** The time captured by a GPIO edge; [picoseconds] is not assigned. *)
Definition ltc_get_gpio (dev : Z) (ts : mepa_timestamp_t) : M mepa_timestamp_t :=
  let ts := set_tm_nanoseconds 0 (set_tm_seconds_low 0 (set_tm_seconds_high 0 ts)) in
  val <- EP_RD_INCR dev LAN8814_PTP_GPIO_RE_CLOCK_SEC_HI 0 TRUE ;;
  let ts := set_tm_seconds_low (u32 (val .<< 16)) ts in
  val <- EP_RD_INCR dev LAN8814_PTP_GPIO_RE_CLOCK_SEC_LO 0 FALSE ;;
  let ts := set_tm_seconds_low (tm_seconds_low ts .| val) ts in
  ns_h <- EP_RD_INCR dev LAN8814_PTP_GPIO_RE_CLOCK_NS_HI 0 FALSE ;;
  let ts := set_tm_nanoseconds (u32 ((ns_h .& 0x3FFF) .<< 16)) ts in
  ns_l <- EP_RD_INCR dev LAN8814_PTP_GPIO_RE_CLOCK_NS_LO 0 FALSE ;;
  ret (set_tm_nanoseconds (tm_nanoseconds ts .| ns_l) ts).

(** The time read on command: the branch for [ls_pps == FALSE]. *)
Definition ltc_get_command (dev : Z) (ts : mepa_timestamp_t) : M mepa_timestamp_t :=
  EP_WRM dev LAN8814_PTP_CMD_CTL LAN8814_PTP_CMD_CTL_LTC_READ LAN8814_PTP_CMD_CTL_LTC_READ ;;;
  let ts := set_tm_nanoseconds 0 (set_tm_seconds_low 0 (set_tm_seconds_high 0 ts)) in
  val <- EP_RD_INCR dev LAN8814_PTP_LTC_RD_SEC_HI 0 TRUE ;;
  let ts := set_tm_seconds_high val ts in
  val <- EP_RD_INCR dev LAN8814_PTP_LTC_RD_SEC_MID 0 FALSE ;;
  let ts := set_tm_seconds_low (u32 (val .<< 16)) ts in
  val <- EP_RD_INCR dev LAN8814_PTP_LTC_RD_SEC_LO 0 FALSE ;;
  let ts := set_tm_seconds_low (tm_seconds_low ts .| val) ts in
  ns_h <- EP_RD_INCR dev LAN8814_PTP_LTC_RD_NS_HI 0 FALSE ;;
  let ts := set_tm_nanoseconds (u32 (ns_h .<< 16)) ts in
  ns_l <- EP_RD_INCR dev LAN8814_PTP_LTC_RD_NS_LO 0 FALSE ;;
  let ts := set_tm_nanoseconds (tm_nanoseconds ts .| ns_l) ts in
  val <- EP_RD_INCR dev LAN8814_PTP_LTC_RD_SUBNS_HI val FALSE ;;
  EP_RD_INCR dev LAN8814_PTP_LTC_RD_SUBNS_LO val FALSE ;;;
  ret ts.

Definition lan8814_ts_ltc_get (dev : Z) (ts : option mepa_timestamp_t)
  : M (Z * option mepa_timestamp_t) :=
  let ls_pps := TRUE in
  data <- data_of dev ;;
  match ts, pd_base_dev data with
  | None, _ | _, None => ret (MEPA_RC_ERROR, ts)
  | Some ts, Some _ =>
  mepa_enter ;;;
  ts <- (if ptr_is (pd_base_dev data) dev then
           if ls_pps =? FALSE then ltc_get_command dev ts else ltc_get_gpio dev ts
         else ret ts) ;;
  mepa_exit ;;;
  ret (MEPA_RC_OK, Some ts)
  end.

Definition lan8814_ltc_target_seconds (dev sec : Z) : M Z :=
  data <- data_of dev ;;
  base_dev <- deref (pd_base_dev data) ;;
  base_data <- data_of base_dev ;;
  let offset := pps_offset (ts_pps (pd_ts_state base_data)) in
  EP_WR dev LAN8814_PTP_LTC_TARGET_SEC_LO_A (sec .& 0xFFFF) ;;;
  EP_WR dev LAN8814_PTP_LTC_TARGET_SEC_HI_A (u16 (sec .>> 16)) ;;;
  EP_WR dev LAN8814_PTP_LTC_TARGET_NS_LO_A (offset .& 0xFFFF) ;;;
  EP_WR dev LAN8814_PTP_LTC_TARGET_NS_HI_A (u16 (offset .>> 16)) ;;;
  ret MEPA_RC_OK.

Definition lan8814_ts_ltc_set (dev : Z) (ts : option mepa_timestamp_t) : M Z :=
  data <- data_of dev ;;
  base_dev <- deref (pd_base_dev data) ;;
  base_data <- data_of base_dev ;;
  match ts with
  | None => ret MEPA_RC_ERROR
  | Some ts =>
  mepa_enter ;;;
  (if base_dev =? dev then
     cmd <- EP_RD dev LAN8814_PTP_LTC_EXT_ADJ_CFG 0 ;;
     let cmd := if tb (cmd .& 0x10) then 0 else cmd .| LAN8814_PTP_LTC_EXT_ADJ_MODE in
     EP_WRM dev LAN8814_PTP_LTC_EXT_ADJ_CFG cmd LAN8814_DEF_MASK ;;;
     EP_WRM dev LAN8814_PTP_LTC_SET_SEC_HI (tm_seconds_high ts) LAN8814_DEF_MASK ;;;
     EP_WRM dev LAN8814_PTP_LTC_SET_SEC_MID ((tm_seconds_low ts .>> 16) .& 0xFFFF) LAN8814_DEF_MASK ;;;
     EP_WRM dev LAN8814_PTP_LTC_SET_SEC_LO (tm_seconds_low ts .& 0xFFFF) LAN8814_DEF_MASK ;;;
     EP_WRM dev LAN8814_PTP_LTC_SET_NS_HI ((tm_nanoseconds ts .>> 16) .& 0xFFFF) LAN8814_DEF_MASK ;;;
     EP_WRM dev LAN8814_PTP_LTC_SET_NS_LO (tm_nanoseconds ts .& 0xFFFF) LAN8814_DEF_MASK ;;;
     EP_WRM dev LAN8814_PTP_LTC_EXT_ADJ_CFG LAN8814_PTP_LTC_EXT_ADJ_LOAD_EN
       LAN8814_PTP_LTC_EXT_ADJ_LOAD_EN ;;;
     if tb (pps_output_enable (ts_pps (pd_ts_state base_data))) then
       lan8814_ltc_target_seconds dev (u32 (tm_seconds_low ts + 2)) ;;; ret tt
     else ret tt
   else ret tt) ;;;
  mepa_exit ;;;
  ret MEPA_RC_OK
  end.

(** ** Rate and step *)

Definition lan8814_ts_clock_rateadj_get (dev : Z) (adj : option Z) : M (Z * option Z) :=
  data <- data_of dev ;;
  match adj with
  | None => ret (MEPA_RC_ERROR, None)
  | Some _ =>
  mepa_enter ;;;
  mepa_exit ;;;
  ret (MEPA_RC_OK, Some (tp_rate_adj (ts_ts_port_conf (pd_ts_state data))))
  end.

(** The period of the LTC clock in nanoseconds. *)
Definition ltc_period (clk_freq : Z) : Z :=
  if (clk_freq =? MEPA_TS_CLOCK_FREQ_25M) || (clk_freq =? MEPA_TS_CLOCK_FREQ_250M)
  then CLK_PERIOD_250_MHZ
  else if clk_freq =? MEPA_TS_CLOCK_FREQ_200M then CLK_PERIOD_200_MHZ
  else CLK_PERIOD_250_MHZ.

(** The product is an [uint64_t]. *)
Definition rate_adj_val (period adj_abs : Z) : Z :=
  u64 ((1 .<< 16) * period * adj_abs) / 1000000000.

Definition lan8814_ts_clock_rateadj_set (dev : Z) (adj : option Z) : M Z :=
  data <- data_of dev ;;
  base_dev <- deref (pd_base_dev data) ;;
  base_data <- data_of base_dev ;;
  match adj with
  | None => ret MEPA_RC_ERROR
  | Some adj =>
  mepa_enter ;;;
  (if base_dev =? dev then
     adj_abs <- ck64 (Z.abs adj) ;;
     let period := ltc_period (ts_clk_freq (pd_ts_state base_data)) in
     let adj_val := rate_adj_val period adj_abs in
     if adj_val >=? (1 .<< 30) then ret tt else
     let val := if adj >? 0 then LAN8814_PTP_LTC_RATE_ADJ_HI_DIR else 0 in
     let val := val .| (0x3FFF .& (adj_val .>> 16)) in
     EP_WRM dev LAN8814_PTP_LTC_RATE_ADJ_HI val LAN8814_DEF_MASK ;;;
     EP_WRM dev LAN8814_PTP_LTC_RATE_ADJ_LO (0xFFFF .& adj_val) LAN8814_DEF_MASK ;;;
     upd_tp dev (set_tp_rate_adj adj)
   else ret tt) ;;;
  mepa_exit ;;;
  ret MEPA_RC_OK
  end.

Definition lan8814_ts_clock_adj1ns (dev incr : Z) : M Z :=
  data <- data_of dev ;;
  mepa_enter ;;;
  (if ptr_is (pd_base_dev data) dev then
     base_data <- data_of dev ;;
     cmd_org <- EP_RD dev LAN8814_PTP_CMD_CTL 0 ;;
     EP_WRM dev LAN8814_PTP_CMD_CTL (0xFFFB .& cmd_org) LAN8814_DEF_MASK ;;;
     let val := LAN8814_PTP_LTC_STEP_ADJ_DIR in
     let freq := ts_clk_freq (pd_ts_state base_data) in
     let adj :=
       if (freq =? MEPA_TS_CLOCK_FREQ_25M) || (freq =? MEPA_TS_CLOCK_FREQ_250M)
       then if tb incr then 4 + 1 else 4 - 1
       else if freq =? MEPA_TS_CLOCK_FREQ_200M then if tb incr then 5 + 1 else 5 - 1
       else 0 in
     EP_WRM dev LAN8814_PTP_LTC_STEP_ADJ_HI val LAN8814_DEF_MASK ;;;
     EP_WRM dev LAN8814_PTP_LTC_STEP_ADJ_LO adj LAN8814_DEF_MASK ;;;
     EP_WRM dev LAN8814_PTP_CMD_CTL LAN8814_PTP_CMD_CTL_LTC_STEP_NANOSECONDS
       LAN8814_PTP_CMD_CTL_LTC_STEP_NANOSECONDS ;;;
     EP_WRM dev LAN8814_PTP_CMD_CTL cmd_org LAN8814_DEF_MASK
   else ret tt) ;;;
  mepa_exit ;;;
  ret MEPA_RC_OK.

(** ** Delays and latencies *)

Definition lan8814_ts_clock_delay_asymmetry_get (dev : Z) : M (Z * Z) :=
  data <- data_of dev ;;
  mepa_enter ;;;
  mepa_exit ;;;
  ret (MEPA_RC_OK, tp_delay_asym (ts_ts_port_conf (pd_ts_state data))).

Definition lan8814_ts_clock_delay_asymmetry_set (dev delay_asym : Z) : M Z :=
  data_of dev ;;;
  mepa_enter ;;;
  EP_WRM dev LAN8814_PTP_ASYM_DLY_HI ((delay_asym .>> 32) .& 0xFFFF) LAN8814_DEF_MASK ;;;
  EP_WRM dev LAN8814_PTP_ASYM_DLY_LO ((delay_asym .>> 16) .& 0xFFFF) LAN8814_DEF_MASK ;;;
  upd_tp dev (set_tp_delay_asym delay_asym) ;;;
  mepa_exit ;;;
  ret MEPA_RC_OK.

Definition lan8814_ts_clock_path_delay_get (dev : Z) (path_delay : option Z) : M (Z * option Z) :=
  data <- data_of dev ;;
  match path_delay with
  | None => ret (MEPA_RC_ERROR, None)
  | Some _ =>
  mepa_enter ;;;
  mepa_exit ;;;
  ret (MEPA_RC_OK, Some (tp_path_delay (ts_ts_port_conf (pd_ts_state data))))
  end.

Definition lan8814_ts_clock_path_delay_set (dev : Z) (path_delay : option Z) : M Z :=
  data_of dev ;;;
  match path_delay with
  | None => ret MEPA_RC_ERROR
  | Some path_delay =>
  mepa_enter ;;;
  EP_WRM dev LAN8814_PTP_PEERDLY_HI ((path_delay .>> 32) .& 0xFFFF) LAN8814_DEF_MASK ;;;
  EP_WRM dev LAN8814_PTP_PEERDLY_LO ((path_delay .>> 16) .& 0xFFFF) LAN8814_DEF_MASK ;;;
  upd_tp dev (set_tp_path_delay path_delay) ;;;
  mepa_exit ;;;
  ret MEPA_RC_OK
  end.

Definition lan8814_ts_clock_egress_latency_get (dev : Z) (latency : option Z) : M (Z * option Z) :=
  data <- data_of dev ;;
  match latency with
  | None => ret (MEPA_RC_ERROR, None)
  | Some latency =>
  mepa_enter ;;;
  let l := tp_port_latencies (ts_ts_port_conf (pd_ts_state data)) in
  let speed := conf_speed (pd_conf data) in
  let latency :=
    if speed =? MEPA_SPEED_10M then lat_tx10mbps l
    else if speed =? MEPA_SPEED_100M then lat_tx100mbps l
    else if (speed =? MEPA_SPEED_1G) || (speed =? MEPA_SPEED_AUTO) then lat_tx1000mbps l
    else latency in
  mepa_exit ;;;
  ret (MEPA_RC_OK, Some latency)
  end.

(** [latency = default; if (two_step) latency -= adjustment; latency += input] *)
Definition egress_latency (base_data : phy_data_t) (speed dflt input_latency two_step : Z) : M Z :=
  latency <- (if tb two_step then
                row <- arr lan8814_twostep_egr_lat_adj (ts_clk_freq (pd_ts_state base_data)) ;;
                adj <- arr row speed ;;
                ck64 (dflt - (adj .<< 16))
              else ret dflt) ;;
  ck64 (latency + input_latency).

(** One case of the switch: a negative latency leaves the register alone. *)
Definition egress_latency_case (dev latency input_latency : Z) (r : ereg)
    (store : Z -> lan8814_ts_port_latencies_t -> lan8814_ts_port_latencies_t) : M unit :=
  if latency >=? 0 then
    EP_WR dev r (u16 (latency .>> 16)) ;;;
    upd_plat dev (store input_latency)
  else ret tt.

Definition lan8814_ts_clock_egress_latency_set_priv (dev input_latency two_step : Z) : M Z :=
  data <- data_of dev ;;
  base_dev <- deref (pd_base_dev data) ;;
  base_data <- data_of base_dev ;;
  let speed := conf_speed (pd_conf data) in
  let dflt := ts_default_latencies (pd_ts_state base_data) in
  (if speed =? MEPA_SPEED_10M then
     latency <- egress_latency base_data MEPA_SPEED_10M (lat_tx10mbps dflt) input_latency two_step ;;
     egress_latency_case dev latency input_latency LAN8814_PTP_TX_LATENCY_10 set_lat_tx10mbps
   else if speed =? MEPA_SPEED_100M then
     latency <- egress_latency base_data MEPA_SPEED_100M (lat_tx100mbps dflt) input_latency two_step ;;
     egress_latency_case dev latency input_latency LAN8814_PTP_TX_LATENCY_100 set_lat_tx100mbps
   else if (speed =? MEPA_SPEED_1G) || (speed =? MEPA_SPEED_AUTO) then
     latency <- egress_latency base_data MEPA_SPEED_1G (lat_tx1000mbps dflt) input_latency two_step ;;
     egress_latency_case dev latency input_latency LAN8814_PTP_TX_LATENCY_1000 set_lat_tx1000mbps
   else ret tt) ;;;
  ret MEPA_RC_OK.

(** An enabled two-step clock. *)
Definition is_two_step (c : mepa_ts_ptp_clock_conf_t) : Z :=
  if tb (clk_enable c) && ((clk_clk_mode c =? MEPA_TS_PTP_CLOCK_MODE_BC2STEP)
                           || (clk_clk_mode c =? MEPA_TS_PTP_CLOCK_MODE_TC2STEP))
  then TRUE else FALSE.

Definition lan8814_ts_clock_egress_latency_set (dev : Z) (latency : option Z) : M Z :=
  data <- data_of dev ;;
  match latency with
  | None => ret MEPA_RC_ERROR
  | Some latency =>
  mepa_enter ;;;
  let two_step_lat := is_two_step (tp_tx_clock_conf (ts_ts_port_conf (pd_ts_state data))) in
  rc <- lan8814_ts_clock_egress_latency_set_priv dev latency two_step_lat ;;
  mepa_exit ;;;
  ret rc
  end.

Definition lan8814_ts_reload_egress_latency (dev two_step : Z) : M Z :=
  data <- data_of dev ;;
  base_dev <- deref (pd_base_dev data) ;;
  base_data <- data_of base_dev ;;
  let dflt := ts_default_latencies (pd_ts_state base_data) in
  let user := tp_port_latencies (ts_ts_port_conf (pd_ts_state data)) in
  latency <- egress_latency base_data MEPA_SPEED_10M (lat_tx10mbps dflt) (lat_tx10mbps user) two_step ;;
  EP_WR dev LAN8814_PTP_TX_LATENCY_10 (u16 (if latency >? 0 then latency .>> 16 else 0)) ;;;
  latency <- egress_latency base_data MEPA_SPEED_100M (lat_tx100mbps dflt) (lat_tx100mbps user) two_step ;;
  EP_WR dev LAN8814_PTP_TX_LATENCY_100 (u16 (if latency >? 0 then latency .>> 16 else 0)) ;;;
  latency <- egress_latency base_data MEPA_SPEED_1G (lat_tx1000mbps dflt) (lat_tx1000mbps user) two_step ;;
  EP_WR dev LAN8814_PTP_TX_LATENCY_1000 (u16 (if latency >? 0 then latency .>> 16 else 0)) ;;;
  ret MEPA_RC_OK.

Definition lan8814_ts_clock_ingress_latency_get (dev : Z) (latency : option Z) : M (Z * option Z) :=
  data <- data_of dev ;;
  match latency with
  | None => ret (MEPA_RC_ERROR, None)
  | Some latency =>
  mepa_enter ;;;
  let l := tp_port_latencies (ts_ts_port_conf (pd_ts_state data)) in
  let speed := conf_speed (pd_conf data) in
  let latency :=
    if speed =? MEPA_SPEED_10M then lat_rx10mbps l
    else if speed =? MEPA_SPEED_100M then lat_rx100mbps l
    else if (speed =? MEPA_SPEED_1G) || (speed =? MEPA_SPEED_AUTO) then lat_rx1000mbps l
    else latency in
  mepa_exit ;;;
  ret (MEPA_RC_OK, Some latency)
  end.

(** One case of the switch; [val] is the magnitude of the latency in
    nanoseconds, modulo [2^16]. *)
Definition ingress_latency_case (dev latency val dflt : Z) (r : ereg)
    (store : Z -> lan8814_ts_port_latencies_t -> lan8814_ts_port_latencies_t) : M unit :=
  if latency >=? 0 then
    EP_WRM dev r (u16 (u16 ((dflt .>> 16) .& 0xFFFF) + val)) LAN8814_DEF_MASK ;;;
    upd_plat dev (store latency)
  else if (dflt .>> 16) <=? val then ret tt
  else
    EP_WRM dev r (u16 (u16 ((dflt .>> 16) .& 0xFFFF) - val)) LAN8814_DEF_MASK ;;;
    upd_plat dev (store latency).

Definition lan8814_ts_clock_ingress_latency_set (dev : Z) (latency : option Z) : M Z :=
  data <- data_of dev ;;
  match latency with
  | None => ret MEPA_RC_ERROR
  | Some latency =>
  mepa_enter ;;;
  base_dev <- deref (pd_base_dev data) ;;
  base_phy <- data_of base_dev ;;
  magnitude <- ck64 (Z.abs latency) ;;
  let val := (magnitude .>> 16) .& 0xFFFF in
  let speed := conf_speed (pd_conf data) in
  let dflt := ts_default_latencies (pd_ts_state base_phy) in
  (if speed =? MEPA_SPEED_10M then
     ingress_latency_case dev latency val (lat_rx10mbps dflt) LAN8814_PTP_RX_LATENCY_10 set_lat_rx10mbps
   else if speed =? MEPA_SPEED_100M then
     ingress_latency_case dev latency val (lat_rx100mbps dflt) LAN8814_PTP_RX_LATENCY_100 set_lat_rx100mbps
   else if (speed =? MEPA_SPEED_1G) || (speed =? MEPA_SPEED_AUTO) then
     ingress_latency_case dev latency val (lat_rx1000mbps dflt) LAN8814_PTP_RX_LATENCY_1000 set_lat_rx1000mbps
   else ret tt) ;;;
  mepa_exit ;;;
  ret MEPA_RC_OK
  end.

(** ** Pulse per second *)

Definition lan8814_ts_pps_conf_get (dev : Z) : M (Z * mepa_ts_pps_conf_t) :=
  data <- data_of dev ;;
  mepa_enter ;;;
  mepa_exit ;;;
  ret (MEPA_RC_OK, ts_pps (pd_ts_state data)).

(** The pulse widths of the chip, in nanoseconds. *)
Definition pps_widths : list Z :=
  [100; 500; 1000; 5000; 10000; 50000; 100000; 500000; 1000000; 5000000; 10000000;
   50000000; 100000000; 200000000].

(** The first width that is enough; the loop leaves [i] at the length of the
    table when there is none. *)
Fixpoint pps_search (width i : Z) (pps : list Z) : Z :=
  match pps with
  | [] => i
  | p :: pps => if width <=? p then i else pps_search width (i + 1) pps
  end.
Definition pps_option (width : Z) : Z :=
  let i := pps_search width 0 pps_widths in
  let pps_num := Z.of_nat (length pps_widths) in
  if i >=? pps_num then pps_num - 1 else i.

Definition lan8814_ts_pps_conf_set (dev : Z) (phy_pps_conf : mepa_ts_pps_conf_t) : M Z :=
  data <- data_of dev ;;
  base_dev <- deref (pd_base_dev data) ;;
  data_of base_dev ;;;
  let* (_, ts) <- lan8814_ts_ltc_get dev (Some mepa_timestamp_t_0) ;;
  let ts := default mepa_timestamp_t_0 ts in
  mepa_enter ;;;
  upd_ts dev (set_ts_pps phy_pps_conf) ;;;
  upd_ts base_dev (set_ts_pps phy_pps_conf) ;;;
  (if tb (pps_output_enable phy_pps_conf) then
     lan8814_ltc_target_seconds dev (u32 (tm_seconds_low ts + 2)) ;;;
     EP_WRM dev LAN8814_PTP_LTC_TARGET_RELOAD_SEC_HI_A 0 LAN8814_DEF_MASK ;;;
     EP_WRM dev LAN8814_PTP_LTC_TARGET_RELOAD_SEC_LO_A 1 LAN8814_DEF_MASK ;;;
     EP_WRM dev LAN8814_PTP_LTC_TARGET_RELOAD_NS_HI_A 0 LAN8814_DEF_MASK ;;;
     EP_WRM dev LAN8814_PTP_LTC_TARGET_RELOAD_NS_LO_A 0 LAN8814_DEF_MASK ;;;
     let i := pps_option (pps_width_adj phy_pps_conf) in
     EP_WRM dev LAN8814_PTP_GENERAL_CONFIG ((i .<< 4) .| 0x2) LAN8814_DEF_MASK
   else
     lan8814_ltc_target_seconds dev 0 ;;;
     EP_WR dev LAN8814_PTP_GENERAL_CONFIG 0) ;;;
  upd_ts dev (set_ts_pps phy_pps_conf) ;;;
  upd_ts base_dev (set_ts_pps phy_pps_conf) ;;;
  mepa_exit ;;;
  ret MEPA_RC_OK.

(** ** Statistics *)

Definition lan8814_ts_stats_get (dev : Z) (statistics : option mepa_ts_stats_t)
  : M (Z * option mepa_ts_stats_t) :=
  match statistics with
  | None => ret (MEPA_RC_ERROR, None)
  | Some _ =>
  mepa_enter ;;;
  let s := mepa_ts_stats_t_0 in
  val <- EP_RD_INCR dev LAN8814_PTP_TX_CHKSUM_DROPPED_CNT_HI 0 TRUE ;;
  val2 <- EP_RD_INCR dev LAN8814_PTP_TX_CHKSUM_DROPPED_CNT_LO 0 FALSE ;;
  let s := set_stats_egr_fcs_err (u32 (val .<< 16) .| val2) s in
  val <- EP_RD_INCR dev LAN8814_PTP_TX_FRMS_MOD_CNT_HI val FALSE ;;
  val2 <- EP_RD_INCR dev LAN8814_PTP_TX_FRMS_MOD_CNT_LO val2 FALSE ;;
  let s := set_stats_egr_frm_mod_cnt (u32 (val .<< 16) .| val2) s in
  val <- EP_RD_INCR dev LAN8814_PTP_RX_CHKSUM_DROPPED_CNT_HI val TRUE ;;
  val2 <- EP_RD_INCR dev LAN8814_PTP_RX_CHKSUM_DROPPED_CNT_LO val2 FALSE ;;
  let s := set_stats_ingr_fcs_err (u32 (val .<< 16) .| val2) s in
  val <- EP_RD_INCR dev LAN8814_PTP_RX_FRMS_MOD_CNT_HI val FALSE ;;
  val2 <- EP_RD_INCR dev LAN8814_PTP_RX_FRMS_MOD_CNT_LO val2 FALSE ;;
  let s := set_stats_ingr_frm_mod_cnt (u32 (val .<< 16) .| val2) s in
  mepa_exit ;;;
  ret (MEPA_RC_OK, Some s)
  end.

(** ** Events *)

Definition lan8814_ts_event_get (dev : Z) (ev_mask : option Z) : M (Z * option Z) :=
  data <- data_of dev ;;
  match ev_mask with
  | None => ret (MEPA_RC_ERROR, None)
  | Some _ =>
  mepa_enter ;;;
  mepa_exit ;;;
  ret (MEPA_RC_OK, Some (tp_event_mask (ts_ts_port_conf (pd_ts_state data))))
  end.

(** The interrupt enables of an event mask. *)
Definition ts_int_en (event_mask mask : Z) : Z :=
  let mask := if tb (event_mask .& MEPA_TS_EGR_FIFO_OVERFLOW)
              then mask .| LAN8814_PTP_TSU_INT_TX_TS_OVRFL_EN
              else mask .& .~ LAN8814_PTP_TSU_INT_TX_TS_OVRFL_EN in
  if tb (event_mask .& MEPA_TS_EGR_TIMESTAMP_CAPTURED)
  then mask .| LAN8814_PTP_TSU_INT_TX_TS_EN
  else mask .& .~ LAN8814_PTP_TSU_INT_TX_TS_EN.

Definition lan8814_ts_event_set (dev enable ev_mask : Z) : M Z :=
  data <- data_of dev ;;
  mepa_enter ;;;
  let old := tp_event_mask (ts_ts_port_conf (pd_ts_state data)) in
  let '(mask_changed, event_mask) :=
    if tb enable then ((old .& ev_mask) =? 0, old .| ev_mask)
    else (negb ((old .& ev_mask) =? 0), old .& .~ ev_mask) in
  upd_tp dev (set_tp_event_mask event_mask) ;;;
  (if mask_changed : bool then
     mask <- EP_RD dev LAN8814_PTP_TSU_INT_EN 0 ;;
     EP_WRM dev LAN8814_PTP_TSU_INT_EN (ts_int_en event_mask mask) LAN8814_DEF_MASK
   else ret tt) ;;;
  mepa_exit ;;;
  ret MEPA_RC_OK.

(** [status] is what the caller's variable holds: events are added to it. *)
Definition lan8814_ts_event_poll (dev : Z) (status : option Z) : M (Z * option Z) :=
  data <- data_of dev ;;
  match status with
  | None => ret (MEPA_RC_ERROR, None)
  | Some status =>
  mepa_enter ;;;
  let chip_port := pd_packet_idx data mod 4 in
  let event_mask := tp_event_mask (ts_ts_port_conf (pd_ts_state data)) in
  let* (rc, val) <- lan8814_ext_reg_rd dev (fst LAN8814_CHIP_LVL_INTR_STATUS)
                      (snd LAN8814_CHIP_LVL_INTR_STATUS) 0 ;;
  let* (rc, status) <-
    (if tb (val .& (1 .<< chip_port)) then
       let* (rc, val) <- lan8814_ext_reg_rd dev (fst LAN8814_PTP_TSU_INT_STS)
                           (snd LAN8814_PTP_TSU_INT_STS) val ;;
       let status := if tb (val .& LAN8814_PTP_TX_TS_OVRFL_INT)
                     then status .| (event_mask .& MEPA_TS_EGR_FIFO_OVERFLOW) else status in
       let status := if tb (val .& LAN8814_PTP_TX_TS_INT)
                     then status .| (event_mask .& MEPA_TS_EGR_TIMESTAMP_CAPTURED) else status in
       ret (rc, status)
     else ret (rc, status)) ;;
  mepa_exit ;;;
  ret (rc, Some status)
  end.

(** ** The time stamp FIFO *)

Definition lan8814_ts_fifo_read_install (dev : Z) (rd_cb : option Z) : M unit :=
  data_of dev ;;;
  mepa_enter ;;;
  upd_ts dev (set_ts_fifo_cb rd_cb) ;;;
  mepa_exit.

(** What an entry's first four words, and its two header words, say. *)
Definition fifo_ts (ns_hi ns_lo sec_hi sec_lo : Z) (ts : mepa_timestamp_t) : mepa_timestamp_t :=
  set_tm_seconds_low (u32 (sec_hi .<< 16) .| sec_lo)
    (set_tm_nanoseconds (u32 ((ns_hi .& 0x3fff) .<< 16) .| ns_lo) ts).
Definition fifo_sig (head1 head2 : Z) (sig : mepa_ts_fifo_sig_t) : mepa_ts_fifo_sig_t :=
  set_sig_sequence_id head2 (set_sig_dmac_addr (repeat 0 6) (set_sig_dest_ipv4 (repeat 0 4)
  (set_sig_ipv6_sig_supported FALSE (set_sig_ipv4_sig_supported FALSE
  (set_sig_dmac_sig_supported FALSE (set_sig_has_crc_src TRUE
  (set_sig_crc_src_port (head1 .>> 4) (set_sig_msg_type (head1 .& 0xF) sig)))))))).

(** The callback into the application, with what it reads of its arguments. *)
Definition fifo_callback (rd_cb : option Z) (port_no : Z) (ts : mepa_timestamp_t)
    (sig : mepa_ts_fifo_sig_t) (status : Z) : M unit :=
  cb <- deref rd_cb ;;
  log (EvCall port_no [cb; tm_seconds_low ts; tm_nanoseconds ts; sig_msg_type sig;
                       sig_sequence_id sig; sig_crc_src_port sig; status]).

(** The [do .. while (valid_ts)] loop; [None] when [turns] turns were not
    enough.  The lock is released around the callback. *)
Fixpoint tx_ts_loop (turns : nat) (dev : Z) (data : phy_data_t) (val head1 head2 : Z) : M (option unit) :=
  match turns with
  | O => ret None
  | S turns =>
  val <- EP_RD dev LAN8814_PTP_TX_TS_NS_HI val ;;
  if tb (val .& LAN8814_PTP_TX_TS_NS_PTP_TX_TS_VALID) then
    let ns_hi := val in
    ns_lo <- EP_RD dev LAN8814_PTP_TX_TS_NS_LO 0 ;;
    sec_hi <- EP_RD dev LAN8814_PTP_TX_TS_SEC_HI 0 ;;
    sec_lo <- EP_RD dev LAN8814_PTP_TX_TS_SEC_LO 0 ;;
    head1 <- EP_RD dev LAN8814_PTP_TX_MSG_HEADER1 head1 ;;
    head2 <- EP_RD dev LAN8814_PTP_TX_MSG_HEADER2 head2 ;;
    mepa_exit ;;;
    fifo_callback (ts_fifo_cb (pd_ts_state data)) (pd_port_no data)
      (fifo_ts ns_hi ns_lo sec_hi sec_lo mepa_timestamp_t_0)
      (fifo_sig head1 head2 mepa_ts_fifo_sig_t_0) MEPA_TS_FIFO_SUCCESS ;;;
    mepa_enter ;;;
    tx_ts_loop turns dev data sec_lo head1 head2
  else ret (Some tt)
  end.

Definition lan8814_ts_tx_ts_get (turns : nat) (dev : Z) : M (option Z) :=
  data <- data_of dev ;;
  mepa_enter ;;;
  r <- tx_ts_loop turns dev data 0 0 0 ;;
  match r with
  | None => ret None
  | Some _ =>
  mepa_exit ;;;
  ret (Some MEPA_RC_OK)
  end.

(** The [for] loop over the entries of the caller's array. *)
Fixpoint fifo_loop (n : nat) (dev val i : Z) (ts_list : list mepa_fifo_ts_entry_t)
  : M (Z * list mepa_fifo_ts_entry_t) :=
  match n with
  | O => ret (i, ts_list)
  | S n =>
  val <- EP_RD_INCR dev LAN8814_PTP_TX_TS_NS_HI val TRUE ;;
  if tb (val .& LAN8814_PTP_TX_TS_NS_PTP_TX_TS_VALID) then
    entry <- arr ts_list i ;;
    ns_lo <- EP_RD_INCR dev LAN8814_PTP_TX_TS_NS_LO val FALSE ;;
    sec_hi <- EP_RD_INCR dev LAN8814_PTP_TX_TS_SEC_HI ns_lo FALSE ;;
    sec_lo <- EP_RD_INCR dev LAN8814_PTP_TX_TS_SEC_LO sec_hi FALSE ;;
    let ts := set_tm_seconds_high 0 (fifo_ts val ns_lo sec_hi sec_lo (fe_ts entry)) in
    head1 <- EP_RD_INCR dev LAN8814_PTP_TX_MSG_HEADER1 sec_lo FALSE ;;
    head2 <- EP_RD_INCR dev LAN8814_PTP_TX_MSG_HEADER2 head1 FALSE ;;
    let entry := Mk_mepa_fifo_ts_entry_t (fifo_sig head1 head2 (fe_sig entry)) ts in
    fifo_loop n dev head2 (i + 1) (<[Z.to_nat i := entry]> ts_list)
  else ret (i, ts_list)
  end.

(** The code, the caller's array and [*num]; the array has [size] entries. *)
Definition lan8814_ts_fifo_get (dev : Z) (ts_list : list mepa_fifo_ts_entry_t) (size num : Z)
  : M (Z * list mepa_fifo_ts_entry_t * Z) :=
  if size <? MEPA_TS_FIFO_MAX_ENTRIES then ret (MEPA_RC_ERROR, ts_list, num) else
  mepa_enter ;;;
  let* (num, ts_list) <- fifo_loop (Z.to_nat MEPA_TS_FIFO_MAX_ENTRIES) dev
                           (uninit16 "lan8814_ts_fifo_get.val") 0 ts_list ;;
  mepa_exit ;;;
  ret (MEPA_RC_OK, ts_list, num).

Definition lan8814_ts_pch_mch_error_get (dev : Z) : M (Z * mepa_pch_mch_mismatch_info_t) :=
  mepa_enter ;;;
  val <- EP_RD dev LAN8814_PTP_PCH_FORMAT_MISMATCH 0 ;;
  let info := Mk_mepa_pch_mch_mismatch_info_t
    (u8 (val .& LAN8814_PTP_PCH_FORMAT_MISMATCH_SUB_PORT_ID))
    (u8 (val .& LAN8814_PTP_PCH_FORMAT_MISMATCH_CRC_ERR))
    (u8 (val .& LAN8814_PTP_PCH_FORMAT_MISMATCH_EXT_TYPE))
    (u8 (val .& LAN8814_PTP_PCH_FORMAT_MISMATCH_PKT_TYPE)) in
  mepa_exit ;;;
  ret (MEPA_RC_OK, info).
End Ts.

(** ** Safety *)
Section Safe.
Context {B : Type} {CO : Callout B} {OK : CalloutOk (CO := CO)} (E : env) {EOK : EnvOk E}.
Local Abbreviation safe := (safe (B := B) (linked E)).
Implicit Types dev : Z.

Lemma safe_upd_ts dev f h :
  e_devs E dev = true -> (forall s, ts_wf s -> ts_wf (f s)) -> safe h (upd_ts dev f) h.
Proof. intros Hd Hf. apply safe_upd_dev; [done|]. intros d [Hb Ht]. by split; [|apply Hf]. Qed.
Lemma safe_upd_tp dev f h :
  e_devs E dev = true ->
  (forall p, latencies_ok (tp_port_latencies p) -> latencies_ok (tp_port_latencies (f p))) ->
  safe h (upd_tp dev f) h.
Proof.
  intros Hd Hf. apply safe_upd_ts; [done|]. intros s (Hc & Hl & Hp).
  split; [done|split; [done|by apply Hf]].
Qed.
Lemma safe_upd_dlat dev f h :
  e_devs E dev = true -> (forall l, latencies_ok l -> latencies_ok (f l)) ->
  safe h (upd_dlat dev f) h.
Proof.
  intros Hd Hf. apply safe_upd_ts; [done|]. intros s (Hc & Hl & Hp).
  split; [done|split; [by apply Hf|done]].
Qed.
Lemma safe_upd_plat dev f h :
  e_devs E dev = true -> (forall l, latencies_ok l -> latencies_ok (f l)) ->
  safe h (upd_plat dev f) h.
Proof. intros Hd Hf. apply safe_upd_tp; [done|]. intros p. apply Hf. Qed.

(** An update that keeps what [ts_wf] looks at. *)
#[local] Hint Extern 1 (safe _ (upd_ts _ _) _) =>
  apply safe_upd_ts; [solve [eauto 3 with safe] | intros ? HH; exact HH] : safe.
#[local] Hint Extern 1 (safe _ (upd_tp _ _) _) =>
  apply safe_upd_tp; [solve [eauto 3 with safe] | intros ? HH; exact HH] : safe.

Lemma safe_tsu_block_init dev c :
  e_devs E dev = true -> safe true (lan8814_tsu_block_init dev c) true.
Proof. lan_safe lan8814_tsu_block_init. Qed.

Lemma safe_default_latency dev (tbl : list (list Z)) f c r store :
  e_devs E dev = true -> 0 <= f < Z.of_nat (length tbl) -> 0 <= c < 3 ->
  Forall (fun row => length row = 3%nat /\ Forall (fun v => 0 <= v < 2 ^ 16) row) tbl ->
  (forall v l, latency_ok v -> latencies_ok l -> latencies_ok (store v l)) ->
  safe true (default_latency dev tbl f c r store) true.
Proof.
  intros Hd Hf Hc Ht Hs. apply safe_arr; [done|]. intros row Hrow.
  rewrite Forall_lookup in Ht. destruct (Ht _ _ Hrow) as [Hlen Hrv].
  apply safe_arr; [by rewrite Hlen|]. intros v Hv. rewrite Forall_lookup in Hrv.
  specialize (Hrv _ _ Hv). eapply safe_bind; [eauto with safe|intros _].
  eapply safe_bind; [|intros _; apply safe_ret]. apply safe_upd_dlat; [done|].
  intros l. apply Hs. unfold latency_ok. rewrite Z.shiftl_mul_pow2 by lia. lia.
Qed.

Lemma latency_tables :
  Forall (fun row => length row = 3%nat /\ Forall (fun v => 0 <= v < 2 ^ 16) row) lan8814_ing_latencies /\
  Forall (fun row => length row = 3%nat /\ Forall (fun v => 0 <= v < 2 ^ 16) row) lan8814_egr_latencies.
Proof. split; repeat constructor; lia. Qed.

(** A clock frequency that has rows in the tables. *)
Definition freq_ok (c : mepa_ts_init_conf_t) : Prop := 0 <= ti_clk_freq c < 5.

#[local] Hint Resolve safe_tsu_block_init : safe.

Lemma safe_ts_port_init dev c :
  e_devs E dev = true -> freq_ok c -> safe true (lan8814_ts_port_init dev c) true.
Proof.
  intros Hd Hf. destruct latency_tables as [Hi He].
  assert (forall tbl k r store, 0 <= k < 3 ->
    (forall v l, latency_ok v -> latencies_ok l -> latencies_ok (store v l)) ->
    tbl = lan8814_ing_latencies \/ tbl = lan8814_egr_latencies ->
    safe true (default_latency dev tbl (ti_clk_freq c) k r store) true) as Hl.
  { intros tbl k r store Hk Hs Ht. apply safe_default_latency; try done.
    - destruct Ht as [-> | ->]; exact Hf.
    - by destruct Ht as [-> | ->]. }
  unfold lan8814_ts_port_init. apply safe_data; [done|]. intros d _ _.
  eapply safe_bind; [safe_auto|intros _].
  eapply safe_bind; [|intros _].
  { apply safe_upd_ts; [done|]. intros s (Hc & Hl1 & Hl2).
    unfold freq_ok in Hf. split; [cbn; lia|by split]. }
  eapply safe_bind; [safe_auto|intros _].
  eapply safe_bind; [apply safe_upd_tp; [done|by intros p]|intros _]. cbv zeta.
  do 6 (eapply safe_bind; [apply Hl; [lia| |by auto];
    intros v l Hv (?&?&?&?&?&?); refine (conj _ (conj _ (conj _ (conj _ (conj _ _))))); assumption|intros ?]).
  safe_auto.
Qed.

(** On the base port a frequency without rows is refused first. *)
Lemma returns_tsu_block_init dev c : ~ freq_ok c ->
  returns (B := B) (fun rc => rc = MEPA_RC_ERROR) (lan8814_tsu_block_init dev c).
Proof.
  intros Hf. unfold lan8814_tsu_block_init. apply returns_bind; intros _.
  destruct (negb _); [by apply returns_ret|]. apply returns_bind; intros v.
  destruct (ref_clk_source _); [|by apply returns_ret].
  assert (ref_clk_period (ti_clk_freq c) = None) as ->; [|by apply returns_ret].
  unfold ref_clk_period, freq_ok in *. repeat case_match; try done; exfalso; apply Hf;
    match goal with H : (_ =? _) = true |- _ => apply Z.eqb_eq in H; rewrite H end; done.
Qed.

Lemma safe_ts_init_conf_set dev c :
  e_devs E dev = true ->
  (forall c', c = Some c' -> freq_ok c' \/ e_base E dev = dev) ->
  safe false (lan8814_ts_init_conf_set dev c) false.
Proof.
  intros Hd Hc. unfold lan8814_ts_init_conf_set. apply safe_data; [done|]. intros d Hb _.
  destruct c as [c|]; [|apply safe_ret]. specialize (Hc c eq_refl). rewrite Hb. cbn [ptr_is].
  destruct (decide (freq_ok c)) as [Hf|Hf].
  - eapply safe_bind; [safe_auto|intros rc]. apply safe_if; [apply safe_ret|].
    pose proof (safe_ts_port_init dev c Hd Hf). safe_auto.
  - destruct Hc as [?|He]; [done|]. rewrite He, Z.eqb_refl.
    eapply (safe_bind_returns _ _ _ _ (fun rc => rc = MEPA_RC_ERROR)); [safe_auto| |].
    + do 2 (apply returns_bind; intros _). intros w rc w' H.
      apply bind_Some in H as (rc1 & w1 & H1 & H2).
      apply returns_tsu_block_init in H1; [|done]. subst.
      apply bind_Some in H2 as (? & ? & _ & H2). by injection H2 as <- _.
    + intros rc ->. apply safe_ret.
Qed.

Lemma safe_ts_init_conf_get dev c :
  e_devs E dev = true -> safe false (lan8814_ts_init_conf_get dev c) false.
Proof. lan_safe lan8814_ts_init_conf_get. Qed.
Lemma safe_ts_mode_set dev en : e_devs E dev = true -> safe false (lan8814_ts_mode_set dev en) false.
Proof. lan_safe lan8814_ts_mode_set. Qed.
Lemma safe_ts_reset dev : safe false (lan8814_ts_reset dev) false.
Proof. lan_safe lan8814_ts_reset. Qed.
Lemma safe_ts_mode_get dev : e_devs E dev = true -> safe false (lan8814_ts_mode_get dev) false.
Proof. lan_safe lan8814_ts_mode_get. Qed.
Lemma safe_ts_ltc_ls_en_set dev t :
  e_devs E dev = true -> safe false (lan8814_ts_ltc_ls_en_set dev t) false.
Proof. lan_safe lan8814_ts_ltc_ls_en_set. Qed.
Lemma safe_ltc_get_gpio dev ts : safe true (ltc_get_gpio dev ts) true.
Proof. lan_safe ltc_get_gpio. Qed.
Lemma safe_ltc_get_command dev ts : safe true (ltc_get_command dev ts) true.
Proof. lan_safe ltc_get_command. Qed.
#[local] Hint Resolve safe_ltc_get_gpio safe_ltc_get_command : safe.
Lemma safe_ts_ltc_get dev ts : e_devs E dev = true -> safe false (lan8814_ts_ltc_get dev ts) false.
Proof. lan_safe lan8814_ts_ltc_get. Qed.
Lemma safe_ltc_target_seconds dev s :
  e_devs E dev = true -> safe true (lan8814_ltc_target_seconds dev s) true.
Proof. lan_safe lan8814_ltc_target_seconds. Qed.
#[local] Hint Resolve safe_ts_ltc_get safe_ltc_target_seconds : safe.
Lemma safe_ts_ltc_set dev ts : e_devs E dev = true -> safe false (lan8814_ts_ltc_set dev ts) false.
Proof. lan_safe lan8814_ts_ltc_set. Qed.
Lemma safe_ts_clock_rateadj_get dev a :
  e_devs E dev = true -> safe false (lan8814_ts_clock_rateadj_get dev a) false.
Proof. lan_safe lan8814_ts_clock_rateadj_get. Qed.
Lemma safe_ts_clock_adj1ns dev i :
  e_devs E dev = true -> safe false (lan8814_ts_clock_adj1ns dev i) false.
Proof. lan_safe lan8814_ts_clock_adj1ns. Qed.
Lemma safe_ts_clock_rateadj_set dev adj :
  e_devs E dev = true -> (forall a, adj = Some a -> Z.abs a < 2 ^ 63) ->
  safe false (lan8814_ts_clock_rateadj_set dev adj) false.
Proof.
  intros Hd Ha. unfold lan8814_ts_clock_rateadj_set. do 3 lan_step. destruct adj as [a|]; [|apply safe_ret].
  specialize (Ha a eq_refl). eapply safe_bind; [apply safe_enter|intros _].
  eapply safe_bind; [|intros _; safe_auto]. apply safe_if; [|apply safe_ret].
  apply safe_ck64; [lia|]. cbv zeta. apply safe_if; [apply safe_ret|]. safe_auto.
Qed.

Lemma safe_ts_clock_delay_asymmetry_get dev :
  e_devs E dev = true -> safe false (lan8814_ts_clock_delay_asymmetry_get dev) false.
Proof. lan_safe lan8814_ts_clock_delay_asymmetry_get. Qed.
Lemma safe_ts_clock_delay_asymmetry_set dev a :
  e_devs E dev = true -> safe false (lan8814_ts_clock_delay_asymmetry_set dev a) false.
Proof. lan_safe lan8814_ts_clock_delay_asymmetry_set. Qed.
Lemma safe_ts_clock_path_delay_get dev p :
  e_devs E dev = true -> safe false (lan8814_ts_clock_path_delay_get dev p) false.
Proof. lan_safe lan8814_ts_clock_path_delay_get. Qed.
Lemma safe_ts_clock_path_delay_set dev p :
  e_devs E dev = true -> safe false (lan8814_ts_clock_path_delay_set dev p) false.
Proof. lan_safe lan8814_ts_clock_path_delay_set. Qed.
Lemma safe_ts_clock_egress_latency_get dev l :
  e_devs E dev = true -> safe false (lan8814_ts_clock_egress_latency_get dev l) false.
Proof. lan_safe lan8814_ts_clock_egress_latency_get. Qed.
Lemma safe_ts_clock_ingress_latency_get dev l :
  e_devs E dev = true -> safe false (lan8814_ts_clock_ingress_latency_get dev l) false.
Proof. lan_safe lan8814_ts_clock_ingress_latency_get. Qed.

Lemma twostep_table :
  Forall (fun row => length row = 4%nat /\ Forall (fun v => 0 <= v < 2 ^ 16) row) lan8814_twostep_egr_lat_adj.
Proof. repeat constructor; lia. Qed.

Lemma safe_egress_latency {A} b speed dflt x two h (k : Z -> M B phy_data_t A) h' :
  ts_wf (pd_ts_state b) -> 0 <= speed < 4 -> latency_ok dflt -> latency_ok x ->
  (forall l, safe h (k l) h') -> safe h (bind (egress_latency b speed dflt x two) k) h'.
Proof.
  intros (Hc & _) Hs Hl Hx Hk. unfold latency_ok in *. eapply safe_bind; [|intros l; apply Hk].
  unfold egress_latency.
  eapply (safe_bind_returns _ _ h _ (fun l => - 2 ^ 62 <= l <= 2 ^ 62)).
  - destruct (tb two); [|apply safe_ret]. apply safe_arr; [exact Hc|]. intros row Hr.
    destruct (proj1 (Forall_lookup _ _) twostep_table _ _ Hr) as [Hn Hv].
    apply safe_arr; [by rewrite Hn|]. intros v Hvv.
    pose proof (proj1 (Forall_lookup _ _) Hv _ _ Hvv) as Hb. cbn beta in Hb.
    apply safe_in_ck64. rewrite Z.shiftl_mul_pow2 by lia. lia.
  - destruct (tb two); [|apply returns_ret; lia].
    eapply returns_bind_with; [apply returns_arr, twostep_table|]. intros row [_ Hrow].
    eapply returns_bind_with; [apply returns_arr, Hrow|]. intros v Hv. cbn beta in Hv.
    apply returns_ck64. rewrite Z.shiftl_mul_pow2 by lia. lia.
  - intros l Hlb. apply safe_in_ck64. lia.
Qed.

(** The latencies an application may ask for. *)
Lemma safe_egress_latency_case dev l x r store :
  e_devs E dev = true -> latency_ok x ->
  (forall v l, latency_ok v -> latencies_ok l -> latencies_ok (store v l)) ->
  safe true (egress_latency_case dev l x r store) true.
Proof.
  intros Hd Hx Hs. unfold egress_latency_case. apply safe_if; [|apply safe_ret].
  eapply safe_bind; [eauto with safe|intros _]. apply safe_upd_plat; [done|]. intros p. by apply Hs.
Qed.
Lemma safe_ingress_latency_case dev l v x r store :
  e_devs E dev = true -> latency_ok l ->
  (forall v l, latency_ok v -> latencies_ok l -> latencies_ok (store v l)) ->
  safe true (ingress_latency_case dev l v x r store) true.
Proof.
  intros Hd Hx Hs. unfold ingress_latency_case.
  apply safe_if; [|apply safe_if; [apply safe_ret|]];
    (eapply safe_bind; [eauto with safe|intros _]; apply safe_upd_plat; [done|]; intros p; by apply Hs).
Qed.

Local Ltac lat_store := intros ? ? ? (?&?&?&?&?&?);
  refine (conj _ (conj _ (conj _ (conj _ (conj _ _))))); assumption.

Lemma safe_ts_clock_egress_latency_set_priv dev x two :
  e_devs E dev = true -> latency_ok x ->
  safe true (lan8814_ts_clock_egress_latency_set_priv dev x two) true.
Proof.
  intros Hd Hx. unfold lan8814_ts_clock_egress_latency_set_priv.
  do 2 lan_step. apply safe_data; [eauto with safe|]. intros b _ Hb. cbv zeta.
  pose proof Hb as (_ & (_&_&_&?&?&?) & _). eapply safe_bind; [|intros _; apply safe_ret].
  do 3 (apply safe_if; [apply safe_egress_latency; [done|done|done|done|intros;
    apply safe_egress_latency_case; [done|done|lat_store]]|]).
  apply safe_ret.
Qed.
Lemma safe_ts_clock_egress_latency_set dev l :
  e_devs E dev = true -> (forall x, l = Some x -> latency_ok x) ->
  safe false (lan8814_ts_clock_egress_latency_set dev l) false.
Proof.
  intros Hd Hl. unfold lan8814_ts_clock_egress_latency_set. lan_step. destruct l as [x|]; [|apply safe_ret].
  specialize (Hl x eq_refl). pose proof (fun two => safe_ts_clock_egress_latency_set_priv dev x two Hd Hl).
  cbv zeta. safe_auto.
Qed.
Lemma safe_ts_reload_egress_latency dev two :
  e_devs E dev = true -> safe true (lan8814_ts_reload_egress_latency dev two) true.
Proof.
  intros Hd. unfold lan8814_ts_reload_egress_latency. apply safe_data; [done|]. intros d Hbd Htd.
  lan_step. apply safe_data; [eauto with safe|]. intros b _ Hb. cbv zeta.
  pose proof Hb as (_ & (_&_&_&?&?&?) & _). pose proof Htd as (_ & _ & (_&_&_&?&?&?)).
  do 3 (apply safe_egress_latency; [done|done|done|done|intros ?];
        eapply safe_bind; [eauto with safe|intros _]).
  apply safe_ret.
Qed.
Lemma safe_ts_clock_ingress_latency_set dev l :
  e_devs E dev = true -> (forall x, l = Some x -> latency_ok x) ->
  safe false (lan8814_ts_clock_ingress_latency_set dev l) false.
Proof.
  intros Hd Hl. unfold lan8814_ts_clock_ingress_latency_set. lan_step. destruct l as [x|]; [|apply safe_ret].
  specialize (Hl x eq_refl). eapply safe_bind; [eauto with safe|intros _]. do 2 lan_step.
  apply safe_ck64; [unfold latency_ok in Hl; lia|]. cbv zeta.
  eapply safe_bind; [|intros _; safe_auto].
  do 3 (apply safe_if; [apply safe_ingress_latency_case; [done|done|lat_store]|]). apply safe_ret.
Qed.

Lemma safe_ts_pps_conf_get dev :
  e_devs E dev = true -> safe false (lan8814_ts_pps_conf_get dev) false.
Proof. lan_safe lan8814_ts_pps_conf_get. Qed.
Lemma safe_ts_pps_conf_set dev c :
  e_devs E dev = true -> safe false (lan8814_ts_pps_conf_set dev c) false.
Proof. lan_safe lan8814_ts_pps_conf_set. Qed.
Lemma safe_ts_stats_get dev s : safe false (lan8814_ts_stats_get dev s) false.
Proof. lan_safe lan8814_ts_stats_get. Qed.
Lemma safe_ts_event_get dev m : e_devs E dev = true -> safe false (lan8814_ts_event_get dev m) false.
Proof. lan_safe lan8814_ts_event_get. Qed.
Lemma safe_ts_event_set dev en m :
  e_devs E dev = true -> safe false (lan8814_ts_event_set dev en m) false.
Proof. lan_safe lan8814_ts_event_set. Qed.
Lemma safe_ts_event_poll dev s :
  e_devs E dev = true -> safe false (lan8814_ts_event_poll dev s) false.
Proof. lan_safe lan8814_ts_event_poll. Qed.
Lemma safe_ts_fifo_read_install dev cb :
  e_devs E dev = true -> safe false (lan8814_ts_fifo_read_install dev cb) false.
Proof. lan_safe lan8814_ts_fifo_read_install. Qed.
Lemma safe_fifo_loop n dev : forall val i l,
  0 <= i -> i + Z.of_nat n <= Z.of_nat (length l) -> safe true (fifo_loop n dev val i l) true.
Proof.
  induction n as [|n IH]; intros val i l Hi Hl; cbn [fifo_loop]; [apply safe_ret|].
  eapply safe_bind; [eauto with safe|intros v]. apply safe_if; [|apply safe_ret].
  apply safe_arr; [lia|]. intros e _. cbv zeta.
  do 5 (eapply safe_bind; [eauto with safe|intros ?]).
  apply IH; [lia|]. rewrite length_insert. lia.
Qed.
Lemma safe_ts_fifo_get dev l size num :
  size <= Z.of_nat (length l) -> safe false (lan8814_ts_fifo_get dev l size num) false.
Proof.
  intros Hs. unfold lan8814_ts_fifo_get. destruct (Z.ltb_spec size MEPA_TS_FIFO_MAX_ENTRIES); [apply safe_ret|].
  eapply safe_bind; [eauto with safe|intros _]. eapply safe_bind; [|intros [n l']; safe_auto].
  apply safe_fifo_loop; [done|]. unfold MEPA_TS_FIFO_MAX_ENTRIES in *. lia.
Qed.
Lemma safe_ts_pch_mch_error_get dev : safe false (lan8814_ts_pch_mch_error_get dev) false.
Proof. lan_safe lan8814_ts_pch_mch_error_get. Qed.
End Safe.

#[export] Hint Extern 1 (safe _ _ (upd_ts _ _) _) =>
  apply safe_upd_ts; [solve [eauto 3 with safe] | intros ? HH; exact HH] : safe.
#[export] Hint Extern 1 (safe _ _ (upd_tp _ _) _) =>
  apply safe_upd_tp; [solve [eauto 3 with safe] | intros ? HH; exact HH] : safe.
#[export] Hint Resolve safe_ts_init_conf_get safe_ts_mode_set safe_ts_reset safe_ts_mode_get
  safe_ts_ltc_ls_en_set safe_ts_ltc_get safe_ltc_target_seconds safe_ts_ltc_set
  safe_ts_clock_rateadj_get safe_ts_clock_adj1ns safe_ts_clock_delay_asymmetry_get
  safe_ts_clock_delay_asymmetry_set safe_ts_clock_path_delay_get safe_ts_clock_path_delay_set
  safe_ts_clock_egress_latency_get safe_ts_clock_ingress_latency_get safe_ts_reload_egress_latency
  safe_ts_pps_conf_get safe_ts_pps_conf_set safe_ts_stats_get safe_ts_event_get safe_ts_event_set
  safe_ts_event_poll safe_ts_fifo_read_install safe_ts_pch_mch_error_get : safe.
