(* ===== verification/Lan8814TsClass.v ===== *)
(** * Lan8814TsClass: packet classifiers and PTP clocks

    The second part of [lan8814_ts.c]: which frames of a port are taken for PTP
    (MAC and IP addresses, VLAN tags, UDP ports, PTP version and domain) and
    what is done to them (time stamps, correction field).  The functions that
    the source has for reception and for transmission are written out as two
    here as well. *)

From Stdlib Require Import ZArith Lia List Bool String.
From stdpp Require Import base gmap strings list.
From S2P Require Import Prelude Machine Enums Lan8814Regs Lan8814Types Trace Mdio Lan8814Access Lan8814Ts.

Definition SYNC_PACKET : Z := 0x0001.
Definition DELAY_REQ_PACKET : Z := 0x0002.
Definition PDELAY_REQ_PACKET : Z := 0x0004.
Definition PDELAY_RESP_PACKET : Z := 0x0008.

Section TsClass.
Context {B : Type} {CO : Callout B}.
Local Abbreviation M := (M B phy_data_t).

(** ** The parts of a classifier *)

(** The PTP version word: minimum and maximum version and minor version. *)
Definition ptp_version_word (c : mepa_ts_classifier_ptp_t) : Z :=
  let upper := ((0xF .& rv_first (ptp_version c)) .<< 4) .| (0xF .& rv_first (ptp_minor_version c)) in
  let lower := ((0xF .& rv_second (ptp_version c)) .<< 4) .| (0xF .& rv_second (ptp_minor_version c)) in
  u16 (upper .<< 8) .| (0xFF .& lower).

Definition lan8814_ts_classifier_ptp_conf_priv (dev ing : Z) (ptp_hdr_conf : mepa_ts_classifier_ptp_t) : M Z :=
  let version := ptp_version_word ptp_hdr_conf in
  let domain := ptp_domain ptp_hdr_conf in
  if tb ing then
    EP_WRM dev LAN8814_PTP_RX_VERSION version LAN8814_DEF_MASK ;;;
    EP_WRM dev LAN8814_PTP_TX_VERSION version LAN8814_DEF_MASK ;;;
    (if mt_mode domain =? MEPA_TS_MATCH_MODE_RANGE then
       let val := LAN8814_PTP_RX_DOMAIN_DOMAIN_LO_RANGE_EN
                  .| LAN8814_PTP_RX_DOMAIN_DOMAIN_LO_RANGE_LO_F (rv_second (mt_match domain)) in
       EP_WRM dev LAN8814_PTP_RX_DOMAIN_DOMAIN_LO val LAN8814_DEF_MASK ;;;
       EP_WRM dev LAN8814_PTP_RX_DOMAIN_MASK_DOMAIN_UP (rv_first (mt_match domain)) LAN8814_DEF_MASK
     else
       EP_WRM dev LAN8814_PTP_RX_DOMAIN_DOMAIN_LO (rv_first (mt_match domain)) LAN8814_DEF_MASK ;;;
       EP_WRM dev LAN8814_PTP_RX_DOMAIN_MASK_DOMAIN_UP (rv_second (mt_match domain)) LAN8814_DEF_MASK) ;;;
    ret MEPA_RC_OK
  else
    EP_WRM dev LAN8814_PTP_TX_VERSION version LAN8814_DEF_MASK ;;;
    (if mt_mode domain =? MEPA_TS_MATCH_MODE_RANGE then
       let val := LAN8814_PTP_TX_DOMAIN_DOMAIN_LO_RANGE_EN
                  .| LAN8814_PTP_TX_DOMAIN_DOMAIN_LO_RANGE_LO_F (rv_second (mt_match domain)) in
       EP_WRM dev LAN8814_PTP_TX_DOMAIN_DOMAIN_LO val LAN8814_DEF_MASK ;;;
       EP_WRM dev LAN8814_PTP_TX_DOMAIN_MASK_DOMAIN_UP (rv_first (mt_match domain)) LAN8814_DEF_MASK
     else
       EP_WRM dev LAN8814_PTP_TX_DOMAIN_DOMAIN_LO (rv_first (mt_match domain)) LAN8814_DEF_MASK ;;;
       EP_WRM dev LAN8814_PTP_TX_DOMAIN_MASK_DOMAIN_UP (rv_second (mt_match domain)) LAN8814_DEF_MASK) ;;;
    ret MEPA_RC_OK.

(** A 32-bit word of an address to its two registers. *)
Definition ip_word_wr (dev : Z) (words : list Z) (x : Z * ereg * ereg) : M unit :=
  let '(i, hi, lo) := x in
  w <- arr words i ;;
  EP_WRM dev hi ((w .>> 16) .& 0xFFFF) LAN8814_DEF_MASK ;;;
  EP_WRM dev lo (w .& 0xFFFF) LAN8814_DEF_MASK.

(** In the address union, [ipv4] is words 0 (address) and 1 (mask), [ipv6]
    words 0 to 3 (address) and 4 to 7 (mask). *)
Definition lan8814_ts_classifier_ipv4_addr_conf_priv (dev ing : Z) (words : list Z) : M Z :=
  seq_ (ip_word_wr dev words)
    (if tb ing then
       [ (0, LAN8814_PTP_RX_USER_IP_ADDR_7, LAN8814_PTP_RX_USER_IP_ADDR_6);
         (1, LAN8814_PTP_RX_USER_IP_MASK_7, LAN8814_PTP_RX_USER_IP_MASK_6) ]
     else
       [ (0, LAN8814_PTP_TX_USER_IP_ADDR_7, LAN8814_PTP_TX_USER_IP_ADDR_6);
         (1, LAN8814_PTP_TX_USER_IP_MASK_7, LAN8814_PTP_TX_USER_IP_MASK_6) ]) ;;;
  ret MEPA_RC_OK.

Definition lan8814_ts_classifier_ipv6_addr_conf_priv (dev ing : Z) (words : list Z) : M Z :=
  seq_ (ip_word_wr dev words)
    (if tb ing then
       [ (0, LAN8814_PTP_RX_USER_IP_ADDR_0, LAN8814_PTP_RX_USER_IP_ADDR_1);
         (1, LAN8814_PTP_RX_USER_IP_ADDR_2, LAN8814_PTP_RX_USER_IP_ADDR_3);
         (2, LAN8814_PTP_RX_USER_IP_ADDR_4, LAN8814_PTP_RX_USER_IP_ADDR_5);
         (3, LAN8814_PTP_RX_USER_IP_ADDR_6, LAN8814_PTP_RX_USER_IP_ADDR_7);
         (4, LAN8814_PTP_RX_USER_IP_MASK_0, LAN8814_PTP_RX_USER_IP_MASK_1);
         (5, LAN8814_PTP_RX_USER_IP_MASK_2, LAN8814_PTP_RX_USER_IP_MASK_3);
         (6, LAN8814_PTP_RX_USER_IP_MASK_4, LAN8814_PTP_RX_USER_IP_MASK_5);
         (7, LAN8814_PTP_RX_USER_IP_MASK_6, LAN8814_PTP_RX_USER_IP_MASK_7) ]
     else
       [ (0, LAN8814_PTP_TX_USER_IP_ADDR_0, LAN8814_PTP_TX_USER_IP_ADDR_1);
         (1, LAN8814_PTP_TX_USER_IP_ADDR_2, LAN8814_PTP_TX_USER_IP_ADDR_3);
         (2, LAN8814_PTP_TX_USER_IP_ADDR_4, LAN8814_PTP_TX_USER_IP_ADDR_5);
         (3, LAN8814_PTP_TX_USER_IP_ADDR_6, LAN8814_PTP_TX_USER_IP_ADDR_7);
         (4, LAN8814_PTP_TX_USER_IP_MASK_0, LAN8814_PTP_TX_USER_IP_MASK_1);
         (5, LAN8814_PTP_TX_USER_IP_MASK_2, LAN8814_PTP_TX_USER_IP_MASK_3);
         (6, LAN8814_PTP_TX_USER_IP_MASK_4, LAN8814_PTP_TX_USER_IP_MASK_5);
         (7, LAN8814_PTP_TX_USER_IP_MASK_6, LAN8814_PTP_TX_USER_IP_MASK_7) ]) ;;;
  ret MEPA_RC_OK.

Definition lan8814_ts_classifier_mac_conf_set_priv (dev ing : Z) (mac_addr : list Z) : M Z :=
  m0 <- arr mac_addr 0 ;; m1 <- arr mac_addr 1 ;; m2 <- arr mac_addr 2 ;;
  m3 <- arr mac_addr 3 ;; m4 <- arr mac_addr 4 ;; m5 <- arr mac_addr 5 ;;
  if tb ing then
    EP_WRM dev LAN8814_PTP_RX_USER_MAC_HI (m0 .<< 8 .| m1) LAN8814_DEF_MASK ;;;
    EP_WRM dev LAN8814_PTP_RX_USER_MAC_MID (m2 .<< 8 .| m3) LAN8814_DEF_MASK ;;;
    EP_WRM dev LAN8814_PTP_RX_USER_MAC_LO (m4 .<< 8 .| m5) LAN8814_DEF_MASK ;;;
    ret MEPA_RC_OK
  else
    EP_WRM dev LAN8814_PTP_TX_USER_MAC_HI (m0 .<< 8 .| m1) LAN8814_DEF_MASK ;;;
    EP_WRM dev LAN8814_PTP_TX_USER_MAC_MID (m2 .<< 8 .| m3) LAN8814_DEF_MASK ;;;
    EP_WRM dev LAN8814_PTP_TX_USER_MAC_LO (m4 .<< 8 .| m5) LAN8814_DEF_MASK ;;;
    ret MEPA_RC_OK.

(** The match of the outer tag, and of the inner one. *)
Definition vlan_outer (dev : Z) (tag : mepa_ts_match) : M unit :=
  if mt_mode tag =? MEPA_TS_MATCH_MODE_RANGE then
    EP_WRM dev LAN8814_VLAN2_VID_RANGE_UP
      (LAN8814_VLAN2_VID_RANGE_EN .| LAN8814_VLAN2_VID_RANGE_UP_VAL_F (rv_first (mt_match tag)))
      LAN8814_DEF_MASK ;;;
    EP_WRM dev LAN8814_VLAN2_VID_RANGE_LO
      (LAN8814_VLAN2_VID_RANGE_UP_VAL_F (rv_second (mt_match tag))) LAN8814_DEF_MASK
  else
    EP_WRM dev LAN8814_VLAN2_TYPE_ID
      (LAN8814_VLAN2_TYPE_SELECT_F 0 .| LAN8814_VLAN2_TYPE_ID_VAL_F (rv_first (mt_match tag)))
      LAN8814_DEF_MASK ;;;
    EP_WRM dev LAN8814_VLAN2_ID_MASK
      (LAN8814_VLAN2_ID_MASK_VAL_F (rv_second (mt_match tag))) LAN8814_DEF_MASK.

Definition vlan_inner (dev : Z) (tag : mepa_ts_match) : M unit :=
  if mt_mode tag =? MEPA_TS_MATCH_MODE_RANGE then
    EP_WRM dev LAN8814_VLAN1_VID_RANGE_UP
      (LAN8814_VLAN1_VID_RANGE_EN .| LAN8814_VLAN1_VID_RANGE_UP_VAL_F (rv_first (mt_match tag)))
      LAN8814_DEF_MASK ;;;
    EP_WRM dev LAN8814_VLAN1_VID_RANGE_LO
      (LAN8814_VLAN1_VID_RANGE_UP_VAL_F (rv_second (mt_match tag))) LAN8814_DEF_MASK
  else
    EP_WRM dev LAN8814_VLAN1_TYPE_ID
      (LAN8814_VLAN1_TYPE_SELECT_F 0 .| LAN8814_VLAN1_TYPE_ID_VAL_F (rv_first (mt_match tag)))
      LAN8814_DEF_MASK ;;;
    EP_WRM dev LAN8814_VLAN1_ID_MASK
      (LAN8814_VLAN1_ID_MASK_VAL_F (rv_second (mt_match tag))) LAN8814_DEF_MASK.

Definition lan8814_ts_classifier_vlan_conf_set_priv (dev ing : Z) (vlan_conf : mepa_ts_vlan_conf_t) : M Z :=
  data_of dev ;;;
  let num_tag := vl_num_tag vlan_conf in
  if negb ((num_tag =? 2) || (num_tag =? 1)) then ret MEPA_RC_ERROR else
  (if tb ing then
     let vlan_parse := if num_tag =? 2 then LAN8814_PTP_RX_PARSE_VLAN_VLAN2_CHECK_EN else 0 in
     let vlan_parse := vlan_parse .| LAN8814_PTP_RX_PARSE_VLAN_VLAN1_CHECK_EN
                       .| LAN8814_PTP_RX_PARSE_VLAN_TAG_COUNT_F num_tag in
     EP_WRM dev LAN8814_PTP_RX_PARSE_VLAN_CONFIG vlan_parse LAN8814_DEF_MASK
   else
     let vlan_parse := if num_tag =? 2 then LAN8814_PTP_TX_PARSE_VLAN_VLAN2_CHECK_EN else 0 in
     let vlan_parse := vlan_parse .| LAN8814_PTP_TX_PARSE_VLAN_VLAN1_CHECK_EN
                       .| LAN8814_PTP_TX_PARSE_VLAN_TAG_COUNT_F num_tag in
     EP_WRM dev LAN8814_PTP_TX_PARSE_VLAN_CONFIG vlan_parse LAN8814_DEF_MASK) ;;;
  (if num_tag =? 2 then vlan_outer dev (vl_outer_tag vlan_conf) else ret tt) ;;;
  vlan_inner dev (vl_inner_tag vlan_conf) ;;;
  ret MEPA_RC_OK.

(** ** The classifier of a port *)

(** The configuration that is not supported. *)
Definition classifier_refused (eth : mepa_ts_classifier_eth_t) : bool :=
  (tb (eth_vlan_check eth) && tb (vl_pbb_en (eth_vlan_conf eth)))
  || ((eth_mac_match_select eth =? MEPA_TS_ETH_MATCH_SRC_OR_DEST)
      && negb (eth_mac_match_mode eth =? MEPA_TS_ETH_ADDR_MATCH_48BIT)).

(** The MAC address match: the [parse_config] bits it adds, and the address
    that goes to the registers. *)
Definition rx_mac_bits (rev : Z) (eth : mepa_ts_classifier_eth_t) : Z :=
  if eth_mac_match_select eth =? MEPA_TS_ETH_MATCH_SRC_ADDR then 0 else
  let bits := if (rev <? 4) || negb (eth_mac_match_select eth =? MEPA_TS_ETH_MATCH_NONE)
              then LAN8814_PTP_RX_PARSE_CONFIG_MAC_DA_EN else 0 in
  bits .|
  (if eth_mac_match_mode eth =? MEPA_TS_ETH_ADDR_MATCH_ANY then
     LAN8814_PTP_RX_PARSE_CONFIG_MAC_DA_MODE_F 6
   else if eth_mac_match_mode eth =? MEPA_TS_ETH_ADDR_MATCH_ANY_UNICAST then
     LAN8814_PTP_RX_PARSE_CONFIG_MAC_DA_MODE_F 2
   else if eth_mac_match_mode eth =? MEPA_TS_ETH_ADDR_MATCH_ANY_MULTICAST then
     LAN8814_PTP_RX_PARSE_CONFIG_MAC_DA_MODE_F 4
   else if eth_mac_match_mode eth =? MEPA_TS_ETH_ADDR_MATCH_48BIT then
     LAN8814_PTP_RX_PARSE_CONFIG_MAC_DA_MODE_F 1
   else 0).
Definition mac_written (eth : mepa_ts_classifier_eth_t) : bool :=
  (eth_mac_match_select eth =? MEPA_TS_ETH_MATCH_SRC_ADDR)
  || (eth_mac_match_mode eth =? MEPA_TS_ETH_ADDR_MATCH_48BIT).

(** MAC match, VLAN tags and the layer 2 address enables. *)
Definition rx_eth_conf (dev : Z) (eth : mepa_ts_classifier_eth_t) (l2_en : Z) : M Z :=
  try_rc (if mac_written eth
          then lan8814_ts_classifier_mac_conf_set_priv dev TRUE (eth_mac_addr eth)
          else ret MEPA_RC_OK) (
  try_rc (if eth_vlan_check eth =? TRUE
          then lan8814_ts_classifier_vlan_conf_set_priv dev TRUE (eth_vlan_conf eth)
          else EP_WRM dev LAN8814_PTP_RX_PARSE_VLAN_CONFIG 0 LAN8814_DEF_MASK ;;; ret MEPA_RC_OK) (
  EP_WRM dev LAN8814_PTP_RX_PARSE_L2_ADDR_EN l2_en LAN8814_DEF_MASK ;;;
  ret MEPA_RC_OK)).

(** IP addresses and UDP ports: the code and the [parse_config] bits. *)
Definition rx_ip_conf (dev : Z) (pkt_conf : mepa_ts_classifier_t) (parse_config : Z) : M (Z * Z) :=
  let eth := cl_eth_class_conf pkt_conf in
  let ip := cl_ip_class_conf pkt_conf in
  let ip_en := if ip_ip_match_mode ip =? MEPA_TS_IP_MATCH_DEST
               then LAN8814_PTP_RX_PARSE_IP_DA_EN else 0 in
  let v4 := ip_ip_ver ip =? MEPA_TS_IP_VER_4 in
  let ip_en := if v4
    then ip_en .| LAN8814_PTP_RX_PARSE_IPv4_UMAC_EN_F (eth_mac_match_select eth)
         .| LAN8814_PTP_RX_PARSE_IPv4_IP_EN_F (ip_ip_match_mode ip)
    else ip_en .| LAN8814_PTP_RX_PARSE_IPv6_UMAC_EN_F (eth_mac_match_select eth)
         .| LAN8814_PTP_RX_PARSE_IPv6_IP_EN_F (ip_ip_match_mode ip) in
  let parse_config := parse_config .| (if v4 then LAN8814_PTP_RX_PARSE_CONFIG_IPV4_EN
                                       else LAN8814_PTP_RX_PARSE_CONFIG_IPV6_EN) in
  rc <- (if v4 then lan8814_ts_classifier_ipv4_addr_conf_priv dev TRUE (ip_addr_words ip)
         else lan8814_ts_classifier_ipv6_addr_conf_priv dev TRUE (ip_addr_words ip)) ;;
  if rc <? MEPA_RC_OK then ret (rc, parse_config) else
  parse_config <- (if tb (ip_udp_sport_en ip) then
      EP_WRM dev LAN8814_PTP_RX_PARSE_UDP_SRC_PORT (ip_udp_sport ip) LAN8814_DEF_MASK ;;;
      ret (parse_config .| LAN8814_PTP_RX_PARSE_CONFIG_UDP_SPORT_EN)
    else ret parse_config) ;;
  parse_config <- (if tb (ip_udp_dport_en ip) then
      EP_WRM dev LAN8814_PTP_RX_PARSE_UDP_DEST_PORT (ip_udp_dport ip) LAN8814_DEF_MASK ;;;
      ret (parse_config .| LAN8814_PTP_RX_PARSE_CONFIG_UDP_DPORT_EN)
    else ret parse_config) ;;
  EP_WRM dev LAN8814_PTP_RX_PARSE_IP_ADDR_EN ip_en LAN8814_DEF_MASK ;;;
  ret (MEPA_RC_OK, parse_config).

Definition lan8814_ts_rx_classifier_conf_set_priv (dev flow_index : Z)
    (pkt_conf : mepa_ts_classifier_t) : M Z :=
  data <- data_of dev ;;
  let eth := cl_eth_class_conf pkt_conf in
  let mac_bits := rx_mac_bits (dev_rev (pd_dev data)) eth in
  if classifier_refused eth then ret MEPA_RC_ERROR else
  if cl_pkt_encap_type pkt_conf =? MEPA_TS_ENCAP_ETH_PTP then
    let parse_config := LAN8814_PTP_RX_PARSE_CONFIG_LAYER2_EN .| LAN8814_PTP_RX_PARSE_CONFIG_PEER_NONPEER_MIX .| mac_bits in
    try_rc (rx_eth_conf dev eth (LAN8814_PTP_TX_PARSE_L2_MAC_EN_F (eth_mac_match_select eth))) (
    EP_WRM dev LAN8814_PTP_RX_PARSE_IP_ADDR_EN 0 LAN8814_DEF_MASK ;;;
    EP_WRM dev LAN8814_PTP_RX_PARSE_CONFIG parse_config LAN8814_DEF_MASK ;;;
    ret MEPA_RC_OK)
  else if cl_pkt_encap_type pkt_conf =? MEPA_TS_ENCAP_ETH_IP_PTP then
    let parse_config := LAN8814_PTP_RX_PARSE_CONFIG_PEER_NONPEER_MIX .| mac_bits in
    try_rc (rx_eth_conf dev eth (LAN8814_PTP_RX_PARSE_L2_MAC_EN_F (eth_mac_match_select eth))) (
    let* (rc, parse_config) <- rx_ip_conf dev pkt_conf parse_config ;;
    if rc <? MEPA_RC_OK then ret rc else
    EP_WRM dev LAN8814_PTP_RX_PARSE_CONFIG parse_config LAN8814_DEF_MASK ;;;
    ret MEPA_RC_OK)
  else if cl_pkt_encap_type pkt_conf =? MEPA_TS_ENCAP_NONE then
    EP_WRM dev LAN8814_PTP_RX_PARSE_CONFIG 0 LAN8814_DEF_MASK ;;;
    ret MEPA_RC_OK
  else
    ret MEPA_RC_ERROR.

Definition lan8814_ts_rx_classifier_conf_set (dev flow_index : Z)
    (pkt_conf : option mepa_ts_classifier_t) : M Z :=
  data_of dev ;;;
  match pkt_conf with
  | None => ret MEPA_RC_ERROR
  | Some pkt_conf =>
  mepa_enter ;;;
  rc <- lan8814_ts_rx_classifier_conf_set_priv dev flow_index pkt_conf ;;
  if negb (rc =? MEPA_RC_OK) then mepa_exit ;;; ret rc else
  upd_tp dev (set_tp_rx_pkt_conf pkt_conf) ;;;
  mepa_exit ;;;
  ret rc
  end.

Definition lan8814_ts_rx_classifier_conf_get (dev flow_index : Z)
    (pkt_conf : option mepa_ts_classifier_t) : M (Z * option mepa_ts_classifier_t) :=
  data <- data_of dev ;;
  match pkt_conf with
  | None => ret (MEPA_RC_ERROR, None)
  | Some _ =>
  mepa_enter ;;;
  mepa_exit ;;;
  ret (MEPA_RC_OK, Some (tp_rx_pkt_conf (ts_ts_port_conf (pd_ts_state data))))
  end.

(** Every member of the caller's struct is assigned. *)
Definition lan8814_ts_rx_ptp_clock_conf_get (dev clock_id : Z)
    (ptpclock_conf : option mepa_ts_ptp_clock_conf_t) : M (Z * option mepa_ts_ptp_clock_conf_t) :=
  data <- data_of dev ;;
  match ptpclock_conf with
  | None => ret (MEPA_RC_ERROR, None)
  | Some _ =>
  mepa_enter ;;;
  mepa_exit ;;;
  ret (MEPA_RC_OK, Some (tp_rx_clock_conf (ts_ts_port_conf (pd_ts_state data))))
  end.

(** The MAC address match: the [parse_config] bits it adds, and the address
    that goes to the registers. *)
Definition tx_mac_bits (rev : Z) (eth : mepa_ts_classifier_eth_t) : Z :=
  if eth_mac_match_select eth =? MEPA_TS_ETH_MATCH_SRC_ADDR then 0 else
  let bits := if (rev <? 4) || negb (eth_mac_match_select eth =? MEPA_TS_ETH_MATCH_NONE)
              then LAN8814_PTP_TX_PARSE_CONFIG_MAC_DA_EN else 0 in
  bits .|
  (if eth_mac_match_mode eth =? MEPA_TS_ETH_ADDR_MATCH_ANY then
     LAN8814_PTP_TX_PARSE_CONFIG_MAC_DA_MODE_F 6
   else if eth_mac_match_mode eth =? MEPA_TS_ETH_ADDR_MATCH_ANY_UNICAST then
     LAN8814_PTP_TX_PARSE_CONFIG_MAC_DA_MODE_F 2
   else if eth_mac_match_mode eth =? MEPA_TS_ETH_ADDR_MATCH_ANY_MULTICAST then
     LAN8814_PTP_TX_PARSE_CONFIG_MAC_DA_MODE_F 4
   else if eth_mac_match_mode eth =? MEPA_TS_ETH_ADDR_MATCH_48BIT then
     LAN8814_PTP_TX_PARSE_CONFIG_MAC_DA_MODE_F 1
   else 0).

(** MAC match, VLAN tags and the layer 2 address enables. *)
Definition tx_eth_conf (dev : Z) (eth : mepa_ts_classifier_eth_t) (l2_en : Z) : M Z :=
  try_rc (if mac_written eth
          then lan8814_ts_classifier_mac_conf_set_priv dev FALSE (eth_mac_addr eth)
          else ret MEPA_RC_OK) (
  try_rc (if eth_vlan_check eth =? TRUE
          then lan8814_ts_classifier_vlan_conf_set_priv dev FALSE (eth_vlan_conf eth)
          else EP_WRM dev LAN8814_PTP_TX_PARSE_VLAN_CONFIG 0 LAN8814_DEF_MASK ;;; ret MEPA_RC_OK) (
  EP_WRM dev LAN8814_PTP_TX_PARSE_L2_ADDR_EN l2_en LAN8814_DEF_MASK ;;;
  ret MEPA_RC_OK)).

(** IP addresses and UDP ports: the code and the [parse_config] bits. *)
Definition tx_ip_conf (dev : Z) (pkt_conf : mepa_ts_classifier_t) (parse_config : Z) : M (Z * Z) :=
  let eth := cl_eth_class_conf pkt_conf in
  let ip := cl_ip_class_conf pkt_conf in
  let ip_en := if ip_ip_match_mode ip =? MEPA_TS_IP_MATCH_DEST
               then LAN8814_PTP_TX_PARSE_IP_DA_EN else 0 in
  let v4 := ip_ip_ver ip =? MEPA_TS_IP_VER_4 in
  let ip_en := if v4
    then ip_en .| LAN8814_PTP_TX_PARSE_IPv4_UMAC_EN_F (eth_mac_match_select eth)
         .| LAN8814_PTP_TX_PARSE_IPv4_IP_EN_F (ip_ip_match_mode ip)
    else ip_en .| LAN8814_PTP_TX_PARSE_IPv6_UMAC_EN_F (eth_mac_match_select eth)
         .| LAN8814_PTP_TX_PARSE_IPv6_IP_EN_F (ip_ip_match_mode ip) in
  let parse_config := parse_config .| (if v4 then LAN8814_PTP_TX_PARSE_CONFIG_IPV4_EN
                                       else LAN8814_PTP_TX_PARSE_CONFIG_IPV6_EN) in
  rc <- (if v4 then lan8814_ts_classifier_ipv4_addr_conf_priv dev FALSE (ip_addr_words ip)
         else lan8814_ts_classifier_ipv6_addr_conf_priv dev FALSE (ip_addr_words ip)) ;;
  if rc <? MEPA_RC_OK then ret (rc, parse_config) else
  parse_config <- (if tb (ip_udp_sport_en ip) then
      EP_WRM dev LAN8814_PTP_TX_PARSE_UDP_SRC_PORT (ip_udp_sport ip) LAN8814_DEF_MASK ;;;
      ret (parse_config .| LAN8814_PTP_TX_PARSE_CONFIG_UDP_SPORT_EN)
    else ret parse_config) ;;
  parse_config <- (if tb (ip_udp_dport_en ip) then
      EP_WRM dev LAN8814_PTP_TX_PARSE_UDP_DEST_PORT (ip_udp_dport ip) LAN8814_DEF_MASK ;;;
      ret (parse_config .| LAN8814_PTP_TX_PARSE_CONFIG_UDP_DPORT_EN)
    else ret parse_config) ;;
  EP_WRM dev LAN8814_PTP_TX_PARSE_IP_ADDR_EN ip_en LAN8814_DEF_MASK ;;;
  ret (MEPA_RC_OK, parse_config).

Definition lan8814_ts_tx_classifier_conf_set_priv (dev flow_index : Z)
    (pkt_conf : mepa_ts_classifier_t) : M Z :=
  data <- data_of dev ;;
  let eth := cl_eth_class_conf pkt_conf in
  let mac_bits := tx_mac_bits (dev_rev (pd_dev data)) eth in
  if classifier_refused eth then ret MEPA_RC_ERROR else
  if cl_pkt_encap_type pkt_conf =? MEPA_TS_ENCAP_ETH_PTP then
    let parse_config := LAN8814_PTP_TX_PARSE_CONFIG_LAYER2_EN .| LAN8814_PTP_TX_PARSE_CONFIG_PEER_NONPEER_MIX .| mac_bits in
    try_rc (tx_eth_conf dev eth (LAN8814_PTP_TX_PARSE_L2_MAC_EN_F (eth_mac_match_select eth))) (
    EP_WRM dev LAN8814_PTP_TX_PARSE_IP_ADDR_EN 0 LAN8814_DEF_MASK ;;;
    EP_WRM dev LAN8814_PTP_TX_PARSE_CONFIG parse_config LAN8814_DEF_MASK ;;;
    ret MEPA_RC_OK)
  else if cl_pkt_encap_type pkt_conf =? MEPA_TS_ENCAP_ETH_IP_PTP then
    let parse_config := LAN8814_PTP_TX_PARSE_CONFIG_LAYER2_EN .| LAN8814_PTP_TX_PARSE_CONFIG_PEER_NONPEER_MIX .| mac_bits in
    try_rc (tx_eth_conf dev eth (LAN8814_PTP_TX_PARSE_L2_MAC_EN_F (eth_mac_match_select eth))) (
    let* (rc, parse_config) <- tx_ip_conf dev pkt_conf parse_config ;;
    if rc <? MEPA_RC_OK then ret rc else
    EP_WRM dev LAN8814_PTP_TX_PARSE_CONFIG parse_config LAN8814_DEF_MASK ;;;
    ret MEPA_RC_OK)
  else if cl_pkt_encap_type pkt_conf =? MEPA_TS_ENCAP_NONE then
    EP_WRM dev LAN8814_PTP_TX_PARSE_CONFIG 0 LAN8814_DEF_MASK ;;;
    ret MEPA_RC_OK
  else
    EP_WRM dev LAN8814_PTP_TX_PARSE_CONFIG 0 LAN8814_DEF_MASK ;;;
    ret MEPA_RC_ERROR.

Definition lan8814_ts_tx_classifier_conf_set (dev flow_index : Z)
    (pkt_conf : option mepa_ts_classifier_t) : M Z :=
  data_of dev ;;;
  match pkt_conf with
  | None => ret MEPA_RC_ERROR
  | Some pkt_conf =>
  mepa_enter ;;;
  rc <- lan8814_ts_tx_classifier_conf_set_priv dev flow_index pkt_conf ;;
  if negb (rc =? MEPA_RC_OK) then mepa_exit ;;; ret rc else
  upd_tp dev (set_tp_tx_pkt_conf pkt_conf) ;;;
  mepa_exit ;;;
  ret rc
  end.

Definition lan8814_ts_tx_classifier_conf_get (dev flow_index : Z)
    (pkt_conf : option mepa_ts_classifier_t) : M (Z * option mepa_ts_classifier_t) :=
  data <- data_of dev ;;
  match pkt_conf with
  | None => ret (MEPA_RC_ERROR, None)
  | Some _ =>
  mepa_enter ;;;
  mepa_exit ;;;
  ret (MEPA_RC_OK, Some (tp_tx_pkt_conf (ts_ts_port_conf (pd_ts_state data))))
  end.

(** Every member of the caller's struct is assigned. *)
Definition lan8814_ts_tx_ptp_clock_conf_get (dev clock_id : Z)
    (ptpclock_conf : option mepa_ts_ptp_clock_conf_t) : M (Z * option mepa_ts_ptp_clock_conf_t) :=
  data <- data_of dev ;;
  match ptpclock_conf with
  | None => ret (MEPA_RC_ERROR, None)
  | Some _ =>
  mepa_enter ;;;
  mepa_exit ;;;
  ret (MEPA_RC_OK, Some (tp_tx_clock_conf (ts_ts_port_conf (pd_ts_state data))))
  end.

(** ** PTP clocks *)

(** The cases of the switch on the clock mode: the packet types to time stamp,
    those whose correction field is updated, and the peer delay update. *)
Definition rx_clock_actions (c : mepa_ts_ptp_clock_conf_t) : Z * Z * Z :=
  let p2p := clk_delaym_type c =? MEPA_TS_PTP_DELAYM_P2P in
  let all := SYNC_PACKET .| DELAY_REQ_PACKET .| PDELAY_REQ_PACKET .| PDELAY_RESP_PACKET in
  if clk_clk_mode c =? MEPA_TS_PTP_CLOCK_MODE_BC1STEP then
    if p2p then (all, 0, LAN8814_F_PTP_RX_PDREQ_AUTO_UPDATE)
    else (SYNC_PACKET .| DELAY_REQ_PACKET, 0, 0)
  else if clk_clk_mode c =? MEPA_TS_PTP_CLOCK_MODE_BC2STEP then
    if p2p then (all, 0, 0) else (SYNC_PACKET .| DELAY_REQ_PACKET, 0, 0)
  else if clk_clk_mode c =? MEPA_TS_PTP_CLOCK_MODE_TC1STEP then
    if p2p then (PDELAY_REQ_PACKET .| PDELAY_RESP_PACKET, SYNC_PACKET .| DELAY_REQ_PACKET,
                 LAN8814_F_PTP_RX_PDREQ_AUTO_UPDATE)
    else (0, all, 0)
  else if clk_clk_mode c =? MEPA_TS_PTP_CLOCK_MODE_TC2STEP then (all, 0, 0)
  else (0, 0, 0).

(** The assignments at the end; [cf_update] is not stored. *)
Definition clock_conf_stored (c old : mepa_ts_ptp_clock_conf_t) : mepa_ts_ptp_clock_conf_t :=
  set_clk_delaym_type (clk_delaym_type c)
    (set_clk_clk_mode (clk_clk_mode c) (set_clk_enable (clk_enable c) old)).

Definition lan8814_ts_rx_ptp_clock_conf_set (dev clock_id : Z)
    (ptpclock_conf : mepa_ts_ptp_clock_conf_t) : M Z :=
  data <- data_of dev ;;
  let val := 0 in
  let ts_config := 0 in
  mepa_enter ;;;
  rc <- lan8814_ts_classifier_ptp_conf_priv dev TRUE (clk_ptp_class_conf ptpclock_conf) ;;
  (if negb (rc =? MEPA_RC_OK) then ret tt
   else upd_tp dev (fun p => set_tp_rx_clock_conf
          (set_clk_ptp_class_conf (clk_ptp_class_conf ptpclock_conf) (tp_rx_clock_conf p)) p)) ;;;
  (if negb (tb (clk_enable ptpclock_conf)) then
     EP_WRM dev LAN8814_PTP_RX_TIMESTAMP_EN 0 LAN8814_DEF_MASK
   else
     let '(ts_insert, cf_update, rx_pdelay_upd) := rx_clock_actions ptpclock_conf in
     EP_WRM dev LAN8814_PTP_RX_PDREQ_NS_HI rx_pdelay_upd LAN8814_F_PTP_RX_PDREQ_AUTO_UPDATE ;;;
     EP_WRM dev LAN8814_PTP_RX_TIMESTAMP_EN ts_insert LAN8814_DEF_MASK ;;;
     EP_WRM dev LAN8814_PTP_RX_CF_MOD_EN cf_update LAN8814_DEF_MASK ;;;
     let cf_config := if ts_tc_op_mode (pd_ts_state data) =? MEPA_TS_TC_OP_MODE_C
                      then LAN8814_PTP_RX_PTP_CF_METHOD else 0 in
     let cf_config := cf_config .| LAN8814_PTP_RX_PTP_MAX_CF_DIS in
     EP_WRM dev LAN8814_PTP_RX_CF_CFG cf_config LAN8814_DEF_MASK ;;;
     let ts_config := ts_config .| LAN8814_PTP_RX_PTP_ALT_MASTER_EN in
     let ts_config := ts_config .| LAN8814_PTP_RX_PTP_UDP_CHKSUM_DIS in
     EP_WRM dev LAN8814_PTP_RX_TIMESTAMP_CONFIG val LAN8814_DEF_MASK ;;;
     let val := 0x0405 in
     EP_WRM dev LAN8814_PTP_RX_RSVD_BYTE_CFG val LAN8814_DEF_MASK ;;;
     let rx_mod := LAN8814_PTP_RX_MOD_PTP_INSERT_TS_EN in
     let rx_mod := if ts_rx_ts_len (pd_ts_state data) =? MEPA_TS_RX_TIMESTAMP_LEN_32BIT
                   then rx_mod .| LAN8814_PTP_RX_MOD_PTP_INSERT_TS_32BIT else rx_mod in
     EP_WRM dev LAN8814_PTP_RX_MOD rx_mod rx_mod) ;;;
  upd_tp dev (fun p => set_tp_rx_clock_conf (clock_conf_stored ptpclock_conf (tp_rx_clock_conf p)) p) ;;;
  mepa_exit ;;;
  ret MEPA_RC_OK.

(** The transmit side: the packet types to time stamp, those whose correction
    field is updated, and the modifications. *)
Definition tx_clock_actions (auto_followup : Z) (c : mepa_ts_ptp_clock_conf_t) : Z * Z * Z :=
  let p2p := clk_delaym_type c =? MEPA_TS_PTP_DELAYM_P2P in
  let all := SYNC_PACKET .| DELAY_REQ_PACKET .| PDELAY_REQ_PACKET .| PDELAY_RESP_PACKET in
  if clk_clk_mode c =? MEPA_TS_PTP_CLOCK_MODE_BC1STEP then
    if p2p then (0, PDELAY_REQ_PACKET,
                 LAN8814_PTP_TX_MOD_PDRESP_TA_INSERT .| LAN8814_PTP_TX_MOD_SYNC_TS_INSERT)
    else (0, DELAY_REQ_PACKET, LAN8814_PTP_TX_MOD_SYNC_TS_INSERT)
  else if clk_clk_mode c =? MEPA_TS_PTP_CLOCK_MODE_BC2STEP then
    if p2p then
      if tb auto_followup
      then (PDELAY_REQ_PACKET, 0, LAN8814_PTP_TX_MOD_FOLLOWUP_TS_INSERT
                                  .| LAN8814_PTP_TX_MOD_PDRESPFOLLOWUP_TS_INSERT)
      else (PDELAY_REQ_PACKET .| (SYNC_PACKET .| PDELAY_RESP_PACKET), 0, 0)
    else
      if tb auto_followup then (DELAY_REQ_PACKET, 0, LAN8814_PTP_TX_MOD_FOLLOWUP_TS_INSERT)
      else (DELAY_REQ_PACKET .| SYNC_PACKET, 0, 0)
  else if clk_clk_mode c =? MEPA_TS_PTP_CLOCK_MODE_TC1STEP then
    if p2p then (0, SYNC_PACKET .| DELAY_REQ_PACKET .| PDELAY_REQ_PACKET,
                 LAN8814_PTP_TX_MOD_PDRESP_TA_INSERT)
    else (0, all, 0)
  else if clk_clk_mode c =? MEPA_TS_PTP_CLOCK_MODE_TC2STEP then (all, 0, 0)
  else (0, 0, 0).

(** The PTP classifier is called with [ing = TRUE] here too. *)
Definition lan8814_ts_tx_ptp_clock_conf_set (dev clock_id : Z)
    (ptpclock_conf : mepa_ts_ptp_clock_conf_t) : M Z :=
  data <- data_of dev ;;
  mepa_enter ;;;
  let two_step_lat := is_two_step ptpclock_conf in
  lan8814_ts_reload_egress_latency dev two_step_lat ;;;
  rc <- lan8814_ts_classifier_ptp_conf_priv dev TRUE (clk_ptp_class_conf ptpclock_conf) ;;
  (if negb (rc =? MEPA_RC_OK) then ret tt
   else upd_tp dev (fun p => set_tp_tx_clock_conf
          (set_clk_ptp_class_conf (clk_ptp_class_conf ptpclock_conf) (tp_tx_clock_conf p)) p)) ;;;
  (if negb (tb (clk_enable ptpclock_conf)) then
     EP_WRM dev LAN8814_PTP_TX_TIMESTAMP_EN 0 LAN8814_DEF_MASK
   else
     let '(ts_insert, cf_update, tx_mod) :=
       tx_clock_actions (ts_tx_auto_followup_ts (pd_ts_state data)) ptpclock_conf in
     EP_WRM dev LAN8814_PTP_TX_TIMESTAMP_EN ts_insert LAN8814_DEF_MASK ;;;
     EP_WRM dev LAN8814_PTP_TX_CF_MOD_EN cf_update LAN8814_DEF_MASK ;;;
     let cf_config := if ts_tc_op_mode (pd_ts_state data) =? MEPA_TS_TC_OP_MODE_C
                      then LAN8814_PTP_TX_PTP_CF_METHOD else 0 in
     let cf_config := cf_config .| LAN8814_PTP_TX_PTP_MAX_CF_DIS in
     EP_WRM dev LAN8814_PTP_TX_CF_CFG cf_config LAN8814_DEF_MASK ;;;
     let ts_config := LAN8814_PTP_TX_PTP_ALT_MASTER_EN .| LAN8814_PTP_TX_PTP_UDP_CHKSUM_DIS in
     EP_WRM dev LAN8814_PTP_TX_TIMESTAMP_CONFIG ts_config LAN8814_DEF_MASK ;;;
     EP_WRM dev LAN8814_PTP_TX_MOD tx_mod LAN8814_DEF_MASK) ;;;
  upd_tp dev (fun p => set_tp_tx_clock_conf (clock_conf_stored ptpclock_conf (tp_tx_clock_conf p)) p) ;;;
  mepa_exit ;;;
  ret MEPA_RC_OK.

(** ** The test configuration

    The registers of the two pulse outputs that [lan8814_ts_test_config] sets
    on the base port, in order. *)
Definition test_pps_regs : list (ereg * Z) :=
  [ (LAN8814_PTP_LTC_TARGET_SEC_HI_A, 0); (LAN8814_PTP_LTC_TARGET_SEC_LO_A, 0x2);
    (LAN8814_PTP_LTC_TARGET_NS_HI_A, 0); (LAN8814_PTP_LTC_TARGET_NS_LO_A, 0);
    (LAN8814_PTP_LTC_TARGET_RELOAD_SEC_HI_A, 0); (LAN8814_PTP_LTC_TARGET_RELOAD_SEC_LO_A, 1);
    (LAN8814_PTP_LTC_TARGET_RELOAD_NS_HI_A, 0); (LAN8814_PTP_LTC_TARGET_RELOAD_NS_LO_A, 0);
    (LAN8814_PTP_LTC_TARGET_SEC_HI_B, 0); (LAN8814_PTP_LTC_TARGET_SEC_LO_B, 0x2);
    (LAN8814_PTP_LTC_TARGET_NS_HI_B, 0); (LAN8814_PTP_LTC_TARGET_NS_LO_B, 0);
    (LAN8814_PTP_LTC_TARGET_RELOAD_SEC_HI_B, 0); (LAN8814_PTP_LTC_TARGET_RELOAD_SEC_LO_B, 0);
    (LAN8814_PTP_LTC_TARGET_RELOAD_NS_HI_B, 0x1DCD); (LAN8814_PTP_LTC_TARGET_RELOAD_NS_LO_B, 0x6500);
    (LAN8814_PTP_GENERAL_CONFIG, 0xE4A) ].

Definition test_pkt_conf : mepa_ts_classifier_t :=
  set_cl_pkt_encap_type MEPA_TS_ENCAP_ETH_IP_PTP mepa_ts_classifier_t_0.
Definition test_ptp_class_conf : mepa_ts_classifier_ptp_t :=
  Mk_mepa_ts_classifier_ptp_t (Mk_mepa_range_value 0x2 0x2) (Mk_mepa_range_value 0x1 0x0)
    (Mk_mepa_ts_match MEPA_TS_MATCH_MODE_RANGE (Mk_mepa_range_value 0xff 0x00)) mepa_ts_match_0.

(** Leave the function, with the lock, when the code is not OK. *)
Definition or_exit (m k : M Z) : M Z :=
  rc <- m ;;
  if negb (rc =? MEPA_RC_OK) then mepa_exit ;;; ret rc else k.

(** The register dumps print through a NULL function, so they do nothing. *)
Definition lan8814_ts_test_config (dev test_id reg_dump : Z) : M Z :=
  data <- data_of dev ;;
  let on_base := ptr_is (pd_base_dev data) dev in
  mepa_enter ;;;
  (if on_base then
     seq_ (fun x => EP_WRM dev (fst x) (snd x) LAN8814_DEF_MASK) test_pps_regs ;;;
     val <- EP_RD dev LAN8814_PTP_CMD_CTL 0xE4A ;;
     EP_WRM dev LAN8814_PTP_CMD_CTL (val .| LAN8814_PTP_CMD_CTL_ENABLE) LAN8814_DEF_MASK
   else ret tt) ;;;
  EP_WRM dev LAN8814_PTP_TSU_GEN_CONF 0 LAN8814_DEF_MASK ;;;
  or_exit (lan8814_ts_rx_classifier_conf_set_priv dev 0 test_pkt_conf) (
  or_exit (lan8814_ts_tx_classifier_conf_set_priv dev 0 test_pkt_conf) (
  or_exit (lan8814_ts_classifier_ptp_conf_priv dev TRUE test_ptp_class_conf) (
  or_exit (lan8814_ts_classifier_ptp_conf_priv dev FALSE test_ptp_class_conf) (
  let ts_insert := SYNC_PACKET .| DELAY_REQ_PACKET .| PDELAY_REQ_PACKET .| PDELAY_RESP_PACKET in
  let cf_update := ts_insert in
  EP_WRM dev LAN8814_PTP_RX_TIMESTAMP_EN ts_insert LAN8814_DEF_MASK ;;;
  EP_WRM dev LAN8814_PTP_RX_CF_MOD_EN cf_update LAN8814_DEF_MASK ;;;
  EP_WRM dev LAN8814_PTP_RX_CF_CFG 1 LAN8814_DEF_MASK ;;;
  EP_WRM dev LAN8814_PTP_RX_TIMESTAMP_CONFIG 6 LAN8814_DEF_MASK ;;;
  EP_WRM dev LAN8814_PTP_RX_RSVD_BYTE_CFG 0x0405 LAN8814_DEF_MASK ;;;
  EP_WRM dev LAN8814_PTP_RX_MOD LAN8814_PTP_RX_MOD_PTP_INSERT_TS_EN
    LAN8814_PTP_RX_MOD_PTP_INSERT_TS_EN ;;;
  EP_WRM dev LAN8814_PTP_TX_TIMESTAMP_EN ts_insert LAN8814_DEF_MASK ;;;
  EP_WRM dev LAN8814_PTP_TX_CF_MOD_EN cf_update LAN8814_DEF_MASK ;;;
  EP_WRM dev LAN8814_PTP_TX_CF_CFG 1 LAN8814_DEF_MASK ;;;
  EP_WRM dev LAN8814_PTP_TX_TIMESTAMP_CONFIG 6 LAN8814_DEF_MASK ;;;
  EP_WRM dev LAN8814_PTP_TX_MOD LAN8814_PTP_TX_MOD_SYNC_TS_INSERT LAN8814_PTP_TX_MOD_SYNC_TS_INSERT ;;;
  val <- EP_RD dev LAN8814_PTP_CMD_CTL 6 ;;
  (if on_base then EP_RD dev LAN8814_PTP_CMD_CTL val ;;; ret tt else ret tt) ;;;
  EP_WRM dev LAN8814_PTP_TSU_GEN_CONF LAN8814_PTP_TSU_GEN_CONF_EN LAN8814_DEF_MASK ;;;
  mepa_exit ;;;
  ret MEPA_RC_OK)))).
End TsClass.

(** ** Safety *)
Section Safe.
Context {B : Type} {CO : Callout B} {OK : CalloutOk (CO := CO)} (E : env) {EOK : EnvOk E}.
Local Abbreviation safe := (safe (B := B) (linked E)).
Implicit Types dev : Z.

(** The arrays of a classifier have the sizes of their C types. *)
Definition class_ok (c : mepa_ts_classifier_t) : Prop :=
  length (eth_mac_addr (cl_eth_class_conf c)) = 6%nat /\
  length (ip_addr_words (cl_ip_class_conf c)) = 8%nat.

Lemma safe_classifier_ptp_conf_priv dev ing c :
  safe true (lan8814_ts_classifier_ptp_conf_priv dev ing c) true.
Proof. lan_safe lan8814_ts_classifier_ptp_conf_priv. Qed.
Lemma safe_ip_word_wr dev words x :
  0 <= fst (fst x) < Z.of_nat (length words) -> safe true (ip_word_wr dev words x) true.
Proof.
  destruct x as [[i hi] lo]. cbn [fst]. intros Hi. apply safe_arr; [done|]. intros w _. safe_auto.
Qed.
Lemma safe_ip_words dev words l :
  length words = 8%nat -> Forall (fun x : Z * ereg * ereg => 0 <= fst (fst x) < 8) l ->
  safe true (seq_ (ip_word_wr dev words) l) true.
Proof.
  intros Hw. induction 1 as [|x l Hx _ IH]; cbn [seq_]; [apply safe_ret|].
  eapply safe_bind; [apply safe_ip_word_wr; by rewrite Hw|done].
Qed.
Lemma safe_ipv4_addr_conf_priv dev ing words : length words = 8%nat ->
  safe true (lan8814_ts_classifier_ipv4_addr_conf_priv dev ing words) true.
Proof.
  intros Hw. eapply safe_bind; [|intros _; apply safe_ret].
  apply safe_ip_words; [done|]. destruct (tb ing); repeat constructor; cbn; lia.
Qed.
Lemma safe_ipv6_addr_conf_priv dev ing words : length words = 8%nat ->
  safe true (lan8814_ts_classifier_ipv6_addr_conf_priv dev ing words) true.
Proof.
  intros Hw. eapply safe_bind; [|intros _; apply safe_ret].
  apply safe_ip_words; [done|]. destruct (tb ing); repeat constructor; cbn; lia.
Qed.
Lemma safe_mac_conf_set_priv dev ing mac : length mac = 6%nat ->
  safe true (lan8814_ts_classifier_mac_conf_set_priv dev ing mac) true.
Proof.
  intros Hm. unfold lan8814_ts_classifier_mac_conf_set_priv.
  do 6 (apply safe_arr; [rewrite Hm; lia|intros ? _]). safe_auto.
Qed.
Lemma safe_vlan_conf_set_priv dev ing c :
  e_devs E dev = true -> safe true (lan8814_ts_classifier_vlan_conf_set_priv dev ing c) true.
Proof.
  intros Hd. unfold lan8814_ts_classifier_vlan_conf_set_priv, vlan_outer, vlan_inner.
  repeat (lan_step; cbv beta zeta).
Qed.
#[local] Hint Resolve safe_classifier_ptp_conf_priv safe_ipv4_addr_conf_priv safe_ipv6_addr_conf_priv
  safe_mac_conf_set_priv safe_vlan_conf_set_priv : safe.

Lemma safe_rx_eth_conf dev eth l2 : e_devs E dev = true -> length (eth_mac_addr eth) = 6%nat ->
  safe true (rx_eth_conf dev eth l2) true.
Proof. lan_safe rx_eth_conf. Qed.
Lemma safe_tx_eth_conf dev eth l2 : e_devs E dev = true -> length (eth_mac_addr eth) = 6%nat ->
  safe true (tx_eth_conf dev eth l2) true.
Proof. lan_safe tx_eth_conf. Qed.
Lemma safe_rx_ip_conf dev c p : class_ok c -> safe true (rx_ip_conf dev c p) true.
Proof. intros [_ Hw]. lan_safe rx_ip_conf. Qed.
Lemma safe_tx_ip_conf dev c p : class_ok c -> safe true (tx_ip_conf dev c p) true.
Proof. intros [_ Hw]. lan_safe tx_ip_conf. Qed.
#[local] Hint Resolve safe_rx_eth_conf safe_tx_eth_conf safe_rx_ip_conf safe_tx_ip_conf : safe.

Lemma safe_rx_classifier_conf_set_priv dev i c : e_devs E dev = true -> class_ok c ->
  safe true (lan8814_ts_rx_classifier_conf_set_priv dev i c) true.
Proof. intros Hd Hc. pose proof (proj1 Hc). lan_safe lan8814_ts_rx_classifier_conf_set_priv. Qed.
Lemma safe_tx_classifier_conf_set_priv dev i c : e_devs E dev = true -> class_ok c ->
  safe true (lan8814_ts_tx_classifier_conf_set_priv dev i c) true.
Proof. intros Hd Hc. pose proof (proj1 Hc). lan_safe lan8814_ts_tx_classifier_conf_set_priv. Qed.
#[local] Hint Resolve safe_rx_classifier_conf_set_priv safe_tx_classifier_conf_set_priv : safe.

Lemma safe_rx_classifier_conf_set dev i c :
  e_devs E dev = true -> (forall c', c = Some c' -> class_ok c') ->
  safe false (lan8814_ts_rx_classifier_conf_set dev i c) false.
Proof.
  intros Hd Hc. unfold lan8814_ts_rx_classifier_conf_set. lan_step.
  destruct c as [c|]; [|apply safe_ret]. specialize (Hc c eq_refl). safe_auto.
Qed.
Lemma safe_tx_classifier_conf_set dev i c :
  e_devs E dev = true -> (forall c', c = Some c' -> class_ok c') ->
  safe false (lan8814_ts_tx_classifier_conf_set dev i c) false.
Proof.
  intros Hd Hc. unfold lan8814_ts_tx_classifier_conf_set. lan_step.
  destruct c as [c|]; [|apply safe_ret]. specialize (Hc c eq_refl). safe_auto.
Qed.
Lemma safe_rx_classifier_conf_get dev i c :
  e_devs E dev = true -> safe false (lan8814_ts_rx_classifier_conf_get dev i c) false.
Proof. lan_safe lan8814_ts_rx_classifier_conf_get. Qed.
Lemma safe_tx_classifier_conf_get dev i c :
  e_devs E dev = true -> safe false (lan8814_ts_tx_classifier_conf_get dev i c) false.
Proof. lan_safe lan8814_ts_tx_classifier_conf_get. Qed.
Lemma safe_rx_ptp_clock_conf_get dev i c :
  e_devs E dev = true -> safe false (lan8814_ts_rx_ptp_clock_conf_get dev i c) false.
Proof. lan_safe lan8814_ts_rx_ptp_clock_conf_get. Qed.
Lemma safe_tx_ptp_clock_conf_get dev i c :
  e_devs E dev = true -> safe false (lan8814_ts_tx_ptp_clock_conf_get dev i c) false.
Proof. lan_safe lan8814_ts_tx_ptp_clock_conf_get. Qed.
Lemma safe_rx_ptp_clock_conf_set dev i c :
  e_devs E dev = true -> safe false (lan8814_ts_rx_ptp_clock_conf_set dev i c) false.
Proof. lan_safe lan8814_ts_rx_ptp_clock_conf_set. Qed.
Lemma safe_tx_ptp_clock_conf_set dev i c :
  e_devs E dev = true -> safe false (lan8814_ts_tx_ptp_clock_conf_set dev i c) false.
Proof. lan_safe lan8814_ts_tx_ptp_clock_conf_set. Qed.

Lemma safe_or_exit m k : safe true m true -> safe true k false -> safe true (or_exit m k) false.
Proof.
  intros Hm Hk. eapply safe_bind; [done|intros rc]. apply safe_if; [safe_auto|done].
Qed.
Lemma safe_ts_test_config dev i r :
  e_devs E dev = true -> safe false (lan8814_ts_test_config dev i r) false.
Proof.
  intros Hd. assert (class_ok test_pkt_conf) as Hc by done.
  unfold lan8814_ts_test_config. lan_step. cbv zeta.
  eapply safe_bind; [eauto with safe|intros _]. eapply safe_bind; [|intros _].
  - safe_auto.
  - eapply safe_bind; [eauto with safe|intros _].
    do 4 (apply safe_or_exit; [solve [eauto with safe]|]). cbv zeta. safe_auto.
Qed.
End Safe.

#[export] Hint Resolve safe_rx_classifier_conf_set safe_tx_classifier_conf_set
  safe_rx_classifier_conf_get safe_tx_classifier_conf_get safe_rx_ptp_clock_conf_get
  safe_tx_ptp_clock_conf_get safe_rx_ptp_clock_conf_set safe_tx_ptp_clock_conf_set
  safe_ts_test_config : safe.
