(* ===== verification/Lan8814TsApi.v ===== *)
(** * Lan8814TsApi: the time stamping functions behind the API

    The table [lan8814_ts_drivers] and a call of a [mepa_ts_*] function of
    [phy.c]: it looks at the driver's table of time stamping functions and, in
    it, at its own function pointer.  Safety of such a call. *)

From Stdlib Require Import ZArith Lia List Bool String.
From stdpp Require Import base gmap strings list.
From S2P Require Import Prelude Machine MepaCore Enums Lan8814Regs Lan8814Types Trace Mdio Lan8814Access Lan8814Ts Lan8814TsClass.

Definition lan8814_ts_drivers : list (string * string) :=
  [ ("mepa_ts_init_conf_get", "lan8814_ts_init_conf_get");
    ("mepa_ts_init_conf_set", "lan8814_ts_init_conf_set");
    ("mepa_ts_mode_get", "lan8814_ts_mode_get");
    ("mepa_ts_mode_set", "lan8814_ts_mode_set");
    ("mepa_ts_reset", "lan8814_ts_reset");
    ("mepa_ts_ltc_ls_en", "lan8814_ts_ltc_ls_en_set");
    ("mepa_ts_ltc_get", "lan8814_ts_ltc_get");
    ("mepa_ts_ltc_set", "lan8814_ts_ltc_set");
    ("mepa_ts_clock_rateadj_get", "lan8814_ts_clock_rateadj_get");
    ("mepa_ts_clock_rateadj_set", "lan8814_ts_clock_rateadj_set");
    ("mepa_ts_clock_adj1ns", "lan8814_ts_clock_adj1ns");
    ("mepa_ts_delay_asymmetry_get", "lan8814_ts_clock_delay_asymmetry_get");
    ("mepa_ts_delay_asymmetry_set", "lan8814_ts_clock_delay_asymmetry_set");
    ("mepa_ts_path_delay_get", "lan8814_ts_clock_path_delay_get");
    ("mepa_ts_path_delay_set", "lan8814_ts_clock_path_delay_set");
    ("mepa_ts_egress_latency_get", "lan8814_ts_clock_egress_latency_get");
    ("mepa_ts_egress_latency_set", "lan8814_ts_clock_egress_latency_set");
    ("mepa_ts_ingress_latency_get", "lan8814_ts_clock_ingress_latency_get");
    ("mepa_ts_ingress_latency_set", "lan8814_ts_clock_ingress_latency_set");
    ("mepa_ts_rx_classifier_conf_get", "lan8814_ts_rx_classifier_conf_get");
    ("mepa_ts_rx_classifier_conf_set", "lan8814_ts_rx_classifier_conf_set");
    ("mepa_ts_tx_classifier_conf_get", "lan8814_ts_tx_classifier_conf_get");
    ("mepa_ts_tx_classifier_conf_set", "lan8814_ts_tx_classifier_conf_set");
    ("mepa_ts_rx_clock_conf_get", "lan8814_ts_rx_ptp_clock_conf_get");
    ("mepa_ts_tx_clock_conf_get", "lan8814_ts_tx_ptp_clock_conf_get");
    ("mepa_ts_rx_clock_conf_set", "lan8814_ts_rx_ptp_clock_conf_set");
    ("mepa_ts_tx_clock_conf_set", "lan8814_ts_tx_ptp_clock_conf_set");
    ("mepa_ts_pps_conf_get", "lan8814_ts_pps_conf_get");
    ("mepa_ts_pps_conf_set", "lan8814_ts_pps_conf_set");
    ("mepa_ts_stats_get", "lan8814_ts_stats_get");
    ("mepa_ts_event_get", "lan8814_ts_event_get");
    ("mepa_ts_event_set", "lan8814_ts_event_set");
    ("mepa_ts_event_poll", "lan8814_ts_event_poll");
    ("mepa_ts_fifo_read_install", "lan8814_ts_fifo_read_install");
    ("mepa_ts_fifo_empty", "lan8814_ts_tx_ts_get");
    ("mepa_ts_test_config", "lan8814_ts_test_config");
    ("mepa_ts_fifo_get", "lan8814_ts_fifo_get");
    ("mepa_ts_pch_mch_error_info_get", "lan8814_ts_pch_mch_error_get") ]%string.

(** A call, with the arguments the application chose; [turns] bounds the loop
    of [mepa_ts_fifo_empty], whose result is undefined when it is not enough. *)
Inductive ts_call :=
  | T_init_conf_get (conf : option mepa_ts_init_conf_t)
  | T_init_conf_set (conf : option mepa_ts_init_conf_t)
  | T_mode_get
  | T_mode_set (enable : Z)
  | T_reset
  | T_ltc_ls_en (ls_type : Z)
  | T_ltc_get (ts : option mepa_timestamp_t)
  | T_ltc_set (ts : option mepa_timestamp_t)
  | T_clock_rateadj_get (adj : option Z)
  | T_clock_rateadj_set (adj : option Z)
  | T_clock_adj1ns (incr : Z)
  | T_delay_asymmetry_get
  | T_delay_asymmetry_set (delay_asym : Z)
  | T_path_delay_get (path_delay : option Z)
  | T_path_delay_set (path_delay : option Z)
  | T_egress_latency_get (latency : option Z)
  | T_egress_latency_set (latency : option Z)
  | T_ingress_latency_get (latency : option Z)
  | T_ingress_latency_set (latency : option Z)
  | T_rx_classifier_conf_get (flow_index : Z) (conf : option mepa_ts_classifier_t)
  | T_rx_classifier_conf_set (flow_index : Z) (conf : option mepa_ts_classifier_t)
  | T_tx_classifier_conf_get (flow_index : Z) (conf : option mepa_ts_classifier_t)
  | T_tx_classifier_conf_set (flow_index : Z) (conf : option mepa_ts_classifier_t)
  | T_rx_clock_conf_get (clock_id : Z) (conf : option mepa_ts_ptp_clock_conf_t)
  | T_tx_clock_conf_get (clock_id : Z) (conf : option mepa_ts_ptp_clock_conf_t)
  | T_rx_clock_conf_set (clock_id : Z) (conf : mepa_ts_ptp_clock_conf_t)
  | T_tx_clock_conf_set (clock_id : Z) (conf : mepa_ts_ptp_clock_conf_t)
  | T_pps_conf_get
  | T_pps_conf_set (conf : mepa_ts_pps_conf_t)
  | T_stats_get (stat : option mepa_ts_stats_t)
  | T_event_get (ev_mask : option Z)
  | T_event_set (enable ev_mask : Z)
  | T_event_poll (status : option Z)
  | T_fifo_read_install (rd_cb : option Z)
  | T_fifo_empty (turns : nat)
  | T_test_config (test_id reg_dump : Z)
  | T_fifo_get (ts_list : list mepa_fifo_ts_entry_t) (size num : Z)
  | T_pch_mch_error_info_get
  | T_fifo_signature_set (sig_mask : Z)
  | T_fifo_signature_get.

(** The function pointer that the API function of a call looks at. *)
Definition ts_slot_of (c : ts_call) : string :=
  match c with
  | T_init_conf_get _ => "mepa_ts_init_conf_get"
  | T_init_conf_set _ => "mepa_ts_init_conf_set"
  | T_mode_get => "mepa_ts_mode_get"
  | T_mode_set _ => "mepa_ts_mode_set"
  | T_reset => "mepa_ts_reset"
  | T_ltc_ls_en _ => "mepa_ts_ltc_ls_en"
  | T_ltc_get _ => "mepa_ts_ltc_get"
  | T_ltc_set _ => "mepa_ts_ltc_set"
  | T_clock_rateadj_get _ => "mepa_ts_clock_rateadj_get"
  | T_clock_rateadj_set _ => "mepa_ts_clock_rateadj_set"
  | T_clock_adj1ns _ => "mepa_ts_clock_adj1ns"
  | T_delay_asymmetry_get => "mepa_ts_delay_asymmetry_get"
  | T_delay_asymmetry_set _ => "mepa_ts_delay_asymmetry_set"
  | T_path_delay_get _ => "mepa_ts_path_delay_get"
  | T_path_delay_set _ => "mepa_ts_path_delay_set"
  | T_egress_latency_get _ => "mepa_ts_egress_latency_get"
  | T_egress_latency_set _ => "mepa_ts_egress_latency_set"
  | T_ingress_latency_get _ => "mepa_ts_ingress_latency_get"
  | T_ingress_latency_set _ => "mepa_ts_ingress_latency_set"
  | T_rx_classifier_conf_get _ _ => "mepa_ts_rx_classifier_conf_get"
  | T_rx_classifier_conf_set _ _ => "mepa_ts_rx_classifier_conf_set"
  | T_tx_classifier_conf_get _ _ => "mepa_ts_tx_classifier_conf_get"
  | T_tx_classifier_conf_set _ _ => "mepa_ts_tx_classifier_conf_set"
  | T_rx_clock_conf_get _ _ => "mepa_ts_rx_clock_conf_get"
  | T_tx_clock_conf_get _ _ => "mepa_ts_tx_clock_conf_get"
  | T_rx_clock_conf_set _ _ => "mepa_ts_rx_clock_conf_set"
  | T_tx_clock_conf_set _ _ => "mepa_ts_tx_clock_conf_set"
  | T_pps_conf_get => "mepa_ts_pps_conf_get"
  | T_pps_conf_set _ => "mepa_ts_pps_conf_set"
  | T_stats_get _ => "mepa_ts_stats_get"
  | T_event_get _ => "mepa_ts_event_get"
  | T_event_set _ _ => "mepa_ts_event_set"
  | T_event_poll _ => "mepa_ts_event_poll"
  | T_fifo_read_install _ => "mepa_ts_fifo_read_install"
  | T_fifo_empty _ => "mepa_ts_fifo_empty"
  | T_test_config _ _ => "mepa_ts_test_config"
  | T_fifo_get _ _ _ => "mepa_ts_fifo_get"
  | T_pch_mch_error_info_get => "mepa_ts_pch_mch_error_info_get"
  | T_fifo_signature_set _ => "mepa_ts_fifo_signature_set"
  | T_fifo_signature_get => "mepa_ts_fifo_signature_get"
  end%string.

Section TsApi.
Context {B : Type} {CO : Callout B}.
Local Abbreviation M := (M B phy_data_t).

Definition rc_of {A} (m : M (Z * A)) : M Z := r <- m ;; ret (fst r).
Definition fifo_rc {A C} (m : M (Z * A * C)) : M Z := r <- m ;; ret (fst (fst r)).
Definition deref_rc (m : M (option Z)) : M Z := r <- m ;; deref r.

(** Call the function [f] if it is the one named; a function pointer to
    anything else has the wrong type. *)
Fixpoint call_fn (f : string) (l : list (string * M Z)) : M Z :=
  match l with
  | [] => undefined
  | (g, m) :: l => if String.eqb f g then m else call_fn f l
  end.

Definition ts_exec (dev : Z) (c : ts_call) (f : string) : M Z :=
  call_fn f
  match c with
  | T_init_conf_get conf => [("lan8814_ts_init_conf_get", rc_of (lan8814_ts_init_conf_get dev conf))]
  | T_init_conf_set conf => [("lan8814_ts_init_conf_set", lan8814_ts_init_conf_set dev conf)]
  | T_mode_get => [("lan8814_ts_mode_get", rc_of (lan8814_ts_mode_get dev))]
  | T_mode_set enable => [("lan8814_ts_mode_set", lan8814_ts_mode_set dev enable)]
  | T_reset => [("lan8814_ts_reset", lan8814_ts_reset dev)]
  | T_ltc_ls_en ls_type => [("lan8814_ts_ltc_ls_en_set", lan8814_ts_ltc_ls_en_set dev ls_type)]
  | T_ltc_get ts => [("lan8814_ts_ltc_get", rc_of (lan8814_ts_ltc_get dev ts))]
  | T_ltc_set ts => [("lan8814_ts_ltc_set", lan8814_ts_ltc_set dev ts)]
  | T_clock_rateadj_get adj => [("lan8814_ts_clock_rateadj_get", rc_of (lan8814_ts_clock_rateadj_get dev adj))]
  | T_clock_rateadj_set adj => [("lan8814_ts_clock_rateadj_set", lan8814_ts_clock_rateadj_set dev adj)]
  | T_clock_adj1ns incr => [("lan8814_ts_clock_adj1ns", lan8814_ts_clock_adj1ns dev incr)]
  | T_delay_asymmetry_get => [("lan8814_ts_clock_delay_asymmetry_get", rc_of (lan8814_ts_clock_delay_asymmetry_get dev))]
  | T_delay_asymmetry_set delay_asym => [("lan8814_ts_clock_delay_asymmetry_set", lan8814_ts_clock_delay_asymmetry_set dev delay_asym)]
  | T_path_delay_get path_delay => [("lan8814_ts_clock_path_delay_get", rc_of (lan8814_ts_clock_path_delay_get dev path_delay))]
  | T_path_delay_set path_delay => [("lan8814_ts_clock_path_delay_set", lan8814_ts_clock_path_delay_set dev path_delay)]
  | T_egress_latency_get latency => [("lan8814_ts_clock_egress_latency_get", rc_of (lan8814_ts_clock_egress_latency_get dev latency))]
  | T_egress_latency_set latency => [("lan8814_ts_clock_egress_latency_set", lan8814_ts_clock_egress_latency_set dev latency)]
  | T_ingress_latency_get latency => [("lan8814_ts_clock_ingress_latency_get", rc_of (lan8814_ts_clock_ingress_latency_get dev latency))]
  | T_ingress_latency_set latency => [("lan8814_ts_clock_ingress_latency_set", lan8814_ts_clock_ingress_latency_set dev latency)]
  | T_rx_classifier_conf_get flow_index conf => [("lan8814_ts_rx_classifier_conf_get", rc_of (lan8814_ts_rx_classifier_conf_get dev flow_index conf))]
  | T_rx_classifier_conf_set flow_index conf => [("lan8814_ts_rx_classifier_conf_set", lan8814_ts_rx_classifier_conf_set dev flow_index conf)]
  | T_tx_classifier_conf_get flow_index conf => [("lan8814_ts_tx_classifier_conf_get", rc_of (lan8814_ts_tx_classifier_conf_get dev flow_index conf))]
  | T_tx_classifier_conf_set flow_index conf => [("lan8814_ts_tx_classifier_conf_set", lan8814_ts_tx_classifier_conf_set dev flow_index conf)]
  | T_rx_clock_conf_get clock_id conf => [("lan8814_ts_rx_ptp_clock_conf_get", rc_of (lan8814_ts_rx_ptp_clock_conf_get dev clock_id conf))]
  | T_tx_clock_conf_get clock_id conf => [("lan8814_ts_tx_ptp_clock_conf_get", rc_of (lan8814_ts_tx_ptp_clock_conf_get dev clock_id conf))]
  | T_rx_clock_conf_set clock_id conf => [("lan8814_ts_rx_ptp_clock_conf_set", lan8814_ts_rx_ptp_clock_conf_set dev clock_id conf)]
  | T_tx_clock_conf_set clock_id conf => [("lan8814_ts_tx_ptp_clock_conf_set", lan8814_ts_tx_ptp_clock_conf_set dev clock_id conf)]
  | T_pps_conf_get => [("lan8814_ts_pps_conf_get", rc_of (lan8814_ts_pps_conf_get dev))]
  | T_pps_conf_set conf => [("lan8814_ts_pps_conf_set", lan8814_ts_pps_conf_set dev conf)]
  | T_stats_get stat => [("lan8814_ts_stats_get", rc_of (lan8814_ts_stats_get dev stat))]
  | T_event_get ev_mask => [("lan8814_ts_event_get", rc_of (lan8814_ts_event_get dev ev_mask))]
  | T_event_set enable ev_mask => [("lan8814_ts_event_set", lan8814_ts_event_set dev enable ev_mask)]
  | T_event_poll status => [("lan8814_ts_event_poll", rc_of (lan8814_ts_event_poll dev status))]
  | T_fifo_read_install rd_cb => [("lan8814_ts_fifo_read_install", lan8814_ts_fifo_read_install dev rd_cb ;;; ret MEPA_RC_OK)]
  | T_fifo_empty turns => [("lan8814_ts_tx_ts_get", deref_rc (lan8814_ts_tx_ts_get turns dev))]
  | T_test_config test_id reg_dump => [("lan8814_ts_test_config", lan8814_ts_test_config dev test_id reg_dump)]
  | T_fifo_get ts_list size num => [("lan8814_ts_fifo_get", fifo_rc (lan8814_ts_fifo_get dev ts_list size num))]
  | T_pch_mch_error_info_get => [("lan8814_ts_pch_mch_error_get", rc_of (lan8814_ts_pch_mch_error_get dev))]
  | T_fifo_signature_set _ | T_fifo_signature_get => []
  end%string.

(** [if (!dev || !dev->drv->mepa_ts) ..; if (!dev->drv->mepa_ts->fn) ..;
    return dev->drv->mepa_ts->fn(..);] on a device whose driver has the table
    [tbl]. *)
Definition ts_dispatch (tbl : list (string * string)) (dev : Z) (c : ts_call) : M Z :=
  match slot_lookup tbl (ts_slot_of c) with
  | None => ret MEPA_RC_NOT_IMPLEMENTED
  | Some f => ts_exec dev c f
  end.
End TsApi.

(** What a call on port [dev] needs: a clock frequency that the latency tables
    have (on the base port any other is refused), a rate adjustment whose
    magnitude is representable, latencies within [2^61], addresses of the right
    size, and an array of the size that is announced.  Emptying the FIFO ends
    when the hardware says so; it has its own theorem. *)
Definition ts_call_ok (E : env) (dev : Z) (c : ts_call) : Prop :=
  match c with
  | T_init_conf_set conf => forall c', conf = Some c' -> freq_ok c' \/ e_base E dev = dev
  | T_clock_rateadj_set adj => forall a, adj = Some a -> Z.abs a < 2 ^ 63
  | T_egress_latency_set l | T_ingress_latency_set l => forall x, l = Some x -> latency_ok x
  | T_rx_classifier_conf_set _ conf | T_tx_classifier_conf_set _ conf =>
      forall c', conf = Some c' -> class_ok c'
  | T_fifo_get l size _ => size <= Z.of_nat (List.length l)
  | T_fifo_empty _ => False
  | _ => True
  end.

Section Safe.
Context {B : Type} {CO : Callout B} {OK : CalloutOk (CO := CO)} (E : env) {EOK : EnvOk E}.
Local Abbreviation safe := (safe (B := B) (linked E)).

Lemma safe_rc_of {A} (m : M B phy_data_t (Z * A)) h h' : safe h m h' -> safe h (rc_of m) h'.
Proof. intros Hm. eapply safe_bind; [done|]. intros r. apply safe_ret. Qed.
Lemma safe_fifo_rc {A C} (m : M B phy_data_t (Z * A * C)) h h' :
  safe h m h' -> safe h (fifo_rc m) h'.
Proof. intros Hm. eapply safe_bind; [done|]. intros r. apply safe_ret. Qed.
Lemma safe_then_ok (m : M B phy_data_t unit) h h' :
  safe h m h' -> safe h (m ;;; ret MEPA_RC_OK) h'.
Proof. intros Hm. eapply safe_bind; [done|]. intros r. apply safe_ret. Qed.

Lemma safe_call_fn f l h :
  Forall (fun x => safe h (snd x) h) l -> In f (map fst l) -> safe h (call_fn f l) h.
Proof.
  induction 1 as [|[g m] l Hm _ IH]; [done|]. cbn. intros Hin.
  destruct (String.eqb_spec f g) as [<-|Hne]; [done|].
  destruct Hin as [->|Hin]; [done|]. by apply IH.
Qed.
#[local] Hint Resolve safe_rc_of safe_fifo_rc safe_then_ok safe_ts_init_conf_set
  safe_ts_clock_rateadj_set safe_ts_clock_egress_latency_set safe_ts_clock_ingress_latency_set
  safe_ts_fifo_get : safe.

Lemma safe_ts_dispatch dev c :
  e_devs E dev = true -> ts_call_ok E dev c ->
  safe false (ts_dispatch lan8814_ts_drivers dev c) false.
Proof.
  intros Hd Hc. destruct c; cbn [ts_call_ok] in Hc; try done;
    cbv beta iota delta [ts_dispatch ts_slot_of slot_lookup lan8814_ts_drivers String.eqb Ascii.eqb Bool.eqb];
    try apply safe_ret;
    (apply safe_call_fn; [|by left]); (constructor; [|constructor]); cbn [snd]; eauto 4 with safe.
Qed.
End Safe.
