(* ===== verification/Lan8814Api.v ===== *)
(** * Lan8814Api: the driver table and the calls that go through it

    The five rows of [lan8814_drivers] (built without [MEPA_LAN8814_LIGHT]),
    and a call of the MEPA API on a LAN8814 device: the API function of
    [phy.c] looks up its function pointer in the device's row and calls what
    it points to. *)

From Stdlib Require Import ZArith Lia List Bool String.
From stdpp Require Import base gmap strings list.
From S2P Require Import Prelude Machine MepaCore MepaApi Enums Lan8814Regs Lan8814Types Trace Mdio Lan8814Access SimPhy Lan8814Conf Lan8814Poll Lan8814Gpio Lan8814Diag Lan8814Driver Lan8814Ts Lan8814TsApi.

Definition lan8814_driver_lan8814 : mepa_driver_t := Mk_mepa_driver_t LAN8814_DEF_DRV_ID 0xfffff0
  [ ("mepa_driver_delete", "lan8814_delete");
    ("mepa_driver_reset", "lan8814_reset");
    ("mepa_driver_poll", "lan8814_poll");
    ("mepa_driver_conf_set", "lan8814_conf_set");
    ("mepa_driver_conf_get", "lan8814_conf_get");
    ("mepa_driver_if_set", "lan8814_if_set");
    ("mepa_driver_if_get", "lan8814_if_get");
    ("mepa_driver_probe", "lan8814_probe");
    ("mepa_driver_aneg_status_get", "lan8814_aneg_status_get");
    ("mepa_driver_clause22_read", "lan8814_direct_reg_read");
    ("mepa_driver_clause22_write", "lan8814_direct_reg_write");
    ("mepa_driver_clause45_read", "lan8814_ext_mmd_reg_read");
    ("mepa_driver_clause45_write", "lan8814_ext_mmd_reg_write");
    ("mepa_driver_event_enable_set", "lan8814_event_enable_set");
    ("mepa_driver_event_enable_get", "lan8814_event_enable_get");
    ("mepa_driver_event_poll", "lan8814_event_status_poll");
    ("mepa_driver_gpio_mode_set", "lan8814_gpio_mode_set");
    ("mepa_driver_gpio_out_set", "lan8814_gpio_out_set");
    ("mepa_driver_gpio_in_get", "lan8814_gpio_in_get");
    ("mepa_driver_link_base_port", "lan8814_link_base_port");
    ("mepa_capability", "lan8814_capability");
    ("mepa_driver_phy_info_get", "lan8814_info_get");
    ("mepa_driver_eee_mode_conf_set", "lan8814_eee_mode_conf_set");
    ("mepa_driver_eee_mode_conf_get", "lan8814_eee_mode_conf_get");
    ("mepa_driver_eee_status_get", "lan8814_eee_status_get");
    ("mepa_driver_cable_diag_start", "lan8814_cab_diag_start");
    ("mepa_driver_cable_diag_get", "lan8814_cab_diag_get");
    ("mepa_driver_loopback_set", "lan8814_loopback_set");
    ("mepa_driver_loopback_get", "lan8814_loopback_get");
    ("mepa_ts", "lan8814_ts_drivers");
    ("mepa_driver_synce_clock_conf_set", "lan8814_recovered_clk_set");
    ("mepa_driver_isolate_mode_conf", "lan8814_isolate_mode_conf");
    ("mepa_debug_info_dump", "lan8814_debug_info_dump");
    ("mepa_driver_sqi_read", "lan8814_sqi_read");
    ("mepa_driver_start_of_frame_conf_set", "lan8814_start_of_frame_conf_set");
    ("mepa_driver_start_of_frame_conf_get", "lan8814_start_of_frame_conf_get");
    ("mepa_driver_framepreempt_get", "lan8814_framepreempt_get");
    ("mepa_driver_framepreempt_set", "lan8814_framepreempt_set");
    ("mepa_driver_selftest_start", "lan8814_selftest_start");
    ("mepa_driver_selftest_read", "lan8814_selftest_read");
    ("mepa_driver_prbs_set", "lan8814_prbs_set");
    ("mepa_driver_prbs_get", "lan8814_prbs_get");
    ("mepa_driver_prbs_monitor_set", "lan8814_prbs_monitor_set");
    ("mepa_driver_prbs_monitor_get", "lan8814_prbs_monitor_get");
    ("mepa_driver_serdes_tx_conf_set", "lan8814_serdes_tx_conf_set") ]%string.

Definition lan8814_driver_lan8804 : mepa_driver_t := Mk_mepa_driver_t LAN8804_SKU 0xffff
  [ ("mepa_driver_delete", "lan8814_delete");
    ("mepa_driver_reset", "lan8814_reset");
    ("mepa_driver_poll", "lan8814_poll");
    ("mepa_driver_conf_set", "lan8814_conf_set");
    ("mepa_driver_conf_get", "lan8814_conf_get");
    ("mepa_driver_if_set", "lan8814_if_set");
    ("mepa_driver_if_get", "lan8814_if_get");
    ("mepa_driver_probe", "lan8814_probe");
    ("mepa_driver_aneg_status_get", "lan8814_aneg_status_get");
    ("mepa_driver_clause22_read", "lan8814_direct_reg_read");
    ("mepa_driver_clause22_write", "lan8814_direct_reg_write");
    ("mepa_driver_clause45_read", "lan8814_ext_mmd_reg_read");
    ("mepa_driver_clause45_write", "lan8814_ext_mmd_reg_write");
    ("mepa_driver_event_enable_set", "lan8814_event_enable_set");
    ("mepa_driver_event_enable_get", "lan8814_event_enable_get");
    ("mepa_driver_event_poll", "lan8814_event_status_poll");
    ("mepa_driver_gpio_mode_set", "lan8814_gpio_mode_set");
    ("mepa_driver_gpio_out_set", "lan8814_gpio_out_set");
    ("mepa_driver_gpio_in_get", "lan8814_gpio_in_get");
    ("mepa_driver_link_base_port", "lan8814_link_base_port");
    ("mepa_capability", "lan8814_capability");
    ("mepa_driver_phy_info_get", "lan8814_info_get");
    ("mepa_driver_eee_mode_conf_set", "lan8814_eee_mode_conf_set");
    ("mepa_driver_eee_mode_conf_get", "lan8814_eee_mode_conf_get");
    ("mepa_driver_eee_status_get", "lan8814_eee_status_get");
    ("mepa_driver_cable_diag_start", "lan8814_cab_diag_start");
    ("mepa_driver_cable_diag_get", "lan8814_cab_diag_get");
    ("mepa_driver_loopback_set", "lan8814_loopback_set");
    ("mepa_driver_loopback_get", "lan8814_loopback_get");
    ("mepa_driver_synce_clock_conf_set", "lan8814_recovered_clk_set");
    ("mepa_driver_isolate_mode_conf", "lan8814_isolate_mode_conf");
    ("mepa_debug_info_dump", "lan8814_debug_info_dump");
    ("mepa_driver_sqi_read", "lan8814_sqi_read");
    ("mepa_driver_start_of_frame_conf_set", "lan8814_start_of_frame_conf_set");
    ("mepa_driver_start_of_frame_conf_get", "lan8814_start_of_frame_conf_get");
    ("mepa_driver_framepreempt_get", "lan8814_framepreempt_get");
    ("mepa_driver_selftest_start", "lan8814_selftest_start");
    ("mepa_driver_selftest_read", "lan8814_selftest_read");
    ("mepa_driver_prbs_set", "lan8814_prbs_set");
    ("mepa_driver_prbs_get", "lan8814_prbs_get");
    ("mepa_driver_prbs_monitor_set", "lan8814_prbs_monitor_set");
    ("mepa_driver_prbs_monitor_get", "lan8814_prbs_monitor_get");
    ("mepa_driver_serdes_tx_conf_set", "lan8814_serdes_tx_conf_set") ]%string.

Definition lan8814_driver_lan966x : mepa_driver_t := Mk_mepa_driver_t LAN8814_INT_PHY_DRV_ID 0xfffff0
  [ ("mepa_driver_delete", "lan8814_delete");
    ("mepa_driver_reset", "lan8814_reset");
    ("mepa_driver_poll", "lan8814_poll");
    ("mepa_driver_conf_set", "lan8814_conf_set");
    ("mepa_driver_conf_get", "lan8814_conf_get");
    ("mepa_driver_if_set", "mas_if_set");
    ("mepa_driver_if_get", "mas_if_get");
    ("mepa_driver_probe", "lan8814_probe");
    ("mepa_driver_aneg_status_get", "lan8814_aneg_status_get");
    ("mepa_driver_clause22_read", "lan8814_direct_reg_read");
    ("mepa_driver_clause22_write", "lan8814_direct_reg_write");
    ("mepa_driver_clause45_read", "lan8814_ext_mmd_reg_read");
    ("mepa_driver_clause45_write", "lan8814_ext_mmd_reg_write");
    ("mepa_driver_event_enable_set", "lan8814_event_enable_set");
    ("mepa_driver_event_enable_get", "lan8814_event_enable_get");
    ("mepa_driver_event_poll", "lan8814_event_status_poll");
    ("mepa_driver_gpio_mode_set", "lan8814_gpio_mode_set");
    ("mepa_driver_gpio_out_set", "lan8814_gpio_out_set");
    ("mepa_driver_gpio_in_get", "lan8814_gpio_in_get");
    ("mepa_capability", "lan8814_capability");
    ("mepa_driver_phy_info_get", "lan8814_info_get");
    ("mepa_driver_eee_mode_conf_set", "lan8814_eee_mode_conf_set");
    ("mepa_driver_eee_mode_conf_get", "lan8814_eee_mode_conf_get");
    ("mepa_driver_eee_status_get", "lan8814_eee_status_get");
    ("mepa_driver_synce_clock_conf_set", "lan8814_recovered_clk_set");
    ("mepa_driver_cable_diag_start", "lan8814_cab_diag_start");
    ("mepa_driver_cable_diag_get", "lan8814_cab_diag_get");
    ("mepa_driver_loopback_set", "lan8814_loopback_set");
    ("mepa_driver_loopback_get", "lan8814_loopback_get");
    ("mepa_driver_isolate_mode_conf", "lan8814_isolate_mode_conf");
    ("mepa_debug_info_dump", "lan8814_debug_info_dump");
    ("mepa_driver_sqi_read", "lan8814_sqi_read");
    ("mepa_driver_start_of_frame_conf_set", "lan8814_start_of_frame_conf_set");
    ("mepa_driver_start_of_frame_conf_get", "lan8814_start_of_frame_conf_get");
    ("mepa_driver_framepreempt_set", "lan8814_framepreempt_set");
    ("mepa_driver_framepreempt_get", "lan8814_framepreempt_get");
    ("mepa_driver_selftest_start", "lan8814_selftest_start");
    ("mepa_driver_selftest_read", "lan8814_selftest_read");
    ("mepa_driver_prbs_set", "lan8814_prbs_set");
    ("mepa_driver_prbs_get", "lan8814_prbs_get");
    ("mepa_driver_prbs_monitor_set", "lan8814_prbs_monitor_set");
    ("mepa_driver_prbs_monitor_get", "lan8814_prbs_monitor_get");
    ("mepa_driver_serdes_tx_conf_set", "lan8814_serdes_tx_conf_set") ]%string.

Definition lan8814_driver_lan8842 : mepa_driver_t := Mk_mepa_driver_t LAN8842_DRV_ID 0xfffff0
  [ ("mepa_driver_delete", "lan8814_delete");
    ("mepa_driver_reset", "lan8814_reset");
    ("mepa_driver_poll", "lan8814_poll");
    ("mepa_driver_conf_set", "lan8814_conf_set");
    ("mepa_driver_conf_get", "lan8814_conf_get");
    ("mepa_driver_if_set", "lan8842_if_set");
    ("mepa_driver_if_get", "lan8842_if_get");
    ("mepa_driver_probe", "lan8814_probe");
    ("mepa_driver_aneg_status_get", "lan8814_aneg_status_get");
    ("mepa_driver_clause22_read", "lan8814_direct_reg_read");
    ("mepa_driver_clause22_write", "lan8814_direct_reg_write");
    ("mepa_driver_clause45_read", "lan8814_ext_mmd_reg_read");
    ("mepa_driver_clause45_write", "lan8814_ext_mmd_reg_write");
    ("mepa_driver_event_enable_set", "lan8814_event_enable_set");
    ("mepa_driver_event_enable_get", "lan8814_event_enable_get");
    ("mepa_driver_event_poll", "lan8814_event_status_poll");
    ("mepa_driver_gpio_mode_set", "lan8814_gpio_mode_set");
    ("mepa_driver_gpio_out_set", "lan8814_gpio_out_set");
    ("mepa_driver_gpio_in_get", "lan8814_gpio_in_get");
    ("mepa_capability", "lan8814_capability");
    ("mepa_driver_phy_info_get", "lan8842_info_get");
    ("mepa_driver_eee_mode_conf_set", "lan8814_eee_mode_conf_set");
    ("mepa_driver_eee_mode_conf_get", "lan8814_eee_mode_conf_get");
    ("mepa_driver_eee_status_get", "lan8814_eee_status_get");
    ("mepa_driver_cable_diag_start", "lan8814_cab_diag_start");
    ("mepa_driver_cable_diag_get", "lan8814_cab_diag_get");
    ("mepa_driver_loopback_set", "lan8814_loopback_set");
    ("mepa_driver_loopback_get", "lan8814_loopback_get");
    ("mepa_ts", "lan8814_ts_drivers");
    ("mepa_driver_synce_clock_conf_set", "lan8814_recovered_clk_set");
    ("mepa_driver_isolate_mode_conf", "lan8814_isolate_mode_conf");
    ("mepa_debug_info_dump", "lan8814_debug_info_dump");
    ("mepa_driver_sqi_read", "lan8814_sqi_read");
    ("mepa_driver_start_of_frame_conf_set", "lan8842_start_of_frame_conf_set");
    ("mepa_driver_start_of_frame_conf_get", "lan8814_start_of_frame_conf_get");
    ("mepa_driver_framepreempt_set", "lan8814_framepreempt_set");
    ("mepa_driver_framepreempt_get", "lan8814_framepreempt_get");
    ("mepa_driver_selftest_start", "lan8814_selftest_start");
    ("mepa_driver_selftest_read", "lan8814_selftest_read");
    ("mepa_driver_prbs_set", "lan8814_prbs_set");
    ("mepa_driver_prbs_get", "lan8814_prbs_get");
    ("mepa_driver_prbs_monitor_set", "lan8814_prbs_monitor_set");
    ("mepa_driver_prbs_monitor_get", "lan8814_prbs_monitor_get");
    ("mepa_driver_serdes_tx_conf_set", "lan8814_serdes_tx_conf_set") ]%string.

Definition lan8814_driver_lan8832 : mepa_driver_t := Mk_mepa_driver_t LAN8832_SKU 0xffff
  [ ("mepa_driver_delete", "lan8814_delete");
    ("mepa_driver_reset", "lan8814_reset");
    ("mepa_driver_poll", "lan8814_poll");
    ("mepa_driver_conf_set", "lan8814_conf_set");
    ("mepa_driver_conf_get", "lan8814_conf_get");
    ("mepa_driver_if_set", "lan8842_if_set");
    ("mepa_driver_if_get", "lan8842_if_get");
    ("mepa_driver_probe", "lan8814_probe");
    ("mepa_driver_aneg_status_get", "lan8814_aneg_status_get");
    ("mepa_driver_clause22_read", "lan8814_direct_reg_read");
    ("mepa_driver_clause22_write", "lan8814_direct_reg_write");
    ("mepa_driver_clause45_read", "lan8814_ext_mmd_reg_read");
    ("mepa_driver_clause45_write", "lan8814_ext_mmd_reg_write");
    ("mepa_driver_event_enable_get", "lan8814_event_enable_get");
    ("mepa_driver_event_enable_set", "lan8814_event_enable_set");
    ("mepa_driver_event_poll", "lan8814_event_status_poll");
    ("mepa_driver_gpio_mode_set", "lan8814_gpio_mode_set");
    ("mepa_driver_gpio_out_set", "lan8814_gpio_out_set");
    ("mepa_driver_gpio_in_get", "lan8814_gpio_in_get");
    ("mepa_capability", "lan8814_capability");
    ("mepa_driver_phy_info_get", "lan8842_info_get");
    ("mepa_driver_eee_mode_conf_set", "lan8814_eee_mode_conf_set");
    ("mepa_driver_eee_mode_conf_get", "lan8814_eee_mode_conf_get");
    ("mepa_driver_eee_status_get", "lan8814_eee_status_get");
    ("mepa_driver_cable_diag_start", "lan8814_cab_diag_start");
    ("mepa_driver_cable_diag_get", "lan8814_cab_diag_get");
    ("mepa_driver_loopback_set", "lan8814_loopback_set");
    ("mepa_driver_loopback_get", "lan8814_loopback_get");
    ("mepa_driver_synce_clock_conf_set", "lan8814_recovered_clk_set");
    ("mepa_driver_isolate_mode_conf", "lan8814_isolate_mode_conf");
    ("mepa_debug_info_dump", "lan8814_debug_info_dump");
    ("mepa_driver_sqi_read", "lan8814_sqi_read");
    ("mepa_driver_start_of_frame_conf_set", "lan8842_start_of_frame_conf_set");
    ("mepa_driver_start_of_frame_conf_get", "lan8814_start_of_frame_conf_get");
    ("mepa_driver_framepreempt_set", "lan8814_framepreempt_set");
    ("mepa_driver_framepreempt_get", "lan8814_framepreempt_get");
    ("mepa_driver_selftest_start", "lan8814_selftest_start");
    ("mepa_driver_selftest_read", "lan8814_selftest_read");
    ("mepa_driver_prbs_set", "lan8814_prbs_set");
    ("mepa_driver_prbs_get", "lan8814_prbs_get");
    ("mepa_driver_prbs_monitor_set", "lan8814_prbs_monitor_set");
    ("mepa_driver_prbs_monitor_get", "lan8814_prbs_monitor_get");
    ("mepa_driver_serdes_tx_conf_set", "lan8814_serdes_tx_conf_set") ]%string.


Definition lan8814_drivers : list mepa_driver_t :=
  [ lan8814_driver_lan8814; lan8814_driver_lan8804; lan8814_driver_lan966x;
    lan8814_driver_lan8842; lan8814_driver_lan8832 ].

(** A call of the API, with the arguments the application chose. *)
Inductive call :=
  | C_reset (rst_conf : mepa_reset_param_t)
  | C_poll (status : mepa_status_t)
  | C_conf_set (config : mepa_conf_t)
  | C_conf_get 
  | C_if_set (mac_if : Z)
  | C_if_get 
  | C_aneg_status_get 
  | C_clause22_read (address value : Z)
  | C_clause22_write (address value : Z)
  | C_clause45_read (address value : Z)
  | C_clause45_write (address value : Z)
  | C_event_enable_set (event enable : Z)
  | C_event_enable_get 
  | C_event_poll 
  | C_gpio_mode_set (gpio_conf : mepa_gpio_conf_t)
  | C_gpio_out_set (gpio_no value : Z)
  | C_gpio_in_get (gpio_no value : Z)
  | C_link_base_port (base_dev : option Z) (packet_idx : Z)
  | C_phy_info_get 
  | C_eee_mode_conf_set (conf : mepa_phy_eee_conf_t)
  | C_eee_mode_conf_get 
  | C_eee_status_get 
  | C_cable_diag_start (mode : Z)
  | C_cable_diag_get 
  | C_loopback_set (loopback : mepa_loopback_t)
  | C_loopback_get 
  | C_synce_clock_conf_set (sync : mepa_synce_clock_conf_t)
  | C_isolate_mode_conf (iso_en : Z)
  | C_sqi_read (value : Z)
  | C_start_of_frame_conf_set (sof : mepa_start_of_frame_conf_t)
  | C_start_of_frame_conf_get 
  | C_framepreempt_set (enable : Z)
  | C_framepreempt_get (want : bool)
  | C_selftest_start (inf : option mepa_selftest_info_t)
  | C_selftest_read (inf : option mepa_selftest_info_t)
  | C_prbs_set (type direction : Z) (prbs_conf : option mepa_phy_prbs_generator_conf_t)
  | C_prbs_get 
  | C_prbs_monitor_set (prbsn_sel : Z)
  | C_prbs_monitor_get (prbsn_sel errors : Z)
  | C_serdes_tx_conf_set (tx_conf : mepa_serdes_tx_conf_t)
  | C_capability (capability : Z)
  | C_ts (c : ts_call).

(** The function pointer that the API function of a call looks at. *)
Definition slot_of (c : call) : string :=
  match c with
  | C_reset _ => "mepa_driver_reset"
  | C_poll _ => "mepa_driver_poll"
  | C_conf_set _ => "mepa_driver_conf_set"
  | C_conf_get => "mepa_driver_conf_get"
  | C_if_set _ => "mepa_driver_if_set"
  | C_if_get => "mepa_driver_if_get"
  | C_aneg_status_get => "mepa_driver_aneg_status_get"
  | C_clause22_read _ _ => "mepa_driver_clause22_read"
  | C_clause22_write _ _ => "mepa_driver_clause22_write"
  | C_clause45_read _ _ => "mepa_driver_clause45_read"
  | C_clause45_write _ _ => "mepa_driver_clause45_write"
  | C_event_enable_set _ _ => "mepa_driver_event_enable_set"
  | C_event_enable_get => "mepa_driver_event_enable_get"
  | C_event_poll => "mepa_driver_event_poll"
  | C_gpio_mode_set _ => "mepa_driver_gpio_mode_set"
  | C_gpio_out_set _ _ => "mepa_driver_gpio_out_set"
  | C_gpio_in_get _ _ => "mepa_driver_gpio_in_get"
  | C_link_base_port _ _ => "mepa_driver_link_base_port"
  | C_phy_info_get => "mepa_driver_phy_info_get"
  | C_eee_mode_conf_set _ => "mepa_driver_eee_mode_conf_set"
  | C_eee_mode_conf_get => "mepa_driver_eee_mode_conf_get"
  | C_eee_status_get => "mepa_driver_eee_status_get"
  | C_cable_diag_start _ => "mepa_driver_cable_diag_start"
  | C_cable_diag_get => "mepa_driver_cable_diag_get"
  | C_loopback_set _ => "mepa_driver_loopback_set"
  | C_loopback_get => "mepa_driver_loopback_get"
  | C_synce_clock_conf_set _ => "mepa_driver_synce_clock_conf_set"
  | C_isolate_mode_conf _ => "mepa_driver_isolate_mode_conf"
  | C_sqi_read _ => "mepa_driver_sqi_read"
  | C_start_of_frame_conf_set _ => "mepa_driver_start_of_frame_conf_set"
  | C_start_of_frame_conf_get => "mepa_driver_start_of_frame_conf_get"
  | C_framepreempt_set _ => "mepa_driver_framepreempt_set"
  | C_framepreempt_get _ => "mepa_driver_framepreempt_get"
  | C_selftest_start _ => "mepa_driver_selftest_start"
  | C_selftest_read _ => "mepa_driver_selftest_read"
  | C_prbs_set _ _ _ => "mepa_driver_prbs_set"
  | C_prbs_get => "mepa_driver_prbs_get"
  | C_prbs_monitor_set _ => "mepa_driver_prbs_monitor_set"
  | C_prbs_monitor_get _ _ => "mepa_driver_prbs_monitor_get"
  | C_serdes_tx_conf_set _ => "mepa_driver_serdes_tx_conf_set"
  | C_capability _ => "mepa_capability"
  | C_ts _ => "mepa_ts"
  end%string.

(** [memset(phy_info, 0, sizeof(mepa_phy_info_t))] in [mepa_phy_info_get]. *)
Definition phy_info_0 : mepa_phy_info_t := Mk_mepa_phy_info_t 0 0 0 0 None "" "".

Section Api.
Context {B : Type} {CO : Callout B}.
Local Abbreviation M := (M B phy_data_t).

Definition exec (drv_id dev : Z) (c : call) (f : string) : M Z :=
  call_fn f
  match c with
  | C_reset rst_conf => [("lan8814_reset", lan8814_reset dev rst_conf)]
  | C_poll status => [("lan8814_poll", rc_of (lan8814_poll dev status))]
  | C_conf_set config => [("lan8814_conf_set", lan8814_conf_set dev config)]
  | C_conf_get  => [("lan8814_conf_get", rc_of (lan8814_conf_get dev))]
  | C_if_set mac_if => [("lan8814_if_set", ret (lan8814_if_set mac_if));
      ("lan8842_if_set", ret (lan8842_if_set mac_if));
      ("mas_if_set", ret (mas_if_set mac_if))]
  | C_if_get  => [("lan8814_if_get", ret (fst lan8814_if_get));
      ("lan8842_if_get", ret (fst lan8842_if_get));
      ("mas_if_get", ret (fst mas_if_get))]
  | C_aneg_status_get  => [("lan8814_aneg_status_get", rc_of (lan8814_aneg_status_get dev))]
  | C_clause22_read address value => [("lan8814_direct_reg_read", rc_of (lan8814_direct_reg_read dev address value))]
  | C_clause22_write address value => [("lan8814_direct_reg_write", lan8814_direct_reg_write dev address value)]
  | C_clause45_read address value => [("lan8814_ext_mmd_reg_read", rc_of (lan8814_ext_mmd_reg_read dev address value))]
  | C_clause45_write address value => [("lan8814_ext_mmd_reg_write", lan8814_ext_mmd_reg_write dev address value)]
  | C_event_enable_set event enable => [("lan8814_event_enable_set", lan8814_event_enable_set dev event enable)]
  | C_event_enable_get  => [("lan8814_event_enable_get", rc_of (lan8814_event_enable_get dev))]
  | C_event_poll  => [("lan8814_event_status_poll", rc_of (lan8814_event_status_poll dev))]
  | C_gpio_mode_set gpio_conf => [("lan8814_gpio_mode_set", lan8814_gpio_mode_set dev gpio_conf)]
  | C_gpio_out_set gpio_no value => [("lan8814_gpio_out_set", lan8814_gpio_out_set dev gpio_no value)]
  | C_gpio_in_get gpio_no value => [("lan8814_gpio_in_get", rc_of (lan8814_gpio_in_get dev gpio_no value))]
  | C_link_base_port base_dev packet_idx => [("lan8814_link_base_port", lan8814_link_base_port dev base_dev packet_idx)]
  | C_phy_info_get  => [("lan8814_info_get", rc_of (lan8814_info_get dev drv_id phy_info_0));
      ("lan8842_info_get", rc_of (lan8842_info_get dev drv_id phy_info_0))]
  | C_eee_mode_conf_set conf => [("lan8814_eee_mode_conf_set", lan8814_eee_mode_conf_set dev conf)]
  | C_eee_mode_conf_get  => [("lan8814_eee_mode_conf_get", rc_of (lan8814_eee_mode_conf_get dev))]
  | C_eee_status_get  => [("lan8814_eee_status_get", rc_of (lan8814_eee_status_get dev))]
  | C_cable_diag_start mode => [("lan8814_cab_diag_start", lan8814_cab_diag_start dev mode)]
  | C_cable_diag_get  => [("lan8814_cab_diag_get", rc_of (lan8814_cab_diag_get dev))]
  | C_loopback_set loopback => [("lan8814_loopback_set", lan8814_loopback_set dev loopback)]
  | C_loopback_get  => [("lan8814_loopback_get", rc_of (lan8814_loopback_get dev))]
  | C_synce_clock_conf_set sync => [("lan8814_recovered_clk_set", lan8814_recovered_clk_set dev sync)]
  | C_isolate_mode_conf iso_en => [("lan8814_isolate_mode_conf", lan8814_isolate_mode_conf dev iso_en)]
  | C_sqi_read value => [("lan8814_sqi_read", rc_of (lan8814_sqi_read dev value))]
  | C_start_of_frame_conf_set sof => [("lan8814_start_of_frame_conf_set", lan8814_start_of_frame_conf_set dev sof);
      ("lan8842_start_of_frame_conf_set", lan8842_start_of_frame_conf_set dev sof)]
  | C_start_of_frame_conf_get  => [("lan8814_start_of_frame_conf_get", rc_of (lan8814_start_of_frame_conf_get dev))]
  | C_framepreempt_set enable => [("lan8814_framepreempt_set", lan8814_framepreempt_set dev enable)]
  | C_framepreempt_get want => [("lan8814_framepreempt_get", rc_of (lan8814_framepreempt_get dev want))]
  | C_selftest_start inf => [("lan8814_selftest_start", lan8814_selftest_start dev inf)]
  | C_selftest_read inf => [("lan8814_selftest_read", rc_of (lan8814_selftest_read dev inf))]
  | C_prbs_set type direction prbs_conf => [("lan8814_prbs_set", lan8814_prbs_set dev type direction prbs_conf)]
  | C_prbs_get  => [("lan8814_prbs_get", rc_of (lan8814_prbs_get dev))]
  | C_prbs_monitor_set prbsn_sel => [("lan8814_prbs_monitor_set", lan8814_prbs_monitor_set dev prbsn_sel)]
  | C_prbs_monitor_get prbsn_sel errors => [("lan8814_prbs_monitor_get", rc_of (lan8814_prbs_monitor_get dev prbsn_sel errors))]
  | C_serdes_tx_conf_set tx_conf => [("lan8814_serdes_tx_conf_set", lan8814_serdes_tx_conf_set dev tx_conf)]
  | C_capability capability => [("lan8814_capability", lan8814_capability dev capability)]
  | C_ts c => [("lan8814_ts_drivers", ts_dispatch lan8814_ts_drivers dev c)]
  end%string.

(** The API function for a call, on a device of row [drv]. *)
Definition api_call (drv : mepa_driver_t) (dev : Z) (c : call) : M Z :=
  dispatch (exec (drv_id drv) dev c) (Some drv) (slot_of c).
End Api.

(** The calls that take the lock around their bus accesses: all but the EEE
    status; linking a base port must name the one of the environment, and the
    arguments of a time stamping call must be in range. *)
Definition locked_call (E : env) (dev : Z) (c : call) : Prop :=
  match c with
  | C_eee_status_get => False
  | C_link_base_port b _ => b = Some (e_base E dev)
  | C_ts c => ts_call_ok E dev c
  | _ => True
  end.

(** Every call is one of an API function of [phy.c], through the pointer that
    this function tests. *)
Definition target_of (c : call) : ptr :=
  match c with C_ts t => Member "mepa_ts" (ts_slot_of t) | _ => Slot (slot_of c) end.
Definition same_ptr (p q : ptr) : bool :=
  match p, q with
  | Slot s, Slot s' => String.eqb s s'
  | Member t s, Member t' s' => String.eqb t t' && String.eqb s s'
  | _, _ => false
  end.
Lemma call_is_api c : exists a, In a mepa_apis /\ guarded a = true /\ same_ptr (api_target a) (target_of c) = true.
Proof.
  assert (existsb (fun a => guarded a && same_ptr (api_target a) (target_of c)) mepa_apis = true) as H
    by (destruct c as [| | | | | | | | | | | | | | | | | | | | | | | | | | | | | | | | | | | | | | | | |t];
        [..|destruct t]; vm_compute; reflexivity).
  apply existsb_exists in H as (a & Ha & H). exists a. by apply andb_true_iff in H as [].
Qed.

Section Safe.
Context {B : Type} {CO : Callout B} {OK : CalloutOk (CO := CO)} (E : env) {EOK : EnvOk E}.
Local Abbreviation safe := (safe (B := B) (linked E)).

(** Linking a port to its base port keeps the links. *)
Lemma safe_link_base_port dev i :
  e_devs E dev = true ->
  safe false (lan8814_link_base_port dev (Some (e_base E dev)) i) false.
Proof. lan_safe lan8814_link_base_port. Qed.
#[local] Hint Resolve safe_rc_of safe_link_base_port safe_ts_dispatch : safe.

(** Every function a row names for a call is a function of that call's type. *)
Definition exec_names (c : call) : list string :=
  match c with
  | C_if_set _ => ["lan8814_if_set"; "lan8842_if_set"; "mas_if_set"]
  | C_if_get => ["lan8814_if_get"; "lan8842_if_get"; "mas_if_get"]
  | C_phy_info_get => ["lan8814_info_get"; "lan8842_info_get"]
  | C_start_of_frame_conf_set _ =>
      ["lan8814_start_of_frame_conf_set"; "lan8842_start_of_frame_conf_set"]
  | _ => match drv_fn lan8814_driver_lan8814 (slot_of c) with Some f => [f] | None => [] end
  end%string.

Definition row_typed (c : call) (drv : mepa_driver_t) : bool :=
  match drv_fn drv (slot_of c) with
  | Some f => existsb (String.eqb f) (exec_names c)
  | None => true
  end.
Lemma rows_typed c : forallb (row_typed c) lan8814_drivers = true.
Proof. destruct c; vm_compute; reflexivity. Qed.

Lemma rows_well_typed drv c f :
  In drv lan8814_drivers -> drv_fn drv (slot_of c) = Some f -> In f (exec_names c).
Proof.
  intros Hd Hf. pose proof (rows_typed c) as H.
  rewrite forallb_forall in H. specialize (H _ Hd). unfold row_typed in H. rewrite Hf in H.
  apply existsb_exists in H as (g & Hg & E'). apply String.eqb_eq in E'. by subst.
Qed.

Lemma safe_exec drv_id dev c f :
  e_devs E dev = true -> locked_call E dev c -> In f (exec_names c) ->
  safe false (exec drv_id dev c f) false.
Proof.
  intros Hd Hl Hf. apply safe_call_fn.
  - destruct c; cbn [locked_call] in Hl; try done; subst;
      repeat constructor; cbn [snd]; eauto 4 with safe.
  - destruct c; exact Hf.
Qed.
End Safe.

(** ** The driver as a whole *)

Definition good_call (E : env) (x : mepa_driver_t * Z * call) : Prop :=
  let '(drv, dev, c) := x in
  In drv lan8814_drivers /\ e_devs E dev = true /\ locked_call E dev c.

Lemma safe_api_call {B} {CO : Callout B} {OK : CalloutOk (CO := CO)} (E : env) {EOK : EnvOk E}
    drv dev c :
  good_call E (drv, dev, c) -> safe (linked E) false (api_call drv dev c) false.
Proof.
  intros (Hin & Hd & Hl). unfold api_call, dispatch. cbv beta.
  destruct (drv_fn drv (slot_of c)) as [f|] eqn:Hf.
  - change (safe (linked E) false (exec (drv_id drv) dev c f) false).
    apply safe_exec; try done. by eapply rows_well_typed.
  - change (safe (linked E) false (ret MEPA_RC_NOT_IMPLEMENTED : M B phy_data_t Z) false).
    apply safe_ret.
Qed.

(** The EEE status is read without the lock: the first access of
    [lan8814_eee_status_get] breaks the discipline when the lock is free. *)
Theorem eee_status_get_unlocked {B} {CO : Callout B} {OK : BusOk CO} (dev : Z)
    (w : world B phy_data_t) :
  exists r w' tr, lan8814_eee_status_get dev w = Some (r, w') /\
    w_log w' = w_log w ++ tr /\ disc false tr = None.
Proof.
  assert (steps (lan8814_eee_status_get (CO := CO) dev) (fun _ tr => disc false tr = None)) as H.
  { unfold lan8814_eee_status_get, MMD_RD, lan8814_mmd_reg_rd.
    repeat first
      [ progress (change (0 <? MEPA_RC_OK) with false; cbv iota beta zeta)
      | apply steps_direct_reg_wr; intros ? _ | apply steps_direct_reg_rd; intros ? _
      | apply steps_bind | apply steps_ret ].
    reflexivity. }
  destruct (H w) as (r & w' & tr & Hr & _ & Ht & Hd). by exists r, w', tr.
Qed.

Example eee_status_get_unlocked_witness :
  exists r w' tr, lan8814_eee_status_get 100 (quad_world phy_data_t_0) = Some (r, w') /\
    w_log w' = [] ++ tr /\ disc false tr = None.
Proof. exact (eee_status_get_unlocked 100 (quad_world phy_data_t_0)). Defined.
