(* ===== verification/Lan8814Isolation.v ===== *)
(** * Lan8814Isolation: a call on a port touches that port only

    [isolated dev m]: whatever the callouts return, [m] addresses the bus of
    [dev] only and leaves the private data of every other device alone.  The
    lemmas follow the functions of the driver; the theorem is about every call
    of the API. *)

From Stdlib Require Import ZArith Lia List Bool String.
From stdpp Require Import base gmap strings list.
From S2P Require Import Prelude Machine MepaCore Enums Lan8814Regs Lan8814Types Trace Mdio Lan8814Access SimPhy Lan8814Conf Lan8814Poll Lan8814Gpio Lan8814Diag Lan8814Driver Lan8814Ts Lan8814TsClass Lan8814TsApi Lan8814Api.

(** A bus access is to [dev]. *)
Definition on_dev (dev : Z) (e : event) : Prop :=
  match e with EvRd d _ _ _ | EvWr d _ _ _ => d = dev | _ => True end.

Section Isolated.
Context {B : Type} {CO : Callout B}.
Local Abbreviation M := (M B phy_data_t).

Definition isolated (dev : Z) {A} (m : M A) : Prop :=
  forall w a w', m w = Some (a, w') ->
    (forall x, x <> dev -> w_data w' !! x = w_data w !! x) /\
    exists tr, w_log w' = w_log w ++ tr /\ Forall (on_dev dev) tr.

Lemma iso_bind dev {A C} (m : M A) (k : A -> M C) :
  isolated dev m -> (forall a, isolated dev (k a)) -> isolated dev (bind m k).
Proof.
  intros Hm Hk w c w2 H. apply bind_Some in H as (a & w1 & H1 & H2).
  destruct (Hm _ _ _ H1) as (D1 & t1 & L1 & F1). destruct (Hk _ _ _ _ H2) as (D2 & t2 & L2 & F2).
  split; [intros x Hx; by rewrite D2, D1|]. exists (t1 ++ t2). split.
  - by rewrite L2, L1, app_assoc.
  - by apply Forall_app_2.
Qed.
(** A step that changes neither the data nor the log. *)
Lemma iso_quiet dev {A} (m : M A) :
  (forall w a w', m w = Some (a, w') -> w_data w' = w_data w /\ w_log w' = w_log w) ->
  isolated dev m.
Proof.
  intros H w a w' E. destruct (H _ _ _ E) as [-> ->]. split; [done|]. exists [].
  rewrite app_nil_r. by split.
Qed.
(** A step that logs one event. *)
Lemma iso_event dev {A} (m : M A) :
  (forall w a w', m w = Some (a, w') -> w_data w' = w_data w /\
     exists e, w_log w' = w_log w ++ [e] /\ on_dev dev e) ->
  isolated dev m.
Proof.
  intros H w a w' E. destruct (H _ _ _ E) as [-> (e & -> & He)]. split; [done|]. exists [e].
  split; [done|]. by constructor.
Qed.
Lemma iso_ret dev {A} (a : A) : isolated dev (ret a).
Proof. apply iso_quiet. intros w x w' [= _ <-]. done. Qed.
Lemma iso_data_of dev x : isolated dev (data_of x).
Proof.
  apply iso_quiet. intros w a w'. unfold data_of. destruct (_ !! _); [|done]. by intros [= _ <-].
Qed.
Lemma iso_deref dev p : isolated dev (deref p).
Proof. destruct p; [apply iso_ret|]. by apply iso_quiet. Qed.
Lemma iso_log dev e : on_dev dev e -> isolated dev (log e).
Proof. intros He. apply iso_event. intros w a w' [= _ <-]. split; [done|]. by exists e. Qed.
Lemma iso_upd dev f : isolated dev (upd dev f).
Proof.
  intros w a w'. unfold upd. destruct (_ !! _); [|done]. intros [= _ <-]. cbn. split.
  - intros x Hx. by rewrite lookup_insert_ne.
  - exists []. by rewrite app_nil_r.
Qed.
Lemma iso_co_read dev a : isolated dev (co_read dev a).
Proof.
  apply iso_event. intros w r w'. unfold co_read. destruct miim_read as [f|]; [|done].
  destruct (f _ _ _) as [[rc v] b]. intros [= _ <-]. split; [done|]. by eexists.
Qed.
Lemma iso_co_write dev a v : isolated dev (co_write dev a v).
Proof.
  apply iso_event. intros w r w'. unfold co_write. destruct miim_write as [f|]; [|done].
  destruct (f _ _ _ _) as [rc b]. intros [= _ <-]. split; [done|]. by eexists.
Qed.
Lemma iso_seq dev {A} (f : A -> M unit) l : (forall a, isolated dev (f a)) -> isolated dev (seq_ f l).
Proof. intros Hf. induction l; cbn [seq_]; [apply iso_ret|by apply iso_bind]. Qed.
Lemma iso_msleep dev ms : isolated dev (msleep ms).
Proof. by apply iso_log. Qed.
Lemma iso_enter dev : isolated dev mepa_enter.
Proof. unfold mepa_enter. destruct lock_enter; [by apply iso_log|apply iso_ret]. Qed.
Lemma iso_exit dev : isolated dev mepa_exit.
Proof. unfold mepa_exit. destruct lock_exit; [by apply iso_log|apply iso_ret]. Qed.
End Isolated.

Create HintDb iso discriminated.
#[export] Hint Constants Opaque : iso.
#[export] Hint Resolve iso_ret iso_data_of iso_deref iso_upd iso_co_read iso_co_write iso_msleep
  iso_enter iso_exit : iso.

(** Follow the structure of the program; comparing a device with the port's
    own makes them the same in the branch where they are. *)
Ltac iso_step :=
  lazymatch goal with
  | |- isolated _ (bind _ _) => apply iso_bind; [|intros ?]
  | |- isolated _ (try_rc _ _) => apply iso_bind; [|intros ?]
  | |- isolated _ (seq_ _ _) => apply iso_seq; intros ?
  | |- isolated ?dev (if ?b =? ?dev then _ else _) => destruct (Z.eqb_spec b dev) as [->|]
  | |- isolated ?dev (if negb (?b =? ?dev) then _ else _) =>
      destruct (Z.eqb_spec b dev) as [->|]; cbn [negb]
  | |- isolated _ (if ?b then _ else _) => destruct b
  | |- isolated _ (match ?x with _ => _ end) => destruct x
  | |- isolated _ _ => solve [eauto 3 with iso]
  end.
Ltac iso_auto := intros; repeat (iso_step; cbv beta zeta).
Tactic Notation "iso" reference(f) := intros; unfold f; repeat (cbv beta zeta; iso_step).

Section Functions.
Context {B : Type} {CO : Callout B}.
Local Abbreviation isolated dev m := (isolated (B := B) dev m).

(** *** Lan8814Access *)
Lemma iso_direct_reg_rd dev a cur : isolated dev (lan8814_direct_reg_rd dev a cur).
Proof. iso lan8814_direct_reg_rd. Qed.
Lemma iso_direct_reg_wr dev a v m : isolated dev (lan8814_direct_reg_wr dev a v m).
Proof. iso lan8814_direct_reg_wr. Qed.
#[local] Hint Resolve iso_direct_reg_rd iso_direct_reg_wr : iso.
Lemma iso_ext_reg_rd dev p a cur : isolated dev (lan8814_ext_reg_rd dev p a cur).
Proof. iso lan8814_ext_reg_rd. Qed.
Lemma iso_ext_reg_wr dev p a v m : isolated dev (lan8814_ext_reg_wr dev p a v m).
Proof. iso lan8814_ext_reg_wr. Qed.
Lemma iso_mmd_reg_rd dev p a cur : isolated dev (lan8814_mmd_reg_rd dev p a cur).
Proof. iso lan8814_mmd_reg_rd. Qed.
Lemma iso_mmd_reg_wr dev p a v m : isolated dev (lan8814_mmd_reg_wr dev p a v m).
Proof. iso lan8814_mmd_reg_wr. Qed.
#[local] Hint Resolve iso_ext_reg_rd iso_ext_reg_wr iso_mmd_reg_rd iso_mmd_reg_wr : iso.
Lemma iso_RD dev a cur : isolated dev (RD dev a cur).
Proof. iso RD. Qed.
Lemma iso_WRM dev a v m : isolated dev (WRM dev a v m).
Proof. iso WRM. Qed.
Lemma iso_WR dev a v : isolated dev (WR dev a v).
Proof. apply iso_WRM. Qed.
Lemma iso_EP_RD dev p cur : isolated dev (EP_RD dev p cur).
Proof. iso EP_RD. Qed.
Lemma iso_EP_WRM dev p v m : isolated dev (EP_WRM dev p v m).
Proof. iso EP_WRM. Qed.
Lemma iso_EP_WR dev p v : isolated dev (EP_WR dev p v).
Proof. apply iso_EP_WRM. Qed.
Lemma iso_MMD_RD dev p cur : isolated dev (MMD_RD dev p cur).
Proof. iso MMD_RD. Qed.
Lemma iso_MMD_WR dev p v : isolated dev (MMD_WR dev p v).
Proof. iso MMD_WR. Qed.
#[local] Hint Resolve iso_RD iso_WRM iso_WR iso_EP_RD iso_EP_WRM iso_EP_WR iso_MMD_RD iso_MMD_WR : iso.
Lemma iso_ep_wr_list dev l : isolated dev (ep_wr_list dev l).
Proof. iso ep_wr_list. Qed.
#[local] Hint Resolve iso_ep_wr_list : iso.

(** *** Lan8814Conf *)
Lemma iso_is_lan8814 dev : isolated dev (lan8814_is_lan8814 dev).
Proof. iso lan8814_is_lan8814. Qed.
#[local] Hint Resolve iso_is_lan8814 : iso.
Lemma iso_is_lan8842 dev : isolated dev (lan8814_is_lan8842 dev).
Proof. iso lan8814_is_lan8842. Qed.
#[local] Hint Resolve iso_is_lan8842 : iso.
Lemma iso_is_lan966x dev : isolated dev (lan8814_is_lan966x dev).
Proof. iso lan8814_is_lan966x. Qed.
#[local] Hint Resolve iso_is_lan966x : iso.
Lemma iso_has_ptp dev : isolated dev (lan8814_has_ptp dev).
Proof. iso lan8814_has_ptp. Qed.
#[local] Hint Resolve iso_has_ptp : iso.
Lemma iso_get_device_info dev : isolated dev (lan8814_get_device_info dev).
Proof. iso lan8814_get_device_info. Qed.
#[local] Hint Resolve iso_get_device_info : iso.
Lemma iso_init_conf dev : isolated dev (lan8814_init_conf dev).
Proof. iso lan8814_init_conf. Qed.
#[local] Hint Resolve iso_init_conf : iso.
Lemma iso_qsgmii_tx_abilities dev s d : isolated dev (lan8814_qsgmii_tx_abilities dev s d).
Proof. iso lan8814_qsgmii_tx_abilities. Qed.
#[local] Hint Resolve iso_qsgmii_tx_abilities : iso.
Lemma iso_qsgmii_aneg dev ena : isolated dev (lan8814_qsgmii_aneg dev ena).
Proof. iso lan8814_qsgmii_aneg. Qed.
#[local] Hint Resolve iso_qsgmii_aneg : iso.
Lemma iso_rev_workaround dev : isolated dev (lan8814_rev_workaround dev).
Proof. iso lan8814_rev_workaround. Qed.
#[local] Hint Resolve iso_rev_workaround : iso.
Lemma iso_workaround_after_reset dev : isolated dev (lan8814_workaround_after_reset dev).
Proof. iso lan8814_workaround_after_reset. Qed.
#[local] Hint Resolve iso_workaround_after_reset : iso.
Lemma iso_workaround_half_duplex dev : isolated dev (lan8814_workaround_half_duplex dev).
Proof. iso lan8814_workaround_half_duplex. Qed.
#[local] Hint Resolve iso_workaround_half_duplex : iso.
Lemma iso_workaround_fifo_reset dev : isolated dev (lan8814_workaround_fifo_reset dev).
Proof. iso lan8814_workaround_fifo_reset. Qed.
#[local] Hint Resolve iso_workaround_fifo_reset : iso.
Lemma iso_framepreempt_set_ dev en : isolated dev (lan8814_framepreempt_set_ dev en).
Proof. iso lan8814_framepreempt_set_. Qed.
#[local] Hint Resolve iso_framepreempt_set_ : iso.
Lemma iso_selftest_stop dev : isolated dev (lan8814_selftest_stop dev).
Proof. iso lan8814_selftest_stop. Qed.
#[local] Hint Resolve iso_selftest_stop : iso.
Lemma iso_conf_mdi_mode dev mode : isolated dev (lan8814_conf_mdi_mode dev mode).
Proof. iso lan8814_conf_mdi_mode. Qed.
#[local] Hint Resolve iso_conf_mdi_mode : iso.
Lemma iso_event_enable_loop dev en bits ev m : isolated dev (event_enable_loop dev en bits ev m).
Proof. revert ev m. induction bits as [|i bits IH]; intros; cbn [event_enable_loop]; iso_auto. Qed.
#[local] Hint Resolve iso_event_enable_loop : iso.
Lemma iso_event_enable_set_ dev ev en : isolated dev (lan8814_event_enable_set_ dev ev en).
Proof. iso lan8814_event_enable_set_. Qed.
#[local] Hint Resolve iso_event_enable_set_ : iso.
Lemma iso_conf_fifo_reset dev old : isolated dev (conf_fifo_reset dev old).
Proof. iso conf_fifo_reset. Qed.
#[local] Hint Resolve iso_conf_fifo_reset : iso.
Lemma iso_conf_set_aneg dev c old : isolated dev (conf_set_aneg dev c old).
Proof. iso conf_set_aneg. Qed.
#[local] Hint Resolve iso_conf_set_aneg : iso.
Lemma iso_conf_set_forced dev c old : isolated dev (conf_set_forced dev c old).
Proof. iso conf_set_forced. Qed.
#[local] Hint Resolve iso_conf_set_forced : iso.
Lemma iso_conf_set_enabled dev c q : isolated dev (conf_set_enabled dev c q).
Proof. iso conf_set_enabled. Qed.
#[local] Hint Resolve iso_conf_set_enabled : iso.
Lemma iso_conf_set_finish dev c q : isolated dev (conf_set_finish dev c q).
Proof. iso conf_set_finish. Qed.
#[local] Hint Resolve iso_conf_set_finish : iso.
Lemma iso_conf_set_ dev conf : isolated dev (lan8814_conf_set_ dev conf).
Proof. iso lan8814_conf_set_. Qed.
#[local] Hint Resolve iso_conf_set_ : iso.
Lemma iso_eee_mode_conf_set_ dev conf : isolated dev (lan8814_eee_mode_conf_set_ dev conf).
Proof. iso lan8814_eee_mode_conf_set_. Qed.
#[local] Hint Resolve iso_eee_mode_conf_set_ : iso.
Lemma iso_reset_init dev : isolated dev (reset_init dev).
Proof. iso reset_init. Qed.
#[local] Hint Resolve iso_reset_init : iso.
Lemma iso_reset_reconfigure dev : isolated dev (reset_reconfigure dev).
Proof. iso reset_reconfigure. Qed.
#[local] Hint Resolve iso_reset_reconfigure : iso.
Lemma iso_reset_ dev rst : isolated dev (lan8814_reset_ dev rst).
Proof. iso lan8814_reset_. Qed.
#[local] Hint Resolve iso_reset_ : iso.
Lemma iso_rep_count_set dev n : isolated dev (lan8814_rep_count_set dev n).
Proof. iso lan8814_rep_count_set. Qed.
#[local] Hint Resolve iso_rep_count_set : iso.
Lemma iso_downshift_conf_set dev d : isolated dev (lan8814_downshift_conf_set dev d).
Proof. iso lan8814_downshift_conf_set. Qed.
#[local] Hint Resolve iso_downshift_conf_set : iso.
Lemma iso_downshift dev : isolated dev (lan8814_downshift dev).
Proof. iso lan8814_downshift. Qed.
#[local] Hint Resolve iso_downshift : iso.

(** *** Lan8814Poll *)
Lemma iso_poll_link_change dev s v : isolated dev (poll_link_change dev s v).
Proof. iso poll_link_change. Qed.
#[local] Hint Resolve iso_poll_link_change : iso.
Lemma iso_poll_end dev s v : isolated dev (poll_end dev s v).
Proof. iso poll_end. Qed.
#[local] Hint Resolve iso_poll_end : iso.
Lemma iso_poll_downshift dev s v v3 : isolated dev (poll_downshift dev s v v3).
Proof. iso poll_downshift. Qed.
#[local] Hint Resolve iso_poll_downshift : iso.
Lemma iso_poll_aneg_stuck dev s v v3 : isolated dev (poll_aneg_stuck dev s v v3).
Proof. iso poll_aneg_stuck. Qed.
#[local] Hint Resolve iso_poll_aneg_stuck : iso.
Lemma iso_poll_crc_workaround dev s v : isolated dev (poll_crc_workaround dev s v).
Proof. iso poll_crc_workaround. Qed.
#[local] Hint Resolve iso_poll_crc_workaround : iso.
Lemma iso_poll_resolve dev s v v2 : isolated dev (poll_resolve dev s v v2).
Proof. iso poll_resolve. Qed.
#[local] Hint Resolve iso_poll_resolve : iso.
Lemma iso_poll_pause dev s v : isolated dev (poll_pause dev s v).
Proof. iso poll_pause. Qed.
#[local] Hint Resolve iso_poll_pause : iso.
Lemma iso_poll_aneg dev s v : isolated dev (poll_aneg dev s v).
Proof. iso poll_aneg. Qed.
#[local] Hint Resolve iso_poll_aneg : iso.
Lemma iso_poll_forced dev s v : isolated dev (poll_forced dev s v).
Proof. iso poll_forced. Qed.
#[local] Hint Resolve iso_poll_forced : iso.
Lemma iso_poll dev s : isolated dev (lan8814_poll dev s).
Proof. iso lan8814_poll. Qed.
#[local] Hint Resolve iso_poll : iso.

(** *** Lan8814Gpio *)
Lemma iso_led_num_to_gpio_mapping dev n : isolated dev (led_num_to_gpio_mapping dev n).
Proof. iso led_num_to_gpio_mapping. Qed.
#[local] Hint Resolve iso_led_num_to_gpio_mapping : iso.
Lemma iso_led_mode_set dev m n : isolated dev (lan8814_led_mode_set dev m n).
Proof. iso lan8814_led_mode_set. Qed.
#[local] Hint Resolve iso_led_mode_set : iso.
Lemma iso_gpio_mode_private dev c : isolated dev (lan8814_gpio_mode_private dev c).
Proof. iso lan8814_gpio_mode_private. Qed.
#[local] Hint Resolve iso_gpio_mode_private : iso.
Lemma iso_gpio_not_valid dev n : isolated dev (gpio_not_valid dev n).
Proof. iso gpio_not_valid. Qed.
#[local] Hint Resolve iso_gpio_not_valid : iso.
Lemma iso_gpio_mode_set dev c : isolated dev (lan8814_gpio_mode_set dev c).
Proof. iso lan8814_gpio_mode_set. Qed.
#[local] Hint Resolve iso_gpio_mode_set : iso.
Lemma iso_gpio_out_set dev n v : isolated dev (lan8814_gpio_out_set dev n v).
Proof. iso lan8814_gpio_out_set. Qed.
#[local] Hint Resolve iso_gpio_out_set : iso.
Lemma iso_gpio_in_get dev n v : isolated dev (lan8814_gpio_in_get dev n v).
Proof. iso lan8814_gpio_in_get. Qed.
#[local] Hint Resolve iso_gpio_in_get : iso.
Lemma iso_recovered_clk_set dev c : isolated dev (lan8814_recovered_clk_set dev c).
Proof. iso lan8814_recovered_clk_set. Qed.
#[local] Hint Resolve iso_recovered_clk_set : iso.
Lemma iso_sof_finish dev c v n l : isolated dev (sof_finish dev c v n l).
Proof. iso sof_finish. Qed.
#[local] Hint Resolve iso_sof_finish : iso.
Lemma iso_start_of_frame_conf_set dev c : isolated dev (lan8814_start_of_frame_conf_set dev c).
Proof. iso lan8814_start_of_frame_conf_set. Qed.
#[local] Hint Resolve iso_start_of_frame_conf_set : iso.
Lemma iso_start_of_frame_conf_set_8842 dev c : isolated dev (lan8842_start_of_frame_conf_set dev c).
Proof. iso lan8842_start_of_frame_conf_set. Qed.
#[local] Hint Resolve iso_start_of_frame_conf_set_8842 : iso.
Lemma iso_start_of_frame_conf_get dev : isolated dev (lan8814_start_of_frame_conf_get dev).
Proof. iso lan8814_start_of_frame_conf_get. Qed.
#[local] Hint Resolve iso_start_of_frame_conf_get : iso.
Lemma iso_isolate_mode_conf dev i : isolated dev (lan8814_isolate_mode_conf dev i).
Proof. iso lan8814_isolate_mode_conf. Qed.
#[local] Hint Resolve iso_isolate_mode_conf : iso.
Lemma iso_sqi_read dev v : isolated dev (lan8814_sqi_read dev v).
Proof. iso lan8814_sqi_read. Qed.
#[local] Hint Resolve iso_sqi_read : iso.

(** *** Lan8814Diag *)
Lemma iso_wait_cable dev n v : isolated dev (wait_cable dev n v).
Proof. revert v. induction n; intros; cbn [wait_cable]; iso_auto. Qed.
Lemma iso_wait_link dev n v : isolated dev (wait_link dev n v).
Proof. revert v. induction n; intros; cbn [wait_link]; iso_auto. Qed.
#[local] Hint Resolve iso_wait_cable iso_wait_link : iso.
Lemma iso_wait_for_cable_diagnostics dev : isolated dev (lan8814_wait_for_cable_diagnostics dev).
Proof. apply iso_wait_cable. Qed.
#[local] Hint Resolve iso_wait_for_cable_diagnostics : iso.
Lemma iso_cab_diag_enter_config dev : isolated dev (lan8814_cab_diag_enter_config dev).
Proof. iso lan8814_cab_diag_enter_config. Qed.
#[local] Hint Resolve iso_cab_diag_enter_config : iso.
Lemma iso_restore_config_ dev : isolated dev (lan8814_restore_config_ dev).
Proof. iso lan8814_restore_config_. Qed.
#[local] Hint Resolve iso_restore_config_ : iso.
Lemma iso_cab_diag_pair dev p : isolated dev (cab_diag_pair dev p).
Proof. iso cab_diag_pair. Qed.
#[local] Hint Resolve iso_cab_diag_pair : iso.
Lemma iso_cab_diag_start_ dev m : isolated dev (lan8814_cab_diag_start_ dev m).
Proof. iso lan8814_cab_diag_start_. Qed.
#[local] Hint Resolve iso_cab_diag_start_ : iso.
Lemma iso_cab_diag_start dev m : isolated dev (lan8814_cab_diag_start dev m).
Proof. iso lan8814_cab_diag_start. Qed.
#[local] Hint Resolve iso_cab_diag_start : iso.
Lemma iso_cab_diag_get dev : isolated dev (lan8814_cab_diag_get dev).
Proof. iso lan8814_cab_diag_get. Qed.
#[local] Hint Resolve iso_cab_diag_get : iso.
Lemma iso_selftest_run dev n : isolated dev (selftest_run dev n).
Proof. iso selftest_run. Qed.
#[local] Hint Resolve iso_selftest_run : iso.
Lemma iso_selftest_link dev i : isolated dev (selftest_link dev i).
Proof. iso selftest_link. Qed.
#[local] Hint Resolve iso_selftest_link : iso.
Lemma iso_selftest_start_ dev i : isolated dev (lan8814_selftest_start_ dev i).
Proof. iso lan8814_selftest_start_. Qed.
#[local] Hint Resolve iso_selftest_start_ : iso.
Lemma iso_selftest_start dev i : isolated dev (lan8814_selftest_start dev i).
Proof. iso lan8814_selftest_start. Qed.
#[local] Hint Resolve iso_selftest_start : iso.
Lemma iso_selftest_report dev i v : isolated dev (selftest_report dev i v).
Proof. iso selftest_report. Qed.
#[local] Hint Resolve iso_selftest_report : iso.
Lemma iso_selftest_read dev i : isolated dev (lan8814_selftest_read dev i).
Proof. iso lan8814_selftest_read. Qed.
#[local] Hint Resolve iso_selftest_read : iso.
Lemma iso_serdes_set dev a d o : isolated dev (lan8814_serdes_set dev a d o).
Proof. iso lan8814_serdes_set. Qed.
#[local] Hint Resolve iso_serdes_set : iso.
Lemma iso_serdes_table dev l : isolated dev (serdes_table dev l).
Proof. induction l as [|[[a d] o] l IH]; cbn [serdes_table]; iso_auto. Qed.
#[local] Hint Resolve iso_serdes_table : iso.
Lemma iso_prbs7_init dev : isolated dev (lan8814_prbs7_init dev).
Proof. apply iso_serdes_table. Qed.
Lemma iso_prbs7_enable dev : isolated dev (lan8814_prbs7_enable dev).
Proof. apply iso_serdes_table. Qed.
#[local] Hint Resolve iso_prbs7_init iso_prbs7_enable : iso.
Lemma iso_prbs7_clk dev c : isolated dev (lan8814_prbs7_clk dev c).
Proof. iso lan8814_prbs7_clk. Qed.
#[local] Hint Resolve iso_prbs7_clk : iso.
Lemma iso_prbs7_loopback dev c : isolated dev (lan8814_prbs7_loopback dev c).
Proof. iso lan8814_prbs7_loopback. Qed.
#[local] Hint Resolve iso_prbs7_loopback : iso.
Lemma iso_prbs7_set dev e c l : isolated dev (lan8814_prbs7_set dev e c l).
Proof. iso lan8814_prbs7_set. Qed.
#[local] Hint Resolve iso_prbs7_set : iso.
Lemma iso_prbs_set dev t d c : isolated dev (lan8814_prbs_set dev t d c).
Proof. iso lan8814_prbs_set. Qed.
#[local] Hint Resolve iso_prbs_set : iso.
Lemma iso_prbs_get dev : isolated dev (lan8814_prbs_get dev).
Proof. iso lan8814_prbs_get. Qed.
#[local] Hint Resolve iso_prbs_get : iso.
Lemma iso_prbs_monitor_set dev s : isolated dev (lan8814_prbs_monitor_set dev s).
Proof. iso lan8814_prbs_monitor_set. Qed.
#[local] Hint Resolve iso_prbs_monitor_set : iso.
Lemma iso_prbs_monitor_get dev s n : isolated dev (lan8814_prbs_monitor_get dev s n).
Proof. iso lan8814_prbs_monitor_get. Qed.
#[local] Hint Resolve iso_prbs_monitor_get : iso.
Lemma iso_serdes_tx_conf_set dev c : isolated dev (lan8814_serdes_tx_conf_set dev c).
Proof. iso lan8814_serdes_tx_conf_set. Qed.
#[local] Hint Resolve iso_serdes_tx_conf_set : iso.
Lemma iso_lb_switch dev n o m1 m2 :
  isolated dev m1 -> isolated dev m2 -> isolated dev (lb_switch (B := B) n o m1 m2).
Proof. intros. unfold lb_switch. iso_auto. Qed.
Lemma iso_lb_restore_aneg dev : isolated dev (lb_restore_aneg dev).
Proof. iso lb_restore_aneg. Qed.
#[local] Hint Resolve iso_lb_restore_aneg : iso.
Lemma iso_lb_force_1g dev : isolated dev (lb_force_1g dev).
Proof. iso lb_force_1g. Qed.
#[local] Hint Resolve iso_lb_force_1g : iso.
Lemma iso_lb_far_end dev n o : isolated dev (lb_far_end dev n o).
Proof. apply iso_lb_switch; iso_auto. Qed.
#[local] Hint Resolve iso_lb_far_end : iso.
Lemma iso_lb_near_end dev n o a : isolated dev (lb_near_end dev n o a).
Proof. apply iso_lb_switch; iso_auto. Qed.
#[local] Hint Resolve iso_lb_near_end : iso.
Lemma iso_lb_connector dev n o s a : isolated dev (lb_connector dev n o s a).
Proof. apply iso_lb_switch; iso_auto. Qed.
#[local] Hint Resolve iso_lb_connector : iso.
Lemma iso_lb_ep dev n o r b : isolated dev (lb_ep dev n o r b).
Proof. apply iso_lb_switch; iso_auto. Qed.
#[local] Hint Resolve iso_lb_ep : iso.
Lemma iso_loopback_set dev l : isolated dev (lan8814_loopback_set dev l).
Proof. iso lan8814_loopback_set. Qed.
#[local] Hint Resolve iso_loopback_set : iso.
Lemma iso_loopback_get dev : isolated dev (lan8814_loopback_get dev).
Proof. iso lan8814_loopback_get. Qed.
#[local] Hint Resolve iso_loopback_get : iso.

(** *** Lan8814Driver *)
Lemma iso_reset dev r : isolated dev (lan8814_reset dev r).
Proof. iso lan8814_reset. Qed.
#[local] Hint Resolve iso_reset : iso.
Lemma iso_conf_set dev c : isolated dev (lan8814_conf_set dev c).
Proof. iso lan8814_conf_set. Qed.
#[local] Hint Resolve iso_conf_set : iso.
Lemma iso_conf_get dev : isolated dev (lan8814_conf_get dev).
Proof. iso lan8814_conf_get. Qed.
#[local] Hint Resolve iso_conf_get : iso.
Lemma iso_aneg_status_get dev : isolated dev (lan8814_aneg_status_get dev).
Proof. iso lan8814_aneg_status_get. Qed.
#[local] Hint Resolve iso_aneg_status_get : iso.
Lemma iso_direct_reg_read dev a v : isolated dev (lan8814_direct_reg_read dev a v).
Proof. iso lan8814_direct_reg_read. Qed.
#[local] Hint Resolve iso_direct_reg_read : iso.
Lemma iso_direct_reg_write dev a v : isolated dev (lan8814_direct_reg_write dev a v).
Proof. iso lan8814_direct_reg_write. Qed.
#[local] Hint Resolve iso_direct_reg_write : iso.
Lemma iso_ext_mmd_reg_read dev a v : isolated dev (lan8814_ext_mmd_reg_read dev a v).
Proof. iso lan8814_ext_mmd_reg_read. Qed.
#[local] Hint Resolve iso_ext_mmd_reg_read : iso.
Lemma iso_ext_mmd_reg_write dev a v : isolated dev (lan8814_ext_mmd_reg_write dev a v).
Proof. iso lan8814_ext_mmd_reg_write. Qed.
#[local] Hint Resolve iso_ext_mmd_reg_write : iso.
Lemma iso_event_enable_set dev e n : isolated dev (lan8814_event_enable_set dev e n).
Proof. iso lan8814_event_enable_set. Qed.
#[local] Hint Resolve iso_event_enable_set : iso.
Lemma iso_event_enable_get dev : isolated dev (lan8814_event_enable_get dev).
Proof. iso lan8814_event_enable_get. Qed.
#[local] Hint Resolve iso_event_enable_get : iso.
Lemma iso_event_status_poll dev : isolated dev (lan8814_event_status_poll dev).
Proof. iso lan8814_event_status_poll. Qed.
#[local] Hint Resolve iso_event_status_poll : iso.
Lemma iso_capability_priv dev c : isolated dev (lan8814_capability_priv dev c).
Proof. iso lan8814_capability_priv. Qed.
#[local] Hint Resolve iso_capability_priv : iso.
Lemma iso_capability dev c : isolated dev (lan8814_capability dev c).
Proof. iso lan8814_capability. Qed.
#[local] Hint Resolve iso_capability : iso.
Lemma iso_cap_mask dev c : isolated dev (cap_mask dev c).
Proof. iso cap_mask. Qed.
#[local] Hint Resolve iso_cap_mask : iso.
Lemma iso_info_get dev i n : isolated dev (lan8814_info_get dev i n).
Proof. iso lan8814_info_get. Qed.
#[local] Hint Resolve iso_info_get : iso.
Lemma iso_get_device_info_8842 dev : isolated dev (lan8842_get_device_info dev).
Proof. iso lan8842_get_device_info. Qed.
#[local] Hint Resolve iso_get_device_info_8842 : iso.
Lemma iso_info_get_8842 dev i n : isolated dev (lan8842_info_get dev i n).
Proof. iso lan8842_info_get. Qed.
#[local] Hint Resolve iso_info_get_8842 : iso.
Lemma iso_eee_mode_conf_set dev c : isolated dev (lan8814_eee_mode_conf_set dev c).
Proof. iso lan8814_eee_mode_conf_set. Qed.
#[local] Hint Resolve iso_eee_mode_conf_set : iso.
Lemma iso_eee_mode_conf_get dev : isolated dev (lan8814_eee_mode_conf_get dev).
Proof. iso lan8814_eee_mode_conf_get. Qed.
#[local] Hint Resolve iso_eee_mode_conf_get : iso.
Lemma iso_framepreempt_get dev b : isolated dev (lan8814_framepreempt_get dev b).
Proof. iso lan8814_framepreempt_get. Qed.
#[local] Hint Resolve iso_framepreempt_get : iso.
Lemma iso_framepreempt_set dev b : isolated dev (lan8814_framepreempt_set dev b).
Proof. iso lan8814_framepreempt_set. Qed.
#[local] Hint Resolve iso_framepreempt_set : iso.
Lemma iso_link_base_port dev b i : isolated dev (lan8814_link_base_port dev b i).
Proof. iso lan8814_link_base_port. Qed.
Lemma iso_eee_status_get dev : isolated dev (lan8814_eee_status_get dev).
Proof. iso lan8814_eee_status_get. Qed.

(** *** Lan8814Ts *)
Lemma iso_ext_incr_reg_rd dev p a cur s : isolated dev (lan8814_ext_incr_reg_rd dev p a cur s).
Proof. iso lan8814_ext_incr_reg_rd. Qed.
#[local] Hint Resolve iso_ext_incr_reg_rd : iso.
Lemma iso_EP_RD_INCR dev p cur s : isolated dev (EP_RD_INCR dev p cur s).
Proof. iso EP_RD_INCR. Qed.
#[local] Hint Resolve iso_EP_RD_INCR : iso.
Lemma iso_arr dev {A} (l : list A) i : isolated dev (arr l i).
Proof. unfold arr. destruct (i <? 0); [by apply iso_quiet|]. destruct (l !! _); [apply iso_ret|by apply iso_quiet]. Qed.
Lemma iso_ck64 dev x : isolated dev (ck64 x).
Proof. unfold ck64. destruct (_ && _); [apply iso_ret|by apply iso_quiet]. Qed.
#[local] Hint Resolve iso_arr iso_ck64 : iso.
Lemma iso_upd_ts dev f : isolated dev (upd_ts dev f).
Proof. apply iso_upd. Qed.
Lemma iso_upd_tp dev f : isolated dev (upd_tp dev f).
Proof. apply iso_upd. Qed.
Lemma iso_upd_dlat dev f : isolated dev (upd_dlat dev f).
Proof. apply iso_upd. Qed.
Lemma iso_upd_plat dev f : isolated dev (upd_plat dev f).
Proof. apply iso_upd. Qed.
#[local] Hint Resolve iso_upd_ts iso_upd_tp iso_upd_dlat iso_upd_plat : iso.
Lemma iso_tsu_block_init dev c : isolated dev (lan8814_tsu_block_init dev c).
Proof. iso lan8814_tsu_block_init. Qed.
#[local] Hint Resolve iso_tsu_block_init : iso.
Lemma iso_default_latency dev t f c r s : isolated dev (default_latency dev t f c r s).
Proof. iso default_latency. Qed.
#[local] Hint Resolve iso_default_latency : iso.
Lemma iso_ts_port_init dev c : isolated dev (lan8814_ts_port_init dev c).
Proof. iso lan8814_ts_port_init. Qed.
#[local] Hint Resolve iso_ts_port_init : iso.
Lemma iso_ts_init_conf_set dev c : isolated dev (lan8814_ts_init_conf_set dev c).
Proof. iso lan8814_ts_init_conf_set. Qed.
#[local] Hint Resolve iso_ts_init_conf_set : iso.
Lemma iso_ts_init_conf_get dev c : isolated dev (lan8814_ts_init_conf_get dev c).
Proof. iso lan8814_ts_init_conf_get. Qed.
#[local] Hint Resolve iso_ts_init_conf_get : iso.
Lemma iso_ts_mode_set dev e : isolated dev (lan8814_ts_mode_set dev e).
Proof. iso lan8814_ts_mode_set. Qed.
#[local] Hint Resolve iso_ts_mode_set : iso.
Lemma iso_ts_reset dev : isolated dev (lan8814_ts_reset dev).
Proof. iso lan8814_ts_reset. Qed.
#[local] Hint Resolve iso_ts_reset : iso.
Lemma iso_ts_mode_get dev : isolated dev (lan8814_ts_mode_get dev).
Proof. iso lan8814_ts_mode_get. Qed.
#[local] Hint Resolve iso_ts_mode_get : iso.
Lemma iso_ts_ltc_ls_en_set dev t : isolated dev (lan8814_ts_ltc_ls_en_set dev t).
Proof. iso lan8814_ts_ltc_ls_en_set. Qed.
#[local] Hint Resolve iso_ts_ltc_ls_en_set : iso.
Lemma iso_ltc_get_gpio dev t : isolated dev (ltc_get_gpio dev t).
Proof. iso ltc_get_gpio. Qed.
#[local] Hint Resolve iso_ltc_get_gpio : iso.
Lemma iso_ltc_get_command dev t : isolated dev (ltc_get_command dev t).
Proof. iso ltc_get_command. Qed.
#[local] Hint Resolve iso_ltc_get_command : iso.
Lemma iso_ts_ltc_get dev t : isolated dev (lan8814_ts_ltc_get dev t).
Proof. iso lan8814_ts_ltc_get. Qed.
#[local] Hint Resolve iso_ts_ltc_get : iso.
Lemma iso_ltc_target_seconds dev t : isolated dev (lan8814_ltc_target_seconds dev t).
Proof. iso lan8814_ltc_target_seconds. Qed.
#[local] Hint Resolve iso_ltc_target_seconds : iso.
Lemma iso_ts_ltc_set dev t : isolated dev (lan8814_ts_ltc_set dev t).
Proof. iso lan8814_ts_ltc_set. Qed.
#[local] Hint Resolve iso_ts_ltc_set : iso.
Lemma iso_ts_rateadj_get dev t : isolated dev (lan8814_ts_clock_rateadj_get dev t).
Proof. iso lan8814_ts_clock_rateadj_get. Qed.
#[local] Hint Resolve iso_ts_rateadj_get : iso.
Lemma iso_ts_rateadj_set dev t : isolated dev (lan8814_ts_clock_rateadj_set dev t).
Proof. iso lan8814_ts_clock_rateadj_set. Qed.
#[local] Hint Resolve iso_ts_rateadj_set : iso.
Lemma iso_ts_adj1ns dev t : isolated dev (lan8814_ts_clock_adj1ns dev t).
Proof. iso lan8814_ts_clock_adj1ns. Qed.
#[local] Hint Resolve iso_ts_adj1ns : iso.
Lemma iso_ts_delay_asymmetry_get dev : isolated dev (lan8814_ts_clock_delay_asymmetry_get dev).
Proof. iso lan8814_ts_clock_delay_asymmetry_get. Qed.
#[local] Hint Resolve iso_ts_delay_asymmetry_get : iso.
Lemma iso_ts_delay_asymmetry_set dev t : isolated dev (lan8814_ts_clock_delay_asymmetry_set dev t).
Proof. iso lan8814_ts_clock_delay_asymmetry_set. Qed.
#[local] Hint Resolve iso_ts_delay_asymmetry_set : iso.
Lemma iso_ts_path_delay_get dev t : isolated dev (lan8814_ts_clock_path_delay_get dev t).
Proof. iso lan8814_ts_clock_path_delay_get. Qed.
#[local] Hint Resolve iso_ts_path_delay_get : iso.
Lemma iso_ts_path_delay_set dev t : isolated dev (lan8814_ts_clock_path_delay_set dev t).
Proof. iso lan8814_ts_clock_path_delay_set. Qed.
#[local] Hint Resolve iso_ts_path_delay_set : iso.
Lemma iso_ts_egress_latency_get dev t : isolated dev (lan8814_ts_clock_egress_latency_get dev t).
Proof. iso lan8814_ts_clock_egress_latency_get. Qed.
#[local] Hint Resolve iso_ts_egress_latency_get : iso.
Lemma iso_egress_latency dev b s d x t : isolated dev (egress_latency b s d x t).
Proof. iso egress_latency. Qed.
#[local] Hint Resolve iso_egress_latency : iso.
Lemma iso_egress_latency_case dev l x r s : isolated dev (egress_latency_case dev l x r s).
Proof. iso egress_latency_case. Qed.
#[local] Hint Resolve iso_egress_latency_case : iso.
Lemma iso_ts_egress_latency_set_priv dev x t : isolated dev (lan8814_ts_clock_egress_latency_set_priv dev x t).
Proof. iso lan8814_ts_clock_egress_latency_set_priv. Qed.
#[local] Hint Resolve iso_ts_egress_latency_set_priv : iso.
Lemma iso_ts_egress_latency_set dev x : isolated dev (lan8814_ts_clock_egress_latency_set dev x).
Proof. iso lan8814_ts_clock_egress_latency_set. Qed.
#[local] Hint Resolve iso_ts_egress_latency_set : iso.
Lemma iso_ts_reload_egress_latency dev x : isolated dev (lan8814_ts_reload_egress_latency dev x).
Proof. iso lan8814_ts_reload_egress_latency. Qed.
#[local] Hint Resolve iso_ts_reload_egress_latency : iso.
Lemma iso_ts_ingress_latency_get dev t : isolated dev (lan8814_ts_clock_ingress_latency_get dev t).
Proof. iso lan8814_ts_clock_ingress_latency_get. Qed.
#[local] Hint Resolve iso_ts_ingress_latency_get : iso.
Lemma iso_ingress_latency_case dev l v x r s : isolated dev (ingress_latency_case dev l v x r s).
Proof. iso ingress_latency_case. Qed.
#[local] Hint Resolve iso_ingress_latency_case : iso.
Lemma iso_ts_ingress_latency_set dev t : isolated dev (lan8814_ts_clock_ingress_latency_set dev t).
Proof. iso lan8814_ts_clock_ingress_latency_set. Qed.
#[local] Hint Resolve iso_ts_ingress_latency_set : iso.
Lemma iso_ts_pps_conf_get dev : isolated dev (lan8814_ts_pps_conf_get dev).
Proof. iso lan8814_ts_pps_conf_get. Qed.
#[local] Hint Resolve iso_ts_pps_conf_get : iso.
Lemma iso_ts_stats_get dev t : isolated dev (lan8814_ts_stats_get dev t).
Proof. iso lan8814_ts_stats_get. Qed.
#[local] Hint Resolve iso_ts_stats_get : iso.
Lemma iso_ts_event_get dev t : isolated dev (lan8814_ts_event_get dev t).
Proof. iso lan8814_ts_event_get. Qed.
#[local] Hint Resolve iso_ts_event_get : iso.
Lemma iso_ts_event_set dev e t : isolated dev (lan8814_ts_event_set dev e t).
Proof. iso lan8814_ts_event_set. Qed.
#[local] Hint Resolve iso_ts_event_set : iso.
Lemma iso_ts_event_poll dev t : isolated dev (lan8814_ts_event_poll dev t).
Proof. iso lan8814_ts_event_poll. Qed.
#[local] Hint Resolve iso_ts_event_poll : iso.
Lemma iso_ts_fifo_read_install dev t : isolated dev (lan8814_ts_fifo_read_install dev t).
Proof. iso lan8814_ts_fifo_read_install. Qed.
#[local] Hint Resolve iso_ts_fifo_read_install : iso.
Lemma iso_fifo_callback dev c p t g st : isolated dev (fifo_callback c p t g st).
Proof. apply iso_bind; [apply iso_deref|]. intros x. by apply iso_log. Qed.
#[local] Hint Resolve iso_fifo_callback : iso.
Lemma iso_tx_ts_loop dev d n : forall v h1 h2, isolated dev (tx_ts_loop n dev d v h1 h2).
Proof. induction n as [|n IH]; intros v h1 h2; cbn [tx_ts_loop]; iso_auto; apply IH. Qed.
Lemma iso_fifo_loop dev n : forall v i l, isolated dev (fifo_loop n dev v i l).
Proof. induction n as [|n IH]; intros v i l; cbn [fifo_loop]; iso_auto; apply IH. Qed.
#[local] Hint Resolve iso_tx_ts_loop iso_fifo_loop : iso.
Lemma iso_ts_tx_ts_get dev n : isolated dev (lan8814_ts_tx_ts_get n dev).
Proof. iso lan8814_ts_tx_ts_get. Qed.
#[local] Hint Resolve iso_ts_tx_ts_get : iso.
Lemma iso_ts_fifo_get dev l s n : isolated dev (lan8814_ts_fifo_get dev l s n).
Proof. iso lan8814_ts_fifo_get. Qed.
#[local] Hint Resolve iso_ts_fifo_get : iso.
Lemma iso_ts_pch_mch_error_get dev : isolated dev (lan8814_ts_pch_mch_error_get dev).
Proof. iso lan8814_ts_pch_mch_error_get. Qed.
#[local] Hint Resolve iso_ts_pch_mch_error_get : iso.

(** *** Lan8814TsClass *)
Lemma iso_ptp_conf_priv dev i c : isolated dev (lan8814_ts_classifier_ptp_conf_priv dev i c).
Proof. iso lan8814_ts_classifier_ptp_conf_priv. Qed.
#[local] Hint Resolve iso_ptp_conf_priv : iso.
Lemma iso_ip_word_wr dev w x : isolated dev (ip_word_wr dev w x).
Proof. iso ip_word_wr. Qed.
#[local] Hint Resolve iso_ip_word_wr : iso.
Lemma iso_ipv4_conf_priv dev i w : isolated dev (lan8814_ts_classifier_ipv4_addr_conf_priv dev i w).
Proof. iso lan8814_ts_classifier_ipv4_addr_conf_priv. Qed.
#[local] Hint Resolve iso_ipv4_conf_priv : iso.
Lemma iso_ipv6_conf_priv dev i w : isolated dev (lan8814_ts_classifier_ipv6_addr_conf_priv dev i w).
Proof. iso lan8814_ts_classifier_ipv6_addr_conf_priv. Qed.
#[local] Hint Resolve iso_ipv6_conf_priv : iso.
Lemma iso_mac_conf_priv dev i m : isolated dev (lan8814_ts_classifier_mac_conf_set_priv dev i m).
Proof. iso lan8814_ts_classifier_mac_conf_set_priv. Qed.
#[local] Hint Resolve iso_mac_conf_priv : iso.
Lemma iso_vlan_outer dev t : isolated dev (vlan_outer dev t).
Proof. iso vlan_outer. Qed.
#[local] Hint Resolve iso_vlan_outer : iso.
Lemma iso_vlan_inner dev t : isolated dev (vlan_inner dev t).
Proof. iso vlan_inner. Qed.
#[local] Hint Resolve iso_vlan_inner : iso.
Lemma iso_vlan_conf_priv dev i c : isolated dev (lan8814_ts_classifier_vlan_conf_set_priv dev i c).
Proof. iso lan8814_ts_classifier_vlan_conf_set_priv. Qed.
#[local] Hint Resolve iso_vlan_conf_priv : iso.
Lemma iso_rx_eth_conf dev e l : isolated dev (rx_eth_conf dev e l).
Proof. iso rx_eth_conf. Qed.
#[local] Hint Resolve iso_rx_eth_conf : iso.
Lemma iso_tx_eth_conf dev e l : isolated dev (tx_eth_conf dev e l).
Proof. iso tx_eth_conf. Qed.
#[local] Hint Resolve iso_tx_eth_conf : iso.
Lemma iso_rx_ip_conf dev c p : isolated dev (rx_ip_conf dev c p).
Proof. iso rx_ip_conf. Qed.
#[local] Hint Resolve iso_rx_ip_conf : iso.
Lemma iso_tx_ip_conf dev c p : isolated dev (tx_ip_conf dev c p).
Proof. iso tx_ip_conf. Qed.
#[local] Hint Resolve iso_tx_ip_conf : iso.
Lemma iso_rx_classifier_conf_set_priv dev i c : isolated dev (lan8814_ts_rx_classifier_conf_set_priv dev i c).
Proof. iso lan8814_ts_rx_classifier_conf_set_priv. Qed.
#[local] Hint Resolve iso_rx_classifier_conf_set_priv : iso.
Lemma iso_tx_classifier_conf_set_priv dev i c : isolated dev (lan8814_ts_tx_classifier_conf_set_priv dev i c).
Proof. iso lan8814_ts_tx_classifier_conf_set_priv. Qed.
#[local] Hint Resolve iso_tx_classifier_conf_set_priv : iso.
Lemma iso_rx_classifier_conf_set dev i c : isolated dev (lan8814_ts_rx_classifier_conf_set dev i c).
Proof. iso lan8814_ts_rx_classifier_conf_set. Qed.
#[local] Hint Resolve iso_rx_classifier_conf_set : iso.
Lemma iso_tx_classifier_conf_set dev i c : isolated dev (lan8814_ts_tx_classifier_conf_set dev i c).
Proof. iso lan8814_ts_tx_classifier_conf_set. Qed.
#[local] Hint Resolve iso_tx_classifier_conf_set : iso.
Lemma iso_rx_classifier_conf_get dev i c : isolated dev (lan8814_ts_rx_classifier_conf_get dev i c).
Proof. iso lan8814_ts_rx_classifier_conf_get. Qed.
#[local] Hint Resolve iso_rx_classifier_conf_get : iso.
Lemma iso_tx_classifier_conf_get dev i c : isolated dev (lan8814_ts_tx_classifier_conf_get dev i c).
Proof. iso lan8814_ts_tx_classifier_conf_get. Qed.
#[local] Hint Resolve iso_tx_classifier_conf_get : iso.
Lemma iso_rx_ptp_clock_conf_get dev i c : isolated dev (lan8814_ts_rx_ptp_clock_conf_get dev i c).
Proof. iso lan8814_ts_rx_ptp_clock_conf_get. Qed.
#[local] Hint Resolve iso_rx_ptp_clock_conf_get : iso.
Lemma iso_tx_ptp_clock_conf_get dev i c : isolated dev (lan8814_ts_tx_ptp_clock_conf_get dev i c).
Proof. iso lan8814_ts_tx_ptp_clock_conf_get. Qed.
#[local] Hint Resolve iso_tx_ptp_clock_conf_get : iso.
Lemma iso_rx_ptp_clock_conf_set dev i c : isolated dev (lan8814_ts_rx_ptp_clock_conf_set dev i c).
Proof. iso lan8814_ts_rx_ptp_clock_conf_set. Qed.
#[local] Hint Resolve iso_rx_ptp_clock_conf_set : iso.
Lemma iso_tx_ptp_clock_conf_set dev i c : isolated dev (lan8814_ts_tx_ptp_clock_conf_set dev i c).
Proof. iso lan8814_ts_tx_ptp_clock_conf_set. Qed.
#[local] Hint Resolve iso_tx_ptp_clock_conf_set : iso.
Lemma iso_or_exit dev m k : isolated dev m -> isolated dev k -> isolated dev (or_exit m k).
Proof. intros Hm Hk. unfold or_exit. apply iso_bind; [done|]. intros rc. destruct (negb _); [iso_auto|done]. Qed.
Lemma iso_ts_test_config dev i r : isolated dev (lan8814_ts_test_config dev i r).
Proof.
  unfold lan8814_ts_test_config. apply iso_bind; [iso_auto|intros d]. cbv zeta.
  do 3 (apply iso_bind; [iso_auto|intros _]).
  do 4 (apply iso_or_exit; [solve [eauto with iso]|]). iso_auto.
Qed.
#[local] Hint Resolve iso_ts_test_config : iso.

Lemma iso_rc_of dev {A} (m : M B phy_data_t (Z * A)) : isolated dev m -> isolated dev (rc_of m).
Proof. intros Hm. apply iso_bind; [done|]. intros r. apply iso_ret. Qed.
#[local] Hint Resolve iso_link_base_port iso_eee_status_get iso_rc_of : iso.

Lemma iso_call_fn dev f l :
  Forall (fun x => isolated dev (snd x)) l -> isolated dev (call_fn f l).
Proof.
  induction 1 as [|[g m] l Hm _ IH]; cbn.
  - by apply iso_quiet.
  - by destruct (String.eqb f g).
Qed.

Lemma iso_fifo_rc dev {A C} (m : M B phy_data_t (Z * A * C)) : isolated dev m -> isolated dev (fifo_rc m).
Proof. intros Hm. apply iso_bind; [done|]. intros r. apply iso_ret. Qed.
Lemma iso_deref_rc dev (m : M B phy_data_t (option Z)) : isolated dev m -> isolated dev (deref_rc m).
Proof. intros Hm. apply iso_bind; [done|]. intros r. apply iso_deref. Qed.
Lemma iso_then_ok dev (m : M B phy_data_t unit) : isolated dev m -> isolated dev (m ;;; ret MEPA_RC_OK).
Proof. intros Hm. apply iso_bind; [done|]. intros r. apply iso_ret. Qed.
#[local] Hint Resolve iso_fifo_rc iso_deref_rc iso_then_ok : iso.

(** The pulse per second configuration is shared: it is stored in the base
    port's data too. *)
Definition isolated_call (c : call) : Prop :=
  match c with C_ts (T_pps_conf_set _) => False | _ => True end.

Lemma iso_ts_dispatch dev c :
  isolated_call (C_ts c) -> isolated dev (ts_dispatch lan8814_ts_drivers dev c).
Proof.
  intros Hc. unfold ts_dispatch. destruct (slot_lookup _ _); [|apply iso_ret].
  apply iso_call_fn. destruct c; cbn [isolated_call] in Hc; try done; cbn [snd];
  repeat first [apply List.Forall_nil | apply List.Forall_cons]; cbn [snd]; eauto 4 with iso.
Qed.

Lemma iso_exec drv_id dev c f : isolated_call c -> isolated dev (exec drv_id dev c f).
Proof.
  intros Hc. pose proof (iso_ts_dispatch dev). apply iso_call_fn. destruct c; cbn [snd];
  repeat first [apply List.Forall_nil | apply List.Forall_cons]; cbn [snd]; eauto 4 with iso.
Qed.

(** C2. Whatever the callouts return, a call of the API on a port of the
    LAN8814 family accesses the bus of that port only, and leaves the private
    data of every other port, its base port included, as it was; the pulse per
    second configuration, which is shared with the base port, is the exception. *)
Theorem api_call_isolated drv dev c w rc w' :
  isolated_call c -> api_call drv dev c w = Some (rc, w') ->
  (forall x, x <> dev -> w_data w' !! x = w_data w !! x) /\
  exists tr, w_log w' = w_log w ++ tr /\ Forall (on_dev dev) tr.
Proof.
  intros Hc H. apply (fun I : isolated dev (api_call drv dev c) => I w rc w' H).
  unfold api_call, dispatch. destruct (drv_fn drv (slot_of c)); [by apply iso_exec|apply iso_ret].
Qed.
End Functions.

(** A reset of port 101 leaves port 100, its base, alone. *)
Lemma api_call_isolated_witness :
  exists rc w', api_call lan8814_driver_lan8814 101
      (C_reset (set_rst_framepreempt_en TRUE mepa_reset_param_t_0)) (quad_world phy_data_t_0)
      = Some (rc, w') /\
    w_data w' !! 100 = w_data (quad_world phy_data_t_0) !! 100.
Proof.
  destruct (api_call lan8814_driver_lan8814 101
      (C_reset (set_rst_framepreempt_en TRUE mepa_reset_param_t_0)) (quad_world phy_data_t_0))
    as [[rc w']|] eqn:E.
  - exists rc, w'. split; [reflexivity|]. refine (proj1 (api_call_isolated _ 101 _ _ _ _ _ E) 100 _); [exact I|discriminate].
  - exfalso. revert E. vm_compute. discriminate.
Defined.
