(* ===== verification/Lan8814ConfSpec.v ===== *)
(** * Lan8814ConfSpec: what configuration does to the PHY

    Register-level specifications of [Lan8814Conf], proved with the access
    logic: for every content of the registers, which registers a function
    writes, the values it leaves there, and the private data afterwards. *)

From Stdlib Require Import ZArith Lia List Bool String.
From stdpp Require Import base gmap strings list.
From S2P Require Import Prelude Machine Enums Lan8814Regs Lan8814Types Trace Mdio Lan8814Access SimPhy AccessLemmas Lan8814Conf Lan8814Driver.

(** The register a pair of the register map names, behind either window. *)
Definition ep (p : ereg) : reg := Ext (fst p) (snd p).
Definition mmd (p : ereg) : reg := Mmd (fst p) (snd p).

(** ** Specifications of the parts *)
Section Parts.
Context {B : Type} {CO : Callout B} {OK : BusOk CO}.
Implicit Types (dev : Z) (d : phy_data_t) (t : gmap Z phy_data_t).
Local Abbreviation does := (does (B := B)).

Lemma does_is_lan966x dev d t (Q : bool -> gmap Z phy_data_t -> list access -> Prop) :
  t !! dev = Some d -> Q (dev_model (pd_dev d) =? 0x27) t [] -> does (lan8814_is_lan966x dev) t Q.
Proof. intros Hd HQ. unfold lan8814_is_lan966x. by does_auto. Qed.
Lemma does_is_lan8814 dev d t (Q : bool -> gmap Z phy_data_t -> list access -> Prop) :
  t !! dev = Some d -> Q (dev_model (pd_dev d) =? 0x26) t [] -> does (lan8814_is_lan8814 dev) t Q.
Proof. intros Hd HQ. unfold lan8814_is_lan8814. by does_auto. Qed.
Lemma does_is_lan8842 dev d t (Q : bool -> gmap Z phy_data_t -> list access -> Prop) :
  t !! dev = Some d -> Q (dev_model (pd_dev d) =? 0x2c) t [] -> does (lan8814_is_lan8842 dev) t Q.
Proof. intros Hd HQ. unfold lan8814_is_lan8842. by does_auto. Qed.

Lemma does_qsgmii_aneg dev d t ena (Q : Z -> gmap Z phy_data_t -> list access -> Prop) :
  t !! dev = Some d ->
  (forall l, only dev [ep LAN8814_QSGMII_PCS1G_ANEG_CONFIG] l -> Q MEPA_RC_OK t l) ->
  does (lan8814_qsgmii_aneg dev ena) t Q.
Proof.
  intros Hd HQ. unfold lan8814_qsgmii_aneg. does_step. eapply does_is_lan966x; [done|].
  destruct (_ =? _); [does_auto; apply HQ, only_nil|].
  destruct (negb (tb ena)); does_auto; apply HQ; only_tac.
Qed.
Lemma does_fifo_reset dev t (Q : Z -> gmap Z phy_data_t -> list access -> Prop) :
  (forall l, only dev [ep LAN8814_TX_RA_FIFO_RESET; ep LAN8814_RX_RA_FIFO_RESET] l ->
     Q MEPA_RC_OK t l) ->
  does (lan8814_workaround_fifo_reset dev) t Q.
Proof. intros HQ. unfold lan8814_workaround_fifo_reset. does_auto. apply HQ. only_tac. Qed.

Definition fifo_thresholds : list reg :=
  map ep [LAN8814_RX_RA_FIFO_THRESHOLDS_1; LAN8814_RX_RA_FIFO_THRESHOLDS_2;
          LAN8814_RX_RA_FIFO_THRESHOLDS_3; LAN8814_TX_RA_FIFO_THRESHOLDS_1;
          LAN8814_TX_RA_FIFO_THRESHOLDS_2; LAN8814_TX_RA_FIFO_THRESHOLDS_3].
Lemma does_half_duplex dev t (Q : Z -> gmap Z phy_data_t -> list access -> Prop) :
  (forall l, only dev fifo_thresholds l -> Q MEPA_RC_OK t l) ->
  does (lan8814_workaround_half_duplex dev) t Q.
Proof.
  intros HQ. unfold lan8814_workaround_half_duplex, ep_wr_list. does_auto. apply HQ.
  unfold fifo_thresholds. only_tac.
Qed.

Lemma set_mdi_same dev d t m : t !! dev = Some d ->
  conf_mdi_mode (pd_conf d) = m -> <[dev := set_conf (set_conf_mdi_mode m) d]> t = t.
Proof.
  intros Hd <-. rewrite <- (insert_id t dev d) at 2 by done. f_equal.
  destruct d as [? ? ? [] ? ? ? ? ? ? ? ? ? ? ? ? ? ? ? ? ? ? ? ? ? ? ? ? ?]. done.
Qed.
(** The MDI control is accessed when the mode changes. *)
Definition mdi_regs d (m : Z) : list reg :=
  if conf_mdi_mode (pd_conf d) =? m then [] else [Direct LAN8814_GPHY_DBG_CTL1].

Lemma does_conf_mdi_mode dev d t m (Q : Z -> gmap Z phy_data_t -> list access -> Prop) :
  t !! dev = Some d ->
  (forall l, only dev (mdi_regs d m) l ->
     Q MEPA_RC_OK (<[dev := set_conf (set_conf_mdi_mode m) d]> t) l) ->
  does (lan8814_conf_mdi_mode dev m) t Q.
Proof.
  intros Hd HQ. unfold lan8814_conf_mdi_mode, mdi_regs in *. does_auto.
  destruct (Z.eqb_spec (conf_mdi_mode (pd_conf d)) m) as [E|E].
  - does_auto. rewrite <- (set_mdi_same dev d t m Hd E). apply HQ, only_nil.
  - does_auto. apply HQ. only_tac.
Qed.

(** The loop over the event bits programs the fast-link-failure block and
    yields the interrupt mask. *)
Lemma does_event_enable_loop dev t en bits ev m (Q : Z -> gmap Z phy_data_t -> list access -> Prop) :
  (forall m' l, only dev [ep LAN8814_FLF_CONFIG_STATUS] l -> Q m' t l) ->
  does (event_enable_loop dev en bits ev m) t Q.
Proof.
  revert ev m Q. induction bits as [|i bits IH]; intros ev m Q HQ; cbn [event_enable_loop].
  { does_auto. apply HQ, only_nil. }
  apply does_bind. cbv zeta.
  destruct (_ =? MEPA_LINK_LOS); [|destruct (_ =? MEPA_FAST_LINK_FAIL)]; does_auto;
    (destruct (_ =? 0); [does_auto; apply HQ; only_tac | apply IH; intros; apply HQ; only_tac]).
Qed.

Lemma does_event_enable_set_ dev d t ev en (Q : Z -> gmap Z phy_data_t -> list access -> Prop) :
  t !! dev = Some d ->
  (forall l, only dev [ep LAN8814_FLF_CONFIG_STATUS; Direct LAN8814_GPHY_INTR_ENA] l ->
     Q MEPA_RC_OK (<[dev := set_pd_events (if tb en then pd_events d .| ev
                                           else pd_events d .& .~ ev) d]> t) l) ->
  does (lan8814_event_enable_set_ dev ev en) t Q.
Proof.
  intros Hd HQ. unfold lan8814_event_enable_set_. does_auto.
  apply does_event_enable_loop. intros m l Hl. does_auto. apply HQ. only_tac.
Qed.
End Parts.

(** ** [lan8814_conf_set_] *)

(** Auto-negotiation is used for these speeds, a forced speed for the others. *)
Definition aneg_speed (c : mepa_conf_t) : bool :=
  (conf_speed c =? MEPA_SPEED_AUTO) || (conf_speed c =? MEPA_SPEED_1G).

(** The advertisement registers of a configuration: register 4, and register
    9 with the bits of it that are configured. *)
Definition advert (c : mepa_conf_t) : Z :=
  let flag x n := cb (tb x) .<< n in
  flag (adv_tx_remote_fault (conf_aneg c)) 13 .| flag (conf_flow_control c) 11 .|
  flag (conf_flow_control c) 10 .| flag (adv_speed_100m_fdx (conf_aneg c)) 8 .|
  flag (adv_speed_100m_hdx (conf_aneg c)) 7 .| flag (adv_speed_10m_fdx (conf_aneg c)) 6 .|
  flag (adv_speed_10m_hdx (conf_aneg c)) 5 .| (1 .<< 0).
Definition advert_1g (c : mepa_conf_t) : Z :=
  let v := if tb (adv_speed_1g_fdx (conf_aneg c)) then 512 else 0 in
  if tb (conf_man_neg c)
  then v .| 4096 .| (if conf_man_neg c =? MEPA_MANUAL_NEG_REF then 2048 else 0) else v.
Definition mask_1g : Z := 512 + 2048 + 4096.

(** The basic control register of a forced speed, and its mask. *)
Definition forced (c : mepa_conf_t) : Z :=
  (cb (conf_speed c =? MEPA_SPEED_100M) .<< 13) .| (0 .<< 12) .|
  (cb (tb (conf_fdx c)) .<< 8) .| (cb (conf_speed c =? MEPA_SPEED_1G) .<< 6).
Definition forced_mask : Z := 8192 + 4096 + 2048 + 256 + 64.

(** Why auto-negotiation is restarted: the port was enabled or disabled, the
    1G advertisement or the manual role changed, or register 4 changes. *)
Definition restarts (c old : mepa_conf_t) (reg4 : Z) : bool :=
  negb (conf_admin_enable old =? conf_admin_enable c) ||
  negb (adv_speed_1g_fdx (conf_aneg c) =? adv_speed_1g_fdx (conf_aneg old)) ||
  (tb (conf_man_neg c) && negb (conf_man_neg c =? conf_man_neg old)) ||
  negb (reg4 =? advert c).

Definition bmcr : reg := Direct LAN8814_BASIC_CONTROL.
Definition r_adv : reg := Direct LAN8814_ANEG_ADVERTISEMENT.
Definition r_1g : reg := Direct LAN8814_ANEG_MSTR_SLV_CTRL.

(** The accesses that depend on the configured speed. *)
Definition conf_main (dev : Z) (c old : mepa_conf_t) (l : list access) : Prop :=
  if tb (conf_admin_enable c) then
    exists lf, only dev [ep LAN8814_TX_RA_FIFO_RESET; ep LAN8814_RX_RA_FIFO_RESET] lf /\
    if aneg_speed c then
      exists x9 x4 y4 x0, 0 <= x4 < 65536 /\
      exists l0,
      (if restarts c old x4 then exists y0, l0 = [ARd dev bmcr y0; AWr dev bmcr (rmw y0 512 512)]
       else l0 = []) /\
      l = lf ++ [ARd dev r_1g x9; AWr dev r_1g (rmw x9 (advert_1g c) mask_1g);
                 ARd dev r_adv x4; ARd dev r_adv y4; AWr dev r_adv (u16 (advert c));
                 ARd dev bmcr x0; AWr dev bmcr (rmw x0 4096 (4096 + 2048))] ++ l0
    else if conf_speed c =? MEPA_SPEED_UNDEFINED then l = []
    else exists x0 lh, only dev fifo_thresholds lh /\
      l = lf ++ [ARd dev bmcr x0; AWr dev bmcr (rmw x0 (forced c) forced_mask)] ++ lh
  else exists x0, l = [ARd dev bmcr x0; AWr dev bmcr (rmw x0 2048 2048)].

(** The private data after a configuration. *)
Definition conf_after (c : mepa_conf_t) (d : phy_data_t) : phy_data_t :=
  set_pd_conf (set_conf_mac_if_aneg_ena
    (if conf_speed c =? MEPA_SPEED_AUTO then conf_mac_if_aneg_ena c else FALSE) c) d.

Definition conf_before_regs (mdi : list reg) : list reg :=
  ep LAN8814_QSGMII_PCS1G_ANEG_CONFIG :: Direct LAN8814_GPHY_INTR_ENA :: mdi.
Definition conf_after_regs : list reg :=
  [Direct LAN8814_CONTROL; Direct LAN8814_GPHY_INTR_STATUS;
   ep LAN8814_FLF_CONFIG_STATUS; Direct LAN8814_GPHY_INTR_ENA].

Section ConfSet.
Context {B : Type} {CO : Callout B} {OK : BusOk CO}.
Implicit Types (dev : Z) (d : phy_data_t) (t : gmap Z phy_data_t).
Local Abbreviation does := (does (B := B)).

Lemma does_conf_set_finish dev d t c (Q : Z -> gmap Z phy_data_t -> list access -> Prop) :
  t !! dev = Some d ->
  (forall l, only dev conf_after_regs l -> Q MEPA_RC_OK (<[dev := conf_after c d]> t) l) ->
  does (conf_set_finish dev c (if negb (conf_speed c =? MEPA_SPEED_AUTO) then FALSE
                               else conf_mac_if_aneg_ena c)) t Q.
Proof.
  intros Hd HQ. unfold conf_set_finish. does_step. eapply does_is_lan966x; [done|]. does_step.
  assert (He : forall e : phy_data_t, set_pd_events (pd_events e) e = e) by (by intros []).
  destruct (_ =? 0x27); does_auto; (eapply does_event_enable_set_; [apply lookup_insert_eq|]);
    intros l' Hl'; does_auto; rewrite insert_insert_eq; change (tb TRUE) with true; cbv iota;
    rewrite Z.lor_diag, He; unfold conf_after, set_conf, conf_after_regs in *;
    destruct (conf_speed c =? MEPA_SPEED_AUTO); apply HQ; only_tac.
Qed.

Lemma does_conf_fifo_reset dev t old (Q : unit -> gmap Z phy_data_t -> list access -> Prop) :
  (forall l, only dev [ep LAN8814_TX_RA_FIFO_RESET; ep LAN8814_RX_RA_FIFO_RESET] l -> Q tt t l) ->
  does (conf_fifo_reset dev old) t Q.
Proof.
  intros HQ. unfold conf_fifo_reset. destruct (_ && _).
  - does_step. apply does_fifo_reset. intros l Hl. does_auto. apply HQ. only_tac.
  - does_auto. apply HQ. only_tac.
Qed.

Lemma does_conf_set_aneg dev t c old (Q : unit -> gmap Z phy_data_t -> list access -> Prop) :
  tb (conf_admin_enable c) = true -> aneg_speed c = true ->
  (forall l, conf_main dev c old l -> Q tt t l) ->
  does (conf_set_aneg dev c old) t Q.
Proof.
  intros Hadm Hsp HQ. unfold conf_set_aneg. does_step. apply does_conf_fifo_reset. intros lf Hlf.
  do 2 does_step. does_step. does_step. does_step. does_step. does_step. does_step.
  cbv beta zeta.
  match goal with |- does (if ?b then _ else _) _ _ => set (r := b) end.
  assert (r = restarts c old v) as ->.
  { subst r. unfold restarts, advert.
    destruct (negb (v =? _)); [by rewrite orb_true_r|]. rewrite orb_false_r.
    destruct (negb (adv_speed_1g_fdx _ =? _)), (tb (conf_man_neg c)),
      (negb (conf_man_neg c =? _)), (negb (conf_admin_enable old =? _)); done. }
  assert (forall l0, (if restarts c old v
                      then exists y0, l0 = [ARd dev bmcr y0; AWr dev bmcr (rmw y0 512 512)]
                      else l0 = []) ->
    Q tt t (lf ++ [ARd dev r_1g x; AWr dev r_1g (rmw x (advert_1g c) mask_1g);
                   ARd dev r_adv v; ARd dev r_adv x0; AWr dev r_adv (u16 (advert c));
                   ARd dev bmcr x1; AWr dev bmcr (rmw x1 4096 (4096 + 2048))] ++ l0)) as Hfin.
  { intros l0 Hl0. apply HQ. unfold conf_main. rewrite Hadm, Hsp.
    exists lf. split; [done|]. exists x, v, x0, x1. split; [done|]. by exists l0. }
  destruct (restarts c old v).
  - does_step. apply Hfin. by eexists.
  - does_step. by apply Hfin.
Qed.

Lemma does_conf_set_forced dev t c old (Q : unit -> gmap Z phy_data_t -> list access -> Prop) :
  tb (conf_admin_enable c) = true -> aneg_speed c = false ->
  (conf_speed c =? MEPA_SPEED_UNDEFINED) = false ->
  (forall l, conf_main dev c old l -> Q tt t l) ->
  does (conf_set_forced dev c old) t Q.
Proof.
  intros Hadm Hsp Hun HQ. unfold conf_set_forced. does_step. apply does_conf_fifo_reset.
  intros lf Hlf. does_step. does_step. cbv beta zeta.
  assert (forall lh, only dev fifo_thresholds lh ->
    Q tt t (lf ++ [ARd dev bmcr x; AWr dev bmcr (rmw x (forced c) forced_mask)] ++ lh)) as Hfin.
  { intros lh Hlh. apply HQ. unfold conf_main. rewrite Hadm, Hsp, Hun.
    exists lf. split; [done|]. by exists x, lh. }
  destruct (negb (tb (conf_fdx c))).
  - does_step. apply does_half_duplex. intros lh Hlh. does_step.
    rewrite app_nil_r. by apply Hfin.
  - does_step. by apply Hfin, only_nil.
Qed.

Lemma does_conf_set_enabled dev d t c q (Q : unit -> gmap Z phy_data_t -> list access -> Prop) :
  t !! dev = Some d -> tb (conf_admin_enable c) = true ->
  (forall l1 l2, only dev (conf_before_regs (mdi_regs d (conf_mdi_mode c))) l1 ->
     conf_main dev c (set_conf_mdi_mode (conf_mdi_mode c) (pd_conf d)) l2 ->
     Q tt (<[dev := set_conf (set_conf_mdi_mode (conf_mdi_mode c)) d]> t) (l1 ++ l2)) ->
  does (conf_set_enabled dev c q) t Q.
Proof.
  intros Hd Hadm HQ. unfold conf_set_enabled. does_step.
  eapply does_conf_mdi_mode; [done|]. intros lm Hlm. does_auto.
  set (d1 := set_conf (set_conf_mdi_mode (conf_mdi_mode c)) d) in *.
  set (t1 := <[dev := d1]> t) in *.
  set (S := mdi_regs d (conf_mdi_mode c)) in *.
  assert (forall lq, only dev (conf_before_regs S) lq ->
    does (WRM dev LAN8814_GPHY_INTR_ENA 0 LAN8814_F_GPHY_INTR_ENA_FLF_INTR ;;;
      if (conf_speed c =? MEPA_SPEED_AUTO) || (conf_speed c =? MEPA_SPEED_1G)
      then conf_set_aneg dev c (pd_conf d1)
      else if negb (conf_speed c =? MEPA_SPEED_UNDEFINED)
      then conf_set_forced dev c (pd_conf d1) else ret tt) t1
      (fun r t' l => Q r t' (lq ++ l))) as Hrest.
  { intros lq Hlq. does_step. does_step. fold (aneg_speed c).
    assert (forall l2, conf_main dev c (pd_conf d1) l2 ->
      Q tt t1 (lq ++ [ARd dev (Direct LAN8814_GPHY_INTR_ENA) x;
        AWr dev (Direct LAN8814_GPHY_INTR_ENA)
          (rmw x 0 LAN8814_F_GPHY_INTR_ENA_FLF_INTR)] ++ l2)) as Hfin.
    { intros l2 Hl2. rewrite app_assoc. apply HQ; [|done].
      unfold conf_before_regs in *. only_tac. }
    destruct (aneg_speed c) eqn:Hsp.
    { by apply does_conf_set_aneg. }
    destruct (conf_speed c =? MEPA_SPEED_UNDEFINED) eqn:Hun; cbn [negb].
    - does_step. apply Hfin. unfold conf_main. rewrite Hadm, Hsp, Hun.
      exists []. split; [apply only_nil|done].
    - by apply does_conf_set_forced. }
  destruct (negb (q =? _)).
  - does_step. eapply does_qsgmii_aneg; [apply lookup_insert_eq|]. intros l Hl. does_step.
    eapply does_mono; [apply (Hrest (lm ++ l))|].
    + unfold conf_before_regs. only_tac.
    + intros r t' l'. by rewrite app_nil_r, <- app_assoc.
  - does_step. apply (Hrest lm). unfold conf_before_regs. only_tac.
Qed.

Lemma does_conf_set_ dev d t c (Q : Z -> gmap Z phy_data_t -> list access -> Prop) :
  t !! dev = Some d ->
  (forall l1 l2 l3, only dev (conf_before_regs (mdi_regs d (conf_mdi_mode c))) l1 -> conf_main dev c (pd_conf d) l2 ->
     only dev conf_after_regs l3 ->
     Q MEPA_RC_OK (<[dev := conf_after c d]> t) (l1 ++ l2 ++ l3)) ->
  does (lan8814_conf_set_ dev c) t Q.
Proof.
  intros Hd HQ. unfold lan8814_conf_set_. does_step.
  destruct (tb (conf_admin_enable c)) eqn:Hadm.
  - eapply does_conf_set_enabled; [done..|]. intros l1 l2 Hl1 Hl2.
    eapply does_conf_set_finish; [apply lookup_insert_eq|]. intros l3 Hl3.
    rewrite insert_insert_eq, <- app_assoc. by apply HQ.
  - does_step. eapply does_conf_set_finish; [done|]. intros l3 Hl3.
    apply (HQ [] [_; _]); [apply only_nil| |done].
    unfold conf_main. rewrite Hadm. by eexists.
Qed.
End ConfSet.

(** ** Reading the specification *)

(** Register 4 of a configuration, bit by bit (IEEE 802.3 clause 28). *)
Definition adv_bit (c : mepa_conf_t) (i : Z) : bool :=
  if i =? 0 then true
  else if i =? 5 then tb (adv_speed_10m_hdx (conf_aneg c))
  else if i =? 6 then tb (adv_speed_10m_fdx (conf_aneg c))
  else if i =? 7 then tb (adv_speed_100m_hdx (conf_aneg c))
  else if i =? 8 then tb (adv_speed_100m_fdx (conf_aneg c))
  else if (i =? 10) || (i =? 11) then tb (conf_flow_control c)
  else if i =? 13 then tb (adv_tx_remote_fault (conf_aneg c))
  else false.

(** Case analysis on a bit number below 16. *)
Ltac bit_cases i :=
  let H := fresh in
  assert (H : i = 0 \/ i = 1 \/ i = 2 \/ i = 3 \/ i = 4 \/ i = 5 \/ i = 6 \/ i = 7 \/
              i = 8 \/ i = 9 \/ i = 10 \/ i = 11 \/ i = 12 \/ i = 13 \/ i = 14 \/ i = 15) by lia;
  repeat (destruct H as [-> | H]); [.. | subst i].

Lemma testbit_advert c i : 0 <= i < 16 -> Z.testbit (u16 (advert c)) i = adv_bit c i.
Proof.
  intros Hi. rewrite testbit_u16, (proj2 (Z.ltb_lt i 16)), andb_true_l by lia.
  unfold advert, adv_bit.
  destruct (tb (adv_tx_remote_fault _)), (tb (conf_flow_control c)),
    (tb (adv_speed_100m_fdx _)), (tb (adv_speed_100m_hdx _)),
    (tb (adv_speed_10m_fdx _)), (tb (adv_speed_10m_hdx _)); bit_cases i; reflexivity.
Qed.

(** Bits 9, 11 and 12 of register 9: 1000BASE-T full duplex, and the manual
    master or slave role. *)
Definition mstr_bit (c : mepa_conf_t) (old : Z) (i : Z) : bool :=
  if i =? 9 then tb (adv_speed_1g_fdx (conf_aneg c))
  else if i =? 12 then tb (conf_man_neg c)
  else if i =? 11 then tb (conf_man_neg c) && (conf_man_neg c =? MEPA_MANUAL_NEG_REF)
  else Z.testbit old i.

Lemma testbit_advert_1g c old i :
  0 <= i < 16 -> Z.testbit (rmw old (advert_1g c) mask_1g) i = mstr_bit c old i.
Proof.
  intros Hi. rewrite testbit_last by done. unfold advert_1g, mstr_bit, mask_1g.
  destruct (tb (adv_speed_1g_fdx _)), (tb (conf_man_neg c)),
    (conf_man_neg c =? MEPA_MANUAL_NEG_REF); bit_cases i; reflexivity.
Qed.

(** The basic control register of a forced speed. *)
Definition forced_bit (c : mepa_conf_t) (old : Z) (i : Z) : bool :=
  if i =? 13 then conf_speed c =? MEPA_SPEED_100M
  else if i =? 6 then conf_speed c =? MEPA_SPEED_1G
  else if i =? 8 then tb (conf_fdx c)
  else if (i =? 12) || (i =? 11) then false
  else Z.testbit old i.

Lemma testbit_forced c old i :
  0 <= i < 16 -> Z.testbit (rmw old (forced c) forced_mask) i = forced_bit c old i.
Proof.
  intros Hi. rewrite testbit_last by done. unfold forced, forced_bit, forced_mask.
  destruct (conf_speed c =? MEPA_SPEED_100M), (conf_speed c =? MEPA_SPEED_1G), (tb (conf_fdx c));
    bit_cases i; reflexivity.
Qed.

Lemma wrote_nil_only dev S r l : only dev S l -> r ∉ S -> wrote dev r l = [].
Proof. apply wrote_only. Qed.

(** The three registers of clause 22 that hold what is negotiated. *)
Definition aneg_regs : list reg := [r_1g; r_adv; bmcr].

(** What [conf_main] does with them: register 9 is changed in three bits, the
    advertisement is compared and written, negotiation is switched on, and
    restarted when something changed. *)
Lemma conf_main_aneg dev c old l :
  tb (conf_admin_enable c) = true -> aneg_speed c = true -> conf_main dev c old l ->
  exists x9 x4 y4 x0 ws, 0 <= x4 < 65536 /\
  seen dev aneg_regs l = [ARd dev r_1g x9; AWr dev r_1g (rmw x9 (advert_1g c) mask_1g);
    ARd dev r_adv x4; ARd dev r_adv y4; AWr dev r_adv (u16 (advert c));
    ARd dev bmcr x0; AWr dev bmcr (rmw x0 4096 (4096 + 2048))] ++ ws /\
  if restarts c old x4 then exists y, ws = [ARd dev bmcr y; AWr dev bmcr (rmw y 512 512)] else ws = [].
Proof.
  intros Hadm Hsp. unfold conf_main. rewrite Hadm, Hsp.
  intros (lf & Hlf & x9 & x4 & y4 & x0 & Hx4 & l0 & Hl0 & ->).
  exists x9, x4, y4, x0, l0. split; [done|].
  destruct (restarts c old x4); [destruct Hl0 as [y ->] | subst l0]; (split; [by seen_tac|]); [by exists y|done].
Qed.

(** No other register is accessed. *)
Definition conf_main_regs : list reg :=
  r_adv :: r_1g :: bmcr :: ep LAN8814_TX_RA_FIFO_RESET :: ep LAN8814_RX_RA_FIFO_RESET ::
  fifo_thresholds.
Lemma conf_main_only dev c old l : conf_main dev c old l -> only dev conf_main_regs l.
Proof.
  unfold conf_main, conf_main_regs. destruct (tb _); [|intros [x0 ->]; only_tac].
  intros (lf & Hlf & H).
  assert (only dev conf_main_regs lf) as Hlf' by (unfold conf_main_regs; only_tac).
  destruct (aneg_speed c).
  - destruct H as (x9 & x4 & y4 & x0 & _ & l0 & Hl0 & ->).
    apply only_app; [done|]. apply only_app; [only_tac|].
    destruct (restarts c old x4); [destruct Hl0 as [y ->] | subst l0]; only_tac.
  - destruct (_ =? _); [subst l; apply only_nil|]. destruct H as (x0 & lh & Hlh & ->).
    apply only_app; [done|]. apply only_app; only_tac.
Qed.

Section Claims.
Context {B : Type} {CO : Callout B} {OK : BusOk CO}.
Implicit Types (dev : Z) (d : phy_data_t) (t : gmap Z phy_data_t).

Lemma does_conf_set dev d t c (Q : Z -> gmap Z phy_data_t -> list access -> Prop) :
  t !! dev = Some d ->
  (forall l1 l2 l3, only dev (conf_before_regs (mdi_regs d (conf_mdi_mode c))) l1 -> conf_main dev c (pd_conf d) l2 ->
     only dev conf_after_regs l3 ->
     Q MEPA_RC_OK (<[dev := conf_after c d]> t) (l1 ++ l2 ++ l3)) ->
  does (B := B) (lan8814_conf_set dev c) t Q.
Proof.
  intros Hd HQ. unfold lan8814_conf_set. does_step. does_step. does_step.
  eapply does_conf_set_; [done|]. intros l1 l2 l3 H1 H2 H3. does_auto.
  cbn [app]. rewrite !app_nil_r. by apply HQ.
Qed.

Lemma seen_before dev d m l1 : only dev (conf_before_regs (mdi_regs d m)) l1 -> seen dev aneg_regs l1 = [].
Proof. intros H. eapply seen_only; [exact H|]. unfold mdi_regs. by destruct (_ =? m). Qed.

Lemma testbit_aneg_on x i : 0 <= i < 16 ->
  Z.testbit (rmw x 4096 (4096 + 2048)) i = if i =? 12 then true else if i =? 11 then false else Z.testbit x i.
Proof. intros Hi. rewrite testbit_last by done. bit_cases i; reflexivity. Qed.
Lemma testbit_restart y i : 0 <= i < 16 -> Z.testbit (rmw y 512 512) i = (i =? 9) || Z.testbit y i.
Proof. intros Hi. rewrite testbit_last by done. bit_cases i; reflexivity. Qed.

Lemma advert_range c : 0 <= advert c < 65536.
Proof.
  unfold advert. destruct (tb (adv_tx_remote_fault _)), (tb (conf_flow_control c)),
    (tb (adv_speed_100m_fdx _)), (tb (adv_speed_100m_hdx _)),
    (tb (adv_speed_10m_fdx _)), (tb (adv_speed_10m_hdx _)); vm_compute; split; congruence.
Qed.
Lemma restarts_eq c old x4 :
  negb (conf_admin_enable old =? conf_admin_enable c) ||
  negb (adv_speed_1g_fdx (conf_aneg old) =? adv_speed_1g_fdx (conf_aneg c)) ||
  (tb (conf_man_neg c) && negb (conf_man_neg old =? conf_man_neg c)) || negb (x4 =? u16 (advert c)) =
  restarts c old x4.
Proof.
  unfold restarts. pose proof (advert_range c). rewrite u16_small by lia.
  by rewrite (Z.eqb_sym (adv_speed_1g_fdx (conf_aneg old))), (Z.eqb_sym (conf_man_neg old)).
Qed.

Lemma wrote_conf dev d m l1 l2 l3 r :
  only dev (conf_before_regs (mdi_regs d m)) l1 -> only dev conf_after_regs l3 -> r ∈ [r_adv; r_1g; bmcr] ->
  wrote dev r (l1 ++ l2 ++ l3) = wrote dev r l2.
Proof.
  intros H1 H3 Hr. rewrite !wrote_app.
  rewrite (wrote_only dev r _ l1 H1), (wrote_only dev r _ l3 H3), app_nil_r; [done|..];
    unfold mdi_regs; try destruct (_ =? m);
    rewrite !elem_of_cons, elem_of_nil in Hr; destruct Hr as [-> | [-> | [-> | []]]]; not_in.
Qed.

(** C7. Configuring an enabled port for auto-negotiation (or 1G), whatever the
    registers hold.  It succeeds.  Of register 9, read first, it changes bits
    9, 11 and 12 only, to the configured 1G advertisement and role; it reads
    register 4 and writes exactly the configured advertisement; in the basic
    control register it sets auto-negotiation, clears power-down and leaves
    the other bits as read.  A last write to that register, which restarts the
    negotiation and leaves the other bits as read, is made exactly when the
    enable flag, the 1G advertisement or a manual role differs from that of the
    stored configuration, or register 4 did not hold the advertisement.  No
    other access is made to these registers; the new configuration is stored,
    with [mac_if_aneg_ena] cleared when the speed is 1G, and nothing else
    of the private data changes. *)
Theorem conf_set_aneg_spec dev d t c :
  t !! dev = Some d -> tb (conf_admin_enable c) = true -> aneg_speed c = true ->
  does (B := B) (lan8814_conf_set dev c) t (fun rc t' l =>
    rc = MEPA_RC_OK /\
    t' = <[dev := set_pd_conf (set_conf_mac_if_aneg_ena
           (if conf_speed c =? MEPA_SPEED_AUTO then conf_mac_if_aneg_ena c else FALSE) c) d]> t /\
    exists x9 v9 x4 y4 v4 x0 v0 restart,
      seen dev [r_1g; r_adv; bmcr] l =
        [ARd dev r_1g x9; AWr dev r_1g v9; ARd dev r_adv x4; ARd dev r_adv y4; AWr dev r_adv v4;
         ARd dev bmcr x0; AWr dev bmcr v0] ++ restart /\
      (forall i, 0 <= i < 16 -> Z.testbit v9 i = mstr_bit c x9 i) /\
      (forall i, 0 <= i < 16 -> Z.testbit v4 i = adv_bit c i) /\
      (forall i, 0 <= i < 16 -> Z.testbit v0 i = if i =? 12 then true else if i =? 11 then false else Z.testbit x0 i) /\
      if negb (conf_admin_enable (pd_conf d) =? conf_admin_enable c) ||
         negb (adv_speed_1g_fdx (conf_aneg (pd_conf d)) =? adv_speed_1g_fdx (conf_aneg c)) ||
         (tb (conf_man_neg c) && negb (conf_man_neg (pd_conf d) =? conf_man_neg c)) ||
         negb (x4 =? v4)
      then exists y v, restart = [ARd dev bmcr y; AWr dev bmcr v] /\
        forall i, 0 <= i < 16 -> Z.testbit v i = (i =? 9) || Z.testbit y i
      else restart = []).
Proof.
  intros Hd Hadm Hsp. eapply does_conf_set; [done|]. intros l1 l2 l3 H1 H2 H3.
  split; [done|]. split; [done|]. destruct (conf_main_aneg dev c _ l2 Hadm Hsp H2)
    as (x9 & x4 & y4 & x0 & ws & Hx4 & Hl & Hws).
  exists x9, (rmw x9 (advert_1g c) mask_1g), x4, y4, (u16 (advert c)), x0, (rmw x0 4096 (4096 + 2048)), ws.
  fold aneg_regs. rewrite !seen_parts, Hl, (seen_before dev d (conf_mdi_mode c) l1 H1), (seen_only _ _ _ l3 H3), app_nil_r by done.
  split_and!; try done.
  - intros i. apply testbit_advert_1g.
  - apply testbit_advert.
  - intros i Hi. by apply testbit_aneg_on.
  - rewrite (restarts_eq c (pd_conf d) x4). destruct (restarts c _ x4); [|done]. destruct Hws as [y ->].
    exists y, (rmw y 512 512). split; [done|]. by apply testbit_restart.
Qed.

(** Configuring an enabled port for a forced speed writes the basic
    control register once: speed and duplex as configured, auto-negotiation
    and power-down off, every other bit as read; registers 4 and 9 are not
    written. *)
Theorem conf_set_forced_spec dev d t c :
  t !! dev = Some d -> tb (conf_admin_enable c) = true ->
  conf_speed c ∉ [MEPA_SPEED_AUTO; MEPA_SPEED_1G; MEPA_SPEED_UNDEFINED] ->
  does (B := B) (lan8814_conf_set dev c) t (fun rc t' l =>
    rc = MEPA_RC_OK /\ wrote dev r_adv l = [] /\ wrote dev r_1g l = [] /\
    exists x v, wrote dev bmcr l = [v] /\ ARd dev bmcr x ∈ l /\
      forall i, 0 <= i < 16 -> Z.testbit v i = forced_bit c x i).
Proof.
  intros Hd Hadm Hsp. rewrite !elem_of_cons, elem_of_nil in Hsp.
  eapply does_conf_set; [done|]. intros l1 l2 l3 H1 H2 H3.
  split; [done|]. rewrite !(wrote_conf dev d (conf_mdi_mode c) l1 l2 l3) by (done || in_tac).
  unfold conf_main in H2. rewrite Hadm in H2. destruct H2 as (lf & Hlf & H2).
  assert (aneg_speed c = false) as Ha.
  { unfold aneg_speed. destruct (Z.eqb_spec (conf_speed c) MEPA_SPEED_AUTO); [tauto|].
    destruct (Z.eqb_spec (conf_speed c) MEPA_SPEED_1G); [tauto|done]. }
  rewrite Ha, (proj2 (Z.eqb_neq _ _)) in H2 by tauto. destruct H2 as (x & lh & Hlh & ->).
  rewrite !wrote_app, (wrote_only _ r_adv _ _ Hlf), (wrote_only _ r_1g _ _ Hlf),
    (wrote_only _ bmcr _ _ Hlf), (wrote_only _ r_adv _ _ Hlh), (wrote_only _ r_1g _ _ Hlh),
    (wrote_only _ bmcr _ _ Hlh) by not_in.
  cbn. rewrite Z.eqb_refl. cbn. split_and!; [done..|].
  exists x, (rmw x (forced c) forced_mask). split_and!; [done| |by intros; apply testbit_forced].
  rewrite !elem_of_app, elem_of_cons. tauto.
Qed.

(** Disabling a port sets power-down in the basic control register and
    changes no other bit of it; registers 4 and 9, the MDI control and the
    QSGMII block are not written. *)
Theorem conf_set_disabled_spec dev d t c :
  t !! dev = Some d -> tb (conf_admin_enable c) = false ->
  does (B := B) (lan8814_conf_set dev c) t (fun rc t' l =>
    rc = MEPA_RC_OK /\
    (forall r, r ∈ [r_adv; r_1g; Direct LAN8814_GPHY_DBG_CTL1;
                    ep LAN8814_QSGMII_PCS1G_ANEG_CONFIG] -> wrote dev r l = []) /\
    exists x v, wrote dev bmcr l = [v] /\ ARd dev bmcr x ∈ l /\
      forall i, 0 <= i < 16 -> Z.testbit v i = (i =? 11) || Z.testbit x i).
Proof.
  intros Hd Hadm. unfold lan8814_conf_set, lan8814_conf_set_. rewrite Hadm.
  does_step. does_step. does_step. does_step. does_step. eapply does_conf_set_finish; [done|].
  intros l3 Hl3. does_auto. rewrite app_nil_r. split; [done|]. split.
  - intros r Hr. rewrite !elem_of_cons, elem_of_nil in Hr. rewrite !wrote_app.
    assert (wrote dev r l3 = []) as ->.
    { eapply wrote_only; [exact Hl3|].
      destruct Hr as [-> | [-> | [-> | [-> | []]]]]; not_in. }
    destruct Hr as [-> | [-> | [-> | [-> | []]]]]; cbn; by rewrite ?Z.eqb_refl.
  - exists x, (rmw x 2048 2048). split_and!.
    + rewrite !wrote_app, (wrote_only dev bmcr _ l3 Hl3) by not_in. cbn. by rewrite Z.eqb_refl.
    + apply list_elem_of_here.
    + intros i Hi. rewrite testbit_last by done. bit_cases i; try reflexivity;
        by destruct (Z.testbit x _).
Qed.

(** A configuration that was set is the one that is read back, but for
    [mac_if_aneg_ena], which is FALSE unless the speed is AUTO; setting it
    disturbs no other private data. *)
Theorem conf_set_get dev d t c :
  t !! dev = Some d ->
  does (B := B) (lan8814_conf_set dev c ;;; lan8814_conf_get dev) t (fun r t' _ =>
    r = (MEPA_RC_OK, set_conf_mac_if_aneg_ena
           (if conf_speed c =? MEPA_SPEED_AUTO then conf_mac_if_aneg_ena c else FALSE) c) /\
    exists d', t' = <[dev := d']> t /\ set_pd_conf (pd_conf d) d' = d).
Proof.
  intros Hd. does_step. eapply does_conf_set; [done|]. intros l1 l2 l3 _ _ _.
  unfold lan8814_conf_get. does_auto. split; [done|].
  exists (conf_after c d). split; [done|]. by destruct d.
Qed.
End Claims.

(** The claims at a concrete PHY. *)
Definition conf_auto : mepa_conf_t :=
  set_conf_admin_enable TRUE (set_conf_speed MEPA_SPEED_AUTO mepa_conf_t_0).
Definition conf_100m : mepa_conf_t :=
  set_conf_admin_enable TRUE (set_conf_speed MEPA_SPEED_100M mepa_conf_t_0).
Definition quad_data (i : Z) (d : phy_data_t) : phy_data_t :=
  set_pd_packet_idx i (set_pd_base_dev (Some 100) d).

Lemma conf_set_aneg_spec_witness :
  does (B := sim) (lan8814_conf_set 101 conf_auto) (quad_table phy_data_t_0)
    (fun rc _ l => rc = MEPA_RC_OK /\ exists v4, In (AWr 101 r_adv v4) (seen 101 [r_1g; r_adv; bmcr] l) /\ Z.testbit v4 0 = true).
Proof.
  eapply does_mono.
  - apply (conf_set_aneg_spec 101 (quad_data 1 phy_data_t_0)); reflexivity.
  - intros rc t' l (Hrc & _ & x9 & v9 & x4 & y4 & v4 & x0 & v0 & r & H4 & _ & Hb & _). split; [exact Hrc|].
    exists v4. rewrite H4. split; [do 4 right; by left|]. rewrite Hb; [reflexivity|lia].
Defined.

Lemma conf_set_forced_spec_witness :
  does (B := sim) (lan8814_conf_set 101 conf_100m) (quad_table phy_data_t_0)
    (fun rc _ l => exists v, wrote 101 bmcr l = [v] /\ Z.testbit v 13 = true).
Proof.
  eapply does_mono.
  - apply (conf_set_forced_spec 101 (quad_data 1 phy_data_t_0)); [reflexivity..|not_in].
  - intros rc t' l (_ & _ & _ & x & v & Hv & _ & Hb). exists v. split; [exact Hv|].
    rewrite Hb; [reflexivity|lia].
Defined.

Lemma conf_set_disabled_spec_witness :
  does (B := sim) (lan8814_conf_set 101 mepa_conf_t_0) (quad_table phy_data_t_0)
    (fun rc _ l => exists v, wrote 101 bmcr l = [v] /\ Z.testbit v 11 = true).
Proof.
  eapply does_mono.
  - apply (conf_set_disabled_spec 101 (quad_data 1 phy_data_t_0)); reflexivity.
  - intros rc t' l (_ & _ & x & v & Hv & _ & Hb). exists v. split; [exact Hv|].
    rewrite Hb; [reflexivity|lia].
Defined.

Lemma conf_set_get_witness :
  does (B := sim) (lan8814_conf_set 101 conf_100m ;;; lan8814_conf_get 101)
    (quad_table phy_data_t_0) (fun r _ _ => r = (MEPA_RC_OK, conf_100m)).
Proof.
  eapply does_mono.
  - apply (conf_set_get 101 (quad_data 1 phy_data_t_0) _ conf_100m). reflexivity.
  - intros r t' l [Hr _]. exact Hr.
Defined.
