(* ===== verification/Lan8814ModeSpec.v ===== *)
(** * Lan8814ModeSpec: events, EEE and reset of a LAN8814 port

    Which registers and private data [lan8814_event_enable_set],
    [lan8814_event_status_poll], [lan8814_eee_mode_conf_set] and
    [lan8814_reset] leave behind. *)

From Stdlib Require Import ZArith Lia List Bool String.
From stdpp Require Import base gmap strings list.
From S2P Require Import Prelude Machine Enums Lan8814Regs Lan8814Types Trace Mdio Lan8814Access SimPhy AccessLemmas Lan8814Conf Lan8814Driver Lan8814ConfSpec.

(** ** Events *)

(** The interrupts of a set of events: bit 0 (link loss) is the link-down
    interrupt, bit 1 (fast link failure) the interrupt of the same name. *)
Definition bit_mask (i : Z) : Z :=
  if i =? 0 then LAN8814_F_GPHY_INTR_ENA_LINK_DOWN
  else if i =? 1 then LAN8814_F_GPHY_INTR_ENA_FLF_INTR else 0.
Fixpoint bits_mask (ev : Z) (bits : list Z) : Z :=
  match bits with
  | [] => 0
  | i :: bits => (if Z.testbit ev i then bit_mask i else 0) .| bits_mask ev bits
  end.
Definition event_mask (ev : Z) : Z :=
  (if Z.testbit ev 0 then LAN8814_F_GPHY_INTR_ENA_LINK_DOWN else 0) .|
  (if Z.testbit ev 1 then LAN8814_F_GPHY_INTR_ENA_FLF_INTR else 0).

Definition r_intr_ena : reg := Direct LAN8814_GPHY_INTR_ENA.
Definition r_intr_status : reg := Direct LAN8814_GPHY_INTR_STATUS.
Definition r_flf : reg := ep LAN8814_FLF_CONFIG_STATUS.

Lemma bits_mask_0 bits : bits_mask 0 bits = 0.
Proof. induction bits as [|i bits IH]; [done|]. cbn. by rewrite Z.testbit_0_l, IH. Qed.

Lemma bits_mask_ext ev ev' bits :
  (forall i, In i bits -> Z.testbit ev i = Z.testbit ev' i) -> bits_mask ev bits = bits_mask ev' bits.
Proof.
  induction bits as [|i bits IH]; intros H; [done|]. cbn.
  rewrite (H i) by (by left). rewrite IH; [done|]. intros j Hj. apply H. by right.
Qed.

Lemma bits_mask_none ev bits : ~ In 0 bits -> ~ In 1 bits -> bits_mask ev bits = 0.
Proof.
  induction bits as [|i bits IH]; intros H0 H1; [done|]. cbn in *. rewrite IH by tauto.
  unfold bit_mask. rewrite !(proj2 (Z.eqb_neq _ _)) by (intros ->; tauto).
  by destruct (Z.testbit ev i).
Qed.

Lemma bits_mask_32 ev : bits_mask ev (map Z.of_nat (seq 0 32)) = event_mask ev.
Proof.
  change (map Z.of_nat (seq 0 32)) with (0 :: 1 :: map Z.of_nat (seq 2 30)).
  cbn [bits_mask]. rewrite (bits_mask_none ev (map Z.of_nat (seq 2 30))).
  - unfold event_mask. cbn. by rewrite Z.lor_0_r.
  - rewrite in_map_iff. intros (x & Hx & Hin). apply in_seq in Hin. lia.
  - rewrite in_map_iff. intros (x & Hx & Hin). apply in_seq in Hin. lia.
Qed.

(** One bit of a word, as the loop isolates it. *)
Lemma bit_isolated ev i k : 0 <= i -> 0 <= k ->
  (ev .& (1 .<< i) =? 1 .<< k) = Z.testbit ev i && (i =? k).
Proof.
  intros Hi Hk. assert (ev .& (1 .<< i) = if Z.testbit ev i then 1 .<< i else 0) as ->.
  { apply Z.bits_inj'. intros j Hj. rewrite Z.land_spec, !Z.shiftl_spec by done.
    destruct (Z.eqb_spec j i) as [->|Hne].
    - rewrite Z.sub_diag. destruct (Z.testbit ev i); [|by rewrite Z.bits_0].
      by rewrite Z.shiftl_spec, Z.sub_diag.
    - assert (Z.testbit 1 (j - i) = false) as E.
      { destruct (Z.ltb_spec j i); [by rewrite Z.testbit_neg_r by lia|].
        apply (testbit_small 1 1); lia. }
      rewrite E, andb_false_r. destruct (Z.testbit ev i); [|by rewrite Z.bits_0].
      by rewrite Z.shiftl_spec, E. }
  rewrite !Z.shiftl_1_l. destruct (Z.testbit ev i); cbn [andb].
  - destruct (Z.eqb_spec i k) as [->|Hne]; [apply Z.eqb_refl|].
    apply Z.eqb_neq. intros H. apply Hne. by apply (Z.pow_inj_r 2) in H; try lia.
  - apply Z.eqb_neq. pose proof (Z.pow_pos_nonneg 2 k). lia.
Qed.

Lemma bits_mask_clear ev k bits :
  0 <= k -> (forall j, In j bits -> 0 <= j) -> ~ In k bits ->
  bits_mask (ev .& .~ (1 .<< k)) bits = bits_mask ev bits.
Proof.
  intros Hk Hp Hn. apply bits_mask_ext. intros j Hj.
  assert (0 <= j) by auto. assert (j <> k) by congruence.
  rewrite Z.land_spec, Z.lnot_spec, Z.shiftl_spec by lia.
  assert (Z.testbit 1 (j - k) = false) as ->.
  { destruct (Z.ltb_spec j k); [by rewrite Z.testbit_neg_r by lia|].
    apply (testbit_small 1 1); lia. }
  by rewrite andb_true_r.
Qed.

Lemma existsb_1 bits : ~ In 1 bits -> existsb (Z.eqb 1) bits = false.
Proof.
  intros H. apply not_true_is_false. intros (x & Hx & <-%Z.eqb_eq)%existsb_exists. done.
Qed.

(** Clearing the bit just handled changes nothing for the bits to come. *)
Lemma clear_known ev k bits :
  0 <= k -> (forall j, In j bits -> 0 <= j) -> ~ In k bits -> k <> 1 \/ ~ In 1 bits ->
  bits_mask (ev .& .~ (1 .<< k)) bits = bits_mask ev bits /\
  Z.testbit (ev .& .~ (1 .<< k)) 1 && existsb (Z.eqb 1) bits =
  Z.testbit ev 1 && existsb (Z.eqb 1) bits.
Proof.
  intros Hk Hp Hn H1. split; [by apply bits_mask_clear|].
  destruct H1 as [H1|H1]; [|by rewrite (existsb_1 _ H1), !andb_false_r].
  f_equal. rewrite Z.land_spec, Z.lnot_spec, Z.shiftl_spec by lia.
  replace (Z.testbit 1 (1 - k)) with false; [by rewrite andb_true_r|].
  destruct (Z.ltb_spec k 1); [replace k with 0 by lia; done|by rewrite Z.testbit_neg_r by lia].
Qed.

Section Events.
Context {B : Type} {CO : Callout B} {OK : BusOk CO}.
Implicit Types (dev : Z) (d : phy_data_t) (t : gmap Z phy_data_t).
Local Abbreviation does := (does (B := B)).

(** The fast-link-failure block is written when that event is in the word. *)
Definition flf_accs dev (en : Z) (b : bool) (l : list access) : Prop :=
  if b then exists y, l = [ARd dev r_flf y; AWr dev r_flf (rmw y (if tb en then 3 else 0) 3)]
  else l = [].

(** What the loop finds in the bits it still has to look at. *)
Lemma does_event_loop dev t en bits ev m (Q : Z -> gmap Z phy_data_t -> list access -> Prop) :
  NoDup bits -> (forall i, In i bits -> 0 <= i) ->
  (forall l, flf_accs dev en (Z.testbit ev 1 && existsb (Z.eqb 1) bits) l ->
     Q (m .| bits_mask ev bits) t l) ->
  does (event_enable_loop dev en bits ev m) t Q.
Proof.
  revert ev m Q. induction bits as [|i bits IH]; intros ev m Q Hnd Hp HQ;
    cbn [event_enable_loop bits_mask] in *.
  { does_step. rewrite Z.lor_0_r in HQ. apply HQ. by rewrite andb_false_r. }
  apply NoDup_cons in Hnd as [Hi Hnd]. rewrite list_elem_of_In in Hi.
  assert (0 <= i) as Hi0 by (apply Hp; by left).
  assert (forall j, In j bits -> 0 <= j) as Hp' by (intros; apply Hp; by right).
  change MEPA_LINK_LOS with (1 .<< 0). change MEPA_FAST_LINK_FAIL with (1 .<< 1).
  rewrite !bit_isolated by lia.
  (* the turn, for the word and the mask it leaves *)
  assert (forall ev' m' l0,
    bits_mask ev' bits = bits_mask ev bits -> Z.testbit ev' 1 && existsb (Z.eqb 1) bits =
      Z.testbit ev 1 && existsb (Z.eqb 1) bits ->
    (forall l, flf_accs dev en (Z.testbit ev 1 && existsb (Z.eqb 1) bits) l ->
       Q (m' .| bits_mask ev bits) t (l0 ++ l)) ->
    does (if ev' =? 0 then ret m' else event_enable_loop dev en bits ev' m') t
      (fun r t' l => Q r t' (l0 ++ l))) as Hturn.
  { intros ev' m' l0 Hb H1 HQ'. destruct (Z.eqb_spec ev' 0) as [->|Hne].
    - does_step. rewrite bits_mask_0 in Hb. rewrite Z.bits_0, andb_false_l in H1.
      rewrite <- H1, <- Hb in HQ'. rewrite Z.lor_0_r in HQ'. by apply HQ'.
    - apply IH; [done..|]. intros l. rewrite H1, Hb. apply HQ'. }
  assert (Hin : forall b, i <> 1 -> b && existsb (Z.eqb 1) (i :: bits) = b && existsb (Z.eqb 1) bits).
  { intros b Hne. cbn [existsb]. by rewrite (proj2 (Z.eqb_neq 1 i)) by congruence. }
  destruct (Z.testbit ev i && (i =? 0)) eqn:E0; [|destruct (Z.testbit ev i && (i =? 1)) eqn:E1].
  - apply andb_true_iff in E0 as [Ei ->%Z.eqb_eq]. rewrite Ei in HQ. cbv iota in HQ.
    does_step. does_step. destruct (clear_known ev 0 bits) as [? ?]; [lia|done|done|by left|].
    apply (Hturn _ _ []); [done..|]. intros l Hl. rewrite <- Z.lor_assoc. apply HQ.
    by rewrite Hin.
  - apply andb_true_iff in E1 as [Ei ->%Z.eqb_eq]. rewrite Ei in HQ. cbv iota in HQ.
    do 3 does_step. does_step. destruct (clear_known ev 1 bits) as [? ?]; [lia|done|done|by right|].
    apply (Hturn _ _ [_; _]); [done..|]. intros l Hl. rewrite <- Z.lor_assoc. apply HQ.
    rewrite (existsb_1 _ Hi), andb_false_r in Hl. cbn in Hl. subst l.
    cbn. by eexists.
  - assert ((if Z.testbit ev i then bit_mask i else 0) = 0) as Hz.
    { unfold bit_mask. destruct (Z.testbit ev i); [|done]. cbn in E0, E1. by rewrite E0, E1. }
    rewrite Hz, Z.lor_0_l in HQ. does_step. does_step.
    apply (Hturn _ _ []); [done..|]. intros l Hl. apply HQ.
    destruct (Z.eqb_spec i 1) as [->|Hne]; [|by rewrite Hin].
    rewrite andb_true_r in E1. rewrite E1 in Hl |- *. done.
Qed.

(** The interrupt enables after enabling or disabling the events [ev]. *)
Definition intr_bit (ev en old i : Z) : bool :=
  if ((i =? 2) && Z.testbit ev 0) || ((i =? 12) && Z.testbit ev 1) then tb en
  else Z.testbit old i.

Lemma testbit_intr ev en old i : 0 <= i < 16 ->
  Z.testbit (rmw old (if tb en then event_mask ev else 0) (event_mask ev)) i = intr_bit ev en old i.
Proof.
  intros Hi. rewrite testbit_last by done. unfold event_mask, intr_bit.
  destruct (Z.testbit ev 0), (Z.testbit ev 1), (tb en); bit_cases i; reflexivity.
Qed.

(** C14. Enabling or disabling events adds them to, or removes them from, the
    stored set; the interrupt-enable register is written once, and only the
    interrupts of these events change, to what was asked; the
    fast-link-failure block is programmed exactly when that event is named. *)
Theorem event_enable_spec dev d t ev en :
  t !! dev = Some d ->
  does (lan8814_event_enable_set dev ev en) t (fun rc t' l =>
    rc = MEPA_RC_OK /\
    t' = <[dev := set_pd_events (if tb en then pd_events d .| ev else pd_events d .& .~ ev) d]> t /\
    exists lf x v, flf_accs dev en (Z.testbit ev 1) lf /\
      l = lf ++ [ARd dev r_intr_ena x; AWr dev r_intr_ena v] /\
      forall i, 0 <= i < 16 -> Z.testbit v i = intr_bit ev en x i).
Proof.
  intros Hd. unfold lan8814_event_enable_set, lan8814_event_enable_set_. repeat does_step.
  apply does_event_loop.
  { apply NoDup_fmap_2; [intros x y; lia|apply NoDup_seq]. }
  { intros i (n & <- & _)%in_map_iff. lia. }
  rewrite bits_mask_32, Z.lor_0_l. change (existsb _ _) with true. rewrite andb_true_r.
  intros l Hl. does_auto. cbn [app]. rewrite !app_nil_r. split_and!; [done..|].
  exists l, x, (rmw x (if tb en then event_mask ev else 0) (event_mask ev)).
  split_and!; [done..|]. intros i Hi. by apply testbit_intr.
Qed.

(** Polling the events reads the interrupt status once, and reports
    exactly the enabled events whose interrupt is latched in it. *)
Theorem event_poll_spec dev d t :
  t !! dev = Some d ->
  does (lan8814_event_status_poll dev) t (fun r t' l =>
    t' = t /\ exists x st, r = (MEPA_RC_OK, st) /\ l = [ARd dev r_intr_status x] /\
    forall i, 0 <= i -> Z.testbit st i =
      Z.testbit (pd_events d) i &&
      (((i =? 0) && Z.testbit x 2) || ((i =? 1) && Z.testbit x 12))).
Proof.
  intros Hd. unfold lan8814_event_status_poll. repeat does_step.
  apply does_direct_reg_rd; [done|]. intros v Hv. does_auto.
  split; [done|]. eexists v, _. split_and!; [done..|]. intros i Hi.
  assert (tb (v .& LAN8814_F_GPHY_INTR_ENA_LINK_DOWN) = Z.testbit v 2) as ->.
  { apply (tb_bit v 2). lia. }
  assert (tb (v .& LAN8814_F_GPHY_INTR_ENA_FLF_INTR) = Z.testbit v 12) as ->.
  { apply (tb_bit v 12). lia. }
  change MEPA_LINK_LOS with (2 ^ 0). change MEPA_FAST_LINK_FAIL with (2 ^ 1).
  destruct (Z.testbit v 2), (Z.testbit v 12);
    rewrite ?Z.lor_spec, ?Z.land_spec, ?Z.bits_0, ?Z.pow2_bits_eqb, ?andb_true_r, ?andb_false_r by lia;
    rewrite ?orb_false_l, ?orb_false_r, ?andb_orb_distrib_r, ?(Z.eqb_sym i); try done.
Qed.
End Events.

(** ** EEE *)
Definition r_eee_adv : reg := mmd LAN8814_EEE_ADVERTISEMENT.

Section Eee.
Context {B : Type} {CO : Callout B} {OK : BusOk CO}.
Implicit Types (dev : Z) (d : phy_data_t) (t : gmap Z phy_data_t).
Local Abbreviation does := (does (B := B)).

(** The EEE state after a request, and whether the PHY is told about it. *)
Definition eee_next (c old : mepa_phy_eee_conf_t) : mepa_phy_eee_conf_t * bool :=
  let on := tb (eee_eee_ena_phy c) in
  if eee_eee_mode c =? MEPA_EEE_REG_UPDATE
  then (Mk_mepa_phy_eee_conf_t (if on then MEPA_EEE_ENABLE else MEPA_EEE_DISABLE)
          (eee_eee_ena_phy c), true)
  else if (eee_eee_mode c =? MEPA_EEE_DISABLE) && on
  then (Mk_mepa_phy_eee_conf_t MEPA_EEE_DISABLE FALSE, true)
  else if (eee_eee_mode c =? MEPA_EEE_ENABLE) && negb on
  then (Mk_mepa_phy_eee_conf_t MEPA_EEE_ENABLE TRUE, true)
  else (Mk_mepa_phy_eee_conf_t (eee_eee_mode c) (eee_eee_ena_phy old), false).

(** The advertisement of 100BASE-TX and 1000BASE-T EEE, and the restart. *)
Definition eee_accs dev (p : mepa_phy_eee_conf_t * bool) (l : list access) : Prop :=
  if snd p
  then exists x y, l = [ARd dev r_eee_adv x;
                        AWr dev r_eee_adv (if tb (eee_eee_ena_phy (fst p)) then 6 else 0);
                        ARd dev bmcr y; AWr dev bmcr (rmw y 512 512)]
  else l = [].

Lemma does_eee_set_ dev d t c (Q : Z -> gmap Z phy_data_t -> list access -> Prop) :
  t !! dev = Some d ->
  (forall l, eee_accs dev (eee_next c (pd_eee_conf d)) l ->
     Q MEPA_RC_OK (<[dev := set_pd_eee_conf (fst (eee_next c (pd_eee_conf d))) d]> t) l) ->
  does (lan8814_eee_mode_conf_set_ dev c) t Q.
Proof.
  intros Hd HQ. unfold lan8814_eee_mode_conf_set_, eee_next in *. does_step.
  rewrite (andb_comm (tb _)), (andb_comm (negb _)).
  destruct (eee_eee_mode c =? MEPA_EEE_REG_UPDATE) eqn:E1;
    [|destruct ((eee_eee_mode c =? MEPA_EEE_DISABLE) && _) eqn:E2;
      [apply andb_true_iff in E2 as [->%Z.eqb_eq _]
      |destruct ((eee_eee_mode c =? MEPA_EEE_ENABLE) && _) eqn:E3;
        [apply andb_true_iff in E3 as [->%Z.eqb_eq _]|]]];
    cbn [fst snd negb] in HQ |- *; does_auto;
    cbn [pd_eee_conf eee_eee_ena_phy set_eee set_pd_eee_conf set_eee_eee_ena_phy set_eee_eee_mode];
    change (tb TRUE) with true; change (tb FALSE) with false; cbv iota.
  - destruct (tb (eee_eee_ena_phy c)) eqn:Eon; does_auto; apply HQ;
      cbn; rewrite Eon; by eexists _, _.
  - does_auto. apply HQ. by eexists _, _.
  - does_auto. apply HQ. by eexists _, _.
  - by apply HQ.
Qed.

(** When an EEE request reconfigures the PHY, the stored mode, the stored
    flag and the advertisement register agree, and auto-negotiation is
    restarted; a request that does not reconfigure touches no register. *)
Theorem eee_set_spec dev d t c :
  t !! dev = Some d ->
  does (lan8814_eee_mode_conf_set dev c) t (fun rc t' l =>
    rc = MEPA_RC_OK /\ exists e, t' = <[dev := set_pd_eee_conf e d]> t /\
    ((l = [] /\ eee_eee_mode e = eee_eee_mode c /\
      eee_eee_ena_phy e = eee_eee_ena_phy (pd_eee_conf d)) \/
     (exists v, wrote dev r_eee_adv l = [v] /\
        v = (if eee_eee_mode e =? MEPA_EEE_ENABLE then 6 else 0) /\
        tb (eee_eee_ena_phy e) = (eee_eee_mode e =? MEPA_EEE_ENABLE) /\
        exists w, wrote dev bmcr l = [w] /\ Z.testbit w 9 = true))).
Proof.
  intros Hd. unfold lan8814_eee_mode_conf_set. does_step. does_step. does_step.
  eapply does_eee_set_; [done|]. intros l Hl. does_auto. cbn [app]. rewrite !app_nil_r.
  split; [done|]. exists (fst (eee_next c (pd_eee_conf d))). split; [done|].
  unfold eee_accs, eee_next in *.
  destruct (eee_eee_mode c =? MEPA_EEE_REG_UPDATE) eqn:E1;
    [|destruct ((eee_eee_mode c =? MEPA_EEE_DISABLE) && _) eqn:E2;
      [|destruct ((eee_eee_mode c =? MEPA_EEE_ENABLE) && _) eqn:E3]]; cbn -[rmw Z.testbit] in Hl |- *.
  4: by left.
  all: right; destruct Hl as (x & y & ->); cbn -[rmw Z.testbit]; rewrite Z.eqb_refl; cbn -[rmw Z.testbit];
    eexists; (split; [done|]); rewrite ?andb_false_r; cbn -[rmw Z.testbit];
    try destruct (tb (eee_eee_ena_phy c)); (split; [done|]); (split; [done|]);
    eexists; (split; [done|]); by rewrite testbit_last by lia.
Qed.

(** A request for EEE whose [eee_ena_phy] is already set changes nothing
    but the stored mode, also when EEE is off: the function takes the caller's
    flag for the current state. *)
Theorem eee_enable_ignored dev d t :
  t !! dev = Some d -> eee_eee_ena_phy (pd_eee_conf d) = FALSE ->
  does (lan8814_eee_mode_conf_set dev (Mk_mepa_phy_eee_conf_t MEPA_EEE_ENABLE TRUE)) t
    (fun rc t' l => rc = MEPA_RC_OK /\ l = [] /\
       t' = <[dev := set_pd_eee_conf (Mk_mepa_phy_eee_conf_t MEPA_EEE_ENABLE FALSE) d]> t).
Proof.
  intros Hd Hoff. unfold lan8814_eee_mode_conf_set. does_step. does_step. does_step.
  eapply does_eee_set_; [done|]. intros l Hl. does_auto. cbn in Hl |- *. subst l.
  by rewrite Hoff.
Qed.
End Eee.

(** ** Reset *)

(** The private data the initialisation does not touch. *)
Definition kept (d d' : phy_data_t) : Prop :=
  pd_conf d' = pd_conf d /\ pd_events d' = pd_events d /\ pd_eee_conf d' = pd_eee_conf d /\
  pd_base_dev d' = pd_base_dev d.

Definition init_regs : list reg :=
  map ep [LAN8814_QSGMII_AUTO_ANEG; LAN8814_PTP_TSU_INT_EN; LAN8814_INTR_CTRL;
          LAN8814_ALIGN_SWAP; LAN8814_1000BT_FIX_LATENCY_ENABLE; LAN8814_CLOCK_MANAGEMENT_MODE_5;
          LAN8814_LINK_QUALITY_MONITOR_SETTING; LAN8814_OPERATION_MODE_STRAP_LOW;
          LAN8814_ANALOG_CONTROL_1; LAN8814_ANALOG_CONTROL_10; LAN8814_OPERATION_MODE_STRAP_HIGH;
          LAN8814_QSGMII_PCS1G_ANEG_CONFIG; LAN8814_SELFTEST_PGEN_EN] ++
  map Direct [LAN8814_DEVICE_ID_2; LAN8814_GPHY_INTR_ENA; LAN8814_GPHY_INTR_STATUS;
              LAN8814_RESV_CON_LOOP].

Ltac is_step :=
  lazymatch goal with
  | |- does (lan8814_is_lan8814 _) _ _ =>
      eapply does_is_lan8814; [first [eassumption | apply lookup_insert_eq]|]
  | |- does (lan8814_is_lan966x _) _ _ =>
      eapply does_is_lan966x; [first [eassumption | apply lookup_insert_eq]|]
  | |- does (if ?b then _ else _) _ _ => destruct b
  end.

Section Reset.
Context {B : Type} {CO : Callout B} {OK : BusOk CO}.
Implicit Types (dev : Z) (d : phy_data_t) (t : gmap Z phy_data_t).
Local Abbreviation does := (does (B := B)).

Lemma does_init_conf dev d t (Q : Z -> gmap Z phy_data_t -> list access -> Prop) :
  t !! dev = Some d ->
  (forall d' l, kept d d' -> only dev init_regs l -> Q MEPA_RC_OK (<[dev := d']> t) l) ->
  does (lan8814_init_conf dev) t Q.
Proof.
  intros Hd HQ. unfold lan8814_init_conf, lan8814_get_device_info.
  repeat (first [does_step | is_step]; cbv beta zeta iota; cbn [fst snd]);
    apply HQ; try (by split_and!); unfold init_regs; only_tac.
Qed.

Lemma does_rev_workaround dev d t (Q : Z -> gmap Z phy_data_t -> list access -> Prop) :
  t !! dev = Some d ->
  (forall l, only dev init_regs l -> Q MEPA_RC_OK t l) ->
  does (lan8814_rev_workaround dev) t Q.
Proof.
  intros Hd HQ. unfold lan8814_rev_workaround.
  repeat (first [does_step | is_step]; cbv beta zeta iota; cbn [fst snd]);
    apply HQ; unfold init_regs; only_tac.
Qed.

Lemma does_selftest_stop dev t (Q : Z -> gmap Z phy_data_t -> list access -> Prop) :
  (forall l, only dev init_regs l -> Q MEPA_RC_OK t l) ->
  does (lan8814_selftest_stop dev) t Q.
Proof.
  intros HQ. unfold lan8814_selftest_stop.
  repeat (first [does_step | is_step]; cbv beta zeta iota; cbn [fst snd]);
    apply HQ; unfold init_regs; only_tac.
Qed.

Lemma does_ep_wr_list dev (ws : list (ereg * Z)) t (Q : unit -> gmap Z phy_data_t -> list access -> Prop) :
  forallb ep_ok (map fst ws) = true ->
  (forall l, only dev (map ep (map fst ws)) l -> Q tt t l) ->
  does (ep_wr_list dev ws) t Q.
Proof.
  unfold ep_wr_list. revert Q. induction ws as [|[p v] ws IH]; intros Q Hok HQ; cbn [seq_].
  { does_step. apply HQ, only_nil. }
  cbn in Hok. apply andb_true_iff in Hok as [Hp Hok].
  does_step. apply does_EP_WR; [done|]. intros x _. apply IH; [done|]. intros l Hl.
  apply HQ. apply only_cons; [done|by left|]. apply only_cons; [done|by left|].
  eapply only_mono; [exact Hl|]. intros r. by right.
Qed.

(** Base ports exist. *)
Definition based d t : Prop := forall b, pd_base_dev d = Some b -> is_Some (t !! b).

(** Frame preemption is stored at the base port, by the base port. *)
Lemma does_framepreempt_set_ dev d t en (Q : Z -> gmap Z phy_data_t -> list access -> Prop) :
  t !! dev = Some d -> based d t ->
  (forall l, only dev [ep LAN8814_PTP_TSU_GEN_CONF] l ->
     Q MEPA_RC_OK (if bool_decide (pd_base_dev d = Some dev)
                   then <[dev := set_pd_framepreempt_en en d]> t else t) l) ->
  does (lan8814_framepreempt_set_ dev en) t Q.
Proof.
  intros Hd Hb HQ. unfold lan8814_framepreempt_set_. do 2 does_step.
  destruct (pd_base_dev d) as [b|] eqn:Eb.
  - destruct (Z.eqb_spec b dev) as [->|Hne].
    + rewrite bool_decide_true in HQ by done. does_auto. apply HQ. only_tac.
    + rewrite bool_decide_false in HQ by congruence. destruct (Hb b Eb) as [db Hdb].
      repeat (first [does_step | eapply does_data_of; [exact Hdb|]]; cbv beta zeta iota).
      apply HQ. only_tac.
  - does_auto. rewrite bool_decide_false in HQ by done. apply HQ, only_nil.
Qed.

Definition after_reset_regs : list reg :=
  map ep ([LAN8814_AFED_CONTROL; LAN8814_ANALOG_CONTROL_4; LAN8814_EEE_WAKE_TX_TIMER;
    LAN8814_ALIGN_SWAP; LAN8814_ANALOG_CONTROL_1; LAN8814_ANALOG_CONTROL_10;
    LAN8814_PD_CONTROLS; LAN8814_DFE_INIT2_100] ++
   [LAN8814_PGA_TABLE_1G_ENTRY_0; LAN8814_PGA_TABLE_1G_ENTRY_1; LAN8814_PGA_TABLE_1G_ENTRY_2;
    LAN8814_PGA_TABLE_1G_ENTRY_3; LAN8814_PGA_TABLE_1G_ENTRY_4; LAN8814_PGA_TABLE_1G_ENTRY_5;
    LAN8814_PGA_TABLE_1G_ENTRY_6; LAN8814_PGA_TABLE_1G_ENTRY_7; LAN8814_PGA_TABLE_1G_ENTRY_8;
    LAN8814_PGA_TABLE_1G_ENTRY_9; LAN8814_PGA_TABLE_1G_ENTRY_10; LAN8814_PGA_TABLE_1G_ENTRY_11;
    LAN8814_PGA_TABLE_1G_ENTRY_12; LAN8814_PGA_TABLE_1G_ENTRY_13; LAN8814_PGA_TABLE_1G_ENTRY_14;
    LAN8814_PGA_TABLE_1G_ENTRY_15; LAN8814_PGA_TABLE_1G_ENTRY_16; LAN8814_PGA_TABLE_1G_ENTRY_17] ++
   [LAN8814_POWER_MGMT_MODE_3; LAN8814_POWER_MGMT_MODE_4; LAN8814_POWER_MGMT_MODE_5;
    LAN8814_POWER_MGMT_MODE_6; LAN8814_POWER_MGMT_MODE_7; LAN8814_POWER_MGMT_MODE_8;
    LAN8814_POWER_MGMT_MODE_9; LAN8814_POWER_MGMT_MODE_10; LAN8814_POWER_MGMT_MODE_11;
    LAN8814_POWER_MGMT_MODE_12; LAN8814_POWER_MGMT_MODE_13; LAN8814_POWER_MGMT_MODE_14]).

Lemma does_workaround_after_reset dev t (Q : Z -> gmap Z phy_data_t -> list access -> Prop) :
  (forall lw x y, only dev after_reset_regs lw ->
     Q MEPA_RC_OK t (lw ++ [ARd dev bmcr x; AWr dev bmcr 0x1340;
                            ARd dev r_adv y; AWr dev r_adv 0x05e1])) ->
  does (lan8814_workaround_after_reset dev) t Q.
Proof.
  intros HQ. unfold lan8814_workaround_after_reset. does_step.
  apply does_ep_wr_list; [reflexivity|]. intros l Hl. does_auto. by apply HQ.
Qed.

Lemma does_reset_init dev d t (Q : unit -> gmap Z phy_data_t -> list access -> Prop) :
  t !! dev = Some d ->
  (forall d' l, kept d d' -> tb (pd_init_done d') = true -> only dev init_regs l ->
     Q tt (<[dev := d']> t) l) ->
  does (reset_init dev) t Q.
Proof.
  intros Hd HQ. unfold reset_init. does_step. does_step.
  destruct (tb (pd_init_done d)) eqn:Ei; cbn [negb].
  { does_step. rewrite <- (insert_id t dev d) by done. apply HQ; [done|done|apply only_nil]. }
  does_step. eapply does_init_conf; [done|]. intros d1 l1 Hk H1.
  does_step. eapply does_rev_workaround; [apply lookup_insert_eq|]. intros l2 H2.
  does_step. eapply does_qsgmii_aneg; [apply lookup_insert_eq|]. intros l3 H3.
  assert (only dev init_regs (l1 ++ l2 ++ l3)) as H123.
  { apply only_app; [done|]. apply only_app; [done|].
    eapply only_mono; [exact H3|]. unfold init_regs. sub_tac. }
  repeat (first [does_step | is_step]; cbv beta zeta iota);
    rewrite ?app_nil_r; apply HQ; try reflexivity; try done.
Qed.

Definition events_regs : list reg := [r_flf; r_intr_ena].

Lemma does_event_set_ dev d t (Q : unit -> gmap Z phy_data_t -> list access -> Prop) :
  t !! dev = Some d ->
  (forall l, only dev events_regs l -> Q tt t l) ->
  does (if tb (pd_events d) then lan8814_event_enable_set_ dev (pd_events d) TRUE ;;; ret tt
        else ret tt) t Q.
Proof.
  intros Hd HQ. destruct (tb (pd_events d)); [|does_step; apply HQ, only_nil].
  does_step. eapply does_event_enable_set_; [done|]. intros l Hl. does_step.
  change (tb TRUE) with true. cbv iota. rewrite Z.lor_diag.
  assert (set_pd_events (pd_events d) d = d) as -> by by destruct d.
  rewrite (insert_id t dev d) by done. apply HQ. unfold events_regs. only_tac.
Qed.

(** The end of a reset, on a LAN8814: the QSGMII reset and one more restart. *)
Definition requick dev (l : list access) : Prop :=
  l = [] \/ exists x y, l = [ARd dev (ep LAN8814_QSGMII_SOFT_RESET) x;
    AWr dev (ep LAN8814_QSGMII_SOFT_RESET) 1; ARd dev bmcr y; AWr dev bmcr (rmw y 512 512)].

Lemma does_reset_reconfigure dev d t (Q : unit -> gmap Z phy_data_t -> list access -> Prop) :
  t !! dev = Some d ->
  (forall d' l1 l2 l3 le lv lq,
     only dev (conf_before_regs []) l1 -> conf_main dev (pd_conf d) (pd_conf d) l2 ->
     only dev conf_after_regs l3 ->
     eee_accs dev (eee_next (set_eee_eee_mode MEPA_EEE_REG_UPDATE (pd_eee_conf d)) (pd_eee_conf d)) le ->
     only dev events_regs lv -> requick dev lq ->
     pd_conf d' = pd_conf (conf_after (pd_conf d) d) -> pd_base_dev d' = pd_base_dev d ->
     tb (pd_init_done d') = tb (pd_init_done d) ->
     Q tt (<[dev := d']> t) (l1 ++ l2 ++ l3 ++ le ++ lv ++ lq)) ->
  does (reset_reconfigure dev) t Q.
Proof.
  intros Hd HQ. unfold reset_reconfigure. do 3 does_step.
  eapply does_conf_set_; [done|]. unfold mdi_regs. rewrite Z.eqb_refl.
  intros l1 l2 l3 H1 H2 H3. does_auto.
  eapply does_eee_set_; [apply lookup_insert_eq|]. intros le He. does_auto.
  eapply does_event_set_; [apply lookup_insert_eq|]. intros lv Hv. does_step. is_step. is_step;
    does_auto; rewrite !app_nil_r, ?insert_insert_eq.
  - specialize (HQ (set_pd_post_mac_rst TRUE (set_pd_eee_conf
      (fst (eee_next (set_eee_eee_mode MEPA_EEE_REG_UPDATE (pd_eee_conf d)) (pd_eee_conf d)))
      (conf_after (pd_conf d) d))) l1 l2 l3 le lv).
    rewrite <- !app_assoc in *. cbn [app]. apply HQ; try done. right. by eexists _, _.
  - rewrite <- !app_assoc. cbn [app]. rewrite <- (app_nil_r lv).
    apply HQ; try done. by left.
Qed.

Definition r_mdi : reg := Direct LAN8814_GPHY_DBG_CTL1.

(** The accesses of a reset, phase by phase. *)
Definition reset_accs dev d (l : list access) : Prop :=
  exists la x lw y z l1 l2 l3 le lv lq lp,
    l = la ++ [ARd dev bmcr x; AWr dev bmcr (rmw x 32768 32768)] ++
        lw ++ [ARd dev bmcr y; AWr dev bmcr 0x1340; ARd dev r_adv z; AWr dev r_adv 0x05e1] ++
        l1 ++ l2 ++ l3 ++ le ++ lv ++ lq ++ lp /\
    only dev init_regs la /\ only dev after_reset_regs lw /\ only dev (conf_before_regs []) l1 /\
    conf_main dev (pd_conf d) (pd_conf d) l2 /\ only dev conf_after_regs l3 /\
    eee_accs dev (eee_next (set_eee_eee_mode MEPA_EEE_REG_UPDATE (pd_eee_conf d)) (pd_eee_conf d)) le /\
    only dev events_regs lv /\ requick dev lq /\ only dev [ep LAN8814_PTP_TSU_GEN_CONF] lp.

Lemma does_reset_default dev d t rst (Q : Z -> gmap Z phy_data_t -> list access -> Prop) :
  t !! dev = Some d -> based d t -> rst_reset_point rst = MEPA_RESET_POINT_DEFAULT ->
  (forall d' l, reset_accs dev d l -> pd_conf d' = pd_conf (conf_after (pd_conf d) d) ->
     tb (pd_init_done d') = true ->
     (pd_base_dev d = Some dev -> pd_framepreempt_en d' = rst_framepreempt_en rst) ->
     Q MEPA_RC_OK (<[dev := d']> t) l) ->
  does (lan8814_reset_ dev rst) t Q.
Proof.
  intros Hd Hb Hr HQ. unfold lan8814_reset_. rewrite Hr, Z.eqb_refl.
  repeat does_step. eapply does_reset_init; [done|]. intros d1 la (Hc & _ & Hee & Hbd) Hi1 Ha.
  does_step. apply does_selftest_stop. intros ls Hs. do 4 does_step.
  does_step. apply does_workaround_after_reset. intros lw y z Hw.
  eapply does_reset_reconfigure; [apply lookup_insert_eq|].
  intros d2 l1 l2 l3 le lv lq H1 H2 H3 He Hv Hq Hc2 Hb2 Hi2. rewrite insert_insert_eq.
  does_step. eapply does_framepreempt_set_.
  { apply lookup_insert_eq. }
  { intros b Eb. rewrite Hb2, Hbd in Eb. destruct (decide (b = dev)) as [->|Hne].
    - rewrite lookup_insert_eq. by eexists.
    - rewrite lookup_insert_ne by done. by apply Hb. }
  intros lp Hp. does_auto.
  match goal with |- Q _ (if ?b then _ else _) ?l =>
    assert (exists d', (if b then <[dev := set_pd_framepreempt_en (rst_framepreempt_en rst) d2]>
        (<[dev := d2]> t) else <[dev := d2]> t) = <[dev := d']> t /\
      pd_conf d' = pd_conf d2 /\ pd_init_done d' = pd_init_done d2 /\
      (pd_base_dev d = Some dev -> pd_framepreempt_en d' = rst_framepreempt_en rst))
      as (d' & -> & Hc' & Hi' & Hf')
  end.
  { rewrite Hb2, Hbd. destruct (bool_decide _) eqn:Ebd.
    - rewrite insert_insert_eq. by eexists.
    - exists d2. split_and!; try done. intros HH. by rewrite (bool_decide_true _ HH) in Ebd. }
  apply HQ.
  - exists (la ++ ls), x, lw, y, z, l1, l2, l3, le, lv, lq, lp.
    rewrite Hc in H2. rewrite Hee in He. split_and!; try done.
    + do 3 (cbn [app]; rewrite ?app_nil_r, <- ?app_assoc). reflexivity.
    + by apply only_app.
  - rewrite Hc', Hc2. unfold conf_after. cbn. by rewrite Hc.
  - congruence.
  - done.
Qed.


Lemma does_reset_spec dev d t rst (Q : Z -> gmap Z phy_data_t -> list access -> Prop) :
  t !! dev = Some d -> based d t -> rst_reset_point rst = MEPA_RESET_POINT_DEFAULT ->
  (forall d' l, reset_accs dev d l -> pd_conf d' = pd_conf (conf_after (pd_conf d) d) ->
     tb (pd_init_done d') = true -> Q MEPA_RC_OK (<[dev := d']> t) l) ->
  does (lan8814_reset dev rst) t Q.
Proof.
  intros Hd Hb Hr HQ. unfold lan8814_reset. do 3 does_step.
  eapply does_reset_default; [done..|]. intros d' l Hl Hc Hi _. does_auto.
  cbn [app]. rewrite app_nil_r. by apply HQ.
Qed.


(** A reset never writes the MDI control register: the configuration is
    compared with itself, so a forced MDI or MDI-X mode is not programmed
    again after the soft reset. *)
Theorem reset_leaves_mdi dev d t rst :
  t !! dev = Some d -> based d t -> rst_reset_point rst = MEPA_RESET_POINT_DEFAULT ->
  does (lan8814_reset dev rst) t (fun rc t' l =>
    rc = MEPA_RC_OK /\ (exists v vs, wrote dev bmcr l = v :: vs /\ Z.testbit v 15 = true) /\
    wrote dev r_mdi l = []).
Proof.
  intros Hd Hb Hr. eapply does_reset_spec; [done..|].
  intros d' l (la & x & lw & y & z & l1 & l2 & l3 & le & lv & lq & lp & -> & Ha & Hw & H1 & H2 &
               H3 & He & Hv & Hq & Hp) _ _.
  apply conf_main_only in H2. destruct He as (xe & ye & ->). split_and!; [done| |].
  - exists (rmw x 32768 32768). eexists. split; [|by rewrite testbit_last].
    rewrite wrote_app, (wrote_only dev bmcr _ la Ha) by not_in.
    cbn [app wrote omap list_omap writes]. by rewrite Z.eqb_refl.
  - rewrite !wrote_app.
    rewrite (wrote_only dev r_mdi _ la Ha), (wrote_only dev r_mdi _ lw Hw),
      (wrote_only dev r_mdi _ l1 H1), (wrote_only dev r_mdi _ l2 H2), (wrote_only dev r_mdi _ l3 H3),
      (wrote_only dev r_mdi _ lv Hv), (wrote_only dev r_mdi _ lp Hp) by not_in.
    destruct Hq as [-> | (xq & yq & ->)]; cbn -[rmw]; by rewrite !Z.eqb_refl.
Qed.
End Reset.

(** The claims at a concrete PHY. *)
Lemma event_enable_spec_witness :
  does (B := sim) (lan8814_event_enable_set 101 MEPA_LINK_LOS TRUE) (quad_table phy_data_t_0)
    (fun rc t' l => exists v, In (AWr 101 r_intr_ena v) l /\ Z.testbit v 2 = true).
Proof.
  eapply does_mono.
  - apply (event_enable_spec 101 (quad_data 1 phy_data_t_0)). reflexivity.
  - intros rc t' l (_ & _ & lf & x & v & _ & -> & Hb). exists v. split.
    + apply in_or_app. right. right. by left.
    + rewrite Hb; [reflexivity|lia].
Defined.

Lemma event_poll_spec_witness :
  does (B := sim) (lan8814_event_status_poll 101)
    (quad_table (set_pd_events MEPA_LINK_LOS phy_data_t_0))
    (fun r t' l => exists x st, l = [ARd 101 r_intr_status x] /\ r = (MEPA_RC_OK, st) /\
       Z.testbit st 0 = Z.testbit x 2 /\ Z.testbit st 1 = false).
Proof.
  eapply does_mono.
  - apply (event_poll_spec 101 (quad_data 1 (set_pd_events MEPA_LINK_LOS phy_data_t_0))).
    reflexivity.
  - intros r t' l (_ & x & st & -> & -> & Hb). exists x, st. split_and!; [done..| |].
    + rewrite Hb by lia. cbn -[Z.testbit]. apply orb_false_r.
    + by rewrite Hb by lia.
Defined.

Lemma eee_set_spec_witness :
  does (B := sim) (lan8814_eee_mode_conf_set 101 (Mk_mepa_phy_eee_conf_t MEPA_EEE_ENABLE FALSE))
    (quad_table phy_data_t_0) (fun rc t' l => rc = MEPA_RC_OK).
Proof.
  eapply does_mono.
  - apply (eee_set_spec 101 (quad_data 1 phy_data_t_0)). reflexivity.
  - intros rc t' l [H _]. exact H.
Defined.

Lemma eee_enable_ignored_witness :
  does (B := sim) (lan8814_eee_mode_conf_set 101 (Mk_mepa_phy_eee_conf_t MEPA_EEE_ENABLE TRUE))
    (quad_table phy_data_t_0) (fun rc t' l => l = []).
Proof.
  eapply does_mono.
  - apply (eee_enable_ignored 101 (quad_data 1 phy_data_t_0)); reflexivity.
  - intros rc t' l (_ & H & _). exact H.
Defined.

Lemma quad_based d : based (quad_data 1 d) (quad_table d).
Proof. intros b [= <-]. by eexists. Qed.


Lemma reset_leaves_mdi_witness :
  let d := set_pd_conf (set_conf_mdi_mode MEPA_MEDIA_MODE_MDIX conf_auto) phy_data_t_0 in
  does (B := sim) (lan8814_reset 101 (set_rst_reset_point MEPA_RESET_POINT_DEFAULT mepa_reset_param_t_0))
    (quad_table d) (fun rc t' l => wrote 101 r_mdi l = []).
Proof.
  intros d. eapply does_mono.
  - apply (reset_leaves_mdi 101 (quad_data 1 d)); [reflexivity|apply quad_based|reflexivity].
  - intros rc t' l (_ & _ & H). exact H.
Defined.
