(* ===== verification/Lan8814PollSpec.v ===== *)
(** * Lan8814PollSpec: what a poll reports and does

    The link state machine of [Lan8814Poll], against the registers it reads:
    when a link is reported and with which speed, what is stored, and when
    auto-negotiation is restarted. *)

From Stdlib Require Import ZArith Lia List Bool String.
From stdpp Require Import base gmap strings list.
From S2P Require Import Prelude Machine Enums Lan8814Regs Lan8814Types Trace Mdio Lan8814Access SimPhy AccessLemmas Lan8814Conf Lan8814Poll Lan8814Driver Lan8814ConfSpec.

Definition r_bsr : reg := Direct LAN8814_BASIC_STATUS.
Definition r_an : reg := Direct LAN8814_DIGITAL_AX_AN_STATUS.
Definition r_ctl : reg := Direct LAN8814_CONTROL.
Definition r_lp : reg := Direct LAN8814_ANEG_LP_BASE.
Definition r_ms : reg := Direct LAN8814_ANEG_MSTR_SLV_STATUS.
Definition r_bmcr : reg := Direct LAN8814_BASIC_CONTROL.

(** ** The end of a poll *)

(** What the poll does at a link change goes to the MAC side and to the 1G
    advertisement. *)
Definition end_regs : list reg :=
  mmd LAN8814_LINK_PARTNER_EEE_ABILITY :: ep LAN8814_QSGMII_PCS1G_ANEG_TX_ADVERTISE_CAP ::
  ep LAN8814_QSGMII_PCS1G_ANEG_CONFIG :: Direct LAN8814_ANEG_MSTR_SLV_CTRL ::
  ep LAN8814_TX_RA_FIFO_RESET :: ep LAN8814_RX_RA_FIFO_RESET :: fifo_thresholds.

(** The members that the end of a poll keeps, link change or not. *)
Definition end_kept (d d' : phy_data_t) : Prop :=
  pd_conf d' = pd_conf d /\ pd_loopback d' = pd_loopback d /\ pd_dev d' = pd_dev d /\
  pd_dsh_conf d' = pd_dsh_conf d /\ pd_crc_workaround d' = pd_crc_workaround d /\
  pd_rep_cnt d' = pd_rep_cnt d /\ pd_post_mac_rst d' = pd_post_mac_rst d.

(** The private data after a poll that reports [st] without a link change. *)
Definition stored (st : mepa_status_t) (d : phy_data_t) : phy_data_t :=
  set_pd_fdx_status (st_fdx st) (set_pd_speed_status (st_speed st)
    (set_pd_link_status (st_link st) d)).

Section End.
Context {B : Type} {CO : Callout B} {OK : BusOk CO}.
Implicit Types (dev : Z) (d : phy_data_t) (t : gmap Z phy_data_t) (st : mepa_status_t).
Local Abbreviation does := (does (B := B)).

Lemma does_qsgmii_tx_abilities dev s f t (Q : unit -> gmap Z phy_data_t -> list access -> Prop) :
  (forall l, only dev end_regs l -> Q tt t l) -> does (lan8814_qsgmii_tx_abilities dev s f) t Q.
Proof.
  intros HQ. unfold lan8814_qsgmii_tx_abilities. do 2 does_step.
  generalize (if s =? MEPA_SPEED_1G
    then 1 .| (if tb (v .& LAN8814_F_LP_EEE_ABILITY_1000_BT) then 384 else 0)
    else if s =? MEPA_SPEED_100M
    then 1 .| (if tb (v .& LAN8814_F_LP_EEE_ABILITY_100_BT) then 384 else 0) else 1).
  intros z. cbv zeta. does_auto. apply HQ. unfold end_regs. only_tac.
Qed.

(** The code at a link change, whatever the new state. *)
Lemma does_link_change dev d t st v (Q : unit -> gmap Z phy_data_t -> list access -> Prop) :
  t !! dev = Some d ->
  (forall d' l, end_kept d d' -> only dev end_regs l -> Q tt (<[dev := d']> t) l) ->
  does (poll_link_change dev st v) t Q.
Proof.
  intros Hd HQ.
  assert (forall l, only dev fifo_thresholds l -> only dev end_regs l) as Hth.
  { intros l Hl. eapply only_mono; [exact Hl|]. unfold end_regs. sub_tac. }
  unfold poll_link_change. do 2 does_step.
  destruct (tb (st_link st)).
  - does_step. does_step. apply does_mono with
      (Q := fun _ t' l => t' = t /\ only dev end_regs l).
    { destruct (_ && _); [apply does_qsgmii_tx_abilities; by intros|does_step].
      split; [done|apply only_nil]. }
    intros _ t' l1 [-> H1].
    apply does_mono with (Q := fun _ t' l => t' = t /\ only dev end_regs l).
    { destruct (_ && _); [|does_step; split; [done|apply only_nil]].
      does_step. apply does_half_duplex. intros l Hl. does_step. split; [done|].
      rewrite app_nil_r. by apply Hth. }
    intros _ t' l2 [-> H2]. does_auto. apply HQ; [done|]. only_tac.
  - does_step. does_step. apply does_fifo_reset. intros l1 H1. cbv beta.
    assert (only dev end_regs l1) by (eapply only_mono; [exact H1|unfold end_regs; sub_tac]).
    destruct (tb (pd_dsh_complete d)); does_auto; (apply HQ; [done|]); unfold end_regs in *; only_tac.
Qed.

Lemma does_poll_end dev d t st v (Q : Z * mepa_status_t -> gmap Z phy_data_t -> list access -> Prop) :
  t !! dev = Some d ->
  (forall d' l, end_kept d d' -> only dev end_regs l ->
     pd_link_status d' = st_link st -> pd_speed_status d' = st_speed st ->
     pd_fdx_status d' = st_fdx st -> (st_link st = pd_link_status d -> l = [] /\ d' = stored st d) ->
     Q (MEPA_RC_OK, st) (<[dev := d']> t) l) ->
  does (poll_end dev st v) t Q.
Proof.
  intros Hd HQ. unfold poll_end. does_step. eapply does_is_lan8814; [done|]. do 2 does_step.
  destruct (_ && _) eqn:E.
  - does_step. eapply does_link_change; [done|]. intros d' l Hk Hl. does_auto.
    rewrite !app_nil_r. apply HQ; try done.
    intros Heq. apply andb_true_iff in E as [_ E]. by rewrite Heq, Z.eqb_refl in E.
  - does_auto. apply HQ; try done. apply only_nil.
Qed.
End End.

(** ** Resolution of speed and duplex *)

(** The modes both ends advertise: 1G in register 10, the others in register
    5; 1G is out of the game after a downshift. *)
Definition modes : list (Z * Z) :=
  [(MEPA_SPEED_1G, 1); (MEPA_SPEED_100M, 1); (MEPA_SPEED_100M, 0);
   (MEPA_SPEED_10M, 1); (MEPA_SPEED_10M, 0)].
Definition offered (d : phy_data_t) (lp ms : Z) (m : Z * Z) : bool :=
  let a := conf_aneg (pd_conf d) in
  let '(s, f) := m in
  if s =? MEPA_SPEED_1G then
    Z.testbit ms 11 && tb (adv_speed_1g_fdx a) && negb (tb (pd_dsh_complete d))
  else if s =? MEPA_SPEED_100M then
    if f =? 1 then Z.testbit lp 8 && tb (adv_speed_100m_fdx a)
    else Z.testbit lp 7 && tb (adv_speed_100m_hdx a)
  else
    if f =? 1 then Z.testbit lp 6 && tb (adv_speed_10m_fdx a)
    else Z.testbit lp 5 && tb (adv_speed_10m_hdx a).

(** The first mode in the order of preference of clause 28 that both offer. *)
Definition best (d : phy_data_t) (lp ms : Z) : option (Z * Z) :=
  head (List.filter (offered d lp ms) modes).

(** A 1G link of the CRC workaround, from what register 10 and the private
    data say: not yet usable, to be restarted once, or up. *)
Inductive crc_case := CrcWait | CrcRestart | CrcUp.
Definition crc_state (d : phy_data_t) (ms : Z) : crc_case :=
  if negb (Z.testbit ms 13 && Z.testbit ms 12 && tb (pd_post_mac_rst d)) then CrcWait
  else if tb (pd_aneg_after_link_up d) then CrcUp else CrcRestart.

(** Status, private data and accesses after the resolution. *)
Definition resolved dev d (st : mepa_status_t) (lp ms : Z)
    (st' : mepa_status_t) (d' : phy_data_t) (l : list access) : Prop :=
  match best d lp ms with
  | None => st' = st /\ d' = d /\ l = []
  | Some (s, f) =>
      let up := set_st_fdx f (set_st_speed s st) in
      if (s =? MEPA_SPEED_1G) && tb (pd_crc_workaround d) then
        match crc_state d ms with
        | CrcWait => st' = set_st_link 0 st /\ d' = d /\ l = []
        | CrcRestart => st' = set_st_link 0 st /\
            d' = set_pd_loop_cnt 0 (set_pd_aneg_after_link_up TRUE d) /\
            exists x, l = [ARd dev r_bmcr x; AWr dev r_bmcr (rmw x 512 512)]
        | CrcUp => st' = up /\
            d' = set_pd_aneg_after_link_up FALSE (set_pd_crc_workaround FALSE d) /\ l = []
        end
      else st' = up /\ d' = d /\ l = []
  end.

Section Resolve.
Context {B : Type} {CO : Callout B} {OK : BusOk CO}.
Implicit Types (dev : Z) (d : phy_data_t) (t : gmap Z phy_data_t) (st : mepa_status_t).
Local Abbreviation does := (does (B := B)).

Lemma does_poll_resolve dev d t st lp ms
    (Q : mepa_status_t -> gmap Z phy_data_t -> list access -> Prop) :
  t !! dev = Some d ->
  (forall st' d' l, resolved dev d st lp ms st' d' l -> Q st' (<[dev := d']> t) l) ->
  does (poll_resolve dev st lp ms) t Q.
Proof.
  intros Hd HQ.
  assert (forall st', resolved dev d st lp ms st' d [] -> Q st' t []) as HQ0.
  { intros st' H. rewrite <- (insert_id t dev d) by done. by apply HQ. }
  unfold poll_resolve. do 2 does_step. cbv beta zeta.
  change LAN8814_F_ANEG_MSTR_SLV_STATUS_1000_T_FULL_DUP with (1 .<< 11).
  change LAN8814_F_ANEG_LP_BASE_100_X_FULL_DUP with (1 .<< 8).
  change LAN8814_F_ANEG_LP_BASE_100_X_HALF_DUP with (1 .<< 7).
  change LAN8814_F_ANEG_LP_BASE_10_T_FULL_DUP with (1 .<< 6).
  change LAN8814_F_ANEG_LP_BASE_10_T_HALF_DUP with (1 .<< 5).
  rewrite !tb_bit by lia. unfold resolved, best in HQ, HQ0. cbn -[Z.testbit tb] in HQ, HQ0.
  destruct (Z.testbit ms 11 && _ && _).
  - cbn -[Z.testbit tb] in HQ, HQ0.
    destruct (tb (pd_crc_workaround d)); [|does_step; by apply HQ0].
    unfold poll_crc_workaround. do 2 does_step. cbv beta.
    change LAN8814_F_ANEG_MSTR_SLV_LOCAL_RCVR_STATUS with (1 .<< 13).
    change LAN8814_F_ANEG_MSTR_SLV_REMOTE_RCVR_STATUS with (1 .<< 12).
    rewrite !tb_bit by lia. unfold crc_state in *. rewrite <- negb_andb.
    destruct (Z.testbit ms 13 && Z.testbit ms 12 && _); cbn [negb] in *;
      [|does_step; by apply HQ0].
    destruct (tb (pd_aneg_after_link_up d)); cbn [negb] in *; does_auto; apply HQ; try done.
    split_and!; [done|done|]. by eexists.
  - destruct (Z.testbit lp 8 && _); [does_step; by apply HQ0|].
    destruct (Z.testbit lp 7 && _); [does_step; by apply HQ0|].
    destruct (Z.testbit lp 6 && _); [does_step; by apply HQ0|].
    destruct (Z.testbit lp 5 && _); does_step; by apply HQ0.
Qed.

(** The downshift counter and the restart of a stuck auto-negotiation work
    on a link that is down. *)
Lemma does_poll_downshift dev d t st v2 v3 (Q : unit -> gmap Z phy_data_t -> list access -> Prop) :
  t !! dev = Some d ->
  (forall d' l, end_kept d d' -> only dev [r_bmcr; r_1g] l ->
     (tb (st_link st) || negb (tb (dsh_dsh_enable (pd_dsh_conf d))) = true -> d' = d /\ l = []) ->
     pd_link_status d' = pd_link_status d -> Q tt (<[dev := d']> t) l) ->
  does (poll_downshift dev st v2 v3) t Q.
Proof.
  intros Hd HQ. unfold poll_downshift. do 2 does_step.
  destruct (tb (dsh_dsh_enable (pd_dsh_conf d)) && _ && _ && _) eqn:E.
  - assert (tb (st_link st) || negb (tb (dsh_dsh_enable (pd_dsh_conf d))) = false) as E'.
    { destruct (tb (st_link st)), (tb (dsh_dsh_enable (pd_dsh_conf d))); done. }
    rewrite E' in HQ. does_auto. unfold lan8814_downshift.
    destruct (_ >? _); does_auto; apply HQ; try done; only_tac.
  - does_step. rewrite <- (insert_id t dev d) by done. by apply HQ; try apply only_nil.
Qed.
End Resolve.

(** ** The restart of a stuck auto-negotiation *)

(** Signal, but no link and no end of the negotiation, and no restart yet. *)
Definition stuck (d : phy_data_t) (link : bool) (bsr an : Z) : bool :=
  negb link && negb (Z.testbit bsr 5) && Z.testbit an 13 && negb (tb (pd_aneg_flag d)).

Definition stuck_step dev (d : phy_data_t) (link : bool) (bsr an : Z)
    (d' : phy_data_t) (l : list access) : Prop :=
  if stuck d link bsr an then
    if pd_loop_cnt (incr_loop_cnt d) >? 2 * pd_rep_cnt d
    then d' = set_pd_aneg_flag TRUE (set_pd_loop_cnt 0 d) /\
         exists x, l = [ARd dev r_bmcr x; AWr dev r_bmcr (rmw x 512 512)]
    else d' = incr_loop_cnt d /\ l = []
  else d' = d /\ l = [].

Section Stuck.
Context {B : Type} {CO : Callout B} {OK : BusOk CO}.
Implicit Types (dev : Z) (d : phy_data_t) (t : gmap Z phy_data_t) (st : mepa_status_t).
Local Abbreviation does := (does (B := B)).

Lemma does_poll_aneg_stuck dev d t st v v3 (Q : unit -> gmap Z phy_data_t -> list access -> Prop) :
  t !! dev = Some d ->
  (forall d' l, stuck_step dev d (tb (st_link st)) v v3 d' l -> Q tt (<[dev := d']> t) l) ->
  does (poll_aneg_stuck dev st v v3) t Q.
Proof.
  intros Hd HQ. unfold poll_aneg_stuck. do 2 does_step. cbv beta.
  change LAN8814_F_BASIC_STATUS_ANEG_COMPLETE with (1 .<< 5).
  change LAN8814_F_SIG_DET with (1 .<< 13). rewrite !tb_bit by lia.
  unfold stuck_step, stuck in HQ. destruct (_ && _).
  - does_auto. change (pd_rep_cnt (incr_loop_cnt d)) with (pd_rep_cnt d).
    destruct (_ >? _); does_auto; apply HQ; [|done]. split; [done|]. by eexists.
  - does_step. rewrite <- (insert_id t dev d) by done. by apply HQ.
Qed.

Lemma stuck_step_kept dev d link v v3 d' l : stuck_step dev d link v v3 d' l ->
  end_kept d d' /\ only dev [r_bmcr] l /\ pd_link_status d' = pd_link_status d /\
  (link = true -> d' = d /\ l = []).
Proof.
  unfold stuck_step, stuck. destruct link; cbn [negb andb].
  { intros [-> ->]. split_and!; try done. apply only_nil. }
  destruct (_ && _ && _); [destruct (_ >? _)|].
  - intros [-> [x ->]]. split_and!; try done. only_tac.
  - intros [-> ->]. split_and!; try done. apply only_nil.
  - intros [-> ->]. split_and!; try done. apply only_nil.
Qed.
End Stuck.

(** ** The auto-negotiated poll *)

(** The link before the CRC workaround: the status bit, and the end of the
    negotiation. *)
Definition aneg_link (bsr : Z) : bool := Z.testbit bsr 2 && Z.testbit bsr 5.

(** The status an auto-negotiated poll starts from. *)
Definition aneg_status (st : mepa_status_t) (bsr : Z) : mepa_status_t :=
  set_st_fdx 1 (set_st_speed MEPA_SPEED_UNDEFINED (set_st_link (cb (aneg_link bsr)) st)).

(** Flow control of the link. *)
Definition paused (d : phy_data_t) (lp : Z) (st : mepa_status_t) : mepa_status_t :=
  let fc := tb (conf_flow_control (pd_conf d)) in
  set_st_aneg (Mk_mepa_aneg_t (cb (fc && (Z.testbit lp 10 || Z.testbit lp 11)))
                              (cb (fc && Z.testbit lp 10))) st.

(** A port that is enabled, negotiates, and is not looped back. *)
Record aneg_port (d : phy_data_t) : Prop := {
  ap_admin : tb (conf_admin_enable (pd_conf d)) = true;
  ap_speed : aneg_speed (pd_conf d) = true;
  ap_near : lb_near_end_ena (pd_loopback d) = FALSE;
  ap_conn : lb_connector_ena (pd_loopback d) <> TRUE;
}.

(** What such a poll does: without a link, the restart of a stuck negotiation
    (after the downshift counter); with one, the resolution. *)
Definition aneg_poll dev (d : phy_data_t) (st0 : mepa_status_t) (st : mepa_status_t)
    (d' : phy_data_t) (l : list access) : Prop :=
  exists bsr an ctl l1 le,
  only dev end_regs le /\
  exists d2, (st_link st = pd_link_status d2 -> le = [] /\ d' = stored st d2) /\
    pd_link_status d2 = pd_link_status d /\
    pd_link_status d' = st_link st /\ pd_speed_status d' = st_speed st /\
    pd_fdx_status d' = st_fdx st /\ end_kept d2 d' /\
    l = [ARd dev r_bsr bsr; ARd dev r_an an; ARd dev r_ctl ctl] ++ l1 ++ le /\
    if aneg_link bsr then
      exists lp ms st1 l2, l1 = [ARd dev r_lp lp; ARd dev r_ms ms] ++ l2 /\
        resolved dev d (aneg_status st0 bsr) lp ms st1 d2 l2 /\ st = paused d lp st1
    else
      st = aneg_status st0 bsr /\
      exists d1 l2 l3, only dev [r_bmcr; r_1g] l2 /\ l1 = l2 ++ l3 /\
        (tb (dsh_dsh_enable (pd_dsh_conf d)) = false -> d1 = d /\ l2 = []) /\
        stuck_step dev d1 false bsr an d2 l3.

Section Aneg.
Context {B : Type} {CO : Callout B} {OK : BusOk CO}.
Implicit Types (dev : Z) (d : phy_data_t) (t : gmap Z phy_data_t) (st : mepa_status_t).
Local Abbreviation does := (does (B := B)).

Lemma does_poll_pause dev d t st lp (Q : mepa_status_t -> gmap Z phy_data_t -> list access -> Prop) :
  t !! dev = Some d -> Q (paused d lp st) t [] -> does (poll_pause dev st lp) t Q.
Proof.
  intros Hd HQ. unfold poll_pause. does_auto.
  change LAN8814_F_ANEG_LP_BASE_SYM_PAUSE with (1 .<< 10).
  change LAN8814_F_ANEG_LP_BASE_ASYM_PAUSE with (1 .<< 11). by rewrite !tb_bit by lia.
Qed.

Lemma paused_kept d d' lp st : pd_conf d' = pd_conf d -> paused d' lp st = paused d lp st.
Proof. intros H. unfold paused. by rewrite H. Qed.

Lemma resolved_kept dev d st lp ms st' d' l : resolved dev d st lp ms st' d' l ->
  pd_conf d' = pd_conf d /\ pd_link_status d' = pd_link_status d /\ only dev [r_bmcr] l.
Proof.
  unfold resolved. destruct (best d lp ms) as [[s f]|].
  2: { intros (-> & -> & ->). split_and!; try done. apply only_nil. }
  destruct (_ && _).
  2: { intros (-> & -> & ->). split_and!; try done. apply only_nil. }
  destruct (crc_state d ms).
  - intros (-> & -> & ->). split_and!; try done. apply only_nil.
  - intros (-> & -> & x & ->). split_and!; try done. only_tac.
  - intros (-> & -> & ->). split_and!; try done. apply only_nil.
Qed.

Lemma does_aneg_poll dev d t st0 (Q : Z * mepa_status_t -> gmap Z phy_data_t -> list access -> Prop) :
  t !! dev = Some d -> aneg_port d ->
  (forall st d' l, aneg_poll dev d st0 st d' l -> Q (MEPA_RC_OK, st) (<[dev := d']> t) l) ->
  does (lan8814_poll dev st0) t Q.
Proof.
  intros Hd [Hadm Hsp Hnear Hconn] HQ. unfold lan8814_poll. do 4 does_step. cbv beta.
  rewrite Hadm, Hnear, (proj2 (Z.eqb_neq _ _) Hconn). cbn [negb]. do 2 does_step. cbv beta zeta.
  change (FALSE =? TRUE) with false. cbn [negb andb]. cbv iota. fold (aneg_speed (pd_conf d)).
  rewrite Hsp. unfold poll_aneg. do 2 does_step. cbv beta zeta. rewrite Hnear.
  change (tb FALSE) with false. cbn [negb andb orb]. cbv iota.
  change LAN8814_F_BASIC_STATUS_LINK_STATUS with (1 .<< 2).
  change LAN8814_F_BASIC_STATUS_ANEG_COMPLETE with (1 .<< 5). rewrite !tb_bit by lia.
  match goal with |- context [poll_downshift _ ?s _ _] => set (st := s) in * end.
  assert (st = aneg_status st0 v) as Est.
  { subst st. unfold aneg_status, aneg_link. destruct st0. cbn -[Z.testbit tb].
    rewrite cb_tb. by destruct (Z.testbit v 2), (Z.testbit v 5). }
  assert (tb (st_link st) = aneg_link v) as Elk by (rewrite Est; cbn -[tb]; by rewrite cb_tb).
  clearbody st. do 4 does_step. rename v0 into an, v1 into ctl.
  does_step. eapply does_poll_downshift; [done|]. intros d1 l2 Hk1 Hl2 Hup1 Hls1.
  does_step. eapply does_poll_aneg_stuck; [apply lookup_insert_eq|]. intros d2 l3 Hs.
  rewrite insert_insert_eq. rewrite Elk in *. destruct (stuck_step_kept _ _ _ _ _ _ _ Hs)
    as (Hk2 & Hl3 & Hls2 & Hup2).
  destruct (aneg_link v) eqn:Elv; cbn [negb orb] in *.
  - destruct Hup1 as [-> ->]; [done|]. destruct Hup2 as [-> ->]; [done|].
    rewrite (insert_id t dev d) by done. do 4 does_step.
    rename v0 into lp, v1 into ms. does_step. eapply does_poll_resolve; [done|].
    intros st1 d3 l4 Hr. does_step. eapply does_poll_pause; [apply lookup_insert_eq|].
    destruct (resolved_kept _ _ _ _ _ _ _ _ Hr) as (Hc3 & Hls3 & _).
    rewrite (paused_kept d) by done.
    eapply does_poll_end; [apply lookup_insert_eq|]. intros d4 le Hk4 Hle Hl4 Hs4 Hf4 Hst.
    rewrite insert_insert_eq. cbn [app]. apply HQ.
    exists v, an, ctl, ([ARd dev r_lp lp; ARd dev r_ms ms] ++ l4), le. split; [done|].
    exists d3. rewrite Elv. split_and!; try done.
    exists lp, ms, st1, l4. subst st. by split_and!.
  - eapply does_poll_end; [apply lookup_insert_eq|]. intros d4 le Hk4 Hle Hl4 Hs4 Hf4 Hst.
    rewrite insert_insert_eq. cbn [app]. apply HQ.
    exists v, an, ctl, (l2 ++ l3), le. split; [done|].
    exists d2. rewrite Elv. split_and!; try done.
    + congruence.
    + by rewrite <- app_assoc.
    + exists d1, l2, l3. split_and!; try done. intros Hdis. apply Hup1. by rewrite Hdis.
Qed.
End Aneg.

(** [(s, f)] is the mode both ends offer that comes first in the order of
    preference; without any, the speed is undefined. *)
Definition best_mode (d : phy_data_t) (lp ms s f : Z) : Prop :=
  (exists pre post, modes = pre ++ (s, f) :: post /\ offered d lp ms (s, f) = true /\
     Forall (fun m => offered d lp ms m = false) pre) \/
  (Forall (fun m => offered d lp ms m = false) modes /\ s = MEPA_SPEED_UNDEFINED /\ f = 1).

Lemma head_filter {A} (p : A -> bool) (l : list A) :
  match head (List.filter p l) with
  | Some x => exists pre post, l = pre ++ x :: post /\ p x = true /\ Forall (fun y => p y = false) pre
  | None => Forall (fun y => p y = false) l
  end.
Proof.
  induction l as [|x l IH]; cbn; [constructor|]. destruct (p x) eqn:E; cbn.
  - by exists [], l.
  - destruct (head _) as [y|].
    + destruct IH as (pre & post & -> & Hy & Hp). exists (x :: pre), post. split_and!; try done.
      by constructor.
    + by constructor.
Qed.

Section Claims.
Context {B : Type} {CO : Callout B} {OK : BusOk CO}.
Implicit Types (dev : Z) (d : phy_data_t) (t : gmap Z phy_data_t) (st : mepa_status_t).
Local Abbreviation does := (does (B := B)).

(** C9. A poll of a negotiating port reports a link only when the PHY's
    status register shows one and the negotiation has ended; speed and duplex
    are then the best mode that both ends offer, and a 1G link that the CRC
    workaround is waiting for is not reported before its restart.  A link that
    the PHY shows is withheld only by that workaround. *)
Theorem poll_aneg_link dev d t st0 :
  t !! dev = Some d -> aneg_port d ->
  does (lan8814_poll dev st0) t (fun r t' l => exists bsr st, r = (MEPA_RC_OK, st) /\
    ARd dev r_bsr bsr ∈ l /\
    (st_link st = 1 ->
       Z.testbit bsr 2 = true /\ Z.testbit bsr 5 = true /\
       exists lp ms, ARd dev r_lp lp ∈ l /\ ARd dev r_ms ms ∈ l /\
         best_mode d lp ms (st_speed st) (st_fdx st) /\
         (tb (pd_crc_workaround d) = true -> st_speed st = MEPA_SPEED_1G ->
          tb (pd_aneg_after_link_up d) = true /\ Z.testbit ms 13 = true /\ Z.testbit ms 12 = true)) /\
    (st_link st <> 1 -> st_link st = 0 /\
       (Z.testbit bsr 2 = true -> Z.testbit bsr 5 = true -> tb (pd_crc_workaround d) = true /\
          exists ms, ARd dev r_ms ms ∈ l /\ Z.testbit ms 11 = true))).
Proof.
  intros Hd Hp. eapply does_aneg_poll; [done..|].
  intros st d' l (bsr & an & ctl & l1 & le & Hle & d2 & _ & _ & _ & _ & _ & _ & -> & H).
  exists bsr, st. split; [done|]. split; [by left|].
  unfold aneg_status, aneg_link in H. destruct (Z.testbit bsr 2), (Z.testbit bsr 5); cbn [andb] in H.
  2-4: destruct H as [-> _]; cbn; (split; [lia|]); intros _; (split; [done|]); intros; discriminate.
  destruct H as (lp & ms & st1 & l2 & -> & Hr & ->).
  assert (ARd dev r_lp lp ∈ [ARd dev r_bsr bsr; ARd dev r_an an; ARd dev r_ctl ctl] ++
    ([ARd dev r_lp lp; ARd dev r_ms ms] ++ l2) ++ le) as Hlp by (do 3 right; by left).
  assert (ARd dev r_ms ms ∈ [ARd dev r_bsr bsr; ARd dev r_an an; ARd dev r_ctl ctl] ++
    ([ARd dev r_lp lp; ARd dev r_ms ms] ++ l2) ++ le) as Hms by (do 4 right; by left).
  pose proof (head_filter (offered d lp ms) modes) as Hb. fold (best d lp ms) in Hb.
  unfold resolved in Hr. destruct (best d lp ms) as [[s f]|].
  2: { destruct Hr as (-> & _ & _). cbn. split; [|done]. intros _. split_and!; try done.
       exists lp, ms. split_and!; try done. by right. }
  assert (best_mode d lp ms s f) as Hbest by by left.
  destruct (_ && _) eqn:Hcrc.
  - apply andb_true_iff in Hcrc as [->%Z.eqb_eq Hcrc].
    assert (Z.testbit ms 11 = true) as H11.
    { destruct Hb as (_ & _ & _ & H & _). cbn -[Z.testbit] in H. by destruct (Z.testbit ms 11). }
    unfold crc_state in Hr.
    destruct (Z.testbit ms 13) eqn:E13, (Z.testbit ms 12) eqn:E12, (tb (pd_post_mac_rst d));
      cbn [andb negb] in Hr.
    1: destruct (tb (pd_aneg_after_link_up d)) eqn:Eal.
    1: { destruct Hr as (-> & _ & _). cbn -[Z.testbit]. split; [|done]. intros _. split_and!; try done.
         exists lp, ms. by split_and!. }
    all: destruct Hr as (-> & _); cbn; (split; [lia|]); intros _; (split; [done|]); intros _ _;
      split; [done|by exists ms].
  - destruct Hr as (-> & _ & _). cbn. split; [|done]. intros _. split_and!; try done.
    exists lp, ms. split_and!; try done. intros Hc ->. rewrite Hc in Hcrc. done.
Qed.

(** What every poll leaves: its result is the status it stores. *)
Definition reports dev d t (r : Z * mepa_status_t) (t' : gmap Z phy_data_t) (l : list access) : Prop :=
  exists st d', r = (MEPA_RC_OK, st) /\ t' = <[dev := d']> t /\ pd_conf d' = pd_conf d /\
    pd_link_status d' = st_link st /\ pd_speed_status d' = st_speed st /\
    pd_fdx_status d' = st_fdx st /\
    (tb (conf_admin_enable (pd_conf d)) = false -> l = [] /\ st = mepa_status_t_0).

Lemma reports_enabled dev d t r t' l l' :
  tb (conf_admin_enable (pd_conf d)) = true -> reports dev d t r t' l -> reports dev d t r t' l'.
Proof.
  intros Hadm (st' & d' & ? & ? & ? & ? & ? & ? & _). exists st', d'. split_and!; try done.
  by rewrite Hadm.
Qed.

Lemma does_reports_end dev d0 d t0 st v l0 :
  tb (conf_admin_enable (pd_conf d0)) = true -> pd_conf d = pd_conf d0 ->
  does (poll_end dev st v) (<[dev := d]> t0) (fun r t' l => reports dev d0 t0 r t' (l0 ++ l)).
Proof.
  intros Hadm Hc. eapply does_poll_end; [apply lookup_insert_eq|].
  intros d' l Hk _ Hl Hs Hf _. rewrite insert_insert_eq. exists st, d'. split_and!; try done.
  - destruct Hk as [Hk _]. by rewrite Hk.
  - by rewrite Hadm.
Qed.

Lemma does_reports_aneg dev d t st v l0 :
  t !! dev = Some d -> tb (conf_admin_enable (pd_conf d)) = true ->
  does (poll_aneg dev st v) t (fun r t' l => reports dev d t r t' (l0 ++ l)).
Proof.
  intros Hd Hadm. unfold poll_aneg. do 2 does_step. cbv beta zeta.
  match goal with |- context [poll_downshift _ ?s _ _] => generalize s; intros st1 end.
  do 4 does_step. does_step. eapply does_poll_downshift; [done|]. intros d1 l2 Hk1 _ _ _.
  does_step. eapply does_poll_aneg_stuck; [apply lookup_insert_eq|]. intros d2 l3 Hs.
  apply stuck_step_kept in Hs as (Hk2 & _). rewrite insert_insert_eq.
  assert (pd_conf d2 = pd_conf d) as Hc2.
  { destruct Hk1 as [Hk1 _], Hk2 as [Hk2 _]. congruence. }
  destruct (negb _ || _).
  - eapply does_mono; [by apply (does_reports_end dev d d2 t st1 v [])|].
    intros. eapply reports_enabled; eassumption.
  - do 4 does_step. does_step. eapply does_poll_resolve; [apply lookup_insert_eq|].
    intros st2 d3 l4 Hr. apply resolved_kept in Hr as (Hc3 & _ & _). rewrite insert_insert_eq.
    does_step. eapply does_poll_pause; [apply lookup_insert_eq|].
    eapply does_mono; [apply (does_reports_end dev d d3 t _ _ []); congruence|].
    intros. eapply reports_enabled; eassumption.
Qed.

Lemma does_reports_forced dev d t st v l0 :
  t !! dev = Some d -> tb (conf_admin_enable (pd_conf d)) = true ->
  does (poll_forced dev st v) t (fun r t' l => reports dev d t r t' (l0 ++ l)).
Proof.
  intros Hd Hadm. unfold poll_forced. do 2 does_step. cbv beta zeta. do 4 does_step. does_step.
  eapply does_mono with (Q := fun _ t' _ => exists d', t' = <[dev := d']> t /\ pd_conf d' = pd_conf d).
  - destruct (_ && _).
    + does_auto. destruct (_ >? _); does_auto; by eexists.
    + does_step. exists d. by rewrite insert_id.
  - intros v' t' l (d' & -> & Hc). eapply does_mono; [by apply (does_reports_end dev d d' t _ _ [])|].
    intros. eapply reports_enabled; eassumption.
Qed.

Lemma does_poll_reports dev d t st0 :
  t !! dev = Some d -> does (lan8814_poll dev st0) t (reports dev d t).
Proof.
  intros Hd. unfold lan8814_poll. do 4 does_step. cbv beta.
  destruct (tb (conf_admin_enable (pd_conf d))) eqn:Hadm; cbn [negb].
  - do 2 does_step. cbv beta zeta. destruct (_ && _).
    + do 2 does_step. cbv beta.
      eapply does_mono; [rewrite <- (insert_id t dev d) at 1 by done;
        by apply (does_reports_end dev d d t _ _ [])|].
      intros. eapply reports_enabled; eassumption.
    + destruct (_ || _).
      * by apply (does_reports_aneg dev d t _ _ [ARd dev (Direct LAN8814_BASIC_STATUS) v]).
      * by apply (does_reports_forced dev d t _ _ [ARd dev (Direct LAN8814_BASIC_STATUS) v]).
  - does_auto. eexists _, _. by split_and!.
Qed.

(** Every poll succeeds and reports exactly the link, speed and duplex it
    stores; a disabled port is reported down without any bus access. *)
Theorem poll_reports dev d t st0 :
  t !! dev = Some d ->
  does (lan8814_poll dev st0) t (fun r t' l => exists st d', r = (MEPA_RC_OK, st) /\
    t' = <[dev := d']> t /\ pd_conf d' = pd_conf d /\
    pd_link_status d' = st_link st /\ pd_speed_status d' = st_speed st /\
    pd_fdx_status d' = st_fdx st /\
    (tb (conf_admin_enable (pd_conf d)) = false -> l = [] /\ st = mepa_status_t_0)).
Proof. apply does_poll_reports. Qed.
End Claims.

(** ** A negotiation that hangs *)

Section Hang.
Context {B : Type} {CO : Callout B} {OK : BusOk CO}.
Implicit Types (dev : Z) (d : phy_data_t) (t : gmap Z phy_data_t) (st : mepa_status_t).
Local Abbreviation does := (does (B := B)).

(** [n] polls, one after the other. *)
Fixpoint polls dev st0 (n : nat) : M B phy_data_t unit :=
  match n with
  | O => ret tt
  | S n => polls dev st0 n ;;; lan8814_poll dev st0 ;;; ret tt
  end.

(** In all that was read, the negotiation has not ended and there is signal. *)
Definition hang_read dev (a : access) : bool :=
  match a with
  | ARd x r v =>
      if negb (x =? dev) then true
      else if reg_eqb r r_bsr then negb (Z.testbit v 5)
      else if reg_eqb r r_an then Z.testbit v 13 else true
  | AWr _ _ _ => true
  end.
Definition hangs dev (l : list access) : bool := forallb (hang_read dev) l.

(** The port waits, with [n] polls counted. *)
Record waiting d (n : Z) : Prop := {
  wt_port : aneg_port d;
  wt_dsh : tb (dsh_dsh_enable (pd_dsh_conf d)) = false;
  wt_link : pd_link_status d = 0;
  wt_flag : tb (pd_aneg_flag d) = false;
  wt_cnt : pd_loop_cnt d = n;
}.

Lemma does_poll_hanging dev d t st0 n
    (Q : Z * mepa_status_t -> gmap Z phy_data_t -> list access -> Prop) :
  t !! dev = Some d -> waiting d n ->
  (forall r d' l,
     (hangs dev l = true ->
      if u8 (n + 1) >? 2 * pd_rep_cnt d
      then exists v, wrote dev r_bmcr l = [v] /\ Z.testbit v 9 = true
      else wrote dev r_bmcr l = [] /\ waiting d' (u8 (n + 1)) /\ pd_rep_cnt d' = pd_rep_cnt d) ->
     Q r (<[dev := d']> t) l) ->
  does (lan8814_poll dev st0) t Q.
Proof.
  intros Hd [Hp Hdsh Hlk Hfl Hcnt] HQ. eapply does_aneg_poll; [done..|].
  intros st d' l (bsr & an & ctl & l1 & le & Hle & d2 & Hst & Hls2 & _ & _ & _ & _ & -> & H).
  apply HQ. intros Hh. cbn -[Z.testbit] in Hh. rewrite Z.eqb_refl in Hh. cbn -[Z.testbit] in Hh.
  apply andb_true_iff in Hh as [H5%negb_true_iff Hh]. apply andb_true_iff in Hh as [H13 _].
  unfold aneg_link in H. rewrite H5, andb_false_r in H.
  destruct H as (-> & d1 & l2 & l3 & _ & -> & H1 & Hs). destruct H1 as [-> ->]; [done|].
  unfold aneg_status, aneg_link in Hst. rewrite H5, andb_false_r in Hst. cbn in Hst.
  destruct Hst as [-> ->]; [congruence|].
  unfold stuck_step, stuck in Hs. rewrite H5, H13, Hfl in Hs. cbn [negb andb] in Hs.
  unfold incr_loop_cnt in Hs. cbn [pd_loop_cnt set_pd_loop_cnt] in Hs. rewrite Hcnt in Hs.
  destruct (u8 (n + 1) >? 2 * pd_rep_cnt d).
  - destruct Hs as [-> [x ->]]. exists (rmw x 512 512). rewrite testbit_last by lia.
    split; [|done]. cbn -[rmw]. by rewrite Z.eqb_refl.
  - destruct Hs as [-> ->]. cbn. split; [done|]. split; [|done]. by destruct Hp; repeat split.
Qed.

(** As long as the counter stays below the threshold, nothing is written. *)
Lemma does_polls_quiet dev t d st0 k n (Q : unit -> gmap Z phy_data_t -> list access -> Prop) :
  t !! dev = Some d -> waiting d k -> 0 <= k ->
  (forall i, 0 <= i < Z.of_nat n -> u8 (k + i + 1) <= 2 * pd_rep_cnt d) ->
  (forall d' l, (hangs dev l = true ->
     wrote dev r_bmcr l = [] /\ waiting d' (u8 (k + Z.of_nat n)) /\ pd_rep_cnt d' = pd_rep_cnt d) ->
     Q tt (<[dev := d']> t) l) ->
  k = u8 k -> does (polls dev st0 n) t Q.
Proof.
  intros Hd Hw Hk Hn HQ Hk8. revert Q Hn HQ. induction n as [|n IH]; intros Q Hn HQ; cbn [polls].
  { does_step. rewrite <- (insert_id t dev d) by done. apply HQ. intros _. by rewrite Z.add_0_r, <- Hk8. }
  does_step. apply IH; [intros; apply Hn; lia|]. intros d1 l1 H1. does_step.
  destruct (hangs dev l1) eqn:Eh.
  - destruct H1 as (Hw1 & Hwt & Hr); [done|].
    eapply does_poll_hanging; [apply lookup_insert_eq|exact Hwt|]. intros r d2 l2 H2.
    does_step. rewrite insert_insert_eq, app_nil_r. apply HQ. intros Hh.
    unfold hangs in Hh. rewrite forallb_app in Hh. apply andb_true_iff in Hh as [_ Hh].
    specialize (H2 Hh). rewrite Hr in H2.
    replace (u8 (u8 (k + Z.of_nat n) + 1)) with (u8 (k + Z.of_nat (S n))) in H2.
    2: { unfold u8. rewrite Z.add_mod_idemp_l by lia. f_equal. lia. }
    specialize (Hn (Z.of_nat n)). replace (k + Z.of_nat (S n)) with (k + Z.of_nat n + 1) in * by lia.
    rewrite Z.gtb_ltb, (proj2 (Z.ltb_ge _ _)) in H2 by (apply Hn; lia).
    by rewrite wrote_app, Hw1.
  - eapply does_mono; [apply does_poll_reports, lookup_insert_eq|].
    intros r t' l2 (st & d2 & _ & -> & _). does_step. rewrite insert_insert_eq. apply HQ.
    intros Hh. unfold hangs in Hh, Eh. by rewrite forallb_app, Eh in Hh.
Qed.


(** With [rep_cnt] of 128 or more a hanging negotiation is never
    restarted: the threshold [2 * rep_cnt] is above every value of the 8-bit
    counter. *)
Theorem hang_never_restarts dev t d st0 n :
  t !! dev = Some d -> waiting d 0 -> 128 <= pd_rep_cnt d ->
  does (polls dev st0 n) t (fun _ _ l => hangs dev l = true -> wrote dev r_bmcr l = []).
Proof.
  intros Hd Hw Hr. eapply (does_polls_quiet dev t d st0 0); try done.
  { intros i Hi. pose proof (u8_range (0 + i + 1)). lia. }
  intros d1 l1 H1 Hh. by destruct (H1 Hh).
Qed.
End Hang.

(** ** Forced speed, and link changes *)

(** Speed selection of the basic control register: bits 13 and 6. *)
Definition bmcr_speed (v : Z) : Z :=
  match Z.testbit v 13, Z.testbit v 6 with
  | false, false => MEPA_SPEED_10M
  | true, false => MEPA_SPEED_100M
  | false, true => MEPA_SPEED_1G
  | true, true => MEPA_SPEED_UNDEFINED
  end.

Lemma poll_speed_bits v : poll_speed v = bmcr_speed v.
Proof.
  unfold poll_speed, bmcr_speed.
  change LAN8814_F_BASIC_CTRL_SPEED_SEL_BIT_0 with (1 .<< 13).
  change LAN8814_F_BASIC_CTRL_SPEED_SEL_BIT_1 with (1 .<< 6). rewrite !tb_bit by lia.
  by destruct (Z.testbit v 13), (Z.testbit v 6).
Qed.

Section Forced.
Context {B : Type} {CO : Callout B} {OK : BusOk CO}.
Implicit Types (dev : Z) (d : phy_data_t) (t : gmap Z phy_data_t) (st : mepa_status_t).
Local Abbreviation does := (does (B := B)).

(** A poll of a port with a forced speed reports the link bit of the
    status register and the speed and duplex of the basic control register,
    which it does not write; only a 100M port with a signal and no link may be
    reset. *)
Theorem poll_forced_spec dev d t st0 :
  t !! dev = Some d -> tb (conf_admin_enable (pd_conf d)) = true ->
  aneg_speed (pd_conf d) = false ->
  lb_near_end_ena (pd_loopback d) <> TRUE -> lb_connector_ena (pd_loopback d) <> TRUE ->
  does (lan8814_poll dev st0) t (fun r _ l => exists bsr c an st, r = (MEPA_RC_OK, st) /\
    ARd dev r_bsr bsr ∈ l /\ ARd dev r_bmcr c ∈ l /\ ARd dev r_an an ∈ l /\
    st_link st = cb (Z.testbit bsr 2) /\ st_speed st = bmcr_speed c /\
    st_fdx st = cb (Z.testbit c 8) /\ wrote dev r_bmcr l = [] /\
    (wrote dev r_ctl l <> [] ->
       bmcr_speed c = MEPA_SPEED_100M /\ Z.testbit an 14 = true /\ Z.testbit bsr 2 = false)).
Proof.
  intros Hd Hadm Hsp Hnear Hconn. unfold lan8814_poll. do 4 does_step. cbv beta.
  rewrite Hadm, (proj2 (Z.eqb_neq _ _) Hnear), (proj2 (Z.eqb_neq _ _) Hconn). cbn [negb].
  do 2 does_step. cbv beta zeta. cbn [negb andb]. fold (aneg_speed (pd_conf d)). rewrite Hsp.
  unfold poll_forced, poll_fdx. rename v into bsr. do 2 does_step. cbv beta zeta. rename v into c.
  do 4 does_step. rename v into an, v0 into ctl. rewrite poll_speed_bits.
  change LAN8814_F_BASIC_STATUS_LINK_STATUS with (1 .<< 2).
  change LAN8814_F_BASIC_CTRL_DUP_MODE with (1 .<< 8).
  change LAN8814_F_LINK_DET with (1 .<< 14). rewrite !tb_bit by lia.
  match goal with |- context [poll_end dev ?s _] => set (st := s) end.
  does_step. apply does_mono with (Q := fun _ t' l => exists d', t' = <[dev := d']> t /\
    (l = [] \/ (only dev [r_ctl] l /\
      bmcr_speed c = MEPA_SPEED_100M /\ Z.testbit an 14 = true /\ Z.testbit bsr 2 = false))).
  - change (st_speed st) with (bmcr_speed c). change (st_link st) with (cb (Z.testbit bsr 2)).
    rewrite cb_tb. destruct ((bmcr_speed c =? MEPA_SPEED_100M) && _) eqn:E.
    + apply andb_true_iff in E as [E1%Z.eqb_eq [E2 E3%negb_true_iff]%andb_true_iff].
      does_auto. destruct (_ >? _); does_auto; eexists; (split; [done|]); [right|by left].
      split_and!; try done. only_tac.
    + does_step. exists d. split; [by rewrite insert_id|by left].
  - intros v' t' l1 (d' & -> & Hl1). eapply does_poll_end; [apply lookup_insert_eq|].
    intros d'' le _ Hle _ _ _ _. cbn [app].
    assert (forall r, r ∈ [r_bmcr; r_ctl] -> wrote dev r le = []) as Hz.
    { intros r Hr. eapply wrote_only; [exact Hle|].
      rewrite !elem_of_cons, elem_of_nil in Hr. destruct Hr as [-> | [-> | []]]; not_in. }
    exists bsr, c, an, st. split_and!; try done.
    + by left.
    + by right; left.
    + by do 2 right; left.
    + cbn -[wrote]. change (wrote dev r_bmcr (l1 ++ le) = []). rewrite wrote_app, (Hz r_bmcr) by in_tac.
      destruct Hl1 as [-> | [Hl1 _]]; [done|]. rewrite (wrote_only dev _ _ _ Hl1) by not_in. done.
    + intros Hw. destruct Hl1 as [-> | [_ Hx]]; [|done]. exfalso. apply Hw.
      change (wrote dev r_ctl le = []). apply Hz. in_tac.
Qed.

(** When the link goes down, both FIFOs are reset, the counters start
    again, and after a downshift the 1G advertisement is put back. *)
Theorem link_down_spec dev d t st v :
  t !! dev = Some d -> tb (st_link st) = false ->
  does (poll_link_change dev st v) t (fun _ t' l =>
    wrote dev (ep LAN8814_TX_RA_FIFO_RESET) l = [1] /\
    wrote dev (ep LAN8814_RX_RA_FIFO_RESET) l = [1] /\
    (if tb (pd_dsh_complete d)
     then exists x w, wrote dev r_1g l = [w] /\
       forall i, 0 <= i < 16 -> Z.testbit w i = (i =? 9) || (i =? 11) || Z.testbit x i
     else wrote dev r_1g l = []) /\
    exists d', t' = <[dev := d']> t /\ pd_loop_cnt d' = 0 /\ pd_aneg_flag d' = 0 /\
      tb (pd_dsh_complete d') = false).
Proof.
  intros Hd Hst. unfold poll_link_change, lan8814_workaround_fifo_reset. do 2 does_step.
  rewrite Hst. does_auto. destruct (tb (pd_dsh_complete d)) eqn:Ed; does_auto;
    cbn -[rmw Z.testbit tb]; rewrite !Z.eqb_refl; cbn -[rmw Z.testbit tb]; split_and!; try done.
  - eexists _, _. split; [done|]. intros i Hi. rewrite testbit_last by done.
    match goal with |- (if Z.testbit ?m _ then Z.testbit (_ .| ?c) _ else _) = _ =>
      change m with 2560; change c with 2560 end.
    rewrite Z.lor_spec. by bit_cases i; rewrite ?orb_true_r.
  - by eexists.
  - by eexists.
Qed.
End Forced.

(** ** The claims at a concrete PHY *)

Definition port_auto : phy_data_t :=
  set_pd_rep_cnt 1 (set_pd_conf conf_auto phy_data_t_0).

Lemma port_auto_ok i r : aneg_port (quad_data i (set_pd_rep_cnt r port_auto)).
Proof. by split. Qed.
Lemma port_auto_waits i r : waiting (quad_data i (set_pd_rep_cnt r port_auto)) 0.
Proof. by split. Qed.

Lemma poll_aneg_link_witness :
  does (B := sim) (lan8814_poll 101 mepa_status_t_0) (quad_table (set_pd_rep_cnt 1 port_auto))
    (fun r _ l => exists bsr st, r = (MEPA_RC_OK, st) /\ ARd 101 r_bsr bsr ∈ l).
Proof.
  eapply does_mono.
  - apply (poll_aneg_link 101 (quad_data 1 (set_pd_rep_cnt 1 port_auto)));
      [reflexivity|apply port_auto_ok].
  - intros r _ l (bsr & st & Hr & Hl & _). exists bsr, st. split; [exact Hr|exact Hl].
Defined.

Lemma poll_reports_witness :
  does (B := sim) (lan8814_poll 102 mepa_status_t_0) (quad_table phy_data_t_0)
    (fun r _ l => l = [] /\ r = (MEPA_RC_OK, mepa_status_t_0)).
Proof.
  eapply does_mono.
  - apply (poll_reports 102 (quad_data 2 phy_data_t_0)). reflexivity.
  - intros r _ l (st & d' & Hr & _ & _ & _ & _ & _ & H). destruct (H eq_refl) as [Hl Hs].
    split; [exact Hl|]. rewrite Hr, Hs. reflexivity.
Defined.


Lemma hang_never_restarts_witness :
  does (B := sim) (polls 101 mepa_status_t_0 1000) (quad_table (set_pd_rep_cnt 128 port_auto))
    (fun _ _ l => hangs 101 l = true -> wrote 101 r_bmcr l = []).
Proof.
  apply (hang_never_restarts 101 _ (quad_data 1 (set_pd_rep_cnt 128 port_auto)) mepa_status_t_0 1000);
    [reflexivity|apply port_auto_waits|cbn; lia].
Defined.

Lemma poll_forced_spec_witness :
  does (B := sim) (lan8814_poll 101 mepa_status_t_0)
    (quad_table (set_pd_conf conf_100m phy_data_t_0))
    (fun r _ l => exists c st, r = (MEPA_RC_OK, st) /\ st_speed st = bmcr_speed c).
Proof.
  eapply does_mono.
  - apply (poll_forced_spec 101 (quad_data 1 (set_pd_conf conf_100m phy_data_t_0)));
      try reflexivity; discriminate.
  - intros r _ l (bsr & c & an & st & Hr & _ & _ & _ & _ & Hs & _). exists c, st.
    split; [exact Hr|exact Hs].
Defined.

Lemma link_down_spec_witness :
  does (B := sim) (poll_link_change 101 mepa_status_t_0 0)
    (quad_table (set_pd_dsh_complete 1 phy_data_t_0))
    (fun _ _ l => wrote 101 (ep LAN8814_TX_RA_FIFO_RESET) l = [1]).
Proof.
  eapply does_mono.
  - apply (link_down_spec 101 (quad_data 1 (set_pd_dsh_complete 1 phy_data_t_0))); reflexivity.
  - intros _ _ l [H _]. exact H.
Defined.
