(* ===== verification/Lan8814GpioSpec.v ===== *)
(** * Lan8814GpioSpec: what the pin functions write

    Which bit of which register the GPIO and LED functions change, and the
    requests they refuse. *)

From Stdlib Require Import ZArith Lia List Bool String.
From stdpp Require Import base gmap strings list.
From S2P Require Import Prelude Machine Enums Lan8814Regs Lan8814Types Trace Mdio Lan8814Access SimPhy AccessLemmas Lan8814Conf Lan8814Gpio Lan8814ConfSpec.

(** The register and the bit of a pin, in a pair of registers for pins 16 to
    23 and 0 to 15. *)
Definition pin_reg (hi lo : ereg) (n : Z) : reg := if n <? 16 then ep lo else ep hi.
Definition pin_bit (n : Z) : Z := if n <? 16 then n else n - 16.

(** The pins of a chip. *)
Definition pin_ok (d : phy_data_t) (n : Z) : Prop :=
  0 <= n < 24 /\ (dev_model (pd_dev d) = 0x2c -> n < 16).
Definition pin_bad (d : phy_data_t) (n : Z) : Prop :=
  (dev_model (pd_dev d) = 0x26 \/ dev_model (pd_dev d) = 0x27) /\ 23 < n \/
  dev_model (pd_dev d) = 0x2c /\ 15 < n.

(** [r] is written once, and only its bit [b] changes, to [v]. *)
Definition sets_bit dev (r : reg) (b : Z) (v : bool) (l : list access) : Prop :=
  exists x w, l = [ARd dev r x; AWr dev r w] /\
    forall i, 0 <= i < 16 -> Z.testbit w i = if i =? b then v else Z.testbit x i.

Section Gpio.
Context {B : Type} {CO : Callout B} {OK : BusOk CO}.
Implicit Types (dev : Z) (d : phy_data_t) (t : gmap Z phy_data_t).
Local Abbreviation does := (does (B := B)).

Lemma pin_ok_bit d n : pin_ok d n -> 0 <= pin_bit n < 16.
Proof. intros [Hn _]. unfold pin_bit. destruct (Z.ltb_spec n 16); lia. Qed.

Lemma does_gpio_not_valid dev d t n (Q : bool -> gmap Z phy_data_t -> list access -> Prop) :
  t !! dev = Some d ->
  (forall b, (pin_ok d n -> b = false) -> (pin_bad d n -> b = true) -> Q b t []) ->
  does (gpio_not_valid dev n) t Q.
Proof.
  intros Hd HQ. unfold gpio_not_valid. does_step. eapply does_is_lan8814; [done|].
  does_step. eapply does_is_lan966x; [done|]. does_step. eapply does_is_lan8842; [done|].
  does_step. apply HQ.
  - intros [Hn Hm]. destruct (Z.eqb_spec (dev_model (pd_dev d)) 0x2c); lia.
  - intros [[[H|H] Hn]|[H Hn]]; rewrite H; cbn; lia.
Qed.

(** A flag written to the pin's bit of a pair of registers. *)
Lemma does_pin dev (hi lo : ereg) n (v : bool) t (Q : unit -> gmap Z phy_data_t -> list access -> Prop) :
  ep_ok hi = true -> ep_ok lo = true -> 0 <= n < 24 ->
  (forall l, sets_bit dev (pin_reg hi lo n) (pin_bit n) v l -> Q tt t l) ->
  does (if n <? 16 then EP_WRM dev lo (if v then 1 .<< n else 0) (1 .<< n)
        else if n <? 24 then EP_WRM dev hi (if v then 1 .<< (n - 16) else 0) (1 .<< (n - 16))
        else ret tt) t Q.
Proof.
  intros Hhi Hlo Hn HQ. unfold pin_reg, pin_bit in HQ. destruct (Z.ltb_spec n 16).
  - apply does_EP_WRM; [done|]. intros x _. apply HQ. eexists _, _. split; [done|].
    intros i Hi. by apply testbit_flag; [lia|].
  - rewrite (proj2 (Z.ltb_lt n 24)) by lia. apply does_EP_WRM; [done|]. intros x _. apply HQ.
    eexists _, _. split; [done|]. intros i Hi. by apply testbit_flag; [lia|].
Qed.

(** Setting an output pin changes that pin's bit of the data register and
    nothing else. *)
Theorem gpio_out_spec dev d t n v :
  t !! dev = Some d -> pin_ok d n ->
  does (lan8814_gpio_out_set dev n v) t (fun rc t' l => rc = MEPA_RC_OK /\ t' = t /\
    sets_bit dev (pin_reg LAN8814_GPIO_DATA1 LAN8814_GPIO_DATA2 n) (pin_bit n) (tb v) l).
Proof.
  intros Hd Hn. unfold lan8814_gpio_out_set. does_step. eapply does_gpio_not_valid; [done|].
  intros b Hb _. rewrite Hb by done. do 2 does_step. does_step.
  apply does_pin; [done|done|apply Hn|]. intros l Hl. does_auto. cbn [app].
  by rewrite app_nil_r.
Qed.

(** Reading an input pin reads one register and reports its bit of it. *)
Theorem gpio_in_spec dev d t n cur :
  t !! dev = Some d -> pin_ok d n ->
  does (lan8814_gpio_in_get dev n cur) t (fun r t' l => t' = t /\ exists x,
    l = [ARd dev (pin_reg LAN8814_GPIO_DATA1 LAN8814_GPIO_DATA2 n) x] /\
    r = (MEPA_RC_OK, cb (Z.testbit x (pin_bit n)))).
Proof.
  intros Hd Hn. unfold lan8814_gpio_in_get. does_step. eapply does_gpio_not_valid; [done|].
  intros b Hb _. rewrite Hb by done. do 2 does_step. does_step.
  assert (forall x k, 0 <= k -> cb (tb ((x .>> k) .& 1)) = cb (Z.testbit x k)) as Hbit.
  { intros x k Hk. change 1 with (1 .<< 0). rewrite tb_bit by lia. by rewrite Z.shiftr_spec. }
  destruct Hn as [Hn _]. unfold pin_reg, pin_bit. destruct (Z.ltb_spec n 16).
  - does_auto. split; [done|]. rewrite Hbit by lia. by eexists.
  - rewrite (proj2 (Z.ltb_lt n 24)) by lia. does_auto. split; [done|].
    rewrite Hbit by lia. by eexists.
Qed.

(** A pin the chip does not have is refused by all three GPIO functions,
    without a register access. *)
Theorem gpio_bad_pin dev d t n v cur led mode :
  t !! dev = Some d -> pin_bad d n ->
  does (lan8814_gpio_out_set dev n v) t (fun rc t' l =>
    rc = MEPA_RC_NOT_IMPLEMENTED /\ t' = t /\ l = []) /\
  does (lan8814_gpio_in_get dev n cur) t (fun r t' l =>
    r = (MEPA_RC_NOT_IMPLEMENTED, cur) /\ t' = t /\ l = []) /\
  does (lan8814_gpio_mode_set dev (Mk_mepa_gpio_conf_t n led mode)) t (fun rc t' l =>
    rc = MEPA_RC_NOT_IMPLEMENTED /\ t' = t /\ l = []).
Proof.
  intros Hd Hn. split_and!.
  - unfold lan8814_gpio_out_set. does_step. eapply does_gpio_not_valid; [done|].
    intros b _ Hb. rewrite Hb by done. by does_step.
  - unfold lan8814_gpio_in_get. does_step. eapply does_gpio_not_valid; [done|].
    intros b _ Hb. rewrite Hb by done. by does_step.
  - unfold lan8814_gpio_mode_set. cbn [gpio_gpio_no]. does_step.
    eapply does_gpio_not_valid; [done|]. intros b _ Hb. rewrite Hb by done. by does_step.
Qed.

(** Making a pin an output or an input enables it as GPIO and then sets
    its direction; no other pin is touched. *)
Theorem gpio_dir_spec dev d t n led (out : bool) :
  t !! dev = Some d -> pin_ok d n ->
  does (lan8814_gpio_mode_set dev
          (Mk_mepa_gpio_conf_t n led (if out then MEPA_GPIO_MODE_OUT else MEPA_GPIO_MODE_IN))) t
    (fun rc t' l => rc = MEPA_RC_OK /\ t' = t /\ exists l1 l2, l = l1 ++ l2 /\
       sets_bit dev (pin_reg LAN8814_GPIO_EN1 LAN8814_GPIO_EN2 n) (pin_bit n) true l1 /\
       sets_bit dev (pin_reg LAN8814_GPIO_DIR1 LAN8814_GPIO_DIR2 n) (pin_bit n) out l2).
Proof.
  intros Hd Hn. pose proof (pin_ok_bit d n Hn) as Hbit.
  unfold lan8814_gpio_mode_set. cbn [gpio_gpio_no]. does_step.
  eapply does_gpio_not_valid; [done|]. intros b Hb _. rewrite Hb by done. do 3 does_step.
  unfold lan8814_gpio_mode_private. cbn [gpio_gpio_no gpio_mode gpio_led_num].
  replace (((if out then MEPA_GPIO_MODE_OUT else MEPA_GPIO_MODE_IN) =? MEPA_GPIO_MODE_OUT) ||
    ((if out then MEPA_GPIO_MODE_OUT else MEPA_GPIO_MODE_IN) =? MEPA_GPIO_MODE_IN)) with true
    by by destruct out.
  replace (cb ((if out then MEPA_GPIO_MODE_OUT else MEPA_GPIO_MODE_IN) =? MEPA_GPIO_MODE_OUT))
    with (cb out) by by destruct out.
  cbv zeta. cbn [cb]. change (tb 1) with true. cbv iota.
  assert (forall k, cb out .<< k = if out then 1 .<< k else 0) as Hdir.
  { intros k. destruct out; [done|apply Z.shiftl_0_l]. }
  destruct Hn as [Hn _]. unfold pin_reg, pin_bit in *. rewrite !Hdir.
  destruct (Z.ltb_spec n 16); [|rewrite (proj2 (Z.ltb_lt n 24)) by lia]; does_auto;
    (split_and!; [done..|]); eexists [_; _], [_; _]; (split; [reflexivity|]);
    (split; eexists _, _; (split; [reflexivity|]); intros i Hi);
    first [by apply (testbit_flag _ _ true); [lia|] | by apply testbit_flag; [lia|]].
Qed.

(** ** LEDs *)

(** LED_DISABLE_EXTENDED does not take the branch made for it: the
    condition compares the translated mode, so instead of setting the KSZ LED
    mode the function clears it and selects the link/activity mode. *)
Theorem led_disable_extended dev t led :
  led = MEPA_LED0 \/ led = MEPA_LED1 ->
  does (lan8814_led_mode_set dev MEPA_GPIO_MODE_LED_DISABLE_EXTENDED led) t (fun rc t' l =>
    rc = MEPA_RC_OK /\ exists x y w1 w2,
      l = [ARd dev (ep LAN8814_LED_CONTROL_REG1) x; AWr dev (ep LAN8814_LED_CONTROL_REG1) w1;
           ARd dev (ep LAN8814_LED_CONTROL_REG2) y; AWr dev (ep LAN8814_LED_CONTROL_REG2) w2] /\
      w1 .& LAN8814_F_LED_CONTROL_KSZ_LED_MODE = 0 /\
      forall i, 0 <= i < 16 -> Z.testbit w2 i =
        if (led * 4 <=? i) && (i <? led * 4 + 4) then false else Z.testbit y i).
Proof.
  intros Hled. unfold lan8814_led_mode_set.
  replace (negb (led =? MEPA_LED0) && negb (led =? MEPA_LED1)) with false
    by by destruct Hled as [-> | ->].
  change (led_mepa_mode_to_lan8814 MEPA_GPIO_MODE_LED_DISABLE_EXTENDED) with 0xf0.
  cbv zeta. change (0xf0 =? 0xff) with false.
  change (0xf0 =? MEPA_GPIO_MODE_LED_DISABLE_EXTENDED) with false. cbv iota.
  does_auto. split; [done|]. eexists _, _, _, _. split; [reflexivity|]. split.
  - apply Z.bits_inj'. intros i Hi. rewrite Z.land_spec, testbit_rmw, !Z.bits_0 by done.
    destruct (Z.testbit LAN8814_F_LED_CONTROL_KSZ_LED_MODE i); by rewrite ?andb_false_r.
  - intros i Hi. rewrite testbit_last by done.
    destruct Hled as [-> | ->]; bit_cases i; reflexivity.
Qed.
End Gpio.

(** ** The claims at a concrete PHY *)
Definition model (m : Z) (d : phy_data_t) : phy_data_t := set_dev (set_dev_model m) d.

Lemma gpio_out_spec_witness :
  does (B := sim) (lan8814_gpio_out_set 100 17 1) (quad_table (model 0x26 phy_data_t_0))
    (fun rc _ l => rc = MEPA_RC_OK /\ sets_bit 100 (ep LAN8814_GPIO_DATA1) 1 true l).
Proof.
  eapply does_mono.
  - apply (gpio_out_spec 100 (quad_data 0 (model 0x26 phy_data_t_0)) (quad_table (model 0x26 phy_data_t_0)) 17 1);
      [reflexivity|split; [lia|intros H; vm_compute in H; lia]].
  - intros rc _ l (Hrc & _ & Hl). split; [exact Hrc|exact Hl].
Defined.

Lemma gpio_in_spec_witness :
  does (B := sim) (lan8814_gpio_in_get 100 3 0) (quad_table (model 0x2c phy_data_t_0))
    (fun r _ l => exists x, l = [ARd 100 (ep LAN8814_GPIO_DATA2) x] /\
       r = (MEPA_RC_OK, cb (Z.testbit x 3))).
Proof.
  eapply does_mono.
  - apply (gpio_in_spec 100 (quad_data 0 (model 0x2c phy_data_t_0)) (quad_table (model 0x2c phy_data_t_0)) 3 0);
      [reflexivity|split; lia].
  - intros r _ l [_ H]. exact H.
Defined.

Lemma gpio_bad_pin_witness :
  does (B := sim) (lan8814_gpio_out_set 100 16 1) (quad_table (model 0x2c phy_data_t_0))
    (fun rc _ l => rc = MEPA_RC_NOT_IMPLEMENTED /\ l = []).
Proof.
  eapply does_mono.
  - refine (proj1 (gpio_bad_pin 100 (quad_data 0 (model 0x2c phy_data_t_0))
      (quad_table (model 0x2c phy_data_t_0)) 16 1 0 0 0 _ _)); [reflexivity|].
    right. split; [reflexivity|lia].
  - intros rc _ l (H & _ & Hl). split; [exact H|exact Hl].
Defined.

Lemma gpio_dir_spec_witness :
  does (B := sim) (lan8814_gpio_mode_set 100 (Mk_mepa_gpio_conf_t 20 0 MEPA_GPIO_MODE_OUT))
    (quad_table (model 0x26 phy_data_t_0)) (fun rc _ l => rc = MEPA_RC_OK).
Proof.
  eapply does_mono.
  - apply (gpio_dir_spec 100 (quad_data 0 (model 0x26 phy_data_t_0)) (quad_table (model 0x26 phy_data_t_0)) 20 0 true);
      [reflexivity|split; [lia|intros H; vm_compute in H; lia]].
  - intros rc _ l [H _]. exact H.
Defined.

Lemma led_disable_extended_witness :
  does (B := sim) (lan8814_led_mode_set 100 MEPA_GPIO_MODE_LED_DISABLE_EXTENDED MEPA_LED1)
    (quad_table phy_data_t_0) (fun rc _ l => rc = MEPA_RC_OK).
Proof.
  eapply does_mono.
  - apply (led_disable_extended 100 _ MEPA_LED1). by right.
  - intros rc _ l [H _]. exact H.
Defined.
