(* ===== verification/Lan8814DiagSpec.v ===== *)
(** * Lan8814DiagSpec: what the diagnostic functions do

    Bounded waiting, the results and side effects of cable diagnostics, the
    self-test counters, SerDes and PRBS settings, and the loopbacks. *)

From Stdlib Require Import ZArith Lia List Bool String.
From stdpp Require Import base gmap strings list.
From S2P Require Import Prelude Machine Enums Lan8814Regs Lan8814Types Trace Mdio Lan8814Access SimPhy AccessLemmas Lan8814Conf Lan8814Diag Lan8814ConfSpec Lan8814ModeSpec.

Definition r_cable : reg := Direct LAN8814_CABLE_DIAG.

Section Cable.
Context {B : Type} {CO : Callout B} {OK : BusOk CO}.
Implicit Types (dev : Z) (d : phy_data_t) (t : gmap Z phy_data_t).
Local Abbreviation does := (does (B := B)).

(** Reads that show the test still running. *)
Definition busy dev (a : access) : Prop :=
  exists v, a = ARd dev r_cable v /\ Z.testbit v 15 = true.

Lemma does_wait_cable dev n cur t (Q : bool -> gmap Z phy_data_t -> list access -> Prop) :
  (forall b l, (if b : bool
                then exists l0 v, l = l0 ++ [ARd dev r_cable v] /\ Z.testbit v 15 = false /\
                       (length l0 < n)%nat /\ Forall (busy dev) l0
                else length l = n /\ Forall (busy dev) l) -> Q b t l) ->
  does (wait_cable dev n cur) t Q.
Proof.
  revert cur Q. induction n as [|n IH]; intros cur Q HQ; cbn [wait_cable].
  { does_step. by apply HQ. }
  do 2 does_step. change LAN8814_F_CABLE_DIAG_TEST_ENA with (1 .<< 15). rewrite tb_bit by lia.
  destruct (Z.testbit v 15) eqn:E.
  - does_step. does_step. apply IH. intros b l Hl. cbn [app]. apply HQ.
    assert (busy dev (ARd dev r_cable v)) as Hb by by exists v.
    destruct b.
    + destruct Hl as (l0 & w & -> & Hw & Hn & Hl). exists (ARd dev r_cable v :: l0), w.
      split_and!; [done|done|cbn; lia|by constructor].
    + destruct Hl as [Hn Hl]. split; [cbn; lia|by constructor].
  - does_step. apply HQ. exists [], v. split_and!; [done|done|cbn; lia|constructor].
Qed.

(** The wait for a cable test ends: it reads the diagnostic register at
    most 100 times, succeeds at the first read that shows the test done, and
    gives up only after 100 reads that show it running. *)
Theorem cable_wait_bounded dev t :
  does (lan8814_wait_for_cable_diagnostics dev) t (fun ok t' l => t' = t /\
    (length l <= 100)%nat /\
    if ok : bool
    then exists l0 v, l = l0 ++ [ARd dev r_cable v] /\ Z.testbit v 15 = false /\ Forall (busy dev) l0
    else length l = 100%nat /\ Forall (busy dev) l).
Proof.
  unfold lan8814_wait_for_cable_diagnostics. apply does_wait_cable. intros [] l Hl.
  - destruct Hl as (l0 & v & -> & Hv & Hn & Hl). split_and!; [done| |by exists l0, v].
    rewrite length_app. cbn. lia.
  - split_and!; [done|lia|by destruct Hl..].
Qed.

(** One pair: only its own status and length change. *)
Definition diag_kept d d' : Prop :=
  exists c, d' = set_pd_cable_diag c d.

Lemma diag_kept_trans d1 d2 d3 : diag_kept d1 d2 -> diag_kept d2 d3 -> diag_kept d1 d3.
Proof. intros [c ->] [c' ->]. by exists c'. Qed.

Lemma does_cab_diag_pair dev d t pair (Q : unit -> gmap Z phy_data_t -> list access -> Prop) :
  t !! dev = Some d ->
  (forall d' l, diag_kept d d' -> Q tt (<[dev := d']> t) l) ->
  does (cab_diag_pair dev pair) t Q.
Proof.
  intros Hd HQ.
  assert (forall l, Q tt t l) as HQ0.
  { intros l. rewrite <- (insert_id t dev d) by done. apply HQ. exists (pd_cable_diag d).
    by destruct d. }
  unfold cab_diag_pair. do 4 does_step. cbv zeta. does_step. apply does_wait_cable.
  intros [] l0 _; [|by does_step]. do 2 does_step. cbv zeta.
  destruct (_ || _); [|destruct (_ =? _)].
  - does_auto. apply HQ. by eexists.
  - does_auto. apply HQ. by eexists.
  - by does_step.
Qed.

Lemma does_cab_pairs dev pairs d t (Q : unit -> gmap Z phy_data_t -> list access -> Prop) :
  t !! dev = Some d ->
  (forall d' l, diag_kept d d' -> Q tt (<[dev := d']> t) l) ->
  does (seq_ (cab_diag_pair dev) pairs) t Q.
Proof.
  revert d t Q. induction pairs as [|p pairs IH]; intros d t Q Hd HQ; cbn [seq_].
  { does_step. rewrite <- (insert_id t dev d) by done. apply HQ. exists (pd_cable_diag d).
    by destruct d. }
  does_step. eapply does_cab_diag_pair; [done|]. intros d1 l1 H1.
  eapply IH; [apply lookup_insert_eq|]. intros d2 l2 H2. rewrite insert_insert_eq.
  apply HQ. by eapply diag_kept_trans.
Qed.

Lemma based_insert dev d d' t :
  based d t -> pd_base_dev d' = pd_base_dev d -> based d' (<[dev := d']> t).
Proof.
  intros Hb E b Eb. rewrite E in Eb. destruct (decide (b = dev)) as [->|Hne].
  - rewrite lookup_insert_eq. by eexists.
  - rewrite lookup_insert_ne by done. by apply Hb.
Qed.

Lemma does_upd_diag dev d t f (Q : unit -> gmap Z phy_data_t -> list access -> Prop) :
  t !! dev = Some d ->
  (forall d', diag_kept d d' -> Q tt (<[dev := d']> t) []) -> does (upd dev (set_diag f)) t Q.
Proof. intros Hd HQ. eapply does_upd; [done|]. apply HQ. by eexists. Qed.

(** The results are cleared before anything is tested. *)
Lemma does_cab_diag_init dev pairs d t (Q : unit -> gmap Z phy_data_t -> list access -> Prop) :
  t !! dev = Some d ->
  (forall d', diag_kept d d' -> Q tt (<[dev := d']> t) []) ->
  does (seq_ (fun pair =>
          upd dev (set_diag (diag_status pair MEPA_CABLE_DIAG_STATUS_UNKNOWN)) ;;;
          upd dev (set_diag (diag_length pair 0)) ;;;
          upd dev (set_diag (set_cd_link FALSE))) pairs) t Q.
Proof.
  revert d t Q. induction pairs as [|p pairs IH]; intros d t Q Hd HQ; cbn [seq_].
  { does_step. rewrite <- (insert_id t dev d) by done. apply HQ. exists (pd_cable_diag d).
    by destruct d. }
  do 2 does_step. eapply does_upd_diag; [done|]. intros d1 H1.
  does_step. eapply does_upd_diag; [apply lookup_insert_eq|]. intros d2 H2. rewrite insert_insert_eq.
  eapply does_upd_diag; [apply lookup_insert_eq|]. intros d3 H3. rewrite insert_insert_eq.
  eapply IH; [apply lookup_insert_eq|]. intros d4 H4. rewrite insert_insert_eq. apply HQ.
  eauto using diag_kept_trans.
Qed.

(** Cable diagnostics in power-down mode is refused; on a link that is up
    it only records that; otherwise it tests, and its final reset disables the
    frame preemption of a base port, whatever it was. *)
Theorem cab_diag_spec dev d t mode :
  t !! dev = Some d -> based d t -> pd_base_dev d = Some dev ->
  does (lan8814_cab_diag_start dev mode) t (fun rc t' l =>
    exists d', t' = <[dev := d']> t /\
    if mode =? LAN8814_CABLE_MODE_POWER_DOWN then rc = MEPA_RC_ERROR /\ l = [] /\ diag_kept d d'
    else rc = MEPA_RC_OK /\ exists v l', l = ARd dev (Direct LAN8814_BASIC_STATUS) v :: l' /\
      if Z.testbit v 2
      then l' = [] /\ diag_kept d d' /\ cd_link (pd_cable_diag d') = TRUE
      else pd_framepreempt_en d' = FALSE).
Proof.
  intros Hd Hb Hbase. unfold lan8814_cab_diag_start, lan8814_cab_diag_start_. do 3 does_step.
  does_step. eapply does_cab_diag_init; [done|]. intros d1 H1.
  destruct (mode =? LAN8814_CABLE_MODE_POWER_DOWN).
  { does_auto. by eexists. }
  repeat does_step. cbv beta. change LAN8814_F_BASIC_STATUS_LINK_STATUS with (1 .<< 2).
  rewrite tb_bit by lia. cbn [pd_cable_diag set_diag set_pd_cable_diag cd_link set_cd_link].
  rewrite cb_tb. destruct H1 as [c ->].
  destruct (Z.testbit v 2) eqn:Ev.
  { does_auto. eexists. split; [done|]. split; [done|]. exists v, []. rewrite Ev.
    split_and!; [done|done|by eexists|done]. }
  match goal with |- does _ (<[_ := ?x]> _) _ => assert (diag_kept d x) as H2 by by eexists;
    set (d2 := x) in * end.
  unfold lan8814_cab_diag_enter_config.
  repeat (lazymatch goal with |- does (seq_ _ _) _ _ => fail | _ => does_step end; cbv beta zeta).
  eapply does_cab_pairs; [apply lookup_insert_eq|]. intros d3 l3 Hk3. rewrite insert_insert_eq.
  destruct (diag_kept_trans _ _ _ H2 Hk3) as [c3 ->].
  does_step. unfold lan8814_restore_config_. does_step.
  eapply does_reset_default; [apply lookup_insert_eq|by eapply based_insert|done|].
  intros d4 l4 _ _ _ Hf. rewrite insert_insert_eq. does_auto.
  exists d4. split; [done|]. split; [done|]. eexists v, _. rewrite Ev. split; [done|].
  by apply Hf.
Qed.
End Cable.

(** ** Self-test *)
Section SelfTest.
Context {B : Type} {CO : Callout B} {OK : BusOk CO}.
Implicit Types (dev : Z) (d : phy_data_t) (t : gmap Z phy_data_t).
Local Abbreviation does := (does (B := B)).

(** The number of frames the reader of the self-test computes from the two
    halves of a counter. *)
Definition frames_of (hi lo : Z) : Z := u32 (hi .<< 16) .| lo.

Lemma frames_split n : 0 <= n < 4294967296 ->
  frames_of (u16 ((n .& 0xFFFF0000) .>> 16)) (u16 (n .& 0xFFFF)) = n.
Proof.
  intros Hn. unfold frames_of.
  assert ((n .& 0xFFFF0000) .>> 16 = (n .>> 16) .& 0xFFFF) as ->.
  { apply Z.bits_inj'. intros i Hi. rewrite Z.shiftr_spec, !Z.land_spec, Z.shiftr_spec by lia.
    f_equal. change 0xFFFF0000 with (0xFFFF .<< 16). rewrite Z.shiftl_spec by lia. f_equal. lia. }
  destruct (split32_halves n Hn) as [Hh Hl]. rewrite !u16_small by done.
  rewrite u32_small; [by apply split32|]. rewrite Z.shiftl_mul_pow2 by lia. lia.
Qed.

(** The self-test programs the packet counter so that it reads back as
    the number of frames asked for, before it enables the generator. *)
Theorem selftest_frames dev t n :
  0 <= n < 4294967296 ->
  does (selftest_run dev n) t (fun rc t' l => rc = MEPA_RC_OK /\ t' = t /\
    exists lo hi l1 x, wrote dev (ep LAN8814_SELFTEST_PKT_CNT_LO) l = [lo] /\
      wrote dev (ep LAN8814_SELFTEST_PKT_CNT_HI) l = [hi] /\ frames_of hi lo = n /\
      l = l1 ++ [ARd dev (ep LAN8814_SELFTEST_PGEN_EN) x;
                 AWr dev (ep LAN8814_SELFTEST_PGEN_EN) LAN8814_F_SELFTEST_PGEN_EN] /\
      wrote dev (ep LAN8814_SELFTEST_PGEN_EN) l1 = []).
Proof.
  intros Hn. unfold selftest_run. does_auto. split; [done|]. split; [done|].
  eexists _, _, [_; _; _; _; _; _; _; _; _; _; _; _], _.
  split; [cbn -[u16 Z.land Z.shiftr]; rewrite !Z.eqb_refl; reflexivity|].
  split; [cbn -[u16 Z.land Z.shiftr]; rewrite !Z.eqb_refl; reflexivity|].
  split; [by apply frames_split|]. split; [reflexivity|].
  cbn -[u16 Z.land Z.shiftr]. by rewrite !Z.eqb_refl.
Qed.

(** ** SerDes and PRBS *)

(** A field of [w] bits at [o] of a register. *)
Definition field (o w x : Z) : Z := (x .>> o) .& Z.ones w.

Lemma field_range o w x : 0 <= w -> 0 <= field o w x < 2 ^ w.
Proof. intros Hw. unfold field. rewrite Z.land_ones by done. apply Z.mod_pos_bound. lia. Qed.

Lemma testbit_field o w x i : 0 <= o -> 0 <= w -> 0 <= i ->
  Z.testbit (field o w x) i = (i <? w) && Z.testbit x (i + o).
Proof.
  intros Ho Hw Hi. unfold field. rewrite Z.land_spec, Z.shiftr_spec, Z.testbit_ones by done.
  rewrite (proj2 (Z.leb_le 0 i)) by done. apply andb_comm.
Qed.

(** What [LAN8814_ENCODE_BITFIELD] and a write leave in a field. *)
Lemma testbit_encode v o w i : 0 <= o -> 0 <= w -> 0 <= i ->
  Z.testbit (LAN8814_ENCODE_BITFIELD v o w) i = (o <=? i) && (i <? o + w) && Z.testbit v (i - o).
Proof.
  intros Ho Hw Hi. unfold LAN8814_ENCODE_BITFIELD, LAN8814_BIT_MASK.
  rewrite Z.shiftl_spec by done.
  replace ((1 .<< w) - 1) with (Z.ones w) by (unfold Z.ones; lia).
  destruct (Z.leb_spec o i); [|by rewrite Z.testbit_neg_r by lia].
  rewrite Z.land_spec, Z.testbit_ones by lia.
  rewrite (proj2 (Z.leb_le 0 (i - o))), andb_true_l, andb_comm by lia.
  by replace (i - o <? w) with (i <? o + w) by lia.
Qed.

(** The transmit register holds both fields. *)
Lemma serdes_fields x level boost : 0 <= level < 128 -> 0 <= boost < 128 ->
  let w := rmw x (LAN8814_QSGMII_SERDES_TX_LEVEL level .| LAN8814_QSGMII_SERDES_TX_BOOST boost) 0x3fff in
  field 7 7 w = level /\ field 0 7 w = boost /\ field 14 2 w = field 14 2 x.
Proof.
  intros Hl Hb w. change 0x3fff with (Z.ones 14) in w.
  assert (forall i, 0 <= i -> Z.testbit w i = (i <? 16) &&
    (if i <? 14 then ((7 <=? i) && Z.testbit level (i - 7)) || ((i <? 7) && Z.testbit boost i)
     else Z.testbit x i)) as Hw.
  { intros i Hi. subst w. rewrite testbit_rmw, Z.testbit_ones, (proj2 (Z.leb_le 0 i)) by lia.
    cbn [andb]. f_equal. destruct (Z.ltb_spec i 14); [|done].
    unfold LAN8814_QSGMII_SERDES_TX_LEVEL, LAN8814_QSGMII_SERDES_TX_BOOST.
    rewrite Z.lor_spec, !testbit_encode by lia.
    rewrite Z.sub_0_r, (proj2 (Z.ltb_lt i (7 + 7))), (proj2 (Z.leb_le 0 i)) by lia.
    by rewrite andb_true_r. }
  clearbody w.
  split_and!; apply Z.bits_inj'; intros i Hi; rewrite !testbit_field, ?Hw by lia.
  - destruct (Z.ltb_spec i 7).
    + rewrite (proj2 (Z.ltb_lt (i + 7) 16)), (proj2 (Z.ltb_lt (i + 7) 14)),
        (proj2 (Z.leb_le 7 (i + 7))), (proj2 (Z.ltb_ge (i + 7) 7)) by lia.
      cbn [andb]. rewrite orb_false_r. f_equal. lia.
    + symmetry. apply (testbit_small level 7); lia.
  - destruct (Z.ltb_spec i 7).
    + rewrite Z.add_0_r, (proj2 (Z.ltb_lt i 16)), (proj2 (Z.ltb_lt i 14)),
        (proj2 (Z.leb_gt 7 i)), (proj2 (Z.ltb_lt i 7)) by lia. done.
    + symmetry. apply (testbit_small boost 7); lia.
  - destruct (Z.ltb_spec i 2); [|done].
    by rewrite (proj2 (Z.ltb_lt (i + 14) 16)), (proj2 (Z.ltb_ge (i + 14) 14)) by lia.
Qed.

(** The QSGMII transmit setting is taken on the base port only, and only
    for values of 7 bits: the level goes to bits 13 to 7 and the boost to bits
    6 to 0 of the register, the top bits stay, and the block is reset; any
    other request is an error without a register access. *)
Theorem serdes_tx_spec dev d t c :
  t !! dev = Some d -> 0 <= tx_level c -> 0 <= tx_boost c ->
  does (lan8814_serdes_tx_conf_set dev c) t (fun rc t' l => t' = t /\
    if bool_decide (pd_base_dev d = Some dev) && (tx_level c <? 128) && (tx_boost c <? 128)
    then rc = MEPA_RC_OK /\
      exists x w y v, l = [ARd dev (ep LAN8814_QSGMII_SERDES_TX_CTRL) x;
                           AWr dev (ep LAN8814_QSGMII_SERDES_TX_CTRL) w;
                           ARd dev (ep LAN8814_QSGMII_SOFT_RESET) y;
                           AWr dev (ep LAN8814_QSGMII_SOFT_RESET) v] /\
        field 7 7 w = tx_level c /\ field 0 7 w = tx_boost c /\ field 14 2 w = field 14 2 x /\
        Z.testbit v 0 = true
    else rc = MEPA_RC_ERROR /\ l = []).
Proof.
  intros Hd Hl Hb. unfold lan8814_serdes_tx_conf_set. do 2 does_step.
  destruct (pd_base_dev d) as [b|].
  2: { rewrite bool_decide_false by done. by does_step. }
  destruct (Z.eqb_spec b dev) as [->|Hne].
  2: { rewrite bool_decide_false by congruence. cbn [negb]. by does_step. }
  rewrite bool_decide_true by done. cbn [negb andb]. rewrite !Z.gtb_ltb.
  destruct (Z.ltb_spec (tx_boost c) 128); [rewrite (proj2 (Z.ltb_ge 127 (tx_boost c))) by lia|
    rewrite (proj2 (Z.ltb_lt 127 (tx_boost c))) by lia].
  - destruct (Z.ltb_spec (tx_level c) 128); [rewrite (proj2 (Z.ltb_ge 127 (tx_level c))) by lia|
      rewrite (proj2 (Z.ltb_lt 127 (tx_level c))) by lia].
    + does_auto. split; [done|]. split; [done|]. eexists _, _, _, _. split; [reflexivity|].
      destruct (serdes_fields x (tx_level c) (tx_boost c)) as (Hf7 & Hf0 & Hf14); [lia..|].
      split_and!; try done. by rewrite testbit_last.
    + by does_auto.
  - rewrite andb_false_r. by does_auto.
Qed.

Lemma does_serdes_set dev t a v rd (Q : Z -> gmap Z phy_data_t -> list access -> Prop) :
  (forall l, l <> [] -> Q MEPA_RC_OK t l) -> does (lan8814_serdes_set dev a v rd) t Q.
Proof.
  intros HQ. unfold lan8814_serdes_set. do 3 does_step.
  destruct (negb (tb rd)); does_auto; by apply HQ.
Qed.

(** A table of SerDes writes always succeeds. *)
Lemma does_serdes_table dev t tab (Q : Z -> gmap Z phy_data_t -> list access -> Prop) :
  tab <> [] ->
  (forall l, l <> [] -> Q MEPA_RC_OK t l) -> does (serdes_table dev tab) t Q.
Proof.
  revert Q. induction tab as [|[[a v] rd] tab IH]; intros Q Hne HQ; [done|]. cbn [serdes_table].
  does_step. apply does_serdes_set. intros l Hl. change (MEPA_RC_OK <? 0) with false. cbv iota.
  assert (forall l', l ++ l' <> []) as Hl' by (destruct l; [done|intros ?; discriminate]).
  destruct tab as [|e tab]; [cbn [serdes_table]; does_step; by apply HQ|].
  apply IH; [discriminate|]. intros l' _. by apply HQ.
Qed.

(** A PRBS7 request whose loopback is not the internal one fails after the
    SerDes was set up, and is stored as the current configuration all the
    same. *)
Theorem prbs_failed_stored dev d t c :
  t !! dev = Some d -> prbs_prbsn_sel c = MEPA_PRBS7 -> tb (prbs_enable c) = true ->
  prbs_loopback c <> MEPA_PRBS_INTERNAL_LOOPBACK ->
  does (rc <- lan8814_prbs_set dev MEPA_PHY_PRBS_TYPE_SERDES MEPA_PHY_DIRECTION_HOST (Some c) ;;
        r <- lan8814_prbs_get dev ;; ret (rc, r)) t
    (fun r t' l => r = (MEPA_RC_ERROR, (MEPA_RC_OK, c)) /\ l <> [] /\
       t' = <[dev := set_pd_prbs_conf c d]> t).
Proof.
  intros Hd Hsel Hen Hlb. unfold lan8814_prbs_set. rewrite Hsel. does_step.
  change (_ || _) with false. cbv iota.
  change ((MEPA_PHY_DIRECTION_HOST =? MEPA_PHY_DIRECTION_HOST) &&
    (MEPA_PHY_PRBS_TYPE_SERDES =? MEPA_PHY_PRBS_TYPE_SERDES) && (MEPA_PRBS7 =? MEPA_PRBS7)) with true.
  cbv iota. repeat does_step. unfold lan8814_prbs7_set. rewrite Hen. does_step.
  unfold lan8814_prbs7_init. apply does_serdes_table; [discriminate|]. intros l Hl.
  change (MEPA_RC_OK <? MEPA_RC_OK) with false. cbv iota.
  unfold lan8814_prbs7_loopback. rewrite (proj2 (Z.eqb_neq _ _) Hlb).
  unfold lan8814_prbs_get. do 2 does_step. change (MEPA_RC_ERROR <? MEPA_RC_OK) with true. cbv iota.
  does_auto. split_and!; [done| |done].
  destruct l; [done|intros ?; discriminate].
Qed.
End SelfTest.

(** ** Loopbacks *)
Section Loopback.
Context {B : Type} {CO : Callout B} {OK : BusOk CO}.
Implicit Types (dev : Z) (d : phy_data_t) (t : gmap Z phy_data_t).
Local Abbreviation does := (does (B := B)).

Definition near_end : mepa_loopback_t := set_lb_near_end_ena TRUE mepa_loopback_t_0.

(** Run to the next decision; the settings are known. *)
Ltac lb_run d Hlb Hsp :=
  repeat (first
    [ does_step
    | match goal with |- does (if ?b then _ else _) _ _ =>
        first [change b with true | change b with false]; cbv iota end
    | progress (cbv beta zeta; cbn [pd_conf pd_loopback set_pd_loopback];
        rewrite ?Hlb; fold (aneg_speed (pd_conf d)); rewrite ?Hsp) ]).

(** On a negotiating port, the near-end loopback is set in the basic
    control register at a forced 1G, and removed with auto-negotiation enabled
    and restarted; the removal clears the manual master or slave role in
    register 9, also when one is configured. *)
Theorem near_end_cycle dev d t :
  t !! dev = Some d -> pd_loopback d = mepa_loopback_t_0 -> aneg_speed (pd_conf d) = true ->
  does (lan8814_loopback_set dev near_end ;;; lan8814_loopback_set dev mepa_loopback_t_0) t
    (fun rc t' l => rc = MEPA_RC_OK /\ t' = t /\
       (exists v1 v2 v3 v4 v5, wrote dev bmcr l = [v1; v2; v3; v4; v5] /\
          Z.testbit v1 14 = true /\ Z.testbit v2 12 = false /\
          Z.testbit v3 6 = true /\ Z.testbit v3 13 = false /\
          Z.testbit v4 14 = false /\ Z.testbit v5 12 = true /\ Z.testbit v5 9 = true) /\
       exists w, wrote dev r_1g l = [w] /\ Z.testbit w 12 = false /\ Z.testbit w 11 = false).
Proof.
  intros Hd Hlb Hsp. unfold lan8814_loopback_set.
  unfold lb_far_end, lb_near_end, lb_connector, lb_ep, lb_switch, lb_restore_aneg, lb_force_1g.
  do 3 does_step. lb_run d Hlb Hsp.
  assert (set_pd_loopback mepa_loopback_t_0 (set_pd_loopback near_end d) = d) as ->.
  { rewrite <- Hlb. by destruct d. }
  rewrite insert_id by done. split; [done|]. split; [done|].
  cbn -[rmw Z.testbit]. rewrite !Z.eqb_refl. cbn -[rmw Z.testbit]. split.
  - do 5 eexists. split; [reflexivity|]. rewrite !testbit_last by lia. by split_and!.
  - eexists. split; [reflexivity|]. rewrite !testbit_last by lia. by split_and!.
Qed.
End Loopback.

(** ** The claims at a concrete PHY *)

Lemma cable_wait_bounded_witness :
  does (B := sim) (lan8814_wait_for_cable_diagnostics 100) (quad_table phy_data_t_0)
    (fun _ _ l => (length l <= 100)%nat).
Proof.
  eapply does_mono.
  - apply (cable_wait_bounded 100 (quad_table phy_data_t_0)).
  - intros ok t' l (_ & H & _). exact H.
Defined.

Lemma cab_diag_spec_witness :
  does (B := sim) (lan8814_cab_diag_start 100 0)
    (quad_table (set_pd_framepreempt_en TRUE phy_data_t_0)) (fun rc _ l => rc = MEPA_RC_OK /\ l <> []).
Proof.
  eapply does_mono.
  - apply (cab_diag_spec 100 (quad_data 0 (set_pd_framepreempt_en TRUE phy_data_t_0)) _ 0);
      [reflexivity|intros b [= <-]; by eexists|reflexivity].
  - intros rc t' l (d' & _ & Hrc & v & l' & Hl & _). split; [exact Hrc|]. rewrite Hl. discriminate.
Defined.

Lemma selftest_frames_witness :
  does (B := sim) (selftest_run 100 0x12345678) (quad_table phy_data_t_0)
    (fun rc _ l => exists lo hi, wrote 100 (ep LAN8814_SELFTEST_PKT_CNT_LO) l = [lo] /\
       wrote 100 (ep LAN8814_SELFTEST_PKT_CNT_HI) l = [hi] /\ frames_of hi lo = 0x12345678).
Proof.
  eapply does_mono.
  - apply (selftest_frames 100 (quad_table phy_data_t_0) 0x12345678). lia.
  - intros rc t' l (_ & _ & lo & hi & l1 & x & Hlo & Hhi & Hf & _). exists lo, hi. by split_and!.
Defined.

Lemma serdes_tx_spec_witness :
  does (B := sim) (lan8814_serdes_tx_conf_set 100 (Mk_mepa_serdes_tx_conf_t 100 5))
    (quad_table phy_data_t_0) (fun rc _ l => rc = MEPA_RC_OK).
Proof.
  eapply does_mono.
  - apply (serdes_tx_spec 100 (quad_data 0 phy_data_t_0)); [reflexivity|cbn; lia|cbn; lia].
  - intros rc t' l [_ H]. apply H.
Defined.

Lemma prbs_failed_stored_witness :
  let c := set_prbs_enable 1 (set_prbs_prbsn_sel MEPA_PRBS7 (set_prbs_loopback 1
             mepa_phy_prbs_generator_conf_t_0)) in
  does (B := sim) (rc <- lan8814_prbs_set 100 MEPA_PHY_PRBS_TYPE_SERDES MEPA_PHY_DIRECTION_HOST (Some c) ;;
        r <- lan8814_prbs_get 100 ;; ret (rc, r)) (quad_table phy_data_t_0)
    (fun r _ _ => r = (MEPA_RC_ERROR, (MEPA_RC_OK, c))).
Proof.
  intros c. eapply does_mono.
  - apply (prbs_failed_stored 100 (quad_data 0 phy_data_t_0) _ c); [reflexivity..|discriminate].
  - intros r t' l [H _]. exact H.
Defined.

Lemma near_end_cycle_witness :
  does (B := sim) (lan8814_loopback_set 101 near_end ;;; lan8814_loopback_set 101 mepa_loopback_t_0)
    (quad_table (set_pd_conf conf_auto phy_data_t_0)) (fun rc _ _ => rc = MEPA_RC_OK).
Proof.
  eapply does_mono.
  - apply (near_end_cycle 101 (quad_data 1 (set_pd_conf conf_auto phy_data_t_0))); reflexivity.
  - intros rc t' l [H _]. exact H.
Defined.
