(* ===== verification/Lan8814DriverSpec.v ===== *)
(** * Lan8814DriverSpec: identification, links and debug access

    The register a debug address names, what happens on a failing bus, the
    driver row a probe selects, and how the links between ports come about. *)

From Stdlib Require Import ZArith Lia List Bool String.
From stdpp Require Import base gmap strings list.
From S2P Require Import Prelude Machine MepaCore Enums Lan8814Regs Lan8814Types Trace Mdio Lan8814Access SimPhy AccessLemmas Lan8814Conf Lan8814Diag Lan8814Driver Lan8814Api Lan8814ConfSpec Lan8814ModeSpec.

(** ** Debug access *)

(** The register of a 32-bit debug address: bits 31 to 27 select an MMD device,
    and, when they are zero, bits 26 to 16 an extended page. *)
Definition clause45_reg (address : Z) : reg :=
  let mmd := address .>> 27 in
  if mmd =? 0 then Ext (address .>> 16) (address .& 65535) else Mmd mmd (address .& 65535).

Section Debug.
Context {B : Type} {CO : Callout B} {OK : BusOk CO}.
Implicit Types (dev : Z) (d : phy_data_t) (t : gmap Z phy_data_t).
Local Abbreviation does := (does (B := B)).

Lemma clause45_decode a : 0 <= a < 4294967296 ->
  (u32 a .>> 16) .& 65535 = a .>> 16 /\ (a .>> 16) .>> 11 = a .>> 27 /\
  0 <= a .>> 16 < 65536 /\ 0 <= a .& 65535 < 65536 /\ 0 <= a .>> 27 < 32 /\
  (a .>> 27 = 0 -> a .>> 16 < 2048).
Proof.
  intros Ha. rewrite u32_small by done. rewrite Z.shiftr_shiftr by lia. change (16 + 11) with 27.
  change 65535 with (Z.ones 16). rewrite !Z.land_ones, !Z.shiftr_div_pow2 by lia.
  assert (0 <= a / 2 ^ 16 < 65536) as H16 by (split; [apply Z.div_pos; lia|apply Z.div_lt_upper_bound; lia]).
  split_and!; try lia.
  - by apply Z.mod_small.
  - apply Z.mod_pos_bound. lia.
  - apply Z.mod_pos_bound. lia.
  - apply Z.div_pos; lia.
  - apply Z.div_lt_upper_bound; lia.
  - intros H0. apply Z.div_lt_upper_bound; [lia|].
    pose proof (Z.div_mod a (2 ^ 27)). pose proof (Z.mod_pos_bound a (2 ^ 27)). lia.
Qed.

(** C13. Debug writes and reads go to the register that the address names, and
    to no other: a write stores the 16-bit value there, and a read returns
    what that register holds. *)
Theorem clause45_spec dev t a v cur :
  0 <= a < 4294967296 ->
  does (rc <- lan8814_ext_mmd_reg_write dev a v ;;
        r <- lan8814_ext_mmd_reg_read dev a cur ;; ret (rc, r)) t
    (fun r t' l => t' = t /\ exists x y, r = (MEPA_RC_OK, (MEPA_RC_OK, y)) /\
       l = [ARd dev (clause45_reg a) x; AWr dev (clause45_reg a) (u16 v);
            ARd dev (clause45_reg a) y]).
Proof.
  intros Ha. destruct (clause45_decode a Ha) as (E1 & E2 & H16 & Hlo & Hmmd & Hpg).
  unfold lan8814_ext_mmd_reg_write, lan8814_ext_mmd_reg_read, clause45_reg. cbv zeta.
  rewrite E1, E2. rewrite (u32_small a) by done. unfold tb.
  destruct (Z.eqb_spec (a .>> 27) 0) as [H0|H0]; cbn [negb]; repeat does_step.
  - apply does_ext_reg_wr; [unfold ep_ok; cbn; specialize (Hpg H0); lia|].
    intros x _. rewrite rmw_all. repeat does_step.
    apply does_ext_reg_rd; [unfold ep_ok; cbn; specialize (Hpg H0); lia|].
    intros y _. does_auto. split; [done|]. by exists x, y.
  - apply does_mmd_reg_wr; [unfold mmd_ok; cbn; lia|].
    intros x _. rewrite rmw_all. repeat does_step.
    apply does_mmd_reg_rd; [unfold mmd_ok; cbn; lia|].
    intros y _. does_auto. split; [done|]. by exists x, y.
Qed.
End Debug.

(** ** A failing bus *)
Section Failing.
Context {B : Type} {CO : Callout B}.
Implicit Types (dev : Z).

(** When the MIIM read fails, a register write writes nothing and still
    reports success, and a register read reports success with the caller's old
    value if nothing was stored. *)
Theorem failing_read_ok dev a v m cur f rc b (w : world B phy_data_t) :
  miim_read = Some f -> f dev (u8 a) (w_bus w) = ((rc, None), b) -> rc <> MEPA_RC_OK ->
  let w' := World b (w_data w) (w_log w ++ [EvRd dev (u8 a) rc None]) in
  lan8814_direct_reg_wr dev a v m w = Some (MEPA_RC_OK, w') /\
  lan8814_direct_reg_rd dev a cur w = Some ((MEPA_RC_OK, cur), w').
Proof.
  intros Hf Hr Hrc w'. unfold lan8814_direct_reg_wr, lan8814_direct_reg_rd, bind, co_read.
  rewrite Hf, Hr. cbn [option_map]. rewrite (proj2 (Z.eqb_neq _ _) Hrc). done.
Qed.
End Failing.

(** ** Links *)
Section Links.
Context {B : Type} {CO : Callout B} {OK : CalloutOk (CO := CO)} (E : env) {EOK : EnvOk E}.

(** Linking the ports [l], each to its base port. *)
Definition link_all (idx : Z -> Z) (l : list Z) : M B phy_data_t unit :=
  seq_ (fun dev => lan8814_link_base_port dev (Some (e_base E dev)) (idx dev) ;;; ret tt) l.

(** Every port has private data with its time stamping state in range, and
    those not in [l] are linked. *)
Definition linked_but (l : list Z) (t : gmap Z phy_data_t) : Prop :=
  forall d, e_devs E d = true -> exists p, t !! d = Some p /\ ts_wf (pd_ts_state p) /\
    (pd_base_dev p = Some (e_base E d) \/ In d l).

Lemma link_one idx dev l (w : world B phy_data_t) :
  e_devs E dev = true -> linked_but (dev :: l) (w_data w) ->
  exists w', lan8814_link_base_port dev (Some (e_base E dev)) (idx dev) w = Some (MEPA_RC_OK, w') /\
    linked_but l (w_data w').
Proof.
  intros Hd Hw. destruct (Hw dev Hd) as (p & Hp & Ht & _).
  destruct (Hw (e_base E dev) (env_base dev Hd)) as (pb & Hpb & _).
  unfold lan8814_link_base_port, bind, data_of. rewrite Hp. cbn [deref ret].
  unfold ret. rewrite Hpb. unfold mepa_enter, mepa_exit. rewrite ok_enter, ok_exit.
  unfold log, upd. cbn [w_data w_bus w_log]. rewrite Hp. cbn [w_data w_bus w_log].
  rewrite lookup_insert_eq. cbn [w_data w_bus w_log]. eexists. split; [reflexivity|].
  cbn [w_data]. rewrite insert_insert_eq. intros x Hx.
  destruct (decide (x = dev)) as [->|Hne].
  - rewrite lookup_insert_eq. eexists. split; [reflexivity|]. split; [exact Ht|by left].
  - rewrite lookup_insert_ne by done. destruct (Hw x Hx) as (q & Hq & Htq & Hor). exists q.
    split; [done|]. split; [done|]. destruct Hor as [H|[->|H]]; [by left|done|by right].
Qed.

(** Linking every port of a chip to its base port establishes what the
    safety of the driver rests on, from private data that names any base port,
    or none. *)
Theorem link_all_linked idx l (w : world B phy_data_t) :
  (forall d, e_devs E d = true <-> In d l) -> (forall d, In d l -> exists p, w_data w !! d = Some p /\ ts_wf (pd_ts_state p)) ->
  exists w', link_all idx l w = Some (tt, w') /\ linked E (w_data w').
Proof.
  intros Hl Hw. assert (linked_but l (w_data w)) as Hb.
  { intros d Hd%Hl. destruct (Hw d Hd) as (p & Hp & Ht). exists p. by split_and!; [..|right]. }
  assert (forall d, In d l -> e_devs E d = true) as Hin by (intros; by apply Hl).
  clear Hl Hw. revert w Hb. unfold link_all.
  induction l as [|dev l IH]; intros w Hb; cbn [seq_].
  - exists w. split; [done|]. intros d Hd. destruct (Hb d Hd) as (p & Hp & Ht & [H|[]]). by exists p.
  - destruct (link_one idx dev l w) as (w1 & H1 & Hb1); [apply Hin; by left|done|].
    destruct (IH (fun d H => Hin d (or_intror H)) w1 Hb1) as (w2 & H2 & Hlk).
    exists w2. split; [|done]. unfold bind at 1 2. rewrite H1. exact H2.
Qed.
End Links.

(** ** Probing *)
Section Probe.
Context {B : Type} {CO : Callout B} {OK : BusOk CO}.
Implicit Types (dev : Z) (d : phy_data_t) (t : gmap Z phy_data_t).
Local Abbreviation does := (does (B := B)).

Lemma does_probe_sku ctx t (Q : Z -> gmap Z phy_data_t -> list access -> Prop) :
  (forall v, 0 <= v < 65536 -> Q v t [ARd ctx (Ext 4 11) v]) -> does (probe_sku ctx) t Q.
Proof.
  intros HQ. apply steps_does. apply steps_bind, steps_co_write.
  apply steps_bind, steps_co_write. apply steps_bind, steps_co_write.
  apply steps_bind, steps_co_read. intros v Hv. apply steps_ret.
  eexists. split; [|by apply HQ].
  apply (decode_ep_open ctx 4 11 1 [EvRd ctx 23 0 (Some v)]); [lia..|].
  intros ls m d E. eapply (decode_rd _ _ _ _ _ (Some _)); [|done].
  rewrite E. exact (proj1 (proj2 (window_ep 4 11 m d ltac:(lia)))).
Qed.

Lemma does_new_data dev t (Q : unit -> gmap Z phy_data_t -> list access -> Prop) :
  Q tt (<[dev := phy_data_t_0]> t) [] -> does (new_data dev) t Q.
Proof.
  intros HQ w <-. eexists tt, _, [], []. unfold new_data. rewrite app_nil_r. by split_and!.
Qed.

(** A probe reads the SKU of the chip and selects the driver row by it:
    row 1 (LAN8804) and row 4 (LAN8832) for their SKUs, the row it was called
    through otherwise; the new device's data is cleared, but for the port
    number, the SKU and the model and revision of the device identifier. *)
Theorem probe_spec drv ctx dev n t :
  does (lan8814_probe drv ctx (Some dev) n) t (fun r t' l => exists sku id,
    l = [ARd ctx (Ext 4 11) sku; ARd dev (Direct LAN8814_DEVICE_ID_2) id] /\
    r = Some (if sku =? 0x8832 then 4%nat else if sku =? 0x8804 then 1%nat else drv, dev) /\
    t' = <[dev := set_pd_port_no n (set_dev (fun _ => Mk_phy_dev_info_t
           ((id .>> 4) .& 63) (id .& 15) sku) phy_data_t_0)]> t).
Proof.
  unfold lan8814_probe. destruct bus_read as (f & -> & _), bus_write as (g & -> & _).
  does_step. apply does_probe_sku. intros sku _. cbv zeta. does_step. apply does_new_data.
  unfold lan8814_get_device_info. does_auto. exists sku, v. split; [done|].
  assert (u8 (LAN8814_X_DEV_ID_MODEL v) = (v .>> 4) .& 63) as ->.
  { unfold LAN8814_X_DEV_ID_MODEL, LAN8814_EXTRACT_BITFIELD.
    change (LAN8814_BIT_MASK 6) with 63. apply u8_small. change 63 with (Z.ones 6). rewrite Z.land_ones by lia.
    pose proof (Z.mod_pos_bound (v .>> 4) (2 ^ 6)). lia. }
  assert (u8 (LAN8814_X_DEV_ID_REV v) = v .& 15) as ->.
  { unfold LAN8814_X_DEV_ID_REV, LAN8814_EXTRACT_BITFIELD. rewrite Z.shiftr_0_r.
    change (LAN8814_BIT_MASK 4) with 15. apply u8_small. change 15 with (Z.ones 4). rewrite Z.land_ones by lia. pose proof (Z.mod_pos_bound v (2 ^ 4)). lia. }
  split; [|done].
  destruct (Z.eqb_spec sku LAN8832_SKU) as [->|Hn]; [done|].
  by rewrite (proj2 (Z.eqb_neq sku 0x8832)) by exact Hn.
Qed.

(** Frame preemption on a port that is not linked to a base port (rows 2
    to 4 of the driver table have no function to link one) is accepted and
    does nothing at all, and their SerDes setting is always refused. *)
Theorem unlinked_requests drv dev d t en c :
  In drv [lan8814_driver_lan966x; lan8814_driver_lan8842; lan8814_driver_lan8832] ->
  t !! dev = Some d -> pd_base_dev d = None ->
  does (r0 <- api_call drv dev (C_link_base_port (Some dev) 0) ;;
        r1 <- api_call drv dev (C_framepreempt_set en) ;;
        r2 <- lan8814_serdes_tx_conf_set dev c ;; ret (r0, r1, r2)) t
    (fun r t' l => r = (MEPA_RC_NOT_IMPLEMENTED, MEPA_RC_OK, MEPA_RC_ERROR) /\ t' = t /\ l = []).
Proof.
  intros Hdrv Hd Hb. does_step.
  assert (does (api_call drv dev (C_link_base_port (Some dev) 0)) t (fun r t' l =>
    r = MEPA_RC_NOT_IMPLEMENTED /\ t' = t /\ l = [])) as H0.
  { destruct Hdrv as [<-|[<-|[<-|[]]]];
      (change (does (ret MEPA_RC_NOT_IMPLEMENTED) t (fun r t' l =>
         r = MEPA_RC_NOT_IMPLEMENTED /\ t' = t /\ l = [])); by does_step). }
  assert (does (lan8814_framepreempt_set dev en) t (fun r t' l =>
    r = MEPA_RC_OK /\ t' = t /\ l = [])) as H1.
  { unfold lan8814_framepreempt_set, lan8814_framepreempt_set_. repeat does_step. rewrite Hb.
    by does_auto. }
  eapply does_mono; [exact H0|]. intros r0 t0 l0 (-> & -> & ->). does_step.
  eapply does_mono.
  { instantiate (1 := fun r t' l => r = MEPA_RC_OK /\ t' = t /\ l = []).
    destruct Hdrv as [<-|[<-|[<-|[]]]]; exact H1. }
  intros r1 t1 l1 (-> & -> & ->). unfold lan8814_serdes_tx_conf_set. repeat does_step.
  rewrite Hb. by does_auto.
Qed.
End Probe.

(** ** The claims at a concrete PHY *)

Lemma clause45_spec_witness :
  does (B := sim) (rc <- lan8814_ext_mmd_reg_write 100 0x3800003c 6 ;;
        r <- lan8814_ext_mmd_reg_read 100 0x3800003c 0 ;; ret (rc, r)) (quad_table phy_data_t_0)
    (fun r _ l => exists x y, l = [ARd 100 (Mmd 7 60) x; AWr 100 (Mmd 7 60) 6; ARd 100 (Mmd 7 60) y]).
Proof.
  eapply does_mono.
  - apply (clause45_spec 100 (quad_table phy_data_t_0) 0x3800003c 6 0). lia.
  - intros r t' l (_ & x & y & _ & Hl). exists x, y. exact Hl.
Defined.

(** A bus on which every read fails. *)
Definition dead_bus : Callout unit :=
  {| miim_read := Some (fun _ _ b => ((MEPA_RC_ERROR, None), b));
     miim_write := Some (fun _ _ _ b => (MEPA_RC_ERROR, b));
     lock_enter := true; lock_exit := true; uninit := fun _ => 0 |}.
Lemma failing_read_ok_witness :
  let w := World tt (∅ : gmap Z phy_data_t) [] in
  lan8814_direct_reg_wr (CO := dead_bus) 100 0 1 1 w =
    Some (MEPA_RC_OK, World tt ∅ [EvRd 100 0 MEPA_RC_ERROR None]).
Proof.
  intros w. refine (proj1 (failing_read_ok (CO := dead_bus) 100 0 1 1 0 _ MEPA_RC_ERROR tt w _ _ _)).
  - reflexivity.
  - reflexivity.
  - discriminate.
Defined.

Lemma link_all_linked_witness :
  exists w', link_all (B := sim) quad (fun d => d - 100) [100; 101; 102; 103]
      (World (Sim [] (fun _ => Latch 0 0 0 0))
         (list_to_map (map (fun d => (d, phy_data_t_0)) [100; 101; 102; 103])) []) = Some (tt, w') /\
    linked quad (w_data w').
Proof.
  apply (link_all_linked quad (fun d => d - 100) [100; 101; 102; 103]).
  - intros d. cbn. lia.
  - intros d Hd. cbn in Hd. destruct Hd as [<-|[<-|[<-|[<-|[]]]]]; (eexists; split; [reflexivity|apply ts_wf_0]).
Defined.

Lemma probe_spec_witness :
  does (B := sim) (lan8814_probe 0 104 (Some 104) 4) (quad_table phy_data_t_0)
    (fun r _ l => exists sku id,
      l = [ARd 104 (Ext 4 11) sku; ARd 104 (Direct LAN8814_DEVICE_ID_2) id]).
Proof.
  eapply does_mono.
  - apply (probe_spec 0 104 104 4 (quad_table phy_data_t_0)).
  - intros r t' l (sku & id & Hl & _). exists sku, id. exact Hl.
Defined.

Lemma unlinked_requests_witness :
  let t := {[ 7 := phy_data_t_0 ]} : gmap Z phy_data_t in
  does (B := sim) (r0 <- api_call lan8814_driver_lan8842 7 (C_link_base_port (Some 7) 0) ;;
        r1 <- api_call lan8814_driver_lan8842 7 (C_framepreempt_set 1) ;;
        r2 <- lan8814_serdes_tx_conf_set 7 mepa_serdes_tx_conf_t_0 ;; ret (r0, r1, r2)) t
    (fun r t' l => l = [] /\ t' = t).
Proof.
  intros t. eapply does_mono.
  - apply (unlinked_requests lan8814_driver_lan8842 7 phy_data_t_0 t 1 mepa_serdes_tx_conf_t_0);
      [by right; left|reflexivity..].
  - intros r t' l (_ & Ht & Hl). split; [exact Hl|exact Ht].
Defined.
