(* ===== verification/Lan8814Dump.v ===== *)
(** * Lan8814Dump: the register dumps of the LAN8814, and its deletion

    The functions of [lan8814.c] and [lan8814_ts.c] that print registers for
    debugging, and [lan8814_delete].  A line of a dump is a call of the
    application's print function with the numbers it is given; the texts are
    left out, and a heading has no numbers. *)

From Stdlib Require Import ZArith Lia List Bool String.
From stdpp Require Import base gmap strings list.
From S2P Require Import Prelude Machine Enums Lan8814Regs Lan8814Types Trace Mdio MepaCore Lan8814Access SimPhy AccessLemmas Lan8814Conf Lan8814Driver Lan8814ConfSpec Lan8814Api.

(** A heading, or a register of an MMD device, of the extended page before the
    number, or of clause 22. *)
Inductive dump_row := Head | Row (mmd page addr : Z).

Section Dump.
Context {B : Type} {CO : Callout B}.
Local Abbreviation M := (M B phy_data_t).

(** The print function [pr]: whether there is one. *)
Definition heading (pr : bool) : M unit := if pr then log (EvCall 0 []) else undefined.
(** Leaves the value in [*value]. *)
Definition lan8814_phy_deb_pr_reg (dev : Z) (pr : bool) (mmd page addr value : Z) : M Z :=
  data <- data_of dev ;;
  let id := if tb mmd then mmd else page in
  let* (rc, value) <- (if tb mmd then lan8814_mmd_reg_rd dev mmd addr value
                       else if tb page then lan8814_ext_reg_rd dev (page - 1) addr value
                       else lan8814_direct_reg_rd dev addr value) ;;
  (if pr && (MEPA_RC_OK =? rc) then log (EvCall 0 [u32 (pd_port_no data); id; addr; value]) else ret tt) ;;;
  ret value.

(** [for (id = 0; id < n; id++)] over the registers of a page. *)
Definition page_rows (page : Z) (n : nat) : list dump_row := map (fun id => Row 0 page (Z.of_nat id)) (seq 0 n).
Definition reg_dump_table : list dump_row :=
  [Head; Head] ++
  map (Row 0 0) [0; 1; 2; 3; 4; 5; 6; 7; 8; 9; 10; 13; 14; 15; 16; 17; 18; 19; 20; 21; 22; 23; 24; 25; 26; 27; 28; 29; 30; 31] ++
  [Head] ++ map (Row 0 1) [0; 1; 2; 3; 4; 5; 6; 7; 8; 9; 10; 11; 12; 13; 14; 15; 16] ++
  [Head] ++ page_rows 2 239 ++
  [Head] ++ page_rows 3 111 ++
  [Head] ++ page_rows 4 28 ++
  [Head] ++ page_rows 5 772 ++
  [Head] ++ page_rows 6 708 ++
  [Head] ++ map (Row 0 8) [58; 59; 62; 63] ++
  [Head] ++ page_rows 29 80 ++
  [Head] ++ page_rows 30 80 ++
  [Head] ++ map (Row 0 32) [0; 8; 9; 10; 11; 12; 13; 14; 15; 16; 17] ++
  [Head; Head] ++ map (Row 3 0) [0; 1; 20] ++
  [Head] ++ map (Row 7 0) [60; 61].
Fixpoint reg_dump_rows (dev : Z) (pr : bool) (rows : list dump_row) (val : Z) : M unit :=
  match rows with
  | [] => ret tt
  | Head :: rows => heading pr ;;; reg_dump_rows dev pr rows val
  | Row mmd page addr :: rows =>
      val <- lan8814_phy_deb_pr_reg dev pr mmd page addr val ;; reg_dump_rows dev pr rows val
  end.
Definition lan8814_reg_dump (dev : Z) (pr : bool) : M Z :=
  reg_dump_rows dev pr reg_dump_table 0 ;;; ret MEPA_RC_OK.

(** ** Time stamping *)
Definition lan8814_ts_deb_pr_reg (dev : Z) (pr : bool) (page_addr : ereg) (value : Z) : M Z :=
  if pr then
    data <- data_of dev ;;
    let* (rc, value) <- lan8814_ext_reg_rd dev (fst page_addr) (snd page_addr) value ;;
    (if MEPA_RC_OK =? rc then log (EvCall 0 [u32 (pd_port_no data); fst page_addr; snd page_addr; value]) else ret tt) ;;;
    ret value
  else ret value.
Fixpoint ts_dump_rows (dev : Z) (pr : bool) (rows : list ereg) (val : Z) : M unit :=
  match rows with
  | [] => ret tt
  | r :: rows => val <- lan8814_ts_deb_pr_reg dev pr r val ;; ts_dump_rows dev pr rows val
  end.
Definition ts_classifier_table : list ereg :=
  [ LAN8814_PTP_RX_USER_MAC_HI; LAN8814_PTP_RX_USER_MAC_MID; LAN8814_PTP_RX_USER_MAC_LO;
    LAN8814_PTP_RX_USER_IP_ADDR_0; LAN8814_PTP_RX_USER_IP_ADDR_1; LAN8814_PTP_RX_USER_IP_ADDR_2;
    LAN8814_PTP_RX_USER_IP_ADDR_3; LAN8814_PTP_RX_USER_IP_ADDR_4; LAN8814_PTP_RX_USER_IP_ADDR_5;
    LAN8814_PTP_RX_USER_IP_ADDR_6; LAN8814_PTP_RX_USER_IP_ADDR_7; LAN8814_PTP_RX_USER_IP_MASK_0;
    LAN8814_PTP_RX_USER_IP_MASK_1; LAN8814_PTP_RX_USER_IP_MASK_2; LAN8814_PTP_RX_USER_IP_MASK_3;
    LAN8814_PTP_RX_USER_IP_MASK_4; LAN8814_PTP_RX_USER_IP_MASK_5; LAN8814_PTP_RX_USER_IP_MASK_6;
    LAN8814_PTP_RX_USER_IP_MASK_7; LAN8814_PTP_VLAN_ETH_TYPE_ID; LAN8814_VLAN1_TYPE_ID; LAN8814_VLAN1_ID_MASK;
    LAN8814_VLAN1_VID_RANGE_UP; LAN8814_VLAN1_VID_RANGE_LO; LAN8814_VLAN2_TYPE_ID; LAN8814_VLAN2_ID_MASK;
    LAN8814_VLAN2_VID_RANGE_UP; LAN8814_VLAN2_VID_RANGE_LO; LAN8814_LLC_TYPE_ID; LAN8814_PTP_CAP_INFO;
    LAN8814_PTP_TX_USER_MAC_HI; LAN8814_PTP_TX_USER_MAC_MID; LAN8814_PTP_TX_USER_MAC_LO;
    LAN8814_PTP_TX_USER_IP_ADDR_0; LAN8814_PTP_TX_USER_IP_ADDR_1; LAN8814_PTP_TX_USER_IP_ADDR_2;
    LAN8814_PTP_TX_USER_IP_ADDR_3; LAN8814_PTP_TX_USER_IP_ADDR_4; LAN8814_PTP_TX_USER_IP_ADDR_5;
    LAN8814_PTP_TX_USER_IP_ADDR_6; LAN8814_PTP_TX_USER_IP_ADDR_7; LAN8814_PTP_TX_USER_IP_MASK_0;
    LAN8814_PTP_TX_USER_IP_MASK_1; LAN8814_PTP_TX_USER_IP_MASK_2; LAN8814_PTP_TX_USER_IP_MASK_3;
    LAN8814_PTP_TX_USER_IP_MASK_4; LAN8814_PTP_TX_USER_IP_MASK_5; LAN8814_PTP_TX_USER_IP_MASK_6;
    LAN8814_PTP_TX_USER_IP_MASK_7; LAN8814_PTP_RX_PARSE_CONFIG; LAN8814_PTP_RX_PARSE_VLAN_CONFIG;
    LAN8814_PTP_RX_PARSE_L2_ADDR_EN; LAN8814_PTP_RX_PARSE_IP_ADDR_EN; LAN8814_PTP_RX_PARSE_UDP_SRC_PORT;
    LAN8814_PTP_RX_PARSE_UDP_DEST_PORT; LAN8814_PTP_RX_VERSION; LAN8814_PTP_RX_DOMAIN_DOMAIN_LO;
    LAN8814_PTP_RX_DOMAIN_MASK_DOMAIN_UP; LAN8814_PTP_RX_SDOID_SDOID_LO; LAN8814_PTP_RX_SDOID_MASK_SDOID_UP;
    LAN8814_PTP_TX_PARSE_CONFIG; LAN8814_PTP_TX_PARSE_VLAN_CONFIG; LAN8814_PTP_TX_PARSE_L2_ADDR_EN;
    LAN8814_PTP_TX_PARSE_IP_ADDR_EN; LAN8814_PTP_TX_PARSE_UDP_SRC_PORT; LAN8814_PTP_TX_PARSE_UDP_DEST_PORT;
    LAN8814_PTP_TX_VERSION; LAN8814_PTP_TX_DOMAIN_DOMAIN_LO; LAN8814_PTP_TX_DOMAIN_MASK_DOMAIN_UP;
    LAN8814_PTP_TX_SDOID_SDOID_LO; LAN8814_PTP_TX_SDOID_MASK_SDOID_UP ].
Definition ts_clock_table : list ereg :=
  [ LAN8814_PTP_TSU_INT_EN; LAN8814_PTP_TSU_INT_STS; LAN8814_PTP_RX_TIMESTAMP_EN; LAN8814_PTP_RX_TIMESTAMP_CONFIG;
    LAN8814_PTP_RX_MOD; LAN8814_PTP_RX_RSVD_BYTE_CFG; LAN8814_PTP_RX_TAIL_TAG; LAN8814_PTP_RX_CF_MOD_EN;
    LAN8814_PTP_RX_CF_CFG; LAN8814_PTP_TX_TIMESTAMP_EN; LAN8814_PTP_TX_TIMESTAMP_CONFIG; LAN8814_PTP_TX_MOD;
    LAN8814_PTP_TX_RSVD_BYTE_CFG; LAN8814_PTP_TX_TAIL_TAG; LAN8814_PTP_TX_CF_MOD_EN; LAN8814_PTP_TX_CF_CFG;
    LAN8814_PTP_TX_MSG_HEADER1; LAN8814_PTP_TX_MSG_HEADER2; LAN8814_PTP_TSU_GEN_CONF; LAN8814_PTP_TSU_HARD_RESET;
    LAN8814_PTP_TSU_SOFT_RESET ].
Definition lan8814_ts_classifier_conf_reg_dump (dev : Z) (pr : bool) : M Z :=
  ts_dump_rows dev pr ts_classifier_table 0 ;;; ret MEPA_RC_OK.
Definition lan8814_ts_clock_conf_reg_dump (dev : Z) (pr : bool) : M Z :=
  ts_dump_rows dev pr ts_clock_table 0 ;;; ret MEPA_RC_OK.
(** [info] is [(info->layer, info->group)]. *)
Definition lan8814_ts_debug_info_dump (dev : Z) (pr : bool) (info : Z * Z) : M Z :=
  if (snd info =? MEPA_DEBUG_GROUP_ALL) || (snd info =? MEPA_DEBUG_GROUP_PHY_TS) then
    mepa_enter ;;;
    lan8814_ts_classifier_conf_reg_dump dev pr ;;;
    lan8814_ts_clock_conf_reg_dump dev pr ;;;
    mepa_exit ;;;
    ret MEPA_RC_OK
  else ret MEPA_RC_OK.

(** ** The entry points *)

(** [drv] is [dev->drv]; the interface, printed as text, is left out: it is
    always QSGMII. *)
Definition lan8814_debug_info_dump (dev : Z) (drv : mepa_driver_t) (numeric_handle : Z) (pr : bool) (info : Z * Z) : M Z :=
  let '(layer, group) := info in
  let* (_, phy_info) <- lan8814_info_get dev (drv_id drv) (Mk_mepa_phy_info_t 0 0 0 0 None "" "") ;;
  mepa_enter ;;;
  (if (layer =? MEPA_DEBUG_LAYER_AIL) || (layer =? MEPA_DEBUG_LAYER_ALL) then
     if pr then log (EvCall 0 [numeric_handle; pi_part_number phy_info; pi_revision phy_info]) else undefined
   else ret tt) ;;;
  rc <- (if ((layer =? MEPA_DEBUG_LAYER_CIL) || (layer =? MEPA_DEBUG_LAYER_ALL)) &&
            ((group =? MEPA_DEBUG_GROUP_ALL) || (group =? MEPA_DEBUG_GROUP_PHY))
         then lan8814_reg_dump dev pr else ret MEPA_RC_OK) ;;
  mepa_exit ;;;
  match drv_fn drv "mepa_ts" with
  | Some _ => lan8814_ts_debug_info_dump dev pr info ;;; ret rc
  | None => ret rc
  end.
(** [mepa_delete_int] gives the device back to the [mem_free] callout, if there is one. *)
Definition lan8814_delete (mem_free : bool) (dev : Z) : M Z := fun w =>
  match w_data w !! dev with
  | None => None
  | Some _ => Some (MEPA_RC_OK, if mem_free then World (w_bus w) (delete dev (w_data w)) (w_log w) else w)
  end.
End Dump.
