(* ===== verification/Lan8814Run.v ===== *)
(** * Lan8814Run: histories of calls of the LAN8814 driver

    Every request an application can make of a device that was probed: the
    calls of [Lan8814Api], the debug dump and the deletion of the device; a
    history of them, and the theorem that the driver survives it. *)

From Stdlib Require Import ZArith Lia List Bool String.
From stdpp Require Import base gmap strings list.
From S2P Require Import Prelude Machine Enums Lan8814Regs Lan8814Types Trace Mdio MepaCore Lan8814Access SimPhy AccessLemmas Lan8814Conf Lan8814Driver Lan8814Ts Lan8814TsClass Lan8814TsApi Lan8814Api Lan8814Dump.

(** ** Requests *)

(** The print function of a dump is called with the handle of the port and
    numbers; [info] is [(info->layer, info->group)]. *)
Inductive request :=
  | R_call (c : call)
  | R_debug_info_dump (handle : Z) (pr : bool) (info : Z * Z)
  | R_delete.

Section Run.
Context {B : Type} {CO : Callout B}.
Local Abbreviation M := (M B phy_data_t).

(** [mem_free]: whether the application has installed that callout. *)
Definition api_request (mem_free : bool) (drv : mepa_driver_t) (dev : Z) (r : request) : M Z :=
  match r with
  | R_call c => api_call drv dev c
  | R_debug_info_dump handle pr info =>
      dispatch (fun f => call_fn f [("lan8814_debug_info_dump", lan8814_debug_info_dump dev drv handle pr info)]%string)
        (Some drv) "mepa_debug_info_dump"
  | R_delete =>
      dispatch (fun f => call_fn f [("lan8814_delete", lan8814_delete mem_free dev)]%string) (Some drv) "mepa_driver_delete"
  end.

(** A history of requests on the devices of a chip, each with its driver row. *)
Definition api_run (mem_free : bool) (l : list (mepa_driver_t * Z * request)) : M unit :=
  seq_ (fun x => let '(drv, dev, r) := x in api_request mem_free drv dev r ;;; ret tt) l.
End Run.

(** The devices that are left. *)
Definition without (E : env) (dev : Z) : env := Env (fun d => e_devs E d && negb (d =? dev)) (e_base E).
Definition after (E : env) (dev : Z) (r : request) : env :=
  match r with R_delete => without E dev | _ => E end.

(** What a request needs: of the calls see [locked_call]; a dump needs a print
    function; the base port of another device is not deleted. *)
Definition good_request (E : env) (dev : Z) (r : request) : Prop :=
  match r with
  | R_call c => locked_call E dev c
  | R_debug_info_dump _ pr _ => pr = true
  | R_delete => forall d, e_devs E d = true -> d <> dev -> e_base E d <> dev
  end.
Fixpoint good_history (E : env) (l : list (mepa_driver_t * Z * request)) (E' : env) : Prop :=
  match l with
  | [] => E' = E
  | (drv, dev, r) :: l =>
      In drv lan8814_drivers /\ e_devs E dev = true /\ good_request E dev r /\ good_history (after E dev r) l E'
  end.

Section Safe.
Context {B : Type} {CO : Callout B} {OK : CalloutOk (CO := CO)}.
Local Abbreviation M := (M B phy_data_t).

(** From the devices of [E] to those of [E']. *)
Definition runs_safe (E E' : env) (h : bool) {A} (m : M A) (h' : bool) : Prop := goes (linked E) (linked E') h m h'.

Lemma runs_of_safe E h {A} (m : M A) h' : safe (linked E) h m h' -> runs_safe E E h m h'.
Proof. apply goes_of_safe. Qed.
Lemma history_ret E h {A} (a : A) : runs_safe E E h (ret a) h.
Proof. apply goes_ret. Qed.
Lemma history_bind E E1 E' h h1 h' {A C} (m : M A) (k : A -> M C) :
  runs_safe E E1 h m h1 -> (forall a, runs_safe E1 E' h1 (k a) h') -> runs_safe E E' h (bind m k) h'.
Proof. apply goes_bind. Qed.
Lemma runs_print E h l : runs_safe E E h (log (EvCall 0 l)) h.
Proof. apply goes_print. Qed.
Lemma runs_data {A} (E E' : env) dev (k : phy_data_t -> M A) h h' :
  e_devs E dev = true -> (forall d, runs_safe E E' h (k d) h') -> runs_safe E E' h (bind (data_of dev) k) h'.
Proof. intros Hd. apply goes_data. intros t Ht. destruct (Ht dev Hd) as (d & -> & _). by eexists. Qed.

(** *** The dumps *)
Section Dumps.
Context (E : env) {EOK : EnvOk E} (dev : Z) (Hdev : e_devs E dev = true).

(** The rows of clause 22 name one of its registers. *)
Definition row_direct (r : dump_row) : bool :=
  match r with Head => true | Row m p a => tb m || tb p || ((0 <=? a) && (a <? 32)) end.

Lemma runs_rows rows val : forallb row_direct rows = true -> runs_safe E E true (reg_dump_rows dev true rows val) true.
Proof.
  revert val. induction rows as [|[|m p a] rows IH]; intros val Hok; cbn [reg_dump_rows].
  - apply history_ret.
  - eapply history_bind; [apply runs_print|]. intros _. by apply IH.
  - apply andb_true_iff in Hok as [Hr Hok]. eapply history_bind; [|intros v; by apply IH].
    unfold lan8814_phy_deb_pr_reg. apply runs_data; [done|]. intros d. cbv zeta. eapply history_bind.
    + apply runs_of_safe. cbn [row_direct] in Hr.
      destruct (tb m); [apply safe_mmd_reg_rd|]. destruct (tb p); [apply safe_ext_reg_rd|]. apply safe_direct_reg_rd.
      cbn [orb] in Hr. lia.
    + intros [rc v]. eapply history_bind; [|intros; apply history_ret].
      destruct (true && _); [apply runs_print|apply history_ret].
Qed.
Lemma runs_ts_rows rows val : runs_safe E E true (ts_dump_rows dev true rows val) true.
Proof.
  revert val. induction rows as [|r rows IH]; intros val; cbn [ts_dump_rows]; [apply history_ret|].
  eapply history_bind; [|intros v; apply IH]. unfold lan8814_ts_deb_pr_reg. apply runs_data; [done|]. intros d.
  eapply history_bind; [apply runs_of_safe, safe_ext_reg_rd|]. intros [rc v].
  eapply history_bind; [|intros; apply history_ret]. destruct (MEPA_RC_OK =? rc); [apply runs_print|apply history_ret].
Qed.

Lemma runs_debug_info_dump drv handle info :
  runs_safe E E false (lan8814_debug_info_dump dev drv handle true info) false.
Proof.
  destruct info as [layer group]. unfold lan8814_debug_info_dump.
  eapply history_bind; [apply runs_of_safe, safe_info_get; done|]. intros [rc i].
  eapply history_bind; [apply runs_of_safe, safe_enter|]. intros _. eapply history_bind.
  { destruct (_ || _); [apply runs_print|apply history_ret]. }
  intros _. eapply history_bind.
  { destruct (_ && _); [|apply history_ret]. unfold lan8814_reg_dump.
    eapply history_bind; [by apply runs_rows|]. intros _. apply history_ret. }
  intros rc'. eapply history_bind; [apply runs_of_safe, safe_exit|]. intros _.
  destruct (drv_fn drv "mepa_ts"); [|apply history_ret]. eapply history_bind; [|intros _; apply history_ret].
  unfold lan8814_ts_debug_info_dump. destruct (_ || _); [|apply history_ret].
  eapply history_bind; [apply runs_of_safe, safe_enter|]. intros _.
  do 2 (eapply history_bind; [eapply history_bind; [apply runs_ts_rows|intros _; apply history_ret]|]; intros _).
  eapply history_bind; [apply runs_of_safe, safe_exit|]. intros _. apply history_ret.
Qed.

Lemma runs_delete mem_free : runs_safe E (without E dev) false (lan8814_delete mem_free dev) false.
Proof.
  intros w Hw. unfold lan8814_delete. destruct (Hw dev Hdev) as (p & -> & _). eexists _, _, [].
  split; [reflexivity|]. destruct mem_free; cbn [w_data w_log]; rewrite app_nil_r; (split; [|done]);
    intros d [Hd Hne]%andb_true_iff; destruct (Hw d Hd) as (q & Hq & Hok); exists q; (split; [|exact Hok]); [|done].
  rewrite lookup_delete_ne; [done|]. intros ->. by rewrite Z.eqb_refl in Hne.
Qed.
End Dumps.

(** ** Histories *)
Lemma after_ok E dev r : EnvOk E -> good_request E dev r -> EnvOk (after E dev r).
Proof.
  intros HE Hr. destruct r as [c|h pr i|]; [done|done|]. intros d. cbn. intros [Hd Hne]%andb_true_iff.
  rewrite (HE d Hd). cbn [andb]. apply negb_true_iff, Z.eqb_neq. apply Hr; [done|].
  intros ->. by rewrite Z.eqb_refl in Hne.
Qed.

Lemma runs_request E {EOK : EnvOk E} mem_free drv dev r :
  In drv lan8814_drivers -> e_devs E dev = true -> good_request E dev r ->
  runs_safe E (after E dev r) false (api_request mem_free drv dev r) false.
Proof.
  intros Hin Hd Hr. destruct r as [c|h pr i|]; cbn [good_request after api_request] in *.
  - apply runs_of_safe, safe_api_call; [done|]. unfold good_call. done.
  - subst pr. assert (drv_fn drv "mepa_debug_info_dump" = Some "lan8814_debug_info_dump"%string) as E1
      by (by repeat destruct Hin as [<-|Hin]).
    intros w Hw. unfold dispatch. rewrite E1. by apply runs_debug_info_dump.
  - assert (drv_fn drv "mepa_driver_delete" = Some "lan8814_delete"%string) as E1
      by (by repeat destruct Hin as [<-|Hin]).
    intros w Hw. unfold dispatch. rewrite E1. by apply runs_delete.
Qed.
End Safe.

(** C1. Whatever the bus returns, every history of requests on linked devices
    runs to completion without undefined behaviour, keeps the devices that are
    left linked, and leaves a log in which the lock is taken and released in
    pairs, every register access is made under the lock, every MIIM address is
    below 32 and the application is not called under the lock but to print a
    dump.  The requests are the calls of the driver's table and of its time
    stamping table, the debug dump and the deletion, but for two: the EEE
    status, which is read without the lock, and the emptying of the time stamp
    FIFO, which ends when the chip says so.  The application names the base
    port of its package when it links a port, does not delete a base port while
    others of its ports are left, passes a print function to a dump, and passes
    to the time stamping calls arguments in range: to a port that is not the base port a
    clock frequency of the latency tables (the code reads beyond them for
    another; the base port refuses it), a rate whose magnitude is
    representable, latencies within 2^61, classifier addresses of their size,
    and an array of the announced size. *)
Theorem api_run_safe {B} {CO : Callout B} {OK : CalloutOk (CO := CO)} (E : env) {EOK : EnvOk E} (mem_free : bool)
    (l : list (mepa_driver_t * Z * request)) (E' : env) (w : world B phy_data_t) :
  good_history E l E' -> linked E (w_data w) ->
  exists w' tr, api_run mem_free l w = Some (tt, w') /\ linked E' (w_data w') /\
    w_log w' = w_log w ++ tr /\ disc false (unprinted tr) = Some false.
Proof.
  intros Hl Hw. cut (runs_safe E E' false (api_run (CO := CO) mem_free l) false).
  { intros Hs. destruct (Hs w Hw) as ([] & w' & tr & H). eauto. }
  clear w Hw. revert E EOK Hl. unfold api_run. induction l as [|[[drv dev] r] l IH]; intros E EOK Hl; cbn [good_history seq_] in *.
  { subst. apply history_ret. }
  destruct Hl as (Hin & Hd & Hr & Hl). eapply history_bind.
  - eapply history_bind; [by apply runs_request|]. intros rc. apply history_ret.
  - intros _. apply IH; [by apply after_ok|done].
Qed.

Example api_run_safe_witness :
  let l := [ (lan8814_driver_lan8814, 101, R_call (C_link_base_port (Some 100) 1));
             (lan8814_driver_lan8814, 101, R_call (C_reset mepa_reset_param_t_0));
             (lan8814_driver_lan8814, 101, R_call (C_conf_set (set_conf_admin_enable 1 mepa_conf_t_0)));
             (lan8814_driver_lan8814, 101, R_debug_info_dump 1 true (0, 0));
             (lan8814_driver_lan8814, 101, R_delete);
             (lan8814_driver_lan8842, 102, R_call (C_poll mepa_status_t_0));
             (lan8814_driver_lan8842, 102, R_call (C_ts (T_egress_latency_set (Some (-65536))))) ] in
  exists w' tr, api_run true l (quad_world phy_data_t_0) = Some (tt, w') /\
    linked (without quad 101) (w_data w') /\ w_log w' = [] ++ tr /\ disc false (unprinted tr) = Some false.
Proof.
  intros l. apply (api_run_safe quad true l (without quad 101) (quad_world phy_data_t_0)).
  - assert (In lan8814_driver_lan8814 lan8814_drivers) by (by left).
    assert (In lan8814_driver_lan8842 lan8814_drivers) by (by do 3 right; left).
    cbn [l good_history after good_request locked_call]. split_and!; try done.
    intros x [= <-]. unfold latency_ok. lia.
  - apply quad_linked, ts_wf_0.
Defined.
