(* ===== verification/Lan8814DumpSpec.v ===== *)
(** * Lan8814DumpSpec: the dumps only read

    Another reading of the transactions than that of [Mdio]: which accesses to
    registers they are, wherever the windows point before them.  A dump reads
    the window registers themselves, so what it reads depends on that; that it
    writes nothing does not. *)

From Stdlib Require Import ZArith Lia List Bool String.
From stdpp Require Import base gmap strings list.
From S2P Require Import Prelude Machine Enums Lan8814Regs Lan8814Types Trace Mdio MepaCore Lan8814Access SimPhy AccessLemmas Lan8814Conf Lan8814Driver Lan8814Api Lan8814Dump.

(** A read of a register of [dev]. *)
Definition read_of (dev : Z) (a : access) : Prop := exists r v, a = ARd dev r v.
Definition reads_only (dev : Z) (tr : list event) : Prop := forall ls, Forall (read_of dev) (decode ls tr).

Lemma reads_only_app dev tr1 tr2 : reads_only dev tr1 -> reads_only dev tr2 -> reads_only dev (tr1 ++ tr2).
Proof. intros H1 H2 ls. rewrite decode_app. by apply Forall_app_2. Qed.
Lemma reads_only_call dev p l : reads_only dev [EvCall p l].
Proof. intros ls. constructor. Qed.

Definition ro_reading (dev : Z) : Reading unit.
Proof.
  refine {| reads tr _ := reads_only dev tr |}.
  - intros ls. constructor.
  - intros tr1 tr2 _ _. apply reads_only_app.
  - intros [] H ls; try done; constructor.
Defined.

Section Spec.
Context {B : Type} {CO : Callout B} {OK : BusOk CO} (dev : Z).
Local Abbreviation table := (gmap Z phy_data_t).
Local Abbreviation does := (does (B := B) (D := phy_data_t) (RD := ro_reading dev)).
Local Abbreviation post A := (A -> table -> list unit -> Prop).

(** What only reads in the other reading, only reads. *)
Lemma ro_mdio {A} (m : M B phy_data_t A) t (Q : post A) :
  Trace.does (RD := mdio_reading) m t (fun a t' l => Forall (read_of dev) l /\ Q a t' []) -> does m t Q.
Proof.
  intros Hm w Hw. destruct (Hm w Hw) as (a & w' & tr & l & E & L & Hr & Hl & HQ).
  exists a, w', tr, []. split_and!; [done|done| |done]. intros ls. rewrite (Hr ls). exact Hl.
Qed.
Lemma ro_direct a cur t (Q : post (Z * Z)) : (forall v, Q (0, v) t []) -> does (lan8814_direct_reg_rd dev a cur) t Q.
Proof.
  intros HQ. apply steps_does, steps_direct_reg_rd. intros v Hv. exists []. split; [|apply HQ].
  intros ls. cbn [decode decode1]. destruct (window _ _) as [[r|] l]; repeat constructor. by exists r, v.
Qed.
Lemma ro_ext p a cur t (Q : post (Z * Z)) : ep_ok (p, a) = true ->
  (forall v, Q (0, v) t []) -> does (lan8814_ext_reg_rd dev p a cur) t Q.
Proof.
  intros Hok HQ. apply ro_mdio, does_ext_reg_rd; [done|]. intros v Hv. split; [|apply HQ].
  repeat constructor. by eexists _, _.
Qed.
Lemma ro_mmd m a cur t (Q : post (Z * Z)) : mmd_ok (m, a) = true ->
  (forall v, Q (0, v) t []) -> does (lan8814_mmd_reg_rd dev m a cur) t Q.
Proof.
  intros Hok HQ. apply ro_mdio, does_mmd_reg_rd; [done|]. intros v Hv. split; [|apply HQ].
  repeat constructor. by eexists _, _.
Qed.
Lemma ro_call p l t (Q : post unit) : Q tt t [] -> does (log (EvCall p l)) t Q.
Proof. apply does_log. apply reads_only_call. Qed.

(** The registers a row can name. *)
Definition row_ok (r : dump_row) : bool :=
  match r with
  | Head => true
  | Row mmd page addr => if tb mmd then mmd_ok (mmd, addr) else if tb page then ep_ok (page - 1, addr) else true
  end.

Lemma ro_rows d rows val t (Q : post unit) :
  t !! dev = Some d -> forallb row_ok rows = true -> (forall l, Q tt t l) -> does (reg_dump_rows dev true rows val) t Q.
Proof.
  intros Hd. revert val Q. induction rows as [|[|m p a] rows IH]; intros val Q Hok HQ; cbn [reg_dump_rows].
  - by apply does_ret.
  - apply does_bind, ro_call. apply IH; [exact Hok|]. intros l. apply HQ.
  - apply andb_true_iff in Hok as [Hr Hok]. unfold row_ok in Hr.
    unfold lan8814_phy_deb_pr_reg. apply does_bind, does_bind. eapply does_data_of; [done|]. cbv zeta. apply does_bind.
    assert (forall v, does (bind (if true && (MEPA_RC_OK =? 0) then log (EvCall 0 [u32 (pd_port_no d); if tb m then m else p; a; v]) else ret tt)
      (fun _ => ret v)) t (fun v t' l => does (reg_dump_rows dev true rows v) t' (fun u t2 l2 => forall l1, Q u t2 (l1 ++ l ++ l2)))) as Hrest.
    { intros v. apply does_bind, ro_call. apply does_ret. apply IH; [exact Hok|]. intros l l1. apply HQ. }
    destruct (tb m); [apply ro_mmd; [exact Hr|]|destruct (tb p); [apply ro_ext; [exact Hr|]|apply ro_direct]];
      intros v; (eapply does_mono; [apply Hrest|]); intros x t' l Hx; (eapply does_mono; [exact Hx|]);
      intros y t2 l2 Hy; specialize (Hy []); cbn [app] in *; exact Hy.
Qed.
Lemma ro_ts_rows d rows val t (Q : post unit) :
  t !! dev = Some d -> forallb ep_ok rows = true -> (forall l, Q tt t l) -> does (ts_dump_rows dev true rows val) t Q.
Proof.
  intros Hd. revert val Q. induction rows as [|[p a] rows IH]; intros val Q Hok HQ; cbn [ts_dump_rows].
  - by apply does_ret.
  - apply andb_true_iff in Hok as [Hr Hok].
    unfold lan8814_ts_deb_pr_reg. apply does_bind, does_bind. eapply does_data_of; [done|].
    apply does_bind, ro_ext; [exact Hr|]. intros v. cbv beta iota. apply does_bind, ro_call, does_ret.
    apply IH; [exact Hok|]. intros l. apply HQ.
Qed.

(** What [lan8814_info_get] needs of the private data. *)
Definition base_there (d : phy_data_t) (t : table) : Prop :=
  match pd_base_dev d with Some b => is_Some (t !! b) | None => True end.

Local Ltac split_if := lazymatch goal with |- does (if ?b then _ else _) _ _ => destruct b end.
Local Ltac pure_step := first [does_basic | apply ro_call]; cbv beta zeta iota; cbn [fst snd app].
Lemma ro_has_ptp d t (Q : post Z) : t !! dev = Some d -> (forall v, Q v t []) -> does (lan8814_has_ptp dev) t Q.
Proof.
  intros Hd HQ. unfold lan8814_has_ptp, lan8814_is_lan966x, lan8814_is_lan8814, lan8814_is_lan8842.
  repeat pure_step. repeat (case_match; repeat pure_step); apply HQ.
Qed.
Lemma ro_capability d c t (Q : post Z) : t !! dev = Some d -> (forall v, Q v t []) -> does (lan8814_capability_priv dev c) t Q.
Proof.
  intros Hd HQ. unfold lan8814_capability_priv.
  destruct (c =? MEPA_CAP_TS_NONE); [|destruct (c =? MEPA_CAP_TS_GEN_3)].
  - apply does_bind, (ro_has_ptp d); [done|]. intros v. apply does_ret. apply HQ.
  - by apply (ro_has_ptp d).
  - case_match; apply does_ret, HQ.
Qed.
Lemma ro_info d id i t (Q : post (Z * mepa_phy_info_t)) :
  t !! dev = Some d -> base_there d t -> (forall x, Q (MEPA_RC_OK, x) t []) -> does (lan8814_info_get dev id i) t Q.
Proof.
  intros Hd Hb HQ. unfold lan8814_info_get, base_there in *. do 2 pure_step. apply does_bind.
  assert (forall b, does (let '(part, model) := if (id =? LAN8814_DEF_DRV_ID) || (id =? LAN8814_INT_PHY_DRV_ID)
      then (8814, "LAN8814"%string) else if id =? LAN8804_SKU then (8804, "LAN8804"%string) else (pi_part_number i, pi_model_name i) in
    cap <- cap_mask dev 0 ;;
    let '(port, base) := if id =? LAN8804_SKU then (0, None) else (b, pd_base_dev d) in
    ret (MEPA_RC_OK, Mk_mepa_phy_info_t part (dev_rev (pd_dev d)) cap port base "Microchip" model)) t Q) as Hrest.
  { intros b. destruct (if (id =? LAN8814_DEF_DRV_ID) || _ then _ else _) as [part model].
    unfold cap_mask. apply does_bind, does_bind, (ro_capability d); [done|]. intros c1.
    apply does_bind, (ro_capability d); [done|]. intros c2.
    apply does_bind, (ro_capability d); [done|]. intros c3. apply does_ret.
    destruct (if id =? LAN8804_SKU then _ else _). apply does_ret. apply HQ. }
  destruct (pd_base_dev d) as [b|].
  - destruct Hb as [p Hp]. apply does_bind. eapply does_data_of; [done|]. apply does_ret. cbn [app]. apply Hrest.
  - apply does_ret. cbn [app]. apply Hrest.
Qed.

(** The debug dump of a port of the family, with a print function, whatever is
    asked for: it succeeds, leaves all private data as they are, and of the
    registers behind the bus, of this port or another, it writes none, wherever
    the windows of clause 22 point when it starts; it only reads this port. *)
Theorem debug_dump_reads drv handle info t d :
  t !! dev = Some d -> base_there d t ->
  does (lan8814_debug_info_dump dev drv handle true info) t (fun rc t' _ => rc = MEPA_RC_OK /\ t' = t).
Proof.
  intros Hd Hb. destruct info as [layer group]. unfold lan8814_debug_info_dump.
  apply does_bind, (ro_info d); [done|done|]. intros phy_info. cbv beta iota.
  do 2 pure_step. apply does_bind.
  assert (forall Q : post unit, Q tt t [] -> does (if (layer =? MEPA_DEBUG_LAYER_AIL) || (layer =? MEPA_DEBUG_LAYER_ALL)
    then log (EvCall 0 [handle; pi_part_number phy_info; pi_revision phy_info]) else ret tt) t Q) as Hline.
  { intros Q HQ. split_if; [by apply ro_call|by apply does_ret]. }
  apply Hline. apply does_bind.
  assert (forall (Q : post Z), (forall l, Q MEPA_RC_OK t l) -> does (if ((layer =? MEPA_DEBUG_LAYER_CIL) || (layer =? MEPA_DEBUG_LAYER_ALL)) &&
            ((group =? MEPA_DEBUG_GROUP_ALL) || (group =? MEPA_DEBUG_GROUP_PHY))
         then lan8814_reg_dump dev true else ret MEPA_RC_OK) t Q) as Hdump.
  { intros Q HQ. split_if; [|by apply does_ret]. unfold lan8814_reg_dump.
    apply does_bind, (ro_rows d); [done|by vm_compute|]. intros l. by apply does_ret. }
  apply Hdump. intros l. do 2 pure_step.
  assert (forall (Q : post Z), (forall l, Q MEPA_RC_OK t l) -> does (lan8814_ts_debug_info_dump dev true (layer, group)) t Q) as Hts.
  { intros Q HQ. unfold lan8814_ts_debug_info_dump. split_if; [|by apply does_ret]. do 2 pure_step.
    unfold lan8814_ts_classifier_conf_reg_dump, lan8814_ts_clock_conf_reg_dump.
    apply does_bind, does_bind, (ro_ts_rows d); [done|by vm_compute|]. intros l1. apply does_ret.
    apply does_bind, does_bind, (ro_ts_rows d); [done|by vm_compute|]. intros l2. apply does_ret.
    do 2 pure_step. by apply does_ret. }
  destruct (drv_fn drv "mepa_ts"); [|by apply does_ret].
  apply does_bind, Hts. intros l1. by apply does_ret.
Qed.
End Spec.

(** With it, a port on the quad chip can be dumped. *)
Lemma debug_dump_quad :
  Trace.does (RD := ro_reading 101) (lan8814_debug_info_dump (CO := sim_callout) 101 lan8814_driver_lan8814 1 true (0, 0))
    (quad_table phy_data_t_0) (fun rc t' _ => rc = MEPA_RC_OK /\ t' = quad_table phy_data_t_0).
Proof. eapply debug_dump_reads; [reflexivity|]. by eexists. Qed.
