(* ===== verification/Lan8814TsSpec.v ===== *)
(** * Lan8814TsSpec: what the time stamping functions do

    The registers the functions of [Lan8814Ts] read and write, the values, and
    the private data afterwards, for every content of the registers. *)

From Stdlib Require Import ZArith Lia List Bool String.
From stdpp Require Import base gmap strings list.
From S2P Require Import Prelude Machine Enums Lan8814Regs Lan8814Types Trace Mdio Lan8814Access Lan8814Burst SimPhy AccessLemmas Lan8814ConfSpec Lan8814Ts.

(** The private data after a store to the port's time stamping state. *)
Definition with_tp (f : lan8814_ts_port_conf_t -> lan8814_ts_port_conf_t) (d : phy_data_t) : phy_data_t :=
  set_pd_ts_state (set_ts_ts_port_conf (f (ts_ts_port_conf (pd_ts_state d))) (pd_ts_state d)) d.

Section Ltc.
Context {B : Type} {CO : Callout B} {OK : BusOk CO}.
Implicit Types (dev : Z) (d : phy_data_t) (t : gmap Z phy_data_t).
Local Abbreviation does := (does (B := B)).

(** The four reads of the time, and the time they make. *)
Definition ltc_reads (dev sh sl nh nl : Z) : list access :=
  [ARd dev (ep LAN8814_PTP_GPIO_RE_CLOCK_SEC_HI) sh; ARd dev (ep LAN8814_PTP_GPIO_RE_CLOCK_SEC_LO) sl;
   ARd dev (ep LAN8814_PTP_GPIO_RE_CLOCK_NS_HI) nh; ARd dev (ep LAN8814_PTP_GPIO_RE_CLOCK_NS_LO) nl].
Definition ltc_time (sh sl nh nl : Z) (ts : mepa_timestamp_t) : mepa_timestamp_t :=
  Mk_mepa_timestamp_t 0 (sh * 65536 + sl) (nh mod 2 ^ 14 * 65536 + nl) (tm_picoseconds ts).

Lemma does_ltc_get dev d t ts (Q : Z * option mepa_timestamp_t -> gmap Z phy_data_t -> list access -> Prop) :
  t !! dev = Some d -> pd_base_dev d = Some dev ->
  (forall sh sl nh nl, 0 <= sh < 65536 -> 0 <= sl < 65536 ->
     Q (MEPA_RC_OK, Some (ltc_time sh sl nh nl ts)) t (ltc_reads dev sh sl nh nl)) ->
  does (lan8814_ts_ltc_get dev (Some ts)) t Q.
Proof.
  intros Hd Hb HQ. unfold lan8814_ts_ltc_get. does_step. does_step. rewrite Hb. cbn [ptr_is].
  rewrite Z.eqb_refl. does_step. does_step. change (TRUE =? FALSE) with false. cbv iota.
  does_step. unfold ltc_get_gpio. cbv zeta. do 4 burst_step. apply does_in_end. does_auto.
  match goal with |- Q ?r _ _ =>
    replace r with (MEPA_RC_OK, Some (ltc_time v v0 v1 v2 ts)); [by apply HQ|] end.
  unfold ltc_time, set_tm_nanoseconds, set_tm_seconds_low, set_tm_seconds_high. cbn.
  rewrite low30, !join32 by (lia || apply low14_range). done.
Qed.

(** On the base port the time is read from the four consecutive registers of
    the GPIO capture, and nothing else is accessed: the nanoseconds are the
    low 30 bits of theirs, the high part of the seconds is always zero. *)
Theorem ltc_get_spec dev d t ts :
  t !! dev = Some d -> pd_base_dev d = Some dev ->
  does (lan8814_ts_ltc_get dev (Some ts)) t (fun r t' l => t' = t /\
    exists sh sl nh nl, l = ltc_reads dev sh sl nh nl /\
      r = (MEPA_RC_OK, Some (Mk_mepa_timestamp_t 0 (sh * 65536 + sl)
             (nh mod 2 ^ 14 * 65536 + nl) (tm_picoseconds ts)))).
Proof.
  intros Hd Hb. apply (does_ltc_get dev d); [done|done|]. intros sh sl nh nl _ _.
  split; [done|]. by exists sh, sl, nh, nl.
Qed.

(** The writes that set the next pulse: [sec] seconds and the offset of the
    chip's pulse configuration. *)
Definition target_writes (sec offset : Z) : list (reg * Z) :=
  [(ep LAN8814_PTP_LTC_TARGET_SEC_LO_A, sec mod 65536);
   (ep LAN8814_PTP_LTC_TARGET_SEC_HI_A, sec / 65536);
   (ep LAN8814_PTP_LTC_TARGET_NS_LO_A, offset mod 65536);
   (ep LAN8814_PTP_LTC_TARGET_NS_HI_A, offset / 65536)].

Lemma does_ltc_target dev d b base t sec (Q : Z -> gmap Z phy_data_t -> list access -> Prop) :
  t !! dev = Some d -> pd_base_dev d = Some base -> t !! base = Some b ->
  0 <= sec < 2 ^ 32 -> 0 <= pps_offset (ts_pps (pd_ts_state b)) < 2 ^ 32 ->
  (forall l, all_wr dev l = target_writes sec (pps_offset (ts_pps (pd_ts_state b))) -> Q MEPA_RC_OK t l) ->
  does (lan8814_ltc_target_seconds dev sec) t Q.
Proof.
  intros Hd Hb Hbd Hs Ho HQ. unfold lan8814_ltc_target_seconds. does_step. does_step. does_step.
  eapply does_deref; [exact Hb|]. does_auto. apply HQ. cbn [app].
  rewrite !all_wr_rd, !all_wr_wr, !all_wr_rd, !all_wr_wr, !all_wr_rd, !all_wr_wr, !all_wr_rd, !all_wr_wr.
  unfold target_writes. rewrite !half_lo, !Z.shiftr_div_pow2 by lia. change (2 ^ 16) with 65536.
  rewrite !u16_small by first [by apply half_range | apply Z.mod_pos_bound; lia]. done.
Qed.

Lemma does_pps_target dev d b base t (ena : bool) sec
    (Q : unit -> gmap Z phy_data_t -> list access -> Prop) :
  t !! dev = Some d -> pd_base_dev d = Some base -> t !! base = Some b ->
  0 <= pps_offset (ts_pps (pd_ts_state b)) < 2 ^ 32 ->
  (forall l, all_wr dev l = (if ena then target_writes (u32 sec) (pps_offset (ts_pps (pd_ts_state b)))
                             else []) -> Q tt t l) ->
  does (if ena then lan8814_ltc_target_seconds dev (u32 sec) ;;; ret tt else ret tt) t Q.
Proof.
  intros Hd Hb Hbd Ho HQ. destruct ena; [|by does_auto; apply HQ]. does_step.
  pose proof (u32_range sec). eapply does_ltc_target; [done..|lia|done|]. intros l Hl. does_step.
  rewrite app_nil_r. by apply HQ.
Qed.

(** Setting the time writes it, split into words, to the five set
    registers, toggles the adjustment mode before and asks for the load after;
    a running pulse output is moved to two seconds later.  Only the base port
    does anything. *)
Theorem ltc_set_spec dev d b base t ts :
  t !! dev = Some d -> pd_base_dev d = Some base -> t !! base = Some b ->
  0 <= tm_seconds_high ts < 2 ^ 16 -> 0 <= tm_seconds_low ts < 2 ^ 32 ->
  0 <= tm_nanoseconds ts < 2 ^ 32 -> 0 <= pps_offset (ts_pps (pd_ts_state b)) < 2 ^ 32 ->
  does (lan8814_ts_ltc_set dev (Some ts)) t (fun rc t' l => rc = MEPA_RC_OK /\ t' = t /\
    if base =? dev then
      exists x y rest, 0 <= x < 65536 /\ 0 <= y < 65536 /\
        l = ARd dev (ep LAN8814_PTP_LTC_EXT_ADJ_CFG) x :: rest /\
        all_wr dev l =
          [(ep LAN8814_PTP_LTC_EXT_ADJ_CFG, if Z.testbit x 4 then 0 else Z.setbit x 4);
           (ep LAN8814_PTP_LTC_SET_SEC_HI, tm_seconds_high ts);
           (ep LAN8814_PTP_LTC_SET_SEC_MID, tm_seconds_low ts / 65536);
           (ep LAN8814_PTP_LTC_SET_SEC_LO, tm_seconds_low ts mod 65536);
           (ep LAN8814_PTP_LTC_SET_NS_HI, tm_nanoseconds ts / 65536);
           (ep LAN8814_PTP_LTC_SET_NS_LO, tm_nanoseconds ts mod 65536);
           (ep LAN8814_PTP_LTC_EXT_ADJ_CFG, Z.setbit y 0)] ++
          (if tb (pps_output_enable (ts_pps (pd_ts_state b)))
           then target_writes ((tm_seconds_low ts + 2) mod 2 ^ 32) (pps_offset (ts_pps (pd_ts_state b)))
           else [])
    else l = []).
Proof.
  intros Hd Hb Hbd Hsh Hsl Hns Ho. unfold lan8814_ts_ltc_set. does_step. does_step. does_step.
  eapply does_deref; [exact Hb|]. does_step. does_step. does_step. does_step. does_step.
  destruct (Z.eqb_spec base dev) as [->|Hne]; [|by does_auto].
  do 16 (does_step; cbv beta zeta).
  apply (does_pps_target dev d b dev); [done..|]. intros l Hl. does_auto.
  split; [done|]. split; [done|]. eexists v, x5, _. split; [done|]. split; [done|].
  split; [reflexivity|]. all_wr_tac. rewrite Hl, !rmw_def. unfold ep.
  change 16 with (1 .<< 4). rewrite tb_bit by lia. rewrite !half_hi, !half_lo by lia.
  rewrite (u16_small (tm_seconds_high ts)), !(u16_small (_ / 65536)) by first [by apply half_range | lia].
  rewrite !(u16_small (_ mod 65536)) by (apply Z.mod_pos_bound; lia).
  change LAN8814_PTP_LTC_EXT_ADJ_MODE with (2 ^ 4). change LAN8814_PTP_LTC_EXT_ADJ_LOAD_EN with (2 ^ 0).
  rewrite rmw_bit by lia. rewrite <- (lor_bit v 4) by lia. by destruct (Z.testbit v 4).
Qed.

(** The rate, in 2^-16 ppb, in the units of the register: 2^-32 ns per period
    of the clock, which is 5 ns at 200 MHz and 4 ns otherwise. *)
Definition rate_units (freq adj : Z) : Z :=
  2 ^ 16 * (if freq =? MEPA_TS_CLOCK_FREQ_200M then 5 else 4) * Z.abs adj / 10 ^ 9.
Lemma ltc_period_eq f : ltc_period f = if f =? MEPA_TS_CLOCK_FREQ_200M then 5 else 4.
Proof.
  unfold ltc_period. destruct (Z.eqb_spec f MEPA_TS_CLOCK_FREQ_25M) as [->|]; [done|].
  destruct (Z.eqb_spec f MEPA_TS_CLOCK_FREQ_250M) as [->|]; [done|]. cbn [orb]. by destruct (f =? _).
Qed.

(** The two writes of a rate: the sign bit is set for a faster clock. *)
Definition rate_writes (sign : bool) (units : Z) : list (reg * Z) :=
  [(ep LAN8814_PTP_LTC_RATE_ADJ_HI, (if sign then 2 ^ 15 else 0) + units / 65536);
   (ep LAN8814_PTP_LTC_RATE_ADJ_LO, units mod 65536)].

Lemma ltc_period_range f : 4 <= ltc_period f <= 5.
Proof. unfold ltc_period. repeat case_match; split; discriminate. Qed.

Lemma does_rateadj dev d t adj (Q : Z -> gmap Z phy_data_t -> list access -> Prop) :
  t !! dev = Some d -> pd_base_dev d = Some dev -> Z.abs adj < 2 ^ 63 ->
  let v := rate_adj_val (ltc_period (ts_clk_freq (pd_ts_state d))) (Z.abs adj) in
  (2 ^ 30 <= v -> Q MEPA_RC_OK t []) ->
  (v < 2 ^ 30 -> forall l, all_wr dev l = rate_writes (adj >? 0) v ->
     Q MEPA_RC_OK (<[dev := with_tp (set_tp_rate_adj adj) d]> t) l) ->
  does (lan8814_ts_clock_rateadj_set dev (Some adj)) t Q.
Proof.
  intros Hd Hb Ha v HQ1 HQ2. unfold lan8814_ts_clock_rateadj_set. do 3 does_step.
  eapply does_deref; [exact Hb|]. do 5 does_step. rewrite Z.eqb_refl. does_step.
  apply does_ck64; [lia|]. fold v. cbv zeta.
  assert (0 <= v) as Hv0 by (apply Z.div_pos; [apply u64_range|lia]).
  change (1 .<< 30) with (2 ^ 30). destruct (Z.geb_spec v (2 ^ 30)) as [Hv|Hv].
  { does_auto. by apply HQ1. }
  unfold upd_tp, upd_ts. does_auto. apply HQ2; [done|]. all_wr_tac.
  rewrite !rmw_def. unfold rate_writes, ep.
  rewrite (Z.land_comm 0x3FFF), (Z.land_comm 0xFFFF), half_lo, low30, Z.shiftr_div_pow2 by lia.
  change (2 ^ 16) with 65536.
  assert (0 <= v / 65536 < 16384) as Hh by (split; [apply Z.div_pos|apply Z.div_lt_upper_bound]; lia).
  rewrite (Z.mod_small (v / 65536)) by lia.
  rewrite (u16_small (v mod 65536)) by (apply Z.mod_pos_bound; lia).
  replace ((if adj >? 0 then LAN8814_PTP_LTC_RATE_ADJ_HI_DIR else 0) .| (v / 65536))
    with ((if adj >? 0 then 2 ^ 15 else 0) + v / 65536)
    by (destruct (adj >? 0); [symmetry; by apply (lor_disjoint 1 15); lia|by rewrite Z.lor_0_l]).
  rewrite u16_small by (destruct (adj >? 0); lia). done.
Qed.

(** C18. Setting the rate of the clock, with a magnitude below 2^45, always
    reports success.  On the base port of a package, which has the clock, the
    two registers get the sign and the magnitude, converted exactly
    (rounded down) to their unit for the period of the configured clock, and
    the rate is stored; a rate that needs more than 30 bits is neither applied
    nor stored.  On the other ports nothing is accessed and nothing stored. *)
Theorem rateadj_set_spec dev d b db t adj :
  t !! dev = Some d -> pd_base_dev d = Some b -> t !! b = Some db -> Z.abs adj < 2 ^ 45 ->
  let units := rate_units (ts_clk_freq (pd_ts_state d)) adj in
  does (lan8814_ts_clock_rateadj_set dev (Some adj)) t (fun rc t' l => rc = MEPA_RC_OK /\
    if (b =? dev) && (units <? 2 ^ 30) then
      all_wr dev l = rate_writes (0 <? adj) units /\
      t' = <[dev := with_tp (set_tp_rate_adj adj) d]> t
    else l = [] /\ t' = t).
Proof.
  intros Hd Hb Hdb Ha units. destruct (Z.eqb_spec b dev) as [->|Hne]; cbn [andb].
  2: { unfold lan8814_ts_clock_rateadj_set. do 3 does_step. eapply does_deref; [exact Hb|]. does_step.
       eapply does_data_of; [exact Hdb|]. do 3 does_step. rewrite (proj2 (Z.eqb_neq b dev)) by done. by does_auto. }
  pose proof (ltc_period_range (ts_clk_freq (pd_ts_state d))) as Hp.
  assert (rate_adj_val (ltc_period (ts_clk_freq (pd_ts_state d))) (Z.abs adj) = units) as Hu.
  { unfold rate_adj_val, units, rate_units. rewrite <- ltc_period_eq. change (1 .<< 16) with (2 ^ 16).
    rewrite u64_small; [done|nia]. }
  apply (does_rateadj dev d); [done|done|lia|..]; rewrite Hu.
  - intros Hv. split; [done|]. rewrite (proj2 (Z.ltb_ge _ _)) by lia. done.
  - intros Hv l Hl. split; [done|]. rewrite (proj2 (Z.ltb_lt _ _)) by lia. rewrite Z.gtb_ltb in Hl. done.
Qed.

(** The product that converts the rate is kept in 64 bits and wraps: the
    rate 2^46, far beyond what the register can hold, is applied as no rate at
    all and stored as if it had been. *)
Theorem rateadj_wraps dev d t :
  t !! dev = Some d -> pd_base_dev d = Some dev ->
  ts_clk_freq (pd_ts_state d) = MEPA_TS_CLOCK_FREQ_250M ->
  does (lan8814_ts_clock_rateadj_set dev (Some (2 ^ 46))) t (fun rc t' l => rc = MEPA_RC_OK /\
    2 ^ 30 <= rate_units (ts_clk_freq (pd_ts_state d)) (2 ^ 46) /\
    all_wr dev l = rate_writes true 0 /\
    t' = <[dev := with_tp (set_tp_rate_adj (2 ^ 46)) d]> t).
Proof.
  intros Hd Hb Hf. apply (does_rateadj dev d); [done..| |]; rewrite Hf; [by intros []|].
  intros _ l Hl. split; [done|]. split; [by apply Z.leb_le|]. split; [exact Hl|done].
Qed.
End Ltc.

(** ** Latencies *)

(** The register of a latency, its default and its place in a record of
    latencies, by speed. *)
Record lat_sel := Lat {
  ls_reg : ereg;
  ls_column : Z;
  ls_get : lan8814_ts_port_latencies_t -> Z;
  ls_set : Z -> lan8814_ts_port_latencies_t -> lan8814_ts_port_latencies_t;
}.
Definition tx_lat (speed : Z) : option lat_sel :=
  if speed =? MEPA_SPEED_10M then Some (Lat LAN8814_PTP_TX_LATENCY_10 1 lat_tx10mbps set_lat_tx10mbps)
  else if speed =? MEPA_SPEED_100M then
    Some (Lat LAN8814_PTP_TX_LATENCY_100 2 lat_tx100mbps set_lat_tx100mbps)
  else if (speed =? MEPA_SPEED_1G) || (speed =? MEPA_SPEED_AUTO) then
    Some (Lat LAN8814_PTP_TX_LATENCY_1000 3 lat_tx1000mbps set_lat_tx1000mbps)
  else None.

Definition with_latency (s : lat_sel) (x : Z) : phy_data_t -> phy_data_t :=
  with_tp (fun p => set_tp_port_latencies (ls_set s x (tp_port_latencies p)) p).

(** The latency of a port in nanoseconds * 2^16: the chip's default, less the
    correction of a two-step clock, plus what the application asks for. *)
Definition two_step_adj (freq column : Z) : Z :=
  default 0 (default [] (lan8814_twostep_egr_lat_adj !! Z.to_nat freq) !! Z.to_nat column).
Definition egress_total (b d : phy_data_t) (s : lat_sel) (x : Z) : Z :=
  ls_get s (ts_default_latencies (pd_ts_state b)) -
  (if tb (is_two_step (tp_tx_clock_conf (ts_ts_port_conf (pd_ts_state d))))
   then two_step_adj (ts_clk_freq (pd_ts_state b)) (ls_column s) * 2 ^ 16 else 0) + x.

Section Latency.
Context {B : Type} {CO : Callout B} {OK : BusOk CO}.
Implicit Types (dev : Z) (d : phy_data_t) (t : gmap Z phy_data_t).
Local Abbreviation does := (does (B := B)).

Lemma two_step_adj_range f c : 0 <= two_step_adj f c < 2 ^ 16.
Proof.
  unfold two_step_adj. destruct (lan8814_twostep_egr_lat_adj !! Z.to_nat f) as [row|] eqn:Hr; cbn [from_option id]; [|by rewrite lookup_nil].
  destruct (proj1 (Forall_lookup _ _) twostep_table _ _ Hr) as [_ Hv].
  destruct (row !! Z.to_nat c) as [v|] eqn:Hc; [|done]. exact (proj1 (Forall_lookup _ _) Hv _ _ Hc).
Qed.

Lemma does_egress_latency {A} b col dflt x two t (k : Z -> M B phy_data_t A) Q :
  ts_wf (pd_ts_state b) -> 0 <= col < 4 -> latency_ok dflt -> latency_ok x ->
  does (k (dflt - (if tb two then two_step_adj (ts_clk_freq (pd_ts_state b)) col * 2 ^ 16 else 0) + x)) t Q ->
  does (bind (egress_latency b col dflt x two) k) t Q.
Proof.
  intros (Hc & _) Hs Hl Hx Hk. unfold latency_ok in *. unfold egress_latency.
  pose proof (two_step_adj_range (ts_clk_freq (pd_ts_state b)) col) as Hr.
  apply does_bind, does_bind. destruct (tb two).
  - unfold two_step_adj in *.
    destruct (lookup_lt_is_Some_2 lan8814_twostep_egr_lat_adj (Z.to_nat (ts_clk_freq (pd_ts_state b)))) as [row Hrow];
      [cbn; lia|]. rewrite Hrow in *. cbn [from_option id] in *.
    destruct (proj1 (Forall_lookup _ _) twostep_table _ _ Hrow) as [Hn _].
    destruct (lookup_lt_is_Some_2 row (Z.to_nat col)) as [v Hv]; [lia|]. rewrite Hv in *. cbn [from_option id] in *.
    apply does_bind. eapply does_arr; [lia|exact Hrow|]. apply does_bind. eapply does_arr; [lia|exact Hv|].
    rewrite Z.shiftl_mul_pow2 by lia. do 2 (apply does_ck64; [lia|]). exact Hk.
  - apply does_ret, does_ck64; [lia|]. rewrite Z.sub_0_r in Hk. exact Hk.
Qed.

Lemma does_egress_case dev d t lat x s (Q : unit -> gmap Z phy_data_t -> list access -> Prop) :
  t !! dev = Some d -> ep_ok (ls_reg s) = true ->
  (lat < 0 -> Q tt t []) ->
  (0 <= lat -> forall l, all_wr dev l = [(ep (ls_reg s), lat / 2 ^ 16 mod 2 ^ 16)] ->
     Q tt (<[dev := with_latency s x d]> t) l) ->
  does (egress_latency_case dev lat x (ls_reg s) (ls_set s)) t Q.
Proof.
  intros Hd Hr H1 H2. unfold egress_latency_case. destruct (Z.geb_spec lat 0); [|by does_auto; apply H1; lia].
  apply does_bind, does_EP_WR; [done|]. intros v _. unfold upd_plat, upd_tp, upd_ts. does_step.
  apply H2; [done|]. all_wr_tac. unfold u16. rewrite Z.mod_mod, Z.shiftr_div_pow2 by lia. done.
Qed.

Lemma does_egress_one dev d b t x s (Q : unit -> gmap Z phy_data_t -> list access -> Prop) :
  t !! dev = Some d -> ep_ok (ls_reg s) = true -> ts_wf (pd_ts_state b) -> 0 <= ls_column s < 4 ->
  latency_ok (ls_get s (ts_default_latencies (pd_ts_state b))) -> latency_ok x ->
  let total := egress_total b d s x in
  (total < 0 -> Q tt t []) ->
  (0 <= total -> forall l, all_wr dev l = [(ep (ls_reg s), total / 2 ^ 16 mod 2 ^ 16)] ->
     Q tt (<[dev := with_latency s x d]> t) l) ->
  does (latency <- egress_latency b (ls_column s) (ls_get s (ts_default_latencies (pd_ts_state b))) x
          (is_two_step (tp_tx_clock_conf (ts_ts_port_conf (pd_ts_state d)))) ;;
        egress_latency_case dev latency x (ls_reg s) (ls_set s)) t Q.
Proof.
  intros Hd Hr Hwf Hc Hl Hx total H1 H2. apply does_egress_latency; [done..|].
  by eapply does_egress_case.
Qed.

(** Asking for an egress latency writes the total to the register of the
    port's speed, in nanoseconds, and stores the request; a negative total is
    not applied and not stored, and the call still reports success. *)
Theorem egress_latency_set_spec dev d b base t x s :
  t !! dev = Some d -> pd_base_dev d = Some base -> t !! base = Some b ->
  ts_wf (pd_ts_state b) -> latency_ok x -> tx_lat (conf_speed (pd_conf d)) = Some s ->
  does (lan8814_ts_clock_egress_latency_set dev (Some x)) t (fun rc t' l => rc = MEPA_RC_OK /\
    let total := egress_total b d s x in
    if total <? 0 then l = [] /\ t' = t
    else all_wr dev l = [(ep (ls_reg s), total / 2 ^ 16 mod 2 ^ 16)] /\
         t' = <[dev := with_latency s x d]> t).
Proof.
  intros Hd Hb Hbd Hwf Hx Hs. unfold lan8814_ts_clock_egress_latency_set. do 4 does_step. does_step.
  unfold lan8814_ts_clock_egress_latency_set_priv. does_step. does_step. does_step.
  eapply does_deref; [exact Hb|]. do 2 does_step. cbv zeta. does_step.
  pose proof Hwf as (_ & (_&_&_&?&?&?) & _).
  revert Hs. unfold tx_lat.
  repeat (match goal with |- does (if ?c then _ else _) _ _ => fail 1 | |- context [if ?c then Some _ else _] => destruct c end);
    intros Hs; simplify_eq;
    (lazymatch goal with |- context [egress_total _ _ ?s _] =>
       apply (does_egress_one dev d b t x s); [done|done|done|cbn; lia|done|done|..] end);
    intros; does_auto; cbn [app]; rewrite ?app_nil_r;
    (lazymatch goal with
     | Hl : _ < 0 |- _ => rewrite (proj2 (Z.ltb_lt _ _) Hl)
     | Hl : 0 <= _ |- _ => rewrite (proj2 (Z.ltb_ge _ _) Hl)
     end); auto.
Qed.
End Latency.

(** ** The time stamp FIFO *)

(** The six words of an entry: nanoseconds, seconds and message header. *)
Record fifo_words := Words { f_nh : Z; f_nl : Z; f_sh : Z; f_sl : Z; f_h1 : Z; f_h2 : Z }.

Definition fifo_reads (dev : Z) (e : fifo_words) : list access :=
  [ARd dev (ep LAN8814_PTP_TX_TS_NS_HI) (f_nh e); ARd dev (ep LAN8814_PTP_TX_TS_NS_LO) (f_nl e);
   ARd dev (ep LAN8814_PTP_TX_TS_SEC_HI) (f_sh e); ARd dev (ep LAN8814_PTP_TX_TS_SEC_LO) (f_sl e);
   ARd dev (ep LAN8814_PTP_TX_MSG_HEADER1) (f_h1 e); ARd dev (ep LAN8814_PTP_TX_MSG_HEADER2) (f_h2 e)].
Definition valid_words (e : fifo_words) : Prop := Z.testbit (f_nh e) 15 = true.
(** The read that finds the FIFO empty. *)
Definition fifo_empty_read (dev v : Z) : list access := [ARd dev (ep LAN8814_PTP_TX_TS_NS_HI) v].

(** The entry the application gets: a 30-bit count of nanoseconds, 32 bits of
    seconds, and the message's type, source port checksum and sequence
    number; [e] is what the array held. *)
Definition fifo_entry (x : fifo_words) (e : mepa_fifo_ts_entry_t) : mepa_fifo_ts_entry_t :=
  let sig := fe_sig e in
  Mk_mepa_fifo_ts_entry_t
    (set_sig_sequence_id (f_h2 x) (set_sig_dmac_addr (repeat 0 6) (set_sig_dest_ipv4 (repeat 0 4)
      (set_sig_ipv6_sig_supported FALSE (set_sig_ipv4_sig_supported FALSE
      (set_sig_dmac_sig_supported FALSE (set_sig_has_crc_src TRUE
      (set_sig_crc_src_port (f_h1 x / 16) (set_sig_msg_type (f_h1 x mod 16) sig)))))))))
    (Mk_mepa_timestamp_t 0 (f_sh x * 65536 + f_sl x) (f_nh x mod 2 ^ 14 * 65536 + f_nl x)
       (tm_picoseconds (fe_ts e))).

(** The entries of the array from [i] on replaced by those read. *)
Definition fifo_store (i : nat) (es : list fifo_words) (l : list mepa_fifo_ts_entry_t)
  : list mepa_fifo_ts_entry_t :=
  take i l ++ zip_with fifo_entry es (drop i l) ++ drop (i + length es) l.

Section Fifo.
Context {B : Type} {CO : Callout B} {OK : BusOk CO}.
Implicit Types (dev : Z) (d : phy_data_t) (t : gmap Z phy_data_t).
Local Abbreviation does := (does (B := B)).

Lemma fifo_valid v : tb (v .& LAN8814_PTP_TX_TS_NS_PTP_TX_TS_VALID) = Z.testbit v 15.
Proof. change LAN8814_PTP_TX_TS_NS_PTP_TX_TS_VALID with (1 .<< 15). by rewrite tb_bit. Qed.

Lemma fifo_sig_entry h1 h2 nh nl sh sl e :
  0 <= nl < 65536 -> 0 <= sh < 65536 -> 0 <= sl < 65536 ->
  Mk_mepa_fifo_ts_entry_t (fifo_sig h1 h2 (fe_sig e)) (set_tm_seconds_high 0 (fifo_ts nh nl sh sl (fe_ts e))) =
  fifo_entry (Words nh nl sh sl h1 h2) e.
Proof.
  intros Hnl Hsh Hsl. unfold fifo_entry, fifo_sig, fifo_ts, set_tm_seconds_high, set_tm_seconds_low, set_tm_nanoseconds.
  cbn [f_nh f_nl f_sh f_sl f_h1 f_h2 tm_seconds_high tm_seconds_low tm_nanoseconds tm_picoseconds].
  rewrite low30, !join32 by (done || apply low14_range).
  change 0xF with (Z.ones 4). rewrite Z.land_ones, Z.shiftr_div_pow2 by done. done.
Qed.

Lemma fifo_store_nil i l : (i <= length l)%nat -> fifo_store i [] l = l.
Proof. intros. unfold fifo_store. cbn. by rewrite Nat.add_0_r, take_drop. Qed.

Lemma fifo_store_cons i x es l e : l !! i = Some e ->
  fifo_store (S i) es (<[i := fifo_entry x e]> l) = fifo_store i (x :: es) l.
Proof.
  intros Hi. pose proof (lookup_lt_Some _ _ _ Hi) as Hlt. unfold fifo_store.
  rewrite (drop_S _ _ _ Hi). cbn [zip_with length].
  rewrite (take_S_r _ i (fifo_entry x e)) by (by apply list_lookup_insert_eq).
  rewrite take_insert_ge, !drop_insert_lt by lia.
  rewrite <- app_assoc. cbn [app]. by rewrite Nat.add_succ_r.
Qed.

Lemma does_fifo_loop dev t n : forall val i l Q,
  0 <= i -> i + Z.of_nat n <= Z.of_nat (length l) ->
  (forall es tail, Forall valid_words es -> (length es <= n)%nat ->
     (length es = n /\ tail = [] \/
      (length es < n)%nat /\ exists v, Z.testbit v 15 = false /\ tail = fifo_empty_read dev v) ->
     Q (i + Z.of_nat (length es), fifo_store (Z.to_nat i) es l) t
       (concat (map (fifo_reads dev) es) ++ tail)) ->
  does (fifo_loop n dev val i l) t Q.
Proof.
  induction n as [|n IH]; intros val i l Q Hi Hl HQ; cbn [fifo_loop].
  - does_step. specialize (HQ [] [] ltac:(by constructor) ltac:(done) ltac:(by left)).
    cbn in HQ. by rewrite Z.add_0_r, fifo_store_nil in HQ by lia.
  - burst_step. rewrite fifo_valid. apply does_in_if; intros Hv.
    + destruct (lookup_lt_is_Some_2 l (Z.to_nat i)) as [e He]; [lia|].
      eapply does_in_silent.
      { intros w. unfold arr. rewrite (proj2 (Z.ltb_ge _ _)), He by lia. reflexivity. }
      do 5 burst_step. apply does_in_end. rewrite fifo_sig_entry by done.
      apply IH; [lia|rewrite length_insert; lia|]. intros es tail Hes Hn Ht.
      specialize (HQ (Words v v0 v1 v2 v3 v4 :: es) tail).
      rewrite Z2Nat.inj_add, Nat.add_1_r, (fifo_store_cons _ _ _ _ _ He) by lia.
      replace (i + 1 + Z.of_nat (length es)) with (i + Z.of_nat (S (length es))) by lia.
      apply HQ; [by constructor|cbn; lia|]. cbn [length]. destruct Ht as [[? ?]|[? ?]]; [left|right]; split; auto; lia.
    + apply does_in_end. does_step.
      specialize (HQ [] (fifo_empty_read dev v) ltac:(by constructor) ltac:(cbn; lia)
        ltac:(right; split; [cbn; lia|by exists v])).
      cbn in HQ. by rewrite Z.add_0_r, fifo_store_nil in HQ by lia.
Qed.

(** C16. Reading the FIFO takes up to eight entries, each with one burst of six
    reads, until one is not valid, decodes them into the caller's array in
    order, and leaves the rest of the array alone; an array that has room for
    fewer than eight is refused. *)
Theorem fifo_get_spec dev t l size num :
  size <= Z.of_nat (length l) ->
  does (lan8814_ts_fifo_get dev l size num) t (fun r t' acc => t' = t /\
    if size <? 8 then r = (MEPA_RC_ERROR, l, num) /\ acc = []
    else exists es tail, Forall valid_words es /\
      acc = concat (map (fifo_reads dev) es) ++ tail /\
      (length es = 8%nat /\ tail = [] \/
       (length es < 8)%nat /\ exists v, Z.testbit v 15 = false /\ tail = fifo_empty_read dev v) /\
      r = (MEPA_RC_OK, zip_with fifo_entry es l ++ drop (length es) l, Z.of_nat (length es))).
Proof.
  intros Hl. unfold lan8814_ts_fifo_get. change MEPA_TS_FIFO_MAX_ENTRIES with 8.
  destruct (Z.ltb_spec size 8); [by does_auto|]. do 3 does_step.
  apply does_fifo_loop; [done|cbn; lia|]. intros es tail Hes _ Ht. does_auto. split; [done|].
  exists es, tail. cbn [app]. rewrite app_nil_r. by split_and!.
Qed.

Lemma does_tx_ts_loop dev d t cb n : forall val h1 h2 Q,
  ts_fifo_cb (pd_ts_state d) = Some cb ->
  (forall es, Forall valid_words es -> length es = n -> Q None t (concat (map (fifo_reads dev) es))) ->
  (forall es v, Forall valid_words es -> (length es < n)%nat -> Z.testbit v 15 = false ->
     Q (Some tt) t (concat (map (fifo_reads dev) es) ++ fifo_empty_read dev v)) ->
  does (tx_ts_loop n dev d val h1 h2) t Q.
Proof.
  induction n as [|n IH]; intros val h1 h2 Q Hcb HQ1 HQ2; cbn [tx_ts_loop].
  - does_step. by apply (HQ1 []).
  - do 2 does_step. rewrite fifo_valid. destruct (Z.testbit v 15) eqn:Hv.
    + do 5 (does_step; does_step). do 3 does_step. unfold fifo_callback. rewrite Hcb. does_step.
      eapply does_deref; [done|]. apply does_log; [done|]. do 2 does_step. cbn [app].
      apply (IH _ _ _ (fun a t' l' => Q a t' (_ :: _ :: _ :: _ :: _ :: _ :: l'))); [done|..].
      * intros es Hes Hn. apply (HQ1 (Words v v0 v1 v2 v3 v4 :: es)); [by constructor|cbn; lia].
      * intros es v' Hes Hn Hv'. apply (HQ2 (Words v v0 v1 v2 v3 v4 :: es)); [by constructor|cbn; lia|done].
    + does_step. by apply (HQ2 []); [constructor|cbn; lia|].
Qed.

(** C17. Emptying the FIFO through the installed callback ends as soon as an
    entry is not valid, having read the six registers of every entry before
    it; it goes on for [turns] entries only when the PHY shows that many valid
    entries in a row. *)
Theorem tx_ts_get_spec dev d t cb turns :
  t !! dev = Some d -> ts_fifo_cb (pd_ts_state d) = Some cb ->
  does (lan8814_ts_tx_ts_get turns dev) t (fun r t' l => t' = t /\ exists es, Forall valid_words es /\
    match r with
    | Some rc => rc = MEPA_RC_OK /\ (length es < turns)%nat /\ exists v, Z.testbit v 15 = false /\
        l = concat (map (fifo_reads dev) es) ++ fifo_empty_read dev v
    | None => length es = turns /\ l = concat (map (fifo_reads dev) es)
    end).
Proof.
  intros Hd Hcb. unfold lan8814_ts_tx_ts_get. do 5 does_step.
  eapply does_tx_ts_loop; [done|..]; intros; does_auto; cbn [app]; rewrite ?app_nil_r.
  - split; [done|]. by eexists.
  - split; [done|]. eexists. split; [done|]. split; [done|]. split; [done|]. by eexists.
Qed.
End Fifo.

(** ** Initialisation *)

(** What the chip's block is programmed with: the source and the period of its
    clock, and the divider where it is written; [None] when it is refused. *)
Definition block_clock (c : mepa_ts_init_conf_t) : option (Z * Z * option Z) :=
  if ti_tx_fifo_mode c =? MEPA_TS_FIFO_MODE_NORMAL then
    match ref_clk_source (ti_clk_src c), ref_clk_period (ti_clk_freq c) with
    | Some src, Some (period, pll) => Some (src, period, pll)
    | _, _ => None
    end
  else None.

Definition block_mode (c : mepa_ts_init_conf_t) : Z :=
  if tb (mp_mch_en (ti_mch_pch_conf c)) then 3 else if tb (mp_pch_en (ti_mch_pch_conf c)) then 2 else 1.

(** The registers of the block: [x], [y], [z] are what they held. *)
Definition block_writes (c : mepa_ts_init_conf_t) (k : Z * Z * option Z) (x y z : Z) : list (reg * Z) :=
  let '(src, period, pll) := k in
  match pll with Some v => [(ep LAN8814_1588_PLL_DIVEDER, u16 v)] | None => [] end ++
  [(ep LAN8814_PTP_REF_CLK_CFG, u16 (x .| (src .<< 10) .| period .| 2 ^ 9));
   (ep LAN8814_PTP_OPERATING_MODE, rmw y (block_mode c) 3);
   (ep LAN8814_PTP_CMD_CTL, rmw z 6 6)].

(** The configuration a port reports. *)
Definition init_conf_of (s : lan8814_ts_data_t) : mepa_ts_init_conf_t :=
  Mk_mepa_ts_init_conf_t (ts_clk_freq s) (ts_clk_src s) (ts_rx_ts_pos s) (ts_rx_ts_len s)
    (ts_tx_fifo_mode s) (ts_tx_fifo_ts_len s) (ts_tx_spi_en s) FALSE (ts_tc_op_mode s) FALSE
    (ts_tx_auto_followup_ts s) (ts_mch_pch s).

Section Init.
Context {B : Type} {CO : Callout B} {OK : BusOk CO}.
Implicit Types (dev : Z) (d : phy_data_t) (t : gmap Z phy_data_t).
Local Abbreviation does := (does (B := B)).

Lemma does_block_init dev d t c (Q : Z -> gmap Z phy_data_t -> list access -> Prop) :
  t !! dev = Some d ->
  (block_clock c = None -> forall l, all_wr dev l = [] -> Q MEPA_RC_ERROR t l) ->
  (forall k x y z l, block_clock c = Some k -> 0 <= x < 65536 ->
     all_wr dev l = block_writes c k x y z ->
     ARd dev (ep LAN8814_PTP_REF_CLK_CFG) x ∈ l -> Q MEPA_RC_OK t l) ->
  does (lan8814_tsu_block_init dev c) t Q.
Proof.
  intros Hd HQ1 HQ2.
  assert (forall src p, ref_clk_source (ti_clk_src c) = Some src -> ref_clk_period (ti_clk_freq c) = Some p ->
    LAN8814_PTP_REF_CLK_CFG_REF_CLK_SOURCE_F src = src .<< 10 /\
    LAN8814_PTP_REF_CLK_CFG_REF_CLK_PERIOD_F (fst p) = fst p) as Hblk.
  { intros src p Hs Hp. split.
    - unfold ref_clk_source in Hs. by repeat case_match; simplify_eq.
    - unfold ref_clk_period in Hp. by repeat case_match; simplify_eq. }
  unfold lan8814_tsu_block_init, block_clock in *. do 2 does_step.
  destruct (ti_tx_fifo_mode c =? MEPA_TS_FIFO_MODE_NORMAL); cbn [negb]; [|does_step; by apply HQ1].
  do 2 does_step. destruct (ref_clk_source (ti_clk_src c)) as [src|]; [|does_step; by apply HQ1].
  destruct (ref_clk_period (ti_clk_freq c)) as [[period pll]|]; [|does_step; by apply HQ1].
  destruct (Hblk _ _ eq_refl eq_refl) as [Hs' Hp']. cbn [fst] in Hp'.
  assert (forall y, rmw y (if tb (mp_mch_en (ti_mch_pch_conf c)) then LAN8814_PTP_OPERATING_MODE_VAL_F 3
     else if tb (mp_pch_en (ti_mch_pch_conf c)) then LAN8814_PTP_OPERATING_MODE_VAL_F 2
     else LAN8814_PTP_OPERATING_MODE_VAL_F 1) LAN8814_PTP_OPERATING_MODE_VAL = rmw y (block_mode c) 3) as Hm.
  { intros y. unfold block_mode. by repeat case_match. }
  destruct pll as [pll|]; does_auto; (eapply (HQ2 _ v); [done|done| |in_tac]); all_wr_tac;
    rewrite !rmw_def, Hm, Hs', Hp'; unfold block_writes, ep; reflexivity.
Qed.

(** A clock source and frequency the chip supports are programmed; what was in
    the clock register stays, so that a second initialisation with another
    source or period leaves the union of the two.  Anything else is refused
    and nothing is written. *)
Theorem tsu_block_init_spec dev d t c :
  t !! dev = Some d ->
  does (lan8814_tsu_block_init dev c) t (fun rc t' l => t' = t /\
    match block_clock c with
    | None => rc = MEPA_RC_ERROR /\ all_wr dev l = []
    | Some k => rc = MEPA_RC_OK /\ exists x y z, 0 <= x < 65536 /\
        ARd dev (ep LAN8814_PTP_REF_CLK_CFG) x ∈ l /\ all_wr dev l = block_writes c k x y z
    end).
Proof.
  intros Hd. apply (does_block_init dev d); [done|..].
  - intros -> l Hl. done.
  - intros k x y z l -> Hx Hl Hin. split; [done|]. split; [done|]. by exists x, y, z.
Qed.

Lemma does_seq_const {A} (m : M B phy_data_t unit) (k : M B phy_data_t A) t (Q : A -> gmap Z phy_data_t -> Prop) :
  does m t (fun _ t' _ => t' = t) -> does k t (fun a t' _ => Q a t') ->
  does (m ;;; k) t (fun a t' _ => Q a t').
Proof. intros Hm Hk. apply does_bind. eapply does_mono; [exact Hm|]. by intros _ t' l ->. Qed.

(** A default latency changes no other member of the time stamping state. *)
Lemma does_default_latency {A} dev d t tbl f col r store (k : Z -> M B phy_data_t A)
    (Q : A -> gmap Z phy_data_t -> Prop) :
  t !! dev = Some d -> ep_ok r = true -> 0 <= f < Z.of_nat (length tbl) -> 0 <= col < 3 ->
  Forall (fun row => length row = 3%nat /\ Forall (fun v => 0 <= v < 2 ^ 16) row) tbl ->
  (forall v d', init_conf_of (pd_ts_state d') = init_conf_of (pd_ts_state d) ->
     does (k v) (<[dev := d']> t) (fun a t' _ => Q a t')) ->
  does (bind (default_latency dev tbl f col r store) k) t (fun a t' _ => Q a t').
Proof.
  intros Hd Hr Hf Hc Htbl Hk.
  destruct (lookup_lt_is_Some_2 tbl (Z.to_nat f)) as [row Hrow]; [lia|].
  rewrite Forall_lookup in Htbl. destruct (Htbl _ _ Hrow) as [Hlen _].
  destruct (lookup_lt_is_Some_2 row (Z.to_nat col)) as [v Hv]; [lia|].
  apply does_bind. unfold default_latency, upd_dlat, upd_ts. apply does_bind.
  eapply does_arr; [lia|exact Hrow|]. apply does_bind. eapply does_arr; [lia|exact Hv|].
  does_step. apply does_EP_WRM; [done|]. intros x _. does_step. does_step. does_step. by apply Hk.
Qed.

Lemma pd_ts_set s d : pd_ts_state (set_pd_ts_state s d) = s.
Proof. done. Qed.
Lemma init_conf_port p s : init_conf_of (set_ts_ts_port_conf p s) = init_conf_of s.
Proof. done. Qed.
Lemma init_conf_done b s : init_conf_of (set_ts_ts_init_done b s) = init_conf_of s.
Proof. done. Qed.

Lemma does_port_init dev d t c (Q : Z -> gmap Z phy_data_t -> Prop) :
  t !! dev = Some d -> freq_ok c ->
  (forall d', init_conf_of (pd_ts_state d') = init_conf_of (port_init_state c (pd_ts_state d)) ->
     Q MEPA_RC_OK (<[dev := d']> t)) ->
  does (lan8814_ts_port_init dev c) t (fun rc t' _ => Q rc t').
Proof.
  intros Hd Hf HQ. destruct latency_tables as [Hi He]. unfold lan8814_ts_port_init. do 2 does_step.
  apply does_seq_const; [by destruct (negb _); does_auto|]. unfold upd_ts at 1. does_step. does_step.
  apply does_seq_const; [by destruct (_ =? _); does_auto|]. unfold upd_tp, upd_ts at 1. does_step. does_step.
  unfold freq_ok in Hf.
  do 6 (eapply does_default_latency; [apply lookup_insert_eq|done|done|lia|done|];
    let E := fresh "E" in intros ? ? E; rewrite insert_insert_eq).
  unfold upd_ts. does_auto. apply HQ.
  rewrite pd_ts_set, init_conf_done.
  by rewrite E4, E3, E2, E1, E0, E, !pd_ts_set, init_conf_port.
Qed.

(** The configuration of the caller, as it is reported: three members are not
    kept. *)
Definition init_conf_back (s : lan8814_ts_data_t) (c : mepa_ts_init_conf_t) : mepa_ts_init_conf_t :=
  set_ti_tx_fifo_spi_conf (ts_tx_spi_en s) (set_ti_auto_clear_ls FALSE
    (set_ti_dly_req_recv_10byte_ts FALSE c)).

Lemma does_init_conf_set dev d base t c (Q : Z -> gmap Z phy_data_t -> Prop) :
  t !! dev = Some d -> pd_base_dev d = Some base -> freq_ok c ->
  (base = dev -> block_clock c = None -> Q MEPA_RC_ERROR t) ->
  (forall d', base <> dev \/ is_Some (block_clock c) ->
     init_conf_of (pd_ts_state d') = init_conf_back (pd_ts_state d) c -> Q MEPA_RC_OK (<[dev := d']> t)) ->
  does (lan8814_ts_init_conf_set dev (Some c)) t (fun rc t' _ => Q rc t').
Proof.
  intros Hd Hb Hf H1 H2. unfold lan8814_ts_init_conf_set. do 3 does_step. rewrite Hb. cbn [ptr_is].
  assert (base <> dev \/ is_Some (block_clock c) ->
    does (mepa_enter ;;; rc <- lan8814_ts_port_init dev c ;; mepa_exit ;;; ret rc) t (fun rc t' _ => Q rc t')) as Hinit.
  { intros Hok. do 3 does_step. apply (does_port_init dev d); [done..|]. intros d' E. does_auto.
    apply H2; [done|]. rewrite E. reflexivity. }
  destruct (Z.eqb_spec base dev) as [->|Hne].
  - do 5 does_step. apply (does_block_init dev d); [done|..].
    + intros Hk l _. does_auto. change (negb (MEPA_RC_ERROR =? MEPA_RC_OK)) with true. cbv iota. does_step. by apply H1.
    + intros k ? ? ? l Hk _ _ _. do 3 does_step. change (negb (MEPA_RC_OK =? MEPA_RC_OK)) with false.
      apply Hinit. right. by exists k.
  - does_step. change (negb (MEPA_RC_OK =? MEPA_RC_OK)) with false. apply Hinit. by left.
Qed.

(** A port that is initialised reports the configuration it was given but
    for the three members the driver does not keep (SPI mode, automatic clear
    and 10-byte time stamps); a base port whose clock or FIFO mode is not
    supported reports an error and what it had before. *)
Theorem ts_init_get dev d base t c cur :
  t !! dev = Some d -> pd_base_dev d = Some base -> freq_ok c ->
  does (rc <- lan8814_ts_init_conf_set dev (Some c) ;;
        r <- lan8814_ts_init_conf_get dev (Some cur) ;; ret (rc, r)) t (fun r t' _ =>
    if (base =? dev) && negb (bool_decide (is_Some (block_clock c)))
    then r = (MEPA_RC_ERROR, (MEPA_RC_OK, Some (init_conf_of (pd_ts_state d)))) /\ t' = t
    else r = (MEPA_RC_OK, (MEPA_RC_OK, Some (init_conf_back (pd_ts_state d) c)))).
Proof.
  intros Hd Hb Hf. apply does_bind. apply (does_init_conf_set dev d base); [done..| |].
  - intros -> Hk. unfold lan8814_ts_init_conf_get. does_auto. by rewrite Z.eqb_refl, Hk.
  - intros d' Hok E. unfold lan8814_ts_init_conf_get. does_auto.
    fold (init_conf_of (pd_ts_state d')). rewrite E.
    destruct (Z.eqb_spec base dev); [|done]. destruct Hok as [?|Hk]; [done|].
    by rewrite bool_decide_true.
Qed.
End Init.

(** ** Events and pulses *)

(** The events a port has enabled after [event_set]. *)
Definition event_mask_after (old enable ev : Z) : Z :=
  if tb enable then old .| ev else old .& .~ ev.
(** Does the function look at the hardware mask at all? *)
Definition event_touches (old enable ev : Z) : bool :=
  if tb enable then (old .& ev) =? 0 else negb ((old .& ev) =? 0).

Section Events.
Context {B : Type} {CO : Callout B} {OK : BusOk CO}.
Implicit Types (dev : Z) (d : phy_data_t) (t : gmap Z phy_data_t).
Local Abbreviation does := (does (B := B)).

Lemma ts_int_en_bits m x i : 0 <= i ->
  Z.testbit (ts_int_en m x) i =
  if i =? 2 then Z.testbit m 5 else if i =? 3 then Z.testbit m 6 else Z.testbit x i.
Proof.
  intros Hi. unfold ts_int_en. change MEPA_TS_EGR_FIFO_OVERFLOW with (1 .<< 6).
  change MEPA_TS_EGR_TIMESTAMP_CAPTURED with (1 .<< 5).
  change LAN8814_PTP_TSU_INT_TX_TS_OVRFL_EN with (2 ^ 3). change LAN8814_PTP_TSU_INT_TX_TS_EN with (2 ^ 2).
  rewrite !tb_bit by lia. cbv zeta.
  destruct (Z.testbit m 6), (Z.testbit m 5);
    rewrite ?Z.lor_spec, ?Z.land_spec, ?Z.lnot_spec, ?Z.lor_spec, ?Z.land_spec, ?Z.lnot_spec, !Z.pow2_bits_eqb by lia;
    destruct (Z.eqb_spec i 2), (Z.eqb_spec i 3), (Z.eqb_spec 2 i), (Z.eqb_spec 3 i);
    try lia; cbn; rewrite ?andb_true_r, ?orb_false_r, ?andb_false_r, ?orb_true_r; done.
Qed.

(** The port's event mask always becomes the requested one, but the
    interrupt enables follow it only if, for enabling, none of the events was
    enabled before: enabling a new event together with an old one leaves the
    hardware unchanged.  When they do follow, bits 2 and 3 are exactly the two
    events of the mask and the others stay. *)
Theorem ts_event_set_spec dev d t enable ev :
  t !! dev = Some d ->
  let old := tp_event_mask (ts_ts_port_conf (pd_ts_state d)) in
  let new := event_mask_after old enable ev in
  does (lan8814_ts_event_set dev enable ev) t (fun rc t' l => rc = MEPA_RC_OK /\
    t' = <[dev := with_tp (set_tp_event_mask new) d]> t /\
    if event_touches old enable ev then
      exists x y v, l = [ARd dev (ep LAN8814_PTP_TSU_INT_EN) x; ARd dev (ep LAN8814_PTP_TSU_INT_EN) y;
                         AWr dev (ep LAN8814_PTP_TSU_INT_EN) v] /\
        forall i, 0 <= i < 16 -> Z.testbit v i =
          if i =? 2 then Z.testbit new 5 else if i =? 3 then Z.testbit new 6 else Z.testbit x i
    else l = []).
Proof.
  intros Hd old new. unfold lan8814_ts_event_set. do 4 does_step. fold old.
  assert ((if tb enable then ((old .& ev) =? 0, old .| ev) else (negb ((old .& ev) =? 0), old .& .~ ev)) =
          (event_touches old enable ev, new)) as ->.
  { unfold event_touches, new, event_mask_after. by destruct (tb enable). }
  cbv beta iota zeta. unfold upd_tp, upd_ts. do 3 does_step.
  destruct (event_touches old enable ev); does_auto; (split; [done|split; [done|]]); [|done].
  eexists _, _, _. split; [reflexivity|]. intros i Hi. rewrite rmw_def, testbit_u16, ts_int_en_bits by lia.
  by rewrite (proj2 (Z.ltb_lt i 16)) by lia.
Qed.

(** The smallest pulse width of the chip that is enough, or the largest. *)
Lemma pps_search_spec w l : forall i,
  exists k, pps_search w i l = i + Z.of_nat k /\ (k <= length l)%nat /\
    (forall j p, l !! j = Some p -> (j < k)%nat -> p < w) /\ (forall p, l !! k = Some p -> w <= p).
Proof.
  induction l as [|p l IH]; intros i; cbn [pps_search].
  - exists 0%nat. split_and!; [lia|done|done|done].
  - destruct (Z.leb_spec w p).
    + exists 0%nat. split_and!; [lia|cbn; lia|intros; lia|by intros ? [= ->]].
    + destruct (IH (i + 1)) as (k & E & Hk & H1 & H2). exists (S k).
      split_and!; [lia|cbn; lia| |done]. intros [|j] q Hj Hlt; [by simplify_eq/=|]. by apply (H1 j); [|lia].
Qed.
Lemma pps_option_spec w :
  0 <= pps_option w < 14 /\ exists p, pps_widths !! Z.to_nat (pps_option w) = Some p /\
    (w <= 200000000 -> w <= p) /\
    (forall j q, pps_widths !! j = Some q -> (j < Z.to_nat (pps_option w))%nat -> q < w).
Proof.
  unfold pps_option. destruct (pps_search_spec w pps_widths 0) as (k & -> & Hk & H1 & H2).
  change (Z.of_nat (length pps_widths)) with 14. rewrite Z.add_0_l. cbn [length pps_widths] in Hk.
  destruct (Z.geb_spec (Z.of_nat k) 14) as [Hge|Hlt].
  - split; [lia|]. exists 200000000. split; [done|]. split; [done|]. intros j q Hj Hlt.
    apply (H1 j); [done|]. change (Z.to_nat (14 - 1)) with 13%nat in Hlt. lia.
  - rewrite Nat2Z.id. split; [lia|]. destruct (lookup_lt_is_Some_2 pps_widths k) as [p Hp]; [cbn; lia|].
    exists p. split; [done|]. split; [intros _; by apply H2|exact H1].
Qed.

(** The writes that configure the pulse output, the time being [now]. *)
Definition pps_writes (c : mepa_ts_pps_conf_t) (now : Z) : list (reg * Z) :=
  if tb (pps_output_enable c) then
    target_writes ((now + 2) mod 2 ^ 32) (pps_offset c) ++
    [(ep LAN8814_PTP_LTC_TARGET_RELOAD_SEC_HI_A, 0); (ep LAN8814_PTP_LTC_TARGET_RELOAD_SEC_LO_A, 1);
     (ep LAN8814_PTP_LTC_TARGET_RELOAD_NS_HI_A, 0); (ep LAN8814_PTP_LTC_TARGET_RELOAD_NS_LO_A, 0);
     (ep LAN8814_PTP_GENERAL_CONFIG, 16 * pps_option (pps_width_adj c) + 2)]
  else target_writes 0 (pps_offset c) ++ [(ep LAN8814_PTP_GENERAL_CONFIG, 0)].

Definition with_pps (c : mepa_ts_pps_conf_t) (d : phy_data_t) : phy_data_t :=
  set_pd_ts_state (set_ts_pps c (pd_ts_state d)) d.

Lemma with_pps_twice c d : with_pps c (with_pps c d) = with_pps c d.
Proof. reflexivity. Qed.

(** Enabling the pulse on the base port makes it start two seconds after
    the time that was read, repeat every second, and last the smallest width
    of the chip that is enough (or the largest); disabling it clears the
    target and the configuration. The configuration is stored. *)
Theorem pps_conf_set_spec dev d t c :
  t !! dev = Some d -> pd_base_dev d = Some dev -> 0 <= pps_offset c < 2 ^ 32 ->
  does (lan8814_ts_pps_conf_set dev c) t (fun rc t' l => rc = MEPA_RC_OK /\
    t' = <[dev := with_pps c d]> t /\
    exists sh sl nh nl rest, l = ltc_reads dev sh sl nh nl ++ rest /\
      all_wr dev l = pps_writes c (sh * 65536 + sl) /\
      exists p, pps_widths !! Z.to_nat (pps_option (pps_width_adj c)) = Some p /\
        (pps_width_adj c <= 200000000 -> pps_width_adj c <= p) /\
        forall j q, pps_widths !! j = Some q -> (j < Z.to_nat (pps_option (pps_width_adj c)))%nat ->
          q < pps_width_adj c).
Proof.
  intros Hd Hb Ho. unfold lan8814_ts_pps_conf_set. do 3 does_step. eapply does_deref; [exact Hb|].
  do 3 does_step. apply (does_ltc_get dev d); [done..|]. intros sh sl nh nl Hsh Hsl.
  cbv beta iota zeta. cbn [from_option]. unfold upd_ts. do 6 does_step.
  destruct (pps_option_spec (pps_width_adj c)) as [Hr (p & Hp & Hle & Hlt)].
  match goal with |- context [<[dev := ?x]> t] => change x with (with_pps c (with_pps c d)) end.
  rewrite with_pps_twice. set (t1 := <[dev := with_pps c d]> t).
  assert (t1 !! dev = Some (with_pps c d)) as Hd1 by apply lookup_insert_eq.
  match goal with |- does (?m ;;; _) _ _ =>
    assert (does m t1 (fun _ t' l => t' = t1 /\ all_wr dev l = pps_writes c (sh * 65536 + sl))) as Hm end.
  { unfold pps_writes. destruct (tb (pps_output_enable c)).
    - pose proof (u32_range (sh * 65536 + sl + 2)). does_step.
      apply (does_ltc_target dev (with_pps c d) (with_pps c d) dev); [done|done|done|cbn; lia|done|].
      intros l Hl. does_auto. split; [done|]. all_wr_tac. rewrite Hl, !rmw_def.
      replace ((pps_option (pps_width_adj c) .<< 4) .| 2) with (16 * pps_option (pps_width_adj c) + 2)
        by (rewrite lor_disjoint by lia; lia). rewrite (u16_small (16 * _ + 2)) by lia. done.
    - does_step. apply (does_ltc_target dev (with_pps c d) (with_pps c d) dev); [done|done|done|lia|done|].
      intros l Hl. does_auto. split; [done|]. all_wr_tac. by rewrite Hl. }
  does_step. eapply does_mono; [exact Hm|]. intros _ t' l [-> Hl]. unfold t1. does_auto.
  match goal with |- context [<[dev := ?x]> t = _] =>
    change x with (with_pps c (with_pps c (with_pps c d))) end.
  rewrite !with_pps_twice. split; [done|]. split; [done|]. exists sh, sl, nh, nl, l.
  cbn [app]. rewrite !app_nil_r. split; [done|]. split; [by rewrite all_wr_app, Hl|]. by exists p.
Qed.
End Events.

(** ** The theorems apply *)

(** A chip whose clock runs at 250 MHz. *)
Definition ts_data : phy_data_t :=
  set_pd_ts_state (set_ts_clk_freq MEPA_TS_CLOCK_FREQ_250M lan8814_ts_data_t_0) phy_data_t_0.
(** The data of port [i] of the chip. *)
Definition ts_port (i : Z) : phy_data_t := quad_data i ts_data.

Lemma ltc_get_spec_witness :
  does (B := sim) (lan8814_ts_ltc_get 100 (Some mepa_timestamp_t_0)) (quad_table ts_data)
    (fun r _ l => fst r = MEPA_RC_OK /\ length l = 4%nat).
Proof.
  eapply does_mono.
  - apply (ltc_get_spec 100 (ts_port 0)); reflexivity.
  - intros r t' l (_ & sh & sl & nh & nl & -> & ->). by split.
Defined.

Lemma ltc_set_spec_witness :
  does (B := sim) (lan8814_ts_ltc_set 100 (Some (Mk_mepa_timestamp_t 1 65538 131073 0))) (quad_table ts_data)
    (fun rc _ l => rc = MEPA_RC_OK /\ exists v, nth_error (all_wr 100 l) 2 = Some v /\ snd v = 1).
Proof.
  eapply does_mono.
  - apply (ltc_set_spec 100 (ts_port 0) (ts_port 0) 100); [reflexivity..| | | |]; cbn; lia.
  - intros rc t' l (Hrc & _ & x & y & rest & _ & _ & _ & Hl). split; [exact Hrc|].
    cbn in Hl. rewrite Hl. by eexists.
Defined.

Lemma rateadj_set_spec_witness :
  does (B := sim) (lan8814_ts_clock_rateadj_set 100 (Some (-65536000000))) (quad_table ts_data)
    (fun rc _ l => all_wr 100 l = rate_writes false 17179869).
Proof.
  eapply does_mono.
  - eapply (rateadj_set_spec 100 (ts_port 0)); [reflexivity|reflexivity|reflexivity|lia].
  - intros rc t' l [_ [Hl _]]. exact Hl.
Defined.

Lemma rateadj_wraps_witness :
  does (B := sim) (lan8814_ts_clock_rateadj_set 100 (Some (2 ^ 46))) (quad_table ts_data)
    (fun rc _ l => rc = MEPA_RC_OK /\ all_wr 100 l = rate_writes true 0).
Proof.
  eapply does_mono.
  - apply (rateadj_wraps 100 (ts_port 0)); reflexivity.
  - intros rc t' l (Hrc & _ & Hl & _). by split.
Defined.

(** A port at 1 Gb/s. *)
Definition ts_1g : phy_data_t := set_pd_conf (set_conf_speed MEPA_SPEED_1G mepa_conf_t_0) ts_data.

Lemma ts_wf_250 : ts_wf (pd_ts_state ts_data).
Proof. repeat split; vm_compute; congruence. Qed.

Lemma egress_latency_set_spec_witness :
  does (B := sim) (lan8814_ts_clock_egress_latency_set 101 (Some (7 * 65536))) (quad_table ts_1g)
    (fun rc _ l => all_wr 101 l = [(ep LAN8814_PTP_TX_LATENCY_1000, 7)]).
Proof.
  eapply does_mono.
  - eapply (egress_latency_set_spec 101 (quad_data 1 ts_1g) (quad_data 0 ts_1g) 100); try reflexivity.
    + exact ts_wf_250.
    + unfold latency_ok. lia.
  - intros rc t' l [_ [Hl _]]. exact Hl.
Defined.

Lemma fifo_get_spec_witness :
  does (B := sim) (lan8814_ts_fifo_get 100 (repeat (Mk_mepa_fifo_ts_entry_t mepa_ts_fifo_sig_t_0 mepa_timestamp_t_0) 8) 8 0)
    (quad_table ts_data) (fun r _ _ => 0 <= snd r <= 8).
Proof.
  eapply does_mono.
  - apply fifo_get_spec. vm_compute. discriminate.
  - intros r t' l (_ & es & tail & _ & _ & Hn & ->). cbn [snd]. destruct Hn as [[-> _]|[Hn _]]; lia.
Defined.

Lemma tx_ts_get_spec_witness :
  let d := set_pd_ts_state (set_ts_fifo_cb (Some 7) (pd_ts_state ts_data)) ts_data in
  does (B := sim) (lan8814_ts_tx_ts_get 5 100) (quad_table d)
    (fun r _ l => r = Some MEPA_RC_OK \/ (30 <= length l)%nat).
Proof.
  intros d. eapply does_mono.
  - apply (tx_ts_get_spec 100 (quad_data 0 d) _ 7); reflexivity.
  - intros [rc|] t' l (_ & es & _ & H); [left; by destruct H as [-> _]|right].
    destruct H as [Hn ->]. do 5 (destruct es as [|? es]; [discriminate Hn|]).
    destruct es; [|discriminate Hn]. cbn. lia.
Defined.

Definition init_250 : mepa_ts_init_conf_t :=
  set_ti_clk_src MEPA_TS_CLOCK_SRC_125MHZ_INTERNAL_SYS_PLL (set_ti_clk_freq MEPA_TS_CLOCK_FREQ_250M mepa_ts_init_conf_t_0).

Lemma tsu_block_init_spec_witness :
  does (B := sim) (lan8814_tsu_block_init 100 init_250) (quad_table ts_data)
    (fun rc _ _ => rc = MEPA_RC_OK).
Proof.
  eapply does_mono.
  - apply (tsu_block_init_spec 100 (ts_port 0)). reflexivity.
  - intros rc t' l [_ [Hrc _]]. exact Hrc.
Defined.

Lemma ts_init_get_witness :
  does (B := sim) (rc <- lan8814_ts_init_conf_set 100 (Some init_250) ;;
        r <- lan8814_ts_init_conf_get 100 (Some mepa_ts_init_conf_t_0) ;; ret (rc, r)) (quad_table phy_data_t_0)
    (fun r _ _ => r = (MEPA_RC_OK, (MEPA_RC_OK, Some init_250))).
Proof.
  eapply does_mono.
  - apply (ts_init_get 100 (quad_data 0 phy_data_t_0) 100); [reflexivity|reflexivity|]. split; vm_compute; congruence.
  - intros r t' l Hr. exact Hr.
Defined.

Lemma ts_event_set_spec_witness :
  does (B := sim) (lan8814_ts_event_set 101 TRUE MEPA_TS_EGR_FIFO_OVERFLOW) (quad_table ts_data)
    (fun rc _ l => exists v, all_wr 101 l = [(ep LAN8814_PTP_TSU_INT_EN, v)] /\ Z.testbit v 3 = true).
Proof.
  eapply does_mono.
  - apply (ts_event_set_spec 101 (ts_port 1)). reflexivity.
  - intros rc t' l (_ & _ & x & y & v & -> & Hv). exists v. split; [reflexivity|]. by rewrite Hv.
Defined.

Lemma pps_conf_set_spec_witness :
  does (B := sim) (lan8814_ts_pps_conf_set 100 (set_pps_output_enable TRUE (set_pps_width_adj 600 mepa_ts_pps_conf_t_0)))
    (quad_table ts_data) (fun rc _ l => last (all_wr 100 l) = Some (ep LAN8814_PTP_GENERAL_CONFIG, 34)).
Proof.
  eapply does_mono.
  - apply (pps_conf_set_spec 100 (ts_port 0)); [reflexivity|reflexivity|split; vm_compute; congruence].
  - intros rc t' l (_ & _ & sh & sl & nh & nl & rest & _ & -> & _). reflexivity.
Defined.
