(* ===== verification/Lan8814TsClassSpec.v ===== *)
(** * Lan8814TsClassSpec: classifiers and PTP clocks are what was asked for

    Which classifier configurations are accepted, that an accepted one is the
    one read back and a refused one changes nothing, and the registers and the
    private data a PTP clock configuration leaves. *)

From Stdlib Require Import ZArith Lia List Bool String.
From stdpp Require Import base gmap strings list.
From S2P Require Import Prelude Machine Enums Lan8814Regs Lan8814Types Trace Mdio Lan8814Access SimPhy AccessLemmas Lan8814ConfSpec Lan8814Ts Lan8814TsClass Lan8814TsSpec.

(** The number of tags of a VLAN match, and the configurations the two
    functions accept. *)
Definition vlan_ok (eth : mepa_ts_classifier_eth_t) : bool :=
  negb (eth_vlan_check eth =? TRUE) ||
  (vl_num_tag (eth_vlan_conf eth) =? 1) || (vl_num_tag (eth_vlan_conf eth) =? 2).
Definition class_accepted (c : mepa_ts_classifier_t) : bool :=
  let eth := cl_eth_class_conf c in
  let encap := cl_pkt_encap_type c in
  negb (classifier_refused eth) &&
  ((encap =? MEPA_TS_ENCAP_NONE) ||
   (((encap =? MEPA_TS_ENCAP_ETH_PTP) || (encap =? MEPA_TS_ENCAP_ETH_IP_PTP)) && vlan_ok eth)).

Section Class.
Context {B : Type} {CO : Callout B} {OK : BusOk CO}.
Implicit Types (dev : Z) (d : phy_data_t) (t : gmap Z phy_data_t).
Local Abbreviation does := (does (B := B)).
Local Abbreviation M := (M B phy_data_t).

(** [m] leaves the device table as it is and its result satisfies [P]. *)
Definition keeps {A} (m : M A) t (P : A -> Prop) : Prop :=
  does m t (fun a t' _ => t' = t /\ P a).

Lemma keeps_ret {A} (a : A) t (P : A -> Prop) : P a -> keeps (ret a) t P.
Proof. intros HP. by apply does_ret. Qed.
Lemma keeps_bind {A C} (m : M A) (k : A -> M C) t (P : A -> Prop) Q :
  keeps m t P -> (forall a, P a -> keeps (k a) t Q) -> keeps (bind m k) t Q.
Proof.
  intros Hm Hk. apply does_bind. eapply does_mono; [exact Hm|]. intros a t' l [-> Ha].
  eapply does_mono; [by apply Hk|]. done.
Qed.
Lemma keeps_wrm {C} dev r v m (k : unit -> M C) t Q :
  ep_ok r = true -> keeps (k tt) t Q -> keeps (bind (EP_WRM dev r v m) k) t Q.
Proof.
  intros Hr Hk. apply (keeps_bind _ _ _ (fun _ => True)); [|by intros []].
  apply does_EP_WRM; [done|]. by intros x _.
Qed.
Lemma keeps_arr {A C} (l : list A) i (k : A -> M C) t Q :
  0 <= i < Z.of_nat (length l) -> (forall a, keeps (k a) t Q) -> keeps (bind (arr l i) k) t Q.
Proof.
  intros Hi Hk. destruct (lookup_lt_is_Some_2 l (Z.to_nat i)) as [a Ha]; [lia|].
  apply does_bind. eapply does_arr; [lia|done|]. eapply does_mono; [apply Hk|]. done.
Qed.
Lemma keeps_data {C} dev d (k : phy_data_t -> M C) t Q :
  t !! dev = Some d -> keeps (k d) t Q -> keeps (bind (data_of dev) k) t Q.
Proof.
  intros Hd Hk. apply does_bind. eapply does_data_of; [done|]. eapply does_mono; [exact Hk|]. done.
Qed.
Lemma keeps_try (m k : M Z) t (P Q : Z -> Prop) :
  keeps m t P -> (forall rc, P rc -> rc < MEPA_RC_OK -> Q rc) ->
  (forall rc, P rc -> MEPA_RC_OK <= rc -> keeps k t Q) -> keeps (try_rc m k) t Q.
Proof.
  intros Hm H1 H2. eapply keeps_bind; [exact Hm|]. intros rc Hrc.
  destruct (Z.ltb_spec rc MEPA_RC_OK); [apply keeps_ret; auto|by eapply H2].
Qed.
Lemma keeps_seq {A} (f : A -> M unit) l t : (forall x, x ∈ l -> keeps (f x) t (fun _ => True)) ->
  keeps (seq_ f l) t (fun _ => True).
Proof.
  induction l as [|x l IH]; intros Hf; cbn [seq_]; [by apply keeps_ret|].
  eapply keeps_bind; [apply Hf; constructor|]. intros _ _. apply IH. intros y Hy. apply Hf. by constructor.
Qed.
End Class.

(** One step of a function that only writes registers. *)
Ltac keeps_step :=
  lazymatch goal with
  | |- keeps (bind (EP_WRM _ _ _ _) _) _ _ => apply keeps_wrm; [reflexivity|]
  | |- keeps (EP_WRM _ _ _ _) _ _ => apply does_EP_WRM; [reflexivity|by intros ? _]
  | |- keeps (ret _) _ _ => apply keeps_ret
  | |- keeps (bind (data_of _) _) _ _ => eapply keeps_data; [eassumption|]
  | |- keeps (if ?b then _ else _) _ _ => destruct b eqn:?
  end.

Section ClassConf.
Context {B : Type} {CO : Callout B} {OK : BusOk CO}.
Implicit Types (dev : Z) (d : phy_data_t) (t : gmap Z phy_data_t).
Local Abbreviation does := (does (B := B)).
Local Abbreviation ok := (fun rc : Z => rc = MEPA_RC_OK).

Lemma keeps_mac dev ing mac t : length mac = 6%nat ->
  keeps (lan8814_ts_classifier_mac_conf_set_priv (B := B) dev ing mac) t ok.
Proof.
  intros Hm. unfold lan8814_ts_classifier_mac_conf_set_priv.
  do 6 (apply keeps_arr; [rewrite Hm; lia|intros ?]). by repeat keeps_step.
Qed.
Lemma keeps_ip_word dev words x t : 0 <= fst (fst x) < Z.of_nat (length words) ->
  ep_ok (snd (fst x)) = true -> ep_ok (snd x) = true ->
  keeps (ip_word_wr (B := B) dev words x) t (fun _ => True).
Proof.
  destruct x as [[i hi] lo]. cbn [fst snd]. intros Hi H1 H2. apply keeps_arr; [done|]. intros w.
  apply keeps_wrm; [done|]. apply does_EP_WRM; [done|]. by intros x _.
Qed.
(** The places of the address words, as a check on the tables. *)
Definition word_ok (x : Z * ereg * ereg) : bool :=
  (0 <=? fst (fst x)) && (fst (fst x) <? 8) && ep_ok (snd (fst x)) && ep_ok (snd x).
Lemma keeps_ip_words dev words l t : length words = 8%nat -> forallb word_ok l = true ->
  keeps (seq_ (ip_word_wr (B := B) dev words) l) t (fun _ => True).
Proof.
  intros Hw Hl. apply keeps_seq. intros x Hx. rewrite forallb_forall in Hl.
  specialize (Hl x (proj1 (list_elem_of_In _ _) Hx)). unfold word_ok in Hl.
  rewrite !andb_true_iff, Z.leb_le, Z.ltb_lt in Hl. destruct Hl as [[[? ?] ?] ?].
  apply keeps_ip_word; [rewrite Hw; lia|done|done].
Qed.
Lemma keeps_ipv4 dev ing words t : length words = 8%nat ->
  keeps (lan8814_ts_classifier_ipv4_addr_conf_priv (B := B) dev ing words) t ok.
Proof.
  intros Hw. eapply keeps_bind; [|by intros _ _; apply keeps_ret].
  apply keeps_ip_words; [done|]. by destruct (tb ing).
Qed.
Lemma keeps_ipv6 dev ing words t : length words = 8%nat ->
  keeps (lan8814_ts_classifier_ipv6_addr_conf_priv (B := B) dev ing words) t ok.
Proof.
  intros Hw. eapply keeps_bind; [|by intros _ _; apply keeps_ret].
  apply keeps_ip_words; [done|]. by destruct (tb ing).
Qed.

(** VLAN tags are accepted when there are one or two. *)
Lemma keeps_vlan dev d ing c t : t !! dev = Some d ->
  keeps (lan8814_ts_classifier_vlan_conf_set_priv (B := B) dev ing c) t (fun rc =>
    rc = if (vl_num_tag c =? 1) || (vl_num_tag c =? 2) then MEPA_RC_OK else MEPA_RC_ERROR).
Proof.
  intros Hd. unfold lan8814_ts_classifier_vlan_conf_set_priv. keeps_step. cbv zeta.
  rewrite (orb_comm (_ =? 2)). destruct ((vl_num_tag c =? 1) || (vl_num_tag c =? 2)); cbn [negb]; [|by keeps_step].
  apply (keeps_bind _ _ _ (fun _ => True)); [by repeat keeps_step|intros _ _].
  apply (keeps_bind _ _ _ (fun _ => True)); [unfold vlan_outer; by repeat keeps_step|intros _ _].
  apply (keeps_bind _ _ _ (fun _ => True)); [unfold vlan_inner; by repeat keeps_step|intros _ _].
  by keeps_step.
Qed.

Definition eth_rc (eth : mepa_ts_classifier_eth_t) : Z :=
  if vlan_ok eth then MEPA_RC_OK else MEPA_RC_ERROR.

Lemma keeps_eth dev d ing eth t (m1 m2 : M B phy_data_t Z) :
  t !! dev = Some d -> length (eth_mac_addr eth) = 6%nat ->
  keeps m1 t ok -> keeps m2 t ok ->
  keeps (try_rc (if mac_written eth then lan8814_ts_classifier_mac_conf_set_priv dev ing (eth_mac_addr eth)
                 else ret MEPA_RC_OK) (
         try_rc (if eth_vlan_check eth =? TRUE
                 then lan8814_ts_classifier_vlan_conf_set_priv dev ing (eth_vlan_conf eth)
                 else m1) m2)) t (fun rc => rc = eth_rc eth).
Proof.
  intros Hd Hm H1 H2. unfold eth_rc, vlan_ok. eapply (keeps_try _ _ _ ok).
  - destruct (mac_written eth); [by apply keeps_mac|by apply keeps_ret].
  - by intros rc -> ?.
  - intros _ _ _. destruct (eth_vlan_check eth =? TRUE); cbn [negb orb].
    + eapply keeps_try; [by eapply keeps_vlan|..]; intros rc ->; destruct (_ || _); by cbn.
    + eapply keeps_try; [exact H1|by intros rc ->|intros rc _ _]. exact H2.
Qed.
Lemma keeps_rx_eth dev d eth l2 t : t !! dev = Some d -> length (eth_mac_addr eth) = 6%nat ->
  keeps (rx_eth_conf (B := B) dev eth l2) t (fun rc => rc = eth_rc eth).
Proof. intros Hd Hm. by apply (keeps_eth dev d); [..|repeat keeps_step|repeat keeps_step]. Qed.
Lemma keeps_tx_eth dev d eth l2 t : t !! dev = Some d -> length (eth_mac_addr eth) = 6%nat ->
  keeps (tx_eth_conf (B := B) dev eth l2) t (fun rc => rc = eth_rc eth).
Proof. intros Hd Hm. by apply (keeps_eth dev d); [..|repeat keeps_step|repeat keeps_step]. Qed.
End ClassConf.

Section ClassSet.
Context {B : Type} {CO : Callout B} {OK : BusOk CO}.
Implicit Types (dev : Z) (d : phy_data_t) (t : gmap Z phy_data_t).
Local Abbreviation does := (does (B := B)).
Local Abbreviation ok := (fun rc : Z => rc = MEPA_RC_OK).

Lemma keeps_rx_ip dev c p t : length (ip_addr_words (cl_ip_class_conf c)) = 8%nat ->
  keeps (rx_ip_conf (B := B) dev c p) t (fun r => fst r = MEPA_RC_OK).
Proof.
  intros Hw. unfold rx_ip_conf. cbv zeta. apply (keeps_bind _ _ _ ok).
  { destruct (_ =? MEPA_TS_IP_VER_4); [by apply keeps_ipv4|by apply keeps_ipv6]. }
  intros rc ->. change (MEPA_RC_OK <? MEPA_RC_OK) with false. cbv iota.
  do 2 (apply (keeps_bind _ _ _ (fun _ => True)); [by repeat keeps_step|intros ? _]).
  by repeat keeps_step.
Qed.
Lemma keeps_tx_ip dev c p t : length (ip_addr_words (cl_ip_class_conf c)) = 8%nat ->
  keeps (tx_ip_conf (B := B) dev c p) t (fun r => fst r = MEPA_RC_OK).
Proof.
  intros Hw. unfold tx_ip_conf. cbv zeta. apply (keeps_bind _ _ _ ok).
  { destruct (_ =? MEPA_TS_IP_VER_4); [by apply keeps_ipv4|by apply keeps_ipv6]. }
  intros rc ->. change (MEPA_RC_OK <? MEPA_RC_OK) with false. cbv iota.
  do 2 (apply (keeps_bind _ _ _ (fun _ => True)); [by repeat keeps_step|intros ? _]).
  by repeat keeps_step.
Qed.

Definition class_rc (c : mepa_ts_classifier_t) : Z :=
  if class_accepted c then MEPA_RC_OK else MEPA_RC_ERROR.

(** The common shape of the two functions: a branch by encapsulation. *)
Lemma keeps_class (c : mepa_ts_classifier_t) t (l2 ip none other : M B phy_data_t Z) :
  keeps l2 t (fun rc => rc = eth_rc (cl_eth_class_conf c)) ->
  keeps ip t (fun rc => rc = eth_rc (cl_eth_class_conf c)) ->
  keeps none t ok -> keeps other t (fun rc => rc = MEPA_RC_ERROR) ->
  keeps (if classifier_refused (cl_eth_class_conf c) then ret MEPA_RC_ERROR
         else if cl_pkt_encap_type c =? MEPA_TS_ENCAP_ETH_PTP then l2
         else if cl_pkt_encap_type c =? MEPA_TS_ENCAP_ETH_IP_PTP then ip
         else if cl_pkt_encap_type c =? MEPA_TS_ENCAP_NONE then none else other) t
    (fun rc => rc = class_rc c).
Proof.
  intros H1 H2 H3 H4. unfold class_rc, class_accepted. unfold eth_rc in *. cbv zeta.
  destruct (classifier_refused _); [by apply keeps_ret|]. cbn [negb andb].
  destruct (Z.eqb_spec (cl_pkt_encap_type c) MEPA_TS_ENCAP_ETH_PTP) as [->|]; [exact H1|].
  destruct (Z.eqb_spec (cl_pkt_encap_type c) MEPA_TS_ENCAP_ETH_IP_PTP) as [->|]; [exact H2|].
  cbn [orb andb]. rewrite orb_false_r. by destruct (_ =? _).
Qed.

(** What follows the Ethernet part runs only when that was accepted. *)
Lemma keeps_after_eth eth t (m k : M B phy_data_t Z) :
  keeps m t (fun rc => rc = eth_rc eth) -> keeps k t ok ->
  keeps (try_rc m k) t (fun rc => rc = eth_rc eth).
Proof.
  intros Hm Hk. eapply keeps_try; [exact Hm|..]; unfold eth_rc; intros rc ->; destruct (vlan_ok eth); try done.
Qed.

Lemma keeps_rx_class dev d i c t : t !! dev = Some d -> class_ok c ->
  keeps (lan8814_ts_rx_classifier_conf_set_priv (B := B) dev i c) t (fun rc => rc = class_rc c).
Proof.
  intros Hd [Hm Hw]. unfold lan8814_ts_rx_classifier_conf_set_priv. keeps_step. cbv zeta.
  apply keeps_class; [apply keeps_after_eth; [by eapply keeps_rx_eth|by repeat keeps_step]| |by repeat keeps_step..].
  apply keeps_after_eth; [by eapply keeps_rx_eth|].
  eapply keeps_bind; [by apply keeps_rx_ip|]. intros [rc p] Hrc. cbn [fst] in Hrc. subst rc. by repeat keeps_step.
Qed.
Lemma keeps_tx_class dev d i c t : t !! dev = Some d -> class_ok c ->
  keeps (lan8814_ts_tx_classifier_conf_set_priv (B := B) dev i c) t (fun rc => rc = class_rc c).
Proof.
  intros Hd [Hm Hw]. unfold lan8814_ts_tx_classifier_conf_set_priv. keeps_step. cbv zeta.
  apply keeps_class; [apply keeps_after_eth; [by eapply keeps_tx_eth|by repeat keeps_step]| |by repeat keeps_step..].
  apply keeps_after_eth; [by eapply keeps_tx_eth|].
  eapply keeps_bind; [by apply keeps_tx_ip|]. intros [rc p] Hrc. cbn [fst] in Hrc. subst rc. by repeat keeps_step.
Qed.

(** C19. A packet classifier, for either direction, is accepted exactly when its
    encapsulation, MAC match and number of VLAN tags are supported; then it is
    what the get function reports. A refused one leaves the stored
    classifier, which is reported instead. *)
Theorem classifier_set_get dev d t i c cur :
  t !! dev = Some d -> class_ok c ->
  does (rc <- lan8814_ts_rx_classifier_conf_set dev i (Some c) ;;
        r <- lan8814_ts_rx_classifier_conf_get dev i (Some cur) ;; ret (rc, r)) t (fun r t' _ =>
    if class_accepted c
    then r = (MEPA_RC_OK, (MEPA_RC_OK, Some c)) /\ t' = <[dev := with_tp (set_tp_rx_pkt_conf c) d]> t
    else r = (MEPA_RC_ERROR, (MEPA_RC_OK, Some (tp_rx_pkt_conf (ts_ts_port_conf (pd_ts_state d))))) /\ t' = t) /\
  does (rc <- lan8814_ts_tx_classifier_conf_set dev i (Some c) ;;
        r <- lan8814_ts_tx_classifier_conf_get dev i (Some cur) ;; ret (rc, r)) t (fun r t' _ =>
    if class_accepted c
    then r = (MEPA_RC_OK, (MEPA_RC_OK, Some c)) /\ t' = <[dev := with_tp (set_tp_tx_pkt_conf c) d]> t
    else r = (MEPA_RC_ERROR, (MEPA_RC_OK, Some (tp_tx_pkt_conf (ts_ts_port_conf (pd_ts_state d))))) /\ t' = t).
Proof.
  intros Hd Hc. split.
  - unfold lan8814_ts_rx_classifier_conf_set, lan8814_ts_rx_classifier_conf_get. do 6 does_step.
    eapply does_mono; [by eapply keeps_rx_class|]. intros rc t' l [-> ->]. unfold class_rc.
    destruct (class_accepted c).
    + change (negb (MEPA_RC_OK =? MEPA_RC_OK)) with false. cbv iota. unfold upd_tp, upd_ts. by does_auto.
    + change (negb (MEPA_RC_ERROR =? MEPA_RC_OK)) with true. cbv iota. by does_auto.
  - unfold lan8814_ts_tx_classifier_conf_set, lan8814_ts_tx_classifier_conf_get. do 6 does_step.
    eapply does_mono; [by eapply keeps_tx_class|]. intros rc t' l [-> ->]. unfold class_rc.
    destruct (class_accepted c).
    + change (negb (MEPA_RC_OK =? MEPA_RC_OK)) with false. cbv iota. unfold upd_tp, upd_ts. by does_auto.
    + change (negb (MEPA_RC_ERROR =? MEPA_RC_OK)) with true. cbv iota. by does_auto.
Qed.
End ClassSet.

(** ** PTP clocks *)

(** What a clock of a mode does on reception: the message types (sync 1, delay
    request 2, peer delay request 4 and response 8) that are time stamped and
    those whose correction field is updated, and whether the peer delay is
    tracked automatically. *)
Definition rx_table (mode : Z) (p2p : bool) : Z * Z * bool :=
  match mode with
  | 1 => if p2p then (15, 0, true) else (3, 0, false)
  | 2 => if p2p then (15, 0, false) else (3, 0, false)
  | 3 => if p2p then (12, 3, true) else (0, 15, false)
  | 4 => (15, 0, false)
  | _ => (0, 0, false)
  end.
(** On transmission: time stamped, correction field, and the modifications of
    the frame; [auto] is the automatic follow-up. *)
Definition tx_table (mode : Z) (p2p auto : bool) : Z * Z * Z :=
  match mode with
  | 1 => if p2p then (0, 4, 2 ^ 13 + 2 ^ 12) else (0, 2, 2 ^ 12)
  | 2 => match p2p, auto with
         | true, true => (4, 0, 2 ^ 11 + 2 ^ 9) | true, false => (13, 0, 0)
         | false, true => (2, 0, 2 ^ 11) | false, false => (3, 0, 0)
         end
  | 3 => if p2p then (0, 7, 2 ^ 13) else (0, 15, 0)
  | 4 => (15, 0, 0)
  | _ => (0, 0, 0)
  end.

(** The PTP header match: highest and lowest version and minor version, four
    bits each, and the domain as a range or as a value and a mask.  It is
    always the receive domain that is written. *)
Definition version_word (c : mepa_ts_classifier_ptp_t) : Z :=
  (rv_first (ptp_version c) mod 16) * 4096 + (rv_first (ptp_minor_version c) mod 16) * 256 +
  (rv_second (ptp_version c) mod 16) * 16 + rv_second (ptp_minor_version c) mod 16.
Definition domain_writes (lo hi : ereg) (m : mepa_ts_match) : list (reg * Z) :=
  if mt_mode m =? MEPA_TS_MATCH_MODE_RANGE
  then [(ep lo, 2 ^ 15 + rv_second (mt_match m) mod 256); (ep hi, u16 (rv_first (mt_match m)))]
  else [(ep lo, u16 (rv_first (mt_match m))); (ep hi, u16 (rv_second (mt_match m)))].
Definition rx_header_writes (c : mepa_ts_classifier_ptp_t) : list (reg * Z) :=
  [(ep LAN8814_PTP_RX_VERSION, version_word c); (ep LAN8814_PTP_TX_VERSION, version_word c)] ++
  domain_writes LAN8814_PTP_RX_DOMAIN_DOMAIN_LO LAN8814_PTP_RX_DOMAIN_MASK_DOMAIN_UP (ptp_domain c).

(** Everything a receive clock configuration writes; [x] and [y] are what the
    peer delay and the modification register held. *)
Definition rx_clock_writes (s : lan8814_ts_data_t) (c : mepa_ts_ptp_clock_conf_t) (x y : Z) : list (reg * Z) :=
  rx_header_writes (clk_ptp_class_conf c) ++
  if tb (clk_enable c) then
    let '(ts, cf, auto) := rx_table (clk_clk_mode c) (clk_delaym_type c =? MEPA_TS_PTP_DELAYM_P2P) in
    [(ep LAN8814_PTP_RX_PDREQ_NS_HI, rmw x (if auto : bool then 2 ^ 15 else 0) (2 ^ 15));
     (ep LAN8814_PTP_RX_TIMESTAMP_EN, ts); (ep LAN8814_PTP_RX_CF_MOD_EN, cf);
     (ep LAN8814_PTP_RX_CF_CFG, if ts_tc_op_mode s =? MEPA_TS_TC_OP_MODE_C then 3 else 2);
     (ep LAN8814_PTP_RX_TIMESTAMP_CONFIG, 0); (ep LAN8814_PTP_RX_RSVD_BYTE_CFG, 0x0405);
     (ep LAN8814_PTP_RX_MOD, if ts_rx_ts_len s =? MEPA_TS_RX_TIMESTAMP_LEN_32BIT then rmw y 3 3 else rmw y 1 1)]
  else [(ep LAN8814_PTP_RX_TIMESTAMP_EN, 0)].

(** The configuration that is stored: the correction field flag is the old
    one. *)
Definition clock_kept (c old : mepa_ts_ptp_clock_conf_t) : mepa_ts_ptp_clock_conf_t :=
  set_clk_cf_update (clk_cf_update old) c.

Section Clock.
Context {B : Type} {CO : Callout B} {OK : BusOk CO}.
Implicit Types (dev : Z) (d : phy_data_t) (t : gmap Z phy_data_t).
Local Abbreviation does := (does (B := B)).

Lemma nibbles a b : 0 <= a < 16 -> 0 <= b < 16 -> (a .<< 4) .| b = a * 16 + b.
Proof. intros Ha Hb. by apply lor_disjoint. Qed.
Lemma ptp_version_word_spec c : ptp_version_word c = version_word c.
Proof.
  unfold ptp_version_word, version_word. cbv zeta. change 0xF with (Z.ones 4). change 0xFF with (Z.ones 8).
  rewrite !(Z.land_comm (Z.ones _)), !Z.land_ones by done. change (2 ^ 4) with 16. change (2 ^ 8) with 256.
  pose proof (Z.mod_pos_bound (rv_first (ptp_version c)) 16 ltac:(done)).
  pose proof (Z.mod_pos_bound (rv_first (ptp_minor_version c)) 16 ltac:(done)).
  pose proof (Z.mod_pos_bound (rv_second (ptp_version c)) 16 ltac:(done)).
  pose proof (Z.mod_pos_bound (rv_second (ptp_minor_version c)) 16 ltac:(done)).
  rewrite !nibbles by done. rewrite (Z.mod_small (_ * 16 + _)) by lia.
  rewrite u16_small by (rewrite Z.shiftl_mul_pow2; lia).
  rewrite (lor_disjoint _ 8) by lia. lia.
Qed.
Lemma version_word_range c : 0 <= version_word c < 65536.
Proof.
  unfold version_word.
  pose proof (Z.mod_pos_bound (rv_first (ptp_version c)) 16 ltac:(done)).
  pose proof (Z.mod_pos_bound (rv_first (ptp_minor_version c)) 16 ltac:(done)).
  pose proof (Z.mod_pos_bound (rv_second (ptp_version c)) 16 ltac:(done)).
  pose proof (Z.mod_pos_bound (rv_second (ptp_minor_version c)) 16 ltac:(done)). lia.
Qed.
Lemma domain_lo v : u16 (2 ^ 15 .| ((v .& LAN8814_BIT_MASK 8) .<< 0)) = 2 ^ 15 + v mod 256.
Proof.
  change (LAN8814_BIT_MASK 8) with (Z.ones 8). rewrite Z.shiftl_0_r, Z.land_ones by done.
  change (2 ^ 8) with 256. pose proof (Z.mod_pos_bound v 256 ltac:(done)).
  assert (2 ^ 15 .| (v mod 256) = 2 ^ 15 + v mod 256) as -> by (apply (lor_disjoint 1 15); lia).
  apply u16_small. lia.
Qed.

Lemma does_ptp_conf_rx dev t c (Q : Z -> gmap Z phy_data_t -> list access -> Prop) :
  (forall l, all_wr dev l = rx_header_writes c -> Q MEPA_RC_OK t l) ->
  does (lan8814_ts_classifier_ptp_conf_priv dev TRUE c) t Q.
Proof.
  intros HQ. unfold lan8814_ts_classifier_ptp_conf_priv. cbv zeta. change (tb TRUE) with true. cbv iota.
  pose proof (version_word_range c).
  unfold rx_header_writes, domain_writes in HQ.
  do 5 does_step. destruct (mt_mode (ptp_domain c) =? MEPA_TS_MATCH_MODE_RANGE); does_auto;
    apply HQ; all_wr_tac; rewrite !rmw_def, ptp_version_word_spec, (u16_small (version_word c)) by done; [|done].
  change LAN8814_PTP_RX_DOMAIN_DOMAIN_LO_RANGE_EN with (2 ^ 15).
  unfold LAN8814_PTP_RX_DOMAIN_DOMAIN_LO_RANGE_LO_F, LAN8814_ENCODE_BITFIELD. by rewrite domain_lo.
Qed.

Lemma rx_clock_actions_table c :
  let '(ts, cf, auto) := rx_table (clk_clk_mode c) (clk_delaym_type c =? MEPA_TS_PTP_DELAYM_P2P) in
  rx_clock_actions c = (ts, cf, if auto : bool then 2 ^ 15 else 0) /\ u16 ts = ts /\ u16 cf = cf.
Proof.
  unfold rx_clock_actions, rx_table, MEPA_TS_PTP_CLOCK_MODE_BC1STEP, MEPA_TS_PTP_CLOCK_MODE_BC2STEP,
    MEPA_TS_PTP_CLOCK_MODE_TC1STEP, MEPA_TS_PTP_CLOCK_MODE_TC2STEP.
  destruct (clk_delaym_type c =? MEPA_TS_PTP_DELAYM_P2P);
    destruct (clk_clk_mode c) as [|[[p|p|]|[p|[p|p|]|]|]|p]; done.
Qed.
Lemma tx_clock_actions_table auto c :
  let '(ts, cf, md) := tx_table (clk_clk_mode c) (clk_delaym_type c =? MEPA_TS_PTP_DELAYM_P2P) (tb auto) in
  tx_clock_actions auto c = (ts, cf, md) /\ u16 ts = ts /\ u16 cf = cf /\ u16 md = md.
Proof.
  unfold tx_clock_actions, tx_table, MEPA_TS_PTP_CLOCK_MODE_BC1STEP, MEPA_TS_PTP_CLOCK_MODE_BC2STEP,
    MEPA_TS_PTP_CLOCK_MODE_TC1STEP, MEPA_TS_PTP_CLOCK_MODE_TC2STEP.
  destruct (clk_delaym_type c =? MEPA_TS_PTP_DELAYM_P2P), (tb auto);
    destruct (clk_clk_mode c) as [|[[p|p|]|[p|[p|p|]|]|]|p]; done.
Qed.

(** Configuring the receive clock writes the header match, and for an
    enabled clock the time stamp and correction actions of its mode; the time
    stamp configuration register gets zero instead of the flags computed for
    it, and the stored configuration keeps the old correction field flag. *)
Theorem rx_clock_conf_spec dev d t i c :
  t !! dev = Some d ->
  does (lan8814_ts_rx_ptp_clock_conf_set dev i c) t (fun rc t' l => rc = MEPA_RC_OK /\
    (exists x y, all_wr dev l = rx_clock_writes (pd_ts_state d) c x y) /\
    t' = <[dev := with_tp (fun p => set_tp_rx_clock_conf (clock_kept c (tp_rx_clock_conf p)) p) d]> t).
Proof.
  intros Hd. unfold lan8814_ts_rx_ptp_clock_conf_set. do 2 does_step. cbv zeta. do 3 does_step.
  apply does_ptp_conf_rx. intros l Hl. change (negb (MEPA_RC_OK =? MEPA_RC_OK)) with false. cbv iota.
  unfold upd_tp, upd_ts. do 3 does_step.
  pose proof (rx_clock_actions_table c) as Hact. unfold rx_clock_writes. rewrite <- Hl.
  destruct (tb (clk_enable c)); cbn [negb].
  - destruct (rx_table _ _) as [[ts cf] auto]. destruct Hact as (-> & Hts & Hcf). does_auto.
    split; [done|]. split; [|reflexivity]. eexists _, _. all_wr_tac. rewrite !rmw_def, Hts, Hcf. f_equal.
    destruct (ts_tc_op_mode _ =? _), (ts_rx_ts_len _ =? _); reflexivity.
  - does_auto. split; [done|]. split; [|reflexivity]. exists 0, 0. all_wr_tac. by rewrite rmw_def.
Qed.
End Clock.

(** The egress latencies a port has with a clock that is two-step or not: the
    default of its chip, less the correction, plus what was asked for, never
    below zero, by speed. *)
Definition reload_value (b d : phy_data_t) (two_step : bool) (s : lat_sel) : Z :=
  Z.max 0 (ls_get s (ts_default_latencies (pd_ts_state b)) -
           (if two_step then two_step_adj (ts_clk_freq (pd_ts_state b)) (ls_column s) * 2 ^ 16 else 0) +
           ls_get s (tp_port_latencies (ts_ts_port_conf (pd_ts_state d)))) / 2 ^ 16 mod 2 ^ 16.
Definition reload_writes (b d : phy_data_t) (two_step : bool) : list (reg * Z) :=
  map (fun s => (ep (ls_reg s), reload_value b d two_step s)) (omap tx_lat [MEPA_SPEED_10M; MEPA_SPEED_100M; MEPA_SPEED_1G]).

Definition tx_clock_writes (b d : phy_data_t) (c : mepa_ts_ptp_clock_conf_t) : list (reg * Z) :=
  let s := pd_ts_state d in
  reload_writes b d (tb (is_two_step c)) ++ rx_header_writes (clk_ptp_class_conf c) ++
  if tb (clk_enable c) then
    let '(ts, cf, md) := tx_table (clk_clk_mode c) (clk_delaym_type c =? MEPA_TS_PTP_DELAYM_P2P)
                           (tb (ts_tx_auto_followup_ts s)) in
    [(ep LAN8814_PTP_TX_TIMESTAMP_EN, ts); (ep LAN8814_PTP_TX_CF_MOD_EN, cf);
     (ep LAN8814_PTP_TX_CF_CFG, if ts_tc_op_mode s =? MEPA_TS_TC_OP_MODE_C then 3 else 2);
     (ep LAN8814_PTP_TX_TIMESTAMP_CONFIG, 6); (ep LAN8814_PTP_TX_MOD, md)]
  else [(ep LAN8814_PTP_TX_TIMESTAMP_EN, 0)].

Section TxClock.
Context {B : Type} {CO : Callout B} {OK : BusOk CO}.
Implicit Types (dev : Z) (d : phy_data_t) (t : gmap Z phy_data_t).
Local Abbreviation does := (does (B := B)).

Lemma reload_word x : u16 (u16 (if x >? 0 then x .>> 16 else 0)) = Z.max 0 x / 2 ^ 16 mod 2 ^ 16.
Proof.
  rewrite u16_u16. unfold u16. f_equal. rewrite Z.shiftr_div_pow2 by done. destruct (Z.gtb_spec x 0).
  - by rewrite Z.max_r by lia.
  - by rewrite Z.max_l by lia.
Qed.

Lemma does_reload dev d b base t (two : Z) (Q : Z -> gmap Z phy_data_t -> list access -> Prop) :
  t !! dev = Some d -> pd_base_dev d = Some base -> t !! base = Some b ->
  ts_wf (pd_ts_state b) -> ts_wf (pd_ts_state d) ->
  (forall l, all_wr dev l = reload_writes b d (tb two) -> Q MEPA_RC_OK t l) ->
  does (lan8814_ts_reload_egress_latency dev two) t Q.
Proof.
  intros Hd Hb Hbd Hwb Hwd HQ. unfold lan8814_ts_reload_egress_latency. do 3 does_step.
  eapply does_deref; [exact Hb|]. do 2 does_step. cbv zeta.
  pose proof Hwb as (_ & (_&_&_&?&?&?) & _). pose proof Hwd as (_ & _ & (_&_&_&?&?&?)).
  do 3 (apply does_egress_latency; [done|done|done|done|]; do 2 does_step).
  does_step. apply HQ. all_wr_tac. rewrite !reload_word. reflexivity.
Qed.

(** Configuring the transmit clock reloads the egress latencies for the
    new clock and sets the time stamp, correction and frame actions of its
    mode; but the domain it matches goes to the receive side's registers, and
    the transmit domain is never written. *)
Theorem tx_clock_conf_spec dev d b base t i c :
  t !! dev = Some d -> pd_base_dev d = Some base -> t !! base = Some b ->
  ts_wf (pd_ts_state b) -> ts_wf (pd_ts_state d) ->
  does (lan8814_ts_tx_ptp_clock_conf_set dev i c) t (fun rc t' l => rc = MEPA_RC_OK /\
    all_wr dev l = tx_clock_writes b d c /\
    t' = <[dev := with_tp (fun p => set_tp_tx_clock_conf (clock_kept c (tp_tx_clock_conf p)) p) d]> t).
Proof.
  intros Hd Hb Hbd Hwb Hwd. unfold lan8814_ts_tx_ptp_clock_conf_set. do 2 does_step. do 3 does_step.
  apply (does_reload dev d b base); [done..|]. intros l1 Hl1. does_step.
  apply does_ptp_conf_rx. intros l Hl. change (negb (MEPA_RC_OK =? MEPA_RC_OK)) with false. cbv iota.
  unfold upd_tp, upd_ts. do 3 does_step.
  pose proof (tx_clock_actions_table (ts_tx_auto_followup_ts (pd_ts_state d)) c) as Hact.
  unfold tx_clock_writes. cbv zeta. rewrite <- Hl, <- Hl1.
  destruct (tb (clk_enable c)); cbn [negb].
  - destruct (tx_table _ _ _) as [[ts cf] md]. destruct Hact as (-> & Hts & Hcf & Hmd). does_auto.
    split; [done|]. split; [|reflexivity]. all_wr_tac. rewrite !rmw_def, Hts, Hcf, Hmd. do 2 f_equal.
    destruct (ts_tc_op_mode _ =? _); reflexivity.
  - does_auto. split; [done|]. split; [|reflexivity]. all_wr_tac. by rewrite rmw_def.
Qed.
End TxClock.

(** ** The theorems apply *)

(** PTP over Ethernet with one VLAN tag. *)
Definition class_vlan : mepa_ts_classifier_t :=
  set_cl_pkt_encap_type MEPA_TS_ENCAP_ETH_PTP (set_cl_eth_class_conf
    (Mk_mepa_ts_classifier_eth_t MEPA_TS_ETH_ADDR_MATCH_48BIT MEPA_TS_ETH_MATCH_DEST_ADDR def_mac TRUE
       (set_vl_num_tag 1 mepa_ts_vlan_conf_t_0)) mepa_ts_classifier_t_0).

Lemma classifier_set_get_witness :
  does (B := sim) (rc <- lan8814_ts_rx_classifier_conf_set 101 0 (Some class_vlan) ;;
        r <- lan8814_ts_rx_classifier_conf_get 101 0 (Some mepa_ts_classifier_t_0) ;; ret (rc, r))
    (quad_table ts_data) (fun r _ _ => r = (MEPA_RC_OK, (MEPA_RC_OK, Some class_vlan))).
Proof.
  eapply does_mono.
  - refine (proj1 (classifier_set_get 101 (ts_port 1) _ 0 class_vlan _ _ _)); [reflexivity|split; reflexivity].
  - intros r t' l [Hr _]. exact Hr.
Defined.

(** A one-step boundary clock. *)
Definition clock_bc1 : mepa_ts_ptp_clock_conf_t :=
  Mk_mepa_ts_ptp_clock_conf_t TRUE (get_default_ts_ptp_class mepa_ts_classifier_ptp_t_0)
    MEPA_TS_PTP_CLOCK_MODE_BC1STEP MEPA_TS_PTP_DELAYM_E2E TRUE.

Lemma rx_clock_conf_spec_witness :
  does (B := sim) (lan8814_ts_rx_ptp_clock_conf_set 101 0 clock_bc1) (quad_table ts_data)
    (fun rc _ l => nth_error (all_wr 101 l) 5 = Some (ep LAN8814_PTP_RX_TIMESTAMP_EN, 3)).
Proof.
  eapply does_mono.
  - apply (rx_clock_conf_spec 101 (ts_port 1)). reflexivity.
  - intros rc t' l (_ & (x & y & ->) & _). reflexivity.
Defined.

Lemma tx_clock_conf_spec_witness :
  does (B := sim) (lan8814_ts_tx_ptp_clock_conf_set 101 0 clock_bc1) (quad_table ts_data)
    (fun rc _ l => nth_error (all_wr 101 l) 5 = Some (ep LAN8814_PTP_RX_DOMAIN_DOMAIN_LO, 0)).
Proof.
  eapply does_mono.
  - apply (tx_clock_conf_spec 101 (ts_port 1) (ts_port 0) 100);
      [reflexivity|reflexivity|reflexivity|exact ts_wf_250|exact ts_wf_250].
  - intros rc t' l (_ & -> & _). reflexivity.
Defined.
