(* ===== verification/Bytes.v ===== *)
(** * Bytes: byte arrays of C

    An array of [uint8_t] is a list of values from 0 to 255.  Reading, copying
    or setting bytes beyond the end of an array is undefined behaviour:
    [None]. *)

From Stdlib Require Import ZArith Lia List Bool.
From stdpp Require Import base option list.
From S2P Require Import Prelude.

Definition is_byte (x : Z) : Prop := 0 <= x < 256.
Definition bytes (l : list Z) : Prop := Forall is_byte l.

(** [p[i]], and [n] bytes from [p + off]. *)
Definition array_at (p : list Z) (i : Z) : option Z :=
  if i <? 0 then None else p !! Z.to_nat i.
Definition read_bytes (p : list Z) (off n : Z) : option (list Z) :=
  if (0 <=? off) && (0 <=? n) && (off + n <=? Z.of_nat (length p))
  then Some (take (Z.to_nat n) (drop (Z.to_nat off) p)) else None.

(** The bytes [l] stored at [dst + off]. *)
Definition write_bytes (dst : list Z) (off : Z) (l : list Z) : option (list Z) :=
  if (0 <=? off) && (off + Z.of_nat (length l) <=? Z.of_nat (length dst))
  then Some (take (Z.to_nat off) dst ++ l ++ drop (Z.to_nat off + length l) dst) else None.

(** [p[i] = v] *)
Definition set_byte (p : list Z) (i v : Z) : option (list Z) := write_bytes p i [v].
(** [memcpy(dst + doff, src + soff, n)] *)
Definition memcpy (dst : list Z) (doff : Z) (src : list Z) (soff n : Z) : option (list Z) :=
  l ← read_bytes src soff n; write_bytes dst doff l.
(** [memset(dst + off, v, n)] *)
Definition memset (dst : list Z) (off v n : Z) : option (list Z) :=
  write_bytes dst off (repeat v (Z.to_nat n)).

Lemma read_bytes_eq p off n :
  0 <= off -> 0 <= n -> off + n <= Z.of_nat (length p) ->
  read_bytes p off n = Some (take (Z.to_nat n) (drop (Z.to_nat off) p)).
Proof.
  intros Ho Hn Hl. unfold read_bytes.
  by rewrite (proj2 (Z.leb_le _ _) Ho), (proj2 (Z.leb_le _ _) Hn), (proj2 (Z.leb_le _ _) Hl).
Qed.
Lemma write_bytes_eq dst off l :
  0 <= off -> off + Z.of_nat (length l) <= Z.of_nat (length dst) ->
  write_bytes dst off l = Some (take (Z.to_nat off) dst ++ l ++ drop (Z.to_nat off + length l) dst).
Proof.
  intros Ho Hl. unfold write_bytes. by rewrite (proj2 (Z.leb_le _ _) Ho), (proj2 (Z.leb_le _ _) Hl).
Qed.
Lemma length_write_bytes dst off l dst' :
  write_bytes dst off l = Some dst' -> length dst' = length dst.
Proof.
  unfold write_bytes. destruct (_ && _) eqn:E; [|done]. apply andb_prop in E as [E1 E2]. apply Z.leb_le in E1, E2.
  intros [= <-]. rewrite !length_app, length_take, length_drop. lia.
Qed.

(** Storing after a known prefix. *)
Lemma write_bytes_app a b l n :
  n = Z.of_nat (length a) -> (length l <= length b)%nat ->
  write_bytes (a ++ b) n l = Some (a ++ l ++ drop (length l) b).
Proof.
  intros -> Hl. rewrite write_bytes_eq by (rewrite ?length_app; lia).
  rewrite Nat2Z.id, take_app_length. by rewrite drop_app_add.
Qed.
Lemma read_bytes_app a b c off n :
  off = Z.of_nat (length a) -> n = Z.of_nat (length b) ->
  read_bytes (a ++ b ++ c) off n = Some b.
Proof.
  intros -> ->. rewrite read_bytes_eq by (rewrite ?length_app; lia).
  by rewrite !Nat2Z.id, drop_app_length, take_app_length.
Qed.
Lemma array_at_lookup p i : 0 <= i -> array_at p i = p !! Z.to_nat i.
Proof. intros. unfold array_at. by rewrite (proj2 (Z.ltb_ge _ _)) by lia. Qed.

Lemma bytes_app a b : bytes (a ++ b) <-> bytes a /\ bytes b.
Proof. apply Forall_app. Qed.
Lemma bytes_take n l : bytes l -> bytes (take n l).
Proof. apply Forall_take. Qed.
Lemma bytes_drop n l : bytes l -> bytes (drop n l).
Proof. apply Forall_drop. Qed.

Lemma bytes_repeat x n : is_byte x -> bytes (repeat x n).
Proof. intros. by induction n; constructor. Qed.
Lemma bytes_zeros n : bytes (repeat 0 n).
Proof. apply bytes_repeat. unfold is_byte. lia. Qed.

(** The bytes of a word, and a word of four bytes, most significant first. *)
Definition be_word (b0 b1 b2 b3 : Z) : Z := b0 * 2 ^ 24 + b1 * 2 ^ 16 + b2 * 2 ^ 8 + b3.
Definition be_bytes (w : Z) : list Z :=
  [w / 2 ^ 24 mod 256; w / 2 ^ 16 mod 256; w / 2 ^ 8 mod 256; w mod 256].

Lemma be_bytes_word b0 b1 b2 b3 :
  is_byte b0 -> is_byte b1 -> is_byte b2 -> is_byte b3 ->
  be_bytes (be_word b0 b1 b2 b3) = [b0; b1; b2; b3].
Proof.
  unfold is_byte, be_bytes, be_word. intros.
  rewrite (Z.mul_comm b0), (Z.mul_comm b1), (Z.mul_comm b2).
  repeat f_equal; Z.div_mod_to_equations; lia.
Qed.
Lemma bytes_be_bytes w : bytes (be_bytes w).
Proof. repeat constructor; apply Z.mod_pos_bound; lia. Qed.

(** Steps of a computation that may fail. *)
Lemma bind_some {A B} (m : option A) (f : A -> option B) x y :
  m = Some x -> f x = y -> (z ← m; f z) = y.
Proof. intros -> <-. done. Qed.
Lemma bind_inv {A B} (m : option A) (f : A -> option B) y :
  (z ← m; f z) = Some y -> exists x, m = Some x /\ f x = Some y.
Proof. destruct m as [x|]; [|done]. intros H. by exists x. Qed.
