(* ===== verification/Sha256.v ===== *)
(** * Sha256: the hash of the LAN80xx firmware

    [lan80xx/src/sha256/sha256.c], as it is written: a buffer that takes data
    in pieces and hashes it 64 bytes at a time.  A function is [None] when it
    would access memory out of bounds.  [authenticate_fw_image] of
    [lan80xx_private.c] is its user. *)

From Stdlib Require Import ZArith Lia List Bool Ascii String.
From stdpp Require Import base option list.
From S2P Require Import Prelude Machine Bytes.

Record sha256_buff := Mk_sha256_buff {
  sb_data_size : Z;        (** [uint64_t] *)
  sb_h : list Z;           (** [uint32_t h[8]] *)
  sb_last_chunk : list Z;  (** [uint8_t last_chunk[64]] *)
  sb_chunk_size : Z;       (** [uint8_t] *)
}.

Definition set_data_size (v : Z) (b : sha256_buff) : sha256_buff :=
  Mk_sha256_buff v (sb_h b) (sb_last_chunk b) (sb_chunk_size b).
Definition set_h (v : list Z) (b : sha256_buff) : sha256_buff :=
  Mk_sha256_buff (sb_data_size b) v (sb_last_chunk b) (sb_chunk_size b).
Definition set_last_chunk (v : list Z) (b : sha256_buff) : sha256_buff :=
  Mk_sha256_buff (sb_data_size b) (sb_h b) v (sb_chunk_size b).
Definition set_chunk_size (v : Z) (b : sha256_buff) : sha256_buff :=
  Mk_sha256_buff (sb_data_size b) (sb_h b) (sb_last_chunk b) v.

(** The last chunk is not initialised. *)
Definition sha256_init (buff : sha256_buff) : sha256_buff :=
  Mk_sha256_buff 0
    [0x6a09e667; 0xbb67ae85; 0x3c6ef372; 0xa54ff53a;
     0x510e527f; 0x9b05688c; 0x1f83d9ab; 0x5be0cd19] (sb_last_chunk buff) 0.

(** A line of the table [k] below: eight words. *)
Definition k_row (k0 k1 k2 k3 k4 k5 k6 k7 : Z) : list Z := [k0; k1; k2; k3; k4; k5; k6; k7].
Definition k : list Z :=
  k_row 0x428a2f98 0x71374491 0xb5c0fbcf 0xe9b5dba5 0x3956c25b 0x59f111f1 0x923f82a4 0xab1c5ed5 ++
  k_row 0xd807aa98 0x12835b01 0x243185be 0x550c7dc3 0x72be5d74 0x80deb1fe 0x9bdc06a7 0xc19bf174 ++
  k_row 0xe49b69c1 0xefbe4786 0x0fc19dc6 0x240ca1cc 0x2de92c6f 0x4a7484aa 0x5cb0a9dc 0x76f988da ++
  k_row 0x983e5152 0xa831c66d 0xb00327c8 0xbf597fc7 0xc6e00bf3 0xd5a79147 0x06ca6351 0x14292967 ++
  k_row 0x27b70a85 0x2e1b2138 0x4d2c6dfc 0x53380d13 0x650a7354 0x766a0abb 0x81c2c92e 0x92722c85 ++
  k_row 0xa2bfe8a1 0xa81a664b 0xc24b8b70 0xc76c51a3 0xd192e819 0xd6990624 0xf40e3585 0x106aa070 ++
  k_row 0x19a4c116 0x1e376c08 0x2748774c 0x34b0bcb5 0x391c0cb3 0x4ed8aa4a 0x5b9cca4f 0x682e6ff3 ++
  k_row 0x748f82ee 0x78a5636f 0x84c87814 0x8cc70208 0x90befffa 0xa4506ceb 0xbef9a3f7 0xc67178f2.

(** A shift or rotation of an [uint32_t]. *)
Definition rotate_r (val bits : Z) : Z := (val .>> bits) .| u32 (val .<< (32 - bits)).

(** [for (i=0; i<16; ++i)]: [n] words from [chunk] on, after those in [w]. *)
Fixpoint chunk_words (n : nat) (chunk w : list Z) : option (list Z) :=
  match n with
  | O => Some w
  | S n =>
      b0 ← array_at chunk 0; b1 ← array_at chunk 1; b2 ← array_at chunk 2; b3 ← array_at chunk 3;
      chunk_words n (drop 4 chunk) (w ++ [(b0 .<< 24) .| (b1 .<< 16) .| (b2 .<< 8) .| b3])
  end.

(** [for (i=16; i<64; ++i)]: [w] holds the words before [i]. *)
Fixpoint extend_words (n : nat) (w : list Z) : option (list Z) :=
  match n with
  | O => Some w
  | S n =>
      let i := Z.of_nat (length w) in
      w15 ← array_at w (i - 15); w2 ← array_at w (i - 2);
      w16 ← array_at w (i - 16); w7 ← array_at w (i - 7);
      let s0 := Z.lxor (Z.lxor (rotate_r w15 7) (rotate_r w15 18)) (w15 .>> 3) in
      let s1 := Z.lxor (Z.lxor (rotate_r w2 17) (rotate_r w2 19)) (w2 .>> 10) in
      extend_words n (w ++ [u32 (w16 + s0 + w7 + s1)])
  end.

(** One turn of the main loop, on [tv]. *)
Definition sha256_round (tv : list Z) (ki wi : Z) : option (list Z) :=
  match tv with
  | [t0; t1; t2; t3; t4; t5; t6; t7] =>
      let S1 := Z.lxor (Z.lxor (rotate_r t4 6) (rotate_r t4 11)) (rotate_r t4 25) in
      let ch := Z.lxor (t4 .& t5) (u32 (.~ t4) .& t6) in
      let temp1 := u32 (t7 + S1 + ch + ki + wi) in
      let S0 := Z.lxor (Z.lxor (rotate_r t0 2) (rotate_r t0 13)) (rotate_r t0 22) in
      let maj := Z.lxor (Z.lxor (t0 .& t1) (t0 .& t2)) (t1 .& t2) in
      let temp2 := u32 (S0 + maj) in
      Some [u32 (temp1 + temp2); t0; t1; t2; u32 (t3 + temp1); t4; t5; t6]
  | _ => None
  end.
Fixpoint sha256_rounds (n : nat) (i : Z) (w tv : list Z) : option (list Z) :=
  match n with
  | O => Some tv
  | S n => ki ← array_at k i; wi ← array_at w i; tv ← sha256_round tv ki wi; sha256_rounds n (i + 1) w tv
  end.

Definition sha256_calc_chunk (buff : sha256_buff) (chunk : list Z) : option sha256_buff :=
  w ← chunk_words 16 chunk [];
  w ← extend_words 48 w;
  tv ← sha256_rounds 64 0 w (sb_h buff);
  Some (set_h (zip_with (fun h t => u32 (h + t)) (sb_h buff) tv) buff).

(** [while (size >= 64)]: [None] also when [turns] turns are not enough; the
    buffer, the rest of the data and its size. *)
Fixpoint update_loop (turns : nat) (buff : sha256_buff) (ptr : list Z) (size : Z)
  : option (sha256_buff * list Z * Z) :=
  if size >=? 64 then
    match turns with
    | O => None
    | S turns =>
        buff ← sha256_calc_chunk buff ptr;
        update_loop turns buff (drop 64 ptr) (size - 64)
    end
  else Some (buff, ptr, size).

(** [size] is a [size_t] of 64 bits. *)
Definition sha256_update (buff : sha256_buff) (data : list Z) (size : Z) : option sha256_buff :=
  let ptr := data in
  let buff := set_data_size (u64 (sb_data_size buff + size)) buff in
  '(buff, ptr, size) ← (if u64 (size + sb_chunk_size buff) >=? 64 then
      let cs := sb_chunk_size buff in
      tmp_chunk ← memcpy (repeat 0 64) 0 (sb_last_chunk buff) 0 cs;
      tmp_chunk ← memcpy tmp_chunk cs ptr 0 (64 - cs);
      let buff := set_chunk_size 0 buff in
      buff ← sha256_calc_chunk buff tmp_chunk;
      Some (buff, drop (Z.to_nat (64 - cs)) ptr, u64 (size - (64 - cs)))
    else Some (buff, ptr, size));
  '(buff, ptr, size) ← update_loop (Z.to_nat size) buff ptr size;
  last_chunk ← memcpy (sb_last_chunk buff) (sb_chunk_size buff) ptr 0 size;
  Some (set_chunk_size (u8 (sb_chunk_size buff + size)) (set_last_chunk last_chunk buff)).

(** [for (i = 8; i > 0; --i)]: the size, its last byte first. *)
Fixpoint size_loop (i : nat) (size : Z) (chunk : list Z) : option (list Z) :=
  match i with
  | O => Some chunk
  | S i' =>
      chunk ← set_byte chunk (55 + Z.of_nat i) (size .& 255);
      size_loop i' (size .>> 8) chunk
  end.

Definition sha256_finalize (buff : sha256_buff) : option sha256_buff :=
  last_chunk ← set_byte (sb_last_chunk buff) (sb_chunk_size buff) 0x80;
  let buff := set_last_chunk last_chunk buff in
  let buff := set_chunk_size (u8 (sb_chunk_size buff + 1)) buff in
  last_chunk ← memset (sb_last_chunk buff) (sb_chunk_size buff) 0 (64 - sb_chunk_size buff);
  let buff := set_last_chunk last_chunk buff in
  buff ← (if sb_chunk_size buff >? 56 then
      buff ← sha256_calc_chunk buff (sb_last_chunk buff);
      last_chunk ← memset (sb_last_chunk buff) 0 0 64;
      Some (set_last_chunk last_chunk buff)
    else Some buff);
  let size := u64 (sb_data_size buff * 8) in
  last_chunk ← size_loop 8 size (sb_last_chunk buff);
  let buff := set_last_chunk last_chunk buff in
  sha256_calc_chunk buff (sb_last_chunk buff).

(** The digest: 32 bytes. *)
Definition sha256_read (buff : sha256_buff) : list Z :=
  concat (map (fun h => [(h .>> 24) .& 255; (h .>> 16) .& 255; (h .>> 8) .& 255; h .& 255]) (sb_h buff)).

Definition lut : string := "0123456789abcdef".
(** The characters of [len] bytes; there is no terminating zero. *)
Fixpoint bin_to_hex (data : list Z) : option string :=
  match data with
  | [] => Some EmptyString
  | c :: data =>
      hi ← String.get (Z.to_nat (c .>> 4)) lut;
      lo ← String.get (Z.to_nat (c .& 15)) lut;
      rest ← bin_to_hex data;
      Some (String hi (String lo rest))
  end.
Definition sha256_read_hex (buff : sha256_buff) : option string := bin_to_hex (sha256_read buff).

(** [garbage] is what the local buffer holds before it is initialised. *)
Definition sha256_easy_hash (garbage : sha256_buff) (data : list Z) (size : Z) : option (list Z) :=
  let buff := sha256_init garbage in
  buff ← sha256_update buff data size;
  buff ← sha256_finalize buff;
  Some (sha256_read buff).
Definition sha256_easy_hash_hex (garbage : sha256_buff) (data : list Z) (size : Z) : option string :=
  hash ← sha256_easy_hash garbage data size;
  bin_to_hex hash.

(** [memcmp(a, b, n) != 0] *)
Definition memcmp_ne (a b : list Z) (n : Z) : option bool :=
  x ← read_bytes a 0 n; y ← read_bytes b 0 n; Some (negb (bool_decide (x = y))).

(** The firmware image and its checksum are data of the repository's header
    [lan80xx_mcu_dfu.h]: arguments here. *)
Definition authenticate_fw_image (garbage : sha256_buff) (gau8FwImageData : list Z) (gu32FwImageLen : Z)
    (gau8Sha256Sum : list Z) : option Z :=
  let sha256_ctx := sha256_init garbage in
  sha256_ctx ← sha256_update sha256_ctx gau8FwImageData gu32FwImageLen;
  sha256_ctx ← sha256_finalize sha256_ctx;
  let sha256_out := sha256_read sha256_ctx in
  ne ← memcmp_ne sha256_out gau8Sha256Sum 32;
  Some (if ne : bool then MEPA_RC_ERROR else MEPA_RC_OK).
