(* ===== verification/Sha256Spec.v ===== *)
(** * Sha256Spec: the code computes SHA-256

    [Fips] is the hash of FIPS 180-4, written from the standard: constants
    from the roots of the first primes, padding, message schedule and
    compression.  The theorems say that the buffer of [Sha256] computes it
    for every division of a message into pieces, without an access out of
    bounds. *)

From Stdlib Require Import ZArith Lia List Bool Ascii String.
From stdpp Require Import base option list.
From S2P Require Import Prelude Machine Bytes Sha256.

(** ** The standard *)
Module Fips.

(** The first 64 primes, and the first 32 bits of the fractional parts of
    their square and cube roots. *)
Definition is_prime (n : Z) : bool :=
  (1 <? n) && forallb (fun d => negb (n mod d =? 0)) (map Z.of_nat (seq 2 (Z.to_nat n - 2))).
Definition primes : list Z := filter (fun n => is_prime n = true) (map Z.of_nat (seq 2 310)).
Fixpoint cbrt_bits (n : nat) (acc x : Z) : Z :=
  match n with
  | O => acc
  | S n => let acc' := acc + 2 ^ Z.of_nat n in cbrt_bits n (if acc' ^ 3 <=? x then acc' else acc) x
  end.
Definition cbrt (x : Z) : Z := cbrt_bits 40 0 x.
Definition K : list Z := map (fun p => cbrt (p * 2 ^ 96) mod 2 ^ 32) (take 64 primes).
Definition H0 : list Z := map (fun p => Z.sqrt (p * 2 ^ 64) mod 2 ^ 32) (take 8 primes).

(** Functions on 32-bit words (4.1.2). *)
Definition ROTR (n x : Z) : Z := x / 2 ^ n + x mod 2 ^ n * 2 ^ (32 - n).
Definition SHR (n x : Z) : Z := x / 2 ^ n.
Definition xor3 (x y z : Z) : Z := Z.lxor (Z.lxor x y) z.
Definition Ch (x y z : Z) : Z := Z.lxor (Z.land x y) (Z.land (2 ^ 32 - 1 - x) z).
Definition Maj (x y z : Z) : Z := xor3 (Z.land x y) (Z.land x z) (Z.land y z).
Definition Sigma0 (x : Z) : Z := xor3 (ROTR 2 x) (ROTR 13 x) (ROTR 22 x).
Definition Sigma1 (x : Z) : Z := xor3 (ROTR 6 x) (ROTR 11 x) (ROTR 25 x).
Definition sigma0 (x : Z) : Z := xor3 (ROTR 7 x) (ROTR 18 x) (SHR 3 x).
Definition sigma1 (x : Z) : Z := xor3 (ROTR 17 x) (ROTR 19 x) (SHR 10 x).

(** Padding (5.1.1): a one bit, zeros, and the length in bits. *)
Fixpoint be (n : nat) (x : Z) : list Z :=
  match n with O => [] | S n => be n (x / 256) ++ [x mod 256] end.
Definition pad (m : list Z) : list Z :=
  let len := Z.of_nat (length m) in
  m ++ [0x80] ++ repeat 0 (Z.to_nat ((55 - len) mod 64)) ++ be 8 (8 * len).

(** The message schedule of a block of 16 words (6.2.2, step 1). *)
Fixpoint words (n : nat) (l : list Z) : list Z :=
  match n, l with
  | S n, b0 :: b1 :: b2 :: b3 :: l => be_word b0 b1 b2 b3 :: words n l
  | _, _ => []
  end.
Definition W (w : list Z) (i : nat) : Z := default 0 (w !! (length w - i)%nat).
Definition next_word (w : list Z) : list Z :=
  w ++ [(sigma1 (W w 2) + W w 7 + sigma0 (W w 15) + W w 16) mod 2 ^ 32].
Definition schedule (block : list Z) : list Z := Nat.iter 48 next_word (words 16 block).

(** Compression (6.2.2, steps 2 to 4). *)
Record vars := Vars { va : Z; vb : Z; vc : Z; vd : Z; ve : Z; vf : Z; vg : Z; vh : Z }.
Definition step (s : vars) (kw : Z * Z) : vars :=
  let T1 := (vh s + Sigma1 (ve s) + Ch (ve s) (vf s) (vg s) + fst kw + snd kw) mod 2 ^ 32 in
  let T2 := (Sigma0 (va s) + Maj (va s) (vb s) (vc s)) mod 2 ^ 32 in
  Vars ((T1 + T2) mod 2 ^ 32) (va s) (vb s) (vc s) ((vd s + T1) mod 2 ^ 32) (ve s) (vf s) (vg s).
Definition of_hash (H : list Z) : vars :=
  let x i := default 0 (H !! i) in
  Vars (x 0%nat) (x 1%nat) (x 2%nat) (x 3%nat) (x 4%nat) (x 5%nat) (x 6%nat) (x 7%nat).
Definition to_list (s : vars) : list Z := [va s; vb s; vc s; vd s; ve s; vf s; vg s; vh s].
Definition compress (H block : list Z) : list Z :=
  zip_with (fun x y => (x + y) mod 2 ^ 32) H
    (to_list (fold_left step (combine K (schedule block)) (of_hash H))).

(** The hash of [n] blocks, and of a message. *)
Fixpoint hash_blocks (n : nat) (H l : list Z) : list Z :=
  match n with
  | O => H
  | S n => hash_blocks n (compress H (take 64 l)) (drop 64 l)
  end.
Definition SHA256 (m : list Z) : list Z :=
  concat (map be_bytes (hash_blocks (length (pad m) / 64) H0 (pad m))).
End Fips.
Import Fips.

Definition word (x : Z) : Prop := 0 <= x < 2 ^ 32.

Lemma constants : k = K /\ (forall g, sb_h (sha256_init g) = H0).
Proof. split; [|intros g]; vm_compute; reflexivity. Qed.
Lemma length_K : length K = 64%nat.
Proof. vm_compute. reflexivity. Qed.
Lemma hash_H0 : length H0 = 8%nat /\ Forall word H0.
Proof. split; [vm_compute; reflexivity|]. vm_compute H0. by repeat constructor. Qed.
#[local] Opaque K H0 k.

(** ** Compression *)

Lemma u32_word x : word (u32 x).
Proof. apply u32_range. Qed.
Lemma word_lxor x y : word x -> word y -> word (Z.lxor x y).
Proof.
  intros Hx Hy. assert (0 <= Z.lxor x y) by (apply Z.lxor_nonneg; unfold word in *; lia).
  unfold word. replace (Z.lxor x y) with (u32 (Z.lxor x y)); [apply u32_range|].
  apply Z.bits_inj'. intros i Hi. rewrite testbit_u32 by done. destruct (Z.ltb_spec i 32); [done|].
  by rewrite Z.lxor_spec, (testbit_small x 32), (testbit_small y 32).
Qed.

Lemma rotate_r_ROTR x n : word x -> 0 < n < 32 -> rotate_r x n = ROTR n x.
Proof.
  intros Hx Hn. unfold rotate_r, ROTR, word in *.
  assert (0 < 2 ^ n) by (apply Z.pow_pos_nonneg; lia).
  assert (2 ^ 32 = 2 ^ n * 2 ^ (32 - n)) as E by (rewrite <- Z.pow_add_r by lia; f_equal; lia).
  assert (0 < 2 ^ (32 - n)) by (apply Z.pow_pos_nonneg; lia).
  assert (u32 (x .<< (32 - n)) = (x mod 2 ^ n) .<< (32 - n)) as ->.
  { unfold u32. rewrite !Z.shiftl_mul_pow2, E by lia. by rewrite Z.mul_mod_distr_r by lia. }
  rewrite Z.lor_comm, lor_disjoint, Z.shiftr_div_pow2; [lia|lia|lia|].
  rewrite Z.shiftr_div_pow2 by lia. split; [apply Z.div_pos; lia|]. apply Z.div_lt_upper_bound; lia.
Qed.
Lemma SHR_shiftr x n : 0 <= n -> x .>> n = SHR n x.
Proof. intros. by apply Z.shiftr_div_pow2. Qed.

Lemma Ch_code x y z : word x -> word z ->
  Z.lxor (x .& y) (u32 (.~ x) .& z) = Ch x y z.
Proof.
  intros Hx Hz. unfold Ch. f_equal. f_equal. unfold u32, word, Z.lnot in *.
  replace (Z.pred (- x)) with (2 ^ 32 - 1 - x + (-1) * 2 ^ 32) by lia.
  rewrite Z.mod_add by done. apply Z.mod_small. lia.
Qed.

(** The words of a block. *)
Lemma word_be b0 b1 b2 b3 : is_byte b0 -> is_byte b1 -> is_byte b2 -> is_byte b3 ->
  (b0 .<< 24) .| (b1 .<< 16) .| (b2 .<< 8) .| b3 = be_word b0 b1 b2 b3 /\ word (be_word b0 b1 b2 b3).
Proof.
  unfold is_byte, be_word, word. intros. split; [|lia].
  rewrite <- (Z.lor_assoc (b0 .<< 24)), <- !Z.lor_assoc.
  rewrite (lor_disjoint b2 8) by lia. rewrite (lor_disjoint b1 16) by lia.
  rewrite (lor_disjoint b0 24) by lia. lia.
Qed.
Lemma chunk_words_spec n : forall chunk w, (4 * n <= length chunk)%nat -> bytes chunk ->
  chunk_words n chunk w = Some (w ++ words n chunk) /\
  length (words n chunk) = n /\ Forall word (words n chunk).
Proof.
  induction n as [|n IH]; intros chunk w Hl Hb; [cbn; by rewrite app_nil_r|].
  destruct chunk as [|b0 [|b1 [|b2 [|b3 chunk]]]]; cbn in Hl; try lia.
  apply Forall_cons in Hb as [H0 Hb]. apply Forall_cons in Hb as [H1 Hb].
  apply Forall_cons in Hb as [H2 Hb]. apply Forall_cons in Hb as [H3 Hb].
  destruct (word_be b0 b1 b2 b3) as [E Hw]; [done..|]. cbn [chunk_words words length].
  change (array_at _ 0) with (Some b0). change (array_at _ 1) with (Some b1).
  change (array_at _ 2) with (Some b2). change (array_at _ 3) with (Some b3). cbn [mbind option_bind]. change (drop 4 _) with (drop 0 chunk).
  rewrite E, drop_0. destruct (IH chunk (w ++ [be_word b0 b1 b2 b3])) as (-> & Hn & Hf); [lia|done|].
  rewrite <- app_assoc. split_and!; [done|lia|by constructor].
Qed.

(** The schedule. *)
Lemma array_at_W w i : 0 < i <= Z.of_nat (length w) ->
  array_at w (Z.of_nat (length w) - i) = Some (W w (Z.to_nat i)).
Proof.
  intros Hi. rewrite array_at_lookup by lia. unfold W.
  replace (Z.to_nat (_ - i)) with (length w - Z.to_nat i)%nat by lia.
  destruct (lookup_lt_is_Some_2 w (length w - Z.to_nat i)) as [x ->]; [lia|done].
Qed.
Lemma W_word w i : Forall word w -> word (W w i).
Proof.
  intros Hw. unfold W. destruct (w !! _) as [x|] eqn:E; [|by unfold word].
  rewrite Forall_lookup in Hw. by eapply Hw.
Qed.
Lemma extend_words_spec n : forall w, (16 <= length w)%nat -> Forall word w ->
  extend_words n w = Some (Nat.iter n next_word w) /\
  length (Nat.iter n next_word w) = (n + length w)%nat /\ Forall word (Nat.iter n next_word w).
Proof.
  assert (forall w, Forall word w -> Forall word (next_word w)) as Hnext.
  { intros w Hw. apply Forall_app. split; [done|]. constructor; [|done]. apply u32_word. }
  induction n as [|n IH]; intros w Hl Hw; [done|].
  assert (Nat.iter (S n) next_word w = Nat.iter n next_word (next_word w)) as E.
  { clear. induction n as [|n IH]; [done|]. cbn in *. by rewrite IH. }
  destruct (IH (next_word w)) as (H1 & H2 & H3).
  { unfold next_word. rewrite length_app. lia. } { by apply Hnext. }
  rewrite E. split; [|split; [|done]].
  - cbn [extend_words]. cbv zeta. rewrite !array_at_W by lia. cbn [mbind option_bind].
    change (Z.to_nat 15) with 15%nat. change (Z.to_nat 2) with 2%nat.
    change (Z.to_nat 7) with 7%nat. change (Z.to_nat 16) with 16%nat.
    pose proof (W_word w 15 Hw). pose proof (W_word w 2 Hw).
    rewrite !rotate_r_ROTR, !SHR_shiftr by done.
    change (Z.lxor (Z.lxor (ROTR 7 ?x) (ROTR 18 ?x)) (SHR 3 ?x)) with (sigma0 x).
    change (Z.lxor (Z.lxor (ROTR 17 ?x) (ROTR 19 ?x)) (SHR 10 ?x)) with (sigma1 x).
    rewrite <- H1. unfold next_word. do 3 f_equal. unfold u32. f_equal. lia.
  - rewrite H2. unfold next_word. rewrite length_app. cbn. lia.
Qed.

(** The rounds. *)
Lemma round_step s ki wi : Forall word (to_list s) ->
  sha256_round (to_list s) ki wi = Some (to_list (step s (ki, wi))) /\ Forall word (to_list (step s (ki, wi))).
Proof.
  intros Hs. pose proof Hs as Hw. unfold to_list in Hs.
  repeat match goal with H : Forall _ (_ :: _) |- _ => apply Forall_cons in H as [? H] end.
  split.
  - unfold sha256_round, to_list, step. cbv zeta. cbn [va vb vc vd ve vf vg vh fst snd].
    rewrite !rotate_r_ROTR, Ch_code by done. reflexivity.
  - unfold to_list. cbn [step va vb vc vd ve vf vg vh].
    repeat apply List.Forall_cons; first [assumption | apply u32_word | apply List.Forall_nil].
Qed.
Lemma rounds_spec w : length w = 64%nat -> forall n i s, (i + n = 64)%nat -> Forall word (to_list s) ->
  sha256_rounds n (Z.of_nat i) w (to_list s) =
    Some (to_list (fold_left step (drop i (combine K w)) s)) /\
  Forall word (to_list (fold_left step (drop i (combine K w)) s)).
Proof.
  intros Hw. pose proof length_K as HK.
  assert (length (combine K w) = 64%nat) as Hc by (rewrite length_combine; lia).
  induction n as [|n IH]; intros i s Hi Hs.
  - rewrite drop_ge by lia. cbn [fold_left sha256_rounds]. by split.
  - destruct (lookup_lt_is_Some_2 K i) as [ki Hki]; [lia|].
    destruct (lookup_lt_is_Some_2 w i) as [wi Hwi]; [lia|].
    assert (combine K w !! i = Some (ki, wi)) as Hkw.
    { clear -Hki Hwi. revert i w Hki Hwi. generalize K as l.
      induction l as [|x l IH]; intros i [|y w] H1 H2; try done.
      destruct i; cbn in *; [by simplify_eq|]. by apply IH. }
    rewrite (drop_S _ _ _ Hkw). cbn [fold_left sha256_rounds].
    rewrite (proj1 constants), !array_at_lookup, !Nat2Z.id, Hki, Hwi by lia. cbn [mbind option_bind].
    destruct (round_step s ki wi Hs) as [-> Hs']. cbn [mbind option_bind].
    replace (Z.of_nat i + 1) with (Z.of_nat (S i)) by lia. apply IH; [lia|done].
Qed.

(** A hash value: eight words. *)
Definition hash_wf (H : list Z) : Prop := length H = 8%nat /\ Forall word H.
Lemma of_hash_list H : hash_wf H -> to_list (of_hash H) = H.
Proof. intros [Hl _]. do 9 (destruct H as [|? H]; try done). Qed.
Lemma compress_wf H blk : hash_wf H -> hash_wf (compress H blk).
Proof.
  intros [Hl _]. unfold compress, hash_wf. rewrite length_zip_with, Hl. split; [done|].
  generalize (to_list (fold_left step (combine K (schedule blk)) (of_hash H))) as l.
  clear Hl. induction H as [|x H IH]; intros [|y l]; cbn; try constructor; [apply u32_word|apply IH].
Qed.

(** A chunk is compressed. *)
Lemma calc_chunk_eq buff chunk w w' tv :
  chunk_words 16 chunk [] = Some w -> extend_words 48 w = Some w' ->
  sha256_rounds 64 0 w' (sb_h buff) = Some tv ->
  sha256_calc_chunk buff chunk = Some (set_h (zip_with (fun h t => u32 (h + t)) (sb_h buff) tv) buff).
Proof.
  intros H1 H2 H3. unfold sha256_calc_chunk.
  eapply bind_some; [exact H1|]. eapply bind_some; [exact H2|]. by eapply bind_some; [exact H3|].
Qed.
Lemma words_take n : forall chunk, words n (take (4 * n) chunk) = words n chunk.
Proof.
  induction n as [|n IH]; intros chunk; [done|].
  replace (4 * S n)%nat with (S (S (S (S (4 * n))))) by lia.
  destruct chunk as [|? [|? [|? [|? chunk]]]]; try done. cbn [firstn words]. by rewrite IH.
Qed.
Lemma calc_chunk_spec buff chunk :
  hash_wf (sb_h buff) -> bytes chunk -> (64 <= length chunk)%nat ->
  sha256_calc_chunk buff chunk = Some (set_h (compress (sb_h buff) (take 64 chunk)) buff).
Proof.
  intros Hh Hb Hl.
  destruct (chunk_words_spec 16 chunk []) as (H1 & Hw & Hww); [lia|done|]. 
  destruct (extend_words_spec 48 (words 16 chunk)) as (H2 & Hlen & _); [lia|done|]. rewrite Hw in Hlen.
  destruct (rounds_spec _ Hlen 64 0 (of_hash (sb_h buff))) as [H3 _]; [done| |];
    rewrite of_hash_list in * by done; [apply Hh|].
  rewrite (calc_chunk_eq _ _ _ _ _ H1 H2 H3). unfold compress, schedule.
  pose proof (words_take 16 chunk) as E. change (4 * 16)%nat with 64%nat in E.
  rewrite drop_0, E. reflexivity.
Qed.

(** ** Blocks *)
Lemma hash_blocks_wf n : forall H l, hash_wf H -> hash_wf (hash_blocks n H l).
Proof. induction n as [|n IH]; intros H l Hw; [done|]. apply IH. by apply compress_wf. Qed.
Lemma hash_blocks_app n : forall H a b, length a = (64 * n)%nat -> hash_blocks n H (a ++ b) = hash_blocks n H a.
Proof.
  induction n as [|n IH]; intros H a b Hl; [done|]. cbn [hash_blocks].
  rewrite take_app_le, drop_app_le by lia. apply IH. rewrite length_drop. lia.
Qed.
Lemma hash_blocks_add n : forall m H a b, length a = (64 * n)%nat ->
  hash_blocks (n + m) H (a ++ b) = hash_blocks m (hash_blocks n H a) b.
Proof.
  induction n as [|n IH]; intros m H a b Hl.
  - destruct a; [done|cbn in Hl; lia].
  - cbn [hash_blocks Nat.add]. rewrite take_app_le, drop_app_le by lia.
    apply IH. rewrite length_drop. lia.
Qed.
Lemma hash_blocks_one H a : length a = 64%nat -> hash_blocks 1 H a = compress H a.
Proof. intros Hl. cbn [hash_blocks]. by rewrite take_ge by lia. Qed.

(** ** The buffer holds a message *)

(** [F] is hashed, [r] waits in the last chunk. *)
Record holds (n : nat) (F r : list Z) (buff : sha256_buff) : Prop := Holds {
  h_len : length F = (64 * n)%nat;
  h_rest : (length r < 64)%nat;
  h_hash : sb_h buff = hash_blocks n H0 F;
  h_size : sb_chunk_size buff = Z.of_nat (length r);
  h_chunk : exists g, sb_last_chunk buff = r ++ g /\ (length r + length g = 64)%nat;
  h_bytes : bytes (F ++ r);
}.
Definition repr (m : list Z) (buff : sha256_buff) : Prop :=
  sb_data_size buff = Z.of_nat (length m) /\
  exists n F r, m = F ++ r /\ holds n F r buff.

Lemma holds_wf n F r buff : holds n F r buff -> hash_wf (sb_h buff).
Proof. intros H. rewrite (h_hash _ _ _ _ H). apply hash_blocks_wf, hash_H0. Qed.

Lemma init_repr g : length (sb_last_chunk g) = 64%nat -> repr [] (sha256_init g).
Proof.
  intros Hl. split; [done|]. exists 0%nat, [], []. split; [done|]. constructor.
  - done.
  - cbn. lia.
  - apply constants.
  - done.
  - by exists (sb_last_chunk g).
  - constructor.
Qed.

Lemma update_loop_spec t : (t < 64)%nat -> forall q turns buff ptr,
  (q <= turns)%nat -> (64 * q + t <= length ptr)%nat -> hash_wf (sb_h buff) -> bytes ptr ->
  update_loop turns buff ptr (Z.of_nat (64 * q + t)) =
    Some (set_h (hash_blocks q (sb_h buff) ptr) buff, drop (64 * q) ptr, Z.of_nat t).
Proof.
  intros Ht. induction q as [|q IH]; intros turns buff ptr Hq Hl Hw Hb.
  - assert ((Z.of_nat (64 * 0 + t) >=? 64) = false) as E by (rewrite Z.geb_leb; apply Z.leb_gt; lia).
    destruct turns; cbn [update_loop]; rewrite E; destruct buff; reflexivity.
  - destruct turns as [|turns]; [lia|]. cbn [update_loop].
    assert ((Z.of_nat (64 * S q + t) >=? 64) = true) as -> by (rewrite Z.geb_leb; apply Z.leb_le; lia).
    eapply bind_some; [apply calc_chunk_spec; [done|done|lia]|].
    replace (Z.of_nat (64 * S q + t) - 64) with (Z.of_nat (64 * q + t)) by lia.
    rewrite IH; [|lia|rewrite length_drop; lia|by apply compress_wf|by apply bytes_drop].
    rewrite drop_drop. cbn [hash_blocks set_h sb_h]. do 3 f_equal. f_equal. lia.
Qed.

(** The end of an update: [D] is whole blocks, [e] goes to the last chunk. *)
Lemma update_tail n F r q D e rest turns buff :
  holds n F r buff -> length D = (64 * q)%nat -> (length r + length e < 64)%nat ->
  r = [] \/ q = 0%nat -> (q <= turns)%nat -> bytes (D ++ e ++ rest) ->
  exists buff' F' r',
    ('(buff, ptr, size) ← update_loop turns buff (D ++ e ++ rest) (Z.of_nat (length (D ++ e)));
     last_chunk ← memcpy (sb_last_chunk buff) (sb_chunk_size buff) ptr 0 size;
     Some (set_chunk_size (u8 (sb_chunk_size buff + size)) (set_last_chunk last_chunk buff))) = Some buff' /\
    holds (n + q) F' r' buff' /\ F' ++ r' = F ++ r ++ D ++ e /\ sb_data_size buff' = sb_data_size buff.
Proof.
  intros H HD He Hrq Ht Hb. destruct (h_chunk _ _ _ _ H) as (g & Hg & Hgl).
  assert (F ++ r ++ D ++ e = (F ++ D) ++ r ++ e) as EM.
  { destruct Hrq as [-> | ->]; [cbn [app]; by rewrite app_assoc|].
    destruct D; [|cbn in HD; lia]. by rewrite app_nil_r. }
  eexists _, (F ++ D), (r ++ e). split.
  - eapply bind_some.
    { rewrite length_app, HD. apply (update_loop_spec (length e)); [lia|done|rewrite !length_app; lia| |done].
      by apply (holds_wf n F r). }
    cbn [sb_last_chunk sb_chunk_size set_h]. rewrite <- HD, drop_app_length, Hg, (h_size _ _ _ _ H).
    eapply bind_some; [|reflexivity]. unfold memcpy.
    eapply bind_some; [apply (read_bytes_app [] e rest); done|].
    apply write_bytes_app; [done|lia].
  - split; [|split; [done|done]]. constructor; cbn [sb_last_chunk sb_chunk_size sb_h set_h set_chunk_size set_last_chunk].
    + rewrite length_app, (h_len _ _ _ _ H), HD. lia.
    + rewrite length_app. lia.
    + rewrite (h_hash _ _ _ _ H), hash_blocks_app by done.
      symmetry. apply hash_blocks_add, (h_len _ _ _ _ H).
    + rewrite length_app, u8_small; lia.
    + exists (drop (length e) g). rewrite <- app_assoc, length_app, length_drop. split; [done|lia].
    + rewrite <- app_assoc, app_assoc, <- !app_assoc. pose proof (h_bytes _ _ _ _ H) as Hfr.
      rewrite !bytes_app in *. tauto.
Qed.

Lemma split_blocks (d : list Z) : exists (D e : list Z) q, d = D ++ e /\ length D = (64 * q)%nat /\ (length e < 64)%nat /\ (q <= length d)%nat.
Proof.
  pose proof (Nat.div_mod_eq (length d) 64). pose proof (Nat.mod_upper_bound (length d) 64).
  exists (take (64 * (length d / 64)) d), (drop (64 * (length d / 64)) d), (length d / 64)%nat.
  split_and!; [by rewrite take_drop|rewrite length_take; lia|rewrite length_drop; lia|lia].
Qed.

(** The last chunk is completed and hashed. *)
Lemma fill_chunk n F r buff d rest :
  holds n F r buff -> (64 <= length d + length r)%nat -> bytes (d ++ rest) ->
  let cs := Z.of_nat (length r) in
  exists d1 d2, d = d1 ++ d2 /\ Z.of_nat (length d1) = 64 - cs /\
  exists buff', (tmp_chunk ← memcpy (repeat 0 64) 0 (sb_last_chunk buff) 0 cs;
      tmp_chunk ← memcpy tmp_chunk cs (d ++ rest) 0 (64 - cs);
      sha256_calc_chunk (set_chunk_size 0 buff) tmp_chunk) = Some buff' /\
    holds (n + 1) (F ++ r ++ d1) [] buff' /\ sb_data_size buff' = sb_data_size buff.
Proof.
  intros H Hl Hb cs. destruct (h_chunk _ _ _ _ H) as (g & Hg & Hgl). pose proof (h_rest _ _ _ _ H).
  pose proof (h_bytes _ _ _ _ H) as Hfr.
  set (d1 := take (64 - length r) d). set (d2 := drop (64 - length r) d).
  assert (d = d1 ++ d2) as Ed by (symmetry; apply take_drop).
  assert (length d1 = 64 - length r)%nat as Hd1 by (unfold d1; rewrite length_take; lia).
  clearbody d1 d2. subst d. exists d1, d2. split; [done|]. split; [lia|].
  assert (bytes (r ++ d1)) as Hrd by (rewrite !bytes_app in *; tauto).
  assert (length (repeat 0 64) = 64%nat) as Hz by done. set (z := repeat 0 64) in *. clearbody z.
  eexists. split; [|split].
  - eapply bind_some.
    { rewrite Hg. unfold memcpy. eapply bind_some; [by apply (read_bytes_app [] r g)|].
      apply (write_bytes_app []); [done|lia]. }
    eapply bind_some.
    { unfold memcpy. rewrite <- app_assoc. eapply bind_some; [apply (read_bytes_app [] d1); [done|lia]|].
      apply (write_bytes_app r); [done|]. rewrite length_drop. lia. }
    rewrite drop_drop, drop_ge, app_nil_r by lia.
    apply calc_chunk_spec; [exact (holds_wf n F r buff H)|done|rewrite length_app; lia].
  - constructor; cbn [sb_last_chunk sb_chunk_size sb_h set_h set_chunk_size].
    + rewrite !length_app, (h_len _ _ _ _ H). lia.
    + cbn. lia.
    + rewrite (h_hash _ _ _ _ H), take_ge by (rewrite length_app; lia).
      rewrite hash_blocks_add, hash_blocks_one by (rewrite ?length_app, ?(h_len _ _ _ _ H); lia). done.
    + done.
    + exists (r ++ g). rewrite Hg, length_app. split; [done|]. cbn. lia.
    + rewrite app_nil_r. rewrite !bytes_app in *. tauto.
  - done.
Qed.

(** [sha256_update] appends the first [size] bytes of its argument. *)
Lemma update_repr m buff d rest :
  repr m buff -> bytes (d ++ rest) ->
  Z.of_nat (length d) + 64 < 2 ^ 64 -> Z.of_nat (length m) + Z.of_nat (length d) < 2 ^ 64 ->
  exists buff', sha256_update buff (d ++ rest) (Z.of_nat (length d)) = Some buff' /\ repr (m ++ d) buff'.
Proof.
  intros (Hs & n & F & r & -> & H) Hb Hd Hm. unfold sha256_update.
  set (buff1 := set_data_size _ buff).
  assert (holds n F r buff1) as H1 by (destruct H; by constructor).
  assert (sb_data_size buff1 = Z.of_nat (length ((F ++ r) ++ d))) as Hs1.
  { cbn [sb_data_size buff1 set_data_size]. rewrite Hs, u64_small; rewrite ?length_app in *; lia. }
  pose proof (h_rest _ _ _ _ H) as Hr. pose proof (h_size _ _ _ _ H1) as Hcs.
  clear Hs H. rewrite u64_small by lia. rewrite Hcs. destruct (Z.geb_spec (Z.of_nat (length d) + Z.of_nat (length r)) 64) as [Hbig|Hsmall].
  - destruct (fill_chunk n F r buff1 d rest H1) as (d1 & d2 & Hdd & Hd2 & buff2 & E & H2 & Hs2); [lia|done|].
    destruct (split_blocks d2) as (D & e & q & -> & HD & He & Hq).
    destruct (update_tail (n + 1) (F ++ r ++ d1) [] q D e rest (Z.to_nat (Z.of_nat (length (D ++ e)))) buff2)
      as (buff3 & F3 & r3 & E3 & H3 & EM & Hs3); [done|done|done|by left|lia| |].
    { subst d. rewrite !bytes_app in *. tauto. }
    exists buff3. split.
    + apply bind_inv in E as (t1 & Et1 & E). apply bind_inv in E as (t2 & Et2 & E).
      eapply bind_some.
      { eapply bind_some; [exact Et1|]. eapply bind_some; [exact Et2|]. eapply bind_some; [exact E|].
        reflexivity. }
      assert (drop (Z.to_nat (64 - Z.of_nat (length r))) (d ++ rest) = D ++ e ++ rest) as ->.
      { rewrite <- Hd2, Nat2Z.id, Hdd, <- !app_assoc. apply drop_app_length. }
      assert (u64 (Z.of_nat (length d) - (64 - Z.of_nat (length r))) = Z.of_nat (length (D ++ e))) as ->.
      { rewrite u64_small; rewrite Hdd, length_app in *; lia. }
      exact E3.
    + split; [rewrite Hs3, Hs2; done|]. exists (n + 1 + q)%nat, F3, r3. split; [|done].
      rewrite EM, Hdd. by rewrite <- !app_assoc.
  - destruct (update_tail n F r 0 [] d rest (Z.to_nat (Z.of_nat (length d))) buff1)
      as (buff3 & F3 & r3 & E3 & H3 & EM & Hs3); [done|done|lia|by right|lia|done|].
    exists buff3. split.
    + exact E3.
    + split; [rewrite Hs3; done|]. exists (n + 0)%nat, F3, r3. split; [|done].
      rewrite EM. by rewrite <- !app_assoc.
Qed.

(** ** The padding *)
Lemma length_be n : forall x, length (be n x) = n.
Proof. induction n as [|n IH]; intros x; [done|]. cbn [be]. rewrite length_app, IH. cbn. lia. Qed.
Lemma bytes_be n : forall x, bytes (be n x).
Proof.
  induction n as [|n IH]; intros x; [constructor|]. cbn [be]. apply Forall_app. split; [apply IH|].
  constructor; [apply Z.mod_pos_bound; lia|constructor].
Qed.
Lemma size_loop_spec i : forall size a b c, length a = 56%nat -> length b = i ->
  size_loop i size (a ++ b ++ c) = Some (a ++ be i size ++ c).
Proof.
  induction i as [|i IH]; intros size a b c Ha Hb; [destruct b; [done|discriminate]|].
  destruct (@exists_last _ b) as (b' & x & ->); [by intros ->|].
  rewrite length_app in Hb. cbn [length] in Hb. cbn [size_loop be]. unfold set_byte.
  eapply bind_some.
  { rewrite <- app_assoc, app_assoc. apply write_bytes_app; [rewrite length_app; lia|cbn; lia]. }
  cbn [app length drop]. rewrite <- app_assoc, IH by (done || lia).
  rewrite <- (app_assoc (be i _)), Z.shiftr_div_pow2 by lia.
  change 255 with (Z.ones 8). rewrite (Z.land_ones size 8) by lia. reflexivity.
Qed.

(** The padded message, after its whole blocks. *)
Definition tail_blocks (r : list Z) (size : Z) : list Z :=
  r ++ [0x80] ++ repeat 0 (Z.to_nat ((55 - Z.of_nat (length r)) mod 64)) ++ be 8 size.
Lemma pad_blocks n F r : length F = (64 * n)%nat ->
  pad (F ++ r) = F ++ tail_blocks r (8 * Z.of_nat (length (F ++ r))).
Proof.
  intros HF. unfold pad, tail_blocks. rewrite <- app_assoc. do 5 f_equal.
  rewrite length_app, HF, Nat2Z.inj_add, Nat2Z.inj_mul.
  replace (55 - _) with (55 - Z.of_nat (length r) + (- Z.of_nat n) * 64) by lia. by rewrite Z.mod_add by lia.
Qed.
Lemma tail_blocks_one r size : (length r < 56)%nat ->
  tail_blocks r size = r ++ [0x80] ++ repeat 0 (55 - length r) ++ be 8 size.
Proof.
  intros. unfold tail_blocks. rewrite Z.mod_small by lia.
  by replace (Z.to_nat (55 - Z.of_nat (length r))) with (55 - length r)%nat by lia.
Qed.
Lemma tail_blocks_two r size : (56 <= length r < 64)%nat ->
  tail_blocks r size = (r ++ [0x80] ++ repeat 0 (63 - length r)) ++ repeat 0 56 ++ be 8 size.
Proof.
  intros. unfold tail_blocks. rewrite <- !app_assoc. do 2 f_equal. rewrite app_assoc, <- repeat_app.
  do 2 f_equal. replace (55 - _) with (119 - Z.of_nat (length r) + (-1) * 64) by lia.
  rewrite Z.mod_add, Z.mod_small; lia.
Qed.

(** ** The digest *)

(** The end of [sha256_finalize]: the size goes to the last eight bytes. *)
Definition finish (buff : sha256_buff) : option sha256_buff :=
  last_chunk ← size_loop 8 (u64 (sb_data_size buff * 8)) (sb_last_chunk buff);
  sha256_calc_chunk (set_last_chunk last_chunk buff) last_chunk.
Lemma finish_spec buff a b :
  sb_last_chunk buff = a ++ b -> length a = 56%nat -> length b = 8%nat -> bytes a ->
  hash_wf (sb_h buff) ->
  exists buff', finish buff = Some buff' /\
    sb_h buff' = compress (sb_h buff) (a ++ be 8 (u64 (sb_data_size buff * 8))).
Proof.
  intros Hc Ha Hb Hba Hw. assert (length (be 8 (u64 (sb_data_size buff * 8))) = 8%nat) as Hbe by apply length_be.
  eexists. split.
  - unfold finish. eapply bind_some.
    { rewrite Hc. rewrite <- (app_nil_r b) at 1. by apply size_loop_spec. }
    rewrite app_nil_r. apply calc_chunk_spec; [done| |rewrite length_app; lia].
    apply bytes_app. split; [done|apply bytes_be].
  - cbn [sb_h set_h set_last_chunk sb_data_size]. by rewrite take_ge by (rewrite length_app; lia).
Qed.

Lemma calc_chunk_keeps buff chunk buff' :
  sha256_calc_chunk buff chunk = Some buff' -> sb_last_chunk buff' = sb_last_chunk buff.
Proof.
  unfold sha256_calc_chunk. intros H. do 3 apply bind_inv in H as (? & _ & H). by injection H as <-.
Qed.
(** Its start: a one bit, and zeros to the end of the chunk. *)
Lemma finalize_eq buff r g :
  sb_last_chunk buff = r ++ g -> (length r + length g = 64)%nat -> (length r < 64)%nat ->
  sb_chunk_size buff = Z.of_nat (length r) ->
  let last := r ++ [0x80] ++ repeat 0 (63 - length r) in
  let buff1 := set_last_chunk last (set_chunk_size (Z.of_nat (length r) + 1) buff) in
  sha256_finalize buff =
    (buff ← (if Z.of_nat (length r) + 1 >? 56 then
        buff ← sha256_calc_chunk buff1 last; Some (set_last_chunk (repeat 0 64) buff)
      else Some buff1);
     finish buff).
Proof.
  intros Hg Hgl Hr Hs last buff1. unfold sha256_finalize. rewrite Hg, Hs.
  assert (memset (r ++ [0x80] ++ drop 1 g) (Z.of_nat (length r) + 1) 0 (64 - (Z.of_nat (length r) + 1)) = Some last) as E2.
  { unfold memset. replace (Z.to_nat _) with (63 - length r)%nat by lia.
    rewrite app_assoc, write_bytes_app; [|rewrite length_app; cbn; lia|rewrite repeat_length, length_drop; lia].
    rewrite drop_drop, drop_ge by (rewrite repeat_length; lia). by rewrite app_nil_r, <- app_assoc. }
  eapply bind_some; [apply write_bytes_app; [done|cbn; lia]|].
  cbv zeta. cbn [length sb_chunk_size sb_last_chunk set_last_chunk set_chunk_size sb_data_size sb_h].
  rewrite Hs, u8_small by lia. rewrite E2. cbn [mbind option_bind].
  change (set_last_chunk last (set_chunk_size _ (set_last_chunk _ buff))) with buff1.
  destruct (_ >? _); [|done]. destruct (sha256_calc_chunk buff1 last) as [b|] eqn:Eb; [|done].
  apply calc_chunk_keeps in Eb. cbn [mbind option_bind]. rewrite Eb. cbn [buff1 sb_last_chunk set_last_chunk].
  assert (length last = 64%nat) as Hl by (unfold last; rewrite !length_app, repeat_length; cbn; lia).
  unfold memset. rewrite (write_bytes_app [] last) by (done || (rewrite Hl, repeat_length; lia)).
  rewrite drop_ge, app_nil_r by (rewrite Hl, repeat_length; lia).
  unfold finish. cbn [mbind option_bind app]. change (Z.to_nat 64) with 64%nat.
  set (z := repeat 0 64). clearbody z. reflexivity.
Qed.

Lemma hash_tail n q F t : length F = (64 * n)%nat -> length t = (64 * q)%nat ->
  hash_blocks (length (F ++ t) / 64) H0 (F ++ t) = hash_blocks q (hash_blocks n H0 F) t.
Proof.
  intros HF Ht. rewrite <- hash_blocks_add by done. f_equal.
  rewrite length_app, HF, Ht, <- Nat.mul_add_distr_l, Nat.mul_comm. by apply Nat.div_mul.
Qed.
(** The buffer after the last block. *)
Lemma finalize_spec m buff : repr m buff -> 8 * Z.of_nat (length m) < 2 ^ 64 ->
  exists buff', sha256_finalize buff = Some buff' /\
    sb_h buff' = hash_blocks (length (pad m) / 64) H0 (pad m).
Proof.
  intros (Hs & n & F & r & -> & H) Hlen. destruct (h_chunk _ _ _ _ H) as (g & Hg & Hgl).
  pose proof (h_rest _ _ _ _ H) as Hr. pose proof (h_bytes _ _ _ _ H) as Hb.
  pose proof (holds_wf _ _ _ _ H) as Hw. pose proof (h_len _ _ _ _ H) as HF.
  rewrite (pad_blocks n) by done. rewrite (finalize_eq _ _ _ Hg Hgl Hr (h_size _ _ _ _ H)).
  set (size := Z.of_nat (length (F ++ r))) in *.
  assert (bytes r) as Hbr by (rewrite bytes_app in Hb; tauto).
  assert (u64 (sb_data_size buff * 8) = 8 * size) as E8 by (rewrite Hs, u64_small; lia).
  assert (length (be 8 (8 * size)) = 8%nat) as Hbe by apply length_be.
  destruct (Z.gtb_spec (Z.of_nat (length r) + 1) 56) as [Hbig|Hsmall].
  - rewrite tail_blocks_two by lia. set (last := r ++ [0x80] ++ repeat 0 (63 - length r)).
    assert (length last = 64%nat) as Hll by (unfold last; rewrite !length_app, repeat_length; cbn; lia).
    assert (bytes last) as Hbl.
    { unfold last. rewrite !bytes_app. split_and!; [done|repeat constructor|apply bytes_zeros]; lia. }
    edestruct (finish_spec (set_last_chunk (repeat 0 64) (set_h (compress (sb_h buff) last)
      (set_last_chunk last (set_chunk_size (Z.of_nat (length r) + 1) buff)))) (repeat 0 56) (repeat 0 8))
      as (buff' & E & Eh); [done|done|done|apply bytes_zeros|by apply compress_wf|].
    exists buff'. split.
    + set (buff1 := set_last_chunk last _) in *.
      assert (sha256_calc_chunk buff1 last = Some (set_h (compress (sb_h buff) last) buff1)) as Ec.
      { rewrite (calc_chunk_spec buff1 last Hw Hbl) by lia. by rewrite take_ge by lia. }
      eapply bind_some; [|exact E]. eapply bind_some; [exact Ec|]. reflexivity.
    + rewrite Eh. cbn [sb_h sb_data_size set_h set_last_chunk set_chunk_size]. rewrite E8, (h_hash _ _ _ _ H).
      assert (length (repeat 0 56 ++ be 8 (8 * size)) = 64%nat) as H2 by (rewrite length_app, repeat_length, Hbe; lia).
      set (last2 := repeat 0 56 ++ be 8 (8 * size)) in *. clearbody last last2.
      rewrite (hash_tail n 2 F (last ++ last2) HF) by (rewrite length_app; lia).
      cbn [hash_blocks]. rewrite take_app_length', drop_app_length' by done.
      by rewrite take_ge by lia.
  - rewrite tail_blocks_one by lia. 
    assert (repeat 0 (63 - length r) = repeat 0 (55 - length r) ++ repeat 0 8) as Ez
      by (rewrite <- repeat_app; f_equal; lia).
    edestruct (finish_spec (set_last_chunk (r ++ [0x80] ++ repeat 0 (63 - length r)) (set_chunk_size (Z.of_nat (length r) + 1) buff))
      (r ++ [0x80] ++ repeat 0 (55 - length r)) (repeat 0 8))
      as (buff' & E & Eh).
    { cbn [sb_last_chunk set_last_chunk]. rewrite Ez. by rewrite <- !app_assoc. }
    { rewrite !length_app, repeat_length. cbn. lia. } { done. }
    { rewrite !bytes_app. split_and!; [done|repeat constructor|apply bytes_zeros]; lia. } { done. }
    exists buff'. split; [exact E|].
    rewrite Eh. cbn [sb_h sb_data_size set_h set_last_chunk set_chunk_size]. rewrite E8, (h_hash _ _ _ _ H).
    replace ((r ++ [0x80] ++ repeat 0 (55 - length r)) ++ be 8 (8 * size))
      with (r ++ [0x80] ++ repeat 0 (55 - length r) ++ be 8 (8 * size)) by (by rewrite <- !app_assoc).
    assert (length (r ++ [0x80] ++ repeat 0 (55 - length r) ++ be 8 (8 * size)) = 64%nat) as H2
      by (rewrite !length_app, repeat_length, Hbe; cbn [length]; lia).
    set (last := r ++ [0x80] ++ repeat 0 (55 - length r) ++ be 8 (8 * size)) in *. clearbody last.
    rewrite (hash_tail n 1 F last HF) by lia.
    cbn [hash_blocks]. by rewrite take_ge by lia.
Qed.

(** The pieces of a message, each in a buffer with its size. *)
Fixpoint updates (buff : sha256_buff) (pieces : list (list Z)) : option sha256_buff :=
  match pieces with
  | [] => Some buff
  | d :: pieces => buff ← sha256_update buff d (Z.of_nat (length d)); updates buff pieces
  end.
Lemma updates_repr pieces : forall m buff, repr m buff -> Forall bytes pieces ->
  Z.of_nat (length (m ++ concat pieces)) < 2 ^ 61 ->
  exists buff', updates buff pieces = Some buff' /\ repr (m ++ concat pieces) buff'.
Proof.
  induction pieces as [|d pieces IH]; intros m buff Hm Hb Hl; cbn [updates concat] in *.
  - exists buff. by rewrite app_nil_r.
  - apply Forall_cons in Hb as [Hd Hb]. rewrite !length_app in Hl.
    destruct (update_repr m buff d [] Hm) as (b1 & E1 & H1); [by rewrite app_nil_r|lia|lia|].
    rewrite app_nil_r in E1. destruct (IH _ _ H1 Hb) as (b2 & E2 & H2).
    { rewrite <- app_assoc, !length_app. lia. }
    exists b2. split; [by eapply bind_some|by rewrite app_assoc].
Qed.
Lemma sha256_read_bytes buff : hash_wf (sb_h buff) -> sha256_read buff = concat (map be_bytes (sb_h buff)).
Proof.
  intros [_ Hw]. unfold sha256_read. f_equal. apply map_ext_in. intros h Hh. unfold be_bytes.
  change 255 with (Z.ones 8). rewrite !Z.land_ones, !Z.shiftr_div_pow2 by lia. reflexivity.
Qed.
Lemma finalize_read m buff : repr m buff -> Z.of_nat (length m) < 2 ^ 61 ->
  exists buff', sha256_finalize buff = Some buff' /\ sha256_read buff' = SHA256 m.
Proof.
  intros Hm Hl. destruct (finalize_spec _ _ Hm) as (b & E & Hh); [lia|]. exists b. split; [done|].
  rewrite sha256_read_bytes, Hh; [done|]. rewrite Hh. apply hash_blocks_wf, hash_H0.
Qed.

(** C15. However a message is divided into pieces, feeding them to the buffer one
    after the other and finalizing gives the SHA-256 of FIPS 180-4 of the
    whole; no step reads or writes out of bounds, whatever the buffer held
    before. *)
Theorem sha256_stream garbage pieces :
  length (sb_last_chunk garbage) = 64%nat -> Forall bytes pieces ->
  Z.of_nat (length (concat pieces)) < 2 ^ 61 ->
  (buff ← updates (sha256_init garbage) pieces; buff ← sha256_finalize buff; Some (sha256_read buff)) =
    Some (SHA256 (concat pieces)).
Proof.
  intros Hg Hb Hl. destruct (updates_repr pieces [] _ (init_repr _ Hg) Hb Hl) as (b1 & E1 & H1).
  destruct (finalize_read _ _ H1 Hl) as (b2 & E2 & H2).
  eapply bind_some; [exact E1|]. eapply bind_some; [exact E2|]. by rewrite H2.
Qed.
Definition abc : list Z := [0x61; 0x62; 0x63].
Definition fresh_buff : sha256_buff := Mk_sha256_buff 0 [] (repeat 0xA5 64) 7.
Lemma sha256_stream_witness :
  (buff ← updates (sha256_init fresh_buff) [[0x61]; []; [0x62; 0x63]]; buff ← sha256_finalize buff;
   Some (sha256_read buff)) = Some (SHA256 abc) /\
  take 4 (SHA256 abc) = [0xba; 0x78; 0x16; 0xbf].
Proof.
  split; [|vm_compute; reflexivity].
  apply (sha256_stream fresh_buff [[0x61]; []; [0x62; 0x63]]); [reflexivity| |reflexivity].
  repeat constructor; unfold is_byte; lia.
Defined.

(** ** One call *)
Lemma easy_hash_eq garbage d rest :
  length (sb_last_chunk garbage) = 64%nat -> bytes (d ++ rest) -> Z.of_nat (length d) < 2 ^ 61 ->
  sha256_easy_hash garbage (d ++ rest) (Z.of_nat (length d)) = Some (SHA256 d).
Proof.
  intros Hg Hb Hl. destruct (update_repr [] _ d rest (init_repr _ Hg) Hb) as (b1 & E1 & H1); [lia|cbn; lia|].
  destruct (finalize_read _ _ H1 Hl) as (b2 & E2 & H2). unfold sha256_easy_hash. cbv zeta.
  eapply bind_some; [exact E1|]. eapply bind_some; [exact E2|]. by rewrite H2.
Qed.
Lemma length_SHA256 m : length (SHA256 m) = 32%nat.
Proof.
  unfold SHA256. destruct (hash_blocks_wf (length (pad m) / 64) H0 (pad m) hash_H0) as [Hl _].
  revert Hl. generalize (hash_blocks (length (pad m) / 64) H0 (pad m)) as l. intros l Hl.
  do 9 (destruct l as [|? l]; try discriminate Hl). reflexivity.
Qed.
Lemma bytes_SHA256 m : bytes (SHA256 m).
Proof.
  unfold SHA256. apply Forall_concat, Forall_map. apply Forall_forall. intros x _. apply bytes_be_bytes.
Qed.

(** What the digits stand for. *)
Definition nibble (c : ascii) : option Z := Z.of_nat <$> String.index 0 (String c EmptyString) lut.
Fixpoint unhex (s : string) : option (list Z) :=
  match s with
  | EmptyString => Some []
  | String hi (String lo s) =>
      hi ← nibble hi; lo ← nibble lo; rest ← unhex s; Some (16 * hi + lo :: rest)
  | String _ EmptyString => None
  end.
Lemma nibble_get n : 0 <= n < 16 -> exists c, String.get (Z.to_nat n) lut = Some c /\ nibble c = Some n.
Proof.
  intros Hn. destruct (Z_of_nat_complete n) as [k ->]; [lia|]. rewrite Nat2Z.id.
  assert (k < 16)%nat as H by lia. clear Hn.
  do 16 (destruct k as [|k]; [eexists; split; reflexivity|]). lia.
Qed.
Lemma bin_to_hex_unhex l : bytes l ->
  exists s, bin_to_hex l = Some s /\ String.length s = (2 * length l)%nat /\ unhex s = Some l.
Proof.
  induction l as [|c l IH]; intros Hb; [by exists EmptyString|].
  apply Forall_cons in Hb as [Hc Hb]. destruct (IH Hb) as (s & Es & Hs & Hu). unfold is_byte in Hc.
  destruct (nibble_get (c .>> 4)) as (hi & Eh & Nh).
  { rewrite Z.shiftr_div_pow2 by lia. split; [apply Z.div_pos; lia|apply Z.div_lt_upper_bound; lia]. }
  destruct (nibble_get (c .& 15)) as (lo & El & Nl).
  { change 15 with (Z.ones 4). rewrite Z.land_ones by lia. apply Z.mod_pos_bound. lia. }
  exists (String hi (String lo s)). split; [|split].
  - cbn [bin_to_hex]. eapply bind_some; [exact Eh|]. eapply bind_some; [exact El|]. by eapply bind_some.
  - cbn. rewrite Hs. cbn. lia.
  - cbn [unhex]. eapply bind_some; [exact Nh|]. eapply bind_some; [exact Nl|]. eapply bind_some; [exact Hu|].
    do 2 f_equal. rewrite Z.shiftr_div_pow2 by lia. change 15 with (Z.ones 4). rewrite Z.land_ones by lia.
    pose proof (Z.div_mod c (2 ^ 4)). lia.
Qed.

(** [sha256_easy_hash] hashes the first [size] bytes of its data;
    [sha256_easy_hash_hex] gives 64 hexadecimal digits that stand for the
    same digest. *)
Theorem easy_hash_hex garbage d rest :
  length (sb_last_chunk garbage) = 64%nat -> bytes (d ++ rest) -> Z.of_nat (length d) < 2 ^ 61 ->
  sha256_easy_hash garbage (d ++ rest) (Z.of_nat (length d)) = Some (SHA256 d) /\
  exists s, sha256_easy_hash_hex garbage (d ++ rest) (Z.of_nat (length d)) = Some s /\
    String.length s = 64%nat /\ unhex s = Some (SHA256 d).
Proof.
  intros Hg Hb Hl. pose proof (easy_hash_eq garbage d rest Hg Hb Hl) as E. split; [done|].
  destruct (bin_to_hex_unhex _ (bytes_SHA256 d)) as (s & Es & Hs & Hu). rewrite length_SHA256 in Hs.
  exists s. split; [|by split]. unfold sha256_easy_hash_hex. by eapply bind_some.
Qed.
Lemma easy_hash_hex_witness :
  sha256_easy_hash_hex fresh_buff (abc ++ [0]) 3 =
    Some "ba7816bf8f01cfea414140de5dae2223b00361a396177a9cb410ff61f20015ad"%string /\
  unhex "ba7816bf8f01cfea414140de5dae2223b00361a396177a9cb410ff61f20015ad"%string = Some (SHA256 abc).
Proof.
  split; [vm_compute; reflexivity|].
  destruct (easy_hash_hex fresh_buff abc [0]) as (_ & s & E & _ & H); [reflexivity| |reflexivity|].
  - repeat constructor; unfold is_byte; lia.
  - assert (Some s = Some "ba7816bf8f01cfea414140de5dae2223b00361a396177a9cb410ff61f20015ad"%string) as Es.
    { rewrite <- E. vm_compute. reflexivity. }
    injection Es as <-. exact H.
Defined.

(** The firmware image of the LAN80xx is accepted exactly when its SHA-256
    is the checksum that comes with it. *)
Theorem authenticate_fw_image_spec garbage image rest sum rest' :
  length (sb_last_chunk garbage) = 64%nat -> bytes (image ++ rest) ->
  Z.of_nat (length image) < 2 ^ 32 -> length sum = 32%nat ->
  authenticate_fw_image garbage (image ++ rest) (Z.of_nat (length image)) (sum ++ rest') =
    Some (if bool_decide (SHA256 image = sum) then MEPA_RC_OK else MEPA_RC_ERROR).
Proof.
  intros Hg Hb Hl Hs. pose proof (easy_hash_eq garbage image rest Hg Hb) as E.
  unfold sha256_easy_hash in E. cbv zeta in E. unfold authenticate_fw_image. cbv zeta.
  apply bind_inv in E as (b1 & E1 & E); [|lia]. apply bind_inv in E as (b2 & E2 & [= E]).
  eapply bind_some; [exact E1|]. eapply bind_some; [exact E2|]. rewrite E.
  assert (memcmp_ne (SHA256 image) (sum ++ rest') 32 = Some (negb (bool_decide (SHA256 image = sum)))) as Em.
  { pose proof (length_SHA256 image) as HL. unfold memcmp_ne.
    eapply bind_some; [rewrite <- (app_nil_r (SHA256 image)); apply (read_bytes_app [] _ []); [done|by rewrite HL]|].
    eapply bind_some; [apply (read_bytes_app [] sum); [done|by rewrite Hs]|]. done. }
  eapply bind_some; [exact Em|]. by destruct (bool_decide _).
Qed.
Lemma authenticate_fw_image_spec_witness :
  authenticate_fw_image fresh_buff abc 3 (SHA256 abc) = Some MEPA_RC_OK /\
  authenticate_fw_image fresh_buff abc 3 (repeat 0 32) = Some MEPA_RC_ERROR.
Proof.
  assert (bytes abc) as Hb by (repeat constructor; unfold is_byte; lia). split.
  - rewrite <- (app_nil_r (SHA256 abc)). 
    etrans; [apply (authenticate_fw_image_spec fresh_buff abc [] (SHA256 abc) []); [reflexivity|exact Hb|reflexivity|]|].
    + apply length_SHA256.
    + by rewrite bool_decide_true.
  - rewrite <- (app_nil_r (repeat 0 32)).
    etrans; [apply (authenticate_fw_image_spec fresh_buff abc [] (repeat 0 32) []); [reflexivity|exact Hb|reflexivity|reflexivity]|].
    rewrite bool_decide_false; [reflexivity|]. vm_compute. discriminate.
Defined.
