(* ===== verification/PhyLib.v ===== *)
(** * PhyLib: the register functions shared by the newer drivers

    [mepa/microchip/common/src/phy_lib.c]: clause 22 registers, MMD registers
    of 16 and 32 bits through the window of registers 13 and 14, and polling
    of a register until it matches or a timer expires, and the register dump.  The timer is the
    operating system's; a poll is given the number of times it says that it has
    not expired yet.  A function that stores through a pointer returns what it
    stored, [cur] being what was there. *)

From Stdlib Require Import ZArith Lia List Bool String.
From stdpp Require Import base gmap strings list.
From S2P Require Import Prelude Machine.

Definition MII_MMD_CTRL : Z := 0x0d.
Definition MII_MMD_DATA : Z := 0x0e.
Definition MMDCTRL_NO_POST_INC : Z := 0x4000.
Definition DEF_MASK : Z := 0xFFFF.

Section PhyLib.
Context {B D : Type} {CO : Callout B}.
Notation M := (M B D).

Definition not_null {A} (o : option A) : bool := match o with Some _ => true | None => false end.

Definition phy_reg_rd (phydev offset : Z) : M (Z * Z) :=
  if not_null miim_read then
    let* (rc, v) <- co_read phydev offset ;; ret (rc, default 0 v)
  else ret (MEPA_RC_NOT_IMPLEMENTED, 0).
Definition phy_reg_wr (phydev offset value : Z) : M Z :=
  if not_null miim_write then co_write phydev offset value else ret MEPA_RC_NOT_IMPLEMENTED.
Definition phy_reg_modify (phydev offset mask value : Z) : M Z :=
  let* (rc, val) <- phy_reg_rd phydev offset ;;
  if negb (rc =? MEPA_RC_OK) then ret rc else
  phy_reg_wr phydev offset (u16 ((val .& .~ mask) .| value)).
Definition phy_reg_set_bits (phydev offset value : Z) : M Z := phy_reg_modify phydev offset 0 value.
Definition phy_reg_clear_bits (phydev offset value : Z) : M Z := phy_reg_modify phydev offset value 0.

(** [if (rc != MEPA_RC_OK) return rc;] *)
Definition or_return {A} (fail : Z -> M A) (m : M Z) (k : M A) : M A :=
  rc <- m ;; if negb (rc =? MEPA_RC_OK) then fail rc else k.

Definition phy_mmd_reg_rd (phydev dev offset cur : Z) : M (Z * Z) :=
  if not_null miim_read && not_null miim_write then
    let fail rc := ret (rc, 0) in
    or_return fail (co_write phydev MII_MMD_CTRL dev)
    (or_return fail (co_write phydev MII_MMD_DATA offset)
    (or_return fail (co_write phydev MII_MMD_CTRL (MMDCTRL_NO_POST_INC .| dev))
    (let* (rc, v) <- co_read phydev MII_MMD_DATA ;; ret (rc, default 0 v))))
  else ret (MEPA_RC_NOT_IMPLEMENTED, cur).
Definition phy_mmd_reg_wr (phydev dev offset value : Z) : M Z :=
  if not_null miim_read && not_null miim_write then
    or_return ret (co_write phydev MII_MMD_CTRL dev)
    (or_return ret (co_write phydev MII_MMD_DATA offset)
    (or_return ret (co_write phydev MII_MMD_CTRL (MMDCTRL_NO_POST_INC .| dev))
    (co_write phydev MII_MMD_DATA value)))
  else ret MEPA_RC_NOT_IMPLEMENTED.
(** Only a changed value is written. *)
Definition phy_mmd_reg_modify (phydev dev offset mask value : Z) : M Z :=
  let* (rc, val) <- phy_mmd_reg_rd phydev dev offset 0 ;;
  if negb (rc =? MEPA_RC_OK) then ret rc else
  let new_val := u16 ((val .& .~ mask) .| value) in
  if negb (val =? new_val) then phy_mmd_reg_wr phydev dev offset new_val else ret rc.
Definition phy_mmd_reg_clear_bits (phydev dev offset value : Z) : M Z := phy_mmd_reg_modify phydev dev offset value 0.
Definition phy_mmd_reg_set_bits (phydev dev offset value : Z) : M Z := phy_mmd_reg_modify phydev dev offset 0 value.

Definition phy_mmd_reg_rd32 (dev devad addr cur : Z) : M (Z * Z) :=
  let* (rc, data_l) <- phy_mmd_reg_rd dev devad addr (uninit "data_l") ;;
  if negb (rc =? MEPA_RC_OK) then ret (rc, cur) else
  let* (rc, data_h) <- phy_mmd_reg_rd dev devad (u32 (addr + 1)) (uninit "data_h") ;;
  if negb (rc =? MEPA_RC_OK) then ret (rc, cur) else
  ret (MEPA_RC_OK, u32 (data_h .<< 16) .| data_l).
(** The upper half first. *)
Definition phy_mmd_reg_wr32 (dev mmd offset value : Z) : M Z :=
  let data_l := u16 (value .& DEF_MASK) in
  let data_h := u16 (value .>> 16) in
  or_return ret (phy_mmd_reg_wr dev mmd (u32 (offset + 1)) data_h)
  (phy_mmd_reg_wr dev mmd offset data_l).
Definition phy_mmd_reg_mod32 (phydev dev offset mask value : Z) : M Z :=
  let* (rc, val) <- phy_mmd_reg_rd32 phydev dev offset 0 ;;
  if negb (rc =? MEPA_RC_OK) then ret rc else
  let new_val := u32 ((val .& .~ mask) .| value) in
  if negb (val =? new_val) then phy_mmd_reg_wr32 phydev dev offset new_val else ret rc.

(** The loop of the two polling functions, [rd] being the read: the code and
    [*val].  The register is read once more after the timer has expired. *)
Fixpoint poll_loop (unexpired : nat) (rd : Z -> M (Z * Z)) (matches : Z -> bool) (val : Z) : M (Z * Z) :=
  let* (_, val) <- rd val ;;
  if matches val then ret (MEPA_RC_OK, val) else
  match unexpired with
  | O => ret (MEPA_RC_INCOMPLETE, val)
  | S unexpired => poll_loop unexpired rd matches val
  end.
Definition poll_matches (match_ mask cond val : Z) : bool := cb ((val .& mask) =? match_) =? cond.
Definition phy_mmd_reg_poll (unexpired : nat) (dev devad addr match_ mask cond val : Z) : M (Z * Z) :=
  poll_loop unexpired (fun val => if devad =? 0 then phy_reg_rd dev addr else phy_mmd_reg_rd dev devad addr val)
    (poll_matches match_ mask cond) val.
Definition phy_mmd_reg_poll32 (unexpired : nat) (dev devad addr match_ mask cond val : Z) : M (Z * Z) :=
  poll_loop unexpired (fun val => phy_mmd_reg_rd32 dev devad addr val) (poll_matches match_ mask cond) val.

(** One row of a register dump, [reg] being its device and address: the print
    callback is called with the numbers it is given.  All rows are read as MMD
    registers of 16 bits; [is_ms] is 0 in all uses.  A heading has no numbers,
    or the lowest byte of [dev->drv->id]. *)
Definition phy_dbg_pr (phydev : Z) (reg : Z * Z) : M unit :=
  let* (_, value) <- phy_mmd_reg_rd phydev (fst reg) (snd reg) 0 ;;
  log (EvCall 0 [fst reg; snd reg; value]).
Definition phy_reg_dump (phydev drv_id : Z) (regs : list (Z * Z)) : M unit :=
  log (EvCall 0 [u8 drv_id]) ;;;
  log (EvCall 0 []) ;;;
  seq_ (phy_dbg_pr phydev) regs.
End PhyLib.
