(* ===== verification/PhyLibSpec.v ===== *)
(** * PhyLibSpec: the shared register functions on the registers of the PHY

    Proved with the access logic of [Mdio], whose window for MMD
    registers is the one of clause 22, annex D: which registers are read and
    written, in which order and with which values, for every content of the
    registers; polling, on a working and on a failing bus; and the discipline of
    the lock that they keep. *)

From Stdlib Require Import ZArith Lia List Bool String.
From stdpp Require Import base gmap strings list.
From S2P Require Import Prelude Machine Trace Mdio SimPhy PhyLib.

Section Spec.
Context {B D : Type} {CO : Callout B} {OK : BusOk CO}.
Notation table := (gmap Z D).


Lemma callouts_ok : not_null miim_read = true /\ not_null miim_write = true.
Proof.
  destruct (bus_read (BusOk := OK)) as (f & Ef & _), (bus_write (BusOk := OK)) as (g & Eg & _).
  by rewrite Ef, Eg.
Qed.

Lemma steps_open phydev mmd addr {A} (fail : Z -> M B D A) k (P : A -> list event -> Prop) :
  0 <= mmd < 32 -> 0 <= addr < 65536 ->
  steps k (fun a tr => P a ([EvWr phydev 13 mmd 0; EvWr phydev 14 addr 0; EvWr phydev 13 (16384 + mmd) 0] ++ tr)) ->
  steps (or_return fail (co_write phydev MII_MMD_CTRL mmd)
    (or_return fail (co_write phydev MII_MMD_DATA addr)
    (or_return fail (co_write phydev MII_MMD_CTRL (MMDCTRL_NO_POST_INC .| mmd)) k))) P.
Proof.
  intros Hm Ha Hk. unfold or_return.
  apply steps_bind, steps_co_write. change (negb (0 =? MEPA_RC_OK)) with false. cbv iota.
  apply steps_bind, steps_co_write. change (negb (0 =? MEPA_RC_OK)) with false. cbv iota.
  apply steps_bind, steps_co_write. change (negb (0 =? MEPA_RC_OK)) with false. cbv iota.
  assert (u16 (MMDCTRL_NO_POST_INC .| mmd) = 16384 + mmd) as ->.
  { change MMDCTRL_NO_POST_INC with (1 .<< 14). rewrite lor_disjoint by lia. apply u16_small. lia. }
  rewrite !u16_small by lia. exact Hk.
Qed.
Lemma decode_open phydev mmd addr tr accs : 0 <= mmd < 32 ->
  (forall ls c a, ls phydev = Latch c a (16384 + mmd) addr -> decode ls tr = accs) ->
  decodes ([EvWr phydev 13 mmd 0; EvWr phydev 14 addr 0; EvWr phydev 13 (16384 + mmd) 0] ++ tr) accs.
Proof.
  intros Hm Htr ls. destruct (ls phydev) as [c a m d] eqn:E. cbn [app].
  eapply decode_wr_latch; [done|]. rewrite E. cbn -[decode Z.add].
  eapply decode_wr_latch.
  { rewrite put_same. exact (proj1 (window_mmd _ _ _ _ Hm)). }
  eapply decode_wr_latch; [done|]. rewrite !put_same. cbn -[decode Z.add]. eapply Htr. by rewrite put_same.
Qed.

Lemma does_phy_mmd_reg_rd phydev mmd addr cur t (Q : Z * Z -> table -> list access -> Prop) :
  mmd_ok (mmd, addr) = true ->
  (forall v, 0 <= v < 65536 -> Q (0, v) t [ARd phydev (Mmd mmd addr) v]) ->
  does (phy_mmd_reg_rd phydev mmd addr cur) t Q.
Proof.
  intros Hok HQ. assert (0 <= mmd < 32 /\ 0 <= addr < 65536) as [Hm Ha].
  { unfold mmd_ok in Hok. cbn in Hok. lia. }
  unfold phy_mmd_reg_rd. destruct callouts_ok as [-> ->]. cbn [andb]. cbv zeta.
  apply steps_does, steps_open; [done|done|]. apply steps_bind, steps_co_read. intros v Hv. apply steps_ret.
  eexists. split; [|by apply HQ]. apply decode_open; [done|]. intros ls c a E. cbn [app].
  eapply (decode_rd _ _ _ _ _ (Some _)); [|done]. rewrite E. exact (proj2 (window_mmd _ _ _ _ Hm)).
Qed.
Lemma does_phy_mmd_reg_wr phydev mmd addr v t (Q : Z -> table -> list access -> Prop) :
  mmd_ok (mmd, addr) = true -> Q 0 t [AWr phydev (Mmd mmd addr) (u16 v)] ->
  does (phy_mmd_reg_wr phydev mmd addr v) t Q.
Proof.
  intros Hok HQ. assert (0 <= mmd < 32 /\ 0 <= addr < 65536) as [Hm Ha].
  { unfold mmd_ok in Hok. cbn in Hok. lia. }
  unfold phy_mmd_reg_wr. destruct callouts_ok as [-> ->]. cbn [andb].
  apply steps_does, steps_open; [done|done|]. apply steps_co_write.
  eexists. split; [|exact HQ]. apply decode_open; [done|]. intros ls c a E.
  eapply decode_wr; [|done]. rewrite E. exact (proj2 (window_mmd _ _ _ _ Hm)).
Qed.

(** The registers of clause 22. *)
Lemma does_reg_rd dev a t (Q : Z * Z -> table -> list access -> Prop) : plain a = true ->
  (forall v, 0 <= v < 65536 -> Q (0, v) t [ARd dev (Direct a) v]) -> does (phy_reg_rd dev a) t Q.
Proof.
  intros Ha HQ. unfold phy_reg_rd. destruct (bus_read (BusOk := OK)) as (f & Ef & _). rewrite Ef. cbn [not_null].
  apply steps_does, steps_bind, steps_co_read. intros v Hv. apply steps_ret.
  eexists. split; [by apply decodes_plain_rd|by apply HQ].
Qed.
Lemma does_reg_wr dev a v t (Q : Z -> table -> list access -> Prop) : plain a = true ->
  Q 0 t [AWr dev (Direct a) (u16 v)] -> does (phy_reg_wr dev a v) t Q.
Proof.
  intros Ha HQ. unfold phy_reg_wr. destruct (bus_write (BusOk := OK)) as (f & Ef & _). rewrite Ef. cbn [not_null].
  apply steps_does, steps_co_write. eexists. split; [by apply decodes_direct_wr|done].
Qed.

Lemma does_rd32 dev mmd a cur t (Q : Z * Z -> table -> list access -> Prop) :
  mmd_ok (mmd, a) = true -> a < 65535 ->
  (forall lo hi, 0 <= lo < 65536 -> 0 <= hi < 65536 ->
     Q (0, hi * 65536 + lo) t [ARd dev (Mmd mmd a) lo; ARd dev (Mmd mmd (a + 1)) hi]) ->
  does (phy_mmd_reg_rd32 dev mmd a cur) t Q.
Proof.
  intros Hok Ha HQ. assert (0 <= mmd < 32 /\ 0 <= a) as [Hm Ha0]. { unfold mmd_ok in Hok. cbn in Hok. lia. }
  apply does_bind, does_phy_mmd_reg_rd; [done|]. intros lo Hlo.
  change (negb (0 =? MEPA_RC_OK)) with false. cbv iota. rewrite u32_small by lia.
  apply does_bind, does_phy_mmd_reg_rd; [unfold mmd_ok; cbn; lia|]. intros hi Hhi.
  change (negb (0 =? MEPA_RC_OK)) with false. cbv iota. apply does_ret. rewrite join32 by done. by apply HQ.
Qed.
Lemma does_wr32 dev mmd a v t (Q : Z -> table -> list access -> Prop) :
  mmd_ok (mmd, a) = true -> a < 65535 -> 0 <= v < 2 ^ 32 ->
  Q 0 t [AWr dev (Mmd mmd (a + 1)) (v / 65536); AWr dev (Mmd mmd a) (v mod 65536)] ->
  does (phy_mmd_reg_wr32 dev mmd a v) t Q.
Proof.
  intros Hok Ha Hv HQ. assert (0 <= mmd < 32 /\ 0 <= a) as [Hm Ha0]. { unfold mmd_ok in Hok. cbn in Hok. lia. }
  unfold phy_mmd_reg_wr32, or_return. cbv zeta. rewrite u32_small by lia.
  apply does_bind, does_phy_mmd_reg_wr; [unfold mmd_ok; cbn; lia|].
  change (negb (0 =? MEPA_RC_OK)) with false. cbv iota. apply does_phy_mmd_reg_wr; [done|].
  change DEF_MASK with 0xFFFF. rewrite half_lo, !u16_u16, Z.shiftr_div_pow2 by lia. change (2 ^ 16) with 65536.
  rewrite (u16_small (v / 65536)) by (apply half_range; lia).
  rewrite (u16_small (v mod 65536)) by (apply Z.mod_pos_bound; lia). exact HQ.
Qed.

(** Changing a 32-bit MMD register: the two halves are read, the lower one
    first; with [new] the old value without the bits of the mask and with those
    of the value, the upper half and then the lower half of [new] are written
    if it differs from the old value, and nothing is written if it does not. *)
Theorem mod32_spec dev mmd a mask value (t : table) :
  mmd_ok (mmd, a) = true -> a < 65535 ->
  does (phy_mmd_reg_mod32 dev mmd a mask value) t (fun rc t' l => rc = MEPA_RC_OK /\ t' = t /\
    exists old, 0 <= old < 2 ^ 32 /\
    let new := u32 ((old .& .~ mask) .| value) in
    l = [ARd dev (Mmd mmd a) (old mod 65536); ARd dev (Mmd mmd (a + 1)) (old / 65536)] ++
        (if old =? new then [] else [AWr dev (Mmd mmd (a + 1)) (new / 65536); AWr dev (Mmd mmd a) (new mod 65536)])).
Proof.
  intros Hok Ha. apply does_bind, does_rd32; [done|done|]. intros lo hi Hlo Hhi.
  change (negb (0 =? MEPA_RC_OK)) with false. cbv iota zeta.
  set (old := hi * 65536 + lo). assert (old mod 65536 = lo /\ old / 65536 = hi) as [El Eh]
    by (unfold old; Z.div_mod_to_equations; lia).
  assert (0 <= old < 2 ^ 32) as Hold by (unfold old; lia).
  destruct (old =? u32 ((old .& .~ mask) .| value)) eqn:En; cbn [negb].
  - apply does_ret. split_and!; [done|done|]. exists old. rewrite En, El, Eh. done.
  - apply does_wr32; [done|done|apply u32_range|]. split_and!; [done|done|]. exists old. rewrite En, El, Eh. done.
Qed.

(** C23. Polling a 16-bit MMD register: it is read, at least once and at most
    once more than the timer says that it has not expired, until a value
    matches; that value is left in the caller's variable with [MEPA_RC_OK].
    [MEPA_RC_INCOMPLETE] means that all these reads were made and none of them
    matched. *)
Theorem poll_spec n dev mmd a match_ mask cond val (t : table) :
  mmd_ok (mmd, a) = true -> mmd <> 0 ->
  does (phy_mmd_reg_poll n dev mmd a match_ mask cond val) t (fun r t' l => t' = t /\
    exists vs last, l = map (ARd dev (Mmd mmd a)) (vs ++ [last]) /\ snd r = last /\
    Forall (fun v => poll_matches match_ mask cond v = false) vs /\
    if poll_matches match_ mask cond last then fst r = MEPA_RC_OK /\ (length vs <= n)%nat
    else fst r = MEPA_RC_INCOMPLETE /\ length vs = n).
Proof.
  intros Hok Hm. unfold phy_mmd_reg_poll. rewrite (proj2 (Z.eqb_neq mmd 0)) by done.
  revert val. induction n as [|n IH]; intros val; cbn [poll_loop];
    apply does_bind, does_phy_mmd_reg_rd; try done; intros v Hv; destruct (poll_matches match_ mask cond v) eqn:E.
  - apply does_ret. split; [done|]. exists [], v. rewrite E. by split_and!.
  - apply does_ret. split; [done|]. exists [], v. rewrite E. by split_and!.
  - apply does_ret. split; [done|]. exists [], v. rewrite E. split_and!; [done|done|done|done|cbn; lia].
  - eapply does_mono; [apply IH|]. intros r t' l [-> (vs & last & -> & Hr & Hvs & Hl)].
    split; [done|]. exists (v :: vs), last. split_and!; [done|done|by constructor|].
    destruct (poll_matches match_ mask cond last); cbn [length]; destruct Hl; split; [done|lia|done|lia].
Qed.
End Spec.

(** On a bus whose reads fail and store nothing, polling a clause 22
    register succeeds at the first read whenever 0 matches: the return code of
    the read is not looked at and the variable was set to 0.  The reset of the
    LAN8x8x waits in this way for its reset bit to clear. *)
Theorem poll_dead_bus {B D} {CO : Callout B} n dev a match_ mask cond val (w : world B D) f rc b :
  miim_read = Some f -> f dev (u8 a) (w_bus w) = ((rc, None), b) -> rc <> MEPA_RC_OK ->
  poll_matches match_ mask cond 0 = true ->
  phy_mmd_reg_poll n dev 0 a match_ mask cond val w =
  Some ((MEPA_RC_OK, 0), World b (w_data w) (w_log w ++ [EvRd dev (u8 a) rc None])).
Proof.
  intros Ef Er Hrc Hm. unfold phy_mmd_reg_poll. rewrite Z.eqb_refl.
  assert (phy_reg_rd dev a w = Some ((rc, 0), World b (w_data w) (w_log w ++ [EvRd dev (u8 a) rc None]))) as E.
  { unfold phy_reg_rd, bind, co_read. rewrite Ef. cbn [not_null]. by rewrite Er. }
  destruct n; cbn [poll_loop]; unfold bind; rewrite E, Hm; done.
Qed.

(** ** The discipline of the lock and of addresses *)
Section Safe.
Context {B D : Type} {CO : Callout B} {OK : CalloutOk (CO := CO)}.
Variable Inv : gmap Z D -> Prop.
Local Abbreviation safe := (safe (B := B) Inv).

Lemma both_callouts : not_null (miim_read (B := B)) = true /\ not_null (miim_write (B := B)) = true.
Proof. destruct (ok_read (CalloutOk := OK)) as [f ->], (ok_write (CalloutOk := OK)) as [g ->]. done. Qed.

Lemma safe_phy_reg_rd dev a : 0 <= a < 32 -> safe true (phy_reg_rd dev a) true.
Proof. intros. unfold phy_reg_rd. rewrite (proj1 both_callouts). safe_step; [by apply safe_co_read|safe_auto]. Qed.
Lemma safe_phy_reg_wr dev a v : 0 <= a < 32 -> safe true (phy_reg_wr dev a v) true.
Proof. intros. unfold phy_reg_wr. rewrite (proj2 both_callouts). by apply safe_co_write. Qed.
Lemma safe_or_return {A} h (fail : Z -> M B D A) m k :
  safe h m h -> (forall rc, safe h (fail rc) h) -> safe h k h -> safe h (or_return fail m k) h.
Proof. intros. unfold or_return. eapply safe_bind; [done|]. intros rc. by apply safe_if. Qed.
Local Ltac sf := intros; repeat (lazymatch goal with
  | |- Machine.safe _ _ (co_read _ _) _ => apply safe_co_read; split; vm_compute; congruence
  | |- Machine.safe _ _ (co_write _ _ _) _ => apply safe_co_write; split; vm_compute; congruence
  | |- _ => safe_step; cbv zeta
  end).
Lemma safe_phy_reg_modify dev a m v : 0 <= a < 32 -> safe true (phy_reg_modify dev a m v) true.
Proof.
  intros. unfold phy_reg_modify. eapply safe_bind; [by apply safe_phy_reg_rd|]. intros [rc x].
  apply safe_if; [apply safe_ret|by apply safe_phy_reg_wr].
Qed.
Lemma safe_phy_mmd_reg_rd dev m a cur : safe true (phy_mmd_reg_rd dev m a cur) true.
Proof. unfold phy_mmd_reg_rd, or_return. destruct both_callouts as [-> ->]. cbn [andb]. cbv zeta. sf. Qed.
Lemma safe_phy_mmd_reg_wr dev m a v : safe true (phy_mmd_reg_wr dev m a v) true.
Proof. unfold phy_mmd_reg_wr, or_return. destruct both_callouts as [-> ->]. cbn [andb]. sf. Qed.
#[local] Hint Resolve safe_phy_mmd_reg_rd safe_phy_mmd_reg_wr : safe.
Lemma safe_mmd_reg_modify dev m a k v : safe true (phy_mmd_reg_modify dev m a k v) true.
Proof. unfold phy_mmd_reg_modify. sf. Qed.
Lemma safe_mmd_reg_rd32 dev m a cur : safe true (phy_mmd_reg_rd32 dev m a cur) true.
Proof. unfold phy_mmd_reg_rd32. sf. Qed.
Lemma safe_mmd_reg_wr32 dev m a v : safe true (phy_mmd_reg_wr32 dev m a v) true.
Proof. unfold phy_mmd_reg_wr32, or_return. sf. Qed.
#[local] Hint Resolve safe_mmd_reg_rd32 safe_mmd_reg_wr32 : safe.
Lemma safe_mmd_reg_mod32 dev m a k v : safe true (phy_mmd_reg_mod32 dev m a k v) true.
Proof. unfold phy_mmd_reg_mod32. sf. Qed.
Lemma safe_poll_loop n rd matches val : (forall v, safe true (rd v) true) -> safe true (poll_loop n rd matches val) true.
Proof.
  intros Hrd. revert val. induction n as [|n IH]; intros val; cbn [poll_loop];
    (eapply safe_bind; [apply Hrd|]); intros [rc v]; (apply safe_if; [apply safe_ret|]); [apply safe_ret|apply IH].
Qed.
Lemma safe_mmd_reg_poll n dev m a k mask c v : 0 <= a < 32 -> safe true (phy_mmd_reg_poll n dev m a k mask c v) true.
Proof.
  intros. apply safe_poll_loop. intros cur. apply safe_if; [by apply safe_phy_reg_rd|apply safe_phy_mmd_reg_rd].
Qed.
Lemma safe_mmd_reg_poll32 n dev m a k mask c v : safe true (phy_mmd_reg_poll32 n dev m a k mask c v) true.
Proof. apply safe_poll_loop. intros cur. apply safe_mmd_reg_rd32. Qed.

(** [dev->data] with what is known of it. *)
Lemma safe_bind_data {C} (P : D -> Prop) dev (k : D -> M B D C) h h' :
  (forall t, Inv t -> exists d, t !! dev = Some d /\ P d) -> (forall d, P d -> safe h (k d) h') ->
  safe h (bind (data_of dev) k) h'.
Proof.
  intros Hd Hk w Hw. destruct (Hd _ Hw) as (d & Ed & HP). unfold bind, data_of. rewrite Ed. by apply Hk.
Qed.
End Safe.
#[export] Hint Resolve safe_phy_mmd_reg_rd safe_phy_mmd_reg_wr safe_mmd_reg_modify safe_mmd_reg_rd32 safe_mmd_reg_wr32
  safe_mmd_reg_mod32 safe_mmd_reg_poll32 : safe.
#[export] Hint Extern 1 (safe _ true (phy_reg_rd _ _) _) => apply safe_phy_reg_rd; split; vm_compute; congruence : safe.
#[export] Hint Extern 1 (safe _ true (phy_reg_wr _ _ _) _) => apply safe_phy_reg_wr; split; vm_compute; congruence : safe.
#[export] Hint Extern 1 (safe _ true (phy_reg_set_bits _ _ _) _) => apply safe_phy_reg_modify; split; vm_compute; congruence : safe.
#[export] Hint Extern 1 (safe _ true (phy_reg_clear_bits _ _ _) _) => apply safe_phy_reg_modify; split; vm_compute; congruence : safe.
#[export] Hint Extern 1 (safe _ true (phy_mmd_reg_poll _ _ _ _ _ _ _ _) _) =>
  apply safe_mmd_reg_poll; split; vm_compute; congruence : safe.
#[export] Hint Extern 1 (safe _ true (phy_mmd_reg_set_bits _ _ _ _) _) => apply safe_mmd_reg_modify : safe.
#[export] Hint Extern 1 (safe _ true (phy_mmd_reg_clear_bits _ _ _ _) _) => apply safe_mmd_reg_modify : safe.

(** ** Witnesses *)
Lemma mod32_spec_witness :
  mmd_ok (30, 0x8000) = true /\
  does (phy_mmd_reg_mod32 (CO := sim_callout) 100 30 0x8000 0xFF 0x12) (∅ : gmap Z unit) (fun rc t' l => rc = MEPA_RC_OK /\ t' = ∅ /\
    exists old, 0 <= old < 2 ^ 32 /\
    let new := u32 ((old .& .~ 0xFF) .| 0x12) in
    l = [ARd 100 (Mmd 30 0x8000) (old mod 65536); ARd 100 (Mmd 30 (0x8000 + 1)) (old / 65536)] ++
        (if old =? new then [] else [AWr 100 (Mmd 30 (0x8000 + 1)) (new / 65536); AWr 100 (Mmd 30 0x8000) (new mod 65536)])).
Proof. split; [done|]. by apply (mod32_spec (CO := sim_callout) 100 30 0x8000 0xFF 0x12 (∅ : gmap Z unit)). Defined.
Lemma poll_spec_witness :
  does (phy_mmd_reg_poll (CO := sim_callout) 5 100 30 0x10 0x1 0x1 1 0) (∅ : gmap Z unit) (fun r t' l => t' = ∅ /\
    exists vs last, l = map (ARd 100 (Mmd 30 0x10)) (vs ++ [last]) /\ snd r = last /\
    Forall (fun v => poll_matches 0x1 0x1 1 v = false) vs /\
    if poll_matches 0x1 0x1 1 last then fst r = MEPA_RC_OK /\ (length vs <= 5)%nat
    else fst r = MEPA_RC_INCOMPLETE /\ length vs = 5%nat).
Proof. by apply (poll_spec (CO := sim_callout) 5 100 30 0x10 0x1 0x1 1 0 (∅ : gmap Z unit)). Defined.

Definition failing_bus : Callout unit :=
  {| miim_read := Some (fun _ _ b => ((MEPA_RC_ERROR, None), b)); miim_write := Some (fun _ _ _ b => (MEPA_RC_ERROR, b));
     lock_enter := true; lock_exit := true; uninit := fun _ => 0 |}.
Lemma poll_dead_bus_witness :
  phy_mmd_reg_poll (CO := failing_bus) 4000 100 0 0 0x8000 0x8000 0 7 (World (D := unit) tt ∅ []) =
  Some ((MEPA_RC_OK, 0), World tt ∅ ([] ++ [EvRd 100 (u8 0) MEPA_RC_ERROR None])).
Proof. by apply (poll_dead_bus (CO := failing_bus) 4000 100 0 0x8000 0x8000 0 7 (World tt ∅ []) (fun _ _ b => ((MEPA_RC_ERROR, None), b)) MEPA_RC_ERROR tt). Defined.
