(* ===== verification/PhyDefines.v ===== *)
(** * PhyDefines: the constants that the drivers over [phy_lib.c] share

    The macros of [mepa/microchip/common/include/phy_defines.h] that these
    drivers use, and values of [phy.h] and [common.h] that only they use, under
    their names. *)

From Stdlib Require Import ZArith.
From S2P Require Import Prelude.

Definition ZERO : Z := 0.
Definition ONE : Z := 1.
Definition BIT (x : Z) : Z := ONE .<< x.
Definition BIT32 (x : Z) : Z := 1 .<< x.
Definition BIT_MASK (x : Z) : Z := (ONE .<< x) - ONE.
Definition GENMASK (offset width : Z) : Z := BIT_MASK width .<< offset.
Definition EXTRACT_BITFIELD (value offset width : Z) : Z := (value .>> offset) .& BIT_MASK width.
Definition EXTRACT_BITS (val offset width : Z) : Z := EXTRACT_BITFIELD val offset width.
Definition ENCODE_BITFIELD (value offset width : Z) : Z := (value .& BIT_MASK width) .<< offset.

Definition PHY_FALSE : Z := 0.
Definition PHY_TRUE : Z := 1.
Definition PHY_LINKUP : Z := PHY_TRUE.
Definition PHY_LINKDOWN : Z := PHY_FALSE.
Definition MDIO_MMD_PMAPMD : Z := 1.
Definition MDIO_MMD_PCS : Z := 3.
Definition MDIO_MMD_AN : Z := 7.
Definition MDIO_MMD_VEND1 : Z := 30.
Definition MII_BMCR : Z := 0x00.
Definition BMCR_ANRESTART : Z := 0x0200.
Definition BMCR_ISOLATE : Z := 0x0400.
Definition BMCR_PDOWN : Z := 0x0800.
Definition BMCR_ANENABLE : Z := 0x1000.
Definition BMCR_LOOPBACK : Z := 0x4000.
Definition BMCR_RESET : Z := 0x8000.
Definition MII_BMSR : Z := 0x01.
Definition BMSR_LSTATUS : Z := 0x0004.
Definition MII_PHYSID1 : Z := 0x02.
Definition MII_PHYSID2 : Z := 0x03.
Definition MDIO_CTRL1 : Z := MII_BMCR.
Definition MDIO_STAT1 : Z := MII_BMSR.
Definition MDIO_AN_CTRL1_ENABLE : Z := BMCR_ANENABLE.
Definition MDIO_AN_CTRL1_RESTART : Z := BMCR_ANRESTART.
Definition MDIO_AN_T1_CTRL : Z := 512.
Definition MDIO_AN_T1_STAT : Z := 513.
Definition MDIO_AN_T1_ADV_L : Z := 514.
Definition MDIO_AN_T1_ADV_M : Z := 515.
Definition MDIO_AN_T1_LP_L : Z := 517.
Definition MDIO_AN_T1_LP_M : Z := 518.
Definition MDIO_PCS_1000BT1_STAT : Z := 2305.
Definition MDIO_AN_T1_ADV_M_MST : Z := 0x0010.
Definition MDIO_AN_STAT1_COMPLETE : Z := 0x0020.
Definition LPA_100FULL : Z := 0x0020.
Definition LPA_1000FULL : Z := 0x0080.
Definition MDIO_AN_T1_ADV_M_B1000 : Z := 0x0080.
Definition MDIO_AN_T1_ADV_M_B100 : Z := 0x0020.
Definition MASTER_SLAVE_STATE_UNSUPPORTED : Z := 0.
Definition MASTER_SLAVE_STATE_MASTER : Z := 2.
Definition MASTER_SLAVE_STATE_SLAVE : Z := 3.
Definition MASTER_SLAVE_STATE_ERR : Z := 4.
Definition MDIO_STAT1_LSTATUS : Z := BMSR_LSTATUS.
Definition MDIO_PMA_PMD_BT1_CTRL : Z := 2100.
Definition MDIO_PMA_PMD_BT1_CTRL_CFG_MST : Z := 0x4000.

(** Values of [phy.h], [types.h] and [common.h]. *)
Definition MEPA_RC_INV_STATE : Z := -2.
Definition MEPA_RC_ERR_PARM : Z := -5.
Definition MEPA_RC_ERR_KR_CONF_NOT_SUPPORTED : Z := -7.
Definition MESA_PHY_MEDIA_IF_T1_100FX : Z := 11.
Definition MESA_PHY_MEDIA_IF_T1_1000FX : Z := 12.
Definition MESA_VERIPHY_STATUS_UNKNOWN : Z := 16.
Definition MESA_PHY_LINK_SPEED_STATE_CHANGE_EV : Z := 1 .<< 3.
Definition MESA_PHY_LINK_AUTO_NEG_COMPLETE_EV : Z := 1 .<< 6.
Definition MESA_PHY_LINK_TX_FIFO_OVERFLOW_INT_EV : Z := 1 .<< 9.
Definition MESA_PHY_LINK_RX_FIFO_OVERFLOW_INT_EV : Z := 1 .<< 10.
Definition MESA_PHY_LINK_EXT_MACSEC_HOST_MAC_EV : Z := 1 .<< 22.
Definition MESA_PHY_LINK_EXT_MACSEC_LINE_MAC_EV : Z := 1 .<< 23.
Definition MESA_PHY_LINK_EXT_MACSEC_FC_BUFF_EV : Z := 1 .<< 24.
Definition MESA_PHY_LINK_EXT_MACSEC_INGRESS_EV : Z := 1 .<< 25.
Definition MESA_PHY_LINK_EXT_MACSEC_EGRESS_EV : Z := 1 .<< 26.
