(* ===== verification/Lan8x8xRegs.v ===== *)
(** * Lan8x8xRegs: the registers of the LAN8x8x

    The macros of [mepa/microchip/lan8x8x/src/lan8x8x_registers.h] and
    [lan8x8x_private.h] that the driver uses, under their names. *)

From Stdlib Require Import ZArith.
From S2P Require Import Prelude PhyDefines.

Definition LAN8X8X_PMA_COMM_100T1_CTL_T1_TYPE_1000 : Z := 0x1.
Definition LAN8X8X_GPIO_BASE_REG : Z := 0xF020.
Definition LAN8X8X_GPIO_DIR : Z := LAN8X8X_GPIO_BASE_REG + 0.
Definition LAN8X8X_GPIO_DATA : Z := LAN8X8X_GPIO_BASE_REG + 2.
Definition LAN8X8X_REG_CONTROL1 : Z := 0xFFFF.
Definition LAN8X8X_LED_BASE_REG : Z := 0xF010.
Definition LAN8X8X_COMM_LED1_LED0 : Z := LAN8X8X_LED_BASE_REG + 1.
Definition LAN8X8X_COMM_LED3_LED2 : Z := LAN8X8X_LED_BASE_REG + 2.
Definition LAN8X8X_LED_LINK_ACT_ANY_SPEED : Z := 0x0.
Definition LAN8X8X_LED_LINK_ACT_1000_SPEED : Z := 0x1.
Definition LAN8X8X_LED_LINK_ACT_100_SPEED : Z := 0x2.
Definition LAN8X8X_LED_LINK_NO_ACT_ANY_SPEED : Z := 0x3.
Definition LAN8X8X_LED_LOCAL_RXER_STATUS : Z := 0x5.
Definition LAN8X8X_LED_REMOTE_RXER_STATUS : Z := 0x6.
Definition LAN8X8X_LED_NEGOTIATED_SPEED : Z := 0x7.
Definition LAN8X8X_LED_MASTER_SLAVE_MODE : Z := 0x8.
Definition LAN8X8X_LED_PCS_TX_ERR_STATUS : Z := 0x9.
Definition LAN8X8X_LED_PCS_RX_ERR_STATUS : Z := 0xA.
Definition LAN8X8X_LED_PCS_TX_ACTIVITY : Z := 0xB.
Definition LAN8X8X_LED_PCS_RX_ACTIVITY : Z := 0xC.
Definition LAN8X8X_LED_WAKE_ON_LAN : Z := 0xD.
Definition LAN8X8X_LED_FORCED_LED_OFF : Z := 0xE.
Definition LAN8X8X_LED_FORCED_LED_ON : Z := 0xF.
Definition CLK_RST_REG : Z := 0xF070.
Definition SERDES_CLOCK_CONTROL : Z := CLK_RST_REG + 0x0.
Definition SERDES_CMOS_IN_EN : Z := BIT 3.
Definition SERDES_CML_OUT_EN : Z := BIT 1.
Definition SERDES_CLOCK_CTL_EN : Z := SERDES_CMOS_IN_EN .| SERDES_CML_OUT_EN.
Definition LAN8X8X_RGMII_RX_DLL_CFG : Z := CLK_RST_REG + 0xA.
Definition LAN8X8X_RGMII_TX_DLL_CFG : Z := CLK_RST_REG + 0xB.
Definition LAN8X8X_RGMII_DELAY_EN : Z := BIT 15.
Definition LAN8X8X_RGMII_DLL_EN : Z := BIT 0.
Definition LAN8X8X_RGMII_DLL_CONF : Z := LAN8X8X_RGMII_DELAY_EN .| LAN8X8X_RGMII_DLL_EN.
Definition SERDES_REG : Z := 0xF502.
Definition SERDES_LANEA_DATAPATH_0 : Z := SERDES_REG + 0x12.
Definition SERDES_TXPLL_CONTROL_0 : Z := SERDES_REG + 0xBE.
Definition SERDES_TXPLL_DIVIDER_0 : Z := SERDES_REG + 0xC0.
Definition SERDES_TXPLL_DIVIDER_1 : Z := SERDES_REG + 0xC2.
Definition SERDES_TXPLL_DIVIDER_2 : Z := SERDES_REG + 0xC4.
Definition SERDES_TXPLL_REFCLK_CTRL_0 : Z := SERDES_REG + 0xC6.
Definition SERDES_LANEA_DRIVER_0 : Z := SERDES_REG + 0x14.
Definition SERDES_LANEA_DRIVER_1 : Z := SERDES_REG + 0x16.
Definition SERDES_LANEA_TRIM_0 : Z := SERDES_REG + 0x2E.
Definition SERDES_TXA_DRVR_FSM_0 : Z := SERDES_REG + 0xB6.
Definition SERDES_LANEA_TEST3_0 : Z := SERDES_REG + 0x28.
Definition SERDES_LANEA_TXPWR_CTRL_0 : Z := SERDES_REG + 0x30.
Definition SERDES_RXA_CDR_DIVIDERS_0 : Z := SERDES_REG + 0x34.
Definition SERDES_RXA_FREQUENCY_DET_0 : Z := SERDES_REG + 0x5E.
Definition SERDES_RXA_DESCAL_OVR_0 : Z := SERDES_REG + 0x4C.
Definition SERDES_RXA_CTLE_CTRL_0 : Z := SERDES_REG + 0x36.
Definition SERDES_RXA_DFEEM_CTRL_0 : Z := SERDES_REG + 0x56.
Definition SERDES_LANEA_POWERDOWN_0 : Z := SERDES_REG + 0x18.
Definition SERDES_RXA_PHCTRL_0 : Z := SERDES_REG + 0x64.
Definition SERDES_TOP_PD_RST_0 : Z := SERDES_REG + 0xB4.
Definition PCS1G_REG : Z := 0xF080.
Definition QSGMII_PCS1G_CONFIG : Z := PCS1G_REG + 0x2.
Definition QSGMII_SAVE_PREAMBLE_EN : Z := BIT 11.
Definition QSGMII_PCS_ENA : Z := BIT 9.
Definition QSGMII_SD_POL : Z := BIT 7.
Definition QSGMII_SD_ENA : Z := BIT 6.
Definition QSGMII_PCS1G_CFG_EN : Z := QSGMII_SD_ENA .| QSGMII_SD_POL .| QSGMII_PCS_ENA .| QSGMII_SAVE_PREAMBLE_EN.
Definition QSGMII_PCS1G_ANEG_CONFIG : Z := PCS1G_REG + 0x3.
Definition QSGMII_PCS1G_SW_RESOLVE_PRIORITY : Z := BIT 5.
Definition QSGMII_PCS1G_ANEG_RESTART : Z := BIT 4.
Definition QSGMII_PCS1G_ANEG_ENA : Z := BIT 3.
Definition QSGMII_PCS1G_ANEG_SET : Z :=
  QSGMII_PCS1G_ANEG_ENA .| QSGMII_PCS1G_SW_RESOLVE_PRIORITY .| QSGMII_PCS1G_ANEG_RESTART.
Definition QSGMII_PCS1G_DEBUG : Z := PCS1G_REG + 0x8.
Definition QSGMII_PCS1G_RA_ENA : Z := BIT 4.
Definition QSGMII_ANEG_EN_REG : Z := PCS1G_REG + 0xB.
Definition QSGMII_NP_DISABLE : Z := BIT 2.
Definition QSGMII_SGMII_USGMII_TX_CFG_EN : Z := BIT 1.
Definition QSGMII_ANEG_CFG : Z := QSGMII_SGMII_USGMII_TX_CFG_EN .| QSGMII_NP_DISABLE.
Definition LAN8X8X_SQI_1000_REG : Z := 0x8820.
Definition LAN8X8X_SQI_100_REG : Z := 0x8218.
Definition T1_DCQ_SQI_MSK : Z := GENMASK 1 3.
Definition T1_1G_TOP_CTRL : Z := 0x8900.
Definition T1_1G_TOP_CTRL_CONFIG : Z := T1_1G_TOP_CTRL + 0x2.
Definition T1_1G_TOP_CTRL_CONFIG_DONE : Z := BIT 3.
Definition T1_1G_TOP_CTRL_CONFIG_LINK_CTRL : Z := BIT 0.
Definition T1_1G_TOP_CTRL_CONFIG_SET : Z := T1_1G_TOP_CTRL_CONFIG_DONE .| T1_1G_TOP_CTRL_CONFIG_LINK_CTRL.
Definition T1_1G_E1000T1_PCS : Z := 0x8300.
Definition T1_1G_E1000T1_PCS_EN : Z := T1_1G_E1000T1_PCS.
Definition T1_1G_E1000T1_PCS_EN_LINK_SYNC_SW : Z := BIT 2.
Definition T1_1G_E1000T1_PCS_EN_RXPCS_DEFRAMER : Z := BIT 1.
Definition T1_1G_E1000T1_PCS_EN_TXPCS_FRAMER : Z := BIT 0.
Definition T1_1G_E1000T1_PCS_EN_ : Z :=
  T1_1G_E1000T1_PCS_EN_LINK_SYNC_SW .| T1_1G_E1000T1_PCS_EN_RXPCS_DEFRAMER .| T1_1G_E1000T1_PCS_EN_TXPCS_FRAMER.
Definition T1_1G_E100T1_PCS_REMOTE_LPBK : Z := 32768.
Definition T1_1G_E1000T1_PCS_REMOTE_LPBK : Z := 33570.
Definition T1_1G_PCS_REMOTE_LPBK : Z := BIT 0.
Definition CHIPTOP : Z := 0xF0C0.
Definition XGMII_GMII_BYPASS : Z := CHIPTOP + 0x18.
Definition XGMII_BYPASS_SEL : Z := BIT 0.
Definition MAC_NE_LPBK : Z := CHIPTOP + 0x1F.
Definition MAC_NE_LPBK_ENA : Z := BIT 0.
Definition OTP_STRAP_READ_REG : Z := CHIPTOP + 0x38.
Definition OTP_STRAP_READ_AUTO_NEG_EN : Z := BIT 1.
Definition OTP_STRAP_READ_MST_SLV_SEL : Z := BIT 0.
Definition T1_OTP_RO : Z := 0xF040.
Definition T1_OTP_RO_FEAT_DIS : Z := T1_OTP_RO + 0x12.
Definition T1_OTP_RO_FEAT_DIS_1000M : Z := BIT 4.
Definition T1_OTP_RO_FEAT_DIS_100M : Z := BIT 3.
Definition T1_OTP_RO_FEAT_DIS_MS : Z := BIT 0.
Definition T1_OTP_RO_PART_ID : Z := T1_OTP_RO + 0x13.
Definition OTP_STRAP_OVERRIDE : Z := T1_OTP_RO + 0x15.
Definition OTP_STRAP_OVERRIDE_EN : Z := BIT 7.
Definition OTP_STRAP_SPEED_SEL : Z := BIT 4.
Definition OTP_STRAP_AUTO_NEG_EN : Z := BIT 1.
Definition OTP_STRAP_MST_SLV_SEL : Z := BIT 0.
Definition T1_1G_TOP_CTRL_SOFT_RESET : Z := BIT 1.
Definition T1_1G_E100T1_PMD : Z := 0x8000.
Definition T1_1G_E100T1_PMD_ADPLL_CFG_0 : Z := T1_1G_E100T1_PMD + 0x40.
Definition T1_1G_E1000T1_PMD : Z := 0x8100.
Definition T1_1G_E1000T1_PMD_LCPLL_CFG_0 : Z := T1_1G_E1000T1_PMD.
Definition T1_1G_E100T1_PMA : Z := 0x8200.
Definition T1_1G_E1000T1_PMA : Z := 0x8800.
Definition T1_1G_E100T1_PMA_ADFE_CFG2 : Z := T1_1G_E100T1_PMA + 0x2A.
Definition T1_1G_E100T1_PMA_ADFE_CFG3 : Z := T1_1G_E100T1_PMA + 0x2C.
Definition T1_1G_E1000T1_PMA_ADFE_CFG3 : Z := T1_1G_E1000T1_PMA + 0x34.
Definition T1_AUTONEG_STATUS : Z := 0x8002.
Definition T1_AUTONEG_MS_CONFIG_FAULT : Z := BIT 1.
Definition T1_AUTONEG_CONFIG_AS_MASTER : Z := BIT 0.
Definition LAN8X8X_INT_STS0_SC : Z := CHIPTOP + 0x20.
Definition LAN8X8X_INT_EN0_SC : Z := CHIPTOP + 0x24.
Definition LAN8X8X_INT_EN0_T1_DATA_FAULT : Z := BIT 2.
Definition LAN8X8X_INT_STS1_SC : Z := CHIPTOP + 0x21.
Definition LAN8X8X_INT_EN1_SC : Z := CHIPTOP + 0x25.
Definition LAN8X8X_INT_EN1_MS_EG_EN : Z := BIT 8.
Definition LAN8X8X_INT_EN1_MS_IG_EN : Z := BIT 7.
Definition LAN8X8X_INT_EN1_MS_FCB_EN : Z := BIT 6.
Definition LAN8X8X_INT_EN1_MS_HMAC_EN : Z := BIT 5.
Definition LAN8X8X_INT_EN1_MS_LMAC_EN : Z := BIT 4.
Definition LAN8X8X_INT_EN1_PTP_PRT : Z := BIT 0.
Definition T1_IRQ : Z := 0x8500.
Definition LAN8X8X_INT_IRQ_FUNC_STS : Z := T1_IRQ.
Definition LAN8X8X_INT_IRQ_FUNC_MSK : Z := T1_IRQ + 2.
Definition LAN8X8X_INT_IRQ_FUNC_CLR : Z := T1_IRQ + 4.
Definition LAN8X8X_INT_MS_TRAINING_COMP : Z := BIT 6.
Definition LAN8X8X_INT_LINK_CHANGE_1G : Z := BIT 2.
Definition LAN8X8X_INT_LINK_CHANGE : Z := BIT 1.
Definition PHY_ID_LAN878X : Z := 0x002216A0.
Definition PHY_ID_LAN888X : Z := 0x002216B0.
Definition PHY_ID_MASK : Z := 0xFFFFFFF0.

Definition LAN8X8X_PHY_REG_ADDR (addr : Z) : Z := addr .& 0x00FF.
Definition PHY_REG_ADDR (addr : Z) : Z := addr .& 0xFFFF.
Definition PHY_MMD_DEVAD (addr : Z) : Z := (addr .& 0x00FF0000) .>> 16.
Definition LAN8X8X_SQI_GET (v : Z) : Z := (v .& T1_DCQ_SQI_MSK) .>> ONE.
Definition IS_LAN888X (id : Z) : bool := (id .& PHY_ID_MASK) =? PHY_ID_LAN888X.
Definition IS_LAN878X (id : Z) : bool := (id .& PHY_ID_MASK) =? PHY_ID_LAN878X.
Definition GET_PHY_ID1 (x : Z) : Z := (x .<< 2) .& 0x03FFFC.
Definition GET_PHY_ID2 (x : Z) : Z := (EXTRACT_BITS x 10 6 .<< 18) .& 0xFFFFFFFF.
Definition GET_PHY_REV (x : Z) : Z := EXTRACT_BITS x 0 4.
Definition GET_PHY_MODEL (x : Z) : Z := EXTRACT_BITS x 4 6.
