(* ===== verification/Lan8x8x.v ===== *)
(** * Lan8x8x: the driver of the LAN8x8x, 100BASE-T1 and 1000BASE-T1 PHYs

    [mepa/microchip/lan8x8x/src/lan8x8x.c], the functions under "Internal APIs":
    capabilities, reset, set-up of the MAC side and of the media side, loopbacks,
    events, LEDs and pins, configuration, auto-negotiation and link status.  The
    registers are accessed through [PhyLib].

    A function that stores through a pointer returns the code and what is stored
    there after the call.  [drv_id] is [dev->drv->id]; [polls] and [polls32] are
    how many times the timers of the two waits of the reset say that they have
    not expired. *)

From Stdlib Require Import ZArith Lia List Bool String.
From stdpp Require Import base gmap strings list.
From S2P Require Import Prelude Machine Enums Lan8814Types PhyDefines PhyLib Lan8x8xRegs.

(** ** Data *)
Record mchp_t1_otp_cap_t := Mk_mchp_t1_otp_cap_t {
  cap_dis_macsec : Z;
  cap_dis_1588 : Z;
  cap_dis_1000 : Z;
  cap_dis_100 : Z;
}.
Record phy_dev_info_t := Mk_phy_dev_info_t {
  dev_id : Z;
  dev_model : Z;
  dev_rev : Z;
  dev_is_master : Z;
  dev_is_master_fault : Z;
}.
Record phy_data_t := Mk_phy_data_t {
  pd_t1_cap : mchp_t1_otp_cap_t;
  pd_init_done : Z;
  pd_link_status : Z;
  pd_port_no : Z;
  pd_mac_if : Z;
  pd_media_intf : Z;
  pd_conf : mepa_conf_t;
  pd_events : Z;
  pd_loopback : mepa_loopback_t;
  pd_dev : phy_dev_info_t;
  pd_ctx_status : Z;
  pd_cd_res : mepa_cable_diag_result_t;
  pd_led_conf : list mepa_gpio_conf_t;
}.
Definition set_cap_dis_macsec v c := Mk_mchp_t1_otp_cap_t v (cap_dis_1588 c) (cap_dis_1000 c) (cap_dis_100 c).
Definition set_cap_dis_1000 v c := Mk_mchp_t1_otp_cap_t (cap_dis_macsec c) (cap_dis_1588 c) v (cap_dis_100 c).
Definition set_cap_dis_100 v c := Mk_mchp_t1_otp_cap_t (cap_dis_macsec c) (cap_dis_1588 c) (cap_dis_1000 c) v.
Definition set_dev_is_master v d := Mk_phy_dev_info_t (dev_id d) (dev_model d) (dev_rev d) v (dev_is_master_fault d).
Definition set_pd_t1_cap v d := Mk_phy_data_t v (pd_init_done d) (pd_link_status d) (pd_port_no d) (pd_mac_if d)
  (pd_media_intf d) (pd_conf d) (pd_events d) (pd_loopback d) (pd_dev d) (pd_ctx_status d) (pd_cd_res d) (pd_led_conf
  d).
Definition set_pd_init_done v d := Mk_phy_data_t (pd_t1_cap d) v (pd_link_status d) (pd_port_no d) (pd_mac_if d)
  (pd_media_intf d) (pd_conf d) (pd_events d) (pd_loopback d) (pd_dev d) (pd_ctx_status d) (pd_cd_res d) (pd_led_conf
  d).
Definition set_pd_link_status v d := Mk_phy_data_t (pd_t1_cap d) (pd_init_done d) v (pd_port_no d) (pd_mac_if d)
  (pd_media_intf d) (pd_conf d) (pd_events d) (pd_loopback d) (pd_dev d) (pd_ctx_status d) (pd_cd_res d) (pd_led_conf
  d).
Definition set_pd_port_no v d := Mk_phy_data_t (pd_t1_cap d) (pd_init_done d) (pd_link_status d) v (pd_mac_if d)
  (pd_media_intf d) (pd_conf d) (pd_events d) (pd_loopback d) (pd_dev d) (pd_ctx_status d) (pd_cd_res d) (pd_led_conf
  d).
Definition set_pd_mac_if v d := Mk_phy_data_t (pd_t1_cap d) (pd_init_done d) (pd_link_status d) (pd_port_no d) v
  (pd_media_intf d) (pd_conf d) (pd_events d) (pd_loopback d) (pd_dev d) (pd_ctx_status d) (pd_cd_res d) (pd_led_conf
  d).
Definition set_pd_media_intf v d := Mk_phy_data_t (pd_t1_cap d) (pd_init_done d) (pd_link_status d) (pd_port_no d)
  (pd_mac_if d) v (pd_conf d) (pd_events d) (pd_loopback d) (pd_dev d) (pd_ctx_status d) (pd_cd_res d) (pd_led_conf
  d).
Definition set_pd_conf v d := Mk_phy_data_t (pd_t1_cap d) (pd_init_done d) (pd_link_status d) (pd_port_no d)
  (pd_mac_if d) (pd_media_intf d) v (pd_events d) (pd_loopback d) (pd_dev d) (pd_ctx_status d) (pd_cd_res d)
  (pd_led_conf d).
Definition set_pd_events v d := Mk_phy_data_t (pd_t1_cap d) (pd_init_done d) (pd_link_status d) (pd_port_no d)
  (pd_mac_if d) (pd_media_intf d) (pd_conf d) v (pd_loopback d) (pd_dev d) (pd_ctx_status d) (pd_cd_res d)
  (pd_led_conf d).
Definition set_pd_loopback v d := Mk_phy_data_t (pd_t1_cap d) (pd_init_done d) (pd_link_status d) (pd_port_no d)
  (pd_mac_if d) (pd_media_intf d) (pd_conf d) (pd_events d) v (pd_dev d) (pd_ctx_status d) (pd_cd_res d) (pd_led_conf
  d).
Definition set_pd_dev v d := Mk_phy_data_t (pd_t1_cap d) (pd_init_done d) (pd_link_status d) (pd_port_no d) (pd_mac_if
  d) (pd_media_intf d) (pd_conf d) (pd_events d) (pd_loopback d) v (pd_ctx_status d) (pd_cd_res d) (pd_led_conf d).
Definition set_pd_ctx_status v d := Mk_phy_data_t (pd_t1_cap d) (pd_init_done d) (pd_link_status d) (pd_port_no d)
  (pd_mac_if d) (pd_media_intf d) (pd_conf d) (pd_events d) (pd_loopback d) (pd_dev d) v (pd_cd_res d) (pd_led_conf
  d).
Definition set_pd_cd_res v d := Mk_phy_data_t (pd_t1_cap d) (pd_init_done d) (pd_link_status d) (pd_port_no d)
  (pd_mac_if d) (pd_media_intf d) (pd_conf d) (pd_events d) (pd_loopback d) (pd_dev d) (pd_ctx_status d) v
  (pd_led_conf d).
Definition set_pd_led_conf v d := Mk_phy_data_t (pd_t1_cap d) (pd_init_done d) (pd_link_status d) (pd_port_no d)
  (pd_mac_if d) (pd_media_intf d) (pd_conf d) (pd_events d) (pd_loopback d) (pd_dev d) (pd_ctx_status d) (pd_cd_res d)
  v.

Section Lan8x8x.
Context {B : Type} {CO : Callout B}.
Variables (drv_id : Z) (polls polls32 : nat).
Local Abbreviation M := (M B phy_data_t).

Definition upd_conf (dev : Z) (f : mepa_conf_t -> mepa_conf_t) : M unit :=
  upd dev (fun d => set_pd_conf (f (pd_conf d)) d).

(** [MEPA_RC(rc, expr)]: leave the function with any code but 0. *)
Local Abbreviation RC := (or_return ret).
(** The same around a read; [fail] is what the function returns. *)
Definition reading {A} (fail : Z -> M A) (m : M (Z * Z)) (k : Z -> M A) : M A :=
  let* (rc, v) <- m ;; if negb (rc =? MEPA_RC_OK) then fail rc else k v.

(** ** Identification and capabilities *)
Definition phy_get_device_info (dev : Z) : M Z :=
  upd dev (set_pd_dev (Mk_phy_dev_info_t ZERO ZERO ZERO PHY_FALSE PHY_FALSE)) ;;;
  let* (_, id1) <- phy_reg_rd dev MII_PHYSID1 ;;
  let* (_, id2) <- phy_reg_rd dev MII_PHYSID2 ;;
  upd dev (set_pd_dev (Mk_phy_dev_info_t (GET_PHY_ID1 id1 .| GET_PHY_ID2 id2) (GET_PHY_MODEL id2) (GET_PHY_REV id2)
                         PHY_FALSE PHY_FALSE)) ;;;
  ret MEPA_RC_OK.

(** The speed without auto-negotiation, from a strap register. *)
Definition strap_speed (val : Z) : Z :=
  if IS_LAN888X drv_id && tb (val .& OTP_STRAP_SPEED_SEL) then MESA_SPEED_1G else MESA_SPEED_100M.
Definition lan8x8x_read_capabilities (dev : Z) : M unit :=
  let* (_, val) <- phy_mmd_reg_rd dev MDIO_MMD_VEND1 T1_OTP_RO_FEAT_DIS 0 ;;
  upd dev (fun d => set_pd_t1_cap (set_cap_dis_1000
    (if IS_LAN888X drv_id && tb (val .& T1_OTP_RO_FEAT_DIS_1000M) then PHY_TRUE else PHY_FALSE) (pd_t1_cap d)) d) ;;;
  upd dev (fun d => set_pd_t1_cap (set_cap_dis_100
    (if tb (val .& T1_OTP_RO_FEAT_DIS_100M) then PHY_TRUE else PHY_FALSE) (pd_t1_cap d)) d) ;;;
  upd dev (fun d => set_pd_t1_cap (set_cap_dis_macsec
    (if tb (val .& T1_OTP_RO_FEAT_DIS_MS) then PHY_TRUE else PHY_FALSE) (pd_t1_cap d)) d) ;;;
  upd dev (set_pd_mac_if MESA_PORT_INTERFACE_RGMII_RXID) ;;;
  let* (_, val) <- phy_mmd_reg_rd dev MDIO_MMD_VEND1 T1_OTP_RO_PART_ID val ;;
  (if val =? 0x888D then upd dev (set_pd_mac_if MESA_PORT_INTERFACE_SGMII) else ret tt) ;;;
  let* (_, val) <- phy_mmd_reg_rd dev MDIO_MMD_VEND1 OTP_STRAP_OVERRIDE val ;;
  if tb (val .& OTP_STRAP_OVERRIDE_EN) then
    upd_conf dev (set_conf_speed (if tb (val .& OTP_STRAP_AUTO_NEG_EN) then MESA_SPEED_AUTO else strap_speed val)) ;;;
    upd_conf dev (set_conf_man_neg
      (if tb (val .& OTP_STRAP_MST_SLV_SEL) then MEPA_MANUAL_NEG_REF else MEPA_MANUAL_NEG_CLIENT))
  else
    let* (_, val) <- phy_mmd_reg_rd dev MDIO_MMD_VEND1 OTP_STRAP_READ_REG val ;;
    upd_conf dev (set_conf_speed
      (if tb (val .& OTP_STRAP_READ_AUTO_NEG_EN) then if IS_LAN878X drv_id then MESA_SPEED_100M else MESA_SPEED_AUTO
       else strap_speed val)) ;;;
    upd_conf dev (set_conf_man_neg
      (if tb (val .& OTP_STRAP_READ_MST_SLV_SEL) then MEPA_MANUAL_NEG_REF else MEPA_MANUAL_NEG_CLIENT)).

(** ** Loopbacks *)

(** The register, mask and value of the loopback that is asked for; [None] is
    the NULL pointer.  The code [MEPA_RC_NOT_IMPLEMENTED] that a request for
    neither loopback gives is overwritten by the code of the access. *)
Definition lpbk_setting (dev : Z) (loopback : option mepa_loopback_t) : M (Z * Z * Z) :=
  match loopback with
  | None => ret (MDIO_CTRL1, BMCR_LOOPBACK, 0)
  | Some loopback =>
      if lb_near_end_ena loopback =? PHY_TRUE then
        upd dev (fun d => set_pd_loopback (set_lb_near_end_ena PHY_TRUE (pd_loopback d)) d) ;;;
        ret (MDIO_CTRL1, BMCR_LOOPBACK, BMCR_LOOPBACK)
      else if lb_far_end_ena loopback =? PHY_TRUE then
        data <- data_of dev ;;
        upd dev (fun d => set_pd_loopback (set_lb_far_end_ena PHY_TRUE (pd_loopback d)) d) ;;;
        ret (if conf_speed (pd_conf data) =? MEPA_SPEED_100M then
               (T1_1G_E100T1_PCS_REMOTE_LPBK, T1_1G_PCS_REMOTE_LPBK, T1_1G_PCS_REMOTE_LPBK)
             else if conf_speed (pd_conf data) =? MEPA_SPEED_1G then
               (T1_1G_E1000T1_PCS_REMOTE_LPBK, BMCR_LOOPBACK, T1_1G_PCS_REMOTE_LPBK)
             else (MDIO_CTRL1, BMCR_LOOPBACK, 0))
      else ret (MDIO_CTRL1, BMCR_LOOPBACK, 0)
  end.
Definition lan8x8x_setup_lpbk (dev : Z) (loopback : option mepa_loopback_t) : M Z :=
  upd dev (set_pd_loopback mepa_loopback_t_0) ;;;
  let* (reg, mask, val) <- lpbk_setting dev loopback ;;
  RC (phy_mmd_reg_mod32 dev MDIO_MMD_PCS reg mask val) (ret MEPA_RC_OK).

(** ** The MAC side *)

(** Steps of a set-up, all in the device [MDIO_MMD_VEND1]. *)
Inductive step :=
  | Wr16 (reg val : Z)
  | Wr32 (reg val : Z)
  | SetBits (reg val : Z)
  | Nsleep (ns : Z).
Definition run_step (dev : Z) (s : step) : M Z :=
  match s with
  | Wr16 reg val => phy_mmd_reg_wr dev MDIO_MMD_VEND1 reg val
  | Wr32 reg val => phy_mmd_reg_wr32 dev MDIO_MMD_VEND1 reg val
  | SetBits reg val => phy_mmd_reg_set_bits dev MDIO_MMD_VEND1 reg val
  | Nsleep ns => log (EvSleep ns) ;;; ret MEPA_RC_OK
  end.
Fixpoint run_steps (dev : Z) (l : list step) (k : M Z) : M Z :=
  match l with [] => k | s :: l => RC (run_step dev s) (run_steps dev l k) end.

Definition sgmii_start : list step :=
  [ Wr32 SERDES_CLOCK_CONTROL SERDES_CLOCK_CTL_EN; SetBits XGMII_GMII_BYPASS XGMII_BYPASS_SEL;
    Wr16 QSGMII_PCS1G_CONFIG QSGMII_PCS1G_CFG_EN; Nsleep 100 ].
Definition sgmii_aneg : list step :=
  [ Wr16 QSGMII_ANEG_EN_REG (QSGMII_ANEG_CFG .| QSGMII_ANEG_CFG); Wr16 QSGMII_PCS1G_ANEG_CONFIG QSGMII_PCS1G_ANEG_SET ].
Definition sgmii_forced : list step :=
  [ Wr32 SERDES_TXPLL_REFCLK_CTRL_0 0x18; Wr32 SERDES_TXPLL_CONTROL_0 0xB9E0;
    Wr32 SERDES_LANEA_DATAPATH_0 0x82422; Wr32 SERDES_TXPLL_DIVIDER_0 0x7014014;
    Wr32 SERDES_TXPLL_DIVIDER_1 0x19; Wr32 SERDES_TXPLL_DIVIDER_2 0x1000000;
    Wr32 SERDES_TXPLL_DIVIDER_0 0x6011002; Wr32 SERDES_TXPLL_CONTROL_0 0x9800; Wr32 SERDES_LANEA_TRIM_0 0xCB3;
    Wr32 SERDES_LANEA_DRIVER_0 0x25555000; Wr32 SERDES_LANEA_DRIVER_1 0x7FFF;
    Wr32 SERDES_LANEA_DRIVER_0 0x20155000; Wr32 SERDES_TXA_DRVR_FSM_0 0x1F804;
    Wr32 SERDES_LANEA_DATAPATH_0 0x82422; Wr32 SERDES_LANEA_TEST3_0 0x0; Wr32 SERDES_LANEA_DATAPATH_0 0x82422;
    Wr32 SERDES_LANEA_TXPWR_CTRL_0 0x0; Wr32 SERDES_LANEA_TXPWR_CTRL_0 0x1; Wr32 SERDES_TXPLL_CONTROL_0 0x9000;
    Wr32 SERDES_TXPLL_CONTROL_0 0x8000; Wr32 SERDES_RXA_CDR_DIVIDERS_0 0x8019;
    Wr32 SERDES_RXA_FREQUENCY_DET_0 0x4000; Wr32 SERDES_RXA_DESCAL_OVR_0 0x104007;
    Wr32 SERDES_LANEA_TRIM_0 0xCB3; Wr32 SERDES_RXA_CTLE_CTRL_0 0x7E; Wr32 SERDES_RXA_DFEEM_CTRL_0 0xFC;
    Wr32 SERDES_LANEA_POWERDOWN_0 0x37; Wr32 SERDES_LANEA_DATAPATH_0 0x82422; Wr32 SERDES_RXA_CTLE_CTRL_0 0x7E;
    Wr32 SERDES_RXA_DFEEM_CTRL_0 0x0; Wr32 SERDES_RXA_DESCAL_OVR_0 0x104007; Wr32 SERDES_RXA_PHCTRL_0 0x0;
    Wr32 SERDES_LANEA_DATAPATH_0 0x82422; Wr32 SERDES_LANEA_POWERDOWN_0 0x7; Nsleep 100;
    Wr32 SERDES_TOP_PD_RST_0 0x0; Nsleep 500; Wr16 QSGMII_ANEG_EN_REG QSGMII_ANEG_CFG;
    Wr16 QSGMII_PCS1G_ANEG_CONFIG QSGMII_PCS1G_SW_RESOLVE_PRIORITY; Nsleep 500 ].
Definition lan8x8x_sgmii_init (dev : Z) : M Z :=
  run_steps dev sgmii_start
  (data <- data_of dev ;;
   run_steps dev (if conf_mac_if_aneg_ena (pd_conf data) =? PHY_TRUE then sgmii_aneg else sgmii_forced)
   (ret MEPA_RC_OK)).

(** [(rxc, txc)] *)
Definition rgmii_delays (mac_if : Z) : option (Z * Z) :=
  if mac_if =? MESA_PORT_INTERFACE_RGMII then Some (0, 0)
  else if mac_if =? MESA_PORT_INTERFACE_RGMII_ID then Some (LAN8X8X_RGMII_DLL_CONF, LAN8X8X_RGMII_DLL_CONF)
  else if mac_if =? MESA_PORT_INTERFACE_RGMII_RXID then Some (LAN8X8X_RGMII_DLL_CONF, 0)
  else if mac_if =? MESA_PORT_INTERFACE_RGMII_TXID then Some (0, LAN8X8X_RGMII_DLL_CONF)
  else None.
Definition lan8x8x_rgmii_init (dev : Z) : M Z :=
  data <- data_of dev ;;
  match rgmii_delays (pd_mac_if data) with
  | None => ret MEPA_RC_ERR_KR_CONF_NOT_SUPPORTED
  | Some (rxc, txc) =>
      RC (phy_mmd_reg_modify dev MDIO_MMD_VEND1 LAN8X8X_RGMII_RX_DLL_CFG LAN8X8X_RGMII_DLL_CONF rxc)
      (RC (phy_mmd_reg_modify dev MDIO_MMD_VEND1 LAN8X8X_RGMII_TX_DLL_CFG LAN8X8X_RGMII_DLL_CONF txc)
      (ret MEPA_RC_OK))
  end.

Definition lan8x8x_config_mac (dev : Z) : M Z :=
  data <- data_of dev ;;
  let* (rc, val, val1) <-
    (if pd_mac_if data =? MESA_PORT_INTERFACE_SGMII then
       rc <- lan8x8x_sgmii_init dev ;;
       data <- data_of dev ;;
       let speed := conf_speed (pd_conf data) in
       ret (rc, if (speed =? MESA_SPEED_AUTO) && (adv_speed_1g_fdx (conf_aneg (pd_conf data)) =? PHY_TRUE)
                   || (speed =? MESA_SPEED_1G) then MAC_NE_LPBK_ENA else 0, QSGMII_PCS1G_RA_ENA)
     else rc <- lan8x8x_rgmii_init dev ;; ret (rc, 0, 0)) ;;
  if rc =? MEPA_RC_OK then
    RC (phy_mmd_reg_wr dev MDIO_MMD_VEND1 MAC_NE_LPBK val)
    (RC (phy_mmd_reg_modify dev MDIO_MMD_VEND1 QSGMII_PCS1G_DEBUG QSGMII_PCS1G_RA_ENA val1)
    (ret MEPA_RC_OK))
  else ret rc.

Definition lan8x8x_phy_init (dev : Z) : M Z :=
  RC (if IS_LAN888X drv_id
      then phy_mmd_reg_mod32 dev MDIO_MMD_PCS T1_1G_E1000T1_PCS_EN T1_1G_E1000T1_PCS_EN_ T1_1G_E1000T1_PCS_EN_
      else phy_mmd_reg_wr32 dev MDIO_MMD_PCS T1_1G_E1000T1_PCS_EN 0)
  (RC (lan8x8x_config_mac dev) (ret MEPA_RC_OK)).

Definition lan8x8x_check_media (data : phy_data_t) (media_if speed : Z) : Z :=
  if (media_if =? MESA_PHY_MEDIA_IF_T1_100FX) && negb (tb (cap_dis_100 (pd_t1_cap data)))
     || (media_if =? MESA_PHY_MEDIA_IF_T1_1000FX) && negb (tb (cap_dis_1000 (pd_t1_cap data))) && IS_LAN888X drv_id
  then
    if (media_if =? MESA_PHY_MEDIA_IF_T1_100FX)
       && ((speed =? MESA_SPEED_AUTO) && negb (adv_speed_100m_fdx (conf_aneg (pd_conf data)) =? PHY_TRUE)
           || negb (speed =? MESA_SPEED_AUTO) && negb (speed =? MESA_SPEED_100M))
    then MEPA_RC_ERR_PARM else MEPA_RC_OK
  else MEPA_RC_ERR_KR_CONF_NOT_SUPPORTED.

(** ** Events *)

(** The masks [int_mask], [en0_mask] and [en1_mask]. *)
Definition masks : Type := Z * Z * Z.
(** The switch: what the bit [ev] of the enabled events adds to the masks. *)
Definition event_masks (ev : Z) (m : masks) : masks :=
  let '(int_mask, en0_mask, en1_mask) := m in
  if ev =? MESA_PHY_LINK_SPEED_STATE_CHANGE_EV then
    (int_mask .| LAN8X8X_INT_LINK_CHANGE .| LAN8X8X_INT_LINK_CHANGE_1G, en0_mask .| LAN8X8X_INT_EN0_T1_DATA_FAULT,
     en1_mask)
  else if ev =? MESA_PHY_LINK_AUTO_NEG_COMPLETE_EV then
    (int_mask .| LAN8X8X_INT_MS_TRAINING_COMP, en0_mask .| LAN8X8X_INT_EN0_T1_DATA_FAULT, en1_mask)
  else if (ev =? MESA_PHY_LINK_TX_FIFO_OVERFLOW_INT_EV) || (ev =? MESA_PHY_LINK_RX_FIFO_OVERFLOW_INT_EV) then
    (int_mask, en0_mask, en1_mask .| LAN8X8X_INT_EN1_PTP_PRT)
  else m.
(** The loop from bit [i] on, [n] bits at most; it ends when no bit of [tmp_evt] is left. *)
Fixpoint events_loop (n : nat) (i events tmp_evt : Z) (m : masks) : masks :=
  match n with
  | O => m
  | S n =>
      let mask := BIT32 i in
      let m := event_masks (events .& mask) m in
      let tmp_evt := tmp_evt .& .~ mask in
      if tmp_evt =? ZERO then m else events_loop n (i + 1) events tmp_evt m
  end.
Definition lan8x8x_int_events_set (dev event enable : Z) : M Z :=
  upd dev (fun d => set_pd_events (if tb enable then pd_events d .| event else pd_events d .& .~ event) d) ;;;
  data <- data_of dev ;;
  let '(int_mask, en0_mask, en1_mask) := events_loop 32 0 (pd_events data) event (0, 0, 0) in
  rc <- phy_mmd_reg_wr dev MDIO_MMD_VEND1 LAN8X8X_INT_EN0_SC en0_mask ;;
  if rc <? 0 then ret rc else
  rc <- phy_mmd_reg_wr32 dev MDIO_MMD_PMAPMD LAN8X8X_INT_IRQ_FUNC_MSK int_mask ;;
  if rc <? 0 then ret rc else
  rc <- phy_mmd_reg_wr dev MDIO_MMD_VEND1 LAN8X8X_INT_EN1_SC en1_mask ;;
  if rc <? 0 then ret rc else
  ret MEPA_RC_OK.

(** ** LEDs and pins *)
Definition led_modes : list (Z * Z) :=
  [ (MEPA_GPIO_MODE_LED_LINK1000_ACTIVITY, LAN8X8X_LED_LINK_ACT_1000_SPEED);
    (MEPA_GPIO_MODE_LED_LINK100_ACTIVITY, LAN8X8X_LED_LINK_ACT_100_SPEED);
    (MEPA_GPIO_MODE_LED_LINK_NO_ACT_ANY_SPEED, LAN8X8X_LED_LINK_NO_ACT_ANY_SPEED);
    (MEPA_GPIO_MODE_LED_LOCAL_RXER_STATUS, LAN8X8X_LED_LOCAL_RXER_STATUS);
    (MEPA_GPIO_MODE_LED_REMOTE_RXER_STATUS, LAN8X8X_LED_REMOTE_RXER_STATUS);
    (MEPA_GPIO_MODE_LED_NEGOTIATED_SPEED, LAN8X8X_LED_NEGOTIATED_SPEED);
    (MEPA_GPIO_MODE_LED_MASTER_SLAVE_MODE, LAN8X8X_LED_MASTER_SLAVE_MODE);
    (MEPA_GPIO_MODE_LED_PCS_TX_ERR_STATUS, LAN8X8X_LED_PCS_TX_ERR_STATUS);
    (MEPA_GPIO_MODE_LED_PCS_RX_ERR_STATUS, LAN8X8X_LED_PCS_RX_ERR_STATUS);
    (MEPA_GPIO_MODE_LED_PCS_TX_ACTIVITY, LAN8X8X_LED_PCS_TX_ACTIVITY);
    (MEPA_GPIO_MODE_LED_PCS_RX_ACTIVITY, LAN8X8X_LED_PCS_RX_ACTIVITY);
    (MEPA_GPIO_MODE_LED_WAKE_ON_LAN, LAN8X8X_LED_WAKE_ON_LAN);
    (MEPA_GPIO_MODE_LED_FORCE_LED_OFF, LAN8X8X_LED_FORCED_LED_OFF);
    (MEPA_GPIO_MODE_LED_FORCE_LED_ON, LAN8X8X_LED_FORCED_LED_ON);
    (MEPA_GPIO_MODE_LED_LINK_ACTIVITY, LAN8X8X_LED_LINK_ACT_ANY_SPEED) ].
Definition led_value (mode : Z) : option Z := option_map snd (find (fun p => mode =? fst p) led_modes).
Definition lan8x8x_config_led (dev : Z) (conf : mepa_gpio_conf_t) : M Z :=
  let led := gpio_led_num conf in
  let reg_offset :=
    if (led =? MEPA_LED0) || (led =? MEPA_LED1) then Some LAN8X8X_COMM_LED1_LED0
    else if (led =? MEPA_LED2) || (led =? MEPA_LED3) then Some LAN8X8X_COMM_LED3_LED2 else None in
  match led_value (gpio_mode conf), reg_offset with
  | Some reg_val, Some reg_offset =>
      let reg_val := if (led =? MEPA_LED1) || (led =? MEPA_LED3) then u16 (reg_val .<< 8) else reg_val in
      phy_mmd_reg_wr dev MDIO_MMD_VEND1 reg_offset reg_val
  | _, _ => ret MEPA_RC_ERR_KR_CONF_NOT_SUPPORTED
  end.

Definition is_led_mode (mode : Z) : bool :=
  (mode >=? MEPA_GPIO_MODE_LED_LINK_ACTIVITY) && (mode <=? MEPA_GPIO_MODE_LED_DISABLE_EXTENDED).
(** The loop over [leds], then [k]. *)
Fixpoint leds_loop (dev isolate : Z) (leds : list Z) (k : M Z) : M Z :=
  match leds with
  | [] => k
  | i :: leds =>
      data <- data_of dev ;;
      led <- arr (pd_led_conf data) i ;;
      if is_led_mode (gpio_mode led) then
        RC (lan8x8x_config_led dev (if tb isolate then set_gpio_mode MEPA_GPIO_MODE_LED_FORCE_LED_OFF led else led))
        (leds_loop dev isolate leds k)
      else leds_loop dev isolate leds k
  end.
Definition lan8x8x_config_leds (dev isolate : Z) : M Z := leds_loop dev isolate [0; 1; 2; 3] (ret MEPA_RC_OK).

(** The part of [lan8x8x_gpio_mode_set_private] behind the choice of what the
    pin [gpio_no] is for; [dir] is uninitialised unless [gpio_en]. *)
Definition gpio_setup (dev gpio_no : Z) (gpio_en clk_en : bool) (dir : Z) : M Z :=
  if gpio_no <? 3 then
    let modify mask val :=
      RC (phy_mmd_reg_modify dev MDIO_MMD_VEND1 LAN8X8X_REG_CONTROL1 mask val) (ret MEPA_RC_OK) in
    if gpio_en then
      let val := 1 .<< (4 + gpio_no) in
      let dir := u16 (dir .<< gpio_no) in
      RC (phy_mmd_reg_modify dev MDIO_MMD_VEND1 LAN8X8X_GPIO_DIR dir dir) (modify val val)
    else if clk_en then let val := 1 .<< (8 + gpio_no) in modify val val
    else modify 0 0
  else ret MEPA_RC_NOT_IMPLEMENTED.
Definition lan8x8x_gpio_mode_set_private (dev : Z) (gpio_conf : mepa_gpio_conf_t) : M Z :=
  let mode := gpio_mode gpio_conf in
  let gpio_no := gpio_gpio_no gpio_conf in
  if (mode =? MEPA_GPIO_MODE_IN) || (mode =? MEPA_GPIO_MODE_OUT) then
    gpio_setup dev gpio_no true false (if mode =? MEPA_GPIO_MODE_OUT then 1 else 0)
  else if is_led_mode mode then
    RC (lan8x8x_config_led dev gpio_conf)
    (data <- data_of dev ;;
     arr (pd_led_conf data) (gpio_led_num gpio_conf) ;;;
     upd dev (fun d => set_pd_led_conf (<[Z.to_nat (gpio_led_num gpio_conf) := gpio_conf]> (pd_led_conf d)) d) ;;;
     gpio_setup dev gpio_no false false (uninit "dir"))
  else if (mode =? MEPA_GPIO_MODE_PTP_REF_CLK) || (mode =? MEPA_GPIO_MODE_PTP_REF_ADJ) then
    gpio_setup dev (if mode =? MEPA_GPIO_MODE_PTP_REF_CLK then 1 else 2) false true (uninit "dir")
  else gpio_setup dev gpio_no false false (uninit "dir").

(** ** Reset *)
Definition lan8x8x_phy_cfg_clr (dev : Z) : M Z :=
  reading ret (phy_mmd_reg_rd dev MDIO_MMD_VEND1 0xc22 0) (fun _ =>
  RC (phy_reg_clear_bits dev MII_BMCR BMCR_ISOLATE)
  (RC (lan8x8x_config_leds dev PHY_FALSE)
  (RC (lan8x8x_setup_lpbk dev None)
  (data <- data_of dev ;;
   RC (lan8x8x_int_events_set dev (pd_events data) PHY_TRUE) (ret MEPA_RC_OK))))).

(** The codes of the two waits are only traced. *)
Definition lan8x8x_phy_reset (dev : Z) : M Z :=
  RC (phy_reg_set_bits dev MII_BMCR BMCR_RESET)
  (phy_mmd_reg_poll polls dev 0 MII_BMCR BMCR_RESET BMCR_RESET 0 (uninit "val") ;;;
   RC (lan8x8x_phy_cfg_clr dev)
   (RC (lan8x8x_config_leds dev PHY_FALSE)
   (RC (phy_mmd_reg_clear_bits dev MDIO_MMD_AN MDIO_AN_T1_CTRL (MDIO_AN_CTRL1_ENABLE .| MDIO_AN_CTRL1_RESTART))
   (RC (phy_mmd_reg_wr32 dev MDIO_MMD_PMAPMD T1_1G_TOP_CTRL_CONFIG 0)
   (RC (phy_mmd_reg_wr32 dev MDIO_MMD_PMAPMD T1_1G_TOP_CTRL_CONFIG T1_1G_TOP_CTRL_SOFT_RESET)
   (phy_mmd_reg_poll32 polls32 dev MDIO_MMD_PMAPMD T1_1G_TOP_CTRL_CONFIG T1_1G_TOP_CTRL_SOFT_RESET
      T1_1G_TOP_CTRL_SOFT_RESET 0 (uninit "v32") ;;;
    upd dev (set_pd_init_done PHY_FALSE) ;;;
    ret MEPA_RC_OK)))))).

(** ** The media side *)
Definition lan8x8x_onetime_post_config_done (dev : Z) : M Z :=
  data <- data_of dev ;;
  if negb (tb (pd_init_done data)) then
    RC (phy_mmd_reg_set_bits dev MDIO_MMD_VEND1 XGMII_GMII_BYPASS XGMII_BYPASS_SEL)
    (upd dev (set_pd_init_done PHY_TRUE) ;;; ret MEPA_RC_OK)
  else ret MEPA_RC_OK.
Definition lan8x8x_config_done (dev skip_config : Z) : M Z :=
  RC (phy_mmd_reg_wr32 dev MDIO_MMD_PMAPMD T1_1G_TOP_CTRL_CONFIG T1_1G_TOP_CTRL_CONFIG_SET)
  (if negb (tb skip_config) then lan8x8x_onetime_post_config_done dev else ret MEPA_RC_OK).
Definition lan8x8x_speed_config (dev speed : Z) : M Z :=
  if speed =? MEPA_SPEED_100M then
    phy_mmd_reg_wr32 dev MDIO_MMD_PMAPMD T1_1G_E100T1_PMD_ADPLL_CFG_0 0x600E2804 ;;;
    phy_mmd_reg_wr32 dev MDIO_MMD_PMAPMD T1_1G_E100T1_PMA_ADFE_CFG2 0x14F4040C ;;;
    phy_mmd_reg_wr32 dev MDIO_MMD_PMAPMD T1_1G_E100T1_PMA_ADFE_CFG3 0x43 ;;;
    ret PHY_TRUE
  else if speed =? MEPA_SPEED_1G then
    phy_mmd_reg_wr32 dev MDIO_MMD_PMAPMD T1_1G_E1000T1_PMD_LCPLL_CFG_0 0x5FE34C08 ;;;
    phy_mmd_reg_wr32 dev MDIO_MMD_PMAPMD T1_1G_E1000T1_PMA_ADFE_CFG3 0x1043 ;;;
    ret PHY_TRUE
  else ret PHY_FALSE.
Definition lan8x8x_phy_config (dev speed skip_config : Z) : M Z :=
  valid <- lan8x8x_speed_config dev speed ;;
  if tb valid then lan8x8x_config_done dev skip_config else ret MEPA_RC_OK.

Definition lan8x8x_pma_baset1_setup_forced (dev : Z) : M Z :=
  data <- data_of dev ;;
  let reg_val := 0 in
  let reg_val := if conf_man_neg (pd_conf data) =? MEPA_MANUAL_NEG_REF
                 then reg_val .| MDIO_PMA_PMD_BT1_CTRL_CFG_MST else reg_val in
  let reg_val := if negb (pd_media_intf data =? MESA_PHY_MEDIA_IF_T1_100FX)
                    && (conf_speed (pd_conf data) =? MESA_SPEED_1G)
                 then reg_val .| LAN8X8X_PMA_COMM_100T1_CTL_T1_TYPE_1000 else reg_val in
  RC (phy_mmd_reg_wr dev MDIO_MMD_PMAPMD MDIO_PMA_PMD_BT1_CTRL reg_val) (ret MEPA_RC_OK).
Definition lan8x8x_pma_baset1_setup_aneg (dev : Z) : M Z :=
  data <- data_of dev ;;
  let adv_r1 := 0 in
  let adv_r2_mask := MDIO_AN_T1_ADV_M_B1000 .| MDIO_AN_T1_ADV_M_B100 .| MDIO_AN_T1_ADV_M_MST in
  let adv_r2 := 0 in
  let adv_r2 := if negb (conf_man_neg (pd_conf data) =? MEPA_MANUAL_NEG_CLIENT)
                then adv_r2 .| MDIO_AN_T1_ADV_M_MST else adv_r2 in
  let adv_r2 := if negb (pd_media_intf data =? MESA_PHY_MEDIA_IF_T1_100FX)
                   && (adv_speed_1g_fdx (conf_aneg (pd_conf data)) =? PHY_TRUE)
                then adv_r2 .| (MDIO_AN_T1_ADV_M_B100 .| MDIO_AN_T1_ADV_M_B1000)
                else adv_r2 .| MDIO_AN_T1_ADV_M_B100 in
  RC (phy_mmd_reg_modify dev MDIO_MMD_AN MDIO_AN_T1_ADV_M adv_r2_mask adv_r2)
  (RC (phy_mmd_reg_wr dev MDIO_MMD_AN MDIO_AN_T1_ADV_L adv_r1)
  (RC (phy_mmd_reg_set_bits dev MDIO_MMD_AN MDIO_AN_T1_CTRL (MDIO_AN_CTRL1_ENABLE .| MDIO_AN_CTRL1_RESTART))
  (ret MEPA_RC_OK))).

Definition lan8x8x_phy_setup (dev : Z) : M Z :=
  RC (phy_get_device_info dev)
  (RC (lan8x8x_phy_reset dev)
  (RC (lan8x8x_phy_init dev)
  (data <- data_of dev ;;
   if conf_speed (pd_conf data) =? MESA_SPEED_AUTO then
     RC (lan8x8x_pma_baset1_setup_aneg dev)
     (RC (lan8x8x_config_done dev PHY_FALSE) (ret MEPA_RC_OK))
   else
     RC (lan8x8x_pma_baset1_setup_forced dev)
     (data <- data_of dev ;;
      RC (lan8x8x_phy_config dev (conf_speed (pd_conf data)) PHY_FALSE) (ret MEPA_RC_OK))))).

(** ** Configuration *)
Definition conf_refused (config : mepa_conf_t) : bool :=
  negb (conf_man_neg config =? MEPA_MANUAL_NEG_CLIENT) && negb (conf_man_neg config =? MEPA_MANUAL_NEG_REF)
  || negb (conf_fdx config =? PHY_TRUE)
  || negb (conf_speed config =? MESA_SPEED_100M) && negb (conf_speed config =? MESA_SPEED_1G)
     && negb (conf_speed config =? MESA_SPEED_AUTO).
(** The members that are stored without a look at what they were. *)
Definition conf_plain (config c : mepa_conf_t) : mepa_conf_t :=
  let aneg a := set_adv_speed_1g_fdx (adv_speed_1g_fdx (conf_aneg config))
                  (set_adv_speed_100m_fdx (adv_speed_100m_fdx (conf_aneg config)) a) in
  set_conf_mac_if_aneg_ena (conf_mac_if_aneg_ena config)
    (set_conf_aneg (aneg (conf_aneg c)) (set_conf_flow_control (conf_flow_control config) (set_conf_fdx PHY_TRUE c))).
(** "Setup Master/Slave Mode" and "handle admin enable/disable": whether the
    port is to be set up again. *)
Definition conf_change (dev old new : Z) (store : Z -> mepa_conf_t -> mepa_conf_t) (re_config : bool) : M bool :=
  if negb (old =? new) then upd_conf dev (store new) ;;; ret true else ret re_config.
Definition lan8x8x_config_set (dev : Z) (config : mepa_conf_t) : M Z :=
  if conf_refused config then ret MEPA_RC_ERR_PARM else
  let speed := conf_speed config in
  upd_conf dev (conf_plain config) ;;;
  data <- data_of dev ;;
  let rc := if negb (conf_speed (pd_conf data) =? speed)
            then lan8x8x_check_media data (pd_media_intf data) speed else MEPA_RC_OK in
  if negb (rc =? MEPA_RC_OK) then ret rc else
  re_config <- conf_change dev (conf_speed (pd_conf data)) speed set_conf_speed false ;;
  re_config <- conf_change dev (conf_man_neg (pd_conf data)) (conf_man_neg config) set_conf_man_neg re_config ;;
  re_config <- conf_change dev (conf_admin_enable (pd_conf data)) (conf_admin_enable config) set_conf_admin_enable
                 re_config ;;
  data <- data_of dev ;;
  if negb re_config then ret MEPA_RC_OK
  else if conf_admin_enable (pd_conf data) =? PHY_TRUE then
    RC (phy_mmd_reg_clear_bits dev MDIO_MMD_PMAPMD MDIO_CTRL1 BMCR_PDOWN)
    (RC (lan8x8x_phy_setup dev) (ret MEPA_RC_OK))
  else RC (phy_mmd_reg_set_bits dev MDIO_MMD_PMAPMD MDIO_CTRL1 BMCR_PDOWN) (ret MEPA_RC_OK).

(** ** Link status *)

(** The code and [*mode], [cur] being what it was. *)
Definition lan8x8x_aneg_resolve_master_slave (dev cur : Z) : M (Z * Z) :=
  reading (fun rc => ret (rc, cur)) (phy_mmd_reg_rd32 dev MDIO_MMD_AN T1_AUTONEG_STATUS (uninit "val")) (fun val =>
  ret (MEPA_RC_OK,
       if tb (val .& T1_AUTONEG_MS_CONFIG_FAULT) then MASTER_SLAVE_STATE_ERR
       else if tb (val .& T1_AUTONEG_CONFIG_AS_MASTER) then MASTER_SLAVE_STATE_MASTER else MASTER_SLAVE_STATE_SLAVE)).

Definition lan8x8x_aneg_read_status (dev : Z) (status : mepa_status_t) : M (Z * mepa_status_t) :=
  let status := set_st_speed MESA_SPEED_UNDEFINED (set_st_link PHY_FALSE
    (set_st_aneg (set_aneg_generate_pause PHY_FALSE (set_aneg_obey_pause PHY_FALSE (st_aneg status))) status)) in
  let fail rc := ret (rc, status) in
  data <- data_of dev ;;
  reading fail (phy_mmd_reg_rd dev MDIO_MMD_AN MDIO_AN_T1_STAT 0) (fun val =>
  if (val .& MDIO_AN_STAT1_COMPLETE) =? ZERO then ret (MEPA_RC_OK, status) else
  reading fail (phy_mmd_reg_rd dev MDIO_MMD_AN MDIO_AN_T1_LP_L 0) (fun lp_l =>
  reading fail (phy_mmd_reg_rd dev MDIO_MMD_AN MDIO_AN_T1_LP_M 0) (fun lp_m =>
  let aneg := conf_aneg (pd_conf data) in
  ret (MEPA_RC_OK, set_st_speed
    (if ((lp_m .& LPA_1000FULL) =? LPA_1000FULL) && (adv_speed_1g_fdx aneg =? PHY_TRUE) then MEPA_SPEED_1G
     else if ((lp_m .& LPA_100FULL) =? LPA_100FULL) && (adv_speed_100m_fdx aneg =? PHY_TRUE) then MEPA_SPEED_100M
     else MESA_SPEED_UNDEFINED) status)))).

(** Two reads of a register that latches the loss of the link. *)
Definition read_twice {A} (fail : Z -> M A) (rd : M (Z * Z)) (k : Z -> M A) : M A :=
  reading fail rd (fun _ => reading fail rd k).
(** The end of [lan8x8x_poll_int]. *)
Definition poll_done (dev : Z) (status : mepa_status_t) : M (Z * mepa_status_t) :=
  let status := set_st_fdx PHY_TRUE status in
  upd dev (set_pd_link_status (st_link status)) ;;;
  upd dev (fun d => set_pd_dev (set_dev_is_master (st_master status) (pd_dev d)) d) ;;;
  ret (MEPA_RC_OK, status).
Definition poll_forced (dev : Z) (status : mepa_status_t) : M (Z * mepa_status_t) :=
  let fail rc := ret (rc, status) in
  let finish val bit latch :=
    let status := set_st_link (cb (negb ((val .& bit) =? ZERO))) status in
    (if (latch : bool) then upd dev (set_pd_link_status (st_link status)) else ret tt) ;;;
    data <- data_of dev ;;
    poll_done dev (set_st_speed (conf_speed (pd_conf data)) (set_st_master
      (if conf_man_neg (pd_conf data) =? MEPA_MANUAL_NEG_REF then PHY_TRUE else PHY_FALSE) status)) in
  data <- data_of dev ;;
  if conf_speed (pd_conf data) =? MESA_SPEED_100M then
    read_twice fail (phy_reg_rd dev MII_BMSR) (fun val => finish val BMSR_LSTATUS false)
  else
    read_twice fail (phy_mmd_reg_rd dev MDIO_MMD_PCS MDIO_PCS_1000BT1_STAT (uninit "val")) (fun val =>
    finish val MDIO_STAT1_LSTATUS true).
Definition poll_aneg (dev : Z) (status : mepa_status_t) : M (Z * mepa_status_t) :=
  let old_speed := st_speed status in
  reading (fun rc => ret (rc, status)) (lan8x8x_aneg_resolve_master_slave dev (uninit "master_slave")) (fun master_slave =>
  let status := set_st_master (if master_slave =? MASTER_SLAVE_STATE_MASTER then PHY_TRUE else PHY_FALSE) status in
  let* (rc, status) <- lan8x8x_aneg_read_status dev status ;;
  if negb (rc =? MEPA_RC_OK) then ret (rc, status) else
  (if IS_LAN888X drv_id then
     if negb (st_speed status =? old_speed) && negb (old_speed =? MESA_SPEED_UNDEFINED)
     then lan8x8x_speed_config dev (st_speed status) ;;; ret tt else ret tt
   else ret tt) ;;;
  let fail rc := ret (rc, status) in
  let finish val bit := poll_done dev (set_st_link (cb (negb ((val .& bit) =? ZERO))) status) in
  if IS_LAN878X drv_id then read_twice fail (phy_reg_rd dev MII_BMSR) (fun val => finish val BMSR_LSTATUS)
  else read_twice fail (phy_mmd_reg_rd dev MDIO_MMD_AN MDIO_AN_T1_STAT (uninit "val")) (fun val =>
       finish val MDIO_STAT1_LSTATUS)).
Definition lan8x8x_poll_int (dev : Z) (status : mepa_status_t) : M (Z * mepa_status_t) :=
  upd dev (set_pd_link_status PHY_FALSE) ;;;
  data <- data_of dev ;;
  if negb (conf_speed (pd_conf data) =? MESA_SPEED_AUTO) then poll_forced dev status else poll_aneg dev status.
End Lan8x8x.
