(* ===== verification/Lan8x8xApi.v ===== *)
(** * Lan8x8xApi: the entry points of the LAN8x8x driver

    [mepa/microchip/lan8x8x/src/lan8x8x.c], the functions under "External driver
    callbacks", the probe and the driver table, in the default build: private
    data from [mepa_create_int].  They take the lock around the functions of
    [Lan8x8x].

    A pointer that may be NULL is an option; an output pointer is what it points
    to before the call, and the result has what it points to afterwards. *)

From Stdlib Require Import ZArith Lia List Bool String.
From stdpp Require Import base gmap strings list.
From S2P Require Import Prelude Machine Enums Lan8814Types MepaCore PhyDefines PhyLib Lan8x8xRegs Lan8x8x.

(** The registers of the dump, without their names. *)
Definition lan8x8x_regs : list (Z * Z) :=
  [ (0, 0); (0, 1); (MDIO_MMD_VEND1, CHIPTOP + 0x2); (MDIO_MMD_VEND1, CHIPTOP + 0x1F);
    (MDIO_MMD_VEND1, CHIPTOP + 0x28); (MDIO_MMD_VEND1, CHIPTOP + 0x2D); (MDIO_MMD_VEND1, CHIPTOP + 0x36);
    (MDIO_MMD_VEND1, CHIPTOP + 0x37); (MDIO_MMD_VEND1, OTP_STRAP_READ_REG);
    (MDIO_MMD_PMAPMD, T1_1G_TOP_CTRL_CONFIG); (MDIO_MMD_PCS, T1_1G_E1000T1_PCS_EN);
    (MDIO_MMD_VEND1, LAN8X8X_RGMII_RX_DLL_CFG); (MDIO_MMD_VEND1, LAN8X8X_RGMII_TX_DLL_CFG);
    (MDIO_MMD_VEND1, T1_OTP_RO + 0x10); (MDIO_MMD_VEND1, T1_OTP_RO + 0x11); (MDIO_MMD_VEND1, T1_OTP_RO + 0x13);
    (MDIO_MMD_VEND1, T1_OTP_RO + 0x14); (MDIO_MMD_VEND1, T1_OTP_RO + 0x15); (MDIO_MMD_VEND1, T1_OTP_RO + 0x16);
    (MDIO_MMD_VEND1, T1_OTP_RO + 0x17); (MDIO_MMD_VEND1, T1_OTP_RO + 0x18); (MDIO_MMD_AN, MDIO_AN_T1_ADV_L);
    (MDIO_MMD_AN, MDIO_AN_T1_ADV_M); (MDIO_MMD_AN, MDIO_AN_T1_LP_L); (MDIO_MMD_AN, MDIO_AN_T1_LP_M);
    (MDIO_MMD_AN, MDIO_AN_T1_CTRL); (MDIO_MMD_AN, MDIO_AN_T1_STAT); (MDIO_MMD_AN, 0x8002);
    (MDIO_MMD_VEND1, SERDES_CLOCK_CONTROL); (MDIO_MMD_VEND1, QSGMII_PCS1G_CONFIG);
    (MDIO_MMD_VEND1, QSGMII_PCS1G_ANEG_CONFIG); (MDIO_MMD_VEND1, QSGMII_ANEG_EN_REG); (MDIO_MMD_VEND1, 0xF0AF);
    (MDIO_MMD_VEND1, 0xF0B0); (MDIO_MMD_VEND1, 0xF0B1); (MDIO_MMD_VEND1, 0xF0B2); (MDIO_MMD_VEND1, 0xF0B3);
    (MDIO_MMD_VEND1, 0xF0B4); (MDIO_MMD_VEND1, 0xF0B5); (MDIO_MMD_VEND1, 0xF0B6); (MDIO_MMD_PMAPMD, 0x8400);
    (MDIO_MMD_PMAPMD, 0x8402); (MDIO_MMD_PMAPMD, 0x8404); (MDIO_MMD_PMAPMD, 0x8406); (MDIO_MMD_PCS, 0x8A00);
    (MDIO_MMD_PCS, 0x8A08); (MDIO_MMD_PCS, 0x8A0A); (0x3, 0xF132); (0x3, 0xF134); (0x3, 0xF136); (0x3, 0xF138);
    (0x3, 0xF13A); (0x3, 0xF13C); (0x3, 0xF13E); (0x3, 0xF140); (0x3, 0xF142); (0x3, 0xF144); (0x3, 0xF146);
    (0x3, 0xF148); (0x3, 0xF14A); (0x3, 0xF14C); (0x3, 0xF14E); (0x3, 0xF150); (0x3, 0xF152); (0x3, 0xF154);
    (0x3, 0xF156); (0x3, 0xF158); (0x3, 0xF15A); (0x3, 0xF15C); (0x3, 0xF15E); (0x3, 0xF160); (0x3, 0xF162);
    (0x3, 0xF164); (0x3, 0xF166); (0x3, 0xF168); (0x3, 0xF16A); (0x3, 0xF16C); (0x3, 0xF16E); (0x3, 0xF170);
    (0x3, 0xF172); (0x3, 0xF174); (0x3, 0xF176); (0x3, 0xF178); (0x3, 0xF17A); (0x3, 0xF17C); (0x3, 0xF17E);
    (0x3, 0xF180); (0x3, 0xF182); (0x3, 0xF184); (0x3, 0xF186); (0x3, 0xF188); (0x3, 0xF18A); (0x3, 0xF18C);
    (0x3, 0xF18E); (0x3, 0xF190); (0x3, 0xF192); (0x3, 0xF194); (0x3, 0xF196); (0x3, 0xF198); (0x3, 0xF19A);
    (0x3, 0xF19C); (0x3, 0xF19E); (0x3, 0xF1A0); (0x3, 0xF1A2); (0x3, 0xF1A4); (0x3, 0xF1A6); (0x3, 0xF1A8);
    (0x3, 0xF1AA); (0x3, 0xF1AC); (0x3, 0xF1AE); (0x3, 0xF1B0); (0x3, 0xF1B2); (0x3, 0xF1B4); (0x3, 0xF1B6);
    (0x3, 0xF1B8); (0x3, 0xF1BA); (0x3, 0xF1BC); (0x3, 0xF1BE); (0x3, 0xF1C0); (0x3, 0xF1C2); (0x3, 0xF1C4);
    (0x3, 0xF1C6); (0x3, 0xF1C8); (0x3, 0xF332); (0x3, 0xF334); (0x3, 0xF336); (0x3, 0xF338); (0x3, 0xF33A);
    (0x3, 0xF33C); (0x3, 0xF33E); (0x3, 0xF340); (0x3, 0xF342); (0x3, 0xF344); (0x3, 0xF346); (0x3, 0xF348);
    (0x3, 0xF34A); (0x3, 0xF34C); (0x3, 0xF34E); (0x3, 0xF350); (0x3, 0xF352); (0x3, 0xF354); (0x3, 0xF356);
    (0x3, 0xF358); (0x3, 0xF35A); (0x3, 0xF35C); (0x3, 0xF35E); (0x3, 0xF360); (0x3, 0xF362); (0x3, 0xF364);
    (0x3, 0xF366); (0x3, 0xF368); (0x3, 0xF36A); (0x3, 0xF36C); (0x3, 0xF36E); (0x3, 0xF370); (0x3, 0xF372);
    (0x3, 0xF374); (0x3, 0xF376); (0x3, 0xF378); (0x3, 0xF37A); (0x3, 0xF37C); (0x3, 0xF37E); (0x3, 0xF380);
    (0x3, 0xF382); (0x3, 0xF384); (0x3, 0xF386); (0x3, 0xF388); (0x3, 0xF38A); (0x3, 0xF38C); (0x3, 0xF38E);
    (0x3, 0xF390); (0x3, 0xF392); (0x3, 0xF394); (0x3, 0xF396); (0x3, 0xF398); (0x3, 0xF39A); (0x3, 0xF39C);
    (0x3, 0xF39E); (0x3, 0xF3A0); (0x3, 0xF3A2); (0x3, 0xF3A4); (0x3, 0xF3A6); (0x3, 0xF3A8); (0x3, 0xF3AA);
    (0x3, 0xF3AC); (0x3, 0xF3AE); (0x3, 0xF3B0); (0x3, 0xF3B2); (0x3, 0xF3B4); (0x3, 0xF3B6); (0x3, 0xF3B8);
    (0x3, 0xF3BA); (0x3, 0xF3BC); (0x3, 0xF3BE); (0x3, 0xF3C0); (0x3, 0xF3C2); (0x3, 0xF3C4); (0x3, 0xF3C6);
    (0x3, 0xF3C8); (MDIO_MMD_VEND1, 0xF10A); (MDIO_MMD_VEND1, 0xF10B); (MDIO_MMD_PMAPMD, 0x8400);
    (MDIO_MMD_PMAPMD, 0x8402); (MDIO_MMD_PMAPMD, 0x8404); (MDIO_MMD_PMAPMD, 0x8406) ].

Section Lan8x8xApi.
Context {B : Type} {CO : Callout B}.
Variables (drv_id : Z) (polls polls32 : nat).
Local Abbreviation M := (M B phy_data_t).
Local Abbreviation reading := (reading (B := B)).

Definition locked {A} (m : M A) : M A := mepa_enter ;;; r <- m ;; mepa_exit ;;; ret r.
(** [rc = MEPA_RC_ERROR; if (p != NULL) ...] *)
Definition on_ptr {A X} (p : option X) (fail : Z -> A) (k : X -> M A) : M A :=
  match p with Some x => k x | None => ret (fail MEPA_RC_ERROR) end.
(** The same for a function with an output pointer: it stores the second
    component of the result. *)
Definition on_out {X} (dev : option Z) (out : option X) (k : Z -> X -> M (Z * X)) : M (Z * option X) :=
  match dev, out with
  | Some dev, Some cur => let* (rc, v) <- k dev cur ;; ret (rc, Some v)
  | _, _ => ret (MEPA_RC_ERROR, out)
  end.
Definition id_ (rc : Z) : Z := rc.

(** ** Configuration and reset *)
Definition lan8x8x_conf_get (dev : option Z) (config : option mepa_conf_t) : M (Z * option mepa_conf_t) :=
  on_out dev config (fun dev _ => locked (data <- data_of dev ;; ret (MEPA_RC_OK, pd_conf data))).
Definition lan8x8x_conf_set (dev : option Z) (config : option mepa_conf_t) : M Z :=
  on_ptr dev id_ (fun dev => on_ptr config id_ (fun config =>
  locked (lan8x8x_config_set drv_id polls polls32 dev config))).

(** What a request for a media type makes of the configuration. *)
Definition reset_media (media_if : Z) (d : phy_data_t) : phy_data_t :=
  let d := set_pd_media_intf media_if d in
  if (media_if =? MESA_PHY_MEDIA_IF_T1_100FX) && negb (conf_speed (pd_conf d) =? MESA_SPEED_AUTO)
  then set_pd_conf (set_conf_speed MESA_SPEED_100M (pd_conf d)) d else d.
Definition lan8x8x_reset (dev : option Z) (rst_conf : option mepa_reset_param_t) : M Z :=
  on_ptr dev id_ (fun dev => locked (
    let reset := lan8x8x_phy_setup drv_id polls polls32 dev in
    match rst_conf with
    | None => reset
    | Some rst_conf =>
        if negb (rst_reset_point rst_conf =? MEPA_RESET_POINT_DEFAULT)
           && negb (rst_reset_point rst_conf =? MEPA_RESET_POINT_PRE) then ret MEPA_RC_OK else
        data <- data_of dev ;;
        let rc := lan8x8x_check_media drv_id data (rst_media_intf rst_conf) (conf_speed (pd_conf data)) in
        if rc =? MEPA_RC_OK then upd dev (reset_media (rst_media_intf rst_conf)) ;;; reset else ret rc
    end)).

(** ** Registers *)
Definition lan8x8x_reg_read (dev : option Z) (addr : Z) (value : option Z) : M (Z * option Z) :=
  on_out dev value (fun dev _ => locked (phy_reg_rd dev (LAN8X8X_PHY_REG_ADDR addr))).
Definition lan8x8x_reg_write (dev : option Z) (addr value : Z) : M Z :=
  on_ptr dev id_ (fun dev => locked (phy_reg_wr dev (LAN8X8X_PHY_REG_ADDR addr) value)).
Definition lan8x8x_mmd_reg_read (dev : option Z) (addr : Z) (value : option Z) : M (Z * option Z) :=
  on_out dev value (fun dev cur => locked (phy_mmd_reg_rd dev (PHY_MMD_DEVAD addr) (PHY_REG_ADDR addr) cur)).
Definition lan8x8x_mmd_reg_write (dev : option Z) (addr value : Z) : M Z :=
  on_ptr dev id_ (fun dev => locked (phy_mmd_reg_wr dev (PHY_MMD_DEVAD addr) (PHY_REG_ADDR addr) value)).

(** ** MAC and media interface *)
Definition lan8x8x_if_set (dev : option Z) (mac_if : Z) : M Z :=
  on_ptr dev id_ (fun dev =>
  if (mac_if >=? MESA_PORT_INTERFACE_RGMII) && (mac_if <=? MESA_PORT_INTERFACE_RGMII_TXID)
     || (mac_if =? MESA_PORT_INTERFACE_SGMII) then
    data <- data_of dev ;;
    if negb (pd_mac_if data =? mac_if) then
      locked (upd dev (set_pd_mac_if mac_if) ;;; lan8x8x_phy_setup drv_id polls polls32 dev)
    else ret MEPA_RC_OK
  else ret MEPA_RC_ERR_KR_CONF_NOT_SUPPORTED).
Definition lan8x8x_if_get (dev : option Z) (speed : Z) (mac_if : option Z) : M (Z * option Z) :=
  on_out dev mac_if (fun dev _ => locked (data <- data_of dev ;; ret (MEPA_RC_OK, pd_mac_if data))).
Definition lan8x8x_media_set (dev : option Z) (media_if : Z) : M Z :=
  on_ptr dev id_ (fun dev =>
  if (media_if =? MESA_PHY_MEDIA_IF_T1_100FX) || (media_if =? MESA_PHY_MEDIA_IF_T1_1000FX) then
    locked (
      data <- data_of dev ;;
      if negb (pd_media_intf data =? media_if) then
        let rc := lan8x8x_check_media drv_id data media_if (conf_speed (pd_conf data)) in
        if rc =? MEPA_RC_OK then
          upd dev (set_pd_media_intf media_if) ;;;
          data <- data_of dev ;;
          if negb (conf_speed (pd_conf data) =? MESA_SPEED_100M) || (conf_speed (pd_conf data) =? MESA_SPEED_AUTO)
          then lan8x8x_phy_setup drv_id polls polls32 dev else ret rc
        else ret rc
      else ret MEPA_RC_OK)
  else ret MEPA_RC_ERR_KR_CONF_NOT_SUPPORTED).
Definition lan8x8x_media_get (dev : option Z) (media_if : option Z) : M (Z * option Z) :=
  on_out dev media_if (fun dev _ => locked (data <- data_of dev ;; ret (MEPA_RC_OK, pd_media_intf data))).

(** ** Pins, loopbacks, isolation *)
Definition lan8x8x_gpio_mode_set (dev : option Z) (gpio_conf : option mepa_gpio_conf_t) : M Z :=
  on_ptr dev id_ (fun dev => on_ptr gpio_conf id_ (fun gpio_conf =>
  locked (lan8x8x_gpio_mode_set_private dev gpio_conf))).
Definition lan8x8x_gpio_out_set (dev : option Z) (gpio_no value : Z) : M Z :=
  on_ptr dev id_ (fun dev => locked (
    if gpio_no <? 3 then
      let val := 1 .<< gpio_no in
      phy_mmd_reg_modify dev MDIO_MMD_VEND1 LAN8X8X_GPIO_DATA (if tb value then val else 0) val
    else ret MEPA_RC_ERROR)).
(** [value] is not tested for NULL. *)
Definition lan8x8x_gpio_in_get (dev : option Z) (gpio_no : Z) (value : option Z) : M (Z * option Z) :=
  match dev with
  | None => ret (MEPA_RC_ERROR, value)
  | Some dev => locked (
      if gpio_no <? 3 then
        let* (rc, val) <- phy_mmd_reg_rd dev MDIO_MMD_VEND1 LAN8X8X_GPIO_DATA 0 ;;
        match value with
        | None => undefined
        | Some _ => ret (rc, Some (if negb (((val .>> gpio_no) .& ONE) =? ZERO) then PHY_TRUE else PHY_FALSE))
        end
      else ret (MEPA_RC_ERROR, value))
  end.
Definition lan8x8x_loopback_set (dev : option Z) (loopback : option mepa_loopback_t) : M Z :=
  on_ptr dev id_ (fun dev => locked (lan8x8x_setup_lpbk dev loopback)).
Definition lan8x8x_loopback_get (dev : option Z) (loopback : option mepa_loopback_t) : M (Z * option mepa_loopback_t) :=
  on_out dev loopback (fun dev _ => locked (data <- data_of dev ;; ret (MEPA_RC_OK, pd_loopback data))).
Definition lan8x8x_isolate_mode_set (dev : option Z) (val : Z) : M Z :=
  on_ptr dev id_ (fun dev => locked (
    if tb val then phy_reg_set_bits dev MII_BMCR BMCR_ISOLATE else phy_reg_clear_bits dev MII_BMCR BMCR_ISOLATE)).

(** ** Events *)
Definition lan8x8x_event_enable_set (dev : option Z) (event enable : Z) : M Z :=
  on_ptr dev id_ (fun dev => locked (lan8x8x_int_events_set dev event enable)).
Definition lan8x8x_event_enable_get (dev : option Z) (event : option Z) : M (Z * option Z) :=
  on_out dev event (fun dev _ => locked (data <- data_of dev ;; ret (MEPA_RC_OK, pd_events data))).

(** The events that a bit of the status registers stands for; others are ignored. *)
Definition en1_event (bit : Z) : Z :=
  if bit =? LAN8X8X_INT_EN1_PTP_PRT then MESA_PHY_LINK_TX_FIFO_OVERFLOW_INT_EV
  else if bit =? LAN8X8X_INT_EN1_MS_HMAC_EN then MESA_PHY_LINK_EXT_MACSEC_HOST_MAC_EV
  else if bit =? LAN8X8X_INT_EN1_MS_LMAC_EN then MESA_PHY_LINK_EXT_MACSEC_LINE_MAC_EV
  else if bit =? LAN8X8X_INT_EN1_MS_FCB_EN then MESA_PHY_LINK_EXT_MACSEC_FC_BUFF_EV
  else if bit =? LAN8X8X_INT_EN1_MS_IG_EN then MESA_PHY_LINK_EXT_MACSEC_INGRESS_EV
  else if bit =? LAN8X8X_INT_EN1_MS_EG_EN then MESA_PHY_LINK_EXT_MACSEC_EGRESS_EV else 0.
Definition irq_event (bit : Z) : Z :=
  if (bit =? LAN8X8X_INT_LINK_CHANGE_1G) || (bit =? LAN8X8X_INT_LINK_CHANGE) then MESA_PHY_LINK_SPEED_STATE_CHANGE_EV
  else if bit =? LAN8X8X_INT_MS_TRAINING_COMP then MESA_PHY_LINK_AUTO_NEG_COMPLETE_EV else 0.
(** The loops from bit [i] on, [n] bits at most; they end when no bit is left. *)
Fixpoint status_loop (event : Z -> Z) (n : nat) (i sts status : Z) : Z :=
  match n with
  | O => status
  | S n =>
      let mask := BIT i in
      let status := status .| event (sts .& mask) in
      let sts := sts .& .~ mask in
      if sts =? ZERO then status else status_loop event n (i + 1) sts status
  end.
Definition lan8x8x_event_status_poll_int (dev : Z) : M (Z * Z) :=
  let fail rc := ret (rc, 0) in
  reading fail (phy_mmd_reg_rd dev MDIO_MMD_VEND1 LAN8X8X_INT_EN0_SC 0) (fun en0_mask =>
  reading fail (phy_mmd_reg_rd dev MDIO_MMD_VEND1 LAN8X8X_INT_STS0_SC 0) (fun en0_sts =>
  let en0_sts := en0_sts .& en0_mask in
  reading fail (phy_mmd_reg_rd dev MDIO_MMD_VEND1 LAN8X8X_INT_EN1_SC 0) (fun en1_mask =>
  reading fail (phy_mmd_reg_rd dev MDIO_MMD_VEND1 LAN8X8X_INT_STS1_SC 0) (fun en1_sts =>
  let en1_sts := en1_sts .& en1_mask in
  if (en0_sts =? ZERO) && (en1_sts =? ZERO) then ret (MEPA_RC_OK, 0) else
  data <- data_of dev ;;
  let status := if negb (en1_sts =? ZERO) then status_loop en1_event 9 0 en1_sts 0 .& pd_events data else 0 in
  let finish int_sts :=
    let status := if negb (int_sts =? ZERO) then status_loop irq_event 8 1 int_sts status else status in
    ret (MEPA_RC_OK, status .& pd_events data) in
  if (en0_sts .& LAN8X8X_INT_EN0_T1_DATA_FAULT) =? LAN8X8X_INT_EN0_T1_DATA_FAULT then
    let fail rc := ret (rc, status) in
    reading fail (phy_mmd_reg_rd32 dev MDIO_MMD_PMAPMD LAN8X8X_INT_IRQ_FUNC_MSK 0) (fun int_mask =>
    reading fail (phy_mmd_reg_rd32 dev MDIO_MMD_PMAPMD LAN8X8X_INT_IRQ_FUNC_STS 0) (fun int_sts =>
    phy_mmd_reg_wr32 dev MDIO_MMD_PMAPMD LAN8X8X_INT_IRQ_FUNC_CLR int_sts ;;;
    finish (int_sts .& int_mask)))
  else finish 0)))).
Definition lan8x8x_event_status_poll (dev : option Z) (status : option Z) : M (Z * option Z) :=
  on_out dev status (fun dev _ => locked (lan8x8x_event_status_poll_int dev)).

(** ** Status and information *)
Definition lan8x8x_sqi_read (dev : option Z) (value : option Z) : M (Z * option Z) :=
  on_out dev value (fun dev _ => locked (
    data <- data_of dev ;;
    let sqi_reg := if conf_speed (pd_conf data) =? MESA_SPEED_100M then LAN8X8X_SQI_100_REG else LAN8X8X_SQI_1000_REG in
    let* (rc, sqi_val) <- phy_mmd_reg_rd32 dev MDIO_MMD_PMAPMD sqi_reg 0 ;;
    ret (rc, if rc =? MEPA_RC_OK then LAN8X8X_SQI_GET sqi_val else 0))).
Definition lan8x8x_poll (dev : option Z) (status : option mepa_status_t) : M (Z * option mepa_status_t) :=
  on_out dev status (fun dev status => locked (lan8x8x_poll_int drv_id dev status)).
(** [*status] is [(master_cfg_fault, master)]. *)
Definition lan8x8x_aneg_status_get (dev : option Z) (status : option (Z * Z)) : M (Z * option (Z * Z)) :=
  on_out dev status (fun dev status =>
    data <- data_of dev ;;
    if conf_speed (pd_conf data) =? MESA_SPEED_AUTO then
      locked (
        let* (rc, state) <- lan8x8x_aneg_resolve_master_slave dev (uninit "master_slave_state") ;;
        ret (rc, if rc =? MEPA_RC_OK then
                   (if state =? MASTER_SLAVE_STATE_ERR then PHY_TRUE else PHY_FALSE,
                    if state =? MASTER_SLAVE_STATE_MASTER then PHY_TRUE else PHY_FALSE) else status))
    else ret (MEPA_RC_INV_STATE, status)).

Definition lan8x8x_capability_priv (data : phy_data_t) (capability : Z) : Z :=
  if capability =? MEPA_CAP_SPEED_1G then cb (conf_speed (pd_conf data) =? MESA_SPEED_1G)
  else if capability =? MEPA_CAP_TS_NONE then cb (negb (conf_speed (pd_conf data) =? MESA_SPEED_1G))
  else 0.
(** [dev] is not tested for NULL. *)
Definition lan8x8x_capability (dev : option Z) (capability : Z) : M Z :=
  dev <- deref dev ;; locked (data <- data_of dev ;; ret (lan8x8x_capability_priv data capability)).
(** Part number, revision, capabilities and the two names; [None] when they are left alone. *)
Definition lan8x8x_info_get (dev : option Z) (phy_info : bool) : M (Z * option (Z * Z * Z * string * string)) :=
  match dev, phy_info with
  | Some dev, true => locked (
      data <- data_of dev ;;
      let cap := 0 in
      let cap := if tb (lan8x8x_capability_priv data MEPA_CAP_SPEED_1G) then cap .| MEPA_CAP_SPEED_MASK_1G else cap in
      let cap := if tb (lan8x8x_capability_priv data MEPA_CAP_TS_NONE) then cap .| MEPA_CAP_TS_MASK_NONE else cap in
      ret (MEPA_RC_OK, Some (dev_model (pd_dev data), dev_rev (pd_dev data), cap, "Microchip"%string, "LAN8X8X"%string)))
  | _, _ => ret (MEPA_RC_ERROR, None)
  end.
(** [pr] is whether there is a print callback, [group] [info->group]. *)
Definition lan8x8x_debug_info (dev : option Z) (pr : bool) (group : option Z) : M Z :=
  match dev, pr, group with
  | Some dev, true, Some group =>
      if (group =? MEPA_DEBUG_GROUP_ALL) || (group =? MEPA_DEBUG_GROUP_PHY)
      then locked (phy_reg_dump dev drv_id lan8x8x_regs ;;; ret MEPA_RC_OK) else ret MEPA_RC_OK
  | _, _, _ => ret MEPA_RC_ERROR
  end.

(** ** Creation and deletion *)

(** The private data as [mepa_create_int] leaves them, cleared. *)
Definition phy_data_0 : phy_data_t :=
  Mk_phy_data_t (Mk_mchp_t1_otp_cap_t 0 0 0 0) 0 0 0 0 0 mepa_conf_t_0 0 mepa_loopback_t_0 (Mk_phy_dev_info_t 0 0 0 0 0) 0
    mepa_cable_diag_result_t_0 (repeat mepa_gpio_conf_t_0 4).
(** What the probe stores before and after it reads the capabilities. *)
Definition probe_first (numeric_handle : Z) (d : phy_data_t) : phy_data_t :=
  let d := set_pd_port_no numeric_handle (set_pd_ctx_status PHY_TRUE d) in
  let d := set_pd_events 0 (set_pd_init_done PHY_FALSE d) in
  set_pd_conf (set_conf_mac_if_aneg_ena PHY_FALSE (set_conf_fdx PHY_TRUE (set_conf_admin_enable PHY_TRUE (pd_conf d)))) d.
Definition probe_media (d : phy_data_t) : phy_data_t :=
  let aneg f d := set_pd_conf (set_conf_aneg (f (conf_aneg (pd_conf d))) (pd_conf d)) d in
  let d := aneg (set_adv_speed_100m_fdx PHY_FALSE) (aneg (set_adv_speed_1g_fdx PHY_FALSE) d) in
  let d := if IS_LAN878X drv_id || negb (tb (cap_dis_100 (pd_t1_cap d))) then
             set_pd_media_intf MESA_PHY_MEDIA_IF_T1_100FX (aneg (set_adv_speed_100m_fdx PHY_TRUE) d) else d in
  if IS_LAN888X drv_id && negb (tb (cap_dis_1000 (pd_t1_cap d))) then
    aneg (set_adv_speed_1g_fdx PHY_TRUE) (set_pd_media_intf MESA_PHY_MEDIA_IF_T1_1000FX d) else d.
Definition probe_rest (d : phy_data_t) : phy_data_t :=
  let led := set_gpio_mode MEPA_GPIO_MODE_LED_LINK_ACTIVITY ∘ set_gpio_led_num MEPA_LED2 in
  let d := set_pd_led_conf (alter led (Z.to_nat MEPA_LED2) (pd_led_conf d)) d in
  set_pd_cd_res (set_cd_status (<[0%nat := MESA_VERIPHY_STATUS_UNKNOWN]> (cd_status (pd_cd_res d)))
    (set_cd_length (<[0%nat := 0]> (cd_length (pd_cd_res d))) (set_cd_link PHY_LINKDOWN (pd_cd_res d)))) d.
Definition lan8x8x_fill_probe_data (dev numeric_handle : Z) : M unit :=
  upd dev (probe_first numeric_handle) ;;;
  lan8x8x_read_capabilities drv_id dev ;;;
  upd dev (fun d => probe_rest (probe_media d)) ;;;
  lan8x8x_phy_setup drv_id polls polls32 dev ;;;
  ret tt.
(** [mem] is the device that [mepa_create_int] allocates ([None]: NULL); [drv]
    is whether there is a driver. *)
Definition lan8x8x_probe (drv : bool) (mem : option Z) (numeric_handle : Z) : M (option Z) :=
  match drv, mem with
  | true, Some dev =>
      (fun w => Some (tt, World (w_bus w) (<[dev := phy_data_0]> (w_data w)) (w_log w))) ;;;
      upd dev (set_pd_port_no numeric_handle) ;;;
      lan8x8x_fill_probe_data dev numeric_handle ;;;
      ret (Some dev)
  | _, _ => ret None
  end.
(** [mepa_delete_int] gives the device back to the [mem_free] callout, if there
    is one; there is no entry for a device that does not exist. *)
Definition lan8x8x_delete (mem_free : bool) (dev : option Z) : M Z :=
  on_ptr dev id_ (fun dev w =>
    match w_data w !! dev with
    | None => None
    | Some _ => Some (MEPA_RC_OK, if mem_free then World (w_bus w) (delete dev (w_data w)) (w_log w) else w)
    end).
End Lan8x8xApi.

(** ** The driver table *)
#[local] Open Scope string_scope.
Definition fill_driver_info (id mask : Z) : mepa_driver_t :=
  Mk_mepa_driver_t id mask
  [ ("mepa_driver_delete", "lan8x8x_delete");
    ("mepa_driver_reset", "lan8x8x_reset");
    ("mepa_driver_poll", "lan8x8x_poll");
    ("mepa_driver_probe", "lan8x8x_probe");
    ("mepa_driver_aneg_status_get", "lan8x8x_aneg_status_get");
    ("mepa_driver_conf_set", "lan8x8x_conf_set");
    ("mepa_driver_conf_get", "lan8x8x_conf_get");
    ("mepa_driver_if_set", "lan8x8x_if_set");
    ("mepa_driver_if_get", "lan8x8x_if_get");
    ("mepa_driver_media_set", "lan8x8x_media_set");
    ("mepa_driver_media_get", "lan8x8x_media_get");
    ("mepa_driver_gpio_mode_set", "lan8x8x_gpio_mode_set");
    ("mepa_driver_gpio_out_set", "lan8x8x_gpio_out_set");
    ("mepa_driver_gpio_in_get", "lan8x8x_gpio_in_get");
    ("mepa_driver_sqi_read", "lan8x8x_sqi_read");
    ("mepa_driver_loopback_set", "lan8x8x_loopback_set");
    ("mepa_driver_loopback_get", "lan8x8x_loopback_get");
    ("mepa_capability", "lan8x8x_capability");
    ("mepa_driver_phy_info_get", "lan8x8x_info_get");
    ("mepa_debug_info_dump", "lan8x8x_debug_info");
    ("mepa_driver_clause22_read", "lan8x8x_reg_read");
    ("mepa_driver_clause22_write", "lan8x8x_reg_write");
    ("mepa_driver_clause45_read", "lan8x8x_mmd_reg_read");
    ("mepa_driver_clause45_write", "lan8x8x_mmd_reg_write");
    ("mepa_driver_isolate_mode_conf", "lan8x8x_isolate_mode_set");
    ("mepa_driver_event_enable_set", "lan8x8x_event_enable_set");
    ("mepa_driver_event_enable_get", "lan8x8x_event_enable_get");
    ("mepa_driver_event_poll", "lan8x8x_event_status_poll") ].
Definition mepa_lan8x8x_driver_init : list mepa_driver_t :=
  map (fun id => fill_driver_info id PHY_ID_MASK) [PHY_ID_LAN888X; PHY_ID_LAN878X].
