(* ===== verification/Lan8x8xSafe.v ===== *)
(** * Lan8x8xSafe: histories of calls of the LAN8x8x driver are safe

    The entry points of [Lan8x8xApi] but the probe, on any bus, with NULL
    pointers among their arguments: no undefined behaviour, the discipline of
    the lock and of the addresses of [Machine], and the invariant [ready] of the
    private data; then histories of calls, debug dumps and deletions. *)

From Stdlib Require Import ZArith Lia List Bool String.
From stdpp Require Import base gmap strings list.
From S2P Require Import Prelude Machine Enums Lan8814Types Mdio SimPhy PhyDefines PhyLib PhyLibSpec.
From S2P Require Import Lan8x8xRegs Lan8x8x Lan8x8xApi.

Inductive t8x8_call :=
  | CReset (conf : option mepa_reset_param_t) | CPoll (status : option mepa_status_t)
  | CConfSet (config : option mepa_conf_t) | CConfGet (config : option mepa_conf_t)
  | CIfSet (mac_if : Z) | CIfGet (speed : Z) (mac_if : option Z)
  | CMediaSet (media_if : Z) | CMediaGet (media_if : option Z)
  | CGpioMode (conf : option mepa_gpio_conf_t) | CGpioOut (gpio_no value : Z) | CGpioIn (gpio_no : Z) (value : option Z)
  | CSqi (value : option Z) | CAnegStatus (status : option (Z * Z))
  | CLoopSet (loopback : option mepa_loopback_t) | CLoopGet (loopback : option mepa_loopback_t)
  | CEventSet (event enable : Z) | CEventGet (event : option Z) | CEventPoll (status : option Z)
  | CIsolate (val : Z) | CCapability (capability : Z) | CInfo (phy_info : bool)
  | CRead22 (addr : Z) (value : option Z) | CWrite22 (addr value : Z)
  | CRead45 (addr : Z) (value : option Z) | CWrite45 (addr value : Z).

(** ** Ports that can be set up *)

(** The interfaces that the driver can set up. *)
Definition mac_ok (d : phy_data_t) : bool :=
  existsb (Z.eqb (pd_mac_if d)) [MESA_PORT_INTERFACE_SGMII; MESA_PORT_INTERFACE_RGMII; MESA_PORT_INTERFACE_RGMII_ID;
    MESA_PORT_INTERFACE_RGMII_RXID; MESA_PORT_INTERFACE_RGMII_TXID].

(** The LEDs that [gpio_mode_set] stores. *)
Definition led_ok (i : Z) (c : mepa_gpio_conf_t) : bool :=
  negb (is_led_mode (gpio_mode c)) || (gpio_led_num c =? i) && match led_value (gpio_mode c) with Some _ => true | None => false end.
Definition leds_ok (d : phy_data_t) : bool :=
  match pd_led_conf d with [c0; c1; c2; c3] => led_ok 0 c0 && led_ok 1 c1 && led_ok 2 c2 && led_ok 3 c3 | _ => false end.
(** A port whose data let the set-up of the port succeed. *)
Definition u32_ok (x : Z) : bool := (0 <=? x) && (x <? 2 ^ 32).
Definition ready (d : phy_data_t) : bool := leds_ok d && mac_ok d && u32_ok (pd_events d).

Lemma ready_leds d : ready d = true -> length (pd_led_conf d) = 4%nat.
Proof. unfold ready, leds_ok. by destruct (pd_led_conf d) as [|? [|? [|? [|? [|]]]]]. Qed.
Lemma ready_events d : ready d = true -> u32_ok (pd_events d) = true.
Proof. unfold ready. by intros [_ ?]%andb_true_iff. Qed.
Lemma ready_set_led d c : ready d = true -> 0 <= gpio_led_num c < 4 -> led_value (gpio_mode c) <> None ->
  ready (set_pd_led_conf (<[Z.to_nat (gpio_led_num c) := c]> (pd_led_conf d)) d) = true.
Proof.
  intros Hd Hn Hv. assert (led_ok (gpio_led_num c) c = true) as Hc.
  { unfold led_ok. rewrite Z.eqb_refl. destruct (led_value _); [|done]. by rewrite orb_true_r. }
  unfold ready in *. apply andb_true_iff in Hd as [Hd He]. apply andb_true_iff in Hd as [Hl Hm].
  apply andb_true_iff; split; [|exact He].
  apply andb_true_iff. split; [|exact Hm]. unfold leds_ok in *. cbn [pd_led_conf set_pd_led_conf].
  destruct (pd_led_conf d) as [|c0 [|c1 [|c2 [|c3 [|]]]]]; try done. remember (gpio_led_num c) as n eqn:En.
  repeat (apply andb_true_iff in Hl as [Hl ?]).
  assert (n = 0 \/ n = 1 \/ n = 2 \/ n = 3) as [->|[->|[->| ->]]] by lia; cbn [insert list_insert Z.to_nat Pos.to_nat Pos.iter_op Nat.add];
    rewrite ?Hc, ?Hl; repeat (apply andb_true_iff; split); done.
Qed.
Lemma u32_lor a b : u32_ok a = true -> u32_ok b = true -> u32_ok (a .| b) = true.
Proof.
  unfold u32_ok. intros Ha Hb. assert (0 <= a .| b) by (apply Z.lor_nonneg; lia).
  destruct (Z.eq_dec (a .| b) 0) as [->|Hne]; [done|]. assert (a .| b < 2 ^ 32); [|lia].
  apply Z.log2_lt_pow2; [lia|]. rewrite Z.log2_lor by lia.
  assert (forall x, 0 <= x < 2 ^ 32 -> Z.log2 x < 32) as Hx; [|apply Z.max_lub_lt; apply Hx; lia].
  intros x Hx. destruct (Z.eq_dec x 0) as [->|]; [done|]. apply Z.log2_lt_pow2; lia.
Qed.
Lemma u32_clear a b : u32_ok a = true -> u32_ok (a .& .~ b) = true.
Proof.
  unfold u32_ok. intros Ha. assert ((a .& .~ b) mod 2 ^ 32 = a .& .~ b) as <-; [|pose proof (Z.mod_pos_bound (a .& .~ b) (2 ^ 32)); lia].
  rewrite <- Z.land_ones, <- Z.land_assoc, (Z.land_comm (.~ b)), Z.land_assoc, Z.land_ones, Z.mod_small by lia. done.
Qed.
Lemma ready_set_events d x : ready d = true -> u32_ok x = true -> ready (set_pd_events x d) = true.
Proof. unfold ready. intros [H _]%andb_true_iff Hx. apply andb_true_iff. by split. Qed.

Lemma ready_set_mac_if d i : ready d = true ->
  (i >=? MESA_PORT_INTERFACE_RGMII) && (i <=? MESA_PORT_INTERFACE_RGMII_TXID) || (i =? MESA_PORT_INTERFACE_SGMII) = true ->
  ready (set_pd_mac_if i d) = true.
Proof.
  unfold ready. intros [[Hl _]%andb_true_iff He]%andb_true_iff Hi. apply andb_true_iff. split; [apply andb_true_iff; split; [done|]|done].
  unfold mac_ok. cbn [pd_mac_if set_pd_mac_if existsb]. change MESA_PORT_INTERFACE_RGMII with 5 in *.
  change MESA_PORT_INTERFACE_RGMII_TXID with 8 in *. change MESA_PORT_INTERFACE_SGMII with 11 in *.
  change MESA_PORT_INTERFACE_RGMII_ID with 6. change MESA_PORT_INTERFACE_RGMII_RXID with 7. lia.
Qed.

Section Safe.
Context {B : Type} {CO : Callout B} {OK : CalloutOk (CO := CO)} (devs : Z -> bool).
Variables (drv_id : Z) (polls polls32 : nat).
Local Abbreviation M := (M B phy_data_t).

(** Every device has its data and is ready. *)
Definition have_data (t : gmap Z phy_data_t) : Prop := forall dev, devs dev = true -> exists d, t !! dev = Some d /\ ready d = true.
Local Abbreviation safe := (safe (B := B) have_data).

Definition t8x8_exec (dev : option Z) (c : t8x8_call) : M unit :=
  match c with
  | CReset c => lan8x8x_reset drv_id polls polls32 dev c ;;; ret tt
  | CPoll s => lan8x8x_poll drv_id dev s ;;; ret tt
  | CConfSet c => lan8x8x_conf_set drv_id polls polls32 dev c ;;; ret tt
  | CConfGet c => lan8x8x_conf_get dev c ;;; ret tt
  | CIfSet i => lan8x8x_if_set drv_id polls polls32 dev i ;;; ret tt
  | CIfGet s i => lan8x8x_if_get dev s i ;;; ret tt
  | CMediaSet m => lan8x8x_media_set drv_id polls polls32 dev m ;;; ret tt
  | CMediaGet m => lan8x8x_media_get dev m ;;; ret tt
  | CGpioMode c => lan8x8x_gpio_mode_set dev c ;;; ret tt
  | CGpioOut n v => lan8x8x_gpio_out_set dev n v ;;; ret tt
  | CGpioIn n v => lan8x8x_gpio_in_get dev n v ;;; ret tt
  | CSqi v => lan8x8x_sqi_read dev v ;;; ret tt
  | CAnegStatus s => lan8x8x_aneg_status_get dev s ;;; ret tt
  | CLoopSet l => lan8x8x_loopback_set dev l ;;; ret tt
  | CLoopGet l => lan8x8x_loopback_get dev l ;;; ret tt
  | CEventSet e n => lan8x8x_event_enable_set dev e n ;;; ret tt
  | CEventGet e => lan8x8x_event_enable_get dev e ;;; ret tt
  | CEventPoll s => lan8x8x_event_status_poll dev s ;;; ret tt
  | CIsolate v => lan8x8x_isolate_mode_set dev v ;;; ret tt
  | CCapability c => lan8x8x_capability dev c ;;; ret tt
  | CInfo i => lan8x8x_info_get dev i ;;; ret tt
  | CRead22 a v => lan8x8x_reg_read dev a v ;;; ret tt
  | CWrite22 a v => lan8x8x_reg_write dev a v ;;; ret tt
  | CRead45 a v => lan8x8x_mmd_reg_read dev a v ;;; ret tt
  | CWrite45 a v => lan8x8x_mmd_reg_write dev a v ;;; ret tt
  end.
(** The arguments a call must not have: a device without data, a NULL pointer
    that is not tested, a register number beyond clause 22. *)
Definition t8x8_good (dev : option Z) (c : t8x8_call) : bool :=
  match dev with Some dev => devs dev | None => true end &&
  match c with
  | CGpioIn _ None => false
  | CCapability _ => match dev with Some _ => true | None => false end
  | CRead22 a _ | CWrite22 a _ => LAN8X8X_PHY_REG_ADDR a <? 32
  | CEventSet e _ => u32_ok e
  | _ => true
  end.

Lemma safe_have_data dev h : devs dev = true -> safe h (data_of dev) h.
Proof. intros Hd. apply safe_data_of. intros t Ht. destruct (Ht dev Hd) as (d & Ed & _). by eexists. Qed.
Lemma safe_store dev f h : devs dev = true -> (forall d, ready d = true -> ready (f d) = true) -> safe h (upd dev f) h.
Proof.
  intros Hd Hf. apply safe_upd.
  - intros t Ht. destruct (Ht dev Hd) as (d & Ed & _). by eexists.
  - intros t d Ht Ed x Hx. destruct (decide (x = dev)) as [->|Hne].
    + rewrite lookup_insert_eq. destruct (Ht dev Hd) as (d' & Ed' & H4). simplify_eq. eauto.
    + rewrite lookup_insert_ne by done. by apply Ht.
Qed.
Lemma safe_with_data {C} dev (k : phy_data_t -> M C) h h' : devs dev = true ->
  (forall d, ready d = true -> safe h (k d) h') -> safe h (bind (data_of dev) k) h'.
Proof. intros Hd Hk. eapply safe_bind_data; [intros t Ht; by apply Ht|done]. Qed.
Lemma safe_locked {A} (m : M A) : safe true m true -> safe false (locked m) false.
Proof. intros Hm. unfold locked. safe_step; [safe_auto|]. safe_step; [exact Hm|]. safe_auto. Qed.
#[local] Hint Resolve safe_have_data : safe.
#[local] Hint Extern 1 (Machine.safe _ _ (upd _ _) _) => apply safe_store; [done|by intros []] : safe.
Local Ltac sf := intros; repeat (lazymatch goal with
  | |- Machine.safe _ _ (or_return _ _ _) _ => apply safe_or_return; [|intros ?|]
  | |- Machine.safe _ _ (Lan8x8x.reading _ _ _) _ => unfold Lan8x8x.reading
  | |- Machine.safe _ _ (upd _ _) _ => apply safe_store; [done|by intros []]
  | |- Machine.safe _ _ (bind (data_of _) _) _ => apply safe_with_data; [done|]; intros ? ?
  | |- _ => safe_step; cbv zeta
  end).

Lemma safe_device_info dev : devs dev = true -> safe true (phy_get_device_info dev) true.
Proof. unfold phy_get_device_info. sf. Qed.
Lemma safe_setup_lpbk dev lb : devs dev = true -> safe true (lan8x8x_setup_lpbk dev lb) true.
Proof. unfold lan8x8x_setup_lpbk, lpbk_setting. sf. Qed.
Lemma safe_run_steps dev l k : safe true k true -> safe true (run_steps dev l k) true.
Proof.
  intros Hk. induction l as [|s l IH]; cbn [run_steps]; [done|]. apply safe_or_return; [|sf|done].
  destruct s; cbn [run_step]; sf.
Qed.
Lemma safe_config_mac dev : devs dev = true -> safe true (lan8x8x_config_mac dev) true.
Proof.
  unfold lan8x8x_config_mac, lan8x8x_sgmii_init, lan8x8x_rgmii_init.
  intros Hd. repeat first [apply safe_run_steps | progress sf].
Qed.
#[local] Hint Resolve safe_device_info safe_setup_lpbk safe_config_mac : safe.
Lemma safe_phy_init dev : devs dev = true -> safe true (lan8x8x_phy_init drv_id dev) true.
Proof. unfold lan8x8x_phy_init. sf. Qed.
Lemma safe_events_set dev e n : devs dev = true -> u32_ok e = true -> safe true (lan8x8x_int_events_set dev e n) true.
Proof.
  intros Hd He. unfold lan8x8x_int_events_set. eapply safe_bind; [|sf]. apply safe_store; [done|]. intros d Hr.
  pose proof (ready_events d Hr). apply ready_set_events; [done|]. destruct (tb n); [by apply u32_lor|by apply u32_clear].
Qed.
Lemma safe_config_led dev c : safe true (lan8x8x_config_led dev c) true.
Proof. unfold lan8x8x_config_led. sf. Qed.
#[local] Hint Resolve safe_phy_init safe_events_set safe_config_led ready_events : safe.
Lemma safe_leds dev iso l k : devs dev = true -> forallb (fun i => (0 <=? i) && (i <? 4)) l = true ->
  safe true k true -> safe true (leds_loop dev iso l k) true.
Proof.
  intros Hd Hl Hk. induction l as [|i l IH]; cbn [leds_loop forallb] in *; [done|]. apply andb_true_iff in Hl as [Hi Hl].
  apply safe_with_data; [done|]. intros d H4. apply safe_arr; [apply ready_leds in H4; lia|]. intros led _.
  apply safe_if; [|by apply IH]. apply safe_or_return; [sf|sf|by apply IH].
Qed.
Lemma safe_config_leds dev iso : devs dev = true -> safe true (lan8x8x_config_leds dev iso) true.
Proof. intros Hd. apply safe_leds; [done|done|sf]. Qed.
#[local] Hint Resolve safe_config_leds : safe.
Lemma safe_cfg_clr dev : devs dev = true -> safe true (lan8x8x_phy_cfg_clr dev) true.
Proof.
  unfold lan8x8x_phy_cfg_clr. sf.
Qed.
#[local] Hint Resolve safe_cfg_clr : safe.
Lemma safe_phy_reset dev : devs dev = true -> safe true (lan8x8x_phy_reset polls polls32 dev) true.
Proof. unfold lan8x8x_phy_reset. sf. Qed.
Lemma safe_config_done dev s : devs dev = true -> safe true (lan8x8x_config_done dev s) true.
Proof. unfold lan8x8x_config_done, lan8x8x_onetime_post_config_done. sf. Qed.
Lemma safe_speed_config dev s : safe true (lan8x8x_speed_config dev s) true.
Proof. unfold lan8x8x_speed_config. sf. Qed.
#[local] Hint Resolve safe_phy_reset safe_config_done safe_speed_config : safe.
Lemma safe_phy_setup dev : devs dev = true -> safe true (lan8x8x_phy_setup drv_id polls polls32 dev) true.
Proof.
  unfold lan8x8x_phy_setup, lan8x8x_pma_baset1_setup_aneg, lan8x8x_pma_baset1_setup_forced, lan8x8x_phy_config. sf.
Qed.
#[local] Hint Resolve safe_phy_setup : safe.
Lemma safe_config_set dev c : devs dev = true -> safe true (lan8x8x_config_set drv_id polls polls32 dev c) true.
Proof. unfold lan8x8x_config_set, conf_change, upd_conf. sf. Qed.

Lemma safe_gpio_setup dev n e c dir : safe true (gpio_setup dev n e c dir) true.
Proof. unfold gpio_setup. sf. Qed.
#[local] Hint Resolve safe_config_set safe_gpio_setup : safe.
(** A LED that can be configured has its entry. *)
Lemma config_led_returns dev c :
  returns (B := B) (D := phy_data_t) (fun rc => rc = MEPA_RC_OK -> 0 <= gpio_led_num c < 4 /\ led_value (gpio_mode c) <> None)
    (lan8x8x_config_led dev c).
Proof.
  unfold lan8x8x_config_led. change MEPA_LED0 with 0. change MEPA_LED1 with 1. change MEPA_LED2 with 2. change MEPA_LED3 with 3.
  destruct (led_value _); [|by apply returns_ret].
  destruct ((gpio_led_num c =? 0) || _) eqn:E1; [intros w rc w' _ _; split; [lia|done]|].
  destruct ((gpio_led_num c =? 2) || _) eqn:E2; [intros w rc w' _ _; split; [lia|done]|by apply returns_ret].
Qed.
Lemma safe_gpio_mode dev c : devs dev = true -> safe true (lan8x8x_gpio_mode_set_private dev c) true.
Proof.
  intros Hd. unfold lan8x8x_gpio_mode_set_private. cbv zeta. apply safe_if; [sf|]. apply safe_if; [|sf].
  eapply safe_bind_returns; [apply safe_config_led|apply config_led_returns|]. intros rc Hrc. cbv beta in Hrc.
  destruct (Z.eqb_spec rc MEPA_RC_OK) as [E|]; [|apply safe_ret]. destruct (Hrc E) as [Hn Hv]. cbn [negb].
  apply safe_with_data; [done|]. intros d H4. apply safe_arr; [apply ready_leds in H4; lia|]. intros _ _.
  eapply safe_bind; [|intros _; apply safe_gpio_setup]. apply safe_store; [done|]. intros x Hx. by apply ready_set_led.
Qed.
Lemma safe_aneg_resolve dev cur : safe true (lan8x8x_aneg_resolve_master_slave dev cur) true.
Proof. unfold lan8x8x_aneg_resolve_master_slave. sf. Qed.
Lemma safe_aneg_read dev st : devs dev = true -> safe true (lan8x8x_aneg_read_status dev st) true.
Proof. unfold lan8x8x_aneg_read_status. sf. Qed.
#[local] Hint Resolve safe_gpio_mode safe_aneg_resolve safe_aneg_read : safe.
Lemma safe_poll_int dev st : devs dev = true -> safe true (lan8x8x_poll_int drv_id dev st) true.
Proof.
  intros Hd. unfold lan8x8x_poll_int, poll_forced, poll_aneg, read_twice, poll_done. sf.
Qed.
Lemma safe_event_poll dev : devs dev = true -> safe true (lan8x8x_event_status_poll_int dev) true.
Proof. unfold lan8x8x_event_status_poll_int. sf. Qed.
#[local] Hint Resolve safe_poll_int safe_event_poll : safe.

Lemma safe_on_ptr {A X} (p : option X) (fail : Z -> A) k h :
  (forall x, p = Some x -> safe h (k x) h) -> safe h (on_ptr p fail k) h.
Proof. intros Hk. destruct p; cbn [on_ptr]; [by apply Hk|apply safe_ret]. Qed.
Lemma safe_on_out {X} dev (out : option X) k h :
  (forall d x, dev = Some d -> safe h (k d x) h) -> safe h (on_out dev out k) h.
Proof.
  intros Hk. destruct dev as [d|], out as [x|]; cbn [on_out]; try apply safe_ret.
  eapply safe_bind; [by apply Hk|]. intros [rc v]. apply safe_ret.
Qed.

Lemma safe_t8x8_exec dev c : t8x8_good dev c = true -> safe false (t8x8_exec dev c) false.
Proof.
  unfold t8x8_good. intros [Hd Hc]%andb_true_iff.
  assert (forall d, dev = Some d -> devs d = true) as Hdev by (by intros d ->). clear Hd.
  destruct c; cbn [t8x8_exec] in *; (eapply safe_bind; [|intros ?; apply safe_ret]).
  all: try (unfold lan8x8x_reset, lan8x8x_poll, lan8x8x_conf_set, lan8x8x_conf_get, lan8x8x_if_set, lan8x8x_if_get,
    lan8x8x_media_set, lan8x8x_media_get, lan8x8x_gpio_mode_set, lan8x8x_gpio_out_set, lan8x8x_sqi_read,
    lan8x8x_aneg_status_get, lan8x8x_loopback_set, lan8x8x_loopback_get, lan8x8x_event_enable_set,
    lan8x8x_event_enable_get, lan8x8x_event_status_poll, lan8x8x_isolate_mode_set, lan8x8x_mmd_reg_read,
    lan8x8x_mmd_reg_write;
    first [apply safe_on_ptr; intros d E | apply safe_on_out; intros d x E]; specialize (Hdev d E);
    repeat first [ apply safe_on_ptr; intros ? _ | apply safe_locked | progress sf ]; fail).
  - unfold lan8x8x_reset. destruct dev as [d|]; [|sf]. specialize (Hdev d eq_refl). apply safe_locked. sf.
    apply safe_store; [done|]. intros x Hx. unfold reset_media. by destruct (_ && _), x.
  - unfold lan8x8x_if_set. apply safe_on_ptr. intros d E. specialize (Hdev d E).
    destruct (_ || _) eqn:Hm; [|apply safe_ret]. apply safe_with_data; [done|]. intros x Hx. apply safe_if; [|apply safe_ret].
    apply safe_locked. eapply safe_bind; [|intros _; sf]. apply safe_store; [done|]. intros y Hy. by apply ready_set_mac_if.
  - destruct value as [v|]; [|done]. destruct dev as [d|]; cbn [lan8x8x_gpio_in_get]; [|sf].
    apply safe_locked. sf.
  - destruct dev as [d|]; [|done]. specialize (Hdev d eq_refl). unfold lan8x8x_capability, deref.
    change (safe false (locked (data <- data_of d ;; ret (lan8x8x_capability_priv data capability))) false).
    apply safe_locked. sf.
  - destruct dev as [d|], phy_info; cbn [lan8x8x_info_get]; try apply safe_ret. specialize (Hdev d eq_refl).
    apply safe_locked. sf.
  - assert (0 <= LAN8X8X_PHY_REG_ADDR addr < 32) as Ha by (pose proof (Z.land_nonneg addr 0xFF); unfold LAN8X8X_PHY_REG_ADDR in *; lia).
    apply safe_on_out. intros d x _. apply safe_locked. by apply safe_phy_reg_rd.
  - assert (0 <= LAN8X8X_PHY_REG_ADDR addr < 32) as Ha by (pose proof (Z.land_nonneg addr 0xFF); unfold LAN8X8X_PHY_REG_ADDR in *; lia).
    apply safe_on_ptr. intros d _. apply safe_locked. by apply safe_phy_reg_wr.
Qed.

End Safe.

(** ** Histories

    Calls, debug dumps and deletions, each with the device it is made for;
    [None] is NULL. *)
Inductive t8x8_request :=
  | XCall (c : t8x8_call)
  | XDump (pr : bool) (group : option Z)
  | XDelete (mem_free : bool).

Section Run.
Context {B : Type} {CO : Callout B}.
Variables (drv_id : Z) (polls polls32 : nat).
Local Abbreviation M := (M B phy_data_t).

Definition t8x8_request_exec (x : option Z * t8x8_request) : M unit :=
  let '(dev, r) := x in
  match r with
  | XCall c => t8x8_exec drv_id polls polls32 dev c
  | XDump pr group => lan8x8x_debug_info drv_id dev pr group ;;; ret tt
  | XDelete mem_free => lan8x8x_delete mem_free dev ;;; ret tt
  end.
End Run.

(** The devices that are left, and a history that only uses them. *)
Definition left_by (devs : Z -> bool) (x : option Z * t8x8_request) : Z -> bool :=
  match x with (Some dev, XDelete _) => fun d => devs d && negb (d =? dev) | _ => devs end.
Definition request_good (devs : Z -> bool) (x : option Z * t8x8_request) : bool :=
  match fst x with Some dev => devs dev | None => true end &&
  match snd x with XCall c => t8x8_good devs (fst x) c | XDump _ _ | XDelete _ => true end.
Fixpoint history_good (devs : Z -> bool) (l : list (option Z * t8x8_request)) (devs' : Z -> bool) : Prop :=
  match l with
  | [] => devs' = devs
  | x :: l => request_good devs x = true /\ history_good (left_by devs x) l devs'
  end.

Section RunSafe.
Context {B : Type} {CO : Callout B} {OK : CalloutOk (CO := CO)}.
Variables (drv_id : Z) (polls polls32 : nat).
Local Abbreviation M := (M B phy_data_t).
Local Abbreviation goes := (goes (B := B) (D := phy_data_t)).

Lemma goes_dump P dev regs : goes P P true (phy_reg_dump (B := B) dev drv_id regs) true.
Proof.
  unfold phy_reg_dump. eapply goes_bind; [apply goes_print|]. intros _. eapply goes_bind; [apply goes_print|]. intros _.
  apply goes_seq. intros x _. unfold phy_dbg_pr. eapply goes_bind.
  - apply goes_of_safe. safe_auto.
  - intros [rc v]. apply goes_print.
Qed.
Lemma goes_locked {A} P (m : M A) : goes P P true m true -> goes P P false (locked m) false.
Proof.
  intros Hm. unfold locked. eapply goes_bind; [apply goes_of_safe; safe_auto|]. intros _.
  eapply goes_bind; [exact Hm|]. intros r. eapply goes_bind; [apply goes_of_safe; safe_auto|]. intros _. apply goes_ret.
Qed.
Lemma goes_debug_info P dev pr group : goes P P false (lan8x8x_debug_info drv_id dev pr group) false.
Proof.
  unfold lan8x8x_debug_info. destruct dev as [dev|], pr, group as [group|]; try apply goes_ret.
  destruct (_ || _); [|apply goes_ret]. apply goes_locked. eapply goes_bind; [apply goes_dump|]. intros _. apply goes_ret.
Qed.
Lemma goes_delete devs dev mem_free : match dev with Some dev => devs dev | None => true end = true ->
  goes (have_data devs) (have_data (left_by devs (dev, XDelete mem_free))) false (lan8x8x_delete mem_free dev) false.
Proof.
  destruct dev as [dev|]; intros Hd; [|apply goes_ret]. intros w Hw. unfold lan8x8x_delete. cbn [on_ptr].
  destruct (Hw dev Hd) as (p & -> & _). eexists _, _, []. split; [reflexivity|].
  destruct mem_free; cbn [w_data w_log]; rewrite app_nil_r; (split; [|done]);
    cbn [left_by]; intros d [Hd' Hne]%andb_true_iff; destruct (Hw d Hd') as (q & Hq & Hr); exists q; (split; [|exact Hr]); [|done].
  rewrite lookup_delete_ne; [done|]. intros ->. by rewrite Z.eqb_refl in Hne.
Qed.
Lemma goes_request devs x : request_good devs x = true ->
  goes (have_data devs) (have_data (left_by devs x)) false (t8x8_request_exec drv_id polls polls32 x) false.
Proof.
  destruct x as [dev r]. unfold request_good. cbn [fst snd]. intros [Hd Hr]%andb_true_iff. destruct r as [c|pr group|mem_free].
  - replace (left_by devs (dev, XCall c)) with devs by (by destruct dev). by apply goes_of_safe, safe_t8x8_exec.
  - replace (left_by devs (dev, XDump pr group)) with devs by (by destruct dev).
    eapply goes_bind; [apply goes_debug_info|]. intros _. apply goes_ret.
  - eapply goes_bind; [by apply goes_delete|]. intros _. apply goes_ret.
Qed.
End RunSafe.

(** C26. Any history of calls, debug dumps and deletions on LAN8x8x devices
    that are ready, on any bus, runs to completion without undefined behaviour;
    the lock is taken and released in pairs, the bus is accessed with the lock
    held only and the application is not called under the lock but to print a
    dump; and every device that is left is ready: its next set-up can fail
    because of the bus, but not because of what the driver has stored.  The
    calls are the entries of the driver's table but the probe, which accesses
    the bus without the lock and makes a device ready ([lan8x8x_probe_spec]).
    Their arguments are any but: a device that was not probed or was deleted, a
    NULL pointer where the driver does not look for one (the device of the
    capability call, the output of a pin), a register number beyond clause 22
    for the two clause 22 calls, an event of more than 32 bits. *)
Theorem lan8x8x_run_safe {B} {CO : Callout B} {OK : CalloutOk (CO := CO)} (drv_id : Z) (polls polls32 : nat)
    (devs : Z -> bool) (l : list (option Z * t8x8_request)) (devs' : Z -> bool) (w : world B phy_data_t) :
  history_good devs l devs' -> have_data devs (w_data w) ->
  exists w' tr, seq_ (t8x8_request_exec drv_id polls polls32) l w = Some (tt, w') /\ have_data devs' (w_data w') /\
    w_log w' = w_log w ++ tr /\ disc false (unprinted tr) = Some false.
Proof.
  intros Hl Hw. cut (goes (have_data devs) (have_data devs') false (seq_ (t8x8_request_exec drv_id polls polls32) l) false).
  { intros Hs. destruct (Hs w Hw) as ([] & w' & tr & H). eauto. }
  clear w Hw. revert devs Hl. induction l as [|x l IH]; intros devs Hl; cbn [history_good seq_] in *.
  { subst. apply goes_ret. }
  destruct Hl as [Hx Hl]. eapply goes_bind; [by apply goes_request|]. intros _. by apply IH.
Qed.

(** ** Witness: two devices, a history that configures, resets, dumps and deletes them *)
Definition ready_port : phy_data_t := set_pd_mac_if MESA_PORT_INTERFACE_SGMII phy_data_0.
Lemma lan8x8x_run_safe_witness :
  let w := World (D := phy_data_t) (Sim [] (fun _ => Mdio.Latch 0 0 0 0)) {[ 1 := ready_port; 2 := ready_port ]} [] in
  exists w' tr, seq_ (t8x8_request_exec (CO := sim_callout) PHY_ID_LAN888X 3 3)
      [(Some 1, XCall (CConfSet (Some mepa_conf_t_0))); (None, XCall (CReset None)); (Some 2, XCall (CReset None));
       (Some 2, XCall (CGpioMode (Some (Mk_mepa_gpio_conf_t 0 3 MEPA_GPIO_MODE_LED_LINK_ACTIVITY))));
       (Some 2, XDump true (Some MEPA_DEBUG_GROUP_PHY)); (Some 2, XDelete true); (Some 1, XCall (CPoll (Some mepa_status_t_0)));
       (Some 1, XCall (CEventSet 8 1)); (Some 1, XCall (CEventPoll (Some 0)))] w = Some (tt, w') /\
    have_data (fun d => ((d =? 1) || (d =? 2)) && negb (d =? 2)) (w_data w') /\
    w_log w' = [] ++ tr /\ disc false (unprinted tr) = Some false.
Proof.
  intros w. apply (lan8x8x_run_safe (CO := sim_callout) PHY_ID_LAN888X 3 3 (fun d => (d =? 1) || (d =? 2)) _ _ w);
    [by cbn; split_and!|].
  intros d [->%Z.eqb_eq| ->%Z.eqb_eq]%orb_true_iff; exists ready_port; split; reflexivity.
Defined.
