(* ===== verification/Lan8x8xSpec.v ===== *)
(** * Lan8x8xSpec: what the LAN8x8x driver does to the registers

    The set-up of a port is compared with a list of register operations that is
    a function of the port's data; then configuration, events and link status.
    Proved for a bus without errors, with the access logic of [Mdio], for every
    content of the registers. *)

From Stdlib Require Import ZArith Lia List Bool String.
From stdpp Require Import base gmap strings list.
From S2P Require Import Prelude Machine Enums Lan8814Types Trace Mdio SimPhy PhyDefines PhyLib PhyLibSpec.
From S2P Require Import Lan8x8xRegs Lan8x8x Lan8x8xApi Lan8x8xSafe.

(** ** Register operations

    Reads, writes, changes of some bits and waits, with the accesses they make.
    An MMD register is only written when a bit of it changes; a 32-bit register
    is two of 16, read from the lower half and written from the upper half. *)
Inductive op :=
  | ORd (r : reg)
  | OWr (r : reg) (v : Z)
  | OWr32 (m a v : Z)
  | OMod (m a mask v : Z)
  | OMod22 (a mask v : Z)
  | OMod32 (m a mask v : Z)
  | OPoll22 (n : nat) (a mask : Z)
  | OPoll32 (n : nat) (m a mask : Z).
Definition halves_rd (dev m a x : Z) : list access := [ARd dev (Mmd m a) (x mod 65536); ARd dev (Mmd m (a + 1)) (x / 65536)].
Definition halves_wr (dev m a v : Z) : list access := [AWr dev (Mmd m (a + 1)) (v / 65536); AWr dev (Mmd m a) (v mod 65536)].
(** At most [n + 1] values, all but the last with a bit of [mask] set, and the
    last too unless it is the only reason to stop. *)
Definition polled (n : nat) (mask : Z) (vs : list Z) (v : Z) : Prop :=
  Forall (fun v => v .& mask = mask) vs /\ (v .& mask <> mask /\ (length vs <= n)%nat \/ v .& mask = mask /\ length vs = n).
Definition op_accs (dev : Z) (o : op) (l : list access) : Prop :=
  match o with
  | ORd r => exists x, l = [ARd dev r x]
  | OWr r v => l = [AWr dev r (u16 v)]
  | OWr32 m a v => l = halves_wr dev m a v
  | OMod m a mask v => exists x, 0 <= x < 65536 /\
      let new := u16 ((x .& .~ mask) .| v) in
      l = ARd dev (Mmd m a) x :: if x =? new then [] else [AWr dev (Mmd m a) new]
  | OMod22 a mask v => exists x, 0 <= x < 65536 /\ l = [ARd dev (Direct a) x; AWr dev (Direct a) (u16 ((x .& .~ mask) .| v))]
  | OMod32 m a mask v => exists x, 0 <= x < 2 ^ 32 /\
      let new := u32 ((x .& .~ mask) .| v) in
      l = halves_rd dev m a x ++ if x =? new then [] else halves_wr dev m a new
  | OPoll22 n a mask => exists vs v, l = map (ARd dev (Direct a)) (vs ++ [v]) /\ polled n mask vs v
  | OPoll32 n m a mask => exists vs v, l = concat (map (halves_rd dev m a) (vs ++ [v])) /\ polled n mask vs v
  end.
Fixpoint ops_accs (dev : Z) (os : list op) (l : list access) : Prop :=
  match os with
  | [] => l = []
  | o :: os => exists l1 l2, l = l1 ++ l2 /\ op_accs dev o l1 /\ ops_accs dev os l2
  end.
Lemma ops_accs_app dev o1 o2 l1 l2 : ops_accs dev o1 l1 -> ops_accs dev o2 l2 -> ops_accs dev (o1 ++ o2) (l1 ++ l2).
Proof.
  revert l1. induction o1 as [|o o1 IH]; cbn [ops_accs app]; intros l1; [by intros ->|].
  intros (la & lb & -> & Ha & Hb) H2. exists la, (lb ++ l2). rewrite <- app_assoc. eauto.
Qed.
Lemma ops_accs_one dev o l : op_accs dev o l -> ops_accs dev [o] l.
Proof. intros H. exists l, []. by rewrite app_nil_r. Qed.

(** What is written to the registers [rs], in order. *)
Definition among (rs : list reg) (r : reg) : bool := existsb (reg_eqb r) rs.
Definition written (rs : list reg) (l : list access) : list (reg * Z) :=
  omap (fun a => match a with AWr _ r v => if among rs r then Some (r, v) else None | ARd _ _ _ => None end) l.
Lemma values_app rs l1 l2 : written rs (l1 ++ l2) = written rs l1 ++ written rs l2.
Proof. apply omap_app. Qed.
(** The same for an operation, when it does not depend on what was read. *)
Definition one (rs : list reg) (r : reg) (v : Z) : list (reg * Z) := if among rs r then [(r, v)] else [].
Definition op_written (rs : list reg) (o : op) : option (list (reg * Z)) :=
  match o with
  | ORd _ | OPoll22 _ _ _ | OPoll32 _ _ _ _ => Some []
  | OWr r v => Some (one rs r (u16 v))
  | OWr32 m a v => Some (one rs (Mmd m (a + 1)) (v / 65536) ++ one rs (Mmd m a) (v mod 65536))
  | OMod m a _ _ => if among rs (Mmd m a) then None else Some []
  | OMod22 a _ _ => if among rs (Direct a) then None else Some []
  | OMod32 m a _ _ => if among rs (Mmd m (a + 1)) || among rs (Mmd m a) then None else Some []
  end.
Fixpoint ops_written (rs : list reg) (os : list op) : option (list (reg * Z)) :=
  match os with
  | [] => Some []
  | o :: os => v1 ← op_written rs o; v2 ← ops_written rs os; Some (v1 ++ v2)
  end.
Lemma op_written_ok rs dev o l vs : op_accs dev o l -> op_written rs o = Some vs -> written rs l = vs.
Proof.
  assert (forall m a vs, written rs (concat (map (halves_rd dev m a) vs)) = []) as Hp.
  { intros m a. induction vs0 as [|v vs0 IH]; cbn [map concat]; [done|]. by rewrite values_app, IH. }
  destruct o as [r'|r' v|m a v|m a k v|a k v|m a k v|n a k|n m a k]; cbn [op_accs op_written].
  - by intros [x ->] <-%(inj Some).
  - intros -> <-%(inj Some). unfold one. cbn -[among]. by destruct (among rs r').
  - intros -> <-%(inj Some). unfold one. cbn -[among]. by destruct (among rs (Mmd m (a + 1))), (among rs (Mmd m a)).
  - intros (x & _ & ->). destruct (among rs (Mmd m a)) eqn:E; [done|]. intros <-%(inj Some). destruct (x =? _); cbn -[among]; by rewrite ?E.
  - intros (x & _ & ->). destruct (among rs (Direct a)) eqn:E; [done|]. intros <-%(inj Some). cbn -[among]; by rewrite ?E.
  - intros (x & _ & ->). destruct (among rs (Mmd m (a + 1))) eqn:E1; cbn [orb]; [done|].
    destruct (among rs (Mmd m a)) eqn:E2; [done|]. intros <-%(inj Some). destruct (x =? _); cbn -[among]; by rewrite ?E1, ?E2.
  - intros (vs' & v & -> & _) <-%(inj Some). by induction (vs' ++ [v]) as [|x xs IH].
  - intros (vs' & v & -> & _) <-%(inj Some). apply Hp.
Qed.
(** The operations [os] write [vs] to the registers [rs]. *)
Definition writes (rs : list reg) (os : list op) (vs : list (reg * Z)) : Prop := forall dev l, ops_accs dev os l -> written rs l = vs.
Lemma writes_const rs os vs : ops_written rs os = Some vs -> writes rs os vs.
Proof.
  intros H dev. revert vs H. induction os as [|o os IH]; cbn [ops_written ops_accs]; intros vs H l; [intros ->; by injection H|].
  intros (l1 & l2 & -> & H1 & H2). destruct (op_written rs o) as [v1|] eqn:E1; [|done]. cbn in H.
  destruct (ops_written rs os) as [v2|] eqn:E2; [|done]. injection H as <-.
  by rewrite values_app, (op_written_ok _ _ _ _ _ H1 E1), (IH _ eq_refl _ H2).
Qed.
Lemma ops_accs_split dev o1 o2 l : ops_accs dev (o1 ++ o2) l -> exists l1 l2, l = l1 ++ l2 /\ ops_accs dev o1 l1 /\ ops_accs dev o2 l2.
Proof.
  revert l. induction o1 as [|o o1 IH]; cbn [ops_accs app]; intros l Hl; [by exists [], l|].
  destruct Hl as (la & lb & -> & Ha & Hb). destruct (IH _ Hb) as (lc & ld & -> & Hc & Hd).
  exists (la ++ lc), ld. rewrite app_assoc. split_and!; [done|by exists la, lc|done].
Qed.
Lemma writes_app rs o1 o2 v1 v2 : writes rs o1 v1 -> writes rs o2 v2 -> writes rs (o1 ++ o2) (v1 ++ v2).
Proof.
  intros H1 H2 dev l (l1 & l2 & -> & Ha & Hb)%ops_accs_split. by rewrite values_app, (H1 _ _ Ha), (H2 _ _ Hb).
Qed.

Section Performs.
Context {B : Type} {CO : Callout B} {OK : BusOk CO}.
Local Abbreviation table := (gmap Z phy_data_t).
Local Abbreviation M := (M B phy_data_t).
Local Abbreviation does := (does (B := B) (D := phy_data_t) (acc := access)).

(** From the table [t], [m] returns [a] and leaves [t'], by the operations [os]. *)
Definition performs (dev : Z) {A} (m : M A) (t : table) (os : list op) (a : A) (t' : table) : Prop :=
  does m t (fun a' t'' l => a' = a /\ t'' = t' /\ ops_accs dev os l).

Lemma performs_ret dev {A} (a : A) t : performs dev (ret a) t [] a t.
Proof. by apply does_ret. Qed.
Lemma performs_bind dev {A C} (m : M A) (k : A -> M C) t t1 t2 o1 o2 a c :
  performs dev m t o1 a t1 -> performs dev (k a) t1 o2 c t2 -> performs dev (bind m k) t (o1 ++ o2) c t2.
Proof.
  intros Hm Hk. apply does_bind. eapply does_mono; [exact Hm|]. intros ? ? l1 (-> & -> & H1).
  eapply does_mono; [exact Hk|]. intros ? ? l2 (-> & -> & H2). split_and!; [done|done|by apply ops_accs_app].
Qed.
Lemma performs_or dev {A} (fail : Z -> M A) m k t t1 t2 o1 o2 c :
  performs dev m t o1 0 t1 -> performs dev k t1 o2 c t2 -> performs dev (or_return fail m k) t (o1 ++ o2) c t2.
Proof. intros Hm Hk. eapply performs_bind; [exact Hm|]. exact Hk. Qed.
Lemma performs_data dev {C} d (k : phy_data_t -> M C) t os c t' :
  t !! dev = Some d -> performs dev (k d) t os c t' -> performs dev (bind (data_of dev) k) t os c t'.
Proof. intros Hd Hk. apply (performs_bind dev _ _ t t t' [] os d c); [by eapply does_data_of|done]. Qed.
Lemma performs_upd dev d f t : t !! dev = Some d -> performs dev (upd dev f) t [] tt (<[dev := f d]> t).
Proof. intros Hd. by eapply does_upd. Qed.
Lemma performs_conv dev {A} (m : M A) t os os' a t' : performs dev m t os a t' -> os = os' -> performs dev m t os' a t'.
Proof. by intros H <-. Qed.
Lemma performs_sleep dev e t : silent e = true -> performs dev (log e) t [] tt t.
Proof. intros He. apply does_log; [by apply reads_silent|done]. Qed.

Lemma performs_wr dev m a v t : mmd_ok (m, a) = true -> performs dev (phy_mmd_reg_wr dev m a v) t [OWr (Mmd m a) v] 0 t.
Proof. intros Ha. apply does_phy_mmd_reg_wr; [done|]. split_and!; [done|done|by apply ops_accs_one]. Qed.
Lemma performs_wr32 dev m a v t : mmd_ok (m, a) = true -> a < 65535 -> 0 <= v < 2 ^ 32 ->
  performs dev (phy_mmd_reg_wr32 dev m a v) t [OWr32 m a v] 0 t.
Proof. intros Ha Hb Hv. apply does_wr32; [done..|]. split_and!; [done|done|by apply ops_accs_one]. Qed.
Lemma performs_mod dev m a mask v t : mmd_ok (m, a) = true ->
  performs dev (phy_mmd_reg_modify dev m a mask v) t [OMod m a mask v] 0 t.
Proof.
  intros Ha. apply does_bind, does_phy_mmd_reg_rd; [done|]. intros x Hx.
  change (negb (0 =? MEPA_RC_OK)) with false. cbv iota zeta.
  destruct (x =? u16 _) eqn:E; cbn [negb]; [apply does_ret|apply does_phy_mmd_reg_wr; [done|]];
    (split_and!; [done|done|]); apply ops_accs_one; exists x; cbv zeta; rewrite E, ?u16_u16; done.
Qed.
Lemma performs_mod32 dev m a mask v t : mmd_ok (m, a) = true -> a < 65535 ->
  performs dev (phy_mmd_reg_mod32 dev m a mask v) t [OMod32 m a mask v] 0 t.
Proof.
  intros Ha Hb. eapply does_mono; [by apply mod32_spec|]. intros rc t' l (-> & -> & H).
  split_and!; [done|done|]. by apply ops_accs_one.
Qed.
Lemma performs_mod22 dev a mask v t : plain a = true ->
  performs dev (phy_reg_modify dev a mask v) t [OMod22 a mask v] 0 t.
Proof.
  intros Ha. apply does_bind, does_reg_rd; [done|]. intros x Hx. change (negb (0 =? MEPA_RC_OK)) with false. cbv iota.
  apply does_reg_wr; [done|]. split_and!; [done|done|]. apply ops_accs_one. exists x. by rewrite u16_u16.
Qed.
(** A wait, whose result is not looked at. *)
Lemma polled_end n mask v : polled n mask [] v <-> v .& mask <> mask \/ v .& mask = mask /\ n = 0%nat.
Proof. unfold polled. cbn [length]. split; intros H; [destruct H as [_ [[? ?]|[? ?]]]; auto|]; split; [constructor|]; intuition lia. Qed.
Lemma polled_cons n mask x vs v : x .& mask = mask -> polled n mask vs v -> polled (S n) mask (x :: vs) v.
Proof. intros Hx [Hf Hv]. split; [by constructor|]. cbn [length]. intuition lia. Qed.
Lemma poll_loop_does n (rd1 : Z -> list access) mask (rd : Z -> M (Z * Z)) cur t :
  (forall cur, does (rd cur) t (fun r t' l => t' = t /\ l = rd1 (snd r))) ->
  does (poll_loop n rd (poll_matches mask mask 0) cur) t (fun _ t' l => t' = t /\
    exists vs v, l = concat (map rd1 (vs ++ [v])) /\ polled n mask vs v).
Proof.
  intros Hrd. revert cur. induction n as [|n IH]; intros cur; cbn [poll_loop]; apply does_bind;
    (eapply does_mono; [apply Hrd|]); intros [rc x] ? ? [-> ->]; cbn [snd]; unfold poll_matches;
    destruct (Z.eqb_spec (x .& mask) mask) as [E|E]; cbn [cb Z.eqb].
  - apply does_ret. split; [done|]. exists [], x. split; [done|]. apply polled_end. by right.
  - apply does_ret. split; [done|]. exists [], x. split; [done|]. apply polled_end. by left.
  - eapply does_mono; [apply IH|]. intros r t' l (-> & vs & v & -> & Hp). split; [done|]. exists (x :: vs), v.
    split; [done|by apply polled_cons].
  - apply does_ret. split; [done|]. exists [], x. split; [done|]. apply polled_end. by left.
Qed.
Lemma concat_single {A} (f : Z -> A) l : concat (map (fun v => [f v]) l) = map f l.
Proof. induction l as [|v l IH]; cbn; congruence. Qed.
Lemma performs_poll22 n dev a mask cur {C} (k : M C) t t' os c : plain a = true -> performs dev k t os c t' ->
  performs dev (phy_mmd_reg_poll n dev 0 a mask mask 0 cur ;;; k) t (OPoll22 n a mask :: os) c t'.
Proof.
  intros Ha Hk. apply does_bind. eapply does_mono.
  { apply (poll_loop_does n (fun v => [ARd dev (Direct a) v])). intros v0. cbn [Z.eqb].
    apply does_reg_rd; [done|]. by intros v _. }
  intros r ? l1 (-> & vs & v & -> & Hp). rewrite concat_single. eapply does_mono; [exact Hk|].
  intros ? ? l2 (-> & -> & H2). split_and!; [done|done|]. eexists _, l2. split_and!; [done| |done]. by exists vs, v.
Qed.
Lemma performs_poll32 n dev m a mask cur {C} (k : M C) t t' os c : mmd_ok (m, a) = true -> a < 65535 -> performs dev k t os c t' ->
  performs dev (phy_mmd_reg_poll32 n dev m a mask mask 0 cur ;;; k) t (OPoll32 n m a mask :: os) c t'.
Proof.
  intros Ha Hb Hk. apply does_bind. eapply does_mono.
  { apply (poll_loop_does n (halves_rd dev m a)). intros v0.
    apply does_rd32; [done..|]. intros lo hi Hlo Hhi. split; [done|]. cbn [snd]. unfold halves_rd.
    assert ((hi * 65536 + lo) mod 65536 = lo /\ (hi * 65536 + lo) / 65536 = hi) as [-> ->] by (Z.div_mod_to_equations; lia).
    done. }
  intros r ? l1 (-> & vs & v & -> & Hp). eapply does_mono; [exact Hk|].
  intros ? ? l2 (-> & -> & H2). split_and!; [done|done|]. eexists _, l2. split_and!; [done| |done]. by exists vs, v.
Qed.
End Performs.

(** ** Events *)

(** The interrupts that stand for the events [on]. *)
Definition link_mask (on : Z -> bool) : Z := (if on 3 then 6 else 0) .| (if on 6 then 64 else 0).
Definition en0_mask (on : Z -> bool) : Z := if on 3 || on 6 then 4 else 0.
Definition en1_mask (on : Z -> bool) : Z := if on 9 || on 10 then 1 else 0.
Definition add_masks (on : Z -> bool) (m : masks) : masks :=
  let '(int, en0, en1) := m in (int .| link_mask on, en0 .| en0_mask on, en1 .| en1_mask on).

Lemma masks_ext on on' m : (forall j, 0 <= j -> on j = on' j) -> add_masks on m = add_masks on' m.
Proof. intros H. unfold add_masks, link_mask, en0_mask, en1_mask. by rewrite !H. Qed.
Lemma land_bit x i : 0 <= i -> x .& 2 ^ i = if Z.testbit x i then 2 ^ i else 0.
Proof.
  intros Hi. apply Z.bits_inj'. intros j Hj. rewrite Z.land_spec, Z.pow2_bits_eqb by done.
  destruct (Z.eqb_spec i j) as [->|Hne]; [destruct (Z.testbit x j) eqn:E|destruct (Z.testbit x i)];
    rewrite ?Z.pow2_bits_eqb, ?Z.bits_0, ?Z.eqb_refl, ?(proj2 (Z.eqb_neq i j)), ?andb_false_r by done; done.
Qed.
Lemma add_masks_or on on' m : add_masks on (add_masks on' m) = add_masks (fun j => on j || on' j) m.
Proof.
  destruct m as [[int en0] en1]. unfold add_masks. rewrite <- !Z.lor_assoc. unfold link_mask, en0_mask, en1_mask.
  destruct (on 3), (on' 3), (on 6), (on' 6), (on 9), (on' 9), (on 10), (on' 10); reflexivity.
Qed.
Lemma below_32 (P : Z -> Prop) i : 0 <= i < 32 -> (forall n, (n < 32)%nat -> P (Z.of_nat n)) -> P i.
Proof. intros Hi HP. rewrite <- (Z2Nat.id i) by lia. apply HP. lia. Qed.
Lemma event_masks_bit i (b : bool) m : 0 <= i < 32 ->
  event_masks (if b then 2 ^ i else 0) m = add_masks (fun j => b && (i =? j)) m.
Proof.
  intros Hi. destruct m as [[int en0] en1]. destruct b; [|by unfold add_masks; cbn; rewrite !Z.lor_0_r].
  revert i Hi. refine (fun i Hi => below_32 (fun i => event_masks (2 ^ i) (int, en0, en1) = add_masks (fun j => i =? j) (int, en0, en1)) i Hi _).
  intros n Hn. do 32 (destruct n as [|n]; [cbn; rewrite ?Z.lor_0_r; try rewrite <- Z.lor_assoc; reflexivity|]). lia.
Qed.
(** One turn of the loop. *)
Lemma event_masks_add ev i k m : 0 <= i < 32 -> i <= k ->
  add_masks (fun j => Z.testbit ev j && (i + 1 <=? j) && (j <=? k)) (event_masks (ev .& BIT32 i) m) =
  add_masks (fun j => Z.testbit ev j && (i <=? j) && (j <=? k)) m.
Proof.
  intros Hi Hk. unfold BIT32. rewrite Z.shiftl_mul_pow2, Z.mul_1_l, land_bit, event_masks_bit, add_masks_or by lia.
  apply masks_ext. intros j _. destruct (Z.eqb_spec i j) as [->|]; [|rewrite andb_false_r, orb_false_r; f_equal; f_equal; lia].
  destruct (Z.testbit ev j); cbn; lia.
Qed.
(** Without its lowest bit, a number is 0 or has the same highest bit. *)
Lemma log2_clear x i : 0 <= i -> 0 < x -> x mod 2 ^ i = 0 ->
  let y := x .& .~ BIT32 i in 0 <= y /\ y mod 2 ^ (i + 1) = 0 /\ (y = 0 -> Z.log2 x = i) /\ (y <> 0 -> Z.log2 y = Z.log2 x /\ i < Z.log2 x).
Proof.
  intros Hi Hx Hm y. assert (forall j, 0 <= j -> Z.testbit y j = Z.testbit x j && negb (i =? j)) as Hy.
  { intros j Hj. unfold y, BIT32. rewrite Z.land_spec, Z.lnot_spec, Z.shiftl_mul_pow2, Z.mul_1_l, Z.pow2_bits_eqb by lia. done. }
  assert (forall j, 0 <= j < i -> Z.testbit x j = false) as Hlow.
  { intros j Hj. rewrite <- (Z.mod_pow2_bits_low x i j), Hm by lia. apply Z.bits_0. }
  assert (0 <= y) as Hy0 by (unfold y; apply Z.land_nonneg; left; lia). clearbody y.
  assert (Z.testbit x (Z.log2 x) = true) as Hl by (by apply Z.bit_log2).
  assert (i <= Z.log2 x) as Hil.
  { destruct (Z.le_gt_cases i (Z.log2 x)); [done|]. rewrite Hlow in Hl; [done|]. split; [apply Z.log2_nonneg|done]. }
  split_and!; [done| | |].
  - apply Z.bits_inj'. intros j Hj. rewrite Z.bits_0, Z.testbit_mod_pow2 by lia.
    destruct (Z.ltb_spec j (i + 1)); [|done]. cbn. rewrite Hy by done.
    destruct (Z.eqb_spec i j); [by rewrite andb_false_r|]. by rewrite Hlow by lia.
  - intros E. destruct (Z.eq_dec i (Z.log2 x)) as [|Hne]; [done|]. pose proof (Hy (Z.log2 x) (Z.log2_nonneg x)) as H.
    rewrite E, Z.bits_0, Hl, (proj2 (Z.eqb_neq _ _) Hne) in H. done.
  - intros E. assert (Z.testbit y (Z.log2 y) = true) as Hyl by (apply Z.bit_log2; lia).
    rewrite Hy in Hyl by apply Z.log2_nonneg. apply andb_true_iff in Hyl as [Hxl Hne].
    assert (Z.log2 y <= Z.log2 x) as H1.
    { destruct (Z.le_gt_cases (Z.log2 y) (Z.log2 x)); [done|]. rewrite Z.bits_above_log2 in Hxl; [done|lia|done]. }
    assert (i < Z.log2 y) as H2.
    { destruct (Z.lt_trichotomy i (Z.log2 y)) as [|[->|Hlt]]; [done|by rewrite Z.eqb_refl in Hne|].
      rewrite Hlow in Hxl; [done|]. split; [apply Z.log2_nonneg|done]. }
    split; [|lia]. apply Z.le_antisymm; [done|]. destruct (Z.le_gt_cases (Z.log2 x) (Z.log2 y)) as [|Hlt]; [done|].
    pose proof (Hy (Z.log2 x) (Z.log2_nonneg x)) as H. rewrite Hl, Z.bits_above_log2 in H by lia.
    by rewrite (proj2 (Z.eqb_neq i (Z.log2 x))) in H by lia.
Qed.
Lemma events_loop_add n i ev tmp m : 0 <= i -> Z.of_nat n = 32 - i -> (0 < n)%nat ->
  0 <= tmp < 2 ^ 32 -> tmp mod 2 ^ i = 0 -> (tmp = 0 -> i = 0) ->
  events_loop n i ev tmp m = add_masks (fun j => Z.testbit ev j && (i <=? j) && (j <=? Z.log2 tmp)) m.
Proof.
  revert i tmp m. induction n as [|n IH]; intros i tmp m Hi Hn Hp Ht Hm H0; [lia|]. cbn [events_loop].
  destruct (Z.eq_dec tmp 0) as [->|Hne].
  { rewrite (H0 eq_refl), Z.land_0_l. cbn [Z.eqb ZERO]. rewrite <- (event_masks_add ev 0 0) by lia.
    rewrite (masks_ext _ (fun _ => false)).
    - destruct (event_masks _ _) as [[? ?] ?]. unfold add_masks. cbn. by rewrite !Z.lor_0_r.
    - intros j Hj. destruct (Z.testbit ev j); [cbn|done]. lia. }
  destruct (log2_clear tmp i Hi ltac:(lia) Hm) as (Hy & Hym & Hz & Hnz). set (y := tmp .& .~ BIT32 i) in *.
  change ZERO with 0. destruct (Z.eqb_spec y 0) as [E|E].
  - rewrite (Hz E), <- event_masks_add by lia. rewrite (masks_ext _ (fun _ => false)).
    + destruct (event_masks _ _) as [[? ?] ?]. unfold add_masks. cbn. by rewrite !Z.lor_0_r.
    + intros j Hj. destruct (Z.testbit ev j); [cbn|done]. lia.
  - destruct (Hnz E) as [El Hil]. assert (Z.log2 tmp < 32) as Hl by (apply Z.log2_lt_pow2; lia).
    assert (y < 2 ^ 32) by (apply Z.log2_lt_pow2; lia). rewrite IH by lia. rewrite El. apply event_masks_add; lia.
Qed.
Lemma events_loop_spec ev event : 0 <= event < 2 ^ 32 ->
  let on j := Z.testbit ev j && (j <=? Z.log2 event) in
  events_loop 32 0 ev event (0, 0, 0) = (link_mask on, en0_mask on, en1_mask on).
Proof.
  intros He on. rewrite events_loop_add by (done || lia || by rewrite Z.mod_1_r). unfold add_masks. rewrite !Z.lor_0_l.
  assert (forall j, 0 <= j -> Z.testbit ev j && (0 <=? j) && (j <=? Z.log2 event) = on j) as H.
  { intros j Hj. unfold on. by rewrite (proj2 (Z.leb_le 0 j)), andb_true_r. }
  unfold link_mask, en0_mask, en1_mask. by rewrite !H.
Qed.
Definition events_on (events event j : Z) : bool := Z.testbit events j && (j <=? Z.log2 event).
Definition event_ops (on : Z -> bool) : list op :=
  [ OWr (Mmd MDIO_MMD_VEND1 LAN8X8X_INT_EN0_SC) (en0_mask on); OWr32 MDIO_MMD_PMAPMD LAN8X8X_INT_IRQ_FUNC_MSK (link_mask on);
    OWr (Mmd MDIO_MMD_VEND1 LAN8X8X_INT_EN1_SC) (en1_mask on) ].
Lemma event_ops_ext on on' : (forall j, 0 <= j -> on j = on' j) -> event_ops on = event_ops on'.
Proof. intros H. unfold event_ops, link_mask, en0_mask, en1_mask. by rewrite !H. Qed.
Lemma link_mask_range on : 0 <= link_mask on < 2 ^ 32.
Proof. unfold link_mask. by destruct (on 3), (on 6). Qed.

(** One step of a straight-line proof. *)
Ltac pf :=
  lazymatch goal with
  | |- performs _ (or_return _ _ _) _ _ _ _ => eapply performs_or
  | |- performs _ (bind (data_of _) _) _ _ _ _ =>
      eapply performs_data; [first [eassumption|apply lookup_insert_eq]|]
  | |- performs _ (bind (upd _ _) _) _ _ _ _ =>
      eapply performs_bind; [apply performs_upd; first [eassumption|apply lookup_insert_eq]|]; rewrite ?insert_insert_eq
  | |- performs _ (upd _ _) _ _ _ _ => apply performs_upd; first [eassumption|apply lookup_insert_eq]
  | |- performs _ (bind (phy_mmd_reg_poll _ _ _ _ _ _ _ _) _) _ _ _ _ => eapply performs_poll22; [reflexivity|]
  | |- performs _ (bind (phy_mmd_reg_poll32 _ _ _ _ _ _ _ _) _) _ _ _ _ => eapply performs_poll32; [reflexivity|reflexivity|]
  | |- performs _ (bind _ _) _ _ _ _ => eapply performs_bind
  | |- performs _ (ret _) _ _ _ _ => apply performs_ret
  | |- performs _ (log _) _ _ _ _ => by apply performs_sleep
  | |- performs _ (phy_mmd_reg_wr _ _ _ _) _ _ _ _ => by apply performs_wr
  | |- performs _ (phy_mmd_reg_wr32 _ _ _ _) _ _ _ _ => apply performs_wr32; [reflexivity|reflexivity|first [apply link_mask_range|split; vm_compute; congruence]]
  | |- performs _ (phy_mmd_reg_modify _ _ _ _ _) _ _ _ _ => by apply performs_mod
  | |- performs _ (phy_mmd_reg_set_bits _ _ _ _) _ _ _ _ => by apply performs_mod
  | |- performs _ (phy_mmd_reg_clear_bits _ _ _ _) _ _ _ _ => by apply performs_mod
  | |- performs _ (phy_mmd_reg_mod32 _ _ _ _ _) _ _ _ _ => by apply performs_mod32
  | |- performs _ (phy_reg_modify _ _ _ _) _ _ _ _ => by apply performs_mod22
  | |- performs _ (phy_reg_set_bits _ _ _) _ _ _ _ => by apply performs_mod22
  | |- performs _ (phy_reg_clear_bits _ _ _) _ _ _ _ => by apply performs_mod22
  end; cbv beta.

Section Setup.
Context {B : Type} {CO : Callout B} {OK : BusOk CO}.
Variables (drv_id : Z) (polls polls32 : nat).
Local Abbreviation table := (gmap Z phy_data_t).
Local Abbreviation M := (M B phy_data_t).
Local Abbreviation does := (does (B := B) (D := phy_data_t) (acc := access)).
Local Abbreviation performs := (performs (B := B)).

Definition events_after (d : phy_data_t) (event enable : Z) : Z :=
  if tb enable then pd_events d .| event else pd_events d .& .~ event.
Lemma performs_events dev event enable t d : t !! dev = Some d -> 0 <= event < 2 ^ 32 ->
  performs dev (lan8x8x_int_events_set dev event enable) t (event_ops (events_on (events_after d event enable) event)) 0
    (<[dev := set_pd_events (events_after d event enable) d]> t).
Proof.
  intros Hd He. unfold lan8x8x_int_events_set. eapply performs_conv; [|reflexivity].
  eapply (performs_bind _ _ _ _ _ _ []); [by apply performs_upd|]. pf. cbn [pd_events set_pd_events].
  rewrite events_loop_spec by done. eapply (performs_bind _ _ _ _ _ _ [_]); [pf|]. cbn [Z.ltb Z.compare].
  eapply (performs_bind _ _ _ _ _ _ [_]); [pf|]. cbn [Z.ltb Z.compare].
  eapply (performs_conv _ _ _ ([_] ++ [])); [|reflexivity]. eapply performs_bind; [pf|]. cbn [Z.ltb Z.compare]. pf.
Qed.

(** C27. Enabling and disabling events.  The set of events becomes the old one
    with or without those of the request; the interrupts that are enabled
    afterwards are those of the events of the new set up to the highest event
    of the request: interrupts of events above it are switched off, whether or
    not the events are enabled. *)
Theorem lan8x8x_event_enable_spec dev event enable (t : table) d : t !! dev = Some d -> 0 <= event < 2 ^ 32 ->
  does (lan8x8x_event_enable_set (Some dev) event enable) t (fun rc t' l =>
    let events := if tb enable then pd_events d .| event else pd_events d .& .~ event in
    rc = MEPA_RC_OK /\ t' = <[dev := set_pd_events events d]> t /\
    let on j := Z.testbit events j && (j <=? Z.log2 event) in
    l = [AWr dev (Mmd 30 0xF0E4) (if on 3 || on 6 then 4 else 0);
         AWr dev (Mmd 1 0x8503) 0; AWr dev (Mmd 1 0x8502) ((if on 3 then 6 else 0) + (if on 6 then 64 else 0));
         AWr dev (Mmd 30 0xF0E5) (if on 9 || on 10 then 1 else 0)]).
Proof.
  intros Hd He. apply does_bind, does_enter, does_bind. eapply does_mono; [by apply (performs_events dev event enable t d)|].
  intros rc t' l (-> & -> & Hl). apply does_bind, does_exit, does_ret. cbv zeta. split_and!; [done|done|].
  cbn [app]. rewrite app_nil_r. unfold event_ops, halves_wr in Hl.
  destruct Hl as (l1 & l2 & -> & -> & l3 & l4 & -> & -> & l5 & l6 & -> & -> & ->).
  change (events_after d event enable) with (if tb enable then pd_events d .| event else pd_events d .& .~ event).
  unfold link_mask, en0_mask, en1_mask, halves_wr, events_on.
  by destruct (Z.testbit _ 3 && _), (Z.testbit _ 6 && _), (Z.testbit _ 9 && _ || _).
Qed.

(** ** Setting a port up

    The operations are a function of the data of the port, written in numbers;
    they end, for the speeds that the driver knows, with the start of the
    transceiver. *)
Definition step_ops (s : step) : list op :=
  match s with
  | Wr16 reg val => [OWr (Mmd MDIO_MMD_VEND1 reg) val]
  | Wr32 reg val => [OWr32 MDIO_MMD_VEND1 reg val]
  | SetBits reg val => [OMod MDIO_MMD_VEND1 reg 0 val]
  | Nsleep _ => []
  end.
Definition sgmii_steps (d : phy_data_t) : list step :=
  sgmii_start ++ if conf_mac_if_aneg_ena (pd_conf d) =? PHY_TRUE then sgmii_aneg else sgmii_forced.

(** SGMII: the clock, the PCS, and either the negotiation with the MAC or the
    SERDES without it. *)
Definition serdes_words : list (Z * Z) :=
  [ (0xF5C8, 0x18); (0xF5C0, 0xB9E0); (0xF514, 0x82422); (0xF5C2, 0x7014014); (0xF5C4, 0x19); (0xF5C6, 0x1000000);
    (0xF5C2, 0x6011002); (0xF5C0, 0x9800); (0xF530, 0xCB3); (0xF516, 0x25555000); (0xF518, 0x7FFF);
    (0xF516, 0x20155000); (0xF5B8, 0x1F804); (0xF514, 0x82422); (0xF52A, 0); (0xF514, 0x82422); (0xF532, 0);
    (0xF532, 1); (0xF5C0, 0x9000); (0xF5C0, 0x8000); (0xF536, 0x8019); (0xF560, 0x4000); (0xF54E, 0x104007);
    (0xF530, 0xCB3); (0xF538, 0x7E); (0xF558, 0xFC); (0xF51A, 0x37); (0xF514, 0x82422); (0xF538, 0x7E); (0xF558, 0);
    (0xF54E, 0x104007); (0xF566, 0); (0xF514, 0x82422); (0xF51A, 7); (0xF5B6, 0) ].
Definition sgmii_ops (aneg : bool) : list op :=
  [OWr32 30 0xF070 0xA; OMod 30 0xF0D8 0 1; OWr (Mmd 30 0xF082) 0xAC0] ++
  if aneg then [OWr (Mmd 30 0xF08B) 6; OWr (Mmd 30 0xF083) 0x38]
  else map (fun p => OWr32 30 (fst p) (snd p)) serdes_words ++ [OWr (Mmd 30 0xF08B) 6; OWr (Mmd 30 0xF083) 0x20].
(** 1000BASE-T1, configured or advertised; the delays of the RGMII clocks. *)
Definition gigabit (d : phy_data_t) : bool :=
  (conf_speed (pd_conf d) =? MESA_SPEED_AUTO) && (adv_speed_1g_fdx (conf_aneg (pd_conf d)) =? 1)
  || (conf_speed (pd_conf d) =? MESA_SPEED_1G).
Definition mac_end (lpbk ra : Z) : list op := [OWr (Mmd 30 0xF0DF) lpbk; OMod 30 0xF088 16 ra].
Definition rx_delay (mac_if : Z) : bool := (mac_if =? MESA_PORT_INTERFACE_RGMII_ID) || (mac_if =? MESA_PORT_INTERFACE_RGMII_RXID).
Definition tx_delay (mac_if : Z) : bool := (mac_if =? MESA_PORT_INTERFACE_RGMII_ID) || (mac_if =? MESA_PORT_INTERFACE_RGMII_TXID).
Definition dll (b : bool) : Z := if b then 0x8001 else 0.
Definition mac_ops (d : phy_data_t) : list op :=
  if pd_mac_if d =? MESA_PORT_INTERFACE_SGMII then
    sgmii_ops (conf_mac_if_aneg_ena (pd_conf d) =? 1) ++ mac_end (if gigabit d then 1 else 0) 16
  else [OMod 30 0xF07A 0x8001 (dll (rx_delay (pd_mac_if d))); OMod 30 0xF07B 0x8001 (dll (tx_delay (pd_mac_if d)))] ++
       mac_end 0 0.

(** What a LED mode is to the chip; a LED in another mode is left alone. *)
Definition led_bytes : list (Z * Z) :=
  [ (MEPA_GPIO_MODE_LED_LINK_ACTIVITY, 0); (MEPA_GPIO_MODE_LED_LINK1000_ACTIVITY, 1);
    (MEPA_GPIO_MODE_LED_LINK100_ACTIVITY, 2); (MEPA_GPIO_MODE_LED_FORCE_LED_OFF, 14);
    (MEPA_GPIO_MODE_LED_FORCE_LED_ON, 15); (MEPA_GPIO_MODE_LED_LINK_NO_ACT_ANY_SPEED, 3);
    (MEPA_GPIO_MODE_LED_LOCAL_RXER_STATUS, 5); (MEPA_GPIO_MODE_LED_REMOTE_RXER_STATUS, 6);
    (MEPA_GPIO_MODE_LED_NEGOTIATED_SPEED, 7); (MEPA_GPIO_MODE_LED_MASTER_SLAVE_MODE, 8);
    (MEPA_GPIO_MODE_LED_PCS_TX_ERR_STATUS, 9); (MEPA_GPIO_MODE_LED_PCS_RX_ERR_STATUS, 10);
    (MEPA_GPIO_MODE_LED_PCS_TX_ACTIVITY, 11); (MEPA_GPIO_MODE_LED_PCS_RX_ACTIVITY, 12);
    (MEPA_GPIO_MODE_LED_WAKE_ON_LAN, 13) ].
Definition led_byte (mode : Z) : option Z := option_map snd (find (fun p => mode =? fst p) led_bytes).
(** LED 0 and 1 share a register, as do 2 and 3: the LED of even number has the
    lower byte; a LED is written with 0 for the other one. *)
Definition TOP : reg := Mmd 1 0x8902.
Definition ROLE : reg := Mmd 1 2100.
Definition LEDS01 : reg := Mmd 30 0xF011.
Definition LEDS23 : reg := Mmd 30 0xF012.
Definition led (i : nat) (c : mepa_gpio_conf_t) : list (reg * Z) :=
  match led_byte (gpio_mode c) with
  | Some v => [(if (i <? 2)%nat then LEDS01 else LEDS23, if Nat.odd i then v * 256 else v)]
  | None => []
  end.
Definition leds (d : phy_data_t) : list (reg * Z) := concat (imap led (pd_led_conf d)).
Definition leds_ops (d : phy_data_t) : list op := map (fun p => OWr (fst p) (snd p)) (leds d).

(** From the reset of the port to the soft reset of the transceiver. *)
Definition reset_ops (d : phy_data_t) : list op :=
  [OMod22 0 0 0x8000; OPoll22 polls 0 0x8000; ORd (Mmd 30 0xC22); OMod22 0 0x400 0] ++ leds_ops d ++
  [OMod32 3 0 0x4000 0] ++ event_ops (Z.testbit (pd_events d)) ++ leds_ops d ++
  [OMod 7 0x200 0x1200 0; OWr32 1 0x8902 0; OWr32 1 0x8902 2; OPoll32 polls32 1 0x8902 2].
Definition pcs_ops : list op := if IS_LAN888X drv_id then [OMod32 3 0x8300 7 7] else [OWr32 3 0x8300 0].
Definition bypass_op : op := OMod 30 0xF0D8 0 1.
Definition start_ops : list op := [OWr32 1 0x8902 9; bypass_op].
(** Role and speed without auto-negotiation, and what is advertised with it. *)
Definition media_100 (d : phy_data_t) : bool := pd_media_intf d =? MESA_PHY_MEDIA_IF_T1_100FX.
Definition forced_value (d : phy_data_t) : Z :=
  (if conf_man_neg (pd_conf d) =? MEPA_MANUAL_NEG_REF then 0x4000 else 0) +
  (if negb (media_100 d) && (conf_speed (pd_conf d) =? MESA_SPEED_1G) then 1 else 0).
Definition adverts (d : phy_data_t) : Z :=
  (if conf_man_neg (pd_conf d) =? MEPA_MANUAL_NEG_CLIENT then 0 else 16) + 32 +
  (if negb (media_100 d) && (adv_speed_1g_fdx (conf_aneg (pd_conf d)) =? 1) then 128 else 0).
Definition tune_100m : list op := [OWr32 1 0x8040 0x600E2804; OWr32 1 0x822A 0x14F4040C; OWr32 1 0x822C 0x43].
Definition tune_1g : list op := [OWr32 1 0x8100 0x5FE34C08; OWr32 1 0x8834 0x1043].
Definition media_ops (d : phy_data_t) : list op :=
  let speed := conf_speed (pd_conf d) in
  if speed =? MESA_SPEED_AUTO then [OMod 7 515 176 (adverts d); OWr (Mmd 7 514) 0; OMod 7 512 0 0x1200] ++ start_ops
  else [OWr ROLE (forced_value d)] ++
    if speed =? MESA_SPEED_100M then tune_100m ++ start_ops
    else if speed =? MESA_SPEED_1G then tune_1g ++ start_ops
    else [].
Definition setup_ops (d : phy_data_t) : list op := reset_ops d ++ pcs_ops ++ mac_ops d ++ media_ops d.
(** A speed the driver can start the transceiver for. *)
Definition starts (d : phy_data_t) : bool :=
  let speed := conf_speed (pd_conf d) in (speed =? MESA_SPEED_AUTO) || (speed =? MESA_SPEED_100M) || (speed =? MESA_SPEED_1G).
(** The data afterwards, [id1] and [id2] being what the two identifier registers hold. *)
Definition device_info (id1 id2 : Z) : phy_dev_info_t :=
  Mk_phy_dev_info_t (((id1 .<< 2) .& 0x3FFFC) .| ((((id2 .>> 10) .& 63) .<< 18) .& 0xFFFFFFFF)) ((id2 .>> 4) .& 63)
    (id2 .& 15) 0 0.
Definition after_reset (d : phy_data_t) : phy_data_t := set_pd_init_done 0 (set_pd_loopback mepa_loopback_t_0 d).
Definition after_setup (id1 id2 : Z) (d : phy_data_t) : phy_data_t :=
  set_pd_init_done (if starts d then 1 else 0) (set_pd_loopback mepa_loopback_t_0 (set_pd_dev (device_info id1 id2) d)).
(** The accesses of the set-up: the operations above, of which the writes to
    the registers of the transceiver's reset, of the role and of the LEDs are
    named once more in their order, and the bypass after the start. *)
Definition sets_up (dev : Z) (d : phy_data_t) (id1 id2 : Z) (l : list access) : Prop :=
  exists l1 l2, l = [ARd dev (Direct 2) id1; ARd dev (Direct 3) id2] ++ l1 ++ l2 /\ ops_accs dev (setup_ops d) (l1 ++ l2) /\
  written [TOP; ROLE; LEDS01; LEDS23] l1 =
    leds d ++ leds d ++ [(TOP, 0); (TOP, 2)] ++
    (if conf_speed (pd_conf d) =? MESA_SPEED_AUTO then [] else [(ROLE, forced_value d)]) ++
    (if starts d then [(TOP, 9)] else []) /\
  ops_accs dev (if starts d then [bypass_op] else []) l2.

Lemma performs_steps dev l k t os : forallb (fun s => match s with
    | Wr16 r _ | SetBits r _ => mmd_ok (MDIO_MMD_VEND1, r)
    | Wr32 r v => mmd_ok (MDIO_MMD_VEND1, r) && (r <? 65535) && (0 <=? v) && (v <? 2 ^ 32)
    | Nsleep _ => true end) l = true ->
  performs dev k t os 0 t -> performs dev (run_steps dev l k) t (concat (map step_ops l) ++ os) 0 t.
Proof.
  intros Hl Hk. induction l as [|s l IH]; cbn [run_steps map concat forallb app] in *; [done|].
  apply andb_true_iff in Hl as [Hs Hl]. rewrite <- app_assoc. eapply performs_or; [|by apply IH].
  destruct s as [r v|r v|r v|n]; cbn [run_step step_ops].
  - by apply performs_wr.
  - do 3 (apply andb_true_iff in Hs as [Hs ?]). apply performs_wr32; [done|lia|lia].
  - by apply performs_mod.
  - eapply (performs_bind _ _ _ _ _ _ [] []); [by apply performs_sleep|apply performs_ret].
Qed.

Local Ltac by_ops := eapply performs_conv.
Lemma sgmii_table d : concat (map step_ops (sgmii_steps d)) = sgmii_ops (conf_mac_if_aneg_ena (pd_conf d) =? 1).
Proof. unfold sgmii_steps. change PHY_TRUE with 1. by destruct (_ =? 1). Qed.
Lemma performs_mac dev t d : t !! dev = Some d -> mac_ok d = true ->
  performs dev (lan8x8x_config_mac dev) t (mac_ops d) 0 t.
Proof.
  intros Hd Hm. unfold lan8x8x_config_mac, mac_ops. pf. destruct (pd_mac_if d =? MESA_PORT_INTERFACE_SGMII) eqn:Es.
  - rewrite <- sgmii_table. eapply (performs_bind _ _ _ _ _ _ (concat (map step_ops (sgmii_steps d)))
      (mac_end (if gigabit d then 1 else 0) 16)).
    + by_ops. eapply performs_bind.
      * unfold lan8x8x_sgmii_init. apply performs_steps; [reflexivity|]. pf. apply performs_steps;
          [by destruct (_ =? PHY_TRUE)|pf].
      * pf. apply (performs_ret _ (_, _, _)).
      * rewrite !app_nil_r. unfold sgmii_steps. by rewrite map_app, concat_app.
    + cbn [Z.eqb MEPA_RC_OK]. change (_ && _ || _) with (gigabit d). unfold mac_end. by_ops. repeat pf. done.
  - assert (exists r x, rgmii_delays (pd_mac_if d) = Some (dll r, dll x) /\ r = rx_delay (pd_mac_if d) /\ x = tx_delay (pd_mac_if d))
      as (r & x & Er & -> & ->).
    { exists (rx_delay (pd_mac_if d)), (tx_delay (pd_mac_if d)). split; [|done].
      unfold mac_ok in Hm. cbn [existsb] in Hm. rewrite Es in Hm. cbn [orb] in Hm.
      repeat (apply orb_true_iff in Hm as [Hm|Hm]; [apply Z.eqb_eq in Hm; rewrite Hm; reflexivity|]). done. }
    eapply (performs_bind _ _ _ _ _ _ _ (mac_end 0 0)).
    + eapply (performs_conv _ _ _ ([_; _] ++ [])); [eapply performs_bind; [|apply (performs_ret _ (_, _, _))]|done].
      unfold lan8x8x_rgmii_init. pf. rewrite Er. by_ops; [repeat pf|done].
    + cbn [Z.eqb MEPA_RC_OK]. by_ops; [repeat pf|done].
Qed.

Lemma led_value_byte m : led_value m = led_byte m.
Proof.
  unfold led_value, led_byte, led_modes, led_bytes. cbn [find fst].
  repeat match goal with |- context [m =? ?k] => destruct (Z.eqb_spec m k) as [->|_]; [reflexivity|] end. reflexivity.
Qed.
Lemma led_byte_range m v : led_byte m = Some v -> 0 <= v < 256 /\ is_led_mode m = true.
Proof.
  unfold led_byte. destruct (find _ led_bytes) as [p|] eqn:E; cbn [option_map]; [|done]. intros [= <-].
  apply find_some in E as [Hin ->%Z.eqb_eq]. by repeat (destruct Hin as [<-|Hin]; [split; [split|]; vm_compute; congruence|]).
Qed.
Definition wr_op (p : reg * Z) : op := OWr (fst p) (snd p).
Lemma performs_led dev i c k t t' os : 0 <= i < 4 -> led_ok i c = true -> performs dev k t os 0 t' ->
  performs dev (if is_led_mode (gpio_mode c) then or_return ret (lan8x8x_config_led dev c) k else k) t
    (map wr_op (led (Z.to_nat i) c) ++ os) 0 t'.
Proof.
  intros Hi Hc Hk. unfold led_ok in Hc. unfold led. rewrite led_value_byte in Hc. destruct (led_byte (gpio_mode c)) as [v|] eqn:Ev.
  2:{ by destruct (is_led_mode (gpio_mode c)), (gpio_led_num c =? i). }
  destruct (led_byte_range _ _ Ev) as [Hr Hm]. rewrite Hm in *. cbn [negb orb] in Hc.
  apply andb_true_iff in Hc as [Hn _]. apply Z.eqb_eq in Hn.
  eapply performs_or; [|exact Hk]. unfold lan8x8x_config_led. rewrite led_value_byte, Ev, Hn.
  assert (u16 (v .<< 8) = v * 256) as Hs by (rewrite Z.shiftl_mul_pow2 by lia; apply u16_small; lia).
  assert (i = 0 \/ i = 1 \/ i = 2 \/ i = 3) as [->|[->|[->| ->]]] by lia; cbn -[u16 Z.mul]; rewrite ?Hs;
    by apply performs_wr.
Qed.
Lemma performs_leds_step dev i c l k t t' d os : t !! dev = Some d -> pd_led_conf d !! Z.to_nat i = Some c ->
  0 <= i < 4 -> led_ok i c = true -> performs dev (leds_loop dev PHY_FALSE l k) t os 0 t' ->
  performs dev (leds_loop dev PHY_FALSE (i :: l) k) t (map wr_op (led (Z.to_nat i) c) ++ os) 0 t'.
Proof.
  intros Hd Hl Hi Hc Hk. cbn [leds_loop]. pf. eapply (performs_bind _ _ _ _ _ _ []).
  - eapply does_arr; [lia|exact Hl|done].
  - by apply performs_led.
Qed.
Lemma leds_four d c0 c1 c2 c3 : pd_led_conf d = [c0; c1; c2; c3] -> leds d = led 0 c0 ++ led 1 c1 ++ led 2 c2 ++ led 3 c3.
Proof. unfold leds. intros ->. cbn [imap concat Nat.add compose]. by rewrite app_nil_r. Qed.
Lemma performs_leds dev t d : t !! dev = Some d -> leds_ok d = true ->
  performs dev (lan8x8x_config_leds dev PHY_FALSE) t (leds_ops d) 0 t.
Proof.
  intros Hd Hl. unfold lan8x8x_config_leds, leds_ok, leds_ops in *.
  destruct (pd_led_conf d) as [|c0 [|c1 [|c2 [|c3 [|]]]]] eqn:E; try done.
  apply andb_true_iff in Hl as [Hl H3]. apply andb_true_iff in Hl as [Hl H2]. apply andb_true_iff in Hl as [H0 H1].
  rewrite (leds_four _ _ _ _ _ E). fold wr_op. rewrite !map_app.
  eapply (performs_conv _ _ _ (_ ++ _ ++ _ ++ _ ++ [])); [|by rewrite app_nil_r].
  repeat (eapply performs_leds_step; [exact Hd|by rewrite E|lia|done|]). apply performs_ret.
Qed.

Lemma clear_loopback dev t d : t !! dev = Some d ->
  performs dev (lan8x8x_setup_lpbk dev None) t [OMod32 MDIO_MMD_PCS MDIO_CTRL1 BMCR_LOOPBACK 0] 0
    (<[dev := set_pd_loopback mepa_loopback_t_0 d]> t).
Proof.
  intros Hd. unfold lan8x8x_setup_lpbk, lpbk_setting. eapply (performs_bind _ _ _ _ _ _ []); [by apply performs_upd|].
  eapply (performs_bind _ _ _ _ _ _ []); [apply (performs_ret _ (_, _, _))|]. cbv beta iota. by_ops; [repeat pf|done].
Qed.
Lemma performs_rd dev m a cur {C} (fail : Z -> M C) (k : Z -> M C) t t' os c : mmd_ok (m, a) = true ->
  (forall v, performs dev (k v) t os c t') ->
  performs dev (Lan8x8x.reading fail (phy_mmd_reg_rd dev m a cur) k) t (ORd (Mmd m a) :: os) c t'.
Proof.
  intros Ha Hk. apply does_bind, does_phy_mmd_reg_rd; [done|]. intros v _. cbn [negb Z.eqb MEPA_RC_OK].
  eapply does_mono; [apply Hk|]. intros ? ? l (-> & -> & Hl). split_and!; [done|done|]. eexists _, l. split_and!; [done|by exists v|done].
Qed.
Lemma performs_events_same dev t d : t !! dev = Some d -> 0 <= pd_events d < 2 ^ 32 ->
  performs dev (lan8x8x_int_events_set dev (pd_events d) PHY_TRUE) t (event_ops (Z.testbit (pd_events d))) 0 t.
Proof.
  intros Hd He. assert (events_after d (pd_events d) PHY_TRUE = pd_events d) as Ee by apply Z.lor_diag.
  assert (set_pd_events (pd_events d) d = d) as Es by by destruct d.
  pose proof (performs_events dev (pd_events d) PHY_TRUE t d Hd He) as H. rewrite Ee, Es, (insert_id t dev d Hd) in H.
  eapply performs_conv; [exact H|]. apply event_ops_ext. intros j Hj. unfold events_on.
  destruct (Z.testbit (pd_events d) j) eqn:E; [|done]. apply Z.leb_le.
  destruct (Z.le_gt_cases j (Z.log2 (pd_events d))); [done|]. rewrite Z.bits_above_log2 in E; [done|lia|done].
Qed.
Lemma performs_cfg_clr dev t d : t !! dev = Some d -> leds_ok d = true -> 0 <= pd_events d < 2 ^ 32 ->
  performs dev (lan8x8x_phy_cfg_clr dev) t
    ([ORd (Mmd MDIO_MMD_VEND1 0xc22); OMod22 MII_BMCR BMCR_ISOLATE 0] ++ leds_ops d ++
     [OMod32 MDIO_MMD_PCS MDIO_CTRL1 BMCR_LOOPBACK 0] ++ event_ops (Z.testbit (pd_events d))) 0
    (<[dev := set_pd_loopback mepa_loopback_t_0 d]> t).
Proof.
  intros Hd Hl He. unfold lan8x8x_phy_cfg_clr. apply performs_rd; [done|]. intros _.
  eapply (performs_or _ _ _ _ _ _ _ [_]); [pf|]. eapply performs_or; [by apply performs_leds|].
  eapply performs_or; [by apply clear_loopback|]. pf. eapply (performs_conv _ _ _ (_ ++ [])); [|apply app_nil_r].
  eapply performs_or; [|pf]. apply (performs_events_same dev _ (set_pd_loopback mepa_loopback_t_0 d));
    [apply lookup_insert_eq|done].
Qed.
Lemma performs_reset dev t d : t !! dev = Some d -> leds_ok d = true -> 0 <= pd_events d < 2 ^ 32 ->
  performs dev (lan8x8x_phy_reset polls polls32 dev) t (reset_ops d) 0 (<[dev := after_reset d]> t).
Proof.
  intros Hd Hl He. unfold lan8x8x_phy_reset, reset_ops.
  eapply performs_conv; [pf; [pf|]; pf; pf; [by apply (performs_cfg_clr dev t d)|]; pf;
    [by apply (performs_leds dev _ (set_pd_loopback mepa_loopback_t_0 d)); [apply lookup_insert_eq|]|]; repeat pf|].
  cbn [app]. by rewrite <- !app_assoc.
Qed.
Lemma performs_init dev t d : t !! dev = Some d -> mac_ok d = true ->
  performs dev (lan8x8x_phy_init drv_id dev) t (pcs_ops ++ mac_ops d) 0 t.
Proof.
  intros Hd Hm. unfold lan8x8x_phy_init, pcs_ops. eapply performs_or; [destruct (IS_LAN888X drv_id); pf|].
  eapply (performs_conv _ _ _ (_ ++ [])); [|apply app_nil_r]. pf; [by apply performs_mac|pf].
Qed.

Lemma performs_done dev t d : t !! dev = Some d -> pd_init_done d = PHY_FALSE ->
  performs dev (lan8x8x_config_done dev PHY_FALSE) t start_ops 0 (<[dev := set_pd_init_done PHY_TRUE d]> t).
Proof.
  intros Hd Hi. unfold lan8x8x_config_done. eapply (performs_or _ _ _ _ _ _ _ [_]); [pf|]. cbn [tb negb Z.eqb PHY_FALSE].
  unfold lan8x8x_onetime_post_config_done. pf. rewrite Hi. cbn [tb negb Z.eqb PHY_FALSE].
  eapply (performs_or _ _ _ _ _ _ _ [_]); [pf|]. eapply (performs_bind _ _ _ _ _ _ [] []); [pf|pf].
Qed.
Lemma performs_aneg dev t d : t !! dev = Some d ->
  performs dev (lan8x8x_pma_baset1_setup_aneg dev) t
    [OMod MDIO_MMD_AN MDIO_AN_T1_ADV_M (MDIO_AN_T1_ADV_M_B1000 .| MDIO_AN_T1_ADV_M_B100 .| MDIO_AN_T1_ADV_M_MST) (adverts d);
     OWr (Mmd MDIO_MMD_AN MDIO_AN_T1_ADV_L) 0;
     OMod MDIO_MMD_AN MDIO_AN_T1_CTRL 0 (MDIO_AN_CTRL1_ENABLE .| MDIO_AN_CTRL1_RESTART)] 0 t.
Proof.
  intros Hd. unfold lan8x8x_pma_baset1_setup_aneg. pf. cbv zeta. by_ops; [repeat pf|]. unfold adverts, media_100.
  by destruct (conf_man_neg _ =? _), (_ && _).
Qed.
Lemma performs_forced dev t d : t !! dev = Some d ->
  performs dev (lan8x8x_pma_baset1_setup_forced dev) t
    [OWr (Mmd MDIO_MMD_PMAPMD MDIO_PMA_PMD_BT1_CTRL) (forced_value d)] 0 t.
Proof.
  intros Hd. unfold lan8x8x_pma_baset1_setup_forced. pf. cbv zeta. by_ops; [repeat pf|]. unfold forced_value, media_100.
  by destruct (conf_man_neg _ =? _), (_ && _).
Qed.
(** The rest of the set-up, from the reset on. *)
Definition setup_rest (dev : Z) : M Z :=
  or_return ret (lan8x8x_phy_reset polls polls32 dev)
  (or_return ret (lan8x8x_phy_init drv_id dev)
  (data <- data_of dev ;;
   if conf_speed (pd_conf data) =? MESA_SPEED_AUTO then
     or_return ret (lan8x8x_pma_baset1_setup_aneg dev) (or_return ret (lan8x8x_config_done dev PHY_FALSE) (ret MEPA_RC_OK))
   else
     or_return ret (lan8x8x_pma_baset1_setup_forced dev)
     (data <- data_of dev ;;
      or_return ret (lan8x8x_phy_config dev (conf_speed (pd_conf data)) PHY_FALSE) (ret MEPA_RC_OK)))).
Lemma performs_rest dev t d : t !! dev = Some d -> leds_ok d = true -> mac_ok d = true -> 0 <= pd_events d < 2 ^ 32 ->
  performs dev (setup_rest dev) t (setup_ops d) 0
    (<[dev := if starts d then set_pd_init_done PHY_TRUE (after_reset d) else after_reset d]> t).
Proof.
  intros Hd Hl Hm He. unfold setup_rest, setup_ops. eapply performs_or; [by apply performs_reset|].
  rewrite (app_assoc pcs_ops). eapply performs_or;
    [apply (performs_init dev _ (after_reset d)); [apply lookup_insert_eq|exact Hm]|].
  pf. change (conf_speed (pd_conf (after_reset d))) with (conf_speed (pd_conf d)). unfold media_ops, starts. cbv zeta.
  destruct (conf_speed (pd_conf d) =? MESA_SPEED_AUTO).
  - eapply performs_or; [apply (performs_aneg dev _ (after_reset d)), lookup_insert_eq|].
    eapply (performs_conv _ _ _ (_ ++ [])); [|apply app_nil_r]. cbn [orb].
    rewrite <- (insert_insert_eq t dev (set_pd_init_done PHY_TRUE (after_reset d)) (after_reset d)).
    pf; [apply performs_done; [apply lookup_insert_eq|done]|pf].
  - eapply performs_or; [apply (performs_forced dev _ (after_reset d)), lookup_insert_eq|]. pf.
    eapply (performs_conv _ _ _ (_ ++ [])); [|apply app_nil_r]. pf; [|pf].
    change (conf_speed (pd_conf (after_reset d))) with (conf_speed (pd_conf d)).
    unfold lan8x8x_phy_config, lan8x8x_speed_config. cbn [orb].
    change MEPA_SPEED_100M with MESA_SPEED_100M. change MEPA_SPEED_1G with MESA_SPEED_1G.
    destruct (conf_speed (pd_conf d) =? MESA_SPEED_100M); [|destruct (conf_speed (pd_conf d) =? MESA_SPEED_1G)]; cbn [orb].
    1,2: rewrite <- (insert_insert_eq t dev (set_pd_init_done PHY_TRUE (after_reset d)) (after_reset d));
      (eapply (performs_bind _ _ _ _ _ _ _ _ PHY_TRUE); [|apply performs_done; [apply lookup_insert_eq|done]]); by_ops; [repeat pf|done].
    eapply (performs_bind _ _ _ _ _ _ [] [] PHY_FALSE); [pf|apply performs_ret].
Qed.

(** *** The writes to the registers that are named, in order *)
Definition named : list reg := [TOP; ROLE; LEDS01; LEDS23].
Definition media_but (d : phy_data_t) : list op :=
  let speed := conf_speed (pd_conf d) in
  (if speed =? MESA_SPEED_AUTO then [OMod 7 515 176 (adverts d); OWr (Mmd 7 514) 0; OMod 7 512 0 0x1200]
   else [OWr ROLE (forced_value d)] ++
     if speed =? MESA_SPEED_100M then tune_100m else if speed =? MESA_SPEED_1G then tune_1g else []) ++
  if starts d then [OWr32 1 0x8902 9] else [].
Lemma media_split d : media_ops d = media_but d ++ if starts d then [bypass_op] else [].
Proof.
  unfold media_ops, media_but, starts. cbv zeta. destruct (_ =? MESA_SPEED_AUTO); [done|].
  destruct (_ =? MESA_SPEED_100M); [done|]. by destruct (_ =? MESA_SPEED_1G).
Qed.
Lemma writes_media d : writes named (media_but d)
  ((if conf_speed (pd_conf d) =? MESA_SPEED_AUTO then [] else [(ROLE, forced_value d)]) ++ if starts d then [(TOP, 9)] else []).
Proof.
  assert (u16 (forced_value d) = forced_value d) as E
    by (unfold forced_value; by destruct (_ =? MEPA_MANUAL_NEG_REF), (_ && _)).
  unfold media_but. cbv zeta. apply writes_app.
  - apply writes_const. rewrite <- E at 2. destruct (_ =? MESA_SPEED_AUTO); [done|].
    destruct (_ =? MESA_SPEED_100M); [done|]. by destruct (_ =? MESA_SPEED_1G).
  - apply writes_const. by destruct (starts d).
Qed.
Lemma writes_mac d : writes named (mac_ops d) [].
Proof.
  apply writes_const. unfold mac_ops.
  destruct (_ =? MESA_PORT_INTERFACE_SGMII); [|done]. by destruct (_ =? 1), (gigabit d).
Qed.
Lemma writes_pcs : writes named pcs_ops [].
Proof. apply writes_const. unfold pcs_ops. by destruct (IS_LAN888X drv_id). Qed.
Lemma writes_leds d : writes named (leds_ops d) (leds d).
Proof.
  assert (Forall (fun p => among named (fst p) = true /\ u16 (snd p) = snd p) (leds d)) as H.
  { apply Forall_concat, Forall_forall. intros x (i & c & -> & _)%elem_of_lookup_imap_1. unfold led.
    destruct (led_byte (gpio_mode c)) as [v|] eqn:E; [|done]. apply led_byte_range in E as [Hr _].
    repeat constructor; cbn [fst snd]; [by destruct (i <? 2)%nat|apply u16_small; destruct (Nat.odd i); lia]. }
  apply writes_const. unfold leds_ops. induction H as [|[r v] l [Hr Hv] _ IH]; [done|].
  cbn [map ops_written op_written fst snd] in *. rewrite IH. unfold one. by rewrite Hr, Hv.
Qed.
Lemma setup_sets_up dev d id1 id2 l : ops_accs dev (setup_ops d) l ->
  sets_up dev d id1 id2 ([ARd dev (Direct 2) id1; ARd dev (Direct 3) id2] ++ l).
Proof.
  intros H. pose proof H as H'. unfold setup_ops in H'. rewrite media_split, !app_assoc in H'.
  apply ops_accs_split in H' as (l1 & l2 & -> & H1 & H2). exists l1, l2. split_and!; [done|done| |done].
  rewrite <- !app_assoc in H1. revert H1. unfold reset_ops. rewrite <- !app_assoc. intros H1.
  match type of H1 with ops_accs _ ?os _ =>
    assert (writes named os ([] ++ leds d ++ [] ++ [] ++ leds d ++ [(TOP, 0); (TOP, 2)] ++ [] ++ [] ++
      (if conf_speed (pd_conf d) =? MESA_SPEED_AUTO then [] else [(ROLE, forced_value d)]) ++
      if starts d then [(TOP, 9)] else [])) as W end; [|exact (W dev l1 H1)].
  repeat (apply writes_app; [first [apply writes_leds|apply writes_pcs|apply writes_mac|by apply writes_const]|]).
  apply writes_media.
Qed.

Lemma does_setup dev t d (Q : Z -> table -> list access -> Prop) :
  t !! dev = Some d -> leds_ok d = true -> mac_ok d = true -> 0 <= pd_events d < 2 ^ 32 ->
  (forall id1 id2 l, sets_up dev d id1 id2 l -> Q 0 (<[dev := after_setup id1 id2 d]> t) l) ->
  does (lan8x8x_phy_setup drv_id polls polls32 dev) t Q.
Proof.
  intros Hd Hl Hm He HQ. unfold lan8x8x_phy_setup. apply does_bind. unfold phy_get_device_info.
  apply does_bind. eapply does_upd; [exact Hd|]. apply does_bind, does_reg_rd; [done|]. intros id1 _.
  apply does_bind, does_reg_rd; [done|]. intros id2 _. apply does_bind. eapply does_upd; [apply lookup_insert_eq|].
  rewrite insert_insert_eq. apply does_ret. change (negb (0 =? MEPA_RC_OK)) with false. cbv iota. cbn [app].
  eapply does_mono.
  - apply (performs_rest dev _ (set_pd_dev (device_info id1 id2) d)); [apply lookup_insert_eq|done|done|done].
  - intros rc t' l (-> & -> & Hops). rewrite insert_insert_eq.
    change (setup_ops (set_pd_dev _ d)) with (setup_ops d) in Hops. change (starts (set_pd_dev _ d)) with (starts d).
    pose proof (HQ id1 id2 _ (setup_sets_up dev d id1 id2 l Hops)) as H. unfold after_setup in H.
    by destruct (starts d).
Qed.

Lemma ready_parts d : ready d = true -> leds_ok d = true /\ mac_ok d = true /\ 0 <= pd_events d < 2 ^ 32.
Proof. unfold ready, u32_ok. intros [[? ?]%andb_true_iff ?]%andb_true_iff. split_and!; [done|done|lia|lia]. Qed.
(** ** Configuration *)

(** Client or reference, full duplex, 100M, 1G or negotiated. *)
Definition acceptable (config : mepa_conf_t) : bool :=
  ((conf_man_neg config =? MEPA_MANUAL_NEG_CLIENT) || (conf_man_neg config =? MEPA_MANUAL_NEG_REF)) &&
  (conf_fdx config =? 1) &&
  ((conf_speed config =? MESA_SPEED_100M) || (conf_speed config =? MESA_SPEED_1G) || (conf_speed config =? MESA_SPEED_AUTO)).
(** What becomes of the configuration [c]: speed, state and role as given, the
    duplex mode full, flow control, the two speeds that are advertised and the
    negotiation with the MAC those of [config], the other members as they were. *)
Definition stored (speed admin role : Z) (config c : mepa_conf_t) : mepa_conf_t :=
  let a := conf_aneg c in
  Mk_mepa_conf_t speed 1 (conf_flow_control config) (conf_adv_dis c) admin
    (Mk_mepa_aneg_adv_t (adv_speed_10m_hdx a) (adv_speed_10m_fdx a) (adv_speed_100m_hdx a)
       (adv_speed_100m_fdx (conf_aneg config)) (adv_speed_1g_fdx (conf_aneg config)) (adv_speed_1g_hdx a)
       (adv_tx_remote_fault a) (adv_rest a))
    (conf_mac_if_aneg_ena config) role (conf_mdi_mode c) (conf_rest c).
(** A media type the chip is capable of, and the speeds of 100BASE-T1: 100M,
    or a negotiation that advertises it.  The code the driver answers with. *)
Definition media_code (cap : mchp_t1_otp_cap_t) (media speed adv_100m : Z) : Z :=
  if media =? MESA_PHY_MEDIA_IF_T1_100FX then
    if negb (cap_dis_100 cap =? 0) then MEPA_RC_ERR_KR_CONF_NOT_SUPPORTED
    else if (speed =? MESA_SPEED_100M) || (speed =? MESA_SPEED_AUTO) && (adv_100m =? 1) then MEPA_RC_OK else MEPA_RC_ERR_PARM
  else if (media =? MESA_PHY_MEDIA_IF_T1_1000FX) && (cap_dis_1000 cap =? 0) && IS_LAN888X drv_id then MEPA_RC_OK
  else MEPA_RC_ERR_KR_CONF_NOT_SUPPORTED.
Lemma check_media_code d media speed : lan8x8x_check_media drv_id d media speed =
  media_code (pd_t1_cap d) media speed (adv_speed_100m_fdx (conf_aneg (pd_conf d))).
Proof.
  unfold lan8x8x_check_media, media_code, tb. change PHY_TRUE with 1.
  destruct (Z.eqb_spec media MESA_PHY_MEDIA_IF_T1_100FX) as [->|]; cbn [andb].
  - change (MESA_PHY_MEDIA_IF_T1_100FX =? MESA_PHY_MEDIA_IF_T1_1000FX) with false. cbn [andb]. rewrite orb_false_r, negb_involutive.
    destruct (cap_dis_100 _ =? 0); cbn [negb]; [|done].
    destruct (Z.eqb_spec speed MESA_SPEED_AUTO) as [->|]; [by destruct (_ =? 1)|]. by destruct (speed =? MESA_SPEED_100M).
  - cbn [orb]. rewrite negb_involutive. by destruct (_ && _ && _).
Qed.

Lemma does_change dev get store old new b (k : bool -> M Z) t d (Q : Z -> table -> list access -> Prop) :
  t !! dev = Some d -> (forall c, get (store new c) = new) -> (forall c, store (get c) c = c) -> get (pd_conf d) = old ->
  does (k (b || negb (old =? new))) (<[dev := set_pd_conf (store new (pd_conf d)) d]> t) Q ->
  does (bind (conf_change dev old new store b) k) t Q.
Proof.
  intros Hd Hg Hs Ho HQ. unfold conf_change. apply does_bind. destruct (Z.eqb_spec old new) as [E|]; cbn [negb].
  - apply does_ret. rewrite orb_false_r in HQ. subst. rewrite Hs in HQ.
    assert (set_pd_conf (pd_conf d) d = d) as E by by destruct d. rewrite E, insert_id in HQ by done. exact HQ.
  - rewrite orb_true_r in HQ. apply does_bind. eapply does_upd; [exact Hd|]. by apply does_ret.
Qed.
Lemma does_locked {A} (m : M A) t (Q : A -> table -> list access -> Prop) : does m t Q -> does (locked m) t Q.
Proof.
  intros Hm. apply does_bind, does_enter, does_bind. eapply does_mono; [exact Hm|]. intros a t' l HQ.
  apply does_bind, does_exit, does_ret. cbn [app]. by rewrite app_nil_r.
Qed.
Lemma does_performs dev {A} (m : M A) t os a t' (Q : A -> table -> list access -> Prop) :
  performs dev m t os a t' -> (forall l, ops_accs dev os l -> Q a t' l) -> does m t Q.
Proof. intros Hm HQ. eapply does_mono; [exact Hm|]. intros ? ? l (-> & -> & Hl). by apply HQ. Qed.
Lemma ops_one dev o l : ops_accs dev [o] l -> op_accs dev o l.
Proof. intros (l1 & l2 & -> & H & ->). by rewrite app_nil_r. Qed.

(** C24. Setting the configuration of a port in working order ([ready]: its MAC
    interface, LEDs and events are what the driver's calls store) on a bus
    without errors.  A configuration whose role is neither client nor reference,
    that is not full duplex, or whose speed is neither 100M nor 1G nor
    negotiated is refused and changes nothing.  A change of the speed to one that the media
    type does not allow is refused after flow control, the two advertised speeds
    and the negotiation with the MAC have been stored.  Otherwise the call
    succeeds and speed, state and role are stored too.  When these three are
    what they were, no register is accessed; a port that is disabled is only
    powered down; one that is enabled is powered up and set up with its new data. *)
Theorem lan8x8x_conf_set_spec dev config (t : table) d :
  t !! dev = Some d -> ready d = true ->
  does (lan8x8x_conf_set drv_id polls polls32 (Some dev) (Some config)) t (fun rc t' l =>
    let c := pd_conf d in
    let code := if conf_speed c =? conf_speed config then MEPA_RC_OK
                else media_code (pd_t1_cap d) (pd_media_intf d) (conf_speed config) (adv_speed_100m_fdx (conf_aneg config)) in
    let d' := set_pd_conf (stored (conf_speed config) (conf_admin_enable config) (conf_man_neg config) config c) d in
    if negb (acceptable config) then rc = MEPA_RC_ERR_PARM /\ t' = t /\ l = [] else
    if negb (code =? MEPA_RC_OK) then
      rc = code /\ l = [] /\
      t' = <[dev := set_pd_conf (stored (conf_speed c) (conf_admin_enable c) (conf_man_neg c) config c) d]> t else
    rc = MEPA_RC_OK /\
    if (conf_speed c =? conf_speed config) && (conf_man_neg c =? conf_man_neg config)
       && (conf_admin_enable c =? conf_admin_enable config)
    then t' = <[dev := d']> t /\ l = []
    else if conf_admin_enable config =? 1 then exists id1 id2 l1 l2,
      t' = <[dev := after_setup id1 id2 d']> t /\ l = l1 ++ l2 /\
      op_accs dev (OMod 1 0 0x800 0) l1 /\ sets_up dev d' id1 id2 l2
    else t' = <[dev := d']> t /\ op_accs dev (OMod 1 0 0 0x800) l).
Proof.
  intros Hd (Hl & Hm & He)%ready_parts. apply does_locked. unfold lan8x8x_config_set.
  assert (conf_refused config = negb (acceptable config)) as ->.
  { unfold conf_refused, acceptable. change PHY_TRUE with 1. rewrite !negb_andb, !negb_orb. by rewrite <- !orb_assoc. }
  cbv zeta. destruct (negb (acceptable config)); [by apply does_ret|].
  apply does_bind. eapply does_upd; [exact Hd|]. apply does_bind. eapply does_data_of; [apply lookup_insert_eq|].
  set (d1 := set_pd_conf (conf_plain config (pd_conf d)) d). rewrite check_media_code.
  change (conf_speed (pd_conf d1)) with (conf_speed (pd_conf d)).
  change (media_code (pd_t1_cap d1) _ _ _) with
    (media_code (pd_t1_cap d) (pd_media_intf d) (conf_speed config) (adv_speed_100m_fdx (conf_aneg config))).
  match goal with |- context [if negb (?a =? ?b) then media_code ?p ?q ?r ?s else MEPA_RC_OK] =>
    replace (if negb (a =? b) then media_code p q r s else MEPA_RC_OK) with (if a =? b then MEPA_RC_OK else media_code p q r s)
      by (by destruct (a =? b)) end.
  destruct (negb _); [by apply does_ret|].
  eapply does_change with (get := conf_speed); [apply lookup_insert_eq|done|by intros []|done|].
  eapply does_change with (get := conf_man_neg); [apply lookup_insert_eq|done|by intros []|done|].
  eapply does_change with (get := conf_admin_enable); [apply lookup_insert_eq|done|by intros []|done|].
  rewrite !insert_insert_eq.
  match goal with |- context [<[dev := ?x]> t] => set (d2 := x) end.
  apply does_bind. eapply does_data_of; [apply lookup_insert_eq|].
  change (conf_speed (pd_conf d1)) with (conf_speed (pd_conf d)). change (conf_man_neg (pd_conf d1)) with (conf_man_neg (pd_conf d)).
  change (conf_admin_enable (pd_conf d1)) with (conf_admin_enable (pd_conf d)).
  change (conf_admin_enable (pd_conf d2)) with (conf_admin_enable config). cbn [orb]. rewrite <- !negb_andb, negb_involutive.
  destruct (_ && _ && _); [by apply does_ret|]. change PHY_TRUE with 1.
  destruct (conf_admin_enable config =? 1).
  - apply does_bind. eapply (does_performs dev); [by apply performs_mod|]. intros l1 H1.
    change (negb (0 =? MEPA_RC_OK)) with false. cbv iota. apply does_bind.
    eapply (does_setup dev _ d2); [apply lookup_insert_eq|exact Hl|exact Hm|exact He|]. intros id1 id2 l2 H2.
    change (negb (0 =? MEPA_RC_OK)) with false. cbv iota. apply does_ret. rewrite insert_insert_eq.
    split; [done|]. exists id1, id2, l1, l2. rewrite ?app_nil_r. split_and!; [done|done|by apply ops_one|done].
  - eapply (does_performs dev); [eapply (performs_or _ _ _ _ _ _ _ [_] []); [pf|pf]|]. intros l Hl'.
    split_and!; [done|done|by apply ops_one].
Qed.

(** ** Reset *)

(** C25. A reset of a port in working order ([ready]) on a bus without errors,
    whatever the registers answer.  With a parameter it only happens at the
    default and the pre reset point, and not for a media type that is refused;
    else the media type is stored, and 100BASE-T1 without negotiation makes the
    speed 100M.  The port is then reset and set up by a fixed sequence of
    operations ([setup_ops]).  In it the LEDs are written twice, then the
    transceiver is put into soft reset, then role and speed are written unless
    they are negotiated, then the transceiver is started if the speed is one the
    driver knows ([sets_up]); only the bypass of the MAC interface is set after
    the start.  Both waits for a reset bit end at their time limit, too, and
    their outcome is not looked at. *)
Theorem lan8x8x_reset_spec dev (rst : option mepa_reset_param_t) (t : table) d :
  t !! dev = Some d -> ready d = true ->
  does (lan8x8x_reset drv_id polls polls32 (Some dev) rst) t (fun rc t' l =>
    let c := pd_conf d in
    let reset d' := rc = MEPA_RC_OK /\ exists id1 id2, t' = <[dev := after_setup id1 id2 d']> t /\ sets_up dev d' id1 id2 l in
    match rst with
    | None => reset d
    | Some r =>
        let media := rst_media_intf r in
        let code := media_code (pd_t1_cap d) media (conf_speed c) (adv_speed_100m_fdx (conf_aneg c)) in
        if negb ((rst_reset_point r =? MEPA_RESET_POINT_DEFAULT) || (rst_reset_point r =? MEPA_RESET_POINT_PRE))
        then rc = MEPA_RC_OK /\ t' = t /\ l = []
        else if negb (code =? MEPA_RC_OK) then rc = code /\ t' = t /\ l = []
        else reset (set_pd_conf (set_conf_speed (if (media =? MESA_PHY_MEDIA_IF_T1_100FX)
                      && negb (conf_speed c =? MESA_SPEED_AUTO) then MESA_SPEED_100M else conf_speed c) c)
                      (set_pd_media_intf media d))
    end).
Proof.
  intros Hd (Hl & Hm & He)%ready_parts. apply does_locked. destruct rst as [r|]; cbv zeta.
  2:{ eapply (does_setup dev t d); [done..|]. intros id1 id2 l Hs. eauto. }
  rewrite <- negb_orb. destruct (negb _); [by apply does_ret|].
  apply does_bind. eapply does_data_of; [exact Hd|]. rewrite check_media_code.
  destruct (media_code _ _ _ _ =? MEPA_RC_OK); cbn [negb]; [|by apply does_ret].
  apply does_bind. eapply does_upd; [exact Hd|].
  match goal with |- context [set_pd_conf (set_conf_speed ?s ?c) ?d'] => set (d1 := set_pd_conf (set_conf_speed s c) d') end.
  assert (reset_media (rst_media_intf r) d = d1) as ->.
  { unfold reset_media, d1. change (conf_speed (pd_conf (set_pd_media_intf _ d))) with (conf_speed (pd_conf d)).
    destruct (_ && _); [done|]. by destruct d as [? ? ? ? ? ? []]. }
  eapply (does_setup dev _ d1); [apply lookup_insert_eq|exact Hl|exact Hm|exact He|]. intros id1 id2 l Hs. cbn [app].
  rewrite insert_insert_eq. eauto.
Qed.

(** ** Link status *)
Definition after_poll (st : mepa_status_t) (d : phy_data_t) : phy_data_t :=
  set_pd_dev (set_dev_is_master (st_master st) (pd_dev d)) (set_pd_link_status (st_link st) d).
(** The words of the new speed on a LAN888x, when the speed was defined and has
    changed; none for a speed that is undefined. *)
Definition tune_ops (old new : Z) : list op :=
  if IS_LAN888X drv_id && negb (new =? old) && negb (old =? MESA_SPEED_UNDEFINED) then
    if new =? MESA_SPEED_100M then tune_100m else if new =? MESA_SPEED_1G then tune_1g else []
  else [].
(** The fastest speed in the partner's register [lp] whose flag the
    configuration has set. *)
Definition resolved (d : phy_data_t) (lp : Z) : Z :=
  let aneg := conf_aneg (pd_conf d) in
  if Z.testbit lp 7 && (adv_speed_1g_fdx aneg =? 1) then MESA_SPEED_1G
  else if Z.testbit lp 5 && (adv_speed_100m_fdx aneg =? 1) then MESA_SPEED_100M else MESA_SPEED_UNDEFINED.

Lemma does_done dev status d t (Q : Z * mepa_status_t -> table -> list access -> Prop) : t !! dev = Some d ->
  Q (MEPA_RC_OK, set_st_fdx PHY_TRUE status) (<[dev := after_poll status d]> t) [] -> does (poll_done dev status) t Q.
Proof.
  intros Hd HQ. unfold poll_done. apply does_bind. eapply does_upd; [exact Hd|]. apply does_bind.
  eapply does_upd; [apply lookup_insert_eq|]. rewrite insert_insert_eq. by apply does_ret.
Qed.
Lemma does_twice {A} dev (fail : Z -> M A) rd r k t (Q : A -> table -> list access -> Prop) :
  (forall P : Z * Z -> table -> list access -> Prop, (forall v, 0 <= v < 65536 -> P (0, v) t [ARd dev r v]) -> does rd t P) ->
  (forall x1 x2, does (k x2) t (fun a t' l => Q a t' ([ARd dev r x1; ARd dev r x2] ++ l))) -> does (read_twice fail rd k) t Q.
Proof.
  intros Hrd Hk. apply does_bind, Hrd. intros x1 _. apply does_bind, Hrd. intros x2 _. eapply does_mono; [apply (Hk x1 x2)|]. done.
Qed.
Lemma link_bit v : negb ((v .& BMSR_LSTATUS) =? ZERO) = Z.testbit v 2.
Proof. by rewrite <- (tb_bit v 2). Qed.
Definition forced_poll (d : phy_data_t) (dev : Z) (st : mepa_status_t) (l : list access) : Prop :=
  exists x1 x2, let r := if conf_speed (pd_conf d) =? MESA_SPEED_100M then Direct 1 else Mmd 3 2305 in
  l = [ARd dev r x1; ARd dev r x2] /\ st_link st = cb (Z.testbit x2 2) /\ st_speed st = conf_speed (pd_conf d) /\
  st_master st = cb (conf_man_neg (pd_conf d) =? MEPA_MANUAL_NEG_REF).
Definition aneg_poll (d : phy_data_t) (dev old : Z) (st : mepa_status_t) (l : list access) : Prop :=
  exists lo hi s l1 l2 x1 x2, let r := if IS_LAN878X drv_id then Direct 1 else Mmd 7 513 in
  l = [ARd dev (Mmd 7 0x8002) lo; ARd dev (Mmd 7 0x8003) hi; ARd dev (Mmd 7 513) s] ++ l1 ++ l2 ++ [ARd dev r x1; ARd dev r x2] /\
  st_master st = cb (Z.testbit lo 0 && negb (Z.testbit lo 1)) /\ st_link st = cb (Z.testbit x2 2) /\
  ops_accs dev (tune_ops old (st_speed st)) l2 /\
  if Z.testbit s 5 then exists x lp, l1 = [ARd dev (Mmd 7 517) x; ARd dev (Mmd 7 518) lp] /\ st_speed st = resolved d lp
  else l1 = [] /\ st_speed st = MESA_SPEED_UNDEFINED.
Lemma does_forced dev status t d : t !! dev = Some d ->
  does (poll_forced dev status) t (fun r t' l => exists st, r = (MEPA_RC_OK, st) /\ st_fdx st = PHY_TRUE /\
    t' = <[dev := after_poll st d]> t /\ forced_poll d dev st l).
Proof.
  intros Hd. unfold poll_forced, forced_poll. apply does_bind. eapply does_data_of; [exact Hd|].
  destruct (conf_speed (pd_conf d) =? MESA_SPEED_100M) eqn:Es.
  - apply (does_twice dev _ _ (Direct 1)); [intros P HP; by apply does_reg_rd|]. intros x1 x2. rewrite link_bit.
    apply does_bind, does_ret, does_bind. eapply does_data_of; [exact Hd|]. eapply does_done; [exact Hd|].
    eexists. split_and!; [done|done|by destruct d|]. exists x1, x2. by destruct (_ =? MEPA_MANUAL_NEG_REF).
  - apply (does_twice dev _ _ (Mmd 3 2305)); [intros P HP; by apply does_phy_mmd_reg_rd|]. intros x1 x2. rewrite link_bit.
    apply does_bind. eapply does_upd; [exact Hd|]. apply does_bind. eapply does_data_of; [apply lookup_insert_eq|].
    eapply does_done; [apply lookup_insert_eq|]. rewrite insert_insert_eq.
    eexists. split_and!; [done|done|by destruct d|]. exists x1, x2. by destruct (conf_man_neg _ =? MEPA_MANUAL_NEG_REF).
Qed.

Lemma low_bit lo hi k : 0 <= k < 16 -> 0 <= lo < 65536 -> 0 <= hi < 65536 -> Z.testbit (hi * 65536 + lo) k = Z.testbit lo k.
Proof.
  intros Hk Hlo Hhi. rewrite <- (Z.mod_pow2_bits_low (hi * 65536 + lo) 16 k) by lia. change (2 ^ 16) with 65536.
  rewrite Z.add_comm, Z.mod_add, Z.mod_small by lia. done.
Qed.
Lemma partner_bit v k : 0 <= k -> ((v .& 2 ^ k) =? 2 ^ k) = Z.testbit v k.
Proof. intros Hk. rewrite land_bit by done. pose proof (Z.pow_pos_nonneg 2 k). destruct (Z.testbit v k); lia. Qed.
Lemma performs_tune dev old new t :
  performs dev (if IS_LAN888X drv_id then if negb (new =? old) && negb (old =? MESA_SPEED_UNDEFINED)
                then lan8x8x_speed_config dev new ;;; ret tt else ret tt else ret tt) t (tune_ops old new) tt t.
Proof.
  unfold tune_ops, lan8x8x_speed_config. change MEPA_SPEED_100M with MESA_SPEED_100M. change MEPA_SPEED_1G with MESA_SPEED_1G.
  destruct (IS_LAN888X drv_id); cbn [andb]; [|pf]. destruct (_ && _); [|pf].
  destruct (new =? MESA_SPEED_100M); [|destruct (new =? MESA_SPEED_1G)].
  1,2: by_ops; [repeat pf|done]. eapply (performs_bind _ _ _ _ _ _ [] []); pf.
Qed.
(** The status that [lan8x8x_aneg_read_status] leaves. *)
Definition cleared (status : mepa_status_t) : mepa_status_t :=
  set_st_speed MESA_SPEED_UNDEFINED (set_st_link PHY_FALSE
    (set_st_aneg (set_aneg_generate_pause PHY_FALSE (set_aneg_obey_pause PHY_FALSE (st_aneg status))) status)).
Lemma does_read_status dev status t d : t !! dev = Some d ->
  does (lan8x8x_aneg_read_status dev status) t (fun r t' l => t' = t /\ exists s l1 speed,
    l = ARd dev (Mmd 7 513) s :: l1 /\ r = (MEPA_RC_OK, set_st_speed speed (cleared status)) /\
    if Z.testbit s 5 then exists x lp, l1 = [ARd dev (Mmd 7 517) x; ARd dev (Mmd 7 518) lp] /\ speed = resolved d lp
    else l1 = [] /\ speed = MESA_SPEED_UNDEFINED).
Proof.
  intros Hd. unfold lan8x8x_aneg_read_status. cbv zeta. fold (cleared status). apply does_bind. eapply does_data_of; [exact Hd|].
  apply does_bind, does_phy_mmd_reg_rd; [done|]. intros s _. cbn [negb Z.eqb MEPA_RC_OK].
  assert (((s .& MDIO_AN_STAT1_COMPLETE) =? ZERO) = negb (Z.testbit s 5)) as ->.
  { rewrite <- (tb_bit s 5) by done. unfold tb. by rewrite negb_involutive. }
  destruct (Z.testbit s 5) eqn:Es; cbn [negb].
  2:{ apply does_ret. split; [done|]. exists s, [], MESA_SPEED_UNDEFINED. by rewrite Es. }
  apply does_bind, does_phy_mmd_reg_rd; [done|]. intros x _. cbn [negb Z.eqb MEPA_RC_OK].
  apply does_bind, does_phy_mmd_reg_rd; [done|]. intros lp _. cbn [negb Z.eqb MEPA_RC_OK]. apply does_ret.
  split; [done|]. eexists s, _, _. split_and!; [done|done|]. rewrite Es. exists x, lp. split; [done|]. unfold resolved.
  change LPA_1000FULL with (2 ^ 7). change LPA_100FULL with (2 ^ 5). by rewrite !partner_bit.
Qed.
Lemma does_aneg dev status t d : t !! dev = Some d ->
  does (poll_aneg drv_id dev status) t (fun r t' l => exists st, r = (MEPA_RC_OK, st) /\ st_fdx st = PHY_TRUE /\
    t' = <[dev := after_poll st d]> t /\ aneg_poll d dev (st_speed status) st l).
Proof.
  intros Hd. unfold poll_aneg. cbv zeta. apply does_bind, does_bind, does_rd32; [done|done|]. intros lo hi Hlo Hhi.
  cbn [negb Z.eqb MEPA_RC_OK]. apply does_ret. cbn [negb Z.eqb MEPA_RC_OK].
  change T1_AUTONEG_MS_CONFIG_FAULT with (1 .<< 1). change T1_AUTONEG_CONFIG_AS_MASTER with (1 .<< 0).
  rewrite !tb_bit, !low_bit by done. set (m := Z.testbit lo 0 && negb (Z.testbit lo 1)).
  assert ((if (if Z.testbit lo 1 then MASTER_SLAVE_STATE_ERR else if Z.testbit lo 0 then MASTER_SLAVE_STATE_MASTER
               else MASTER_SLAVE_STATE_SLAVE) =? MASTER_SLAVE_STATE_MASTER then PHY_TRUE else PHY_FALSE) = cb m) as ->
    by (unfold m; by destruct (Z.testbit lo 1), (Z.testbit lo 0)).
  apply does_bind. eapply does_mono; [by apply does_read_status|]. intros r t' l (-> & s & l1 & speed & -> & -> & Hs).
  cbn [negb Z.eqb MEPA_RC_OK]. apply does_bind. eapply (does_performs dev); [apply performs_tune|]. intros l2 H2.
  cbn [st_speed set_st_speed] in H2. destruct (IS_LAN878X drv_id) eqn:E8.
  - apply (does_twice dev _ _ (Direct 1)); [intros P HP; by apply does_reg_rd|]. intros x1 x2. rewrite link_bit.
    eapply does_done; [exact Hd|]. eexists. split_and!; [done|done|done|].
    exists lo, hi, s, l1, l2, x1, x2. rewrite E8. cbn [app]. rewrite ?app_nil_r. by split_and!.
  - apply (does_twice dev _ _ (Mmd 7 513)); [intros P HP; by apply does_phy_mmd_reg_rd|]. intros x1 x2. rewrite link_bit.
    eapply does_done; [exact Hd|]. eexists. split_and!; [done|done|done|].
    exists lo, hi, s, l1, l2, x1, x2. rewrite E8. cbn [app]. rewrite ?app_nil_r. by split_and!.
Qed.
(** C28. Polling the link of a port that has data, with a status to fill, on a
    bus without errors always succeeds.  The link is bit 2 of the second of two
    reads of a status register: without auto-negotiation register 1 at 100M and
    3.2305 otherwise, with it register 1 on a LAN878x and 7.513 otherwise.
    Without auto-negotiation the speed and the role are those of the
    configuration.  With it the port is master if 7.0x8002 says so in bit 0
    and reports no fault in bit 1.  While bit 5 of 7.513 is clear the speed is
    undefined; then it is 1G if the partner's register 7.518 has bit 7 and the
    configuration has the flag of 1G, else 100M if it has bit 5 and the
    configuration the flag of 100M, else undefined: the driver looks at the
    flags of its configuration, not at what it advertised, which always
    contains 100M.  On a LAN888x the words of the new speed are written
    when it is not the speed of the caller's last poll and neither of the two is
    undefined.  Role and link are stored. *)
Theorem lan8x8x_poll_spec dev status (t : table) d : t !! dev = Some d ->
  does (lan8x8x_poll drv_id (Some dev) (Some status)) t (fun r t' l => exists st,
    r = (MEPA_RC_OK, Some st) /\ st_fdx st = 1 /\ t' = <[dev := after_poll st d]> t /\
    if conf_speed (pd_conf d) =? MESA_SPEED_AUTO then aneg_poll d dev (st_speed status) st l else forced_poll d dev st l).
Proof.
  intros Hd. apply does_bind, does_locked. unfold lan8x8x_poll_int. apply does_bind. eapply does_upd; [exact Hd|].
  set (d0 := set_pd_link_status PHY_FALSE d). apply does_bind. eapply does_data_of; [apply lookup_insert_eq|].
  change (conf_speed (pd_conf d0)) with (conf_speed (pd_conf d)). destruct (conf_speed (pd_conf d) =? MESA_SPEED_AUTO) eqn:Es; cbn [negb].
  - eapply does_mono; [apply (does_aneg dev status _ d0), lookup_insert_eq|]. intros r t' l (st & -> & Hf & -> & Hp).
    apply does_ret. cbn [app]. rewrite insert_insert_eq, app_nil_r. eauto.
  - eapply does_mono; [apply (does_forced dev status _ d0), lookup_insert_eq|]. intros r t' l (st & -> & Hf & -> & Hp).
    apply does_ret. cbn [app]. rewrite insert_insert_eq, app_nil_r. eauto.
Qed.

(** ** Probing *)

(** The data of a port with the number [h] after the capabilities were read:
    [v1] is the register of the features that are disabled, [v2] the part, and
    [s] the straps, of which [over] says whether they are the overriding ones. *)
Definition strap_conf (v1 s : Z) (over : bool) : mepa_conf_t :=
  let has_100m := IS_LAN878X drv_id || negb (Z.testbit v1 3) in
  let has_1g := IS_LAN888X drv_id && negb (Z.testbit v1 4) in
  Mk_mepa_conf_t
    (if Z.testbit s 1 then if negb over && IS_LAN878X drv_id then MESA_SPEED_100M else MESA_SPEED_AUTO
     else if IS_LAN888X drv_id && Z.testbit s 4 then MESA_SPEED_1G else MESA_SPEED_100M)
    1 0 0 1 (Mk_mepa_aneg_adv_t 0 0 0 (cb has_100m) (cb has_1g) 0 0 [])
    0 (if Z.testbit s 0 then MEPA_MANUAL_NEG_REF else MEPA_MANUAL_NEG_CLIENT) 0 [].
Definition probed (h v1 v2 s : Z) (over : bool) : phy_data_t :=
  Mk_phy_data_t
    (Mk_mchp_t1_otp_cap_t (cb (Z.testbit v1 0)) 0 (cb (IS_LAN888X drv_id && Z.testbit v1 4)) (cb (Z.testbit v1 3)))
    0 0 h
    (if v2 =? 0x888D then MESA_PORT_INTERFACE_SGMII else MESA_PORT_INTERFACE_RGMII_RXID)
    (if IS_LAN888X drv_id && negb (Z.testbit v1 4) then MESA_PHY_MEDIA_IF_T1_1000FX
     else if IS_LAN878X drv_id || negb (Z.testbit v1 3) then MESA_PHY_MEDIA_IF_T1_100FX else 0)
    (strap_conf v1 s over) 0 mepa_loopback_t_0 (Mk_phy_dev_info_t 0 0 0 0 0) 1
    (Mk_mepa_cable_diag_result_t 0 [16; 0; 0; 0] [0; 0; 0; 0])
    [mepa_gpio_conf_t_0; mepa_gpio_conf_t_0; Mk_mepa_gpio_conf_t 0 2 MEPA_GPIO_MODE_LED_LINK_ACTIVITY; mepa_gpio_conf_t_0].
Lemma probed_fine h v1 v2 s over : let d := probed h v1 v2 s over in
  leds_ok d = true /\ mac_ok d = true /\ pd_events d = 0 /\ starts d = true.
Proof.
  cbv zeta. unfold probed, strap_conf, leds_ok, mac_ok, starts. cbn [pd_led_conf pd_mac_if pd_conf pd_events conf_speed].
  split_and!; [done|by destruct (v2 =? _)|done|]. destruct (Z.testbit s 1); [by destruct (_ && _)|]. by destruct (_ && _).
Qed.

Lemma does_capabilities dev t h (Q : unit -> table -> list access -> Prop) :
  let d := probe_first h (set_pd_port_no h phy_data_0) in
  t !! dev = Some d ->
  (forall v1 v2 v3 over s l, over = Z.testbit v3 7 -> (if over then s = v3 /\ l = [] else l = [ARd dev (Mmd 30 0xF0F8) s]) ->
     forall d', probe_rest (probe_media drv_id d') = probed h v1 v2 s over ->
     Q tt (<[dev := d']> t) ([ARd dev (Mmd 30 0xF052) v1; ARd dev (Mmd 30 0xF053) v2; ARd dev (Mmd 30 0xF055) v3] ++ l)) ->
  does (lan8x8x_read_capabilities drv_id dev) t Q.
Proof.
  intros d Hd HQ. unfold lan8x8x_read_capabilities.
  apply does_bind, does_phy_mmd_reg_rd; [done|]. intros v1 _.
  do 4 (apply does_bind; eapply does_upd; [first [exact Hd|apply lookup_insert_eq]|]; rewrite ?insert_insert_eq).
  apply does_bind, does_phy_mmd_reg_rd; [done|]. intros v2 _. cbv zeta.
  change T1_OTP_RO_FEAT_DIS_1000M with (1 .<< 4). change T1_OTP_RO_FEAT_DIS_100M with (1 .<< 3).
  change T1_OTP_RO_FEAT_DIS_MS with (1 .<< 0). rewrite !tb_bit by lia.
  match goal with |- context [<[dev := ?x]> t] => set (d1 := x) end.
  pose (d2 := if v2 =? 0x888D then set_pd_mac_if MESA_PORT_INTERFACE_SGMII d1 else d1).
  apply does_bind. eapply does_mono with (Q := fun _ t' l => t' = <[dev := d2]> t /\ l = []).
  { unfold d2. destruct (v2 =? 0x888D); [|by apply does_ret]. eapply does_upd; [apply lookup_insert_eq|].
    by rewrite insert_insert_eq. }
  intros _ ? ? [-> ->]. apply does_bind, does_phy_mmd_reg_rd; [done|]. intros v3 _.
  change OTP_STRAP_OVERRIDE_EN with (1 .<< 7). rewrite tb_bit by lia.
  destruct (Z.testbit v3 7) eqn:E7; [|apply does_bind, does_phy_mmd_reg_rd; [done|]; intros v4 _];
    unfold upd_conf, strap_speed; (apply does_bind; eapply does_upd; [apply lookup_insert_eq|]);
    (eapply does_upd; [apply lookup_insert_eq|]); rewrite !insert_insert_eq;
    change OTP_STRAP_AUTO_NEG_EN with (1 .<< 1); change OTP_STRAP_READ_AUTO_NEG_EN with (1 .<< 1);
    change OTP_STRAP_MST_SLV_SEL with (1 .<< 0); change OTP_STRAP_READ_MST_SLV_SEL with (1 .<< 0);
    change OTP_STRAP_SPEED_SEL with (1 .<< 4); rewrite !tb_bit by lia.
  - refine (HQ v1 v2 v3 true v3 [] (eq_sym E7) (conj eq_refl eq_refl) _ _). unfold d2.
    destruct (v2 =? 0x888D) eqn:Ev; unfold probed, strap_conf; rewrite Ev; unfold probe_media;
      destruct (IS_LAN888X drv_id), (IS_LAN878X drv_id), (Z.testbit v1 4) eqn:E4, (Z.testbit v1 3) eqn:E3;
      unfold d1; rewrite ?E4, ?E3; reflexivity.
  - refine (HQ v1 v2 v3 false v4 [_] (eq_sym E7) eq_refl _ _). unfold d2.
    destruct (v2 =? 0x888D) eqn:Ev; unfold probed, strap_conf; rewrite Ev; unfold probe_media;
      destruct (IS_LAN888X drv_id), (IS_LAN878X drv_id), (Z.testbit v1 4) eqn:E4, (Z.testbit v1 3) eqn:E3;
      unfold d1; rewrite ?E4, ?E3; reflexivity.
Qed.

(** C29. Probing, with memory for the device and a bus without errors.  The
    features, the part and the straps are read, the straps from the overriding
    register if its bit 7 is set; what they say makes up the data of the port
    ([probed]: number, capabilities, interface, media type, speed, role, what is
    advertised, no event enabled, LED 2 for link and activity).  Then the port
    is set up with these data ([sets_up]); the speed is one that the transceiver
    is started for.  No other port's data change, and the port is in working
    order ([ready]) from then on. *)
Theorem lan8x8x_probe_spec dev numeric_handle (t : table) :
  does (lan8x8x_probe drv_id polls polls32 true (Some dev) numeric_handle) t (fun r t' l => r = Some dev /\
    exists v1 v2 v3 s l1 id1 id2 l2, let d := probed numeric_handle v1 v2 s (Z.testbit v3 7) in
    t' = <[dev := after_setup id1 id2 d]> t /\ ready (after_setup id1 id2 d) = true /\ starts d = true /\
    l = [ARd dev (Mmd 30 0xF052) v1; ARd dev (Mmd 30 0xF053) v2; ARd dev (Mmd 30 0xF055) v3] ++ l1 ++ l2 /\
    (if Z.testbit v3 7 then s = v3 /\ l1 = [] else l1 = [ARd dev (Mmd 30 0xF0F8) s]) /\
    sets_up dev d id1 id2 l2).
Proof.
  unfold lan8x8x_probe, lan8x8x_fill_probe_data. apply does_bind. intros w <-.
  eexists tt, _, [], []. split; [done|]. cbn [w_log w_data]. rewrite app_nil_r. split; [done|]. split; [apply reads_nil|].
  apply does_bind. eapply does_upd; [apply lookup_insert_eq|]. apply does_bind, does_bind.
  eapply does_upd; [apply lookup_insert_eq|]. rewrite !insert_insert_eq.
  apply does_bind, (does_capabilities dev _ numeric_handle); [apply lookup_insert_eq|].
  intros v1 v2 v3 over s l1 -> Hs d' Hd'. apply does_bind. eapply does_upd; [apply lookup_insert_eq|]. rewrite Hd'.
  destruct (probed_fine numeric_handle v1 v2 s (Z.testbit v3 7)) as (Hl & Hm & He & Hst). set (d := probed _ _ _ _ _) in *.
  apply does_bind. eapply (does_setup dev _ d); [apply lookup_insert_eq|done|done|rewrite He; lia|]. intros id1 id2 l2 H2.
  apply does_ret, does_ret. rewrite !insert_insert_eq. split; [done|]. exists v1, v2, v3, s, l1, id1, id2, l2.
  split_and!; [done| |done| |done|done].
  - change (leds_ok d && mac_ok d && u32_ok (pd_events d) = true). by rewrite Hl, Hm, He.
  - cbn [app]. by rewrite ?app_nil_r, <- ?app_assoc.
Qed.
End Setup.

(** ** Witnesses: port 1 of a PHY whose registers hold what was written *)
Definition port_1 : phy_data_t := set_pd_events 64 (set_pd_mac_if MESA_PORT_INTERFACE_RGMII_RXID (set_pd_conf
  (set_conf_speed MESA_SPEED_100M (set_conf_man_neg MEPA_MANUAL_NEG_CLIENT mepa_conf_t_0)) phy_data_0)).
Definition ports : gmap Z phy_data_t := {[ 1 := port_1 ]}.
Definition up_100m : mepa_conf_t := set_conf_admin_enable 1 (set_conf_fdx 1 (set_conf_man_neg MEPA_MANUAL_NEG_REF
  (set_conf_speed MESA_SPEED_100M mepa_conf_t_0))).
Lemma port_there : ports !! 1 = Some port_1.
Proof. reflexivity. Qed.

(** Enabling the change of the link switches off the interrupt of completed
    negotiation, an event that was and stays enabled. *)
Lemma lan8x8x_event_enable_spec_witness :
  does (lan8x8x_event_enable_set (CO := sim_callout) (Some 1) 8 1) ports (fun rc t' l =>
    rc = MEPA_RC_OK /\ t' = <[1 := set_pd_events 72 port_1]> ports /\
    l = [AWr 1 (Mmd 30 0xF0E4) 4; AWr 1 (Mmd 1 0x8503) 0; AWr 1 (Mmd 1 0x8502) 6; AWr 1 (Mmd 30 0xF0E5) 0]).
Proof.
  assert (0 <= 8 < 2 ^ 32) as H by lia.
  exact (lan8x8x_event_enable_spec (CO := sim_callout) 1 8 1 ports port_1 port_there H).
Defined.
Lemma lan8x8x_conf_set_spec_witness :
  does (lan8x8x_conf_set (CO := sim_callout) PHY_ID_LAN888X 3 3 (Some 1) (Some up_100m)) ports (fun rc t' l =>
    let d' := set_pd_conf (stored MESA_SPEED_100M 1 MEPA_MANUAL_NEG_REF up_100m (pd_conf port_1)) port_1 in
    rc = MEPA_RC_OK /\ exists id1 id2 l1 l2,
      t' = <[1 := after_setup id1 id2 d']> ports /\ l = l1 ++ l2 /\
      op_accs 1 (OMod 1 0 0x800 0) l1 /\ sets_up PHY_ID_LAN888X 3 3 1 d' id1 id2 l2).
Proof. exact (lan8x8x_conf_set_spec (CO := sim_callout) PHY_ID_LAN888X 3 3 1 up_100m ports port_1 port_there eq_refl). Defined.
Lemma lan8x8x_reset_spec_witness :
  does (lan8x8x_reset (CO := sim_callout) PHY_ID_LAN888X 3 3 (Some 1) None) ports (fun rc t' l =>
    rc = MEPA_RC_OK /\ exists id1 id2, t' = <[1 := after_setup id1 id2 port_1]> ports /\ sets_up PHY_ID_LAN888X 3 3 1 port_1 id1 id2 l).
Proof. exact (lan8x8x_reset_spec (CO := sim_callout) PHY_ID_LAN888X 3 3 1 None ports port_1 port_there eq_refl). Defined.
Lemma lan8x8x_poll_spec_witness :
  does (lan8x8x_poll (CO := sim_callout) PHY_ID_LAN888X (Some 1) (Some mepa_status_t_0)) ports (fun r t' l => exists st,
    r = (MEPA_RC_OK, Some st) /\ st_fdx st = 1 /\ t' = <[1 := after_poll st port_1]> ports /\ forced_poll port_1 1 st l).
Proof. exact (lan8x8x_poll_spec (CO := sim_callout) PHY_ID_LAN888X 1 mepa_status_t_0 ports port_1 port_there). Defined.
Lemma lan8x8x_probe_spec_witness :
  does (lan8x8x_probe (CO := sim_callout) PHY_ID_LAN878X 3 3 true (Some 2) 7) ports (fun r t' l => r = Some 2 /\
    exists v1 v2 v3 s l1 id1 id2 l2, let d := probed PHY_ID_LAN878X 7 v1 v2 s (Z.testbit v3 7) in
    t' = <[2 := after_setup id1 id2 d]> ports /\ ready (after_setup id1 id2 d) = true /\ starts d = true /\
    l = [ARd 2 (Mmd 30 0xF052) v1; ARd 2 (Mmd 30 0xF053) v2; ARd 2 (Mmd 30 0xF055) v3] ++ l1 ++ l2 /\
    (if Z.testbit v3 7 then s = v3 /\ l1 = [] else l1 = [ARd 2 (Mmd 30 0xF0F8) s]) /\
    sets_up PHY_ID_LAN878X 3 3 2 d id1 id2 l2).
Proof. exact (lan8x8x_probe_spec (CO := sim_callout) PHY_ID_LAN878X 3 3 2 7 ports). Defined.
