(* ===== verification/Lan884x.v ===== *)
(** * Lan884x: the driver of the LAN884x

    [mepa/microchip/lan884x/src/lan884x.c] and [lan884x_private.h]: the whole
    driver of the gigabit PHY with a GMII or RGMII interface, over the register
    map of the LAN8814.  Its accessors are written as those of [Lan8814Access]
    ([pfe_*_eq] in [Lan884xSpec] says that they are the same), and unlike its
    sibling it makes four of its calls without the lock.

    Output pointers are what they point to before the call; the result has what
    they point to afterwards. *)

From Stdlib Require Import ZArith Lia List Bool String.
From stdpp Require Import base gmap strings list.
From S2P Require Import Prelude Machine Enums Lan8814Regs Lan8814Types MepaCore Lan8814Driver.

Definition PFE_MMD_COMMON_CTRL_REG : Z := 2.
Definition PFE_RXC_DLL_CTRL : Z := 76.
Definition PFE_TXC_DLL_CTRL : Z := 77.
Definition PFE_DLL_ENABLE_DELAY : Z := 0.
Definition DISABLE_DLL_TX_BIT : Z := LAN8814_BIT 14.
Definition DISABLE_DLL_RX_BIT : Z := LAN8814_BIT 14.
Definition DISABLE_DLL_MASK : Z := LAN8814_BIT 14.
Definition LAN8840_OPERATION_MODE_STRAP_LOW_REGISTER : Z := 3.
Definition LAN8840_OPERATION_MODE_STRAP_LOW_REGISTER_STRAP_RGMII_EN : Z := 1.

(** ** Data *)
Record phy_dev_info_t := Mk_phy_dev_info_t { dev_model : Z; dev_rev : Z }.
Record phy_data_t := Mk_phy_data_t {
  pd_port_no : Z;
  pd_conf : mepa_conf_t;
  pd_events : Z;
  pd_loopback : mepa_loopback_t;
  pd_dev : phy_dev_info_t;
  pd_link_status : Z;
  pd_speed_status : Z;
  pd_fdx_status : Z;
}.
Definition set_pd_conf (c : mepa_conf_t) (d : phy_data_t) : phy_data_t :=
  Mk_phy_data_t (pd_port_no d) c (pd_events d) (pd_loopback d) (pd_dev d) (pd_link_status d) (pd_speed_status d) (pd_fdx_status d).
Definition set_pd_dev (i : phy_dev_info_t) (d : phy_data_t) : phy_data_t :=
  Mk_phy_data_t (pd_port_no d) (pd_conf d) (pd_events d) (pd_loopback d) i (pd_link_status d) (pd_speed_status d) (pd_fdx_status d).
(** What a poll stores: link, speed and duplex of the status. *)
Definition set_pd_status (s : mepa_status_t) (d : phy_data_t) : phy_data_t :=
  Mk_phy_data_t (pd_port_no d) (pd_conf d) (pd_events d) (pd_loopback d) (pd_dev d) (st_link s) (st_speed s) (st_fdx s).
Definition phy_data_t_0 : phy_data_t :=
  Mk_phy_data_t 0 mepa_conf_t_0 0 mepa_loopback_t_0 (Mk_phy_dev_info_t 0 0) 0 0 0.

Section Lan884x.
Context {B : Type} {CO : Callout B}.
Local Abbreviation M := (M B phy_data_t).

(** ** Register access: a failing callout is traced and reported as success *)
Definition pfe_direct_reg_rd (dev addr cur : Z) : M (Z * Z) :=
  let* (_, v) <- co_read dev addr ;;
  ret (MEPA_RC_OK, default cur v).

Definition pfe_direct_reg_wr (dev addr value mask : Z) : M Z :=
  let value := u16 value in
  let mask := u16 mask in
  let* (rc, v) <- co_read dev addr ;;
  if rc =? MEPA_RC_OK then
    let reg_val := default value v in
    let reg_val := if negb (mask =? LAN8814_DEF_MASK)
                   then u16 ((reg_val .& .~ mask) .| (value .& mask))
                   else value in
    co_write dev addr reg_val ;;;
    ret MEPA_RC_OK
  else ret MEPA_RC_OK.

Definition pfe_mmd_reg_rd (dev mmd addr cur : Z) : M (Z * Z) :=
  rc <- pfe_direct_reg_wr dev LAN8814_MMD_ACCESS_CTRL mmd LAN8814_DEF_MASK ;;
  if rc <? MEPA_RC_OK then ret (rc, cur) else
  rc <- pfe_direct_reg_wr dev LAN8814_MMD_ACCESS_ADDR_DATA addr LAN8814_DEF_MASK ;;
  if rc <? MEPA_RC_OK then ret (rc, cur) else
  rc <- pfe_direct_reg_wr dev LAN8814_MMD_ACCESS_CTRL
          (LAN8814_F_MMD_ACCESS_CTRL_MMD_FUNC .| mmd) LAN8814_DEF_MASK ;;
  if rc <? MEPA_RC_OK then ret (rc, cur) else
  let* (rc, v) <- pfe_direct_reg_rd dev LAN8814_MMD_ACCESS_ADDR_DATA cur ;;
  if rc <? MEPA_RC_OK then ret (rc, v) else
  ret (MEPA_RC_OK, v).

Definition pfe_mmd_reg_wr (dev mmd addr value mask : Z) : M Z :=
  try_rc (pfe_direct_reg_wr dev LAN8814_MMD_ACCESS_CTRL mmd LAN8814_DEF_MASK) (
  try_rc (pfe_direct_reg_wr dev LAN8814_MMD_ACCESS_ADDR_DATA addr LAN8814_DEF_MASK) (
  try_rc (pfe_direct_reg_wr dev LAN8814_MMD_ACCESS_CTRL
            (LAN8814_F_MMD_ACCESS_CTRL_MMD_FUNC .| mmd) LAN8814_DEF_MASK) (
  try_rc (pfe_direct_reg_wr dev LAN8814_MMD_ACCESS_ADDR_DATA value mask) (
  ret MEPA_RC_OK)))).

(** ** Creation, reset and configuration *)

(** [mem] is the device that [mepa_create_int] allocates ([None]: NULL), with
    private data that it has cleared. *)
Definition pfe_probe (mem : option Z) (numeric_handle : Z) : M (option Z) :=
  match mem with
  | None => ret None
  | Some dev =>
      (fun w => Some (tt, World (w_bus w) (<[dev := phy_data_t_0]> (w_data w)) (w_log w))) ;;;
      upd dev (fun d => Mk_phy_data_t numeric_handle (pd_conf d) 0 (pd_loopback d) (pd_dev d)
                          (pd_link_status d) (pd_speed_status d) (pd_fdx_status d)) ;;;
      ret (Some dev)
  end.
(** [mepa_delete_int] gives the device back to the [mem_free] callout, if there is one. *)
Definition pfe_delete (mem_free : bool) (dev : Z) : M Z := fun w =>
  match w_data w !! dev with
  | None => None
  | Some _ => Some (MEPA_RC_OK, if mem_free then World (w_bus w) (delete dev (w_data w)) (w_log w) else w)
  end.

Definition pfe_get_device_info (dev : Z) : M Z :=
  let* (_, id) <- pfe_direct_reg_rd dev LAN8814_DEVICE_ID_2 (uninit16 "pfe_get_device_info.id") ;;
  upd dev (set_pd_dev (Mk_phy_dev_info_t (u8 (LAN8814_X_DEV_ID_MODEL id)) (u8 (LAN8814_X_DEV_ID_REV id)))) ;;;
  ret MEPA_RC_OK.
Definition pfe_reset (dev : Z) (rst_conf : mepa_reset_param_t) : M Z :=
  (if rst_reset_point rst_conf =? MEPA_RESET_POINT_DEFAULT
   then pfe_direct_reg_wr dev LAN8814_BASIC_CONTROL LAN8814_F_BASIC_CTRL_SOFT_RESET LAN8814_F_BASIC_CTRL_SOFT_RESET ;;; ret tt
   else ret tt) ;;;
  msleep 1 ;;;
  pfe_get_device_info dev ;;;
  ret MEPA_RC_OK.

Definition pfe_conf_get (dev : Z) : M (Z * mepa_conf_t) :=
  mepa_enter ;;; data <- data_of dev ;; mepa_exit ;;; ret (MEPA_RC_OK, pd_conf data).
Definition pfe_conf_set (dev : Z) (config : mepa_conf_t) : M Z :=
  mepa_enter ;;;
  upd dev (set_pd_conf config) ;;;
  mepa_exit ;;;
  (if tb (conf_admin_enable config)
   then pfe_direct_reg_wr dev LAN8814_BASIC_CONTROL 0 LAN8814_F_BASIC_CTRL_SOFT_POW_DOWN
   else pfe_direct_reg_wr dev LAN8814_BASIC_CONTROL LAN8814_F_BASIC_CTRL_SOFT_POW_DOWN LAN8814_F_BASIC_CTRL_SOFT_POW_DOWN) ;;;
  ret MEPA_RC_OK.

(** ** The MAC interface *)

(** The interface that the delay of the receive and of the transmit clock make. *)
Definition pfe_rgmii_of (rxcdll_val txcdll_val : Z) : Z :=
  if tb (rxcdll_val .& DISABLE_DLL_MASK) && tb (txcdll_val .& DISABLE_DLL_MASK) then MESA_PORT_INTERFACE_RGMII
  else if negb (tb (rxcdll_val .& DISABLE_DLL_MASK)) && tb (txcdll_val .& DISABLE_DLL_MASK) then MESA_PORT_INTERFACE_RGMII_RXID
  else if tb (rxcdll_val .& DISABLE_DLL_MASK) && negb (tb (txcdll_val .& DISABLE_DLL_MASK)) then MESA_PORT_INTERFACE_RGMII_TXID
  else MESA_PORT_INTERFACE_RGMII_ID.
Definition pfe_if_get (dev speed mac_if : Z) : M (Z * Z) :=
  let* (_, val) <- pfe_mmd_reg_rd dev 2 LAN8840_OPERATION_MODE_STRAP_LOW_REGISTER 0 ;;
  if tb (val .& LAN8840_OPERATION_MODE_STRAP_LOW_REGISTER_STRAP_RGMII_EN) then
    let* (rc, rxcdll_val) <- pfe_mmd_reg_rd dev PFE_MMD_COMMON_CTRL_REG PFE_RXC_DLL_CTRL (uninit16 "pfe_if_get.rxcdll_val") ;;
    let* (rc2, txcdll_val) <- pfe_mmd_reg_rd dev PFE_MMD_COMMON_CTRL_REG PFE_TXC_DLL_CTRL (uninit16 "pfe_if_get.txcdll_val") ;;
    let rc := rc .| rc2 in
    if negb (rc =? MEPA_RC_OK) then ret (rc, mac_if) else
    ret (MEPA_RC_OK, pfe_rgmii_of rxcdll_val txcdll_val)
  else ret (MEPA_RC_OK, MESA_PORT_INTERFACE_GMII).

(** The values of the two registers, receive first. *)
Definition pfe_dll_vals (interface : Z) : option (Z * Z) :=
  if interface =? MESA_PORT_INTERFACE_RGMII then Some (DISABLE_DLL_RX_BIT, DISABLE_DLL_TX_BIT)
  else if interface =? MESA_PORT_INTERFACE_RGMII_ID then Some (PFE_DLL_ENABLE_DELAY, PFE_DLL_ENABLE_DELAY)
  else if interface =? MESA_PORT_INTERFACE_RGMII_RXID then Some (PFE_DLL_ENABLE_DELAY, DISABLE_DLL_TX_BIT)
  else if interface =? MESA_PORT_INTERFACE_RGMII_TXID then Some (DISABLE_DLL_RX_BIT, PFE_DLL_ENABLE_DELAY)
  else None.
Definition pfe_config_rgmii_delay (dev interface : Z) : M Z :=
  match pfe_dll_vals interface with
  | None => ret 0
  | Some (rxcdll_val, txcdll_val) =>
      rc <- pfe_mmd_reg_wr dev PFE_MMD_COMMON_CTRL_REG PFE_RXC_DLL_CTRL rxcdll_val DISABLE_DLL_MASK ;;
      if negb (rc =? MEPA_RC_OK) then ret rc else
      pfe_mmd_reg_wr dev PFE_MMD_COMMON_CTRL_REG PFE_TXC_DLL_CTRL txcdll_val DISABLE_DLL_MASK
  end.
Definition pfe_if_set (dev mac_if : Z) : M Z :=
  if (mac_if =? MESA_PORT_INTERFACE_RGMII) || (mac_if =? MESA_PORT_INTERFACE_RGMII_ID) ||
     (mac_if =? MESA_PORT_INTERFACE_RGMII_RXID) || (mac_if =? MESA_PORT_INTERFACE_RGMII_TXID)
  then pfe_config_rgmii_delay dev mac_if else ret MEPA_RC_OK.
Definition if2txt (if_type : Z) : string :=
  if if_type =? MESA_PORT_INTERFACE_GMII then "GMII"
  else if if_type =? MESA_PORT_INTERFACE_RGMII then "RGMII"
  else if if_type =? MESA_PORT_INTERFACE_RGMII_ID then "RGMII_ID"
  else if if_type =? MESA_PORT_INTERFACE_RGMII_RXID then "RGMII_RXID"
  else if if_type =? MESA_PORT_INTERFACE_RGMII_TXID then "RGMII_TXID"
  else "?   ".

Definition pfe_capability (capability : Z) : Z := if capability =? MEPA_CAP_SPEED_1G then 1 else 0.
Definition pfe_info_get (dev : Z) (phy_info : mepa_phy_info_t) : M (Z * mepa_phy_info_t) :=
  data <- data_of dev ;;
  let cap := if tb (pfe_capability MEPA_CAP_SPEED_1G) then MEPA_CAP_SPEED_MASK_1G else pi_cap phy_info in
  ret (MEPA_RC_OK, Mk_mepa_phy_info_t 8841 (dev_rev (pd_dev data)) cap
         (pi_ts_base_port phy_info) (pi_ts_base phy_info) "Microchip" "LAN884X").

(** ** The link *)

(** Speed and duplex of the best mode that both ends advertise; [val] is the
    base page of the link partner, [val2] its gigabit abilities. *)
Definition pfe_resolve (aneg : mepa_aneg_adv_t) (status : mepa_status_t) (val val2 : Z) : mepa_status_t :=
  let got s f := set_st_fdx f (set_st_speed s status) in
  if tb (val2 .& LAN8814_F_ANEG_MSTR_SLV_STATUS_1000_T_FULL_DUP) && tb (adv_speed_1g_fdx aneg) then got MEPA_SPEED_1G 1
  else if tb (val .& LAN8814_F_ANEG_LP_BASE_100_X_FULL_DUP) && tb (adv_speed_100m_fdx aneg) then got MEPA_SPEED_100M 1
  else if tb (val .& LAN8814_F_ANEG_LP_BASE_100_X_HALF_DUP) && tb (adv_speed_100m_hdx aneg) then got MEPA_SPEED_100M 0
  else if tb (val .& LAN8814_F_ANEG_LP_BASE_10_T_FULL_DUP) && tb (adv_speed_10m_fdx aneg) then got MEPA_SPEED_10M 1
  else if tb (val .& LAN8814_F_ANEG_LP_BASE_10_T_HALF_DUP) && tb (adv_speed_10m_hdx aneg) then got MEPA_SPEED_10M 0
  else status.
Definition pfe_pause (flow_control val : Z) (status : mepa_status_t) : mepa_status_t :=
  let lp_sym_pause := tb (val .& LAN8814_F_ANEG_LP_BASE_SYM_PAUSE) in
  let lp_asym_pause := tb (val .& LAN8814_F_ANEG_LP_BASE_ASYM_PAUSE) in
  set_st_aneg (Mk_mepa_aneg_t (cb (tb flow_control && (lp_sym_pause || lp_asym_pause)))
                              (cb (tb flow_control && lp_sym_pause))) status.
Definition pfe_forced (val2 : Z) (status : mepa_status_t) : mepa_status_t :=
  let speed := cb (tb (val2 .& LAN8814_F_BASIC_CTRL_SPEED_SEL_BIT_0)) .|
               (cb (tb (val2 .& LAN8814_F_BASIC_CTRL_SPEED_SEL_BIT_1)) .<< 1) in
  let speed := if speed =? 0 then MEPA_SPEED_10M else if speed =? 1 then MEPA_SPEED_100M
               else if speed =? 2 then MEPA_SPEED_1G else MEPA_SPEED_UNDEFINED in
  set_st_fdx (cb (tb (val2 .& LAN8814_F_BASIC_CTRL_DUP_MODE))) (set_st_speed speed status).

(** The code at [end:]. *)
Definition pfe_poll_end (dev : Z) (status : mepa_status_t) : M (Z * mepa_status_t) :=
  upd dev (set_pd_status status) ;;; mepa_exit ;;; ret (MEPA_RC_OK, status).
(** [val] is the status register. *)
Definition pfe_poll_aneg (dev : Z) (data : phy_data_t) (status : mepa_status_t) (val val2 : Z) : M (Z * mepa_status_t) :=
  let near_end := tb (lb_near_end_ena (pd_loopback data)) in
  let status := set_st_fdx 1 (set_st_speed MEPA_SPEED_UNDEFINED status) in
  let status :=
    if negb near_end && tb (st_link status) && negb (tb (val .& LAN8814_F_BASIC_STATUS_ANEG_COMPLETE)) then set_st_link 0 status
    else if near_end then set_st_speed MEPA_SPEED_1G status else status in
  if negb (tb (st_link status)) || near_end then pfe_poll_end dev status else
  let* (_, val) <- pfe_direct_reg_rd dev LAN8814_ANEG_LP_BASE val ;;
  let* (_, val2) <- pfe_direct_reg_rd dev LAN8814_ANEG_MSTR_SLV_STATUS val2 ;;
  pfe_poll_end dev (pfe_pause (conf_flow_control (pd_conf data)) val
                      (pfe_resolve (conf_aneg (pd_conf data)) status val val2)).
Definition pfe_poll (dev : Z) (status : mepa_status_t) : M (Z * mepa_status_t) :=
  let val2 := 0 in
  mepa_enter ;;;
  let* (_, val) <- pfe_direct_reg_rd dev LAN8814_BASIC_STATUS (uninit16 "pfe_poll.val") ;;
  let status := set_st_link (if tb (val .& LAN8814_F_BASIC_STATUS_LINK_STATUS) then 1 else 0) status in
  data <- data_of dev ;;
  let status := if lb_near_end_ena (pd_loopback data) =? TRUE then set_st_link 1 status else status in
  if (conf_speed (pd_conf data) =? MEPA_SPEED_AUTO) || (conf_speed (pd_conf data) =? MEPA_SPEED_1G)
  then pfe_poll_aneg dev data status val val2
  else
    let* (_, val2) <- pfe_direct_reg_rd dev LAN8814_BASIC_CONTROL val2 ;;
    pfe_poll_end dev (pfe_forced val2 status).

(** The code, and [(master_cfg_fault, master)]. *)
Definition pfe_aneg_status_get (dev : Z) : M (Z * (Z * Z)) :=
  mepa_enter ;;;
  let* (_, val) <- pfe_direct_reg_rd dev LAN8814_ANEG_MSTR_SLV_STATUS (uninit16 "pfe_aneg_status_get.val") ;;
  mepa_exit ;;;
  ret (MEPA_RC_OK, (if tb (val .& LAN8814_F_ANEG_MSTR_SLV_STATUS_CFG_FAULT) then TRUE else FALSE,
                    if tb (val .& LAN8814_F_ANEG_MSTR_SLV_STATUS_CFG_RES) then TRUE else FALSE)).

(** ** Debug access *)
Definition pfe_direct_reg_read (dev address value : Z) : M (Z * Z) :=
  let addr := u32 address .& 0x1f in
  mepa_enter ;;; r <- pfe_direct_reg_rd dev addr value ;; mepa_exit ;;; ret r.
Definition pfe_direct_reg_write (dev address value : Z) : M Z :=
  let addr := u32 address .& 0x1f in
  mepa_enter ;;; rc <- pfe_direct_reg_wr dev addr value 0xFFFF ;; mepa_exit ;;; ret rc.
Definition pfe_ext_mmd_reg_read (dev address value : Z) : M (Z * Z) :=
  let mmd := (u32 address .>> 16) .& 0xffff in
  let addr := u32 address .& 0xffff in
  mepa_enter ;;;
  r <- (if tb mmd then pfe_mmd_reg_rd dev mmd addr value else ret (MEPA_RC_OK, value)) ;;
  mepa_exit ;;; ret r.
Definition pfe_ext_mmd_reg_write (dev address value : Z) : M Z :=
  let mmd := (u32 address .>> 16) .& 0xffff in
  let addr := u32 address .& 0xffff in
  mepa_enter ;;;
  rc <- (if tb mmd then pfe_mmd_reg_wr dev mmd addr value 0xFFFF else ret MEPA_RC_OK) ;;
  mepa_exit ;;; ret rc.

(** A line of the dump: the print callback gets the port, the MMD device or
    page, the address and the value, which is also left in [*value].  The text
    of the lines is left out. *)
Definition pfe_phy_deb_pr_reg (dev : Z) (pr : bool) (mmd page addr value : Z) : M Z :=
  data <- data_of dev ;;
  let id := if tb mmd then mmd else page in
  let* (rc, value) <- (if tb mmd then pfe_mmd_reg_rd dev mmd addr value else pfe_direct_reg_rd dev addr value) ;;
  (if pr && (MEPA_RC_OK =? rc) then log (EvCall 0 [u32 (pd_port_no data); id; addr; value]) else ret tt) ;;;
  ret value.
Definition reg_dump_addrs : list Z :=
  [0; 1; 2; 3; 4; 5; 6; 7; 8; 9; 10; 13; 14; 15; 16; 17; 18; 19; 20; 21; 22; 23; 24; 25; 26; 27; 28; 29; 30; 31].
Fixpoint reg_dump_rows (dev : Z) (addrs : list Z) (val : Z) : M unit :=
  match addrs with
  | [] => ret tt
  | addr :: addrs => val <- pfe_phy_deb_pr_reg dev true 0 0 addr val ;; reg_dump_rows dev addrs val
  end.
(** The two lines of the heading are printed without a test of [pr]. *)
Definition reg_dump (dev : Z) (pr : bool) : M Z :=
  if pr then log (EvCall 0 []) ;;; log (EvCall 0 []) ;;; reg_dump_rows dev reg_dump_addrs 0 ;;; ret MEPA_RC_OK
  else undefined.

(** [info] is [(info->layer, info->group)], [numeric_handle] that of the device;
    the local [phy_info] is not initialised, [ts_base] being the only pointer
    that stays so.  The interface, printed as the text [if2txt], is its number. *)
Definition pfe_debug_info_dump (dev numeric_handle : Z) (pr : bool) (info : Z * Z) : M Z :=
  let '(layer, group) := info in
  let junk := uninit "pfe_debug_info_dump.phy_info" in
  let* (_, phy_info) <- pfe_info_get dev (Mk_mepa_phy_info_t junk junk junk junk None "" "") ;;
  let* (_, mac_if) <- pfe_if_get dev 1000 0 ;;
  (if (layer =? MEPA_DEBUG_LAYER_AIL) || (layer =? MEPA_DEBUG_LAYER_ALL) then
     mepa_enter ;;;
     (if pr then log (EvCall 0 [numeric_handle; pi_part_number phy_info; pi_revision phy_info; mac_if]) else undefined) ;;;
     mepa_exit
   else ret tt) ;;;
  if ((layer =? MEPA_DEBUG_LAYER_CIL) || (layer =? MEPA_DEBUG_LAYER_ALL)) &&
     ((group =? MEPA_DEBUG_GROUP_ALL) || (group =? MEPA_DEBUG_GROUP_PHY)) then
    mepa_enter ;;; rc <- reg_dump dev pr ;; mepa_exit ;;; ret rc
  else ret MEPA_RC_OK.
End Lan884x.

(** ** The driver table *)
#[local] Open Scope string_scope.
Definition mepa_lan884x_driver_init : list mepa_driver_t :=
  [ Mk_mepa_driver_t 0x221650 0xfffff0
    [ ("mepa_driver_delete", "pfe_delete");
      ("mepa_driver_reset", "pfe_reset");
      ("mepa_driver_poll", "pfe_poll");
      ("mepa_driver_conf_set", "pfe_conf_set");
      ("mepa_driver_conf_get", "pfe_conf_get");
      ("mepa_driver_if_set", "pfe_if_set");
      ("mepa_driver_if_get", "pfe_if_get");
      ("mepa_driver_probe", "pfe_probe");
      ("mepa_driver_aneg_status_get", "pfe_aneg_status_get");
      ("mepa_driver_clause22_read", "pfe_direct_reg_read");
      ("mepa_driver_clause22_write", "pfe_direct_reg_write");
      ("mepa_driver_clause45_read", "pfe_ext_mmd_reg_read");
      ("mepa_driver_clause45_write", "pfe_ext_mmd_reg_write");
      ("mepa_capability", "pfe_capability");
      ("mepa_driver_phy_info_get", "pfe_info_get");
      ("mepa_debug_info_dump", "pfe_debug_info_dump") ] ].
