(* ===== verification/Lan884xSpec.v ===== *)
(** * Lan884xSpec: what the driver of the LAN884x does

    Its accessors are those of the LAN8814, so the rules of [Lan8814Access]
    hold for them; with these, what a poll reports, the round trip of the RGMII
    delays and what the configuration and a reset change, for every content of
    the registers. *)

From Stdlib Require Import ZArith Lia List Bool String.
From stdpp Require Import base gmap strings list.
From S2P Require Import Prelude Machine Enums Lan8814Regs Lan8814Types Trace Mdio Lan8814Access SimPhy AccessLemmas Lan884x.

Section Same.
Context {B : Type} {CO : Callout B}.

Lemma pfe_direct_reg_rd_eq dev addr cur : pfe_direct_reg_rd (B := B) dev addr cur = lan8814_direct_reg_rd dev addr cur.
Proof. done. Qed.
Lemma pfe_direct_reg_wr_eq dev addr v m : pfe_direct_reg_wr (B := B) dev addr v m = lan8814_direct_reg_wr dev addr v m.
Proof. done. Qed.
Lemma pfe_mmd_reg_rd_eq dev mmd addr cur : pfe_mmd_reg_rd (B := B) dev mmd addr cur = lan8814_mmd_reg_rd dev mmd addr cur.
Proof. done. Qed.
Lemma pfe_mmd_reg_wr_eq dev mmd addr v m : pfe_mmd_reg_wr (B := B) dev mmd addr v m = lan8814_mmd_reg_wr dev mmd addr v m.
Proof. done. Qed.
End Same.

Local Ltac step :=
  lazymatch goal with
  | |- does (pfe_direct_reg_rd _ _ _) _ _ => rewrite pfe_direct_reg_rd_eq; apply does_direct_reg_rd; [reflexivity|intros ? ?]
  | |- does (pfe_direct_reg_wr _ _ _ _) _ _ => rewrite pfe_direct_reg_wr_eq; apply does_direct_reg_wr; [reflexivity|intros ? ?]
  | |- does (pfe_mmd_reg_rd _ _ _ _) _ _ => rewrite pfe_mmd_reg_rd_eq; apply does_mmd_reg_rd; [reflexivity|intros ? ?]
  | |- does (pfe_mmd_reg_wr _ _ _ _ _) _ _ => rewrite pfe_mmd_reg_wr_eq; apply does_mmd_reg_wr; [reflexivity|intros ? ?]
  | |- _ => does_basic
  end.
Local Ltac run := repeat (step; cbv beta zeta iota; cbn [fst snd]).

(** ** The link *)

(** The modes both ends advertise, in the order of preference of clause 28:
    1G in register 10, the others in register 5. *)
Definition modes : list (Z * Z) :=
  [(MEPA_SPEED_1G, 1); (MEPA_SPEED_100M, 1); (MEPA_SPEED_100M, 0); (MEPA_SPEED_10M, 1); (MEPA_SPEED_10M, 0)].
Definition offered (a : mepa_aneg_adv_t) (lp ms : Z) (m : Z * Z) : bool :=
  let '(s, f) := m in
  if s =? MEPA_SPEED_1G then Z.testbit ms 11 && tb (adv_speed_1g_fdx a)
  else if s =? MEPA_SPEED_100M then
    if f =? 1 then Z.testbit lp 8 && tb (adv_speed_100m_fdx a) else Z.testbit lp 7 && tb (adv_speed_100m_hdx a)
  else if f =? 1 then Z.testbit lp 6 && tb (adv_speed_10m_fdx a) else Z.testbit lp 5 && tb (adv_speed_10m_hdx a).
Definition best (a : mepa_aneg_adv_t) (lp ms : Z) : option (Z * Z) := head (List.filter (offered a lp ms) modes).
(** Without a common mode, full duplex at no speed. *)
Definition agreed (a : mepa_aneg_adv_t) (lp ms : Z) : Z * Z := default (MEPA_SPEED_UNDEFINED, 1) (best a lp ms).

Lemma pfe_resolve_best a st lp ms : st_speed st = MEPA_SPEED_UNDEFINED -> st_fdx st = 1 ->
  pfe_resolve a st lp ms = set_st_fdx (snd (agreed a lp ms)) (set_st_speed (fst (agreed a lp ms)) st).
Proof.
  intros Hs Hf. unfold pfe_resolve, agreed, best.
  change LAN8814_F_ANEG_MSTR_SLV_STATUS_1000_T_FULL_DUP with (1 .<< 11).
  change LAN8814_F_ANEG_LP_BASE_100_X_FULL_DUP with (1 .<< 8).
  change LAN8814_F_ANEG_LP_BASE_100_X_HALF_DUP with (1 .<< 7).
  change LAN8814_F_ANEG_LP_BASE_10_T_FULL_DUP with (1 .<< 6).
  change LAN8814_F_ANEG_LP_BASE_10_T_HALF_DUP with (1 .<< 5).
  rewrite !tb_bit by lia. cbn -[Z.testbit tb].
  destruct (Z.testbit ms 11 && _); [done|]. destruct (Z.testbit lp 8 && _); [done|].
  destruct (Z.testbit lp 7 && _); [done|]. destruct (Z.testbit lp 6 && _); [done|].
  destruct (Z.testbit lp 5 && _); [done|]. destruct st; cbn in *; by subst.
Qed.

(** Pause frames, from register 5: symmetric in bit 10, asymmetric in bit 11. *)
Definition pauses (flow_control lp : Z) : mepa_aneg_t :=
  Mk_mepa_aneg_t (cb (tb flow_control && (Z.testbit lp 10 || Z.testbit lp 11))) (cb (tb flow_control && Z.testbit lp 10)).

(** Speed of a port that does not negotiate: bit 6 and bit 13 of register 0. *)
Definition forced_speed (v : Z) : Z :=
  match Z.testbit v 6, Z.testbit v 13 with
  | false, false => MEPA_SPEED_10M
  | false, true => MEPA_SPEED_100M
  | true, false => MEPA_SPEED_1G
  | true, true => MEPA_SPEED_UNDEFINED
  end.

Lemma pfe_pause_eq fc v st : pfe_pause fc v st = set_st_aneg (pauses fc v) st.
Proof.
  unfold pfe_pause. change LAN8814_F_ANEG_LP_BASE_SYM_PAUSE with (1 .<< 10).
  change LAN8814_F_ANEG_LP_BASE_ASYM_PAUSE with (1 .<< 11). by rewrite !tb_bit by lia.
Qed.
Lemma pfe_forced_eq v st : pfe_forced v st = set_st_fdx (cb (Z.testbit v 8)) (set_st_speed (forced_speed v) st).
Proof.
  unfold pfe_forced, forced_speed. change LAN8814_F_BASIC_CTRL_SPEED_SEL_BIT_0 with (1 .<< 13).
  change LAN8814_F_BASIC_CTRL_SPEED_SEL_BIT_1 with (1 .<< 6). change LAN8814_F_BASIC_CTRL_DUP_MODE with (1 .<< 8).
  rewrite !tb_bit by lia. by destruct (Z.testbit v 6), (Z.testbit v 13).
Qed.

(** Does the port negotiate? *)
Definition negotiates (d : phy_data_t) : bool :=
  (conf_speed (pd_conf d) =? MEPA_SPEED_AUTO) || (conf_speed (pd_conf d) =? MEPA_SPEED_1G).

Section Spec.
Context {B : Type} {CO : Callout B} {OK : BusOk CO}.
Notation table := (gmap Z phy_data_t).
Implicit Types (dev : Z) (d : phy_data_t) (t : table) (st : mepa_status_t).
Local Abbreviation does := (does (B := B) (D := phy_data_t)).

(** Polling the link on a bus without errors always succeeds, writes no
    register, and what it reports as link, speed and duplex is what it stores.
    A port that negotiates has a link when the status register shows one and
    the end of the negotiation; only then is the link partner's advertisement
    read, speed and duplex are the first of 1G, 100M and 10M, full before half
    duplex, that both ends advertise (no speed and full duplex if there is
    none), and the pause abilities those of the partner, if flow control is
    configured.  A port that does not negotiate has the link of the status
    register and the speed and duplex of the control register. *)
Theorem pfe_poll_spec dev st t d :
  t !! dev = Some d -> lb_near_end_ena (pd_loopback d) = FALSE ->
  does (pfe_poll dev st) t (fun r t' l =>
    exists bsr, let st' := snd r in
    fst r = MEPA_RC_OK /\ t' = <[dev := set_pd_status st' d]> t /\ all_wr dev l = [] /\
    if negotiates d then
      st_link st' = cb (Z.testbit bsr 2 && Z.testbit bsr 5) /\
      if Z.testbit bsr 2 && Z.testbit bsr 5 then exists lp ms,
        l = [ARd dev (Direct 1) bsr; ARd dev (Direct 5) lp; ARd dev (Direct 10) ms] /\
        (st_speed st', st_fdx st') = agreed (conf_aneg (pd_conf d)) lp ms /\
        st_aneg st' = pauses (conf_flow_control (pd_conf d)) lp
      else l = [ARd dev (Direct 1) bsr] /\ st_speed st' = MEPA_SPEED_UNDEFINED /\ st_fdx st' = 1 /\ st_aneg st' = st_aneg st
    else exists bmcr, l = [ARd dev (Direct 1) bsr; ARd dev (Direct 0) bmcr] /\
      st_link st' = cb (Z.testbit bsr 2) /\ st_speed st' = forced_speed bmcr /\ st_fdx st' = cb (Z.testbit bmcr 8)).
Proof.
  intros Hd Hl. unfold pfe_poll. do 4 (step; cbv beta zeta iota). do 2 step. rewrite Hl.
  change (FALSE =? TRUE) with false. change LAN8814_F_BASIC_STATUS_LINK_STATUS with (1 .<< 2).
  rewrite tb_bit by lia. fold (negotiates d). destruct (negotiates d).
  - unfold pfe_poll_aneg. rewrite Hl. change (tb FALSE) with false.
    change LAN8814_F_BASIC_STATUS_ANEG_COMPLETE with (1 .<< 5). rewrite tb_bit by lia.
    destruct (Z.testbit v 2) eqn:E2, (Z.testbit v 5) eqn:E5; cbn [negb andb orb tb st_link set_st_speed set_st_fdx set_st_link Z.eqb];
      unfold pfe_poll_end; run; exists v; rewrite E2, E5; cbn [andb cb]; try by split_and!.
    rewrite pfe_pause_eq, pfe_resolve_best by done. split_and!; [done..|].
    eexists _, _. split_and!; [done| |done]. by destruct (agreed _ _ _).
  - run. unfold pfe_poll_end. run. rewrite pfe_forced_eq. exists v. split_and!; [done..|].
    eexists. by split_and!.
Qed.

(** ** The MAC interface *)

(** The delay of the receive clock and of the transmit clock. *)
Definition rx_delay (i : Z) : bool := (i =? MESA_PORT_INTERFACE_RGMII_ID) || (i =? MESA_PORT_INTERFACE_RGMII_RXID).
Definition tx_delay (i : Z) : bool := (i =? MESA_PORT_INTERFACE_RGMII_ID) || (i =? MESA_PORT_INTERFACE_RGMII_TXID).
Definition rgmii (i : Z) : bool := (MESA_PORT_INTERFACE_RGMII <=? i) && (i <=? MESA_PORT_INTERFACE_RGMII_TXID).
(** A register of a delay: bit 14 says that there is none. *)
Definition dll (x : Z) (delay : bool) : Z := if delay then Z.clearbit x 14 else Z.setbit x 14.

Lemma rmw_clear y k : 0 <= k < 16 -> 0 <= y < 65536 -> rmw y 0 (2 ^ k) = Z.clearbit y k.
Proof.
  intros Hk Hy. apply Z.bits_inj'. intros i Hi.
  rewrite testbit_rmw, Z.pow2_bits_eqb, Z.bits_0, Z.clearbit_eqb by lia.
  destruct (Z.ltb_spec i 16); [by destruct (k =? i), (Z.testbit y i)|].
  by rewrite (testbit_small y 16) by lia.
Qed.
Lemma rmw_dll x (delay : bool) : 0 <= x < 65536 ->
  rmw x (if delay then PFE_DLL_ENABLE_DELAY else DISABLE_DLL_MASK) DISABLE_DLL_MASK = dll x delay.
Proof. destruct delay; [apply (rmw_clear x 14)|apply (rmw_bit x 14)]; lia. Qed.
Lemma rgmii_of_dll x y rx tx : pfe_rgmii_of (dll x rx) (dll y tx) =
  if rx then (if tx then MESA_PORT_INTERFACE_RGMII_ID else MESA_PORT_INTERFACE_RGMII_RXID)
  else if tx then MESA_PORT_INTERFACE_RGMII_TXID else MESA_PORT_INTERFACE_RGMII.
Proof.
  unfold pfe_rgmii_of. change DISABLE_DLL_MASK with (1 .<< 14). rewrite !tb_bit by lia.
  assert (forall z b, Z.testbit (dll z b) 14 = negb b) as E.
  { intros z b. unfold dll. destruct b; [apply Z.clearbit_eq|apply Z.setbit_eq]; lia. }
  rewrite !E. by destruct rx, tx.
Qed.
Lemma rgmii_cases i : rgmii i = true ->
  pfe_dll_vals i = Some (if rx_delay i then PFE_DLL_ENABLE_DELAY else DISABLE_DLL_MASK,
                         if tx_delay i then PFE_DLL_ENABLE_DELAY else DISABLE_DLL_MASK) /\
  i = if rx_delay i then (if tx_delay i then MESA_PORT_INTERFACE_RGMII_ID else MESA_PORT_INTERFACE_RGMII_RXID)
      else if tx_delay i then MESA_PORT_INTERFACE_RGMII_TXID else MESA_PORT_INTERFACE_RGMII.
Proof.
  unfold rgmii. change MESA_PORT_INTERFACE_RGMII with 5. change MESA_PORT_INTERFACE_RGMII_TXID with 8. intros Hi.
  assert (i = 5 \/ i = 6 \/ i = 7 \/ i = 8) as H by lia. by destruct H as [-> | [-> | [-> | ->]]].
Qed.

(** What setting an interface writes: nothing but the delays of an RGMII, each
    in one bit of its register. *)
Lemma pfe_if_set_spec dev i t :
  does (pfe_if_set dev i) t (fun rc t' l => rc = MEPA_RC_OK /\ t' = t /\
    if rgmii i then exists x y, 0 <= x < 65536 /\ 0 <= y < 65536 /\
      l = [ARd dev (Mmd 2 76) x; AWr dev (Mmd 2 76) (dll x (rx_delay i));
           ARd dev (Mmd 2 77) y; AWr dev (Mmd 2 77) (dll y (tx_delay i))]
    else l = []).
Proof.
  unfold pfe_if_set.
  replace ((i =? MESA_PORT_INTERFACE_RGMII) || (i =? MESA_PORT_INTERFACE_RGMII_ID) ||
    (i =? MESA_PORT_INTERFACE_RGMII_RXID) || (i =? MESA_PORT_INTERFACE_RGMII_TXID)) with (rgmii i).
  2: { unfold rgmii. change MESA_PORT_INTERFACE_RGMII with 5. change MESA_PORT_INTERFACE_RGMII_ID with 6.
       change MESA_PORT_INTERFACE_RGMII_RXID with 7. change MESA_PORT_INTERFACE_RGMII_TXID with 8. lia. }
  destruct (rgmii i) eqn:Hi; [|by run].
  unfold pfe_config_rgmii_delay. rewrite (proj1 (rgmii_cases i Hi)).
  step. step. change (negb (0 =? MEPA_RC_OK)) with false. cbv beta zeta iota. step. rewrite !rmw_dll by done. split_and!; [done|done|].
  eexists _, _. split; [|split; [|reflexivity]]; assumption.
Qed.
Lemma pfe_if_get_spec dev speed m t :
  does (pfe_if_get dev speed m) t (fun r t' l => fst r = MEPA_RC_OK /\ t' = t /\ exists s,
    if Z.testbit s 0 then exists x y, l = [ARd dev (Mmd 2 3) s; ARd dev (Mmd 2 76) x; ARd dev (Mmd 2 77) y] /\
      snd r = pfe_rgmii_of x y
    else l = [ARd dev (Mmd 2 3) s] /\ snd r = MESA_PORT_INTERFACE_GMII).
Proof.
  unfold pfe_if_get. step. step. cbv beta zeta iota.
  change LAN8840_OPERATION_MODE_STRAP_LOW_REGISTER_STRAP_RGMII_EN with (1 .<< 0). rewrite tb_bit by lia.
  destruct (Z.testbit v 0) eqn:E; run.
  - change (negb (0 .| 0 =? MEPA_RC_OK)) with false. cbv iota. run. split_and!; [done|done|].
    exists v. rewrite E. by eexists _, _.
  - split_and!; [done|done|]. exists v. by rewrite E.
Qed.

(** C30. An RGMII interface, with any of the four choices of delays, is accepted
    and written to bit 14 of two registers, whose other bits stay as they were;
    when these registers are read back with what was written, and the strap
    register says that the port is strapped to RGMII, the same interface is
    reported; without the strap it is GMII. *)
Theorem pfe_if_set_get dev i speed m t :
  rgmii i = true ->
  does (rc <- pfe_if_set dev i ;; r <- pfe_if_get dev speed m ;; ret (rc, r)) t (fun r t' l =>
    exists x y s, let x' := dll x (rx_delay i) in let y' := dll y (tx_delay i) in
    let sets := [ARd dev (Mmd 2 76) x; AWr dev (Mmd 2 76) x'; ARd dev (Mmd 2 77) y; AWr dev (Mmd 2 77) y'] in
    fst r = MEPA_RC_OK /\ fst (snd r) = MEPA_RC_OK /\ t' = t /\
    if Z.testbit s 0 then exists v w,
      l = sets ++ [ARd dev (Mmd 2 3) s; ARd dev (Mmd 2 76) v; ARd dev (Mmd 2 77) w] /\
      (v = x' /\ w = y' -> snd (snd r) = i)
    else l = sets ++ [ARd dev (Mmd 2 3) s] /\ snd (snd r) = MESA_PORT_INTERFACE_GMII).
Proof.
  intros Hi. apply does_bind. eapply does_mono; [apply pfe_if_set_spec|].
  intros rc t1 l1. cbv beta. rewrite Hi. intros (-> & -> & x & y & Hx & Hy & ->).
  apply does_bind. eapply does_mono; [apply pfe_if_get_spec|].
  intros r t2 l2 (Hr & -> & s & Hs). run. exists x, y, s. split_and!; [done..|].
  destruct (Z.testbit s 0); rewrite app_nil_r; [|by destruct Hs as (-> & Hm)].
  destruct Hs as (v & w & -> & Hm). exists v, w. split; [done|]. intros [-> ->].
  rewrite Hm, rgmii_of_dll. symmetry. exact (proj2 (rgmii_cases i Hi)).
Qed.

(** ** Configuration and reset *)

(** The configuration is stored, and of the control register the power-down bit
    is written, to what the admin state asks for; nothing else is programmed. *)
Theorem pfe_conf_set_spec dev c t d :
  t !! dev = Some d ->
  does (pfe_conf_set dev c) t (fun rc t' l => rc = MEPA_RC_OK /\ t' = <[dev := set_pd_conf c d]> t /\
    exists x, l = [ARd dev (Direct 0) x;
      AWr dev (Direct 0) (if tb (conf_admin_enable c) then Z.clearbit x 11 else Z.setbit x 11)]).
Proof.
  intros Hd. unfold pfe_conf_set. run.
  destruct (tb (conf_admin_enable c)); run; (split_and!; [done|done|]); eexists; cbn [app];
    rewrite ?app_nil_r; repeat f_equal.
  - apply (rmw_clear _ 11); lia.
  - apply (rmw_bit _ 11); lia.
Qed.

(** A reset sets bit 15 of the control register, unless it is for another point
    than the default, waits, and stores model and revision from the identifier. *)
Theorem pfe_reset_spec dev rst t d :
  t !! dev = Some d ->
  does (pfe_reset dev rst) t (fun rc t' l => rc = MEPA_RC_OK /\ exists x id,
    t' = <[dev := set_pd_dev (Mk_phy_dev_info_t (id / 16 mod 64) (id mod 16)) d]> t /\
    l = (if rst_reset_point rst =? MEPA_RESET_POINT_DEFAULT
         then [ARd dev (Direct 0) x; AWr dev (Direct 0) (Z.setbit x 15)] else []) ++ [ARd dev (Direct 3) id]).
Proof.
  intros Hd. unfold pfe_reset, pfe_get_device_info.
  assert (forall id, u8 (LAN8814_X_DEV_ID_MODEL id) = id / 16 mod 64 /\ u8 (LAN8814_X_DEV_ID_REV id) = id mod 16) as Hid.
  { intros id. change (LAN8814_X_DEV_ID_MODEL id) with ((id .>> 4) .& Z.ones 6).
    change (LAN8814_X_DEV_ID_REV id) with ((id .>> 0) .& Z.ones 4).
    rewrite !Z.land_ones, !Z.shiftr_div_pow2, Z.div_1_r by lia.
    change (2 ^ 4) with 16. change (2 ^ 6) with 64.
    rewrite !u8_small; [done|..]; pose proof (Z.mod_pos_bound (id / 16) 64); pose proof (Z.mod_pos_bound id 16); lia. }
  destruct (rst_reset_point rst =? MEPA_RESET_POINT_DEFAULT); run; (split; [done|]).
  - eexists x, v. rewrite (proj1 (Hid v)), (proj2 (Hid v)). split; [done|]. cbn [app]. repeat f_equal.
    apply (rmw_bit _ 15); lia.
  - eexists 0, v. by rewrite (proj1 (Hid v)), (proj2 (Hid v)).
Qed.
End Spec.

(** ** The lock *)

(** Unlike its sibling, the driver sets the configuration without the lock: the
    lock is left before the bus is accessed. *)
Theorem pfe_conf_set_unlocked {B} {CO : Callout B} {OK : CalloutOk (CO := CO)} dev c w :
  is_Some (w_data w !! dev) ->
  exists rc w' tr, pfe_conf_set dev c w = Some (rc, w') /\ w_log w' = w_log w ++ tr /\ disc false tr = None.
Proof.
  intros [d Hd]. destruct (ok_read (CO := CO)) as [f Ef]. destruct (ok_write (CO := CO)) as [g Eg].
  unfold pfe_conf_set, pfe_direct_reg_wr, mepa_enter, mepa_exit, bind, log, upd, co_read, co_write, ret.
  rewrite ok_enter, ok_exit. cbn [w_data]. rewrite Hd, Ef, Eg. cbn [w_bus w_data w_log].
  destruct (tb (conf_admin_enable c)); destruct (f dev _ _) as [[rc v] b]; cbv beta iota;
    (destruct (rc =? MEPA_RC_OK); [destruct (g dev _ _ _)|]); eexists _, _, (EvEnter :: EvExit :: EvRd _ _ _ _ :: _);
    (split; [reflexivity|]); cbn [w_log]; rewrite <- ?app_assoc; done.
Qed.

(** ** A concrete port *)

Definition pfe_port : phy_data_t :=
  set_pd_conf (set_conf_speed MEPA_SPEED_AUTO (set_conf_aneg (set_adv_speed_100m_fdx 1 mepa_aneg_adv_t_0) mepa_conf_t_0)) phy_data_t_0.
Definition pfe_table : gmap Z phy_data_t := {[7 := pfe_port]}.
(** With the link up, the negotiation ended and a partner for 100M full duplex. *)
Example pfe_poll_100m :
  exists w', pfe_poll (CO := sim_callout) 7 mepa_status_t_0
    (World (Sim [(7, Direct 1, 36); (7, Direct 5, 256)] (fun _ => Latch 0 0 0 0)) pfe_table []) =
  Some ((0, set_st_fdx 1 (set_st_speed MEPA_SPEED_100M (set_st_link 1 mepa_status_t_0))), w').
Proof. eexists. vm_compute. reflexivity. Qed.

Lemma pfe_poll_spec_witness :
  does (pfe_poll (CO := sim_callout) 7 mepa_status_t_0) pfe_table (fun r t' l =>
    exists bsr, let st' := snd r in
    fst r = MEPA_RC_OK /\ t' = <[7 := set_pd_status st' pfe_port]> pfe_table /\ all_wr 7 l = [] /\
    if negotiates pfe_port then
      st_link st' = cb (Z.testbit bsr 2 && Z.testbit bsr 5) /\
      if Z.testbit bsr 2 && Z.testbit bsr 5 then exists lp ms,
        l = [ARd 7 (Direct 1) bsr; ARd 7 (Direct 5) lp; ARd 7 (Direct 10) ms] /\
        (st_speed st', st_fdx st') = agreed (conf_aneg (pd_conf pfe_port)) lp ms /\
        st_aneg st' = pauses (conf_flow_control (pd_conf pfe_port)) lp
      else l = [ARd 7 (Direct 1) bsr] /\ st_speed st' = MEPA_SPEED_UNDEFINED /\ st_fdx st' = 1 /\
           st_aneg st' = st_aneg mepa_status_t_0
    else exists bmcr, l = [ARd 7 (Direct 1) bsr; ARd 7 (Direct 0) bmcr] /\
      st_link st' = cb (Z.testbit bsr 2) /\ st_speed st' = forced_speed bmcr /\ st_fdx st' = cb (Z.testbit bmcr 8)).
Proof. apply (pfe_poll_spec (CO := sim_callout) 7 mepa_status_t_0 pfe_table pfe_port); reflexivity. Defined.
Lemma pfe_if_set_get_witness :
  does (rc <- pfe_if_set (CO := sim_callout) 7 MESA_PORT_INTERFACE_RGMII_RXID ;; r <- pfe_if_get 7 0 0 ;; ret (rc, r)) pfe_table
  (fun r t' l =>
    exists x y s, let x' := dll x true in let y' := dll y false in
    let sets := [ARd 7 (Mmd 2 76) x; AWr 7 (Mmd 2 76) x'; ARd 7 (Mmd 2 77) y; AWr 7 (Mmd 2 77) y'] in
    fst r = MEPA_RC_OK /\ fst (snd r) = MEPA_RC_OK /\ t' = pfe_table /\
    if Z.testbit s 0 then exists v w,
      l = sets ++ [ARd 7 (Mmd 2 3) s; ARd 7 (Mmd 2 76) v; ARd 7 (Mmd 2 77) w] /\
      (v = x' /\ w = y' -> snd (snd r) = MESA_PORT_INTERFACE_RGMII_RXID)
    else l = sets ++ [ARd 7 (Mmd 2 3) s] /\ snd (snd r) = MESA_PORT_INTERFACE_GMII).
Proof. exact (pfe_if_set_get (CO := sim_callout) 7 MESA_PORT_INTERFACE_RGMII_RXID 0 0 pfe_table eq_refl). Defined.
