(* ===== verification/Ksz9031.v ===== *)
(** * Ksz9031: the driver of the KSZ9031

    [mepa/ksz9031/phy_driver.c]: the whole driver.  It takes no lock, and it
    writes two MMD registers through the callout for clause 45, which no other
    driver of this library uses: [Callout45].  A C [int] that is a value or -1
    is a [Z]. *)

From Stdlib Require Import ZArith Lia List Bool String.
From stdpp Require Import base gmap strings list.
From S2P Require Import Prelude Machine Enums Lan8814Types MepaCore.

Definition KSZ_PHY_CHIPID : Z := 0x00221622.
Definition PHY_POLL : Z := -1.
Definition DUPLEX_HALF : Z := 0x00.
Definition DUPLEX_FULL : Z := 0x01.
Definition DUPLEX_UNKNOWN : Z := 0xff.
Definition SPEED_10 : Z := 10.
Definition SPEED_100 : Z := 100.
Definition SPEED_1000 : Z := 1000.
Definition SPEED_UNKNOWN : Z := -1.
Definition AUTONEG_ENABLE : Z := 0x01.
Definition MII_BMCR : Z := 0x00.
Definition MII_BMSR : Z := 0x01.
Definition BMCR_ISOLATE : Z := 0x0400.
Definition BMCR_ANENABLE : Z := 0x1000.
Definition BMCR_ANRESTART : Z := 0x0200.
Definition BMSR_LSTATUS : Z := 0x0004.
Definition BMSR_ANEGCOMPLETE : Z := 0x0020.
Definition BMCR_FULLDPLX : Z := 0x0100.
Definition BMCR_SPEED1000 : Z := 0x0040.
Definition BMCR_SPEED100 : Z := 0x2000.
Definition MII_KSZ9031RN_FLP_BURST_TX_LO : Z := 3.
Definition MII_KSZ9031RN_FLP_BURST_TX_HI : Z := 4.

Record phy_device := Mk_phy_device {
  ph_autoneg : Z;
  ph_link : Z;
  ph_autoneg_complete : Z;
  ph_irq : Z;
  ph_speed : Z;
  ph_duplex : Z;
  ph_pause : Z;
  ph_asym_pause : Z;
}.
Definition phy_device_0 : phy_device := Mk_phy_device 0 0 0 0 0 0 0 0.
Definition set_ph_irq (v : Z) (p : phy_device) : phy_device :=
  Mk_phy_device (ph_autoneg p) (ph_link p) (ph_autoneg_complete p) v (ph_speed p) (ph_duplex p) (ph_pause p) (ph_asym_pause p).
Definition set_ph_link (v : Z) (p : phy_device) : phy_device :=
  Mk_phy_device (ph_autoneg p) v (ph_autoneg_complete p) (ph_irq p) (ph_speed p) (ph_duplex p) (ph_pause p) (ph_asym_pause p).
Definition set_ph_autoneg_complete (v : Z) (p : phy_device) : phy_device :=
  Mk_phy_device (ph_autoneg p) (ph_link p) v (ph_irq p) (ph_speed p) (ph_duplex p) (ph_pause p) (ph_asym_pause p).
Definition set_ph_speed (v : Z) (p : phy_device) : phy_device :=
  Mk_phy_device (ph_autoneg p) (ph_link p) (ph_autoneg_complete p) (ph_irq p) v (ph_duplex p) (ph_pause p) (ph_asym_pause p).
Definition set_ph_duplex (v : Z) (p : phy_device) : phy_device :=
  Mk_phy_device (ph_autoneg p) (ph_link p) (ph_autoneg_complete p) (ph_irq p) (ph_speed p) v (ph_pause p) (ph_asym_pause p).
Definition set_ph_pauses (v v' : Z) (p : phy_device) : phy_device :=
  Mk_phy_device (ph_autoneg p) (ph_link p) (ph_autoneg_complete p) (ph_irq p) (ph_speed p) (ph_duplex p) v v'.

(** [dev->callout->mmd_write]; the MMD is [uint8_t], address and value are
    [uint16_t]. *)
Class Callout45 (B : Type) := { mmd_write : option (Z -> Z -> Z -> Z -> B -> Z * B) }.

Section Ksz9031.
Context {B : Type} {CO : Callout B} {CO45 : Callout45 B}.
Local Abbreviation M := (M B phy_device).

Definition co_mmd_write (dev mmd addr v : Z) : M Z :=
  fun w => match mmd_write with
           | None => None
           | Some f =>
               let '(rc, b) := f dev (u8 mmd) (u16 addr) (u16 v) (w_bus w) in
               Some (rc, World b (w_data w) (w_log w ++ [EvCall dev [u8 mmd; u16 addr; u16 v; rc]]))
           end.

Definition phy_read (dev regnum : Z) : M Z :=
  let* (rc, value) <- co_read dev regnum ;;
  if negb (rc =? MEPA_RC_OK) then ret (-1) else ret (default (uninit16 "phy_read.value") value).
Definition phy_write (dev regnum val : Z) : M Z :=
  rc <- co_write dev regnum val ;;
  if negb (rc =? MEPA_RC_OK) then ret (-1) else ret 0.
(** A failing read is the value 0xFFFF here, and a failing write is success. *)
Definition phy_modify (dev regnum mask set : Z) : M Z :=
  value <- phy_read dev regnum ;;
  let value := u16 value in
  let value := u16 (value .& .~ mask) in
  let value := u16 (value .| (set .& mask)) in
  phy_write dev regnum value ;;;
  ret 0.
Definition phy_write_mmd (dev devad regnum val : Z) : M Z :=
  rc <- co_mmd_write dev devad regnum val ;;
  if negb (rc =? MEPA_RC_OK) then ret (-1) else ret 0.

Definition genphy_restart_aneg (dev : Z) : M Z := phy_modify dev MII_BMCR BMCR_ISOLATE (BMCR_ANENABLE .| BMCR_ANRESTART).
Definition center_flp_timing (dev : Z) : M Z :=
  result <- phy_write_mmd dev 0 MII_KSZ9031RN_FLP_BURST_TX_HI 0x0006 ;;
  if tb result then ret result else
  result <- phy_write_mmd dev 0 MII_KSZ9031RN_FLP_BURST_TX_LO 0x1A80 ;;
  if tb result then ret result else
  genphy_restart_aneg dev.

Definition phy_polling_mode (dev : Z) : M bool := p <- data_of dev ;; ret (ph_irq p =? PHY_POLL).

(** The code at [done:]. *)
Definition update_link_done (dev status : Z) : M Z :=
  upd dev (set_ph_link (if tb (status .& BMSR_LSTATUS) then 1 else 0)) ;;;
  upd dev (set_ph_autoneg_complete (if tb (status .& BMSR_ANEGCOMPLETE) then 1 else 0)) ;;;
  p <- data_of dev ;;
  (if (ph_autoneg p =? AUTONEG_ENABLE) && negb (tb (ph_autoneg_complete p)) then upd dev (set_ph_link 0) else ret tt) ;;;
  ret 0.
Definition genphy_update_link (dev : Z) : M Z :=
  let status := 0 in
  bmcr <- phy_read dev MII_BMCR ;;
  if bmcr <? 0 then ret bmcr else
  if tb (bmcr .& BMCR_ANRESTART) then update_link_done dev status else
  let read_again :=
    status <- phy_read dev MII_BMSR ;;
    if status <? 0 then ret status else update_link_done dev status in
  polling <- phy_polling_mode dev ;;
  if negb polling then
    status <- phy_read dev MII_BMSR ;;
    if status <? 0 then ret status
    else if tb (status .& BMSR_LSTATUS) then update_link_done dev status
    else read_again
  else read_again.
Definition genphy_read_status (dev : Z) : M Z :=
  p <- data_of dev ;;
  let old_link := ph_link p in
  err <- genphy_update_link dev ;;
  if tb err then ret err else
  p <- data_of dev ;;
  if (ph_autoneg p =? AUTONEG_ENABLE) && tb old_link && tb (ph_link p) then ret 0 else
  upd dev (fun p => set_ph_pauses 0 0 (set_ph_duplex DUPLEX_UNKNOWN (set_ph_speed SPEED_UNKNOWN p))) ;;;
  bmcr <- phy_read dev MII_BMCR ;;
  if bmcr <? 0 then ret bmcr else
  upd dev (set_ph_duplex (if tb (bmcr .& BMCR_FULLDPLX) then DUPLEX_FULL else DUPLEX_HALF)) ;;;
  upd dev (set_ph_speed (if tb (bmcr .& BMCR_SPEED1000) then SPEED_1000
                         else if tb (bmcr .& BMCR_SPEED100) then SPEED_100 else SPEED_10)) ;;;
  ret 0.

Definition ksz_status (p : phy_device) (status : mepa_status_t) : mepa_status_t :=
  let status := set_st_link (u8 (ph_link p)) status in
  let status := set_st_speed (if ph_speed p =? SPEED_10 then MESA_SPEED_10M
                              else if ph_speed p =? SPEED_100 then MESA_SPEED_100M else MESA_SPEED_1G) status in
  set_st_fdx (if ph_duplex p =? DUPLEX_FULL then 1 else 0) status.
Definition ksz_poll (dev : Z) (status : mepa_status_t) : M (Z * mepa_status_t) :=
  err <- genphy_read_status dev ;;
  if tb err then ret (MEPA_RC_ERROR, status) else
  p <- data_of dev ;;
  ret (MEPA_RC_OK, ksz_status p status).
(** The configuration is not looked at. *)
Definition ksz_conf_set (dev : Z) (config : mepa_conf_t) : M Z := center_flp_timing dev.

(** [mem] is the device that [mepa_create_int] allocates ([None]: NULL), with
    private data that it has cleared. *)
Definition ksz_probe (mem : option Z) : M (option Z) :=
  match mem with
  | None => ret None
  | Some dev =>
      (fun w => Some (tt, World (w_bus w) (<[dev := phy_device_0]> (w_data w)) (w_log w))) ;;;
      upd dev (set_ph_irq PHY_POLL) ;;;
      ret (Some dev)
  end.
Definition ksz_delete (mem_free : bool) (dev : Z) : M Z := fun w =>
  match w_data w !! dev with
  | None => None
  | Some _ => Some (MEPA_RC_OK, if mem_free then World (w_bus w) (delete dev (w_data w)) (w_log w) else w)
  end.
(** [*status] is left alone. *)
Definition ksz_status_1g_get : Z := MEPA_RC_OK.
Definition ksz_1g_if_get : Z * Z := (MEPA_RC_OK, MESA_PORT_INTERFACE_GMII).
Definition ksz_capability (capability : Z) : Z := 0.
End Ksz9031.

(** ** The driver table *)
#[local] Open Scope string_scope.
Definition mepa_ksz9031_driver_init : list mepa_driver_t :=
  [ Mk_mepa_driver_t KSZ_PHY_CHIPID 0xffffffff
    [ ("mepa_driver_delete", "ksz_delete");
      ("mepa_driver_poll", "ksz_poll");
      ("mepa_driver_conf_set", "ksz_conf_set");
      ("mepa_driver_if_get", "ksz_1g_if_get");
      ("mepa_driver_probe", "ksz_probe");
      ("mepa_driver_aneg_status_get", "ksz_status_1g_get");
      ("mepa_capability", "ksz_capability") ] ].
