(* ===== verification/Ksz9031Spec.v ===== *)
(** * Ksz9031Spec: what the driver of the KSZ9031 does, on any bus

    The transactions of a configuration and of a poll whatever the callouts
    return, errors included: what is reported, what is stored, and what a
    failing read makes the driver write. *)

From Stdlib Require Import ZArith Lia List Bool String.
From stdpp Require Import base gmap strings list.
From S2P Require Import Prelude Machine Enums Lan8814Types Ksz9031.

(** The callouts that the driver calls are there. *)
Class KszOk {B} (CO : Callout B) (CO45 : Callout45 B) : Prop := {
  ksz_ok : CalloutOk (CO := CO);
  ksz_mmd : exists f, mmd_write = Some f;
}.
#[local] Existing Instance ksz_ok.

(** The driver polls and does not negotiate: what a probe leaves, and what no
    call changes. *)
Definition polled (p : phy_device) : Prop := ph_irq p = PHY_POLL /\ ph_autoneg p = 0.

(** The answer of a read: -1 or a value of 16 bits. *)
Definition answer {B} {CO : Callout B} (rc : Z) (v : option Z) : Z :=
  if rc =? MEPA_RC_OK then default (uninit16 "phy_read.value") v else -1.

Section Runs.
Context {B : Type} {CO : Callout B} {CO45 : Callout45 B} {OK : KszOk CO CO45}.
Local Abbreviation M := (M B phy_device).
Local Abbreviation table := (gmap Z phy_device).

(** From table [t], [m] ends, and [Q] holds of its result, the table it leaves
    and the events it logs, whatever the callouts return. *)
Definition runs {A} (m : M A) (t : table) (Q : A -> table -> list event -> Prop) : Prop :=
  forall w, w_data w = t -> exists a w' tr,
    m w = Some (a, w') /\ w_log w' = w_log w ++ tr /\ Q a (w_data w') tr.

Lemma runs_ret {A} (a : A) t (Q : A -> table -> list event -> Prop) : Q a t [] -> runs (ret a) t Q.
Proof. intros HQ w <-. exists a, w, []. by rewrite app_nil_r. Qed.
Lemma runs_bind {A C} (m : M A) (k : A -> M C) t (Q : C -> table -> list event -> Prop) :
  runs m t (fun a t1 l1 => runs (k a) t1 (fun c t2 l2 => Q c t2 (l1 ++ l2))) -> runs (bind m k) t Q.
Proof.
  intros Hm w Hw. destruct (Hm w Hw) as (a & w1 & tr1 & E1 & L1 & H1).
  destruct (H1 w1 eq_refl) as (c & w2 & tr2 & E2 & L2 & HQ).
  exists c, w2, (tr1 ++ tr2). rewrite (bind_eq _ _ _ _ _ E1). split_and!; [done| |done].
  by rewrite L2, L1, app_assoc.
Qed.
Lemma runs_mono {A} (m : M A) t (Q Q' : A -> table -> list event -> Prop) :
  runs m t Q -> (forall a t' l, Q a t' l -> Q' a t' l) -> runs m t Q'.
Proof. intros Hm HQ w Hw. destruct (Hm w Hw) as (a & w' & tr & E & L & H). exists a, w', tr. auto. Qed.
Lemma runs_data_of dev p t (Q : phy_device -> table -> list event -> Prop) :
  t !! dev = Some p -> Q p t [] -> runs (data_of dev) t Q.
Proof. intros Hd HQ w <-. exists p, w, []. unfold data_of. by rewrite Hd, app_nil_r. Qed.
Lemma runs_upd dev p f t (Q : unit -> table -> list event -> Prop) :
  t !! dev = Some p -> Q tt (<[dev := f p]> t) [] -> runs (upd dev f) t Q.
Proof. intros Hd HQ w <-. eexists tt, _, []. unfold upd. by rewrite Hd, app_nil_r. Qed.
(** A read is negative when it failed, and only then. *)
Lemma runs_read dev a t (Q : Z -> table -> list event -> Prop) : 0 <= a < 32 ->
  (forall rc v, (answer rc v <? 0) = negb (rc =? MEPA_RC_OK) -> Q (answer rc v) t [EvRd dev a rc v]) ->
  runs (phy_read dev a) t Q.
Proof.
  intros Ha HQ w <-. destruct (ok_read (CO := CO)) as [f Ef].
  unfold phy_read, bind, co_read. rewrite Ef, u8_small by lia. destruct (f dev a (w_bus w)) as [[rc v] b].
  specialize (HQ rc (option_map u16 v)). unfold answer in HQ. unfold ret.
  destruct (rc =? MEPA_RC_OK); cbn [negb] in *; eexists _, _, [_]; split_and!; try reflexivity; apply HQ; [|done].
  apply Z.ltb_ge. destruct v; apply u16_range.
Qed.
Lemma runs_write dev a v t (Q : Z -> table -> list event -> Prop) : 0 <= a < 32 ->
  (forall rc, Q (if rc =? MEPA_RC_OK then 0 else -1) t [EvWr dev a (u16 v) rc]) -> runs (phy_write dev a v) t Q.
Proof.
  intros Ha HQ w <-. destruct (ok_write (CO := CO)) as [f Ef].
  unfold phy_write, bind, co_write. rewrite Ef, u8_small by lia. destruct (f dev a _ (w_bus w)) as [rc b].
  specialize (HQ rc). unfold ret. destruct (rc =? MEPA_RC_OK); cbn [negb]; eexists _, _, [_]; split_and!; (reflexivity || exact HQ).
Qed.
Lemma runs_write_mmd dev m a v t (Q : Z -> table -> list event -> Prop) :
  (forall rc, Q (if rc =? MEPA_RC_OK then 0 else -1) t [EvCall dev [u8 m; u16 a; u16 v; rc]]) ->
  runs (phy_write_mmd dev m a v) t Q.
Proof.
  intros HQ w <-. destruct ksz_mmd as [f Ef].
  unfold phy_write_mmd, bind, co_mmd_write. rewrite Ef. destruct (f dev _ _ _ (w_bus w)) as [rc b].
  specialize (HQ rc). unfold ret. destruct (rc =? MEPA_RC_OK); cbn [negb]; eexists _, _, [_]; split_and!; (reflexivity || exact HQ).
Qed.

(** ** Configuration *)

(** What the restart of the negotiation makes of the control register. *)
Definition restarted (rrc : Z) (v : option Z) : Z := Z.clearbit (u16 (answer rrc v)) 10.

Lemma modify_isolate a :
  u16 (u16 (u16 (u16 a .& .~ BMCR_ISOLATE) .| ((BMCR_ANENABLE .| BMCR_ANRESTART) .& BMCR_ISOLATE))) = Z.clearbit (u16 a) 10.
Proof.
  change ((BMCR_ANENABLE .| BMCR_ANRESTART) .& BMCR_ISOLATE) with 0. change BMCR_ISOLATE with (2 ^ 10).
  rewrite Z.lor_0_r, !u16_u16. apply Z.bits_inj'. intros i Hi.
  rewrite testbit_u16, Z.land_spec, Z.lnot_spec, testbit_u16, Z.clearbit_eqb, testbit_u16, Z.pow2_bits_eqb by lia.
  by destruct (i <? 16), (10 =? i), (Z.testbit a i).
Qed.

Ltac runs_step :=
  lazymatch goal with
  | |- runs (bind _ _) _ _ => apply runs_bind
  | |- runs (ret _) _ _ => apply runs_ret
  | |- runs (data_of _) _ _ => eapply runs_data_of; [first [eassumption | apply lookup_insert_eq]|]
  | |- runs (upd _ _) _ _ => eapply runs_upd; [first [eassumption | apply lookup_insert_eq]|]; rewrite ?insert_insert_eq
  | |- runs (phy_read _ _) _ _ => apply runs_read; [split; vm_compute; congruence|intros ? ? ?]
  | |- runs (phy_write _ _ _) _ _ => apply runs_write; [split; vm_compute; congruence|intros ?]
  | |- runs (phy_write_mmd _ _ _ _) _ _ => apply runs_write_mmd; intros ?
  end.
Ltac runs_auto := repeat (runs_step; cbv beta zeta iota).

(** C31. Setting the configuration, on any bus and whatever the configuration is.
    The two registers of the link pulse timing are written, and the first
    failing write ends the call with an error.  Then the control register is
    read and written back with its isolate bit cleared: the bits that enable
    and restart the negotiation are written as they were read.  When the read
    fails, 0xFBFF is written, which resets the PHY, powers it down and loops it
    back; the result is success, as it is when the write fails. *)
Theorem ksz_conf_set_spec dev c t :
  runs (ksz_conf_set dev c) t (fun rc t' tr => t' = t /\ exists rc1,
    let e1 := EvCall dev [0; 4; 6; rc1] in
    if negb (rc1 =? MEPA_RC_OK) then rc = -1 /\ tr = [e1] else exists rc2,
    let e2 := EvCall dev [0; 3; 0x1A80; rc2] in
    if negb (rc2 =? MEPA_RC_OK) then rc = -1 /\ tr = [e1; e2] else exists rrc v wrc,
    rc = 0 /\ tr = [e1; e2; EvRd dev 0 rrc v; EvWr dev 0 (restarted rrc v) wrc] /\
    if rrc =? MEPA_RC_OK then
      Z.testbit (restarted rrc v) 12 = Z.testbit (u16 (answer rrc v)) 12 /\
      Z.testbit (restarted rrc v) 9 = Z.testbit (u16 (answer rrc v)) 9 /\ Z.testbit (restarted rrc v) 10 = false
    else restarted rrc v = 0xFBFF).
Proof.
  unfold ksz_conf_set, center_flp_timing, genphy_restart_aneg, phy_modify. runs_step. runs_step. cbv beta.
  destruct (rc =? MEPA_RC_OK) eqn:E1; [|change (tb (-1)) with true; cbv iota; runs_auto; (split; [done|]); exists rc; by rewrite E1].
  change (tb 0) with false. cbv iota. runs_step. runs_step. cbv beta.
  destruct (rc0 =? MEPA_RC_OK) eqn:E2; [|change (tb (-1)) with true; cbv iota; runs_auto; (split; [done|]); exists rc; rewrite E1; exists rc0; by rewrite E2].
  change (tb 0) with false. cbv iota. runs_auto. split; [done|]. exists rc. rewrite E1. exists rc0. rewrite E2.
  cbn [negb app]. eexists _, v, _. rewrite modify_isolate. split; [done|]. split; [reflexivity|].
  unfold restarted, answer. destruct (rc1 =? MEPA_RC_OK); [|reflexivity].
  rewrite !Z.clearbit_eqb by lia. cbn [Z.eqb Pos.eqb negb]. by rewrite !andb_true_r, andb_false_r.
Qed.

(** ** The poll *)
Definition is_ok (e : event) : bool := match e with EvRd _ _ rc _ => rc =? MEPA_RC_OK | _ => false end.
Definition value (v : option Z) : Z := answer MEPA_RC_OK v.
(** Speed of the control register, as the API has it. *)
Definition bmcr_speed (v : Z) : Z :=
  if Z.testbit v 6 then MESA_SPEED_1G else if Z.testbit v 13 then MESA_SPEED_100M else MESA_SPEED_10M.

Lemma runs_link_done dev s t p (Q : Z -> table -> list event -> Prop) :
  t !! dev = Some p -> polled p ->
  (Q 0 (<[dev := set_ph_autoneg_complete (cb (Z.testbit s 5)) (set_ph_link (cb (Z.testbit s 2)) p)]> t) []) ->
  runs (update_link_done dev s) t Q.
Proof.
  intros Hp [_ Ha] HQ. unfold update_link_done. change BMSR_LSTATUS with (1 .<< 2). change BMSR_ANEGCOMPLETE with (1 .<< 5).
  rewrite !tb_bit by lia. runs_auto. cbn [ph_autoneg set_ph_autoneg_complete set_ph_link]. rewrite Ha.
  change ((0 =? AUTONEG_ENABLE) && _) with false. cbv iota. runs_auto. exact HQ.
Qed.
Lemma runs_polling dev t p (Q : bool -> table -> list event -> Prop) :
  t !! dev = Some p -> polled p -> Q true t [] -> runs (phy_polling_mode dev) t Q.
Proof. intros Hp [Hi _] HQ. unfold phy_polling_mode. runs_auto. by rewrite Hi. Qed.

(** A log that ends with its first failing read, after at most [n] others. *)
Definition failed (n : nat) (tr : list event) : Prop :=
  exists tr' e, tr = tr' ++ [e] /\ forallb is_ok tr' = true /\ is_ok e = false /\ (length tr' <= n)%nat.
(** The reads of the link, and the status they give: none while the negotiation
    is being restarted. *)
Definition link_reads dev (b s : option Z) : list event :=
  EvRd dev 0 0 b :: (if Z.testbit (value b) 9 then [] else [EvRd dev 1 0 s]).
Definition link_status (b s : option Z) : Z := if Z.testbit (value b) 9 then 0 else value s.
Definition link_stored (s : Z) (p : phy_device) : phy_device :=
  set_ph_autoneg_complete (cb (Z.testbit s 5)) (set_ph_link (cb (Z.testbit s 2)) p).

Lemma ok_rc rc v : (rc =? MEPA_RC_OK) = true -> rc = 0 /\ answer rc v = value v.
Proof. intros H. apply Z.eqb_eq in H. by subst. Qed.
Lemma fail_rc rc v : (rc =? MEPA_RC_OK) = false -> answer rc v = -1.
Proof. unfold answer. by intros ->. Qed.

Lemma failed_read n tr dev a rc v : (rc =? MEPA_RC_OK) = false -> forallb is_ok tr = true -> (length tr <= n)%nat ->
  failed n (tr ++ [EvRd dev a rc v]).
Proof. intros. exists tr, (EvRd dev a rc v). by split_and!. Qed.

Lemma runs_update_link dev t p (Q : Z -> table -> list event -> Prop) :
  t !! dev = Some p -> polled p ->
  (forall tr, failed 1 tr -> Q (-1) t tr) ->
  (forall b s, Q 0 (<[dev := link_stored (link_status b s) p]> t) (link_reads dev b s)) ->
  runs (genphy_update_link dev) t Q.
Proof.
  intros Hp Hk Hf Hs. unfold genphy_update_link. runs_step. runs_step. cbv beta. rewrite H.
  destruct (rc =? MEPA_RC_OK) eqn:E; cbn [negb].
  2: { runs_auto. rewrite (fail_rc _ _ E). apply Hf, (failed_read 1 []); [done|done|cbn; lia]. }
  destruct (ok_rc rc v E) as [-> ->]. change BMCR_ANRESTART with (1 .<< 9). rewrite tb_bit by lia.
  destruct (Z.testbit (value v) 9) eqn:E9.
  { eapply runs_link_done; [done..|]. specialize (Hs v None). unfold link_status, link_reads in Hs. by rewrite E9 in Hs. }
  cbv zeta. runs_step. eapply runs_polling; [done..|]. cbv beta. cbn [negb]. runs_step. runs_step. cbv beta. rewrite H0.
  destruct (rc =? MEPA_RC_OK) eqn:E'; cbn [negb].
  - destruct (ok_rc rc v0 E') as [-> ->]. eapply runs_link_done; [done..|].
    specialize (Hs v v0). unfold link_status, link_reads in Hs. by rewrite E9 in Hs.
  - runs_auto. rewrite (fail_rc _ _ E'). apply Hf, (failed_read 1 [EvRd dev 0 0 v]); [done|done|cbn; lia].
Qed.

(** The control register in the private data. *)
Definition mode_stored (b : Z) (p : phy_device) : phy_device :=
  set_ph_speed (if Z.testbit b 6 then SPEED_1000 else if Z.testbit b 13 then SPEED_100 else SPEED_10)
    (set_ph_duplex (cb (Z.testbit b 8)) (set_ph_pauses 0 0 p)).

Lemma runs_read_status dev t p (Q : Z -> table -> list event -> Prop) :
  t !! dev = Some p -> polled p ->
  (forall p' tr, polled p' -> failed 2 tr -> Q (-1) (<[dev := p']> t) tr) ->
  (forall b b2 s, Q 0 (<[dev := mode_stored (value b2) (link_stored (link_status b s) p)]> t)
     (link_reads dev b s ++ [EvRd dev 0 0 b2])) ->
  runs (genphy_read_status dev) t Q.
Proof.
  intros Hp Hk Hf Hs. unfold genphy_read_status. do 2 runs_step. cbv beta zeta. runs_step.
  eapply runs_update_link; [done|done| |].
  { intros tr (tr' & e & -> & Hok & He & Hl). change (tb (-1)) with true. cbv iota. runs_auto.
    rewrite <- (insert_id t dev p) by done. apply Hf; [done|]. rewrite app_nil_r. exists tr', e. split_and!; [done..|lia]. }
  intros b s. change (tb 0) with false. cbv iota. do 2 runs_step. cbv beta.
  assert (ph_autoneg (link_stored (link_status b s) p) = 0) as -> by exact (proj2 Hk).
  change ((0 =? AUTONEG_ENABLE) && _ && _) with false. cbv iota. do 3 runs_step. runs_step. cbv beta. rewrite H.
  destruct (rc =? MEPA_RC_OK) eqn:E; cbn [negb].
  2: { runs_auto. rewrite (fail_rc _ _ E). apply Hf; [done|]. cbn [app]. apply failed_read; [done|..];
         unfold link_reads; destruct (Z.testbit (value b) 9); cbn; done || lia. }
  destruct (ok_rc rc v E) as [-> ->]. change BMCR_FULLDPLX with (1 .<< 8). change BMCR_SPEED1000 with (1 .<< 6).
  change BMCR_SPEED100 with (1 .<< 13). rewrite !tb_bit by lia. runs_auto. specialize (Hs b v s). exact Hs.
Qed.

(** A poll of a device that was probed, on any bus: the control register is
    read, then the status register unless the negotiation is being restarted,
    then the control register again, up to the first read that fails.  It
    fails exactly when a read fails, and then the caller's status is left
    alone.  Otherwise the link is bit 2 of the status, and none while the
    negotiation is restarted; speed and duplex are those of the control
    register.  The device stays one that is polled and does not negotiate. *)
Theorem ksz_poll_spec dev st t p :
  t !! dev = Some p -> polled p ->
  runs (ksz_poll dev st) t (fun r t' tr => exists p', t' = <[dev := p']> t /\ polled p' /\
    if forallb is_ok tr then exists b1 b2 s,
      tr = link_reads dev b1 s ++ [EvRd dev 0 0 b2] /\
      r = (MEPA_RC_OK, set_st_fdx (cb (Z.testbit (value b2) 8)) (set_st_speed (bmcr_speed (value b2))
            (set_st_link (cb (negb (Z.testbit (value b1) 9) && Z.testbit (value s) 2)) st))) /\
      ph_link p' = st_link (snd r)
    else r = (MEPA_RC_ERROR, st) /\ failed 2 tr).
Proof.
  intros Hp Hk. unfold ksz_poll. runs_step. eapply runs_read_status; [done|done| |].
  - intros p' tr Hp' (tr' & e & -> & Hok & He & Hl). change (tb (-1)) with true. cbv iota. runs_auto.
    rewrite app_nil_r. exists p'. rewrite forallb_app, Hok. cbn [forallb]. rewrite He.
    do 2 (split; [done|]). cbn [andb]. split; [done|]. by exists tr', e.
  - intros b b2 s. change (tb 0) with false. cbv iota. runs_auto. rewrite app_nil_r.
    exists (mode_stored (value b2) (link_stored (link_status b s) p)). split; [done|]. split; [exact Hk|].
    replace (forallb is_ok (link_reads dev b s ++ [EvRd dev 0 0 b2])) with true
      by (unfold link_reads; by destruct (Z.testbit (value b) 9)).
    exists b, b2, s. split; [done|].
    assert (ph_link (mode_stored (value b2) (link_stored (link_status b s) p)) =
      cb (negb (Z.testbit (value b) 9) && Z.testbit (value s) 2)) as El
      by (unfold mode_stored, link_stored, link_status;
          cbn [ph_link set_ph_speed set_ph_duplex set_ph_pauses set_ph_autoneg_complete set_ph_link];
          by destruct (Z.testbit (value b) 9)).
    unfold ksz_status. rewrite El. unfold bmcr_speed, mode_stored. cbn [ph_speed ph_duplex set_ph_speed set_ph_duplex].
    destruct (_ && _), (Z.testbit (value b2) 6), (Z.testbit (value b2) 13), (Z.testbit (value b2) 8); done.
Qed.

(** Probing gives such a device. *)
Lemma ksz_probe_polled dev t :
  runs (ksz_probe (Some dev)) t (fun r t' tr => r = Some dev /\ tr = [] /\ exists p, polled p /\ t' = <[dev := p]> t).
Proof.
  intros w <-. eexists _, _, []. unfold ksz_probe, bind, upd, ret. cbn [w_data w_bus w_log].
  rewrite lookup_insert_eq. cbn [w_data w_bus w_log]. rewrite insert_insert_eq.
  split; [reflexivity|]. split; [by rewrite app_nil_r|]. split; [done|]. split; [done|].
  eexists. split; [|reflexivity]. by split.
Qed.
End Runs.

(** ** A concrete bus

    The state is the list of values that the reads return; a read of an empty
    list fails. *)
Definition list_callout : Callout (list Z) := {|
  miim_read := Some (fun _ _ b => match b with v :: b => ((0, Some v), b) | [] => ((-1, None), []) end);
  miim_write := Some (fun _ _ _ b => (0, b));
  lock_enter := true; lock_exit := true; uninit := fun _ => 0 |}.
Definition list_callout45 : Callout45 (list Z) := {| mmd_write := Some (fun _ _ _ _ b => (0, b)) |}.
#[export] Instance list_callout_ok : KszOk list_callout list_callout45.
Proof. split; [split; try eexists; reflexivity|by eexists]. Qed.

Definition ksz_port : phy_device := set_ph_irq PHY_POLL phy_device_0.
Definition ksz_table : gmap Z phy_device := {[3 := ksz_port]}.

(** A gigabit link in full duplex; and a configuration over a bus that does not
    answer resets the PHY and powers it down. *)
Example ksz_poll_1g : exists w',
  ksz_poll (CO := list_callout) 3 mepa_status_t_0 (World [0x0140; 0x0024; 0x0140] ksz_table []) =
  Some ((0, set_st_fdx 1 (set_st_speed MESA_SPEED_1G (set_st_link 1 mepa_status_t_0))), w').
Proof. eexists. vm_compute. reflexivity. Qed.
Example ksz_conf_set_fails : exists w',
  ksz_conf_set (CO := list_callout) (CO45 := list_callout45) 3 mepa_conf_t_0 (World [] ksz_table []) = Some (0, w') /\
  last (w_log w') = Some (EvWr 3 0 0xFBFF 0).
Proof. eexists. split; vm_compute; reflexivity. Qed.

Lemma ksz_poll_spec_witness :
  runs (ksz_poll (CO := list_callout) 3 mepa_status_t_0) ksz_table (fun r t' tr =>
    exists p', t' = <[3 := p']> ksz_table /\ polled p' /\
    if forallb is_ok tr then exists b1 b2 s,
      tr = link_reads (CO := list_callout) 3 b1 s ++ [EvRd 3 0 0 b2] /\
      r = (MEPA_RC_OK, set_st_fdx (cb (Z.testbit (value (CO := list_callout) b2) 8))
            (set_st_speed (bmcr_speed (value (CO := list_callout) b2))
            (set_st_link (cb (negb (Z.testbit (value (CO := list_callout) b1) 9) && Z.testbit (value (CO := list_callout) s) 2))
               mepa_status_t_0))) /\
      ph_link p' = st_link (snd r)
    else r = (MEPA_RC_ERROR, mepa_status_t_0) /\ failed 2 tr).
Proof. apply (ksz_poll_spec (CO := list_callout) (CO45 := list_callout45) 3 mepa_status_t_0 ksz_table ksz_port); [reflexivity|by split]. Defined.
Lemma ksz_conf_set_spec_witness :
  runs (ksz_conf_set (CO := list_callout) (CO45 := list_callout45) 3 mepa_conf_t_0) ksz_table (fun rc t' tr => t' = ksz_table /\ exists rc1,
    let e1 := EvCall 3 [0; 4; 6; rc1] in
    if negb (rc1 =? MEPA_RC_OK) then rc = -1 /\ tr = [e1] else exists rc2,
    let e2 := EvCall 3 [0; 3; 0x1A80; rc2] in
    if negb (rc2 =? MEPA_RC_OK) then rc = -1 /\ tr = [e1; e2] else exists rrc v wrc,
    let x := restarted (CO := list_callout) rrc v in
    rc = 0 /\ tr = [e1; e2; EvRd 3 0 rrc v; EvWr 3 0 x wrc] /\
    if rrc =? MEPA_RC_OK then
      Z.testbit x 12 = Z.testbit (u16 (answer (CO := list_callout) rrc v)) 12 /\
      Z.testbit x 9 = Z.testbit (u16 (answer (CO := list_callout) rrc v)) 9 /\ Z.testbit x 10 = false
    else x = 0xFBFF).
Proof. exact (ksz_conf_set_spec (CO := list_callout) (CO45 := list_callout45) 3 mepa_conf_t_0 ksz_table). Defined.
