(* ===== verification/DummyPhy.v ===== *)
(** * DummyPhy: the driver of a PHY that is not there

    [mepa/dummy_phy/src/dummy_phy.c]: a link that is always up, with the speed
    that the board promises.  No function accesses a bus. *)

From Stdlib Require Import ZArith Lia List Bool String.
From stdpp Require Import base gmap strings list.
From S2P Require Import Prelude Machine Enums Lan8814Types MepaCore.

Definition MEBA_PORT_CAP_100M_FDX : Z := 0x000000010.
Definition MEBA_PORT_CAP_1G_FDX : Z := 0x000000020.
Definition MEBA_PORT_CAP_2_5G_FDX : Z := 0x000000040.
Definition MEPA_CAP_SPEED_10G : Z := 100000005.
Definition MEPA_CAP_SPEED_MASK_10G : Z := 0x4.

(** The private data: the member [cap]. *)
Record priv_data_t := Mk_priv_data_t { cap : Z }.

Section DummyPhy.
Context {B : Type} {CO : Callout B}.
Local Abbreviation M := (M B priv_data_t).

Definition dummy_1g_poll (dev : Z) (status : mepa_status_t) : M (Z * mepa_status_t) :=
  priv <- data_of dev ;;
  let speed := if tb (cap priv .& MEBA_PORT_CAP_2_5G_FDX) then MESA_SPEED_2500M
               else if tb (cap priv .& MEBA_PORT_CAP_1G_FDX) then MESA_SPEED_1G
               else if tb (cap priv .& MEBA_PORT_CAP_100M_FDX) then MESA_SPEED_100M else MESA_SPEED_10M in
  ret (MEPA_RC_OK, set_st_fdx 1 (set_st_speed speed (set_st_link 1 status))).
(** The calls that only succeed. *)
Definition dummy_conf_set (dev : Z) (config : mepa_conf_t) : M Z := ret MEPA_RC_OK.
Definition dummy_conf_get (dev : Z) (config : mepa_conf_t) : M (Z * mepa_conf_t) := ret (MEPA_RC_OK, config).
Definition dummy_reset (dev : Z) (rst_conf : mepa_reset_param_t) : M Z := ret MEPA_RC_OK.
Definition dummy_if_set (dev mac_if : Z) : M Z := ret MEPA_RC_OK.
Definition dummy_capability (capability : Z) : Z := if capability =? MEPA_CAP_SPEED_10G then 1 else 0.
(** Capabilities, part number and revision; the other members are left alone. *)
Definition dummy_info_get (dev : Z) : M (Z * (Z * Z * Z)) :=
  let cap := 0 in
  let cap := if tb (dummy_capability MEPA_CAP_SPEED_10G) then cap .| MEPA_CAP_SPEED_MASK_10G else cap in
  ret (MEPA_RC_OK, (cap, 1234, 5678)).
Definition dummy_probe (mem : option Z) (dummy_phy_cap : Z) : M (option Z) :=
  match mem with
  | None => ret None
  | Some dev =>
      (fun w => Some (tt, World (w_bus w) (<[dev := Mk_priv_data_t 0]> (w_data w)) (w_log w))) ;;;
      upd dev (fun _ => Mk_priv_data_t dummy_phy_cap) ;;;
      ret (Some dev)
  end.
End DummyPhy.

#[local] Open Scope string_scope.
Definition mepa_dummy_driver_init : list mepa_driver_t :=
  [ Mk_mepa_driver_t 0xdeadbeef 0xffffffff
    [ ("mepa_driver_poll", "dummy_1g_poll");
      ("mepa_driver_conf_set", "dummy_conf_set");
      ("mepa_driver_probe", "dummy_probe");
      ("mepa_capability", "dummy_capability");
      ("mepa_driver_phy_info_get", "dummy_info_get");
      ("mepa_driver_conf_get", "dummy_conf_get");
      ("mepa_driver_reset", "dummy_reset");
      ("mepa_driver_if_set", "dummy_if_set") ] ].

(** The speed of the link is that of the fastest full-duplex mode the board
    names, 10M if it names none. *)
Definition fastest (cap : Z) : Z :=
  default MESA_SPEED_10M (head (omap (fun x => if Z.testbit cap (fst x) then Some (snd x) else None)
    [(6, MESA_SPEED_2500M); (5, MESA_SPEED_1G); (4, MESA_SPEED_100M)])).

(** A device that was probed has a link at that speed in every later poll, with
    no access to a bus. *)
Lemma dummy_probe_poll {B} {CO : Callout B} dev c st (w : world B priv_data_t) :
  (dummy_probe (Some dev) c ;;; dummy_1g_poll dev st) w =
  Some ((MEPA_RC_OK, set_st_fdx 1 (set_st_speed (fastest c) (set_st_link 1 st))),
        World (w_bus w) (<[dev := Mk_priv_data_t c]> (w_data w)) (w_log w)).
Proof.
  unfold dummy_probe, dummy_1g_poll, bind, upd, data_of, ret. cbn [w_data w_bus w_log].
  rewrite lookup_insert_eq. cbn [w_data w_bus w_log]. rewrite insert_insert_eq, lookup_insert_eq. cbn [cap].
  unfold fastest. change MEBA_PORT_CAP_2_5G_FDX with (1 .<< 6). change MEBA_PORT_CAP_1G_FDX with (1 .<< 5).
  change MEBA_PORT_CAP_100M_FDX with (1 .<< 4). rewrite !tb_bit by lia.
  cbn [omap list_omap fst snd]. by destruct (Z.testbit c 6), (Z.testbit c 5), (Z.testbit c 4).
Qed.
