(* ===== verification/Lan867x.v ===== *)
(** * Lan867x: the driver of the LAN867x, a 10BASE-T1S PHY

    [mepa/microchip/lan867x/src]: register access ([lan867x_private.c]), the
    set-up of the chip with its PLCA configuration, configuration and link
    status, and the entry points ([lan867x.c], [lan867x_t1s.c]), in the default
    build: private data from the [mem_alloc] callout, and none of the options
    [LINK_STATUS_ENHANCED], [USE_PMCH_TX], [USE_PMCH_RX], [VERIFY_PMCH_TX].  A
    function that stores through a pointer returns what it stored, [cur] or
    [status] being what was there. *)

From Stdlib Require Import ZArith Lia List Bool String.
From stdpp Require Import base gmap strings list.
From S2P Require Import Prelude Machine Enums Lan8814Types PhyLib.

Definition MEPA_RC_ERR_PARM : Z := -5.
Definition MESA_PHY_MEDIA_IF_T1S_10FX : Z := 10.

(** ** Registers *)
Definition LAN867X_BASIC_CONTROL_REG : Z := 0x00.
Definition LAN867X_BASIC_CONTROL_POWER_DOWN : Z := 0x0800.
Definition LAN867X_BASIC_STATUS_REG : Z := 0x01.
Definition LAN867X_PHY_ID0_REG : Z := 0x02.
Definition LAN867X_PHY_ID1_REG : Z := 0x03.
Definition LAN867X_MMDCTRL_REG : Z := 0x0D.
Definition LAN867X_MMDAD_REG : Z := 0x0E.
Definition LAN867X_REVB : Z := 0x02.
Definition LAN867X_REVD : Z := 0x06.
Definition MMDCTRL_ADDRESS : Z := 0x0 .<< 14.
Definition MMDCTRL_NO_POST_INC : Z := 0x1 .<< 14.
Definition MMD_MISC : Z := 0x1F.
Definition MISC_PIN_CTRL : Z := 0x0011.
Definition GPIO0_SIGNAL_SEL_S : Z := 14.
Definition GPIO0_SIGNAL_PMCH_RX : Z := 0.
Definition MISC_LSCTRL : Z := 0x0012.
Definition MISC_LSCTRL_LSCFG_ACTIVITY : Z := 0x1800.
Definition MISC_TX_MATCH_CTRL : Z := 0x0040.
Definition TX_MAC_TS_ENABLE : Z := 1 .<< 2.
Definition MISC_TX_MATCH_MASK_L : Z := 0x0044.
Definition MISC_RX_MATCH_CTRL : Z := 0x0050.
Definition RX_MATCH_ENABLE : Z := 1 .<< 1.
Definition MISC_RX_MATCH_MASK_L : Z := 0x0054.
Definition PLCA_CTRL_0 : Z := 0xCA01.
Definition PLCA_ENABLE : Z := 1 .<< 15.
Definition PLCA_CTRL_1 : Z := 0xCA02.
Definition PLCA_TO_TIMER : Z := 0xCA04.
Definition PLCA_BURST : Z := 0xCA05.

Definition LAN867X_REV (x : Z) : Z := x .& 0xF.
Definition LAN867X_MODEL (x : Z) : Z := (x .& 0x03F0) .>> 4.
Definition LAN867X_OUI (x y : Z) : Z := (u32 (x .<< 2) .& 0x0003FFFC) .| u32 ((y .& 0x0000FC00) .<< 18).
Definition LAN867X_PHY_MMD_DEVAD (addr : Z) : Z := (addr .>> 16) .& 0x001F.
Definition LAN867X_PHY_REG_ADDR (addr : Z) : Z := addr .& 0xFFFF.

(** ** Data *)
Record mepa_t1s_plca_cfg_t := Mk_mepa_t1s_plca_cfg_t {
  plca_node_count : Z;
  plca_node_id : Z;
  plca_plca_enable : Z;
  plca_tx_oppr_timer : Z;
  plca_max_burst_cnt : Z;
  plca_burst_timer : Z;
}.
Record phy_dev_info_t := Mk_phy_dev_info_t { dev_id : Z; dev_model : Z; dev_rev : Z }.
Record phy_data_t := Mk_phy_data_t {
  pd_init_done : Z;
  pd_phy_aneg_dis : Z;
  pd_link_status : Z;
  pd_port_no : Z;
  pd_mac_if : Z;
  pd_media_intf : Z;
  pd_conf : mepa_conf_t;
  pd_events : Z;
  pd_loopback : mepa_loopback_t;
  pd_dev : phy_dev_info_t;
  pd_ctx_status : Z;
  pd_cdiags_start : Z;
  pd_plca_cfg : mepa_t1s_plca_cfg_t;
}.
Definition set_pd_init_done v d := Mk_phy_data_t v (pd_phy_aneg_dis d) (pd_link_status d) (pd_port_no d)
  (pd_mac_if d) (pd_media_intf d) (pd_conf d) (pd_events d) (pd_loopback d) (pd_dev d) (pd_ctx_status d)
  (pd_cdiags_start d) (pd_plca_cfg d).
Definition set_pd_conf v d := Mk_phy_data_t (pd_init_done d) (pd_phy_aneg_dis d) (pd_link_status d) (pd_port_no d)
  (pd_mac_if d) (pd_media_intf d) v (pd_events d) (pd_loopback d) (pd_dev d) (pd_ctx_status d)
  (pd_cdiags_start d) (pd_plca_cfg d).
Definition set_pd_dev v d := Mk_phy_data_t (pd_init_done d) (pd_phy_aneg_dis d) (pd_link_status d) (pd_port_no d)
  (pd_mac_if d) (pd_media_intf d) (pd_conf d) (pd_events d) (pd_loopback d) v (pd_ctx_status d)
  (pd_cdiags_start d) (pd_plca_cfg d).
Definition set_pd_ctx_status v d := Mk_phy_data_t (pd_init_done d) (pd_phy_aneg_dis d) (pd_link_status d) (pd_port_no d)
  (pd_mac_if d) (pd_media_intf d) (pd_conf d) (pd_events d) (pd_loopback d) (pd_dev d) v
  (pd_cdiags_start d) (pd_plca_cfg d).
Definition set_pd_plca_cfg v d := Mk_phy_data_t (pd_init_done d) (pd_phy_aneg_dis d) (pd_link_status d) (pd_port_no d)
  (pd_mac_if d) (pd_media_intf d) (pd_conf d) (pd_events d) (pd_loopback d) (pd_dev d) (pd_ctx_status d)
  (pd_cdiags_start d) v.

(** [(int8_t)x] *)
Definition i8 (x : Z) : Z := if u8 x <? 128 then u8 x else u8 x - 256.

Section Lan867x.
Context {B : Type} {CO : Callout B}.
Local Abbreviation M := (M B phy_data_t).

(** [MEPA_RC(rc, expr)] of this driver: any code but 0 goes to [error], where
    [fail] is what the function does with it. *)
Definition MEPA_RC {A} (fail : Z -> M A) (m : M Z) (k : M A) : M A :=
  rc <- m ;; if negb (rc =? 0) then fail rc else k.
Local Abbreviation RC := (MEPA_RC ret).

(** ** Register access *)
Definition lan867x_miim_reg_rd (dev offset : Z) : M (Z * Z) :=
  if not_null miim_read then
    let* (rc, v) <- co_read dev offset ;; ret (rc, default 0 v)
  else ret (MEPA_RC_ERROR, 0).
Definition lan867x_miim_reg_wr (dev offset value : Z) : M Z :=
  if not_null miim_write then co_write dev offset value else ret MEPA_RC_ERROR.

Definition lan867x_mmd_reg_rd (dev devaddr offset cur : Z) : M (Z * Z) :=
  if not_null miim_read && not_null miim_write then
    let error rc := ret (rc, 0) in
    MEPA_RC error (co_write dev LAN867X_MMDCTRL_REG (MMDCTRL_ADDRESS .| devaddr))
    (MEPA_RC error (co_write dev LAN867X_MMDAD_REG offset)
    (MEPA_RC error (co_write dev LAN867X_MMDCTRL_REG (MMDCTRL_NO_POST_INC .| devaddr))
    (let* (rc, v) <- co_read dev LAN867X_MMDAD_REG ;; ret (rc, default 0 v))))
  else ret (MEPA_RC_ERROR, cur).
Definition lan867x_mmd_reg_wr (dev devaddr offset value : Z) : M Z :=
  if not_null miim_read && not_null miim_write then
    RC (co_write dev LAN867X_MMDCTRL_REG (MMDCTRL_ADDRESS .| devaddr))
    (RC (co_write dev LAN867X_MMDAD_REG offset)
    (RC (co_write dev LAN867X_MMDCTRL_REG (MMDCTRL_NO_POST_INC .| devaddr))
    (co_write dev LAN867X_MMDAD_REG value)))
  else ret MEPA_RC_ERROR.
Definition lan867x_mmd_modify (dev devid offset mask val : Z) : M Z :=
  let* (rc, data) <- lan867x_mmd_reg_rd dev devid offset 0 ;;
  if negb (rc =? 0) then ret rc else
  let data := data .& .~ mask in
  let data := data .| val in
  lan867x_mmd_reg_wr dev devid offset data.
Definition lan867x_indirect_reg_rd (dev addr cur : Z) : M (Z * Z) :=
  let error rc := ret (rc, cur) in
  MEPA_RC error (lan867x_mmd_reg_wr dev MMD_MISC 0x00D8 addr)
  (MEPA_RC error (lan867x_mmd_reg_wr dev MMD_MISC 0x00DA 0x2)
  (lan867x_mmd_reg_rd dev MMD_MISC 0x00D9 cur)).

(** ** Set-up of the chip *)

(** Writes ([None]) and read-modify-writes with a mask, until one fails. *)
Fixpoint misc_setup (dev : Z) (l : list (Z * option Z * Z)) (k : M Z) : M Z :=
  match l with
  | [] => k
  | (offset, None, val) :: l => RC (lan867x_mmd_reg_wr dev MMD_MISC offset val) (misc_setup dev l k)
  | (offset, Some mask, val) :: l => RC (lan867x_mmd_modify dev MMD_MISC offset mask val) (misc_setup dev l k)
  end.

Definition setup_revb : list (Z * option Z * Z) :=
  [ (0x00D0, Some 0x0E03, 0x0002); (0x00D1, Some 0x0300, 0x0000); (0x0084, Some 0xFFC0, 0x3380);
    (0x0085, Some 0x000F, 0x0006); (0x008A, Some 0xF800, 0xC000); (0x0087, Some 0x801C, 0x801C);
    (0x0088, Some 0x1FFF, 0x033F); (0x008B, None, 0x0404); (0x0080, Some 0x0600, 0x0600);
    (0x00F1, Some 0x7F00, 0x2400); (0x0096, Some 0x2000, 0x2000); (0x0099, None, 0x7F80) ].
Definition setup_later (cfgparam1 cfgparam2 : Z) : list (Z * option Z * Z) :=
  [ (0x00D0, None, 0x3F31); (0x00E0, None, 0xC000); (0x0084, None, cfgparam1); (0x008A, None, cfgparam2);
    (0x00E9, None, 0x9E50); (0x00F5, None, 0x1CF8); (0x00F4, None, 0xC020); (0x00F8, None, 0xB900);
    (0x00F9, None, 0x4E53); (0x0081, None, 0x0080); (0x0091, None, 0x9660) ].

(** "offset 1 calculation": a trim value of five bits with a sign. *)
Definition trim_offset (val : Z) : Z :=
  if negb ((val .& 0x10) =? 0) then i8 (u16 (u32 (val - 0x20))) else i8 val.
Definition cfgparam1 (offset1 : Z) : Z :=
  let temp1 := u16 (9 + offset1) in
  let temp2 := u16 (14 + offset1) in
  u16 ((((temp1 .& 0x3F) .<< 10) .| ((temp2 .& 0x3F) .<< 4)) .| 0x03).
Definition cfgparam2 (offset2 : Z) : Z :=
  let temp1 := u16 (40 + offset2) in
  u16 ((temp1 .& 0x3F) .<< 10).

(** The part of [lan867x_init_conf] that depends on the revision. *)
Definition init_rev (dev rev : Z) (k : M Z) : M Z :=
  if rev =? LAN867X_REVB then misc_setup dev setup_revb k
  else if rev >? LAN867X_REVB then
    let* (rc, val1) <- lan867x_indirect_reg_rd dev 0x04 0 ;;
    if negb (rc =? 0) then ret rc else
    let val1 := val1 .& 0x1F in
    let* (rc, val2) <- lan867x_indirect_reg_rd dev 0x08 0 ;;
    if negb (rc =? 0) then ret rc else
    let val2 := val2 .& 0x1F in
    let offset1 := trim_offset val1 in
    let offset2 := trim_offset val2 in
    misc_setup dev (setup_later (cfgparam1 offset1) (cfgparam2 offset2))
    (if rev >=? LAN867X_REVD then
       RC (lan867x_mmd_modify dev MMD_MISC MISC_LSCTRL MISC_LSCTRL_LSCFG_ACTIVITY MISC_LSCTRL_LSCFG_ACTIVITY) k
     else k)
  else k.

Definition setup_plca (cfg : mepa_t1s_plca_cfg_t) : list (Z * option Z * Z) :=
  [ (PLCA_CTRL_1, None, (plca_node_count cfg .<< 8) .| plca_node_id cfg);
    (PLCA_BURST, None, (plca_max_burst_cnt cfg .<< 8) .| plca_burst_timer cfg);
    (PLCA_CTRL_0, None, if tb (plca_plca_enable cfg) then PLCA_ENABLE else 0);
    (PLCA_TO_TIMER, None, plca_tx_oppr_timer cfg);
    (MISC_RX_MATCH_MASK_L, None, 0x0003); (MISC_RX_MATCH_CTRL, None, RX_MATCH_ENABLE);
    (MISC_TX_MATCH_MASK_L, None, 0x0003); (MISC_TX_MATCH_CTRL, None, TX_MAC_TS_ENABLE) ].

Definition lan867x_init_conf (dev : Z) (cfg : mepa_t1s_plca_cfg_t) : M Z :=
  data <- data_of dev ;;
  init_rev dev (dev_rev (pd_dev data))
  (misc_setup dev (setup_plca cfg)
  (let* (rc, id) <- lan867x_mmd_reg_rd dev MMD_MISC MISC_PIN_CTRL 0 ;;
   if negb (rc =? 0) then ret rc else
   let id := GPIO0_SIGNAL_PMCH_RX .<< GPIO0_SIGNAL_SEL_S in
   rc <- lan867x_mmd_reg_wr dev MMD_MISC MISC_PIN_CTRL id ;;
   upd dev (set_pd_init_done 1) ;;;
   ret rc)).

(** ** Configuration and link status *)
Definition lan867x_phy_conf_set (dev : Z) (config : mepa_conf_t) : M Z :=
  if negb ((conf_man_neg config =? MEPA_MANUAL_NEG_REF) || (conf_man_neg config =? MEPA_MANUAL_NEG_CLIENT))
     || (conf_fdx config =? 1) || negb (conf_speed config =? MESA_SPEED_10M)
  then ret MEPA_RC_ERR_PARM else
  let* (rc, bmcr) <- lan867x_miim_reg_rd dev LAN867X_BASIC_CONTROL_REG ;;
  if negb (rc =? 0) then ret rc else
  let bmcr := if tb (conf_admin_enable config)
              then bmcr .& u16 (.~ LAN867X_BASIC_CONTROL_POWER_DOWN)
              else bmcr .| LAN867X_BASIC_CONTROL_POWER_DOWN in
  rc <- lan867x_miim_reg_wr dev LAN867X_BASIC_CONTROL_REG bmcr ;;
  if negb (rc =? 0) then ret rc else
  upd dev (fun d => set_pd_conf (set_conf_admin_enable (conf_admin_enable config) (pd_conf d)) d) ;;;
  ret rc.

Definition lan867x_get_link_status (dev : Z) (status : mepa_status_t) : M (Z * mepa_status_t) :=
  let* (rc, plca) <- lan867x_mmd_reg_rd dev MMD_MISC PLCA_CTRL_0 0 ;;
  if negb (rc =? 0) then ret (rc, status) else
  data <- data_of dev ;;
  let done rc link := ret (rc, set_st_fdx 0 (set_st_speed MESA_SPEED_10M (set_st_link link status))) in
  if (dev_rev (pd_dev data) >=? LAN867X_REVD) && ((plca .& PLCA_ENABLE) =? 0) then
    done rc (if tb (conf_admin_enable (pd_conf data)) then 1 else 0)
  else
    let* (rc, bmsr) <- lan867x_miim_reg_rd dev LAN867X_BASIC_STATUS_REG ;;
    if negb (rc =? 0) then ret (rc, status) else
    done rc (if negb ((bmsr .& (1 .<< 2)) =? 0) then 1 else 0).

(** ** Entry points *)
Definition lan867x_mmd_reg_read (dev addr value : Z) : M (Z * Z) :=
  mepa_enter ;;;
  r <- lan867x_mmd_reg_rd dev (u8 (LAN867X_PHY_MMD_DEVAD addr)) (u16 (LAN867X_PHY_REG_ADDR addr)) value ;;
  mepa_exit ;;; ret r.
Definition lan867x_mmd_reg_write (dev addr value : Z) : M Z :=
  mepa_enter ;;;
  rc <- lan867x_mmd_reg_wr dev (u8 (LAN867X_PHY_MMD_DEVAD addr)) (u16 (LAN867X_PHY_REG_ADDR addr)) value ;;
  mepa_exit ;;; ret rc.
Definition lan867x_reg_read (dev addr : Z) : M (Z * Z) :=
  mepa_enter ;;; r <- lan867x_miim_reg_rd dev (u16 addr) ;; mepa_exit ;;; ret r.
Definition lan867x_reg_write (dev addr value : Z) : M Z :=
  mepa_enter ;;; rc <- lan867x_miim_reg_wr dev (u16 addr) value ;; mepa_exit ;;; ret rc.

(** [mepa_delete_int] gives the device back to the [mem_free] callout, if
    there is one; [None] is the NULL device, and a device without an entry has
    no private data. *)
Definition lan867x_delete (mem_free : bool) (dev : option Z) : M Z :=
  match dev with
  | None => ret MEPA_RC_ERR_PARM
  | Some dev => fun w =>
      match w_data w !! dev with
      | None => Some (MEPA_RC_ERR_PARM, w)
      | Some _ => Some (MEPA_RC_OK, if mem_free then World (w_bus w) (delete dev (w_data w)) (w_log w) else w)
      end
  end.

(** What [lan867x_probe] stores in the private data, which [mepa_create_int]
    has cleared, before it reads the registers. *)
Definition probe_data (numeric_handle : Z) : phy_data_t :=
  Mk_phy_data_t 0 0 0 numeric_handle MESA_PORT_INTERFACE_MII MESA_PHY_MEDIA_IF_T1S_10FX
    (Mk_mepa_conf_t MESA_SPEED_10M 0 0 0 1 mepa_aneg_adv_t_0 0 MEPA_MANUAL_NEG_REF 0 [])
    0 mepa_loopback_t_0 (Mk_phy_dev_info_t 0 0 0) 0 0
    (Mk_mepa_t1s_plca_cfg_t 8 (u8 (numeric_handle .& 0xFF)) 1 32 0 128).
(** [mem] is the device that [mepa_create_int] allocates ([None]: NULL). *)
Definition lan867x_probe (mem : option Z) (numeric_handle : Z) : M (option Z) :=
  match mem with
  | None => ret None
  | Some pdev =>
      (fun w => Some (tt, World (w_bus w) (<[pdev := probe_data numeric_handle]> (w_data w)) (w_log w))) ;;;
      let* (rc, val1) <- lan867x_miim_reg_rd pdev LAN867X_PHY_ID0_REG ;;
      if negb (rc =? 0) then ret None else
      let* (rc, val2) <- lan867x_miim_reg_rd pdev LAN867X_PHY_ID1_REG ;;
      if negb (rc =? 0) then ret None else
      upd pdev (set_pd_ctx_status 1) ;;;
      upd pdev (set_pd_dev (Mk_phy_dev_info_t (LAN867X_OUI val1 val2) (u8 (LAN867X_MODEL val2)) (u8 (LAN867X_REV val2)))) ;;;
      ret (Some pdev)
  end.

Definition lan867x_conf_get (dev : Z) : M (Z * mepa_conf_t) :=
  mepa_enter ;;; data <- data_of dev ;; mepa_exit ;;; ret (MEPA_RC_OK, pd_conf data).
Definition lan867x_media_get (dev : Z) : M (Z * Z) :=
  mepa_enter ;;; data <- data_of dev ;; mepa_exit ;;; ret (MEPA_RC_OK, pd_media_intf data).
Definition lan867x_if_get (dev speed : Z) : M (Z * Z) :=
  mepa_enter ;;; data <- data_of dev ;; mepa_exit ;;; ret (MEPA_RC_OK, pd_mac_if data).
Definition lan867x_conf_set (dev : Z) (config : mepa_conf_t) : M Z :=
  mepa_enter ;;; rc <- lan867x_phy_conf_set dev config ;; mepa_exit ;;; ret rc.
Definition lan867x_reset (dev : Z) : M Z :=
  mepa_enter ;;;
  rc <- (data <- data_of dev ;;
         RC (lan867x_init_conf dev (pd_plca_cfg data))
         (data <- data_of dev ;; lan867x_phy_conf_set dev (pd_conf data))) ;;
  mepa_exit ;;; ret rc.
Definition lan867x_poll (dev : Z) (status : mepa_status_t) : M (Z * mepa_status_t) :=
  mepa_enter ;;; r <- lan867x_get_link_status dev status ;; mepa_exit ;;; ret r.
Definition lan867x_capability (capability : Z) : Z := if capability =? MEPA_CAP_TS_NONE then 1 else 0.

(** What [phy_info] holds afterwards: part number, revision, the two names and
    the capabilities; [None] when it is left alone. *)
Definition lan867x_info_get (dev : Z) : M (Z * option (Z * Z * string * string * Z)) :=
  data <- data_of dev ;;
  if tb (pd_init_done data) then
    mepa_enter ;;;
    data <- data_of dev ;;
    mepa_exit ;;;
    ret (MEPA_RC_OK, Some (dev_model (pd_dev data), dev_rev (pd_dev data), "Microchip"%string, "LAN867x"%string,
                           MEPA_CAP_TS_MASK_NONE))
  else ret (MEPA_RC_ERROR, None).

Definition lan867x_t1s_set_plca_config (dev : Z) (cfg : mepa_t1s_plca_cfg_t) : M Z :=
  mepa_enter ;;;
  rc <- RC (lan867x_init_conf dev cfg) (upd dev (set_pd_plca_cfg cfg) ;;; ret 0) ;;
  mepa_exit ;;; ret rc.
Definition lan867x_t1s_get_plca_config (dev : Z) : M (Z * mepa_t1s_plca_cfg_t) :=
  mepa_enter ;;; data <- data_of dev ;; mepa_exit ;;; ret (MEPA_RC_OK, pd_plca_cfg data).
End Lan867x.
