(* ===== verification/Lan867xSpec.v ===== *)
(** * Lan867xSpec: what the driver of the LAN867x does

    The accesses of its functions on a working bus, the round trip of the PLCA
    configuration, its errors on any bus, and the lock discipline of its entry
    points. *)

From Stdlib Require Import ZArith Lia List Bool String.
From stdpp Require Import base gmap strings list.
From S2P Require Import Prelude Machine Enums Lan8814Types Trace Mdio SimPhy PhyLib PhyLibSpec Lan867x.

(** A table of set-up steps, as the accesses it makes. *)
Fixpoint setup_accs (dev : Z) (l : list (Z * option Z * Z)) (accs : list access) : Prop :=
  match l with
  | [] => accs = []
  | (offset, None, val) :: l => exists rest,
      accs = AWr dev (Mmd 31 offset) (u16 val) :: rest /\ setup_accs dev l rest
  | (offset, Some mask, val) :: l => exists x rest, 0 <= x < 65536 /\
      accs = ARd dev (Mmd 31 offset) x :: AWr dev (Mmd 31 offset) (u16 ((x .& .~ mask) .| val)) :: rest /\
      setup_accs dev l rest
  end.
Definition setup_ok (l : list (Z * option Z * Z)) : bool :=
  forallb (fun x => (0 <=? fst (fst x)) && (fst (fst x) <? 65536)) l.

Lemma setup_accs_app dev l1 l2 a1 a2 :
  setup_accs dev l1 a1 -> setup_accs dev l2 a2 -> setup_accs dev (l1 ++ l2) (a1 ++ a2).
Proof.
  revert a1. induction l1 as [|[[o [m|]] v] l1 IH]; intros a1; cbn [setup_accs app].
  - by intros ->.
  - intros (x & rest & Hx & -> & H1) H2. exists x, (rest ++ a2). auto.
  - intros (rest & -> & H1) H2. exists (rest ++ a2). auto.
Qed.

Lemma misc_ok o : (0 <=? o) && (o <? 65536) = true -> mmd_ok (MMD_MISC, o) = true.
Proof. unfold mmd_ok. change MMD_MISC with 31. cbn [fst snd]. lia. Qed.

(** Bits of a register. *)
Lemma land_bit_zero x n : 0 <= n -> ((x .& 2 ^ n) =? 0) = negb (Z.testbit x n).
Proof.
  intros Hn. apply eq_true_iff_eq. rewrite Z.eqb_eq, negb_true_iff. split; intros H.
  - assert (Z.testbit (x .& 2 ^ n) n = false) as Hb by (rewrite H; apply Z.bits_0).
    by rewrite Z.land_spec, Z.pow2_bits_true, andb_true_r in Hb.
  - apply Z.bits_inj'. intros i Hi. rewrite Z.land_spec, Z.bits_0, Z.pow2_bits_eqb by done.
    destruct (Z.eqb_spec n i) as [->|]; [by rewrite H|apply andb_false_r].
Qed.
Lemma power_up x : 0 <= x < 65536 -> u16 (x .& u16 (.~ LAN867X_BASIC_CONTROL_POWER_DOWN)) = Z.clearbit x 11.
Proof.
  intros Hx. apply Z.bits_inj'. intros i Hi. rewrite testbit_u16, Z.land_spec, testbit_u16, Z.lnot_spec, Z.clearbit_eqb by lia.
  change LAN867X_BASIC_CONTROL_POWER_DOWN with (2 ^ 11). rewrite Z.pow2_bits_eqb by lia.
  destruct (Z.ltb_spec i 16); [by destruct (Z.testbit x i)|].
  rewrite (testbit_small x 16) by lia. by destruct (i <? 16).
Qed.
Lemma power_down x : 0 <= x < 65536 -> u16 (x .| LAN867X_BASIC_CONTROL_POWER_DOWN) = Z.setbit x 11.
Proof.
  intros Hx. apply Z.bits_inj'. intros i Hi. rewrite testbit_u16, Z.lor_spec, Z.setbit_eqb by lia.
  change LAN867X_BASIC_CONTROL_POWER_DOWN with (2 ^ 11). rewrite Z.pow2_bits_eqb by lia.
  destruct (Z.ltb_spec i 16); [apply orb_comm|].
  rewrite (testbit_small x 16) by lia. destruct (Z.eqb_spec 11 i); [lia|done].
Qed.
(** ** The trim values of the later revisions *)
Definition signed5 (v : Z) : Z := if v mod 32 <? 16 then v mod 32 else v mod 32 - 32.
Definition trim1 (s : Z) : Z := ((9 + s) mod 64) * 1024 + ((14 + s) mod 64) * 16 + 3.
Definition trim2 (s : Z) : Z := ((40 + s) mod 64) * 1024.

Lemma trim_eq v :
  cfgparam1 (trim_offset (v .& 0x1F)) = trim1 (signed5 v) /\
  cfgparam2 (trim_offset (v .& 0x1F)) = trim2 (signed5 v).
Proof.
  change 0x1F with (Z.ones 5). rewrite Z.land_ones by lia. change (2 ^ 5) with 32.
  unfold signed5. assert (0 <= v mod 32 < 32) as Hv by (apply Z.mod_pos_bound; lia).
  set (x := v mod 32) in *. clearbody x.
  assert (forallb (fun x => (cfgparam1 (trim_offset x) =? trim1 (if x <? 16 then x else x - 32)) &&
                            (cfgparam2 (trim_offset x) =? trim2 (if x <? 16 then x else x - 32)))
            (map Z.of_nat (seq 0 32)) = true) as H by (vm_compute; reflexivity).
  rewrite forallb_forall in H. specialize (H x).
  assert (In x (map Z.of_nat (seq 0 32))) as Hx.
  { apply in_map_iff. exists (Z.to_nat x). split; [lia|]. apply in_seq. lia. }
  specialize (H Hx).
  apply andb_true_iff in H. rewrite !Z.eqb_eq in H. exact H.
Qed.

Local Ltac run := repeat (does_basic; cbv beta zeta iota; cbn [fst snd negb orb andb Z.eqb]).

Section Spec.
Context {B : Type} {CO : Callout B} {OK : BusOk CO}.
Notation table := (gmap Z phy_data_t).
Local Abbreviation does := (does (B := B) (D := phy_data_t)).

(** With both callouts, the MMD accesses are those of the shared library. *)
Lemma mmd_reg_rd_phy_lib dev m a cur :
  lan867x_mmd_reg_rd dev m a cur = phy_mmd_reg_rd (B := B) dev m a cur.
Proof.
  unfold lan867x_mmd_reg_rd, phy_mmd_reg_rd. destruct callouts_ok as [-> ->].
  change MMDCTRL_ADDRESS with 0. by rewrite Z.lor_0_l.
Qed.
Lemma mmd_reg_wr_phy_lib dev m a v :
  lan867x_mmd_reg_wr dev m a v = phy_mmd_reg_wr (B := B) dev m a v.
Proof.
  unfold lan867x_mmd_reg_wr, phy_mmd_reg_wr. destruct callouts_ok as [-> ->].
  change MMDCTRL_ADDRESS with 0. by rewrite Z.lor_0_l.
Qed.

Lemma does_mmd_rd dev m a cur t (Q : Z * Z -> table -> list access -> Prop) :
  mmd_ok (m, a) = true -> (forall v, 0 <= v < 65536 -> Q (0, v) t [ARd dev (Mmd m a) v]) ->
  does (lan867x_mmd_reg_rd dev m a cur) t Q.
Proof. rewrite mmd_reg_rd_phy_lib. apply does_phy_mmd_reg_rd. Qed.
Lemma does_mmd_wr dev m a v t (Q : Z -> table -> list access -> Prop) :
  mmd_ok (m, a) = true -> Q 0 t [AWr dev (Mmd m a) (u16 v)] ->
  does (lan867x_mmd_reg_wr dev m a v) t Q.
Proof. rewrite mmd_reg_wr_phy_lib. apply does_phy_mmd_reg_wr. Qed.
Lemma does_miim_rd dev a t (Q : Z * Z -> table -> list access -> Prop) :
  plain a = true -> (forall v, 0 <= v < 65536 -> Q (0, v) t [ARd dev (Direct a) v]) ->
  does (lan867x_miim_reg_rd dev a) t Q.
Proof.
  intros Ha HQ. unfold lan867x_miim_reg_rd. rewrite (proj1 callouts_ok).
  apply steps_does, steps_bind, steps_co_read. intros v Hv. apply steps_ret.
  eexists. split; [by apply decodes_plain_rd|by apply HQ].
Qed.

Lemma does_misc_setup dev l (k : M B phy_data_t Z) t (Q : Z -> table -> list access -> Prop) :
  setup_ok l = true ->
  (forall accs, setup_accs dev l accs -> does k t (fun rc t' l' => Q rc t' (accs ++ l'))) ->
  does (misc_setup dev l k) t Q.
Proof.
  revert Q. induction l as [|[[o [m|]] v] l IH]; intros Q Hok Hk; cbn [misc_setup].
  - by apply (Hk []).
  - apply andb_true_iff in Hok as [Ho Hok]. cbn [fst] in Ho. apply does_bind, does_bind, does_mmd_rd; [by apply misc_ok|]. intros x Hx.
    apply does_mmd_wr; [by apply misc_ok|]. apply IH; [done|].
    intros accs Ha. eapply does_mono; [apply (Hk (ARd dev (Mmd 31 o) x :: AWr dev (Mmd 31 o) (u16 ((x .& .~ m) .| v)) :: accs))|].
    + exists x, accs. done.
    + done.
  - apply andb_true_iff in Hok as [Ho Hok]. cbn [fst] in Ho. apply does_bind, does_mmd_wr; [by apply misc_ok|].
    apply IH; [done|]. intros accs Ha. eapply does_mono; [apply (Hk (AWr dev (Mmd 31 o) (u16 v) :: accs))|].
    + exists accs. done.
    + done.
Qed.

Lemma does_indirect dev a cur t (Q : Z * Z -> table -> list access -> Prop) :
  (forall v, 0 <= v < 65536 ->
     Q (0, v) t [AWr dev (Mmd 31 0xD8) (u16 a); AWr dev (Mmd 31 0xDA) 2; ARd dev (Mmd 31 0xD9) v]) ->
  does (lan867x_indirect_reg_rd dev a cur) t Q.
Proof.
  intros HQ. apply does_bind, does_mmd_wr; [done|]. apply does_bind, does_mmd_wr; [done|].
  apply does_mmd_rd; [done|]. exact HQ.
Qed.

(** The accesses of the part that depends on the revision. *)
Definition rev_accs (dev rev : Z) (accs : list access) : Prop :=
  if rev =? 2 then setup_accs dev setup_revb accs
  else if rev >? 2 then exists v1 v2 rest,
    accs = [AWr dev (Mmd 31 0xD8) 4; AWr dev (Mmd 31 0xDA) 2; ARd dev (Mmd 31 0xD9) v1;
            AWr dev (Mmd 31 0xD8) 8; AWr dev (Mmd 31 0xDA) 2; ARd dev (Mmd 31 0xD9) v2] ++ rest /\
    setup_accs dev (setup_later (trim1 (signed5 v1)) (trim2 (signed5 v2)) ++
                    if rev >=? 6 then [(0x12, Some 0x1800, 0x1800)] else []) rest
  else accs = [].

Lemma does_init_rev dev rev (k : M B phy_data_t Z) t (Q : Z -> table -> list access -> Prop) :
  (forall accs, rev_accs dev rev accs -> does k t (fun rc t' l' => Q rc t' (accs ++ l'))) ->
  does (init_rev dev rev k) t Q.
Proof.
  unfold init_rev, rev_accs. change LAN867X_REVB with 2. change LAN867X_REVD with 6.
  destruct (rev =? 2); [by apply does_misc_setup|]. destruct (rev >? 2); [|intros Hk; by apply (Hk [])].
  intros Hk. apply does_bind, does_indirect. intros v1 _. cbn [negb Z.eqb].
  apply does_bind, does_indirect. intros v2 _. cbn [negb Z.eqb]. cbv zeta.
  destruct (trim_eq v1) as [-> _], (trim_eq v2) as [_ ->].
  apply does_misc_setup; [done|]. intros a1 H1. destruct (rev >=? 6).
  - change (MEPA_RC ret (lan867x_mmd_modify dev MMD_MISC MISC_LSCTRL MISC_LSCTRL_LSCFG_ACTIVITY MISC_LSCTRL_LSCFG_ACTIVITY) k)
      with (misc_setup dev [(0x12, Some 0x1800, 0x1800)] k).
    apply does_misc_setup; [done|]. intros a2 H2. eapply does_mono; [apply Hk|].
    + exists v1, v2, (a1 ++ a2). split; [reflexivity|]. by apply setup_accs_app.
    + intros rc t' l HQ. cbv beta in HQ. by rewrite <- !app_assoc in HQ.
  - eapply does_mono; [apply Hk|].
    + exists v1, v2, a1. split; [reflexivity|]. by rewrite app_nil_r.
    + intros rc t' l HQ. cbv beta in HQ. by rewrite <- !app_assoc in HQ.
Qed.

(** The PLCA configuration, as registers, and the other writes of the set-up. *)
Definition plca_ok (cfg : mepa_t1s_plca_cfg_t) : Prop :=
  Forall (fun x => 0 <= x < 256) [plca_node_count cfg; plca_node_id cfg; plca_plca_enable cfg;
    plca_tx_oppr_timer cfg; plca_max_burst_cnt cfg; plca_burst_timer cfg].
Definition plca_writes (dev : Z) (cfg : mepa_t1s_plca_cfg_t) : list access :=
  [ AWr dev (Mmd 31 0xCA02) (plca_node_count cfg * 256 + plca_node_id cfg);
    AWr dev (Mmd 31 0xCA05) (plca_max_burst_cnt cfg * 256 + plca_burst_timer cfg);
    AWr dev (Mmd 31 0xCA01) (if tb (plca_plca_enable cfg) then 2 ^ 15 else 0);
    AWr dev (Mmd 31 0xCA04) (plca_tx_oppr_timer cfg);
    AWr dev (Mmd 31 0x54) 3; AWr dev (Mmd 31 0x50) 2; AWr dev (Mmd 31 0x44) 3; AWr dev (Mmd 31 0x40) 4 ].

Lemma u16_pair a b : 0 <= a < 256 -> 0 <= b < 256 -> u16 ((a .<< 8) .| b) = a * 256 + b.
Proof. intros. rewrite lor_disjoint by lia. apply u16_small. lia. Qed.
Lemma setup_plca_accs dev cfg accs :
  plca_ok cfg -> setup_accs dev (setup_plca cfg) accs -> accs = plca_writes dev cfg.
Proof.
  unfold plca_ok. rewrite !Forall_cons. intros (H1 & H2 & _ & H4 & H5 & H6 & _).
  unfold setup_plca. cbn [setup_accs]. intros (l1 & -> & l2 & -> & l3 & -> & l4 & -> & l5 & -> & l6 & -> & l7 & -> & l8 & -> & ->).
  rewrite !u16_pair, (u16_small (plca_tx_oppr_timer cfg)) by lia. unfold plca_writes.
  destruct (tb (plca_plca_enable cfg)); reflexivity.
Qed.

Lemma does_t1s_init dev cfg t d (Q : Z -> table -> list access -> Prop) :
  t !! dev = Some d -> plca_ok cfg ->
  (forall accs x, rev_accs dev (dev_rev (pd_dev d)) accs ->
     Q 0 (<[dev := set_pd_init_done 1 d]> t)
       (accs ++ plca_writes dev cfg ++ [ARd dev (Mmd 31 0x11) x; AWr dev (Mmd 31 0x11) 0])) ->
  does (lan867x_init_conf dev cfg) t Q.
Proof.
  intros Hd Hcfg HQ. apply does_bind, (does_data_of _ _ _ _ Hd). apply does_init_rev. intros a1 H1.
  apply does_misc_setup; [done|]. intros a2 H2. apply (setup_plca_accs _ _ _ Hcfg) in H2 as ->.
  apply does_bind, does_mmd_rd; [done|]. intros x _. cbn [negb Z.eqb]. cbv zeta.
  apply does_bind, does_mmd_wr; [done|]. apply does_bind, (does_upd _ _ _ _ _ Hd), does_ret.
  cbn [app]. by apply HQ.
Qed.

(** The set-up of the chip, for every revision and whatever the registers
    contain: the steps of the revision (from revision C on with two words
    computed from the trim values of the chip, five bits with a sign), the four
    registers of the PLCA configuration, the match and timestamp registers and
    the pin control register, in this order; then the device counts as
    initialised. *)
Theorem init_conf_spec dev cfg (t : table) d :
  t !! dev = Some d -> plca_ok cfg ->
  does (lan867x_init_conf dev cfg) t (fun rc t' l =>
    rc = MEPA_RC_OK /\ t' = <[dev := set_pd_init_done 1 d]> t /\ exists accs x,
    rev_accs dev (dev_rev (pd_dev d)) accs /\
    l = accs ++ plca_writes dev cfg ++ [ARd dev (Mmd 31 0x11) x; AWr dev (Mmd 31 0x11) 0]).
Proof. intros Hd Hc. apply (does_t1s_init dev cfg t d); [done|done|]. intros accs x Ha. split_and!; eauto. Qed.

(** A PLCA configuration that was set is the one that is read back, and its
    four registers hold it. *)
Theorem plca_set_get dev cfg (t : table) d :
  t !! dev = Some d -> plca_ok cfg ->
  does (rc <- lan867x_t1s_set_plca_config dev cfg ;; r <- lan867x_t1s_get_plca_config dev ;; ret (rc, r)) t
    (fun r t' l => r = (MEPA_RC_OK, (MEPA_RC_OK, cfg)) /\
       t' = <[dev := set_pd_plca_cfg cfg (set_pd_init_done 1 d)]> t /\
       exists l1 x, l = l1 ++ plca_writes dev cfg ++ [ARd dev (Mmd 31 0x11) x; AWr dev (Mmd 31 0x11) 0]).
Proof.
  intros Hd Hc. apply does_bind. apply does_bind, does_enter. apply does_bind, does_bind, (does_t1s_init _ _ _ _ _ Hd Hc).
  intros accs x _. cbn [negb Z.eqb]. run. unfold lan867x_t1s_get_plca_config. run. split_and!; [done|done|].
  exists accs, x. by rewrite ?app_nil_r.
Qed.

Lemma does_miim_wr dev a v t (Q : Z -> table -> list access -> Prop) :
  plain a = true -> Q 0 t [AWr dev (Direct a) (u16 v)] -> does (lan867x_miim_reg_wr dev a v) t Q.
Proof.
  intros Ha HQ. unfold lan867x_miim_reg_wr. rewrite (proj2 callouts_ok).
  apply steps_does, steps_co_write. eexists. split; [by apply decodes_direct_wr|exact HQ].
Qed.

(** The configurations that the driver accepts: 10 Mb/s, half duplex, without
    auto-negotiation. *)
Definition conf_ok (c : mepa_conf_t) : bool :=
  ((conf_man_neg c =? MEPA_MANUAL_NEG_REF) || (conf_man_neg c =? MEPA_MANUAL_NEG_CLIENT)) &&
  negb (conf_fdx c =? 1) && (conf_speed c =? MESA_SPEED_10M).

(** A configuration other than 10 Mb/s half duplex is refused and touches
    nothing.  One that is accepted changes the power-down bit of the basic
    control register and no other bit of it, and of the stored configuration
    the admin state only. *)
Theorem t1s_conf_set_spec dev c (t : table) d :
  t !! dev = Some d ->
  does (lan867x_conf_set dev c) t (fun rc t' l =>
    if conf_ok c then
      rc = MEPA_RC_OK /\ t' = <[dev := set_pd_conf (set_conf_admin_enable (conf_admin_enable c) (pd_conf d)) d]> t /\
      exists x, 0 <= x < 65536 /\ l = [ARd dev (Direct 0) x;
        AWr dev (Direct 0) (if tb (conf_admin_enable c) then Z.clearbit x 11 else Z.setbit x 11)]
    else rc = MEPA_RC_ERR_PARM /\ t' = t /\ l = []).
Proof.
  intros Hd. apply does_bind, does_enter. apply does_bind. unfold lan867x_phy_conf_set, conf_ok.
  destruct ((_ =? _) || (_ =? _)); cbn [negb orb andb]; [|by run].
  destruct (conf_fdx c =? 1); cbn [negb orb andb]; [by run|].
  destruct (conf_speed c =? MESA_SPEED_10M); cbn [negb orb andb]; [|by run].
  apply does_bind, does_miim_rd; [done|]. intros x Hx. cbn [negb Z.eqb]. cbv zeta.
  apply does_bind, does_miim_wr; [done|]. cbn [negb Z.eqb]. run. split_and!; [done|done|].
  exists x. split; [done|]. cbn [app]. do 2 f_equal. destruct (tb _).
  - by rewrite power_up.
  - by rewrite power_down.
Qed.

(** The link that is polled: on the later revisions without PLCA it is the
    admin state, since the chip cannot tell; otherwise it is the link bit of
    the basic status register.  Speed and duplex are always 10 Mb/s half
    duplex. *)
Theorem t1s_poll_spec dev st (t : table) d :
  t !! dev = Some d ->
  does (lan867x_poll dev st) t (fun r t' l =>
    fst r = MEPA_RC_OK /\ t' = t /\ st_speed (snd r) = MESA_SPEED_10M /\ st_fdx (snd r) = 0 /\
    exists plca rest, l = ARd dev (Mmd 31 0xCA01) plca :: rest /\
    if (dev_rev (pd_dev d) >=? 6) && negb (Z.testbit plca 15)
    then rest = [] /\ st_link (snd r) = cb (tb (conf_admin_enable (pd_conf d)))
    else exists bmsr, rest = [ARd dev (Direct 1) bmsr] /\ st_link (snd r) = cb (Z.testbit bmsr 2)).
Proof.
  intros Hd. apply does_bind, does_enter. apply does_bind, does_bind, does_mmd_rd; [done|]. intros plca Hp.
  cbn [negb Z.eqb]. apply does_bind, (does_data_of _ _ _ _ Hd). cbv zeta.
  change LAN867X_REVD with 6. change PLCA_ENABLE with (2 ^ 15). rewrite land_bit_zero by lia.
  destruct (_ && _) eqn:E.
  - run. split_and!; try done. exists plca, []. rewrite E. split; [done|]. by destruct (tb _).
  - apply does_bind, does_miim_rd; [done|]. intros b Hb. cbn [negb Z.eqb]. run. split_and!; try done.
    exists plca, [ARd dev (Direct 1) b]. rewrite E. split; [done|]. exists b. split; [done|].
    change (1 .<< 2) with (2 ^ 2). rewrite land_bit_zero by lia. by destruct (Z.testbit b 2).
Qed.
End Spec.

(** ** Errors, on any bus

    [outcome rc tr]: the transactions of [tr] all succeeded and [rc] is 0, or
    [rc] is the code of one that failed, the last one made, or there was no
    callout to make one. *)
Definition ev_rc (e : event) : Z := match e with EvRd _ _ rc _ | EvWr _ _ _ rc => rc | _ => 0 end.
Definition is_bus (e : event) : bool := match e with EvRd _ _ _ _ | EvWr _ _ _ _ => true | _ => false end.
Definition all_ok (tr : list event) : Prop := Forall (fun e => ev_rc e = 0) tr.

Section Errors.
Context {B : Type} {CO : Callout B}.
Local Abbreviation M := (M B phy_data_t).

Definition no_callout : Prop := not_null (miim_read (B := B)) && not_null (miim_write (B := B)) = false.
Definition outcome (rc : Z) (tr : list event) : Prop :=
  if rc =? 0 then all_ok tr
  else (no_callout /\ rc = MEPA_RC_ERROR /\ all_ok tr) \/
       exists tr1 e tr2, tr = tr1 ++ e :: tr2 /\ all_ok tr1 /\ ev_rc e = rc /\ Forall (fun e => is_bus e = false) tr2.

Lemma outcome_app rc tr1 tr2 : all_ok tr1 -> outcome rc tr2 -> outcome rc (tr1 ++ tr2).
Proof.
  unfold outcome, all_ok. intros H1. destruct (rc =? 0); [intros; by apply Forall_app|].
  intros [(Hn & Hr & H2)|(t1 & e & t2 & -> & Ht1 & He & Ht2)]; [left; split_and!; [done|done|by apply Forall_app]|].
  right. exists (tr1 ++ t1), e, t2. rewrite <- app_assoc. split_and!; [done|by apply Forall_app|done|done].
Qed.
Lemma outcome_lock rc tr1 tr2 :
  Forall (fun e => is_bus e = false) tr2 -> outcome rc tr1 -> outcome rc (tr1 ++ tr2).
Proof.
  intros H2. assert (all_ok tr2) as Hok by (eapply Forall_impl; [exact H2|]; by intros []).
  unfold outcome, all_ok in *. destruct (rc =? 0); [intros; by apply Forall_app|].
  intros [(Hn & Hr & H1)|(t1 & e & t2 & -> & Ht1 & He & Ht2)]; [left; split_and!; [done|done|by apply Forall_app]|].
  right. exists t1, e, (t2 ++ tr2). rewrite <- app_assoc. split_and!; [done|done|done|by apply Forall_app].
Qed.

(** What a function may do to the private data before it succeeds: mark the
    device as initialised. *)
Definition marks (dev : Z) (t t' : gmap Z phy_data_t) : Prop :=
  t' = t \/ exists d, t !! dev = Some d /\ t' = <[dev := set_pd_init_done 1 d]> t.
Lemma marks_trans dev t1 t2 t3 : marks dev t1 t2 -> marks dev t2 t3 -> marks dev t1 t3.
Proof.
  intros [->|(d & Hd & ->)] [->|(d' & Hd' & ->)]; unfold marks; eauto.
  right. exists d. rewrite lookup_insert_eq in Hd'. simplify_eq. by rewrite insert_insert_eq.
Qed.

Definition checked (dev : Z) {A} (rc_of : A -> Z) (m : M A) : Prop := forall w a w', m w = Some (a, w') ->
  exists tr, w_log w' = w_log w ++ tr /\ outcome (rc_of a) tr /\ marks dev (w_data w) (w_data w').

Lemma checked_ret dev {A} (rc_of : A -> Z) a : rc_of a = 0 -> checked dev rc_of (ret a).
Proof.
  intros Ha w x w' [= <- <-]. exists []. rewrite app_nil_r, Ha. split_and!; [done|constructor|by left].
Qed.
(** Leave with the code of the call, or go on after its success. *)
Lemma checked_bind dev {A C} (rc1 : A -> Z) (rc2 : C -> Z) (m : M A) (k : A -> M C) :
  checked dev rc1 m ->
  (forall a, (rc1 a = 0 /\ checked dev rc2 (k a)) \/ (exists c, k a = ret c /\ rc2 c = rc1 a)) ->
  checked dev rc2 (bind m k).
Proof.
  intros Hm Hk w c w' E. apply bind_Some in E as (a & w1 & E1 & E2).
  destruct (Hm _ _ _ E1) as (tr1 & L1 & O1 & K1). destruct (Hk a) as [[Ha Hka]|(x & Hx & Hrc)].
  - destruct (Hka _ _ _ E2) as (tr2 & L2 & O2 & K2). exists (tr1 ++ tr2). rewrite L2, L1, app_assoc.
    split_and!; [done| |by eapply marks_trans]. apply outcome_app; [|done]. by rewrite Ha in O1.
  - rewrite Hx in E2. injection E2 as <- <-. exists tr1. rewrite Hrc. done.
Qed.
Lemma checked_RC dev (m k : M Z) : checked dev id m -> checked dev id k -> checked dev id (MEPA_RC ret m k).
Proof.
  intros Hm Hk. eapply checked_bind; [exact Hm|]. intros rc. unfold id. destruct (Z.eqb_spec rc 0); [by left|right; eauto].
Qed.
Lemma checked_read dev {A} (v : A) m k :
  checked dev id m -> checked dev (fst (B := A)) k -> checked dev fst (MEPA_RC (fun rc => ret (rc, v)) m k).
Proof.
  intros Hm Hk. eapply checked_bind; [exact Hm|]. intros rc. unfold id. destruct (Z.eqb_spec rc 0); [by left|right; eauto].
Qed.
Lemma checked_use dev (m : M (Z * Z)) (k : Z -> M Z) :
  checked dev fst m -> (forall v, checked dev id (k v)) ->
  checked dev id (let* (rc, v) <- m ;; if negb (rc =? 0) then ret rc else k v).
Proof.
  intros Hm Hk. eapply checked_bind; [exact Hm|]. intros [rc v]. cbn [fst].
  destruct (Z.eqb_spec rc 0); [left; split; [done|apply Hk]|right; eauto].
Qed.

Lemma checked_co_write dev p a v : checked dev id (co_write p a v).
Proof.
  intros w rc w'. unfold co_write. destruct miim_write as [f|]; [|done]. destruct (f _ _ _ _) as [c b]. intros [= <- <-].
  eexists. split_and!; [done| |by left]. unfold outcome, id. destruct (Z.eqb_spec c 0).
  - by repeat constructor.
  - right. eexists [], _, []. split_and!; [done|constructor|done|constructor].
Qed.
Lemma checked_co_read dev p a : checked dev fst (let* (rc, v) <- co_read p a ;; ret (rc, default 0 v)).
Proof.
  intros w rc w'. unfold bind, co_read. destruct miim_read as [f|]; [|done]. destruct (f _ _ _) as [[c v] b]. intros [= <- <-].
  eexists. split_and!; [done| |by left]. unfold outcome. cbn [fst]. destruct (Z.eqb_spec c 0).
  - by repeat constructor.
  - right. eexists [], _, []. split_and!; [done|constructor|done|constructor].
Qed.
Lemma checked_none dev {A} (rc_of : A -> Z) a : no_callout -> rc_of a = MEPA_RC_ERROR -> checked dev rc_of (ret a).
Proof.
  intros Hn Ha w x w' [= <- <-]. exists []. rewrite app_nil_r, Ha.
  split_and!; [done|left; split_and!; [done|done|constructor]|by left].
Qed.

Lemma checked_mmd_rd dev p m a cur : checked dev fst (lan867x_mmd_reg_rd p m a cur).
Proof.
  unfold lan867x_mmd_reg_rd. destruct (_ && _) eqn:E; [|by apply checked_none].
  repeat (apply checked_read; [apply checked_co_write|]). apply checked_co_read.
Qed.
Lemma checked_mmd_wr dev p m a v : checked dev id (lan867x_mmd_reg_wr p m a v).
Proof.
  unfold lan867x_mmd_reg_wr. destruct (_ && _) eqn:E; [|by apply checked_none].
  repeat (apply checked_RC; [apply checked_co_write|]). apply checked_co_write.
Qed.
Lemma checked_modify dev p m a k v : checked dev id (lan867x_mmd_modify p m a k v).
Proof. apply checked_use; [apply checked_mmd_rd|]. intros x. apply checked_mmd_wr. Qed.
Lemma checked_indirect dev p a cur : checked dev fst (lan867x_indirect_reg_rd p a cur).
Proof. do 2 (apply checked_read; [apply checked_mmd_wr|]). apply checked_mmd_rd. Qed.
Lemma checked_setup dev p l k : checked dev id k -> checked dev id (misc_setup p l k).
Proof.
  intros Hk. induction l as [|[[o [m|]] v] l IH]; cbn [misc_setup]; [done| |];
    (apply checked_RC; [|done]); [apply checked_modify|apply checked_mmd_wr].
Qed.
Lemma checked_init_rev dev p rev k : checked dev id k -> checked dev id (init_rev p rev k).
Proof.
  intros Hk. unfold init_rev. destruct (rev =? _); [by apply checked_setup|]. destruct (rev >? _); [|done].
  apply checked_use; [apply checked_indirect|]. intros v1. apply checked_use; [apply checked_indirect|]. intros v2.
  apply checked_setup. destruct (rev >=? _); [|done]. by apply checked_RC; [apply checked_modify|].
Qed.
Lemma checked_data dev p {A} (rc_of : A -> Z) (k : phy_data_t -> M A) :
  (forall d, checked dev rc_of (k d)) -> checked dev rc_of (bind (data_of p) k).
Proof.
  intros Hk w a w' E. apply bind_Some in E as (d & w1 & E1 & E2). apply Hk in E2.
  unfold data_of in E1. destruct (w_data w !! p); [|done]. by injection E1 as _ <-.
Qed.
Lemma checked_mark dev (m : M Z) :
  checked dev id m -> checked dev id (rc <- m ;; upd dev (set_pd_init_done 1) ;;; ret rc).
Proof.
  intros Hm w rc w' E. apply bind_Some in E as (rc1 & w1 & E1 & E). apply bind_Some in E as (u & w2 & E2 & E).
  injection E as <- <-. destruct (Hm _ _ _ E1) as (tr & L & O & K).
  unfold upd in E2. destruct (w_data w1 !! dev) as [d1|] eqn:Hd; [|done]. injection E2 as _ <-. cbn.
  exists tr. split_and!; [done|done|]. eapply marks_trans; [exact K|]. right. eauto.
Qed.
Lemma checked_init_conf dev cfg : checked dev id (lan867x_init_conf dev cfg).
Proof.
  apply checked_data. intros d. apply checked_init_rev, checked_setup, checked_use; [apply checked_mmd_rd|].
  intros v. apply checked_mark, checked_mmd_wr.
Qed.

(** C32. Setting the PLCA configuration on any bus.  [MEPA_RC_OK] means that
    every transaction succeeded, and the configuration is stored.  Any other
    code is that of the transaction that failed, which is the last one made, or
    [MEPA_RC_ERROR] because a callout is missing; then the stored configuration
    is the old one. *)
Theorem plca_set_errors dev cfg (w : world B phy_data_t) rc w' :
  lan867x_t1s_set_plca_config dev cfg w = Some (rc, w') ->
  exists tr, w_log w' = w_log w ++ tr /\ outcome rc tr /\
  if rc =? MEPA_RC_OK then exists t d, marks dev (w_data w) t /\ t !! dev = Some d /\
      w_data w' = <[dev := set_pd_plca_cfg cfg d]> t
  else marks dev (w_data w) (w_data w').
Proof.
  intros E. apply bind_Some in E as (u & w1 & E1 & E). apply bind_Some in E as (rc1 & w2 & E2 & E).
  apply bind_Some in E as (u' & w3 & E3 & E). injection E as -> <-.
  assert (exists t1, all_ok t1 /\ w_log w1 = w_log w ++ t1 /\ w_data w1 = w_data w) as (t1 & H1 & L1 & T1).
  { unfold mepa_enter, log in E1. destruct lock_enter; injection E1 as _ <-; cbn.
    - exists [EvEnter]. by repeat constructor.
    - exists []. rewrite app_nil_r. by repeat constructor. }
  assert (exists t3, Forall (fun e => is_bus e = false) t3 /\ w_log w3 = w_log w2 ++ t3 /\ w_data w3 = w_data w2)
    as (t3 & H3 & L3 & T3).
  { unfold mepa_exit, log in E3. destruct lock_exit; injection E3 as _ <-; cbn.
    - exists [EvExit]. by repeat constructor.
    - exists []. rewrite app_nil_r. by repeat constructor. }
  apply bind_Some in E2 as (rc2 & wi & Ei & E2). destruct (checked_init_conf dev cfg _ _ _ Ei) as (t2 & L2 & O2 & K2).
  unfold id in O2. rewrite T1 in K2.
  assert (w_log w2 = w_log wi /\ rc = rc2) as [Lw ->].
  { destruct (negb (rc2 =? 0)) eqn:En; [by injection E2 as <- <-|].
    apply bind_Some in E2 as (u2 & wu & Eu & E2). injection E2 as <- <-. unfold upd in Eu.
    destruct (w_data wi !! dev); [|done]. injection Eu as _ <-. split; [done|]. lia. }
  exists (t1 ++ t2 ++ t3). rewrite L3, Lw, L2, L1, !app_assoc. split; [done|]. rewrite <- app_assoc.
  split; [by apply outcome_app, outcome_lock|].
  change MEPA_RC_OK with 0. destruct (Z.eqb_spec rc2 0) as [->|Hne]; cbn [negb] in E2; rewrite T3.
  - apply bind_Some in E2 as (u2 & wu & Eu & E2). injection E2 as <-. unfold upd in Eu.
    destruct (w_data wi !! dev) as [d|] eqn:Hd; [|done]. injection Eu as _ <-. exists (w_data wi), d. done.
  - by injection E2 as <-.
Qed.
End Errors.

(** ** Safety of the entry points *)
Inductive t1s_call :=
  | CReset (dev : Z) | CPoll (dev : Z) (status : mepa_status_t)
  | CConfSet (dev : Z) (config : mepa_conf_t) | CConfGet (dev : Z)
  | CIfGet (dev speed : Z) | CMediaGet (dev : Z)
  | CRead22 (dev addr : Z) | CWrite22 (dev addr value : Z)
  | CRead45 (dev addr value : Z) | CWrite45 (dev addr value : Z)
  | CInfoGet (dev : Z) | CSetPlca (dev : Z) (cfg : mepa_t1s_plca_cfg_t) | CGetPlca (dev : Z).

Section Safe.
Context {B : Type} {CO : Callout B} {OK : CalloutOk (CO := CO)} (devs : Z -> bool).
Local Abbreviation M := (M B phy_data_t).
Definition has_data (t : gmap Z phy_data_t) : Prop := forall d, devs d = true -> is_Some (t !! d).
Local Abbreviation safe := (safe (B := B) has_data).

Definition t1s_exec (c : t1s_call) : M unit :=
  match c with
  | CReset d => lan867x_reset d ;;; ret tt
  | CPoll d st => lan867x_poll d st ;;; ret tt
  | CConfSet d c => lan867x_conf_set d c ;;; ret tt
  | CConfGet d => lan867x_conf_get d ;;; ret tt
  | CIfGet d s => lan867x_if_get d s ;;; ret tt
  | CMediaGet d => lan867x_media_get d ;;; ret tt
  | CRead22 d a => lan867x_reg_read d a ;;; ret tt
  | CWrite22 d a v => lan867x_reg_write d a v ;;; ret tt
  | CRead45 d a v => lan867x_mmd_reg_read d a v ;;; ret tt
  | CWrite45 d a v => lan867x_mmd_reg_write d a v ;;; ret tt
  | CInfoGet d => lan867x_info_get d ;;; ret tt
  | CSetPlca d c => lan867x_t1s_set_plca_config d c ;;; ret tt
  | CGetPlca d => lan867x_t1s_get_plca_config d ;;; ret tt
  end.
Definition t1s_good (c : t1s_call) : bool :=
  match c with
  | CReset d | CPoll d _ | CConfSet d _ | CConfGet d | CIfGet d _ | CMediaGet d
  | CRead45 d _ _ | CWrite45 d _ _ | CInfoGet d | CSetPlca d _ | CGetPlca d => devs d
  | CRead22 d a | CWrite22 d a _ => devs d && (u16 a <? 32)
  end.

Lemma safe_dev_data dev h : devs dev = true -> safe h (data_of dev) h.
Proof. intros Hd. apply safe_data_of. intros t Ht. by apply Ht. Qed.
Lemma safe_dev_upd dev f h : devs dev = true -> safe h (upd dev f) h.
Proof.
  intros Hd. apply safe_upd.
  - intros t Ht. by apply Ht.
  - intros t d Ht _ x Hx. destruct (decide (x = dev)) as [->|Hne].
    + rewrite lookup_insert_eq. by eexists.
    + rewrite lookup_insert_ne by done. by apply Ht.
Qed.
Lemma callouts_there : not_null (miim_read (B := B)) = true /\ not_null (miim_write (B := B)) = true.
Proof. destruct (ok_read (CalloutOk := OK)) as [f ->], (ok_write (CalloutOk := OK)) as [g ->]. done. Qed.
#[local] Hint Resolve safe_dev_data safe_dev_upd : safe.

Lemma safe_miim_rd dev a : 0 <= a < 32 -> safe true (lan867x_miim_reg_rd dev a) true.
Proof. intros. unfold lan867x_miim_reg_rd. rewrite (proj1 callouts_there). safe_step; [by apply safe_co_read|safe_auto]. Qed.
Lemma safe_miim_wr dev a v : 0 <= a < 32 -> safe true (lan867x_miim_reg_wr dev a v) true.
Proof. intros. unfold lan867x_miim_reg_wr. rewrite (proj2 callouts_there). by apply safe_co_write. Qed.
Local Ltac addr := split; vm_compute; congruence.
Local Ltac sf := intros; repeat (lazymatch goal with
  | |- Machine.safe _ _ (co_read _ _) _ => apply safe_co_read; addr
  | |- Machine.safe _ _ (co_write _ _ _) _ => apply safe_co_write; addr
  | |- Machine.safe _ _ (lan867x_miim_reg_rd _ _) _ => apply safe_miim_rd; addr
  | |- Machine.safe _ _ (lan867x_miim_reg_wr _ _ _) _ => apply safe_miim_wr; addr
  | |- _ => safe_step; cbv zeta
  end).
Lemma safe_mmd_rd dev m a cur : safe true (lan867x_mmd_reg_rd dev m a cur) true.
Proof. unfold lan867x_mmd_reg_rd, MEPA_RC. destruct callouts_there as [-> ->]. cbn [andb]. cbv zeta. sf. Qed.
Lemma safe_mmd_wr dev m a v : safe true (lan867x_mmd_reg_wr dev m a v) true.
Proof. unfold lan867x_mmd_reg_wr, MEPA_RC. destruct callouts_there as [-> ->]. cbn [andb]. sf. Qed.
#[local] Hint Resolve safe_mmd_rd safe_mmd_wr : safe.
Lemma safe_modify dev m a k v : safe true (lan867x_mmd_modify dev m a k v) true.
Proof. unfold lan867x_mmd_modify. sf. Qed.
Lemma safe_indirect dev a cur : safe true (lan867x_indirect_reg_rd dev a cur) true.
Proof. unfold lan867x_indirect_reg_rd, MEPA_RC. sf. Qed.
#[local] Hint Resolve safe_modify safe_indirect : safe.
Lemma safe_setup dev l k : safe true k true -> safe true (misc_setup dev l k) true.
Proof. intros Hk. induction l as [|[[o [m|]] v] l IH]; cbn [misc_setup]; unfold MEPA_RC; sf; done. Qed.
Lemma safe_t1s_init dev cfg : devs dev = true -> safe true (lan867x_init_conf dev cfg) true.
Proof.
  intros Hd. unfold lan867x_init_conf, init_rev, MEPA_RC.
  repeat first [apply safe_setup | safe_step; cbv zeta].
Qed.
#[local] Hint Resolve safe_t1s_init : safe.
Lemma safe_phy_conf_set dev c : devs dev = true -> safe true (lan867x_phy_conf_set dev c) true.
Proof. intros Hd. unfold lan867x_phy_conf_set. sf. Qed.
Lemma safe_link_status dev st : devs dev = true -> safe true (lan867x_get_link_status dev st) true.
Proof. intros Hd. unfold lan867x_get_link_status. sf. Qed.
#[local] Hint Resolve safe_phy_conf_set safe_link_status : safe.

Lemma safe_t1s_exec c : t1s_good c = true -> safe false (t1s_exec c) false.
Proof.
  destruct c; cbn [t1s_good t1s_exec]; intros Hg;
    try (unfold lan867x_reset, lan867x_poll, lan867x_conf_set, lan867x_conf_get, lan867x_if_get, lan867x_media_get,
      lan867x_mmd_reg_read, lan867x_mmd_reg_write, lan867x_info_get, lan867x_t1s_set_plca_config,
      lan867x_t1s_get_plca_config, MEPA_RC; sf; fail).
  - apply andb_true_iff in Hg as [_ Ha]. assert (0 <= u16 addr < 32) by (pose proof (u16_range addr); lia).
    unfold lan867x_reg_read. do 3 safe_step; [by apply safe_miim_rd|sf].
  - apply andb_true_iff in Hg as [_ Ha]. assert (0 <= u16 addr < 32) by (pose proof (u16_range addr); lia).
    unfold lan867x_reg_write. do 3 safe_step; [by apply safe_miim_wr|sf].
Qed.

(** Any history of calls on LAN867x devices that have private data, with
    the debug accesses of clause 22 naming one of its 32 registers, meets no
    undefined behaviour, takes and releases the lock in pairs, and accesses the
    bus with the lock held only. *)
Theorem t1s_run_safe calls :
  forallb t1s_good calls = true -> safe false (seq_ t1s_exec calls) false.
Proof.
  induction calls as [|c calls IH]; cbn [forallb seq_]; [intros _; apply safe_ret|].
  rewrite andb_true_iff. intros [Hc Hl]. eapply safe_bind; [by apply safe_t1s_exec|]. intros _. by apply IH.
Qed.
End Safe.

(** ** Witnesses *)

(** A device of revision D, and a configuration of node 3 of 8. *)
Definition t1s_data : phy_data_t :=
  set_pd_dev (Mk_phy_dev_info_t 0x7c160 0x16 6) (set_pd_ctx_status 1 (probe_data 3)).
Definition t1s_table : gmap Z phy_data_t := {[ 200 := t1s_data ]}.
Definition node_3 : mepa_t1s_plca_cfg_t := Mk_mepa_t1s_plca_cfg_t 8 3 1 32 0 128.
Definition up_10m : mepa_conf_t := Mk_mepa_conf_t MESA_SPEED_10M 0 0 0 1 mepa_aneg_adv_t_0 0 MEPA_MANUAL_NEG_REF 0 [].

Lemma t1s_table_200 : t1s_table !! 200 = Some t1s_data.
Proof. done. Qed.
Lemma node_3_ok : plca_ok node_3.
Proof. unfold plca_ok. repeat constructor; cbn; lia. Qed.

Lemma init_conf_spec_witness :
  does (lan867x_init_conf (CO := sim_callout) 200 node_3) t1s_table (fun rc t' l =>
    rc = MEPA_RC_OK /\ t' = <[200 := set_pd_init_done 1 t1s_data]> t1s_table /\ exists accs x,
    rev_accs 200 (dev_rev (pd_dev t1s_data)) accs /\
    l = accs ++ plca_writes 200 node_3 ++ [ARd 200 (Mmd 31 0x11) x; AWr 200 (Mmd 31 0x11) 0]).
Proof. exact (init_conf_spec (CO := sim_callout) 200 node_3 t1s_table t1s_data t1s_table_200 node_3_ok). Defined.
Lemma plca_set_get_witness :
  does (rc <- lan867x_t1s_set_plca_config (CO := sim_callout) 200 node_3 ;; r <- lan867x_t1s_get_plca_config 200 ;; ret (rc, r))
    t1s_table (fun r t' l => r = (MEPA_RC_OK, (MEPA_RC_OK, node_3)) /\
       t' = <[200 := set_pd_plca_cfg node_3 (set_pd_init_done 1 t1s_data)]> t1s_table /\
       exists l1 x, l = l1 ++ plca_writes 200 node_3 ++ [ARd 200 (Mmd 31 0x11) x; AWr 200 (Mmd 31 0x11) 0]).
Proof. exact (plca_set_get (CO := sim_callout) 200 node_3 t1s_table t1s_data t1s_table_200 node_3_ok). Defined.
Lemma t1s_conf_set_spec_witness :
  does (lan867x_conf_set (CO := sim_callout) 200 up_10m) t1s_table (fun rc t' l =>
    if conf_ok up_10m then
      rc = MEPA_RC_OK /\ t' = <[200 := set_pd_conf (set_conf_admin_enable (conf_admin_enable up_10m) (pd_conf t1s_data)) t1s_data]> t1s_table /\
      exists x, 0 <= x < 65536 /\ l = [ARd 200 (Direct 0) x;
        AWr 200 (Direct 0) (if tb (conf_admin_enable up_10m) then Z.clearbit x 11 else Z.setbit x 11)]
    else rc = MEPA_RC_ERR_PARM /\ t' = t1s_table /\ l = []).
Proof. exact (t1s_conf_set_spec (CO := sim_callout) 200 up_10m t1s_table t1s_data t1s_table_200). Defined.
Lemma t1s_poll_spec_witness :
  does (lan867x_poll (CO := sim_callout) 200 mepa_status_t_0) t1s_table (fun r t' l =>
    fst r = MEPA_RC_OK /\ t' = t1s_table /\ st_speed (snd r) = MESA_SPEED_10M /\ st_fdx (snd r) = 0 /\
    exists plca rest, l = ARd 200 (Mmd 31 0xCA01) plca :: rest /\
    if (dev_rev (pd_dev t1s_data) >=? 6) && negb (Z.testbit plca 15)
    then rest = [] /\ st_link (snd r) = cb (tb (conf_admin_enable (pd_conf t1s_data)))
    else exists bmsr, rest = [ARd 200 (Direct 1) bmsr] /\ st_link (snd r) = cb (Z.testbit bmsr 2)).
Proof. exact (t1s_poll_spec (CO := sim_callout) 200 mepa_status_t_0 t1s_table t1s_data t1s_table_200). Defined.

(** On a bus that fails, the first transaction is the last. *)
Definition t1s_failed : world unit phy_data_t :=
  World tt t1s_table ([] ++ [EvEnter; EvWr 200 13 31 MEPA_RC_ERROR; EvExit]).
Lemma plca_set_errors_witness :
  lan867x_t1s_set_plca_config (CO := failing_bus) 200 node_3 (World tt t1s_table []) = Some (MEPA_RC_ERROR, t1s_failed) /\
  exists tr, w_log t1s_failed = w_log (World tt t1s_table []) ++ tr /\ outcome (CO := failing_bus) MEPA_RC_ERROR tr /\
  if MEPA_RC_ERROR =? MEPA_RC_OK then exists t d, marks 200 (w_data (World tt t1s_table [])) t /\ t !! 200 = Some d /\
      w_data t1s_failed = <[200 := set_pd_plca_cfg node_3 d]> t
  else marks 200 (w_data (World tt t1s_table [])) (w_data t1s_failed).
Proof.
  assert (lan867x_t1s_set_plca_config (CO := failing_bus) 200 node_3 (World tt t1s_table []) = Some (MEPA_RC_ERROR, t1s_failed))
    as E by reflexivity.
  split; [exact E|]. exact (plca_set_errors (CO := failing_bus) 200 node_3 (World tt t1s_table []) MEPA_RC_ERROR t1s_failed E).
Defined.

Lemma t1s_run_safe_witness :
  let calls := [CReset 200; CSetPlca 200 node_3; CRead22 200 1; CPoll 200 mepa_status_t_0; CConfSet 200 up_10m; CInfoGet 200] in
  forallb (t1s_good (Z.eqb 200)) calls = true /\
  safe (has_data (Z.eqb 200)) false (seq_ (t1s_exec (CO := sim_callout)) calls) false.
Proof. split; [reflexivity|]. by apply (t1s_run_safe (CO := sim_callout) (Z.eqb 200)). Defined.
