(* ===== verification/Lan8770Regs.v ===== *)
(** * Lan8770Regs: the registers of the LAN8770

    The macros of [mepa/microchip/lan8770/src/lan8770_registers.h] and the
    numbers of [lan8770_private.h] that the driver uses, under their names. *)

From Stdlib Require Import ZArith.
From S2P Require Import Prelude.

Definition LAN8770_LINKUP : Z := 1.
Definition LAN8770_LINKDOWN : Z := 0.
Definition LAN8770_BIT (x : Z) : Z := 1 .<< x.
Definition LAN8770_BIT_MASK (x : Z) : Z := (1 .<< x) - 1.
Definition LAN8770_EXTRACT_BITFIELD (value offset width : Z) : Z := (value .>> offset) .& LAN8770_BIT_MASK width.
Definition LAN8770_ENCODE_BITFIELD (value offset width : Z) : Z := (value .& LAN8770_BIT_MASK width) .<< offset.
Definition LAN8770_ENCODE_BITMASK (offset width : Z) : Z := LAN8770_BIT_MASK width .<< offset.
Definition LAN8770_PHY_BANK_SMI : Z := 0.
Definition LAN8770_PHY_BANK_MISC : Z := 1.
Definition LAN8770_PHY_BANK_PCS : Z := 2.
Definition LAN8770_PHY_BANK_AFE : Z := 3.
Definition LAN8770_PHY_BANK_DSP : Z := 4.
Definition LAN8770_PHY_BANK_INSTRUMENT : Z := 5.
Definition LAN8770_BASIC_CONTROL_OFFSET : Z := 0x00.
Definition LAN8770_BASIC_CTRL_DUPLEX_MODE : Z := LAN8770_BIT 8.
Definition LAN8770_BASIC_CTRL_ISOLATE : Z := LAN8770_BIT 10.
Definition LAN8770_BASIC_CTRL_POWER_DOWN : Z := LAN8770_BIT 11.
Definition LAN8770_BASIC_CTRL_SPEED_SEL_LSB : Z := LAN8770_BIT 13.
Definition LAN8770_BASIC_CTRL_PCS_LOOPBACK : Z := LAN8770_BIT 14.
Definition LAN8770_BASIC_CTRL_SW_RESET : Z := LAN8770_BIT 15.
Definition LAN8770_PHY_ID1_OFFSET : Z := 0x02.
Definition LAN8770_PHY_ID_NUM0 (x : Z) : Z := (x .<< 2) .& 0x03FFFC.
Definition LAN8770_PHY_ID2_OFFSET : Z := 0x03.
Definition LAN8770_PHY_REV_NUM (x : Z) : Z := LAN8770_EXTRACT_BITFIELD x 0 4.
Definition LAN8770_PHY_MODEL_NUM (x : Z) : Z := LAN8770_EXTRACT_BITFIELD x 4 6.
Definition LAN8770_PHY_ID_NUM1 (x : Z) : Z := (LAN8770_EXTRACT_BITFIELD x 10 6 .<< 18) .& 0xFFFFFFFF.
Definition LAN8770_MASTER_SLAVE_CTRL_OFFSET : Z := 0x09.
Definition LAN8770_MASTER_SLAVE_CTRL_MAN_CFG_VAL : Z := LAN8770_BIT 11.
Definition LAN8770_MASTER_SLAVE_CTRL_MAN_CFG_EN : Z := LAN8770_BIT 12.
Definition LAN8770_MASTER_SLAVE_STATUS_OFFSET : Z := 0x0A.
Definition LAN8770_MASTER_SLAVE_STATUS_CFG_RESOL : Z := LAN8770_BIT 14.
Definition LAN8770_MASTER_SLAVE_STATUS_CFG_RESOL_MASK : Z := LAN8770_ENCODE_BITMASK 14 1.
Definition LAN8770_MASTER_SLAVE_STATUS_CFG_FAULT_MASK : Z := LAN8770_ENCODE_BITMASK 15 1.
Definition LAN8770_MASTER_SLAVE_STATUS_IS_MASTER (x : Z) : Z := cb (tb (x .& LAN8770_MASTER_SLAVE_STATUS_CFG_RESOL_MASK)).
Definition LAN8770_MASTER_SLAVE_STATUS_IS_FAULT (x : Z) : Z := cb (tb (x .& LAN8770_MASTER_SLAVE_STATUS_CFG_FAULT_MASK)).
Definition LAN8770_MDIO_CTRL2_OFFSET : Z := 0x10.
Definition LAN8770_MDIO_CTRL2_EN_DET_MST_MODE : Z := LAN8770_BIT 6.
Definition LAN8770_MDIO_CTRL2_SLEEP_REQ : Z := LAN8770_BIT 12.
Definition LAN8770_MDIO_CTRL2_WAKE_REQ : Z := LAN8770_BIT 13.
Definition LAN8770_MODE_STATUS_OFFSET : Z := 0x11.
Definition LAN8770_LOOPBACK_CTRL_OFFSET : Z := 0x12.
Definition LAN8770_LPBK_CTRL_PMA : Z := LAN8770_BIT 0.
Definition LAN8770_LPBK_CTRL_FAR : Z := LAN8770_BIT 9.
Definition LAN8770_EXT_REG_CTRL_OFFSET : Z := 0x14.
Definition LAN8770_EXT_REG_CTRL_REG_BANK_SET (x : Z) : Z := LAN8770_ENCODE_BITFIELD x 8 3.
Definition LAN8770_EXT_REG_CTRL_WRT_CTRL : Z := LAN8770_BIT 11.
Definition LAN8770_EXT_REG_CTRL_READ_CTRL : Z := LAN8770_BIT 12.
Definition LAN8770_EXT_REG_RD_DATA : Z := 0x15.
Definition LAN8770_EXT_REG_WR_DATA : Z := 0x16.
Definition LAN8770_PCS_CTRL_OFFSET : Z := 0x17.
Definition LAN8770_INTR_SRC_OFFSET : Z := 0x18.
Definition LAN8770_INTR_MASK_OFFSET : Z := 0x19.
Definition LAN8770_POWER_DOWN_CTRL_OFFSET : Z := 0x1A.
Definition LAN8770_POWER_DOWN_CTRL_HW_INIT_EN : Z := LAN8770_BIT 8.
Definition LAN8770_POWER_DOWN_CTRL_FORCE_TX_EN : Z := LAN8770_BIT 9.
Definition LAN8770_MISC_INT2_SRC_OFFSET : Z := 0x8.
Definition LAN8770_MISC_INT2_MASK_OFFSET : Z := 0x9.
Definition LAN8770_MISC_CTRL_0_OFFSET : Z := 0x10.
Definition LAN8770_MISC_CTRL_0_LED_EN : Z := LAN8770_BIT 3.
Definition LAN8770_MISC_CTRL_0_LED_DIS : Z := LAN8770_MISC_CTRL_0_LED_EN.
Definition LAN8770_MISC_CTRL_0_LED_MODE_ACTIVITY : Z := 0x3.
Definition LAN8770_MISC_CTRL_0_LED_MODE_RX_ACTIVITY : Z := 0x4.
Definition LAN8770_MISC_CTRL_0_LED_MODE_TX_ACTIVITY : Z := 0x5.
Definition LAN8770_MISC_CTRL_0_LED_MODE_SLAVE : Z := 0x6.
Definition LAN8770_MISC_CTRL_0_LED_MODE_MASTER : Z := 0x7.
Definition LAN8770_MISC_WKP_COM_CTL0_OFFSET : Z := 0x20.
Definition LAN8770_MISC_WKP_COM_CTL0_WK_IN_EN : Z := LAN8770_BIT 0.
Definition LAN8770_MISC_WKP_COM_CTL0_WK_OUT_AUTO_FWD_EN : Z := LAN8770_BIT 7.
Definition LAN8770_MISC_WKP_COM_CTL0_WK_IN_POL_ACTIVE_LOW : Z := LAN8770_BIT 12.
Definition LAN8770_MISC_WKP_COM_CTL0_WK_OUT_POL_ACTIVE_LOW : Z := LAN8770_BIT 11.
Definition LAN8770_MISC_WKP_COM_CTL0_WK_OUT_MODE_SET (x : Z) : Z := LAN8770_ENCODE_BITFIELD x 9 2.
Definition LAN8770_MISC_WKP_COM_CTL0_WK_OUT_MODE_PUSH_PULL : Z := 0.
Definition LAN8770_MISC_WKP_COM_CTL0_WK_OUT_MODE_OPEN_SOURCE : Z := 1.
Definition LAN8770_MISC_WKP_COM_CTL0_WK_OUT_MODE_OPEN_DRAIN : Z := 2.
Definition LAN8770_MISC_WKP_COM_CTL0_INH_MODE_OPEN_DRAIN : Z := LAN8770_BIT 8.
Definition LAN8770_MISC_WKP_COM_CTL0_VBAT_COMM_WR : Z := LAN8770_BIT 15.
Definition LAN8770_MISC_WKP_COM_CTL1_OFFSET : Z := 0x21.
Definition LAN8770_MISC_WKP_DBG_STS_OFFSET : Z := 0x22.
Definition LAN8770_MISC_WKP_DBG_STS_TC10_STATE_GET (x : Z) : Z := LAN8770_EXTRACT_BITFIELD x 0 3.
Definition LAN8770_MISC_WKP_DBG_STS_TC10_STATE_START : Z := 0.
Definition LAN8770_MISC_WKP_DBG_STS_TC10_STATE_NORMAL : Z := 1.
Definition LAN8770_MISC_WKP_DBG_STS_TC10_STATE_SLEEP_ACK : Z := 2.
Definition LAN8770_MISC_WKP_DBG_STS_TC10_STATE_SLEEP_REQ : Z := 3.
Definition LAN8770_MISC_WKP_DBG_STS_TC10_STATE_SLEEP_FAIL : Z := 4.
Definition LAN8770_MISC_WKP_DBG_STS_TC10_STATE_SLEEP_SILENT : Z := 5.
Definition LAN8770_MISC_WKP_DBG_STS_TC10_STATE_SLEEP : Z := 6.
Definition LAN8770_MISC_WKP_PRT_CTL1_OFFSET : Z := 0x24.
Definition LAN8770_MISC_WKP_PRT_CTL1_WK_MDI_EN : Z := LAN8770_BIT 8.
Definition LAN8770_MISC_WKP_PTR_CTL1_WUP_AUTO_FWD_EN : Z := LAN8770_BIT 12.
Definition LAN8770_MISC_WKP_PRT_CTL1_VBAT_PORT_WR : Z := LAN8770_BIT 15.
Definition LAN8770_MISC_WKP_PRT_CTL2_OFFSET : Z := 0x25.
Definition LAN8770_PCS_DESCM_CONTROL0 : Z := 0x00.
Definition LAN8770_PCS_DEBUG_BUS_STS_OFFSET : Z := 0x16.
Definition LAN8770_PCS_SLEEP_WAKE_CTL_OFFSET : Z := 0x1B.
Definition LAN8770_PCS_SLEEP_WAKE_CTL_SLEEP_REJECT_EN : Z := LAN8770_BIT 4.
Definition LAN8770_PCS_SLEEP_WAKE_DET_OFFSET : Z := 0x20.
Definition LAN8770_AFE_PORT_CFG1_OFFSET : Z := 0x0B.
Definition LAN8770_AFE_AFE_PORT_CFG4_OFFSET : Z := 0x0E.
Definition LAN8770_TX_RX_FIFO_CFG : Z := 0x02.
Definition LAN8770_DSP_CDR_CFG_PRE_LOCK : Z := 0x05.
Definition LAN8770_DSP_CDR_CFG_POST_LOCK : Z := 0x06.
Definition LAN8770_DSP_COEF_RW_CTL_CFG_OFFSET : Z := 0x0D.
Definition LAN8770_DSP_COEF_RW_CTL_CFG_POKE_DIS : Z := LAN8770_BIT 0.
Definition LAN8770_DSP_EQU_LOCK_STG1_THR : Z := 0x11.
Definition LAN8770_DSP_SLV_HD_MULT_CFG : Z := 0x17.
Definition LAN8770_DSP_SLV_FD_MULT_CFG : Z := 0x18.
Definition LAN8770_DSP_LCK_STG2_MUFACT_CFG : Z := 0x1A.
Definition LAN8770_DSP_LCK_STG3_MUFACT_CFG : Z := 0x1B.
Definition LAN8770_DSP_POST_LCK_MUFACT_CFG : Z := 0x1C.
Definition LAN8770_DSP_COEF_PROT_DIS : Z := 0x25.
Definition LAN8770_DSP_SQI_SQU_MEAN_MSB_OFFSET : Z := 0x83.
Definition LAN8770_DSP_DFE_TAP1_INIT_COEF : Z := 0x22.
Definition LAN8770_DSP_SQI_CONFIG : Z := 0x2E.
Definition LAN8770_DSP_CALIB_CFG : Z := 0x37.
Definition LAN8770_DSP_MAX_PGA_GAIN : Z := 0x4F.
Definition LAN8770_DSP_KP_LOOP_SAT_CFG : Z := 0x54.
Definition LAN8770_DSP_TX_LPF_FIR_CFG : Z := 0x55.
Definition LAN8770_DSP_CABLE_DIAG_STS_CTL : Z := 0x5A.
Definition LAN8770_DSP_CABLE_DIAG_PGA_THR : Z := 0x5C.
Definition LAN8770_DSP_CABLE_DIAG_MIN_WAIT_CFG : Z := 0x5D.
Definition LAN8770_DSP_CABLE_DIAG_MAX_WAIT_CFG : Z := 0x5E.
Definition LAN8770_DSP_CABLE_DIAG_CYC_WAIT_CFG : Z := 0x5F.
Definition LAN8770_DSP_EQ_FD_STG1_FRZ_CFG : Z := 0x69.
Definition LAN8770_DSP_EQ_FD_STG2_FRZ_CFG : Z := 0x6A.
Definition LAN8770_DSP_EQ_FD_STG3_FRZ_CFG : Z := 0x6B.
Definition LAN8770_DSP_EQ_FD_STG4_FRZ_CFG : Z := 0x6C.
Definition LAN8770_EQ_WT_FD_LCK_FRZ_CFG : Z := 0x6D.
Definition LAN8770_PST_EQ_LCK_STG1_FRZ_CFG : Z := 0x6E.
Definition LAN8770_DSP_CABLE_DIAG_GAIN_IDX : Z := 0x97.
Definition LAN8770_DSP_CABLE_DIAG_PEAK : Z := 0x99.
Definition LAN8770_DSP_CABLE_DIAG_NEG_PEAK : Z := 0x9A.
Definition LAN8770_DSP_CABLE_DIAG_PEAK_TIME : Z := 0x9C.
Definition LAN8770_DSP_CABLE_DIAG_NEG_PEAK_TIME : Z := 0x9D.
Definition LAN8770_PHY_ID_MAX : Z := 4.
Definition LAN8770_PHY_ID_MASK : Z := 0xFFFFF0.
Definition LAN8770_PHY_ID : Z := 0x7C150.
Definition LAN8770_PHY_ID_LAN938X : Z := 0x7C1A0.
Definition LAN8770_PHY_ID_LAN937X : Z := 0x7C180.
Definition LAN8770_PHY_ID_LAN937X_TC10 : Z := 0x74180.
Definition LAN8770_PHY_EXT_BANK (addr : Z) : Z := (addr .>> 16) .& 0x000F.
Definition LAN8770_PHY_REG_ADDR (addr : Z) : Z := addr .& 0x00FF.
