(* ===== verification/Lan8770.v ===== *)
(** * Lan8770: the driver of the LAN8770, a 100BASE-T1 PHY with TC10 sleep

    [mepa/microchip/lan8770/src]: register access through the banks of
    registers 20 to 22, the set-up sequence, configuration and link status
    ([lan8770.c], [lan8770_private.c]), the TC10 sleep and wake-up functions
    ([lan8770_private.c], [lan8770_tc10.c]), events, loopbacks, LED, and the
    entry points.  The cable diagnosis and the signal quality are in
    [Lan8770Diag].

    The driver's devices are the nine slots of two static arrays; a device is
    represented by its slot's index.  A function that stores through a pointer
    returns what it stored, [cur] being what was there.  The loops that wait
    for a bank access have no bound: [fuel] is how many reads of the status the
    model makes, and a wait that is longer than that has no result, as
    undefined behaviour. *)

From Stdlib Require Import ZArith Lia List Bool String.
From stdpp Require Import base gmap strings list.
From S2P Require Import Prelude Machine Enums Lan8814Types PhyLib Lan8770Regs.

Definition MEPA_RC_INV_STATE : Z := -2.
Definition MEPA_RC_ERR_PARM : Z := -5.
Definition MESA_PHY_MEDIA_IF_T1_100FX : Z := 11.
Definition MAX_LAN8770_PHY : Z := 9.
Definition INTR_BIT_LEN : Z := 8.

(** ** Data *)
Definition MEPA_TC10_WAKE_IN : Z := 0.
Definition MEPA_TC10_WAKE_OUT : Z := 1.
Definition MEPA_TC10_INH : Z := 2.
Definition MEPA_TC10_LPS : Z := 0.
Definition MEPA_TC10_WAKEUP_DISABLE : Z := 0.
Definition MEPA_TC10_WAKEUP_WUP_ENABLE : Z := 1.
Definition MEPA_TC10_WAKEUP_WAKEIN_ENABLE : Z := 2.
Definition MEPA_TC10_WAKEUP_WUP_WAKEIN_ENABLE : Z := 3.
Definition MEPA_TC10_WAKEUP_FWD_DISABLE : Z := 0.
Definition MEPA_TC10_WAKEUP_FWD_WUP_ENABLE : Z := 1.
Definition MEPA_TC10_WAKEUP_FWD_WAKEOUT_ENABLE : Z := 2.
Definition MEPA_TC10_WAKEUP_FWD_WUP_WAKEOUT_ENABLE : Z := 3.
Definition MEPA_TC10_START : Z := 0.
Definition MEPA_TC10_NORMAL : Z := 1.
Definition MEPA_TC10_SLEEP_ACK : Z := 2.
Definition MEPA_TC10_SLEEP_REQ : Z := 3.
Definition MEPA_TC10_SLEEP_FAIL : Z := 4.
Definition MEPA_TC10_SLEEP_SILENT : Z := 5.
Definition MEPA_TC10_SLEEP : Z := 6.

Record phy_dev_info_t := Mk_phy_dev_info_t {
  dev_id : Z;
  dev_model : Z;
  dev_rev : Z;
  dev_is_master : Z;
  dev_is_master_fault : Z;
}.
Record phy_tc10_data_t := Mk_phy_tc10_data_t {
  tc_sleep_enable : Z;
  tc_wakeup_mode : Z;
  tc_wakeup_fwd_mode : Z;
  tc_wake_in_pol : Z;
  tc_wake_out_pol : Z;
  tc_wake_out_mode : Z;
  tc_inh_mode : Z;
}.
Record phy_data_t := Mk_phy_data_t {
  pd_init_done : Z;
  pd_phy_aneg_dis : Z;
  pd_link_status : Z;
  pd_port_no : Z;
  pd_mac_if : Z;
  pd_media_intf : Z;
  pd_conf : mepa_conf_t;
  pd_events : Z;
  pd_loopback : mepa_loopback_t;
  pd_dev : phy_dev_info_t;
  pd_ctx_status : Z;
  pd_cdiags_start : Z;
  pd_tc10 : phy_tc10_data_t;
}.
Definition set_dev_id v d := Mk_phy_dev_info_t v (dev_model d) (dev_rev d) (dev_is_master d) (dev_is_master_fault d).
Definition set_dev_model v d := Mk_phy_dev_info_t (dev_id d) v (dev_rev d) (dev_is_master d) (dev_is_master_fault d).
Definition set_dev_rev v d := Mk_phy_dev_info_t (dev_id d) (dev_model d) v (dev_is_master d) (dev_is_master_fault d).
Definition set_dev_is_master v d := Mk_phy_dev_info_t (dev_id d) (dev_model d) (dev_rev d) v (dev_is_master_fault d).
Definition set_dev_is_master_fault v d := Mk_phy_dev_info_t (dev_id d) (dev_model d) (dev_rev d) (dev_is_master d) v.
Definition set_tc_sleep_enable v t := Mk_phy_tc10_data_t v (tc_wakeup_mode t) (tc_wakeup_fwd_mode t) (tc_wake_in_pol
  t) (tc_wake_out_pol t) (tc_wake_out_mode t) (tc_inh_mode t).
Definition set_tc_wakeup_mode v t := Mk_phy_tc10_data_t (tc_sleep_enable t) v (tc_wakeup_fwd_mode t) (tc_wake_in_pol
  t) (tc_wake_out_pol t) (tc_wake_out_mode t) (tc_inh_mode t).
Definition set_tc_wakeup_fwd_mode v t := Mk_phy_tc10_data_t (tc_sleep_enable t) (tc_wakeup_mode t) v (tc_wake_in_pol
  t) (tc_wake_out_pol t) (tc_wake_out_mode t) (tc_inh_mode t).
Definition set_tc_wake_in_pol v t := Mk_phy_tc10_data_t (tc_sleep_enable t) (tc_wakeup_mode t) (tc_wakeup_fwd_mode t)
  v (tc_wake_out_pol t) (tc_wake_out_mode t) (tc_inh_mode t).
Definition set_tc_wake_out_pol v t := Mk_phy_tc10_data_t (tc_sleep_enable t) (tc_wakeup_mode t) (tc_wakeup_fwd_mode t)
  (tc_wake_in_pol t) v (tc_wake_out_mode t) (tc_inh_mode t).
Definition set_tc_wake_out_mode v t := Mk_phy_tc10_data_t (tc_sleep_enable t) (tc_wakeup_mode t) (tc_wakeup_fwd_mode
  t) (tc_wake_in_pol t) (tc_wake_out_pol t) v (tc_inh_mode t).
Definition set_tc_inh_mode v t := Mk_phy_tc10_data_t (tc_sleep_enable t) (tc_wakeup_mode t) (tc_wakeup_fwd_mode t)
  (tc_wake_in_pol t) (tc_wake_out_pol t) (tc_wake_out_mode t) v.
Definition set_pd_init_done v d := Mk_phy_data_t v (pd_phy_aneg_dis d) (pd_link_status d) (pd_port_no d) (pd_mac_if d)
  (pd_media_intf d) (pd_conf d) (pd_events d) (pd_loopback d) (pd_dev d) (pd_ctx_status d) (pd_cdiags_start d)
  (pd_tc10 d).
Definition set_pd_link_status v d := Mk_phy_data_t (pd_init_done d) (pd_phy_aneg_dis d) v (pd_port_no d) (pd_mac_if d)
  (pd_media_intf d) (pd_conf d) (pd_events d) (pd_loopback d) (pd_dev d) (pd_ctx_status d) (pd_cdiags_start d)
  (pd_tc10 d).
Definition set_pd_conf v d := Mk_phy_data_t (pd_init_done d) (pd_phy_aneg_dis d) (pd_link_status d) (pd_port_no d)
  (pd_mac_if d) (pd_media_intf d) v (pd_events d) (pd_loopback d) (pd_dev d) (pd_ctx_status d) (pd_cdiags_start d)
  (pd_tc10 d).
Definition set_pd_events v d := Mk_phy_data_t (pd_init_done d) (pd_phy_aneg_dis d) (pd_link_status d) (pd_port_no d)
  (pd_mac_if d) (pd_media_intf d) (pd_conf d) v (pd_loopback d) (pd_dev d) (pd_ctx_status d) (pd_cdiags_start d)
  (pd_tc10 d).
Definition set_pd_loopback v d := Mk_phy_data_t (pd_init_done d) (pd_phy_aneg_dis d) (pd_link_status d) (pd_port_no d)
  (pd_mac_if d) (pd_media_intf d) (pd_conf d) (pd_events d) v (pd_dev d) (pd_ctx_status d) (pd_cdiags_start d)
  (pd_tc10 d).
Definition set_pd_dev v d := Mk_phy_data_t (pd_init_done d) (pd_phy_aneg_dis d) (pd_link_status d) (pd_port_no d)
  (pd_mac_if d) (pd_media_intf d) (pd_conf d) (pd_events d) (pd_loopback d) v (pd_ctx_status d) (pd_cdiags_start d)
  (pd_tc10 d).
Definition set_pd_cdiags_start v d := Mk_phy_data_t (pd_init_done d) (pd_phy_aneg_dis d) (pd_link_status d)
  (pd_port_no d) (pd_mac_if d) (pd_media_intf d) (pd_conf d) (pd_events d) (pd_loopback d) (pd_dev d) (pd_ctx_status
  d) v (pd_tc10 d).
Definition set_pd_tc10 v d := Mk_phy_data_t (pd_init_done d) (pd_phy_aneg_dis d) (pd_link_status d) (pd_port_no d)
  (pd_mac_if d) (pd_media_intf d) (pd_conf d) (pd_events d) (pd_loopback d) (pd_dev d) (pd_ctx_status d)
  (pd_cdiags_start d) v.
(** [memset(data, 0, sizeof(phy_data_t))] *)
Definition phy_data_0 : phy_data_t :=
  Mk_phy_data_t 0 0 0 0 0 0 mepa_conf_t_0 0 mepa_loopback_t_0 (Mk_phy_dev_info_t 0 0 0 0 0) 0 0
    (Mk_phy_tc10_data_t 0 0 0 0 0 0 0).

(** ** The set-up sequence, as data *)

(** [phy_ext_bank_reg_wr], [phy_direct_reg_wr],
    [phy_direct_read_mod_write_register], [phy_read_mod_write_register] and
    [MEPA_NSLEEP] with constant arguments. *)
Inductive step :=
  | BankWr (bank offset value : Z)
  | DirWr (offset value : Z)
  | DirMod (offset value mask : Z)
  | BankMod (bank offset value mask : Z)
  | Nsleep (nsec : Z).

Definition init_reset (master : bool) : list step :=
  [ DirWr LAN8770_POWER_DOWN_CTRL_OFFSET LAN8770_POWER_DOWN_CTRL_FORCE_TX_EN;
    DirMod LAN8770_BASIC_CONTROL_OFFSET LAN8770_BASIC_CTRL_SW_RESET LAN8770_BASIC_CTRL_SW_RESET;
    Nsleep 100;
    DirWr LAN8770_MASTER_SLAVE_CTRL_OFFSET
      (LAN8770_MASTER_SLAVE_CTRL_MAN_CFG_EN .| (if master then LAN8770_MASTER_SLAVE_CTRL_MAN_CFG_VAL else 0x0));
    DirMod LAN8770_BASIC_CONTROL_OFFSET LAN8770_BASIC_CTRL_SW_RESET LAN8770_BASIC_CTRL_SW_RESET;
    Nsleep 100;
    BankWr LAN8770_PHY_BANK_AFE LAN8770_AFE_PORT_CFG1_OFFSET 0x002B;
    DirWr LAN8770_POWER_DOWN_CTRL_OFFSET 0x0308;
    DirMod LAN8770_PCS_CTRL_OFFSET 0x0000 0x0380 ].
Definition slave_dsp : list step :=
  [ BankWr LAN8770_PHY_BANK_DSP LAN8770_DSP_EQ_FD_STG1_FRZ_CFG 0x0002;
    BankWr LAN8770_PHY_BANK_DSP LAN8770_DSP_EQ_FD_STG2_FRZ_CFG 0x0002;
    BankWr LAN8770_PHY_BANK_DSP LAN8770_DSP_EQ_FD_STG3_FRZ_CFG 0x0002;
    BankWr LAN8770_PHY_BANK_DSP LAN8770_DSP_EQ_FD_STG4_FRZ_CFG 0x0002;
    BankWr LAN8770_PHY_BANK_DSP LAN8770_EQ_WT_FD_LCK_FRZ_CFG 0x0002;
    BankWr LAN8770_PHY_BANK_DSP LAN8770_PST_EQ_LCK_STG1_FRZ_CFG 0x0002;
    BankWr LAN8770_PHY_BANK_DSP LAN8770_DSP_DFE_TAP1_INIT_COEF 0x0014;
    BankWr LAN8770_PHY_BANK_PCS LAN8770_PCS_DESCM_CONTROL0 0x6FFF ].
Definition dsp_config : list step :=
  [ BankWr LAN8770_PHY_BANK_DSP LAN8770_DSP_CDR_CFG_PRE_LOCK 0x0AB1;
    BankWr LAN8770_PHY_BANK_DSP LAN8770_DSP_CDR_CFG_POST_LOCK 0x0AB3;
    BankWr LAN8770_PHY_BANK_DSP LAN8770_DSP_EQU_LOCK_STG1_THR 0x5274;
    BankWr LAN8770_PHY_BANK_DSP LAN8770_DSP_SLV_HD_MULT_CFG 0x0D74;
    BankWr LAN8770_PHY_BANK_DSP LAN8770_DSP_SLV_FD_MULT_CFG 0x0D53;
    BankWr LAN8770_PHY_BANK_DSP LAN8770_DSP_COEF_PROT_DIS 0x0360;
    BankWr LAN8770_PHY_BANK_DSP LAN8770_DSP_KP_LOOP_SAT_CFG 0x0C30;
    BankWr LAN8770_PHY_BANK_DSP LAN8770_DSP_LCK_STG2_MUFACT_CFG 0x0AEA;
    BankWr LAN8770_PHY_BANK_DSP LAN8770_DSP_LCK_STG3_MUFACT_CFG 0x0AEB;
    BankWr LAN8770_PHY_BANK_DSP LAN8770_DSP_POST_LCK_MUFACT_CFG 0x0AEB;
    BankWr LAN8770_PHY_BANK_DSP LAN8770_TX_RX_FIFO_CFG 0x1C00 ].
(** "TX IIR" *)
Definition tx_iir : list Z :=
  [ 0x1000; 0x1821; 0x1021; 0x1842; 0x1042; 0x1863; 0x1063; 0x18a4; 0x10a4; 0x18c5; 0x10c5; 0x18e6; 0x10e6;
    0x18c7; 0x10c7; 0x18c8; 0x10c8; 0x1889; 0x1089; 0x184a; 0x104a; 0x180b; 0x100b; 0x180c; 0x100c; 0x180d;
    0x100d; 0x180e; 0x100e; 0x180f; 0x100f; 0x1810; 0x1010; 0x1811; 0x1011; 0x1000 ].
Definition tx_iir_steps : list step := map (BankWr LAN8770_PHY_BANK_DSP LAN8770_DSP_TX_LPF_FIR_CFG) tx_iir.
Definition sqi_enable : list step :=
  [ BankWr LAN8770_PHY_BANK_DSP LAN8770_DSP_SQI_CONFIG 0x9572;
    DirWr LAN8770_MDIO_CTRL2_OFFSET 0x0014;
    DirWr LAN8770_POWER_DOWN_CTRL_OFFSET 0x0200;
    DirWr LAN8770_MDIO_CTRL2_OFFSET 0x0094 ].
Definition tc10_steps : list step :=
  [ BankMod LAN8770_PHY_BANK_MISC LAN8770_MISC_WKP_COM_CTL0_OFFSET 0x0020 0x0020;
    BankWr LAN8770_PHY_BANK_PCS LAN8770_PCS_SLEEP_WAKE_DET_OFFSET 0x3C3C;
    BankMod LAN8770_PHY_BANK_SMI LAN8770_MDIO_CTRL2_OFFSET 0x0020 0x0020;
    BankMod LAN8770_PHY_BANK_MISC LAN8770_MISC_WKP_COM_CTL1_OFFSET 0x2700 0xFF00;
    BankMod LAN8770_PHY_BANK_MISC LAN8770_MISC_WKP_COM_CTL0_OFFSET 0x8006 0x800E;
    BankWr LAN8770_PHY_BANK_MISC LAN8770_MISC_WKP_PRT_CTL1_OFFSET 0xD010;
    BankMod LAN8770_PHY_BANK_MISC LAN8770_MISC_WKP_PRT_CTL2_OFFSET 0x0020 0x0020;
    BankMod LAN8770_PHY_BANK_MISC LAN8770_MISC_WKP_PRT_CTL1_OFFSET 0x8100 0x8100;
    BankMod LAN8770_PHY_BANK_MISC LAN8770_MISC_WKP_COM_CTL1_OFFSET 0x0064 0x0064 ].

Section Lan8770.
Context {B : Type} {CO : Callout B}.
Variable fuel : nat.
Local Abbreviation M := (M B phy_data_t).

(** [MEPA_RC(rc, expr)] of this driver: any code but 0 goes to [error].
    [reading] is the macro around a read into a variable. *)
Local Abbreviation RC := (or_return ret).
Definition reading {A} (fail : Z -> M A) (m : M (Z * Z)) (k : Z -> M A) : M A :=
  let* (rc, v) <- m ;; if negb (rc =? MEPA_RC_OK) then fail rc else k v.

(** [MEPA_NSLEEP] *)
Definition nsleep (nsec : Z) : M unit := log (EvSleep nsec).

(** ** Register access *)
Definition phy_direct_reg_rd (dev offset cur : Z) : M (Z * Z) :=
  if not_null miim_read then
    let* (rc, v) <- co_read dev offset ;; ret (rc, default cur v)
  else ret (MEPA_RC_NOT_IMPLEMENTED, cur).
Definition phy_direct_reg_wr (dev offset value : Z) : M Z :=
  if not_null miim_write then co_write dev offset value else ret MEPA_RC_NOT_IMPLEMENTED.
(** [(val & (mask ^ 0xFFFF)) | value] *)
Definition modified (val value mask : Z) : Z := u16 ((val .& Z.lxor mask 0xFFFF) .| value).
Definition phy_direct_read_mod_write_register (dev offset value mask : Z) : M Z :=
  reading ret (phy_direct_reg_rd dev offset 0x0) (fun val =>
  phy_direct_reg_wr dev offset (modified val value mask)).

(** The loop [while (regdata & mask)]: the code and [timeout]. *)
Fixpoint busy_wait (n : nat) (dev offset mask regdata timeout : Z) : M (Z * Z) :=
  if (regdata .& mask) =? 0 then ret (MEPA_RC_OK, timeout) else
  match n with
  | O => undefined
  | S n =>
      let* (rc, regdata) <- phy_direct_reg_rd dev offset regdata ;;
      if negb (rc =? MEPA_RC_OK) then ret (rc, timeout) else
      let timeout := u16 (timeout - 1) in
      (if tb timeout then nsleep 10 else ret tt) ;;;
      busy_wait n dev offset mask regdata timeout
  end.
(** [MEPA_RC] inside the loop, and [if (!timeout) { rc = MEPA_RC_ERROR; goto error; }] *)
Definition waited {A} (fail : Z -> M A) (m : M (Z * Z)) (k : M A) : M A :=
  reading fail m (fun timeout => if negb (tb timeout) then fail MEPA_RC_ERROR else k).

Definition bank_command (bank offset : Z) : Z :=
  u16 (u16 (offset .| LAN8770_EXT_REG_CTRL_REG_BANK_SET bank) .| LAN8770_EXT_REG_CTRL_WRT_CTRL).
Definition phy_ext_bank_reg_rd (dev bank offset cur : Z) : M (Z * Z) :=
  if bank =? LAN8770_PHY_BANK_SMI then phy_direct_reg_rd dev offset cur
  else if bank <=? LAN8770_PHY_BANK_INSTRUMENT then
    let error rc := ret (rc, cur) in
    or_return error (phy_direct_reg_wr dev LAN8770_EXT_REG_CTRL_OFFSET (bank_command bank offset))
    (reading error (phy_direct_reg_rd dev LAN8770_EXT_REG_CTRL_OFFSET (bank_command bank offset)) (fun regdata =>
    waited error (busy_wait fuel dev LAN8770_EXT_REG_CTRL_OFFSET LAN8770_EXT_REG_CTRL_READ_CTRL regdata 200)
    (phy_direct_reg_rd dev LAN8770_EXT_REG_RD_DATA cur)))
  else ret (MEPA_RC_ERR_PARM, cur).
Definition phy_ext_bank_reg_wr (dev bank offset value : Z) : M Z :=
  if bank =? LAN8770_PHY_BANK_SMI then phy_direct_reg_wr dev offset value
  else if bank <=? LAN8770_PHY_BANK_INSTRUMENT then
    RC (phy_direct_reg_wr dev LAN8770_EXT_REG_WR_DATA value)
    (RC (phy_direct_reg_wr dev LAN8770_EXT_REG_CTRL_OFFSET (bank_command bank offset))
    (reading ret (phy_direct_reg_rd dev LAN8770_EXT_REG_CTRL_OFFSET (bank_command bank offset)) (fun regdata =>
    waited ret (busy_wait fuel dev LAN8770_EXT_REG_CTRL_OFFSET LAN8770_EXT_REG_CTRL_WRT_CTRL regdata 200)
    (ret MEPA_RC_OK))))
  else ret MEPA_RC_ERR_PARM.
Definition phy_read_mod_write_register (dev phy_bank offset value mask : Z) : M Z :=
  reading ret (phy_ext_bank_reg_rd dev phy_bank offset 0x0) (fun val =>
  phy_ext_bank_reg_wr dev phy_bank offset (modified val value mask)).

(** ** Set-up of the chip *)
Definition run_step (dev : Z) (s : step) : M Z :=
  match s with
  | BankWr bank offset value => phy_ext_bank_reg_wr dev bank offset value
  | DirWr offset value => phy_direct_reg_wr dev offset value
  | DirMod offset value mask => phy_direct_read_mod_write_register dev offset value mask
  | BankMod bank offset value mask => phy_read_mod_write_register dev bank offset value mask
  | Nsleep nsec => nsleep nsec ;;; ret MEPA_RC_OK
  end.
Fixpoint run_steps (dev : Z) (l : list step) (k : M Z) : M Z :=
  match l with [] => k | s :: l => RC (run_step dev s) (run_steps dev l k) end.

(** "Enable interrupts again": a mask that the set-up has changed is written back. *)
Definition restore_interrupts (dev intr_val intr2_val : Z) (k : M Z) : M Z :=
  reading ret (phy_direct_reg_rd dev LAN8770_INTR_MASK_OFFSET 0) (fun value =>
  RC (if negb (value =? intr_val) then phy_direct_reg_wr dev LAN8770_INTR_MASK_OFFSET intr_val else ret MEPA_RC_OK)
  (reading ret (phy_ext_bank_reg_rd dev LAN8770_PHY_BANK_MISC LAN8770_MISC_INT2_MASK_OFFSET value) (fun value =>
  RC (if negb (value =? intr2_val)
      then phy_ext_bank_reg_wr dev LAN8770_PHY_BANK_MISC LAN8770_MISC_INT2_MASK_OFFSET intr2_val else ret MEPA_RC_OK)
  k))).

Definition phy_init_conf (dev : Z) (master : bool) : M Z :=
  reading ret (phy_direct_reg_rd dev LAN8770_INTR_MASK_OFFSET (uninit16 "intr_val")) (fun intr_val =>
  reading ret (phy_ext_bank_reg_rd dev LAN8770_PHY_BANK_MISC LAN8770_MISC_INT2_MASK_OFFSET (uninit16 "intr2_val"))
    (fun intr2_val =>
  run_steps dev (init_reset master)
  (reading ret (phy_direct_reg_rd dev LAN8770_MASTER_SLAVE_STATUS_OFFSET 0) (fun value =>
  run_steps dev (if (value .& LAN8770_MASTER_SLAVE_STATUS_CFG_RESOL) =? 0 then slave_dsp else [])
  (run_steps dev (dsp_config ++ tx_iir_steps ++ sqi_enable)
  (reading ret (phy_direct_reg_rd dev LAN8770_MDIO_CTRL2_OFFSET value) (fun value =>
  waited ret (busy_wait fuel dev LAN8770_MDIO_CTRL2_OFFSET 0x0080 value 200)
  (run_steps dev [BankWr LAN8770_PHY_BANK_AFE LAN8770_AFE_PORT_CFG1_OFFSET 0x000A]
  (reading ret (phy_direct_reg_rd dev LAN8770_INTR_SRC_OFFSET value) (fun value =>
  reading ret (phy_ext_bank_reg_rd dev LAN8770_PHY_BANK_MISC LAN8770_MISC_INT2_SRC_OFFSET value) (fun _ =>
  run_steps dev tc10_steps
  (restore_interrupts dev intr_val intr2_val
  (phy_direct_reg_wr dev LAN8770_POWER_DOWN_CTRL_OFFSET
     (LAN8770_POWER_DOWN_CTRL_FORCE_TX_EN .| LAN8770_POWER_DOWN_CTRL_HW_INIT_EN)))))))))))))).

Definition upd_dev (dev : Z) (f : phy_dev_info_t -> phy_dev_info_t) : M unit :=
  upd dev (fun d => set_pd_dev (f (pd_dev d)) d).
Definition phy_get_device_info (dev : Z) : M Z :=
  reading ret (phy_direct_reg_rd dev LAN8770_PHY_ID1_OFFSET 0) (fun val =>
  upd_dev dev (set_dev_id (LAN8770_PHY_ID_NUM0 val)) ;;;
  reading ret (phy_direct_reg_rd dev LAN8770_PHY_ID2_OFFSET val) (fun val =>
  upd_dev dev (set_dev_rev (LAN8770_PHY_REV_NUM val)) ;;;
  upd_dev dev (set_dev_model (LAN8770_PHY_MODEL_NUM val)) ;;;
  upd_dev dev (fun i => set_dev_id (dev_id i .| LAN8770_PHY_ID_NUM1 val) i) ;;;
  reading ret (phy_direct_reg_rd dev LAN8770_MASTER_SLAVE_STATUS_OFFSET val) (fun val =>
  upd_dev dev (set_dev_is_master (LAN8770_MASTER_SLAVE_STATUS_IS_MASTER val)) ;;;
  upd_dev dev (set_dev_is_master_fault (LAN8770_MASTER_SLAVE_STATUS_IS_FAULT val)) ;;;
  ret MEPA_RC_OK))).

(** ** Configuration and link status *)
Definition upd_conf (dev : Z) (f : mepa_conf_t -> mepa_conf_t) : M unit :=
  upd dev (fun d => set_pd_conf (f (pd_conf d)) d).
Definition set_power (dev enable : Z) : M Z :=
  let regval := if tb enable then 0x0 else LAN8770_BASIC_CTRL_POWER_DOWN in
  phy_read_mod_write_register dev LAN8770_PHY_BANK_SMI LAN8770_BASIC_CONTROL_OFFSET regval LAN8770_BASIC_CTRL_POWER_DOWN.

(** "Following are always fixed": role, duplex, speed and negotiation. *)
Definition conf_refused (config : mepa_conf_t) : bool :=
  negb ((conf_man_neg config =? MEPA_MANUAL_NEG_REF) || (conf_man_neg config =? MEPA_MANUAL_NEG_CLIENT))
  || negb (conf_fdx config =? TRUE) || negb (conf_speed config =? MESA_SPEED_100M)
  || negb (conf_mac_if_aneg_ena config =? FALSE).

(** [if (!data->init_done)]: the first configuration sets the chip up. *)
Definition conf_first (dev : Z) (config : mepa_conf_t) (k : M Z) : M Z :=
  data <- data_of dev ;;
  if negb (tb (pd_init_done data)) then
    RC (phy_init_conf dev (conf_man_neg config =? MEPA_MANUAL_NEG_REF))
    (upd dev (set_pd_init_done TRUE) ;;;
     RC (set_power dev (conf_admin_enable config))
     (upd_conf dev (set_conf_man_neg (conf_man_neg config)) ;;;
      upd_conf dev (set_conf_admin_enable (conf_admin_enable config)) ;;;
      k))
  else k.
Definition conf_role (dev : Z) (config : mepa_conf_t) (k : M Z) : M Z :=
  data <- data_of dev ;;
  if negb (conf_man_neg (pd_conf data) =? conf_man_neg config)
  then RC (phy_init_conf dev (conf_man_neg config =? MEPA_MANUAL_NEG_REF)) k else k.
Definition conf_power (dev : Z) (config : mepa_conf_t) (k : M Z) : M Z :=
  data <- data_of dev ;;
  if negb (conf_admin_enable (pd_conf data) =? conf_admin_enable config)
  then RC (set_power dev (conf_admin_enable config)) k else k.

(** [config] is never the device's own configuration, or is equal to it. *)
Definition phy_conf_set (dev : Z) (config : mepa_conf_t) : M Z :=
  let curr_val := if conf_man_neg config =? MEPA_MANUAL_NEG_REF then MEPA_MANUAL_NEG_REF else MEPA_MANUAL_NEG_CLIENT in
  if conf_refused config then ret MEPA_RC_ERR_PARM else
  upd_conf dev (fun c => set_conf_flow_control (conf_flow_control config)
    (set_conf_mac_if_aneg_ena FALSE (set_conf_fdx TRUE (set_conf_speed MESA_SPEED_100M c)))) ;;;
  conf_first dev config
  (conf_role dev config
  (conf_power dev config
  (upd_conf dev (fun c => set_conf_man_neg curr_val (set_conf_admin_enable (conf_admin_enable config) c)) ;;;
   ret MEPA_RC_OK))).

Definition phy_get_link_status_enhanced (dev : Z) (status : mepa_status_t) : M (Z * mepa_status_t) :=
  let error rc := ret (rc, status) in
  reading error (phy_direct_reg_rd dev LAN8770_MASTER_SLAVE_STATUS_OFFSET 0) (fun reg_0A_data =>
  reading error (phy_direct_reg_rd dev LAN8770_MODE_STATUS_OFFSET 0) (fun reg_11_data =>
  or_return error (phy_read_mod_write_register dev LAN8770_PHY_BANK_SMI LAN8770_LOOPBACK_CTRL_OFFSET
    (LAN8770_BIT 11) (LAN8770_BIT 11))
  (reading error (phy_ext_bank_reg_rd dev LAN8770_PHY_BANK_PCS LAN8770_PCS_DEBUG_BUS_STS_OFFSET 0) (fun _ =>
  data <- data_of dev ;;
  let status := set_st_link LAN8770_LINKDOWN status in
  let status :=
    if ((reg_0A_data .& 0x3000) =? 0x3000) && ((reg_11_data .& 0x0D) =? 0x0D) then
      set_st_fdx (conf_fdx (pd_conf data)) (set_st_speed (conf_speed (pd_conf data)) (set_st_link LAN8770_LINKUP status))
    else status in
  upd dev (set_pd_link_status (st_link status)) ;;;
  ret (MEPA_RC_OK, status))))).

(** ** LED *)
Definition phy_convert_led_mode (mode master : Z) : Z :=
  if (mode =? MEPA_GPIO_MODE_LED_ACTIVITY) || (mode =? MEPA_GPIO_MODE_LED_LINK100_ACTIVITY)
     || (mode =? MEPA_GPIO_MODE_LED_LINK100BASE_FX_ACTIVITY) || (mode =? MEPA_GPIO_MODE_LED_LINK_ACTIVITY)
  then LAN8770_MISC_CTRL_0_LED_MODE_ACTIVITY
  else if mode =? MEPA_GPIO_MODE_LED_FORCE_LED_ON then
    if master =? TRUE then LAN8770_MISC_CTRL_0_LED_MODE_MASTER else LAN8770_MISC_CTRL_0_LED_MODE_SLAVE
  else if mode =? MEPA_GPIO_MODE_LED_LINK_RX then LAN8770_MISC_CTRL_0_LED_MODE_RX_ACTIVITY
  else if mode =? MEPA_GPIO_MODE_LED_LINK_TX then LAN8770_MISC_CTRL_0_LED_MODE_TX_ACTIVITY
  else LAN8770_MISC_CTRL_0_LED_DIS.
Definition phy_led_mode_set (dev led_mode : Z) : M Z :=
  data <- data_of dev ;;
  phy_ext_bank_reg_wr dev LAN8770_PHY_BANK_MISC LAN8770_MISC_CTRL_0_OFFSET
    (phy_convert_led_mode led_mode (dev_is_master (pd_dev data))).

(** ** TC10 *)
Definition upd_tc10 (dev : Z) (f : phy_tc10_data_t -> phy_tc10_data_t) : M unit :=
  upd dev (fun d => set_pd_tc10 (f (pd_tc10 d)) d).

Definition phy_tc10_set_sleep_support (dev enable : Z) : M Z :=
  reading ret (phy_ext_bank_reg_rd dev LAN8770_PHY_BANK_PCS LAN8770_PCS_SLEEP_WAKE_CTL_OFFSET 0) (fun reg_data =>
  let reg_data := if tb enable then reg_data .& .~ LAN8770_PCS_SLEEP_WAKE_CTL_SLEEP_REJECT_EN
                  else reg_data .| LAN8770_PCS_SLEEP_WAKE_CTL_SLEEP_REJECT_EN in
  RC (phy_ext_bank_reg_wr dev LAN8770_PHY_BANK_PCS LAN8770_PCS_SLEEP_WAKE_CTL_OFFSET reg_data)
  (upd_tc10 dev (set_tc_sleep_enable enable) ;;; ret MEPA_RC_OK)).
Definition phy_tc10_get_sleep_support (dev : Z) : M (Z * Z) :=
  data <- data_of dev ;; ret (MEPA_RC_OK, tc_sleep_enable (pd_tc10 data)).

(** The two wake-up registers with a bit [bit1] of the first and [bit2] of the
    second for the four modes of the [switch]; [None]: [default]. *)
Definition wakeup_bits (mode bit1 bit2 reg_data1 reg_data2 : Z) : option (Z * Z) :=
  if mode =? 0 then Some (reg_data1 .& .~ bit1, reg_data2 .& .~ bit2)
  else if mode =? 1 then Some (reg_data1 .| bit1, reg_data2 .& .~ bit2)
  else if mode =? 2 then Some (reg_data1 .& .~ bit1, reg_data2 .| bit2)
  else if mode =? 3 then Some (reg_data1 .| bit1, reg_data2 .| bit2)
  else None.
(** What [phy_tc10_set_wakeup_support] and [phy_tc10_set_wakeup_fwd_support]
    have in common: read both registers, change a bit of each, write both with
    the bits that pass them on to the VBAT domain. *)
Definition set_wakeup_bits (dev mode bit1 bit2 : Z) (k : M Z) : M Z :=
  reading ret (phy_ext_bank_reg_rd dev LAN8770_PHY_BANK_MISC LAN8770_MISC_WKP_PRT_CTL1_OFFSET 0) (fun reg_data1 =>
  reading ret (phy_ext_bank_reg_rd dev LAN8770_PHY_BANK_MISC LAN8770_MISC_WKP_COM_CTL0_OFFSET 0) (fun reg_data2 =>
  match wakeup_bits mode bit1 bit2 reg_data1 reg_data2 with
  | None => ret MEPA_RC_ERR_PARM
  | Some (reg_data1, reg_data2) =>
      RC (phy_ext_bank_reg_wr dev LAN8770_PHY_BANK_MISC LAN8770_MISC_WKP_PRT_CTL1_OFFSET
            (reg_data1 .| LAN8770_MISC_WKP_PRT_CTL1_VBAT_PORT_WR))
      (RC (phy_ext_bank_reg_wr dev LAN8770_PHY_BANK_MISC LAN8770_MISC_WKP_COM_CTL0_OFFSET
             (reg_data2 .| LAN8770_MISC_WKP_COM_CTL0_VBAT_COMM_WR))
       k)
  end)).
Definition phy_tc10_set_wakeup_support (dev mode : Z) : M Z :=
  set_wakeup_bits dev mode LAN8770_MISC_WKP_PRT_CTL1_WK_MDI_EN LAN8770_MISC_WKP_COM_CTL0_WK_IN_EN
  (upd_tc10 dev (set_tc_wakeup_mode mode) ;;; ret MEPA_RC_OK).
Definition phy_tc10_get_wakeup_support (dev : Z) : M (Z * Z) :=
  data <- data_of dev ;; ret (MEPA_RC_OK, tc_wakeup_mode (pd_tc10 data)).
Definition phy_tc10_set_wakeup_fwd_support (dev mode : Z) : M Z :=
  set_wakeup_bits dev mode LAN8770_MISC_WKP_PTR_CTL1_WUP_AUTO_FWD_EN LAN8770_MISC_WKP_COM_CTL0_WK_OUT_AUTO_FWD_EN
  (upd_tc10 dev (set_tc_wakeup_fwd_mode mode) ;;; ret MEPA_RC_OK).
Definition phy_tc10_get_wakeup_fwd_support (dev : Z) : M (Z * Z) :=
  data <- data_of dev ;; ret (MEPA_RC_OK, tc_wakeup_fwd_mode (pd_tc10 data)).

(** The polarity bit of a pin; [None]: [return MEPA_RC_ERR_PARM]. *)
Definition polarity_bits (polarity bit reg_data : Z) : option Z :=
  if polarity =? MEPA_GPIO_MODE_ACTIVE_LOW then Some (reg_data .| bit)
  else if polarity =? MEPA_GPIO_MODE_ACTIVE_HIGH then Some (reg_data .& .~ bit)
  else None.
Definition com_ctl0_update (dev : Z) (change : Z -> option Z) (k : M Z) : M Z :=
  reading ret (phy_ext_bank_reg_rd dev LAN8770_PHY_BANK_MISC LAN8770_MISC_WKP_COM_CTL0_OFFSET 0) (fun reg_data =>
  match change reg_data with
  | None => ret MEPA_RC_ERR_PARM
  | Some reg_data =>
      RC (phy_ext_bank_reg_wr dev LAN8770_PHY_BANK_MISC LAN8770_MISC_WKP_COM_CTL0_OFFSET reg_data) k
  end).
Definition phy_tc10_set_wake_pin_polarity (dev pin polarity : Z) : M Z :=
  com_ctl0_update dev (fun reg_data =>
    if pin =? MEPA_TC10_WAKE_IN then polarity_bits polarity LAN8770_MISC_WKP_COM_CTL0_WK_IN_POL_ACTIVE_LOW reg_data
    else if pin =? MEPA_TC10_WAKE_OUT then
      polarity_bits polarity LAN8770_MISC_WKP_COM_CTL0_WK_OUT_POL_ACTIVE_LOW reg_data
    else None)
  (upd_tc10 dev (if pin =? MEPA_TC10_WAKE_IN then set_tc_wake_in_pol polarity else set_tc_wake_out_pol polarity) ;;;
   ret MEPA_RC_OK).
Definition phy_tc10_get_wake_pin_polarity (dev pin cur : Z) : M (Z * Z) :=
  data <- data_of dev ;;
  if pin =? MEPA_TC10_WAKE_IN then ret (MEPA_RC_OK, tc_wake_in_pol (pd_tc10 data))
  else if pin =? MEPA_TC10_WAKE_OUT then ret (MEPA_RC_OK, tc_wake_out_pol (pd_tc10 data))
  else ret (MEPA_RC_ERR_PARM, cur).

Definition wake_out_mode_bits (mode reg_data : Z) : option Z :=
  let set x := Some (reg_data .| LAN8770_MISC_WKP_COM_CTL0_WK_OUT_MODE_SET x) in
  if mode =? MEPA_GPIO_MODE_PUSH_PULL then set LAN8770_MISC_WKP_COM_CTL0_WK_OUT_MODE_PUSH_PULL
  else if mode =? MEPA_GPIO_MODE_OPEN_SOURCE then set LAN8770_MISC_WKP_COM_CTL0_WK_OUT_MODE_OPEN_SOURCE
  else if mode =? MEPA_GPIO_MODE_OPEN_DRAIN then set LAN8770_MISC_WKP_COM_CTL0_WK_OUT_MODE_OPEN_DRAIN
  else None.
Definition inh_mode_bits (mode reg_data : Z) : option Z :=
  if mode =? MEPA_GPIO_MODE_OPEN_SOURCE then Some (reg_data .& .~ LAN8770_MISC_WKP_COM_CTL0_INH_MODE_OPEN_DRAIN)
  else if mode =? MEPA_GPIO_MODE_OPEN_DRAIN then Some (reg_data .| LAN8770_MISC_WKP_COM_CTL0_INH_MODE_OPEN_DRAIN)
  else None.
Definition phy_tc10_set_pin_mode (dev pin mode : Z) : M Z :=
  com_ctl0_update dev (fun reg_data =>
    if pin =? MEPA_TC10_WAKE_OUT then wake_out_mode_bits mode reg_data
    else if pin =? MEPA_TC10_INH then inh_mode_bits mode reg_data
    else None)
  (upd_tc10 dev (if pin =? MEPA_TC10_INH then set_tc_inh_mode mode else set_tc_wake_out_mode mode) ;;;
   ret MEPA_RC_OK).
Definition phy_tc10_get_pin_mode (dev pin cur : Z) : M (Z * Z) :=
  data <- data_of dev ;;
  if pin =? MEPA_TC10_INH then ret (MEPA_RC_OK, tc_inh_mode (pd_tc10 data))
  else if pin =? MEPA_TC10_WAKE_OUT then ret (MEPA_RC_OK, tc_wake_out_mode (pd_tc10 data))
  else ret (MEPA_RC_ERR_PARM, cur).

Definition mdio_ctrl2_request (dev bit : Z) : M Z :=
  reading ret (phy_direct_reg_rd dev LAN8770_MDIO_CTRL2_OFFSET 0) (fun reg_data =>
  phy_direct_reg_wr dev LAN8770_MDIO_CTRL2_OFFSET (reg_data .| bit)).
Definition phy_tc10_send_sleep_request (dev req : Z) : M Z :=
  if req =? MEPA_TC10_LPS then mdio_ctrl2_request dev LAN8770_MDIO_CTRL2_SLEEP_REQ else ret MEPA_RC_ERR_PARM.
Definition phy_tc10_send_wake_request (dev : Z) : M Z := mdio_ctrl2_request dev LAN8770_MDIO_CTRL2_WAKE_REQ.

(** The [switch] on the state field. *)
Definition tc10_state_of (field : Z) : option Z :=
  if field =? LAN8770_MISC_WKP_DBG_STS_TC10_STATE_START then Some MEPA_TC10_START
  else if field =? LAN8770_MISC_WKP_DBG_STS_TC10_STATE_NORMAL then Some MEPA_TC10_NORMAL
  else if field =? LAN8770_MISC_WKP_DBG_STS_TC10_STATE_SLEEP_ACK then Some MEPA_TC10_SLEEP_ACK
  else if field =? LAN8770_MISC_WKP_DBG_STS_TC10_STATE_SLEEP_REQ then Some MEPA_TC10_SLEEP_REQ
  else if field =? LAN8770_MISC_WKP_DBG_STS_TC10_STATE_SLEEP_FAIL then Some MEPA_TC10_SLEEP_FAIL
  else if field =? LAN8770_MISC_WKP_DBG_STS_TC10_STATE_SLEEP_SILENT then Some MEPA_TC10_SLEEP_SILENT
  else if field =? LAN8770_MISC_WKP_DBG_STS_TC10_STATE_SLEEP then Some MEPA_TC10_SLEEP
  else None.
Definition phy_tc10_get_state (dev cur : Z) : M (Z * Z) :=
  reading (fun rc => ret (rc, cur))
    (phy_ext_bank_reg_rd dev LAN8770_PHY_BANK_MISC LAN8770_MISC_WKP_DBG_STS_OFFSET 0) (fun reg_data =>
  match tc10_state_of (LAN8770_MISC_WKP_DBG_STS_TC10_STATE_GET reg_data) with
  | Some state => ret (MEPA_RC_OK, state)
  | None => ret (MEPA_RC_INV_STATE, cur)
  end).
Definition phy_tc10_set_config (dev : Z) (cfg : phy_tc10_data_t) : M Z :=
  RC (phy_tc10_set_sleep_support dev (tc_sleep_enable cfg))
  (RC (phy_tc10_set_wakeup_support dev (tc_wakeup_mode cfg))
  (RC (phy_tc10_set_wakeup_fwd_support dev (tc_wakeup_fwd_mode cfg))
  (RC (phy_tc10_set_wake_pin_polarity dev MEPA_TC10_WAKE_IN (tc_wake_in_pol cfg))
  (RC (phy_tc10_set_wake_pin_polarity dev MEPA_TC10_WAKE_OUT (tc_wake_out_pol cfg))
  (RC (phy_tc10_set_pin_mode dev MEPA_TC10_WAKE_OUT (tc_wake_out_mode cfg))
  (phy_tc10_set_pin_mode dev MEPA_TC10_INH (tc_inh_mode cfg))))))).
End Lan8770.
