(* ===== verification/Lan8770Diag.v ===== *)
(** * Lan8770Diag: cable diagnosis, signal quality and register dump of the LAN8770

    [phy_cable_diag_start], [phy_cable_diag_get], [phy_sqi_read] and
    [phy_reg_dump] of [mepa/microchip/lan8770/src/lan8770.c].

    The distance of a cable fault is computed in floating point: [double] is
    [SpecFloat] with 53 bits and [float] with 24, so the model rounds as the
    code does.  The averages of [phy_sqi_read] are quotients of sums below
    [2^24] by 120 and 200, which are compared with whole numbers below 300: a
    [float] represents the sums exactly, and rounding their quotient cannot
    move it across such a number, so the model compares the sums.

    The timer of the diagnosis is the operating system's: [unexpired] is the
    number of times it says that it has not expired yet. *)

From Stdlib Require Import ZArith Lia List Bool String.
From Stdlib Require Import Floats.SpecFloat.
From stdpp Require Import base gmap strings list.
From S2P Require Import Prelude Machine Enums Lan8814Types PhyLib Lan8770Regs Lan8770.

Definition MESA_VERIPHY_STATUS_OK : Z := 0.
Definition MESA_VERIPHY_STATUS_OPEN : Z := 1.
Definition MESA_VERIPHY_STATUS_SHORT : Z := 2.
Definition MESA_VERIPHY_STATUS_ABNORM : Z := 4.

(** ** The floating-point numbers of C *)

(** [double] of a whole number, product of two, and rounding to [float]. *)
Definition double_of (n : Z) : spec_float := binary_normalize 53 1024 n 0 false.
Definition double_mul (x y : spec_float) : spec_float := SFmul 53 1024 x y.
Definition to_float (x : spec_float) : spec_float :=
  match x with
  | S754_finite s m e => binary_normalize 24 128 (cond_Zopp s (Zpos m)) e s
  | _ => x
  end.
Definition float_of (n : Z) : spec_float := binary_normalize 24 128 n 0 false.
(** [(uint8_t)x]: the value without its fraction; [None] where it is undefined. *)
Definition uint8_of (x : spec_float) : option Z :=
  let whole := match x with
    | S754_zero _ => Some 0
    | S754_finite s m e =>
        let w := if e <? 0 then Zpos m / 2 ^ (- e) else Zpos m * 2 ^ e in Some (if s then - w else w)
    | _ => None
    end in
  match whole with
  | Some w => if (0 <=? w) && (w <? 256) then Some w else None
  | None => None
  end.

(** The constants 0.6811, 2.9979, 156.2499, 0.0001 and 0.5 as [double]. *)
Definition c_0_6811 : spec_float := S754_finite false 6134803412404090 (-53).
Definition c_2_9979 : spec_float := S754_finite false 6750670661447005 (-51).
Definition c_156_2499 : spec_float := S754_finite false 5497554620442791 (-45).
Definition c_0_0001 : spec_float := S754_finite false 7378697629483821 (-66).
Definition c_0_5 : spec_float := S754_finite false 4503599627370496 (-53).

Definition wavePropagationVelocity : spec_float := to_float (double_mul c_0_6811 c_2_9979).
(** [n * 156.2499 * 0.0001 * wavePropagationVelocity * 0.5] *)
Definition distance_of (n : Z) : spec_float :=
  to_float (double_mul (double_mul (double_mul (double_mul (double_of n) c_156_2499) c_0_0001)
    wavePropagationVelocity) c_0_5).

(** ** The result of the cable diagnosis *)
Definition noiseMargin : Z := 20.
Definition timeMargin : Z := 89.
Definition maxDistance : Z := 35.
Definition jitterVariation : Z := 30.
Definition minTimeDifference : Z := 96.
Definition maxTimeDifference : Z := 96 + timeMargin.
Definition posPeakInPhasesHybrid : Z := 0.

(** [(PeakCycle * 96) + PeakPhase] of a peak time. *)
Definition peak_in_phases (peakTime : Z) : Z :=
  u16 (((peakTime .>> 7) .& 0x7F) * 96 + (peakTime .& 0x7F)).
(** "process values": [detect] and [distance]. *)
Definition classify_peaks (posPeakInPhases negPeakInPhases : Z) : Z * spec_float :=
  if (posPeakInPhases >? negPeakInPhases)
     && (posPeakInPhases - negPeakInPhases >=? minTimeDifference)
     && (posPeakInPhases - negPeakInPhases <? maxTimeDifference)
     && (posPeakInPhasesHybrid <? posPeakInPhases)
     && (posPeakInPhasesHybrid <? negPeakInPhases + jitterVariation)
  then (2, distance_of (negPeakInPhases - posPeakInPhasesHybrid))
  else if (negPeakInPhases >? posPeakInPhases)
     && (negPeakInPhases - posPeakInPhases >=? minTimeDifference)
     && (negPeakInPhases - posPeakInPhases <? maxTimeDifference)
     && (posPeakInPhasesHybrid <? negPeakInPhases)
     && (posPeakInPhasesHybrid <? posPeakInPhases + jitterVariation)
  then (1, distance_of (posPeakInPhases - posPeakInPhasesHybrid))
  else (1, float_of (-1)).
(** [detect] and [distance] after "if (bFault == FALSE)". *)
Definition cable_fault (posPeak negPeak posPeakTime negPeakTime : Z) : Z * spec_float :=
  let '(detect, distance) := classify_peaks (peak_in_phases posPeakTime) (peak_in_phases negPeakTime) in
  let bFault := (posPeak >? noiseMargin) && (negPeak >? noiseMargin)
                && SFltb distance (float_of maxDistance) && ((detect =? 1) || (detect =? 2)) in
  if bFault then (detect, distance) else (0, float_of 0).
Definition cable_status (detect : Z) : Z :=
  if detect =? 0 then MESA_VERIPHY_STATUS_OK
  else if detect =? 1 then MESA_VERIPHY_STATUS_OPEN
  else if detect =? 2 then MESA_VERIPHY_STATUS_SHORT
  else MESA_VERIPHY_STATUS_ABNORM.
Definition set_cd_status0 (v : Z) (res : mepa_cable_diag_result_t) : mepa_cable_diag_result_t :=
  set_cd_status (list_set (cd_status res) 0 v) res.
Definition set_cd_length0 (v : Z) (res : mepa_cable_diag_result_t) : mepa_cable_diag_result_t :=
  set_cd_length (list_set (cd_length res) 0 v) res.

Definition cable_steps : list step :=
  [ BankWr LAN8770_PHY_BANK_DSP LAN8770_DSP_CABLE_DIAG_MIN_WAIT_CFG 0;
    BankWr LAN8770_PHY_BANK_DSP LAN8770_DSP_CABLE_DIAG_MAX_WAIT_CFG 10;
    BankWr LAN8770_PHY_BANK_DSP LAN8770_DSP_CABLE_DIAG_CYC_WAIT_CFG 90;
    BankWr LAN8770_PHY_BANK_DSP LAN8770_DSP_CABLE_DIAG_PGA_THR 60;
    BankWr LAN8770_PHY_BANK_DSP LAN8770_DSP_MAX_PGA_GAIN 31;
    BankMod LAN8770_PHY_BANK_DSP LAN8770_DSP_CALIB_CFG 0x0000 0x0038;
    Nsleep 50000;
    BankWr LAN8770_PHY_BANK_DSP LAN8770_DSP_CABLE_DIAG_MAX_WAIT_CFG 70;
    BankWr LAN8770_PHY_BANK_DSP LAN8770_DSP_CABLE_DIAG_STS_CTL 0x01 ].

(** ** Signal quality: sorting and averaging the readings *)

(** The two arrays and the exchange of their elements [i] and [j]. *)
Definition tables : Type := list Z * list Z.
Definition sqi_swap (i : nat) (t : tables) (j : nat) : tables :=
  let '(rawTable, linkTable) := t in
  if rawTable !!! j >? rawTable !!! i then
    (<[j := rawTable !!! i]> (<[i := rawTable !!! j]> rawTable),
     <[j := linkTable !!! i]> (<[i := linkTable !!! j]> linkTable))
  else t.
(** "sort raw sqi values in ascending order", for arrays of [n] elements. *)
Definition sqi_sort (n : nat) (t : tables) : tables :=
  fold_left (fun t i => fold_left (sqi_swap i) (seq 0 n) t) (seq 0 n) t.
(** "sum middle 120 values" *)
Definition sqi_sums (t : tables) : Z * Z :=
  fold_left (fun '(sqi, link) i =>
    ((if ((40 <=? i) && (i <? 160))%nat then sqi + fst t !!! i else sqi), link + snd t !!! i))
    (seq 0 200) (0, 0).
(** The number of the average [sum / 120]. *)
Definition sqi_num (sum : Z) : Z :=
  let ge limit := limit * 120 <=? sum in
  let lt limit := sum <? limit * 120 in
  if ge 299 then 0
  else if lt 299 && ge 237 then 1
  else if lt 237 && ge 189 then 2
  else if lt 189 && ge 150 then 3
  else if lt 150 && ge 119 then 4
  else if lt 119 && ge 94 then 5
  else if lt 94 && ge 75 then 6
  else if lt 75 && ge 0 then 7
  else 8.
(** From the filled arrays to [sqiNum]; "linkAvg < 1". *)
Definition sqi_result (t : tables) : Z :=
  let '(sqi, link) := sqi_sums (sqi_sort 200 t) in
  if link <? 1 * 200 then 0 else sqi_num sqi.

(** The registers of the dump. *)
Definition dump_smi : list (Z * Z) :=
  [ (0, 0); (0, 1); (0, 2); (0, 3); (0, 9); (0, 10); (0, 15); (0, 16); (0, 17); (0, 18); (0, 19); (0, 20); (0, 21);
    (0, 22); (0, 23); (0, 24); (0, 25); (0, 26); (0, 27); (0, 28); (0, 29); (0, 30); (0, 31) ].
Definition dump_misc : list (Z * Z) :=
  [ (1, 0x10); (1, 0x11); (1, 0x15); (1, 0x17); (1, 0x1A); (1, 0x20); (1, 0x21); (1, 0x24) ].
Definition dump_pcs : list (Z * Z) := [ (2, 0x20) ].

Section Lan8770Diag.
Context {B : Type} {CO : Callout B}.
Variable fuel : nat.
Local Abbreviation M := (M B phy_data_t).
Local Abbreviation RC := (or_return ret).

(** ** Cable diagnosis *)
Definition phy_cable_diag_start (dev mode : Z) : M Z :=
  data <- data_of dev ;;
  if negb (tb (pd_init_done data)) then ret MEPA_RC_INV_STATE else
  run_steps fuel dev
    [ DirMod LAN8770_BASIC_CONTROL_OFFSET LAN8770_BASIC_CTRL_SW_RESET LAN8770_BASIC_CTRL_SW_RESET;
      Nsleep 100;
      BankMod LAN8770_PHY_BANK_SMI LAN8770_POWER_DOWN_CTRL_OFFSET
        LAN8770_POWER_DOWN_CTRL_HW_INIT_EN LAN8770_POWER_DOWN_CTRL_HW_INIT_EN ]
  (reading ret (phy_direct_reg_rd dev LAN8770_BASIC_CONTROL_OFFSET 0) (fun tempReg =>
  if negb (tempReg =? (LAN8770_BASIC_CTRL_DUPLEX_MODE .| LAN8770_BASIC_CTRL_SPEED_SEL_LSB)) then ret MEPA_RC_ERROR else
  reading ret (phy_direct_reg_rd dev LAN8770_MASTER_SLAVE_STATUS_OFFSET 0) (fun tempReg =>
  run_steps fuel dev
    (if negb ((tempReg .& LAN8770_MASTER_SLAVE_STATUS_CFG_RESOL) =? LAN8770_MASTER_SLAVE_STATUS_CFG_RESOL)
     then [ BankMod LAN8770_PHY_BANK_AFE LAN8770_AFE_AFE_PORT_CFG4_OFFSET 0x0005 0x0007;
            BankMod LAN8770_PHY_BANK_SMI LAN8770_POWER_DOWN_CTRL_OFFSET 0x0008 0x0008 ]
     else [ BankMod LAN8770_PHY_BANK_SMI LAN8770_MDIO_CTRL2_OFFSET 0x0 LAN8770_MDIO_CTRL2_EN_DET_MST_MODE ])
  (run_steps fuel dev cable_steps
  (upd dev (set_pd_cdiags_start TRUE) ;;; ret MEPA_RC_OK))))).

(** The loop that waits for the diagnosis: the code and [diagTimeout]. *)
Fixpoint cable_wait (unexpired : nat) (dev : Z) : M (Z * Z) :=
  let diagTimeout := match unexpired with O => TRUE | S _ => FALSE end in
  reading (fun rc => ret (rc, diagTimeout))
    (phy_ext_bank_reg_rd fuel dev LAN8770_PHY_BANK_DSP LAN8770_DSP_CABLE_DIAG_STS_CTL 0) (fun tmp =>
  if (tmp .& 2) =? 2 then ret (MEPA_RC_OK, diagTimeout) else
  match unexpired with
  | O => ret (MEPA_RC_OK, diagTimeout)
  | S unexpired => cable_wait unexpired dev
  end).

(** "read non-hybrid results" and what follows. *)
Definition cable_results (dev : Z) (res : mepa_cable_diag_result_t) : M (Z * mepa_cable_diag_result_t) :=
  let error rc := ret (rc, res) in
  let dsp_rd offset := phy_ext_bank_reg_rd fuel dev LAN8770_PHY_BANK_DSP offset 0 in
  reading error (dsp_rd LAN8770_DSP_CABLE_DIAG_GAIN_IDX) (fun gainIdx =>
  reading error (dsp_rd LAN8770_DSP_CABLE_DIAG_PEAK) (fun posPeak =>
  reading error (dsp_rd LAN8770_DSP_CABLE_DIAG_NEG_PEAK) (fun negPeak =>
  reading error (dsp_rd LAN8770_DSP_CABLE_DIAG_PEAK_TIME) (fun posPeakTime =>
  reading error (dsp_rd LAN8770_DSP_CABLE_DIAG_NEG_PEAK_TIME) (fun negPeakTime =>
  let '(detect, distance) := cable_fault posPeak negPeak posPeakTime negPeakTime in
  match uint8_of distance with
  | None => undefined
  | Some length =>
      upd dev (set_pd_cdiags_start FALSE) ;;;
      ret (MEPA_RC_OK, set_cd_status0 (cable_status detect) (set_cd_length0 (length .& 0xFF) res))
  end))))).

Definition phy_cable_diag_get (unexpired : nat) (dev : Z) (res : mepa_cable_diag_result_t)
    : M (Z * mepa_cable_diag_result_t) :=
  data <- data_of dev ;;
  if negb (tb (pd_init_done data)) then ret (MEPA_RC_INV_STATE, res) else
  let res := set_cd_link (pd_link_status data) res in
  if pd_link_status data =? LAN8770_LINKUP then
    let res := set_cd_status0 MESA_VERIPHY_STATUS_OK (set_cd_length0 0 res) in
    rc <- phy_read_mod_write_register fuel dev LAN8770_PHY_BANK_DSP LAN8770_DSP_CABLE_DIAG_STS_CTL FALSE FALSE ;;
    ret (rc, res)
  else if tb (pd_cdiags_start data) then
    let res := set_cd_status0 MESA_VERIPHY_STATUS_ABNORM res in
    let error rc := ret (rc, res) in
    reading error (cable_wait unexpired dev) (fun diagTimeout =>
    if diagTimeout =? TRUE then error MEPA_RC_INCOMPLETE else
    or_return error (phy_ext_bank_reg_wr fuel dev LAN8770_PHY_BANK_DSP LAN8770_DSP_CABLE_DIAG_STS_CTL 0x0)
    (cable_results dev res))
  else ret (MEPA_RC_INV_STATE, res).

(** ** Signal quality *)
Definition sqi_poke (dev : Z) : M Z :=
  phy_read_mod_write_register fuel dev LAN8770_PHY_BANK_DSP LAN8770_DSP_COEF_RW_CTL_CFG_OFFSET
    LAN8770_DSP_COEF_RW_CTL_CFG_POKE_DIS LAN8770_DSP_COEF_RW_CTL_CFG_POKE_DIS.
(** "get 200 raw readings": [n] of them, from index [i] on. *)
Fixpoint sqi_readings (dev : Z) (n i : nat) (t : tables) (temp : Z) (status : mepa_status_t)
    (fail : Z -> M (Z * Z)) (k : tables -> M (Z * Z)) : M (Z * Z) :=
  match n with
  | O => k t
  | S n =>
      or_return fail (sqi_poke dev)
      (reading fail (phy_ext_bank_reg_rd fuel dev LAN8770_PHY_BANK_DSP LAN8770_DSP_SQI_SQU_MEAN_MSB_OFFSET temp)
        (fun temp =>
      let rawTable := <[i := temp]> (fst t) in
      let* (rc, status) <- phy_get_link_status_enhanced fuel dev status ;;
      if negb (rc =? MEPA_RC_OK) then fail rc else
      let linkTable := <[i := st_link status]> (snd t) in
      sqi_readings dev n (S i) (rawTable, linkTable) temp status fail k))
  end.

(** [status] is uninitialised; only what the link status stores is read. *)
Definition phy_sqi_read (dev cur : Z) : M (Z * Z) :=
  data <- data_of dev ;;
  if negb (tb (pd_init_done data)) then ret (MEPA_RC_INV_STATE, cur) else
  let error rc := ret (rc, 0) in
  let* (rc, status) <- phy_get_link_status_enhanced fuel dev mepa_status_t_0 ;;
  if negb (rc =? MEPA_RC_OK) then error rc else
  if st_link status =? LAN8770_LINKUP then
    or_return error (phy_ext_bank_reg_wr fuel dev LAN8770_PHY_BANK_DSP 0x04 0x16D6)
    (or_return error (phy_ext_bank_reg_wr fuel dev LAN8770_PHY_BANK_DSP 0x2E 0x9572)
    (reading error (phy_ext_bank_reg_rd fuel dev LAN8770_PHY_BANK_DSP 0x2E (uninit16 "temp")) (fun temp =>
    if negb (temp =? 0x9572) then error MEPA_RC_INCOMPLETE else
    or_return error (sqi_poke dev)
    (nsleep 50000 ;;;
     sqi_readings dev 200 0 (repeat 0 200, repeat 0x0101 200) temp status error (fun t =>
     ret (MEPA_RC_OK, sqi_result t))))))
  else ret (MEPA_RC_OK, 0).

(** ** The register dump *)

(** A call of the print callback, with the numbers it is given; a heading has none. *)
Definition phy_dbg_pr (dev : Z) (reg : Z * Z) : M unit :=
  data <- data_of dev ;;
  let* (rc, value) <- phy_ext_bank_reg_rd fuel dev (fst reg) (snd reg) 0 ;;
  if rc =? MEPA_RC_OK then log (EvCall (pd_port_no data) [fst reg; snd reg; value]) else ret tt.
Definition dump_heading (dev : Z) : M unit := log (EvCall 0 []).
Definition phy_reg_dump (dev : Z) : M Z :=
  dump_heading dev ;;; dump_heading dev ;;; seq_ (phy_dbg_pr dev) dump_smi ;;;
  dump_heading dev ;;; seq_ (phy_dbg_pr dev) dump_misc ;;;
  dump_heading dev ;;; seq_ (phy_dbg_pr dev) dump_pcs ;;;
  dump_heading dev ;;; dump_heading dev ;;;
  ret MEPA_RC_OK.
End Lan8770Diag.
