(* ===== verification/Lan8770Api.v ===== *)
(** * Lan8770Api: the entry points of the LAN8770 driver

    The functions of [lan8770.c] and [lan8770_tc10.c] that the driver table
    points to, with the lock they hold, the pool of nine devices that
    [lan8770_probe] and [lan8770_delete] manage, and the table. *)

From Stdlib Require Import ZArith Lia List Bool String.
From stdpp Require Import base gmap strings list.
From S2P Require Import Prelude Machine MepaCore MepaApi Enums Lan8814Types PhyLib Lan8770Regs Lan8770 Lan8770Diag.

Section Lan8770Api.
Context {B : Type} {CO : Callout B}.
Variable fuel : nat.
Local Abbreviation M := (M B phy_data_t).

(** [MEPA_ENTER(dev); r = m; MEPA_EXIT(dev); return r;] *)
Definition locked {A} (m : M A) : M A := mepa_enter ;;; r <- m ;; mepa_exit ;;; ret r.

(** ** The pool of devices *)

(** What [lan8770_probe] stores in the private data of a slot; the rest is what
    was there. *)
Definition probe_data (numeric_handle : Z) (d : phy_data_t) : phy_data_t :=
  Mk_phy_data_t FALSE (pd_phy_aneg_dis d) (pd_link_status d) numeric_handle
    MESA_PORT_INTERFACE_INTERNAL MESA_PHY_MEDIA_IF_T1_100FX
    (set_conf_mac_if_aneg_ena FALSE (set_conf_fdx TRUE (set_conf_speed MESA_SPEED_100M
      (set_conf_admin_enable TRUE (set_conf_man_neg MEPA_MANUAL_NEG_REF (pd_conf d))))))
    0 (pd_loopback d) (pd_dev d) TRUE (pd_cdiags_start d)
    (Mk_phy_tc10_data_t TRUE MEPA_TC10_WAKEUP_WUP_WAKEIN_ENABLE MEPA_TC10_WAKEUP_FWD_WUP_WAKEOUT_ENABLE
       MEPA_GPIO_MODE_ACTIVE_HIGH MEPA_GPIO_MODE_ACTIVE_HIGH MEPA_GPIO_MODE_PUSH_PULL MEPA_GPIO_MODE_OPEN_SOURCE).
(** The loop, with [n] slots left from [pidx] on. *)
Fixpoint probe_slots (n : nat) (pidx numeric_handle : Z) : M (option Z) :=
  match n with
  | O => ret None
  | S n =>
      data <- data_of pidx ;;
      if tb (pd_ctx_status data) then probe_slots n (pidx + 1) numeric_handle
      else upd pidx (probe_data numeric_handle) ;;; ret (Some pidx)
  end.
Definition lan8770_probe (numeric_handle : Z) : M (option Z) :=
  probe_slots (Z.to_nat MAX_LAN8770_PHY) 0 numeric_handle.
Definition lan8770_delete (dev : Z) : M Z :=
  locked (upd dev (fun _ => phy_data_0) ;;; ret MEPA_RC_OK).

(** ** Configuration and status *)
Definition lan8770_reset (dev : Z) : M Z :=
  locked (
    data <- data_of dev ;;
    or_return ret (phy_init_conf fuel dev (conf_man_neg (pd_conf data) =? MEPA_MANUAL_NEG_REF))
    (upd dev (set_pd_init_done TRUE) ;;;
     or_return ret (phy_get_device_info dev)
     (data <- data_of dev ;;
      or_return ret (phy_conf_set fuel dev (pd_conf data))
      (data <- data_of dev ;; phy_tc10_set_config fuel dev (pd_tc10 data))))).
Definition lan8770_poll (dev : Z) (status : mepa_status_t) : M (Z * mepa_status_t) :=
  locked (phy_get_link_status_enhanced fuel dev status).
Definition lan8770_conf_set (dev : Z) (config : mepa_conf_t) : M Z := locked (phy_conf_set fuel dev config).
Definition lan8770_conf_get (dev : Z) : M (Z * mepa_conf_t) :=
  locked (data <- data_of dev ;; ret (MEPA_RC_OK, pd_conf data)).
Definition lan8770_media_get (dev : Z) : M (Z * Z) :=
  locked (data <- data_of dev ;; ret (MEPA_RC_OK, pd_media_intf data)).
Definition lan8770_cable_diag_start (dev mode : Z) : M Z := locked (phy_cable_diag_start fuel dev mode).
Definition lan8770_cable_diag_get (unexpired : nat) (dev : Z) (res : mepa_cable_diag_result_t)
    : M (Z * mepa_cable_diag_result_t) := locked (phy_cable_diag_get fuel unexpired dev res).

(** ** Registers *)
Definition lan8770_direct_reg_read (dev addr cur : Z) : M (Z * Z) :=
  locked (phy_direct_reg_rd dev (LAN8770_PHY_REG_ADDR addr) cur).
Definition lan8770_direct_reg_write (dev addr value : Z) : M Z :=
  locked (phy_direct_reg_wr dev (LAN8770_PHY_REG_ADDR addr) value).
Definition lan8770_ext_bank_reg_read (dev addr cur : Z) : M (Z * Z) :=
  locked (phy_ext_bank_reg_rd fuel dev (LAN8770_PHY_EXT_BANK addr) (LAN8770_PHY_REG_ADDR addr) cur).
Definition lan8770_ext_bank_reg_write (dev addr value : Z) : M Z :=
  locked (phy_ext_bank_reg_wr fuel dev (LAN8770_PHY_EXT_BANK addr) (LAN8770_PHY_REG_ADDR addr) value).

(** ** Events *)

(** The loop that collects the bits of [event] in [ev_mask]. *)
Definition event_mask (event : Z) : Z :=
  fold_left (fun ev_mask i => if tb (event .& LAN8770_BIT (Z.of_nat i)) then u16 (ev_mask .| LAN8770_BIT (Z.of_nat i))
                              else ev_mask) (seq 0 (Z.to_nat INTR_BIT_LEN)) 0.
Definition lan8770_event_enable_set (dev event enable : Z) : M Z :=
  upd dev (fun d => set_pd_events (if tb enable then pd_events d .| event else pd_events d .& u32 (.~ event)) d) ;;;
  locked (phy_direct_reg_wr dev LAN8770_INTR_MASK_OFFSET (event_mask event)).
Definition lan8770_event_enable_get (dev : Z) : M (Z * Z) :=
  locked (data <- data_of dev ;; ret (MEPA_RC_OK, pd_events data)).
Definition lan8770_event_status_poll (dev : Z) : M (Z * Z) :=
  locked (phy_direct_reg_rd dev LAN8770_INTR_SRC_OFFSET 0).

(** ** Loopbacks *)

(** One loopback: its bit is set when it is asked for and cleared when it was
    on before, by reading the register with [rd] and modifying it with the
    value as its own mask. *)
Definition loopback_switch (dev want had : Z) (rd : M (Z * Z)) (offset bit : Z) (k : M Z) : M Z :=
  let change f := reading ret rd (fun val =>
    let val := f val in
    or_return ret (phy_read_mod_write_register fuel dev LAN8770_PHY_BANK_SMI offset val val) k) in
  if want =? TRUE then change (fun val => val .| bit)
  else if had =? TRUE then change (fun val => val .& u16 (.~ bit))
  else k.
Definition lan8770_loopback_set (dev : Z) (loopback : mepa_loopback_t) : M Z :=
  locked (
    data <- data_of dev ;;
    loopback_switch dev (lb_near_end_ena loopback) (lb_near_end_ena (pd_loopback data))
      (phy_direct_reg_rd dev LAN8770_BASIC_CONTROL_OFFSET 0) LAN8770_BASIC_CONTROL_OFFSET LAN8770_BASIC_CTRL_PCS_LOOPBACK
    (loopback_switch dev (lb_far_end_ena loopback) (lb_far_end_ena (pd_loopback data))
      (phy_ext_bank_reg_rd fuel dev LAN8770_PHY_BANK_SMI LAN8770_LOOPBACK_CTRL_OFFSET 0)
      LAN8770_LOOPBACK_CTRL_OFFSET LAN8770_LPBK_CTRL_FAR
    (loopback_switch dev (lb_connector_ena loopback) (lb_connector_ena (pd_loopback data))
      (phy_ext_bank_reg_rd fuel dev LAN8770_PHY_BANK_SMI LAN8770_LOOPBACK_CTRL_OFFSET 0)
      LAN8770_LOOPBACK_CTRL_OFFSET LAN8770_LPBK_CTRL_PMA
    (upd dev (set_pd_loopback loopback) ;;; ret MEPA_RC_OK)))).
Definition lan8770_loopback_get (dev : Z) : M (Z * mepa_loopback_t) :=
  locked (data <- data_of dev ;; ret (MEPA_RC_OK, pd_loopback data)).

(** ** LED, information, isolation, signal quality *)
Definition lan8770_gpio_mode_set (dev : Z) (gpio_conf : option mepa_gpio_conf_t) : M Z :=
  locked (
    match gpio_conf with
    | Some gpio_conf =>
        if (gpio_mode gpio_conf >=? MEPA_GPIO_MODE_LED_LINK_ACTIVITY)
           && (gpio_mode gpio_conf <=? MEPA_GPIO_MODE_LED_DISABLE_EXTENDED)
        then phy_led_mode_set fuel dev (gpio_mode gpio_conf) else ret MEPA_RC_NOT_IMPLEMENTED
    | None => ret MEPA_RC_NOT_IMPLEMENTED
    end).

Definition lan8770_capability_priv (data : phy_data_t) (capability : Z) : Z :=
  if capability =? MEPA_CAP_SPEED_1G then cb (conf_speed (pd_conf data) =? MESA_SPEED_100M)
  else if capability =? MEPA_CAP_TS_NONE then cb (negb (conf_speed (pd_conf data) =? MESA_SPEED_100M))
  else 0.
Definition lan8770_capability (dev capability : Z) : M Z :=
  locked (data <- data_of dev ;; ret (lan8770_capability_priv data capability)).
(** Part number, revision and capabilities; [None] when they are left alone. *)
Definition lan8770_info_get (dev : Z) : M (Z * option (Z * Z * Z)) :=
  data <- data_of dev ;;
  if pd_init_done data =? 1 then
    locked (
      data <- data_of dev ;;
      let cap := 0 in
      let cap := if tb (lan8770_capability_priv data MEPA_CAP_SPEED_1G) then cap .| MEPA_CAP_SPEED_MASK_1G else cap in
      let cap := if tb (lan8770_capability_priv data MEPA_CAP_TS_NONE) then cap .| MEPA_CAP_TS_MASK_NONE else cap in
      ret (MEPA_RC_OK, Some (dev_model (pd_dev data), dev_rev (pd_dev data), cap)))
  else ret (MEPA_RC_ERROR, None).
Definition lan8770_isolate_mode_set (dev val : Z) : M Z :=
  locked (
    reading ret (phy_direct_reg_rd dev LAN8770_BASIC_CONTROL_OFFSET 0) (fun reg_val =>
    let reg_val := if val =? TRUE then reg_val .| LAN8770_BASIC_CTRL_ISOLATE
                   else reg_val .& .~ LAN8770_BASIC_CTRL_ISOLATE in
    phy_direct_reg_wr dev LAN8770_BASIC_CONTROL_OFFSET reg_val)).
(** [pr] is whether there is a print callback; [group] the group that is asked for. *)
Definition MEPA_DEBUG_GROUP_ALL : Z := 0.
Definition MEPA_DEBUG_GROUP_PHY : Z := 1.
Definition lan8770_debug_info (dev : Z) (pr : bool) (group : Z) : M Z :=
  if pr then
    if (group =? MEPA_DEBUG_GROUP_ALL) || (group =? MEPA_DEBUG_GROUP_PHY) then locked (phy_reg_dump fuel dev)
    else ret MEPA_RC_OK
  else ret MEPA_RC_ERROR.
Definition lan8770_sqi_read (dev cur : Z) : M (Z * Z) := locked (phy_sqi_read fuel dev cur).

(** ** TC10 ([lan8770_tc10.c]) *)
Definition lan8770_tc10_set_sleep_support (dev enable : Z) : M Z := locked (phy_tc10_set_sleep_support fuel dev enable).
Definition lan8770_tc10_get_sleep_support (dev : Z) : M (Z * Z) := locked (phy_tc10_get_sleep_support dev).
Definition lan8770_tc10_set_wakeup_support (dev mode : Z) : M Z := locked (phy_tc10_set_wakeup_support fuel dev mode).
Definition lan8770_tc10_get_wakeup_support (dev : Z) : M (Z * Z) := locked (phy_tc10_get_wakeup_support dev).
Definition lan8770_tc10_set_wakeup_fwd_support (dev mode : Z) : M Z :=
  locked (phy_tc10_set_wakeup_fwd_support fuel dev mode).
Definition lan8770_tc10_get_wakeup_fwd_support (dev : Z) : M (Z * Z) := locked (phy_tc10_get_wakeup_fwd_support dev).
Definition lan8770_tc10_set_wake_pin_polarity (dev pin polarity : Z) : M Z :=
  locked (phy_tc10_set_wake_pin_polarity fuel dev pin polarity).
Definition lan8770_tc10_get_wake_pin_polarity (dev pin cur : Z) : M (Z * Z) :=
  locked (phy_tc10_get_wake_pin_polarity dev pin cur).
Definition lan8770_tc10_set_pin_mode (dev pin mode : Z) : M Z := locked (phy_tc10_set_pin_mode fuel dev pin mode).
Definition lan8770_tc10_get_pin_mode (dev pin cur : Z) : M (Z * Z) := locked (phy_tc10_get_pin_mode dev pin cur).
Definition lan8770_tc10_send_sleep_request (dev req : Z) : M Z := locked (phy_tc10_send_sleep_request dev req).
(** The code, [*state] and [*indication]. *)
Definition lan8770_tc10_get_state (dev cur : Z) : M (Z * Z * Z) :=
  locked (let* (rc, state) <- phy_tc10_get_state fuel dev cur ;; ret (rc, state, 0)).
Definition lan8770_tc10_send_wake_request (dev : Z) : M Z := locked (phy_tc10_send_wake_request dev).
End Lan8770Api.

(** ** The driver table *)
#[local] Open Scope string_scope.
Definition lan8770_slots : list (string * string) :=
  [ ("mepa_driver_delete", "lan8770_delete");
    ("mepa_driver_reset", "lan8770_reset");
    ("mepa_driver_poll", "lan8770_poll");
    ("mepa_driver_conf_set", "lan8770_conf_set");
    ("mepa_driver_conf_get", "lan8770_conf_get");
    ("mepa_driver_media_get", "lan8770_media_get");
    ("mepa_driver_cable_diag_start", "lan8770_cable_diag_start");
    ("mepa_driver_cable_diag_get", "lan8770_cable_diag_get");
    ("mepa_driver_probe", "lan8770_probe");
    ("mepa_driver_clause22_read", "lan8770_direct_reg_read");
    ("mepa_driver_clause22_write", "lan8770_direct_reg_write");
    ("mepa_driver_clause45_read", "lan8770_ext_bank_reg_read");
    ("mepa_driver_clause45_write", "lan8770_ext_bank_reg_write");
    ("mepa_driver_event_enable_set", "lan8770_event_enable_set");
    ("mepa_driver_event_enable_get", "lan8770_event_enable_get");
    ("mepa_driver_event_poll", "lan8770_event_status_poll");
    ("mepa_driver_loopback_set", "lan8770_loopback_set");
    ("mepa_driver_loopback_get", "lan8770_loopback_get");
    ("mepa_driver_gpio_mode_set", "lan8770_gpio_mode_set");
    ("mepa_driver_phy_info_get", "lan8770_info_get");
    ("mepa_driver_isolate_mode_conf", "lan8770_isolate_mode_set");
    ("mepa_debug_info_dump", "lan8770_debug_info");
    ("mepa_driver_sqi_read", "lan8770_sqi_read");
    ("mepa_capability", "lan8770_capability");
    ("mepa_tc10", "lan8770_tc10_drivers") ].
Definition lan8770_tc10_drivers : list (string * string) :=
  [ ("mepa_tc10_set_sleep_support", "lan8770_tc10_set_sleep_support");
    ("mepa_tc10_get_sleep_support", "lan8770_tc10_get_sleep_support");
    ("mepa_tc10_set_wakeup_support", "lan8770_tc10_set_wakeup_support");
    ("mepa_tc10_get_wakeup_support", "lan8770_tc10_get_wakeup_support");
    ("mepa_tc10_set_wakeup_fwd_support", "lan8770_tc10_set_wakeup_fwd_support");
    ("mepa_tc10_get_wakeup_fwd_support", "lan8770_tc10_get_wakeup_fwd_support");
    ("mepa_tc10_set_wake_pin_polarity", "lan8770_tc10_set_wake_pin_polarity");
    ("mepa_tc10_get_wake_pin_polarity", "lan8770_tc10_get_wake_pin_polarity");
    ("mepa_tc10_set_pin_mode", "lan8770_tc10_set_pin_mode");
    ("mepa_tc10_get_pin_mode", "lan8770_tc10_get_pin_mode");
    ("mepa_tc10_send_sleep_request", "lan8770_tc10_send_sleep_request");
    ("mepa_tc10_get_state", "lan8770_tc10_get_state");
    ("mepa_tc10_send_wake_request", "lan8770_tc10_send_wake_request") ].
(** Its four rows differ in the identifier only. *)
Definition lan8770_driver (id : Z) : mepa_driver_t := Mk_mepa_driver_t id LAN8770_PHY_ID_MASK lan8770_slots.
Definition mepa_lan8770_driver_init : list mepa_driver_t :=
  map lan8770_driver
    [LAN8770_PHY_ID; LAN8770_PHY_ID_LAN938X; LAN8770_PHY_ID_LAN937X; LAN8770_PHY_ID_LAN937X_TC10].
