(* ===== verification/Lan8770Trace.v ===== *)
(** * Lan8770Trace: bus accesses of the LAN8770 driver

    The bus transactions of the driver as accesses to registers of clause 22
    and to registers in banks, and how long a bank access waits. *)

From Stdlib Require Import ZArith Lia List Bool String.
From stdpp Require Import base gmap strings list.
From S2P Require Import Prelude Machine Trace Enums Lan8814Types PhyLib Lan8770Regs Lan8770 Lan8770Diag Lan8770Api.

(** ** Accesses *)

(** A register of clause 22, or register [a] of bank [k]. *)
Inductive op :=
  | DRd (dev a v : Z)
  | DWr (dev a v : Z)
  | BRd (dev k a v : Z)
  | BWr (dev k a v : Z).

(** The registers of clause 22 that are not the window to the banks. *)
Definition direct (a : Z) : bool := (0 <=? a) && (a <? 32) && negb ((20 <=? a) && (a <=? 22)).

(** A bank access commands through register 20 and moves the data through 21
    or 22. *)
Inductive ops_of : list event -> list op -> Prop :=
  | ops_nil : ops_of [] []
  | ops_silent e tr l : silent e = true -> ops_of tr l -> ops_of (e :: tr) l
  | ops_drd dev a v tr l : direct a = true -> ops_of tr l -> ops_of (EvRd dev a 0 (Some v) :: tr) (DRd dev a v :: l)
  | ops_dwr dev a v tr l : direct a = true -> ops_of tr l -> ops_of (EvWr dev a v 0 :: tr) (DWr dev a v :: l)
  | ops_brd dev k a c v tr l : ops_of tr l ->
      ops_of (EvWr dev 20 (bank_command k a) 0 :: EvRd dev 20 0 (Some c) :: EvRd dev 21 0 (Some v) :: tr)
        (BRd dev k a v :: l)
  | ops_bwr dev k a c v tr l : ops_of tr l ->
      ops_of (EvWr dev 22 v 0 :: EvWr dev 20 (bank_command k a) 0 :: EvRd dev 20 0 (Some c) :: tr)
        (BWr dev k a v :: l).

Lemma ops_app tr1 tr2 l1 l2 : ops_of tr1 l1 -> ops_of tr2 l2 -> ops_of (tr1 ++ tr2) (l1 ++ l2).
Proof.
  induction 1; cbn [app]; intros;
    [done|apply ops_silent|apply ops_drd|apply ops_dwr|eapply ops_brd|eapply ops_bwr]; auto.
Qed.

#[export] Instance ops_reading : Reading op := {|
  reads := ops_of; reads_nil := ops_nil; reads_app := ops_app;
  reads_silent := fun e He => ops_silent e [] [] He ops_nil;
|}.

(** A chip that is never busy: the bits the driver waits for read as zero. *)
Class ReadyBus {B : Type} (CO : Callout B) : Prop := {
  ready_window : forall f dev b v b', miim_read = Some f -> f dev 20 b = ((0, Some v), b') -> u16 v .& 0x1800 = 0;
  ready_setup : forall f dev b v b', miim_read = Some f -> f dev 16 b = ((0, Some v), b') -> u16 v .& 0x80 = 0;
}.
Definition readable (a v : Z) : Prop :=
  0 <= v < 65536 /\ (a = 20 -> v .& 0x1800 = 0) /\ (a = 16 -> v .& 0x80 = 0).

Section Logic.
Context {B : Type} {CO : Callout B} {OK : BusOk CO} {READY : ReadyBus CO}.
Variable fuel : nat.
Notation table := (gmap Z phy_data_t).
Local Abbreviation does := (does (B := B) (D := phy_data_t) (acc := op)).

Lemma miim_there : not_null miim_read = true /\ not_null miim_write = true.
Proof.
  destruct (bus_read (BusOk := OK)) as (f & Ef & _), (bus_write (BusOk := OK)) as (g & Eg & _).
  by rewrite Ef, Eg.
Qed.

Lemma steps_direct_rd dev a cur (P : Z * Z -> list event -> Prop) : 0 <= a < 256 ->
  (forall v, readable a v -> P (0, v) [EvRd dev a 0 (Some v)]) ->
  steps (B := B) (D := phy_data_t) (phy_direct_reg_rd dev a cur) P.
Proof.
  intros Ha HP w. unfold phy_direct_reg_rd. destruct miim_there as [-> _].
  destruct (bus_read (BusOk := OK)) as (f & Ef & Hf). destruct (Hf dev a (w_bus w)) as (v & b' & E).
  exists (0, u16 v), (World b' (w_data w) (w_log w ++ [EvRd dev a 0 (Some (u16 v))])), [EvRd dev a 0 (Some (u16 v))].
  split_and!; [|done|done|].
  - unfold bind, co_read. rewrite Ef, u8_small, E by lia. done.
  - apply HP. split_and!; [apply u16_range..|intros ->; by eapply ready_window|intros ->; by eapply ready_setup].
Qed.
Lemma steps_direct_wr dev a v (P : Z -> list event -> Prop) : 0 <= a < 256 ->
  P 0 [EvWr dev a (u16 v) 0] -> steps (B := B) (D := phy_data_t) (phy_direct_reg_wr dev a v) P.
Proof.
  intros Ha HP. unfold phy_direct_reg_wr. destruct miim_there as [_ ->].
  apply steps_co_write. by rewrite u8_small.
Qed.

Lemma direct_range a : direct a = true -> 0 <= a < 256.
Proof. unfold direct. lia. Qed.
Lemma does_direct_rd dev a cur t (Q : Z * Z -> table -> list op -> Prop) : direct a = true ->
  (forall v, readable a v -> Q (0, v) t [DRd dev a v]) -> does (phy_direct_reg_rd dev a cur) t Q.
Proof.
  intros Ha HQ. apply steps_does, steps_direct_rd; [by apply direct_range|]. intros v Hv.
  exists [DRd dev a v]. split; [|auto]. by repeat constructor.
Qed.
Lemma does_direct_wr dev a v t (Q : Z -> table -> list op -> Prop) : direct a = true ->
  Q 0 t [DWr dev a (u16 v)] -> does (phy_direct_reg_wr dev a v) t Q.
Proof.
  intros Ha HQ. apply steps_does, steps_direct_wr; [by apply direct_range|].
  exists [DWr dev a (u16 v)]. split; [|done]. by repeat constructor.
Qed.

Lemma idle_mask v m : v .& 0x1800 = 0 -> m .& 0x1800 = m -> v .& m = 0.
Proof. intros Hv <-. by rewrite (Z.land_comm m), Z.land_assoc, Hv. Qed.
Lemma busy_wait_idle n dev a m v timeout :
  v .& m = 0 -> busy_wait (B := B) n dev a m v timeout = ret (MEPA_RC_OK, timeout).
Proof. intros H. by destruct n; cbn [busy_wait]; rewrite H. Qed.

Definition bank_ok (k a : Z) : bool := (1 <=? k) && (k <=? 5) && (0 <=? a) && (a <? 256).
Lemma does_bank_rd dev k a cur t (Q : Z * Z -> table -> list op -> Prop) : bank_ok k a = true ->
  (forall v, 0 <= v < 65536 -> Q (0, v) t [BRd dev k a v]) -> does (phy_ext_bank_reg_rd fuel dev k a cur) t Q.
Proof.
  unfold bank_ok. intros Hk HQ. unfold phy_ext_bank_reg_rd.
  change LAN8770_PHY_BANK_SMI with 0. change LAN8770_PHY_BANK_INSTRUMENT with 5.
  rewrite (proj2 (Z.eqb_neq k 0)), (proj2 (Z.leb_le k 5)) by lia.
  apply steps_does. apply steps_bind, steps_direct_wr; [done|]. apply steps_bind, steps_direct_rd; [done|].
  intros c (Hc & Hw & _). cbn [negb Z.eqb]. unfold waited, reading.
  rewrite busy_wait_idle by (apply idle_mask; [by apply Hw|done]).
  apply steps_bind, steps_ret. cbn [negb tb Z.eqb]. cbv iota.
  apply steps_direct_rd; [done|]. intros v (Hv & _).
  exists [BRd dev k a v]. split; [|by apply HQ]. cbn [app].
  change LAN8770_EXT_REG_CTRL_OFFSET with 20. rewrite (u16_small (bank_command k a)) by apply u16_range.
  apply (ops_brd _ _ _ _ _ []), ops_nil.
Qed.
Lemma does_bank_wr dev k a v t (Q : Z -> table -> list op -> Prop) : bank_ok k a = true ->
  Q 0 t [BWr dev k a (u16 v)] -> does (phy_ext_bank_reg_wr fuel dev k a v) t Q.
Proof.
  unfold bank_ok. intros Hk HQ. unfold phy_ext_bank_reg_wr.
  change LAN8770_PHY_BANK_SMI with 0. change LAN8770_PHY_BANK_INSTRUMENT with 5.
  rewrite (proj2 (Z.eqb_neq k 0)), (proj2 (Z.leb_le k 5)) by lia.
  apply steps_does. apply steps_bind, steps_direct_wr; [done|]. cbn [negb Z.eqb].
  apply steps_bind, steps_direct_wr; [done|]. cbn [negb Z.eqb]. apply steps_bind, steps_direct_rd; [done|].
  intros c (Hc & Hw & _). cbn [negb Z.eqb]. unfold waited, reading.
  rewrite busy_wait_idle by (apply idle_mask; [by apply Hw|done]).
  apply steps_bind, steps_ret. cbn [negb tb Z.eqb]. cbv iota. apply steps_ret.
  exists [BWr dev k a (u16 v)]. split; [|done]. cbn [app].
  change LAN8770_EXT_REG_CTRL_OFFSET with 20. rewrite (u16_small (bank_command k a)) by apply u16_range.
  apply (ops_bwr _ _ _ _ _ []), ops_nil.
Qed.
End Logic.

(** One step of a proof about a function of the driver, and a run of them. *)
Ltac does_8770 :=
  lazymatch goal with
  | |- does (reading _ _ _) _ _ => unfold reading
  | |- does (or_return _ _ _) _ _ => unfold or_return
  | |- does (phy_direct_reg_rd _ _ _) _ _ => apply does_direct_rd; [done|]; intros ? ?
  | |- does (phy_direct_reg_wr _ _ _) _ _ => apply does_direct_wr; [done|]
  | |- does (phy_ext_bank_reg_rd _ _ _ _ _) _ _ => apply does_bank_rd; [done|]; intros ? ?
  | |- does (phy_ext_bank_reg_wr _ _ _ _ _) _ _ => apply does_bank_wr; [done|]
  | |- does (nsleep _) _ _ => apply does_msleep
  | |- does (locked _) _ _ => unfold locked
  | _ => does_basic
  end.
Ltac run := repeat (does_8770; cbv beta zeta iota; cbn [fst snd negb orb andb Z.eqb app]).

(** Two values of a register that a read-modify-write reads and writes. *)
Lemma modified_range x v m : 0 <= modified x v m < 65536.
Proof. apply u16_range. Qed.
Lemma testbit_modified x v m i : 0 <= i -> 0 <= m < 65536 ->
  Z.testbit (modified x v m) i = (i <? 16) && (negb (Z.testbit m i) && Z.testbit x i || Z.testbit v i).
Proof.
  intros Hi Hm. unfold modified. rewrite testbit_u16, Z.lor_spec, Z.land_spec, Z.lxor_spec by done.
  change 0xFFFF with (Z.ones 16). rewrite Z.testbit_ones_nonneg by lia.
  destruct (Z.ltb_spec i 16); [|done]. by destruct (Z.testbit m i), (Z.testbit x i).
Qed.

(** ** The values a register goes through *)

(** A register by bank, 0 for those of clause 22. *)
Definition access (o : op) : Z * Z * Z * bool :=
  match o with
  | DRd _ a v => (0, a, v, false)
  | DWr _ a v => (0, a, v, true)
  | BRd _ k a v => (k, a, v, false)
  | BWr _ k a v => (k, a, v, true)
  end.
Definition at_reg (k a : Z) (o : op) : bool := let '(k', a', _, _) := access o in (k' =? k) && (a' =? a).
Definition val_of (o : op) : Z := let '(_, _, v, _) := access o in v.
Definition is_write (o : op) : bool := let '(_, _, _, w) := access o in w.
(** What register [a] of bank [k] is seen to hold, and what is written to it. *)
Definition seen (k a : Z) (l : list op) : list Z := map val_of (List.filter (at_reg k a) l).
Definition written (k a : Z) (l : list op) : list Z := map val_of (List.filter (fun o => at_reg k a o && is_write o) l).

Lemma seen_app k a l1 l2 : seen k a (l1 ++ l2) = seen k a l1 ++ seen k a l2.
Proof. unfold seen. by rewrite List.filter_app, map_app. Qed.
Lemma written_app k a l1 l2 : written k a (l1 ++ l2) = written k a l1 ++ written k a l2.
Proof. unfold written. by rewrite List.filter_app, map_app. Qed.

(** ** Bits of a register *)

(** [y] is [x] but for the listed bits. *)
Definition edits (bits : list (Z * bool)) (x y : Z) : Prop :=
  0 <= y < 65536 /\ forall i, 0 <= i < 16 ->
  Z.testbit y i = match List.find (fun b => fst b =? i) bits with Some b => snd b | None => Z.testbit x i end.

Lemma bit_pow n : LAN8770_BIT n = 2 ^ n.
Proof. unfold LAN8770_BIT. apply Z.shiftl_1_l. Qed.
Lemma testbit_set x n i : 0 <= n -> 0 <= i -> Z.testbit (x .| LAN8770_BIT n) i = if n =? i then true else Z.testbit x i.
Proof.
  intros. rewrite bit_pow, Z.lor_spec, Z.pow2_bits_eqb by done.
  destruct (n =? i); [apply orb_true_r|apply orb_false_r].
Qed.
Lemma testbit_clear x n i : 0 <= n -> 0 <= i ->
  Z.testbit (x .& .~ LAN8770_BIT n) i = if n =? i then false else Z.testbit x i.
Proof.
  intros. rewrite bit_pow, Z.land_spec, Z.lnot_spec, Z.pow2_bits_eqb by done.
  destruct (n =? i); [apply andb_false_r|apply andb_true_r].
Qed.
Lemma edits_intro bits x y : (forall i, 0 <= i < 16 -> Z.testbit y i =
    match List.find (fun b => fst b =? i) bits with Some b => snd b | None => Z.testbit x i end) ->
  edits bits x (u16 y).
Proof.
  intros H. split; [apply u16_range|]. intros i Hi. rewrite testbit_u16, (proj2 (Z.ltb_lt i 16)) by lia.
  by apply H.
Qed.

Lemma edits_vbat x r n b : (forall i, 0 <= i < 16 -> Z.testbit r i = if n =? i then b else Z.testbit x i) ->
  edits [(15, true); (n, b)] x (u16 (r .| LAN8770_BIT 15)).
Proof.
  intros Hr. apply edits_intro. intros i Hi. rewrite testbit_set, Hr by lia. cbn [List.find fst snd].
  destruct (15 =? i); [done|]. by destruct (n =? i).
Qed.

(** ** Read-modify-write *)
Section Modify.
Context {B : Type} {CO : Callout B} {OK : BusOk CO} {READY : ReadyBus CO}.
Variable fuel : nat.
Notation table := (gmap Z phy_data_t).
Local Abbreviation does := (does (B := B) (D := phy_data_t) (acc := op)).

Lemma does_direct_mod dev a v m t (Q : Z -> table -> list op -> Prop) : direct a = true ->
  (forall x, readable a x -> Q 0 t [DRd dev a x; DWr dev a (modified x v m)]) ->
  does (phy_direct_read_mod_write_register dev a v m) t Q.
Proof.
  intros Ha HQ. unfold phy_direct_read_mod_write_register, reading. apply does_bind, does_direct_rd; [done|].
  intros x Hx. cbn [negb Z.eqb]. apply does_direct_wr; [done|].
  rewrite u16_small by apply modified_range. by apply HQ.
Qed.
Lemma does_bank_mod dev k a v m t (Q : Z -> table -> list op -> Prop) : bank_ok k a = true ->
  (forall x, 0 <= x < 65536 -> Q 0 t [BRd dev k a x; BWr dev k a (modified x v m)]) ->
  does (phy_read_mod_write_register fuel dev k a v m) t Q.
Proof.
  intros Ha HQ. unfold phy_read_mod_write_register, reading. apply does_bind, does_bank_rd; [done|].
  intros x Hx. cbn [negb Z.eqb]. apply does_bank_wr; [done|].
  rewrite u16_small by apply modified_range. by apply HQ.
Qed.
(** In bank 0 the banked functions are the direct ones. *)
Lemma smi_mod dev a v m :
  phy_read_mod_write_register (B := B) fuel dev 0 a v m = phy_direct_read_mod_write_register dev a v m.
Proof. done. Qed.

End Modify.

(** ** How long a bank access waits *)
Section Wait.
Context {B : Type} {CO : Callout B}.
Variable rd : Z -> Z -> B -> (Z * option Z) * B.
Hypothesis has_read : miim_read = Some rd.

(** From bus state [b], register [a] shows a bit of [m] for [n] reads, and then
    none; [vs] are the values read. *)
Inductive busy_reads (dev a m : Z) : nat -> list Z -> B -> B -> Prop :=
  | busy_end b b' v : rd dev a b = ((0, Some v), b') -> u16 v .& m = 0 -> busy_reads dev a m 0 [u16 v] b b'
  | busy_more n vs b b1 b' v : rd dev a b = ((0, Some v), b1) -> u16 v .& m <> 0 ->
      busy_reads dev a m n vs b1 b' -> busy_reads dev a m (S n) (u16 v :: vs) b b'.

Lemma direct_rd_eq dev a cur b b' v t l : 0 <= a < 256 -> rd dev a b = ((0, Some v), b') ->
  phy_direct_reg_rd dev a cur (World b t l) =
  Some ((0, u16 v), World b' (t : gmap Z phy_data_t) (l ++ [EvRd dev a 0 (Some (u16 v))])).
Proof.
  intros Ha E. unfold phy_direct_reg_rd. rewrite has_read. cbn [not_null].
  unfold bind, co_read. rewrite has_read, u8_small by done. cbn [w_bus w_data w_log]. by rewrite E.
Qed.

(** The log of [n] turns of the loop: [MEPA_NSLEEP] unless [timeout] has become 0. *)
Fixpoint wait_log (dev a : Z) (vs : list Z) (timeout : Z) : list event :=
  match vs with
  | [] => []
  | v :: vs =>
      let timeout := u16 (timeout - 1) in
      EvRd dev a 0 (Some v) :: (if tb timeout then [EvSleep 10] else []) ++ wait_log dev a vs timeout
  end.

Lemma busy_wait_spec dev a m n vs b b' v fuel timeout t l : 0 <= a < 256 -> 0 <= timeout < 65536 ->
  v .& m <> 0 -> busy_reads dev a m n vs b b' ->
  busy_wait fuel dev a m v timeout (World b t l) =
  if (fuel <? S n)%nat then None
  else Some ((MEPA_RC_OK, u16 (timeout - Z.of_nat (S n))),
             World b' (t : gmap Z phy_data_t) (l ++ wait_log dev a vs timeout)).
Proof.
  intros Ha Ht Hv H. revert fuel v timeout l Ht Hv.
  induction H as [b b' x E Hx|n vs b b1 b' x E Hx H IH]; intros fuel v timeout l Ht Hv;
    (destruct fuel as [|fuel]; [cbn [busy_wait]; by rewrite (proj2 (Z.eqb_neq _ _) Hv)|]);
    cbn [busy_wait wait_log]; rewrite (proj2 (Z.eqb_neq _ _) Hv);
    rewrite (bind_eq _ _ _ _ _ (direct_rd_eq _ _ _ _ _ _ _ _ Ha E)); cbn beta iota;
    change (0 =? MEPA_RC_OK) with true; cbn [negb].
  - set (timeout' := u16 (timeout - 1)).
    change (S fuel <? 1)%nat with false. cbv iota.
    destruct (tb timeout'); unfold bind, nsleep, log, ret; cbn [w_bus w_data w_log];
      rewrite busy_wait_idle by done; unfold ret; cbn beta; by rewrite <- ?app_assoc.
  - set (timeout' := u16 (timeout - 1)).
    assert (u16 (timeout' - Z.of_nat (S n)) = u16 (timeout - Z.of_nat (S (S n)))) as Et.
    { unfold timeout', u16. rewrite Zminus_mod_idemp_l. f_equal. lia. }
    change (S fuel <? S (S n))%nat with (fuel <? S n)%nat.
    destruct (tb timeout'); unfold bind, nsleep, log, ret; cbn [w_bus w_data w_log];
      cbn beta; rewrite (IH fuel (u16 x) timeout') by (done || apply u16_range); rewrite Et;
      destruct (fuel <? S n)%nat; by rewrite <- ?app_assoc.
Qed.
End Wait.

Section WaitSpec.
Context {B : Type} {CO : Callout B}.

Lemma reading_ok {A} fail m (k : Z -> Machine.M B phy_data_t A) w x w' :
  m w = Some ((0, x), w') -> reading fail m k w = k x w'.
Proof. intros E. unfold reading. by rewrite (bind_eq _ _ _ _ _ E). Qed.

(** The end of a bank access, when the wait leaves [x] in the counter. *)
Lemma waited_rd rd dev cur m b1 b2 b3 v x (t : gmap Z phy_data_t) l l' :
  miim_read = Some rd -> rd dev 21 b2 = ((0, Some v), b3) -> m (World b1 t l) = Some ((0, x), World b2 t l') ->
  waited (B := B) (fun rc => ret (rc, cur)) m (phy_direct_reg_rd dev 21 cur) (World b1 t l) =
  Some (if x =? 0 then ((MEPA_RC_ERROR, cur), World b2 t l')
        else ((MEPA_RC_OK, u16 v), World b3 t (l' ++ [EvRd dev 21 0 (Some (u16 v))]))).
Proof.
  intros Hr E3 Em. unfold waited. rewrite (reading_ok _ _ _ _ _ _ Em).
  unfold tb. rewrite negb_involutive. destruct (x =? 0); [done|].
  by rewrite (direct_rd_eq rd Hr dev 21 cur b2 b3 v t l' ltac:(lia) E3).
Qed.
(** The first read of the status, and the rest of the wait. *)
Lemma first_read rd dev n vs b1 b2 cur (t : gmap Z phy_data_t) l :
  miim_read = Some rd -> busy_reads rd dev 20 0x1000 n vs b1 b2 ->
  exists x b1', phy_direct_reg_rd dev 20 cur (World b1 t l) =
      Some ((0, x), World b1' t (l ++ [EvRd dev 20 0 (Some x)])) /\
    forall fuel l, busy_wait fuel dev 20 0x1000 x 200 (World b1' t l) =
      if (fuel <? n)%nat then None
      else Some ((MEPA_RC_OK, u16 (200 - Z.of_nat n)), World b2 t (l ++ wait_log dev 20 (tail vs) 200)).
Proof.
  intros Hr H. destruct H as [b1 b2 x E Hx|n vs b1 b1' b2 x E Hx H]; eexists (u16 x), _;
    (split; [by apply (direct_rd_eq rd Hr); [lia|]|]); intros fuel l'.
  - rewrite busy_wait_idle by done. cbn. by rewrite app_nil_r.
  - by apply (busy_wait_spec rd Hr).
Qed.

Lemma counter_zero n : (u16 (200 - n) =? 0) = (n mod 65536 =? 200).
Proof.
  unfold u16. apply eq_true_iff_eq. rewrite !Z.eqb_eq. change (2 ^ 16) with 65536.
  rewrite Zminus_mod. change (200 mod 65536) with 200.
  pose proof (Z.mod_pos_bound n 65536 ltac:(lia)). split; intros Hn.
  - apply Z.mod_divide in Hn as [q Hq]; lia.
  - by rewrite Hn.
Qed.

(** C35. How long reading a register of a bank waits, and what it makes of it.
    When the chip stays busy for [n] reads after the first, the function has no
    result with less than [n] turns of its loop, so on a chip that never gets
    ready it does not return.  It gives the register's value after [n] turns,
    whatever [n] is, unless the 16-bit counter that is set to 200 happens to
    stand at 0 then: after exactly 200 turns, or 65736, and so on, it fails. *)
Theorem bank_rd_wait (rd : Z -> Z -> B -> (Z * option Z) * B) (wr : Z -> Z -> Z -> B -> Z * B)
    fuel dev k a cur n vs b b1 b2 b3 v (t : gmap Z phy_data_t) l :
  miim_read = Some rd -> miim_write = Some wr -> bank_ok k a = true ->
  wr dev 20 (bank_command k a) b = (0, b1) ->
  busy_reads rd dev 20 0x1000 n vs b1 b2 -> rd dev 21 b2 = ((0, Some v), b3) ->
  (fuel < n -> phy_ext_bank_reg_rd fuel dev k a cur (World b t l) = None)%nat /\
  (n <= fuel -> exists log, phy_ext_bank_reg_rd fuel dev k a cur (World b t l) =
     Some (if (Z.of_nat n mod 65536 =? 200)%Z then ((MEPA_RC_ERROR, cur), World b2 t (l ++ log))
           else ((MEPA_RC_OK, u16 v), World b3 t (l ++ log ++ [EvRd dev 21 0 (Some (u16 v))]))))%nat.
Proof.
  intros Hr Hw Hk Ew H E3. unfold bank_ok in Hk. unfold phy_ext_bank_reg_rd.
  change LAN8770_PHY_BANK_SMI with 0. change LAN8770_PHY_BANK_INSTRUMENT with 5.
  rewrite (proj2 (Z.eqb_neq k 0)), (proj2 (Z.leb_le k 5)) by lia.
  set (e := EvWr dev 20 (bank_command k a) 0).
  assert (phy_direct_reg_wr dev LAN8770_EXT_REG_CTRL_OFFSET (bank_command k a) (World b t l) =
          Some (0, World b1 t (l ++ [e]))) as E1.
  { unfold phy_direct_reg_wr. rewrite Hw. cbn [not_null]. unfold co_write. rewrite Hw.
    change (u8 LAN8770_EXT_REG_CTRL_OFFSET) with 20. rewrite u16_small by apply u16_range.
    cbn [w_bus w_data w_log]. by rewrite Ew. }
  unfold or_return. rewrite (bind_eq _ _ _ _ _ E1). change (negb (0 =? MEPA_RC_OK)) with false. cbv iota.
  change LAN8770_EXT_REG_CTRL_OFFSET with 20. change LAN8770_EXT_REG_CTRL_READ_CTRL with 0x1000.
  change LAN8770_EXT_REG_RD_DATA with 21.
  destruct (first_read rd dev n vs b1 b2 (bank_command k a) t (l ++ [e]) Hr H) as (x & b1' & Ex & Hwait).
  rewrite (reading_ok _ _ _ _ _ _ Ex). split; intros Hn.
  - unfold waited, reading, bind. by rewrite Hwait, (proj2 (Nat.ltb_lt fuel n) Hn).
  - specialize (Hwait fuel). rewrite (proj2 (Nat.ltb_ge fuel n) Hn) in Hwait.
    exists ([e; EvRd dev 20 0 (Some x)] ++ wait_log dev 20 (tail vs) 200).
    rewrite (waited_rd rd _ _ _ _ _ _ _ _ _ _ _ Hr E3 (Hwait _)), counter_zero, <- !app_assoc.
    by case_match.
Qed.
End WaitSpec.

(** ** A chip for the witnesses *)

(** The bus reads its values from a tape; on a [ready] chip the two registers
    the driver waits for always read as 0. *)
Definition tape_read (ready : bool) (dev a : Z) (l : list Z) : (Z * option Z) * list Z :=
  if ready && ((a =? 20) || (a =? 16)) then ((0, Some 0), l)
  else match l with [] => ((0, Some 0), []) | v :: l => ((0, Some v), l) end.
Definition tape (ready : bool) : Callout (list Z) := {|
  miim_read := Some (tape_read ready); miim_write := Some (fun _ _ _ l => (0, l));
  lock_enter := true; lock_exit := true; uninit := fun _ => 0 |}.
#[export] Instance tape_ok ready : BusOk (tape ready).
Proof.
  split; eexists; (split; [done|]).
  - intros dev a b. unfold tape_read. case_match; [by eexists _, _|]. destruct b; by eexists _, _.
  - intros. by eexists.
Qed.
#[export] Instance tape_ready : ReadyBus (tape true).
Proof. split; intros f dev b v b' [= <-]; cbn; by intros [= <- _]. Qed.

Definition chip_data : phy_data_t := probe_data 3 phy_data_0.
Definition chip_table : gmap Z phy_data_t := {[ 3 := chip_data; 4 := set_pd_init_done TRUE chip_data ]}.
Lemma chip_3 : chip_table !! 3 = Some chip_data.
Proof. done. Qed.
Lemma chip_4 : chip_table !! 4 = Some (set_pd_init_done TRUE chip_data).
Proof. done. Qed.

(** Two turns of the loop, with a counter of 200 that ends at 198. *)
Lemma bank_rd_wait_witness :
  phy_ext_bank_reg_rd (CO := tape false) 1 3 4 0x83 0 (World [0x1000; 0x1000; 0; 42] chip_table []) = None /\
  exists log, phy_ext_bank_reg_rd (CO := tape false) 2 3 4 0x83 0 (World [0x1000; 0x1000; 0; 42] chip_table []) =
    Some ((MEPA_RC_OK, 42), World [] chip_table ([] ++ log ++ [EvRd 3 21 0 (Some 42)])).
Proof.
  assert (busy_reads (tape_read false) 3 20 0x1000 2 [0x1000; 0x1000; 0] [0x1000; 0x1000; 0; 42] [42]) as H.
  { apply (busy_more _ 3 20 0x1000 1 _ _ [0x1000; 0; 42] _ 0x1000); [reflexivity|discriminate|].
    apply (busy_more _ 3 20 0x1000 0 _ _ [0; 42] _ 0x1000); [reflexivity|discriminate|].
    by apply (busy_end _ 3 20 0x1000 _ _ 0). }
  split.
  - apply (bank_rd_wait (CO := tape false) (tape_read false) (fun _ _ _ l => (0, l)) 1 3 4 0x83 0 2 _ _ _ [42] [] 42
      chip_table [] eq_refl eq_refl eq_refl eq_refl H eq_refl). lia.
  - apply (bank_rd_wait (CO := tape false) (tape_read false) (fun _ _ _ l => (0, l)) 2 3 4 0x83 0 2 _ _ _ [42] [] 42
      chip_table [] eq_refl eq_refl eq_refl eq_refl H eq_refl). lia.
Defined.
