(* ===== verification/Lan8770Spec.v ===== *)
(** * Lan8770Spec: what the LAN8770 driver does to its registers

    The set-up sequence, and the configuration, link status, TC10, event and
    loopback functions, on a chip that is never busy. *)

From Stdlib Require Import ZArith Lia List Bool String.
From stdpp Require Import base gmap strings list.
From S2P Require Import Prelude Machine Trace Enums Lan8814Types PhyLib Lan8770Regs Lan8770 Lan8770Diag Lan8770Api.
From S2P Require Import Lan8770Trace.

(** ** The set-up sequence *)

(** What a step does to the registers. *)
Definition step_ok (s : step) : bool :=
  match s with
  | BankWr k a _ => bank_ok k a
  | DirWr a _ | DirMod a _ _ => direct a
  | BankMod k a _ _ => if k =? 0 then direct a else bank_ok k a
  | Nsleep _ => true
  end.
Definition step_ops (dev : Z) (s : step) (l : list op) : Prop :=
  match s with
  | BankWr k a v => l = [BWr dev k a (u16 v)]
  | DirWr a v => l = [DWr dev a (u16 v)]
  | DirMod a v m => exists x, l = [DRd dev a x; DWr dev a (modified x v m)]
  | BankMod k a v m => exists x, l =
      if k =? 0 then [DRd dev a x; DWr dev a (modified x v m)] else [BRd dev k a x; BWr dev k a (modified x v m)]
  | Nsleep _ => l = []
  end.
Fixpoint steps_ops (dev : Z) (ss : list step) (l : list op) : Prop :=
  match ss with
  | [] => l = []
  | s :: ss => exists l1 l2, l = l1 ++ l2 /\ step_ops dev s l1 /\ steps_ops dev ss l2
  end.
(** The writes to the registers [rs], a bank and an address each, in order. *)
Definition among (rs : list (Z * Z)) (k a : Z) : bool := existsb (fun r => (k =? fst r) && (a =? snd r)) rs.
Definition written_to (rs : list (Z * Z)) (l : list op) : list (Z * Z * Z) :=
  omap (fun o => let '(k, a, v, w) := access o in if w && among rs k a then Some (k, a, v) else None) l.
Lemma written_to_app rs l1 l2 : written_to rs (l1 ++ l2) = written_to rs l1 ++ written_to rs l2.
Proof. apply omap_app. Qed.
(** The register of a step, and what a step that is a plain write stores. *)
Definition step_at (k a : Z) (s : step) : bool :=
  match s with
  | BankWr k' a' _ | BankMod k' a' _ _ => (k' =? k) && (a' =? a)
  | DirWr a' _ | DirMod a' _ _ => (0 =? k) && (a' =? a)
  | Nsleep _ => false
  end.
Definition step_writes (rs : list (Z * Z)) (s : step) : option (list (Z * Z * Z)) :=
  match s with
  | BankWr k a v => Some (if among rs k a then [(k, a, u16 v)] else [])
  | DirWr a v => Some (if among rs 0 a then [(0, a, u16 v)] else [])
  | BankMod k a _ _ => if among rs k a then None else Some []
  | DirMod a _ _ => if among rs 0 a then None else Some []
  | Nsleep _ => Some []
  end.
Fixpoint steps_writes (rs : list (Z * Z)) (ss : list step) : option (list (Z * Z * Z)) :=
  match ss with
  | [] => Some []
  | s :: ss => v1 ← step_writes rs s; v2 ← steps_writes rs ss; Some (v1 ++ v2)
  end.

Local Ltac ops := cbn [List.filter]; unfold at_reg, is_write, val_of; cbn [access map andb List.filter].
Lemma step_written rs dev s l vs : step_ops dev s l -> step_writes rs s = Some vs -> written_to rs l = vs.
Proof.
  destruct s as [k a v|a v|a v m|k a v m|n]; cbn [step_ops step_writes];
    [intros ->|intros ->|intros [x ->]|intros [x ->]|intros ->]; unfold written_to.
  - intros <-%(inj Some). cbn -[among]. by destruct (among rs k a).
  - intros <-%(inj Some). cbn -[among]. by destruct (among rs 0 a).
  - destruct (among rs 0 a) eqn:E; [done|]. intros <-%(inj Some). cbn -[among]. by rewrite E.
  - destruct (among rs k a) eqn:E; [done|]. intros <-%(inj Some).
    destruct (Z.eqb_spec k 0) as [->|]; cbn -[among]; by rewrite E.
  - by intros <-%(inj Some).
Qed.
Lemma steps_written rs dev ss l vs : steps_ops dev ss l -> steps_writes rs ss = Some vs -> written_to rs l = vs.
Proof.
  revert l vs. induction ss as [|s ss IH]; cbn [steps_ops steps_writes]; intros l vs; [by intros -> <-%(inj Some)|].
  intros (l1 & l2 & -> & H1 & H2) H. destruct (step_writes rs s) as [v1|] eqn:E1; [|done]. cbn in H.
  destruct (steps_writes rs ss) as [v2|] eqn:E2; [|done]. injection H as <-.
  by rewrite written_to_app, (step_written _ _ _ _ _ H1 E1), (IH _ _ H2 eq_refl).
Qed.
Lemma steps_seen k a dev ss l : steps_ops dev ss l -> existsb (step_at k a) ss = false -> seen k a l = [].
Proof.
  revert l. induction ss as [|s ss IH]; cbn [steps_ops existsb]; intros l; [by intros ->|].
  intros (l1 & l2 & -> & H1 & H2) [Hm1 Hm2]%orb_false_iff. rewrite seen_app, (IH l2) by done.
  destruct s as [k' a' v|a' v|a' v m|k' a' v m|n]; cbn [step_ops step_at] in *;
    [subst l1|subst l1|destruct H1 as [x ->]|destruct H1 as [x ->]|by subst l1]; unfold seen.
  1,2,3: ops; by rewrite Hm1.
  destruct (Z.eqb_spec k' 0) as [->|]; ops; by rewrite Hm1.
Qed.

Section Setup.
Context {B : Type} {CO : Callout B} {OK : BusOk CO} {READY : ReadyBus CO}.
Variable fuel : nat.
Local Abbreviation table := (gmap Z phy_data_t).
Local Abbreviation does := (does (B := B) (D := phy_data_t) (acc := op)).

Lemma does_run_step dev s t (Q : Z -> table -> list op -> Prop) : step_ok s = true ->
  (forall l, step_ops dev s l -> Q 0 t l) -> does (run_step fuel dev s) t Q.
Proof.
  intros Hs HQ. destruct s as [k a v|a v|a v m|k a v m|n]; cbn [run_step step_ok step_ops] in *.
  - apply does_bank_wr; auto.
  - apply does_direct_wr; auto.
  - apply does_direct_mod; [done|]. intros x _. apply HQ. by exists x.
  - destruct (Z.eqb_spec k 0) as [->|].
    + rewrite smi_mod. apply does_direct_mod; [done|]. intros x _. apply HQ. by exists x.
    + apply does_bank_mod; [done|]. intros x _. apply HQ. by exists x.
  - apply does_bind, does_msleep, does_ret. by apply HQ.
Qed.
Lemma does_run_steps dev ss k t (Q : Z -> table -> list op -> Prop) : forallb step_ok ss = true ->
  (forall l, steps_ops dev ss l -> does k t (fun rc t' l' => Q rc t' (l ++ l'))) ->
  does (run_steps fuel dev ss k) t Q.
Proof.
  revert Q. induction ss as [|s ss IH]; intros Q Hs Hk; cbn [run_steps forallb steps_ops] in *.
  - eapply does_mono; [by apply (Hk [])|]. done.
  - apply andb_true_iff in Hs as [Hs1 Hs2]. unfold or_return. apply does_bind, does_run_step; [done|].
    intros l1 H1. cbn [negb Z.eqb]. apply IH; [done|]. intros l2 H2.
    eapply does_mono; [apply (Hk (l1 ++ l2)); eauto|]. intros rc t' l'. by rewrite app_assoc.
Qed.

(** The set-up as a list of accesses, in numbers: [BankWr], [DirWr] are writes,
    [BankMod], [DirMod] changes of the bits of a mask.  It ends with the
    interrupt masks: [n1] and [n2] are what they hold, and they are written when
    it is not what they held at first. *)
Definition reset_seq (master : bool) : list step :=
  [ DirWr 26 0x200; DirMod 0 0x8000 0x8000; Nsleep 100; DirWr 9 (if master then 0x1800 else 0x1000);
    DirMod 0 0x8000 0x8000; Nsleep 100; BankWr 3 11 0x2B; DirWr 26 0x308; DirMod 23 0 0x380 ].
Definition slave_seq : list step :=
  [ BankWr 4 0x69 2; BankWr 4 0x6A 2; BankWr 4 0x6B 2; BankWr 4 0x6C 2; BankWr 4 0x6D 2; BankWr 4 0x6E 2;
    BankWr 4 0x22 0x14; BankWr 2 0 0x6FFF ].
Definition filter_words : list Z :=
  [ 0x1000; 0x1821; 0x1021; 0x1842; 0x1042; 0x1863; 0x1063; 0x18A4; 0x10A4; 0x18C5; 0x10C5; 0x18E6; 0x10E6; 0x18C7;
    0x10C7; 0x18C8; 0x10C8; 0x1889; 0x1089; 0x184A; 0x104A; 0x180B; 0x100B; 0x180C; 0x100C; 0x180D; 0x100D; 0x180E;
    0x100E; 0x180F; 0x100F; 0x1810; 0x1010; 0x1811; 0x1011; 0x1000 ].
Definition dsp_seq : list step :=
  [ BankWr 4 5 0xAB1; BankWr 4 6 0xAB3; BankWr 4 17 0x5274; BankWr 4 23 0xD74; BankWr 4 24 0xD53; BankWr 4 37 0x360;
    BankWr 4 84 0xC30; BankWr 4 26 0xAEA; BankWr 4 27 0xAEB; BankWr 4 28 0xAEB; BankWr 4 2 0x1C00 ] ++
  map (BankWr 4 0x55) filter_words ++
  [ BankWr 4 0x2E 0x9572; DirWr 16 0x14; DirWr 26 0x200; DirWr 16 0x94 ].
Definition wake_seq : list step :=
  [ BankMod 1 0x20 0x20 0x20; BankWr 2 0x20 0x3C3C; BankMod 0 16 0x20 0x20; BankMod 1 0x21 0x2700 0xFF00;
    BankMod 1 0x20 0x8006 0x800E; BankWr 1 0x24 0xD010; BankMod 1 0x25 0x20 0x20; BankMod 1 0x24 0x8100 0x8100;
    BankMod 1 0x21 0x64 0x64 ].
Definition init_tail (dev m1 n1 m2 n2 : Z) : list op :=
  [DRd dev 25 n1] ++ (if n1 =? m1 then [] else [DWr dev 25 m1]) ++
  [BRd dev 1 9 n2] ++ (if n2 =? m2 then [] else [BWr dev 1 9 m2]) ++ [DWr dev 26 0x300].
Lemma does_init_tail dev m1 m2 t : 0 <= m1 < 65536 -> 0 <= m2 < 65536 ->
  does (restore_interrupts fuel dev m1 m2 (phy_direct_reg_wr dev LAN8770_POWER_DOWN_CTRL_OFFSET
     (LAN8770_POWER_DOWN_CTRL_FORCE_TX_EN .| LAN8770_POWER_DOWN_CTRL_HW_INIT_EN))) t
    (fun rc t' l => rc = 0 /\ t' = t /\ exists n1 n2, l = init_tail dev m1 n1 m2 n2).
Proof.
  intros H1 H2. unfold restore_interrupts, reading, or_return.
  apply does_bind, does_direct_rd; [done|]. intros n1 _. cbn [negb Z.eqb].
  destruct (n1 =? m1) eqn:E1; cbn [negb]; apply does_bind; [apply does_ret|apply does_direct_wr; [done|]];
    cbn [negb Z.eqb]; (apply does_bind, does_bank_rd; [done|]); intros n2 _; cbn [negb Z.eqb];
    destruct (n2 =? m2) eqn:E2; cbn [negb]; apply does_bind; (apply does_ret || (apply does_bank_wr; [done|]));
    cbn [negb Z.eqb]; (apply does_direct_wr; [done|]); (split_and!; [done|done|]); exists n1, n2;
    unfold init_tail; by rewrite E1, E2, ?(u16_small m1), ?(u16_small m2) by done.
Qed.
Definition init_ops (dev : Z) (master : bool) (l : list op) : Prop :=
  exists m1 m2 l1 ms l2 l3 x l4 s1 s2 l5 n1 n2,
  l = [DRd dev 25 m1; BRd dev 1 9 m2] ++ l1 ++ [DRd dev 10 ms] ++ l2 ++ l3 ++ [DRd dev 16 x] ++ l4 ++
      [DRd dev 24 s1; BRd dev 1 8 s2] ++ l5 ++ init_tail dev m1 n1 m2 n2 /\
  steps_ops dev (reset_seq master) l1 /\
  steps_ops dev (if Z.testbit ms 14 then [] else slave_seq) l2 /\
  steps_ops dev dsp_seq l3 /\ steps_ops dev [BankWr 3 11 0xA] l4 /\ steps_ops dev wake_seq l5.

Lemma resolved_bit ms : ((ms .& LAN8770_MASTER_SLAVE_STATUS_CFG_RESOL) =? 0) = negb (Z.testbit ms 14).
Proof.
  rewrite <- (tb_bit ms 14) by done. unfold tb. rewrite negb_involutive. done.
Qed.

Lemma does_set_up dev master t (Q : Z -> table -> list op -> Prop) :
  (forall l, init_ops dev master l -> Q 0 t l) -> does (phy_init_conf fuel dev master) t Q.
Proof.
  intros HQ. unfold phy_init_conf, restore_interrupts, waited, reading, or_return.
  apply does_bind, does_direct_rd; [done|]. intros m1 (Hm1 & _). cbn [negb Z.eqb].
  apply does_bind, does_bank_rd; [done|]. intros m2 Hm2. cbn [negb Z.eqb].
  apply does_run_steps; [by destruct master|]. intros l1 H1.
  apply does_bind, does_direct_rd; [done|]. intros ms _. cbn [negb Z.eqb]. rewrite resolved_bit.
  apply does_run_steps; [by destruct (Z.testbit ms 14)|]. intros l2 H2.
  apply does_run_steps; [reflexivity|]. intros l3 H3.
  apply does_bind, does_direct_rd; [done|]. intros x (_ & _ & Hx). cbn [negb Z.eqb].
  rewrite busy_wait_idle by (by apply Hx). apply does_bind, does_ret. cbn [negb tb Z.eqb]. cbv iota.
  apply does_run_steps; [reflexivity|]. intros l4 H4.
  apply does_bind, does_direct_rd; [done|]. intros s1 _. cbn [negb Z.eqb].
  apply does_bind, does_bank_rd; [done|]. intros s2 _. cbn [negb Z.eqb].
  apply does_run_steps; [reflexivity|]. intros l5 H5.
  eapply does_mono; [by apply does_init_tail|]. intros rc t' l (-> & -> & n1 & n2 & ->).
  apply HQ. exists m1, m2, l1, ms, l2, l3, x, l4, s1, s2, l5, n1, n2.
  split_and!; [done|by destruct master| |exact H3|exact H4|exact H5]. by destruct (Z.testbit ms 14).
Qed.

(** What the set-up does: the accesses above; of them the writes to the
    master/slave register, the power down control and the transmit filter,
    named once more in their order; and the two interrupt masks. *)
Definition set_up (dev : Z) (master : bool) (l : list op) : Prop :=
  init_ops dev master l /\
  written_to [(0, 9); (0, 26); (4, 0x55)] l =
    [(0, 26, 0x200); (0, 9, if master then 0x1800 else 0x1000); (0, 26, 0x308)] ++
    map (fun w => (4, 0x55, w)) filter_words ++ [(0, 26, 0x200); (0, 26, 0x300)] /\
  (exists m, hd_error (seen 0 25 l) = Some m /\ last (seen 0 25 l) = Some m) /\
  (exists m, hd_error (seen 1 9 l) = Some m /\ last (seen 1 9 l) = Some m).
Lemma init_ops_set_up dev master l : init_ops dev master l -> set_up dev master l.
Proof.
  intros H. split; [done|]. revert H.
  intros (m1 & m2 & l1 & ms & l2 & l3 & x & l4 & s1 & s2 & l5 & n1 & n2 & -> & H1 & H2 & H3 & H4 & H5).
  assert (forall k a, existsb (step_at k a) slave_seq = false -> seen k a l2 = []) as S2.
  { intros k a Hs. apply (steps_seen k a dev) in H2; [done|]. by destruct (Z.testbit ms 14). }
  split_and!.
  - set (rs := [(0, 9); (0, 26); (4, 0x55)]).
    assert (written_to rs l1 = [(0, 26, 0x200); (0, 9, if master then 0x1800 else 0x1000); (0, 26, 0x308)]) as W1
      by (apply (steps_written _ _ _ _ _ H1); by destruct master).
    assert (written_to rs l2 = []) as W2 by (apply (steps_written _ _ _ _ _ H2); by destruct (Z.testbit ms 14)).
    assert (written_to rs l3 = map (fun w => (4, 0x55, w)) filter_words ++ [(0, 26, 0x200)]) as W3
      by (by apply (steps_written _ _ _ _ _ H3)).
    assert (written_to rs l4 = []) as W4 by (by apply (steps_written _ _ _ _ _ H4)).
    assert (written_to rs l5 = []) as W5 by (by apply (steps_written _ _ _ _ _ H5)).
    rewrite !written_to_app, W1, W2, W3, W4, W5. unfold init_tail. by destruct (n1 =? m1), (n2 =? m2).
  - exists m1. rewrite !seen_app, (steps_seen _ _ dev _ l1 H1), S2, (steps_seen _ _ dev _ l3 H3),
      (steps_seen _ _ dev _ l4 H4), (steps_seen _ _ dev _ l5 H5) by (by destruct master).
    unfold init_tail. by destruct (Z.eqb_spec n1 m1) as [->|], (n2 =? m2).
  - exists m2. rewrite !seen_app, (steps_seen _ _ dev _ l1 H1), S2, (steps_seen _ _ dev _ l3 H3),
      (steps_seen _ _ dev _ l4 H4), (steps_seen _ _ dev _ l5 H5) by (by destruct master).
    unfold init_tail. by destruct (n1 =? m1), (Z.eqb_spec n2 m2) as [->|].
Qed.

(** C34. The set-up sequence on a bus without errors and a chip that is never
    busy ([ReadyBus]: it answers with the busy bits of registers 20 and 16
    clear; [bank_rd_wait] has the waiting) succeeds and leaves the device's
    data alone.  Its accesses are a fixed sequence ([init_ops]) in which only
    the DSP settings of a slave are left out when the resolved role is master.
    In it the power down control is written, then the role of the port, then
    the 36 words of the transmit filter in their order, and the start of the
    chip is the last access; the two interrupt masks hold at the end what they
    held at the start. *)
Theorem lan8770_init_spec dev master t :
  does (phy_init_conf fuel dev master) t (fun rc t' l => rc = MEPA_RC_OK /\ t' = t /\ set_up dev master l).
Proof. apply does_set_up. intros l Hl. split_and!; [done|done|by apply init_ops_set_up]. Qed.
End Setup.

Section Functions.
Context {B : Type} {CO : Callout B} {OK : BusOk CO} {READY : ReadyBus CO}.
Variable fuel : nat.
Local Abbreviation table := (gmap Z phy_data_t).
Local Abbreviation does := (does (B := B) (D := phy_data_t) (acc := op)).

(** ** Configuration *)






(** ** Link status *)
Definition link_up (status mode : Z) : bool := ((status .& 0x3000) =? 0x3000) && ((mode .& 0x0D) =? 0x0D).
Definition status_after (up : bool) (d : phy_data_t) (status : mepa_status_t) : mepa_status_t :=
  if up then set_st_fdx (conf_fdx (pd_conf d)) (set_st_speed (conf_speed (pd_conf d)) (set_st_link 1 status))
  else set_st_link 0 status.
Definition link_ops (dev a b c e : Z) : list op :=
  [DRd dev 10 a; DRd dev 17 b; DRd dev 18 c; DWr dev 18 (modified c (LAN8770_BIT 11) (LAN8770_BIT 11)); BRd dev 2 0x16 e].
Lemma does_link dev status d t (Q : Z * mepa_status_t -> table -> list op -> Prop) : t !! dev = Some d ->
  (forall a b c e, Q (0, status_after (link_up a b) d status)
    (<[dev := set_pd_link_status (cb (link_up a b)) d]> t) (link_ops dev a b c e)) ->
  does (phy_get_link_status_enhanced fuel dev status) t Q.
Proof.
  intros Hd HQ. unfold phy_get_link_status_enhanced. change LAN8770_PHY_BANK_SMI with 0. unfold reading, or_return.
  rewrite smi_mod. apply does_bind, does_direct_rd; [done|]. intros a _. cbn [negb Z.eqb].
  apply does_bind, does_direct_rd; [done|]. intros b _. cbn [negb Z.eqb].
  apply does_bind, does_direct_mod; [done|]. intros c _. cbn [negb Z.eqb].
  apply does_bind, does_bank_rd; [done|]. intros e _. cbn [negb Z.eqb].
  apply does_bind. eapply does_data_of; [done|]. specialize (HQ a b c e). cbn [app].
  change (((a .& 0x3000) =? 0x3000) && ((b .& 0x0D) =? 0x0D)) with (link_up a b).
  apply does_bind. eapply does_upd; [done|]. apply does_ret. by destruct (link_up a b).
Qed.

(** ** TC10 *)
Lemma does_wakeup_bits dev mode n1 n2 k t (Q : Z -> table -> list op -> Prop) : 0 <= n1 < 16 -> 0 <= n2 < 16 ->
  (forall x y, if (0 <=? mode) && (mode <=? 3) then
     forall x' y', edits [(15, true); (n1, Z.odd mode)] x x' -> edits [(15, true); (n2, 2 <=? mode)] y y' ->
     does k t (fun rc t' l => Q rc t' ([BRd dev 1 0x24 x; BRd dev 1 0x20 y; BWr dev 1 0x24 x'; BWr dev 1 0x20 y'] ++ l))
   else Q MEPA_RC_ERR_PARM t [BRd dev 1 0x24 x; BRd dev 1 0x20 y]) ->
  does (set_wakeup_bits fuel dev mode (LAN8770_BIT n1) (LAN8770_BIT n2) k) t Q.
Proof.
  intros H1 H2 HQ. unfold set_wakeup_bits, reading, or_return.
  apply does_bind, does_bank_rd; [done|]. intros x Hx. cbn [negb Z.eqb].
  apply does_bind, does_bank_rd; [done|]. intros y Hy. cbn [negb Z.eqb]. specialize (HQ x y).
  assert (forall r1 r2, edits [(15, true); (n1, Z.odd mode)] x (u16 (r1 .| LAN8770_BIT 15)) ->
    edits [(15, true); (n2, 2 <=? mode)] y (u16 (r2 .| LAN8770_BIT 15)) ->
    (0 <=? mode) && (mode <=? 3) = true ->
    does (rc <- phy_ext_bank_reg_wr fuel dev LAN8770_PHY_BANK_MISC LAN8770_MISC_WKP_PRT_CTL1_OFFSET
            (r1 .| LAN8770_MISC_WKP_PRT_CTL1_VBAT_PORT_WR) ;; if negb (rc =? MEPA_RC_OK) then ret rc else
          rc <- phy_ext_bank_reg_wr fuel dev LAN8770_PHY_BANK_MISC LAN8770_MISC_WKP_COM_CTL0_OFFSET
            (r2 .| LAN8770_MISC_WKP_COM_CTL0_VBAT_COMM_WR) ;; if negb (rc =? MEPA_RC_OK) then ret rc else k) t
      (fun c t2 l2 => Q c t2 ([BRd dev 1 0x24 x] ++ [BRd dev 1 0x20 y] ++ l2))) as HW.
  { intros r1 r2 E1 E2 Hm. rewrite Hm in HQ. apply does_bind, does_bank_wr; [done|].
    change (negb (0 =? MEPA_RC_OK)) with false. cbv iota. apply does_bind, does_bank_wr; [done|].
    change (negb (0 =? MEPA_RC_OK)) with false. cbv iota. by apply HQ. }
  unfold wakeup_bits.
  destruct (Z.eqb_spec mode 0) as [->|]; [|destruct (Z.eqb_spec mode 1) as [->|];
    [|destruct (Z.eqb_spec mode 2) as [->|]; [|destruct (Z.eqb_spec mode 3) as [->|]]]].
  1-4: apply HW; [apply edits_vbat..|done]; try done; intros i Hi; apply testbit_set || apply testbit_clear; lia.
  destruct ((0 <=? mode) && (mode <=? 3)) eqn:Hm; [lia|]. by apply does_ret.
Qed.

Definition tc10_set (fwd : bool) : Z -> Z -> M B phy_data_t Z :=
  if fwd then lan8770_tc10_set_wakeup_fwd_support fuel else lan8770_tc10_set_wakeup_support fuel.
Definition tc10_get (fwd : bool) : Z -> M B phy_data_t (Z * Z) :=
  if fwd then lan8770_tc10_get_wakeup_fwd_support else lan8770_tc10_get_wakeup_support.
Definition tc10_after (fwd : bool) (mode : Z) (d : phy_data_t) : phy_data_t :=
  set_pd_tc10 ((if fwd then set_tc_wakeup_fwd_mode else set_tc_wakeup_mode) mode (pd_tc10 d)) d.

(** The wake-up modes and, with [fwd], the forwarding modes.  A mode out of
    0 to 3 is refused after the two registers have been read, and nothing
    changes.  Otherwise the WUP bit of the first register and the pin bit of the
    second are those of the mode (0 none, 1 WUP, 2 pin, 3 both), both are passed
    on to the VBAT domain by their bit 15, every other bit is kept, and the mode
    is what the [get] function then gives. *)
Theorem tc10_wakeup_spec (fwd : bool) dev mode (t : table) d : t !! dev = Some d ->
  does (tc10_set fwd dev mode) t (fun rc t' l => exists x y,
    if (0 <=? mode) && (mode <=? 3) then
      rc = MEPA_RC_OK /\ t' = <[dev := tc10_after fwd mode d]> t /\
      (exists x' y', l = [BRd dev 1 0x24 x; BRd dev 1 0x20 y; BWr dev 1 0x24 x'; BWr dev 1 0x20 y'] /\
         edits [(15, true); (if fwd then 12 else 8, Z.odd mode)] x x' /\
         edits [(15, true); (if fwd then 7 else 0, 2 <=? mode)] y y') /\
      does (tc10_get fwd dev) t' (fun r t'' l => r = (MEPA_RC_OK, mode) /\ t'' = t' /\ l = [])
    else rc = MEPA_RC_ERR_PARM /\ t' = t /\ l = [BRd dev 1 0x24 x; BRd dev 1 0x20 y]).
Proof.
  intros Hd.
  assert (does (tc10_get fwd dev) (<[dev := tc10_after fwd mode d]> t)
    (fun r t'' l => r = (MEPA_RC_OK, mode) /\ t'' = <[dev := tc10_after fwd mode d]> t /\ l = [])) as HG.
  { unfold tc10_get. destruct fwd; (apply does_bind, does_enter; apply does_bind, does_bind;
      eapply does_data_of; [apply lookup_insert_eq|]; apply does_ret, does_bind, does_exit, does_ret; done). }
  assert (does ((if fwd then phy_tc10_set_wakeup_fwd_support fuel else phy_tc10_set_wakeup_support fuel) dev mode) t
    (fun rc t' l => exists x y, if (0 <=? mode) && (mode <=? 3) then
      rc = MEPA_RC_OK /\ t' = <[dev := tc10_after fwd mode d]> t /\
      (exists x' y', l = [BRd dev 1 0x24 x; BRd dev 1 0x20 y; BWr dev 1 0x24 x'; BWr dev 1 0x20 y'] /\
         edits [(15, true); (if fwd then 12 else 8, Z.odd mode)] x x' /\
         edits [(15, true); (if fwd then 7 else 0, 2 <=? mode)] y y')
      else rc = MEPA_RC_ERR_PARM /\ t' = t /\ l = [BRd dev 1 0x24 x; BRd dev 1 0x20 y])) as HS.
  { destruct fwd; apply does_wakeup_bits; try done; intros x y; destruct ((0 <=? mode) && (mode <=? 3));
      [|by eexists _, _|
       |by eexists _, _]; intros x' y' Ex Ey; apply does_bind; (eapply does_upd; [done|]); apply does_ret;
      exists x, y; (split_and!; [done|done|]); exists x', y'; by split_and!. }
  unfold tc10_set. destruct fwd; (apply does_bind, does_enter; apply does_bind; eapply does_mono; [exact HS|];
    intros rc t' l (x & y & H); apply does_bind, does_exit, does_ret; exists x, y; cbn [app]; rewrite app_nil_r;
    destruct ((0 <=? mode) && (mode <=? 3)); [|done]; destruct H as (-> & -> & H); by split_and!).
Qed.

Lemma does_com_ctl0 dev change k t (Q : Z -> table -> list op -> Prop) :
  (forall x, 0 <= x < 65536 -> match change x with
     | None => Q MEPA_RC_ERR_PARM t [BRd dev 1 0x20 x]
     | Some y => does k t (fun rc t' l => Q rc t' ([BRd dev 1 0x20 x; BWr dev 1 0x20 (u16 y)] ++ l))
     end) -> does (com_ctl0_update fuel dev change k) t Q.
Proof.
  intros HQ. unfold com_ctl0_update, reading, or_return. apply does_bind, does_bank_rd; [done|].
  intros x Hx. cbn [negb Z.eqb]. specialize (HQ x Hx). destruct (change x) as [y|]; [|by apply does_ret].
  apply does_bind, does_bank_wr; [done|]. exact HQ.
Qed.

(** The field of the WAKE_OUT mode, bits 10 and 9: push-pull 0, open source 1,
    open drain 2. *)
Definition wake_out_code (mode : Z) : option Z :=
  if mode =? MEPA_GPIO_MODE_PUSH_PULL then Some 0
  else if mode =? MEPA_GPIO_MODE_OPEN_SOURCE then Some 1
  else if mode =? MEPA_GPIO_MODE_OPEN_DRAIN then Some 2
  else None.

(** The mode of the WAKE_OUT pin is ORed to what its field holds: asking for
    push-pull writes the register back as it was, and open source after open
    drain gives neither, while the mode that is kept and reported is the one
    asked for. *)
Theorem tc10_wake_out_mode_sticks dev mode (t : table) d : t !! dev = Some d ->
  does (lan8770_tc10_set_pin_mode fuel dev MEPA_TC10_WAKE_OUT mode) t (fun rc t' l => exists x,
    match wake_out_code mode with
    | Some code =>
        rc = MEPA_RC_OK /\ t' = <[dev := set_pd_tc10 (set_tc_wake_out_mode mode (pd_tc10 d)) d]> t /\
        exists y, l = [BRd dev 1 0x20 x; BWr dev 1 0x20 y] /\
          ((y .>> 9) .& 3 = ((x .>> 9) .& 3) .| code) /\ forall i, 0 <= i < 16 -> i <> 9 -> i <> 10 ->
          Z.testbit y i = Z.testbit x i
    | None => rc = MEPA_RC_ERR_PARM /\ t' = t /\ l = [BRd dev 1 0x20 x]
    end).
Proof.
  intros Hd. apply does_bind, does_enter, does_bind, does_com_ctl0. intros x Hx.
  change (MEPA_TC10_WAKE_OUT =? MEPA_TC10_WAKE_OUT) with true. change (MEPA_TC10_WAKE_OUT =? MEPA_TC10_INH) with false.
  cbv iota. assert (forall code, 0 <= code < 4 ->
    let y := u16 (x .| LAN8770_MISC_WKP_COM_CTL0_WK_OUT_MODE_SET code) in
    ((y .>> 9) .& 3 = ((x .>> 9) .& 3) .| code) /\ forall i, 0 <= i < 16 -> i <> 9 -> i <> 10 ->
      Z.testbit y i = Z.testbit x i) as HW.
  { intros code Hc y. assert (forall i, 0 <= i < 16 -> Z.testbit y i = Z.testbit x i || Z.testbit code (i - 9)) as Hy.
    { intros i Hi. unfold y. rewrite testbit_u16, (proj2 (Z.ltb_lt i 16)), Z.lor_spec by lia.
      change (LAN8770_MISC_WKP_COM_CTL0_WK_OUT_MODE_SET code) with ((code .& Z.ones 2) .<< 9).
      rewrite Z.land_ones, Z.mod_small by lia. by rewrite Z.shiftl_spec by lia. }
    assert (forall i, 2 <= i -> Z.testbit code i = false) as Hc2.
    { intros i Hi. apply (testbit_small code 2); lia. }
    split.
    - apply Z.bits_inj'. intros i Hi. rewrite Z.lor_spec, !Z.land_spec, !Z.shiftr_spec by done.
      change 3 with (Z.ones 2). rewrite Z.testbit_ones_nonneg by lia. destruct (Z.ltb_spec i 2).
      + rewrite Hy, !andb_true_r by lia. by replace (i + 9 - 9) with i by lia.
      + by rewrite !andb_false_r, Hc2.
    - intros i Hi H9 H10. rewrite Hy by done. destruct (Z.ltb_spec i 9).
      + by rewrite (Z.testbit_neg_r code), orb_false_r by lia.
      + by rewrite Hc2, orb_false_r by lia. }
  assert (wake_out_mode_bits mode x =
    option_map (fun code => x .| LAN8770_MISC_WKP_COM_CTL0_WK_OUT_MODE_SET code) (wake_out_code mode)) as ->
    by (unfold wake_out_mode_bits, wake_out_code; by repeat case_match).
  assert (forall code, wake_out_code mode = Some code -> 0 <= code < 4) as HC
    by (unfold wake_out_code; intros code; repeat case_match; intros; by simplify_eq).
  destruct (wake_out_code mode) as [code|]; cbn [option_map].
  - apply does_bind. eapply does_upd; [done|]. apply does_ret, does_bind, does_exit, does_ret. exists x.
    split_and!; [done|done|]. eexists. split; [done|]. by apply HW, HC.
  - apply does_bind, does_exit, does_ret. by exists x.
Qed.

(** ** Events *)
Lemma event_mask_eq event : 0 <= event -> event_mask event = event .& 0xFF.
Proof.
  intros He. change 0xFF with (Z.ones 8). rewrite Z.land_ones by done. unfold event_mask.
  change (Z.to_nat INTR_BIT_LEN) with 8%nat. change 8 with (Z.of_nat 8).
  apply (fold_seq_ind (fun n m => m = event mod 2 ^ Z.of_nat n) _ 8); [by rewrite Z.mod_1_r|].
  intros i m Hi ->. unfold LAN8770_BIT. rewrite tb_bit by lia.
  rewrite Nat2Z.inj_succ. apply Z.bits_inj'. intros k Hk.
  assert (0 <= event mod 2 ^ Z.of_nat i < 65536).
  { pose proof (Z.mod_pos_bound event (2 ^ Z.of_nat i) ltac:(lia)).
    assert (2 ^ Z.of_nat i <= 2 ^ 16) by (apply Z.pow_le_mono_r; lia). lia. }
  assert (forall n, 0 <= n -> Z.testbit (event mod 2 ^ n) k = (k <? n) && Z.testbit event k) as HM.
  { intros n Hn. destruct (Z.ltb_spec k n); [by rewrite Z.mod_pow2_bits_low|by rewrite Z.mod_pow2_bits_high by lia]. }
  rewrite (HM (Z.succ (Z.of_nat i))) by lia.
  destruct (Z.testbit event (Z.of_nat i)) eqn:Eb.
  - rewrite Z.shiftl_1_l, lor_bit by lia. rewrite Z.setbit_eqb, HM by lia.
    destruct (Z.eqb_spec (Z.of_nat i) k) as [<-|]; [cbn [orb]; by rewrite Eb, (proj2 (Z.ltb_lt (Z.of_nat i) _)) by lia|].
    cbn [orb]. destruct (Z.ltb_spec k (Z.of_nat i)), (Z.ltb_spec k (Z.succ (Z.of_nat i))); done || lia.
  - rewrite HM by lia. destruct (Z.ltb_spec k (Z.of_nat i)), (Z.ltb_spec k (Z.succ (Z.of_nat i))); try done; [lia|].
    assert (k = Z.of_nat i) as -> by lia. by rewrite Eb.
Qed.

(** Events.  The events that are kept gain or lose those of [event], but
    what is written to the interrupt mask is the low byte of [event] whether it
    is to be enabled or disabled: disabling an event enables its interrupt, and
    the interrupts of the other enabled events go. *)
Theorem event_mask_overwritten dev event enable (t : table) d : t !! dev = Some d -> 0 <= event < 2 ^ 32 ->
  does (lan8770_event_enable_set dev event enable) t (fun rc t' l =>
    rc = MEPA_RC_OK /\ l = [DWr dev 25 (event .& 0xFF)] /\
    exists ev, t' = <[dev := set_pd_events ev d]> t /\
    forall i, 0 <= i < 32 -> Z.testbit ev i =
      if Z.testbit event i then tb enable else Z.testbit (pd_events d) i).
Proof.
  intros Hd He. apply does_bind. eapply does_upd; [done|].
  apply does_bind, does_enter, does_bind, does_direct_wr; [done|]. apply does_bind, does_exit, does_ret.
  split; [done|]. cbn [app]. rewrite event_mask_eq by lia. split.
  { rewrite u16_small; [done|]. change 0xFF with (Z.ones 8). rewrite Z.land_ones by done.
    pose proof (Z.mod_pos_bound event (2 ^ 8) ltac:(lia)). lia. }
  eexists. split; [done|]. intros i Hi. destruct (tb enable).
  - rewrite Z.lor_spec. destruct (Z.testbit event i); [apply orb_true_r|apply orb_false_r].
  - rewrite Z.land_spec, testbit_u32, Z.lnot_spec, (proj2 (Z.ltb_lt i 32)) by lia.
    destruct (Z.testbit event i); [apply andb_false_r|apply andb_true_r].
Qed.

(** ** Loopbacks *)
(** One loopback, bit [n] of register [r]: what is wanted, and what was kept. *)
Definition switch_ops (dev want had r n : Z) (l : list op) : Prop :=
  if (want =? TRUE) || (had =? TRUE) then
    exists x x' y, l = [DRd dev r x; DRd dev r x'; DWr dev r y] /\ 0 <= y < 65536 /\
      forall i, 0 <= i < 16 -> Z.testbit y i =
        Z.testbit x' i || (if i =? n then want =? TRUE else Z.testbit x i)
  else l = [].

(** A value that is modified with itself as the mask. *)
Lemma testbit_or_in x' v i : 0 <= v < 65536 -> 0 <= i < 16 ->
  Z.testbit (modified x' v v) i = Z.testbit x' i || Z.testbit v i.
Proof.
  intros Hv Hi. rewrite testbit_modified, (proj2 (Z.ltb_lt i 16)) by lia.
  by destruct (Z.testbit v i), (Z.testbit x' i).
Qed.
Lemma set_range x n : 0 <= n < 16 -> 0 <= x < 65536 -> 0 <= x .| LAN8770_BIT n < 65536.
Proof.
  intros Hn Hx. replace (x .| LAN8770_BIT n) with (u16 (x .| 2 ^ n)); [apply u16_range|].
  rewrite lor_bit by done. by unfold LAN8770_BIT.
Qed.
Lemma clear_range x m : 0 <= x < 65536 -> 0 <= x .& u16 m < 65536.
Proof.
  intros Hx. unfold u16. change (2 ^ 16) with (2 ^ 16). rewrite <- Z.land_ones, Z.land_assoc, Z.land_ones by lia.
  apply Z.mod_pos_bound. lia.
Qed.
Lemma does_switch dev want had (rd : M B phy_data_t (Z * Z)) r n k t (Q : Z -> table -> list op -> Prop) :
  direct r = true -> 0 <= n < 16 -> rd = phy_direct_reg_rd dev r 0 ->
  (forall l, switch_ops dev want had r n l -> does k t (fun rc t' l' => Q rc t' (l ++ l'))) ->
  does (loopback_switch fuel dev want had rd r (LAN8770_BIT n) k) t Q.
Proof.
  intros Hr Hn -> HQ. unfold loopback_switch, switch_ops, reading, or_return in *.
  assert (forall v x (Hv : forall i, 0 <= i < 16 -> Z.testbit v i = if i =? n then want =? TRUE else Z.testbit x i),
    0 <= v < 65536 -> (want =? TRUE) || (had =? TRUE) = true ->
    does (rc <- phy_read_mod_write_register fuel dev LAN8770_PHY_BANK_SMI r v v ;;
          if negb (rc =? MEPA_RC_OK) then ret rc else k) t (fun rc t' l => Q rc t' ([DRd dev r x] ++ l))) as HW.
  { intros v x Hv Hr16 Hs. rewrite Hs in HQ. change LAN8770_PHY_BANK_SMI with 0. rewrite smi_mod.
    apply does_bind, does_direct_mod; [done|]. intros x' _. change (negb (0 =? MEPA_RC_OK)) with false. cbv iota.
    apply (HQ [DRd dev r x; DRd dev r x'; DWr dev r (modified x' v v)]). eexists x, x', _.
    split_and!; [done|apply modified_range..|]. intros i Hi. by rewrite testbit_or_in, Hv. }
  destruct (want =? TRUE); [|destruct (had =? TRUE); [|by apply (HQ [])]].
  all: apply does_bind, does_direct_rd; [done|]; intros x (Hx & _); change (negb (0 =? MEPA_RC_OK)) with false;
    cbv iota; apply HW; [|by apply set_range || by apply clear_range|done]; intros i Hi.
  - by rewrite testbit_set, Z.eqb_sym by lia.
  - rewrite Z.land_spec, testbit_u16, (proj2 (Z.ltb_lt i 16)), Z.lnot_spec, bit_pow, Z.pow2_bits_eqb by lia.
    rewrite (Z.eqb_sym n). destruct (i =? n); [apply andb_false_r|apply andb_true_r].
Qed.

(** Loopbacks.  For each of the three, near end, far end and connector, the
    driver reads the register, sets or clears the loopback's bit in the value,
    and then only ever adds bits to what the register holds: a bit that is set
    in the register stays set, so turning a loopback off writes its bit back.
    Nothing is accessed for a loopback that neither was nor is wanted, and the
    wanted loopbacks are the ones that are kept. *)
Theorem loopback_set_never_clears dev lb (t : table) d : t !! dev = Some d ->
  does (lan8770_loopback_set fuel dev lb) t (fun rc t' l =>
    rc = MEPA_RC_OK /\ t' = <[dev := set_pd_loopback lb d]> t /\ exists l1 l2 l3, l = l1 ++ l2 ++ l3 /\
    switch_ops dev (lb_near_end_ena lb) (lb_near_end_ena (pd_loopback d)) 0 14 l1 /\
    switch_ops dev (lb_far_end_ena lb) (lb_far_end_ena (pd_loopback d)) 18 9 l2 /\
    switch_ops dev (lb_connector_ena lb) (lb_connector_ena (pd_loopback d)) 18 0 l3).
Proof.
  intros Hd. apply does_bind, does_enter, does_bind, does_bind. eapply does_data_of; [done|]. cbn [app].
  apply does_switch; [done|lia|done|]. intros l1 H1. apply does_switch; [done|lia|done|]. intros l2 H2.
  apply does_switch; [done|lia|done|]. intros l3 H3. apply does_bind. eapply does_upd; [done|].
  apply does_ret, does_bind, does_exit, does_ret. split_and!; [done|done|]. exists l1, l2, l3.
  by rewrite !app_nil_r.
Qed.
End Functions.

(** ** Witnesses *)
Section Witnesses.
#[local] Instance ready_chip : Callout (list Z) := tape true.
Local Abbreviation does := (does (B := list Z) (D := phy_data_t) (acc := op)).

Lemma lan8770_init_spec_witness :
  does (phy_init_conf 9 3 true) chip_table (fun rc t' l => rc = MEPA_RC_OK /\ t' = chip_table /\ set_up 3 true l).
Proof. exact (lan8770_init_spec 9 3 true chip_table). Defined.
Lemma tc10_wakeup_spec_witness :
  does (tc10_set 9 true 3 2) chip_table (fun rc t' l => exists x y,
    rc = MEPA_RC_OK /\ t' = <[3 := tc10_after true 2 chip_data]> chip_table /\
    (exists x' y', l = [BRd 3 1 0x24 x; BRd 3 1 0x20 y; BWr 3 1 0x24 x'; BWr 3 1 0x20 y'] /\
       edits [(15, true); (12, false)] x x' /\ edits [(15, true); (7, true)] y y') /\
    does (tc10_get true 3) t' (fun r t'' l => r = (MEPA_RC_OK, 2) /\ t'' = t' /\ l = [])).
Proof. exact (tc10_wakeup_spec 9 true 3 2 chip_table _ chip_3). Defined.
Lemma event_mask_overwritten_witness :
  does (lan8770_event_enable_set 3 2 0) chip_table (fun rc t' l =>
    rc = MEPA_RC_OK /\ l = [DWr 3 25 2] /\
    exists ev, t' = <[3 := set_pd_events ev chip_data]> chip_table /\
    forall i, 0 <= i < 32 -> Z.testbit ev i = if Z.testbit 2 i then false else Z.testbit (pd_events chip_data) i).
Proof. apply (event_mask_overwritten 3 2 0 chip_table _ chip_3). lia. Defined.
Lemma loopback_set_never_clears_witness :
  does (lan8770_loopback_set 9 3 (set_lb_far_end_ena 1 mepa_loopback_t_0)) chip_table (fun rc t' l =>
    rc = MEPA_RC_OK /\ t' = <[3 := set_pd_loopback (set_lb_far_end_ena 1 mepa_loopback_t_0) chip_data]> chip_table /\
    exists l1 l2 l3, l = l1 ++ l2 ++ l3 /\
    switch_ops 3 0 (lb_near_end_ena (pd_loopback chip_data)) 0 14 l1 /\
    switch_ops 3 1 (lb_far_end_ena (pd_loopback chip_data)) 18 9 l2 /\
    switch_ops 3 0 (lb_connector_ena (pd_loopback chip_data)) 18 0 l3).
Proof. exact (loopback_set_never_clears 9 3 (set_lb_far_end_ena 1 mepa_loopback_t_0) chip_table _ chip_3). Defined.
End Witnesses.
