(* ===== verification/Lan8770SqiSpec.v ===== *)
(** * Lan8770SqiSpec: the signal quality number of the LAN8770

    The sort of [phy_sqi_read] compares every pair of positions in one fixed
    direction, whatever their order; that it sorts at all is the theorem.  The
    number it computes is then a function of the sorted readings. *)

From Stdlib Require Import ZArith Lia List Bool.
From stdpp Require Import base list sorting.
From S2P Require Import Prelude Lan8770Diag.

(** ** Exchanging two elements *)
Section Exchange.
Context {A : Type} `{Inhabited A}.
Implicit Types l : list A.

Definition exchange (i j : nat) l : list A := <[j := l !!! i]> (<[i := l !!! j]> l).

Lemma exchange_length i j l : length (exchange i j l) = length l.
Proof. unfold exchange. by rewrite !length_insert. Qed.
Lemma exchange_lookup i j l k : (i < length l)%nat -> (j < length l)%nat ->
  exchange i j l !!! k = if decide (k = j) then l !!! i else if decide (k = i) then l !!! j else l !!! k.
Proof.
  intros Hi Hj. unfold exchange. destruct (decide (k = j)) as [->|].
  - apply list_lookup_total_insert_eq. by rewrite length_insert.
  - rewrite list_lookup_total_insert_ne by done. destruct (decide (k = i)) as [->|].
    + by apply list_lookup_total_insert_eq.
    + by rewrite list_lookup_total_insert_ne.
Qed.
Lemma exchange_perm i j l : (i < length l)%nat -> (j < length l)%nat -> exchange i j l ≡ₚ l.
Proof.
  intros Hi Hj. symmetry. apply Permutation_inj. split; [by rewrite exchange_length|].
  exists (fun k => if decide (k = i) then j else if decide (k = j) then i else k). split.
  - intros x y. repeat case_decide; intros; congruence.
  - intros k. destruct (decide (k < length l)%nat) as [Hk|Hk].
    + rewrite (list_lookup_lookup_total_lt l k) by done.
      rewrite list_lookup_lookup_total_lt by (rewrite exchange_length; repeat case_decide; lia).
      f_equal. rewrite exchange_lookup by done. repeat case_decide; subst; congruence.
    + rewrite !lookup_ge_None_2; [done| |lia]. rewrite exchange_length. repeat case_decide; lia.
Qed.
End Exchange.

(** ** The pass over the keys *)
Definition key_step (i : nat) (l : list Z) (j : nat) : list Z := if l !!! j >? l !!! i then exchange i j l else l.
Definition key_pass (n i : nat) (l : list Z) : list Z := fold_left (key_step i) (seq 0 n) l.
Definition key_sort (n : nat) (l : list Z) : list Z := fold_left (fun l i => key_pass n i l) (seq 0 n) l.


Section Pass.
Variable n : nat.

Lemma key_step_lookup i j l k : length l = n -> (i < n)%nat -> (j < n)%nat ->
  key_step i l j !!! k =
  if decide (l !!! j <= l !!! i) then l !!! k
  else if decide (k = j) then l !!! i else if decide (k = i) then l !!! j else l !!! k.
Proof.
  intros Hl Hi Hj. unfold key_step. destruct (Z.gtb_spec (l !!! j) (l !!! i)) as [Hg|Hg].
  - rewrite decide_False by lia. apply exchange_lookup; lia.
  - by rewrite decide_True.
Qed.
Lemma key_step_length i l j : length (key_step i l j) = length l.
Proof. unfold key_step. case_match; [apply exchange_length|done]. Qed.

(** The first [i] keys are in order, and the last of them is the largest of all. *)
Definition prefix_sorted (i : nat) (l : list Z) : Prop :=
  forall k k', (k <= k' < i)%nat -> l !!! k <= l !!! k'.
Definition largest_at (i : nat) (l : list Z) : Prop := forall k, (k < n)%nat -> l !!! k <= l !!! i.
Definition sorted_to (i : nat) (l : list Z) : Prop :=
  length l = n /\ prefix_sorted i l /\ (i <> 0%nat -> largest_at (i - 1) l).

(** In pass [i], after position [j]: the key carried at [i] is at least those
    passed, and the largest is still ahead until [j] has passed it. *)
Definition carrying (i j : nat) (l : list Z) : Prop :=
  length l = n /\ prefix_sorted i l /\
  (forall k, (k < j)%nat -> l !!! k <= l !!! i) /\
  ((j < i)%nat -> largest_at (i - 1) l) /\ ((i <= j)%nat -> i <> 0%nat -> largest_at i l).

Lemma carrying_step i j l : (i < n)%nat -> (j < n)%nat -> carrying i j l -> carrying i (S j) (key_step i l j).
Proof.
  intros Hi Hj (Hl & Hp & Hc & Hm & Hx). pose proof (fun k => key_step_lookup i j l k Hl Hi Hj) as E.
  split_and!.
  - by rewrite key_step_length.
  - intros k k' Hk. rewrite !E. case_decide as Hd; [apply Hp; lia|].
    pose proof (Hp k k' Hk). pose proof (Hp j k'). pose proof (Hp k j). pose proof (Hc k).
    repeat case_decide; subst; lia.
  - intros k Hk. rewrite !E. case_decide as Hd.
    + destruct (decide (k = j)) as [->|]; [done|]. apply Hc. lia.
    + assert (i <> j) by (intros ->; lia).
      rewrite (decide_False (P := i = j)), (decide_True (P := i = i)) by done.
      repeat case_decide; subst; try lia. pose proof (Hc k). lia.
  - intros Hji. specialize (Hm ltac:(lia)). intros k Hk. rewrite !E. case_decide as Hd; [by apply Hm|].
    rewrite (decide_False (P := (i - 1)%nat = j)), (decide_False (P := (i - 1)%nat = i)) by lia.
    repeat case_decide; subst; apply Hm; lia.
  - intros Hij Hi0. destruct (decide (i <= j)%nat) as [Hle|Hgt].
    + specialize (Hx Hle Hi0). intros k Hk. rewrite !E. rewrite !decide_True by (by apply Hx). by apply Hx.
    + assert (j = i - 1)%nat as -> by lia. specialize (Hm ltac:(lia)).
      intros k Hk. rewrite !E. case_decide as Hd.
      * specialize (Hm k Hk). lia.
      * rewrite (decide_False (P := i = (i - 1)%nat)), (decide_True (P := i = i)) by lia.
        repeat case_decide; subst; apply Hm; lia.
Qed.

Lemma key_pass_sorts i l : (i < n)%nat -> sorted_to i l -> sorted_to (S i) (key_pass n i l).
Proof.
  intros Hi (Hl & Hp & Hm).
  assert (carrying i n (key_pass n i l)) as (Hl' & Hp' & Hc & _ & Hx).
  { apply (fold_seq_ind (carrying i)); [|by intros; apply carrying_step].
    split_and!; [done|done|intros; lia|intros; apply Hm; lia|intros; lia]. }
  assert (largest_at i (key_pass n i l)) as Hlast.
  { intros k Hk. by apply Hc. }
  split_and!; [done| |].
  - intros k k' Hk. destruct (decide (k' = i)) as [->|]; [apply Hlast; lia|apply Hp'; lia].
  - intros _. by replace (S i - 1)%nat with i by lia.
Qed.

(** The whole loop sorts. *)
Lemma key_sort_sorted l : length l = n -> length (key_sort n l) = n /\ prefix_sorted n (key_sort n l).
Proof.
  intros Hl. assert (sorted_to n (key_sort n l)) as (? & ? & _); [|done].
  apply (fold_seq_ind sorted_to); [|by intros; apply key_pass_sorts].
  split_and!; [done|intros k k'; lia|done].
Qed.
End Pass.

Lemma prefix_sorted_Sorted l : prefix_sorted (length l) l -> Sorted Z.le l.
Proof.
  intros H. apply StronglySorted_Sorted. induction l as [|x l IH]; [constructor|].
  constructor.
  - apply IH. intros k k' Hk. apply (H (S k) (S k')). cbn. lia.
  - apply Forall_lookup. intros k y Hy. pose proof (lookup_lt_Some _ _ _ Hy).
    rewrite <- (list_lookup_total_correct l k y) by done. apply (H 0%nat (S k)). cbn. lia.
Qed.
Lemma key_step_perm n i l j : length l = n -> (i < n)%nat -> (j < n)%nat -> key_step i l j ≡ₚ l.
Proof. intros. unfold key_step. case_match; [apply exchange_perm; lia|done]. Qed.
Lemma key_sort_perm n l : length l = n -> length (key_sort n l) = n /\ key_sort n l ≡ₚ l.
Proof.
  intros Hl. apply (fold_seq_ind (fun _ l' => length l' = n /\ l' ≡ₚ l)); [done|].
  intros i l1 Hi H1. apply (fold_seq_ind (fun _ l' => length l' = n /\ l' ≡ₚ l)); [done|].
  intros j l2 Hj [H2 Hp]. split; [by rewrite key_step_length|]. by rewrite (key_step_perm n).
Qed.
Lemma key_sort_merge_sort n l : length l = n -> key_sort n l = merge_sort Z.le l.
Proof.
  intros Hl. apply (Sorted_unique Z.le).
  - destruct (key_sort_sorted n l Hl) as [Hl' Hs]. apply prefix_sorted_Sorted. by rewrite Hl'.
  - apply Sorted_merge_sort; apply _.
  - rewrite merge_sort_Permutation. by apply key_sort_perm.
Qed.

(** ** The two tables *)
Lemma zip_lookup_total (raw link : list Z) i : (i < length raw)%nat -> length raw = length link ->
  zip raw link !!! i = (raw !!! i, link !!! i).
Proof.
  intros Hi Hl. apply list_lookup_total_correct. apply lookup_zip_with_Some.
  exists (raw !!! i), (link !!! i). split_and!; [done| |]; apply list_lookup_lookup_total_lt; lia.
Qed.
Lemma zip_exchange i j (raw link : list Z) :
  (i < length raw)%nat -> (j < length raw)%nat -> length raw = length link ->
  zip (exchange i j raw) (exchange i j link) = exchange i j (zip raw link).
Proof.
  intros Hi Hj Hl. unfold exchange. rewrite !zip_lookup_total by done.
  by rewrite !insert_zip_with.
Qed.

(** What a step keeps: the readings are a step of the key sort, each with its
    link state. *)
Definition sorting (n : nat) (t : tables) (raw : list Z) (t' : tables) : Prop :=
  fst t' = raw /\ length raw = n /\ length (snd t') = n /\ zip raw (snd t') ≡ₚ zip (fst t) (snd t).
Lemma sqi_swap_sorting n t raw t' i j : (i < n)%nat -> (j < n)%nat ->
  sorting n t raw t' -> sorting n t (key_step i raw j) (sqi_swap i t' j).
Proof.
  intros Hi Hj (Hr & Hl & Hk & Hp). destruct t' as [raw' link]. cbn [fst snd] in *. subst raw'.
  unfold sqi_swap, key_step. case_match; [|by split_and!].
  change (<[j:=raw !!! i]> (<[i:=raw !!! j]> raw)) with (exchange i j raw).
  change (<[j:=link !!! i]> (<[i:=link !!! j]> link)) with (exchange i j link).
  split_and!; cbn [fst snd]; [done|by rewrite exchange_length..|].
  rewrite zip_exchange by lia. rewrite exchange_perm; [done|rewrite length_zip_with; lia..].
Qed.
Lemma sqi_sort_sorting n t : length (fst t) = n -> length (snd t) = n ->
  sorting n t (key_sort n (fst t)) (sqi_sort n t).
Proof.
  intros H1 H2. unfold sqi_sort, key_sort, key_pass.
  assert (forall (l : list nat), Forall (fun i => i < n)%nat l -> forall raw t', sorting n t raw t' ->
    sorting n t (fold_left (fun l i => fold_left (key_step i) (seq 0 n) l) l raw)
      (fold_left (fun t i => fold_left (sqi_swap i) (seq 0 n) t) l t')) as H.
  { induction 1 as [|i l Hi _ IH]; intros raw t' Ht; cbn [fold_left]; [done|]. apply IH. clear IH.
    assert (forall (l : list nat), Forall (fun i => i < n)%nat l -> forall raw t', sorting n t raw t' ->
      sorting n t (fold_left (key_step i) l raw) (fold_left (sqi_swap i) l t')) as H.
    { clear raw t' Ht l. induction 1 as [|j l Hj _ IH]; intros raw t' Ht; cbn [fold_left]; [done|].
      apply IH. by apply sqi_swap_sorting. }
    apply H; [|done]. apply Forall_seq. lia. }
  apply H; [apply Forall_seq; lia|]. by split_and!.
Qed.

(** C38. The double loop sorts: the readings come out as a merge sort would leave
    them, and every reading keeps the link state it was taken with. *)
Theorem sqi_sort_sorts (n : nat) (raw link : list Z) :
  length raw = n -> length link = n ->
  exists link', sqi_sort n (raw, link) = (merge_sort Z.le raw, link') /\ length link' = n /\
    zip (merge_sort Z.le raw) link' ≡ₚ zip raw link.
Proof.
  intros H1 H2. destruct (sqi_sort_sorting n (raw, link)) as (Hr & Hl & Hk & Hp); [done..|].
  cbn [fst snd] in *. rewrite key_sort_merge_sort in * by done.
  exists (snd (sqi_sort n (raw, link))). split_and!; [|done|done].
  by rewrite <- Hr, <- surjective_pairing.
Qed.

(** ** The averages *)
Definition sum (l : list Z) : Z := foldr Z.add 0 l.
Lemma sum_app l1 l2 : sum (l1 ++ l2) = sum l1 + sum l2.
Proof. unfold sum. induction l1 as [|x l1 IH]; cbn; [done|]. rewrite IH. lia. Qed.
Lemma sum_perm l1 l2 : l1 ≡ₚ l2 -> sum l1 = sum l2.
Proof. unfold sum. induction 1; cbn; lia. Qed.
Lemma sum_nonneg l : Forall (fun x => 0 <= x) l -> 0 <= sum l.
Proof. unfold sum. induction 1; cbn; lia. Qed.
Lemma sqi_sums_eq raw link : length raw = 200%nat -> length link = 200%nat ->
  sqi_sums (raw, link) = (sum (take 120 (drop 40 raw)), sum link).
Proof.
  intros H1 H2. unfold sqi_sums. cbn [fst snd].
  pose (P := fun (i : nat) (s : Z * Z) =>
    s = (sum (drop 40 (take (i `min` 160) raw)), sum (take i link))).
  assert (P 200%nat (fold_left (fun '(sqi, lk) i =>
    ((if ((40 <=? i) && (i <? 160))%nat then sqi + raw !!! i else sqi), lk + link !!! i)) (seq 0 200) (0, 0))) as H.
  { apply fold_seq_ind; [done|]. intros i [s1 s2] Hi [= -> ->]. unfold P. f_equal.
    - destruct (Nat.leb_spec 40 i), (Nat.ltb_spec i 160); cbn [andb].
      + rewrite !Nat.min_l by lia. rewrite (take_S_r raw i (raw !!! i)) by (apply list_lookup_lookup_total_lt; lia).
        rewrite drop_app_le by (rewrite length_take; lia). rewrite sum_app. cbn. lia.
      + by rewrite !Nat.min_r by lia.
      + rewrite !drop_ge; [done|rewrite length_take; lia..].
      + lia.
    - rewrite (take_S_r link i (link !!! i)) by (apply list_lookup_lookup_total_lt; lia).
      rewrite sum_app. cbn. lia. }
  unfold P in H. rewrite H, (take_ge link) by lia. by rewrite take_drop_commute.
Qed.

(** ** The number *)

(** The limits, from the worst quality to the best: the number says how many
    of them the average stays below. *)
Definition sqi_limits : list Z := [299; 237; 189; 150; 119; 94; 75].
Definition quality (average_times_120 : Z) : Z :=
  Z.of_nat (length (filter (fun limit => average_times_120 < limit * 120) sqi_limits)).
Lemma sqi_num_quality s : 0 <= s -> sqi_num s = quality s.
Proof.
  intros Hs. unfold sqi_num, quality, sqi_limits.
  rewrite !filter_cons, filter_nil.
  repeat match goal with |- context [decide (?a < ?b)] => destruct (decide (a < b)) end;
    repeat match goal with
    | |- context [?a <=? ?b] => destruct (Z.leb_spec a b); try lia
    | |- context [?a <? ?b] => destruct (Z.ltb_spec a b); try lia
    end; done.
Qed.
Lemma quality_bound s : 0 <= quality s <= 7.
Proof. unfold quality. pose proof (length_filter (fun limit => s < limit * 120) sqi_limits). change (length sqi_limits) with 7%nat in *. lia. Qed.
Lemma quality_antitone s s' : s <= s' -> quality s' <= quality s.
Proof.
  intros Hs. unfold quality. apply inj_le. generalize sqi_limits. intros l.
  induction l as [|x l IH]; [done|]. rewrite !filter_cons. repeat case_decide; cbn; lia.
Qed.

(** The number that two filled tables give: 0 as soon as the link was once down,
    and otherwise by the average of the 120 readings in the middle. *)
Definition sqi_spec (raw : list Z) (link : list bool) : Z :=
  if forallb id link then quality (sum (take 120 (drop 40 (merge_sort Z.le raw)))) else 0.

Lemma links_le link : sum (map cb link) <= Z.of_nat (length link).
Proof. unfold sum. induction link as [|[] link IH]; cbn [map foldr length cb]; lia. Qed.
Lemma sum_links link : sum (map cb link) = Z.of_nat (length link) <-> forallb id link = true.
Proof.
  induction link as [|[] link IH]; [done| |].
  - cbn [forallb id andb]. rewrite <- IH. unfold sum. cbn [map foldr length cb]. lia.
  - split; [|done]. intros H. exfalso. pose proof (links_le link). unfold sum in *. cbn [map foldr length cb] in H. lia.
Qed.
Lemma sqi_result_spec raw link :
  length raw = 200%nat -> length link = 200%nat -> Forall (fun v => 0 <= v) raw ->
  sqi_result (raw, map cb link) = sqi_spec raw link.
Proof.
  intros H1 H2 Hr. unfold sqi_result, sqi_spec.
  destruct (sqi_sort_sorting 200 (raw, map cb link)) as (E1 & L1 & L2 & Hp);
    [done|by cbn [snd]; rewrite length_map|].
  cbn [fst snd] in *. rewrite key_sort_merge_sort in * by done.
  rewrite (surjective_pairing (sqi_sort 200 _)), E1, sqi_sums_eq by done.
  assert (sum (snd (sqi_sort 200 (raw, map cb link))) = sum (map cb link)) as ->.
  { apply sum_perm. apply (Permutation_map snd) in Hp.
    rewrite !snd_zip in Hp by (rewrite ?length_map; lia). exact Hp. }
  pose proof (sum_links link) as Hs. rewrite H2 in Hs.
  destruct (forallb id link) eqn:Hf.
  - rewrite (proj2 Hs) by done. change (Z.of_nat 200 <? 1 * 200) with false. cbv iota.
    apply sqi_num_quality. apply sum_nonneg. apply Forall_take, Forall_drop.
    by rewrite merge_sort_Permutation.
  - pose proof (links_le link). rewrite H2 in *. destruct (Z.ltb_spec (sum (map cb link)) (1 * 200)); [done|].
    exfalso. assert (false = true); [|done]. apply Hs. lia.
Qed.

Lemma sqi_sort_sorts_witness :
  exists link', sqi_sort 3 ([30; 10; 20], [1; 0; 1]) = (merge_sort Z.le [30; 10; 20], link') /\ length link' = 3%nat /\
    zip (merge_sort Z.le [30; 10; 20]) link' ≡ₚ zip [30; 10; 20] [1; 0; 1].
Proof. exact (sqi_sort_sorts 3 [30; 10; 20] [1; 0; 1] eq_refl eq_refl). Defined.
