(* ===== verification/Lan8770DiagSpec.v ===== *)
(** * Lan8770DiagSpec: signal quality and cable diagnosis of the LAN8770

    What [lan8770_sqi_read] makes of the registers, and what a cable diagnosis
    reports. *)

From Stdlib Require Import ZArith Lia List Bool String.
From Stdlib Require Import Floats.SpecFloat.
From stdpp Require Import base gmap strings list sorting.
From S2P Require Import Prelude Machine Trace Enums Lan8814Types PhyLib Lan8770Regs Lan8770 Lan8770Diag Lan8770Api.
From S2P Require Import Lan8770Trace Lan8770Spec Lan8770SqiSpec.

(** ** Reading the signal quality *)

(** The link as the samples of registers 10 and 17 show it. *)
Definition links (l : list op) : list bool := zip_with link_up (seen 0 10 l) (seen 0 17 l).
Definition raw_of (l : list op) : list Z := seen 4 0x83 l.

(** What [n] readings leave in a log. *)
Definition sampled (n : nat) (l : list op) : Prop :=
  length (raw_of l) = n /\ length (seen 0 10 l) = n /\ length (seen 0 17 l) = n /\
  seen 4 4 l = [] /\ seen 4 0x2E l = [] /\ Forall (fun v => 0 <= v) (raw_of l).
Definition reading_ops (dev v a b : Z) (l : list op) : Prop :=
  exists x y c e, l = [BRd dev 4 0x0D x; BWr dev 4 0x0D y; BRd dev 4 0x83 v] ++ link_ops dev a b c e.

Section Sqi.
Context {B : Type} {CO : Callout B} {OK : BusOk CO} {READY : ReadyBus CO}.
Variable fuel : nat.
Local Abbreviation table := (gmap Z phy_data_t).
Local Abbreviation does := (does (B := B) (D := phy_data_t) (acc := op)).

Lemma sampled_cons n dev v a b l1 l : 0 <= v -> reading_ops dev v a b l1 -> sampled n l ->
  sampled (S n) (l1 ++ l) /\ raw_of (l1 ++ l) = v :: raw_of l /\ links (l1 ++ l) = link_up a b :: links l.
Proof.
  intros Hv (x & y & c & e & ->) (H1 & H2 & H3 & H4 & H5 & H6). unfold sampled, raw_of, links in *.
  rewrite !seen_app. cbn. rewrite H1, H2, H3. by repeat constructor.
Qed.
(** The last of some values, or what there was before them. *)
Lemma last_cons_or {A} (x d : A) l : List.last (x :: l) d = List.last l x.
Proof. revert x d. induction l as [|y l IH]; intros x d; [done|]. change (List.last (y :: l) d = List.last (y :: l) x). by rewrite !IH. Qed.
Lemma map_last (f : bool -> Z) l u : List.last (map f l) (f u) = f (List.last l u).
Proof. revert u. induction l as [|x l IH]; intros u; [done|]. cbn [map]. rewrite !last_cons_or. apply IH. Qed.
Lemma insert_next {A} (l1 l2 : list A) x y i : length l1 = i -> <[i := y]> (l1 ++ x :: l2) = (l1 ++ [y]) ++ l2.
Proof. intros <-. rewrite insert_app_r_alt, Nat.sub_diag, <- app_assoc by lia. done. Qed.

Lemma does_readings dev n : forall i (r1 r2 k1 k2 : list Z) temp status fail k (t : table) d
    (Q : Z * Z -> table -> list op -> Prop),
  length r1 = i -> length k1 = i -> length r2 = n -> length k2 = n -> t !! dev = Some d ->
  (forall l, sampled n l ->
    does (k (r1 ++ raw_of l, k1 ++ map cb (links l)))
      (<[dev := set_pd_link_status (List.last (map cb (links l)) (pd_link_status d)) d]> t)
      (fun r t' l' => Q r t' (l ++ l'))) ->
  does (sqi_readings fuel dev n i (r1 ++ r2, k1 ++ k2) temp status fail k) t Q.
Proof.
  induction n as [|n IH]; intros i r1 r2 k1 k2 temp status fail k t d Q L1 L2 L3 L4 Hd HQ; cbn [sqi_readings].
  { destruct r2, k2; try done. rewrite <- (insert_id t dev d) by done.
    replace d with (set_pd_link_status (pd_link_status d) d) by (by destruct d).
    eapply does_mono; [by apply (HQ [])|]. done. }
  destruct r2 as [|x2 r2], k2 as [|y2 k2]; try done. unfold sqi_poke, or_return, reading.
  apply does_bind, does_bank_mod; [done|]. intros x _. change (negb (0 =? MEPA_RC_OK)) with false. cbv iota.
  apply does_bind, does_bank_rd; [done|]. intros v Hv. change (negb (0 =? MEPA_RC_OK)) with false. cbv iota.
  cbn [fst snd]. apply does_bind. eapply does_link; [done|]. intros a b c e.
  change (negb (0 =? MEPA_RC_OK)) with false. cbv iota. rewrite !insert_next by done.
  replace (st_link (status_after (link_up a b) d status)) with (cb (link_up a b))
    by (by destruct (link_up a b), status).
  eapply IH; rewrite ?length_app; cbn [length] in *; try lia; [apply lookup_insert_eq|]. intros l Hl.
  rewrite insert_insert_eq. set (l1 := [BRd dev 4 0x0D x; BWr dev 4 0x0D (modified x 1 1)] ++
    [BRd dev 4 0x83 v] ++ link_ops dev a b c e).
  destruct (sampled_cons n dev v a b l1 l) as (Hs & Er & El); [lia|by eexists x, _, c, e|done|].
  specialize (HQ _ Hs). rewrite Er, El in HQ. cbn [map] in HQ. rewrite last_cons_or in HQ. rewrite <- !app_assoc. cbn [app] in *.
  eapply does_mono; [exact HQ|]. done.
Qed.

(** C37. Reading the signal quality, on a bus without errors and a chip that is
    never busy ([ReadyBus]).  It needs a chip that was set up.  The link is
    sampled first, from registers 10 and 17: when it is down the quality is 0.
    Otherwise the measurement is configured, and unless the chip reads the
    configuration back ([MEPA_RC_INCOMPLETE]) 200 readings are taken, each with
    a sample of the link: the quality is 0 if one of them shows the link down,
    and otherwise that of the average of the 120 readings in the middle.  The
    link status that is kept is what the last sample found, and no other data
    change. *)
Theorem sqi_read_spec dev cur (t : table) d : t !! dev = Some d ->
  does (lan8770_sqi_read fuel dev cur) t (fun r t' l =>
    if negb (tb (pd_init_done d)) then r = (MEPA_RC_INV_STATE, cur) /\ t' = t /\ l = [] else
    exists up ups, links l = up :: ups /\ t' = <[dev := set_pd_link_status (cb (List.last ups up)) d]> t /\
    if up then exists v, seen 4 4 l = [0x16D6] /\ seen 4 0x2E l = [0x9572; v] /\
      if v =? 0x9572 then length (raw_of l) = 200%nat /\ length ups = 200%nat /\
        r = (MEPA_RC_OK, sqi_spec (raw_of l) ups)
      else r = (MEPA_RC_INCOMPLETE, 0) /\ ups = []
    else r = (MEPA_RC_OK, 0) /\ ups = []).
Proof.
  intros Hd. apply does_bind, does_enter. cbn [app]. apply does_bind. unfold phy_sqi_read.
  apply does_bind. eapply does_data_of; [done|]. cbn [app].
  destruct (negb (tb (pd_init_done d))); [by apply does_ret, does_bind, does_exit, does_ret|].
  apply does_bind. eapply does_link; [done|]. intros a b c e. change (negb (0 =? MEPA_RC_OK)) with false. cbv iota.
  replace (st_link (status_after (link_up a b) d mepa_status_t_0)) with (cb (link_up a b))
    by (by destruct (link_up a b)).
  destruct (link_up a b) eqn:Hup; [change (cb true =? LAN8770_LINKUP) with true|change (cb false =? LAN8770_LINKUP) with false];
    cbv iota; cycle 1.
  { apply does_ret, does_bind, does_exit, does_ret. exists false, []. unfold links. cbn. by rewrite Hup. }
  unfold or_return, reading, sqi_poke.
  apply does_bind, does_bank_wr; [done|]. change (negb (0 =? MEPA_RC_OK)) with false. cbv iota.
  apply does_bind, does_bank_wr; [done|]. change (negb (0 =? MEPA_RC_OK)) with false. cbv iota.
  apply does_bind, does_bank_rd; [done|]. intros v Hv. change (negb (0 =? MEPA_RC_OK)) with false. cbv iota.
  destruct (v =? 0x9572) eqn:Ev; cbn [negb]; cycle 1.
  { apply does_ret, does_bind, does_exit, does_ret. exists true, []. unfold links. cbn. rewrite Hup.
    split_and!; [done|done|]. exists v. by rewrite Ev. }
  apply does_bind, does_bank_mod; [done|]. intros x _. change (negb (0 =? MEPA_RC_OK)) with false. cbv iota.
  apply does_bind, does_msleep.
  apply (does_readings dev 200 0 [] (repeat 0 200) [] (repeat 0x0101 200) v _ _ _ _ (set_pd_link_status (cb true) d));
    [done..|apply lookup_insert_eq|].
  intros l (H1 & H2 & H3 & H4 & H5 & H7). cbn [app]. apply does_ret, does_bind, does_exit, does_ret.
  rewrite !app_nil_r, insert_insert_eq.
  change (link_ops dev a b c e ++ ?o1 :: ?o2 :: ?o3 :: ?o4 :: ?o5 :: l) with ((link_ops dev a b c e ++ [o1; o2; o3; o4; o5]) ++ l).
  exists true, (links l).
  assert (length (links l) = 200%nat) as H6 by (unfold links; rewrite length_zip_with, H2, H3; done).
  rewrite sqi_result_spec by done. set (p := link_ops dev a b c e ++ _).
  assert (seen 4 4 (p ++ l) = [0x16D6] /\ seen 4 0x2E (p ++ l) = [0x9572; v] /\ raw_of (p ++ l) = raw_of l /\ links (p ++ l) = true :: links l)
    as (-> & -> & -> & ->).
  { unfold raw_of, links. rewrite !seen_app, H4, H5. cbn. by rewrite Hup. }
  split_and!; [done|by rewrite <- map_last|]. exists v. by rewrite Ev.
Qed.
End Sqi.

(** ** What the cable diagnosis reports *)

(** The status and the length of [cable_results]; [None] where the distance
    cannot be converted to [uint8_t]. *)
Definition cable_report (posPeak negPeak posPeakTime negPeakTime : Z) : option (Z * Z) :=
  let '(detect, distance) := cable_fault posPeak negPeak posPeakTime negPeakTime in
  option_map (fun length => (cable_status detect, length .& 0xFF)) (uint8_of distance).
(** A peak time is 7 bits of cycles, of 96 phases each, and 7 bits of phases. *)
Definition phases (peakTime : Z) : Z := (peakTime / 128) mod 128 * 96 + peakTime mod 128.
(** A decimal number with [k] digits behind the point as a [double]. *)
Definition decimal (m k : Z) : spec_float := SFdiv 53 1024 (double_of m) (double_of (10 ^ k)).
(** The way there of an echo that comes back after [n] phases, in metres, at
    0.6811 times the speed of light: [double] products rounded to [float]. *)
Definition echo_metres (n : Z) : spec_float :=
  let velocity := to_float (double_mul (decimal 6811 4) (decimal 29979 4)) in
  to_float (double_mul (double_mul (double_mul (double_mul (double_of n) (decimal 1562499 4)) (decimal 1 4)) velocity)
    (decimal 5 1)).
(** A fault of status [s] whose echo comes back after [n] phases: it is reported
    with its distance in whole metres, as a byte, if that is below 35 m, and a
    fine cable otherwise. *)
Definition fault_at (s n : Z) : option (Z * Z) :=
  if SFltb (echo_metres n) (float_of 35) then option_map (fun length => (s, length mod 256)) (uint8_of (echo_metres n))
  else Some (MESA_VERIPHY_STATUS_OK, 0).

Lemma distance_echo n : distance_of n = echo_metres n.
Proof.
  unfold distance_of, echo_metres, wavePropagationVelocity.
  assert (decimal 6811 4 = c_0_6811 /\ decimal 29979 4 = c_2_9979 /\ decimal 1562499 4 = c_156_2499 /\
    decimal 1 4 = c_0_0001 /\ decimal 5 1 = c_0_5) as (-> & -> & -> & -> & ->) by (vm_compute; auto). done.
Qed.
Lemma phases_eq x : peak_in_phases x = phases x /\ 0 <= phases x.
Proof.
  unfold peak_in_phases, phases. change 0x7F with (Z.ones 7). rewrite !Z.land_ones, Z.shiftr_div_pow2 by lia.
  change (2 ^ 7) with 128. pose proof (Z.mod_pos_bound (x / 128) 128). pose proof (Z.mod_pos_bound x 128).
  split; [apply u16_small|]; lia.
Qed.

(** C39. The verdict on the five results of the chip, of which four count.
    Unless both peaks exceed the noise margin of 20, the cable is fine.
    Otherwise the order of the peaks decides: the negative one 96 to 184 phases
    before the positive one is a short, and the positive one as long before the
    negative one is an open cable, at the distance of the earlier peak, which is
    its phases times 0.01562499 * 0.6811 * 2.9979 / 2 metres in the rounding of
    C.  This holds for distances below 35 m; at 35 m or more a fine cable is
    reported.  When the peaks are neither the distance is -1, which passes for a
    fault in range, and converting it to [uint8_t] is undefined. *)
Theorem cable_verdict posPeak negPeak posPeakTime negPeakTime :
  cable_report posPeak negPeak posPeakTime negPeakTime =
  let p := phases posPeakTime in let q := phases negPeakTime in
  if (posPeak <=? 20) || (negPeak <=? 20) then Some (MESA_VERIPHY_STATUS_OK, 0)
  else if (96 <=? p - q) && (p - q <=? 184) then fault_at MESA_VERIPHY_STATUS_SHORT q
  else if (96 <=? q - p) && (q - p <=? 184) then fault_at MESA_VERIPHY_STATUS_OPEN p
  else None.
Proof.
  unfold cable_report, cable_fault, classify_peaks. cbv zeta.
  destruct (phases_eq posPeakTime) as [-> Hp]. destruct (phases_eq negPeakTime) as [-> Hq].
  set (p := phases posPeakTime) in *. set (q := phases negPeakTime) in *.
  change noiseMargin with 20. change minTimeDifference with 96. change maxTimeDifference with 185.
  change posPeakInPhasesHybrid with 0. change jitterVariation with 30. rewrite !Z.sub_0_r.
  assert (((p >? q) && (p - q >=? 96) && (p - q <? 185) && (0 <? p) && (0 <? q + 30)) =
          ((96 <=? p - q) && (p - q <=? 184))) as -> by lia.
  assert (((q >? p) && (q - p >=? 96) && (q - p <? 185) && (0 <? q) && (0 <? p + 30)) =
          ((96 <=? q - p) && (q - p <=? 184))) as -> by lia.
  assert ((posPeak <=? 20) || (negPeak <=? 20) = negb ((posPeak >? 20) && (negPeak >? 20))) as -> by lia.
  assert (forall s n, (s =? 1) || (s =? 2) = true ->
    (let '(detect, distance) := if SFltb (distance_of n) (float_of maxDistance) && ((s =? 1) || (s =? 2))
                                then (s, distance_of n) else (0, float_of 0) in
     option_map (fun length => (cable_status detect, length .& 0xFF)) (uint8_of distance)) = fault_at (cable_status s) n) as HF.
  { intros s n ->. unfold fault_at. change maxDistance with 35. rewrite distance_echo. rewrite andb_true_r.
    destruct (SFltb _ _); [|done]. destruct (uint8_of (echo_metres n)) as [x|]; [|done]. cbn [option_map].
    change 0xFF with (Z.ones 8). by rewrite Z.land_ones. }
  destruct ((posPeak >? 20) && (negPeak >? 20)); cbn [negb andb].
  - destruct ((96 <=? p - q) && (p - q <=? 184)); [by apply (HF 2 q)|].
    destruct ((96 <=? q - p) && (q - p <=? 184)); [by apply (HF 1 p)|done].
  - destruct ((96 <=? p - q) && (p - q <=? 184)); [|destruct ((96 <=? q - p) && (q - p <=? 184))]; done.
Qed.

(** Where the range ends; an open cable at 10.4 m; two peaks that do not belong together. *)
Example fault_range : fault_at MESA_VERIPHY_STATUS_OPEN 2194 = Some (MESA_VERIPHY_STATUS_OPEN, 34) /\
  fault_at MESA_VERIPHY_STATUS_OPEN 2195 = Some (MESA_VERIPHY_STATUS_OK, 0).
Proof. vm_compute. auto. Qed.
Example cable_open : cable_report 100 80 (6 * 128 + 76) (8 * 128 + 4) = Some (MESA_VERIPHY_STATUS_OPEN, 10).
Proof. vm_compute. reflexivity. Qed.
Example cable_undefined : cable_report 100 80 (6 * 128) (6 * 128) = None.
Proof. vm_compute. reflexivity. Qed.

(** ** Witnesses *)
Lemma sqi_read_spec_witness :
  does (B := list Z) (acc := op) (lan8770_sqi_read (CO := tape true) 9 4 7) chip_table (fun r t' l =>
    exists up ups, links l = up :: ups /\
    t' = <[4 := set_pd_link_status (cb (List.last ups up)) (set_pd_init_done TRUE chip_data)]> chip_table /\
    if up then exists v, seen 4 4 l = [0x16D6] /\ seen 4 0x2E l = [0x9572; v] /\
      if v =? 0x9572 then length (raw_of l) = 200%nat /\ length ups = 200%nat /\
        r = (MEPA_RC_OK, sqi_spec (raw_of l) ups)
      else r = (MEPA_RC_INCOMPLETE, 0) /\ ups = []
    else r = (MEPA_RC_OK, 0) /\ ups = []).
Proof. exact (sqi_read_spec (CO := tape true) 9 4 7 chip_table _ chip_4). Defined.
