(* ===== verification/Lan8770PoolSpec.v ===== *)
(** * Lan8770PoolSpec: the nine devices of the LAN8770 driver

    [mepa_create] through the driver's table, and [lan8770_delete]. *)

From Stdlib Require Import ZArith Lia List Bool String.
From stdpp Require Import base gmap strings list.
From S2P Require Import Prelude Machine MepaCore Enums Lan8814Types PhyLib Lan8770Regs Lan8770 Lan8770Diag Lan8770Api.

Section Pool.
Context {B : Type} {CO : Callout B}.
Notation table := (gmap Z phy_data_t).
Local Abbreviation W := (world B phy_data_t).

(** The slots all exist; [r] is the first from [p] on that is not in use. *)
Definition slots (t : table) : Prop := forall i, 0 <= i < 9 -> is_Some (t !! i).
Definition used (t : table) (i : Z) : Prop := exists d, t !! i = Some d /\ tb (pd_ctx_status d) = true.
Definition first_free (t : table) (p : Z) (r : option Z) : Prop :=
  match r with
  | Some i => p <= i < 9 /\ ~ used t i /\ forall j, p <= j < i -> used t j
  | None => forall j, p <= j < 9 -> used t j
  end.
Definition taken (h : Z) (r : option Z) (t : table) : table :=
  match r with Some i => alter (probe_data h) i t | None => t end.

Lemma first_free_unique t p r r' : first_free t p r -> first_free t p r' -> r = r'.
Proof.
  destruct r as [i|], r' as [j|]; cbn; [|naive_solver..].
  intros (Hi & Ni & Ui) (Hj & Nj & Uj). f_equal.
  destruct (Z.lt_trichotomy i j) as [H|[H|H]]; [|done|]; exfalso; [apply Ni, Uj|apply Nj, Ui]; lia.
Qed.

Lemma probe_slots_eq h (w : W) : slots (w_data w) -> forall n p, 0 <= p -> p + Z.of_nat n = 9 ->
  exists r, first_free (w_data w) p r /\
    probe_slots n p h w = Some (r, World (w_bus w) (taken h r (w_data w)) (w_log w)).
Proof.
  intros Hs. induction n as [|n IH]; intros p Hp Hn; cbn [probe_slots].
  { exists None. split; [|by destruct w]. cbn. lia. }
  destruct (Hs p ltac:(lia)) as [d Hd]. unfold bind at 1, data_of. rewrite Hd.
  destruct (tb (pd_ctx_status d)) eqn:Hu.
  - destruct (IH (p + 1) ltac:(lia) ltac:(lia)) as (r & Hr & E). exists r. split; [|done].
    assert (used (w_data w) p) as Up by (by exists d).
    destruct r as [i|]; cbn in *.
    + destruct Hr as (Hi & Ni & Ui). split_and!; [lia|lia|done|]. intros j Hj.
      destruct (Z.eq_dec j p) as [->|]; [done|]. apply Ui. lia.
    + intros j Hj. destruct (Z.eq_dec j p) as [->|]; [done|]. apply Hr. lia.
  - exists (Some p). split.
    + cbn. split_and!; [lia|lia| |lia]. intros (d' & Hd' & Hu'). congruence.
    + unfold bind, upd. rewrite Hd. cbn [taken]. unfold ret. do 3 f_equal.
      apply map_eq. intros k. destruct (decide (k = p)) as [->|].
      * by rewrite lookup_insert_eq, lookup_alter_eq, Hd.
      * by rewrite lookup_insert_ne, lookup_alter_ne.
Qed.

(** The driver's rows in [mepa_create]; a full pool is asked once for each row
    that matches. *)
Definition lan8770_create (h phy_id : Z) (w : W) : option Z * W :=
  mepa_create (fun _ w => default (None, w) (lan8770_probe h w)) (fun w => (phy_id, w)) 0 [mepa_lan8770_driver_init] w.

Lemma create_family_same {W' Dev} (probe : mepa_driver_t -> W' -> option Dev * W') phy_id drvs w r w1 :
  (forall d, probe d w = (r, w1)) -> (r = None -> w1 = w) ->
  create_family probe phy_id drvs w = if existsb (drv_matches phy_id) drvs then (r, w1) else (None, w).
Proof.
  intros E HN. induction drvs as [|d drvs IH]; cbn [create_family existsb]; [done|].
  destruct (drv_matches phy_id d); cbn [orb]; [|done]. rewrite E. destruct r as [i|]; [done|].
  rewrite HN, IH by done. rewrite HN by done. by destruct (existsb _ _).
Qed.

(** C36. Creating a device of an identifier of this family touches no register.
    It gives the first slot that is not in use, which then is in use with its
    defaults, or NULL when all nine are, which changes nothing.  Deleting the
    device makes its slot the first free one again. *)
Theorem lan8770_create_delete h phy_id (w : W) :
  slots (w_data w) -> existsb (drv_matches phy_id) mepa_lan8770_driver_init = true ->
  exists r, first_free (w_data w) 0 r /\
    lan8770_create h phy_id w = (r, World (w_bus w) (taken h r (w_data w)) (w_log w)) /\
    forall i, r = Some i -> used (taken h r (w_data w)) i /\
      exists w', lan8770_delete i (snd (lan8770_create h phy_id w)) = Some (MEPA_RC_OK, w') /\
        slots (w_data w') /\ first_free (w_data w') 0 (Some i).
Proof.
  intros Hs Hid. destruct (probe_slots_eq h w Hs (Z.to_nat MAX_LAN8770_PHY) 0) as (r & Hr & E); [lia|done|].
  exists r. assert (lan8770_create h phy_id w = (r, World (w_bus w) (taken h r (w_data w)) (w_log w))) as EC.
  { unfold lan8770_create, mepa_create. change (0 >? 0) with false. cbv iota. cbn [create_search].
    rewrite (create_family_same _ phy_id _ w r (World (w_bus w) (taken h r (w_data w)) (w_log w))), Hid;
      [by destruct r|intros d; unfold lan8770_probe; by rewrite E|intros ->; by destruct w]. }
  split_and!; [done|done|]. intros i ->. rewrite EC. cbn [snd taken]. destruct Hr as (Hi & Ni & Ui).
  destruct (Hs i ltac:(lia)) as [d Hd]. split.
  { exists (probe_data h d). by rewrite lookup_alter_eq, Hd. }
  assert (forall t l, exists l', mepa_enter (World (w_bus w) t l : W) = Some (tt, World (w_bus w) t l')) as HE.
  { intros t l. unfold mepa_enter. destruct lock_enter; by eexists. }
  assert (forall t l, exists l', mepa_exit (World (w_bus w) t l : W) = Some (tt, World (w_bus w) t l')) as HX.
  { intros t l. unfold mepa_exit. destruct lock_exit; by eexists. }
  unfold lan8770_delete, locked. destruct (HE (alter (probe_data h) i (w_data w)) (w_log w)) as (l1 & E1).
  rewrite (bind_eq _ _ _ _ _ E1). unfold bind at 1 2, upd. cbn [w_data w_bus w_log].
  rewrite lookup_alter_eq, Hd. cbn [fmap option_fmap option_map]. unfold ret at 1.
  destruct (HX (<[i:=phy_data_0]> (alter (probe_data h) i (w_data w))) l1) as (l2 & E2).
  rewrite (bind_eq _ _ _ _ _ E2). eexists. split; [done|]. cbn [w_data].
  assert (forall j, j <> i -> <[i:=phy_data_0]> (alter (probe_data h) i (w_data w)) !! j = w_data w !! j) as Hne.
  { intros j Hj. by rewrite lookup_insert_ne, lookup_alter_ne. }
  split.
  - intros j Hj. destruct (decide (j = i)) as [->|]; [by rewrite lookup_insert_eq|]. rewrite Hne by done. by apply Hs.
  - split_and!; [lia|lia| |].
    + intros (d' & Hd' & Hu). rewrite lookup_insert_eq in Hd'. by injection Hd' as <-.
    + intros j Hj. destruct (Ui j Hj) as (d' & Hd' & Hu). exists d'. by rewrite Hne by lia.
Qed.
End Pool.

Definition empty_pool : gmap Z phy_data_t := list_to_map (map (fun i => (i, phy_data_0)) (seqZ 0 9)).
#[local] Instance no_callouts : Callout unit := {|
  miim_read := None; miim_write := None; lock_enter := false; lock_exit := false; uninit := fun _ => 0 |}.
Lemma lan8770_create_delete_witness :
  (slots empty_pool /\ existsb (drv_matches LAN8770_PHY_ID) mepa_lan8770_driver_init = true) /\
  exists r, first_free empty_pool 0 r /\
    lan8770_create 5 LAN8770_PHY_ID (World tt empty_pool []) = (r, World tt (taken 5 r empty_pool) []) /\ r = Some 0.
Proof.
  assert (slots empty_pool) as Hs.
  { intros i Hi. assert (i = 0 \/ i = 1 \/ i = 2 \/ i = 3 \/ i = 4 \/ i = 5 \/ i = 6 \/ i = 7 \/ i = 8) as H by lia.
    repeat (destruct H as [->|H]; [by eexists; vm_compute|]). subst i. by eexists; vm_compute. }
  split; [split; [exact Hs|reflexivity]|].
  destruct (lan8770_create_delete 5 LAN8770_PHY_ID (World tt empty_pool []) Hs eq_refl) as (r & Hr & E & _).
  exists r. split; [exact Hr|]. split; [exact E|]. apply (first_free_unique empty_pool 0); [exact Hr|].
  split; [lia|]. split; [|lia]. intros (d & Hd & Hu). vm_compute in Hd. injection Hd as <-. discriminate Hu.
Defined.
