(* ===== verification/Lan80xxRegs.v ===== *)
(** * Lan80xxRegs: constants of the LAN80xx

    The address ranges and target numbers of [lan80xx_regs_util.h], and the
    mailbox constants, commands and error codes of [lan80xx_mcu.h] and
    [lan80xx_types.h] that the register access and the mailbox use, under
    their own names. *)

From Stdlib Require Import ZArith.
From S2P Require Import Prelude.

Definition LAN80XX_16_BIT_SHIFT : Z := 16.
Definition LAN80XX_32_BIT_SHIFT : Z := 32.
Definition MMD_ID_GPIO_CTRL : Z := 0x1E.
Definition MMD_ID_MCU_MAILBOX : Z := 0x1E.
Definition LAN80XX_TARGET_ID_LINE_PMA : Z := 0x01.
Definition LAN80XX_TARGET_ID_LINE_PCS25G : Z := 0x03.
Definition LAN80XX_TARGET_ID_LINE_RS_FEC : Z := 0x13.
Definition LAN80XX_TARGET_ID_LINE_PCS_CFG : Z := 0x07.
Definition LAN80XX_TARGET_ID_LINE_KR : Z := 0x08.
Definition LAN80XX_TARGET_ID_LINE_INTR_CTRL : Z := 0x09.
Definition LAN80XX_TARGET_ID_LINE_MAC : Z := 0x0E.
Definition LAN80XX_TARGET_ID_SFP_TWS : Z := 0x0F.
Definition LAN80XX_TARGET_ID_LINE_PMA_8BIT : Z := 0x10.
Definition LAN80XX_TARGET_ID_PKT_BIST : Z := 0x11.
Definition LAN80XX_TARGET_ID_MAC_FC_BUFFER : Z := 0x0C.
Definition LAN80XX_TARGET_ID_HOST_MAC : Z := 0x0D.
Definition LAN80XX_TARGET_ID_LINE_SLICE : Z := 0x12.
Definition LAN80XX_TARGET_ID_HOST_PMA : Z := 0x41.
Definition LAN80XX_TARGET_ID_HOST_PCS25G : Z := 0x43.
Definition LAN80XX_TARGET_ID_HOST_RS_FEC : Z := 0x53.
Definition LAN80XX_TARGET_ID_HOST_PCS_CFG : Z := 0x47.
Definition LAN80XX_TARGET_ID_HOST_KR : Z := 0x48.
Definition LAN80XX_TARGET_ID_HOST_INTR_CTRL : Z := 0x49.
Definition LAN80XX_TARGET_ID_HOST_PMA_8BIT : Z := 0x50.
Definition LAN80XX_TARGET_ID_HOST_SLICE : Z := 0x52.
Definition LAN80XX_TARGET_ID_PTP_PROC : Z := 0x62.
Definition LAN80XX_TARGET_ID_PTP_ANA0_INGR_CFG : Z := 0x64.
Definition LAN80XX_TARGET_ID_PTP_ANA0_EGR_CFG : Z := 0x65.
Definition LAN80XX_TARGET_ID_PTP_ANA1_INGR_CFG : Z := 0x66.
Definition LAN80XX_TARGET_ID_PTP_ANA1_EGR_CFG : Z := 0x67.
Definition LAN80XX_TARGET_ID_PTP_ANA2_INGR_CFG : Z := 0x68.
Definition LAN80XX_TARGET_ID_PTP_ANA2_EGR_CFG : Z := 0x69.
Definition LAN80XX_TARGET_ID_MACSEC_INGR : Z := 0x0A.
Definition LAN80XX_TARGET_ID_MACSEC_INGR_CORE : Z := 0xAA.
Definition LAN80XX_TARGET_ID_MACSEC_EGR : Z := 0x0B.
Definition LAN80XX_TARGET_ID_MACSEC_EGR_CORE : Z := 0xBB.
Definition LAN80XX_TARGET_ID_PTP_LTC : Z := 0x60.
Definition LAN80XX_TARGET_ID_PTP_STI : Z := 0x63.
Definition LAN80XX_TARGET_ID_GLOBAL : Z := 0x61.
Definition LAN80XX_TARGET_ID_CROSS_CONNECT : Z := 0x6D.
Definition LAN80XX_TARGET_ID_GPIO_CTRL : Z := 0x6E.
Definition LAN80XX_TARGET_ID_CLK_CFG : Z := 0x70.
Definition LAN80XX_TARGET_ID_MCU_MAILBOX : Z := 0x1E.
Definition LAN80XX_TARGET_ID_MCU_IO_MNGT_MISC : Z := 0x7E.
Definition LAN80XX_LINE_PMA_PMA_STD_END_ADDR : Z := 0x000F.
Definition LAN80XX_LINE_PMA_PMA_VENDOR_START_ADDR : Z := 0x8000.
Definition LAN80XX_LINE_PMA_PMA_VENDOR_END_ADDR : Z := 0x80FF.
Definition LAN80XX_LINE_KR_KR_STD_START_ADDR : Z := 0x0090.
Definition LAN80XX_LINE_KR_KR_STD_END_ADDR : Z := 0x009F.
Definition LAN80XX_LINE_KR_KR_VENDOR_START_ADDR : Z := 0x9100.
Definition LAN80XX_LINE_KR_KR_VENDOR_END_ADDR : Z := 0x91FF.
Definition LAN80XX_LINE_PCS_CFG_BASE_R_FEC_STD_START_ADDR : Z := 0x00A0.
Definition LAN80XX_LINE_PCS_CFG_BASE_R_FEC_STD_END_ADDR : Z := 0x00AF.
Definition LAN80XX_LINE_PCS_CFG_FEC_VENDOR_START_ADDR : Z := 0xE000.
Definition LAN80XX_LINE_PCS_CFG_FEC_VENDOR_END_ADDR : Z := 0xE0FF.
Definition LAN80XX_LINE_RS_FEC_RS_FEC_STD_START_ADDR : Z := 0x00C0.
Definition LAN80XX_LINE_RS_FEC_RS_FEC_STD_END_ADDR : Z := 0x00DF.
Definition LAN80XX_LINE_RS_FEC_RS_FEC_VENDOR_START_ADDR : Z := 0x8200.
Definition LAN80XX_LINE_RS_FEC_RS_FEC_VENDOR_END_ADDR : Z := 0x82FF.
Definition LAN80XX_LINE_SLICE_START_ADDR : Z := 0x8100.
Definition LAN80XX_LINE_SLICE_END_ADDR : Z := 0x81FF.
Definition LAN80XX_SFP_TWS_START_ADDR : Z := 0xC000.
Definition LAN80XX_SFP_TWS_END_ADDR : Z := 0xC00F.
Definition LAN80XX_LINE_INTR_CTRL_START_ADDR : Z := 0xC010.
Definition LAN80XX_LINE_INTR_CTRL_END_ADDR : Z := 0xC01F.
Definition LAN80XX_LINE_PMA_8BIT_START_ADDR : Z := 0xF000.
Definition LAN80XX_LINE_PMA_8BIT_END_ADDR : Z := 0xFFFF.
Definition LAN80XX_LINE_PCS25G_PCS_STD_END_ADDR : Z := 0x07FF.
Definition LAN80XX_LINE_PCS25G_PCS_VENDOR_START_ADDR : Z := 0x8000.
Definition LAN80XX_LINE_PCS25G_PCS_VENDOR_END_ADDR : Z := 0x8FFF.
Definition LAN80XX_LINE_PCS_CFG_START_ADDR : Z := 0xE000.
Definition LAN80XX_LINE_PCS_CFG_END_ADDR : Z := 0xE0FF.
Definition LAN80XX_MAC_FC_BUFFER_START_ADDR : Z := 0xF000.
Definition LAN80XX_MAC_FC_BUFFER_END_ADDR : Z := 0xF07F.
Definition LAN80XX_HOST_MAC_START_ADDR : Z := 0xF100.
Definition LAN80XX_HOST_MAC_END_ADDR : Z := 0xF1FF.
Definition LAN80XX_LINE_MAC_START_ADDR : Z := 0xF300.
Definition LAN80XX_LINE_MAC_END_ADDR : Z := 0xF3FF.
Definition LAN80XX_MACSEC_START_ADDR : Z := 0x0C40.
Definition LAN80XX_MACSEC_END_ADDR : Z := 0x0CFF.
Definition LAN80XX_MACSEC_CORE_START_ADDR : Z := 0x0000.
Definition LAN80XX_MACSEC_CORE_INTR_END_ADDR : Z := 0x0C3F.
Definition LAN80XX_MACSEC_CORE_INTR_START_ADDR : Z := 0x0D00.
Definition LAN80XX_MACSEC_CORE_END_ADDR : Z := 0x7FFF.
Definition LAN80XX_HOST_PMA_START_ADDR : Z := 0x8000.
Definition LAN80XX_HOST_PMA_END_ADDR : Z := 0x80FF.
Definition LAN80XX_HOST_KR_KR_STD_START_ADDR : Z := 0x0090.
Definition LAN80XX_HOST_KR_KR_STD_END_ADDR : Z := 0x009F.
Definition LAN80XX_HOST_KR_KR_VENDOR_START_ADDR : Z := 0x9100.
Definition LAN80XX_HOST_KR_KR_VENDOR_END_ADDR : Z := 0x91FF.
Definition LAN80XX_HOST_PCS_CFG_BASE_R_FEC_STD_START_ADDR : Z := 0x00A0.
Definition LAN80XX_HOST_PCS_CFG_BASE_R_FEC_STD_END_ADDR : Z := 0x00AF.
Definition LAN80XX_HOST_PCS_CFG_FEC_VENDOR_START_ADDR : Z := 0xE000.
Definition LAN80XX_HOST_PCS_CFG_FEC_VENDOR_END_ADDR : Z := 0xE0FF.
Definition LAN80XX_HOST_RS_FEC_RS_FEC_STD_START_ADDR : Z := 0x00C0.
Definition LAN80XX_HOST_RS_FEC_RS_FEC_STD_END_ADDR : Z := 0x00DF.
Definition LAN80XX_HOST_RS_FEC_RS_FEC_VENDOR_START_ADDR : Z := 0x8200.
Definition LAN80XX_HOST_RS_FEC_RS_FEC_VENDOR_END_ADDR : Z := 0x82FF.
Definition LAN80XX_HOST_SLICE_START_ADDR : Z := 0x8100.
Definition LAN80XX_HOST_SLICE_END_ADDR : Z := 0x81FF.
Definition LAN80XX_HOST_INTR_CTRL_START_ADDR : Z := 0xC010.
Definition LAN80XX_HOST_INTR_CTRL_END_ADDR : Z := 0xC01F.
Definition LAN80XX_PKT_BIST_START_ADDR : Z := 0xE900.
Definition LAN80XX_PKT_BIST_END_ADDR : Z := 0xEAFF.
Definition LAN80XX_HOST_PMA_8BIT_START_ADDR : Z := 0xF000.
Definition LAN80XX_HOST_PMA_8BIT_END_ADDR : Z := 0xFFFF.
Definition LAN80XX_PTP_PROC_START_ADDR : Z := 0x9000.
Definition LAN80XX_PTP_PROC_END_ADDR : Z := 0x90FF.
Definition LAN80XX_PTP_ANA0_INGR_CFG_START_ADDR : Z := 0xA000.
Definition LAN80XX_PTP_ANA0_INGR_CFG_END_ADDR : Z := 0xA3FF.
Definition LAN80XX_PTP_ANA0_EGR_CFG_START_ADDR : Z := 0xA800.
Definition LAN80XX_PTP_ANA0_EGR_CFG_END_ADDR : Z := 0xABFF.
Definition LAN80XX_PTP_ANA1_INGR_CFG_START_ADDR : Z := 0xB000.
Definition LAN80XX_PTP_ANA1_INGR_CFG_END_ADDR : Z := 0xB3FF.
Definition LAN80XX_PTP_ANA1_EGR_CFG_START_ADDR : Z := 0xB800.
Definition LAN80XX_PTP_ANA1_EGR_CFG_END_ADDR : Z := 0xBBFF.
Definition LAN80XX_PTP_ANA2_INGR_CFG_START_ADDR : Z := 0xC000.
Definition LAN80XX_PTP_ANA2_INGR_CFG_END_ADDR : Z := 0xC3FF.
Definition LAN80XX_PTP_ANA2_EGR_CFG_START_ADDR : Z := 0xC800.
Definition LAN80XX_PTP_ANA2_EGR_CFG_END_ADDR : Z := 0xCBFF.
Definition LAN80XX_HOST_PCS25G_PCS_VENDOR_END_ADDR : Z := 0x8FFF.
Definition LAN80XX_HOST_PCS_CFG_START_ADDR : Z := 0xE000.
Definition LAN80XX_HOST_PCS_CFG_END_ADDR : Z := 0xE0FF.
Definition LAN80XX_MCU_IO_MNGT_MISC_END_ADDR : Z := 0x01FF.
Definition LAN80XX_GLOBAL_START_ADDR : Z := 0x0200.
Definition LAN80XX_GLOBAL_END_ADDR : Z := 0x05FF.
Definition LAN80XX_CLK_CFG_START_ADDR : Z := 0x0600.
Definition LAN80XX_CLK_CFG_END_ADDR : Z := 0x06FF.
Definition LAN80XX_PTP_LTC_START_ADDR : Z := 0xD000.
Definition LAN80XX_PTP_LTC_END_ADDR : Z := 0xD0FF.
Definition LAN80XX_PTP_STI_START_ADDR : Z := 0xD200.
Definition LAN80XX_PTP_STI_END_ADDR : Z := 0xD2FF.
Definition LAN80XX_MCU_MAILBOX_START_ADDR : Z := 0xD800.
Definition LAN80XX_MCU_MAILBOX_END_ADDR : Z := 0xDA02.
Definition LAN80XX_CROSS_CONNECT_START_ADDR : Z := 0xF100.
Definition LAN80XX_CROSS_CONNECT_END_ADDR : Z := 0xF17F.
Definition LAN80XX_GPIO_CTRL_START_ADDR : Z := 0xF200.
Definition LAN80XX_GPIO_CTRL_END_ADDR : Z := 0xF27F.
Definition RESERVED_ID : Z := 0xFF.
Definition MB_PKT_DATA_OFFSET : Z := 4.
Definition MB_MAX_CRC_LEN : Z := 2.
Definition CRC_START_CCITT : Z := 0xFFFF.
Definition CRC_POLY_CCITT : Z := 0x1021.
Definition SPI_VAL_LEN : Z := 4.
Definition GPIO_INTR_CFG_STAT : Z := 0xF20E.
Definition INTR_SRC_EN_1 : Z := GPIO_INTR_CFG_STAT + 0x1.
Definition MAILBOX_CMD_ADDR : Z := 0xD800.
Definition MAILBOX_RESP_ADDR : Z := 0xD900.
Definition MAILBOX_FLAG_REGISTER : Z := 0xDA00.
Definition MAILBOX_MCU_INTR_MASK_REGISTER : Z := 0xDA01.
Definition MAILBOX_HOST_INTR_MASK_REGISTER : Z := 0xDA02.
Definition MAILBOX_FLAG_SET_BIT0 : Z := 0x00010000.
Definition MAILBOX_INTR_ENABLE : Z := 0x00000001.
Definition MAILBOX_HOST_INTR_MASK : Z := 0x00000002.
Definition MAILBOX_FLAG_CLEAR_BIT1 : Z := 0x02000000.
Definition MAILBOX_FLAG_CLEAR_BIT0 : Z := 0x01000000.
Definition MAILBOX_INTR_TIMEOUT : Z := 500.
Definition MAILBOX_INTR_SIGN_TIMEOUT : Z := 2000.
Definition MB_MAX_PKT_HEADER_LEN : Z := 4.
Definition MB_MAX_PAYLOAD_LEN : Z := 1018.
Definition MB_MAX_PKT_LEN : Z := MB_MAX_PAYLOAD_LEN + MB_MAX_PKT_HEADER_LEN + MB_MAX_CRC_LEN.
Definition MAX_OTP_CFG_RECORDS : Z := 64.
Definition MAX_OTP_SIZE : Z := 0x4000.
Definition OTP_SIGNATURE_LEN : Z := 0x40.
Definition OTP_REP_KEY_LEN : Z := 0x40.
Definition OTP_REP_KEY_SIGN_LEN : Z := 0x40.
Definition MEPA_RC_ERR_MB_INVALID_CRC : Z := -301.
Definition MEPA_RC_ERR_MB_RESP_TIMEOUT : Z := -302.
Definition MEPA_RC_ERR_MB_INVALID_PKT_LEN : Z := -303.
Definition MEPA_RC_ERR_MB_FAIL_RESPONSE : Z := -305.
Definition MEPA_RC_ERR_MB_CMD_PROTO_NO_SYNC : Z := -306.
Definition MEPA_RC_ERR_OTP_ALL_KEY_COMPROMISED : Z := -307.
Definition MEPA_RC_ERR_OTP_ALL_KEY_PROGRAMMED : Z := -308.
Definition eGET_DEVICE_INFO : Z := 0.
Definition eDEVICE_RESET : Z := 1.
Definition eUART_GET_CONFIG : Z := 2.
Definition eUART_SET_CONFIG : Z := 3.
Definition eWDT_DISABLE : Z := 4.
Definition eWDT_LOCK : Z := 5.
Definition eMEM_READ : Z := 6.
Definition eMEM_WRITE : Z := 7.
Definition eOTP_CFG_READ : Z := 8.
Definition eOTP_WRITE : Z := 9.
Definition eOTP_READ : Z := 10.
Definition eDFU_UPDATE : Z := 11.
Definition ePROG_OTP_KEY1 : Z := 12.
Definition ePROG_OTP_KEY2 : Z := 13.
Definition ePROG_OTP_KEY3 : Z := 14.
Definition eREVOKE_OTP_KEYS : Z := 15.
Definition eREVOKE_ROT_KEY : Z := 16.
Definition eOTP_KEY_STATUS : Z := 17.
Definition ePORT_RESTART_ANEG : Z := 18.
Definition eSET_PORT_ANEGKR_CFG : Z := 19.
Definition eGET_PORT_ANEGKR_CFG : Z := 20.
Definition eWDT_ENABLE : Z := 21.
Definition eENABLE_KR_LOG : Z := 22.
Definition eRESET_KR_LOG_MEMORY : Z := 23.
Definition eANEGKR_ENABLE : Z := 24.
Definition eENABLE_UART_LOG : Z := 25.
Definition eTEMPERATURE_SENSOR_THRESHOLD : Z := 26.
Definition eSET_SERDES_CONFIG : Z := 27.
Definition eGET_SERDES_CONFIG : Z := 28.
Definition eTEST_COMM : Z := 112.
Definition eMCHP_PUB_KEY : Z := 0.
Definition eREPLACEMENT_KEY1 : Z := 1.
Definition eREPLACEMENT_KEY2 : Z := 3.
Definition eREPLACEMENT_KEY3 : Z := 7.
Definition eALL_KEYS_COMPROMISED : Z := 15.
Definition eOTPWRITE_RAW : Z := 255.
Definition eOTPWRITE_BUFF : Z := 254.
Definition eOTPWRITE_AUTH : Z := 253.
