(* ===== verification/Lan80xxMacsecTypes.v ===== *)
(** * Lan80xxMacsecTypes: data of the LAN80xx's MACsec block

    The structs of [phy_macsec.h], [lan80xx_macsec.h] and
    [lan80xx_macsec_private.h]: what the application configures, and the tables
    of SecYs, secure channels (SC) and secure associations (SA) in the private
    data.  A pointer into one of the tables is the index of the entry, NULL is
    [None].  Byte arrays and MAC addresses are lists of bytes; flags that only
    the driver sets are booleans, flags from the application integers. *)

From Stdlib Require Import ZArith List String.
From stdpp Require Import base gmap strings list.
From S2P Require Import Prelude.

Record mepa_macsec_port_t := Mk_mepa_macsec_port_t {
  mp_port_no : Z; mp_service_id : Z; mp_port_id : Z;
}.

Record mepa_macsec_sci_t := Mk_mepa_macsec_sci_t {
  sci_mac_addr : list Z; sci_port_id : Z;
}.
Definition mepa_macsec_sci_t_0 : mepa_macsec_sci_t := Mk_mepa_macsec_sci_t (replicate 6 0) 0.

Record mepa_macsec_sak_t := Mk_mepa_macsec_sak_t {
  sak_buf : list Z; sak_len : Z; sak_h_buf : list Z; sak_salt : list Z;
}.
Definition mepa_macsec_sak_t_0 : mepa_macsec_sak_t := Mk_mepa_macsec_sak_t (replicate 32 0) 0 (replicate 16
    0) (replicate 12 0).

Record mepa_macsec_secy_conf_t := Mk_mepa_macsec_secy_conf_t {
  sc_mac_addr : list Z; sc_validate_frames : Z; sc_replay_protect : Z; sc_replay_window : Z;
  sc_protect_frames : Z; sc_always_include_sci : Z; sc_use_es : Z; sc_use_scb : Z;
  sc_current_cipher_suite : Z; sc_confidentiality_offset : Z;
}.
Definition mepa_macsec_secy_conf_t_0 : mepa_macsec_secy_conf_t := Mk_mepa_macsec_secy_conf_t (replicate 6 0)
    0 0 0 0 0 0 0 0 0.
Definition set_sc_mac_addr (v : list Z) (x : mepa_macsec_secy_conf_t) : mepa_macsec_secy_conf_t :=
    Mk_mepa_macsec_secy_conf_t v (sc_validate_frames x) (sc_replay_protect x) (sc_replay_window x)
    (sc_protect_frames x) (sc_always_include_sci x) (sc_use_es x) (sc_use_scb x) (sc_current_cipher_suite x)
    (sc_confidentiality_offset x).
Definition set_sc_validate_frames (v : Z) (x : mepa_macsec_secy_conf_t) : mepa_macsec_secy_conf_t :=
    Mk_mepa_macsec_secy_conf_t (sc_mac_addr x) v (sc_replay_protect x) (sc_replay_window x) (sc_protect_frames
    x) (sc_always_include_sci x) (sc_use_es x) (sc_use_scb x) (sc_current_cipher_suite x)
    (sc_confidentiality_offset x).
Definition set_sc_replay_protect (v : Z) (x : mepa_macsec_secy_conf_t) : mepa_macsec_secy_conf_t :=
    Mk_mepa_macsec_secy_conf_t (sc_mac_addr x) (sc_validate_frames x) v (sc_replay_window x) (sc_protect_frames
    x) (sc_always_include_sci x) (sc_use_es x) (sc_use_scb x) (sc_current_cipher_suite x)
    (sc_confidentiality_offset x).
Definition set_sc_replay_window (v : Z) (x : mepa_macsec_secy_conf_t) : mepa_macsec_secy_conf_t :=
    Mk_mepa_macsec_secy_conf_t (sc_mac_addr x) (sc_validate_frames x) (sc_replay_protect x) v (sc_protect_frames
    x) (sc_always_include_sci x) (sc_use_es x) (sc_use_scb x) (sc_current_cipher_suite x)
    (sc_confidentiality_offset x).
Definition set_sc_protect_frames (v : Z) (x : mepa_macsec_secy_conf_t) : mepa_macsec_secy_conf_t :=
    Mk_mepa_macsec_secy_conf_t (sc_mac_addr x) (sc_validate_frames x) (sc_replay_protect x) (sc_replay_window x)
    v (sc_always_include_sci x) (sc_use_es x) (sc_use_scb x) (sc_current_cipher_suite x)
    (sc_confidentiality_offset x).
Definition set_sc_always_include_sci (v : Z) (x : mepa_macsec_secy_conf_t) : mepa_macsec_secy_conf_t :=
    Mk_mepa_macsec_secy_conf_t (sc_mac_addr x) (sc_validate_frames x) (sc_replay_protect x) (sc_replay_window x)
    (sc_protect_frames x) v (sc_use_es x) (sc_use_scb x) (sc_current_cipher_suite x) (sc_confidentiality_offset
    x).
Definition set_sc_use_es (v : Z) (x : mepa_macsec_secy_conf_t) : mepa_macsec_secy_conf_t :=
    Mk_mepa_macsec_secy_conf_t (sc_mac_addr x) (sc_validate_frames x) (sc_replay_protect x) (sc_replay_window x)
    (sc_protect_frames x) (sc_always_include_sci x) v (sc_use_scb x) (sc_current_cipher_suite x)
    (sc_confidentiality_offset x).
Definition set_sc_use_scb (v : Z) (x : mepa_macsec_secy_conf_t) : mepa_macsec_secy_conf_t :=
    Mk_mepa_macsec_secy_conf_t (sc_mac_addr x) (sc_validate_frames x) (sc_replay_protect x) (sc_replay_window x)
    (sc_protect_frames x) (sc_always_include_sci x) (sc_use_es x) v (sc_current_cipher_suite x)
    (sc_confidentiality_offset x).
Definition set_sc_current_cipher_suite (v : Z) (x : mepa_macsec_secy_conf_t) : mepa_macsec_secy_conf_t :=
    Mk_mepa_macsec_secy_conf_t (sc_mac_addr x) (sc_validate_frames x) (sc_replay_protect x) (sc_replay_window x)
    (sc_protect_frames x) (sc_always_include_sci x) (sc_use_es x) (sc_use_scb x) v (sc_confidentiality_offset
    x).
Definition set_sc_confidentiality_offset (v : Z) (x : mepa_macsec_secy_conf_t) : mepa_macsec_secy_conf_t :=
    Mk_mepa_macsec_secy_conf_t (sc_mac_addr x) (sc_validate_frames x) (sc_replay_protect x) (sc_replay_window x)
    (sc_protect_frames x) (sc_always_include_sci x) (sc_use_es x) (sc_use_scb x) (sc_current_cipher_suite x) v.

Record mepa_macsec_rx_sc_conf_t := Mk_mepa_macsec_rx_sc_conf_t {
  rc_validate_frames : Z; rc_replay_protect : Z; rc_replay_window : Z; rc_confidentiality_offset : Z;
}.
Definition mepa_macsec_rx_sc_conf_t_0 : mepa_macsec_rx_sc_conf_t := Mk_mepa_macsec_rx_sc_conf_t 0 0 0 0.
Definition set_rc_validate_frames (v : Z) (x : mepa_macsec_rx_sc_conf_t) : mepa_macsec_rx_sc_conf_t :=
    Mk_mepa_macsec_rx_sc_conf_t v (rc_replay_protect x) (rc_replay_window x) (rc_confidentiality_offset x).
Definition set_rc_replay_protect (v : Z) (x : mepa_macsec_rx_sc_conf_t) : mepa_macsec_rx_sc_conf_t :=
    Mk_mepa_macsec_rx_sc_conf_t (rc_validate_frames x) v (rc_replay_window x) (rc_confidentiality_offset x).
Definition set_rc_replay_window (v : Z) (x : mepa_macsec_rx_sc_conf_t) : mepa_macsec_rx_sc_conf_t :=
    Mk_mepa_macsec_rx_sc_conf_t (rc_validate_frames x) (rc_replay_protect x) v (rc_confidentiality_offset x).
Definition set_rc_confidentiality_offset (v : Z) (x : mepa_macsec_rx_sc_conf_t) : mepa_macsec_rx_sc_conf_t
    := Mk_mepa_macsec_rx_sc_conf_t (rc_validate_frames x) (rc_replay_protect x) (rc_replay_window x) v.

Record mepa_macsec_tx_sc_conf_t := Mk_mepa_macsec_tx_sc_conf_t {
  tc_protect_frames : Z; tc_always_include_sci : Z; tc_use_es : Z; tc_use_scb : Z;
  tc_confidentiality_offset : Z;
}.

(** The member [pn_status] is spread out; a [mepa_macsec_pkt_num_t] is what
    its member [xpn] reads. *)
Record mepa_macsec_rx_sa_status_t := Mk_mepa_macsec_rx_sa_status_t {
  rst_in_use : bool; rst_next_pn : Z; rst_lowest_pn : Z; rst_created_time : Z; rst_started_time : Z;
  rst_stopped_time : Z; rst_pn_next_pn : Z; rst_pn_lowest_pn : Z;
}.
Definition mepa_macsec_rx_sa_status_t_0 : mepa_macsec_rx_sa_status_t := Mk_mepa_macsec_rx_sa_status_t false
    0 0 0 0 0 0 0.
Definition set_rst_in_use (v : bool) (x : mepa_macsec_rx_sa_status_t) : mepa_macsec_rx_sa_status_t :=
    Mk_mepa_macsec_rx_sa_status_t v (rst_next_pn x) (rst_lowest_pn x) (rst_created_time x) (rst_started_time x)
    (rst_stopped_time x) (rst_pn_next_pn x) (rst_pn_lowest_pn x).
Definition set_rst_next_pn (v : Z) (x : mepa_macsec_rx_sa_status_t) : mepa_macsec_rx_sa_status_t :=
    Mk_mepa_macsec_rx_sa_status_t (rst_in_use x) v (rst_lowest_pn x) (rst_created_time x) (rst_started_time x)
    (rst_stopped_time x) (rst_pn_next_pn x) (rst_pn_lowest_pn x).
Definition set_rst_lowest_pn (v : Z) (x : mepa_macsec_rx_sa_status_t) : mepa_macsec_rx_sa_status_t :=
    Mk_mepa_macsec_rx_sa_status_t (rst_in_use x) (rst_next_pn x) v (rst_created_time x) (rst_started_time x)
    (rst_stopped_time x) (rst_pn_next_pn x) (rst_pn_lowest_pn x).
Definition set_rst_created_time (v : Z) (x : mepa_macsec_rx_sa_status_t) : mepa_macsec_rx_sa_status_t :=
    Mk_mepa_macsec_rx_sa_status_t (rst_in_use x) (rst_next_pn x) (rst_lowest_pn x) v (rst_started_time x)
    (rst_stopped_time x) (rst_pn_next_pn x) (rst_pn_lowest_pn x).
Definition set_rst_started_time (v : Z) (x : mepa_macsec_rx_sa_status_t) : mepa_macsec_rx_sa_status_t :=
    Mk_mepa_macsec_rx_sa_status_t (rst_in_use x) (rst_next_pn x) (rst_lowest_pn x) (rst_created_time x) v
    (rst_stopped_time x) (rst_pn_next_pn x) (rst_pn_lowest_pn x).
Definition set_rst_stopped_time (v : Z) (x : mepa_macsec_rx_sa_status_t) : mepa_macsec_rx_sa_status_t :=
    Mk_mepa_macsec_rx_sa_status_t (rst_in_use x) (rst_next_pn x) (rst_lowest_pn x) (rst_created_time x)
    (rst_started_time x) v (rst_pn_next_pn x) (rst_pn_lowest_pn x).
Definition set_rst_pn_next_pn (v : Z) (x : mepa_macsec_rx_sa_status_t) : mepa_macsec_rx_sa_status_t :=
    Mk_mepa_macsec_rx_sa_status_t (rst_in_use x) (rst_next_pn x) (rst_lowest_pn x) (rst_created_time x)
    (rst_started_time x) (rst_stopped_time x) v (rst_pn_lowest_pn x).
Definition set_rst_pn_lowest_pn (v : Z) (x : mepa_macsec_rx_sa_status_t) : mepa_macsec_rx_sa_status_t :=
    Mk_mepa_macsec_rx_sa_status_t (rst_in_use x) (rst_next_pn x) (rst_lowest_pn x) (rst_created_time x)
    (rst_started_time x) (rst_stopped_time x) (rst_pn_next_pn x) v.

Record mepa_macsec_tx_sa_status_t := Mk_mepa_macsec_tx_sa_status_t {
  tst_in_use : bool; tst_next_pn : Z; tst_created_time : Z; tst_started_time : Z; tst_stopped_time : Z;
  tst_pn_next_pn : Z;
}.
Definition mepa_macsec_tx_sa_status_t_0 : mepa_macsec_tx_sa_status_t := Mk_mepa_macsec_tx_sa_status_t false
    0 0 0 0 0.
Definition set_tst_in_use (v : bool) (x : mepa_macsec_tx_sa_status_t) : mepa_macsec_tx_sa_status_t :=
    Mk_mepa_macsec_tx_sa_status_t v (tst_next_pn x) (tst_created_time x) (tst_started_time x) (tst_stopped_time
    x) (tst_pn_next_pn x).
Definition set_tst_next_pn (v : Z) (x : mepa_macsec_tx_sa_status_t) : mepa_macsec_tx_sa_status_t :=
    Mk_mepa_macsec_tx_sa_status_t (tst_in_use x) v (tst_created_time x) (tst_started_time x) (tst_stopped_time
    x) (tst_pn_next_pn x).
Definition set_tst_created_time (v : Z) (x : mepa_macsec_tx_sa_status_t) : mepa_macsec_tx_sa_status_t :=
    Mk_mepa_macsec_tx_sa_status_t (tst_in_use x) (tst_next_pn x) v (tst_started_time x) (tst_stopped_time x)
    (tst_pn_next_pn x).
Definition set_tst_started_time (v : Z) (x : mepa_macsec_tx_sa_status_t) : mepa_macsec_tx_sa_status_t :=
    Mk_mepa_macsec_tx_sa_status_t (tst_in_use x) (tst_next_pn x) (tst_created_time x) v (tst_stopped_time x)
    (tst_pn_next_pn x).
Definition set_tst_stopped_time (v : Z) (x : mepa_macsec_tx_sa_status_t) : mepa_macsec_tx_sa_status_t :=
    Mk_mepa_macsec_tx_sa_status_t (tst_in_use x) (tst_next_pn x) (tst_created_time x) (tst_started_time x) v
    (tst_pn_next_pn x).
Definition set_tst_pn_next_pn (v : Z) (x : mepa_macsec_tx_sa_status_t) : mepa_macsec_tx_sa_status_t :=
    Mk_mepa_macsec_tx_sa_status_t (tst_in_use x) (tst_next_pn x) (tst_created_time x) (tst_started_time x)
    (tst_stopped_time x) v.

Record mepa_macsec_rx_sc_status_t := Mk_mepa_macsec_rx_sc_status_t {
  rcs_receiving : bool; rcs_created_time : Z; rcs_started_time : Z; rcs_stopped_time : Z;
}.
Definition mepa_macsec_rx_sc_status_t_0 : mepa_macsec_rx_sc_status_t := Mk_mepa_macsec_rx_sc_status_t false
    0 0 0.
Definition set_rcs_receiving (v : bool) (x : mepa_macsec_rx_sc_status_t) : mepa_macsec_rx_sc_status_t :=
    Mk_mepa_macsec_rx_sc_status_t v (rcs_created_time x) (rcs_started_time x) (rcs_stopped_time x).
Definition set_rcs_created_time (v : Z) (x : mepa_macsec_rx_sc_status_t) : mepa_macsec_rx_sc_status_t :=
    Mk_mepa_macsec_rx_sc_status_t (rcs_receiving x) v (rcs_started_time x) (rcs_stopped_time x).
Definition set_rcs_started_time (v : Z) (x : mepa_macsec_rx_sc_status_t) : mepa_macsec_rx_sc_status_t :=
    Mk_mepa_macsec_rx_sc_status_t (rcs_receiving x) (rcs_created_time x) v (rcs_stopped_time x).
Definition set_rcs_stopped_time (v : Z) (x : mepa_macsec_rx_sc_status_t) : mepa_macsec_rx_sc_status_t :=
    Mk_mepa_macsec_rx_sc_status_t (rcs_receiving x) (rcs_created_time x) (rcs_started_time x) v.

Record mepa_macsec_tx_sc_status_t := Mk_mepa_macsec_tx_sc_status_t {
  tcs_sci : mepa_macsec_sci_t; tcs_transmitting : bool; tcs_encoding_sa : Z; tcs_enciphering_sa : Z;
  tcs_created_time : Z; tcs_started_time : Z; tcs_stopped_time : Z;
}.
Definition mepa_macsec_tx_sc_status_t_0 : mepa_macsec_tx_sc_status_t := Mk_mepa_macsec_tx_sc_status_t
    mepa_macsec_sci_t_0 false 0 0 0 0 0.
Definition set_tcs_sci (v : mepa_macsec_sci_t) (x : mepa_macsec_tx_sc_status_t) : mepa_macsec_tx_sc_status_t
    := Mk_mepa_macsec_tx_sc_status_t v (tcs_transmitting x) (tcs_encoding_sa x) (tcs_enciphering_sa x)
    (tcs_created_time x) (tcs_started_time x) (tcs_stopped_time x).
Definition set_tcs_transmitting (v : bool) (x : mepa_macsec_tx_sc_status_t) : mepa_macsec_tx_sc_status_t :=
    Mk_mepa_macsec_tx_sc_status_t (tcs_sci x) v (tcs_encoding_sa x) (tcs_enciphering_sa x) (tcs_created_time x)
    (tcs_started_time x) (tcs_stopped_time x).
Definition set_tcs_encoding_sa (v : Z) (x : mepa_macsec_tx_sc_status_t) : mepa_macsec_tx_sc_status_t :=
    Mk_mepa_macsec_tx_sc_status_t (tcs_sci x) (tcs_transmitting x) v (tcs_enciphering_sa x) (tcs_created_time x)
    (tcs_started_time x) (tcs_stopped_time x).
Definition set_tcs_enciphering_sa (v : Z) (x : mepa_macsec_tx_sc_status_t) : mepa_macsec_tx_sc_status_t :=
    Mk_mepa_macsec_tx_sc_status_t (tcs_sci x) (tcs_transmitting x) (tcs_encoding_sa x) v (tcs_created_time x)
    (tcs_started_time x) (tcs_stopped_time x).
Definition set_tcs_created_time (v : Z) (x : mepa_macsec_tx_sc_status_t) : mepa_macsec_tx_sc_status_t :=
    Mk_mepa_macsec_tx_sc_status_t (tcs_sci x) (tcs_transmitting x) (tcs_encoding_sa x) (tcs_enciphering_sa x) v
    (tcs_started_time x) (tcs_stopped_time x).
Definition set_tcs_started_time (v : Z) (x : mepa_macsec_tx_sc_status_t) : mepa_macsec_tx_sc_status_t :=
    Mk_mepa_macsec_tx_sc_status_t (tcs_sci x) (tcs_transmitting x) (tcs_encoding_sa x) (tcs_enciphering_sa x)
    (tcs_created_time x) v (tcs_stopped_time x).
Definition set_tcs_stopped_time (v : Z) (x : mepa_macsec_tx_sc_status_t) : mepa_macsec_tx_sc_status_t :=
    Mk_mepa_macsec_tx_sc_status_t (tcs_sci x) (tcs_transmitting x) (tcs_encoding_sa x) (tcs_enciphering_sa x)
    (tcs_created_time x) (tcs_started_time x) v.

Record mepa_macsec_rx_sa_counters_t := Mk_mepa_macsec_rx_sa_counters_t {
  rac_in_pkts_ok : Z; rac_in_pkts_invalid : Z; rac_in_pkts_not_valid : Z; rac_in_pkts_not_using_sa : Z;
  rac_in_pkts_unused_sa : Z; rac_in_pkts_unchecked : Z; rac_in_pkts_delayed : Z; rac_in_pkts_late : Z;
}.
Definition mepa_macsec_rx_sa_counters_t_0 : mepa_macsec_rx_sa_counters_t := Mk_mepa_macsec_rx_sa_counters_t
    0 0 0 0 0 0 0 0.
Definition set_rac_in_pkts_ok (v : Z) (x : mepa_macsec_rx_sa_counters_t) : mepa_macsec_rx_sa_counters_t :=
    Mk_mepa_macsec_rx_sa_counters_t v (rac_in_pkts_invalid x) (rac_in_pkts_not_valid x)
    (rac_in_pkts_not_using_sa x) (rac_in_pkts_unused_sa x) (rac_in_pkts_unchecked x) (rac_in_pkts_delayed x)
    (rac_in_pkts_late x).
Definition set_rac_in_pkts_invalid (v : Z) (x : mepa_macsec_rx_sa_counters_t) : mepa_macsec_rx_sa_counters_t
    := Mk_mepa_macsec_rx_sa_counters_t (rac_in_pkts_ok x) v (rac_in_pkts_not_valid x) (rac_in_pkts_not_using_sa
    x) (rac_in_pkts_unused_sa x) (rac_in_pkts_unchecked x) (rac_in_pkts_delayed x) (rac_in_pkts_late x).
Definition set_rac_in_pkts_not_valid (v : Z) (x : mepa_macsec_rx_sa_counters_t) :
    mepa_macsec_rx_sa_counters_t := Mk_mepa_macsec_rx_sa_counters_t (rac_in_pkts_ok x) (rac_in_pkts_invalid x) v
    (rac_in_pkts_not_using_sa x) (rac_in_pkts_unused_sa x) (rac_in_pkts_unchecked x) (rac_in_pkts_delayed x)
    (rac_in_pkts_late x).
Definition set_rac_in_pkts_not_using_sa (v : Z) (x : mepa_macsec_rx_sa_counters_t) :
    mepa_macsec_rx_sa_counters_t := Mk_mepa_macsec_rx_sa_counters_t (rac_in_pkts_ok x) (rac_in_pkts_invalid x)
    (rac_in_pkts_not_valid x) v (rac_in_pkts_unused_sa x) (rac_in_pkts_unchecked x) (rac_in_pkts_delayed x)
    (rac_in_pkts_late x).
Definition set_rac_in_pkts_unused_sa (v : Z) (x : mepa_macsec_rx_sa_counters_t) :
    mepa_macsec_rx_sa_counters_t := Mk_mepa_macsec_rx_sa_counters_t (rac_in_pkts_ok x) (rac_in_pkts_invalid x)
    (rac_in_pkts_not_valid x) (rac_in_pkts_not_using_sa x) v (rac_in_pkts_unchecked x) (rac_in_pkts_delayed x)
    (rac_in_pkts_late x).
Definition set_rac_in_pkts_unchecked (v : Z) (x : mepa_macsec_rx_sa_counters_t) :
    mepa_macsec_rx_sa_counters_t := Mk_mepa_macsec_rx_sa_counters_t (rac_in_pkts_ok x) (rac_in_pkts_invalid x)
    (rac_in_pkts_not_valid x) (rac_in_pkts_not_using_sa x) (rac_in_pkts_unused_sa x) v (rac_in_pkts_delayed x)
    (rac_in_pkts_late x).
Definition set_rac_in_pkts_delayed (v : Z) (x : mepa_macsec_rx_sa_counters_t) : mepa_macsec_rx_sa_counters_t
    := Mk_mepa_macsec_rx_sa_counters_t (rac_in_pkts_ok x) (rac_in_pkts_invalid x) (rac_in_pkts_not_valid x)
    (rac_in_pkts_not_using_sa x) (rac_in_pkts_unused_sa x) (rac_in_pkts_unchecked x) v (rac_in_pkts_late x).
Definition set_rac_in_pkts_late (v : Z) (x : mepa_macsec_rx_sa_counters_t) : mepa_macsec_rx_sa_counters_t :=
    Mk_mepa_macsec_rx_sa_counters_t (rac_in_pkts_ok x) (rac_in_pkts_invalid x) (rac_in_pkts_not_valid x)
    (rac_in_pkts_not_using_sa x) (rac_in_pkts_unused_sa x) (rac_in_pkts_unchecked x) (rac_in_pkts_delayed x) v.

Record mepa_macsec_tx_sa_counters_t := Mk_mepa_macsec_tx_sa_counters_t {
  tac_out_pkts_protected : Z; tac_out_pkts_encrypted : Z;
}.
Definition mepa_macsec_tx_sa_counters_t_0 : mepa_macsec_tx_sa_counters_t := Mk_mepa_macsec_tx_sa_counters_t
    0 0.
Definition set_tac_out_pkts_protected (v : Z) (x : mepa_macsec_tx_sa_counters_t) :
    mepa_macsec_tx_sa_counters_t := Mk_mepa_macsec_tx_sa_counters_t v (tac_out_pkts_encrypted x).
Definition set_tac_out_pkts_encrypted (v : Z) (x : mepa_macsec_tx_sa_counters_t) :
    mepa_macsec_tx_sa_counters_t := Mk_mepa_macsec_tx_sa_counters_t (tac_out_pkts_protected x) v.

Record mepa_macsec_rx_sc_counters_t := Mk_mepa_macsec_rx_sc_counters_t {
  rcc_in_pkts_unchecked : Z; rcc_in_pkts_delayed : Z; rcc_in_pkts_late : Z; rcc_in_pkts_ok : Z;
  rcc_in_pkts_invalid : Z; rcc_in_pkts_not_valid : Z; rcc_in_pkts_not_using_sa : Z; rcc_in_pkts_unused_sa : Z;
  rcc_in_octets_validated : Z; rcc_in_octets_decrypted : Z;
}.
Definition mepa_macsec_rx_sc_counters_t_0 : mepa_macsec_rx_sc_counters_t := Mk_mepa_macsec_rx_sc_counters_t
    0 0 0 0 0 0 0 0 0 0.
Definition set_rcc_in_pkts_unchecked (v : Z) (x : mepa_macsec_rx_sc_counters_t) :
    mepa_macsec_rx_sc_counters_t := Mk_mepa_macsec_rx_sc_counters_t v (rcc_in_pkts_delayed x) (rcc_in_pkts_late
    x) (rcc_in_pkts_ok x) (rcc_in_pkts_invalid x) (rcc_in_pkts_not_valid x) (rcc_in_pkts_not_using_sa x)
    (rcc_in_pkts_unused_sa x) (rcc_in_octets_validated x) (rcc_in_octets_decrypted x).
Definition set_rcc_in_pkts_delayed (v : Z) (x : mepa_macsec_rx_sc_counters_t) : mepa_macsec_rx_sc_counters_t
    := Mk_mepa_macsec_rx_sc_counters_t (rcc_in_pkts_unchecked x) v (rcc_in_pkts_late x) (rcc_in_pkts_ok x)
    (rcc_in_pkts_invalid x) (rcc_in_pkts_not_valid x) (rcc_in_pkts_not_using_sa x) (rcc_in_pkts_unused_sa x)
    (rcc_in_octets_validated x) (rcc_in_octets_decrypted x).
Definition set_rcc_in_pkts_late (v : Z) (x : mepa_macsec_rx_sc_counters_t) : mepa_macsec_rx_sc_counters_t :=
    Mk_mepa_macsec_rx_sc_counters_t (rcc_in_pkts_unchecked x) (rcc_in_pkts_delayed x) v (rcc_in_pkts_ok x)
    (rcc_in_pkts_invalid x) (rcc_in_pkts_not_valid x) (rcc_in_pkts_not_using_sa x) (rcc_in_pkts_unused_sa x)
    (rcc_in_octets_validated x) (rcc_in_octets_decrypted x).
Definition set_rcc_in_pkts_ok (v : Z) (x : mepa_macsec_rx_sc_counters_t) : mepa_macsec_rx_sc_counters_t :=
    Mk_mepa_macsec_rx_sc_counters_t (rcc_in_pkts_unchecked x) (rcc_in_pkts_delayed x) (rcc_in_pkts_late x) v
    (rcc_in_pkts_invalid x) (rcc_in_pkts_not_valid x) (rcc_in_pkts_not_using_sa x) (rcc_in_pkts_unused_sa x)
    (rcc_in_octets_validated x) (rcc_in_octets_decrypted x).
Definition set_rcc_in_pkts_invalid (v : Z) (x : mepa_macsec_rx_sc_counters_t) : mepa_macsec_rx_sc_counters_t
    := Mk_mepa_macsec_rx_sc_counters_t (rcc_in_pkts_unchecked x) (rcc_in_pkts_delayed x) (rcc_in_pkts_late x)
    (rcc_in_pkts_ok x) v (rcc_in_pkts_not_valid x) (rcc_in_pkts_not_using_sa x) (rcc_in_pkts_unused_sa x)
    (rcc_in_octets_validated x) (rcc_in_octets_decrypted x).
Definition set_rcc_in_pkts_not_valid (v : Z) (x : mepa_macsec_rx_sc_counters_t) :
    mepa_macsec_rx_sc_counters_t := Mk_mepa_macsec_rx_sc_counters_t (rcc_in_pkts_unchecked x)
    (rcc_in_pkts_delayed x) (rcc_in_pkts_late x) (rcc_in_pkts_ok x) (rcc_in_pkts_invalid x) v
    (rcc_in_pkts_not_using_sa x) (rcc_in_pkts_unused_sa x) (rcc_in_octets_validated x) (rcc_in_octets_decrypted
    x).
Definition set_rcc_in_pkts_not_using_sa (v : Z) (x : mepa_macsec_rx_sc_counters_t) :
    mepa_macsec_rx_sc_counters_t := Mk_mepa_macsec_rx_sc_counters_t (rcc_in_pkts_unchecked x)
    (rcc_in_pkts_delayed x) (rcc_in_pkts_late x) (rcc_in_pkts_ok x) (rcc_in_pkts_invalid x)
    (rcc_in_pkts_not_valid x) v (rcc_in_pkts_unused_sa x) (rcc_in_octets_validated x) (rcc_in_octets_decrypted
    x).
Definition set_rcc_in_pkts_unused_sa (v : Z) (x : mepa_macsec_rx_sc_counters_t) :
    mepa_macsec_rx_sc_counters_t := Mk_mepa_macsec_rx_sc_counters_t (rcc_in_pkts_unchecked x)
    (rcc_in_pkts_delayed x) (rcc_in_pkts_late x) (rcc_in_pkts_ok x) (rcc_in_pkts_invalid x)
    (rcc_in_pkts_not_valid x) (rcc_in_pkts_not_using_sa x) v (rcc_in_octets_validated x)
    (rcc_in_octets_decrypted x).
Definition set_rcc_in_octets_validated (v : Z) (x : mepa_macsec_rx_sc_counters_t) :
    mepa_macsec_rx_sc_counters_t := Mk_mepa_macsec_rx_sc_counters_t (rcc_in_pkts_unchecked x)
    (rcc_in_pkts_delayed x) (rcc_in_pkts_late x) (rcc_in_pkts_ok x) (rcc_in_pkts_invalid x)
    (rcc_in_pkts_not_valid x) (rcc_in_pkts_not_using_sa x) (rcc_in_pkts_unused_sa x) v (rcc_in_octets_decrypted
    x).
Definition set_rcc_in_octets_decrypted (v : Z) (x : mepa_macsec_rx_sc_counters_t) :
    mepa_macsec_rx_sc_counters_t := Mk_mepa_macsec_rx_sc_counters_t (rcc_in_pkts_unchecked x)
    (rcc_in_pkts_delayed x) (rcc_in_pkts_late x) (rcc_in_pkts_ok x) (rcc_in_pkts_invalid x)
    (rcc_in_pkts_not_valid x) (rcc_in_pkts_not_using_sa x) (rcc_in_pkts_unused_sa x) (rcc_in_octets_validated x)
    v.

Record mepa_macsec_tx_sc_counters_t := Mk_mepa_macsec_tx_sc_counters_t {
  tcc_out_pkts_protected : Z; tcc_out_pkts_encrypted : Z; tcc_out_octets_protected : Z;
  tcc_out_octets_encrypted : Z;
}.
Definition mepa_macsec_tx_sc_counters_t_0 : mepa_macsec_tx_sc_counters_t := Mk_mepa_macsec_tx_sc_counters_t
    0 0 0 0.
Definition set_tcc_out_pkts_protected (v : Z) (x : mepa_macsec_tx_sc_counters_t) :
    mepa_macsec_tx_sc_counters_t := Mk_mepa_macsec_tx_sc_counters_t v (tcc_out_pkts_encrypted x)
    (tcc_out_octets_protected x) (tcc_out_octets_encrypted x).
Definition set_tcc_out_pkts_encrypted (v : Z) (x : mepa_macsec_tx_sc_counters_t) :
    mepa_macsec_tx_sc_counters_t := Mk_mepa_macsec_tx_sc_counters_t (tcc_out_pkts_protected x) v
    (tcc_out_octets_protected x) (tcc_out_octets_encrypted x).
Definition set_tcc_out_octets_protected (v : Z) (x : mepa_macsec_tx_sc_counters_t) :
    mepa_macsec_tx_sc_counters_t := Mk_mepa_macsec_tx_sc_counters_t (tcc_out_pkts_protected x)
    (tcc_out_pkts_encrypted x) v (tcc_out_octets_encrypted x).
Definition set_tcc_out_octets_encrypted (v : Z) (x : mepa_macsec_tx_sc_counters_t) :
    mepa_macsec_tx_sc_counters_t := Mk_mepa_macsec_tx_sc_counters_t (tcc_out_pkts_protected x)
    (tcc_out_pkts_encrypted x) (tcc_out_octets_protected x) v.

(** The members that the SA counters add to. *)
Record mepa_macsec_secy_counters_t := Mk_mepa_macsec_secy_counters_t {
  syc_out_pkts_too_long : Z; syc_out_octets_protected : Z; syc_out_octets_encrypted : Z;
}.
Definition mepa_macsec_secy_counters_t_0 : mepa_macsec_secy_counters_t := Mk_mepa_macsec_secy_counters_t 0 0
    0.
Definition set_syc_out_pkts_too_long (v : Z) (x : mepa_macsec_secy_counters_t) : mepa_macsec_secy_counters_t
    := Mk_mepa_macsec_secy_counters_t v (syc_out_octets_protected x) (syc_out_octets_encrypted x).
Definition set_syc_out_octets_protected (v : Z) (x : mepa_macsec_secy_counters_t) :
    mepa_macsec_secy_counters_t := Mk_mepa_macsec_secy_counters_t (syc_out_pkts_too_long x) v
    (syc_out_octets_encrypted x).
Definition set_syc_out_octets_encrypted (v : Z) (x : mepa_macsec_secy_counters_t) :
    mepa_macsec_secy_counters_t := Mk_mepa_macsec_secy_counters_t (syc_out_pkts_too_long x)
    (syc_out_octets_protected x) v.

(** The members that the driver uses. *)
Record mepa_macsec_match_pattern_t := Mk_mepa_macsec_match_pattern_t {
  pat_match : Z; pat_etype : Z; pat_vid : Z; pat_vid_inner : Z; pat_priority : Z; pat_dest_mac : list Z;
}.
Definition mepa_macsec_match_pattern_t_0 : mepa_macsec_match_pattern_t := Mk_mepa_macsec_match_pattern_t 0 0
    0 0 0 (replicate 6 0).
Definition set_pat_match (v : Z) (x : mepa_macsec_match_pattern_t) : mepa_macsec_match_pattern_t :=
    Mk_mepa_macsec_match_pattern_t v (pat_etype x) (pat_vid x) (pat_vid_inner x) (pat_priority x) (pat_dest_mac
    x).
Definition set_pat_etype (v : Z) (x : mepa_macsec_match_pattern_t) : mepa_macsec_match_pattern_t :=
    Mk_mepa_macsec_match_pattern_t (pat_match x) v (pat_vid x) (pat_vid_inner x) (pat_priority x) (pat_dest_mac
    x).
Definition set_pat_vid (v : Z) (x : mepa_macsec_match_pattern_t) : mepa_macsec_match_pattern_t :=
    Mk_mepa_macsec_match_pattern_t (pat_match x) (pat_etype x) v (pat_vid_inner x) (pat_priority x)
    (pat_dest_mac x).
Definition set_pat_vid_inner (v : Z) (x : mepa_macsec_match_pattern_t) : mepa_macsec_match_pattern_t :=
    Mk_mepa_macsec_match_pattern_t (pat_match x) (pat_etype x) (pat_vid x) v (pat_priority x) (pat_dest_mac x).
Definition set_pat_priority (v : Z) (x : mepa_macsec_match_pattern_t) : mepa_macsec_match_pattern_t :=
    Mk_mepa_macsec_match_pattern_t (pat_match x) (pat_etype x) (pat_vid x) (pat_vid_inner x) v (pat_dest_mac x).
Definition set_pat_dest_mac (v : list Z) (x : mepa_macsec_match_pattern_t) : mepa_macsec_match_pattern_t :=
    Mk_mepa_macsec_match_pattern_t (pat_match x) (pat_etype x) (pat_vid x) (pat_vid_inner x) (pat_priority x) v.

Record phy25g_macsec_internal_rx_sa_t := Mk_phy25g_macsec_internal_rx_sa_t {
  rsa_in_use : bool; rsa_enabled : bool; rsa_record : Z; rsa_sak : mepa_macsec_sak_t;
  rsa_status : mepa_macsec_rx_sa_status_t; rsa_cnt : mepa_macsec_rx_sa_counters_t; rsa_ssci : list Z;
}.
Definition phy25g_macsec_internal_rx_sa_t_0 : phy25g_macsec_internal_rx_sa_t :=
    Mk_phy25g_macsec_internal_rx_sa_t false false 0 mepa_macsec_sak_t_0 mepa_macsec_rx_sa_status_t_0
    mepa_macsec_rx_sa_counters_t_0 (replicate 4 0).
Definition set_rsa_in_use (v : bool) (x : phy25g_macsec_internal_rx_sa_t) : phy25g_macsec_internal_rx_sa_t
    := Mk_phy25g_macsec_internal_rx_sa_t v (rsa_enabled x) (rsa_record x) (rsa_sak x) (rsa_status x) (rsa_cnt x)
    (rsa_ssci x).
Definition set_rsa_enabled (v : bool) (x : phy25g_macsec_internal_rx_sa_t) : phy25g_macsec_internal_rx_sa_t
    := Mk_phy25g_macsec_internal_rx_sa_t (rsa_in_use x) v (rsa_record x) (rsa_sak x) (rsa_status x) (rsa_cnt x)
    (rsa_ssci x).
Definition set_rsa_record (v : Z) (x : phy25g_macsec_internal_rx_sa_t) : phy25g_macsec_internal_rx_sa_t :=
    Mk_phy25g_macsec_internal_rx_sa_t (rsa_in_use x) (rsa_enabled x) v (rsa_sak x) (rsa_status x) (rsa_cnt x)
    (rsa_ssci x).
Definition set_rsa_sak (v : mepa_macsec_sak_t) (x : phy25g_macsec_internal_rx_sa_t) :
    phy25g_macsec_internal_rx_sa_t := Mk_phy25g_macsec_internal_rx_sa_t (rsa_in_use x) (rsa_enabled x)
    (rsa_record x) v (rsa_status x) (rsa_cnt x) (rsa_ssci x).
Definition set_rsa_status (v : mepa_macsec_rx_sa_status_t) (x : phy25g_macsec_internal_rx_sa_t) :
    phy25g_macsec_internal_rx_sa_t := Mk_phy25g_macsec_internal_rx_sa_t (rsa_in_use x) (rsa_enabled x)
    (rsa_record x) (rsa_sak x) v (rsa_cnt x) (rsa_ssci x).
Definition set_rsa_cnt (v : mepa_macsec_rx_sa_counters_t) (x : phy25g_macsec_internal_rx_sa_t) :
    phy25g_macsec_internal_rx_sa_t := Mk_phy25g_macsec_internal_rx_sa_t (rsa_in_use x) (rsa_enabled x)
    (rsa_record x) (rsa_sak x) (rsa_status x) v (rsa_ssci x).
Definition set_rsa_ssci (v : list Z) (x : phy25g_macsec_internal_rx_sa_t) : phy25g_macsec_internal_rx_sa_t
    := Mk_phy25g_macsec_internal_rx_sa_t (rsa_in_use x) (rsa_enabled x) (rsa_record x) (rsa_sak x) (rsa_status
    x) (rsa_cnt x) v.

Record phy25g_macsec_internal_tx_sa_t := Mk_phy25g_macsec_internal_tx_sa_t {
  tsa_in_use : bool; tsa_enabled : bool; tsa_record : Z; tsa_confidentiality : Z; tsa_sak : mepa_macsec_sak_t;
  tsa_status : mepa_macsec_tx_sa_status_t; tsa_cnt : mepa_macsec_tx_sa_counters_t; tsa_ssci : list Z;
}.
Definition phy25g_macsec_internal_tx_sa_t_0 : phy25g_macsec_internal_tx_sa_t :=
    Mk_phy25g_macsec_internal_tx_sa_t false false 0 0 mepa_macsec_sak_t_0 mepa_macsec_tx_sa_status_t_0
    mepa_macsec_tx_sa_counters_t_0 (replicate 4 0).
Definition set_tsa_in_use (v : bool) (x : phy25g_macsec_internal_tx_sa_t) : phy25g_macsec_internal_tx_sa_t
    := Mk_phy25g_macsec_internal_tx_sa_t v (tsa_enabled x) (tsa_record x) (tsa_confidentiality x) (tsa_sak x)
    (tsa_status x) (tsa_cnt x) (tsa_ssci x).
Definition set_tsa_enabled (v : bool) (x : phy25g_macsec_internal_tx_sa_t) : phy25g_macsec_internal_tx_sa_t
    := Mk_phy25g_macsec_internal_tx_sa_t (tsa_in_use x) v (tsa_record x) (tsa_confidentiality x) (tsa_sak x)
    (tsa_status x) (tsa_cnt x) (tsa_ssci x).
Definition set_tsa_record (v : Z) (x : phy25g_macsec_internal_tx_sa_t) : phy25g_macsec_internal_tx_sa_t :=
    Mk_phy25g_macsec_internal_tx_sa_t (tsa_in_use x) (tsa_enabled x) v (tsa_confidentiality x) (tsa_sak x)
    (tsa_status x) (tsa_cnt x) (tsa_ssci x).
Definition set_tsa_confidentiality (v : Z) (x : phy25g_macsec_internal_tx_sa_t) :
    phy25g_macsec_internal_tx_sa_t := Mk_phy25g_macsec_internal_tx_sa_t (tsa_in_use x) (tsa_enabled x)
    (tsa_record x) v (tsa_sak x) (tsa_status x) (tsa_cnt x) (tsa_ssci x).
Definition set_tsa_sak (v : mepa_macsec_sak_t) (x : phy25g_macsec_internal_tx_sa_t) :
    phy25g_macsec_internal_tx_sa_t := Mk_phy25g_macsec_internal_tx_sa_t (tsa_in_use x) (tsa_enabled x)
    (tsa_record x) (tsa_confidentiality x) v (tsa_status x) (tsa_cnt x) (tsa_ssci x).
Definition set_tsa_status (v : mepa_macsec_tx_sa_status_t) (x : phy25g_macsec_internal_tx_sa_t) :
    phy25g_macsec_internal_tx_sa_t := Mk_phy25g_macsec_internal_tx_sa_t (tsa_in_use x) (tsa_enabled x)
    (tsa_record x) (tsa_confidentiality x) (tsa_sak x) v (tsa_cnt x) (tsa_ssci x).
Definition set_tsa_cnt (v : mepa_macsec_tx_sa_counters_t) (x : phy25g_macsec_internal_tx_sa_t) :
    phy25g_macsec_internal_tx_sa_t := Mk_phy25g_macsec_internal_tx_sa_t (tsa_in_use x) (tsa_enabled x)
    (tsa_record x) (tsa_confidentiality x) (tsa_sak x) (tsa_status x) v (tsa_ssci x).
Definition set_tsa_ssci (v : list Z) (x : phy25g_macsec_internal_tx_sa_t) : phy25g_macsec_internal_tx_sa_t
    := Mk_phy25g_macsec_internal_tx_sa_t (tsa_in_use x) (tsa_enabled x) (tsa_record x) (tsa_confidentiality x)
    (tsa_sak x) (tsa_status x) (tsa_cnt x) v.

(** [sa] holds pointers to entries of the table [rx_sa]. *)
Record phy25g_macsec_internal_rx_sc_t := Mk_phy25g_macsec_internal_rx_sc_t {
  rsc_in_use : bool; rsc_sci : mepa_macsec_sci_t; rsc_status : mepa_macsec_rx_sc_status_t;
  rsc_cnt : mepa_macsec_rx_sc_counters_t; rsc_sa : list (option nat); rsc_conf : mepa_macsec_rx_sc_conf_t;
  rsc_del_rx_sa_cnt : mepa_macsec_rx_sa_counters_t; rsc_in_octets_validation_disabled : Z; rsc_hw_sc_idx : Z;
}.
Definition phy25g_macsec_internal_rx_sc_t_0 : phy25g_macsec_internal_rx_sc_t :=
    Mk_phy25g_macsec_internal_rx_sc_t false mepa_macsec_sci_t_0 mepa_macsec_rx_sc_status_t_0
    mepa_macsec_rx_sc_counters_t_0 (replicate 4 None) mepa_macsec_rx_sc_conf_t_0 mepa_macsec_rx_sa_counters_t_0
    0 0.
Definition set_rsc_in_use (v : bool) (x : phy25g_macsec_internal_rx_sc_t) : phy25g_macsec_internal_rx_sc_t
    := Mk_phy25g_macsec_internal_rx_sc_t v (rsc_sci x) (rsc_status x) (rsc_cnt x) (rsc_sa x) (rsc_conf x)
    (rsc_del_rx_sa_cnt x) (rsc_in_octets_validation_disabled x) (rsc_hw_sc_idx x).
Definition set_rsc_sci (v : mepa_macsec_sci_t) (x : phy25g_macsec_internal_rx_sc_t) :
    phy25g_macsec_internal_rx_sc_t := Mk_phy25g_macsec_internal_rx_sc_t (rsc_in_use x) v (rsc_status x) (rsc_cnt
    x) (rsc_sa x) (rsc_conf x) (rsc_del_rx_sa_cnt x) (rsc_in_octets_validation_disabled x) (rsc_hw_sc_idx x).
Definition set_rsc_status (v : mepa_macsec_rx_sc_status_t) (x : phy25g_macsec_internal_rx_sc_t) :
    phy25g_macsec_internal_rx_sc_t := Mk_phy25g_macsec_internal_rx_sc_t (rsc_in_use x) (rsc_sci x) v (rsc_cnt x)
    (rsc_sa x) (rsc_conf x) (rsc_del_rx_sa_cnt x) (rsc_in_octets_validation_disabled x) (rsc_hw_sc_idx x).
Definition set_rsc_cnt (v : mepa_macsec_rx_sc_counters_t) (x : phy25g_macsec_internal_rx_sc_t) :
    phy25g_macsec_internal_rx_sc_t := Mk_phy25g_macsec_internal_rx_sc_t (rsc_in_use x) (rsc_sci x) (rsc_status
    x) v (rsc_sa x) (rsc_conf x) (rsc_del_rx_sa_cnt x) (rsc_in_octets_validation_disabled x) (rsc_hw_sc_idx x).
Definition set_rsc_sa (v : list (option nat)) (x : phy25g_macsec_internal_rx_sc_t) :
    phy25g_macsec_internal_rx_sc_t := Mk_phy25g_macsec_internal_rx_sc_t (rsc_in_use x) (rsc_sci x) (rsc_status
    x) (rsc_cnt x) v (rsc_conf x) (rsc_del_rx_sa_cnt x) (rsc_in_octets_validation_disabled x) (rsc_hw_sc_idx x).
Definition set_rsc_conf (v : mepa_macsec_rx_sc_conf_t) (x : phy25g_macsec_internal_rx_sc_t) :
    phy25g_macsec_internal_rx_sc_t := Mk_phy25g_macsec_internal_rx_sc_t (rsc_in_use x) (rsc_sci x) (rsc_status
    x) (rsc_cnt x) (rsc_sa x) v (rsc_del_rx_sa_cnt x) (rsc_in_octets_validation_disabled x) (rsc_hw_sc_idx x).
Definition set_rsc_del_rx_sa_cnt (v : mepa_macsec_rx_sa_counters_t) (x : phy25g_macsec_internal_rx_sc_t) :
    phy25g_macsec_internal_rx_sc_t := Mk_phy25g_macsec_internal_rx_sc_t (rsc_in_use x) (rsc_sci x) (rsc_status
    x) (rsc_cnt x) (rsc_sa x) (rsc_conf x) v (rsc_in_octets_validation_disabled x) (rsc_hw_sc_idx x).
Definition set_rsc_in_octets_validation_disabled (v : Z) (x : phy25g_macsec_internal_rx_sc_t) :
    phy25g_macsec_internal_rx_sc_t := Mk_phy25g_macsec_internal_rx_sc_t (rsc_in_use x) (rsc_sci x) (rsc_status
    x) (rsc_cnt x) (rsc_sa x) (rsc_conf x) (rsc_del_rx_sa_cnt x) v (rsc_hw_sc_idx x).
Definition set_rsc_hw_sc_idx (v : Z) (x : phy25g_macsec_internal_rx_sc_t) : phy25g_macsec_internal_rx_sc_t
    := Mk_phy25g_macsec_internal_rx_sc_t (rsc_in_use x) (rsc_sci x) (rsc_status x) (rsc_cnt x) (rsc_sa x)
    (rsc_conf x) (rsc_del_rx_sa_cnt x) (rsc_in_octets_validation_disabled x) v.

(** [sa] holds pointers to entries of the table [tx_sa]. *)
Record phy25g_macsec_internal_tx_sc_t := Mk_phy25g_macsec_internal_tx_sc_t {
  tsc_in_use : bool; tsc_status : mepa_macsec_tx_sc_status_t; tsc_cnt : mepa_macsec_tx_sc_counters_t;
  tsc_del_tx_sa_cnt : mepa_macsec_tx_sa_counters_t; tsc_sa : list (option nat); tsc_out_octets_untagged : Z;
}.
Definition phy25g_macsec_internal_tx_sc_t_0 : phy25g_macsec_internal_tx_sc_t :=
    Mk_phy25g_macsec_internal_tx_sc_t false mepa_macsec_tx_sc_status_t_0 mepa_macsec_tx_sc_counters_t_0
    mepa_macsec_tx_sa_counters_t_0 (replicate 4 None) 0.
Definition set_tsc_in_use (v : bool) (x : phy25g_macsec_internal_tx_sc_t) : phy25g_macsec_internal_tx_sc_t
    := Mk_phy25g_macsec_internal_tx_sc_t v (tsc_status x) (tsc_cnt x) (tsc_del_tx_sa_cnt x) (tsc_sa x)
    (tsc_out_octets_untagged x).
Definition set_tsc_status (v : mepa_macsec_tx_sc_status_t) (x : phy25g_macsec_internal_tx_sc_t) :
    phy25g_macsec_internal_tx_sc_t := Mk_phy25g_macsec_internal_tx_sc_t (tsc_in_use x) v (tsc_cnt x)
    (tsc_del_tx_sa_cnt x) (tsc_sa x) (tsc_out_octets_untagged x).
Definition set_tsc_cnt (v : mepa_macsec_tx_sc_counters_t) (x : phy25g_macsec_internal_tx_sc_t) :
    phy25g_macsec_internal_tx_sc_t := Mk_phy25g_macsec_internal_tx_sc_t (tsc_in_use x) (tsc_status x) v
    (tsc_del_tx_sa_cnt x) (tsc_sa x) (tsc_out_octets_untagged x).
Definition set_tsc_del_tx_sa_cnt (v : mepa_macsec_tx_sa_counters_t) (x : phy25g_macsec_internal_tx_sc_t) :
    phy25g_macsec_internal_tx_sc_t := Mk_phy25g_macsec_internal_tx_sc_t (tsc_in_use x) (tsc_status x) (tsc_cnt
    x) v (tsc_sa x) (tsc_out_octets_untagged x).
Definition set_tsc_sa (v : list (option nat)) (x : phy25g_macsec_internal_tx_sc_t) :
    phy25g_macsec_internal_tx_sc_t := Mk_phy25g_macsec_internal_tx_sc_t (tsc_in_use x) (tsc_status x) (tsc_cnt
    x) (tsc_del_tx_sa_cnt x) v (tsc_out_octets_untagged x).
Definition set_tsc_out_octets_untagged (v : Z) (x : phy25g_macsec_internal_tx_sc_t) :
    phy25g_macsec_internal_tx_sc_t := Mk_phy25g_macsec_internal_tx_sc_t (tsc_in_use x) (tsc_status x) (tsc_cnt
    x) (tsc_del_tx_sa_cnt x) (tsc_sa x) v.

(** [rx_sc] holds pointers to entries of the table [rx_sc]; the counters of
    the ports are left out. *)
Record phy25g_macsec_internal_secy_t := Mk_phy25g_macsec_internal_secy_t {
  secy_in_use : bool; secy_sci : mepa_macsec_sci_t; secy_service_id : Z; secy_controlled_port_enabled : Z;
  secy_secy_cnt : mepa_macsec_secy_counters_t; secy_conf : mepa_macsec_secy_conf_t;
  secy_rx_sc : list (option nat); secy_tx_sc : phy25g_macsec_internal_tx_sc_t;
  secy_pattern : list (list mepa_macsec_match_pattern_t); secy_pattern_record : list (list Z);
  secy_tag_bypass : Z;
}.
Definition phy25g_macsec_internal_secy_t_0 : phy25g_macsec_internal_secy_t :=
    Mk_phy25g_macsec_internal_secy_t false mepa_macsec_sci_t_0 0 0 mepa_macsec_secy_counters_t_0
    mepa_macsec_secy_conf_t_0 (replicate 64 None) phy25g_macsec_internal_tx_sc_t_0 (replicate 3 (replicate 3
    mepa_macsec_match_pattern_t_0)) (replicate 3 (replicate 3 0)) 0.
Definition set_secy_in_use (v : bool) (x : phy25g_macsec_internal_secy_t) : phy25g_macsec_internal_secy_t :=
    Mk_phy25g_macsec_internal_secy_t v (secy_sci x) (secy_service_id x) (secy_controlled_port_enabled x)
    (secy_secy_cnt x) (secy_conf x) (secy_rx_sc x) (secy_tx_sc x) (secy_pattern x) (secy_pattern_record x)
    (secy_tag_bypass x).
Definition set_secy_sci (v : mepa_macsec_sci_t) (x : phy25g_macsec_internal_secy_t) :
    phy25g_macsec_internal_secy_t := Mk_phy25g_macsec_internal_secy_t (secy_in_use x) v (secy_service_id x)
    (secy_controlled_port_enabled x) (secy_secy_cnt x) (secy_conf x) (secy_rx_sc x) (secy_tx_sc x) (secy_pattern
    x) (secy_pattern_record x) (secy_tag_bypass x).
Definition set_secy_service_id (v : Z) (x : phy25g_macsec_internal_secy_t) : phy25g_macsec_internal_secy_t
    := Mk_phy25g_macsec_internal_secy_t (secy_in_use x) (secy_sci x) v (secy_controlled_port_enabled x)
    (secy_secy_cnt x) (secy_conf x) (secy_rx_sc x) (secy_tx_sc x) (secy_pattern x) (secy_pattern_record x)
    (secy_tag_bypass x).
Definition set_secy_controlled_port_enabled (v : Z) (x : phy25g_macsec_internal_secy_t) :
    phy25g_macsec_internal_secy_t := Mk_phy25g_macsec_internal_secy_t (secy_in_use x) (secy_sci x)
    (secy_service_id x) v (secy_secy_cnt x) (secy_conf x) (secy_rx_sc x) (secy_tx_sc x) (secy_pattern x)
    (secy_pattern_record x) (secy_tag_bypass x).
Definition set_secy_secy_cnt (v : mepa_macsec_secy_counters_t) (x : phy25g_macsec_internal_secy_t) :
    phy25g_macsec_internal_secy_t := Mk_phy25g_macsec_internal_secy_t (secy_in_use x) (secy_sci x)
    (secy_service_id x) (secy_controlled_port_enabled x) v (secy_conf x) (secy_rx_sc x) (secy_tx_sc x)
    (secy_pattern x) (secy_pattern_record x) (secy_tag_bypass x).
Definition set_secy_conf (v : mepa_macsec_secy_conf_t) (x : phy25g_macsec_internal_secy_t) :
    phy25g_macsec_internal_secy_t := Mk_phy25g_macsec_internal_secy_t (secy_in_use x) (secy_sci x)
    (secy_service_id x) (secy_controlled_port_enabled x) (secy_secy_cnt x) v (secy_rx_sc x) (secy_tx_sc x)
    (secy_pattern x) (secy_pattern_record x) (secy_tag_bypass x).
Definition set_secy_rx_sc (v : list (option nat)) (x : phy25g_macsec_internal_secy_t) :
    phy25g_macsec_internal_secy_t := Mk_phy25g_macsec_internal_secy_t (secy_in_use x) (secy_sci x)
    (secy_service_id x) (secy_controlled_port_enabled x) (secy_secy_cnt x) (secy_conf x) v (secy_tx_sc x)
    (secy_pattern x) (secy_pattern_record x) (secy_tag_bypass x).
Definition set_secy_tx_sc (v : phy25g_macsec_internal_tx_sc_t) (x : phy25g_macsec_internal_secy_t) :
    phy25g_macsec_internal_secy_t := Mk_phy25g_macsec_internal_secy_t (secy_in_use x) (secy_sci x)
    (secy_service_id x) (secy_controlled_port_enabled x) (secy_secy_cnt x) (secy_conf x) (secy_rx_sc x) v
    (secy_pattern x) (secy_pattern_record x) (secy_tag_bypass x).
Definition set_secy_pattern (v : list (list mepa_macsec_match_pattern_t)) (x :
    phy25g_macsec_internal_secy_t) : phy25g_macsec_internal_secy_t := Mk_phy25g_macsec_internal_secy_t
    (secy_in_use x) (secy_sci x) (secy_service_id x) (secy_controlled_port_enabled x) (secy_secy_cnt x)
    (secy_conf x) (secy_rx_sc x) (secy_tx_sc x) v (secy_pattern_record x) (secy_tag_bypass x).
Definition set_secy_pattern_record (v : list (list Z)) (x : phy25g_macsec_internal_secy_t) :
    phy25g_macsec_internal_secy_t := Mk_phy25g_macsec_internal_secy_t (secy_in_use x) (secy_sci x)
    (secy_service_id x) (secy_controlled_port_enabled x) (secy_secy_cnt x) (secy_conf x) (secy_rx_sc x)
    (secy_tx_sc x) (secy_pattern x) v (secy_tag_bypass x).
Definition set_secy_tag_bypass (v : Z) (x : phy25g_macsec_internal_secy_t) : phy25g_macsec_internal_secy_t
    := Mk_phy25g_macsec_internal_secy_t (secy_in_use x) (secy_sci x) (secy_service_id x)
    (secy_controlled_port_enabled x) (secy_secy_cnt x) (secy_conf x) (secy_rx_sc x) (secy_tx_sc x) (secy_pattern
    x) (secy_pattern_record x) v.

Record phy25g_vlan_t := Mk_phy25g_vlan_t {
  vl_vid : Z; vl_pcp : Z; vl_dei : Z;
}.
Definition phy25g_vlan_t_0 : phy25g_vlan_t := Mk_phy25g_vlan_t 0 0 0.

Record phy25g_pbb_conf_t := Mk_phy25g_pbb_conf_t {
  pbb_btag : phy25g_vlan_t; pbb_itag : phy25g_vlan_t; pbb_out_cus_vid : Z;
}.
Definition phy25g_pbb_conf_t_0 : phy25g_pbb_conf_t := Mk_phy25g_pbb_conf_t phy25g_vlan_t_0 phy25g_vlan_t_0
    0.

Record phy25g_mpls_conf_t := Mk_phy25g_mpls_conf_t {
  mpls_mpls1_num : Z; mpls_mpls2_num : Z; mpls_mpls1_label : Z; mpls_mpls2_label : Z; mpls_mpls1_exp : Z;
  mpls_mpls2_exp : Z; mpls_mpls1_s : Z; mpls_mpls2_s : Z;
}.
Definition phy25g_mpls_conf_t_0 : phy25g_mpls_conf_t := Mk_phy25g_mpls_conf_t 0 0 0 0 0 0 0 0.

Record phy25g_macsec_cleartags_conf_t := Mk_phy25g_macsec_cleartags_conf_t {
  ct_packet_type : Z; ct_pbb_conf : phy25g_pbb_conf_t; ct_mpls_conf : phy25g_mpls_conf_t; ct_num_tag : Z;
  ct_is_eo_mpls : Z; ct_sectag_off : Z; ct_num_mpls_label : Z; ct_is_pw_ctrl_word : Z; ct_match : Z;
}.
Definition phy25g_macsec_cleartags_conf_t_0 : phy25g_macsec_cleartags_conf_t :=
    Mk_phy25g_macsec_cleartags_conf_t 0 phy25g_pbb_conf_t_0 phy25g_mpls_conf_t_0 0 0 0 0 0 0.

Record mepa_macsec_bypass_mode_t := Mk_mepa_macsec_bypass_mode_t {
  bm_mode : Z; bm_hdr_bypass_len : Z; bm_hdr_etype : Z;
}.
Definition mepa_macsec_bypass_mode_t_0 : mepa_macsec_bypass_mode_t := Mk_mepa_macsec_bypass_mode_t 0 0 0.

(** Members that the management of SecYs uses, of [init] its [enable]. *)
Record phy25g_macsec_internal_glb_t := Mk_phy25g_macsec_internal_glb_t {
  glb_bypass_mode : mepa_macsec_bypass_mode_t; glb_cleartags_conf : phy25g_macsec_cleartags_conf_t;
  glb_cleartags_init_done : bool; glb_init_enable : Z;
}.
Definition phy25g_macsec_internal_glb_t_0 : phy25g_macsec_internal_glb_t := Mk_phy25g_macsec_internal_glb_t
    mepa_macsec_bypass_mode_t_0 phy25g_macsec_cleartags_conf_t_0 false 0.
Definition set_glb_bypass_mode (v : mepa_macsec_bypass_mode_t) (x : phy25g_macsec_internal_glb_t) :
    phy25g_macsec_internal_glb_t := Mk_phy25g_macsec_internal_glb_t v (glb_cleartags_conf x)
    (glb_cleartags_init_done x) (glb_init_enable x).
Definition set_glb_cleartags_conf (v : phy25g_macsec_cleartags_conf_t) (x : phy25g_macsec_internal_glb_t) :
    phy25g_macsec_internal_glb_t := Mk_phy25g_macsec_internal_glb_t (glb_bypass_mode x) v
    (glb_cleartags_init_done x) (glb_init_enable x).
Definition set_glb_cleartags_init_done (v : bool) (x : phy25g_macsec_internal_glb_t) :
    phy25g_macsec_internal_glb_t := Mk_phy25g_macsec_internal_glb_t (glb_bypass_mode x) (glb_cleartags_conf x) v
    (glb_init_enable x).
Definition set_glb_init_enable (v : Z) (x : phy25g_macsec_internal_glb_t) : phy25g_macsec_internal_glb_t :=
    Mk_phy25g_macsec_internal_glb_t (glb_bypass_mode x) (glb_cleartags_conf x) (glb_cleartags_init_done x) v.

(** The tables of the SecYs, channels and associations.  [rc_dbg_counters]
    is a map from the names of the members; a name that is absent counts 0. *)
Record phy25g_macsec_internal_conf_t := Mk_phy25g_macsec_internal_conf_t {
  mc_secy : list phy25g_macsec_internal_secy_t; mc_rx_sc : list phy25g_macsec_internal_rx_sc_t;
  mc_rx_sa : list phy25g_macsec_internal_rx_sa_t; mc_tx_sa : list phy25g_macsec_internal_tx_sa_t;
  mc_glb : phy25g_macsec_internal_glb_t; mc_rc_dbg_counters : gmap string Z; mc_rx_sc_hw_idx_in_use : Z;
}.
Definition phy25g_macsec_internal_conf_t_0 : phy25g_macsec_internal_conf_t :=
    Mk_phy25g_macsec_internal_conf_t (replicate 64 phy25g_macsec_internal_secy_t_0) (replicate 64
    phy25g_macsec_internal_rx_sc_t_0) (replicate 128 phy25g_macsec_internal_rx_sa_t_0) (replicate 128
    phy25g_macsec_internal_tx_sa_t_0) phy25g_macsec_internal_glb_t_0 ∅ 0.
Definition set_mc_secy (v : list phy25g_macsec_internal_secy_t) (x : phy25g_macsec_internal_conf_t) :
    phy25g_macsec_internal_conf_t := Mk_phy25g_macsec_internal_conf_t v (mc_rx_sc x) (mc_rx_sa x) (mc_tx_sa x)
    (mc_glb x) (mc_rc_dbg_counters x) (mc_rx_sc_hw_idx_in_use x).
Definition set_mc_rx_sc (v : list phy25g_macsec_internal_rx_sc_t) (x : phy25g_macsec_internal_conf_t) :
    phy25g_macsec_internal_conf_t := Mk_phy25g_macsec_internal_conf_t (mc_secy x) v (mc_rx_sa x) (mc_tx_sa x)
    (mc_glb x) (mc_rc_dbg_counters x) (mc_rx_sc_hw_idx_in_use x).
Definition set_mc_rx_sa (v : list phy25g_macsec_internal_rx_sa_t) (x : phy25g_macsec_internal_conf_t) :
    phy25g_macsec_internal_conf_t := Mk_phy25g_macsec_internal_conf_t (mc_secy x) (mc_rx_sc x) v (mc_tx_sa x)
    (mc_glb x) (mc_rc_dbg_counters x) (mc_rx_sc_hw_idx_in_use x).
Definition set_mc_tx_sa (v : list phy25g_macsec_internal_tx_sa_t) (x : phy25g_macsec_internal_conf_t) :
    phy25g_macsec_internal_conf_t := Mk_phy25g_macsec_internal_conf_t (mc_secy x) (mc_rx_sc x) (mc_rx_sa x) v
    (mc_glb x) (mc_rc_dbg_counters x) (mc_rx_sc_hw_idx_in_use x).
Definition set_mc_glb (v : phy25g_macsec_internal_glb_t) (x : phy25g_macsec_internal_conf_t) :
    phy25g_macsec_internal_conf_t := Mk_phy25g_macsec_internal_conf_t (mc_secy x) (mc_rx_sc x) (mc_rx_sa x)
    (mc_tx_sa x) v (mc_rc_dbg_counters x) (mc_rx_sc_hw_idx_in_use x).
Definition set_mc_rc_dbg_counters (v : gmap string Z) (x : phy25g_macsec_internal_conf_t) :
    phy25g_macsec_internal_conf_t := Mk_phy25g_macsec_internal_conf_t (mc_secy x) (mc_rx_sc x) (mc_rx_sa x)
    (mc_tx_sa x) (mc_glb x) v (mc_rx_sc_hw_idx_in_use x).
Definition set_mc_rx_sc_hw_idx_in_use (v : Z) (x : phy25g_macsec_internal_conf_t) :
    phy25g_macsec_internal_conf_t := Mk_phy25g_macsec_internal_conf_t (mc_secy x) (mc_rx_sc x) (mc_rx_sa x)
    (mc_tx_sa x) (mc_glb x) (mc_rc_dbg_counters x) v.
