(* ===== verification/Lan80xxCsr.v ===== *)
(** * Lan80xxCsr: register access of the LAN80xx

    [lan80xx_private.c]: the translation of a register address
    ([lan80xx_get_base_adr]) and the 32-bit and 64-bit accesses over SPI or
    MDIO ([lan80xx_csr_rd], [lan80xx_csr_rd_64], [lan80xx_csr_wr],
    [lan80xx_csr_wrm]).  The driver runs in the same state as the LAN8814
    driver ([Machine]): the bus, the private data of the devices and the log of
    lock calls and sleeps; the mailbox's response buffer, a static variable of
    the file, goes with the bus.  The callouts belong to the application: the
    class [Callout80]. *)

From Stdlib Require Import ZArith Lia List Bool String.
From stdpp Require Import base gmap strings list.
From S2P Require Import Prelude Machine Lan80xxRegs Lan80xxMacsecTypes.

(** A NULL callout is [None].  A read gives the return code and what it stored
    through the pointer; [mmd_read_inc] the values it stored, from the start of
    the buffer.  [gpio] calls the interrupt line callback, by its identity. *)
Class Callout80 (B : Type) := {
  spi_read : option (Z -> Z -> Z -> Z -> B -> (Z * option Z) * B);
  spi_write : option (Z -> Z -> Z -> Z -> Z -> B -> Z * B);
  spi_read_64bit : option (Z -> Z -> Z -> Z -> B -> (Z * option Z) * B);
  mmd_read : option (Z -> Z -> Z -> B -> (Z * option Z) * B);
  mmd_read_inc : option (Z -> Z -> Z -> Z -> B -> (Z * list Z) * B);
  mmd_write : option (Z -> Z -> Z -> Z -> B -> Z * B);
  gpio : Z -> Z -> B -> Z * B;
  enter80 : bool;
  exit80 : bool;
  uninit80 : string -> Z;
}.

(** The members of [phy25g_phy_state_t] that the modelled functions use;
    [dev.rev] and the [features] are flattened. *)
Record phy25g_phy_state_t := Mk_phy25g_phy_state_t {
  p80_port_no : Z;
  p80_channel_id : Z;
  p80_base_dev : option Z;
  p80_ft_gpio_read : option Z;
  p80_krlog_en_ports : Z;
  p80_sync_calling_private : bool;
  p80_rev : Z;
  p80_macsec_disable : Z;
  p80_cleartags_disable : Z;
  p80_macsec_conf : phy25g_macsec_internal_conf_t;
}.
Definition set_p80_ft_gpio_read (v : option Z) (d : phy25g_phy_state_t) : phy25g_phy_state_t :=
    Mk_phy25g_phy_state_t (p80_port_no d) (p80_channel_id d) (p80_base_dev d) v (p80_krlog_en_ports d)
    (p80_sync_calling_private d) (p80_rev d) (p80_macsec_disable d) (p80_cleartags_disable d) (p80_macsec_conf
    d).
Definition set_p80_krlog_en_ports (v : Z) (d : phy25g_phy_state_t) : phy25g_phy_state_t :=
    Mk_phy25g_phy_state_t (p80_port_no d) (p80_channel_id d) (p80_base_dev d) (p80_ft_gpio_read d) v
    (p80_sync_calling_private d) (p80_rev d) (p80_macsec_disable d) (p80_cleartags_disable d) (p80_macsec_conf
    d).
Definition set_p80_macsec_conf (v : phy25g_macsec_internal_conf_t) (d : phy25g_phy_state_t) :
    phy25g_phy_state_t := Mk_phy25g_phy_state_t (p80_port_no d) (p80_channel_id d) (p80_base_dev d)
    (p80_ft_gpio_read d) (p80_krlog_en_ports d) (p80_sync_calling_private d) (p80_rev d) (p80_macsec_disable
    d) (p80_cleartags_disable d) v.

Record env80 (B : Type) := Env80 {
  e_bus : B;
  e_resp : list Z;   (** [gau8RespBuffer] *)
}.
Arguments Env80 {B}. Arguments e_bus {B}. Arguments e_resp {B}.

(** A register: MMD device, whether it has 32 bits, and address
    ([LAN80XX_IOREG]). *)
Record ioreg_blk := Ioreg { io_mmd : Z; io_is32 : bool; io_addr : Z }.
Definition LAN80XX_IOREG (mmd is32 off : Z) : ioreg_blk := Ioreg mmd (tb is32) off.

(** ** Address translation *)

Definition within (addr lo hi : Z) : bool := (addr >=? lo) && (addr <=? hi).

(** The target and [*phy_base]; [None] is the error for an unknown device. *)
Definition base_of (mmd_dev addr : Z) : option (Z * Z) :=
  if mmd_dev =? 1 then
    if (addr <=? LAN80XX_LINE_PMA_PMA_STD_END_ADDR)
        || within addr LAN80XX_LINE_PMA_PMA_VENDOR_START_ADDR LAN80XX_LINE_PMA_PMA_VENDOR_END_ADDR then
      Some (LAN80XX_TARGET_ID_LINE_PMA, addr)
    else if within addr LAN80XX_LINE_KR_KR_STD_START_ADDR LAN80XX_LINE_KR_KR_STD_END_ADDR
        || within addr LAN80XX_LINE_KR_KR_VENDOR_START_ADDR LAN80XX_LINE_KR_KR_VENDOR_END_ADDR then
      Some (LAN80XX_TARGET_ID_LINE_KR, addr)
    else if within addr LAN80XX_LINE_PCS_CFG_BASE_R_FEC_STD_START_ADDR LAN80XX_LINE_PCS_CFG_BASE_R_FEC_STD_END_ADDR
        || within addr LAN80XX_LINE_PCS_CFG_FEC_VENDOR_START_ADDR LAN80XX_LINE_PCS_CFG_FEC_VENDOR_END_ADDR then
      Some (LAN80XX_TARGET_ID_LINE_PCS_CFG, addr)
    else if within addr LAN80XX_LINE_RS_FEC_RS_FEC_STD_START_ADDR LAN80XX_LINE_RS_FEC_RS_FEC_STD_END_ADDR
        || within addr LAN80XX_LINE_RS_FEC_RS_FEC_VENDOR_START_ADDR LAN80XX_LINE_RS_FEC_RS_FEC_VENDOR_END_ADDR then
      Some (LAN80XX_TARGET_ID_LINE_RS_FEC, addr)
    else if within addr LAN80XX_LINE_SLICE_START_ADDR LAN80XX_LINE_SLICE_END_ADDR then
      Some (LAN80XX_TARGET_ID_LINE_SLICE, addr)
    else if within addr LAN80XX_SFP_TWS_START_ADDR LAN80XX_SFP_TWS_END_ADDR then
      Some (LAN80XX_TARGET_ID_SFP_TWS, addr)
    else if within addr LAN80XX_LINE_INTR_CTRL_START_ADDR LAN80XX_LINE_INTR_CTRL_END_ADDR then
      Some (LAN80XX_TARGET_ID_LINE_INTR_CTRL, addr)
    else if within addr LAN80XX_LINE_PMA_8BIT_START_ADDR LAN80XX_LINE_PMA_8BIT_END_ADDR then
      Some (LAN80XX_TARGET_ID_LINE_PMA_8BIT, addr)
    else Some (0, addr)
  else if mmd_dev =? 3 then
    if (addr <=? LAN80XX_LINE_PCS25G_PCS_STD_END_ADDR)
        || within addr LAN80XX_LINE_PCS25G_PCS_VENDOR_START_ADDR LAN80XX_LINE_PCS25G_PCS_VENDOR_END_ADDR then
      Some (LAN80XX_TARGET_ID_LINE_PCS25G, addr)
    else if within addr LAN80XX_LINE_PCS_CFG_START_ADDR LAN80XX_LINE_PCS_CFG_END_ADDR then
      Some (LAN80XX_TARGET_ID_LINE_PCS_CFG, addr)
    else if within addr LAN80XX_MAC_FC_BUFFER_START_ADDR LAN80XX_MAC_FC_BUFFER_END_ADDR then
      Some (LAN80XX_TARGET_ID_MAC_FC_BUFFER, LAN80XX_MAC_FC_BUFFER_START_ADDR)
    else if within addr LAN80XX_HOST_MAC_START_ADDR LAN80XX_HOST_MAC_END_ADDR then
      Some (LAN80XX_TARGET_ID_HOST_MAC, LAN80XX_HOST_MAC_START_ADDR)
    else if within addr LAN80XX_LINE_MAC_START_ADDR LAN80XX_LINE_MAC_END_ADDR then
      Some (LAN80XX_TARGET_ID_LINE_MAC, LAN80XX_LINE_MAC_START_ADDR)
    else Some (0, addr)
  else if mmd_dev =? 7 then
    Some (LAN80XX_TARGET_ID_LINE_KR, addr)
  else if mmd_dev =? 8 then
    if within addr LAN80XX_MACSEC_START_ADDR LAN80XX_MACSEC_END_ADDR then
      Some (LAN80XX_TARGET_ID_MACSEC_INGR, LAN80XX_MACSEC_CORE_START_ADDR)
    else if (addr <=? LAN80XX_MACSEC_CORE_INTR_END_ADDR)
        || within addr LAN80XX_MACSEC_CORE_INTR_START_ADDR LAN80XX_MACSEC_CORE_END_ADDR then
      Some (LAN80XX_TARGET_ID_MACSEC_INGR_CORE, LAN80XX_MACSEC_CORE_START_ADDR)
    else Some (0, addr)
  else if mmd_dev =? 9 then
    if within addr LAN80XX_HOST_PMA_START_ADDR LAN80XX_HOST_PMA_END_ADDR then
      Some (LAN80XX_TARGET_ID_HOST_PMA, addr)
    else if within addr LAN80XX_HOST_KR_KR_STD_START_ADDR LAN80XX_HOST_KR_KR_STD_END_ADDR
        || within addr LAN80XX_HOST_KR_KR_VENDOR_START_ADDR LAN80XX_HOST_KR_KR_VENDOR_END_ADDR then
      Some (LAN80XX_TARGET_ID_HOST_KR, addr)
    else if within addr LAN80XX_HOST_PCS_CFG_BASE_R_FEC_STD_START_ADDR LAN80XX_HOST_PCS_CFG_BASE_R_FEC_STD_END_ADDR
        || within addr LAN80XX_HOST_PCS_CFG_FEC_VENDOR_START_ADDR LAN80XX_HOST_PCS_CFG_FEC_VENDOR_END_ADDR then
      Some (LAN80XX_TARGET_ID_HOST_PCS_CFG, addr)
    else if within addr LAN80XX_HOST_RS_FEC_RS_FEC_STD_START_ADDR LAN80XX_HOST_RS_FEC_RS_FEC_STD_END_ADDR
        || within addr LAN80XX_HOST_RS_FEC_RS_FEC_VENDOR_START_ADDR LAN80XX_HOST_RS_FEC_RS_FEC_VENDOR_END_ADDR then
      Some (LAN80XX_TARGET_ID_HOST_RS_FEC, addr)
    else if within addr LAN80XX_HOST_SLICE_START_ADDR LAN80XX_HOST_SLICE_END_ADDR then
      Some (LAN80XX_TARGET_ID_HOST_SLICE, addr)
    else if within addr LAN80XX_HOST_INTR_CTRL_START_ADDR LAN80XX_HOST_INTR_CTRL_END_ADDR then
      Some (LAN80XX_TARGET_ID_HOST_INTR_CTRL, addr)
    else if within addr LAN80XX_PKT_BIST_START_ADDR LAN80XX_PKT_BIST_END_ADDR then
      Some (LAN80XX_TARGET_ID_PKT_BIST, addr)
    else if within addr LAN80XX_HOST_PMA_8BIT_START_ADDR LAN80XX_HOST_PMA_8BIT_END_ADDR then
      Some (LAN80XX_TARGET_ID_HOST_PMA_8BIT, addr)
    else Some (0, addr)
  else if mmd_dev =? 0xa then
    if within addr LAN80XX_PTP_PROC_START_ADDR LAN80XX_PTP_PROC_END_ADDR then
      Some (LAN80XX_TARGET_ID_PTP_PROC, LAN80XX_PTP_PROC_START_ADDR)
    else if within addr LAN80XX_PTP_ANA0_INGR_CFG_START_ADDR LAN80XX_PTP_ANA0_INGR_CFG_END_ADDR then
      Some (LAN80XX_TARGET_ID_PTP_ANA0_INGR_CFG, LAN80XX_PTP_ANA0_INGR_CFG_START_ADDR)
    else if within addr LAN80XX_PTP_ANA0_EGR_CFG_START_ADDR LAN80XX_PTP_ANA0_EGR_CFG_END_ADDR then
      Some (LAN80XX_TARGET_ID_PTP_ANA0_EGR_CFG, LAN80XX_PTP_ANA0_EGR_CFG_START_ADDR)
    else if within addr LAN80XX_PTP_ANA1_INGR_CFG_START_ADDR LAN80XX_PTP_ANA1_INGR_CFG_END_ADDR then
      Some (LAN80XX_TARGET_ID_PTP_ANA1_INGR_CFG, LAN80XX_PTP_ANA1_INGR_CFG_START_ADDR)
    else if within addr LAN80XX_PTP_ANA1_EGR_CFG_START_ADDR LAN80XX_PTP_ANA1_EGR_CFG_END_ADDR then
      Some (LAN80XX_TARGET_ID_PTP_ANA1_EGR_CFG, LAN80XX_PTP_ANA1_EGR_CFG_START_ADDR)
    else if within addr LAN80XX_PTP_ANA2_INGR_CFG_START_ADDR LAN80XX_PTP_ANA2_INGR_CFG_END_ADDR then
      Some (LAN80XX_TARGET_ID_PTP_ANA2_INGR_CFG, LAN80XX_PTP_ANA2_INGR_CFG_START_ADDR)
    else if within addr LAN80XX_PTP_ANA2_EGR_CFG_START_ADDR LAN80XX_PTP_ANA2_EGR_CFG_END_ADDR then
      Some (LAN80XX_TARGET_ID_PTP_ANA2_EGR_CFG, LAN80XX_PTP_ANA2_EGR_CFG_START_ADDR)
    else Some (0, addr)
  else if mmd_dev =? 0xb then
    if (addr <=? LAN80XX_HOST_PCS25G_PCS_VENDOR_END_ADDR) then
      Some (LAN80XX_TARGET_ID_HOST_PCS25G, addr)
    else if within addr LAN80XX_HOST_PCS_CFG_START_ADDR LAN80XX_HOST_PCS_CFG_END_ADDR then
      Some (LAN80XX_TARGET_ID_HOST_PCS_CFG, addr)
    else Some (0, addr)
  else if mmd_dev =? 0xf then
    Some (LAN80XX_TARGET_ID_HOST_KR, addr)
  else if mmd_dev =? 0x1f then
    if within addr LAN80XX_MACSEC_START_ADDR LAN80XX_MACSEC_END_ADDR then
      Some (LAN80XX_TARGET_ID_MACSEC_EGR, LAN80XX_MACSEC_CORE_START_ADDR)
    else if (addr <=? LAN80XX_MACSEC_CORE_INTR_END_ADDR)
        || within addr LAN80XX_MACSEC_CORE_INTR_START_ADDR LAN80XX_MACSEC_CORE_END_ADDR then
      Some (LAN80XX_TARGET_ID_MACSEC_EGR_CORE, LAN80XX_MACSEC_CORE_START_ADDR)
    else Some (0, addr)
  else if mmd_dev =? 0x1e then
    if (addr <=? LAN80XX_MCU_IO_MNGT_MISC_END_ADDR) then
      Some (LAN80XX_TARGET_ID_MCU_IO_MNGT_MISC, addr)
    else if within addr LAN80XX_GLOBAL_START_ADDR LAN80XX_GLOBAL_END_ADDR then
      Some (LAN80XX_TARGET_ID_GLOBAL, addr)
    else if within addr LAN80XX_CLK_CFG_START_ADDR LAN80XX_CLK_CFG_END_ADDR then
      Some (LAN80XX_TARGET_ID_CLK_CFG, addr)
    else if within addr LAN80XX_PTP_LTC_START_ADDR LAN80XX_PTP_LTC_END_ADDR then
      Some (LAN80XX_TARGET_ID_PTP_LTC, LAN80XX_PTP_LTC_START_ADDR)
    else if within addr LAN80XX_PTP_STI_START_ADDR LAN80XX_PTP_STI_END_ADDR then
      Some (LAN80XX_TARGET_ID_PTP_STI, LAN80XX_PTP_STI_START_ADDR)
    else if within addr LAN80XX_CROSS_CONNECT_START_ADDR LAN80XX_CROSS_CONNECT_END_ADDR then
      Some (LAN80XX_TARGET_ID_CROSS_CONNECT, LAN80XX_CROSS_CONNECT_START_ADDR)
    else if within addr LAN80XX_GPIO_CTRL_START_ADDR LAN80XX_GPIO_CTRL_END_ADDR then
      Some (LAN80XX_TARGET_ID_GPIO_CTRL, LAN80XX_GPIO_CTRL_START_ADDR)
    else if within addr LAN80XX_MCU_MAILBOX_START_ADDR LAN80XX_MCU_MAILBOX_END_ADDR then
      Some (LAN80XX_TARGET_ID_MCU_MAILBOX, LAN80XX_MCU_MAILBOX_START_ADDR)
    else Some (0, addr)
  else None.
(** The code, [*phy_base], [*target_id] and [*offset], which is only assigned
    on success. *)
Definition lan80xx_get_base_adr (mmd_dev addr : Z) : Z * Z * Z * option Z :=
  match base_of mmd_dev addr with
  | Some (target_id, phy_base) => (MEPA_RC_OK, phy_base, target_id, Some (u32 (addr - phy_base)))
  | None => (MEPA_RC_ERROR, addr, 0, None)
  end.

(** [reg_addr = base_addr | (offset << 1)] *)
Definition mdio_addr (base_addr offset : Z) : Z := base_addr .| u32 (offset .<< 1).

Section Csr.
Context {B : Type} {CO : Callout80 B}.
Notation M := (M (env80 B) phy25g_phy_state_t).

(** A callout: it changes the bus. *)
Definition on_bus {A} (f : B -> A * B) : M A :=
  fun w => let '(a, b) := f (e_bus (w_bus w)) in
           Some (a, World (Env80 b (e_resp (w_bus w))) (w_data w) (w_log w)).

Definition enter : M unit := if enter80 then log EvEnter else ret tt.
Definition exit : M unit := if exit80 then log EvExit else ret tt.

(** [value] is what [*value] holds before the call; the result has the code
    and what it holds after it. *)
Definition lan80xx_csr_rd (dev port_no mmd_dev : Z) (is32 : bool) (addr value : Z) : M (Z * Z) :=
  match spi_read with
  | Some f =>
      r <- on_bus (f dev port_no (u8 mmd_dev) (u16 addr)) ;;
      let value := default value (option_map u32 (snd r)) in
      if fst r <? MEPA_RC_OK then ret (fst r, value) else ret (MEPA_RC_OK, value)
  | None =>
  match mmd_read, mmd_read_inc with
  | Some rd, Some rd_inc =>
      if is32 then
        match lan80xx_get_base_adr mmd_dev addr with
        | (rc, base_addr, _, Some offset) =>
            let reg_addr := mdio_addr base_addr offset in
            r <- on_bus (rd_inc dev (u8 mmd_dev) (u16 reg_addr) 2) ;;
            if fst r <? MEPA_RC_OK then ret (fst r, value) else
            let reg_value i := u16 (default (uninit80 "reg_value") (snd r !! i)) in
            ret (MEPA_RC_OK, u32 (reg_value 0%nat + (reg_value 1%nat .<< LAN80XX_16_BIT_SHIFT)))
        | (rc, _, _, None) => ret (rc, value)
        end
      else
        r <- on_bus (rd dev (u8 mmd_dev) (u16 addr)) ;;
        if fst r <? MEPA_RC_OK then ret (fst r, value) else
        ret (MEPA_RC_OK, u16 (default (uninit80 "reg_value") (snd r)))
  | _, _ => ret (MEPA_RC_ERROR, value)
  end
  end.

Definition lan80xx_csr_rd_64 (dev port_no mmd_dev : Z) (is32 : bool) (addr value : Z) : M (Z * Z) :=
  if negb is32 then ret (MEPA_RC_ERROR, value) else
  match spi_read_64bit with
  | Some f =>
      r <- on_bus (f dev port_no (u8 mmd_dev) (u16 addr)) ;;
      let value := default value (option_map u64 (snd r)) in
      if fst r <? MEPA_RC_OK then ret (fst r, value) else ret (MEPA_RC_OK, value)
  | None =>
  match spi_read with
  | Some f =>
      r <- on_bus (f dev port_no (u8 mmd_dev) (u16 addr)) ;;
      if fst r <? MEPA_RC_OK then ret (fst r, value) else
      let value_low := u32 (default (uninit80 "value_low") (snd r)) in
      r <- on_bus (f dev port_no (u8 mmd_dev) (u16 (addr + 1))) ;;
      if fst r <? MEPA_RC_OK then ret (fst r, value) else
      let value_hi := u32 (default (uninit80 "value_hi") (snd r)) in
      ret (MEPA_RC_OK, u64 ((value_hi .<< LAN80XX_32_BIT_SHIFT) + value_low))
  | None =>
  match mmd_read_inc with
  | Some rd_inc =>
      match lan80xx_get_base_adr mmd_dev addr with
      | (rc, base_addr, _, Some offset) =>
          let reg_addr := mdio_addr base_addr offset in
          r <- on_bus (rd_inc dev (u8 mmd_dev) (u16 reg_addr) 4) ;;
          if fst r <? MEPA_RC_OK then ret (fst r, value) else
          let reg_value i := u16 (default (uninit80 "reg_value") (snd r !! i)) in
          let value_low := u32 (reg_value 0%nat + (reg_value 1%nat .<< LAN80XX_16_BIT_SHIFT)) in
          let value_hi := u32 (reg_value 2%nat + (reg_value 3%nat .<< LAN80XX_16_BIT_SHIFT)) in
          ret (MEPA_RC_OK, u64 ((value_hi .<< LAN80XX_32_BIT_SHIFT) + value_low))
      | (rc, _, _, None) => ret (rc, value)
      end
  | None => ret (MEPA_RC_ERROR, value)
  end
  end
  end.

(** Over MDIO the upper half goes first. *)
Definition lan80xx_csr_wr (dev port_no mmd_dev : Z) (is32 : bool) (addr value : Z) : M Z :=
  match spi_write with
  | Some f =>
      try_rc (on_bus (f dev port_no (u8 mmd_dev) (u16 addr) value)) (ret MEPA_RC_OK)
  | None =>
  let reg_value_lower := u16 (value .& 0xffff) in
  let reg_value_upper := u16 (value .>> LAN80XX_16_BIT_SHIFT) in
  match mmd_write with
  | Some wr =>
      if is32 then
        match lan80xx_get_base_adr mmd_dev addr with
        | (rc, base_addr, _, Some offset) =>
            let reg_addr := mdio_addr base_addr offset in
            try_rc (on_bus (wr dev (u8 mmd_dev) (u16 (reg_addr .| 1)) reg_value_upper))
            (try_rc (on_bus (wr dev (u8 mmd_dev) (u16 reg_addr) reg_value_lower))
            (ret MEPA_RC_OK))
        | (rc, _, _, None) => ret rc
        end
      else
        try_rc (on_bus (wr dev (u8 mmd_dev) (u16 addr) reg_value_lower)) (ret MEPA_RC_OK)
  | None => ret MEPA_RC_ERROR
  end
  end.

Definition lan80xx_csr_wrm (dev port_no mmd : Z) (is32 : bool) (addr value mask : Z) : M Z :=
  r <- lan80xx_csr_rd dev port_no mmd is32 addr (uninit80 "val") ;;
  if fst r =? MEPA_RC_OK then
    lan80xx_csr_wr dev port_no mmd is32 addr (u32 ((snd r .& .~ mask) .| (value .& mask)))
  else ret (fst r).

(** [_lan80xx_csr_wrm]; [mmd] is a [uint16_t] there. *)
Definition _lan80xx_csr_wrm (dev port_no : Z) (io_reg : ioreg_blk) (value mask : Z) : M Z :=
  lan80xx_csr_wrm dev port_no (io_mmd io_reg) (io_is32 io_reg) (io_addr io_reg) value mask.
Definition _lan80xx_csr_rd_64 (dev port_no : Z) (reg : ioreg_blk) (value : Z) : M (Z * Z) :=
  lan80xx_csr_rd_64 dev port_no (io_mmd reg) (io_is32 reg) (io_addr reg) value.

(** The macros: they leave the calling function with any code that is not
    OK; [fail] makes the function's result from the code. *)
Definition LAN80XX_CSR_RD {A} (fail : Z -> M A) (dev port : Z) (io_reg : ioreg_blk) (value : Z)
    (k : Z -> M A) : M A :=
  r <- lan80xx_csr_rd dev port (io_mmd io_reg) (io_is32 io_reg) (io_addr io_reg) value ;;
  if negb (fst r =? MEPA_RC_OK) then fail (fst r) else k (snd r).
Definition LAN80XX_CSR_WR {A} (fail : Z -> M A) (dev port : Z) (io_reg : ioreg_blk) (value : Z)
    (k : M A) : M A :=
  rc <- lan80xx_csr_wr dev port (io_mmd io_reg) (io_is32 io_reg) (io_addr io_reg) value ;;
  if negb (rc =? MEPA_RC_OK) then fail rc else k.
Definition LAN80XX_CSR_WRM {A} (fail : Z -> M A) (dev p : Z) (io_reg : ioreg_blk) (value mask : Z)
    (k : M A) : M A :=
  rc <- _lan80xx_csr_wrm dev p io_reg value mask ;;
  if negb (rc =? MEPA_RC_OK) then fail rc else k.
Definition LAN80XX_BASE_DEV {A} (fail : Z -> M A) (data : phy25g_phy_state_t)
    (k : Z -> phy25g_phy_state_t -> M A) : M A :=
  match p80_base_dev data with
  | None => fail MEPA_RC_ERROR
  | Some base_dev => base_data <- data_of base_dev ;; k base_dev base_data
  end.
End Csr.
