(* ===== verification/Lan80xxMcu.v ===== *)
(** * Lan80xxMcu: the mailbox of the LAN80xx microcontroller

    The packets, the mailbox protocol and the commands of [lan80xx_private.c]
    that go through it, and the entry points of [lan80xx_mcu.c].  A packet is
    an array of bytes; its header and its checksum are stored through pointers
    to 16-bit integers, on a little-endian host.  [None] also stands for a loop
    that has not ended after the turns it is given: [turns] for the wait for a
    busy microcontroller, which has no timeout, and a bound that is enough
    whenever the loop ends for the others.  Trace output is left out. *)

From Stdlib Require Import ZArith Lia List Bool String.
From stdpp Require Import base gmap strings list.
From S2P Require Import Prelude Machine Bytes Lan80xxRegs Lan80xxCsr.

Definition MEPA_RC_ERR_PARM : Z := -5.

(** ** Packets *)

(** The inner loop turns eight times. *)
Definition crc_shift (crc : Z) : Z :=
  u16 (if tb (crc .& 0x8000) then Z.lxor (crc .<< 1) CRC_POLY_CCITT else crc .<< 1).
Definition crc_byte (crc byte : Z) : Z := Nat.iter 8 crc_shift (u16 (Z.lxor crc (byte .<< 8))).
Fixpoint crc_loop (n : nat) (input : list Z) (crc : Z) : option Z :=
  match n with
  | O => Some crc
  | S n => b ← array_at input 0; crc_loop n (drop 1 input) (crc_byte crc b)
  end.
Definition crc_16 (input : list Z) (num_bytes : Z) : option Z :=
  crc ← crc_loop (Z.to_nat num_bytes) input CRC_START_CCITT;
  Some (crc .& CRC_START_CCITT).

(** A 16-bit integer in memory. *)
Definition get_u16 (p : list Z) (i : Z) : option Z :=
  lo ← array_at p i; hi ← array_at p (i + 1); Some (lo .| (hi .<< 8)).
Definition set_u16 (p : list Z) (i v : Z) : option (list Z) :=
  write_bytes p i [u8 v; u8 (v .>> 8)].

(** The members of [PKT_HDR_T]. *)
Definition u8PktId (p : list Z) : option Z := array_at p 0.
Definition u16PktLen (p : list Z) : option Z := get_u16 p 2.

(** [idx] is a [u8]: it wraps after 64 turns, so a loop that has not ended
    then does not end. *)
Fixpoint dump_loop (turns : nat) (p : list Z) (idx u16Len : Z) : option unit :=
  if idx <? u16Len then
    match turns with
    | O => None
    | S turns =>
        _ ← array_at p idx; _ ← array_at p (idx + 1); _ ← array_at p (idx + 2); _ ← array_at p (idx + 3);
        dump_loop turns p (u8 (idx + 4)) u16Len
    end
  else Some tt.
Definition packet_dump (pu8PktBuf : list Z) : option unit :=
  len ← u16PktLen pu8PktBuf;
  let u16Len := if len >? MB_MAX_PAYLOAD_LEN then MB_MAX_PAYLOAD_LEN else len in
  dump_loop 64 pu8PktBuf 0 u16Len.

(** The length and the buffer. *)
Definition lan80xx_CreatePacket (u8PacketId u16CmdParamLen : Z) (pu8PktBuf : list Z)
    (pu8CmdData : option (list Z)) (u8Reserved : Z) : option (Z * list Z) :=
  let u16Len := u16 (u16CmdParamLen + MB_MAX_PKT_HEADER_LEN + MB_MAX_CRC_LEN) in
  buf ← set_byte pu8PktBuf 0 u8PacketId;
  buf ← set_byte buf 1 u8Reserved;
  buf ← set_u16 buf 2 u16Len;
  buf ← (match pu8CmdData with
         | Some data =>
             if u16CmdParamLen >? 0 then memcpy buf MB_PKT_DATA_OFFSET data 0 u16CmdParamLen else Some buf
         | None => Some buf
         end);
  u16CRC ← crc_16 buf (u16CmdParamLen + MB_MAX_PKT_HEADER_LEN);
  buf ← set_u16 buf (MB_PKT_DATA_OFFSET + u16CmdParamLen) u16CRC;
  Some (u16Len, buf).

Definition MAKEWORD (a b : Z) : Z := (a .& 0xff) .| ((b .& 0xff) .<< 8).

Definition ValidateCRC (pu8PktBuf : list Z) (u16Len : Z) : option Z :=
  u16CRC ← crc_16 pu8PktBuf u16Len;
  lo ← array_at pu8PktBuf u16Len;
  hi ← array_at pu8PktBuf (u16Len + 1);
  Some (if negb (u16CRC =? MAKEWORD lo hi) then MEPA_RC_ERR_MB_INVALID_CRC else MEPA_RC_OK).

Definition lan80xx_ValidatePacket (u8PktBuf : list Z) : option Z :=
  len ← u16PktLen u8PktBuf;
  if len >? MB_MAX_PKT_LEN then Some MEPA_RC_ERR_MB_INVALID_PKT_LEN else
  rc ← ValidateCRC u8PktBuf (u16 (len - MB_MAX_CRC_LEN));
  if negb (rc =? MEPA_RC_OK) then _ ← packet_dump u8PktBuf; Some rc else Some rc.

(** ** The mailbox *)
Section Mcu.
Context {B : Type} {CO : Callout80 B}.
Notation M := (M (env80 B) phy25g_phy_state_t).
Implicit Types dev : option Z.

Definition lift {A} (o : option A) : M A := match o with Some a => ret a | None => undefined end.
Definition get_resp : M (list Z) := fun w => Some (e_resp (w_bus w), w).
Definition put_resp (l : list Z) : M unit :=
  fun w => Some (tt, World (Env80 (e_bus (w_bus w)) l) (w_data w) (w_log w)).

(** [if (!dev) return MEPA_RC_ERR_PARM;] *)
Definition non_null {A} (fail : Z -> M A) (dev : option Z) (k : Z -> M A) : M A :=
  match dev with None => fail MEPA_RC_ERR_PARM | Some d => k d end.

Definition mailbox_reg (addr : Z) : ioreg_blk := LAN80XX_IOREG MMD_ID_MCU_MAILBOX 1 addr.

Definition lan80xx_check_mcu_rdy_priv (d : Z) : M Z :=
  data <- data_of d ;;
  LAN80XX_CSR_RD ret d (p80_port_no data) (mailbox_reg MAILBOX_FLAG_REGISTER) (uninit80 "val") (fun val =>
  ret (if tb (val .& 0x4) then MEPA_RC_OK else MEPA_RC_ERROR)).

Definition INTR_SRC_EN_MCU_MBOX_INTR_EN : Z := 1 .<< 21.
Definition lan80xx_mcu_mailbox_init_priv dev (u32McuIntMask u32HostIntMask : Z) : M Z :=
  non_null ret dev (fun d =>
  data <- data_of d ;;
  LAN80XX_CSR_WRM ret d (p80_port_no data) (mailbox_reg 0xda02) u32HostIntMask (1 .<< 1)
  (LAN80XX_CSR_WRM ret d (p80_port_no data) (mailbox_reg 0xda01) u32McuIntMask (1 .<< 0)
  (LAN80XX_CSR_WRM ret d (p80_port_no data) (LAN80XX_IOREG MMD_ID_GPIO_CTRL 1 (0xf20e + 1))
     INTR_SRC_EN_MCU_MBOX_INTR_EN INTR_SRC_EN_MCU_MBOX_INTR_EN
  (ret MEPA_RC_OK)))).

Definition lan80xx_MB_ClearFlag dev (u32ClearMask : Z) : M Z :=
  non_null ret dev (fun d =>
  data <- data_of d ;;
  LAN80XX_CSR_WR ret d (p80_port_no data) (mailbox_reg MAILBOX_FLAG_REGISTER) u32ClearMask
  (ret MEPA_RC_OK)).
Definition lan80xx_MB_SetFlag dev (u32SetMask : Z) : M Z :=
  non_null ret dev (fun d =>
  data <- data_of d ;;
  LAN80XX_CSR_WR ret d (p80_port_no data) (mailbox_reg MAILBOX_FLAG_REGISTER) u32SetMask
  (ret MEPA_RC_OK)).

(** [while (u16DataLen)]; a 16-bit length, in steps of four, ends within 16384
    turns if it ends. *)
Fixpoint send_words (turns : nat) (d port_no : Z) (au8CmdPkt : list Z)
    (u16DataLen u16Counter u16Reg : Z) (k : M Z) : M Z :=
  if u16DataLen =? 0 then k else
  match turns with
  | O => undefined
  | S turns =>
      b3 <- lift (array_at au8CmdPkt (u16Counter + 3)) ;;
      b2 <- lift (array_at au8CmdPkt (u16Counter + 2)) ;;
      b1 <- lift (array_at au8CmdPkt (u16Counter + 1)) ;;
      b0 <- lift (array_at au8CmdPkt u16Counter) ;;
      let u32SpiData := u32 ((b3 .<< 24) .| (b2 .<< 16) .| (b1 .<< 8) .| b0) in
      LAN80XX_CSR_WR ret d port_no (mailbox_reg u16Reg) u32SpiData
      (send_words turns d port_no au8CmdPkt (u16 (u16DataLen - SPI_VAL_LEN))
         (u16 (u16Counter + SPI_VAL_LEN)) (u16 (u16Reg + 1)) k)
  end.
Fixpoint wait_mcu (turns : nat) (d port_no u32Val : Z) (k : M Z) : M Z :=
  if tb (u32Val .& MAILBOX_INTR_ENABLE) then
    match turns with
    | O => undefined
    | S turns =>
        LAN80XX_CSR_RD ret d port_no (mailbox_reg MAILBOX_FLAG_REGISTER) u32Val (fun u32Val =>
        wait_mcu turns d port_no u32Val k)
    end
  else k.

(** A length rounded up to a multiple of four. *)
Definition round4 (len : Z) : Z :=
  if negb (len mod SPI_VAL_LEN =? 0) then u16 (len + (SPI_VAL_LEN - len mod 4)) else len.

Definition lan80xx_MB_SendRequest (turns : nat) dev (au8CmdPkt : list Z) (u16DataLen : Z) : M Z :=
  non_null ret dev (fun d =>
  data <- data_of d ;;
  let port_no := p80_port_no data in
  LAN80XX_BASE_DEV ret data (fun base_dev base_data =>
  send_words (Z.to_nat 16384) d port_no au8CmdPkt (round4 u16DataLen) 0 MAILBOX_CMD_ADDR
  (match p80_ft_gpio_read base_data with
   | None => ret MEPA_RC_ERR_PARM
   | Some cb =>
   u8McuInterrupt <- on_bus (gpio cb d) ;;
   let raise :=
     LAN80XX_CSR_RD ret d port_no (mailbox_reg MAILBOX_MCU_INTR_MASK_REGISTER) 0 (fun u32Val =>
     LAN80XX_CSR_WR ret d port_no (mailbox_reg MAILBOX_MCU_INTR_MASK_REGISTER)
       (u32Val .| MAILBOX_INTR_ENABLE)
     (lan80xx_MB_SetFlag dev MAILBOX_FLAG_SET_BIT0)) in
   if 1 =? u8 u8McuInterrupt then
     LAN80XX_CSR_RD ret d port_no (mailbox_reg MAILBOX_FLAG_REGISTER) 0 (fun u32Val =>
     wait_mcu turns d port_no u32Val raise)
   else raise
   end))).

(** [while (1)]: the timeout, the interrupt line and the register value it
    ends with. *)
Fixpoint wait_host (turns : nat) (d port_no cb u16MailboxTimeout u16Timeout u32Val : Z)
    {A} (fail : Z -> M A) (k : Z -> Z -> M A) : M A :=
  match turns with
  | O => undefined
  | S turns =>
      u8McuInterrupt <- on_bus (gpio cb d) ;;
      let u8McuInterrupt := u8 u8McuInterrupt in
      let next u32Val :=
        msleep 1 ;;;
        let u16Timeout := u16 (u16Timeout + 1) in
        if u16Timeout >? u16MailboxTimeout then k u16Timeout u8McuInterrupt
        else wait_host turns d port_no cb u16MailboxTimeout u16Timeout u32Val fail k in
      if tb u8McuInterrupt then
        LAN80XX_CSR_RD fail d port_no (mailbox_reg MAILBOX_FLAG_REGISTER) u32Val (fun u32Val =>
        if tb (u32Val .& MAILBOX_HOST_INTR_MASK) then k u16Timeout u8McuInterrupt else next u32Val)
      else next u32Val
  end.

(** Four bytes of the response. *)
Definition store_word (p : list Z) (i v : Z) : option (list Z) :=
  p ← set_byte p i (v .& 0xFF);
  p ← set_byte p (i + 1) ((v .>> 8) .& 0xFF);
  p ← set_byte p (i + 2) ((v .>> 16) .& 0xFF);
  set_byte p (i + 3) ((v .>> 24) .& 0xFF).
Fixpoint read_words (turns : nat) (d port_no : Z) (u8ResponsePkt : list Z)
    (u16PktLen u16Counter u16Reg : Z) {A} (fail : Z -> list Z -> M A) (k : list Z -> M A) : M A :=
  if u16Counter <? u16PktLen then
    match turns with
    | O => undefined
    | S turns =>
        LAN80XX_CSR_RD (fun rc => fail rc u8ResponsePkt) d port_no (mailbox_reg u16Reg) 0 (fun u32Val =>
        u8ResponsePkt <- lift (store_word u8ResponsePkt u16Counter u32Val) ;;
        read_words turns d port_no u8ResponsePkt u16PktLen (u16 (u16Counter + 4)) (u16 (u16Reg + 1)) fail k)
    end
  else k u8ResponsePkt.

(** The code, the response buffer and [*u16PayloadLen]. *)
Definition lan80xx_MB_ReadResponse dev (u8ResponsePkt : list Z) (u16PayloadLen u16MailboxTimeout : Z)
  : M (Z * list Z * Z) :=
  let fail rc := ret (rc, u8ResponsePkt, u16PayloadLen) in
  non_null fail dev (fun d =>
  data <- data_of d ;;
  let port_no := p80_port_no data in
  LAN80XX_BASE_DEV fail data (fun base_dev base_data =>
  cb <- deref (p80_ft_gpio_read base_data) ;;
  wait_host (Z.to_nat u16MailboxTimeout + 2) d port_no cb u16MailboxTimeout 0 0 fail
  (fun u16Timeout u8McuInterrupt =>
  if u16Timeout >? u16MailboxTimeout then
    LAN80XX_CSR_RD fail d port_no (mailbox_reg MAILBOX_FLAG_REGISTER) 0 (fun u32Val =>
    LAN80XX_CSR_RD fail d port_no (mailbox_reg MAILBOX_HOST_INTR_MASK_REGISTER) u32Val (fun u32Val =>
    LAN80XX_CSR_RD fail d port_no (mailbox_reg MAILBOX_MCU_INTR_MASK_REGISTER) u32Val (fun u32Val =>
    lan80xx_MB_ClearFlag dev MAILBOX_FLAG_CLEAR_BIT0 ;;;
    fail MEPA_RC_ERR_MB_RESP_TIMEOUT)))
  else
  let done (u8ResponsePkt : list Z) (u16PayloadLen : Z) :=
    rc <- lan80xx_MB_ClearFlag dev MAILBOX_FLAG_CLEAR_BIT1 ;; ret (rc, u8ResponsePkt, u16PayloadLen) in
  if tb u8McuInterrupt then
    LAN80XX_CSR_RD fail d port_no (mailbox_reg MAILBOX_RESP_ADDR) 0 (fun u32Val =>
    let len := u16 (u32Val .>> 16) in
    if len =? 0 then
      lan80xx_MB_ClearFlag dev MAILBOX_FLAG_CLEAR_BIT1 ;;;
      fail MEPA_RC_ERR_MB_INVALID_PKT_LEN
    else
    u8ResponsePkt <- lift (store_word u8ResponsePkt 0 u32Val) ;;
    let u16PktLen := if tb (len .& 0x03) then u16 (len + (4 - (len .& 0x03))) else len in
    read_words (Z.to_nat 16384) d port_no u8ResponsePkt u16PktLen 4 (MAILBOX_RESP_ADDR + 1)
      (fun rc p => ret (rc, p, len)) (fun p => done p len))
  else done u8ResponsePkt u16PayloadLen))).

(** ** Commands *)

(** The steps all commands share, from the request to the validation of the
    response in [gau8RespBuffer]: the code, the payload length and whether the
    function goes on. *)
Definition mb_command (turns : nat) dev (au8CmdBuffer : list Z) (u16PktLen timeout : Z) : M (Z * Z * bool) :=
  rc <- lan80xx_MB_SendRequest turns dev au8CmdBuffer u16PktLen ;;
  if negb (rc =? MEPA_RC_OK) then ret (rc, 0, false) else
  resp <- get_resp ;;
  let* (rc, resp, u16PayloadLen) <- lan80xx_MB_ReadResponse dev resp 0 timeout ;;
  put_resp resp ;;;
  if negb (rc =? MEPA_RC_OK) then ret (rc, u16PayloadLen, false) else
  v <- lift (lan80xx_ValidatePacket resp) ;;
  if negb (v =? MEPA_RC_OK) then ret (rc, u16PayloadLen, false) else ret (rc, u16PayloadLen, true).

(** The packet identifier of the response: [ok] when it answers the command
    [id], else the code of the failure. *)
Definition mb_response (id : Z) {A} (fail : Z -> M A) (ok : list Z -> M A) : M A :=
  resp <- get_resp ;;
  pid <- lift (u8PktId resp) ;;
  if pid =? id + 0x80 then ok resp else
  let rc := if pid =? id + 0x81 then MEPA_RC_ERR_MB_FAIL_RESPONSE else MEPA_RC_ERR_MB_CMD_PROTO_NO_SYNC in
  lift (packet_dump resp) ;;;
  fail rc.

(** The payload length that the header of the response gives. *)
Definition resp_data_len (resp : list Z) : M Z :=
  len <- lift (u16PktLen resp) ;;
  ret (u16 (len - MB_MAX_PKT_HEADER_LEN - MB_MAX_CRC_LEN)).

Record DEVICE_INFO := Mk_DEVICE_INFO {
  PartId : Z; TargetId : Z; ImageType : Z; FirmwareVersion : Z }.

(** The code and [*psDevInfo]. *)
Definition lan80xx_get_fw_info_priv (turns : nat) dev (psDevInfo : DEVICE_INFO) : M (Z * DEVICE_INFO) :=
  let fail rc := ret (rc, psDevInfo) in
  non_null fail dev (fun d =>
  let* (u16PktLen, au8CmdBuffer) <- lift (lan80xx_CreatePacket eGET_DEVICE_INFO 0 (repeat 0 32) None RESERVED_ID) ;;
  let* (rc, _, go) <- mb_command turns dev au8CmdBuffer u16PktLen MAILBOX_INTR_TIMEOUT ;;
  if negb go then fail rc else
  mb_response eGET_DEVICE_INFO fail (fun resp =>
  p0 <- lift (array_at resp 4) ;;
  p1 <- lift (array_at resp 5) ;;
  p2 <- lift (array_at resp 6) ;;
  p3 <- lift (array_at resp 7) ;;
  p4 <- lift (array_at resp 8) ;;
  p5 <- lift (array_at resp 9) ;;
  ret (rc, Mk_DEVICE_INFO (p0 .| (p1 .<< 8)) p2 p3 ((p4 .<< 8) .| p5)))).

(** Address and length as command parameters. *)
Definition addr_len_param (u32Addres u16Len : Z) : list Z :=
  [ u32Addres .& 0xff; (u32Addres .>> 8) .& 0xff; (u32Addres .>> 16) .& 0xff; (u32Addres .>> 24) .& 0xff;
    u16Len .& 0xFF; (u16Len .>> 8) .& 0xFF ].

(** The code and the caller's buffer. *)
Definition lan80xx_memory_read_priv (turns : nat) dev (u32Addres : Z) (pu8Data : list Z) (u16Len : Z)
  : M (Z * list Z) :=
  let fail rc := ret (rc, pu8Data) in
  non_null fail dev (fun d =>
  if u16Len >? MB_MAX_PAYLOAD_LEN then fail MEPA_RC_ERR_MB_INVALID_PKT_LEN else
  let au8CmdParam := addr_len_param u32Addres u16Len ++ [0; 0] in
  let* (u16PktLen, au8CmdBuffer) <- lift (lan80xx_CreatePacket eMEM_READ 6 (repeat 0 32) (Some au8CmdParam) RESERVED_ID) ;;
  let* (rc, _, go) <- mb_command turns dev au8CmdBuffer u16PktLen MAILBOX_INTR_TIMEOUT ;;
  if negb go then fail rc else
  mb_response eMEM_READ fail (fun resp =>
  u16DataLen <- resp_data_len resp ;;
  pu8Data <- lift (memcpy pu8Data 0 resp 4 u16DataLen) ;;
  ret (rc, pu8Data))).

Definition lan80xx_memory_write_priv (turns : nat) dev (u32Addres : Z) (pu8Data : list Z) (u16Len : Z) : M Z :=
  non_null ret dev (fun d =>
  if u16Len >? MB_MAX_PAYLOAD_LEN - 6 then ret MEPA_RC_ERR_MB_INVALID_PKT_LEN else
  au8cmdParam <- lift (write_bytes (repeat 0 (Z.to_nat MB_MAX_PAYLOAD_LEN)) 0 (addr_len_param u32Addres u16Len)) ;;
  au8cmdParam <- lift (memcpy au8cmdParam 6 pu8Data 0 u16Len) ;;
  let u16CmdParamLen := u16 (6 + u16Len) in
  let* (u16PktLen, au8CmdBuffer) <-
    lift (lan80xx_CreatePacket eMEM_WRITE u16CmdParamLen (repeat 0 1024) (Some au8cmdParam) RESERVED_ID) ;;
  let* (rc, _, go) <- mb_command turns dev au8CmdBuffer u16PktLen MAILBOX_INTR_TIMEOUT ;;
  if negb go then ret rc else
  mb_response eMEM_WRITE ret (fun _ => ret rc)).

Definition lan80xx_mcu_reset_priv (turns : nat) dev : M Z :=
  non_null ret dev (fun d =>
  let* (u16PktLen, au8CmdBuffer) <- lift (lan80xx_CreatePacket eDEVICE_RESET 0 (repeat 0 32) None RESERVED_ID) ;;
  rc <- lan80xx_MB_SendRequest turns dev au8CmdBuffer u16PktLen ;;
  if negb (rc =? MEPA_RC_OK) then ret rc else
  lan80xx_MB_ClearFlag dev MAILBOX_FLAG_CLEAR_BIT1).

(** ** One-time programmable memory *)

(** The code, [*pu8Cfg] and [*pu16Len]; a NULL pointer is [None]. *)
Definition lan80xx_otp_cfg_read_priv (turns : nat) dev (u8RecIdx : Z) (pu8Cfg : option (list Z)) (pu16Len : option Z)
  : M (Z * option (list Z) * option Z) :=
  let fail rc := ret (rc, pu8Cfg, pu16Len) in
  match dev, pu8Cfg, pu16Len with
  | Some d, Some cfg, Some _ =>
      if u8RecIdx >? MAX_OTP_CFG_RECORDS then fail MEPA_RC_ERR_PARM else
      let* (u16PktLen, au8CmdBuffer) <-
        lift (lan80xx_CreatePacket eOTP_CFG_READ 1 (repeat 0 32) (Some [u8RecIdx]) RESERVED_ID) ;;
      let* (rc, _, go) <- mb_command turns dev au8CmdBuffer u16PktLen MAILBOX_INTR_TIMEOUT ;;
      if negb go then fail rc else
      mb_response eOTP_CFG_READ fail (fun resp =>
      u16PktLen <- resp_data_len resp ;;
      if u16PktLen =? 0 then ret (MEPA_RC_ERR_MB_INVALID_PKT_LEN, pu8Cfg, Some 0) else
      cfg <- lift (memcpy cfg 0 resp 4 u16PktLen) ;;
      ret (rc, Some cfg, Some u16PktLen))
  | _, _, _ => fail MEPA_RC_ERR_PARM
  end.

(** The guard of the reads and writes. *)
Definition otp_refused (u16Offset u16Len : Z) : bool :=
  (u16Len =? 0) || (u16Len >? MAX_OTP_SIZE) || (u16Offset + u16Len >? MAX_OTP_SIZE).
Definition otp_chunk (u16Len u16CurLen : Z) : Z :=
  if u16Len - u16CurLen >? MB_MAX_PAYLOAD_LEN - 4 then MB_MAX_PAYLOAD_LEN - 4 else u16 (u16Len - u16CurLen).
(** Address and length: four bytes. *)
Definition otp_param (u16OtpAddr u16DataLen : Z) : list Z :=
  [u16OtpAddr .& 0xff; (u16OtpAddr .>> 8) .& 0xff; u16DataLen .& 0xFF; (u16DataLen .>> 8) .& 0xFF].

(** [while (u16CurLen < u16Len)]: each turn adds a chunk that is not empty. *)
Fixpoint otp_read_loop (n turns : nat) dev (pu8Data : list Z) (u16Len u16CurLen u16OtpAddr rc : Z) : M (Z * list Z) :=
  if u16CurLen <? u16Len then
    match n with
    | O => undefined
    | S n =>
        let u16DataLen := otp_chunk u16Len u16CurLen in
        let* (u16PktLen, au8CmdBuffer) <-
          lift (lan80xx_CreatePacket eOTP_READ 4 (repeat 0 32) (Some (otp_param u16OtpAddr u16DataLen)) RESERVED_ID) ;;
        let* (rc, _, go) <- mb_command turns dev au8CmdBuffer u16PktLen MAILBOX_INTR_TIMEOUT ;;
        if negb go then ret (rc, pu8Data) else
        mb_response eOTP_READ (fun rc => ret (rc, pu8Data)) (fun resp =>
        u16PktLen <- resp_data_len resp ;;
        if (u16PktLen =? 0) || negb (u16PktLen =? u16DataLen)
        then ret (MEPA_RC_ERR_MB_INVALID_PKT_LEN, pu8Data) else
        pu8Data <- lift (memcpy pu8Data u16CurLen resp 4 u16PktLen) ;;
        otp_read_loop n turns dev pu8Data u16Len (u16 (u16CurLen + u16DataLen)) (u16 (u16OtpAddr + u16DataLen)) rc)
    end
  else ret (rc, pu8Data).
Definition lan80xx_otp_read_priv (turns : nat) dev (pu8Data : option (list Z)) (u16Offset u16Len : Z)
  : M (Z * option (list Z)) :=
  match dev, pu8Data with
  | Some d, Some data =>
      if otp_refused u16Offset u16Len then ret (MEPA_RC_ERR_PARM, pu8Data) else
      r <- otp_read_loop (Z.to_nat u16Len) turns dev data u16Len 0 u16Offset MEPA_RC_OK ;;
      ret (fst r, Some (snd r))
  | _, _ => ret (MEPA_RC_ERR_PARM, pu8Data)
  end.

Fixpoint otp_write_loop (n turns : nat) dev (pu8Data u8cmdParam au8CmdBuffer : list Z)
    (u16Len u16CurLen u16OtpAddr u16Idx u8WriteMode rc : Z) : M Z :=
  if u16CurLen <? u16Len then
    match n with
    | O => undefined
    | S n =>
        let u16DataLen := otp_chunk u16Len u16CurLen in
        u8cmdParam <- lift (write_bytes u8cmdParam 0 (otp_param u16OtpAddr u16DataLen)) ;;
        u8cmdParam <- lift (memcpy u8cmdParam 4 pu8Data u16Idx u16DataLen) ;;
        let u16CmdParamLen := u16 (4 + u16DataLen) in
        let* (u16PktLen, au8CmdBuffer) <-
          lift (lan80xx_CreatePacket eOTP_WRITE u16CmdParamLen au8CmdBuffer (Some u8cmdParam) u8WriteMode) ;;
        let* (rc, _, go) <- mb_command turns dev au8CmdBuffer u16PktLen
          (if u8WriteMode =? eOTPWRITE_AUTH then MAILBOX_INTR_SIGN_TIMEOUT else MAILBOX_INTR_TIMEOUT) ;;
        if negb go then ret rc else
        mb_response eOTP_WRITE ret (fun resp =>
        u16PktLen <- resp_data_len resp ;;
        if negb (u16PktLen =? 1) then ret MEPA_RC_ERR_MB_INVALID_PKT_LEN else
        otp_write_loop n turns dev pu8Data u8cmdParam au8CmdBuffer u16Len (u16 (u16CurLen + u16DataLen))
          (u16 (u16OtpAddr + u16DataLen)) (u16 (u16Idx + u16DataLen)) u8WriteMode rc)
    end
  else ret rc.
Definition lan80xx_otp_write_priv (turns : nat) dev (pu8Data : option (list Z)) (u16Offset u16Len u8WriteMode : Z) : M Z :=
  match dev, pu8Data with
  | Some d, Some data =>
      if otp_refused u16Offset u16Len then ret MEPA_RC_ERR_PARM else
      otp_write_loop (Z.to_nat u16Len) turns dev data (repeat 0 (Z.to_nat MB_MAX_PAYLOAD_LEN)) (repeat 0 1024)
        u16Len 0 u16Offset 0 u8WriteMode MEPA_RC_OK
  | _, _ => ret MEPA_RC_ERR_PARM
  end.

(** The code and [*pKey]. *)
Definition lan80xx_otp_getKey_Status_priv (turns : nat) dev (pKey : option Z) : M (Z * option Z) :=
  let fail rc := ret (rc, pKey) in
  match dev, pKey with
  | Some d, Some _ =>
      let* (u16PktLen, au8CmdBuffer) <- lift (lan80xx_CreatePacket eOTP_KEY_STATUS 0 (repeat 0 32) None RESERVED_ID) ;;
      let* (rc, _, go) <- mb_command turns dev au8CmdBuffer u16PktLen MAILBOX_INTR_TIMEOUT ;;
      if negb go then fail rc else
      mb_response eOTP_KEY_STATUS fail (fun resp =>
      u16PktLen <- resp_data_len resp ;;
      if negb (u16PktLen =? 1) then fail MEPA_RC_ERR_MB_INVALID_PKT_LEN else
      key <- lift (array_at resp 4) ;;
      ret (rc, Some key))
  | _, _ => fail MEPA_RC_ERR_PARM
  end.

(** A command whose answer is one byte, which is not looked at. *)
Definition simple_response (id rc : Z) : M Z :=
  mb_response id ret (fun resp =>
  u16PktLen <- resp_data_len resp ;;
  if negb (u16PktLen =? 1) then ret MEPA_RC_ERR_MB_INVALID_PKT_LEN else ret rc).

Definition OTPProgReplacementKey_priv (turns : nat) dev (u8KeyNo : Z) (pu8KeyData : option (list Z)) : M Z :=
  match dev, pu8KeyData with
  | Some d, Some data =>
      let len := OTP_REP_KEY_LEN + OTP_REP_KEY_SIGN_LEN in
      u8CmdParam <- lift (memcpy (repeat 0 (Z.to_nat len)) 0 data 0 len) ;;
      let* (u16PktLen, au8CmdBuffer) <- lift (lan80xx_CreatePacket u8KeyNo len (repeat 0 256) (Some u8CmdParam) RESERVED_ID) ;;
      let* (rc, _, go) <- mb_command turns dev au8CmdBuffer u16PktLen MAILBOX_INTR_SIGN_TIMEOUT ;;
      if negb go then ret rc else simple_response u8KeyNo rc
  | _, _ => ret MEPA_RC_ERR_PARM
  end.

Definition RevokeAllOtpKeys_priv (turns : nat) dev : M Z :=
  non_null ret dev (fun d =>
  let* (u16PktLen, au8CmdBuffer) <- lift (lan80xx_CreatePacket eREVOKE_OTP_KEYS 0 (repeat 0 32) None RESERVED_ID) ;;
  let* (rc, _, go) <- mb_command turns dev au8CmdBuffer u16PktLen MAILBOX_INTR_SIGN_TIMEOUT ;;
  if negb go then ret rc else simple_response eREVOKE_OTP_KEYS rc).
Definition RevokeRotKey_priv (turns : nat) dev : M Z :=
  non_null ret dev (fun d =>
  let* (u16PktLen, au8CmdBuffer) <- lift (lan80xx_CreatePacket eREVOKE_ROT_KEY 0 (repeat 0 32) None RESERVED_ID) ;;
  let* (rc, _, go) <- mb_command turns dev au8CmdBuffer u16PktLen MAILBOX_INTR_SIGN_TIMEOUT ;;
  if negb go then ret rc else simple_response eREVOKE_ROT_KEY rc).

(** ** Entry points *)

(** [MEPA_ENTER(dev); rc = ..; MEPA_EXIT(dev);]: the macro follows [dev]. *)
Definition locked {A} dev (m : M A) : M A :=
  deref dev ;;; enter ;;; r <- m ;; exit ;;; ret r.

Definition lan80xx_mcu_mailbox_init dev (u32McuIntMask u32HostIntMask : Z) : M Z :=
  locked dev (lan80xx_mcu_mailbox_init_priv dev u32McuIntMask u32HostIntMask).
Definition lan80xx_MB_INTR_register_callback dev (gpio_cb : option Z) : M Z :=
  non_null ret dev (fun d =>
  enter ;;;
  data <- data_of d ;;
  LAN80XX_BASE_DEV ret data (fun base_dev base_data =>
  upd base_dev (set_p80_ft_gpio_read gpio_cb) ;;;
  exit ;;;
  ret MEPA_RC_OK)).
Definition lan80xx_get_fw_info (turns : nat) dev (psDevInfo : DEVICE_INFO) : M (Z * DEVICE_INFO) :=
  locked dev (lan80xx_get_fw_info_priv turns dev psDevInfo).
Definition lan80xx_mcu_reset (turns : nat) dev : M Z := locked dev (lan80xx_mcu_reset_priv turns dev).
Definition lan80xx_memory_read (turns : nat) dev (u32Addres : Z) (pu8Data : list Z) (u16Len : Z) : M (Z * list Z) :=
  locked dev (lan80xx_memory_read_priv turns dev u32Addres pu8Data u16Len).
Definition lan80xx_memory_write (turns : nat) dev (u32Addres : Z) (pu8Data : list Z) (u16Len : Z) : M Z :=
  locked dev (lan80xx_memory_write_priv turns dev u32Addres pu8Data u16Len).
Definition lan80xx_otp_cfg_read (turns : nat) dev (u8RecIdx : Z) (pu8Cfg : option (list Z)) (pu16Len : option Z)
  : M (Z * option (list Z) * option Z) :=
  locked dev (lan80xx_otp_cfg_read_priv turns dev u8RecIdx pu8Cfg pu16Len).
Definition lan80xx_otp_read (turns : nat) dev (pu8Data : option (list Z)) (u16Offset u16Len : Z) : M (Z * option (list Z)) :=
  locked dev (lan80xx_otp_read_priv turns dev pu8Data u16Offset u16Len).
Definition lan80xx_otp_write (turns : nat) dev (pu8Data : option (list Z)) (u16Offset u16Len u8WriteMode : Z) : M Z :=
  locked dev (lan80xx_otp_write_priv turns dev pu8Data u16Offset u16Len u8WriteMode).
Definition lan80xx_otp_getKey_Status (turns : nat) dev (pKey : option Z) : M (Z * option Z) :=
  locked dev (lan80xx_otp_getKey_Status_priv turns dev pKey).

(** ** Key management: the private functions call entry points *)

(** The writes of a configuration update: offset and length of each, and the
    signature, whose length is fixed. *)
Fixpoint otp_updates (n turns : nat) dev (pu8OTPBuffer : list Z) (pCfgUpdates : list (Z * Z))
    (i u8UpdateCnt : Z) (k : Z -> M Z) : M Z :=
  if i <? u8UpdateCnt - 1 then
    match n with
    | O => undefined
    | S n =>
        let* (u16OffsetAddr, u16Len) <- arr pCfgUpdates i ;;
        rc <- lan80xx_otp_write turns dev (Some (drop (Z.to_nat u16OffsetAddr) pu8OTPBuffer)) u16OffsetAddr u16Len eOTPWRITE_BUFF ;;
        if negb (rc =? MEPA_RC_OK) then ret rc else
        otp_updates n turns dev pu8OTPBuffer pCfgUpdates (u8 (i + 1)) u8UpdateCnt k
    end
  else k i.
Definition otp_program (turns : nat) dev (pu8OTPBuffer : list Z) (pCfgUpdates : list (Z * Z)) (u8UpdateCnt : Z) : M Z :=
  otp_updates 256 turns dev pu8OTPBuffer pCfgUpdates 0 u8UpdateCnt (fun i =>
  let* (u16OffsetAddr, _) <- arr pCfgUpdates i ;;
  rc <- lan80xx_otp_write turns dev (Some (drop (Z.to_nat u16OffsetAddr) pu8OTPBuffer)) u16OffsetAddr OTP_SIGNATURE_LEN eOTPWRITE_AUTH ;;
  ret (if negb (rc =? MEPA_RC_OK) then MEPA_RC_ERR_MB_FAIL_RESPONSE else rc)).

(** The key in use, or the failure. *)
Definition key_status (turns : nat) dev (k : Z -> M Z) : M Z :=
  let* (rc, KeyStatus) <- lan80xx_otp_getKey_Status turns dev (Some eMCHP_PUB_KEY) ;;
  if rc =? MEPA_RC_OK then k (default 0 KeyStatus) else ret MEPA_RC_ERR_MB_FAIL_RESPONSE.

Definition lan80xx_otp_revoke_AllKeys_priv (turns : nat) dev (pu8OTPBuffer : list Z) (pCfgUpdates : list (Z * Z))
    (u8UpdateCnt : Z) : M Z :=
  non_null ret dev (fun d =>
  key_status turns dev (fun KeyStatus =>
  if KeyStatus =? eALL_KEYS_COMPROMISED then ret MEPA_RC_ERR_OTP_ALL_KEY_COMPROMISED else
  rc <- RevokeAllOtpKeys_priv turns dev ;;
  if negb (rc =? MEPA_RC_OK) then ret rc else
  otp_program turns dev pu8OTPBuffer pCfgUpdates u8UpdateCnt)).
Definition lan80xx_otp_revoke_ROTKey_priv (turns : nat) dev (pu8OTPBuffer : list Z) (pCfgUpdates : list (Z * Z))
    (u8UpdateCnt : Z) : M Z :=
  non_null ret dev (fun d =>
  key_status turns dev (fun KeyStatus =>
  if KeyStatus =? eALL_KEYS_COMPROMISED then ret MEPA_RC_ERR_OTP_ALL_KEY_COMPROMISED else
  rc <- RevokeRotKey_priv turns dev ;;
  if negb (rc =? MEPA_RC_OK) then ret rc else
  otp_program turns dev pu8OTPBuffer pCfgUpdates u8UpdateCnt)).

(** The key to program next, or the code. *)
Definition next_key (KeyStatus : Z) : Z + Z :=
  if KeyStatus =? eMCHP_PUB_KEY then inl ePROG_OTP_KEY1
  else if KeyStatus =? eREPLACEMENT_KEY1 then inl ePROG_OTP_KEY2
  else if KeyStatus =? eREPLACEMENT_KEY2 then inl ePROG_OTP_KEY3
  else if KeyStatus =? eREPLACEMENT_KEY3 then inr MEPA_RC_ERR_OTP_ALL_KEY_PROGRAMMED
  else if KeyStatus =? eALL_KEYS_COMPROMISED then inr MEPA_RC_ERR_OTP_ALL_KEY_COMPROMISED
  else inr MEPA_RC_ERR_MB_CMD_PROTO_NO_SYNC.
(** The code of the programming is not looked at. *)
Definition lan80xx_otp_prog_RepKey_priv (turns : nat) dev (pu8SignedKey : option (list Z)) (pu8OTPBuffer : list Z)
    (pCfgUpdates : list (Z * Z)) (u8UpdateCnt : Z) : M Z :=
  non_null ret dev (fun d =>
  key_status turns dev (fun KeyStatus =>
  match next_key KeyStatus with
  | inr rc => ret rc
  | inl u8KeyNo =>
      OTPProgReplacementKey_priv turns dev u8KeyNo pu8SignedKey ;;;
      otp_program turns dev pu8OTPBuffer pCfgUpdates u8UpdateCnt
  end)).
Definition lan80xx_otp_cfg_program_priv (turns : nat) dev (pu8OTPBuffer : list Z) (pCfgUpdates : list (Z * Z))
    (u8UpdateCnt : Z) : M Z :=
  non_null ret dev (fun d => otp_program turns dev pu8OTPBuffer pCfgUpdates u8UpdateCnt).

Definition lan80xx_otp_revoke_AllKeys (turns : nat) dev (pu8OTPBuffer : list Z) (pCfgUpdates : list (Z * Z)) (u8UpdateCnt : Z) : M Z :=
  locked dev (lan80xx_otp_revoke_AllKeys_priv turns dev pu8OTPBuffer pCfgUpdates u8UpdateCnt).
Definition lan80xx_otp_revoke_ROTKey (turns : nat) dev (pu8OTPBuffer : list Z) (pCfgUpdates : list (Z * Z)) (u8UpdateCnt : Z) : M Z :=
  locked dev (lan80xx_otp_revoke_ROTKey_priv turns dev pu8OTPBuffer pCfgUpdates u8UpdateCnt).
Definition lan80xx_otp_prog_RepKey (turns : nat) dev (pu8SignedKey : option (list Z)) (pu8OTPBuffer : list Z)
    (pCfgUpdates : list (Z * Z)) (u8UpdateCnt : Z) : M Z :=
  locked dev (lan80xx_otp_prog_RepKey_priv turns dev pu8SignedKey pu8OTPBuffer pCfgUpdates u8UpdateCnt).
Definition lan80xx_otp_cfg_program (turns : nat) dev (pu8OTPBuffer : list Z) (pCfgUpdates : list (Z * Z)) (u8UpdateCnt : Z) : M Z :=
  locked dev (lan80xx_otp_cfg_program_priv turns dev pu8OTPBuffer pCfgUpdates u8UpdateCnt).

(** ** Logging *)

(** [while (x != 0) { x = x & (x - 1); n++; }] on a byte: eight turns. *)
Fixpoint count_bits (turns : nat) (x n : Z) : Z :=
  match turns with
  | O => n
  | S turns => if x =? 0 then n else count_bits turns (x .& (x - 1)) (n + 1)
  end.
(** A bit of the port set goes on or off. *)
Definition port_bit (enable : Z) (bit ports : Z) : Z :=
  if tb enable then u8 (ports .| (1 .<< bit)) else u8 (ports .& .~ (1 .<< bit)).
Definition lan80xx_KRLog_Enable_priv (turns : nat) dev (bkrlog_enable bline_port_en bhost_port_en : Z) : M Z :=
  non_null ret dev (fun d =>
  data <- data_of d ;;
  LAN80XX_BASE_DEV ret data (fun base_dev base_data =>
  let ports := u8 (p80_krlog_en_ports base_data) in
  let ports := if tb bline_port_en then port_bit bkrlog_enable (p80_channel_id data) ports else ports in
  let ports := if tb bhost_port_en then port_bit bkrlog_enable (p80_channel_id data + 4) ports else ports in
  if negb (tb bkrlog_enable) then
    upd base_dev (set_p80_krlog_en_ports ports) ;;; ret MEPA_RC_OK
  else
  let n := count_bits 8 ports 0 in
  if n >? 4 then ret MEPA_RC_ERR_PARM else
  if n <=? 0 then ret MEPA_RC_ERR_PARM else
  let* (u16PktLen, au8CmdBuffer) <-
    lift (lan80xx_CreatePacket eENABLE_KR_LOG 1 (repeat 0 32) (Some [ports; 0; 0; 0; 0; 0; 0; 0]) RESERVED_ID) ;;
  let* (rc, _, go) <- mb_command turns dev au8CmdBuffer u16PktLen MAILBOX_INTR_TIMEOUT ;;
  if negb go then ret rc else
  mb_response eENABLE_KR_LOG ret (fun _ => upd base_dev (set_p80_krlog_en_ports ports) ;;; ret rc))).
Definition lan80xx_KRLog_Reset_priv (turns : nat) dev (u32KRLogOffset u16Len : Z) : M Z :=
  non_null ret dev (fun d =>
  let* (u16PktLen, au8CmdBuffer) <-
    lift (lan80xx_CreatePacket eRESET_KR_LOG_MEMORY 6 (repeat 0 32) (Some (addr_len_param u32KRLogOffset u16Len ++ [0; 0])) RESERVED_ID) ;;
  let* (rc, _, go) <- mb_command turns dev au8CmdBuffer u16PktLen MAILBOX_INTR_TIMEOUT ;;
  if negb go then ret rc else mb_response eRESET_KR_LOG_MEMORY ret (fun _ => ret rc)).
Definition lan80xx_KRLog_Enable (turns : nat) dev (bkrlog_enable bline_port_en bhost_port_en : Z) : M Z :=
  locked dev (lan80xx_KRLog_Enable_priv turns dev bkrlog_enable bline_port_en bhost_port_en).
Definition lan80xx_KRLog_Reset (turns : nat) dev (u32KRLogOffset u16Len : Z) : M Z :=
  locked dev (lan80xx_KRLog_Reset_priv turns dev u32KRLogOffset u16Len).
End Mcu.
