(* ===== verification/Lan80xxPacketSpec.v ===== *)
(** * Lan80xxPacketSpec: mailbox packets and their checksum

    The packets that [lan80xx_CreatePacket] makes, the checksum as a function
    of the bytes, and what [lan80xx_ValidatePacket] accepts: every packet that
    was created, and none in which one byte or two neighbouring bytes were
    changed. *)

From Stdlib Require Import ZArith Lia List Bool.
From stdpp Require Import base option list.
From S2P Require Import Prelude Machine Bytes Lan80xxRegs Lan80xxCsr Lan80xxMcu.

(** A 16-bit integer as it is stored, and the layout of a packet. *)
Definition le16 (x : Z) : list Z := [x mod 256; x / 256 mod 256].
Definition crc (l : list Z) : Z := fold_left crc_byte l CRC_START_CCITT.
Definition packet_body (id res : Z) (data : list Z) : list Z :=
  [id; res] ++ le16 (Z.of_nat (length data) + 6) ++ data.
Definition packet (id res : Z) (data : list Z) : list Z :=
  packet_body id res data ++ le16 (crc (packet_body id res data)).

Definition word16 (x : Z) : Prop := 0 <= x < 65536.

(** ** The shift register *)

Lemma testbit_crc_shift c i : 0 <= i -> 0 <= c < 65536 ->
  Z.testbit (crc_shift c) i =
  (i <? 16) && xorb (Z.testbit c (i - 1)) (Z.testbit c 15 && Z.testbit CRC_POLY_CCITT i).
Proof.
  intros Hi Hc. unfold crc_shift. rewrite testbit_u16 by done. f_equal.
  replace (tb (c .& 0x8000)) with (Z.testbit c 15) by (rewrite <- tb_bit by lia; done).
  destruct (Z.testbit c 15); [rewrite Z.lxor_spec|]; rewrite Z.shiftl_spec by done; [done|].
  by rewrite xorb_false_r.
Qed.
Lemma crc_shift_range c : word16 (crc_shift c).
Proof. apply u16_range. Qed.
Lemma crc_shift_inj c c' : word16 c -> word16 c' -> crc_shift c = crc_shift c' -> c = c'.
Proof.
  intros Hc Hc' H.
  assert (forall i, 0 <= i -> Z.testbit (crc_shift c) i = Z.testbit (crc_shift c') i) as Hb by (by rewrite H).
  assert (Z.testbit c 15 = Z.testbit c' 15) as H15.
  { specialize (Hb 0 ltac:(lia)). rewrite !testbit_crc_shift in Hb by done.
    rewrite !(Z.testbit_neg_r _ (0 - 1)) in Hb by lia.
    change (Z.testbit CRC_POLY_CCITT 0) with true in Hb. cbn in Hb. by rewrite !andb_true_r in Hb. }
  apply Z.bits_inj'. intros i Hi. destruct (Z.ltb_spec i 15) as [Hlt|Hge].
  - specialize (Hb (i + 1) ltac:(lia)). rewrite !testbit_crc_shift, H15 in Hb by (done || lia).
    rewrite (proj2 (Z.ltb_lt (i + 1) 16)), !andb_true_l in Hb by lia.
    replace (i + 1 - 1) with i in Hb by lia.
    by destruct (Z.testbit c i), (Z.testbit c' i), (Z.testbit c' 15 && Z.testbit CRC_POLY_CCITT (i + 1)).
  - destruct (Z.eq_dec i 15) as [->|]; [done|].
    by rewrite !(testbit_small _ 16) by (unfold word16 in *; lia).
Qed.
Lemma lxor_range x y : word16 x -> word16 y -> word16 (Z.lxor x y).
Proof.
  intros Hx Hy. assert (Z.lxor x y = u16 (Z.lxor x y)) as ->; [|apply u16_range].
  apply Z.bits_inj'. intros i Hi. rewrite testbit_u16, Z.lxor_spec by done.
  destruct (Z.ltb_spec i 16); [done|]. by rewrite !(testbit_small _ 16) by (unfold word16 in *; lia).
Qed.
(** The register is linear. *)
Lemma crc_shift_lxor x y : word16 x -> word16 y ->
  crc_shift (Z.lxor x y) = Z.lxor (crc_shift x) (crc_shift y).
Proof.
  intros Hx Hy. apply Z.bits_inj'. intros i Hi.
  rewrite Z.lxor_spec, !testbit_crc_shift, !Z.lxor_spec by (done || by apply lxor_range).
  destruct (i <? 16), (Z.testbit x (i - 1)), (Z.testbit y (i - 1)), (Z.testbit x 15), (Z.testbit y 15),
    (Z.testbit CRC_POLY_CCITT i); done.
Qed.

Lemma iter_range n c : word16 c -> word16 (Nat.iter n crc_shift c).
Proof. destruct n; [done|]. intros. rewrite Nat.iter_succ. apply crc_shift_range. Qed.
Lemma iter_inj n : forall c c', word16 c -> word16 c' ->
  Nat.iter n crc_shift c = Nat.iter n crc_shift c' -> c = c'.
Proof.
  induction n as [|n IH]; intros c c' Hc Hc' H; [done|]. rewrite !Nat.iter_succ in H.
  apply crc_shift_inj in H; [by apply IH| |]; by apply iter_range.
Qed.
Lemma iter_lxor n x y : word16 x -> word16 y ->
  Nat.iter n crc_shift (Z.lxor x y) = Z.lxor (Nat.iter n crc_shift x) (Nat.iter n crc_shift y).
Proof.
  intros Hx Hy. induction n as [|n IH]; [done|]. rewrite !Nat.iter_succ, IH. apply crc_shift_lxor; by apply iter_range.
Qed.
(** Without a carry it only shifts. *)
Lemma iter_shift n b : 0 <= b < 2 ^ (16 - Z.of_nat n) -> (n <= 16)%nat ->
  Nat.iter n crc_shift b = b * 2 ^ Z.of_nat n.
Proof.
  induction n as [|n IH]; intros Hb Hn; [cbn; lia|].
  assert (2 ^ (16 - Z.of_nat n) = 2 * 2 ^ (16 - Z.of_nat (S n))) as E.
  { rewrite <- Z.pow_succ_r by lia. f_equal. lia. }
  rewrite Nat.iter_succ.
  assert (0 < 2 ^ Z.of_nat n) by (apply Z.pow_pos_nonneg; lia).
  assert (2 ^ (16 - Z.of_nat (S n)) * 2 ^ Z.of_nat n = 32768) as E2.
  { rewrite <- Z.pow_add_r by lia. by replace (16 - Z.of_nat (S n) + Z.of_nat n) with 15 by lia. }
  rewrite IH by lia. replace (2 ^ Z.of_nat (S n)) with (2 * 2 ^ Z.of_nat n).
  2: { rewrite <- Z.pow_succ_r by lia. f_equal. lia. }
  set (c := b * 2 ^ Z.of_nat n). assert (0 <= c < 32768) by (unfold c; nia).
  replace (b * (2 * 2 ^ Z.of_nat n)) with (2 * c) by (unfold c; lia). clearbody c. clear -H0.
  unfold crc_shift. change 0x8000 with (1 .<< 15). rewrite tb_bit by lia.
  rewrite (testbit_small c 15) by lia. rewrite Z.shiftl_mul_pow2, u16_small by lia. lia.
Qed.

Lemma crc_byte_eq c b : word16 c -> is_byte b -> crc_byte c b = Nat.iter 8 crc_shift (Z.lxor c (b .<< 8)).
Proof.
  intros Hc Hb. unfold crc_byte. rewrite u16_small; [done|]. apply lxor_range; [done|].
  unfold is_byte, word16 in *. rewrite Z.shiftl_mul_pow2 by lia. lia.
Qed.
Lemma crc_byte_range c b : word16 (crc_byte c b).
Proof. unfold crc_byte. apply iter_range, u16_range. Qed.
Lemma shl8_range b : is_byte b -> word16 (b .<< 8).
Proof. unfold is_byte, word16. intros. rewrite Z.shiftl_mul_pow2; lia. Qed.
Lemma byte_word16 b : is_byte b -> word16 b.
Proof. unfold is_byte, word16. lia. Qed.
Lemma lxor_cancel c x y : Z.lxor c x = Z.lxor c y -> x = y.
Proof.
  intros H. rewrite <- (Z.lxor_0_l x), <- (Z.lxor_0_l y), <- (Z.lxor_nilpotent c), !Z.lxor_assoc. by rewrite H.
Qed.
Lemma crc_byte_inj c c' b : word16 c -> word16 c' -> is_byte b -> crc_byte c b = crc_byte c' b -> c = c'.
Proof.
  intros Hc Hc' Hb H. rewrite !crc_byte_eq in H by done.
  apply iter_inj in H; [|by apply lxor_range, shl8_range..].
  rewrite !(Z.lxor_comm _ (b .<< 8)) in H. by apply lxor_cancel in H.
Qed.
(** Two bytes go through the register together. *)
Lemma crc_two c x y : word16 c -> is_byte x -> is_byte y ->
  crc_byte (crc_byte c x) y = Nat.iter 16 crc_shift (Z.lxor c (x * 256 + y)).
Proof.
  intros Hc Hx Hy. rewrite crc_byte_eq by (done || apply crc_byte_range). rewrite crc_byte_eq by done.
  assert (x * 256 + y = Z.lxor (x .<< 8) y) as ->.
  { rewrite Z.lxor_lor, lor_disjoint; [done|lia|unfold is_byte in Hy; lia|].
    apply Z.bits_inj'. intros i Hi. rewrite Z.land_spec, Z.shiftl_spec, Z.bits_0 by done.
    destruct (Z.ltb_spec i 8).
    - by rewrite Z.testbit_neg_r by lia.
    - rewrite (testbit_small y 8) by (unfold is_byte in Hy; lia). apply andb_false_r. }
  change 16%nat with (8 + 8)%nat. rewrite Nat.iter_add. f_equal.
  rewrite <- Z.lxor_assoc, !(iter_lxor 8) by (try apply lxor_range; by auto using shl8_range, byte_word16).
  f_equal. rewrite (iter_shift 8); [by rewrite Z.shiftl_mul_pow2 by lia|exact Hy|lia].
Qed.

#[local] Opaque crc_byte crc_shift.

Lemma fold_left_inv {A B} (P : A -> Prop) (f : A -> B -> A) l :
  (forall a b, P (f a b)) -> forall a, P a -> P (fold_left f l a).
Proof. intros Hf. induction l as [|b l IH]; intros a Ha; [done|]. cbn. by apply IH. Qed.
Lemma fold_left_inj {A B} (P : A -> Prop) (Q : B -> Prop) (f : A -> B -> A) l :
  (forall a b, P (f a b)) -> (forall a a' b, P a -> P a' -> Q b -> f a b = f a' b -> a = a') ->
  Forall Q l -> forall a a', P a -> P a' -> fold_left f l a = fold_left f l a' -> a = a'.
Proof.
  intros Hf Hi Hl. induction Hl as [|b l Hb Hl IH]; intros a a' Ha Ha' H; [done|].
  cbn in H. eapply Hi; eauto.
Qed.
Lemma crc_range l : word16 (crc l).
Proof. apply (fold_left_inv word16); [exact crc_byte_range|]. unfold word16, CRC_START_CCITT. lia. Qed.
Lemma crc_fold_inj l c c' : bytes l -> word16 c -> word16 c' ->
  fold_left crc_byte l c = fold_left crc_byte l c' -> c = c'.
Proof. intros Hl. apply (fold_left_inj word16 is_byte); [exact crc_byte_range|exact crc_byte_inj|exact Hl]. Qed.
(** Changing two neighbouring bytes changes the checksum. *)
Lemma crc_pair_inj pre x y x' y' post :
  is_byte x -> is_byte y -> is_byte x' -> is_byte y' -> bytes post ->
  crc (pre ++ [x; y] ++ post) = crc (pre ++ [x'; y'] ++ post) -> x = x' /\ y = y'.
Proof.
  intros Hx Hy Hx' Hy' Hp H. unfold crc in H. rewrite !fold_left_app in H.
  assert (word16 (fold_left crc_byte pre CRC_START_CCITT)) as Hc by apply crc_range.
  set (c := fold_left crc_byte pre CRC_START_CCITT) in *. cbn [fold_left] in H.
  apply crc_fold_inj in H; [|done|apply crc_byte_range..].
  rewrite !crc_two in H by done.
  assert (forall a b, is_byte a -> is_byte b -> word16 (a * 256 + b)) by (unfold is_byte, word16; lia).
  apply iter_inj in H; [|by apply lxor_range; auto..]. apply lxor_cancel in H. unfold is_byte in *. lia.
Qed.

(** ** Integers in a packet *)

Lemma le16_bytes x : bytes (le16 x).
Proof. repeat constructor; apply Z.mod_pos_bound; lia. Qed.
Lemma shr8 x : x .>> 8 = x / 256.
Proof. by rewrite Z.shiftr_div_pow2 by lia. Qed.
Lemma set_u16_eq p i v : set_u16 p i v = write_bytes p i (le16 v).
Proof. unfold set_u16, le16. rewrite shr8. reflexivity. Qed.
Lemma array_at_app a b i : i = Z.of_nat (length a) -> array_at (a ++ b) i = b !! 0%nat.
Proof.
  intros ->. rewrite array_at_lookup by lia. rewrite Nat2Z.id, lookup_app_r by lia. by rewrite Nat.sub_diag.
Qed.
Lemma get_u16_le16 a x b i : word16 x -> i = Z.of_nat (length a) -> get_u16 (a ++ le16 x ++ b) i = Some x.
Proof.
  intros Hx Hi. unfold get_u16.
  eapply bind_some; [rewrite (array_at_app a) by exact Hi; reflexivity|].
  eapply bind_some.
  { replace (a ++ le16 x ++ b) with ((a ++ [x mod 256]) ++ x / 256 mod 256 :: b) by (by rewrite <- app_assoc).
    rewrite (array_at_app (a ++ [x mod 256])) by (rewrite length_app; cbn; lia). reflexivity. }
  f_equal. unfold word16 in Hx. rewrite Z.lor_comm, lor_disjoint; [|lia|apply Z.mod_pos_bound; lia].
  rewrite Z.mod_small with (a := x / 256) by (split; [apply Z.div_pos|apply Z.div_lt_upper_bound]; lia).
  change (2 ^ 8) with 256. pose proof (Z.div_mod x 256). lia.
Qed.

Lemma fold_left_cons {A B} (f : A -> B -> A) b l a : fold_left f (b :: l) a = fold_left f l (f a b).
Proof. done. Qed.
Lemma crc_loop_cons n b l c : crc_loop (S n) (b :: l) c = crc_loop n l (crc_byte c b).
Proof. cbn [crc_loop]. rewrite array_at_lookup by lia. cbn [drop]. by rewrite drop_0. Qed.
Lemma crc_loop_spec n : forall l c, (n <= length l)%nat -> crc_loop n l c = Some (fold_left crc_byte (take n l) c).
Proof.
  induction n as [|n IH]; intros l c Hl; [done|]. destruct l as [|b l]; [cbn in Hl; lia|].
  rewrite crc_loop_cons, IH, firstn_cons, fold_left_cons by (cbn in Hl; lia). reflexivity.
Qed.
Lemma crc_loop_short n : forall l c, (length l < n)%nat -> crc_loop n l c = None.
Proof.
  induction n as [|n IH]; intros l c Hl; [lia|]. destruct l as [|b l]; [done|].
  rewrite crc_loop_cons. apply IH. cbn in Hl. lia.
Qed.
(** The checksum of the first [n] bytes. *)
Lemma crc_16_spec l n : 0 <= n <= Z.of_nat (length l) -> crc_16 l n = Some (crc (take (Z.to_nat n) l)).
Proof.
  intros Hn. unfold crc_16. rewrite crc_loop_spec by lia. cbn. f_equal.
  change CRC_START_CCITT with (Z.ones 16) at 2. rewrite Z.land_ones by lia. apply Z.mod_small, crc_range.
Qed.

(** ** Creating packets *)

Lemma length_body id res data : length (packet_body id res data) = (length data + 4)%nat.
Proof. cbn. lia. Qed.
Lemma length_packet id res data : length (packet id res data) = (length data + 6)%nat.
Proof. unfold packet. rewrite length_app, length_body. cbn. lia. Qed.
Lemma bytes_packet id res data : is_byte id -> is_byte res -> bytes data -> bytes (packet id res data).
Proof.
  intros. unfold packet, packet_body. rewrite !bytes_app. split_and!; try done; try apply le16_bytes.
  by apply Forall_cons; split; [|apply Forall_singleton].
Qed.

(** The header, the checksum, and the payload in between. *)
Lemma create_packet_eq id n buf data res payload :
  0 <= n -> n + 6 < 65536 -> Z.of_nat (length payload) = n -> n + 6 <= Z.of_nat (length buf) ->
  match data with
  | Some data => n <= Z.of_nat (length data) /\ payload = take (Z.to_nat n) data
  | None => payload = take (Z.to_nat n) (drop 4 buf)
  end ->
  lan80xx_CreatePacket id n buf data res =
  Some (n + 6, packet id res payload ++ drop (Z.to_nat n + 6) buf).
Proof.
  intros Hn0 Hn Hp Hb Hd. unfold lan80xx_CreatePacket.
  change (u16 (n + MB_MAX_PKT_HEADER_LEN + MB_MAX_CRC_LEN)) with (u16 (n + 4 + 2)).
  rewrite u16_small by lia. replace (n + 4 + 2) with (n + 6) by lia.
  destruct buf as [|x0 [|x1 [|x2 [|x3 rest]]]]; try (cbn in Hb; lia).
  assert (n + 2 <= Z.of_nat (length rest)) as Hr by (cbn in Hb; lia).
  eapply bind_some; [apply (write_bytes_app [] (x0 :: x1 :: x2 :: x3 :: rest) [id]); cbn; lia|].
  eapply bind_some; [apply (write_bytes_app [id] (x1 :: x2 :: x3 :: rest) [res]); cbn; lia|].
  eapply bind_some; [rewrite set_u16_eq; apply (write_bytes_app [id; res] (x2 :: x3 :: rest)); cbn; lia|].
  cbn [drop length app le16]. rewrite !drop_0.
  set (hdr := id :: res :: (n + 6) mod 256 :: (n + 6) / 256 mod 256 :: nil).
  change (id :: res :: (n + 6) mod 256 :: (n + 6) / 256 mod 256 :: rest) with (hdr ++ rest).
  eapply bind_some with (x := hdr ++ payload ++ drop (Z.to_nat n) rest).
  { destruct data as [data|].
    - destruct Hd as [Hl ->]. destruct (Z.gtb_spec n 0) as [H0|H0].
      + eapply bind_some; [rewrite read_bytes_eq, drop_0 by lia; done|].
        cbv beta. unfold MB_PKT_DATA_OFFSET. rewrite (write_bytes_app hdr) by (rewrite ?length_take; cbn; lia).
        rewrite length_take. by replace (Z.to_nat n `min` length data)%nat with (Z.to_nat n) by lia.
      + by replace n with 0 by lia.
    - rewrite Hd. change (drop 4 (x0 :: x1 :: x2 :: x3 :: rest)) with rest. by rewrite take_drop. }
  eapply bind_some.
  { rewrite crc_16_spec; [done|]. rewrite !length_app, length_drop. cbn. unfold MB_MAX_PKT_HEADER_LEN. lia. }
  assert (packet_body id res payload = hdr ++ payload) as Hbody by (unfold packet_body; by rewrite Hp).
  replace (take (Z.to_nat (n + MB_MAX_PKT_HEADER_LEN)) (hdr ++ payload ++ drop (Z.to_nat n) rest))
    with (packet_body id res payload).
  2: { rewrite Hbody, app_assoc, take_app_length'; [done|]. rewrite length_app. unfold MB_MAX_PKT_HEADER_LEN. cbn. lia. }
  eapply bind_some.
  { rewrite set_u16_eq, app_assoc, <- Hbody. apply write_bytes_app.
    - rewrite length_body. unfold MB_PKT_DATA_OFFSET. lia.
    - rewrite length_drop. cbn. lia. }
  f_equal. f_equal. unfold packet. rewrite <- app_assoc. do 2 f_equal. rewrite drop_drop.
  change (x0 :: x1 :: x2 :: x3 :: rest) with ([x0; x1; x2; x3] ++ rest).
  rewrite drop_app_ge by (cbn; lia). f_equal. cbn. lia.
Qed.

(** ** Validating packets *)

Lemma array_at_some p i : 0 <= i < Z.of_nat (length p) -> exists x, array_at p i = Some x.
Proof. intros Hi. rewrite array_at_lookup by lia. apply lookup_lt_is_Some_2. lia. Qed.

(** The dump of a packet ends exactly when its length fits the counter. *)
Lemma dump_loop_ends turns p len : forall idx,
  len <= 252 -> 252 <= Z.of_nat (length p) -> 0 <= idx <= 252 -> idx mod 4 = 0 ->
  252 - idx <= 4 * Z.of_nat turns -> dump_loop turns p idx len = Some tt.
Proof.
  induction turns as [|turns IH]; intros idx Hl Hp Hi Hm Ht; cbn [dump_loop]; destruct (Z.ltb_spec idx len) as [H|];
    [lia|done| |done].
  assert (idx <= 248) by (Z.div_mod_to_equations; lia).
  destruct (array_at_some p idx ltac:(lia)) as [? ->], (array_at_some p (idx + 1) ltac:(lia)) as [? ->],
    (array_at_some p (idx + 2) ltac:(lia)) as [? ->], (array_at_some p (idx + 3) ltac:(lia)) as [? ->].
  cbn. rewrite u8_small by lia. apply IH; try lia. Z.div_mod_to_equations; lia.
Qed.
Lemma dump_loop_hangs turns p len : forall idx,
  252 < len -> 0 <= idx <= 252 -> idx mod 4 = 0 -> dump_loop turns p idx len = None.
Proof.
  induction turns as [|turns IH]; intros idx Hl Hi Hm; cbn [dump_loop];
    rewrite (proj2 (Z.ltb_lt idx len)) by lia; [done|].
  destruct (array_at p idx), (array_at p (idx + 1)), (array_at p (idx + 2)), (array_at p (idx + 3)); try done.
  apply IH; [done| |]; unfold u8; Z.div_mod_to_equations; lia.
Qed.
Lemma packet_dump_spec p len :
  get_u16 p 2 = Some len -> 252 <= Z.of_nat (length p) ->
  packet_dump p = if 252 <? len then None else Some tt.
Proof.
  intros Hl Hp. unfold packet_dump. eapply bind_some; [exact Hl|].
  unfold MB_MAX_PAYLOAD_LEN. destruct (Z.gtb_spec len 1018), (Z.ltb_spec 252 len); try lia.
  - by apply dump_loop_hangs.
  - by apply dump_loop_hangs.
  - apply dump_loop_ends; done || lia.
Qed.

Lemma land_ff x : is_byte x -> x .& 0xff = x.
Proof. intros Hx. change 0xff with (Z.ones 8). rewrite Z.land_ones by lia. by apply Z.mod_small. Qed.
Lemma makeword_eq lo hi : is_byte lo -> is_byte hi -> MAKEWORD lo hi = lo + 256 * hi.
Proof.
  intros Hlo Hhi. unfold MAKEWORD. rewrite !land_ff by done. rewrite Z.lor_comm, lor_disjoint by (done || lia). lia.
Qed.

(** The check compares the checksum with the two bytes after [b]. *)
Lemma validate_app b lo hi rest :
  Z.of_nat (length b) + 2 <= 1024 -> get_u16 (b ++ [lo; hi] ++ rest) 2 = Some (Z.of_nat (length b) + 2) ->
  is_byte lo -> is_byte hi ->
  lan80xx_ValidatePacket (b ++ [lo; hi] ++ rest) =
  if crc b =? lo + 256 * hi then Some MEPA_RC_OK
  else _ ← packet_dump (b ++ [lo; hi] ++ rest); Some MEPA_RC_ERR_MB_INVALID_CRC.
Proof.
  intros Hn Hl Hlo Hhi. unfold lan80xx_ValidatePacket. eapply bind_some; [exact Hl|].
  change MB_MAX_PKT_LEN with 1024. destruct (Z.gtb_spec (Z.of_nat (length b) + 2) 1024); [lia|].
  change MB_MAX_CRC_LEN with 2. rewrite u16_small by lia.
  replace (Z.of_nat (length b) + 2 - 2) with (Z.of_nat (length b)) by lia.
  assert (ValidateCRC (b ++ [lo; hi] ++ rest) (Z.of_nat (length b)) =
    Some (if negb (crc b =? lo + 256 * hi) then MEPA_RC_ERR_MB_INVALID_CRC else MEPA_RC_OK)) as Hv.
  { unfold ValidateCRC.
    eapply bind_some; [rewrite crc_16_spec by (rewrite length_app; lia); rewrite Nat2Z.id, take_app_length; reflexivity|].
    eapply bind_some; [rewrite array_at_app by done; reflexivity|].
    eapply bind_some.
    { replace (b ++ [lo; hi] ++ rest) with ((b ++ [lo]) ++ hi :: rest) by (by rewrite <- app_assoc).
      rewrite array_at_app by (rewrite length_app; cbn; lia). reflexivity. }
    by rewrite makeword_eq. }
  eapply bind_some; [exact Hv|]. by destruct (_ =? _).
Qed.

Lemma validate_app_ok b lo hi rest :
  Z.of_nat (length b) + 2 <= 1024 -> get_u16 (b ++ [lo; hi] ++ rest) 2 = Some (Z.of_nat (length b) + 2) ->
  is_byte lo -> is_byte hi ->
  lan80xx_ValidatePacket (b ++ [lo; hi] ++ rest) = Some MEPA_RC_OK -> crc b = lo + 256 * hi.
Proof.
  intros Hn Hl Hlo Hhi. rewrite validate_app by assumption.
  generalize (packet_dump (b ++ [lo; hi] ++ rest)) (crc b). intros o c.
  destruct (Z.eqb_spec c (lo + 256 * hi)) as [Hc|Hc]; [intros _; exact Hc|].
  destruct o; intros H; discriminate H.
Qed.

Lemma u16PktLen_packet id res data rest :
  Z.of_nat (length data) + 6 < 65536 ->
  u16PktLen (packet id res data ++ rest) = Some (Z.of_nat (length data) + 6).
Proof.
  intros Hd. unfold u16PktLen, packet, packet_body. rewrite <- !app_assoc.
  by apply (get_u16_le16 [id; res]); [unfold word16; lia|].
Qed.
Lemma u8PktId_packet id res data rest : u8PktId (packet id res data ++ rest) = Some id.
Proof. done. Qed.
Lemma le16_word x : word16 x -> x mod 256 + 256 * (x / 256 mod 256) = x.
Proof. unfold word16. intros. Z.div_mod_to_equations; lia. Qed.
Lemma validate_packet id res data rest :
  Z.of_nat (length data) <= 1018 -> lan80xx_ValidatePacket (packet id res data ++ rest) = Some MEPA_RC_OK.
Proof.
  intros Hd. pose proof (u16PktLen_packet id res data rest ltac:(lia)) as Hl. unfold u16PktLen in Hl.
  pose proof (le16_bytes (crc (packet_body id res data))) as Hb. apply Forall_cons in Hb as [Hlo Hb].
  apply Forall_cons in Hb as [Hhi _].
  assert (packet id res data ++ rest = packet_body id res data ++
    [crc (packet_body id res data) mod 256; crc (packet_body id res data) / 256 mod 256] ++ rest) as E
    by (unfold packet; by rewrite <- app_assoc).
  rewrite E in *. rewrite validate_app by (rewrite ?length_body; try done; try lia; rewrite Hl; f_equal; lia).
  by rewrite le16_word, Z.eqb_refl by apply crc_range.
Qed.

Lemma split_pair (k : nat) (l : list Z) : (k + 2 <= length l)%nat ->
  exists mid lo hi rest, l = mid ++ [lo; hi] ++ rest /\ length mid = k.
Proof.
  intros Hl. exists (take k l). destruct (drop k l) as [|lo [|hi rest]] eqn:E;
    [apply (f_equal length) in E; rewrite length_drop in E; cbn in E; lia..|].
  exists lo, hi, rest. rewrite length_take. split; [|lia]. cbn. by rewrite <- E, take_drop.
Qed.

(** ** Properties *)

(** A command of at most 1018 bytes becomes a packet of the buffer's size:
    identifier, reserved byte, total length, the command's bytes and the
    checksum, with the rest of the buffer untouched and every element a byte.
    Whatever follows it, [lan80xx_ValidatePacket] accepts the packet, and the
    header and the payload are read back from it. *)
Theorem packet_roundtrip id res n data buf :
  is_byte id -> is_byte res -> bytes data -> bytes buf ->
  0 <= n <= MB_MAX_PAYLOAD_LEN -> n <= Z.of_nat (length data) -> n + 6 <= Z.of_nat (length buf) ->
  exists p, lan80xx_CreatePacket id n buf (Some data) res = Some (n + 6, p) /\
    bytes p /\ length p = length buf /\ drop (Z.to_nat n + 6) p = drop (Z.to_nat n + 6) buf /\
    forall rest, let p' := take (Z.to_nat n + 6) p ++ rest in
      lan80xx_ValidatePacket p' = Some MEPA_RC_OK /\ u8PktId p' = Some id /\
      u16PktLen p' = Some (n + 6) /\ read_bytes p' 4 n = Some (take (Z.to_nat n) data).
Proof.
  intros Hid Hres Hd Hb Hn Hnd Hnb. change MB_MAX_PAYLOAD_LEN with 1018 in Hn.
  assert (length (take (Z.to_nat n) data) = Z.to_nat n) as Hl by (rewrite length_take; lia).
  exists (packet id res (take (Z.to_nat n) data) ++ drop (Z.to_nat n + 6) buf).
  rewrite create_packet_eq with (payload := take (Z.to_nat n) data) by (done || lia).
  split; [done|]. split_and!.
  - apply bytes_app. split; [|by apply bytes_drop]. by apply bytes_packet; [| |apply bytes_take].
  - rewrite length_app, length_packet, length_drop. lia.
  - rewrite drop_app_length'; [done|]. rewrite length_packet. lia.
  - intros rest. rewrite take_app_length' by (rewrite length_packet; lia). cbv zeta. split_and!.
    + apply validate_packet. lia.
    + apply u8PktId_packet.
    + rewrite u16PktLen_packet by lia. f_equal. lia.
    + unfold packet, packet_body. rewrite <- !app_assoc.
      rewrite (app_assoc [id; res]). apply read_bytes_app; [done|lia].
Qed.
Lemma packet_roundtrip_witness :
  exists p, lan80xx_CreatePacket eMEM_READ 6 (repeat 0 32) (Some [1; 2; 3; 4; 5; 6; 0; 0]) RESERVED_ID = Some (12, p) /\
    bytes p /\ length p = 32%nat /\ drop 12 p = drop 12 (repeat 0 32) /\
    forall rest, let p' := take 12 p ++ rest in
      lan80xx_ValidatePacket p' = Some MEPA_RC_OK /\ u8PktId p' = Some eMEM_READ /\
      u16PktLen p' = Some 12 /\ read_bytes p' 4 6 = Some [1; 2; 3; 4; 5; 6].
Proof.
  apply (packet_roundtrip eMEM_READ RESERVED_ID 6 [1; 2; 3; 4; 5; 6; 0; 0] (repeat 0 32));
    try (vm_compute; split; congruence || lia);
    try (vm_compute; repeat constructor; congruence); vm_compute; congruence.
Defined.

(** C11. Of an accepted packet in a buffer of at least 252 bytes, let two
    neighbouring bytes change, one of them at least: both before the checksum
    or both in it, and not the length field.  Then the packet is no longer
    accepted.  The function says so only for packets of up to 252 bytes: for a
    longer one the dump of the packet does not end, because its 8-bit counter
    wraps. *)
Theorem corruption_detected pre x y x' y' post len :
  let p := pre ++ [x; y] ++ post in
  let p' := pre ++ [x'; y'] ++ post in
  bytes p -> bytes p' -> u16PktLen p = Some len -> u16PktLen p' = Some len ->
  2 <= len <= Z.of_nat (length p) -> 252 <= Z.of_nat (length p) ->
  Z.of_nat (length pre) + 2 <= len -> Z.of_nat (length pre) + 3 <> len ->
  lan80xx_ValidatePacket p = Some MEPA_RC_OK -> (x, y) <> (x', y') ->
  lan80xx_ValidatePacket p' = if 252 <? len then None else Some MEPA_RC_ERR_MB_INVALID_CRC.
Proof.
  intros p p' Hb Hb' Hl Hl' Hlen Hbuf Hpre Hstr Hv Hne.
  apply bytes_app in Hb as [Hbpre Hb]. apply bytes_app in Hb as [Hxy Hbpost]. apply bytes_app in Hb' as [_ Hxy'].
  apply bytes_app in Hxy' as [Hxy' _].
  apply Forall_cons in Hxy as [Hx Hxy], Hxy' as [Hx' Hxy']. apply Forall_cons in Hxy as [Hy _], Hxy' as [Hy' _].
  assert (length p' = length p) as Hlp by (unfold p, p'; rewrite !length_app; done).
  assert (packet_dump p' = if 252 <? len then None else Some tt) as Hdump by (apply packet_dump_spec; [done|lia]).
  assert (len <= 1024) as Hmax.
  { unfold lan80xx_ValidatePacket in Hv. rewrite Hl in Hv. change MB_MAX_PKT_LEN with 1024 in Hv.
    cbn [mbind option_bind] in Hv. destruct (Z.gtb_spec len 1024); [discriminate Hv|done]. }
  assert (forall b lo hi rest, p' = b ++ [lo; hi] ++ rest -> Z.of_nat (length b) + 2 = len ->
    is_byte lo -> is_byte hi -> crc b <> lo + 256 * hi ->
    lan80xx_ValidatePacket p' = if 252 <? len then None else Some MEPA_RC_ERR_MB_INVALID_CRC) as Hgoal.
  { intros b lo hi rest E Hlb Hlo Hhi Hc. rewrite E in *. rewrite validate_app; [|lia|by rewrite Hlb|done..].
    rewrite (proj2 (Z.eqb_neq _ _) Hc), Hdump. by destruct (252 <? len). }
  destruct (Z.eq_dec (Z.of_nat (length pre) + 2) len) as [Heq|Hlt].
  - (* in the checksum *)
    assert (crc pre = x + 256 * y) as Hc
      by (apply (validate_app_ok pre x y post); [lia|rewrite Heq; exact Hl|assumption..]).
    apply (Hgoal pre x' y' post); [done..|]. intros Hc'. apply Hne. unfold is_byte in *. f_equal; lia.
  - (* before it *)
    destruct (Nat.le_exists_sub (length pre + 4) (Z.to_nat len)) as (k & Hk & _); [lia|].
    destruct (split_pair k post) as (mid & lo & hi & rest & -> & Hm);
      [unfold p in Hlen; rewrite !length_app in Hlen; cbn in Hlen; lia|].
    apply bytes_app in Hbpost as [Hbm Hr]. apply bytes_app in Hr as [Hlh _].
    apply Forall_cons in Hlh as [Hlo Hlh]. apply Forall_cons in Hlh as [Hhi _].
    assert (p = (pre ++ [x; y] ++ mid) ++ [lo; hi] ++ rest) as E by (unfold p; by rewrite <- !app_assoc).
    assert (p' = (pre ++ [x'; y'] ++ mid) ++ [lo; hi] ++ rest) as E' by (unfold p'; by rewrite <- !app_assoc).
    assert (forall a b, Z.of_nat (length (pre ++ [a; b] ++ mid)) + 2 = len) as Hlb
      by (intros; rewrite !length_app; cbn; lia).
    rewrite E in Hv, Hl.
    assert (crc (pre ++ [x; y] ++ mid) = lo + 256 * hi) as Hc
      by (apply (validate_app_ok _ lo hi rest); [rewrite Hlb; lia|rewrite Hlb; exact Hl|assumption..]).
    apply (Hgoal _ _ _ _ E'); [by rewrite Hlb|done..|].
    intros Hc'. apply Hne. rewrite <- Hc in Hc'. apply crc_pair_inj in Hc' as [-> ->]; done.
Qed.
Lemma corruption_detected_witness :
  let post := [3; 4; 5; 6; 0; 214] ++ repeat 0 244 in
  lan80xx_ValidatePacket ([6; 255; 12; 0] ++ [1; 2] ++ post) = Some MEPA_RC_OK /\
  lan80xx_ValidatePacket ([6; 255; 12; 0] ++ [1; 7] ++ post) = Some MEPA_RC_ERR_MB_INVALID_CRC.
Proof.
  intros post. assert (lan80xx_ValidatePacket ([6; 255; 12; 0] ++ [1; 2] ++ post) = Some MEPA_RC_OK) as Hv
    by (vm_compute; reflexivity).
  split; [exact Hv|].
  refine (corruption_detected [6; 255; 12; 0] 1 2 1 7 post 12 _ _ _ _ _ _ _ _ Hv _);
    try (vm_compute; reflexivity); try (vm_compute; congruence); try (vm_compute; split; congruence).
  all: vm_compute; repeat constructor; congruence.
Defined.
