(* ===== verification/Lan80xxMcuSim.v ===== *)
(** * Lan80xxMcuSim: a microcontroller behind the mailbox

    The other side of the mailbox, as the driver's comments and register names
    describe it: a request area and a response area of 1024 bytes each, a flag
    register, and an interrupt line.  What the firmware answers is a parameter,
    [serve]; it answers after [latency] polls of the line.  The lemmas run the
    driver's mailbox functions against it. *)

From Stdlib Require Import ZArith Lia List Bool String.
From stdpp Require Import base gmap strings list.
From S2P Require Import Prelude Machine Bytes Lan80xxRegs Lan80xxCsr Lan80xxMcu Lan80xxPacketSpec.

(** ** Areas of bytes accessed in words *)

Definition word_bytes (v : Z) : list Z := [v mod 256; v / 256 mod 256; v / 65536 mod 256; v / 16777216 mod 256].
Definition le_word (b0 b1 b2 b3 : Z) : Z := b3 * 16777216 + b2 * 65536 + b1 * 256 + b0.
Definition word_at (area : list Z) (j : nat) : Z :=
  match drop (4 * j) area with b0 :: b1 :: b2 :: b3 :: _ => le_word b0 b1 b2 b3 | _ => 0 end.
Definition splice (area : list Z) (i : nat) (l : list Z) : list Z := take i area ++ l ++ drop (i + length l) area.

Lemma length_splice area i l : (i + length l <= length area)%nat -> length (splice area i l) = length area.
Proof. intros. unfold splice. rewrite !length_app, length_take, length_drop. lia. Qed.
Lemma splice_splice area i l1 l2 : (i + length l1 + length l2 <= length area)%nat ->
  splice (splice area i l1) (i + length l1) l2 = splice area i (l1 ++ l2).
Proof.
  intros H. unfold splice at 1 3.
  replace (take (i + length l1) (splice area i l1)) with (take i area ++ l1).
  2: { unfold splice. rewrite app_assoc, take_app_length'; [done|]. rewrite length_app, length_take. lia. }
  rewrite <- !app_assoc. do 3 f_equal. unfold splice.
  rewrite app_assoc, drop_app_ge by (rewrite length_app, length_take; lia).
  rewrite drop_drop. f_equal. rewrite !length_app, length_take. lia.
Qed.
Lemma splice_0 area l : splice area 0 l = l ++ drop (length l) area.
Proof. done. Qed.
Lemma splice_nil area i : splice area i [] = area.
Proof. unfold splice. cbn. by rewrite Nat.add_0_r, take_drop. Qed.
Lemma bytes_splice area i l : bytes area -> bytes l -> bytes (splice area i l).
Proof. intros. unfold splice. rewrite !bytes_app. split_and!; [by apply bytes_take|done|by apply bytes_drop]. Qed.
Lemma write_bytes_splice p i l : (i + length l <= length p)%nat -> write_bytes p (Z.of_nat i) l = Some (splice p i l).
Proof. intros. rewrite write_bytes_eq by lia. unfold splice. by rewrite Nat2Z.id. Qed.

Lemma word_bytes_le b0 b1 b2 b3 : bytes [b0; b1; b2; b3] -> word_bytes (le_word b0 b1 b2 b3) = [b0; b1; b2; b3].
Proof.
  intros Hb. apply Forall_cons in Hb as [H0 Hb]. apply Forall_cons in Hb as [H1 Hb].
  apply Forall_cons in Hb as [H2 Hb]. apply Forall_cons in Hb as [H3 _].
  unfold is_byte, word_bytes, le_word in *. repeat f_equal; Z.div_mod_to_equations; lia.
Qed.
Lemma le_word_range b0 b1 b2 b3 : bytes [b0; b1; b2; b3] -> 0 <= le_word b0 b1 b2 b3 < 2 ^ 32.
Proof.
  intros Hb. apply Forall_cons in Hb as [H0 Hb]. apply Forall_cons in Hb as [H1 Hb].
  apply Forall_cons in Hb as [H2 Hb]. apply Forall_cons in Hb as [H3 _].
  unfold is_byte, le_word in *. lia.
Qed.
(** The shifts of the code. *)
Lemma shifts_le b0 b1 b2 b3 : bytes [b0; b1; b2; b3] ->
  u32 ((b3 .<< 24) .| (b2 .<< 16) .| (b1 .<< 8) .| b0) = le_word b0 b1 b2 b3.
Proof.
  intros Hb. pose proof (le_word_range _ _ _ _ Hb) as Hr. apply Forall_cons in Hb as [H0 Hb].
  apply Forall_cons in Hb as [H1 Hb]. apply Forall_cons in Hb as [H2 Hb]. apply Forall_cons in Hb as [H3 _].
  unfold is_byte in *.
  assert ((b3 .<< 24) .| (b2 .<< 16) = ((b3 * 256 + b2) .<< 16)) as ->.
  { rewrite (Z.shiftl_mul_pow2 b2), lor_disjoint, Z.shiftl_mul_pow2 by lia. lia. }
  assert (((b3 * 256 + b2) .<< 16) .| (b1 .<< 8) = (((b3 * 256 + b2) * 256 + b1) .<< 8)) as ->.
  { rewrite (Z.shiftl_mul_pow2 b1), lor_disjoint, Z.shiftl_mul_pow2 by lia. lia. }
  rewrite lor_disjoint by lia. unfold le_word in *. rewrite u32_small by lia. lia.
Qed.
Lemma byte_of_word v n : 0 <= n -> (v .>> n) .& 0xFF = v / 2 ^ n mod 256.
Proof. intros. change 0xFF with (Z.ones 8). by rewrite Z.land_ones, Z.shiftr_div_pow2. Qed.

Lemma drop_word (area : list Z) j : (4 * j + 4 <= length area)%nat ->
  exists b0 b1 b2 b3, drop (4 * j) area = b0 :: b1 :: b2 :: b3 :: drop (4 * S j) area.
Proof.
  intros Hl. destruct (drop (4 * j) area) as [|b0 [|b1 [|b2 [|b3 rest]]]] eqn:E;
    try (apply (f_equal length) in E; rewrite length_drop in E; cbn in E; lia).
  exists b0, b1, b2, b3. do 4 f_equal.
  replace (4 * S j)%nat with (4 * j + 4)%nat by lia. by rewrite <- drop_drop, E.
Qed.
Lemma array_at_drop p i k x l : 0 <= i -> drop (Z.to_nat i) p = l -> l !! k = Some x ->
  array_at p (i + Z.of_nat k) = Some x.
Proof.
  intros Hi <- Hk. rewrite array_at_lookup by lia. rewrite lookup_drop in Hk.
  by replace (Z.to_nat (i + Z.of_nat k)) with (Z.to_nat i + k)%nat by lia.
Qed.

(** Storing the four bytes of a word. *)
Lemma store_word_splice p i v : (i + 4 <= length p)%nat ->
  store_word p (Z.of_nat i) v = Some (splice p i (word_bytes v)).
Proof.
  intros Hl. unfold store_word, set_byte.
  assert (forall l x k, k = length l -> (k < 4)%nat ->
    write_bytes (splice p i l) (Z.of_nat i + Z.of_nat k) [x] = Some (splice p i (l ++ [x]))) as Hw.
  { intros l x k -> Hk. rewrite <- Nat2Z.inj_add, write_bytes_splice by (rewrite length_splice; cbn; lia).
    by rewrite splice_splice by (cbn; lia). }
  rewrite !byte_of_word by lia. change 0xFF with (Z.ones 8). rewrite Z.land_ones by lia.
  eapply bind_some; [apply write_bytes_splice; cbn; lia|].
  eapply bind_some; [apply (Hw _ _ 1%nat); cbn; lia|].
  eapply bind_some; [apply (Hw _ _ 2%nat); cbn; lia|].
  eapply eq_trans; [apply (Hw _ _ 3%nat); cbn; lia|reflexivity].
Qed.

(** ** The microcontroller *)

(** Its own state, the two areas, and the polls of the interrupt line until the
    answer, when it works on a request. *)
Record mcu (St : Type) := Mcu { m_st : St; m_req : list Z; m_resp : list Z; m_wait : option nat }.
Arguments Mcu {St}. Arguments m_st {St}. Arguments m_req {St}. Arguments m_resp {St}. Arguments m_wait {St}.

Section Sim.
Context {St : Type} (serve : list Z -> St -> list Z * St) (latency : nat).

(** It takes the request of the length in its header and stores the answer. *)
Definition mcu_run (s : mcu St) : mcu St :=
  let len := default 0 (get_u16 (m_req s) 2) in
  let '(reply, st') := serve (take (Z.to_nat len) (m_req s)) (m_st s) in
  Mcu st' (m_req s) (splice (m_resp s) 0 reply) (Some latency).
Definition mcu_idle (s : mcu St) : mcu St := Mcu (m_st s) (m_req s) (m_resp s) None.

Definition mcu_store (addr v : Z) (s : mcu St) : mcu St :=
  if (MAILBOX_CMD_ADDR <=? addr) && (addr <? MAILBOX_RESP_ADDR) then
    Mcu (m_st s) (splice (m_req s) (4 * Z.to_nat (addr - MAILBOX_CMD_ADDR)) (word_bytes v)) (m_resp s) (m_wait s)
  else if addr =? MAILBOX_FLAG_REGISTER then
    if v =? MAILBOX_FLAG_SET_BIT0 then mcu_run s
    else if (v =? MAILBOX_FLAG_CLEAR_BIT0) || (v =? MAILBOX_FLAG_CLEAR_BIT1) then mcu_idle s
    else s
  else s.
Definition mcu_load (addr : Z) (s : mcu St) : Z :=
  if (MAILBOX_RESP_ADDR <=? addr) && (addr <? MAILBOX_FLAG_REGISTER) then
    word_at (m_resp s) (Z.to_nat (addr - MAILBOX_RESP_ADDR))
  else if addr =? MAILBOX_FLAG_REGISTER then
    match m_wait s with None => 0 | Some O => MAILBOX_HOST_INTR_MASK | Some (S _) => MAILBOX_INTR_ENABLE end
  else 0.
Definition mcu_gpio (s : mcu St) : Z * mcu St :=
  match m_wait s with
  | None => (0, s)
  | Some O => (1, s)
  | Some (S n) => (0, Mcu (m_st s) (m_req s) (m_resp s) (Some n))
  end.

#[export] Instance mcu_callout : Callout80 (mcu St) :=
  {| spi_read := Some (fun _ _ mmd addr s =>
       ((0, Some (if mmd =? MMD_ID_MCU_MAILBOX then mcu_load addr s else 0)), s));
     spi_write := Some (fun _ _ mmd addr v s => (0, if mmd =? MMD_ID_MCU_MAILBOX then mcu_store addr v s else s));
     spi_read_64bit := None; mmd_read := None; mmd_read_inc := None; mmd_write := None;
     gpio := fun _ _ s => mcu_gpio s;
     enter80 := true; exit80 := true; uninit80 := fun _ => 0 |}.

(** The devices: [d], whose base device is [b] with a callback. *)
Context (T : gmap Z phy25g_phy_state_t) (d b cb : Z) (dd bd : phy25g_phy_state_t).
Context (Hd : T !! d = Some dd) (Hbase : p80_base_dev dd = Some b)
  (Hb : T !! b = Some bd) (Hcb : p80_ft_gpio_read bd = Some cb).
Notation M := (M (env80 (mcu St)) phy25g_phy_state_t).
Notation W s rb l := (World (Env80 (s : mcu St) rb) T l).

Lemma data_of_d s rb l : data_of d (W s rb l) = Some (dd, W s rb l).
Proof. unfold data_of. cbn. by rewrite Hd. Qed.
Lemma base_dev_d {A} (fail : Z -> M A) k s rb l : LAN80XX_BASE_DEV fail dd k (W s rb l) = k b bd (W s rb l).
Proof. unfold LAN80XX_BASE_DEV. rewrite Hbase. unfold bind, data_of. cbn [w_data]. by rewrite Hb. Qed.
Lemma store_reg {A} (fail : Z -> M A) p a v k s rb l :
  LAN80XX_CSR_WR fail d p (mailbox_reg a) v k (W s rb l) = k (W (mcu_store (u16 a) v s) rb l).
Proof. reflexivity. Qed.
Lemma load_reg {A} (fail : Z -> M A) p a v k s rb l :
  LAN80XX_CSR_RD fail d p (mailbox_reg a) v k (W s rb l) = k (u32 (mcu_load (u16 a) s)) (W s rb l).
Proof. reflexivity. Qed.
Lemma poll_line {A} (k : Z -> M A) s rb l :
  bind (on_bus (gpio cb d)) k (W s rb l) = k (fst (mcu_gpio s)) (W (snd (mcu_gpio s)) rb l).
Proof. unfold bind, on_bus. cbn. by destruct (mcu_gpio s). Qed.

(** The request area takes the packet in words. *)
Lemma send_words_spec m : forall turns j buf k st req resp wt rb l,
  (m <= turns)%nat -> (j + m <= 256)%nat -> (4 * (j + m) <= length buf)%nat -> length req = 1024%nat -> bytes buf ->
  send_words turns d (p80_port_no dd) buf (4 * Z.of_nat m) (4 * Z.of_nat j) (MAILBOX_CMD_ADDR + Z.of_nat j) k
    (W (Mcu st req resp wt) rb l) =
  k (W (Mcu st (splice req (4 * j) (take (4 * m) (drop (4 * j) buf))) resp wt) rb l).
Proof.
  induction m as [|m IH]; intros turns j buf k st req resp wt rb l Ht Hj Hbuf Hreq Hbytes.
  - rewrite Nat.mul_0_r, take_0, splice_nil. by destruct turns.
  - destruct turns as [|turns]; [lia|]. cbn [send_words].
    rewrite (proj2 (Z.eqb_neq _ 0)) by lia.
    destruct (drop_word buf j ltac:(lia)) as (b0 & b1 & b2 & b3 & E).
    assert (bytes [b0; b1; b2; b3]) as Hw.
    { pose proof (bytes_drop (4 * j) buf Hbytes) as Hb'. rewrite E in Hb'.
      by apply (bytes_app [b0; b1; b2; b3]) in Hb' as [? _]. }
    assert (forall z n x, drop (4 * j) buf !! n = Some x -> z = 4 * Z.of_nat j + Z.of_nat n ->
      array_at buf z = Some x) as Ha.
    { intros z n x Hn ->. eapply array_at_drop; [lia|done|]. by replace (Z.to_nat (4 * Z.of_nat j)) with (4 * j)%nat by lia. }
    rewrite E in Ha.
    rewrite (Ha (4 * Z.of_nat j + 3) 3%nat b3), (Ha (4 * Z.of_nat j + 2) 2%nat b2),
      (Ha (4 * Z.of_nat j + 1) 1%nat b1), (Ha (4 * Z.of_nat j) 0%nat b0) by (done || lia).
    cbn [lift]. unfold bind at 1 2 3 4, ret. rewrite store_reg, shifts_le by done.
    unfold SPI_VAL_LEN. rewrite !(u16_small (_ - 4)), !u16_small by (unfold MAILBOX_CMD_ADDR; lia).
    replace (4 * Z.of_nat (S m) - 4) with (4 * Z.of_nat m) by lia.
    replace (4 * Z.of_nat j + 4) with (4 * Z.of_nat (S j)) by lia.
    replace (MAILBOX_CMD_ADDR + Z.of_nat j + 1) with (MAILBOX_CMD_ADDR + Z.of_nat (S j)) by lia.
    unfold mcu_store at 1. rewrite (proj2 (Z.leb_le _ _)), (proj2 (Z.ltb_lt _ _))
      by (unfold MAILBOX_CMD_ADDR, MAILBOX_RESP_ADDR; lia). cbn [andb m_st m_req m_resp m_wait].
    replace (Z.to_nat (MAILBOX_CMD_ADDR + Z.of_nat j - MAILBOX_CMD_ADDR)) with j by lia.
    rewrite word_bytes_le by done. rewrite IH by (try done; try lia; rewrite length_splice; cbn; lia).
    do 4 f_equal. replace (4 * S j)%nat with (4 * j + length [b0; b1; b2; b3])%nat by (cbn; lia).
    rewrite splice_splice.
    2: { rewrite length_take, length_drop. cbn. lia. }
    f_equal. replace (4 * S m)%nat with (4 + 4 * m)%nat by lia. rewrite E. cbn [length].
    replace (4 * j + 4)%nat with (4 * S j)%nat by lia. done.
Qed.

(** A length rounded up, as a number of words. *)
Definition words_of (n : Z) : nat := Z.to_nat ((n + 3) / 4).
Lemma round4_words n : 0 <= n <= 1024 -> round4 n = 4 * Z.of_nat (words_of n) /\ (words_of n <= 256)%nat /\
  n <= 4 * Z.of_nat (words_of n) <= n + 3.
Proof.
  intros Hn. unfold round4, words_of. change SPI_VAL_LEN with 4.
  destruct (Z.eqb_spec (n mod 4) 0); cbn [negb]; rewrite ?u16_small; Z.div_mod_to_equations; lia.
Qed.
(** The other way the code rounds. *)
Lemma land_3 n : n .& 0x03 = n mod 4.
Proof. change 0x03 with (Z.ones 2). by rewrite Z.land_ones. Qed.
Lemma round4_land n : 0 <= n <= 1024 ->
  (if tb (n .& 0x03) then u16 (n + (4 - (n .& 0x03))) else n) = 4 * Z.of_nat (words_of n).
Proof.
  intros Hn. destruct (round4_words n Hn) as [<- _]. unfold round4, tb. rewrite land_3. reflexivity.
Qed.

(** A request of at least one packet is handed over. *)
Lemma SendRequest_spec turns buf n st req resp rb l :
  0 <= n <= 1024 -> round4 n <= Z.of_nat (length buf) -> length req = 1024%nat -> bytes buf ->
  lan80xx_MB_SendRequest turns (Some d) buf n (W (Mcu st req resp None) rb l) =
  Some (MEPA_RC_OK, W (mcu_run (Mcu st (splice req 0 (take (4 * words_of n) buf)) resp None)) rb l).
Proof.
  intros Hn Hbuf Hreq Hb'. destruct (round4_words n Hn) as (Hr & Hw & _).
  unfold lan80xx_MB_SendRequest, non_null. unfold bind at 1. rewrite data_of_d, base_dev_d, Hr, Hcb.
  change 0 with (4 * Z.of_nat 0) at 1. change MAILBOX_CMD_ADDR with (MAILBOX_CMD_ADDR + Z.of_nat 0) at 1.
  rewrite send_words_spec by (done || lia). rewrite poll_line. cbn [mcu_gpio m_wait fst snd]. cbn zeta.
  change (1 =? u8 0) with false. cbn iota. rewrite load_reg, store_reg. unfold lan80xx_MB_SetFlag, non_null.
  unfold bind. rewrite data_of_d, store_reg. reflexivity.
Qed.

(** The wait for the line, with [k] polls to go. *)
Lemma wait_host_spec k : forall turns timeout t v {A} (fail : Z -> M A) (cont : Z -> Z -> M A) st req resp rb l,
  (k < turns)%nat -> 0 <= t -> t + Z.of_nat k <= timeout -> timeout < 65536 ->
  wait_host turns d (p80_port_no dd) cb timeout t v fail cont (W (Mcu st req resp (Some k)) rb l) =
  cont (t + Z.of_nat k) 1 (W (Mcu st req resp (Some O)) rb (l ++ repeat (EvSleep 1) k)).
Proof.
  induction k as [|k IH]; intros turns timeout t v A fail cont st req resp rb l Ht Ht0 Htk Hto;
    (destruct turns as [|turns]; [lia|]); cbn [wait_host]; rewrite poll_line; cbn [mcu_gpio m_wait fst snd].
  - cbv zeta. change (tb (u8 1)) with true. cbn iota. rewrite load_reg.
    change (tb (_ .& MAILBOX_HOST_INTR_MASK)) with true. cbn iota. cbn [repeat]. by rewrite app_nil_r, Z.add_0_r.
  - cbv zeta. change (tb (u8 0)) with false. cbn iota. unfold bind at 1, msleep, log. cbn [w_bus w_data w_log].
    rewrite u16_small by lia. destruct (Z.gtb_spec (t + 1) timeout); [lia|]. rewrite IH by lia.
    rewrite <- app_assoc. cbn [repeat app]. f_equal. lia.
Qed.
Lemma wait_host_timeout n : forall k turns timeout t v {A} (fail : Z -> M A) (cont : Z -> Z -> M A) st req resp rb l,
  (n < turns)%nat -> 0 <= t -> t + Z.of_nat n = timeout -> timeout < 65535 ->
  wait_host turns d (p80_port_no dd) cb timeout t v fail cont (W (Mcu st req resp (Some (S n + k)%nat)) rb l) =
  cont (timeout + 1) 0 (W (Mcu st req resp (Some k)) rb (l ++ repeat (EvSleep 1) (S n))).
Proof.
  induction n as [|n IH]; intros k turns timeout t v A fail cont st req resp rb l Ht Ht0 Htk Hto;
    (destruct turns as [|turns]; [lia|]); cbn [wait_host]; rewrite poll_line; cbn [Nat.add mcu_gpio m_wait fst snd];
    cbv zeta; change (tb (u8 0)) with false; cbn iota; unfold bind at 1, msleep, log; cbn [w_bus w_data w_log];
    rewrite u16_small by lia.
  - destruct (Z.gtb_spec (t + 1) timeout); [|lia]. f_equal. lia.
  - destruct (Z.gtb_spec (t + 1) timeout); [lia|]. change (S (n + k)) with (S n + k)%nat. rewrite IH by lia.
    by rewrite <- app_assoc.
Qed.

(** The response, word by word. *)
Lemma read_words_spec m : forall turns j buf {A} (fail : Z -> list Z -> M A) k st req resp wt rb l len,
  (m <= turns)%nat -> (j + m <= 256)%nat -> len = 4 * Z.of_nat (j + m) -> length buf = 1024%nat ->
  length resp = 1024%nat -> bytes resp ->
  read_words turns d (p80_port_no dd) buf len (4 * Z.of_nat j) (MAILBOX_RESP_ADDR + Z.of_nat j) fail k
    (W (Mcu st req resp wt) rb l) =
  k (splice buf (4 * j) (take (4 * m) (drop (4 * j) resp))) (W (Mcu st req resp wt) rb l).
Proof.
  induction m as [|m IH]; intros turns j buf A fail k st req resp wt rb l len Ht Hj -> Hbuf Hresp Hbytes.
  - rewrite Nat.mul_0_r, take_0, splice_nil. destruct turns; cbn [read_words];
      (destruct (Z.ltb_spec (4 * Z.of_nat j) (4 * Z.of_nat (j + 0))); [lia|done]).
  - destruct turns as [|turns]; [lia|]. cbn [read_words].
    rewrite (proj2 (Z.ltb_lt _ _)) by lia. rewrite load_reg, u16_small by (unfold MAILBOX_RESP_ADDR; lia).
    destruct (drop_word resp j ltac:(lia)) as (b0 & b1 & b2 & b3 & E).
    assert (bytes [b0; b1; b2; b3]) as Hw.
    { pose proof (bytes_drop (4 * j) resp Hbytes) as Hb'. rewrite E in Hb'.
      by apply (bytes_app [b0; b1; b2; b3]) in Hb' as [? _]. }
    unfold mcu_load. rewrite (proj2 (Z.leb_le _ _)), (proj2 (Z.ltb_lt _ _))
      by (unfold MAILBOX_FLAG_REGISTER, MAILBOX_RESP_ADDR; lia). cbn [andb m_resp].
    replace (Z.to_nat (MAILBOX_RESP_ADDR + Z.of_nat j - MAILBOX_RESP_ADDR)) with j by lia.
    unfold word_at. rewrite E, u32_small by (apply le_word_range in Hw; lia).
    replace (4 * Z.of_nat j) with (Z.of_nat (4 * j)) at 1 by lia.
    rewrite store_word_splice by lia. cbn [lift]. unfold bind, ret. rewrite word_bytes_le by done.
    rewrite !u16_small by (unfold MAILBOX_RESP_ADDR; lia).
    replace (4 * Z.of_nat j + 4) with (4 * Z.of_nat (S j)) by lia.
    replace (MAILBOX_RESP_ADDR + Z.of_nat j + 1) with (MAILBOX_RESP_ADDR + Z.of_nat (S j)) by lia.
    rewrite IH by (done || lia || (rewrite length_splice; cbn; lia)).
    f_equal. replace (4 * S j)%nat with (4 * j + length [b0; b1; b2; b3])%nat by (cbn; lia).
    rewrite splice_splice.
    2: { rewrite length_take, length_drop. cbn. lia. }
    f_equal. replace (4 * S m)%nat with (4 + 4 * m)%nat by lia. cbn [length].
    replace (4 * j + 4)%nat with (4 * S j)%nat by lia. done.
Qed.

Lemma ClearFlag_spec v s rb l :
  lan80xx_MB_ClearFlag (Some d) v (W s rb l) = Some (MEPA_RC_OK, W (mcu_store MAILBOX_FLAG_REGISTER v s) rb l).
Proof. unfold lan80xx_MB_ClearFlag, non_null, bind. rewrite data_of_d, store_reg. reflexivity. Qed.

(** The length in the first word of a response. *)
Lemma resp_len resp r : get_u16 resp 2 = Some r -> bytes resp -> (4 <= length resp)%nat ->
  exists b0 b1 b2 b3, drop (4 * 0) resp = b0 :: b1 :: b2 :: b3 :: drop 4 resp /\ bytes [b0; b1; b2; b3] /\
    u16 (le_word b0 b1 b2 b3 .>> 16) = r.
Proof.
  intros Hr Hb' Hl. destruct (drop_word resp 0 Hl) as (b0 & b1 & b2 & b3 & E). exists b0, b1, b2, b3.
  split; [done|]. cbn in E. rewrite drop_0 in E. rewrite E in Hr, Hb'.
  apply (bytes_app [b0; b1; b2; b3]) in Hb' as [Hw _]. split; [done|].
  assert (get_u16 (b0 :: b1 :: b2 :: b3 :: drop 4 resp) 2 = Some (b2 .| (b3 .<< 8))) as E2 by reflexivity.
  rewrite E2 in Hr. injection Hr as <-.
  apply Forall_cons in Hw as [H0 Hw]. apply Forall_cons in Hw as [H1 Hw].
  apply Forall_cons in Hw as [H2 Hw]. apply Forall_cons in Hw as [H3 _]. unfold is_byte in *.
  rewrite Z.lor_comm, lor_disjoint, Z.shiftr_div_pow2 by lia. unfold le_word, u16. Z.div_mod_to_equations; lia.
Qed.

(** An answer within the timeout is read. *)
Lemma ReadResponse_spec timeout buf len0 st req resp r rb l :
  get_u16 resp 2 = Some r -> 4 <= r <= 1024 -> bytes resp -> length resp = 1024%nat -> length buf = 1024%nat ->
  Z.of_nat latency <= timeout < 65536 ->
  lan80xx_MB_ReadResponse (Some d) buf len0 timeout (W (Mcu st req resp (Some latency)) rb l) =
  Some ((MEPA_RC_OK, splice buf 0 (take (4 * words_of r) resp), r),
        W (Mcu st req resp None) rb (l ++ repeat (EvSleep 1) latency)).
Proof.
  intros Hr Hlen Hb' Hresp Hbuf Hto. destruct (resp_len resp r Hr Hb' ltac:(lia)) as (b0 & b1 & b2 & b3 & E & Hw & Hu).
  destruct (round4_words r ltac:(lia)) as (_ & Hwords & Hge).
  unfold lan80xx_MB_ReadResponse, non_null. unfold bind at 1. rewrite data_of_d, base_dev_d, Hcb.
  unfold deref. unfold bind at 1, ret at 1. rewrite wait_host_spec by lia.
  rewrite Z.add_0_l. destruct (Z.gtb_spec (Z.of_nat latency) timeout); [lia|].
  change (tb 1) with true. cbn iota. rewrite load_reg. change (u16 MAILBOX_RESP_ADDR) with MAILBOX_RESP_ADDR.
  change (mcu_load MAILBOX_RESP_ADDR (Mcu st req resp (Some 0%nat))) with (word_at resp 0).
  unfold word_at. rewrite E, u32_small by (apply le_word_range in Hw; lia). cbv zeta. rewrite Hu.
  rewrite (proj2 (Z.eqb_neq r 0)) by lia. rewrite (store_word_splice buf 0) by lia.
  cbn [lift]. unfold bind at 1, ret at 1. rewrite word_bytes_le, round4_land by (done || lia).
  change 4 with (4 * Z.of_nat 1) at 2. change (MAILBOX_RESP_ADDR + 1) with (MAILBOX_RESP_ADDR + Z.of_nat 1).
  rewrite (read_words_spec (words_of r - 1)) by (done || lia || (rewrite length_splice; cbn; lia)).
  unfold bind. rewrite ClearFlag_spec. unfold ret. do 4 f_equal.
  change (4 * 1)%nat with (0 + length [b0; b1; b2; b3])%nat at 1. rewrite splice_splice.
  2: { rewrite length_take, length_drop. cbn. lia. }
  f_equal. replace (4 * words_of r)%nat with (4 + 4 * (words_of r - 1))%nat by lia.
  cbn in E. rewrite drop_0 in E. rewrite E at 2. reflexivity.
Qed.

(** No answer within the timeout: the request is withdrawn. *)
Lemma ReadResponse_timeout timeout k buf len0 st req resp rb l :
  0 <= timeout < 65535 ->
  lan80xx_MB_ReadResponse (Some d) buf len0 timeout (W (Mcu st req resp (Some (Z.to_nat timeout + 1 + k)%nat)) rb l) =
  Some ((MEPA_RC_ERR_MB_RESP_TIMEOUT, buf, len0),
        W (Mcu st req resp None) rb (l ++ repeat (EvSleep 1) (Z.to_nat timeout + 1))).
Proof.
  intros Hto. unfold lan80xx_MB_ReadResponse, non_null. unfold bind at 1. rewrite data_of_d, base_dev_d, Hcb.
  unfold deref. unfold bind at 1, ret at 1.
  replace (Z.to_nat timeout + 1 + k)%nat with (S (Z.to_nat timeout) + k)%nat by lia.
  rewrite wait_host_timeout by lia. destruct (Z.gtb_spec (timeout + 1) timeout); [|lia].
  rewrite !load_reg. unfold bind. rewrite ClearFlag_spec. unfold ret. do 3 f_equal.
  replace (Z.to_nat timeout + 1)%nat with (S (Z.to_nat timeout)) by lia. done.
Qed.

(** ** A command and its answer *)

(** The mailbox is ready for a command. *)
Record idle (st : St) (w : world (env80 (mcu St)) phy25g_phy_state_t) : Prop := {
  idle_table : w_data w = T;
  idle_wait : m_wait (e_bus (w_bus w)) = None;
  idle_st : m_st (e_bus (w_bus w)) = st;
  idle_req : length (m_req (e_bus (w_bus w))) = 1024%nat;
  idle_resp : length (m_resp (e_bus (w_bus w))) = 1024%nat /\ bytes (m_resp (e_bus (w_bus w)));
  idle_buf : length (e_resp (w_bus w)) = 1024%nat;
}.
(** What the answer to a request has to be for the driver to read it. *)
Definition well_sized (reply : list Z) : Prop :=
  bytes reply /\ 4 <= Z.of_nat (length reply) <= 1024 /\ get_u16 reply 2 = Some (Z.of_nat (length reply)).
Lemma well_sized_packet id res data : is_byte id -> is_byte res -> bytes data -> Z.of_nat (length data) <= 1018 ->
  well_sized (packet id res data).
Proof.
  intros. pose proof (u16PktLen_packet id res data [] ltac:(lia)) as E. rewrite app_nil_r in E.
  split; [by apply bytes_packet|]. rewrite length_packet. split; [lia|]. unfold u16PktLen in E. rewrite E. f_equal. lia.
Qed.
Lemma get_u16_app p q i x : 0 <= i -> get_u16 p i = Some x -> get_u16 (p ++ q) i = Some x.
Proof.
  intros Hi. unfold get_u16. rewrite !array_at_lookup by lia. intros H.
  apply bind_inv in H as (x0 & E0 & H). apply bind_inv in H as (x1 & E1 & H).
  eapply bind_some; [by apply lookup_app_l_Some|]. eapply bind_some; [by apply lookup_app_l_Some|]. done.
Qed.

(** The request reaches [serve], whose answer is in the response area. *)
Lemma request_served turns buf n request reply st st' req resp rb l :
  length req = 1024%nat -> well_sized request -> n = Z.of_nat (length request) ->
  (exists rest, buf = request ++ rest) -> bytes buf -> round4 n <= Z.of_nat (length buf) ->
  serve request st = (reply, st') ->
  exists req', length req' = 1024%nat /\
    lan80xx_MB_SendRequest turns (Some d) buf n (W (Mcu st req resp None) rb l) =
    Some (MEPA_RC_OK, W (Mcu st' req' (splice resp 0 reply) (Some latency)) rb l).
Proof.
  intros Hreq (_ & Hrql & Hrqu) Hn [rest Hbuf] Hbb Hr4 Hserve.
  destruct (round4_words n ltac:(lia)) as (Er4 & Hw & Hge).
  assert (splice req 0 (take (4 * words_of n) buf) =
    request ++ (take (4 * words_of n - length request) rest ++ drop (length (take (4 * words_of n) buf)) req)) as Ereq.
  { rewrite splice_0, Hbuf, take_app_ge, <- app_assoc by lia. done. }
  exists (splice req 0 (take (4 * words_of n) buf)). split.
  { rewrite length_splice; [done|]. rewrite length_take. lia. }
  rewrite SendRequest_spec by (done || lia). unfold mcu_run. cbn [m_req m_st m_resp]. rewrite Ereq.
  rewrite (get_u16_app request _ 2 (Z.of_nat (length request))) by (done || lia).
  change (default 0 (Some (Z.of_nat (length request)))) with (Z.of_nat (length request)). cbv zeta.
  by rewrite Nat2Z.id, take_app_length, Hserve.
Qed.

(** One command is one call of [serve]: its answer is in the buffer. *)
Lemma mb_command_spec turns timeout buf n request reply st st' w :
  idle st w -> well_sized request -> n = Z.of_nat (length request) ->
  (exists rest, buf = request ++ rest) -> bytes buf -> round4 n <= Z.of_nat (length buf) ->
  serve request st = (reply, st') -> well_sized reply -> Z.of_nat latency <= timeout < 65536 ->
  exists tail w', length (reply ++ tail) = 1024%nat /\ idle st' w' /\ e_resp (w_bus w') = reply ++ tail /\
    w_log w' = w_log w ++ repeat (EvSleep 1) latency /\
    mb_command turns (Some d) buf n timeout w =
    (v ← lan80xx_ValidatePacket (reply ++ tail); Some ((MEPA_RC_OK, Z.of_nat (length reply), v =? MEPA_RC_OK), w')).
Proof.
  destruct w as [[[st0 req resp wt] rb] T0 l]. intros [HT Hwt Hst Hreq [Hresp Hrespb] Hrb] Hrq Hn Hbuf Hbb Hr4 Hserve Hrp Hto.
  cbn [w_data w_bus w_log e_bus e_resp m_wait m_st m_req m_resp] in *. subst T0 wt st0.
  destruct (request_served turns buf n request reply st st' req resp rb l) as (req' & Hreq' & Esend); try done.
  destruct Hrp as (Hrpb & Hrpl & Hrpu).
  destruct (round4_words (Z.of_nat (length reply)) ltac:(lia)) as (_ & Hrw & Hrge).
  assert (exists tail, splice rb 0 (take (4 * words_of (Z.of_nat (length reply))) (splice resp 0 reply)) = reply ++ tail)
    as [tail Etail].
  { eexists. rewrite !splice_0, take_app_ge, <- app_assoc by lia. reflexivity. }
  exists tail, (World (Env80 (Mcu st' req' (splice resp 0 reply) None) (reply ++ tail)) T (l ++ repeat (EvSleep 1) latency)).
  assert (length (reply ++ tail) = 1024%nat) as Hlen.
  { rewrite <- Etail. rewrite length_splice; [done|]. rewrite length_take, length_splice by lia. lia. }
  split_and!; try done.
  - split; cbn; try done. split; [rewrite length_splice; [done|lia]|by apply bytes_splice].
  - unfold mb_command. unfold bind at 1. rewrite Esend. cbn [negb Z.eqb MEPA_RC_OK].
    unfold bind at 1, get_resp. cbn [w_bus e_resp]. unfold bind at 1.
    rewrite (ReadResponse_spec _ _ _ _ _ _ (Z.of_nat (length reply)))
      by (done || lia || (by apply bytes_splice) || (rewrite length_splice; lia) ||
          (rewrite splice_0; apply get_u16_app; [lia|done])).
    rewrite Etail. unfold bind, put_resp. change (negb (MEPA_RC_OK =? MEPA_RC_OK)) with false. cbv iota beta.
    cbn [w_bus w_data w_log e_bus]. generalize (lan80xx_ValidatePacket (reply ++ tail)) as o. intros [v|]; [|reflexivity].
    cbn [lift mbind option_bind]. unfold ret. change MEPA_RC_OK with 0. by destruct (v =? 0).
Qed.

(** A command that is not answered in time: the request is withdrawn. *)
Lemma mb_command_timeout turns timeout buf n request reply st st' w :
  idle st w -> well_sized request -> n = Z.of_nat (length request) ->
  (exists rest, buf = request ++ rest) -> bytes buf -> round4 n <= Z.of_nat (length buf) ->
  serve request st = (reply, st') -> bytes reply -> (length reply <= 1024)%nat -> 0 <= timeout < Z.of_nat latency ->
  timeout < 65535 ->
  exists w', idle st' w' /\ w_log w' = w_log w ++ repeat (EvSleep 1) (Z.to_nat timeout + 1) /\
    mb_command turns (Some d) buf n timeout w = Some ((MEPA_RC_ERR_MB_RESP_TIMEOUT, 0, false), w').
Proof.
  destruct w as [[[st0 req resp wt] rb] T0 l]. intros [HT Hwt Hst Hreq [Hresp Hrespb] Hrb] Hrq Hn Hbuf Hbb Hr4 Hserve Hrpb Hrpl Hto Hto2.
  cbn [w_data w_bus w_log e_bus e_resp m_wait m_st m_req m_resp] in *. subst T0 wt st0.
  destruct (request_served turns buf n request reply st st' req resp rb l) as (req' & Hreq' & Esend); try done.
  exists (World (Env80 (Mcu st' req' (splice resp 0 reply) None) rb) T (l ++ repeat (EvSleep 1) (Z.to_nat timeout + 1))).
  split; [|split; [done|]].
  - split; cbn; try done. split; [rewrite length_splice; [done|lia]|by apply bytes_splice].
  - unfold mb_command. unfold bind at 1. rewrite Esend. cbn [negb Z.eqb MEPA_RC_OK].
    unfold bind at 1, get_resp. cbn [w_bus e_resp]. unfold bind at 1.
    replace latency with (Z.to_nat timeout + 1 + (latency - Z.to_nat timeout - 1))%nat by lia.
    rewrite ReadResponse_timeout by lia. reflexivity.
Qed.
End Sim.
