(* ===== verification/Lan80xxMcuSpec.v ===== *)
(** * Lan80xxMcuSpec: the commands against a microcontroller that answers

    What the commands of [Lan80xxMcu] do when the firmware behind
    [Lan80xxMcuSim] answers them: the memory read returns the answer's bytes
    or the code of the failure, reads and writes of the one-time programmable
    memory send a range in pieces for as long as the firmware, of which nothing
    but the form of its answers is known, acknowledges them, an answer that
    comes too late is a timeout, and the key functions take the lock twice. *)

From Stdlib Require Import ZArith Lia List Bool String.
From stdpp Require Import base gmap strings list.
From S2P Require Import Prelude Machine Bytes Lan80xxRegs Lan80xxMacsecTypes Lan80xxCsr Lan80xxMcu Lan80xxPacketSpec Lan80xxMcuSim.

Lemma bind_run {B D A C} (m : M B D A) (k : A -> M B D C) w a w' r :
  m w = Some (a, w') -> k a w' = r -> bind m k w = r.
Proof. unfold bind. by intros -> <-. Qed.
Lemma lift_bind {B A C} (o : option A) (k : A -> M (env80 B) phy25g_phy_state_t C) a w r :
  o = Some a -> k a w = r -> bind (lift o) k w = r.
Proof. unfold bind. by intros -> <-. Qed.

Lemma ff_byte x : is_byte (x .& 0xff).
Proof. change 0xff with (Z.ones 8). rewrite Z.land_ones by lia. apply Z.mod_pos_bound. lia. Qed.
Lemma otp_param_bytes off n : bytes (otp_param off n).
Proof. repeat (apply Forall_cons; split; [apply ff_byte|]). constructor. Qed.
Lemma addr_len_bytes a n : bytes (addr_len_param a n).
Proof. repeat (apply Forall_cons; split; [apply ff_byte|]). constructor. Qed.
Lemma bytes_app_2 p q : bytes p -> bytes q -> bytes (p ++ q).
Proof. by rewrite bytes_app. Qed.
Lemma small_byte x : (0 <=? x) && (x <? 256) = true -> is_byte x.
Proof. intros H. apply andb_prop in H as [H1 H2]. apply Z.leb_le in H1. apply Z.ltb_lt in H2. by split. Qed.
#[export] Hint Resolve otp_param_bytes addr_len_bytes bytes_zeros bytes_app_2 bytes_take bytes_drop bytes_packet : mepa.
#[export] Hint Extern 1 (is_byte _) => by (apply small_byte; vm_compute) : mepa.

(** The payload of a response. *)
Lemma read_payload id res data rest n : n = Z.of_nat (length data) ->
  read_bytes (packet id res data ++ rest) 4 n = Some data.
Proof.
  intros Hn. unfold packet, packet_body. rewrite <- !app_assoc, (app_assoc [id; res]). by apply read_bytes_app.
Qed.

(** ** What a write to the one-time programmable memory sends *)

(** The packets of a write, one for each piece, to firmware that answers a
    request with the identifier, the second byte and the data of a packet: the
    code of the call, or [None] when it does not end; the firmware's state; and
    the number of packets sent.  A request carries the mode as its second byte,
    and the address and the length of the piece in front of its bytes. *)
Fixpoint deliver {St} (answer : list Z -> St -> Z * Z * list Z * St) (mode addr : Z) (pieces : list (list Z)) (st : St)
    : option Z * St * nat :=
  match pieces with
  | [] => (Some MEPA_RC_OK, st, 0%nat)
  | l :: pieces =>
      let n := Z.of_nat (length l) in
      let '(id, _, data, st) := answer (packet 0x09 mode ([addr mod 256; addr / 256; n mod 256; n / 256] ++ l)) st in
      if negb (id =? 0x89) then
        (if 252 <? Z.of_nat (length data) + 6 then None
         else Some (if id =? 0x8a then MEPA_RC_ERR_MB_FAIL_RESPONSE else MEPA_RC_ERR_MB_CMD_PROTO_NO_SYNC), st, 1%nat)
      else if negb (length data =? 1)%nat then (Some MEPA_RC_ERR_MB_INVALID_PKT_LEN, st, 1%nat)
      else let '(rc, st, sent) := deliver answer mode (addr + n) pieces st in (rc, st, S sent)
  end.

(** The packets of a read, one for each piece: the code, or [None]; the bytes
    the answers brought before the first one that is refused; the firmware's
    state; and the number of packets sent. *)
Fixpoint fetch {St} (answer : list Z -> St -> Z * Z * list Z * St) (addr : Z) (pieces : list Z) (st : St)
    : option Z * list Z * St * nat :=
  match pieces with
  | [] => (Some MEPA_RC_OK, [], st, 0%nat)
  | n :: pieces =>
      let '(id, _, data, st) := answer (packet 0x0a 0xff [addr mod 256; addr / 256; n mod 256; n / 256]) st in
      if negb (id =? 0x8a) then
        (if 252 <? Z.of_nat (length data) + 6 then None
         else Some (if id =? 0x8b then MEPA_RC_ERR_MB_FAIL_RESPONSE else MEPA_RC_ERR_MB_CMD_PROTO_NO_SYNC), [], st, 1%nat)
      else if negb (Z.of_nat (length data) =? n) then (Some MEPA_RC_ERR_MB_INVALID_PKT_LEN, [], st, 1%nat)
      else let '(rc, l, st, sent) := fetch answer (addr + n) pieces st in (rc, data ++ l, st, S sent)
  end.

(** The pieces of [l]: 1014 bytes each, the rest in the last. *)
Fixpoint cut_up (turns : nat) (l : list Z) : list (list Z) :=
  match turns, l with
  | S turns, _ :: _ => take 1014 l :: cut_up turns (drop 1014 l)
  | _, _ => []
  end.
Lemma cut_up_concat n : forall l, (length l <= n)%nat -> concat (cut_up n l) = l.
Proof.
  induction n as [|n IH]; intros [|x l] Hl; try done; [cbn in Hl; lia|].
  change (take 1014 (x :: l) ++ concat (cut_up n (drop 1014 (x :: l))) = x :: l).
  rewrite IH; [apply take_drop|]. rewrite length_drop. cbn [length] in *. lia.
Qed.
Lemma cut_up_sizes n : forall l i c, cut_up n l !! i = Some c -> (length l <= n)%nat ->
  length c = 1014%nat \/ S i = length (cut_up n l) /\ (0 < length c < 1014)%nat.
Proof.
  induction n as [|n IH]; intros [|x l] i c Hc Hl; try done.
  change (cut_up (S n) (x :: l)) with (take 1014 (x :: l) :: cut_up n (drop 1014 (x :: l))) in *.
  assert (length (drop 1014 (x :: l)) = length (x :: l) - 1014)%nat as Hd by apply length_drop.
  assert (length (take 1014 (x :: l)) = Nat.min 1014 (length (x :: l))) as Ht by apply length_take.
  assert (length (x :: l) <> 0%nat) as H0 by (cbn [length]; lia). set (L := x :: l) in *. clearbody L.
  destruct i as [|i].
  - cbn [lookup list_lookup] in Hc. injection Hc as <-. destruct (Nat.le_gt_cases 1014 (length L)); [left; lia|right].
    rewrite drop_ge by lia. split; [by destruct n|lia].
  - change (cut_up n (drop 1014 L) !! i = Some c) in Hc.
    destruct (IH _ _ _ Hc) as [|[E ?]]; [lia|by left|right]. cbn [length]. by rewrite E.
Qed.

(** These two properties leave one way to cut. *)
Lemma cut_up_only pieces : forall n,
  (forall i (l : list Z), pieces !! i = Some l -> length l = 1014%nat \/ S i = length pieces /\ (0 < length l < 1014)%nat) ->
  (length (concat pieces) <= n)%nat -> cut_up n (concat pieces) = pieces.
Proof.
  induction pieces as [|l pieces IH]; intros n Hp Hn; [by destruct n|].
  change (concat (l :: pieces)) with (l ++ concat pieces) in *. rewrite length_app in Hn.
  destruct (Hp 0%nat l eq_refl) as [Hl|[He Hl]].
  - destruct n as [|n]; [lia|]. destruct l as [|x l]; [done|]. cbn [app cut_up].
    change (x :: l ++ concat pieces) with ((x :: l) ++ concat pieces).
    rewrite take_app_length', drop_app_length', IH by (done || lia || (intros i y Hy; destruct (Hp (S i) y Hy) as [|[? ?]]; [by left|right; cbn in *; lia])).
    done.
  - destruct pieces as [|]; [|done]. destruct n as [|n]; [lia|]. destruct l as [|x l]; [cbn in Hl; lia|].
    change (concat []) with (@nil Z). rewrite app_nil_r. cbn [cut_up]. rewrite take_ge, drop_ge by lia. by destruct n.
Qed.

Section Commands.
Context {St : Type} (serve : list Z -> St -> list Z * St) (latency : nat).
Context (T : gmap Z phy25g_phy_state_t) (d b cb : Z) (dd bd : phy25g_phy_state_t).
Context (Hd : T !! d = Some dd) (Hbase : p80_base_dev dd = Some b)
  (Hb : T !! b = Some bd) (Hcb : p80_ft_gpio_read bd = Some cb).
#[local] Existing Instance mcu_callout.
Notation M := (M (env80 (mcu St)) phy25g_phy_state_t).
Notation world := (world (env80 (mcu St)) phy25g_phy_state_t).
Notation idle := (idle T).

(** The world after an exchange: the firmware's state, the answer in the
    response buffer, and one sleep per poll. *)
Record answered (st' : St) (rid rres : Z) (rdata : list Z) (w w' : world) : Prop := {
  ans_idle : idle st' w';
  ans_resp : exists tail, e_resp (w_bus w') = packet rid rres rdata ++ tail;
  ans_size : length (e_resp (w_bus w')) = 1024%nat;
  ans_log : w_log w' = w_log w ++ repeat (EvSleep 1) latency;
}.

Lemma exchange turns timeout id res payload buf rid rres rdata st st' w :
  idle st w -> is_byte id -> is_byte res -> bytes payload -> bytes buf -> Z.of_nat (length payload) <= 1018 ->
  Z.of_nat (length payload) + 9 <= Z.of_nat (length buf) \/ length buf = 1024%nat ->
  serve (packet id res payload) st = (packet rid rres rdata, st') ->
  is_byte rid -> is_byte rres -> bytes rdata -> Z.of_nat (length rdata) <= 1018 -> Z.of_nat latency <= timeout < 65536 ->
  exists w', answered st' rid rres rdata w w' /\
    mb_command (CO := mcu_callout serve latency) turns (Some d) (packet id res payload ++ drop (length payload + 6) buf)
      (Z.of_nat (length payload) + 6) timeout w = Some ((MEPA_RC_OK, Z.of_nat (length rdata) + 6, true), w').
Proof.
  intros Hi Hid Hres Hp Hbuf Hpl Hbl Hs Hrid Hrres Hrd Hrl Hto.
  destruct (round4_words (Z.of_nat (length payload) + 6) ltac:(lia)) as (Hr4 & Hr4' & Hr4'').
  destruct (mb_command_spec serve latency T d b cb dd bd Hd Hbase Hb Hcb turns timeout
      (packet id res payload ++ drop (length payload + 6) buf) (Z.of_nat (length payload) + 6)
      (packet id res payload) (packet rid rres rdata) st st' w Hi) as (tail & w' & Hlen & Hi' & Hresp & Hlog & E);
    try done; auto with mepa.
  - by apply well_sized_packet.
  - rewrite length_packet. lia.
  - by eexists.
  - rewrite length_app, length_packet, length_drop. lia.
  - by apply well_sized_packet.
  - exists w'. split; [split; [done|by exists tail|by rewrite Hresp|done]|].
    rewrite E, validate_packet by done. cbn [mbind option_bind]. rewrite length_packet.
    replace (Z.of_nat (length rdata + 6)) with (Z.of_nat (length rdata) + 6) by lia. reflexivity.
Qed.

(** How a command goes on from the answer. *)
Lemma response_eq id {A} (fail : Z -> M A) ok st rid rres rdata w w' :
  answered st rid rres rdata w w' -> Z.of_nat (length rdata) <= 1018 ->
  mb_response id fail ok w' =
  if rid =? id + 0x80 then ok (e_resp (w_bus w')) w'
  else if 252 <? Z.of_nat (length rdata) + 6 then None
  else fail (if rid =? id + 0x81 then MEPA_RC_ERR_MB_FAIL_RESPONSE else MEPA_RC_ERR_MB_CMD_PROTO_NO_SYNC) w'.
Proof.
  intros [Hi [tail Hr] Hsz Hl] Hlen. unfold mb_response, bind, get_resp.
  rewrite Hr, u8PktId_packet. cbn [lift]. unfold ret. destruct (rid =? id + 0x80); [done|]. rewrite Hr in Hsz.
  rewrite (packet_dump_spec _ (Z.of_nat (length rdata) + 6)).
  - by destruct (252 <? _).
  - apply (u16PktLen_packet rid rres rdata tail). lia.
  - rewrite Hsz. lia.
Qed.
Lemma data_len_eq {A} st rid rres rdata w w' (k : Z -> M A) :
  answered st rid rres rdata w w' -> Z.of_nat (length rdata) <= 1018 ->
  bind (resp_data_len (e_resp (w_bus w'))) k w' = k (Z.of_nat (length rdata)) w'.
Proof.
  intros [Hi [tail Hr] Hsz Hl] Hlen. unfold resp_data_len. rewrite Hr.
  unfold bind. rewrite u16PktLen_packet by lia. cbn [lift]. unfold ret. f_equal.
  unfold MB_MAX_PKT_HEADER_LEN, MB_MAX_CRC_LEN. rewrite u16_small; lia.
Qed.
Lemma copy_payload st rid rres rdata w w' dst i :
  answered st rid rres rdata w w' -> (i + length rdata <= length dst)%nat ->
  memcpy dst (Z.of_nat i) (e_resp (w_bus w')) 4 (Z.of_nat (length rdata)) = Some (splice dst i rdata).
Proof.
  intros [Hi [tail Hr] Hsz Hl] Hlen. unfold memcpy. rewrite Hr. eapply bind_some; [by apply read_payload|].
  by apply write_bytes_splice.
Qed.

(** The lock around an entry point. *)
Definition add_log (e : event) (w : world) : world := World (w_bus w) (w_data w) (w_log w ++ [e]).
Lemma idle_log st e w : idle st w -> idle st (add_log e w).
Proof. by intros []. Qed.
Lemma locked_eq {A} (m : M A) w r w' :
  m (add_log EvEnter w) = Some (r, w') ->
  locked (CO := mcu_callout serve latency) (Some d) m w = Some (r, add_log EvExit w').
Proof.
  intros H. unfold locked, deref, enter, exit, bind, ret. cbn [enter80 exit80 mcu_callout].
  change (log EvEnter w) with (Some (tt, add_log EvEnter w)). cbv iota beta. by rewrite H.
Qed.
Lemma locked_none {A} (m : M A) w :
  m (add_log EvEnter w) = None -> locked (CO := mcu_callout serve latency) (Some d) m w = None.
Proof.
  intros H. unfold locked, deref, enter, exit, bind, ret. cbn [enter80 exit80 mcu_callout].
  change (log EvEnter w) with (Some (tt, add_log EvEnter w)). cbv iota beta. by rewrite H.
Qed.

(** A command with its parameters, from the packet to the answer. *)
Lemma command_eq turns timeout id res n data payload buf rid rres rdata st st' w :
  idle st w -> is_byte id -> is_byte res -> bytes payload -> Z.of_nat (length payload) = n -> n <= 1018 ->
  match data with
  | Some data => n <= Z.of_nat (length data) /\ payload = take (Z.to_nat n) data
  | None => payload = take (Z.to_nat n) (drop 4 buf)
  end ->
  bytes buf -> n + 9 <= Z.of_nat (length buf) \/ length buf = 1024%nat ->
  serve (packet id res payload) st = (packet rid rres rdata, st') ->
  is_byte rid -> is_byte rres -> bytes rdata -> Z.of_nat (length rdata) <= 1018 -> Z.of_nat latency <= timeout < 65536 ->
  exists cmd w', answered st' rid rres rdata w w' /\ bytes cmd /\ length cmd = length buf /\
    lan80xx_CreatePacket id n buf data res = Some (n + 6, cmd) /\
    mb_command (CO := mcu_callout serve latency) turns (Some d) cmd (n + 6) timeout w =
      Some ((MEPA_RC_OK, Z.of_nat (length rdata) + 6, true), w').
Proof.
  intros Hi Hid Hres Hp Hpn Hn Hd' Hbuf Hsz Hs Hrid Hrres Hrd Hrl Hto.
  destruct (exchange turns timeout id res payload buf rid rres rdata st st' w) as (w' & Ha & E);
    try done; try lia.
  rewrite Hpn in E. eexists _, w'. split_and!; [done| | | |exact E].
  - auto with mepa.
  - rewrite length_app, length_packet, length_drop. lia.
  - rewrite create_packet_eq with (payload := payload) by (done || lia). do 3 f_equal. f_equal. lia.
Qed.

(** The memory read against firmware that answers its request with any
    packet of at most 1018 bytes, within 500 polls: the lock is taken and left
    around the polls, and the firmware serves the request once.  An answer with
    the identifier of the command gives [MEPA_RC_OK] and its bytes, at the
    start of the caller's buffer; the failure identifier and any other one give
    their codes and leave the buffer alone, except that for an answer of more
    than 252 bytes the call does not end, in the dump of the packet. *)
Theorem memory_read_spec turns addr len buf rid rres rdata st st' w :
  idle st w -> 0 <= len <= MB_MAX_PAYLOAD_LEN -> (length rdata <= length buf)%nat ->
  serve (packet eMEM_READ RESERVED_ID (addr_len_param addr len)) st = (packet rid rres rdata, st') ->
  is_byte rid -> is_byte rres -> bytes rdata -> Z.of_nat (length rdata) <= MB_MAX_PAYLOAD_LEN ->
  Z.of_nat latency <= MAILBOX_INTR_TIMEOUT ->
  exists w', idle st' w' /\
    w_log w' = w_log w ++ [EvEnter] ++ repeat (EvSleep 1) latency ++ [EvExit] /\
    lan80xx_memory_read (CO := mcu_callout serve latency) turns (Some d) addr buf len w =
    if rid =? eMEM_READ + 0x80 then Some ((MEPA_RC_OK, rdata ++ drop (length rdata) buf), w')
    else if 252 <? Z.of_nat (length rdata) + 6 then None
    else Some ((if rid =? eMEM_READ + 0x81 then MEPA_RC_ERR_MB_FAIL_RESPONSE else MEPA_RC_ERR_MB_CMD_PROTO_NO_SYNC, buf), w').
Proof.
  change MB_MAX_PAYLOAD_LEN with 1018. change MAILBOX_INTR_TIMEOUT with 500.
  intros Hi Hlen Hbuf Hs Hrid Hrres Hrd Hrl Hlat.
  destruct (command_eq turns MAILBOX_INTR_TIMEOUT eMEM_READ RESERVED_ID 6 (Some (addr_len_param addr len ++ [0; 0]))
    (addr_len_param addr len) (repeat 0 32) rid rres rdata st st' (add_log EvEnter w)) as (cmd & w' & Ha & _ & _ & Ec & Em);
    try (done || lia); auto with mepa; [by apply idle_log|by left|].
  assert (lan80xx_memory_read_priv (CO := mcu_callout serve latency) turns (Some d) addr buf len (add_log EvEnter w) =
    if rid =? eMEM_READ + 0x80 then Some ((MEPA_RC_OK, rdata ++ drop (length rdata) buf), w')
    else if 252 <? Z.of_nat (length rdata) + 6 then None
    else Some ((if rid =? eMEM_READ + 0x81 then MEPA_RC_ERR_MB_FAIL_RESPONSE else MEPA_RC_ERR_MB_CMD_PROTO_NO_SYNC, buf), w')) as E.
  { unfold lan80xx_memory_read_priv, non_null. change MB_MAX_PAYLOAD_LEN with 1018.
    destruct (Z.gtb_spec len 1018); [lia|]. eapply lift_bind; [exact Ec|]. eapply bind_run; [exact Em|].
    cbn [negb]. rewrite (response_eq _ _ _ _ _ _ _ _ _ Ha) by done.
    destruct (rid =? eMEM_READ + 0x80); [|by destruct (252 <? _)].
    rewrite (data_len_eq _ _ _ _ _ _ _ Ha) by done.
    eapply lift_bind; [apply (copy_payload _ _ _ _ _ _ _ 0%nat Ha); lia|]. done. }
  exists (add_log EvExit w'). destruct Ha as [Hi' Hr' Hz' Hl']. split; [by apply idle_log|]. split.
  { cbn. rewrite Hl'. cbn. by rewrite <- !app_assoc. }
  unfold lan80xx_memory_read. destruct (rid =? eMEM_READ + 0x80); [|destruct (252 <? _)];
    (by apply locked_eq) || by apply locked_none.
Qed.

(** The request of a memory read. *)
Lemma mem_read_packet addr len :
  lan80xx_CreatePacket eMEM_READ 6 (repeat 0 32) (Some (addr_len_param addr len ++ [0; 0])) RESERVED_ID =
  Some (12, packet eMEM_READ RESERVED_ID (addr_len_param addr len) ++ drop 12 (repeat 0 32)).
Proof.
  rewrite create_packet_eq with (payload := addr_len_param addr len); try done.
Qed.

(** C20. A memory read that the firmware does not answer within 500 polls
    returns the timeout code after 501 of them, leaves the caller's buffer
    alone, withdraws the request and releases the lock: the mailbox is ready
    for the next command. *)
Theorem memory_read_timeout turns addr len buf reply st st' w :
  idle st w -> 0 <= len <= MB_MAX_PAYLOAD_LEN -> MAILBOX_INTR_TIMEOUT < Z.of_nat latency ->
  serve (packet eMEM_READ RESERVED_ID (addr_len_param addr len)) st = (reply, st') ->
  bytes reply -> (length reply <= 1024)%nat ->
  exists w', idle st' w' /\ w_log w' = w_log w ++ [EvEnter] ++ repeat (EvSleep 1) 501 ++ [EvExit] /\
    lan80xx_memory_read (CO := mcu_callout serve latency) turns (Some d) addr buf len w =
    Some ((MEPA_RC_ERR_MB_RESP_TIMEOUT, buf), w').
Proof.
  change MB_MAX_PAYLOAD_LEN with 1018. change MAILBOX_INTR_TIMEOUT with 500. intros Hi Hlen Hlat Hs Hrb Hrl.
  destruct (mb_command_timeout serve latency T d b cb dd bd Hd Hbase Hb Hcb turns MAILBOX_INTR_TIMEOUT
    (packet eMEM_READ RESERVED_ID (addr_len_param addr len) ++ drop 12 (repeat 0 32)) 12
    (packet eMEM_READ RESERVED_ID (addr_len_param addr len)) reply st st' (add_log EvEnter w))
    as (w' & Hi' & Hl' & E); try done; auto 6 with mepa.
  - by apply idle_log.
  - apply well_sized_packet; done || auto with mepa.
  - by eexists.
  - exists (add_log EvExit w'). split; [by apply idle_log|]. split.
    { cbn [add_log w_log]. rewrite Hl'. cbn [add_log w_log]. by rewrite <- !app_assoc. }
    apply locked_eq. unfold lan80xx_memory_read_priv, non_null. change MB_MAX_PAYLOAD_LEN with 1018.
    destruct (Z.gtb_spec len 1018); [lia|]. eapply lift_bind; [apply mem_read_packet|]. by eapply bind_run; [exact E|].
Qed.

(** A memory read whose answer has a wrong checksum returns [MEPA_RC_OK]
    with the caller's buffer unchanged: the code of the failed validation is
    not passed on.  For an answer of more than 252 bytes it does not return. *)
Theorem memory_read_corrupt turns addr len buf body lo hi st st' w :
  idle st w -> 0 <= len <= MB_MAX_PAYLOAD_LEN -> Z.of_nat latency <= MAILBOX_INTR_TIMEOUT ->
  serve (packet eMEM_READ RESERVED_ID (addr_len_param addr len)) st = (body ++ [lo; hi], st') ->
  well_sized (body ++ [lo; hi]) -> crc body <> lo + 256 * hi ->
  exists w', idle st' w' /\
    lan80xx_memory_read (CO := mcu_callout serve latency) turns (Some d) addr buf len w =
    if 252 <? Z.of_nat (length body) + 2 then None else Some ((MEPA_RC_OK, buf), w').
Proof.
  change MB_MAX_PAYLOAD_LEN with 1018. change MAILBOX_INTR_TIMEOUT with 500. intros Hi Hlen Hlat Hs Hws Hcrc.
  destruct (mb_command_spec serve latency T d b cb dd bd Hd Hbase Hb Hcb turns MAILBOX_INTR_TIMEOUT
    (packet eMEM_READ RESERVED_ID (addr_len_param addr len) ++ drop 12 (repeat 0 32)) 12
    (packet eMEM_READ RESERVED_ID (addr_len_param addr len)) (body ++ [lo; hi]) st st' (add_log EvEnter w))
    as (tail & w' & Hlen' & Hi' & Hr' & Hl' & E); try done; auto 6 with mepa.
  - by apply idle_log.
  - apply well_sized_packet; done || auto with mepa.
  - by eexists.
  - exists (add_log EvExit w'). split; [by apply idle_log|].
    destruct Hws as (Hwb & Hwl & Hwu). rewrite length_app in Hwl, Hwu. cbn [length] in Hwl, Hwu.
    apply bytes_app in Hwb as [_ Hwb]. apply Forall_cons in Hwb as [Hlo Hwb]. apply Forall_cons in Hwb as [Hhi _].
    replace (Z.of_nat (length body + 2)) with (Z.of_nat (length body) + 2) in Hwu, Hwl by lia.
    pose proof (get_u16_app _ tail 2 _ ltac:(lia) Hwu) as Hwu'.
    assert (lan80xx_ValidatePacket ((body ++ [lo; hi]) ++ tail) =
      if 252 <? Z.of_nat (length body) + 2 then None else Some MEPA_RC_ERR_MB_INVALID_CRC) as Hv.
    { rewrite <- app_assoc in *. rewrite validate_app by (done || lia). rewrite (proj2 (Z.eqb_neq _ _) Hcrc).
      rewrite (packet_dump_spec _ (Z.of_nat (length body) + 2)) by (done || lia). by destruct (252 <? _). }
    rewrite Hv in E.
    destruct (252 <? Z.of_nat (length body) + 2); [apply locked_none|apply locked_eq];
      unfold lan80xx_memory_read_priv, non_null; change MB_MAX_PAYLOAD_LEN with 1018;
      (destruct (Z.gtb_spec len 1018); [lia|]); (eapply lift_bind; [apply mem_read_packet|]).
    + unfold bind. by rewrite E.
    + by eapply bind_run; [exact E|].
Qed.

(** Revoking the keys when the firmware reports that all of them are
    compromised returns that code, and the lock is entered a second time while
    it is held: the function behind the entry point asks for the status through
    the entry point [lan80xx_otp_getKey_Status].  With a lock that is not
    recursive the call blocks. *)
Theorem revoke_reenters_lock turns otpbuf updates cnt rres st st' w :
  idle st w -> is_byte rres -> Z.of_nat latency <= MAILBOX_INTR_TIMEOUT ->
  serve (packet eOTP_KEY_STATUS RESERVED_ID []) st = (packet (eOTP_KEY_STATUS + 0x80) rres [eALL_KEYS_COMPROMISED], st') ->
  exists w', idle st' w' /\
    lan80xx_otp_revoke_AllKeys (CO := mcu_callout serve latency) turns (Some d) otpbuf updates cnt w =
      Some (MEPA_RC_ERR_OTP_ALL_KEY_COMPROMISED, w') /\
    w_log w' = w_log w ++ [EvEnter; EvEnter] ++ repeat (EvSleep 1) latency ++ [EvExit; EvExit] /\
    forall h, disc h ([EvEnter; EvEnter] ++ repeat (EvSleep 1) latency ++ [EvExit; EvExit]) = None.
Proof.
  change MAILBOX_INTR_TIMEOUT with 500. intros Hi Hres Hlat Hs.
  destruct (command_eq turns MAILBOX_INTR_TIMEOUT eOTP_KEY_STATUS RESERVED_ID 0 None [] (repeat 0 32)
    (eOTP_KEY_STATUS + 0x80) rres [eALL_KEYS_COMPROMISED] st st' (add_log EvEnter (add_log EvEnter w)))
    as (cmd & w' & Ha & _ & _ & Ec & Em); try (done || lia); auto with mepa.
  - by do 2 apply idle_log.
  - by constructor.
  - by left.
  - apply Forall_singleton. auto with mepa.
  - exists (add_log EvExit (add_log EvExit w')). pose proof (ans_idle _ _ _ _ _ _ Ha) as Hi'.
    split_and!; [by do 2 apply idle_log| | |by intros []].
    + apply locked_eq. unfold lan80xx_otp_revoke_AllKeys_priv, non_null, key_status.
      eapply bind_run with (a := (MEPA_RC_OK, Some eALL_KEYS_COMPROMISED)); [|done].
      apply locked_eq. unfold lan80xx_otp_getKey_Status_priv. eapply lift_bind; [exact Ec|]. eapply bind_run; [exact Em|].
      cbn [negb]. rewrite (response_eq _ _ _ _ _ _ _ _ _ Ha) by (cbn; lia). rewrite Z.eqb_refl.
      rewrite (data_len_eq _ _ _ _ _ _ _ Ha) by (cbn; lia). change (negb (_ =? 1)) with false. cbv iota.
      eapply lift_bind; [|done]. destruct (ans_resp _ _ _ _ _ _ Ha) as [tail ->]. done.
    + cbn [add_log w_log]. rewrite (ans_log _ _ _ _ _ _ Ha). cbn [add_log w_log]. by rewrite <- !app_assoc.
Qed.

(** *** One-time programmable memory *)
Context (answer : list Z -> St -> Z * Z * list Z * St).
(** The firmware answers every request with a packet, within 500 polls; what
    the packets say is left open. *)
Context (Hpackets : forall req st, let '(id, res, data, st') := answer req st in
  serve req st = (packet id res data, st') /\
  is_byte id /\ is_byte res /\ bytes data /\ Z.of_nat (length data) <= 1018).
Context (Hlat : Z.of_nat latency <= MAILBOX_INTR_TIMEOUT).

Lemma chunk_eq len cur : 0 <= cur < len -> len <= MAX_OTP_SIZE ->
  otp_chunk len cur = Z.min 1014 (len - cur) /\ 0 < Z.min 1014 (len - cur) <= 1014.
Proof.
  unfold otp_chunk. change (MB_MAX_PAYLOAD_LEN - 4) with 1014. change MAX_OTP_SIZE with 16384. intros H1 H2.
  split; [|lia]. destruct (Z.gtb_spec (len - cur) 1014); [lia|]. rewrite u16_small; lia.
Qed.
Lemma otp_ok off len : otp_refused off len = (len =? 0) || (MAX_OTP_SIZE <? len) || (MAX_OTP_SIZE <? off + len).
Proof. unfold otp_refused. by rewrite !Z.gtb_ltb. Qed.
Lemma otp_param_le16 addr n : 0 <= addr < 65536 -> 0 <= n < 65536 ->
  otp_param addr n = [addr mod 256; addr / 256; n mod 256; n / 256].
Proof.
  intros. unfold otp_param. change 0xff with (Z.ones 8). rewrite !Z.land_ones, !shr8 by lia. change (2 ^ 8) with 256.
  rewrite !(Z.mod_small (_ / 256)); [done|..]; Z.div_mod_to_equations; lia.
Qed.

(** A piece of a read. *)
Lemma otp_read_step turns addr len cur data st w rid rres rdata st' :
  let n := Z.min 1014 (len - cur) in
  0 <= addr -> 0 <= cur < len -> addr + (len - cur) <= MAX_OTP_SIZE -> len <= Z.of_nat (length data) -> len <= MAX_OTP_SIZE ->
  idle st w -> answer (packet 0x0a 0xff [addr mod 256; addr / 256; n mod 256; n / 256]) st = (rid, rres, rdata, st') ->
  exists w', idle st' w' /\ w_log w' = w_log w ++ repeat (EvSleep 1) latency /\
    forall turns', otp_read_loop (CO := mcu_callout serve latency) (S turns') turns (Some d) data len cur addr MEPA_RC_OK w =
    if negb (rid =? 0x8a) then
      if 252 <? Z.of_nat (length rdata) + 6 then None
      else Some ((if rid =? 0x8b then MEPA_RC_ERR_MB_FAIL_RESPONSE else MEPA_RC_ERR_MB_CMD_PROTO_NO_SYNC, data), w')
    else if negb (Z.of_nat (length rdata) =? n) then Some ((MEPA_RC_ERR_MB_INVALID_PKT_LEN, data), w')
    else otp_read_loop (CO := mcu_callout serve latency) turns' turns (Some d) (splice data (Z.to_nat cur) rdata) len
      (cur + n) (addr + n) MEPA_RC_OK w'.
Proof.
  intros c Haddr Hcur Hmax Hdata Hlen Hi Ha. change MAX_OTP_SIZE with 16384 in *.
  destruct (chunk_eq len cur) as (Hch & Hch0); [lia|change MAX_OTP_SIZE with 16384; lia|]. fold c in Hch, Hch0.
  rewrite <- otp_param_le16 in Ha by lia.
  pose proof (Hpackets (packet 0x0a 0xff (otp_param addr c)) st) as Hs. rewrite Ha in Hs.
  destruct Hs as (Hs & Hrid & Hres & Hrd & Hrl).
  destruct (command_eq turns MAILBOX_INTR_TIMEOUT eOTP_READ RESERVED_ID 4 (Some (otp_param addr c))
    (otp_param addr c) (repeat 0 32) rid rres rdata st st' w) as (cmd & w' & Hans & _ & _ & Ec & Em);
    try (done || lia); auto with mepa; [by left|].
  exists w'. split; [apply (ans_idle _ _ _ _ _ _ Hans)|]. split; [apply (ans_log _ _ _ _ _ _ Hans)|].
  intros turns'. cbn [otp_read_loop]. rewrite (proj2 (Z.ltb_lt cur len)) by lia. cbv zeta. rewrite Hch.
  eapply lift_bind; [exact Ec|]. eapply bind_run; [exact Em|]. cbn [negb].
  rewrite (response_eq _ _ _ _ _ _ _ _ _ Hans) by lia. change (eOTP_READ + 0x80) with 0x8a. change (eOTP_READ + 0x81) with 0x8b.
  destruct (rid =? 0x8a); cbn [negb]; [|by destruct (252 <? _)].
  rewrite (data_len_eq _ _ _ _ _ _ _ Hans) by lia.
  destruct (Z.eqb_spec (Z.of_nat (length rdata)) c) as [He|]; cbn [negb]; [|by rewrite orb_true_r].
  rewrite (proj2 (Z.eqb_neq (Z.of_nat (length rdata)) 0)) by lia. cbn [orb]. rewrite He.
  eapply lift_bind.
  { rewrite <- He. replace cur with (Z.of_nat (Z.to_nat cur)) at 1 by lia. apply (copy_payload _ _ _ _ _ _ _ _ Hans). lia. }
  by rewrite !u16_small by lia.
Qed.

Lemma drop_repeat {A} (x : A) n : forall m, drop n (repeat x m) = repeat x (m - n).
Proof. induction n as [|n IH]; intros [|m]; try done. exact (IH m). Qed.
Lemma otp_read_loop_spec turns data off len : 0 <= off -> off + len <= MAX_OTP_SIZE -> len <= Z.of_nat (length data) ->
  forall n got st w, idle st w -> Z.of_nat (length got) <= len -> len - Z.of_nat (length got) <= Z.of_nat n ->
  let cur := Z.of_nat (length got) in
  match fetch answer (off + cur) (map (fun l => Z.of_nat (length l)) (cut_up n (repeat 0 (Z.to_nat (len - cur))))) st with
  | (Some rc, l, st', sent) => exists w', idle st' w' /\
      w_log w' = w_log w ++ repeat (EvSleep 1) (sent * latency) /\
      otp_read_loop (CO := mcu_callout serve latency) n turns (Some d) (splice data 0 got) len cur (off + cur) MEPA_RC_OK w =
        Some ((rc, splice data 0 (got ++ l)), w')
  | (None, _, _, _) =>
      otp_read_loop (CO := mcu_callout serve latency) n turns (Some d) (splice data 0 got) len cur (off + cur) MEPA_RC_OK w = None
  end.
Proof.
  intros Hoff Hmax Hdata. induction n as [|n IH]; intros got st w Hi Hg Hn cur.
  { assert (cur = len) as -> by lia. rewrite Z.sub_diag. cbn [Z.to_nat repeat cut_up map fetch otp_read_loop]. rewrite Z.ltb_irrefl.
    exists w. split; [done|]. by rewrite !app_nil_r. }
  destruct (Z.to_nat (len - cur)) as [|m] eqn:Hm.
  { assert (cur = len) as -> by lia. cbn [repeat cut_up map fetch otp_read_loop]. rewrite Z.ltb_irrefl.
    exists w. split; [done|]. by rewrite !app_nil_r. }
  change (cut_up (S n) (repeat 0 (S m))) with (take 1014 (repeat 0 (S m)) :: cut_up n (drop 1014 (repeat 0 (S m)))).
  rewrite <- Hm. cbn [map fetch].
  assert (Z.of_nat (length (take 1014 (repeat 0 (Z.to_nat (len - cur))))) = Z.min 1014 (len - cur)) as ->
    by (rewrite length_take, repeat_length; lia).
  destruct (answer _ st) as [[[rid rres] rdata] st'] eqn:Ha.
  assert (length (splice data 0 got) = length data) as Hs by (apply length_splice; lia).
  destruct (otp_read_step turns (off + cur) len cur (splice data 0 got) st w rid rres rdata st')
    as (w' & Hi' & Hl' & E); try done; try lia.
  rewrite E. clear E. destruct (negb (rid =? 0x8a)).
  { destruct (252 <? _); [done|]. exists w'. by rewrite Hl', Nat.mul_1_l, app_nil_r. }
  destruct (Z.eqb_spec (Z.of_nat (length rdata)) (Z.min 1014 (len - cur))) as [He|]; cbn [negb].
  2: { exists w'. by rewrite Hl', Nat.mul_1_l, app_nil_r. }
  specialize (IH (got ++ rdata) st' w' Hi'). rewrite length_app in IH. specialize (IH ltac:(lia) ltac:(lia)). cbv zeta in IH.
  rewrite <- He. unfold cur. rewrite Nat2Z.id, <- Z.add_assoc, <- Nat2Z.inj_add, splice_splice by lia.
  rewrite drop_repeat. replace (Z.to_nat (len - Z.of_nat (length got)) - 1014)%nat
    with (Z.to_nat (len - Z.of_nat (length got + length rdata)))%nat by lia.
  destruct (fetch _ _ _ st') as [[[[rc|] l] st2] sent]; [|exact IH].
  destruct IH as (w2 & Hi2 & Hl2 & E2). exists w2. split; [done|]. rewrite E2, Hl2, Hl', <- !app_assoc. split; [|done].
  cbn [Nat.mul]. by rewrite repeat_app.
Qed.

(** A read of the one-time programmable memory, against any firmware that
    answers each request with a packet: the request is cut as in a write, and
    each answer with the identifier of the command and as many bytes as were
    asked for goes to its place in the caller's buffer; the first other answer
    ends the call, with what came before it in the buffer. *)
Theorem otp_read_spec turns data off len st w :
  idle st w -> 0 <= off -> 0 < len -> off + len <= MAX_OTP_SIZE -> len <= Z.of_nat (length data) ->
  exists pieces, fold_right Z.add 0 pieces = len /\
    (forall i n, pieces !! i = Some n -> n = 1014 \/ S i = length pieces /\ 0 < n < 1014) /\
    match fetch answer off pieces st with
    | (Some rc, l, st', sent) => exists w', idle st' w' /\
        w_log w' = w_log w ++ [EvEnter] ++ repeat (EvSleep 1) (sent * latency) ++ [EvExit] /\
        lan80xx_otp_read (CO := mcu_callout serve latency) turns (Some d) (Some data) off len w =
          Some ((rc, Some (l ++ drop (length l) data)), w')
    | (None, _, _, _) =>
        lan80xx_otp_read (CO := mcu_callout serve latency) turns (Some d) (Some data) off len w = None
    end.
Proof.
  intros Hi Hoff Hlen Hmax Hdata. set (z := repeat 0 (Z.to_nat len)).
  assert (length z = Z.to_nat len) as Hz by apply repeat_length.
  exists (map (fun l => Z.of_nat (length l)) (cut_up (Z.to_nat len) z)). split_and!.
  - pose proof (cut_up_concat (Z.to_nat len) z ltac:(lia)) as Hc.
    assert (len = Z.of_nat (length (concat (cut_up (Z.to_nat len) z)))) as E by (rewrite Hc; lia). rewrite E at 2.
    clear. induction (cut_up (Z.to_nat len) z) as [|l ls IH]; [done|].
    change (concat (l :: ls)) with (l ++ concat ls). rewrite length_app. cbn [map fold_right]. lia.
  - intros i n Hn. apply list_lookup_fmap_Some in Hn as (l & -> & Hl). rewrite length_map.
    destruct (cut_up_sizes _ _ _ _ Hl ltac:(lia)) as [->|[? ?]]; [by left|right; lia].
  - pose proof (otp_ok off len) as Hok. change MAX_OTP_SIZE with 16384 in *.
    rewrite (proj2 (Z.eqb_neq len 0)), !(proj2 (Z.ltb_ge _ _)) in Hok by lia.
    pose proof (otp_read_loop_spec turns data off len Hoff Hmax Hdata (Z.to_nat len) [] st (add_log EvEnter w)
      ltac:(by apply idle_log) ltac:(cbn; lia) ltac:(cbn; lia)) as H.
    cbv zeta in H. cbn [length app] in H. change (Z.of_nat 0) with 0 in H. rewrite Z.sub_0_r, Z.add_0_r, splice_nil in H. fold z in H.
    destruct (fetch _ _ _ st) as [[[[rc|] l] st'] sent].
    + destruct H as (w' & Hi' & Hl' & E). exists (add_log EvExit w'). split; [by apply idle_log|]. split.
      { cbn [add_log w_log]. rewrite Hl'. cbn [add_log w_log app]. by rewrite <- !app_assoc. }
      apply locked_eq. unfold lan80xx_otp_read_priv. rewrite Hok. eapply bind_run; [exact E|]. by rewrite splice_0.
    + apply locked_none. unfold lan80xx_otp_read_priv. rewrite Hok. cbn [orb]. unfold bind. by rewrite H.
Qed.

(** A piece of a write: the command and what becomes of its answer. *)
Lemma otp_write_step turns pre chunk post rest off mode st w param cmd rid rres rdata st' :
  let D := pre ++ chunk ++ post in
  let len := Z.of_nat (length D) in let cur := Z.of_nat (length pre) in let n := Z.of_nat (length chunk) in
  is_byte mode -> bytes chunk -> 0 <= off -> off + len <= MAX_OTP_SIZE -> n = Z.min 1014 (len - cur) ->
  cur < len -> idle st w -> length param = 1018%nat -> bytes param -> length cmd = 1024%nat -> bytes cmd ->
  answer (packet 0x09 mode ([(off + cur) mod 256; (off + cur) / 256; n mod 256; n / 256] ++ chunk)) st = (rid, rres, rdata, st') ->
  exists param' cmd' w', idle st' w' /\ w_log w' = w_log w ++ repeat (EvSleep 1) latency /\
    length param' = 1018%nat /\ bytes param' /\ length cmd' = 1024%nat /\ bytes cmd' /\
    forall turns', otp_write_loop (CO := mcu_callout serve latency) (S turns') turns (Some d) (D ++ rest) param cmd len cur
      (off + cur) cur mode MEPA_RC_OK w =
    if negb (rid =? 0x89) then
      if 252 <? Z.of_nat (length rdata) + 6 then None
      else Some (if rid =? 0x8a then MEPA_RC_ERR_MB_FAIL_RESPONSE else MEPA_RC_ERR_MB_CMD_PROTO_NO_SYNC, w')
    else if negb (length rdata =? 1)%nat then Some (MEPA_RC_ERR_MB_INVALID_PKT_LEN, w')
    else otp_write_loop (CO := mcu_callout serve latency) turns' turns (Some d) (D ++ rest) param' cmd' len
      (cur + n) (off + (cur + n)) (cur + n) mode MEPA_RC_OK w'.
Proof.
  intros D len cur c Hmode Hchb Hoff Hmax Hchl Hlt Hi Hpl Hpb Hcl Hcb' Ha. 
  destruct (chunk_eq len cur) as (Hch & Hch0); [lia|lia|]. change MAX_OTP_SIZE with 16384 in *.
  rewrite <- Hchl in Hch, Hch0. rewrite <- otp_param_le16 in Ha by lia.
  pose proof (Hpackets (packet 0x09 mode (otp_param (off + cur) c ++ chunk)) st) as Hs. rewrite Ha in Hs.
  destruct Hs as (Hs & Hrid & Hres & Hrd & Hrl).
  pose proof (otp_param_bytes (off + cur) c) as Hp. assert (length (otp_param (off + cur) c) = 4%nat) as Hp4 by done.
  remember (otp_param (off + cur) c) as p eqn:Ep0.
  assert (write_bytes param 0 p = Some (p ++ drop 4 param)) as Ep
    by (rewrite <- Hp4; apply (write_bytes_app [] param p); [done|lia]).
  assert (memcpy (p ++ drop 4 param) 4 (D ++ rest) cur c = Some (p ++ chunk ++ drop (length chunk) (drop 4 param))) as Em.
  { eapply bind_some; [|apply (write_bytes_app p (drop 4 param) chunk); [lia|rewrite length_drop; lia]].
    unfold D. rewrite <- !app_assoc. by apply read_bytes_app. }
  destruct (command_eq turns (if mode =? eOTPWRITE_AUTH then MAILBOX_INTR_SIGN_TIMEOUT else MAILBOX_INTR_TIMEOUT)
    eOTP_WRITE mode (4 + c) (Some (p ++ chunk ++ drop (length chunk) (drop 4 param))) (p ++ chunk) cmd
    rid rres rdata st st' w)
    as (cmd' & w' & Hans & Hcmdb & Hcmdl & Ec & Ex); rewrite ?length_app, ?length_drop; try (done || lia); auto with mepa.
  { split; [lia|]. rewrite app_assoc, take_app_length'; [done|]. rewrite length_app. lia. }
  { change MAILBOX_INTR_TIMEOUT with 500 in *. change MAILBOX_INTR_SIGN_TIMEOUT with 2000. destruct (mode =? _); lia. }
  exists (p ++ chunk ++ drop (length chunk) (drop 4 param)), cmd', w'.
  split_and!; try done; try lia; auto with mepa.
  - apply (ans_idle _ _ _ _ _ _ Hans).
  - apply (ans_log _ _ _ _ _ _ Hans).
  - rewrite !length_app, !length_drop. lia.
  - intros turns'. cbn [otp_write_loop]. rewrite (proj2 (Z.ltb_lt cur len)) by done. cbv zeta. rewrite Hch.
    rewrite <- Ep0. eapply lift_bind; [exact Ep|]. eapply lift_bind; [exact Em|].
    rewrite (u16_small (4 + c)) by lia. eapply lift_bind; [exact Ec|]. eapply bind_run; [exact Ex|]. cbn [negb].
    rewrite (response_eq _ _ _ _ _ _ _ _ _ Hans) by lia. change (eOTP_WRITE + 0x80) with 0x89. change (eOTP_WRITE + 0x81) with 0x8a.
    destruct (rid =? 0x89); cbn [negb]; [|by destruct (252 <? _)].
    rewrite (data_len_eq _ _ _ _ _ _ _ Hans) by lia.
    replace (Z.of_nat (length rdata) =? 1) with (length rdata =? 1)%nat by (destruct (Nat.eqb_spec (length rdata) 1), (Z.eqb_spec (Z.of_nat (length rdata)) 1); done || lia).
    destruct (length rdata =? 1)%nat; cbn [negb]; [|done].
    rewrite !u16_small by lia. by rewrite Z.add_assoc.
Qed.

(** How a call ends. *)
Definition ends (r : option Z * St * nat) (pre post : list event) (w : world) (x : option (Z * world)) : Prop :=
  match r with
  | (Some rc, st, sent) => exists w', idle st w' /\
      w_log w' = w_log w ++ pre ++ repeat (EvSleep 1) (sent * latency) ++ post /\ x = Some (rc, w')
  | (None, _, _) => x = None
  end.

Lemma otp_write_loop_spec turns rest off mode : is_byte mode -> 0 <= off ->
  forall n pre todo st w param cmd, bytes todo -> off + Z.of_nat (length (pre ++ todo)) <= MAX_OTP_SIZE ->
  idle st w -> (length todo <= n)%nat -> length param = 1018%nat -> bytes param -> length cmd = 1024%nat -> bytes cmd ->
  ends (deliver answer mode (off + Z.of_nat (length pre)) (cut_up n todo) st) [] [] w
    (otp_write_loop (CO := mcu_callout serve latency) n turns (Some d) ((pre ++ todo) ++ rest) param cmd
      (Z.of_nat (length (pre ++ todo))) (Z.of_nat (length pre)) (off + Z.of_nat (length pre)) (Z.of_nat (length pre))
      mode MEPA_RC_OK w).
Proof.
  intros Hmode Hoff. induction n as [|n IH]; intros pre todo st w param cmd Htb Hmax Hi Hn Hpl Hpb Hcl Hcb';
    (destruct todo as [|x todo];
      [exists w; rewrite (app_nil_r pre); cbn [otp_write_loop]; rewrite Z.ltb_irrefl; split;
         [done|split; [by rewrite app_nil_r|done]]|]); [cbn in Hn; lia|].
  change (cut_up (S n) (x :: todo)) with (take 1014 (x :: todo) :: cut_up n (drop 1014 (x :: todo))).
  assert (length (x :: todo) <> 0%nat) as Hl0 by (cbn [length]; lia).
  set (l := x :: todo) in *. pose proof (take_drop 1014 l) as Hl. rewrite length_app in Hmax.
  cbn [deliver].
  destruct (answer _ st) as [[[rid rres] rdata] st'] eqn:Ha.
  destruct (otp_write_step turns pre (take 1014 l) (drop 1014 l) rest off mode st w param cmd rid rres rdata st')
    as (param' & cmd' & w' & Hi' & Hl' & Hpl' & Hpb' & Hcl' & Hcb'' & E); try done;
    try (rewrite ?Hl, ?length_app, ?length_take; lia).
  - by apply bytes_take.
  - rewrite Hl in E. rewrite E. clear E. destruct (negb (rid =? 0x89)).
    { destruct (252 <? _); [done|]. exists w'. by rewrite Hl', Nat.mul_1_l, app_nil_r. }
    destruct (negb _). { exists w'. by rewrite Hl', Nat.mul_1_l, app_nil_r. }
    assert ((pre ++ take 1014 l) ++ drop 1014 l = pre ++ l) as Hpre by (by rewrite <- app_assoc, Hl).
    pose proof (IH (pre ++ take 1014 l) (drop 1014 l) st' w' param' cmd' ltac:(by apply bytes_drop)) as IH'.
    rewrite Hpre, (length_app pre (take _ _)), Nat2Z.inj_add, !Z.add_assoc, length_drop, (length_app pre l) in IH'.
    specialize (IH' ltac:(lia) Hi' ltac:(lia) Hpl' Hpb' Hcl' Hcb''). rewrite length_app, !Z.add_assoc.
    destruct (deliver _ _ _ _ st') as [[[rc|] st2] sent]; [|exact IH'].
    destruct IH' as (w2 & Hi2 & Hl2 & E2). exists w2. split; [done|]. split; [|exact E2].
    rewrite Hl2, Hl'. cbn [app Nat.mul]. by rewrite repeat_app, !app_nil_r, app_assoc.
Qed.

(** C10. A write to the one-time programmable memory, in any mode, for a device
    whose base device has the callback that reads the interrupt line, with the
    mailbox idle, against any firmware that answers each request with a packet
    of at most 1018 bytes of data, after a number of polls, at most 500, that is
    the same for all; what the answers say is left open.  An empty range and one that goes beyond the 16384 bytes
    of the memory are refused without a packet.  Any other is cut into pieces
    of 1014 bytes, the rest in the last one, and a write request goes out for
    each, in order, with the mode, the piece's own address and length, and its
    bytes ([deliver]); the next one only after an answer with the identifier of
    the command and one byte of data.  The first other answer ends the call: the
    right identifier with data of another length, the failure identifier and
    any other identifier each with its code, an answer of the last two kinds
    that is longer than 252 bytes without an end, in the dump of the packet.
    When all are answered so the code is [MEPA_RC_OK].  A call that ends took
    and left the lock, slept for the polls of the packets it sent and nothing
    else, and leaves the mailbox ready for the next command. *)
Theorem otp_write_spec turns D rest off mode st w :
  idle st w -> is_byte mode -> bytes D -> 0 <= off ->
  let len := Z.of_nat (length D) in
  let call := lan80xx_otp_write (CO := mcu_callout serve latency) turns (Some d) (Some (D ++ rest)) off len mode w in
  if (len =? 0) || (16384 <? off + len) then
    call = Some (MEPA_RC_ERR_PARM, World (w_bus w) (w_data w) (w_log w ++ [EvEnter; EvExit]))
  else exists pieces,
    concat pieces = D /\
    (forall i l, pieces !! i = Some l -> length l = 1014%nat \/ S i = length pieces /\ (0 < length l < 1014)%nat) /\
    match deliver answer mode off pieces st with
    | (Some rc, st', sent) => exists w', idle st' w' /\
        w_log w' = w_log w ++ [EvEnter] ++ repeat (EvSleep 1) (sent * latency) ++ [EvExit] /\
        call = Some (rc, w')
    | (None, _, _) => call = None
    end.
Proof.
  intros Hi Hmode HD Hoff len call. pose proof (otp_ok off len) as Hok. change MAX_OTP_SIZE with 16384 in Hok.
  destruct ((len =? 0) || (16384 <? off + len)) eqn:Hr.
  { unfold call, lan80xx_otp_write. assert (otp_refused off len = true) as Hok' by (rewrite Hok; by destruct (len =? 0), (16384 <? len), (16384 <? off + len)).
    erewrite locked_eq; [|unfold lan80xx_otp_write_priv; by rewrite Hok']. unfold add_log. cbn. by rewrite <- app_assoc. }
  apply orb_false_elim in Hr as [Hr1 Hr2]. rewrite Hr1, Hr2 in Hok. apply Z.eqb_neq in Hr1. apply Z.ltb_ge in Hr2.
  rewrite (proj2 (Z.ltb_ge _ _)) in Hok by lia.
  exists (cut_up (length D) D). split; [by apply cut_up_concat|]. split; [intros i l Hil; by eapply cut_up_sizes|].
  pose proof (otp_write_loop_spec turns rest off mode Hmode Hoff (length D) [] D st (add_log EvEnter w)
    (repeat 0 1018) (repeat 0 1024) HD Hr2 ltac:(by apply idle_log) ltac:(lia) ltac:(by rewrite repeat_length)
    ltac:(auto with mepa) ltac:(by rewrite repeat_length) ltac:(auto with mepa)) as H.
  cbn [app length] in H. change (Z.of_nat 0) with 0 in H. rewrite Z.add_0_r in H. fold len in H.
  destruct (deliver _ _ _ _ st) as [[[rc|] st'] sent]; unfold ends in H.
  - destruct H as (w' & Hi' & Hl' & E). exists (add_log EvExit w'). split; [by apply idle_log|]. split.
    { cbn [add_log w_log]. rewrite Hl'. cbn [add_log w_log app]. by rewrite app_nil_r, <- !app_assoc. }
    apply locked_eq. unfold lan80xx_otp_write_priv. rewrite Hok. unfold len at 1. by rewrite Nat2Z.id.
  - unfold call. apply locked_none. unfold lan80xx_otp_write_priv. rewrite Hok. unfold len at 1. by rewrite Nat2Z.id.
Qed.
End Commands.

(** ** Concrete firmware *)
Module Demo.
(** One device, its own base device, with a callback; the mailbox is empty. *)
Definition dd : phy25g_phy_state_t := 
  Mk_phy25g_phy_state_t 3 0 (Some 0) (Some 7) 0 false 0 0 0 phy25g_macsec_internal_conf_t_0.
Definition table : gmap Z phy25g_phy_state_t := {[0 := dd]}.
Definition start {St} (st : St) : world (env80 (mcu St)) phy25g_phy_state_t :=
  World (Env80 (Mcu st (repeat 0 1024) (repeat 0 1024) None) (repeat 0 1024)) table [].
Lemma start_idle {St} (st : St) : idle table st (start st).
Proof. split; try done. split; [done|apply bytes_zeros]. Qed.

(** Firmware that always gives the same answer. *)
Definition always (reply : list Z) : list Z -> unit -> list Z * unit := fun _ st => (reply, st).

(** Firmware that keeps the requests it got and acknowledges all of them. *)
Definition ack (req : list Z) (st : list (list Z)) : Z * Z * list Z * list (list Z) := (0x89, 0xff, [0], st ++ [req]).
Definition acks (req : list Z) (st : list (list Z)) : list Z * list (list Z) := (packet 0x89 0xff [0], st ++ [req]).
End Demo.
Import Demo.

Lemma memory_read_spec_witness :
  let w := start (St := unit) tt in
  exists w', idle table tt w' /\
    w_log w' = [] ++ [EvEnter] ++ repeat (EvSleep 1) 3 ++ [EvExit] /\
    lan80xx_memory_read (CO := mcu_callout (always (packet 0x86 0xff [10; 20; 30])) 3) 0 (Some 0) 0x1000 [0; 0; 0; 5] 3 w =
    Some ((MEPA_RC_OK, [10; 20; 30; 5]), w').
Proof.
  apply (memory_read_spec (always (packet 0x86 0xff [10; 20; 30])) 3 table 0 0 7 dd dd eq_refl eq_refl eq_refl eq_refl
    0 0x1000 3 [0; 0; 0; 5] 0x86 0xff [10; 20; 30] tt tt (start tt) (start_idle tt)).
  all: try (vm_compute; congruence); try (vm_compute; split; congruence); try (cbn; lia); try reflexivity.
  repeat constructor; vm_compute; congruence.
Defined.

Lemma memory_read_timeout_witness :
  exists w', idle table tt w' /\ w_log w' = [] ++ [EvEnter] ++ repeat (EvSleep 1) 501 ++ [EvExit] /\
    lan80xx_memory_read (CO := mcu_callout (always []) 600) 0 (Some 0) 0x1000 [0; 0] 2 (start tt) =
    Some ((MEPA_RC_ERR_MB_RESP_TIMEOUT, [0; 0]), w').
Proof.
  apply (memory_read_timeout (always []) 600 table 0 0 7 dd dd eq_refl eq_refl eq_refl eq_refl
    0 0x1000 2 [0; 0] [] tt tt (start tt) (start_idle tt)).
  all: try (vm_compute; congruence); try (vm_compute; split; congruence); try (cbn; lia); try reflexivity.
  constructor.
Defined.

Lemma memory_read_corrupt_witness :
  exists w', idle table tt w' /\
    lan80xx_memory_read (CO := mcu_callout (always ([0x86; 0xff; 7; 0; 10] ++ [1; 2])) 0) 0 (Some 0) 0x1000 [5] 1 (start tt) =
    Some ((MEPA_RC_OK, [5]), w').
Proof.
  apply (memory_read_corrupt (always ([0x86; 0xff; 7; 0; 10] ++ [1; 2])) 0 table 0 0 7 dd dd eq_refl eq_refl eq_refl eq_refl
    0 0x1000 1 [5] [0x86; 0xff; 7; 0; 10] 1 2 tt tt (start tt) (start_idle tt)).
  all: try (vm_compute; congruence); try (vm_compute; split; congruence); try reflexivity.
  split; [repeat constructor; vm_compute; congruence|]. split; [vm_compute; split; congruence|reflexivity].
Defined.

Lemma revoke_reenters_lock_witness :
  exists w', idle table tt w' /\
    lan80xx_otp_revoke_AllKeys (CO := mcu_callout (always (packet 0x91 0xff [15])) 2) 0 (Some 0) [] [] 1 (start tt) =
      Some (MEPA_RC_ERR_OTP_ALL_KEY_COMPROMISED, w') /\
    w_log w' = [] ++ [EvEnter; EvEnter] ++ repeat (EvSleep 1) 2 ++ [EvExit; EvExit] /\
    forall h, disc h ([EvEnter; EvEnter] ++ repeat (EvSleep 1) 2 ++ [EvExit; EvExit]) = None.
Proof.
  apply (revoke_reenters_lock (always (packet 0x91 0xff [15])) 2 table 0 0 7 dd dd eq_refl eq_refl eq_refl eq_refl
    0 [] [] 1 0xff tt tt (start tt) (start_idle tt)); try (vm_compute; congruence); try reflexivity.
  vm_compute. split; congruence.
Defined.

(** Firmware with the memory 0, 1, 2, ..., 255, 0, 1, ... *)
Definition counts (req : list Z) (st : unit) : Z * Z * list Z * unit :=
  (0x8a, 0xff, map (fun i => Z.of_nat i mod 256)
     (seq (Z.to_nat (nth 4 req 0 + 256 * nth 5 req 0)) (Nat.min 1014 (Z.to_nat (nth 6 req 0 + 256 * nth 7 req 0)))), st).
Definition serves_counts (req : list Z) (st : unit) : list Z * unit :=
  let '(id, res, l, st) := counts req st in (packet id res l, st).

Lemma serves_counts_ok req st : let '(id, res, data, st') := counts req st in
  serves_counts req st = (packet id res data, st') /\
  is_byte id /\ is_byte res /\ bytes data /\ Z.of_nat (length data) <= 1018.
Proof.
  unfold serves_counts, counts. split_and!; try done; try (by apply small_byte).
  - apply Forall_forall. intros x Hx. apply list_elem_of_fmap in Hx as (y & -> & _). apply Z.mod_pos_bound. lia.
  - rewrite length_map, length_seq. lia.
Qed.

Lemma otp_read_spec_witness :
  exists pieces, fold_right Z.add 0 pieces = 3 /\
    (forall i n, pieces !! i = Some n -> n = 1014 \/ S i = length pieces /\ 0 < n < 1014) /\
    match fetch counts 300 pieces tt with
    | (Some rc, l, st', sent) => exists w', idle table st' w' /\
        w_log w' = [] ++ [EvEnter] ++ repeat (EvSleep 1) (sent * 2) ++ [EvExit] /\
        lan80xx_otp_read (CO := mcu_callout serves_counts 2) 0 (Some 0) (Some [0; 0; 0; 9]) 300 3 (start tt) =
          Some ((rc, Some (l ++ drop (length l) [0; 0; 0; 9])), w')
    | (None, _, _, _) =>
        lan80xx_otp_read (CO := mcu_callout serves_counts 2) 0 (Some 0) (Some [0; 0; 0; 9]) 300 3 (start tt) = None
    end.
Proof.
  apply (otp_read_spec serves_counts 2 table 0 0 7 dd dd eq_refl eq_refl eq_refl eq_refl counts serves_counts_ok
    ltac:(vm_compute; congruence) 0 [0; 0; 0; 9] 300 3 tt (start tt) (start_idle _)); vm_compute; congruence.
Defined.

Lemma otp_write_spec_witness :
  exists pieces w', concat pieces = repeat 7 1100 /\ map length pieces = [1014; 86]%nat /\
    idle table [packet 9 0xfe ([16; 0; 246; 3] ++ repeat 7 1014); packet 9 0xfe ([6; 4; 86; 0] ++ repeat 7 86)] w' /\
    lan80xx_otp_write (CO := mcu_callout acks 1) 0 (Some 0) (Some (repeat 7 1100 ++ [8])) 16 1100 eOTPWRITE_BUFF (start []) =
      Some (MEPA_RC_OK, w').
Proof.
  assert (bytes (repeat 7 1100)) as HD by (apply bytes_repeat; vm_compute; split; congruence).
  destruct (otp_write_spec acks 1 table 0 0 7 dd dd eq_refl eq_refl eq_refl eq_refl ack
    ltac:(intros req st; cbn; split_and!; [done|vm_compute; split; congruence..|
            repeat constructor; vm_compute; congruence|lia]) ltac:(vm_compute; congruence)
    0 (repeat 7 1100) [8] 16 eOTPWRITE_BUFF [] (start []) (start_idle _) ltac:(vm_compute; split; congruence) HD
    ltac:(vm_compute; congruence)) as (pieces & Hc & Hp & H).
  assert (pieces = [repeat 7 1014; repeat 7 86]) as ->.
  { rewrite <- (cut_up_only pieces 1100 Hp) by (rewrite Hc, repeat_length; lia). by rewrite Hc. }
  destruct H as (w' & Hi & _ & E). exists [repeat 7 1014; repeat 7 86], w'. split; [exact Hc|]. split; [reflexivity|].
  split; [exact Hi|exact E].
Defined.
