(* ===== verification/Lan80xxCsrSpec.v ===== *)
(** * Lan80xxCsrSpec: register accesses of the LAN80xx

    Over MDIO, to a PHY that keeps 16-bit cells, a masked write changes the
    masked bits of a 32-bit register and nothing else when the register's
    address is even there, which it is for every target that has a base of its
    own; and reads yield the same over SPI and over MDIO, since the translation
    gives every register of such a target cells of its own. *)

From Stdlib Require Import ZArith Lia List Bool String.
From stdpp Require Import base gmap strings list.
From S2P Require Import Prelude Machine Lan80xxRegs Lan80xxCsr.

(** ** A PHY of 16-bit cells behind MDIO *)

Definition cells : Type := Z -> Z -> Z.   (** by MMD device and address *)
Definition put_cell (mmd a v : Z) (s : cells) : cells :=
  fun m x => if (m =? mmd) && (x =? a) then v else s m x.
#[export] Instance mdio_callout : Callout80 cells :=
  {| spi_read := None; spi_write := None; spi_read_64bit := None;
     mmd_read := Some (fun _ mmd a s => ((0, Some (s mmd a)), s));
     mmd_read_inc := Some (fun _ mmd a n s => ((0, map (fun i => s mmd (u16 (a + Z.of_nat i))) (seq 0 (Z.to_nat n))), s));
     mmd_write := Some (fun _ mmd a v s => (0, put_cell mmd a v s));
     gpio := fun _ _ s => (0, s); enter80 := true; exit80 := true; uninit80 := fun _ => 0 |}.

(** The 32-bit register in two cells, and the address of a register. *)
Definition reg32 (s : cells) (mmd a : Z) : Z := u16 (s mmd a) + 65536 * u16 (s mmd (u16 (a + 1))).
Definition cell_of (phy_base addr : Z) : Z := u16 (mdio_addr phy_base (u32 (addr - phy_base))).

Section Mdio.
Implicit Types s : cells.
Notation W s rb T l := (World (Env80 (s : cells) rb) (T : gmap Z phy25g_phy_state_t) l).

Lemma read_reg32 dev port mmd addr v tgt pb s rb T l :
  0 <= mmd < 256 -> base_of mmd addr = Some (tgt, pb) ->
  lan80xx_csr_rd dev port mmd true addr v (W s rb T l) =
  Some ((MEPA_RC_OK, reg32 s mmd (cell_of pb addr)), W s rb T l).
Proof.
  intros Hm Hbase. unfold lan80xx_csr_rd, lan80xx_get_base_adr. cbn [spi_read mmd_read mmd_read_inc mdio_callout].
  rewrite Hbase. unfold bind, on_bus. cbn [w_bus e_bus w_data w_log e_resp fst snd].
  rewrite (u8_small mmd) by done.
  change (0 <? MEPA_RC_OK) with false. cbv iota. unfold ret, reg32. fold (cell_of pb addr).
  do 4 f_equal. set (c := cell_of pb addr). assert (u16 c = c) as Hc by (apply u16_small, u16_range).
  transitivity (u32 (u16 (s mmd (u16 (c + 0))) + (u16 (s mmd (u16 (c + 1))) .<< 16))); [reflexivity|].
  rewrite Z.add_0_r, Hc, Z.shiftl_mul_pow2 by lia.
  pose proof (u16_range (s mmd c)). pose proof (u16_range (s mmd (u16 (c + 1)))). rewrite u32_small; lia.
Qed.
Lemma write_reg32 dev port mmd addr v tgt pb s rb T l :
  0 <= mmd < 256 -> base_of mmd addr = Some (tgt, pb) ->
  lan80xx_csr_wr dev port mmd true addr v (W s rb T l) =
  Some (MEPA_RC_OK, W (put_cell mmd (cell_of pb addr) (u16 v)
    (put_cell mmd (cell_of pb addr .| 1) (u16 (v / 65536)) s)) rb T l).
Proof.
  intros Hm Hbase. unfold lan80xx_csr_wr, lan80xx_get_base_adr. cbn [spi_write mmd_write mdio_callout].
  rewrite Hbase. unfold try_rc, bind, on_bus. cbn [w_bus e_bus w_data w_log e_resp].
  change (0 <? MEPA_RC_OK) with false. cbv iota. cbn [w_bus e_bus w_data w_log e_resp].
  rewrite (u8_small mmd) by done. unfold ret. fold (cell_of pb addr).
  assert (u16 (mdio_addr pb (u32 (addr - pb)) .| 1) = cell_of pb addr .| 1) as ->.
  { unfold cell_of. apply Z.bits_inj'. intros i Hi. rewrite Z.lor_spec, !testbit_u16, Z.lor_spec by done.
    destruct (Z.ltb_spec i 16); [done|]. cbn [andb orb]. symmetry. apply (testbit_small 1 16); lia. }
  change 0xffff with (Z.ones 16). change LAN80XX_16_BIT_SHIFT with 16.
  rewrite Z.land_ones, Z.shiftr_div_pow2 by lia. change (v mod 2 ^ 16) with (u16 v). by rewrite u16_u16.
Qed.

(** An even cell address and its neighbour, an odd one and itself. *)
Lemma cell_even a : 0 <= a < 65536 -> Z.even a = true -> a .| 1 = a + 1 /\ u16 (a + 1) = a + 1.
Proof.
  intros Ha He. apply Z.even_spec in He as [k ->]. split.
  - replace (2 * k) with (k .<< 1) by (rewrite Z.shiftl_mul_pow2; lia). rewrite lor_disjoint by lia.
    rewrite Z.shiftl_mul_pow2; lia.
  - apply u16_small. lia.
Qed.
Lemma cell_odd a : Z.odd a = true -> a .| 1 = a.
Proof.
  intros Ho. apply Z.bits_inj'. intros i Hi. rewrite Z.lor_spec. destruct (Z.eq_dec i 0) as [->|].
  - by rewrite Z.bit0_odd, Ho.
  - destruct i; try lia. cbn. by rewrite orb_false_r.
Qed.

(** The targets with their own base have their registers at even cells. *)
Lemma cell_of_even pb addr : Z.even pb = true -> Z.even (cell_of pb addr) = true.
Proof.
  intros He. unfold cell_of, mdio_addr. rewrite <- Z.negb_odd, <- Z.bit0_odd, testbit_u16 by lia.
  rewrite Z.lor_spec, testbit_u32, Z.shiftl_spec by lia.
  rewrite (Z.testbit_neg_r (u32 (addr - pb)) (0 - 1)), Z.bit0_odd, <- Z.negb_even, He by lia. reflexivity.
Qed.
Lemma translated_even mmd addr tgt pb : base_of mmd addr = Some (tgt, pb) -> pb = addr \/ Z.even (cell_of pb addr) = true.
Proof.
  unfold base_of. intros H.
  repeat match type of H with (if ?b then _ else _) = _ => destruct b end; try discriminate;
    injection H as <- <-; (by left) || (right; by apply cell_of_even).
Qed.

(** C21. A masked write to a 32-bit register over MDIO, the register being in
    two 16-bit cells of the PHY.  At an even cell address it returns
    [MEPA_RC_OK] and the register has the bits of the value under the mask and
    its own elsewhere; no other cell changes.  At an odd one, which only an
    address that is not translated can be ([translated_even]), the lower half of
    the result is stored there and the upper half is lost.  A register of an unknown MMD
    device is refused without any access. *)
Theorem csr_wrm_mdio dev port mmd addr v mask s rb T l :
  0 <= mmd < 256 ->
  match base_of mmd addr with
  | None => lan80xx_csr_wrm dev port mmd true addr v mask (W s rb T l) = Some (MEPA_RC_ERROR, W s rb T l)
  | Some (_, pb) =>
      let a := cell_of pb addr in
      exists s', lan80xx_csr_wrm dev port mmd true addr v mask (W s rb T l) = Some (MEPA_RC_OK, W s' rb T l) /\
      (forall m x, ~ (m = mmd /\ (x = a \/ x = a + 1)) -> s' m x = s m x) /\
      if Z.even a then
        0 <= reg32 s' mmd a < 2 ^ 32 /\
        forall i, 0 <= i < 32 -> Z.testbit (reg32 s' mmd a) i =
          if Z.testbit mask i then Z.testbit v i else Z.testbit (reg32 s mmd a) i
      else
        s' mmd (a + 1) = s mmd (a + 1) /\
        forall i, 0 <= i < 16 -> Z.testbit (s' mmd a) i =
          if Z.testbit mask i then Z.testbit v i else Z.testbit (reg32 s mmd a) i
  end.
Proof.
  intros Hm. unfold lan80xx_csr_wrm. destruct (base_of mmd addr) as [[tgt pb]|] eqn:Hbase.
  2: { unfold bind, lan80xx_csr_rd, lan80xx_get_base_adr. cbn [spi_read mmd_read mmd_read_inc mdio_callout]. by rewrite Hbase. }
  cbv zeta. set (a := cell_of pb addr). assert (0 <= a < 65536) as Ha by apply u16_range.
  set (r := u32 ((reg32 s mmd a .& .~ mask) .| (v .& mask))).
  assert (forall i, 0 <= i < 32 ->
    Z.testbit r i = if Z.testbit mask i then Z.testbit v i else Z.testbit (reg32 s mmd a) i) as Hr.
  { intros i Hi. unfold r. rewrite testbit_u32, Z.lor_spec, !Z.land_spec, Z.lnot_spec by lia.
    rewrite (proj2 (Z.ltb_lt i 32)) by lia. by destruct (Z.testbit mask i), (Z.testbit v i), (Z.testbit (reg32 s mmd a) i). }
  assert (0 <= r < 2 ^ 32) as Hrr by apply u32_range.
  eexists. split.
  { unfold bind. rewrite (read_reg32 _ _ _ _ _ tgt pb) by done. cbn [fst snd]. rewrite Z.eqb_refl.
    rewrite (write_reg32 _ _ _ _ _ tgt pb) by done. reflexivity. }
  fold a. fold r. clearbody r. unfold put_cell. split.
  - intros m x Hx. destruct (Z.eqb_spec m mmd) as [->|]; [|done]. cbn [andb].
    destruct (Z.eqb_spec x a) as [->|]; [exfalso; auto|]. destruct (Z.even a) eqn:He.
    + destruct (cell_even a Ha He) as [-> _]. destruct (Z.eqb_spec x (a + 1)) as [->|]; [exfalso; auto|done].
    + rewrite cell_odd by (by rewrite <- Z.negb_even, He). by rewrite (proj2 (Z.eqb_neq x a)).
  - destruct (Z.even a) eqn:He.
    + destruct (cell_even a Ha He) as [-> Hc].
      assert (reg32 (fun m x => if (m =? mmd) && (x =? a) then u16 r else
        if (m =? mmd) && (x =? a + 1) then u16 (r / 65536) else s m x) mmd a = r) as ->.
      { unfold reg32. rewrite Hc, !Z.eqb_refl, (proj2 (Z.eqb_neq (a + 1) a)) by lia. cbn [andb]. rewrite !u16_u16.
        unfold u16. Z.div_mod_to_equations; lia. }
      done.
    + rewrite cell_odd by (by rewrite <- Z.negb_even, He). rewrite !Z.eqb_refl, (proj2 (Z.eqb_neq (a + 1) a)) by lia.
      cbn [andb]. split; [done|]. intros i Hi. rewrite testbit_u16, (proj2 (Z.ltb_lt i 16)) by lia. apply Hr. lia.
Qed.
End Mdio.

(** ** The same registers over SPI and over MDIO *)

(** The three ways to reach the chip: SPI with or without a read of 64 bits,
    MDIO. *)
Inductive transport := Spi64 | Spi32 | Mdio16.

(** A chip whose register [a] of device [mmd] holds [R mmd a]: over SPI it is
    read as it is, over MDIO in its cells. *)
Definition chip_callout (R : Z -> Z -> Z) (tr : transport) : Callout80 cells :=
  {| spi_read := match tr with Mdio16 => None | _ => Some (fun _ _ mmd a s => ((0, Some (R mmd a)), s)) end;
     spi_read_64bit := match tr with
       | Spi64 => Some (fun _ _ mmd a s => ((0, Some (R mmd a + 2 ^ 32 * R mmd (a + 1))), s)) | _ => None end;
     spi_write := None;
     mmd_read := Some (fun _ mmd a s => ((0, Some (s mmd a)), s));
     mmd_read_inc := Some (fun _ mmd a n s => ((0, map (fun i => s mmd (u16 (a + Z.of_nat i))) (seq 0 (Z.to_nat n))), s));
     mmd_write := None; gpio := fun _ _ s => (0, s); enter80 := true; exit80 := true; uninit80 := fun _ => 0 |}.

(** The halves of register [a] are in the cells at twice its distance from the
    base of its target. *)
Definition in_cells (s : cells) (R : Z -> Z -> Z) (mmd base a : Z) : Prop :=
  s mmd (base + 2 * (a - base)) = R mmd a mod 65536 /\ s mmd (base + 2 * (a - base) + 1) = R mmd a / 65536.

(** The registers of the two MACs are in the lower half of their ranges. *)
Definition mac_base (base : Z) : bool := (base =? LAN80XX_HOST_MAC_START_ADDR) || (base =? LAN80XX_LINE_MAC_START_ADDR).

Lemma mdio_addr_add k n x : 0 <= k -> 0 <= n <= 16 -> 0 <= 2 * x < 2 ^ n -> mdio_addr (k * 2 ^ n) (u32 x) = k * 2 ^ n + 2 * x.
Proof.
  intros Hk Hn Hx. assert (2 ^ n <= 2 ^ 16) as Hp by (apply Z.pow_le_mono_r; lia). change (2 ^ 16) with 65536 in Hp.
  unfold mdio_addr. rewrite (u32_small x), Z.shiftl_mul_pow2 by lia. change (2 ^ 1) with 2.
  rewrite u32_small by lia. rewrite <- Z.shiftl_mul_pow2, lor_disjoint, Z.shiftl_mul_pow2 by lia. lia.
Qed.

(** The constants of a bound. *)
Ltac eval_consts :=
  repeat match goal with
    | H : context [?c] |- _ => is_const c; lazymatch type of c with Z => idtac end;
        let v := eval vm_compute in c in progress change c with v in H
    | |- context [?c] => is_const c; lazymatch type of c with Z => idtac end;
        let v := eval vm_compute in c in progress change c with v
    end.
(** The targets that have a base. *)
Ltac base_cases H :=
  unfold base_of, within in H;
  repeat match type of H with (if ?b then _ else _) = _ => destruct b eqn:? end; try discriminate; injection H as <- <-;
  try match goal with N : ?x <> ?x |- _ => by destruct N end;
  repeat match goal with E : _ = false |- _ => clear E end;
  repeat match goal with
    | E : _ && _ = true |- _ => apply andb_true_iff in E as [?%Z.geb_le ?%Z.leb_le]
    | E : (_ <=? _) || _ = true |- _ => apply orb_true_iff in E as [?%Z.leb_le|E] end.

(** The base of a target that has one ends in enough zeroes for the offsets in
    the target, those of the MACs in half of it. *)
Lemma base_zeroes mmd addr tgt pb : base_of mmd addr = Some (tgt, pb) -> pb <> addr -> 0 <= addr ->
  (mac_base pb = true -> addr - pb < 0x80) ->
  exists k n, pb = k * 2 ^ n /\ 0 <= k /\ 0 <= n <= 16 /\ 0 <= 2 * (addr - pb) < 2 ^ n /\ pb + 2 * (addr - pb) + 1 < 65536.
Proof.
  intros H Hne Ha Hmac. base_cases H;
    try specialize (Hmac eq_refl); eval_consts;
    match goal with |- exists k n, ?pb = _ /\ _ =>
      first [ let w n := (let k := eval vm_compute in (pb / 2 ^ n) in exists k, n;
                split; [vm_compute; reflexivity|]; let p := eval vm_compute in (2 ^ n) in change (2 ^ n) with p; lia) in
              first [w constr:(8) | w constr:(9) | w constr:(11) | w constr:(12) | w constr:(16)] ] end.
Qed.

(** A translated address is where its registers are. *)
Lemma translated_cell mmd addr tgt pb : base_of mmd addr = Some (tgt, pb) -> 0 <= addr < 65536 ->
  (mac_base pb = true -> addr - pb < 0x80) ->
  cell_of pb addr = pb + 2 * (addr - pb).
Proof.
  intros H Ha Hmac. destruct (Z.eq_dec pb addr) as [->|Hne].
  - unfold cell_of, mdio_addr. rewrite Z.sub_diag. change (u32 (u32 0 .<< 1)) with 0. rewrite Z.lor_0_r, u16_small; lia.
  - destruct (base_zeroes _ _ _ _ H Hne) as (k & n & -> & Hk & Hn & Hx & Hb); [lia|done|].
    unfold cell_of. rewrite (mdio_addr_add k n) by done. apply u16_small. nia.
Qed.
Lemma two_halves x : 0 <= x < 2 ^ 32 -> u32 (u16 (x mod 65536) + (u16 (x / 65536) .<< 16)) = x.
Proof.
  intros Hx. assert (0 <= x / 65536 < 65536) by (split; [apply Z.div_pos|apply Z.div_lt_upper_bound]; lia).
  rewrite !u16_small, Z.shiftl_mul_pow2 by (lia || apply Z.mod_pos_bound; lia). change (2 ^ 16) with 65536.
  rewrite u32_small; Z.div_mod_to_equations; lia.
Qed.

Lemma base_le mmd addr tgt pb : base_of mmd addr = Some (tgt, pb) -> 0 <= addr -> pb <= addr.
Proof.
  intros H Ha. destruct (Z.eq_dec pb addr) as [->|Hne]; [lia|]. base_cases H; eval_consts; lia.
Qed.

(** C22. Register reads do not depend on the transport.  A chip of 32-bit
    registers is reached over SPI, with or without a 64-bit read, or over MDIO,
    where the registers of a target are pairs of 16-bit cells from its base on.
    At an address whose successor has that base too, reading 32 bits
    yields the register, and reading 64 bits the register in the lower half and
    its successor in the upper, with code OK and nothing changed, over all
    three: the translation puts every register of the target on its own
    cells.  For the two MACs it does so in the lower half of their address
    range, where all their registers are; see [mac_alias]. *)
Theorem csr_rd_transports R s dev port mmd addr v tgt tgt' pb rb T l (tr : transport) :
  0 <= mmd < 256 -> 0 <= addr < 65535 ->
  base_of mmd addr = Some (tgt, pb) -> base_of mmd (addr + 1) = Some (tgt', pb) ->
  (mac_base pb = true -> addr + 1 - pb < 0x80) ->
  0 <= R mmd addr < 2 ^ 32 -> 0 <= R mmd (addr + 1) < 2 ^ 32 ->
  in_cells s R mmd pb addr -> in_cells s R mmd pb (addr + 1) ->
  let w := World (Env80 s rb) (T : gmap Z phy25g_phy_state_t) l in
  lan80xx_csr_rd (CO := chip_callout R tr) dev port mmd true addr v w = Some ((MEPA_RC_OK, R mmd addr), w) /\
  lan80xx_csr_rd_64 (CO := chip_callout R tr) dev port mmd true addr v w =
    Some ((MEPA_RC_OK, R mmd addr + 2 ^ 32 * R mmd (addr + 1)), w).
Proof.
  intros Hm Ha Hb Hb' Hmac H0 H1 [L0 U0] [L1 U1] w.
  assert (cell_of pb addr = pb + 2 * (addr - pb)) as Hc by (eapply translated_cell; [done|lia|intros Hp; specialize (Hmac Hp); lia]).
  assert (pb <> addr + 1) as Hne by (intros ->; apply base_le in Hb; lia).
  destruct (base_zeroes _ _ _ _ Hb' Hne) as (k & n & Hk & H0k & Hn & Hx & Hlt); [lia|done|].
  assert (0 <= k * 2 ^ n) by nia. set (c := pb + 2 * (addr - pb)) in *.
  replace (pb + 2 * (addr + 1 - pb)) with (c + 2) in * by (unfold c; lia).
  unfold lan80xx_csr_rd, lan80xx_csr_rd_64, lan80xx_get_base_adr. cbn [negb]. rewrite Hb.
  destruct tr; cbn [spi_read spi_read_64bit mmd_read mmd_read_inc chip_callout]; unfold bind, on_bus, ret, w;
    cbn [w_bus e_bus w_data w_log e_resp fst snd option_map default]; change (0 <? MEPA_RC_OK) with false; cbv iota;
    unfold id; cbn [w_bus e_bus w_data w_log e_resp];
    change LAN80XX_32_BIT_SHIFT with 32; change LAN80XX_16_BIT_SHIFT with 16;
    rewrite (u8_small mmd), ?(u16_small addr), ?(u16_small (addr + 1)) by lia.
  - rewrite u32_small, u64_small by lia. done.
  - rewrite !u32_small, Z.shiftl_mul_pow2 by lia. rewrite u64_small by lia. by rewrite Z.add_comm, Z.mul_comm.
  - fold (cell_of pb addr). rewrite Hc.
    change (seq 0 (Z.to_nat 2)) with [0; 1]%nat. change (seq 0 (Z.to_nat 4)) with [0; 1; 2; 3]%nat. cbn [map lookup list_lookup default].
    change (Z.of_nat 0) with 0. change (Z.of_nat 1) with 1. change (Z.of_nat 2) with 2. change (Z.of_nat 3) with 3.
    rewrite Z.add_0_r, !(u16_small (c + _)), !(u16_small c) by lia. replace (c + 3) with (c + 2 + 1) by lia.
    rewrite L0, U0, L1, U1. unfold id. rewrite !two_halves by done.
    rewrite Z.shiftl_mul_pow2 by lia. rewrite u64_small by lia. by rewrite Z.add_comm, Z.mul_comm.
Qed.

(** The translation with [base_addr | (offset << 1)] folds the upper half of the
    range of a MAC onto the lower one. *)
Example mac_alias : cell_of LAN80XX_HOST_MAC_START_ADDR 0xF180 = cell_of LAN80XX_HOST_MAC_START_ADDR 0xF100.
Proof. reflexivity. Qed.

(** A chip with cells made of its registers. *)
Definition wide_regs (mmd a : Z) : Z := 0x10000 * (a mod 7) + mmd.
Definition wide_cells (base : Z) : cells := fun mmd x =>
  let v := wide_regs mmd (base + (x - base) / 2) in if (x - base) mod 2 =? 0 then v mod 65536 else v / 65536.
Lemma csr_rd_transports_witness :
  let w := World (Env80 (wide_cells 0xD000) []) (∅ : gmap Z phy25g_phy_state_t) [] in
  lan80xx_csr_rd (CO := chip_callout wide_regs Mdio16) 0 0 0x1E true 0xD004 5 w = Some ((MEPA_RC_OK, wide_regs 0x1E 0xD004), w) /\
  lan80xx_csr_rd_64 (CO := chip_callout wide_regs Mdio16) 0 0 0x1E true 0xD004 5 w =
    Some ((MEPA_RC_OK, wide_regs 0x1E 0xD004 + 2 ^ 32 * wide_regs 0x1E 0xD005), w).
Proof.
  refine (csr_rd_transports wide_regs (wide_cells 0xD000) 0 0 0x1E 0xD004 5 _ _ 0xD000 [] ∅ [] Mdio16
    _ _ eq_refl eq_refl _ _ _ _ _); [lia|lia|discriminate|vm_compute; split; congruence|vm_compute; split; congruence| |];
    split; reflexivity.
Defined.
Lemma csr_wrm_mdio_witness :
  exists s', lan80xx_csr_wrm 0 0 0x1E true 0xDA01 0xFF01 0x0F0F (World (Env80 (fun _ _ => 0) []) ∅ []) =
      Some (MEPA_RC_OK, World (Env80 s' []) ∅ []) /\
    (forall m x, ~ (m = 0x1E /\ (x = 0xDC02 \/ x = 0xDC02 + 1)) -> s' m x = 0) /\
    0 <= reg32 s' 0x1E 0xDC02 < 2 ^ 32 /\
    forall i, 0 <= i < 32 -> Z.testbit (reg32 s' 0x1E 0xDC02) i =
      if Z.testbit 0x0F0F i then Z.testbit 0xFF01 i else Z.testbit (reg32 (fun _ _ => 0) 0x1E 0xDC02) i.
Proof. exact (csr_wrm_mdio 0 0 0x1E 0xDA01 0xFF01 0x0F0F (fun _ _ => 0) [] ∅ [] ltac:(lia)). Defined.
