(* ===== verification/Lan80xxMacsecRegs.v ===== *)
(** * Lan80xxMacsecRegs: registers and constants of the LAN80xx's MACsec block

    The registers and fields of [regs_lan80xx_macsec_egr.h] and
    [regs_lan80xx_macsec_ingr.h] that the SecY, SC and SA management uses, and
    the constants of [lan80xx_macsec_private.c] and [.h], [lan80xx_macsec.h],
    [phy_macsec.h] and [common.h], under their own names.  A name that starts
    with [CORE], [F_CORE] or [M_CORE] is the register or field that
    [LAN80XX_EGR_INGR_REG_EXPAN] selects.

    The macro of a register of an array does not put its argument [ri] in
    parentheses: it expands to [(base | (ri*stride))].  The functions give the
    registers of the second page ([PAGE1]) a difference as argument, so the
    stride multiplies its second operand only; the definitions of those
    registers have the two operands as arguments. *)

From Stdlib Require Import ZArith.
From S2P Require Import Prelude Lan80xxCsr.

Definition LAN80XX_8_BIT_SHIFT : Z := 8.
Definition LAN80XX_4_BIT_SHIFT : Z := 4.
Definition LAN80XX_12_BIT_SHIFT : Z := 12.
Definition LAN80XX_BYTE_MASK : Z := 0xFF.
Definition LAN80XX_WORD_MASK : Z := 0xF.
Definition MMD_ID_MACSEC_INGR : Z := 0x8.
Definition MMD_ID_MACSEC_EGR : Z := 0x1F.
Definition LAN80XX_MACSEC_ACTION_MAX : Z := 3.
Definition LAN80XX_MACSEC_MAX_SA : Z := 128.
Definition LAN80XX_MACSEC_REPLAY_WINDOW_SIZE : Z := 0x40000000.
Definition LAN80XX_MACSEC_STANDARD_SECTAG_OFFSET : Z := 12.
Definition LAN80XX_MAC_ADDRESS_LEN_BYTES : Z := 12.
Definition LAN80XX_ETHER_TYPE_LEN_BYTES : Z := 2.
Definition LAN80XX_MACSEC_PBB_AUTH_START : Z := 22.
Definition LAN80XX_MACSEC_PBB_HEADER_BYTES : Z := 34.
Definition LAN80XX_MPLS_LABEL_LEN_BYTE : Z := 4.
Definition LAN80XX_MPLS_PW_CTRL_WORD_LEN : Z := 4.
Definition LAN80XX_VLAN_TAG_LEN_BYTE : Z := 4.
Definition LAN80XX_MACSEC_NUM_MPLS_LABEL_0 : Z := 6.
Definition LAN80XX_MACSEC_EGR_MPLS_SUPPORT : Z := 9.
Definition LAN80XX_MACSEC_INGR_MPLS_SUPPORT : Z := 5.
Definition LAN80XX_MACSEC_MAX_SECY : Z := LAN80XX_MACSEC_MAX_SA / 2.
Definition LAN80XX_MACSEC_MAX_RX_SC : Z := LAN80XX_MACSEC_MAX_SECY.
Definition MACSEC_NOT_IN_USE : Z := 0xFFFF.
Definition MACSEC_ENABLE : Z := 1.
Definition MACSEC_DISABLE : Z := 0.
Definition INGRESS : Z := 0.
Definition EGRESS : Z := 1.
Definition LAN80XX_MACSEC_TCAM_ETHTYPE_MASK : Z := 0xFFFF.
Definition LAN80XX_MACSEC_TCAM_VLANTAG_MASK : Z := 0xFF0F.
Definition LAN80XX_MACSEC_TCAM_DESADDR_1_MASK : Z := 0xFFFFFFFF.
Definition LAN80XX_MACSEC_TCAM_DESADDR_2_MASK : Z := 0xFFFF.
Definition LAN80XX_IS_REG_32 : Z := 1.
Definition LAN80XX_BROADCAST_PORT_ID : Z := 0xFFFF.
Definition LAN80XX_MPLS_LABEL_SELECT_2_BIT : Z := 2.
Definition LAN80XX_MPLS_LABEL_SELECT_3_BIT : Z := 3.
Definition LAN80XX_MACSEC_3_MPLS_LABEL : Z := 3.
Definition LAN80XX_MACSEC_5_MPLS_LABEL : Z := 5.
Definition LAN80XX_MACSEC_6_MPLS_LABEL : Z := 6.
Definition LAN80XX_MACSEC_EGR_MAX_MPLS_LABEL : Z := 9.
Definition LAN80XX_MACSEC_XFORM_REC_NUM_PAGE0 : Z := 64.
Definition LAN80XX_MACSEC_SC_REC_PAGE0_NUM : Z := 32.
Definition LAN80XX_MACSEC_SAM_ENTRY_SET1_NUM : Z := 32.
Definition LAN80XX_MACSEC_SAM_ENTRY_SET2_NUM : Z := 64.
Definition LAN80XX_MACSEC_SAM_ENTRY_SET3_NUM : Z := 96.
Definition LAN80XX_MACSEC_SAM_ENTRY_SET4_NUM : Z := 128.
Definition LAN80XX_XFORM_EGR_CTRL_WORD_32_BIT_128_AES : Z := 0x120AA006.
Definition LAN80XX_XFORM_EGR_CTRL_WORD_64_BIT_128_AES : Z := 0x220AA006.
Definition LAN80XX_XFORM_EGR_CTRL_WORD_32_BIT_256_AES : Z := 0x120EA006.
Definition LAN80XX_XFORM_EGR_CTRL_WORD_64_BIT_256_AES : Z := 0x220EA006.
Definition LAN80XX_XFORM_INGR_CTRL_WORD_32_BIT_128_AES : Z := 0x520AA00F.
Definition LAN80XX_XFORM_INGR_CTRL_WORD_64_BIT_128_AES : Z := 0x620AA00F.
Definition LAN80XX_XFORM_INGR_CTRL_WORD_32_BIT_256_AES : Z := 0x520EA00F.
Definition LAN80XX_XFORM_INGR_CTRL_WORD_64_BIT_256_AES : Z := 0x620EA00F.
Definition LAN80XX_MACSEC_XFORM_REC_SIZE : Z := 24.
Definition LAN80XX_MACSEC_XFORM_PAGE0_ADDR : Z := 0x0000.
Definition LAN80XX_MACSEC_XFORM_PAGE1_ADDR : Z := 0x4000.
Definition LAN80XX_MACSEC_XFORM_REC_ADDR_OFFSET : Z := 32.
Definition LAN80XX_MACSEC_XFORM_CTRL_WORD : Z := 0.
Definition LAN80XX_MACSEC_XFORM_REC1_RESERVED : Z := 1.
Definition LAN80XX_MACSEC_XFORM_KEY_3 : Z := 5.
Definition LAN80XX_MACSEC_XFORM_KEY_7 : Z := 9.
Definition LAN80XX_MACSEC_XFORM_HASH_KEY_0 : Z := 10.
Definition LAN80XX_MACSEC_XFORM_HASH_KEY_3 : Z := 13.
Definition LAN80XX_MACSEC_XFORM_SEQ_NUM_0 : Z := 14.
Definition LAN80XX_MACSEC_XFORM_SEQ_NUM_1 : Z := 15.
Definition LAN80XX_MACSEC_EGR_XFORM_SA_UPD_CTRL : Z := 16.
Definition LAN80XX_MACSEC_XFORM_CTX_SALT0 : Z := 17.
Definition LAN80XX_MACSEC_XFORM_CTX_SALT1 : Z := 18.
Definition LAN80XX_MACSEC_XFORM_CTX_SALT2 : Z := 19.
Definition LAN80XX_MACSEC_XFORM_EGR_SCI0_INGR_SA_UPD_CTRL : Z := 20.
Definition LAN80XX_MACSEC_XFORM_EGR_SCI1 : Z := 21.
Definition LAN80XX_MACSEC_INGR_REC20_AN_BIT_POS : Z := 29.
Definition LAN80XX_MACSEC_CTRL_WRD_AN_BIT : Z := 26.
Definition MEPA_MACSEC_SA_PER_SC_MAX : Z := 4.
Definition MEPA_MACSEC_SA_PER_SC_MIN : Z := 2.
Definition MEPA_MACSEC_MATCH_DISABLE : Z := 0x0001.
Definition MEPA_MACSEC_MATCH_DMAC : Z := 0x0002.
Definition MEPA_MACSEC_MATCH_ETYPE : Z := 0x0004.
Definition MEPA_MACSEC_MATCH_VLAN_ID : Z := 0x0008.
Definition MEPA_MACSEC_MATCH_VLAN_ID_INNER : Z := 0x0010.
Definition MEPA_MACSEC_MATCH_HAS_VLAN : Z := 0x0080.
Definition MEPA_MACSEC_MATCH_HAS_VLAN_INNER : Z := 0x0100.
Definition MEPA_MACSEC_MATCH_SMAC : Z := 0x0200.
Definition MEPA_MACSEC_MATCH_PRIORITY_LOWEST : Z := 15.
Definition LAN80XX_MACSEC_MATCH_DISABLE : Z := 0x0000.
Definition LAN80XX_MACSEC_MATCH_BVLAN_TAG : Z := 0x0001.
Definition LAN80XX_MACSEC_MATCH_IVLAN_TAG : Z := 0x0002.
Definition LAN80XX_MACSEC_MATCH_CVLAN : Z := 0x0004.
Definition LAN80XX_MACSEC_MATCH_MPLS_1 : Z := 0x0008.
Definition LAN80XX_MACSEC_MATCH_MPLS_2 : Z := 0x0010.
Definition MEPA_MACSEC_SA_PER_SC : Z := MEPA_MACSEC_SA_PER_SC_MAX.
Definition MEPA_MACSEC_VALIDATE_FRAMES_DISABLED : Z := 0.
Definition MEPA_MACSEC_VALIDATE_FRAMES_CHECK : Z := 1.
Definition MEPA_MACSEC_VALIDATE_FRAMES_STRICT : Z := 2.
Definition MEPA_MACSEC_CIPHER_SUITE_GCM_AES_128 : Z := 0.
Definition MEPA_MACSEC_CIPHER_SUITE_GCM_AES_256 : Z := 1.
Definition MEPA_MACSEC_CIPHER_SUITE_GCM_AES_XPN_128 : Z := 2.
Definition MEPA_MACSEC_CIPHER_SUITE_GCM_AES_XPN_256 : Z := 3.
Definition MEPA_MACSEC_MATCH_ACTION_DROP : Z := 0.
Definition MEPA_MACSEC_MATCH_ACTION_CONTROLLED_PORT : Z := 1.
Definition MEPA_MACSEC_MATCH_ACTION_UNCONTROLLED_PORT : Z := 2.
Definition MEPA_MACSEC_DIRECTION_INGRESS : Z := 0.
Definition MEPA_MACSEC_DIRECTION_EGRESS : Z := 1.
Definition MEPA_MACSEC_BYPASS_TAG : Z := 1.
Definition MEPA_MACSEC_BYPASS_HDR : Z := 2.
Definition MEPA_MACSEC_BYPASS_TAG_ZERO : Z := 0.
Definition LAN80XX_PACKET_TYPE_MPLS : Z := 1.
Definition LAN80XX_PACKET_TYPE_PBB : Z := 2.
Definition LAN80XX_PBB_MPLS_VLAN_TAG_NONE : Z := 0.
Definition LAN80XX_PBB_SECTAG_AFT_CMAC : Z := 0.
Definition LAN80XX_PBB_SECTAG_AFT_1TAG : Z := 1.
Definition LAN80XX_PBB_SECTAG_AFT_2TAG : Z := 2.
Definition MEPA_RC_ERR_MACSEC_INVALID_SCI_MACADDR : Z := -60.
Definition MEPA_RC_ERR_MACSEC_NOT_ENABLED : Z := -61.
Definition MEPA_RC_ERR_MACSEC_SECY_ALREADY_IN_USE : Z := -63.
Definition MEPA_RC_ERR_MACSEC_NO_SECY_FOUND : Z := -64.
Definition MEPA_RC_ERR_MACSEC_NO_SECY_VACANCY : Z := -65.
Definition MEPA_RC_ERR_MACSEC_INVALID_VALIDATE_FRM : Z := -66.
Definition MEPA_RC_ERR_MACSEC_COULD_NOT_PRG_SA_MATCH : Z := -67.
Definition MEPA_RC_ERR_MACSEC_COULD_NOT_PRG_SA_FLOW : Z := -68.
Definition MEPA_RC_ERR_MACSEC_COULD_NOT_ENA_SA : Z := -69.
Definition MEPA_RC_ERR_MACSEC_COULD_NOT_SET_SA : Z := -70.
Definition MEPA_RC_ERR_MACSEC_INVALID_BYPASS_HDR_LEN : Z := -71.
Definition MEPA_RC_ERR_MACSEC_SC_NOT_FOUND : Z := -72.
Definition MEPA_RC_ERR_MACSEC_NO_CTRL_FRM_MATCH : Z := -73.
Definition MEPA_RC_ERR_MACSEC_COULD_NOT_SET_PATTERN : Z := -74.
Definition MEPA_RC_ERR_MACSEC_TIMEOUT_ISSUE : Z := -75.
Definition MEPA_RC_ERR_MACSEC_COULD_NOT_EMPTY_EGRESS : Z := -76.
Definition MEPA_RC_ERR_MACSEC_AN_NOT_CREATED : Z := -77.
Definition MEPA_RC_ERR_MACSEC_COULD_NOT_EMPTY_INGRESS : Z := -78.
Definition MEPA_RC_ERR_MACSEC_TX_SC_NOT_EXIST : Z := -80.
Definition MEPA_RC_ERR_MACSEC_COULD_NOT_DISABLE_SA : Z := -81.
Definition MEPA_RC_ERR_MACSEC_COULD_NOT_DEL_RX_SA : Z := -82.
Definition MEPA_RC_ERR_MACSEC_COULD_NOT_DEL_TX_SA : Z := -83.
Definition MEPA_RC_ERR_MACSEC_PATTERN_NOT_SET : Z := -84.
Definition MEPA_RC_ERR_MACSEC_HW_RESOURCE_EXHUSTED : Z := -85.
Definition MEPA_RC_ERR_MACSEC_SCI_ALREADY_EXISTS : Z := -86.
Definition MEPA_RC_ERR_MACSEC_SC_RESOURCE_NOT_FOUND : Z := -87.
Definition MEPA_RC_ERR_MACSEC_RX_AN_ALREADY_IN_USE : Z := -88.
Definition MEPA_RC_ERR_MACSEC_EMPTY_RECORD : Z := -89.
Definition MEPA_RC_ERR_MACSEC_COULD_NOT_PRG_XFORM : Z := -90.
Definition MEPA_RC_ERR_MACSEC_COULD_NOT_TOGGLE_SA : Z := -91.
Definition MEPA_RC_ERR_MACSEC_TX_AN_ALREADY_IN_USE : Z := -92.
Definition MEPA_RC_ERR_MACSEC_ALL_AVAILABLE_SA_IN_USE : Z := -93.
Definition MEPA_RC_ERR_MACSEC_MATCH_DISABLE : Z := -94.
Definition MEPA_RC_ERR_MACSEC_ALL_CP_RULES_IN_USE : Z := -95.
Definition MEPA_RC_ERR_MACSEC_PATTERN_PRIO_NOT_VALID : Z := -96.
Definition MEPA_RC_ERR_MACSEC_BUFFER_TOO_SMALL : Z := -97.
Definition MEPA_RC_ERR_MACSEC_FRAME_TOO_LONG : Z := -98.
Definition MEPA_RC_ERR_MACSEC_FRAME_TRUNCATED : Z := -99.
Definition MEPA_RC_ERR_MACSEC_PHY_POWERED_DOWN : Z := -100.
Definition MEPA_RC_ERR_MACSEC_PHY_NOT_MACSEC_CAPABLE : Z := -101.
Definition MEPA_RC_ERR_MACSEC_AN_NOT_EXIST : Z := -102.
Definition MEPA_RC_ERR_MACSEC_NO_PATTERN_CFG : Z := -103.
Definition MEPA_RC_ERR_MACSEC_MAX_MTU : Z := -105.
Definition MEPA_RC_ERR_MACSEC_UNEXPECT_CP_MODE : Z := -106.
Definition MEPA_RC_ERR_MACSEC_COULD_NOT_DISABLE_AN : Z := -107.
Definition MEPA_RC_ERR_MACSEC_RULE_OUT_OF_RANGE : Z := -108.
Definition MEPA_RC_ERR_MACSEC_RULE_NOT_EXIST : Z := -109.
Definition MEPA_RC_ERR_MACSEC_CSR_READ : Z := -110.
Definition MEPA_RC_ERR_MACSEC_CSR_WRITE : Z := -111.
Definition LAN80XX_REV_A0 : Z := 0xA0.
Definition LAN80XX_REV_A1 : Z := 0xA1.

(** [lan80xx_regs_util.h]: bit fields of unsigned words *)
Definition LAN80XX_BIT (x : Z) : Z := u32 (1 .<< x).
Definition LAN80XX_BITMASK (x : Z) : Z := u32 ((1 .<< x) - 1).
Definition LAN80XX_ENCODE_BITFIELD (x o w : Z) : Z := u32 ((x .& LAN80XX_BITMASK w) .<< o).
Definition LAN80XX_ENCODE_BITMASK (o w : Z) : Z := u32 (LAN80XX_BITMASK w .<< o).
(** The address of a register of an array: with the argument [ri], and with
    the argument [a - b]. *)
Definition RI_ADDR (base stride ri : Z) : Z := base .| u32 (ri * stride).
Definition PAGE1_ADDR (base stride a b : Z) : Z := base .| u32 (a - b * stride).

Definition LAN80XX_MACSEC_EGR_CORE_TRANSFORM_RECORDS_PAGE0_XFORM_REC_X_W14 (ri : Z) : ioreg_blk := LAN80XX_IOREG MMD_ID_MACSEC_EGR 1 (RI_ADDR 0x000E 32 ri).
Definition LAN80XX_MACSEC_EGR_CORE_TRANSFORM_RECORDS_PAGE1_XFORM_REC_X_W14 (a b : Z) : ioreg_blk := LAN80XX_IOREG MMD_ID_MACSEC_EGR 1 (PAGE1_ADDR 0x400E 32 a b).
Definition LAN80XX_MACSEC_EGR_CORE_PBB_ENB_SELECT : ioreg_blk := LAN80XX_IOREG MMD_ID_MACSEC_EGR 1 0x1E45.
Definition LAN80XX_M_MACSEC_EGR_CORE_PBB_ENB_SELECT_PARSE_PBB : Z := LAN80XX_BIT 24.
Definition LAN80XX_MACSEC_EGR_CORE_MPLS_ENB_SELECT : ioreg_blk := LAN80XX_IOREG MMD_ID_MACSEC_EGR 1 0x1E4b.
Definition LAN80XX_M_MACSEC_EGR_CORE_MPLS_ENB_SELECT_PARSE_ELI : Z := LAN80XX_BIT 15.
Definition LAN80XX_M_MACSEC_EGR_CORE_MPLS_ENB_SELECT_PARSE_MPLS1 : Z := LAN80XX_BIT 24.
Definition LAN80XX_M_MACSEC_EGR_CORE_MPLS_ENB_SELECT_PARSE_MPLS2 : Z := LAN80XX_BIT 25.
Definition LAN80XX_M_MACSEC_EGR_CORE_MPLS_ENB_SELECT_PARSE_MPLS3 : Z := LAN80XX_BIT 26.
Definition LAN80XX_M_MACSEC_EGR_CORE_MPLS_ENB_SELECT_PARSE_MPLS4 : Z := LAN80XX_BIT 27.
Definition LAN80XX_MACSEC_EGR_CORE_MPLS_ENB_SELECT2 : ioreg_blk := LAN80XX_IOREG MMD_ID_MACSEC_EGR 1 0x1E54.
Definition LAN80XX_MACSEC_EGR_CORE_SAM_ENB_CTRL_ENTRY_SET_1 : ioreg_blk := LAN80XX_IOREG MMD_ID_MACSEC_EGR 1 0x1820.
Definition LAN80XX_MACSEC_EGR_CORE_SAM_ENB_CTRL_ENTRY_SET_2 : ioreg_blk := LAN80XX_IOREG MMD_ID_MACSEC_EGR 1 0x1821.
Definition LAN80XX_MACSEC_EGR_CORE_SAM_ENB_CTRL_ENTRY_SET_3 : ioreg_blk := LAN80XX_IOREG MMD_ID_MACSEC_EGR 1 0x1822.
Definition LAN80XX_MACSEC_EGR_CORE_SAM_ENB_CTRL_ENTRY_SET_4 : ioreg_blk := LAN80XX_IOREG MMD_ID_MACSEC_EGR 1 0x1823.
Definition LAN80XX_MACSEC_EGR_CORE_SAM_ENB_CTRL_ENTRY_CLEAR_1 : ioreg_blk := LAN80XX_IOREG MMD_ID_MACSEC_EGR 1 0x1830.
Definition LAN80XX_MACSEC_EGR_CORE_SAM_ENB_CTRL_ENTRY_CLEAR_2 : ioreg_blk := LAN80XX_IOREG MMD_ID_MACSEC_EGR 1 0x1831.
Definition LAN80XX_MACSEC_EGR_CORE_SAM_ENB_CTRL_ENTRY_CLEAR_3 : ioreg_blk := LAN80XX_IOREG MMD_ID_MACSEC_EGR 1 0x1832.
Definition LAN80XX_MACSEC_EGR_CORE_SAM_ENB_CTRL_ENTRY_CLEAR_4 : ioreg_blk := LAN80XX_IOREG MMD_ID_MACSEC_EGR 1 0x1833.
Definition LAN80XX_MACSEC_EGR_CORE_SAM_ENB_CTRL_SAM_ENTRY_ENABLE_CTRL : ioreg_blk := LAN80XX_IOREG MMD_ID_MACSEC_EGR 1 0x1840.
Definition LAN80XX_F_MACSEC_EGR_CORE_SAM_ENB_CTRL_SAM_ENTRY_ENABLE_CTRL_SAM_INDEX_SET_0 (x : Z) : Z := LAN80XX_ENCODE_BITFIELD x 0 7.
Definition LAN80XX_M_MACSEC_EGR_CORE_SAM_ENB_CTRL_SAM_ENTRY_ENABLE_CTRL_SET_ENABLE_0 : Z := LAN80XX_BIT 14.
Definition LAN80XX_F_MACSEC_EGR_CORE_SAM_ENB_CTRL_SAM_ENTRY_ENABLE_CTRL_SAM_INDEX_CLEAR_0 (x : Z) : Z := LAN80XX_ENCODE_BITFIELD x 16 7.
Definition LAN80XX_M_MACSEC_EGR_CORE_SAM_ENB_CTRL_SAM_ENTRY_ENABLE_CTRL_CLEAR_ENABLE_0 : Z := LAN80XX_BIT 30.
Definition LAN80XX_MACSEC_EGR_CORE_SAM_ENB_CTRL_SAM_IN_FLIGHT : ioreg_blk := LAN80XX_IOREG MMD_ID_MACSEC_EGR 1 0x1841.
Definition LAN80XX_F_MACSEC_EGR_CORE_SAM_ENB_CTRL_SAM_IN_FLIGHT_UNSAFE (x : Z) : Z := LAN80XX_ENCODE_BITFIELD x 0 6.
Definition LAN80XX_MACSEC_EGR_CORE_EIP_FLOW_CTRL_PAGE0_FLOW_CTRL_1 (ri : Z) : ioreg_blk := LAN80XX_IOREG MMD_ID_MACSEC_EGR 1 (RI_ADDR 0x1c00 2 ri).
Definition LAN80XX_F_MACSEC_EGR_CORE_EIP_FLOW_CTRL_PAGE0_FLOW_CTRL_1_FLOW_TYPE (x : Z) : Z := LAN80XX_ENCODE_BITFIELD x 0 2.
Definition LAN80XX_F_MACSEC_EGR_CORE_EIP_FLOW_CTRL_PAGE0_FLOW_CTRL_1_DEST_PORT (x : Z) : Z := LAN80XX_ENCODE_BITFIELD x 2 2.
Definition LAN80XX_F_MACSEC_EGR_CORE_EIP_FLOW_CTRL_PAGE0_FLOW_CTRL_1_DROP_ACTION (x : Z) : Z := LAN80XX_ENCODE_BITFIELD x 6 2.
Definition LAN80XX_M_MACSEC_EGR_CORE_EIP_FLOW_CTRL_PAGE0_FLOW_CTRL_1_PROTECT_FRAME : Z := LAN80XX_BIT 16.
Definition LAN80XX_M_MACSEC_EGR_CORE_EIP_FLOW_CTRL_PAGE0_FLOW_CTRL_1_CONF_PROTECT : Z := LAN80XX_BIT 17.
Definition LAN80XX_M_MACSEC_EGR_CORE_EIP_FLOW_CTRL_PAGE0_FLOW_CTRL_1_INCLUDE_SCI : Z := LAN80XX_BIT 18.
Definition LAN80XX_M_MACSEC_EGR_CORE_EIP_FLOW_CTRL_PAGE0_FLOW_CTRL_1_USE_ES : Z := LAN80XX_BIT 19.
Definition LAN80XX_M_MACSEC_EGR_CORE_EIP_FLOW_CTRL_PAGE0_FLOW_CTRL_1_USE_SCB : Z := LAN80XX_BIT 20.
Definition LAN80XX_M_MACSEC_EGR_CORE_EIP_FLOW_CTRL_PAGE0_FLOW_CTRL_1_ALLOW_DATA_PACKETS : Z := LAN80XX_BIT 21.
Definition LAN80XX_M_MACSEC_EGR_CORE_EIP_FLOW_CTRL_PAGE0_FLOW_CTRL_1_EOMPLS_CTRL_WORD : Z := LAN80XX_BIT 22.
Definition LAN80XX_M_MACSEC_EGR_CORE_EIP_FLOW_CTRL_PAGE0_FLOW_CTRL_1_EOMPLS_SUBPORT : Z := LAN80XX_BIT 23.
Definition LAN80XX_M_MACSEC_EGR_CORE_EIP_FLOW_CTRL_PAGE0_FLOW_CTRL_1_PREEMPT_EOP_GROWTH : Z := LAN80XX_BIT 31.
Definition LAN80XX_MACSEC_EGR_CORE_EIP_FLOW_CTRL_PAGE0_FLOW_CTRL_2 (ri : Z) : ioreg_blk := LAN80XX_IOREG MMD_ID_MACSEC_EGR 1 (RI_ADDR 0x1c01 2 ri).
Definition LAN80XX_F_MACSEC_EGR_CORE_EIP_FLOW_CTRL_PAGE0_FLOW_CTRL_2_PRE_SECTAG_AUTH_START (x : Z) : Z := LAN80XX_ENCODE_BITFIELD x 0 6.
Definition LAN80XX_F_MACSEC_EGR_CORE_EIP_FLOW_CTRL_PAGE0_FLOW_CTRL_2_PRE_SECTAG_AUTH_LEN (x : Z) : Z := LAN80XX_ENCODE_BITFIELD x 8 6.
Definition LAN80XX_F_MACSEC_EGR_CORE_EIP_FLOW_CTRL_PAGE0_FLOW_CTRL_2_SECTAG_OFFSET (x : Z) : Z := LAN80XX_ENCODE_BITFIELD x 16 7.
Definition LAN80XX_F_MACSEC_EGR_CORE_EIP_FLOW_CTRL_PAGE0_FLOW_CTRL_2_CONFIDENTIALITY_OFFSET (x : Z) : Z := LAN80XX_ENCODE_BITFIELD x 24 8.
Definition LAN80XX_MACSEC_EGR_CORE_EIP_FLOW_CTRL_PAGE1_FLOW_CTRL_1 (a b : Z) : ioreg_blk := LAN80XX_IOREG MMD_ID_MACSEC_EGR 1 (PAGE1_ADDR 0x5c00 2 a b).
Definition LAN80XX_F_MACSEC_EGR_CORE_EIP_FLOW_CTRL_PAGE1_FLOW_CTRL_1_FLOW_TYPE (x : Z) : Z := LAN80XX_ENCODE_BITFIELD x 0 2.
Definition LAN80XX_F_MACSEC_EGR_CORE_EIP_FLOW_CTRL_PAGE1_FLOW_CTRL_1_DEST_PORT (x : Z) : Z := LAN80XX_ENCODE_BITFIELD x 2 2.
Definition LAN80XX_F_MACSEC_EGR_CORE_EIP_FLOW_CTRL_PAGE1_FLOW_CTRL_1_DROP_ACTION (x : Z) : Z := LAN80XX_ENCODE_BITFIELD x 6 2.
Definition LAN80XX_M_MACSEC_EGR_CORE_EIP_FLOW_CTRL_PAGE1_FLOW_CTRL_1_PROTECT_FRAME : Z := LAN80XX_BIT 16.
Definition LAN80XX_M_MACSEC_EGR_CORE_EIP_FLOW_CTRL_PAGE1_FLOW_CTRL_1_CONF_PROTECT : Z := LAN80XX_BIT 17.
Definition LAN80XX_M_MACSEC_EGR_CORE_EIP_FLOW_CTRL_PAGE1_FLOW_CTRL_1_INCLUDE_SCI : Z := LAN80XX_BIT 18.
Definition LAN80XX_M_MACSEC_EGR_CORE_EIP_FLOW_CTRL_PAGE1_FLOW_CTRL_1_USE_ES : Z := LAN80XX_BIT 19.
Definition LAN80XX_M_MACSEC_EGR_CORE_EIP_FLOW_CTRL_PAGE1_FLOW_CTRL_1_USE_SCB : Z := LAN80XX_BIT 20.
Definition LAN80XX_M_MACSEC_EGR_CORE_EIP_FLOW_CTRL_PAGE1_FLOW_CTRL_1_ALLOW_DATA_PACKETS : Z := LAN80XX_BIT 21.
Definition LAN80XX_M_MACSEC_EGR_CORE_EIP_FLOW_CTRL_PAGE1_FLOW_CTRL_1_EOMPLS_CTRL_WORD : Z := LAN80XX_BIT 22.
Definition LAN80XX_M_MACSEC_EGR_CORE_EIP_FLOW_CTRL_PAGE1_FLOW_CTRL_1_EOMPLS_SUBPORT : Z := LAN80XX_BIT 23.
Definition LAN80XX_M_MACSEC_EGR_CORE_EIP_FLOW_CTRL_PAGE1_FLOW_CTRL_1_PREEMPT_EOP_GROWTH : Z := LAN80XX_BIT 31.
Definition LAN80XX_MACSEC_EGR_CORE_EIP_FLOW_CTRL_PAGE1_FLOW_CTRL_2 (a b : Z) : ioreg_blk := LAN80XX_IOREG MMD_ID_MACSEC_EGR 1 (PAGE1_ADDR 0x5c01 2 a b).
Definition LAN80XX_F_MACSEC_EGR_CORE_EIP_FLOW_CTRL_PAGE1_FLOW_CTRL_2_PRE_SECTAG_AUTH_START (x : Z) : Z := LAN80XX_ENCODE_BITFIELD x 0 6.
Definition LAN80XX_F_MACSEC_EGR_CORE_EIP_FLOW_CTRL_PAGE1_FLOW_CTRL_2_PRE_SECTAG_AUTH_LEN (x : Z) : Z := LAN80XX_ENCODE_BITFIELD x 8 6.
Definition LAN80XX_F_MACSEC_EGR_CORE_EIP_FLOW_CTRL_PAGE1_FLOW_CTRL_2_SECTAG_OFFSET (x : Z) : Z := LAN80XX_ENCODE_BITFIELD x 16 7.
Definition LAN80XX_F_MACSEC_EGR_CORE_EIP_FLOW_CTRL_PAGE1_FLOW_CTRL_2_CONFIDENTIALITY_OFFSET (x : Z) : Z := LAN80XX_ENCODE_BITFIELD x 24 8.
Definition LAN80XX_MACSEC_EGR_CORE_EIP_TCAM_KEY_MASK_PAGE0_TCAM_KEY0 (ri : Z) : ioreg_blk := LAN80XX_IOREG MMD_ID_MACSEC_EGR 1 (RI_ADDR 0x800 16 ri).
Definition LAN80XX_F_MACSEC_EGR_CORE_EIP_TCAM_KEY_MASK_PAGE0_TCAM_KEY0_NUM_TAGS (x : Z) : Z := LAN80XX_ENCODE_BITFIELD x 0 6.
Definition LAN80XX_F_MACSEC_EGR_CORE_EIP_TCAM_KEY_MASK_PAGE0_TCAM_KEY0_PACKET_TYPE (x : Z) : Z := LAN80XX_ENCODE_BITFIELD x 8 2.
Definition LAN80XX_M_MACSEC_EGR_CORE_EIP_TCAM_KEY_MASK_PAGE0_TCAM_KEY0_MACSEC_TAGGED : Z := LAN80XX_BIT 13.
Definition LAN80XX_F_MACSEC_EGR_CORE_EIP_TCAM_KEY_MASK_PAGE0_TCAM_KEY0_NUM_TAGS_EXT (x : Z) : Z := LAN80XX_ENCODE_BITFIELD x 24 4.
Definition LAN80XX_MACSEC_EGR_CORE_EIP_TCAM_KEY_MASK_PAGE0_TCAM_KEY1 (ri : Z) : ioreg_blk := LAN80XX_IOREG MMD_ID_MACSEC_EGR 1 (RI_ADDR 0x801 16 ri).
Definition LAN80XX_MACSEC_EGR_CORE_EIP_TCAM_KEY_MASK_PAGE0_TCAM_KEY2 (ri : Z) : ioreg_blk := LAN80XX_IOREG MMD_ID_MACSEC_EGR 1 (RI_ADDR 0x802 16 ri).
Definition LAN80XX_MACSEC_EGR_CORE_EIP_TCAM_KEY_MASK_PAGE0_TCAM_KEY4 (ri : Z) : ioreg_blk := LAN80XX_IOREG MMD_ID_MACSEC_EGR 1 (RI_ADDR 0x804 16 ri).
Definition LAN80XX_F_MACSEC_EGR_CORE_EIP_TCAM_KEY_MASK_PAGE0_TCAM_KEY4_BVLAN_ID_11_8 (x : Z) : Z := LAN80XX_ENCODE_BITFIELD x 0 4.
Definition LAN80XX_F_MACSEC_EGR_CORE_EIP_TCAM_KEY_MASK_PAGE0_TCAM_KEY4_BVLAN_DEI (x : Z) : Z := LAN80XX_ENCODE_BITFIELD x 4 1.
Definition LAN80XX_F_MACSEC_EGR_CORE_EIP_TCAM_KEY_MASK_PAGE0_TCAM_KEY4_BVLAN_PCP (x : Z) : Z := LAN80XX_ENCODE_BITFIELD x 5 3.
Definition LAN80XX_F_MACSEC_EGR_CORE_EIP_TCAM_KEY_MASK_PAGE0_TCAM_KEY4_BVLAN_ID_7_0 (x : Z) : Z := LAN80XX_ENCODE_BITFIELD x 8 8.
Definition LAN80XX_F_MACSEC_EGR_CORE_EIP_TCAM_KEY_MASK_PAGE0_TCAM_KEY4_SID_23_16 (x : Z) : Z := LAN80XX_ENCODE_BITFIELD x 16 8.
Definition LAN80XX_F_MACSEC_EGR_CORE_EIP_TCAM_KEY_MASK_PAGE0_TCAM_KEY4_SID_15_8 (x : Z) : Z := LAN80XX_ENCODE_BITFIELD x 24 8.
Definition LAN80XX_F_MACSEC_EGR_CORE_EIP_TCAM_KEY_MASK_PAGE0_TCAM_KEY4_1_MPLS_LABEL_19_12 (x : Z) : Z := LAN80XX_ENCODE_BITFIELD x 0 8.
Definition LAN80XX_F_MACSEC_EGR_CORE_EIP_TCAM_KEY_MASK_PAGE0_TCAM_KEY4_1_MPLS_LABEL_11_4 (x : Z) : Z := LAN80XX_ENCODE_BITFIELD x 8 8.
Definition LAN80XX_F_MACSEC_EGR_CORE_EIP_TCAM_KEY_MASK_PAGE0_TCAM_KEY4_1_MPLS_LABEL_S (x : Z) : Z := LAN80XX_ENCODE_BITFIELD x 16 1.
Definition LAN80XX_F_MACSEC_EGR_CORE_EIP_TCAM_KEY_MASK_PAGE0_TCAM_KEY4_1_MPLS_LABEL_EXP (x : Z) : Z := LAN80XX_ENCODE_BITFIELD x 17 3.
Definition LAN80XX_F_MACSEC_EGR_CORE_EIP_TCAM_KEY_MASK_PAGE0_TCAM_KEY4_1_MPLS_LABEL_3_0 (x : Z) : Z := LAN80XX_ENCODE_BITFIELD x 20 4.
Definition LAN80XX_MACSEC_EGR_CORE_EIP_TCAM_KEY_MASK_PAGE0_TCAM_KEY5 (ri : Z) : ioreg_blk := LAN80XX_IOREG MMD_ID_MACSEC_EGR 1 (RI_ADDR 0x805 16 ri).
Definition LAN80XX_F_MACSEC_EGR_CORE_EIP_TCAM_KEY_MASK_PAGE0_TCAM_KEY5_SID_7_0 (x : Z) : Z := LAN80XX_ENCODE_BITFIELD x 0 8.
Definition LAN80XX_F_MACSEC_EGR_CORE_EIP_TCAM_KEY_MASK_PAGE0_TCAM_KEY5_IDEI (x : Z) : Z := LAN80XX_ENCODE_BITFIELD x 8 1.
Definition LAN80XX_F_MACSEC_EGR_CORE_EIP_TCAM_KEY_MASK_PAGE0_TCAM_KEY5_IPCP (x : Z) : Z := LAN80XX_ENCODE_BITFIELD x 9 3.
Definition LAN80XX_F_MACSEC_EGR_CORE_EIP_TCAM_KEY_MASK_PAGE0_TCAM_KEY5_OUT_VID_11_8 (x : Z) : Z := LAN80XX_ENCODE_BITFIELD x 12 4.
Definition LAN80XX_M_MACSEC_EGR_CORE_EIP_TCAM_KEY_MASK_PAGE0_TCAM_KEY5_OUT_VID_11_8 : Z := LAN80XX_ENCODE_BITMASK 12 4.
Definition LAN80XX_F_MACSEC_EGR_CORE_EIP_TCAM_KEY_MASK_PAGE0_TCAM_KEY5_OUT_VID_7_0 (x : Z) : Z := LAN80XX_ENCODE_BITFIELD x 16 8.
Definition LAN80XX_M_MACSEC_EGR_CORE_EIP_TCAM_KEY_MASK_PAGE0_TCAM_KEY5_OUT_VID_7_0 : Z := LAN80XX_ENCODE_BITMASK 16 8.
Definition LAN80XX_F_MACSEC_EGR_CORE_EIP_TCAM_KEY_MASK_PAGE0_TCAM_KEY5_2_MPLS_LABEL_19_12 (x : Z) : Z := LAN80XX_ENCODE_BITFIELD x 0 8.
Definition LAN80XX_F_MACSEC_EGR_CORE_EIP_TCAM_KEY_MASK_PAGE0_TCAM_KEY5_2_MPLS_LABEL_11_4 (x : Z) : Z := LAN80XX_ENCODE_BITFIELD x 8 8.
Definition LAN80XX_MACSEC_EGR_CORE_EIP_TCAM_KEY_MASK_PAGE0_TCAM_MASK0 (ri : Z) : ioreg_blk := LAN80XX_IOREG MMD_ID_MACSEC_EGR 1 (RI_ADDR 0x808 16 ri).
Definition LAN80XX_MACSEC_EGR_CORE_EIP_TCAM_KEY_MASK_PAGE0_TCAM_MASK1 (ri : Z) : ioreg_blk := LAN80XX_IOREG MMD_ID_MACSEC_EGR 1 (RI_ADDR 0x809 16 ri).
Definition LAN80XX_MACSEC_EGR_CORE_EIP_TCAM_KEY_MASK_PAGE0_TCAM_MASK2 (ri : Z) : ioreg_blk := LAN80XX_IOREG MMD_ID_MACSEC_EGR 1 (RI_ADDR 0x80A 16 ri).
Definition LAN80XX_MACSEC_EGR_CORE_EIP_TCAM_KEY_MASK_PAGE0_TCAM_MASK4 (ri : Z) : ioreg_blk := LAN80XX_IOREG MMD_ID_MACSEC_EGR 1 (RI_ADDR 0x80C 16 ri).
Definition LAN80XX_F_MACSEC_EGR_CORE_EIP_TCAM_KEY_MASK_PAGE0_TCAM_MASK4_ETHERTYPE_MASK (x : Z) : Z := LAN80XX_ENCODE_BITFIELD x 0 16.
Definition LAN80XX_F_MACSEC_EGR_CORE_EIP_TCAM_KEY_MASK_PAGE0_TCAM_MASK4_VLANTAG_MASK (x : Z) : Z := LAN80XX_ENCODE_BITFIELD x 16 16.
Definition LAN80XX_M_MACSEC_EGR_CORE_EIP_TCAM_KEY_MASK_PAGE0_TCAM_MASK4_BVLAN_MASK : Z := LAN80XX_ENCODE_BITMASK 0 16.
Definition LAN80XX_M_MACSEC_EGR_CORE_EIP_TCAM_KEY_MASK_PAGE0_TCAM_MASK4_SID_MASK : Z := LAN80XX_ENCODE_BITMASK 16 16.
Definition LAN80XX_M_MACSEC_EGR_CORE_EIP_TCAM_KEY_MASK_PAGE0_TCAM_MASK4_1_MPLS_MASK : Z := LAN80XX_ENCODE_BITMASK 0 24.
Definition LAN80XX_MACSEC_EGR_CORE_EIP_TCAM_KEY_MASK_PAGE0_TCAM_MASK5 (ri : Z) : ioreg_blk := LAN80XX_IOREG MMD_ID_MACSEC_EGR 1 (RI_ADDR 0x80D 16 ri).
Definition LAN80XX_F_MACSEC_EGR_CORE_EIP_TCAM_KEY_MASK_PAGE0_TCAM_MASK5_INNER_VLANTAG_MASK (x : Z) : Z := LAN80XX_ENCODE_BITFIELD x 8 16.
Definition LAN80XX_M_MACSEC_EGR_CORE_EIP_TCAM_KEY_MASK_PAGE0_TCAM_MASK5_SID_MASK : Z := LAN80XX_ENCODE_BITMASK 0 8.
Definition LAN80XX_M_MACSEC_EGR_CORE_EIP_TCAM_KEY_MASK_PAGE0_TCAM_MASK5_OUT_VID_MASK : Z := LAN80XX_ENCODE_BITMASK 12 12.
Definition LAN80XX_M_MACSEC_EGR_CORE_EIP_TCAM_KEY_MASK_PAGE0_TCAM_MASK5_2_MPLS_MASK : Z := LAN80XX_ENCODE_BITMASK 0 24.
Definition LAN80XX_MACSEC_EGR_CORE_EIP_TCAM_KEY_MASK_PAGE1_TCAM_KEY0 (a b : Z) : ioreg_blk := LAN80XX_IOREG MMD_ID_MACSEC_EGR 1 (PAGE1_ADDR 0x4800 16 a b).
Definition LAN80XX_F_MACSEC_EGR_CORE_EIP_TCAM_KEY_MASK_PAGE1_TCAM_KEY0_NUM_TAGS (x : Z) : Z := LAN80XX_ENCODE_BITFIELD x 0 6.
Definition LAN80XX_M_MACSEC_EGR_CORE_EIP_TCAM_KEY_MASK_PAGE1_TCAM_KEY0_MACSEC_TAGGED : Z := LAN80XX_BIT 13.
Definition LAN80XX_MACSEC_EGR_CORE_EIP_TCAM_KEY_MASK_PAGE1_TCAM_KEY1 (a b : Z) : ioreg_blk := LAN80XX_IOREG MMD_ID_MACSEC_EGR 1 (PAGE1_ADDR 0x4801 16 a b).
Definition LAN80XX_MACSEC_EGR_CORE_EIP_TCAM_KEY_MASK_PAGE1_TCAM_KEY2 (a b : Z) : ioreg_blk := LAN80XX_IOREG MMD_ID_MACSEC_EGR 1 (PAGE1_ADDR 0x4802 16 a b).
Definition LAN80XX_MACSEC_EGR_CORE_EIP_TCAM_KEY_MASK_PAGE1_TCAM_KEY4 (a b : Z) : ioreg_blk := LAN80XX_IOREG MMD_ID_MACSEC_EGR 1 (PAGE1_ADDR 0x4804 16 a b).
Definition LAN80XX_MACSEC_EGR_CORE_EIP_TCAM_KEY_MASK_PAGE1_TCAM_KEY5 (a b : Z) : ioreg_blk := LAN80XX_IOREG MMD_ID_MACSEC_EGR 1 (PAGE1_ADDR 0x4805 16 a b).
Definition LAN80XX_MACSEC_EGR_CORE_EIP_TCAM_KEY_MASK_PAGE1_TCAM_MASK0 (a b : Z) : ioreg_blk := LAN80XX_IOREG MMD_ID_MACSEC_EGR 1 (PAGE1_ADDR 0x4808 16 a b).
Definition LAN80XX_MACSEC_EGR_CORE_EIP_TCAM_KEY_MASK_PAGE1_TCAM_MASK1 (a b : Z) : ioreg_blk := LAN80XX_IOREG MMD_ID_MACSEC_EGR 1 (PAGE1_ADDR 0x4809 16 a b).
Definition LAN80XX_MACSEC_EGR_CORE_EIP_TCAM_KEY_MASK_PAGE1_TCAM_MASK2 (a b : Z) : ioreg_blk := LAN80XX_IOREG MMD_ID_MACSEC_EGR 1 (PAGE1_ADDR 0x480A 16 a b).
Definition LAN80XX_MACSEC_EGR_CORE_EIP_TCAM_KEY_MASK_PAGE1_TCAM_MASK4 (a b : Z) : ioreg_blk := LAN80XX_IOREG MMD_ID_MACSEC_EGR 1 (PAGE1_ADDR 0x480C 16 a b).
Definition LAN80XX_MACSEC_EGR_CORE_EIP_TCAM_KEY_MASK_PAGE1_TCAM_MASK5 (a b : Z) : ioreg_blk := LAN80XX_IOREG MMD_ID_MACSEC_EGR 1 (PAGE1_ADDR 0x480D 16 a b).
Definition LAN80XX_MACSEC_EGR_CORE_EIP_TCAM_POLICY_PAGE0_TCAM_POLICY (ri : Z) : ioreg_blk := LAN80XX_IOREG MMD_ID_MACSEC_EGR 1 (RI_ADDR 0xC00 1 ri).
Definition LAN80XX_F_MACSEC_EGR_CORE_EIP_TCAM_POLICY_PAGE0_TCAM_POLICY_VPORT_INDEX (x : Z) : Z := LAN80XX_ENCODE_BITFIELD x 0 6.
Definition LAN80XX_F_MACSEC_EGR_CORE_EIP_TCAM_POLICY_PAGE0_TCAM_POLICY_PRIO (x : Z) : Z := LAN80XX_ENCODE_BITFIELD x 27 3.
Definition LAN80XX_MACSEC_EGR_CORE_EIP_TCAM_POLICY_PAGE1_TCAM_POLICY (a b : Z) : ioreg_blk := LAN80XX_IOREG MMD_ID_MACSEC_EGR 1 (PAGE1_ADDR 0x4C00 1 a b).
Definition LAN80XX_M_MACSEC_EGR_CORE_EIP_TCAM_POLICY_PAGE1_TCAM_POLICY_DROP : Z := LAN80XX_BIT 30.
Definition LAN80XX_M_MACSEC_EGR_CORE_EIP_TCAM_POLICY_PAGE1_TCAM_POLICY_CONTROL_PKT : Z := LAN80XX_BIT 31.
Definition LAN80XX_MACSEC_EGR_CORE_SC_SA_MAP_PAGE0_SAM_SC_SA_MAP1_X (ri : Z) : ioreg_blk := LAN80XX_IOREG MMD_ID_MACSEC_EGR 1 (RI_ADDR 0xE00 2 ri).
Definition LAN80XX_F_MACSEC_EGR_CORE_SC_SA_MAP_PAGE0_SAM_SC_SA_MAP1_X_SA_INDEX0 (x : Z) : Z := LAN80XX_ENCODE_BITFIELD x 0 7.
Definition LAN80XX_M_MACSEC_EGR_CORE_SC_SA_MAP_PAGE0_SAM_SC_SA_MAP1_X_SA_IN_USE0 : Z := LAN80XX_BIT 15.
Definition LAN80XX_MACSEC_EGR_CORE_SC_SA_MAP_PAGE1_SAM_SC_SA_MAP1_X (a b : Z) : ioreg_blk := LAN80XX_IOREG MMD_ID_MACSEC_EGR 1 (PAGE1_ADDR 0x4E00 2 a b).
Definition LAN80XX_F_MACSEC_EGR_CORE_SC_SA_MAP_PAGE1_SAM_SC_SA_MAP1_X_SA_INDEX0 (x : Z) : Z := LAN80XX_ENCODE_BITFIELD x 0 7.
Definition LAN80XX_M_MACSEC_EGR_CORE_SC_SA_MAP_PAGE1_SAM_SC_SA_MAP1_X_SA_IN_USE0 : Z := LAN80XX_BIT 15.
Definition LAN80XX_MACSEC_EGR_STAT_SA_COUNTERS_PAGE0_OUTOCTETSENCRYPTEDPROTECTED_LO (ri : Z) : ioreg_blk := LAN80XX_IOREG MMD_ID_MACSEC_EGR 1 (RI_ADDR 0x2000 32 ri).
Definition LAN80XX_MACSEC_EGR_STAT_SA_COUNTERS_PAGE0_OUTPKTSENCRYPTEDPROTECTED_LO (ri : Z) : ioreg_blk := LAN80XX_IOREG MMD_ID_MACSEC_EGR 1 (RI_ADDR 0x2002 32 ri).
Definition LAN80XX_MACSEC_EGR_STAT_SA_COUNTERS_PAGE0_OUTPKTSTOOLONG_LO (ri : Z) : ioreg_blk := LAN80XX_IOREG MMD_ID_MACSEC_EGR 1 (RI_ADDR 0x2004 32 ri).
Definition LAN80XX_MACSEC_EGR_STAT_SA_COUNTERS_PAGE1_OUTOCTETSENCRYPTEDPROTECTED_LO (a b : Z) : ioreg_blk := LAN80XX_IOREG MMD_ID_MACSEC_EGR 1 (PAGE1_ADDR 0x6000 32 a b).
Definition LAN80XX_MACSEC_EGR_STAT_SA_COUNTERS_PAGE1_OUTPKTSENCRYPTEDPROTECTED_LO (a b : Z) : ioreg_blk := LAN80XX_IOREG MMD_ID_MACSEC_EGR 1 (PAGE1_ADDR 0x6002 32 a b).
Definition LAN80XX_MACSEC_EGR_STAT_SA_COUNTERS_PAGE1_OUTPKTSTOOLONG_LO (a b : Z) : ioreg_blk := LAN80XX_IOREG MMD_ID_MACSEC_EGR 1 (PAGE1_ADDR 0x6004 32 a b).
Definition LAN80XX_MACSEC_INGR_CORE_TRANSFORM_RECORDS_PAGE0_XFORM_REC_X_W14 (ri : Z) : ioreg_blk := LAN80XX_IOREG MMD_ID_MACSEC_INGR 1 (RI_ADDR 0x000E 32 ri).
Definition LAN80XX_MACSEC_INGR_CORE_TRANSFORM_RECORDS_PAGE1_XFORM_REC_X_W14 (a b : Z) : ioreg_blk := LAN80XX_IOREG MMD_ID_MACSEC_INGR 1 (PAGE1_ADDR 0x400E 32 a b).
Definition LAN80XX_MACSEC_INGR_CORE_MISC_CONTROL : ioreg_blk := LAN80XX_IOREG MMD_ID_MACSEC_INGR 1 0x1E5F.
Definition LAN80XX_F_MACSEC_INGR_MACSEC_INGR_MISC_CONTROL_MACSEC_VALIDATE_FRAMES_0 (x : Z) : Z := LAN80XX_ENCODE_BITFIELD x 10 2.
Definition LAN80XX_M_MACSEC_INGR_MACSEC_INGR_MISC_CONTROL_MACSEC_VALIDATE_FRAMES_0 : Z := LAN80XX_ENCODE_BITMASK 10 2.
Definition LAN80XX_MACSEC_INGR_CORE_PBB_ENB_SELECT : ioreg_blk := LAN80XX_IOREG MMD_ID_MACSEC_INGR 1 0x1E45.
Definition LAN80XX_M_MACSEC_INGR_CORE_PBB_ENB_SELECT_PARSE_PBB : Z := LAN80XX_BIT 24.
Definition LAN80XX_MACSEC_INGR_CORE_SAM_ENB_CTRL_ENTRY_SET_1 : ioreg_blk := LAN80XX_IOREG MMD_ID_MACSEC_INGR 1 0x1820.
Definition LAN80XX_MACSEC_INGR_CORE_SAM_ENB_CTRL_ENTRY_SET_2 : ioreg_blk := LAN80XX_IOREG MMD_ID_MACSEC_INGR 1 0x1821.
Definition LAN80XX_MACSEC_INGR_CORE_SAM_ENB_CTRL_ENTRY_SET_3 : ioreg_blk := LAN80XX_IOREG MMD_ID_MACSEC_INGR 1 0x1822.
Definition LAN80XX_MACSEC_INGR_CORE_SAM_ENB_CTRL_ENTRY_SET_4 : ioreg_blk := LAN80XX_IOREG MMD_ID_MACSEC_INGR 1 0x1823.
Definition LAN80XX_MACSEC_INGR_CORE_SAM_ENB_CTRL_ENTRY_CLEAR_1 : ioreg_blk := LAN80XX_IOREG MMD_ID_MACSEC_INGR 1 0x1830.
Definition LAN80XX_MACSEC_INGR_CORE_SAM_ENB_CTRL_ENTRY_CLEAR_2 : ioreg_blk := LAN80XX_IOREG MMD_ID_MACSEC_INGR 1 0x1831.
Definition LAN80XX_MACSEC_INGR_CORE_SAM_ENB_CTRL_ENTRY_CLEAR_3 : ioreg_blk := LAN80XX_IOREG MMD_ID_MACSEC_INGR 1 0x1832.
Definition LAN80XX_MACSEC_INGR_CORE_SAM_ENB_CTRL_ENTRY_CLEAR_4 : ioreg_blk := LAN80XX_IOREG MMD_ID_MACSEC_INGR 1 0x1833.
Definition LAN80XX_MACSEC_INGR_CORE_SAM_ENB_CTRL_SAM_ENTRY_ENABLE_CTRL : ioreg_blk := LAN80XX_IOREG MMD_ID_MACSEC_INGR 1 0x1840.
Definition LAN80XX_F_MACSEC_INGR_CORE_SAM_ENB_CTRL_SAM_ENTRY_ENABLE_CTRL_SAM_INDEX_SET_0 (x : Z) : Z := LAN80XX_ENCODE_BITFIELD x 0 7.
Definition LAN80XX_M_MACSEC_INGR_CORE_SAM_ENB_CTRL_SAM_ENTRY_ENABLE_CTRL_SET_ENABLE_0 : Z := LAN80XX_BIT 14.
Definition LAN80XX_F_MACSEC_INGR_CORE_SAM_ENB_CTRL_SAM_ENTRY_ENABLE_CTRL_SAM_INDEX_CLEAR_0 (x : Z) : Z := LAN80XX_ENCODE_BITFIELD x 16 7.
Definition LAN80XX_M_MACSEC_INGR_CORE_SAM_ENB_CTRL_SAM_ENTRY_ENABLE_CTRL_CLEAR_ENABLE_0 : Z := LAN80XX_BIT 30.
Definition LAN80XX_MACSEC_INGR_CORE_SAM_ENB_CTRL_SAM_IN_FLIGHT : ioreg_blk := LAN80XX_IOREG MMD_ID_MACSEC_INGR 1 0x1841.
Definition LAN80XX_MACSEC_INGR_CORE_EIP_TCAM_KEY_MASK_PAGE0_TCAM_KEY0 (ri : Z) : ioreg_blk := LAN80XX_IOREG MMD_ID_MACSEC_INGR 1 (RI_ADDR 0x800 16 ri).
Definition LAN80XX_F_MACSEC_INGR_CORE_EIP_TCAM_KEY_MASK_PAGE0_TCAM_KEY0_NUM_TAGS (x : Z) : Z := LAN80XX_ENCODE_BITFIELD x 0 6.
Definition LAN80XX_F_MACSEC_INGR_CORE_EIP_TCAM_KEY_MASK_PAGE0_TCAM_KEY0_PACKET_TYPE (x : Z) : Z := LAN80XX_ENCODE_BITFIELD x 8 2.
Definition LAN80XX_M_MACSEC_INGR_CORE_EIP_TCAM_KEY_MASK_PAGE0_TCAM_KEY0_MACSEC_TAGGED : Z := LAN80XX_BIT 13.
Definition LAN80XX_F_MACSEC_INGR_CORE_EIP_TCAM_KEY_MASK_PAGE0_TCAM_KEY0_NUM_TAGS_EXT (x : Z) : Z := LAN80XX_ENCODE_BITFIELD x 24 4.
Definition LAN80XX_MACSEC_INGR_CORE_EIP_TCAM_KEY_MASK_PAGE0_TCAM_KEY1 (ri : Z) : ioreg_blk := LAN80XX_IOREG MMD_ID_MACSEC_INGR 1 (RI_ADDR 0x801 16 ri).
Definition LAN80XX_MACSEC_INGR_CORE_EIP_TCAM_KEY_MASK_PAGE0_TCAM_KEY2 (ri : Z) : ioreg_blk := LAN80XX_IOREG MMD_ID_MACSEC_INGR 1 (RI_ADDR 0x802 16 ri).
Definition LAN80XX_MACSEC_INGR_CORE_EIP_TCAM_KEY_MASK_PAGE0_TCAM_KEY4 (ri : Z) : ioreg_blk := LAN80XX_IOREG MMD_ID_MACSEC_INGR 1 (RI_ADDR 0x804 16 ri).
Definition LAN80XX_F_MACSEC_INGR_CORE_EIP_TCAM_KEY_MASK_PAGE0_TCAM_KEY4_BVLAN_ID_11_8 (x : Z) : Z := LAN80XX_ENCODE_BITFIELD x 0 4.
Definition LAN80XX_F_MACSEC_INGR_CORE_EIP_TCAM_KEY_MASK_PAGE0_TCAM_KEY4_BVLAN_DEI (x : Z) : Z := LAN80XX_ENCODE_BITFIELD x 4 1.
Definition LAN80XX_F_MACSEC_INGR_CORE_EIP_TCAM_KEY_MASK_PAGE0_TCAM_KEY4_BVLAN_PCP (x : Z) : Z := LAN80XX_ENCODE_BITFIELD x 5 3.
Definition LAN80XX_F_MACSEC_INGR_CORE_EIP_TCAM_KEY_MASK_PAGE0_TCAM_KEY4_BVLAN_ID_7_0 (x : Z) : Z := LAN80XX_ENCODE_BITFIELD x 8 8.
Definition LAN80XX_F_MACSEC_INGR_CORE_EIP_TCAM_KEY_MASK_PAGE0_TCAM_KEY4_SID_23_16 (x : Z) : Z := LAN80XX_ENCODE_BITFIELD x 16 8.
Definition LAN80XX_F_MACSEC_INGR_CORE_EIP_TCAM_KEY_MASK_PAGE0_TCAM_KEY4_SID_15_8 (x : Z) : Z := LAN80XX_ENCODE_BITFIELD x 24 8.
Definition LAN80XX_F_MACSEC_INGR_CORE_EIP_TCAM_KEY_MASK_PAGE0_TCAM_KEY4_1_MPLS_LABEL_19_12 (x : Z) : Z := LAN80XX_ENCODE_BITFIELD x 0 8.
Definition LAN80XX_F_MACSEC_INGR_CORE_EIP_TCAM_KEY_MASK_PAGE0_TCAM_KEY4_1_MPLS_LABEL_11_4 (x : Z) : Z := LAN80XX_ENCODE_BITFIELD x 8 8.
Definition LAN80XX_F_MACSEC_INGR_CORE_EIP_TCAM_KEY_MASK_PAGE0_TCAM_KEY4_1_MPLS_LABEL_S (x : Z) : Z := LAN80XX_ENCODE_BITFIELD x 16 1.
Definition LAN80XX_F_MACSEC_INGR_CORE_EIP_TCAM_KEY_MASK_PAGE0_TCAM_KEY4_1_MPLS_LABEL_EXP (x : Z) : Z := LAN80XX_ENCODE_BITFIELD x 17 3.
Definition LAN80XX_F_MACSEC_INGR_CORE_EIP_TCAM_KEY_MASK_PAGE0_TCAM_KEY4_1_MPLS_LABEL_3_0 (x : Z) : Z := LAN80XX_ENCODE_BITFIELD x 20 4.
Definition LAN80XX_MACSEC_INGR_CORE_EIP_TCAM_KEY_MASK_PAGE0_TCAM_KEY5 (ri : Z) : ioreg_blk := LAN80XX_IOREG MMD_ID_MACSEC_INGR 1 (RI_ADDR 0x805 16 ri).
Definition LAN80XX_F_MACSEC_INGR_CORE_EIP_TCAM_KEY_MASK_PAGE0_TCAM_KEY5_SID_7_0 (x : Z) : Z := LAN80XX_ENCODE_BITFIELD x 0 8.
Definition LAN80XX_F_MACSEC_INGR_CORE_EIP_TCAM_KEY_MASK_PAGE0_TCAM_KEY5_IDEI (x : Z) : Z := LAN80XX_ENCODE_BITFIELD x 8 1.
Definition LAN80XX_F_MACSEC_INGR_CORE_EIP_TCAM_KEY_MASK_PAGE0_TCAM_KEY5_IPCP (x : Z) : Z := LAN80XX_ENCODE_BITFIELD x 9 3.
Definition LAN80XX_F_MACSEC_INGR_CORE_EIP_TCAM_KEY_MASK_PAGE0_TCAM_KEY5_OUT_VID_11_8 (x : Z) : Z := LAN80XX_ENCODE_BITFIELD x 12 4.
Definition LAN80XX_M_MACSEC_INGR_CORE_EIP_TCAM_KEY_MASK_PAGE0_TCAM_KEY5_OUT_VID_11_8 : Z := LAN80XX_ENCODE_BITMASK 12 4.
Definition LAN80XX_F_MACSEC_INGR_CORE_EIP_TCAM_KEY_MASK_PAGE0_TCAM_KEY5_OUT_VID_7_0 (x : Z) : Z := LAN80XX_ENCODE_BITFIELD x 16 8.
Definition LAN80XX_M_MACSEC_INGR_CORE_EIP_TCAM_KEY_MASK_PAGE0_TCAM_KEY5_OUT_VID_7_0 : Z := LAN80XX_ENCODE_BITMASK 16 8.
Definition LAN80XX_F_MACSEC_INGR_CORE_EIP_TCAM_KEY_MASK_PAGE0_TCAM_KEY5_2_MPLS_LABEL_19_12 (x : Z) : Z := LAN80XX_ENCODE_BITFIELD x 0 8.
Definition LAN80XX_F_MACSEC_INGR_CORE_EIP_TCAM_KEY_MASK_PAGE0_TCAM_KEY5_2_MPLS_LABEL_11_4 (x : Z) : Z := LAN80XX_ENCODE_BITFIELD x 8 8.
Definition LAN80XX_MACSEC_INGR_CORE_EIP_TCAM_KEY_MASK_PAGE0_TCAM_MASK0 (ri : Z) : ioreg_blk := LAN80XX_IOREG MMD_ID_MACSEC_INGR 1 (RI_ADDR 0x808 16 ri).
Definition LAN80XX_MACSEC_INGR_CORE_EIP_TCAM_KEY_MASK_PAGE0_TCAM_MASK1 (ri : Z) : ioreg_blk := LAN80XX_IOREG MMD_ID_MACSEC_INGR 1 (RI_ADDR 0x809 16 ri).
Definition LAN80XX_MACSEC_INGR_CORE_EIP_TCAM_KEY_MASK_PAGE0_TCAM_MASK2 (ri : Z) : ioreg_blk := LAN80XX_IOREG MMD_ID_MACSEC_INGR 1 (RI_ADDR 0x80A 16 ri).
Definition LAN80XX_MACSEC_INGR_CORE_EIP_TCAM_KEY_MASK_PAGE0_TCAM_MASK4 (ri : Z) : ioreg_blk := LAN80XX_IOREG MMD_ID_MACSEC_INGR 1 (RI_ADDR 0x80C 16 ri).
Definition LAN80XX_F_MACSEC_INGR_CORE_EIP_TCAM_KEY_MASK_PAGE0_TCAM_MASK4_ETHERTYPE_MASK (x : Z) : Z := LAN80XX_ENCODE_BITFIELD x 0 16.
Definition LAN80XX_F_MACSEC_INGR_CORE_EIP_TCAM_KEY_MASK_PAGE0_TCAM_MASK4_VLANTAG_MASK (x : Z) : Z := LAN80XX_ENCODE_BITFIELD x 16 16.
Definition LAN80XX_M_MACSEC_INGR_CORE_EIP_TCAM_KEY_MASK_PAGE0_TCAM_MASK4_BVLAN_MASK : Z := LAN80XX_ENCODE_BITMASK 0 16.
Definition LAN80XX_M_MACSEC_INGR_CORE_EIP_TCAM_KEY_MASK_PAGE0_TCAM_MASK4_SID_MASK : Z := LAN80XX_ENCODE_BITMASK 16 16.
Definition LAN80XX_M_MACSEC_INGR_CORE_EIP_TCAM_KEY_MASK_PAGE0_TCAM_MASK4_1_MPLS_MASK : Z := LAN80XX_ENCODE_BITMASK 0 24.
Definition LAN80XX_MACSEC_INGR_CORE_EIP_TCAM_KEY_MASK_PAGE0_TCAM_MASK5 (ri : Z) : ioreg_blk := LAN80XX_IOREG MMD_ID_MACSEC_INGR 1 (RI_ADDR 0x80D 16 ri).
Definition LAN80XX_F_MACSEC_INGR_CORE_EIP_TCAM_KEY_MASK_PAGE0_TCAM_MASK5_INNER_VLANTAG_MASK (x : Z) : Z := LAN80XX_ENCODE_BITFIELD x 8 16.
Definition LAN80XX_M_MACSEC_INGR_CORE_EIP_TCAM_KEY_MASK_PAGE0_TCAM_MASK5_SID_MASK : Z := LAN80XX_ENCODE_BITMASK 0 8.
Definition LAN80XX_M_MACSEC_INGR_CORE_EIP_TCAM_KEY_MASK_PAGE0_TCAM_MASK5_OUT_VID_MASK : Z := LAN80XX_ENCODE_BITMASK 12 12.
Definition LAN80XX_M_MACSEC_INGR_CORE_EIP_TCAM_KEY_MASK_PAGE0_TCAM_MASK5_2_MPLS_MASK : Z := LAN80XX_ENCODE_BITMASK 0 24.
Definition LAN80XX_MACSEC_INGR_CORE_EIP_TCAM_KEY_MASK_PAGE1_TCAM_KEY0 (a b : Z) : ioreg_blk := LAN80XX_IOREG MMD_ID_MACSEC_INGR 1 (PAGE1_ADDR 0x4800 16 a b).
Definition LAN80XX_F_MACSEC_INGR_CORE_EIP_TCAM_KEY_MASK_PAGE1_TCAM_KEY0_NUM_TAGS (x : Z) : Z := LAN80XX_ENCODE_BITFIELD x 0 6.
Definition LAN80XX_M_MACSEC_INGR_CORE_EIP_TCAM_KEY_MASK_PAGE1_TCAM_KEY0_MACSEC_TAGGED : Z := LAN80XX_BIT 13.
Definition LAN80XX_MACSEC_INGR_CORE_EIP_TCAM_KEY_MASK_PAGE1_TCAM_KEY1 (a b : Z) : ioreg_blk := LAN80XX_IOREG MMD_ID_MACSEC_INGR 1 (PAGE1_ADDR 0x4801 16 a b).
Definition LAN80XX_MACSEC_INGR_CORE_EIP_TCAM_KEY_MASK_PAGE1_TCAM_KEY2 (a b : Z) : ioreg_blk := LAN80XX_IOREG MMD_ID_MACSEC_INGR 1 (PAGE1_ADDR 0x4802 16 a b).
Definition LAN80XX_MACSEC_INGR_CORE_EIP_TCAM_KEY_MASK_PAGE1_TCAM_KEY4 (a b : Z) : ioreg_blk := LAN80XX_IOREG MMD_ID_MACSEC_INGR 1 (PAGE1_ADDR 0x4804 16 a b).
Definition LAN80XX_MACSEC_INGR_CORE_EIP_TCAM_KEY_MASK_PAGE1_TCAM_KEY5 (a b : Z) : ioreg_blk := LAN80XX_IOREG MMD_ID_MACSEC_INGR 1 (PAGE1_ADDR 0x4805 16 a b).
Definition LAN80XX_MACSEC_INGR_CORE_EIP_TCAM_KEY_MASK_PAGE1_TCAM_MASK0 (a b : Z) : ioreg_blk := LAN80XX_IOREG MMD_ID_MACSEC_INGR 1 (PAGE1_ADDR 0x4808 16 a b).
Definition LAN80XX_MACSEC_INGR_CORE_EIP_TCAM_KEY_MASK_PAGE1_TCAM_MASK1 (a b : Z) : ioreg_blk := LAN80XX_IOREG MMD_ID_MACSEC_INGR 1 (PAGE1_ADDR 0x4809 16 a b).
Definition LAN80XX_MACSEC_INGR_CORE_EIP_TCAM_KEY_MASK_PAGE1_TCAM_MASK2 (a b : Z) : ioreg_blk := LAN80XX_IOREG MMD_ID_MACSEC_INGR 1 (PAGE1_ADDR 0x480A 16 a b).
Definition LAN80XX_MACSEC_INGR_CORE_EIP_TCAM_KEY_MASK_PAGE1_TCAM_MASK4 (a b : Z) : ioreg_blk := LAN80XX_IOREG MMD_ID_MACSEC_INGR 1 (PAGE1_ADDR 0x480C 16 a b).
Definition LAN80XX_MACSEC_INGR_CORE_EIP_TCAM_KEY_MASK_PAGE1_TCAM_MASK5 (a b : Z) : ioreg_blk := LAN80XX_IOREG MMD_ID_MACSEC_INGR 1 (PAGE1_ADDR 0x480D 16 a b).
Definition LAN80XX_MACSEC_INGR_CORE_EIP_TCAM_POLICY_PAGE0_TCAM_POLICY (ri : Z) : ioreg_blk := LAN80XX_IOREG MMD_ID_MACSEC_INGR 1 (RI_ADDR 0xC00 1 ri).
Definition LAN80XX_F_MACSEC_INGR_CORE_EIP_TCAM_POLICY_PAGE0_TCAM_POLICY_VPORT_INDEX (x : Z) : Z := LAN80XX_ENCODE_BITFIELD x 0 6.
Definition LAN80XX_F_MACSEC_INGR_CORE_EIP_TCAM_POLICY_PAGE0_TCAM_POLICY_PRIO (x : Z) : Z := LAN80XX_ENCODE_BITFIELD x 27 3.
Definition LAN80XX_MACSEC_INGR_CORE_EIP_TCAM_POLICY_PAGE1_TCAM_POLICY (a b : Z) : ioreg_blk := LAN80XX_IOREG MMD_ID_MACSEC_INGR 1 (PAGE1_ADDR 0x4C00 1 a b).
Definition LAN80XX_M_MACSEC_INGR_CORE_EIP_TCAM_POLICY_PAGE1_TCAM_POLICY_DROP : Z := LAN80XX_BIT 30.
Definition LAN80XX_M_MACSEC_INGR_CORE_EIP_TCAM_POLICY_PAGE1_TCAM_POLICY_CONTROL_PKT : Z := LAN80XX_BIT 31.
Definition LAN80XX_MACSEC_INGR_CORE_EIP_FLOW_CTRL_PAGE0_FLOW_CTRL_1 (ri : Z) : ioreg_blk := LAN80XX_IOREG MMD_ID_MACSEC_INGR 1 (RI_ADDR 0x1c00 2 ri).
Definition LAN80XX_F_MACSEC_INGR_CORE_EIP_FLOW_CTRL_PAGE0_FLOW_CTRL_1_FLOW_TYPE (x : Z) : Z := LAN80XX_ENCODE_BITFIELD x 0 2.
Definition LAN80XX_F_MACSEC_INGR_CORE_EIP_FLOW_CTRL_PAGE0_FLOW_CTRL_1_DEST_PORT (x : Z) : Z := LAN80XX_ENCODE_BITFIELD x 2 2.
Definition LAN80XX_F_MACSEC_INGR_CORE_EIP_FLOW_CTRL_PAGE0_FLOW_CTRL_1_DROP_ACTION (x : Z) : Z := LAN80XX_ENCODE_BITFIELD x 6 2.
Definition LAN80XX_M_MACSEC_INGR_CORE_EIP_FLOW_CTRL_PAGE0_FLOW_CTRL_1_REPLAY_PROTECT : Z := LAN80XX_BIT 16.
Definition LAN80XX_M_MACSEC_INGR_CORE_EIP_FLOW_CTRL_PAGE0_FLOW_CTRL_1_ALLOW_TAGGED_DATA : Z := LAN80XX_BIT 17.
Definition LAN80XX_M_MACSEC_INGR_CORE_EIP_FLOW_CTRL_PAGE0_FLOW_CTRL_1_ALLOW_UNTAGGED_DATA : Z := LAN80XX_BIT 18.
Definition LAN80XX_F_MACSEC_INGR_CORE_EIP_FLOW_CTRL_PAGE0_FLOW_CTRL_1_VALIDATE_FRAMES_TAGGED (x : Z) : Z := LAN80XX_ENCODE_BITFIELD x 19 2.
Definition LAN80XX_M_MACSEC_INGR_CORE_EIP_FLOW_CTRL_PAGE0_FLOW_CTRL_1_EOMPLS_CTRL_WORD : Z := LAN80XX_BIT 22.
Definition LAN80XX_M_MACSEC_INGR_CORE_EIP_FLOW_CTRL_PAGE0_FLOW_CTRL_1_EOMPLS_SUBPORT : Z := LAN80XX_BIT 23.
Definition LAN80XX_MACSEC_INGR_CORE_EIP_FLOW_CTRL_PAGE0_FLOW_CTRL_2 (ri : Z) : ioreg_blk := LAN80XX_IOREG MMD_ID_MACSEC_INGR 1 (RI_ADDR 0x1c01 2 ri).
Definition LAN80XX_F_MACSEC_INGR_CORE_EIP_FLOW_CTRL_PAGE0_FLOW_CTRL_2_PRE_SECTAG_AUTH_START (x : Z) : Z := LAN80XX_ENCODE_BITFIELD x 0 6.
Definition LAN80XX_F_MACSEC_INGR_CORE_EIP_FLOW_CTRL_PAGE0_FLOW_CTRL_2_PRE_SECTAG_AUTH_LEN (x : Z) : Z := LAN80XX_ENCODE_BITFIELD x 8 6.
Definition LAN80XX_F_MACSEC_INGR_CORE_EIP_FLOW_CTRL_PAGE0_FLOW_CTRL_2_CONFIDENTIALITY_OFFSET (x : Z) : Z := LAN80XX_ENCODE_BITFIELD x 24 8.
Definition LAN80XX_MACSEC_INGR_CORE_EIP_FLOW_CTRL_PAGE1_FLOW_CTRL_1 (a b : Z) : ioreg_blk := LAN80XX_IOREG MMD_ID_MACSEC_INGR 1 (PAGE1_ADDR 0x1c00 2 a b).
Definition LAN80XX_F_MACSEC_INGR_CORE_EIP_FLOW_CTRL_PAGE1_FLOW_CTRL_1_FLOW_TYPE (x : Z) : Z := LAN80XX_ENCODE_BITFIELD x 0 2.
Definition LAN80XX_F_MACSEC_INGR_CORE_EIP_FLOW_CTRL_PAGE1_FLOW_CTRL_1_DEST_PORT (x : Z) : Z := LAN80XX_ENCODE_BITFIELD x 2 2.
Definition LAN80XX_F_MACSEC_INGR_CORE_EIP_FLOW_CTRL_PAGE1_FLOW_CTRL_1_DROP_ACTION (x : Z) : Z := LAN80XX_ENCODE_BITFIELD x 6 2.
Definition LAN80XX_M_MACSEC_INGR_CORE_EIP_FLOW_CTRL_PAGE1_FLOW_CTRL_1_REPLAY_PROTECT : Z := LAN80XX_BIT 16.
Definition LAN80XX_M_MACSEC_INGR_CORE_EIP_FLOW_CTRL_PAGE1_FLOW_CTRL_1_ALLOW_TAGGED_DATA : Z := LAN80XX_BIT 17.
Definition LAN80XX_M_MACSEC_INGR_CORE_EIP_FLOW_CTRL_PAGE1_FLOW_CTRL_1_ALLOW_UNTAGGED_DATA : Z := LAN80XX_BIT 18.
Definition LAN80XX_F_MACSEC_INGR_CORE_EIP_FLOW_CTRL_PAGE1_FLOW_CTRL_1_VALIDATE_FRAMES_TAGGED (x : Z) : Z := LAN80XX_ENCODE_BITFIELD x 19 2.
Definition LAN80XX_M_MACSEC_INGR_CORE_EIP_FLOW_CTRL_PAGE1_FLOW_CTRL_1_EOMPLS_CTRL_WORD : Z := LAN80XX_BIT 22.
Definition LAN80XX_M_MACSEC_INGR_CORE_EIP_FLOW_CTRL_PAGE1_FLOW_CTRL_1_EOMPLS_SUBPORT : Z := LAN80XX_BIT 23.
Definition LAN80XX_MACSEC_INGR_CORE_EIP_FLOW_CTRL_PAGE1_FLOW_CTRL_2 (a b : Z) : ioreg_blk := LAN80XX_IOREG MMD_ID_MACSEC_INGR 1 (PAGE1_ADDR 0x1c01 2 a b).
Definition LAN80XX_F_MACSEC_INGR_CORE_EIP_FLOW_CTRL_PAGE1_FLOW_CTRL_2_PRE_SECTAG_AUTH_START (x : Z) : Z := LAN80XX_ENCODE_BITFIELD x 0 6.
Definition LAN80XX_F_MACSEC_INGR_CORE_EIP_FLOW_CTRL_PAGE1_FLOW_CTRL_2_PRE_SECTAG_AUTH_LEN (x : Z) : Z := LAN80XX_ENCODE_BITFIELD x 8 6.
Definition LAN80XX_F_MACSEC_INGR_CORE_EIP_FLOW_CTRL_PAGE1_FLOW_CTRL_2_CONFIDENTIALITY_OFFSET (x : Z) : Z := LAN80XX_ENCODE_BITFIELD x 24 8.
Definition LAN80XX_MACSEC_INGR_CORE_SC_SA_MAP_PAGE0_SAM_SC_SA_MAP1_X (ri : Z) : ioreg_blk := LAN80XX_IOREG MMD_ID_MACSEC_INGR 1 (RI_ADDR 0xE00 2 ri).
Definition LAN80XX_F_MACSEC_INGR_CORE_SC_SA_MAP_PAGE0_SAM_SC_SA_MAP1_X_SA_INDEX0 (x : Z) : Z := LAN80XX_ENCODE_BITFIELD x 0 7.
Definition LAN80XX_M_MACSEC_INGR_CORE_SC_SA_MAP_PAGE0_SAM_SC_SA_MAP1_X_SA_INDEX0 : Z := LAN80XX_ENCODE_BITMASK 0 7.
Definition LAN80XX_M_MACSEC_INGR_CORE_SC_SA_MAP_PAGE0_SAM_SC_SA_MAP1_X_SA_IN_USE0 : Z := LAN80XX_BIT 15.
Definition LAN80XX_F_MACSEC_INGR_CORE_SC_SA_MAP_PAGE0_SAM_SC_SA_MAP1_X_SA_INDEX1 (x : Z) : Z := LAN80XX_ENCODE_BITFIELD x 16 7.
Definition LAN80XX_M_MACSEC_INGR_CORE_SC_SA_MAP_PAGE0_SAM_SC_SA_MAP1_X_SA_INDEX1 : Z := LAN80XX_ENCODE_BITMASK 16 7.
Definition LAN80XX_M_MACSEC_INGR_CORE_SC_SA_MAP_PAGE0_SAM_SC_SA_MAP1_X_SA_IN_USE1 : Z := LAN80XX_BIT 31.
Definition LAN80XX_MACSEC_INGR_CORE_SC_SA_MAP_PAGE0_SAM_SC_SA_MAP2_X (ri : Z) : ioreg_blk := LAN80XX_IOREG MMD_ID_MACSEC_INGR 1 (RI_ADDR 0xE01 2 ri).
Definition LAN80XX_F_MACSEC_INGR_CORE_SC_SA_MAP_PAGE0_SAM_SC_SA_MAP2_X_SA_INDEX2 (x : Z) : Z := LAN80XX_ENCODE_BITFIELD x 0 7.
Definition LAN80XX_M_MACSEC_INGR_CORE_SC_SA_MAP_PAGE0_SAM_SC_SA_MAP2_X_SA_INDEX2 : Z := LAN80XX_ENCODE_BITMASK 0 7.
Definition LAN80XX_M_MACSEC_INGR_CORE_SC_SA_MAP_PAGE0_SAM_SC_SA_MAP2_X_SA_IN_USE2 : Z := LAN80XX_BIT 15.
Definition LAN80XX_F_MACSEC_INGR_CORE_SC_SA_MAP_PAGE0_SAM_SC_SA_MAP2_X_SA_INDEX3 (x : Z) : Z := LAN80XX_ENCODE_BITFIELD x 16 7.
Definition LAN80XX_M_MACSEC_INGR_CORE_SC_SA_MAP_PAGE0_SAM_SC_SA_MAP2_X_SA_INDEX3 : Z := LAN80XX_ENCODE_BITMASK 16 7.
Definition LAN80XX_M_MACSEC_INGR_CORE_SC_SA_MAP_PAGE0_SAM_SC_SA_MAP2_X_SA_IN_USE3 : Z := LAN80XX_BIT 31.
Definition LAN80XX_MACSEC_INGR_CORE_SC_SA_MAP_PAGE1_SAM_SC_SA_MAP1_X (a b : Z) : ioreg_blk := LAN80XX_IOREG MMD_ID_MACSEC_INGR 1 (PAGE1_ADDR 0x4E00 2 a b).
Definition LAN80XX_F_MACSEC_INGR_CORE_SC_SA_MAP_PAGE1_SAM_SC_SA_MAP1_X_SA_INDEX0 (x : Z) : Z := LAN80XX_ENCODE_BITFIELD x 0 7.
Definition LAN80XX_M_MACSEC_INGR_CORE_SC_SA_MAP_PAGE1_SAM_SC_SA_MAP1_X_SA_INDEX0 : Z := LAN80XX_ENCODE_BITMASK 0 7.
Definition LAN80XX_M_MACSEC_INGR_CORE_SC_SA_MAP_PAGE1_SAM_SC_SA_MAP1_X_SA_IN_USE0 : Z := LAN80XX_BIT 15.
Definition LAN80XX_F_MACSEC_INGR_CORE_SC_SA_MAP_PAGE1_SAM_SC_SA_MAP1_X_SA_INDEX1 (x : Z) : Z := LAN80XX_ENCODE_BITFIELD x 16 7.
Definition LAN80XX_M_MACSEC_INGR_CORE_SC_SA_MAP_PAGE1_SAM_SC_SA_MAP1_X_SA_INDEX1 : Z := LAN80XX_ENCODE_BITMASK 16 7.
Definition LAN80XX_M_MACSEC_INGR_CORE_SC_SA_MAP_PAGE1_SAM_SC_SA_MAP1_X_SA_IN_USE1 : Z := LAN80XX_BIT 31.
Definition LAN80XX_MACSEC_INGR_CORE_SC_SA_MAP_PAGE1_SAM_SC_SA_MAP2_X (a b : Z) : ioreg_blk := LAN80XX_IOREG MMD_ID_MACSEC_INGR 1 (PAGE1_ADDR 0x4E01 2 a b).
Definition LAN80XX_F_MACSEC_INGR_CORE_SC_SA_MAP_PAGE1_SAM_SC_SA_MAP2_X_SA_INDEX2 (x : Z) : Z := LAN80XX_ENCODE_BITFIELD x 0 7.
Definition LAN80XX_M_MACSEC_INGR_CORE_SC_SA_MAP_PAGE1_SAM_SC_SA_MAP2_X_SA_INDEX2 : Z := LAN80XX_ENCODE_BITMASK 0 7.
Definition LAN80XX_M_MACSEC_INGR_CORE_SC_SA_MAP_PAGE1_SAM_SC_SA_MAP2_X_SA_IN_USE2 : Z := LAN80XX_BIT 15.
Definition LAN80XX_F_MACSEC_INGR_CORE_SC_SA_MAP_PAGE1_SAM_SC_SA_MAP2_X_SA_INDEX3 (x : Z) : Z := LAN80XX_ENCODE_BITFIELD x 16 7.
Definition LAN80XX_M_MACSEC_INGR_CORE_SC_SA_MAP_PAGE1_SAM_SC_SA_MAP2_X_SA_INDEX3 : Z := LAN80XX_ENCODE_BITMASK 16 7.
Definition LAN80XX_M_MACSEC_INGR_CORE_SC_SA_MAP_PAGE1_SAM_SC_SA_MAP2_X_SA_IN_USE3 : Z := LAN80XX_BIT 31.
Definition LAN80XX_MACSEC_INGR_CORE_RXSC_CAM_KEY_PAGE0_RXSC_SCI_LO (ri : Z) : ioreg_blk := LAN80XX_IOREG MMD_ID_MACSEC_INGR 1 (RI_ADDR 0xD00 4 ri).
Definition LAN80XX_MACSEC_INGR_CORE_RXSC_CAM_KEY_PAGE0_RXSC_SCI_HI (ri : Z) : ioreg_blk := LAN80XX_IOREG MMD_ID_MACSEC_INGR 1 (RI_ADDR 0xD01 4 ri).
Definition LAN80XX_MACSEC_INGR_CORE_RXSC_CAM_KEY_PAGE0_RXSC_CAM_CTRL (ri : Z) : ioreg_blk := LAN80XX_IOREG MMD_ID_MACSEC_INGR 1 (RI_ADDR 0xD02 4 ri).
Definition LAN80XX_MACSEC_INGR_CORE_RXSC_CAM_KEY_PAGE1_RXSC_SCI_LO (a b : Z) : ioreg_blk := LAN80XX_IOREG MMD_ID_MACSEC_INGR 1 (PAGE1_ADDR 0x4D00 4 a b).
Definition LAN80XX_MACSEC_INGR_CORE_RXSC_CAM_KEY_PAGE1_RXSC_SCI_HI (a b : Z) : ioreg_blk := LAN80XX_IOREG MMD_ID_MACSEC_INGR 1 (PAGE1_ADDR 0x4D01 4 a b).
Definition LAN80XX_MACSEC_INGR_CORE_RXSC_CAM_KEY_PAGE1_RXSC_CAM_CTRL (a b : Z) : ioreg_blk := LAN80XX_IOREG MMD_ID_MACSEC_INGR 1 (PAGE1_ADDR 0x4D02 4 a b).
Definition LAN80XX_F_MACSEC_INGR_CORE_RXSC_CAM_KEY_PAGE0_RXSC_CAM_CTRL_VPORT_INDEX (x : Z) : Z := LAN80XX_ENCODE_BITFIELD x 0 6.
Definition LAN80XX_MACSEC_INGR_CORE_RXSC_ENTRY_ENABLE_CTRL : ioreg_blk := LAN80XX_IOREG MMD_ID_MACSEC_INGR 1 0xDC0.
Definition LAN80XX_F_MACSEC_INGR_CORE_RXSC_ENTRY_ENABLE_CTRL_SC_INDEX_SET (x : Z) : Z := LAN80XX_ENCODE_BITFIELD x 0 6.
Definition LAN80XX_M_MACSEC_INGR_CORE_RXSC_ENTRY_ENABLE_CTRL_SET_ENABLE : Z := LAN80XX_BIT 14.
Definition LAN80XX_MACSEC_INGR_CORE_EIP62_REGISTERS_NEXTPN_LO : ioreg_blk := LAN80XX_IOREG MMD_ID_MACSEC_INGR 1 0x3D20.
Definition LAN80XX_MACSEC_INGR_CORE_EIP62_REGISTERS_NEXTPN_HI : ioreg_blk := LAN80XX_IOREG MMD_ID_MACSEC_INGR 1 0x3D21.
Definition LAN80XX_MACSEC_INGR_CORE_EIP62_REGISTERS_NEXT_PN_CTRL_NEXT_PN_CTRL : ioreg_blk := LAN80XX_IOREG MMD_ID_MACSEC_INGR 1 0x3D23.
Definition LAN80XX_M_MACSEC_INGR_CORE_EIP62_REGISTERS_NEXT_PN_CTRL_NEXT_PN_CTRL_ENABLE_UPDATE : Z := LAN80XX_BIT 0.
Definition LAN80XX_M_MACSEC_INGR_CORE_EIP62_REGISTERS_NEXT_PN_CTRL_NEXT_PN_CTRL_NEXTPN_WRITTEN : Z := LAN80XX_BIT 1.
Definition LAN80XX_M_MACSEC_INGR_CORE_EIP62_REGISTERS_NEXT_PN_CTRL_NEXT_PN_CTRL_SEQUENCE_NUMBER_SIZE : Z := LAN80XX_BIT 2.
Definition LAN80XX_F_MACSEC_INGR_CORE_EIP62_REGISTERS_NEXT_PN_CTRL_NEXT_PN_CTRL_NEXTPN_CONTEXT_ADDRESS (x : Z) : Z := LAN80XX_ENCODE_BITFIELD x 4 28.
Definition LAN80XX_MACSEC_INGR_STAT_SA_COUNTERS_PAGE0_INOCTETSDECRYPTED_LO (ri : Z) : ioreg_blk := LAN80XX_IOREG MMD_ID_MACSEC_INGR 1 (RI_ADDR 0x2000 32 ri).
Definition LAN80XX_MACSEC_INGR_STAT_SA_COUNTERS_PAGE0_INPKTSUNCHECKED_LO (ri : Z) : ioreg_blk := LAN80XX_IOREG MMD_ID_MACSEC_INGR 1 (RI_ADDR 0x2004 32 ri).
Definition LAN80XX_MACSEC_INGR_STAT_SA_COUNTERS_PAGE0_INPKTSDELAYED_LO (ri : Z) : ioreg_blk := LAN80XX_IOREG MMD_ID_MACSEC_INGR 1 (RI_ADDR 0x2006 32 ri).
Definition LAN80XX_MACSEC_INGR_STAT_SA_COUNTERS_PAGE0_INPKTSLATE_LO (ri : Z) : ioreg_blk := LAN80XX_IOREG MMD_ID_MACSEC_INGR 1 (RI_ADDR 0x2008 32 ri).
Definition LAN80XX_MACSEC_INGR_STAT_SA_COUNTERS_PAGE0_INPKTSOK_LO (ri : Z) : ioreg_blk := LAN80XX_IOREG MMD_ID_MACSEC_INGR 1 (RI_ADDR 0x200a 32 ri).
Definition LAN80XX_MACSEC_INGR_STAT_SA_COUNTERS_PAGE0_INPKTSINVALID_LO (ri : Z) : ioreg_blk := LAN80XX_IOREG MMD_ID_MACSEC_INGR 1 (RI_ADDR 0x200c 32 ri).
Definition LAN80XX_MACSEC_INGR_STAT_SA_COUNTERS_PAGE0_INPKTSNOTVALID_LO (ri : Z) : ioreg_blk := LAN80XX_IOREG MMD_ID_MACSEC_INGR 1 (RI_ADDR 0x200e 32 ri).
Definition LAN80XX_MACSEC_INGR_STAT_SA_COUNTERS_PAGE0_INPKTSNOTUSINGSA_LO (ri : Z) : ioreg_blk := LAN80XX_IOREG MMD_ID_MACSEC_INGR 1 (RI_ADDR 0x2010 32 ri).
Definition LAN80XX_MACSEC_INGR_STAT_SA_COUNTERS_PAGE0_INPKTSUNUSEDSA_LO (ri : Z) : ioreg_blk := LAN80XX_IOREG MMD_ID_MACSEC_INGR 1 (RI_ADDR 0x2012 32 ri).
Definition LAN80XX_MACSEC_INGR_STAT_SA_COUNTERS_PAGE1_INOCTETSDECRYPTED_LO (a b : Z) : ioreg_blk := LAN80XX_IOREG MMD_ID_MACSEC_INGR 1 (PAGE1_ADDR 0x6000 32 a b).
Definition LAN80XX_MACSEC_INGR_STAT_SA_COUNTERS_PAGE1_INPKTSUNCHECKED_LO (a b : Z) : ioreg_blk := LAN80XX_IOREG MMD_ID_MACSEC_INGR 1 (PAGE1_ADDR 0x6004 32 a b).
Definition LAN80XX_MACSEC_INGR_STAT_SA_COUNTERS_PAGE1_INPKTSDELAYED_LO (a b : Z) : ioreg_blk := LAN80XX_IOREG MMD_ID_MACSEC_INGR 1 (PAGE1_ADDR 0x6006 32 a b).
Definition LAN80XX_MACSEC_INGR_STAT_SA_COUNTERS_PAGE1_INPKTSLATE_LO (a b : Z) : ioreg_blk := LAN80XX_IOREG MMD_ID_MACSEC_INGR 1 (PAGE1_ADDR 0x6008 32 a b).
Definition LAN80XX_MACSEC_INGR_STAT_SA_COUNTERS_PAGE1_INPKTSOK_LO (a b : Z) : ioreg_blk := LAN80XX_IOREG MMD_ID_MACSEC_INGR 1 (PAGE1_ADDR 0x600a 32 a b).
Definition LAN80XX_MACSEC_INGR_STAT_SA_COUNTERS_PAGE1_INPKTSINVALID_LO (a b : Z) : ioreg_blk := LAN80XX_IOREG MMD_ID_MACSEC_INGR 1 (PAGE1_ADDR 0x600c 32 a b).
Definition LAN80XX_MACSEC_INGR_STAT_SA_COUNTERS_PAGE1_INPKTSNOTVALID_LO (a b : Z) : ioreg_blk := LAN80XX_IOREG MMD_ID_MACSEC_INGR 1 (PAGE1_ADDR 0x600e 32 a b).
Definition LAN80XX_MACSEC_INGR_STAT_SA_COUNTERS_PAGE1_INPKTSNOTUSINGSA_LO (a b : Z) : ioreg_blk := LAN80XX_IOREG MMD_ID_MACSEC_INGR 1 (PAGE1_ADDR 0x6010 32 a b).
Definition LAN80XX_MACSEC_INGR_STAT_SA_COUNTERS_PAGE1_INPKTSUNUSEDSA_LO (a b : Z) : ioreg_blk := LAN80XX_IOREG MMD_ID_MACSEC_INGR 1 (PAGE1_ADDR 0x6012 32 a b).
Definition CORE_EIP_TCAM_KEY_MASK_PAGE0_TCAM_KEY0 (egr : bool) (ri : Z) : ioreg_blk :=
  if egr then LAN80XX_MACSEC_EGR_CORE_EIP_TCAM_KEY_MASK_PAGE0_TCAM_KEY0 ri else LAN80XX_MACSEC_INGR_CORE_EIP_TCAM_KEY_MASK_PAGE0_TCAM_KEY0 ri.
Definition CORE_EIP_TCAM_KEY_MASK_PAGE0_TCAM_KEY1 (egr : bool) (ri : Z) : ioreg_blk :=
  if egr then LAN80XX_MACSEC_EGR_CORE_EIP_TCAM_KEY_MASK_PAGE0_TCAM_KEY1 ri else LAN80XX_MACSEC_INGR_CORE_EIP_TCAM_KEY_MASK_PAGE0_TCAM_KEY1 ri.
Definition CORE_EIP_TCAM_KEY_MASK_PAGE0_TCAM_KEY2 (egr : bool) (ri : Z) : ioreg_blk :=
  if egr then LAN80XX_MACSEC_EGR_CORE_EIP_TCAM_KEY_MASK_PAGE0_TCAM_KEY2 ri else LAN80XX_MACSEC_INGR_CORE_EIP_TCAM_KEY_MASK_PAGE0_TCAM_KEY2 ri.
Definition CORE_EIP_TCAM_KEY_MASK_PAGE0_TCAM_KEY4 (egr : bool) (ri : Z) : ioreg_blk :=
  if egr then LAN80XX_MACSEC_EGR_CORE_EIP_TCAM_KEY_MASK_PAGE0_TCAM_KEY4 ri else LAN80XX_MACSEC_INGR_CORE_EIP_TCAM_KEY_MASK_PAGE0_TCAM_KEY4 ri.
Definition CORE_EIP_TCAM_KEY_MASK_PAGE0_TCAM_KEY5 (egr : bool) (ri : Z) : ioreg_blk :=
  if egr then LAN80XX_MACSEC_EGR_CORE_EIP_TCAM_KEY_MASK_PAGE0_TCAM_KEY5 ri else LAN80XX_MACSEC_INGR_CORE_EIP_TCAM_KEY_MASK_PAGE0_TCAM_KEY5 ri.
Definition CORE_EIP_TCAM_KEY_MASK_PAGE0_TCAM_MASK0 (egr : bool) (ri : Z) : ioreg_blk :=
  if egr then LAN80XX_MACSEC_EGR_CORE_EIP_TCAM_KEY_MASK_PAGE0_TCAM_MASK0 ri else LAN80XX_MACSEC_INGR_CORE_EIP_TCAM_KEY_MASK_PAGE0_TCAM_MASK0 ri.
Definition CORE_EIP_TCAM_KEY_MASK_PAGE0_TCAM_MASK1 (egr : bool) (ri : Z) : ioreg_blk :=
  if egr then LAN80XX_MACSEC_EGR_CORE_EIP_TCAM_KEY_MASK_PAGE0_TCAM_MASK1 ri else LAN80XX_MACSEC_INGR_CORE_EIP_TCAM_KEY_MASK_PAGE0_TCAM_MASK1 ri.
Definition CORE_EIP_TCAM_KEY_MASK_PAGE0_TCAM_MASK2 (egr : bool) (ri : Z) : ioreg_blk :=
  if egr then LAN80XX_MACSEC_EGR_CORE_EIP_TCAM_KEY_MASK_PAGE0_TCAM_MASK2 ri else LAN80XX_MACSEC_INGR_CORE_EIP_TCAM_KEY_MASK_PAGE0_TCAM_MASK2 ri.
Definition CORE_EIP_TCAM_KEY_MASK_PAGE0_TCAM_MASK4 (egr : bool) (ri : Z) : ioreg_blk :=
  if egr then LAN80XX_MACSEC_EGR_CORE_EIP_TCAM_KEY_MASK_PAGE0_TCAM_MASK4 ri else LAN80XX_MACSEC_INGR_CORE_EIP_TCAM_KEY_MASK_PAGE0_TCAM_MASK4 ri.
Definition CORE_EIP_TCAM_KEY_MASK_PAGE0_TCAM_MASK5 (egr : bool) (ri : Z) : ioreg_blk :=
  if egr then LAN80XX_MACSEC_EGR_CORE_EIP_TCAM_KEY_MASK_PAGE0_TCAM_MASK5 ri else LAN80XX_MACSEC_INGR_CORE_EIP_TCAM_KEY_MASK_PAGE0_TCAM_MASK5 ri.
Definition CORE_EIP_TCAM_KEY_MASK_PAGE1_TCAM_KEY0 (egr : bool) (a b : Z) : ioreg_blk :=
  if egr then LAN80XX_MACSEC_EGR_CORE_EIP_TCAM_KEY_MASK_PAGE1_TCAM_KEY0 a b else LAN80XX_MACSEC_INGR_CORE_EIP_TCAM_KEY_MASK_PAGE1_TCAM_KEY0 a b.
Definition CORE_EIP_TCAM_KEY_MASK_PAGE1_TCAM_KEY1 (egr : bool) (a b : Z) : ioreg_blk :=
  if egr then LAN80XX_MACSEC_EGR_CORE_EIP_TCAM_KEY_MASK_PAGE1_TCAM_KEY1 a b else LAN80XX_MACSEC_INGR_CORE_EIP_TCAM_KEY_MASK_PAGE1_TCAM_KEY1 a b.
Definition CORE_EIP_TCAM_KEY_MASK_PAGE1_TCAM_KEY2 (egr : bool) (a b : Z) : ioreg_blk :=
  if egr then LAN80XX_MACSEC_EGR_CORE_EIP_TCAM_KEY_MASK_PAGE1_TCAM_KEY2 a b else LAN80XX_MACSEC_INGR_CORE_EIP_TCAM_KEY_MASK_PAGE1_TCAM_KEY2 a b.
Definition CORE_EIP_TCAM_KEY_MASK_PAGE1_TCAM_KEY4 (egr : bool) (a b : Z) : ioreg_blk :=
  if egr then LAN80XX_MACSEC_EGR_CORE_EIP_TCAM_KEY_MASK_PAGE1_TCAM_KEY4 a b else LAN80XX_MACSEC_INGR_CORE_EIP_TCAM_KEY_MASK_PAGE1_TCAM_KEY4 a b.
Definition CORE_EIP_TCAM_KEY_MASK_PAGE1_TCAM_KEY5 (egr : bool) (a b : Z) : ioreg_blk :=
  if egr then LAN80XX_MACSEC_EGR_CORE_EIP_TCAM_KEY_MASK_PAGE1_TCAM_KEY5 a b else LAN80XX_MACSEC_INGR_CORE_EIP_TCAM_KEY_MASK_PAGE1_TCAM_KEY5 a b.
Definition CORE_EIP_TCAM_KEY_MASK_PAGE1_TCAM_MASK0 (egr : bool) (a b : Z) : ioreg_blk :=
  if egr then LAN80XX_MACSEC_EGR_CORE_EIP_TCAM_KEY_MASK_PAGE1_TCAM_MASK0 a b else LAN80XX_MACSEC_INGR_CORE_EIP_TCAM_KEY_MASK_PAGE1_TCAM_MASK0 a b.
Definition CORE_EIP_TCAM_KEY_MASK_PAGE1_TCAM_MASK1 (egr : bool) (a b : Z) : ioreg_blk :=
  if egr then LAN80XX_MACSEC_EGR_CORE_EIP_TCAM_KEY_MASK_PAGE1_TCAM_MASK1 a b else LAN80XX_MACSEC_INGR_CORE_EIP_TCAM_KEY_MASK_PAGE1_TCAM_MASK1 a b.
Definition CORE_EIP_TCAM_KEY_MASK_PAGE1_TCAM_MASK2 (egr : bool) (a b : Z) : ioreg_blk :=
  if egr then LAN80XX_MACSEC_EGR_CORE_EIP_TCAM_KEY_MASK_PAGE1_TCAM_MASK2 a b else LAN80XX_MACSEC_INGR_CORE_EIP_TCAM_KEY_MASK_PAGE1_TCAM_MASK2 a b.
Definition CORE_EIP_TCAM_KEY_MASK_PAGE1_TCAM_MASK4 (egr : bool) (a b : Z) : ioreg_blk :=
  if egr then LAN80XX_MACSEC_EGR_CORE_EIP_TCAM_KEY_MASK_PAGE1_TCAM_MASK4 a b else LAN80XX_MACSEC_INGR_CORE_EIP_TCAM_KEY_MASK_PAGE1_TCAM_MASK4 a b.
Definition CORE_EIP_TCAM_KEY_MASK_PAGE1_TCAM_MASK5 (egr : bool) (a b : Z) : ioreg_blk :=
  if egr then LAN80XX_MACSEC_EGR_CORE_EIP_TCAM_KEY_MASK_PAGE1_TCAM_MASK5 a b else LAN80XX_MACSEC_INGR_CORE_EIP_TCAM_KEY_MASK_PAGE1_TCAM_MASK5 a b.
Definition CORE_EIP_TCAM_POLICY_PAGE0_TCAM_POLICY (egr : bool) (ri : Z) : ioreg_blk :=
  if egr then LAN80XX_MACSEC_EGR_CORE_EIP_TCAM_POLICY_PAGE0_TCAM_POLICY ri else LAN80XX_MACSEC_INGR_CORE_EIP_TCAM_POLICY_PAGE0_TCAM_POLICY ri.
Definition CORE_EIP_TCAM_POLICY_PAGE1_TCAM_POLICY (egr : bool) (a b : Z) : ioreg_blk :=
  if egr then LAN80XX_MACSEC_EGR_CORE_EIP_TCAM_POLICY_PAGE1_TCAM_POLICY a b else LAN80XX_MACSEC_INGR_CORE_EIP_TCAM_POLICY_PAGE1_TCAM_POLICY a b.
Definition CORE_PBB_ENB_SELECT (egr : bool) : ioreg_blk :=
  if egr then LAN80XX_MACSEC_EGR_CORE_PBB_ENB_SELECT else LAN80XX_MACSEC_INGR_CORE_PBB_ENB_SELECT.
Definition CORE_SAM_ENB_CTRL_ENTRY_CLEAR_1 (egr : bool) : ioreg_blk :=
  if egr then LAN80XX_MACSEC_EGR_CORE_SAM_ENB_CTRL_ENTRY_CLEAR_1 else LAN80XX_MACSEC_INGR_CORE_SAM_ENB_CTRL_ENTRY_CLEAR_1.
Definition CORE_SAM_ENB_CTRL_ENTRY_CLEAR_2 (egr : bool) : ioreg_blk :=
  if egr then LAN80XX_MACSEC_EGR_CORE_SAM_ENB_CTRL_ENTRY_CLEAR_2 else LAN80XX_MACSEC_INGR_CORE_SAM_ENB_CTRL_ENTRY_CLEAR_2.
Definition CORE_SAM_ENB_CTRL_ENTRY_CLEAR_3 (egr : bool) : ioreg_blk :=
  if egr then LAN80XX_MACSEC_EGR_CORE_SAM_ENB_CTRL_ENTRY_CLEAR_3 else LAN80XX_MACSEC_INGR_CORE_SAM_ENB_CTRL_ENTRY_CLEAR_3.
Definition CORE_SAM_ENB_CTRL_ENTRY_CLEAR_4 (egr : bool) : ioreg_blk :=
  if egr then LAN80XX_MACSEC_EGR_CORE_SAM_ENB_CTRL_ENTRY_CLEAR_4 else LAN80XX_MACSEC_INGR_CORE_SAM_ENB_CTRL_ENTRY_CLEAR_4.
Definition CORE_SAM_ENB_CTRL_ENTRY_SET_1 (egr : bool) : ioreg_blk :=
  if egr then LAN80XX_MACSEC_EGR_CORE_SAM_ENB_CTRL_ENTRY_SET_1 else LAN80XX_MACSEC_INGR_CORE_SAM_ENB_CTRL_ENTRY_SET_1.
Definition CORE_SAM_ENB_CTRL_ENTRY_SET_2 (egr : bool) : ioreg_blk :=
  if egr then LAN80XX_MACSEC_EGR_CORE_SAM_ENB_CTRL_ENTRY_SET_2 else LAN80XX_MACSEC_INGR_CORE_SAM_ENB_CTRL_ENTRY_SET_2.
Definition CORE_SAM_ENB_CTRL_ENTRY_SET_3 (egr : bool) : ioreg_blk :=
  if egr then LAN80XX_MACSEC_EGR_CORE_SAM_ENB_CTRL_ENTRY_SET_3 else LAN80XX_MACSEC_INGR_CORE_SAM_ENB_CTRL_ENTRY_SET_3.
Definition CORE_SAM_ENB_CTRL_ENTRY_SET_4 (egr : bool) : ioreg_blk :=
  if egr then LAN80XX_MACSEC_EGR_CORE_SAM_ENB_CTRL_ENTRY_SET_4 else LAN80XX_MACSEC_INGR_CORE_SAM_ENB_CTRL_ENTRY_SET_4.
Definition CORE_SAM_ENB_CTRL_SAM_IN_FLIGHT (egr : bool) : ioreg_blk :=
  if egr then LAN80XX_MACSEC_EGR_CORE_SAM_ENB_CTRL_SAM_IN_FLIGHT else LAN80XX_MACSEC_INGR_CORE_SAM_ENB_CTRL_SAM_IN_FLIGHT.
Definition F_CORE_EIP_TCAM_KEY_MASK_PAGE0_TCAM_KEY0_NUM_TAGS (egr : bool) (x : Z) : Z :=
  if egr then LAN80XX_F_MACSEC_EGR_CORE_EIP_TCAM_KEY_MASK_PAGE0_TCAM_KEY0_NUM_TAGS x else LAN80XX_F_MACSEC_INGR_CORE_EIP_TCAM_KEY_MASK_PAGE0_TCAM_KEY0_NUM_TAGS x.
Definition F_CORE_EIP_TCAM_KEY_MASK_PAGE0_TCAM_KEY0_NUM_TAGS_EXT (egr : bool) (x : Z) : Z :=
  if egr then LAN80XX_F_MACSEC_EGR_CORE_EIP_TCAM_KEY_MASK_PAGE0_TCAM_KEY0_NUM_TAGS_EXT x else LAN80XX_F_MACSEC_INGR_CORE_EIP_TCAM_KEY_MASK_PAGE0_TCAM_KEY0_NUM_TAGS_EXT x.
Definition F_CORE_EIP_TCAM_KEY_MASK_PAGE0_TCAM_KEY0_PACKET_TYPE (egr : bool) (x : Z) : Z :=
  if egr then LAN80XX_F_MACSEC_EGR_CORE_EIP_TCAM_KEY_MASK_PAGE0_TCAM_KEY0_PACKET_TYPE x else LAN80XX_F_MACSEC_INGR_CORE_EIP_TCAM_KEY_MASK_PAGE0_TCAM_KEY0_PACKET_TYPE x.
Definition F_CORE_EIP_TCAM_KEY_MASK_PAGE0_TCAM_KEY4_1_MPLS_LABEL_11_4 (egr : bool) (x : Z) : Z :=
  if egr then LAN80XX_F_MACSEC_EGR_CORE_EIP_TCAM_KEY_MASK_PAGE0_TCAM_KEY4_1_MPLS_LABEL_11_4 x else LAN80XX_F_MACSEC_INGR_CORE_EIP_TCAM_KEY_MASK_PAGE0_TCAM_KEY4_1_MPLS_LABEL_11_4 x.
Definition F_CORE_EIP_TCAM_KEY_MASK_PAGE0_TCAM_KEY4_1_MPLS_LABEL_19_12 (egr : bool) (x : Z) : Z :=
  if egr then LAN80XX_F_MACSEC_EGR_CORE_EIP_TCAM_KEY_MASK_PAGE0_TCAM_KEY4_1_MPLS_LABEL_19_12 x else LAN80XX_F_MACSEC_INGR_CORE_EIP_TCAM_KEY_MASK_PAGE0_TCAM_KEY4_1_MPLS_LABEL_19_12 x.
Definition F_CORE_EIP_TCAM_KEY_MASK_PAGE0_TCAM_KEY4_1_MPLS_LABEL_3_0 (egr : bool) (x : Z) : Z :=
  if egr then LAN80XX_F_MACSEC_EGR_CORE_EIP_TCAM_KEY_MASK_PAGE0_TCAM_KEY4_1_MPLS_LABEL_3_0 x else LAN80XX_F_MACSEC_INGR_CORE_EIP_TCAM_KEY_MASK_PAGE0_TCAM_KEY4_1_MPLS_LABEL_3_0 x.
Definition F_CORE_EIP_TCAM_KEY_MASK_PAGE0_TCAM_KEY4_1_MPLS_LABEL_EXP (egr : bool) (x : Z) : Z :=
  if egr then LAN80XX_F_MACSEC_EGR_CORE_EIP_TCAM_KEY_MASK_PAGE0_TCAM_KEY4_1_MPLS_LABEL_EXP x else LAN80XX_F_MACSEC_INGR_CORE_EIP_TCAM_KEY_MASK_PAGE0_TCAM_KEY4_1_MPLS_LABEL_EXP x.
Definition F_CORE_EIP_TCAM_KEY_MASK_PAGE0_TCAM_KEY4_1_MPLS_LABEL_S (egr : bool) (x : Z) : Z :=
  if egr then LAN80XX_F_MACSEC_EGR_CORE_EIP_TCAM_KEY_MASK_PAGE0_TCAM_KEY4_1_MPLS_LABEL_S x else LAN80XX_F_MACSEC_INGR_CORE_EIP_TCAM_KEY_MASK_PAGE0_TCAM_KEY4_1_MPLS_LABEL_S x.
Definition F_CORE_EIP_TCAM_KEY_MASK_PAGE0_TCAM_KEY4_BVLAN_DEI (egr : bool) (x : Z) : Z :=
  if egr then LAN80XX_F_MACSEC_EGR_CORE_EIP_TCAM_KEY_MASK_PAGE0_TCAM_KEY4_BVLAN_DEI x else LAN80XX_F_MACSEC_INGR_CORE_EIP_TCAM_KEY_MASK_PAGE0_TCAM_KEY4_BVLAN_DEI x.
Definition F_CORE_EIP_TCAM_KEY_MASK_PAGE0_TCAM_KEY4_BVLAN_ID_11_8 (egr : bool) (x : Z) : Z :=
  if egr then LAN80XX_F_MACSEC_EGR_CORE_EIP_TCAM_KEY_MASK_PAGE0_TCAM_KEY4_BVLAN_ID_11_8 x else LAN80XX_F_MACSEC_INGR_CORE_EIP_TCAM_KEY_MASK_PAGE0_TCAM_KEY4_BVLAN_ID_11_8 x.
Definition F_CORE_EIP_TCAM_KEY_MASK_PAGE0_TCAM_KEY4_BVLAN_ID_7_0 (egr : bool) (x : Z) : Z :=
  if egr then LAN80XX_F_MACSEC_EGR_CORE_EIP_TCAM_KEY_MASK_PAGE0_TCAM_KEY4_BVLAN_ID_7_0 x else LAN80XX_F_MACSEC_INGR_CORE_EIP_TCAM_KEY_MASK_PAGE0_TCAM_KEY4_BVLAN_ID_7_0 x.
Definition F_CORE_EIP_TCAM_KEY_MASK_PAGE0_TCAM_KEY4_BVLAN_PCP (egr : bool) (x : Z) : Z :=
  if egr then LAN80XX_F_MACSEC_EGR_CORE_EIP_TCAM_KEY_MASK_PAGE0_TCAM_KEY4_BVLAN_PCP x else LAN80XX_F_MACSEC_INGR_CORE_EIP_TCAM_KEY_MASK_PAGE0_TCAM_KEY4_BVLAN_PCP x.
Definition F_CORE_EIP_TCAM_KEY_MASK_PAGE0_TCAM_KEY4_SID_15_8 (egr : bool) (x : Z) : Z :=
  if egr then LAN80XX_F_MACSEC_EGR_CORE_EIP_TCAM_KEY_MASK_PAGE0_TCAM_KEY4_SID_15_8 x else LAN80XX_F_MACSEC_INGR_CORE_EIP_TCAM_KEY_MASK_PAGE0_TCAM_KEY4_SID_15_8 x.
Definition F_CORE_EIP_TCAM_KEY_MASK_PAGE0_TCAM_KEY4_SID_23_16 (egr : bool) (x : Z) : Z :=
  if egr then LAN80XX_F_MACSEC_EGR_CORE_EIP_TCAM_KEY_MASK_PAGE0_TCAM_KEY4_SID_23_16 x else LAN80XX_F_MACSEC_INGR_CORE_EIP_TCAM_KEY_MASK_PAGE0_TCAM_KEY4_SID_23_16 x.
Definition F_CORE_EIP_TCAM_KEY_MASK_PAGE0_TCAM_KEY5_2_MPLS_LABEL_11_4 (egr : bool) (x : Z) : Z :=
  if egr then LAN80XX_F_MACSEC_EGR_CORE_EIP_TCAM_KEY_MASK_PAGE0_TCAM_KEY5_2_MPLS_LABEL_11_4 x else LAN80XX_F_MACSEC_INGR_CORE_EIP_TCAM_KEY_MASK_PAGE0_TCAM_KEY5_2_MPLS_LABEL_11_4 x.
Definition F_CORE_EIP_TCAM_KEY_MASK_PAGE0_TCAM_KEY5_2_MPLS_LABEL_19_12 (egr : bool) (x : Z) : Z :=
  if egr then LAN80XX_F_MACSEC_EGR_CORE_EIP_TCAM_KEY_MASK_PAGE0_TCAM_KEY5_2_MPLS_LABEL_19_12 x else LAN80XX_F_MACSEC_INGR_CORE_EIP_TCAM_KEY_MASK_PAGE0_TCAM_KEY5_2_MPLS_LABEL_19_12 x.
Definition F_CORE_EIP_TCAM_KEY_MASK_PAGE0_TCAM_KEY5_IDEI (egr : bool) (x : Z) : Z :=
  if egr then LAN80XX_F_MACSEC_EGR_CORE_EIP_TCAM_KEY_MASK_PAGE0_TCAM_KEY5_IDEI x else LAN80XX_F_MACSEC_INGR_CORE_EIP_TCAM_KEY_MASK_PAGE0_TCAM_KEY5_IDEI x.
Definition F_CORE_EIP_TCAM_KEY_MASK_PAGE0_TCAM_KEY5_IPCP (egr : bool) (x : Z) : Z :=
  if egr then LAN80XX_F_MACSEC_EGR_CORE_EIP_TCAM_KEY_MASK_PAGE0_TCAM_KEY5_IPCP x else LAN80XX_F_MACSEC_INGR_CORE_EIP_TCAM_KEY_MASK_PAGE0_TCAM_KEY5_IPCP x.
Definition F_CORE_EIP_TCAM_KEY_MASK_PAGE0_TCAM_KEY5_OUT_VID_11_8 (egr : bool) (x : Z) : Z :=
  if egr then LAN80XX_F_MACSEC_EGR_CORE_EIP_TCAM_KEY_MASK_PAGE0_TCAM_KEY5_OUT_VID_11_8 x else LAN80XX_F_MACSEC_INGR_CORE_EIP_TCAM_KEY_MASK_PAGE0_TCAM_KEY5_OUT_VID_11_8 x.
Definition F_CORE_EIP_TCAM_KEY_MASK_PAGE0_TCAM_KEY5_OUT_VID_7_0 (egr : bool) (x : Z) : Z :=
  if egr then LAN80XX_F_MACSEC_EGR_CORE_EIP_TCAM_KEY_MASK_PAGE0_TCAM_KEY5_OUT_VID_7_0 x else LAN80XX_F_MACSEC_INGR_CORE_EIP_TCAM_KEY_MASK_PAGE0_TCAM_KEY5_OUT_VID_7_0 x.
Definition F_CORE_EIP_TCAM_KEY_MASK_PAGE0_TCAM_KEY5_SID_7_0 (egr : bool) (x : Z) : Z :=
  if egr then LAN80XX_F_MACSEC_EGR_CORE_EIP_TCAM_KEY_MASK_PAGE0_TCAM_KEY5_SID_7_0 x else LAN80XX_F_MACSEC_INGR_CORE_EIP_TCAM_KEY_MASK_PAGE0_TCAM_KEY5_SID_7_0 x.
Definition F_CORE_EIP_TCAM_KEY_MASK_PAGE0_TCAM_MASK4_ETHERTYPE_MASK (egr : bool) (x : Z) : Z :=
  if egr then LAN80XX_F_MACSEC_EGR_CORE_EIP_TCAM_KEY_MASK_PAGE0_TCAM_MASK4_ETHERTYPE_MASK x else LAN80XX_F_MACSEC_INGR_CORE_EIP_TCAM_KEY_MASK_PAGE0_TCAM_MASK4_ETHERTYPE_MASK x.
Definition F_CORE_EIP_TCAM_KEY_MASK_PAGE0_TCAM_MASK4_VLANTAG_MASK (egr : bool) (x : Z) : Z :=
  if egr then LAN80XX_F_MACSEC_EGR_CORE_EIP_TCAM_KEY_MASK_PAGE0_TCAM_MASK4_VLANTAG_MASK x else LAN80XX_F_MACSEC_INGR_CORE_EIP_TCAM_KEY_MASK_PAGE0_TCAM_MASK4_VLANTAG_MASK x.
Definition F_CORE_EIP_TCAM_KEY_MASK_PAGE0_TCAM_MASK5_INNER_VLANTAG_MASK (egr : bool) (x : Z) : Z :=
  if egr then LAN80XX_F_MACSEC_EGR_CORE_EIP_TCAM_KEY_MASK_PAGE0_TCAM_MASK5_INNER_VLANTAG_MASK x else LAN80XX_F_MACSEC_INGR_CORE_EIP_TCAM_KEY_MASK_PAGE0_TCAM_MASK5_INNER_VLANTAG_MASK x.
Definition F_CORE_EIP_TCAM_KEY_MASK_PAGE1_TCAM_KEY0_NUM_TAGS (egr : bool) (x : Z) : Z :=
  if egr then LAN80XX_F_MACSEC_EGR_CORE_EIP_TCAM_KEY_MASK_PAGE1_TCAM_KEY0_NUM_TAGS x else LAN80XX_F_MACSEC_INGR_CORE_EIP_TCAM_KEY_MASK_PAGE1_TCAM_KEY0_NUM_TAGS x.
Definition F_CORE_EIP_TCAM_POLICY_PAGE0_TCAM_POLICY_PRIO (egr : bool) (x : Z) : Z :=
  if egr then LAN80XX_F_MACSEC_EGR_CORE_EIP_TCAM_POLICY_PAGE0_TCAM_POLICY_PRIO x else LAN80XX_F_MACSEC_INGR_CORE_EIP_TCAM_POLICY_PAGE0_TCAM_POLICY_PRIO x.
Definition F_CORE_EIP_TCAM_POLICY_PAGE0_TCAM_POLICY_VPORT_INDEX (egr : bool) (x : Z) : Z :=
  if egr then LAN80XX_F_MACSEC_EGR_CORE_EIP_TCAM_POLICY_PAGE0_TCAM_POLICY_VPORT_INDEX x else LAN80XX_F_MACSEC_INGR_CORE_EIP_TCAM_POLICY_PAGE0_TCAM_POLICY_VPORT_INDEX x.
Definition M_CORE_EIP_TCAM_KEY_MASK_PAGE0_TCAM_KEY0_MACSEC_TAGGED (egr : bool) : Z :=
  if egr then LAN80XX_M_MACSEC_EGR_CORE_EIP_TCAM_KEY_MASK_PAGE0_TCAM_KEY0_MACSEC_TAGGED else LAN80XX_M_MACSEC_INGR_CORE_EIP_TCAM_KEY_MASK_PAGE0_TCAM_KEY0_MACSEC_TAGGED.
Definition M_CORE_EIP_TCAM_KEY_MASK_PAGE0_TCAM_KEY5_OUT_VID_11_8 (egr : bool) : Z :=
  if egr then LAN80XX_M_MACSEC_EGR_CORE_EIP_TCAM_KEY_MASK_PAGE0_TCAM_KEY5_OUT_VID_11_8 else LAN80XX_M_MACSEC_INGR_CORE_EIP_TCAM_KEY_MASK_PAGE0_TCAM_KEY5_OUT_VID_11_8.
Definition M_CORE_EIP_TCAM_KEY_MASK_PAGE0_TCAM_KEY5_OUT_VID_7_0 (egr : bool) : Z :=
  if egr then LAN80XX_M_MACSEC_EGR_CORE_EIP_TCAM_KEY_MASK_PAGE0_TCAM_KEY5_OUT_VID_7_0 else LAN80XX_M_MACSEC_INGR_CORE_EIP_TCAM_KEY_MASK_PAGE0_TCAM_KEY5_OUT_VID_7_0.
Definition M_CORE_EIP_TCAM_KEY_MASK_PAGE0_TCAM_MASK4_1_MPLS_MASK (egr : bool) : Z :=
  if egr then LAN80XX_M_MACSEC_EGR_CORE_EIP_TCAM_KEY_MASK_PAGE0_TCAM_MASK4_1_MPLS_MASK else LAN80XX_M_MACSEC_INGR_CORE_EIP_TCAM_KEY_MASK_PAGE0_TCAM_MASK4_1_MPLS_MASK.
Definition M_CORE_EIP_TCAM_KEY_MASK_PAGE0_TCAM_MASK4_BVLAN_MASK (egr : bool) : Z :=
  if egr then LAN80XX_M_MACSEC_EGR_CORE_EIP_TCAM_KEY_MASK_PAGE0_TCAM_MASK4_BVLAN_MASK else LAN80XX_M_MACSEC_INGR_CORE_EIP_TCAM_KEY_MASK_PAGE0_TCAM_MASK4_BVLAN_MASK.
Definition M_CORE_EIP_TCAM_KEY_MASK_PAGE0_TCAM_MASK4_SID_MASK (egr : bool) : Z :=
  if egr then LAN80XX_M_MACSEC_EGR_CORE_EIP_TCAM_KEY_MASK_PAGE0_TCAM_MASK4_SID_MASK else LAN80XX_M_MACSEC_INGR_CORE_EIP_TCAM_KEY_MASK_PAGE0_TCAM_MASK4_SID_MASK.
Definition M_CORE_EIP_TCAM_KEY_MASK_PAGE0_TCAM_MASK5_2_MPLS_MASK (egr : bool) : Z :=
  if egr then LAN80XX_M_MACSEC_EGR_CORE_EIP_TCAM_KEY_MASK_PAGE0_TCAM_MASK5_2_MPLS_MASK else LAN80XX_M_MACSEC_INGR_CORE_EIP_TCAM_KEY_MASK_PAGE0_TCAM_MASK5_2_MPLS_MASK.
Definition M_CORE_EIP_TCAM_KEY_MASK_PAGE0_TCAM_MASK5_OUT_VID_MASK (egr : bool) : Z :=
  if egr then LAN80XX_M_MACSEC_EGR_CORE_EIP_TCAM_KEY_MASK_PAGE0_TCAM_MASK5_OUT_VID_MASK else LAN80XX_M_MACSEC_INGR_CORE_EIP_TCAM_KEY_MASK_PAGE0_TCAM_MASK5_OUT_VID_MASK.
Definition M_CORE_EIP_TCAM_KEY_MASK_PAGE0_TCAM_MASK5_SID_MASK (egr : bool) : Z :=
  if egr then LAN80XX_M_MACSEC_EGR_CORE_EIP_TCAM_KEY_MASK_PAGE0_TCAM_MASK5_SID_MASK else LAN80XX_M_MACSEC_INGR_CORE_EIP_TCAM_KEY_MASK_PAGE0_TCAM_MASK5_SID_MASK.
Definition M_CORE_EIP_TCAM_KEY_MASK_PAGE1_TCAM_KEY0_MACSEC_TAGGED (egr : bool) : Z :=
  if egr then LAN80XX_M_MACSEC_EGR_CORE_EIP_TCAM_KEY_MASK_PAGE1_TCAM_KEY0_MACSEC_TAGGED else LAN80XX_M_MACSEC_INGR_CORE_EIP_TCAM_KEY_MASK_PAGE1_TCAM_KEY0_MACSEC_TAGGED.
Definition M_CORE_EIP_TCAM_POLICY_PAGE1_TCAM_POLICY_CONTROL_PKT (egr : bool) : Z :=
  if egr then LAN80XX_M_MACSEC_EGR_CORE_EIP_TCAM_POLICY_PAGE1_TCAM_POLICY_CONTROL_PKT else LAN80XX_M_MACSEC_INGR_CORE_EIP_TCAM_POLICY_PAGE1_TCAM_POLICY_CONTROL_PKT.
Definition M_CORE_EIP_TCAM_POLICY_PAGE1_TCAM_POLICY_DROP (egr : bool) : Z :=
  if egr then LAN80XX_M_MACSEC_EGR_CORE_EIP_TCAM_POLICY_PAGE1_TCAM_POLICY_DROP else LAN80XX_M_MACSEC_INGR_CORE_EIP_TCAM_POLICY_PAGE1_TCAM_POLICY_DROP.
Definition M_CORE_PBB_ENB_SELECT_PARSE_PBB (egr : bool) : Z :=
  if egr then LAN80XX_M_MACSEC_EGR_CORE_PBB_ENB_SELECT_PARSE_PBB else LAN80XX_M_MACSEC_INGR_CORE_PBB_ENB_SELECT_PARSE_PBB.
