(* ===== verification/Lan80xxMacsec.v ===== *)
(** * Lan80xxMacsec: the tables and the hardware of the LAN80xx's MACsec block

    [lan80xx_macsec_private.c]: access to the tables of SecYs, channels (SC) and
    associations (SA) in the private data, the search functions over them, the
    error counters, and the functions that program the hardware for one SA: its
    transform record, its TCAM entry, its flow and the map from channels to
    associations.

    A pointer into one of the tables is the index of its entry, and a pointer
    [secy] is the index of the SecY.  Reading through a NULL pointer or outside
    an array is undefined.  The [phy25g_macsec_internal_secy_t] and the other
    structures that the application passes by pointer, which it may not pass as
    NULL except [ssci], are values here.  The clock of [MEPA_UPTIME_SECONDS] and
    the byte order belong to the host: the class [Host]. *)

From Stdlib Require Import ZArith Lia List Bool String.
From stdpp Require Import base gmap strings list.
From S2P Require Import Prelude Machine Lan80xxRegs Lan80xxMacsecTypes Lan80xxCsr Lan80xxMacsecRegs.

(** [uptime] may change the bus as a callout does: time passes. *)
Class Host (B : Type) := {
  uptime : B -> Z * B;
  big_endian : bool;
}.

#[export] Instance sci_dec : EqDecision mepa_macsec_sci_t.
Proof. solve_decision. Defined.
#[export] Instance sak_dec : EqDecision mepa_macsec_sak_t.
Proof. solve_decision. Defined.

(** Return [rc] unless it is OK, as the macros [LAN80XX_CSR_WR] and
    [LAN80XX_CSR_WRM] do ([;;!]) and as [MEPA_RC] does for a negative code
    ([;;?]); [ensure m else e ;; k] is [if (m != MEPA_RC_OK) return e; k]. *)
Definition or_rc {B D} (m k : M B D Z) : M B D Z :=
  rc <- m ;; if negb (rc =? MEPA_RC_OK) then ret rc else k.
Definition or_else {B D} (m e k : M B D Z) : M B D Z :=
  rc <- m ;; if negb (rc =? MEPA_RC_OK) then e else k.
Notation "m ;;! k" := (or_rc m k) (at level 100, k at level 200, right associativity) : mepa_scope.
Notation "m ;;? k" := (try_rc m k) (at level 100, k at level 200, right associativity) : mepa_scope.
Notation "'ensure' m 'else' e ;; k" := (or_else m e k)
  (at level 100, m at level 99, e at level 99, k at level 200, right associativity) : mepa_scope.

(** [l[i]]: [None] outside of the array. *)
Definition idx {A} (l : list A) (i : Z) : option A := if i <? 0 then None else l !! Z.to_nat i.
Definition upd_idx {A} (f : A -> A) (i : Z) (l : list A) : list A := alter f (Z.to_nat i) l.

(** ** The tables

    [x_slot] is the pointer at a place of the tables, [x_ptr] the index it
    points to, [x_of] the entry. *)
Section Tables.
Implicit Type c : phy25g_macsec_internal_conf_t.

Definition secy_of c (secy : Z) : option phy25g_macsec_internal_secy_t := idx (mc_secy c) secy.
(** [secy->rx_sc[sc]] *)
Definition rx_sc_slot c (secy sc : Z) : option (option nat) :=
  s ← secy_of c secy; idx (secy_rx_sc s) sc.
Definition rx_sc_ptr c secy sc : option nat := mjoin (rx_sc_slot c secy sc).
Definition rx_sc_of c secy sc : option phy25g_macsec_internal_rx_sc_t :=
  p ← rx_sc_ptr c secy sc; mc_rx_sc c !! p.
(** [secy->rx_sc[sc]->sa[an]] *)
Definition rx_sa_slot c (secy sc an : Z) : option (option nat) :=
  r ← rx_sc_of c secy sc; idx (rsc_sa r) an.
Definition rx_sa_ptr c secy sc an : option nat := mjoin (rx_sa_slot c secy sc an).
Definition rx_sa_of c secy sc an : option phy25g_macsec_internal_rx_sa_t :=
  p ← rx_sa_ptr c secy sc an; mc_rx_sa c !! p.
(** [secy->tx_sc.sa[an]] *)
Definition tx_sa_slot c (secy an : Z) : option (option nat) :=
  s ← secy_of c secy; idx (tsc_sa (secy_tx_sc s)) an.
Definition tx_sa_ptr c secy an : option nat := mjoin (tx_sa_slot c secy an).
Definition tx_sa_of c secy an : option phy25g_macsec_internal_tx_sa_t :=
  p ← tx_sa_ptr c secy an; mc_tx_sa c !! p.

Definition alter_secy (f : phy25g_macsec_internal_secy_t -> phy25g_macsec_internal_secy_t) (secy : Z) c :=
  set_mc_secy (upd_idx f secy (mc_secy c)) c.
Definition alter_rx_sc f (p : nat) c := set_mc_rx_sc (alter f p (mc_rx_sc c)) c.
Definition alter_rx_sa f (p : nat) c := set_mc_rx_sa (alter f p (mc_rx_sa c)) c.
Definition alter_tx_sa f (p : nat) c := set_mc_tx_sa (alter f p (mc_tx_sa c)) c.
Definition alter_tx_sc f (secy : Z) c := alter_secy (fun s => set_secy_tx_sc (f (secy_tx_sc s)) s) secy c.
End Tables.

(** The capabilities are constants of the chip ([lan80xx_phy_capability_priv]). *)
Definition CAP_SECY_CNT : nat := Z.to_nat (LAN80XX_MACSEC_MAX_SA / 2).
Definition CAP_MAX_SA : nat := Z.to_nat LAN80XX_MACSEC_MAX_SA.
Definition CAP_MAX_SC : nat := Z.to_nat (LAN80XX_MACSEC_MAX_SA / 2).
(** [for (i = 0; i < n; i++)]: the first [i] that satisfies [f]. *)
Definition first_below (n : nat) (f : nat -> bool) : option nat := List.find f (seq 0 n).

Definition is_xpn (suite : Z) : bool :=
  (suite =? MEPA_MACSEC_CIPHER_SUITE_GCM_AES_XPN_128) || (suite =? MEPA_MACSEC_CIPHER_SUITE_GCM_AES_XPN_256).

(** The member of [rc_dbg_counters] that counts a code. *)
Definition rc_dbg_counter (rc : Z) : option string :=
  if rc =? MEPA_RC_ERR_MACSEC_INVALID_SCI_MACADDR then Some "invalid_sci_macaddr"%string
  else if rc =? MEPA_RC_ERR_MACSEC_NOT_ENABLED then Some "macsec_not_enabled"%string
  else if rc =? MEPA_RC_ERR_MACSEC_SECY_ALREADY_IN_USE then Some "secy_already_in_use"%string
  else if rc =? MEPA_RC_ERR_MACSEC_NO_SECY_FOUND then Some "no_secy_found"%string
  else if rc =? MEPA_RC_ERR_MACSEC_NO_SECY_VACANCY then Some "no_secy_vacency"%string
  else if rc =? MEPA_RC_ERR_MACSEC_INVALID_VALIDATE_FRM then Some "invalid_validate_frm"%string
  else if rc =? MEPA_RC_ERR_MACSEC_COULD_NOT_PRG_SA_MATCH then Some "could_not_prg_sa_match"%string
  else if rc =? MEPA_RC_ERR_MACSEC_COULD_NOT_PRG_SA_FLOW then Some "could_not_prg_sa_flow"%string
  else if rc =? MEPA_RC_ERR_MACSEC_COULD_NOT_ENA_SA then Some "could_not_ena_sa"%string
  else if rc =? MEPA_RC_ERR_MACSEC_COULD_NOT_SET_SA then Some "could_not_set_sa"%string
  else if rc =? MEPA_RC_ERR_MACSEC_INVALID_BYPASS_HDR_LEN then Some "invalid_hdr_bypass_len"%string
  else if rc =? MEPA_RC_ERR_MACSEC_SC_NOT_FOUND then Some "sc_not_found"%string
  else if rc =? MEPA_RC_ERR_MACSEC_NO_CTRL_FRM_MATCH then Some "no_ctrl_frm_match"%string
  else if rc =? MEPA_RC_ERR_MACSEC_COULD_NOT_SET_PATTERN then Some "could_not_set_pattern"%string
  else if rc =? MEPA_RC_ERR_MACSEC_TIMEOUT_ISSUE then Some "timeout_issue"%string
  else if rc =? MEPA_RC_ERR_MACSEC_COULD_NOT_EMPTY_EGRESS then Some "could_not_empty_egress"%string
  else if rc =? MEPA_RC_ERR_MACSEC_AN_NOT_CREATED then Some "an_not_created"%string
  else if rc =? MEPA_RC_ERR_MACSEC_COULD_NOT_EMPTY_INGRESS then Some "could_not_empty_ingress"%string
  else if rc =? MEPA_RC_ERR_MACSEC_TX_SC_NOT_EXIST then Some "tx_sc_not_exist"%string
  else if rc =? MEPA_RC_ERR_MACSEC_COULD_NOT_DISABLE_SA then Some "could_not_disable_sa"%string
  else if rc =? MEPA_RC_ERR_MACSEC_COULD_NOT_DEL_RX_SA then Some "could_not_del_tx_sa"%string
  else if rc =? MEPA_RC_ERR_MACSEC_COULD_NOT_DEL_TX_SA then Some "could_not_del_tx_sa"%string
  else if rc =? MEPA_RC_ERR_MACSEC_PATTERN_NOT_SET then Some "pattern_not_set"%string
  else if rc =? MEPA_RC_ERR_MACSEC_HW_RESOURCE_EXHUSTED then Some "hw_resource_exhusted"%string
  else if rc =? MEPA_RC_ERR_MACSEC_SCI_ALREADY_EXISTS then Some "sci_already_exist"%string
  else if rc =? MEPA_RC_ERR_MACSEC_SC_RESOURCE_NOT_FOUND then Some "sc_resource_not_found"%string
  else if rc =? MEPA_RC_ERR_MACSEC_RX_AN_ALREADY_IN_USE then Some "rx_an_already_in_use"%string
  else if rc =? MEPA_RC_ERR_MACSEC_EMPTY_RECORD then Some "empty_record"%string
  else if rc =? MEPA_RC_ERR_MACSEC_COULD_NOT_PRG_XFORM then Some "could_not_prg_xform"%string
  else if rc =? MEPA_RC_ERR_MACSEC_COULD_NOT_TOGGLE_SA then Some "could_not_toggle_sa"%string
  else if rc =? MEPA_RC_ERR_MACSEC_TX_AN_ALREADY_IN_USE then Some "tx_an_already_in_use"%string
  else if rc =? MEPA_RC_ERR_MACSEC_ALL_AVAILABLE_SA_IN_USE then Some "all_available_sa_in_use"%string
  else if rc =? MEPA_RC_ERR_MACSEC_MATCH_DISABLE then Some "match_disable"%string
  else if rc =? MEPA_RC_ERR_MACSEC_ALL_CP_RULES_IN_USE then Some "all_cp_rules_in_use"%string
  else if rc =? MEPA_RC_ERR_MACSEC_PATTERN_PRIO_NOT_VALID then Some "pattern_prio_not_valid"%string
  else if rc =? MEPA_RC_ERR_MACSEC_BUFFER_TOO_SMALL then Some "buffer_too_small"%string
  else if rc =? MEPA_RC_ERR_MACSEC_FRAME_TOO_LONG then Some "frm_too_long"%string
  else if rc =? MEPA_RC_ERR_MACSEC_FRAME_TRUNCATED then Some "frm_truncated"%string
  else if rc =? MEPA_RC_ERR_MACSEC_PHY_POWERED_DOWN then Some "phy_powered_down"%string
  else if rc =? MEPA_RC_ERR_MACSEC_PHY_NOT_MACSEC_CAPABLE then Some "phy_not_macsec_capable"%string
  else if rc =? MEPA_RC_ERR_MACSEC_AN_NOT_EXIST then Some "an_not_exist"%string
  else if rc =? MEPA_RC_ERR_MACSEC_NO_PATTERN_CFG then Some "no_pattern_cfg"%string
  else if rc =? MEPA_RC_ERR_MACSEC_MAX_MTU then Some "max_mtu"%string
  else if rc =? MEPA_RC_ERR_MACSEC_UNEXPECT_CP_MODE then Some "unexpected_cp_mode"%string
  else if rc =? MEPA_RC_ERR_MACSEC_COULD_NOT_DISABLE_AN then Some "could_not_disable_an"%string
  else if rc =? MEPA_RC_ERR_MACSEC_RULE_OUT_OF_RANGE then Some "rule_out_of_range"%string
  else if rc =? MEPA_RC_ERR_MACSEC_RULE_NOT_EXIST then Some "rule_not_exit"%string
  else if rc =? MEPA_RC_ERR_MACSEC_CSR_READ then Some "csr_read"%string
  else if rc =? MEPA_RC_ERR_MACSEC_CSR_WRITE then Some "csr_write"%string
  else None.
Definition count_rc (member : string) (m : gmap string Z) : gmap string Z :=
  <[member := u32 (default 0 (m !! member) + 1)]> m.

(** ** Bytes and identifiers *)
Definition lan80xx_get_u32 (buf : list Z) (off : nat) : Z :=
  let b i := default 0 (buf !! (off + i)%nat) in
  u32 (b 0%nat .| (b 1%nat .<< 8) .| (b 2%nat .<< 16) .| (b 3%nat .<< 24)).
Definition MACSEC_BS (x : Z) : Z := ((x .>> 8) .& 0x00FF) .| ((x .<< 8) .& 0xFF00).
(** The upper bytes of an SCI as the registers hold them. *)
Definition sci_hi (mac : list Z) (port_id : Z) : Z :=
  u32 (default 0 (mac !! 4%nat) .| (default 0 (mac !! 5%nat) .<< 8) .| (MACSEC_BS port_id .<< 16)).
Definition lan80xx_sci_cmp (a b : mepa_macsec_sci_t) : bool := bool_decide (a = b).

(** [mepa_macsec_pkt_num_t]: the member [pn] overlaps one half of [xpn]. *)
Section PktNum.
Context {B : Type} {HO : Host B}.
Definition pn_of (xpn : Z) : Z := if big_endian then xpn .>> 32 else u32 xpn.
Definition set_pn (xpn pn : Z) : Z :=
  if big_endian then (pn .<< 32) .| u32 xpn else ((xpn .>> 32) .<< 32) .| pn.
End PktNum.

(** ** Searches *)
Section Searches.
Implicit Type c : phy25g_macsec_internal_conf_t.

(** The channel of the SecY with this identifier. *)
Definition find_sc c (secy : Z) (sci : mepa_macsec_sci_t) : option nat :=
  first_below CAP_MAX_SC (fun i =>
    match rx_sc_of c secy (Z.of_nat i) with
    | Some r => rsc_in_use r && lan80xx_sci_cmp sci (rsc_sci r)
    | None => false
    end).

(** The identifiers of the SecYs in use, in the order in which the iterator
    yields them. *)
Definition lan80xx_macsec_secy_in_use_inter_getnext c : list Z :=
  map Z.of_nat (List.filter (fun i =>
    match secy_of c (Z.of_nat i) with Some s => secy_in_use s | None => false end) (seq 0 CAP_SECY_CNT)).

(** The channels of a SecY that are in use, and the associations of a
    channel, by index. *)
Definition rx_scs c (secy : Z) : list phy25g_macsec_internal_rx_sc_t :=
  List.filter rsc_in_use (omap (fun i => rx_sc_of c secy (Z.of_nat i)) (seq 0 CAP_MAX_SC)).
Definition sc_sas c (r : phy25g_macsec_internal_rx_sc_t) : list phy25g_macsec_internal_rx_sa_t :=
  List.filter rsa_in_use (omap (fun p => p ← p; mc_rx_sa c !! p) (rsc_sa r)).
Definition tx_sas c (secy : Z) : list phy25g_macsec_internal_tx_sa_t :=
  List.filter tsa_in_use (omap (fun an => tx_sa_of c secy (Z.of_nat an))
                               (seq 0 (Z.to_nat MEPA_MACSEC_SA_PER_SC_MAX))).

(** [found_sa] keeps its value from one channel to the next. *)
Definition check_resources c (is_sc : bool) (secy_id : Z) : bool :=
  let macsec_max_port_sa := LAN80XX_MACSEC_MAX_SA in
  let macsec_max_sc_rx := macsec_max_port_sa / 2 in
  let macsec_max_secy := macsec_max_sc_rx in
  let secys := lan80xx_macsec_secy_in_use_inter_getnext c in
  let found_sc i := existsb (fun sc => bool_decide (is_Some (rx_sc_ptr c i (Z.of_nat sc)))) (seq 0 CAP_MAX_SC) in
  let without_sc := List.filter (fun i => negb (found_sc i) && negb (is_sc && (secy_id =? i))) secys in
  let num_of_sa_rsrv := MEPA_MACSEC_SA_PER_SC_MIN + MEPA_MACSEC_SA_PER_SC_MIN * Z.of_nat (length without_sc) in
  let secy_in_use := Z.of_nat (length secys) in
  if negb is_sc && (secy_in_use =? macsec_max_secy) then false else
  let '(_, num_of_sa_rsrv) :=
    fold_left (fun '(found_sa, n) r =>
      if rsc_in_use r then
        let found_sa := found_sa || existsb (fun p => bool_decide (is_Some p)) (rsc_sa r) in
        (found_sa, if found_sa then n else n + MEPA_MACSEC_SA_PER_SC_MIN)
      else (found_sa, n)) (take CAP_MAX_SC (mc_rx_sc c)) (false, num_of_sa_rsrv) in
  let num_of_rx_sa_inuse := Z.of_nat (length (List.filter rsa_in_use (take CAP_MAX_SA (mc_rx_sa c)))) in
  num_of_rx_sa_inuse + num_of_sa_rsrv <=? macsec_max_port_sa.

(** The least [validate_frames] of all channels, STRICT without channel. *)
Definition glb_validate c : Z :=
  fold_left (fun val r => if rc_validate_frames (rsc_conf r) <? val then rc_validate_frames (rsc_conf r) else val)
    (concat (map (rx_scs c) (lan80xx_macsec_secy_in_use_inter_getnext c))) MEPA_MACSEC_VALIDATE_FRAMES_STRICT.

(** [ssci] is the pointer: NULL is [None]. *)
Definition lan80xx_is_ssci_valid c (egr : bool) (sci : mepa_macsec_sci_t) (ssci : option (list Z))
    (sak : mepa_macsec_sak_t) : Z :=
  match ssci with
  | None => MEPA_RC_ERROR
  | Some ssci =>
      let dup i :=
        if egr then
          match secy_of c i with
          | Some s => existsb (fun sa => bool_decide (ssci = tsa_ssci sa) && bool_decide (sak = tsa_sak sa)
                                         && bool_decide (sci = secy_sci s)) (tx_sas c i)
          | None => false
          end
        else
          existsb (fun r => existsb (fun sa => bool_decide (ssci = rsa_ssci sa) && bool_decide (sci = rsc_sci r)
                                               && bool_decide (sak = rsa_sak sa)) (sc_sas c r)) (rx_scs c i) in
      if existsb dup (lan80xx_macsec_secy_in_use_inter_getnext c) then MEPA_RC_ERROR else MEPA_RC_OK
  end.

(** The first record that is not in use. *)
Definition empty_record c (tx : bool) : option nat :=
  first_below CAP_MAX_SA (fun sa =>
    if tx then match mc_tx_sa c !! sa with Some r => negb (tsa_in_use r) | None => false end
    else match mc_rx_sa c !! sa with Some r => negb (rsa_in_use r) | None => false end).
End Searches.

Section Macsec.
Context {B : Type} {CO : Callout80 B} {HO : Host B}.
Variable dev : Z.
Notation M := (M (env80 B) phy25g_phy_state_t).
Notation conf_t := phy25g_macsec_internal_conf_t.

(** [data->macsec_conf], a look into it ([None]: NULL or out of bounds), and a
    store to it. *)
Definition macsec : M conf_t := d <- data_of dev ;; ret (p80_macsec_conf d).
Definition look {A} (f : conf_t -> option A) : M A :=
  c <- macsec ;; match f c with Some a => ret a | None => undefined end.
Definition modify (f : conf_t -> conf_t) : M unit :=
  upd dev (fun d => set_p80_macsec_conf (f (p80_macsec_conf d)) d).
Definition upd_secy (secy : Z) f : M unit :=
  look (fun c => secy_of c secy) ;;; modify (alter_secy f secy).
Definition upd_tx_sc (secy : Z) f : M unit :=
  look (fun c => secy_of c secy) ;;; modify (alter_tx_sc f secy).
(** A store through the pointer [secy->rx_sc[sc]], and so on. *)
Definition upd_rx_sc (secy sc : Z) f : M unit :=
  p <- look (fun c => rx_sc_ptr c secy sc) ;; modify (alter_rx_sc f p).
Definition upd_rx_sa (secy sc an : Z) f : M unit :=
  p <- look (fun c => rx_sa_ptr c secy sc an) ;; modify (alter_rx_sa f p).
Definition upd_tx_sa (secy an : Z) f : M unit :=
  p <- look (fun c => tx_sa_ptr c secy an) ;; modify (alter_tx_sa f p).

(** [(u32)MEPA_UPTIME_SECONDS()] *)
Definition MEPA_UPTIME_SECONDS : M Z := t <- on_bus uptime ;; ret (u32 t).

Definition CSR_WR (port_no : Z) (io_reg : ioreg_blk) (value : Z) : M Z :=
  lan80xx_csr_wr dev port_no (io_mmd io_reg) (io_is32 io_reg) (io_addr io_reg) value.
Definition CSR_WRM (p : Z) (io_reg : ioreg_blk) (value mask : Z) : M Z :=
  _lan80xx_csr_wrm dev p io_reg value mask.
Definition CSR_RD {A} (fail : Z -> M A) (p : Z) (io_reg : ioreg_blk) (value : Z) (k : Z -> M A) : M A :=
  LAN80XX_CSR_RD fail dev p io_reg value k.
Definition CNT64_RD {A} (fail : Z -> M A) (p : Z) (reg : ioreg_blk) (value : Z) (k : Z -> M A) : M A :=
  r <- _lan80xx_csr_rd_64 dev p reg value ;;
  if negb (fst r =? MEPA_RC_OK) then fail (fst r) else k (snd r).

(** During a warm start a register is written only if it differs. *)
Definition _lan80xx_csr_warm_wrm (port_no : Z) (io : ioreg_blk) (value mask chk_mask : Z) : M Z :=
  data <- data_of dev ;;
  if p80_sync_calling_private data then
    r <- lan80xx_csr_rd dev port_no (io_mmd io) (io_is32 io) (io_addr io) (uninit80 "curr_val") ;;
    if fst r <? MEPA_RC_OK then ret (fst r) else
    if tb ((Z.lxor (snd r) value) .& mask .& chk_mask) then
      lan80xx_csr_wrm dev port_no (io_mmd io) (io_is32 io) (io_addr io) value mask ;;? ret MEPA_RC_OK
    else ret MEPA_RC_OK
  else
    lan80xx_csr_wrm dev port_no (io_mmd io) (io_is32 io) (io_addr io) value mask ;;? ret MEPA_RC_OK.
Definition _lan80xx_csr_warm_wr (port_no : Z) (io : ioreg_blk) (value : Z) : M Z :=
  _lan80xx_csr_warm_wrm port_no io value 0xFFFFFFFF 0xFFFFFFFF.
Definition CSR_WARM_WRM (p : Z) (io_reg : ioreg_blk) (value mask : Z) : M Z :=
  _lan80xx_csr_warm_wrm p io_reg value mask 0xFFFFFFFF.
Definition CSR_WARM_WR (p : Z) (io_reg : ioreg_blk) (value : Z) : M Z := _lan80xx_csr_warm_wr p io_reg value.
Definition MACSEC_RC_COLD (expr : M Z) : M Z :=
  data <- data_of dev ;; if p80_sync_calling_private data then ret MEPA_RC_OK else expr.

(** ** Return codes and identifiers *)

Definition dbg_counter_incr (port_no rc : Z) : M Z :=
  let incr member := modify (fun c => set_mc_rc_dbg_counters (count_rc member (mc_rc_dbg_counters c)) c) in
  match rc_dbg_counter rc with
  | Some member => incr member ;;; ret rc
  | None => incr "unknown_rc_code"%string ;;; ret MEPA_RC_ERROR
  end.
Definition lan80xx_macsec_debug_counters_clear_priv (port_no : Z) : M Z :=
  modify (set_mc_rc_dbg_counters ∅) ;;; ret MEPA_RC_OK.

Definition lan80xx_port_macsec_enable_check (port : mepa_macsec_port_t) : M Z :=
  c <- macsec ;;
  if glb_init_enable (mc_glb c) =? 0 then dbg_counter_incr (mp_port_no port) MEPA_RC_ERR_MACSEC_NOT_ENABLED
  else ret MEPA_RC_OK.

(** The result is a [mepa_bool_t], so the error code of [LAN80XX_BASE_DEV]
    becomes 255. *)
Definition lan80xx_phy_is_macsec_capable : M Z :=
  data <- data_of dev ;;
  LAN80XX_BASE_DEV (fun rc => ret (u8 rc)) data (fun base_dev base_data =>
  ret (if negb (p80_macsec_disable base_data =? 0) then FALSE else TRUE)).
Definition lan80xx_macsec_cleartags_supported (port_no : Z) : M Z :=
  data <- data_of dev ;;
  LAN80XX_BASE_DEV (fun rc => ret (u8 rc)) data (fun base_dev base_data =>
  ret (if negb (p80_cleartags_disable base_data =? 0) then FALSE else TRUE)).
Definition lan80xx_macsec_port_enable_status_get_priv (port_no : Z) : M (Z * Z) :=
  capable <- lan80xx_phy_is_macsec_capable ;;
  c <- macsec ;;
  ret (MEPA_RC_ERROR,
       if negb (tb capable) then FALSE else if glb_init_enable (mc_glb c) =? 0 then FALSE else TRUE).

Definition LAN80XX_MAC_ADDR_BROADCAST : list Z := replicate 6 0xFF.
Definition LAN80XX_MAC_ADDR_ZERO : list Z := replicate 6 0.
Definition lan80xx_is_sci_valid (sci : mepa_macsec_sci_t) : M Z :=
  data <- data_of dev ;;
  if bool_decide (sci_mac_addr sci = LAN80XX_MAC_ADDR_BROADCAST) then
    dbg_counter_incr (p80_port_no data) MEPA_RC_ERR_MACSEC_INVALID_SCI_MACADDR
  else if bool_decide (sci_mac_addr sci = LAN80XX_MAC_ADDR_ZERO) then
    dbg_counter_incr (p80_port_no data) MEPA_RC_ERR_MACSEC_INVALID_SCI_MACADDR
  else ret MEPA_RC_OK.

(** The code and [*sc], which holds [sc] before the call. *)
Definition lan80xx_sc_from_sci_get (secy : Z) (sci : mepa_macsec_sci_t) (sc : Z) : M (Z * Z) :=
  data <- data_of dev ;;
  match find_sc (p80_macsec_conf data) secy sci with
  | Some i => ret (MEPA_RC_OK, Z.of_nat i)
  | None => rc <- dbg_counter_incr (p80_port_no data) MEPA_RC_ERR_MACSEC_SC_NOT_FOUND ;; ret (rc, sc)
  end.
Definition lan80xx_record_empty_get (port_no id : Z) (tx : bool) : M (Z * Z) :=
  c <- macsec ;;
  match empty_record c tx with
  | Some sa => ret (MEPA_RC_OK, Z.of_nat sa)
  | None => rc <- dbg_counter_incr port_no MEPA_RC_ERR_MACSEC_ALL_AVAILABLE_SA_IN_USE ;; ret (rc, id)
  end.

(** ** The words of a transform record

    The functions read through [secy->tx_sc.sa[an]] or
    [secy->rx_sc[sc]->sa[an]] as they need it. *)

(** The first page of code: what both functions return for the egress and
    ingress words with the SCI. *)
Definition sci_lo (secy : phy25g_macsec_internal_secy_t) : Z := lan80xx_get_u32 (sci_mac_addr (secy_sci secy)) 0.
Definition secy_sci_hi (secy : phy25g_macsec_internal_secy_t) : Z :=
  sci_hi (sci_mac_addr (secy_sci secy)) (sci_port_id (secy_sci secy)).

(** The arguments of the two functions: the SecY, and the association that
    [egr] selects with its channel. *)
Inductive sa_ref :=
  | TxSa (sa : phy25g_macsec_internal_tx_sa_t)
  | RxSa (rsc : phy25g_macsec_internal_rx_sc_t) (sa : phy25g_macsec_internal_rx_sa_t).
Definition ref_sak (r : sa_ref) : mepa_macsec_sak_t :=
  match r with TxSa sa => tsa_sak sa | RxSa _ sa => rsa_sak sa end.
Definition ref_ssci (r : sa_ref) : list Z :=
  match r with TxSa sa => tsa_ssci sa | RxSa _ sa => rsa_ssci sa end.
Definition sa_at (egr : bool) (secy an sc : Z) : M (phy25g_macsec_internal_secy_t * sa_ref) :=
  s <- look (fun c => secy_of c secy) ;;
  if egr then sa <- look (fun c => tx_sa_of c secy an) ;; ret (s, TxSa sa)
  else r <- look (fun c => rx_sc_of c secy sc) ;; sa <- look (fun c => rx_sa_of c secy sc an) ;; ret (s, RxSa r sa).

Definition xform_value_64 (i : Z) (aes_128 : bool) (secy : phy25g_macsec_internal_secy_t) (an : Z) (r : sa_ref) : Z :=
  let sak := ref_sak r in
  let rec16 :=
    match r with
    | TxSa _ => 0
    | RxSa sc _ => if rc_replay_window (rsc_conf sc) <=? LAN80XX_MACSEC_REPLAY_WINDOW_SIZE
                   then rc_replay_window (rsc_conf sc) else 0
    end in
  let replwin :=
    match r with
    | TxSa _ => 0
    | RxSa sc sa => u64 (rst_pn_lowest_pn (rsa_status sa) + rc_replay_window (rsc_conf sc))
    end in
  if i =? LAN80XX_MACSEC_XFORM_CTRL_WORD then
    match r with
    | TxSa _ => u32 ((if aes_128 then LAN80XX_XFORM_EGR_CTRL_WORD_64_BIT_128_AES
                      else LAN80XX_XFORM_EGR_CTRL_WORD_64_BIT_256_AES) .| (an .<< LAN80XX_MACSEC_CTRL_WRD_AN_BIT))
    | RxSa _ _ => if aes_128 then LAN80XX_XFORM_INGR_CTRL_WORD_64_BIT_128_AES
                  else LAN80XX_XFORM_INGR_CTRL_WORD_64_BIT_256_AES
    end
  else if i =? LAN80XX_MACSEC_XFORM_SEQ_NUM_0 then
    match r with
    | TxSa sa => u32 (u32 (tst_pn_next_pn (tsa_status sa)) - 1)
    | RxSa _ _ => u32 replwin
    end
  else if i =? LAN80XX_MACSEC_XFORM_SEQ_NUM_1 then
    match r with
    | TxSa sa => u32 (u64 (tst_pn_next_pn (tsa_status sa) - 1) .>> 32)
    | RxSa _ _ => u32 (replwin .>> 32)
    end
  else if i =? LAN80XX_MACSEC_XFORM_REC1_RESERVED then 0
  else if i =? LAN80XX_MACSEC_EGR_XFORM_SA_UPD_CTRL then rec16
  else if i =? LAN80XX_MACSEC_XFORM_EGR_SCI0_INGR_SA_UPD_CTRL then
    match r with TxSa _ => sci_lo secy | RxSa _ _ => u32 (an .<< LAN80XX_MACSEC_INGR_REC20_AN_BIT_POS) end
  else if i =? LAN80XX_MACSEC_XFORM_EGR_SCI1 then
    match r with TxSa _ => secy_sci_hi secy | RxSa _ _ => 0 end
  else if i <=? (if aes_128 then LAN80XX_MACSEC_XFORM_KEY_3 else LAN80XX_MACSEC_XFORM_KEY_7) then
    lan80xx_get_u32 (sak_buf sak) (Z.to_nat ((i - 2) * 4))
  else if (i <=? LAN80XX_MACSEC_XFORM_HASH_KEY_3) && (negb aes_128 || (i >=? LAN80XX_MACSEC_XFORM_HASH_KEY_0)) then
    lan80xx_get_u32 (sak_h_buf sak) (Z.to_nat ((i - 10) * 4))
  else if i =? LAN80XX_MACSEC_XFORM_CTX_SALT0 then
    Z.lxor (lan80xx_get_u32 (sak_salt sak) 0) (lan80xx_get_u32 (ref_ssci r) 0)
  else if i =? LAN80XX_MACSEC_XFORM_CTX_SALT1 then lan80xx_get_u32 (sak_salt sak) 4
  else if i =? LAN80XX_MACSEC_XFORM_CTX_SALT2 then lan80xx_get_u32 (sak_salt sak) 8
  else 0.
Definition lan80xx_get_xform_value_64 (tran_rec_index : Z) (egr aes_128 : bool) (secy an sc : Z) : M Z :=
  sr <- sa_at egr secy an sc ;;
  ret (xform_value_64 tran_rec_index aes_128 (fst sr) an (snd sr)).

Definition xform_value (i : Z) (aes_128 : bool) (secy : phy25g_macsec_internal_secy_t) (an : Z) (r : sa_ref) : Z :=
  let sak := ref_sak r in
  if i =? LAN80XX_MACSEC_XFORM_CTRL_WORD then
    match r with
    | TxSa _ => u32 ((if aes_128 then LAN80XX_XFORM_EGR_CTRL_WORD_32_BIT_128_AES
                      else LAN80XX_XFORM_EGR_CTRL_WORD_32_BIT_256_AES) .| (an .<< LAN80XX_MACSEC_CTRL_WRD_AN_BIT))
    | RxSa _ _ => if aes_128 then LAN80XX_XFORM_INGR_CTRL_WORD_32_BIT_128_AES
                  else LAN80XX_XFORM_INGR_CTRL_WORD_32_BIT_256_AES
    end
  else if i =? LAN80XX_MACSEC_XFORM_SEQ_NUM_0 then
    match r with TxSa sa => tst_next_pn (tsa_status sa) | RxSa _ sa => rst_lowest_pn (rsa_status sa) end
  else if i =? LAN80XX_MACSEC_XFORM_REC1_RESERVED then 0
  else if i =? LAN80XX_MACSEC_XFORM_EGR_SCI0_INGR_SA_UPD_CTRL then
    match r with TxSa _ => sci_lo secy | RxSa _ _ => u32 (an .<< LAN80XX_MACSEC_INGR_REC20_AN_BIT_POS) end
  else if i =? LAN80XX_MACSEC_XFORM_EGR_SCI1 then
    match r with TxSa _ => secy_sci_hi secy | RxSa _ _ => 0 end
  else if i =? LAN80XX_MACSEC_EGR_XFORM_SA_UPD_CTRL then
    match r with TxSa _ => sci_lo secy | RxSa sc _ => rc_replay_window (rsc_conf sc) end
  else if i =? LAN80XX_MACSEC_XFORM_CTX_SALT0 then
    match r with TxSa _ => 0 | RxSa _ _ => sci_lo secy end
  else if i =? LAN80XX_MACSEC_XFORM_CTX_SALT1 then
    match r with TxSa _ => 0 | RxSa _ _ => secy_sci_hi secy end
  else if i <=? (if aes_128 then LAN80XX_MACSEC_XFORM_KEY_3 else LAN80XX_MACSEC_XFORM_KEY_7) then
    lan80xx_get_u32 (sak_buf sak) (Z.to_nat ((i - 2) * 4))
  else if (i <=? LAN80XX_MACSEC_XFORM_HASH_KEY_3) && (negb aes_128 || (i >=? LAN80XX_MACSEC_XFORM_HASH_KEY_0)) then
    lan80xx_get_u32 (sak_h_buf sak) (Z.to_nat ((i - 10) * 4))
  else 0.
Definition lan80xx_get_xform_value (tran_rec_index : Z) (egr aes_128 : bool) (secy an sc : Z) : M Z :=
  sr <- sa_at egr secy an sc ;;
  ret (xform_value tran_rec_index aes_128 (fst sr) an (snd sr)).

(** [for (i = 0; i < n; i++) MEPA_RC(f(i))] *)
Fixpoint for_rc (f : Z -> M Z) (i : Z) (n : nat) (k : M Z) : M Z :=
  match n with O => k | S n => f i ;;? for_rc f (i + 1) n k end.

Definition xform_addr (record i : Z) : Z :=
  if record <? LAN80XX_MACSEC_XFORM_REC_NUM_PAGE0 then
    (LAN80XX_MACSEC_XFORM_PAGE0_ADDR + i) .| (record * LAN80XX_MACSEC_XFORM_REC_ADDR_OFFSET)
  else
    (LAN80XX_MACSEC_XFORM_PAGE1_ADDR + i) .| (record * LAN80XX_MACSEC_XFORM_REC_ADDR_OFFSET).
Definition mmd_of (egr : bool) : Z := if egr then MMD_ID_MACSEC_EGR else MMD_ID_MACSEC_INGR.

Definition lan80xx_macsec_sa_xform_set (port_no : Z) (egr : bool) (record secy an sc : Z) : M Z :=
  s <- look (fun c => secy_of c secy) ;;
  let suite := sc_current_cipher_suite (secy_conf s) in
  let wr i value := lan80xx_csr_wr dev port_no (mmd_of egr) (tb LAN80XX_IS_REG_32) (xform_addr record i) value in
  if negb (is_xpn suite) then
    let aes_128 := suite =? MEPA_MACSEC_CIPHER_SUITE_GCM_AES_128 in
    for_rc (fun i => v <- lan80xx_get_xform_value i egr aes_128 secy an sc ;; wr i v)
      0 (Z.to_nat LAN80XX_MACSEC_XFORM_REC_SIZE) (ret MEPA_RC_OK)
  else
    let aes_128 := suite =? MEPA_MACSEC_CIPHER_SUITE_GCM_AES_XPN_128 in
    for_rc (fun i => v <- lan80xx_get_xform_value_64 i egr aes_128 secy an sc ;; wr i v)
      0 (Z.to_nat LAN80XX_MACSEC_XFORM_REC_SIZE) (ret MEPA_RC_OK).
Definition lan80xx_macsec_sa_xform_reset (port_no : Z) (egr : bool) (record : Z) : M Z :=
  for_rc (fun i => lan80xx_csr_wr dev port_no (mmd_of egr) (tb LAN80XX_IS_REG_32) (xform_addr record i) 0)
    0 (Z.to_nat LAN80XX_MACSEC_XFORM_REC_SIZE) (ret MEPA_RC_OK).

(** ** Enabling an association

    The masks are built with [1 << n] for [n < 32]; a shift by more would be
    undefined. *)
Definition flag32 (n : Z) (k : Z -> M Z) : M Z := if n <? 32 then k (u32 (1 .<< n)) else undefined.

Definition lan80xx_macsec_sa_enable (port_no record : Z) (egr enable : bool) : M Z :=
  let wrm reg n := flag32 n (fun m => CSR_WRM port_no reg m m ;;! ret MEPA_RC_OK) in
  if enable then
    if record <? LAN80XX_MACSEC_SAM_ENTRY_SET1_NUM then wrm (CORE_SAM_ENB_CTRL_ENTRY_SET_1 egr) record
    else if record <? LAN80XX_MACSEC_SAM_ENTRY_SET2_NUM then
      wrm (CORE_SAM_ENB_CTRL_ENTRY_SET_2 egr) (record - LAN80XX_MACSEC_SAM_ENTRY_SET1_NUM)
    else if record <? LAN80XX_MACSEC_SAM_ENTRY_SET3_NUM then
      wrm (CORE_SAM_ENB_CTRL_ENTRY_SET_3 egr) (record - LAN80XX_MACSEC_SAM_ENTRY_SET2_NUM)
    else if record <? LAN80XX_MACSEC_SAM_ENTRY_SET4_NUM then
      wrm (CORE_SAM_ENB_CTRL_ENTRY_SET_4 egr) (record - LAN80XX_MACSEC_SAM_ENTRY_SET3_NUM)
    else ret MEPA_RC_OK
  else
    if record <? LAN80XX_MACSEC_SAM_ENTRY_SET1_NUM then wrm (CORE_SAM_ENB_CTRL_ENTRY_CLEAR_1 egr) record
    else if record <? LAN80XX_MACSEC_SAM_ENTRY_SET2_NUM then
      wrm (CORE_SAM_ENB_CTRL_ENTRY_CLEAR_2 egr) (record - LAN80XX_MACSEC_SAM_ENTRY_SET1_NUM)
    else if record <? LAN80XX_MACSEC_SAM_ENTRY_SET3_NUM then
      wrm (CORE_SAM_ENB_CTRL_ENTRY_CLEAR_3 egr) (record - LAN80XX_MACSEC_SAM_ENTRY_SET2_NUM)
    else wrm (CORE_SAM_ENB_CTRL_ENTRY_CLEAR_4 egr) (record - LAN80XX_MACSEC_SAM_ENTRY_SET3_NUM).

Definition lan80xx_macsec_sa_inuse (port_no record sc an : Z) (egr enable : bool) : M Z :=
  let on m := if enable then m else 0 in
  if sc <? LAN80XX_MACSEC_SC_REC_PAGE0_NUM then
    if egr then
      CSR_WR port_no (LAN80XX_MACSEC_EGR_CORE_SC_SA_MAP_PAGE0_SAM_SC_SA_MAP1_X sc)
        (LAN80XX_F_MACSEC_EGR_CORE_SC_SA_MAP_PAGE0_SAM_SC_SA_MAP1_X_SA_INDEX0 record
         .| on LAN80XX_M_MACSEC_EGR_CORE_SC_SA_MAP_PAGE0_SAM_SC_SA_MAP1_X_SA_IN_USE0) ;;!
      ret MEPA_RC_OK
    else if an =? 0 then
      CSR_WRM port_no (LAN80XX_MACSEC_INGR_CORE_SC_SA_MAP_PAGE0_SAM_SC_SA_MAP1_X sc)
        (LAN80XX_F_MACSEC_INGR_CORE_SC_SA_MAP_PAGE0_SAM_SC_SA_MAP1_X_SA_INDEX0 record
         .| on LAN80XX_M_MACSEC_INGR_CORE_SC_SA_MAP_PAGE0_SAM_SC_SA_MAP1_X_SA_IN_USE0)
        (LAN80XX_M_MACSEC_INGR_CORE_SC_SA_MAP_PAGE0_SAM_SC_SA_MAP1_X_SA_INDEX0
         .| LAN80XX_M_MACSEC_INGR_CORE_SC_SA_MAP_PAGE0_SAM_SC_SA_MAP1_X_SA_IN_USE0) ;;!
      ret MEPA_RC_OK
    else if an =? 1 then
      CSR_WRM port_no (LAN80XX_MACSEC_INGR_CORE_SC_SA_MAP_PAGE0_SAM_SC_SA_MAP1_X sc)
        (LAN80XX_F_MACSEC_INGR_CORE_SC_SA_MAP_PAGE0_SAM_SC_SA_MAP1_X_SA_INDEX1 record
         .| on LAN80XX_M_MACSEC_INGR_CORE_SC_SA_MAP_PAGE0_SAM_SC_SA_MAP1_X_SA_IN_USE1)
        (LAN80XX_M_MACSEC_INGR_CORE_SC_SA_MAP_PAGE0_SAM_SC_SA_MAP1_X_SA_INDEX1
         .| LAN80XX_M_MACSEC_INGR_CORE_SC_SA_MAP_PAGE0_SAM_SC_SA_MAP1_X_SA_IN_USE1) ;;!
      ret MEPA_RC_OK
    else if an =? 2 then
      CSR_WRM port_no (LAN80XX_MACSEC_INGR_CORE_SC_SA_MAP_PAGE0_SAM_SC_SA_MAP2_X sc)
        (LAN80XX_F_MACSEC_INGR_CORE_SC_SA_MAP_PAGE0_SAM_SC_SA_MAP2_X_SA_INDEX2 record
         .| on LAN80XX_M_MACSEC_INGR_CORE_SC_SA_MAP_PAGE0_SAM_SC_SA_MAP2_X_SA_IN_USE2)
        (LAN80XX_M_MACSEC_INGR_CORE_SC_SA_MAP_PAGE0_SAM_SC_SA_MAP2_X_SA_INDEX2
         .| LAN80XX_M_MACSEC_INGR_CORE_SC_SA_MAP_PAGE0_SAM_SC_SA_MAP2_X_SA_IN_USE2) ;;!
      ret MEPA_RC_OK
    else if an =? 3 then
      CSR_WRM port_no (LAN80XX_MACSEC_INGR_CORE_SC_SA_MAP_PAGE0_SAM_SC_SA_MAP2_X sc)
        (LAN80XX_F_MACSEC_INGR_CORE_SC_SA_MAP_PAGE0_SAM_SC_SA_MAP2_X_SA_INDEX3 record
         .| on LAN80XX_M_MACSEC_INGR_CORE_SC_SA_MAP_PAGE0_SAM_SC_SA_MAP2_X_SA_IN_USE3)
        (LAN80XX_M_MACSEC_INGR_CORE_SC_SA_MAP_PAGE0_SAM_SC_SA_MAP2_X_SA_INDEX3
         .| LAN80XX_M_MACSEC_INGR_CORE_SC_SA_MAP_PAGE0_SAM_SC_SA_MAP2_X_SA_IN_USE3) ;;!
      ret MEPA_RC_OK
    else ret MEPA_RC_ERROR
  else
    if egr then
      CSR_WR port_no (LAN80XX_MACSEC_EGR_CORE_SC_SA_MAP_PAGE1_SAM_SC_SA_MAP1_X sc LAN80XX_MACSEC_SC_REC_PAGE0_NUM)
        (LAN80XX_F_MACSEC_EGR_CORE_SC_SA_MAP_PAGE1_SAM_SC_SA_MAP1_X_SA_INDEX0 record
         .| on LAN80XX_M_MACSEC_EGR_CORE_SC_SA_MAP_PAGE1_SAM_SC_SA_MAP1_X_SA_IN_USE0) ;;!
      ret MEPA_RC_OK
    else if an =? 0 then
      CSR_WRM port_no (LAN80XX_MACSEC_INGR_CORE_SC_SA_MAP_PAGE1_SAM_SC_SA_MAP1_X sc LAN80XX_MACSEC_SC_REC_PAGE0_NUM)
        (LAN80XX_F_MACSEC_INGR_CORE_SC_SA_MAP_PAGE1_SAM_SC_SA_MAP1_X_SA_INDEX0 record
         .| on LAN80XX_M_MACSEC_INGR_CORE_SC_SA_MAP_PAGE1_SAM_SC_SA_MAP1_X_SA_IN_USE0)
        (LAN80XX_M_MACSEC_INGR_CORE_SC_SA_MAP_PAGE1_SAM_SC_SA_MAP1_X_SA_INDEX0
         .| LAN80XX_M_MACSEC_INGR_CORE_SC_SA_MAP_PAGE1_SAM_SC_SA_MAP1_X_SA_IN_USE0) ;;!
      ret MEPA_RC_OK
    else if an =? 1 then
      CSR_WRM port_no (LAN80XX_MACSEC_INGR_CORE_SC_SA_MAP_PAGE1_SAM_SC_SA_MAP1_X sc LAN80XX_MACSEC_SC_REC_PAGE0_NUM)
        (LAN80XX_F_MACSEC_INGR_CORE_SC_SA_MAP_PAGE1_SAM_SC_SA_MAP1_X_SA_INDEX1 record
         .| on LAN80XX_M_MACSEC_INGR_CORE_SC_SA_MAP_PAGE1_SAM_SC_SA_MAP1_X_SA_IN_USE1)
        (LAN80XX_M_MACSEC_INGR_CORE_SC_SA_MAP_PAGE1_SAM_SC_SA_MAP1_X_SA_INDEX1
         .| LAN80XX_M_MACSEC_INGR_CORE_SC_SA_MAP_PAGE1_SAM_SC_SA_MAP1_X_SA_IN_USE1) ;;!
      ret MEPA_RC_OK
    else if an =? 2 then
      CSR_WRM port_no (LAN80XX_MACSEC_INGR_CORE_SC_SA_MAP_PAGE1_SAM_SC_SA_MAP2_X sc LAN80XX_MACSEC_SC_REC_PAGE0_NUM)
        (LAN80XX_F_MACSEC_INGR_CORE_SC_SA_MAP_PAGE1_SAM_SC_SA_MAP2_X_SA_INDEX2 record
         .| on LAN80XX_M_MACSEC_INGR_CORE_SC_SA_MAP_PAGE1_SAM_SC_SA_MAP2_X_SA_IN_USE2)
        (LAN80XX_M_MACSEC_INGR_CORE_SC_SA_MAP_PAGE1_SAM_SC_SA_MAP2_X_SA_INDEX2
         .| LAN80XX_M_MACSEC_INGR_CORE_SC_SA_MAP_PAGE1_SAM_SC_SA_MAP2_X_SA_IN_USE2) ;;!
      ret MEPA_RC_OK
    else if an =? 3 then
      CSR_WRM port_no (LAN80XX_MACSEC_INGR_CORE_SC_SA_MAP_PAGE1_SAM_SC_SA_MAP2_X sc LAN80XX_MACSEC_SC_REC_PAGE0_NUM)
        (LAN80XX_F_MACSEC_INGR_CORE_SC_SA_MAP_PAGE1_SAM_SC_SA_MAP2_X_SA_INDEX3 record
         .| on LAN80XX_M_MACSEC_INGR_CORE_SC_SA_MAP_PAGE1_SAM_SC_SA_MAP2_X_SA_IN_USE3)
        (LAN80XX_M_MACSEC_INGR_CORE_SC_SA_MAP_PAGE1_SAM_SC_SA_MAP2_X_SA_INDEX3
         .| LAN80XX_M_MACSEC_INGR_CORE_SC_SA_MAP_PAGE1_SAM_SC_SA_MAP2_X_SA_IN_USE3) ;;!
      ret MEPA_RC_OK
    else ret MEPA_RC_ERROR.

Definition lan80xx_macsec_sam_entry_ctrl (port_no record : Z) (egr enable : bool) : M Z :=
  if enable then
    if egr then
      CSR_WR port_no LAN80XX_MACSEC_EGR_CORE_SAM_ENB_CTRL_SAM_ENTRY_ENABLE_CTRL
        (LAN80XX_F_MACSEC_EGR_CORE_SAM_ENB_CTRL_SAM_ENTRY_ENABLE_CTRL_SAM_INDEX_SET_0 record
         .| LAN80XX_M_MACSEC_EGR_CORE_SAM_ENB_CTRL_SAM_ENTRY_ENABLE_CTRL_SET_ENABLE_0) ;;!
      ret MEPA_RC_OK
    else
      CSR_WR port_no LAN80XX_MACSEC_INGR_CORE_SAM_ENB_CTRL_SAM_ENTRY_ENABLE_CTRL
        (LAN80XX_F_MACSEC_INGR_CORE_SAM_ENB_CTRL_SAM_ENTRY_ENABLE_CTRL_SAM_INDEX_SET_0 record
         .| LAN80XX_M_MACSEC_INGR_CORE_SAM_ENB_CTRL_SAM_ENTRY_ENABLE_CTRL_SET_ENABLE_0) ;;!
      ret MEPA_RC_OK
  else
    if egr then
      CSR_WR port_no LAN80XX_MACSEC_EGR_CORE_SAM_ENB_CTRL_SAM_ENTRY_ENABLE_CTRL
        (LAN80XX_F_MACSEC_EGR_CORE_SAM_ENB_CTRL_SAM_ENTRY_ENABLE_CTRL_SAM_INDEX_CLEAR_0 record
         .| LAN80XX_M_MACSEC_EGR_CORE_SAM_ENB_CTRL_SAM_ENTRY_ENABLE_CTRL_CLEAR_ENABLE_0) ;;!
      ret MEPA_RC_OK
    else
      CSR_WR port_no LAN80XX_MACSEC_INGR_CORE_SAM_ENB_CTRL_SAM_ENTRY_ENABLE_CTRL
        (LAN80XX_F_MACSEC_INGR_CORE_SAM_ENB_CTRL_SAM_ENTRY_ENABLE_CTRL_SAM_INDEX_CLEAR_0 record
         .| LAN80XX_M_MACSEC_INGR_CORE_SAM_ENB_CTRL_SAM_ENTRY_ENABLE_CTRL_CLEAR_ENABLE_0) ;;!
      ret MEPA_RC_OK.

Definition lan80xx_macsec_update_glb_validate (port_no : Z) : M Z :=
  c <- macsec ;;
  CSR_WARM_WRM port_no LAN80XX_MACSEC_INGR_CORE_MISC_CONTROL
    (LAN80XX_F_MACSEC_INGR_MACSEC_INGR_MISC_CONTROL_MACSEC_VALIDATE_FRAMES_0 (glb_validate c))
    LAN80XX_M_MACSEC_INGR_MACSEC_INGR_MISC_CONTROL_MACSEC_VALIDATE_FRAMES_0 ;;!
  ret MEPA_RC_OK.

(** [do { val = IN_FLIGHT; MSLEEP(1); count++; if (count == 100) return ...; } while (UNSAFE(val));]
    [n] is [100 - count]. *)
Fixpoint sam_in_flight (n : nat) (port_no : Z) (egr : bool) (val : Z) : M Z :=
  CSR_RD ret port_no (CORE_SAM_ENB_CTRL_SAM_IN_FLIGHT egr) val (fun val =>
  msleep 1 ;;;
  match n with
  | O | S O => dbg_counter_incr port_no MEPA_RC_ERR_MACSEC_TIMEOUT_ISSUE
  | S n => if tb (LAN80XX_F_MACSEC_EGR_CORE_SAM_ENB_CTRL_SAM_IN_FLIGHT_UNSAFE val) then sam_in_flight n port_no egr val
           else ret MEPA_RC_OK
  end).
Definition lan80xx_sa_sam_in_flight (port_no : Z) (egr : bool) : M Z := sam_in_flight 100 port_no egr 0.

(** ** The TCAM entry of an association

    With a bypassed header the entry holds the parameters of the header
    ([glb.cleartags_conf]), always in the registers of the first page. *)
Definition lan80xx_macsec_cleartags_conf_set_ (port_no : Z) (egr : bool) (record : Z)
    (pattern : mepa_macsec_match_pattern_t) : M Z :=
  c <- macsec ;;
  let tags_conf := glb_cleartags_conf (mc_glb c) in
  let num := ct_num_mpls_label tags_conf in
  let mpls := ct_packet_type tags_conf =? LAN80XX_PACKET_TYPE_MPLS in
  let pbb := ct_packet_type tags_conf =? LAN80XX_PACKET_TYPE_PBB in
  if mpls && (((num >? LAN80XX_MACSEC_EGR_MPLS_SUPPORT) && egr)
              || ((num >? LAN80XX_MACSEC_INGR_MPLS_SUPPORT) && negb egr)) then ret MEPA_RC_ERROR else
  let no_tags :=
    if mpls then if num <=? LAN80XX_MACSEC_NUM_MPLS_LABEL_0 then LAN80XX_BIT num else 0
    else if pbb then LAN80XX_BIT (ct_num_tag tags_conf) else 0 in
  let tags_ext :=
    if mpls then
      if num >? LAN80XX_MACSEC_EGR_MPLS_SUPPORT then LAN80XX_BIT 3
      else if num >? LAN80XX_MACSEC_NUM_MPLS_LABEL_0 then num - LAN80XX_MACSEC_NUM_MPLS_LABEL_0 else 0
    else 0 in
  CSR_WR port_no (CORE_EIP_TCAM_KEY_MASK_PAGE0_TCAM_KEY0 egr record)
    (F_CORE_EIP_TCAM_KEY_MASK_PAGE0_TCAM_KEY0_PACKET_TYPE egr (ct_packet_type tags_conf)
     .| F_CORE_EIP_TCAM_KEY_MASK_PAGE0_TCAM_KEY0_NUM_TAGS egr no_tags
     .| M_CORE_EIP_TCAM_KEY_MASK_PAGE0_TCAM_KEY0_MACSEC_TAGGED egr
     .| F_CORE_EIP_TCAM_KEY_MASK_PAGE0_TCAM_KEY0_NUM_TAGS_EXT egr tags_ext) ;;!
  CSR_WR port_no (CORE_EIP_TCAM_KEY_MASK_PAGE0_TCAM_KEY1 egr record) (lan80xx_get_u32 (pat_dest_mac pattern) 0) ;;!
  CSR_WR port_no (CORE_EIP_TCAM_KEY_MASK_PAGE0_TCAM_KEY2 egr record)
    (default 0 (pat_dest_mac pattern !! 4%nat) .| (default 0 (pat_dest_mac pattern !! 5%nat) .<< LAN80XX_8_BIT_SHIFT)) ;;!
  (if pbb then
     let btag := pbb_btag (ct_pbb_conf tags_conf) in
     let itag := pbb_itag (ct_pbb_conf tags_conf) in
     let btag_id := vl_vid btag in
     let itag_id := vl_vid itag in
     let cus_id := pbb_out_cus_vid (ct_pbb_conf tags_conf) in
     CSR_WR port_no (CORE_EIP_TCAM_KEY_MASK_PAGE0_TCAM_KEY4 egr record)
       (F_CORE_EIP_TCAM_KEY_MASK_PAGE0_TCAM_KEY4_BVLAN_ID_11_8 egr ((btag_id .>> LAN80XX_8_BIT_SHIFT) .& LAN80XX_BYTE_MASK)
        .| F_CORE_EIP_TCAM_KEY_MASK_PAGE0_TCAM_KEY4_BVLAN_DEI egr (vl_dei btag)
        .| F_CORE_EIP_TCAM_KEY_MASK_PAGE0_TCAM_KEY4_BVLAN_PCP egr (vl_pcp btag)
        .| F_CORE_EIP_TCAM_KEY_MASK_PAGE0_TCAM_KEY4_BVLAN_ID_7_0 egr (btag_id .& LAN80XX_BYTE_MASK)
        .| F_CORE_EIP_TCAM_KEY_MASK_PAGE0_TCAM_KEY4_SID_23_16 egr ((itag_id .>> LAN80XX_16_BIT_SHIFT) .& LAN80XX_BYTE_MASK)
        .| F_CORE_EIP_TCAM_KEY_MASK_PAGE0_TCAM_KEY4_SID_15_8 egr ((itag_id .>> LAN80XX_8_BIT_SHIFT) .& LAN80XX_BYTE_MASK)) ;;!
     CSR_WR port_no (CORE_EIP_TCAM_KEY_MASK_PAGE0_TCAM_KEY5 egr record)
       (F_CORE_EIP_TCAM_KEY_MASK_PAGE0_TCAM_KEY5_SID_7_0 egr (itag_id .& LAN80XX_BYTE_MASK)
        .| F_CORE_EIP_TCAM_KEY_MASK_PAGE0_TCAM_KEY5_IDEI egr (vl_dei itag)
        .| F_CORE_EIP_TCAM_KEY_MASK_PAGE0_TCAM_KEY5_IPCP egr (vl_pcp itag)) ;;!
     (if negb (ct_num_tag tags_conf =? LAN80XX_PBB_MPLS_VLAN_TAG_NONE) then
        CSR_WRM port_no (CORE_EIP_TCAM_KEY_MASK_PAGE0_TCAM_KEY5 egr record)
          (F_CORE_EIP_TCAM_KEY_MASK_PAGE0_TCAM_KEY5_OUT_VID_11_8 egr ((cus_id .>> LAN80XX_8_BIT_SHIFT) .& LAN80XX_WORD_MASK)
           .| F_CORE_EIP_TCAM_KEY_MASK_PAGE0_TCAM_KEY5_OUT_VID_7_0 egr (cus_id .& LAN80XX_BYTE_MASK))
          (M_CORE_EIP_TCAM_KEY_MASK_PAGE0_TCAM_KEY5_OUT_VID_11_8 egr
           .| M_CORE_EIP_TCAM_KEY_MASK_PAGE0_TCAM_KEY5_OUT_VID_7_0 egr)
      else ret MEPA_RC_OK) ;;!
     CSR_WR port_no (CORE_PBB_ENB_SELECT egr) (M_CORE_PBB_ENB_SELECT_PARSE_PBB egr)
   else ret MEPA_RC_OK) ;;!
  (if mpls then
     let mc := ct_mpls_conf tags_conf in
     let label1 := mpls_mpls1_label mc in
     let label2 := mpls_mpls2_label mc in
     let lab_select := u32 (((mpls_mpls2_num mc - 1) .<< LAN80XX_MPLS_LABEL_SELECT_3_BIT) .| (mpls_mpls1_num mc - 1)) in
     CSR_WR port_no (CORE_EIP_TCAM_KEY_MASK_PAGE0_TCAM_KEY4 egr record)
       (F_CORE_EIP_TCAM_KEY_MASK_PAGE0_TCAM_KEY4_1_MPLS_LABEL_19_12 egr ((label1 .>> LAN80XX_12_BIT_SHIFT) .& LAN80XX_BYTE_MASK)
        .| F_CORE_EIP_TCAM_KEY_MASK_PAGE0_TCAM_KEY4_1_MPLS_LABEL_11_4 egr ((label1 .>> LAN80XX_4_BIT_SHIFT) .& LAN80XX_BYTE_MASK)
        .| F_CORE_EIP_TCAM_KEY_MASK_PAGE0_TCAM_KEY4_1_MPLS_LABEL_S egr (mpls_mpls1_s mc)
        .| F_CORE_EIP_TCAM_KEY_MASK_PAGE0_TCAM_KEY4_1_MPLS_LABEL_EXP egr (mpls_mpls1_exp mc)
        .| F_CORE_EIP_TCAM_KEY_MASK_PAGE0_TCAM_KEY4_1_MPLS_LABEL_3_0 egr (label1 .& LAN80XX_WORD_MASK)) ;;!
     (* [lab_select] is still 0 here; the shift is by [(num - 3) * 4], which is
        out of range for fewer than three labels *)
     (if num <? LAN80XX_MACSEC_3_MPLS_LABEL then undefined else
      CSR_WR port_no (CORE_EIP_TCAM_KEY_MASK_PAGE0_TCAM_KEY5 egr record)
       (F_CORE_EIP_TCAM_KEY_MASK_PAGE0_TCAM_KEY5_2_MPLS_LABEL_19_12 egr ((label2 .>> LAN80XX_12_BIT_SHIFT) .& LAN80XX_BYTE_MASK)
        .| F_CORE_EIP_TCAM_KEY_MASK_PAGE0_TCAM_KEY5_2_MPLS_LABEL_11_4 egr ((label2 .>> LAN80XX_4_BIT_SHIFT) .& LAN80XX_BYTE_MASK)
        .| (0 .<< ((num - LAN80XX_MACSEC_3_MPLS_LABEL) * (2 * LAN80XX_MPLS_LABEL_SELECT_2_BIT))))) ;;!
     (if num =? LAN80XX_MACSEC_5_MPLS_LABEL then
        CSR_WR port_no LAN80XX_MACSEC_EGR_CORE_MPLS_ENB_SELECT (u32 (lab_select .<< LAN80XX_8_BIT_SHIFT))
      else ret MEPA_RC_OK) ;;!
     (if (num >=? LAN80XX_MACSEC_6_MPLS_LABEL) && (num <=? LAN80XX_MACSEC_EGR_MAX_MPLS_LABEL) then
        CSR_WR port_no LAN80XX_MACSEC_EGR_CORE_MPLS_ENB_SELECT2
          (u32 (lab_select .<< ((num - LAN80XX_MACSEC_6_MPLS_LABEL) * (2 * LAN80XX_MPLS_LABEL_SELECT_3_BIT))))
      else ret MEPA_RC_OK) ;;!
     (let m := LAN80XX_M_MACSEC_EGR_CORE_MPLS_ENB_SELECT_PARSE_MPLS1
               .| LAN80XX_M_MACSEC_EGR_CORE_MPLS_ENB_SELECT_PARSE_MPLS2
               .| LAN80XX_M_MACSEC_EGR_CORE_MPLS_ENB_SELECT_PARSE_MPLS3
               .| LAN80XX_M_MACSEC_EGR_CORE_MPLS_ENB_SELECT_PARSE_MPLS4 in
      CSR_WRM port_no LAN80XX_MACSEC_EGR_CORE_MPLS_ENB_SELECT m m) ;;!
     CSR_WRM port_no LAN80XX_MACSEC_EGR_CORE_MPLS_ENB_SELECT LAN80XX_M_MACSEC_EGR_CORE_MPLS_ENB_SELECT_PARSE_ELI
       LAN80XX_M_MACSEC_EGR_CORE_MPLS_ENB_SELECT_PARSE_ELI
   else ret MEPA_RC_OK) ;;!
  (let rule flag (m : M Z) := if tb (ct_match tags_conf .& flag) then m else ret MEPA_RC_OK in
   let mask reg m := CSR_WRM port_no reg m m in
   let mask4 := CORE_EIP_TCAM_KEY_MASK_PAGE0_TCAM_MASK4 egr record in
   let mask5 := CORE_EIP_TCAM_KEY_MASK_PAGE0_TCAM_MASK5 egr record in
   rule LAN80XX_MACSEC_MATCH_BVLAN_TAG (mask mask4 (M_CORE_EIP_TCAM_KEY_MASK_PAGE0_TCAM_MASK4_BVLAN_MASK egr)) ;;!
   rule LAN80XX_MACSEC_MATCH_IVLAN_TAG
     (mask mask4 (M_CORE_EIP_TCAM_KEY_MASK_PAGE0_TCAM_MASK4_SID_MASK egr) ;;!
      mask mask5 (M_CORE_EIP_TCAM_KEY_MASK_PAGE0_TCAM_MASK5_SID_MASK egr)) ;;!
   rule LAN80XX_MACSEC_MATCH_CVLAN (mask mask5 (M_CORE_EIP_TCAM_KEY_MASK_PAGE0_TCAM_MASK5_OUT_VID_MASK egr)) ;;!
   rule LAN80XX_MACSEC_MATCH_MPLS_1 (mask mask4 (M_CORE_EIP_TCAM_KEY_MASK_PAGE0_TCAM_MASK4_1_MPLS_MASK egr)) ;;!
   rule LAN80XX_MACSEC_MATCH_MPLS_2 (mask mask5 (M_CORE_EIP_TCAM_KEY_MASK_PAGE0_TCAM_MASK5_2_MPLS_MASK egr)) ;;!
   rule LAN80XX_MACSEC_MATCH_DISABLE (CSR_WR port_no mask4 0x0 ;;! CSR_WR port_no mask5 0x0)) ;;!
  ret MEPA_RC_OK.

(** The entry of a SecY; [sc] is the SecY's index (VPORT_INDEX). *)
Definition lan80xx_macsec_sa_tcam_key_mask_set (port_no : Z) (egr : bool) (record secy sc : Z)
    (pattern : mepa_macsec_match_pattern_t) : M Z :=
  c <- macsec ;;
  if (bm_mode (glb_bypass_mode (mc_glb c)) =? MEPA_MACSEC_BYPASS_HDR) && glb_cleartags_init_done (mc_glb c) then
    lan80xx_macsec_cleartags_conf_set_ port_no egr record pattern else
  s <- look (fun c => secy_of c secy) ;;
  let page1 := negb (record <? LAN80XX_MACSEC_XFORM_REC_NUM_PAGE0) in
  let p0 := LAN80XX_MACSEC_XFORM_REC_NUM_PAGE0 in
  let tag_bypass := secy_tag_bypass s in
  let dmac_hi := default 0 (pat_dest_mac pattern !! 4%nat) .| (default 0 (pat_dest_mac pattern !! 5%nat) .<< 8) in
  let key4 := u32 (MACSEC_BS (pat_etype pattern) .| (MACSEC_BS (pat_vid pattern) .<< 16)) in
  let key5 := u32 (MACSEC_BS (pat_vid_inner pattern) .<< 8) in
  let mask1 := if page1 then CORE_EIP_TCAM_KEY_MASK_PAGE1_TCAM_MASK1 egr record p0
               else CORE_EIP_TCAM_KEY_MASK_PAGE0_TCAM_MASK1 egr record in
  let mask2 := if page1 then CORE_EIP_TCAM_KEY_MASK_PAGE1_TCAM_MASK2 egr record p0
               else CORE_EIP_TCAM_KEY_MASK_PAGE0_TCAM_MASK2 egr record in
  let mask4 := if page1 then CORE_EIP_TCAM_KEY_MASK_PAGE1_TCAM_MASK4 egr record p0
               else CORE_EIP_TCAM_KEY_MASK_PAGE0_TCAM_MASK4 egr record in
  let mask5 := if page1 then CORE_EIP_TCAM_KEY_MASK_PAGE1_TCAM_MASK5 egr record p0
               else CORE_EIP_TCAM_KEY_MASK_PAGE0_TCAM_MASK5 egr record in
  let matches flag := tb (pat_match pattern .& flag) in
  let when (b : bool) (m : M Z) := if b then m else ret MEPA_RC_OK in
  (if negb page1 then
     CSR_WR port_no (CORE_EIP_TCAM_KEY_MASK_PAGE0_TCAM_KEY0 egr record)
       (F_CORE_EIP_TCAM_KEY_MASK_PAGE0_TCAM_KEY0_NUM_TAGS egr (1 .<< tag_bypass)
        .| M_CORE_EIP_TCAM_KEY_MASK_PAGE0_TCAM_KEY0_MACSEC_TAGGED egr) ;;!
     CSR_WR port_no (CORE_EIP_TCAM_KEY_MASK_PAGE0_TCAM_KEY1 egr record) (lan80xx_get_u32 (pat_dest_mac pattern) 0) ;;!
     CSR_WR port_no (CORE_EIP_TCAM_KEY_MASK_PAGE0_TCAM_KEY2 egr record) dmac_hi ;;!
     CSR_WR port_no (CORE_EIP_TCAM_KEY_MASK_PAGE0_TCAM_KEY4 egr record) key4 ;;!
     CSR_WR port_no (CORE_EIP_TCAM_KEY_MASK_PAGE0_TCAM_KEY5 egr record) key5
   else
     CSR_WR port_no (CORE_EIP_TCAM_KEY_MASK_PAGE1_TCAM_KEY0 egr record p0)
       (F_CORE_EIP_TCAM_KEY_MASK_PAGE1_TCAM_KEY0_NUM_TAGS egr (1 .<< tag_bypass)
        .| M_CORE_EIP_TCAM_KEY_MASK_PAGE1_TCAM_KEY0_MACSEC_TAGGED egr) ;;!
     CSR_WR port_no (CORE_EIP_TCAM_KEY_MASK_PAGE1_TCAM_KEY1 egr record p0) (lan80xx_get_u32 (pat_dest_mac pattern) 0) ;;!
     CSR_WR port_no (CORE_EIP_TCAM_KEY_MASK_PAGE1_TCAM_KEY2 egr record p0) dmac_hi ;;!
     CSR_WR port_no (CORE_EIP_TCAM_KEY_MASK_PAGE1_TCAM_KEY4 egr record p0) key4 ;;!
     CSR_WR port_no (CORE_EIP_TCAM_KEY_MASK_PAGE1_TCAM_KEY5 egr record p0) key5) ;;!
  (if matches MEPA_MACSEC_MATCH_SMAC then ret MEPA_RC_ERROR else
   when (matches MEPA_MACSEC_MATCH_DMAC)
     (CSR_WR port_no mask1 LAN80XX_MACSEC_TCAM_DESADDR_1_MASK ;;!
      CSR_WR port_no mask2 LAN80XX_MACSEC_TCAM_DESADDR_2_MASK) ;;!
   when (matches MEPA_MACSEC_MATCH_ETYPE)
     (let m := F_CORE_EIP_TCAM_KEY_MASK_PAGE0_TCAM_MASK4_ETHERTYPE_MASK egr LAN80XX_MACSEC_TCAM_ETHTYPE_MASK in
      CSR_WRM port_no mask4 m m) ;;!
   when (matches MEPA_MACSEC_MATCH_VLAN_ID && matches MEPA_MACSEC_MATCH_HAS_VLAN)
     (let m := F_CORE_EIP_TCAM_KEY_MASK_PAGE0_TCAM_MASK4_VLANTAG_MASK egr LAN80XX_MACSEC_TCAM_VLANTAG_MASK in
      CSR_WRM port_no mask4 m m) ;;!
   when (matches MEPA_MACSEC_MATCH_VLAN_ID_INNER && matches MEPA_MACSEC_MATCH_HAS_VLAN_INNER)
     (CSR_WR port_no mask5
        (F_CORE_EIP_TCAM_KEY_MASK_PAGE0_TCAM_MASK5_INNER_VLANTAG_MASK egr LAN80XX_MACSEC_TCAM_VLANTAG_MASK)) ;;!
   when (matches MEPA_MACSEC_MATCH_DISABLE)
     (CSR_WR port_no mask1 0 ;;! CSR_WR port_no mask2 0 ;;! CSR_WR port_no mask4 0 ;;! CSR_WR port_no mask5 0) ;;!
   if pat_priority pattern >? 15 then ret MEPA_RC_ERROR else
   CSR_WR port_no
     (if page1 then CORE_EIP_TCAM_POLICY_PAGE1_TCAM_POLICY egr record p0
      else CORE_EIP_TCAM_POLICY_PAGE0_TCAM_POLICY egr record)
     (F_CORE_EIP_TCAM_POLICY_PAGE0_TCAM_POLICY_VPORT_INDEX egr sc
      .| F_CORE_EIP_TCAM_POLICY_PAGE0_TCAM_POLICY_PRIO egr (15 - pat_priority pattern)) ;;!
   ret MEPA_RC_OK).

Definition lan80xx_macsec_sa_tcam_key_mask_reset (port_no : Z) (egr : bool) (record : Z) : M Z :=
  lan80xx_macsec_sam_entry_ctrl port_no record egr false ;;?
  (if record <? LAN80XX_MACSEC_XFORM_REC_NUM_PAGE0 then
     CSR_WR port_no (CORE_EIP_TCAM_KEY_MASK_PAGE0_TCAM_KEY0 egr record) 0 ;;!
     CSR_WR port_no (CORE_EIP_TCAM_KEY_MASK_PAGE0_TCAM_KEY1 egr record) 0 ;;!
     CSR_WR port_no (CORE_EIP_TCAM_KEY_MASK_PAGE0_TCAM_KEY2 egr record) 0 ;;!
     CSR_WR port_no (CORE_EIP_TCAM_KEY_MASK_PAGE0_TCAM_KEY4 egr record) 0 ;;!
     CSR_WR port_no (CORE_EIP_TCAM_KEY_MASK_PAGE0_TCAM_KEY5 egr record) 0 ;;!
     CSR_WR port_no (CORE_EIP_TCAM_KEY_MASK_PAGE0_TCAM_MASK0 egr record) 0 ;;!
     CSR_WR port_no (CORE_EIP_TCAM_KEY_MASK_PAGE0_TCAM_MASK1 egr record) 0 ;;!
     CSR_WR port_no (CORE_EIP_TCAM_KEY_MASK_PAGE0_TCAM_MASK2 egr record) 0 ;;!
     CSR_WR port_no (CORE_EIP_TCAM_KEY_MASK_PAGE0_TCAM_MASK4 egr record) 0 ;;!
     CSR_WR port_no (CORE_EIP_TCAM_KEY_MASK_PAGE0_TCAM_MASK5 egr record) 0
   else
     let p0 := LAN80XX_MACSEC_XFORM_REC_NUM_PAGE0 in
     CSR_WR port_no (CORE_EIP_TCAM_KEY_MASK_PAGE1_TCAM_KEY0 egr record p0) 0 ;;!
     CSR_WR port_no (CORE_EIP_TCAM_KEY_MASK_PAGE1_TCAM_KEY1 egr record p0) 0 ;;!
     CSR_WR port_no (CORE_EIP_TCAM_KEY_MASK_PAGE1_TCAM_KEY2 egr record p0) 0 ;;!
     CSR_WR port_no (CORE_EIP_TCAM_KEY_MASK_PAGE1_TCAM_KEY4 egr record p0) 0 ;;!
     CSR_WR port_no (CORE_EIP_TCAM_KEY_MASK_PAGE1_TCAM_KEY5 egr record p0) 0 ;;!
     CSR_WR port_no (CORE_EIP_TCAM_KEY_MASK_PAGE1_TCAM_MASK0 egr record p0) 0 ;;!
     CSR_WR port_no (CORE_EIP_TCAM_KEY_MASK_PAGE1_TCAM_MASK1 egr record p0) 0 ;;!
     CSR_WR port_no (CORE_EIP_TCAM_KEY_MASK_PAGE1_TCAM_MASK2 egr record p0) 0 ;;!
     CSR_WR port_no (CORE_EIP_TCAM_KEY_MASK_PAGE1_TCAM_MASK4 egr record p0) 0 ;;!
     CSR_WR port_no (CORE_EIP_TCAM_KEY_MASK_PAGE1_TCAM_MASK5 egr record p0) 0) ;;!
  ret MEPA_RC_OK.

Definition lan80xx_macsec_sa_tcam_policy_unctrl_drop (port_no record : Z) (egr : bool) (action : Z) : M Z :=
  CSR_WRM port_no
    (if negb (record <? LAN80XX_MACSEC_XFORM_REC_NUM_PAGE0)
     then CORE_EIP_TCAM_POLICY_PAGE1_TCAM_POLICY egr record LAN80XX_MACSEC_XFORM_REC_NUM_PAGE0
     else CORE_EIP_TCAM_POLICY_PAGE0_TCAM_POLICY egr record)
    ((if action =? MEPA_MACSEC_MATCH_ACTION_UNCONTROLLED_PORT
      then M_CORE_EIP_TCAM_POLICY_PAGE1_TCAM_POLICY_CONTROL_PKT egr else 0)
     .| (if action =? MEPA_MACSEC_MATCH_ACTION_DROP then M_CORE_EIP_TCAM_POLICY_PAGE1_TCAM_POLICY_DROP egr else 0))
    (M_CORE_EIP_TCAM_POLICY_PAGE1_TCAM_POLICY_CONTROL_PKT egr .| M_CORE_EIP_TCAM_POLICY_PAGE1_TCAM_POLICY_DROP egr) ;;!
  ret MEPA_RC_OK.

(** ** The flow of a SecY

    The offset of the SecTAG and the number of authenticated bytes before it
    ([sectag_offset] and [auth_len], [uint16_t]).  [auth_start], a byte, is
    computed but not programmed. *)
Definition flow_offsets (c : conf_t) (tag_bypass : Z) : Z * Z :=
  let tags_conf := glb_cleartags_conf (mc_glb c) in
  let std := (LAN80XX_MACSEC_STANDARD_SECTAG_OFFSET, LAN80XX_MAC_ADDRESS_LEN_BYTES) in
  let '(sectag_offset, auth_len) :=
    if (bm_mode (glb_bypass_mode (mc_glb c)) =? MEPA_MACSEC_BYPASS_HDR) && glb_cleartags_init_done (mc_glb c) then
      let mpls := ct_packet_type tags_conf =? LAN80XX_PACKET_TYPE_MPLS in
      let labels := LAN80XX_MAC_ADDRESS_LEN_BYTES + LAN80XX_ETHER_TYPE_LEN_BYTES
                    + ct_num_mpls_label tags_conf * LAN80XX_MPLS_LABEL_LEN_BYTE in
      let pw := ct_is_pw_ctrl_word tags_conf =? 1 in
      if ct_packet_type tags_conf =? LAN80XX_PACKET_TYPE_PBB then
        (if ct_sectag_off tags_conf =? LAN80XX_PBB_SECTAG_AFT_CMAC then LAN80XX_MACSEC_PBB_HEADER_BYTES
         else if ct_sectag_off tags_conf =? LAN80XX_PBB_SECTAG_AFT_1TAG then
           LAN80XX_MACSEC_PBB_HEADER_BYTES + LAN80XX_VLAN_TAG_LEN_BYTE
         else LAN80XX_MACSEC_PBB_HEADER_BYTES + LAN80XX_VLAN_TAG_LEN_BYTE + LAN80XX_VLAN_TAG_LEN_BYTE,
         LAN80XX_MAC_ADDRESS_LEN_BYTES)
      else if mpls && (ct_is_eo_mpls tags_conf =? 0) then
        (u16 (u16 labels + (if pw then LAN80XX_MPLS_PW_CTRL_WORD_LEN else 0)), 0)
      else if mpls && (ct_is_eo_mpls tags_conf =? 1) then
        let auth_start := u8 (u8 labels + (if pw then LAN80XX_MPLS_PW_CTRL_WORD_LEN else 0)) in
        let sectag_offset := auth_start + LAN80XX_MAC_ADDRESS_LEN_BYTES in
        (if ct_sectag_off tags_conf =? LAN80XX_PBB_SECTAG_AFT_1TAG then sectag_offset + LAN80XX_VLAN_TAG_LEN_BYTE
         else if ct_sectag_off tags_conf =? LAN80XX_PBB_SECTAG_AFT_2TAG then
           sectag_offset + 2 * LAN80XX_VLAN_TAG_LEN_BYTE
         else sectag_offset,
         LAN80XX_MAC_ADDRESS_LEN_BYTES)
      else std
    else std in
  (if bm_mode (glb_bypass_mode (mc_glb c)) =? MEPA_MACSEC_BYPASS_TAG then
     u16 (LAN80XX_MAC_ADDRESS_LEN_BYTES + LAN80XX_VLAN_TAG_LEN_BYTE * tag_bypass)
   else sectag_offset, auth_len).

(** What the flow registers get: from the SecY and its association. *)
Record flow := Flow {
  fl_type : Z; fl_dest_port : Z; fl_conf : Z; fl_rp : Z; fl_incl_sci : Z; fl_use_es : Z; fl_use_scb : Z;
  fl_protect_frm : Z; fl_offset : Z; fl_validate : Z;
}.

(** The writes of the flow registers, whose index is the SecY. *)
Definition flow_write (port_no : Z) (egr : bool) (secy_id : Z) (tags_conf : phy25g_macsec_cleartags_conf_t)
    (fl : flow) (sectag_offset auth_len : Z) : M Z :=
  let on x m := if tb x then m else 0 in
  if secy_id <? LAN80XX_MACSEC_SC_REC_PAGE0_NUM then
    if egr then
      CSR_WARM_WR port_no (LAN80XX_MACSEC_EGR_CORE_EIP_FLOW_CTRL_PAGE0_FLOW_CTRL_1 secy_id)
        (LAN80XX_F_MACSEC_EGR_CORE_EIP_FLOW_CTRL_PAGE0_FLOW_CTRL_1_FLOW_TYPE (fl_type fl)
         .| LAN80XX_F_MACSEC_EGR_CORE_EIP_FLOW_CTRL_PAGE0_FLOW_CTRL_1_DEST_PORT (fl_dest_port fl)
         .| LAN80XX_F_MACSEC_EGR_CORE_EIP_FLOW_CTRL_PAGE0_FLOW_CTRL_1_DROP_ACTION 2
         .| on (fl_protect_frm fl) LAN80XX_M_MACSEC_EGR_CORE_EIP_FLOW_CTRL_PAGE0_FLOW_CTRL_1_PROTECT_FRAME
         .| on (fl_conf fl) LAN80XX_M_MACSEC_EGR_CORE_EIP_FLOW_CTRL_PAGE0_FLOW_CTRL_1_CONF_PROTECT
         .| on (fl_incl_sci fl) LAN80XX_M_MACSEC_EGR_CORE_EIP_FLOW_CTRL_PAGE0_FLOW_CTRL_1_INCLUDE_SCI
         .| on (fl_use_es fl) LAN80XX_M_MACSEC_EGR_CORE_EIP_FLOW_CTRL_PAGE0_FLOW_CTRL_1_USE_ES
         .| on (fl_use_scb fl) LAN80XX_M_MACSEC_EGR_CORE_EIP_FLOW_CTRL_PAGE0_FLOW_CTRL_1_USE_SCB
         .| LAN80XX_M_MACSEC_EGR_CORE_EIP_FLOW_CTRL_PAGE0_FLOW_CTRL_1_ALLOW_DATA_PACKETS
         .| on (ct_is_eo_mpls tags_conf) LAN80XX_M_MACSEC_EGR_CORE_EIP_FLOW_CTRL_PAGE0_FLOW_CTRL_1_EOMPLS_SUBPORT
         .| on (ct_is_pw_ctrl_word tags_conf) LAN80XX_M_MACSEC_EGR_CORE_EIP_FLOW_CTRL_PAGE0_FLOW_CTRL_1_EOMPLS_CTRL_WORD
         .| LAN80XX_M_MACSEC_EGR_CORE_EIP_FLOW_CTRL_PAGE0_FLOW_CTRL_1_PREEMPT_EOP_GROWTH) ;;!
      CSR_WARM_WR port_no (LAN80XX_MACSEC_EGR_CORE_EIP_FLOW_CTRL_PAGE0_FLOW_CTRL_2 secy_id)
        (LAN80XX_F_MACSEC_EGR_CORE_EIP_FLOW_CTRL_PAGE0_FLOW_CTRL_2_PRE_SECTAG_AUTH_START 0
         .| LAN80XX_F_MACSEC_EGR_CORE_EIP_FLOW_CTRL_PAGE0_FLOW_CTRL_2_PRE_SECTAG_AUTH_LEN auth_len
         .| LAN80XX_F_MACSEC_EGR_CORE_EIP_FLOW_CTRL_PAGE0_FLOW_CTRL_2_SECTAG_OFFSET sectag_offset
         .| LAN80XX_F_MACSEC_EGR_CORE_EIP_FLOW_CTRL_PAGE0_FLOW_CTRL_2_CONFIDENTIALITY_OFFSET (fl_offset fl)) ;;!
      ret MEPA_RC_OK
    else
      CSR_WARM_WR port_no (LAN80XX_MACSEC_INGR_CORE_EIP_FLOW_CTRL_PAGE0_FLOW_CTRL_1 secy_id)
        (LAN80XX_F_MACSEC_INGR_CORE_EIP_FLOW_CTRL_PAGE0_FLOW_CTRL_1_FLOW_TYPE (fl_type fl)
         .| LAN80XX_F_MACSEC_INGR_CORE_EIP_FLOW_CTRL_PAGE0_FLOW_CTRL_1_DEST_PORT (fl_dest_port fl)
         .| LAN80XX_F_MACSEC_INGR_CORE_EIP_FLOW_CTRL_PAGE0_FLOW_CTRL_1_DROP_ACTION 2
         .| on (fl_rp fl) LAN80XX_M_MACSEC_INGR_CORE_EIP_FLOW_CTRL_PAGE0_FLOW_CTRL_1_REPLAY_PROTECT
         .| LAN80XX_M_MACSEC_INGR_CORE_EIP_FLOW_CTRL_PAGE0_FLOW_CTRL_1_ALLOW_TAGGED_DATA
         .| LAN80XX_M_MACSEC_INGR_CORE_EIP_FLOW_CTRL_PAGE0_FLOW_CTRL_1_ALLOW_UNTAGGED_DATA
         .| LAN80XX_F_MACSEC_INGR_CORE_EIP_FLOW_CTRL_PAGE0_FLOW_CTRL_1_VALIDATE_FRAMES_TAGGED (fl_validate fl)
         .| on (ct_is_eo_mpls tags_conf) LAN80XX_M_MACSEC_INGR_CORE_EIP_FLOW_CTRL_PAGE0_FLOW_CTRL_1_EOMPLS_SUBPORT
         .| on (ct_is_pw_ctrl_word tags_conf) LAN80XX_M_MACSEC_INGR_CORE_EIP_FLOW_CTRL_PAGE0_FLOW_CTRL_1_EOMPLS_CTRL_WORD) ;;!
      CSR_WARM_WR port_no (LAN80XX_MACSEC_INGR_CORE_EIP_FLOW_CTRL_PAGE0_FLOW_CTRL_2 secy_id)
        (LAN80XX_F_MACSEC_INGR_CORE_EIP_FLOW_CTRL_PAGE0_FLOW_CTRL_2_PRE_SECTAG_AUTH_START 0
         .| LAN80XX_F_MACSEC_INGR_CORE_EIP_FLOW_CTRL_PAGE0_FLOW_CTRL_2_PRE_SECTAG_AUTH_LEN auth_len
         .| LAN80XX_F_MACSEC_INGR_CORE_EIP_FLOW_CTRL_PAGE0_FLOW_CTRL_2_CONFIDENTIALITY_OFFSET (fl_offset fl)) ;;!
      ret MEPA_RC_OK
  else
    let p0 := LAN80XX_MACSEC_SC_REC_PAGE0_NUM in
    if egr then
      CSR_WARM_WR port_no (LAN80XX_MACSEC_EGR_CORE_EIP_FLOW_CTRL_PAGE1_FLOW_CTRL_1 secy_id p0)
        (LAN80XX_F_MACSEC_EGR_CORE_EIP_FLOW_CTRL_PAGE1_FLOW_CTRL_1_FLOW_TYPE (fl_type fl)
         .| LAN80XX_F_MACSEC_EGR_CORE_EIP_FLOW_CTRL_PAGE1_FLOW_CTRL_1_DEST_PORT (fl_dest_port fl)
         .| LAN80XX_F_MACSEC_EGR_CORE_EIP_FLOW_CTRL_PAGE1_FLOW_CTRL_1_DROP_ACTION 2
         .| on (fl_protect_frm fl) LAN80XX_M_MACSEC_EGR_CORE_EIP_FLOW_CTRL_PAGE1_FLOW_CTRL_1_PROTECT_FRAME
         .| on (fl_conf fl) LAN80XX_M_MACSEC_EGR_CORE_EIP_FLOW_CTRL_PAGE1_FLOW_CTRL_1_CONF_PROTECT
         .| on (fl_incl_sci fl) LAN80XX_M_MACSEC_EGR_CORE_EIP_FLOW_CTRL_PAGE1_FLOW_CTRL_1_INCLUDE_SCI
         .| on (fl_use_es fl) LAN80XX_M_MACSEC_EGR_CORE_EIP_FLOW_CTRL_PAGE1_FLOW_CTRL_1_USE_ES
         .| on (fl_use_scb fl) LAN80XX_M_MACSEC_EGR_CORE_EIP_FLOW_CTRL_PAGE1_FLOW_CTRL_1_USE_SCB
         .| LAN80XX_M_MACSEC_EGR_CORE_EIP_FLOW_CTRL_PAGE1_FLOW_CTRL_1_ALLOW_DATA_PACKETS
         .| on (ct_is_eo_mpls tags_conf) LAN80XX_M_MACSEC_EGR_CORE_EIP_FLOW_CTRL_PAGE1_FLOW_CTRL_1_EOMPLS_SUBPORT
         .| on (ct_is_pw_ctrl_word tags_conf) LAN80XX_M_MACSEC_EGR_CORE_EIP_FLOW_CTRL_PAGE1_FLOW_CTRL_1_EOMPLS_CTRL_WORD
         .| LAN80XX_M_MACSEC_EGR_CORE_EIP_FLOW_CTRL_PAGE1_FLOW_CTRL_1_PREEMPT_EOP_GROWTH) ;;!
      CSR_WARM_WR port_no (LAN80XX_MACSEC_EGR_CORE_EIP_FLOW_CTRL_PAGE1_FLOW_CTRL_2 secy_id p0)
        (LAN80XX_F_MACSEC_EGR_CORE_EIP_FLOW_CTRL_PAGE1_FLOW_CTRL_2_PRE_SECTAG_AUTH_START 0
         .| LAN80XX_F_MACSEC_EGR_CORE_EIP_FLOW_CTRL_PAGE1_FLOW_CTRL_2_PRE_SECTAG_AUTH_LEN auth_len
         .| LAN80XX_F_MACSEC_EGR_CORE_EIP_FLOW_CTRL_PAGE1_FLOW_CTRL_2_SECTAG_OFFSET sectag_offset
         .| LAN80XX_F_MACSEC_EGR_CORE_EIP_FLOW_CTRL_PAGE1_FLOW_CTRL_2_CONFIDENTIALITY_OFFSET (fl_offset fl)) ;;!
      ret MEPA_RC_OK
    else
      CSR_WARM_WR port_no (LAN80XX_MACSEC_INGR_CORE_EIP_FLOW_CTRL_PAGE1_FLOW_CTRL_1 secy_id p0)
        (LAN80XX_F_MACSEC_INGR_CORE_EIP_FLOW_CTRL_PAGE1_FLOW_CTRL_1_FLOW_TYPE (fl_type fl)
         .| LAN80XX_F_MACSEC_INGR_CORE_EIP_FLOW_CTRL_PAGE1_FLOW_CTRL_1_DEST_PORT (fl_dest_port fl)
         .| LAN80XX_F_MACSEC_INGR_CORE_EIP_FLOW_CTRL_PAGE1_FLOW_CTRL_1_DROP_ACTION 2
         .| on (fl_rp fl) LAN80XX_M_MACSEC_INGR_CORE_EIP_FLOW_CTRL_PAGE1_FLOW_CTRL_1_REPLAY_PROTECT
         .| LAN80XX_M_MACSEC_INGR_CORE_EIP_FLOW_CTRL_PAGE1_FLOW_CTRL_1_ALLOW_TAGGED_DATA
         .| LAN80XX_M_MACSEC_INGR_CORE_EIP_FLOW_CTRL_PAGE1_FLOW_CTRL_1_ALLOW_UNTAGGED_DATA
         .| LAN80XX_F_MACSEC_INGR_CORE_EIP_FLOW_CTRL_PAGE1_FLOW_CTRL_1_VALIDATE_FRAMES_TAGGED (fl_validate fl)
         .| on (ct_is_eo_mpls tags_conf) LAN80XX_M_MACSEC_INGR_CORE_EIP_FLOW_CTRL_PAGE1_FLOW_CTRL_1_EOMPLS_SUBPORT
         .| on (ct_is_pw_ctrl_word tags_conf) LAN80XX_M_MACSEC_INGR_CORE_EIP_FLOW_CTRL_PAGE1_FLOW_CTRL_1_EOMPLS_CTRL_WORD) ;;!
      CSR_WARM_WR port_no (LAN80XX_MACSEC_INGR_CORE_EIP_FLOW_CTRL_PAGE1_FLOW_CTRL_2 secy_id p0)
        (LAN80XX_F_MACSEC_INGR_CORE_EIP_FLOW_CTRL_PAGE1_FLOW_CTRL_2_PRE_SECTAG_AUTH_START 0
         .| LAN80XX_F_MACSEC_INGR_CORE_EIP_FLOW_CTRL_PAGE1_FLOW_CTRL_2_PRE_SECTAG_AUTH_LEN auth_len
         .| LAN80XX_F_MACSEC_INGR_CORE_EIP_FLOW_CTRL_PAGE1_FLOW_CTRL_2_CONFIDENTIALITY_OFFSET (fl_offset fl)) ;;!
      ret MEPA_RC_OK.

(** No caller passes a NULL [secy]. *)
Definition lan80xx_macsec_sa_flow_set (port_no : Z) (egr : bool) (record secy an sc secy_id action : Z) : M Z :=
  let flow_type :=
    if action =? MEPA_MACSEC_MATCH_ACTION_DROP then 1
    else if action =? MEPA_MACSEC_MATCH_ACTION_CONTROLLED_PORT then (if egr then 3 else 2)
    else 0 in
  let dest_port :=
    if action =? MEPA_MACSEC_MATCH_ACTION_DROP then 0
    else if action =? MEPA_MACSEC_MATCH_ACTION_CONTROLLED_PORT then 0
    else 3 in
  let program fl :=
    s <- look (fun c => secy_of c secy) ;;
    c <- macsec ;;
    let '(sectag_offset, auth_len) := flow_offsets c (secy_tag_bypass s) in
    flow_write port_no egr secy_id (glb_cleartags_conf (mc_glb c)) fl sectag_offset auth_len in
  s <- look (fun c => secy_of c secy) ;;
  if egr then
    sa <- look (fun c => tx_sa_of c secy an) ;;
    program (Flow flow_type dest_port (tsa_confidentiality sa) 0 (sc_always_include_sci (secy_conf s))
               (sc_use_es (secy_conf s)) (sc_use_scb (secy_conf s)) (sc_protect_frames (secy_conf s))
               (sc_confidentiality_offset (secy_conf s)) 0)
  else
    r <- look (fun c => rx_sc_of c secy sc) ;;
    let validate := rc_validate_frames (rsc_conf r) in
    if negb ((validate =? MEPA_MACSEC_VALIDATE_FRAMES_DISABLED) || (validate =? MEPA_MACSEC_VALIDATE_FRAMES_CHECK)
             || (validate =? MEPA_MACSEC_VALIDATE_FRAMES_STRICT)) then
      dbg_counter_incr port_no MEPA_RC_ERR_MACSEC_INVALID_VALIDATE_FRM
    else
      lan80xx_macsec_update_glb_validate port_no ;;?
      program (Flow flow_type dest_port 0 (rc_replay_protect (rsc_conf r)) 0 0 0 0
                 (rc_confidentiality_offset (rsc_conf r)) validate).

(** ** Walking the SecYs *)

(** The code and [*found_macsec_port]. *)
Definition lan80xx_macsec_port_get_next_priv (port_no : Z) (search_macsec_port : option mepa_macsec_port_t)
    (found_macsec_port : mepa_macsec_port_t) : M (Z * mepa_macsec_port_t) :=
  c <- macsec ;;
  let fix go (l : list Z) (found_port : bool) : Z * mepa_macsec_port_t :=
    match l with
    | [] => (MEPA_RC_ERROR, found_macsec_port)
    | i :: l =>
        match secy_of c i with
        | None => go l found_port
        | Some secy =>
            match search_macsec_port with
            | Some p =>
                if found_port then
                  (MEPA_RC_OK, Mk_mepa_macsec_port_t port_no (secy_service_id secy) (sci_port_id (secy_sci secy)))
                else if (mp_service_id p =? secy_service_id secy) && (mp_port_id p =? sci_port_id (secy_sci secy)) then
                  go l true
                else go l false
            | None =>
                (MEPA_RC_OK, Mk_mepa_macsec_port_t port_no (secy_service_id secy) (sci_port_id (secy_sci secy)))
            end
        end
    end in
  ret (go (lan80xx_macsec_secy_in_use_inter_getnext c) false).
End Macsec.
