(* ===== verification/Lan80xxMacsecSa.v ===== *)
(** * Lan80xxMacsecSa: associations, channels, patterns and SecYs

    [lan80xx_macsec_private.c]: the functions that create, activate, disable,
    delete and read associations (SA), the channels (SC) that hold them, the
    match patterns and the SecYs, and the counters of associations and
    channels: the functions of the source whose names end in an underscore, and
    what they call.

    A function that stores a result through a pointer returns the code and what
    the pointer points to after the call; when a call need not store anything,
    what it points to before the call is an argument. *)

From Stdlib Require Import ZArith Lia List Bool String.
From stdpp Require Import base gmap strings list.
From S2P Require Import Prelude Machine Lan80xxRegs Lan80xxMacsecTypes Lan80xxCsr Lan80xxMacsecRegs Lan80xxMacsec.

Section MacsecSa.
Context {B : Type} {CO : Callout80 B} {HO : Host B}.
Variable dev : Z.
Notation M := (M (env80 B) phy25g_phy_state_t).
Notation conf_t := phy25g_macsec_internal_conf_t.
Notation macsec := (Lan80xxMacsec.macsec dev).
Notation look := (Lan80xxMacsec.look dev).
Notation modify := (Lan80xxMacsec.modify dev).
Notation upd_secy := (Lan80xxMacsec.upd_secy dev).
Notation upd_tx_sc := (Lan80xxMacsec.upd_tx_sc dev).
Notation upd_rx_sc := (Lan80xxMacsec.upd_rx_sc dev).
Notation upd_rx_sa := (Lan80xxMacsec.upd_rx_sa dev).
Notation upd_tx_sa := (Lan80xxMacsec.upd_tx_sa dev).
Notation CSR_WR := (Lan80xxMacsec.CSR_WR dev).
Notation CSR_WRM := (Lan80xxMacsec.CSR_WRM dev).
Notation CSR_RD := (Lan80xxMacsec.CSR_RD dev).
Notation CNT64_RD := (Lan80xxMacsec.CNT64_RD dev).
Notation dbg_counter_incr := (Lan80xxMacsec.dbg_counter_incr dev).

(** The register of a record, on the page where the code looks for it. *)
Definition page_reg (page0 : Z -> ioreg_blk) (page1 : Z -> Z -> ioreg_blk) (record : Z) : ioreg_blk :=
  if record <? LAN80XX_MACSEC_XFORM_REC_NUM_PAGE0 then page0 record
  else page1 record LAN80XX_MACSEC_XFORM_REC_NUM_PAGE0.

(** ** Counters *)

Definition lan80xx_macsec_tx_sa_counters_get_ (port_no an secy_id : Z) : M (Z * mepa_macsec_tx_sa_counters_t) :=
  let zero := mepa_macsec_tx_sa_counters_t_0 in
  let fail rc := ret (rc, zero) in
  s <- look (fun c => secy_of c secy_id) ;;
  if negb (tsc_in_use (secy_tx_sc s)) then ret (MEPA_RC_OK, zero) else
  if an >=? MEPA_MACSEC_SA_PER_SC_MAX then ret (MEPA_RC_ERROR, zero) else
  p <- look (fun c => tx_sa_slot c secy_id an) ;;
  match p with
  | None => ret (MEPA_RC_OK, zero)
  | Some _ =>
      sa <- look (fun c => tx_sa_of c secy_id an) ;;
      let record := tsa_record sa in
      CNT64_RD fail port_no
        (page_reg LAN80XX_MACSEC_EGR_STAT_SA_COUNTERS_PAGE0_OUTPKTSENCRYPTEDPROTECTED_LO
                  LAN80XX_MACSEC_EGR_STAT_SA_COUNTERS_PAGE1_OUTPKTSENCRYPTEDPROTECTED_LO record) 0 (fun cnt =>
      let conf := tb (tsa_confidentiality sa) in
      let out_pkts_encrypted := if conf then cnt else 0 in
      (if conf then
         upd_tx_sa secy_id an (fun sa => set_tsa_cnt
           (Mk_mepa_macsec_tx_sa_counters_t 0 (u64 (tac_out_pkts_encrypted (tsa_cnt sa) + cnt))) sa) ;;;
         upd_tx_sc secy_id (fun t => set_tsc_cnt
           (set_tcc_out_pkts_protected 0 (set_tcc_out_pkts_encrypted (u64 (tcc_out_pkts_encrypted (tsc_cnt t) + cnt))
              (tsc_cnt t))) t)
       else
         upd_tx_sa secy_id an (fun sa => set_tsa_cnt
           (Mk_mepa_macsec_tx_sa_counters_t (u64 (tac_out_pkts_protected (tsa_cnt sa) + cnt)) 0) sa) ;;;
         upd_tx_sc secy_id (fun t => set_tsc_cnt
           (set_tcc_out_pkts_encrypted 0 (set_tcc_out_pkts_protected (u64 (tcc_out_pkts_protected (tsc_cnt t) + cnt))
              (tsc_cnt t))) t)) ;;;
      CNT64_RD fail port_no
        (page_reg LAN80XX_MACSEC_EGR_STAT_SA_COUNTERS_PAGE0_OUTOCTETSENCRYPTEDPROTECTED_LO
                  LAN80XX_MACSEC_EGR_STAT_SA_COUNTERS_PAGE1_OUTOCTETSENCRYPTEDPROTECTED_LO record) cnt (fun cnt =>
      let offset := u64 (out_pkts_encrypted * sc_confidentiality_offset (secy_conf s)) in
      let add_tcc_protected n := upd_tx_sc secy_id (fun t => set_tsc_cnt
            (set_tcc_out_octets_protected (u64 (tcc_out_octets_protected (tsc_cnt t) + n)) (tsc_cnt t)) t) in
      let add_syc_protected n := upd_secy secy_id (fun s => set_secy_secy_cnt
            (set_syc_out_octets_protected (u64 (syc_out_octets_protected (secy_secy_cnt s) + n)) (secy_secy_cnt s)) s) in
      (if sc_protect_frames (secy_conf s) =? FALSE then
         upd_tx_sc secy_id (fun t => set_tsc_out_octets_untagged (u64 (tsc_out_octets_untagged t + cnt)) t)
       else if conf then
         if cnt >? offset then
           upd_tx_sc secy_id (fun t => set_tsc_cnt
             (set_tcc_out_octets_encrypted (u64 (tcc_out_octets_encrypted (tsc_cnt t) + (cnt - offset))) (tsc_cnt t)) t) ;;;
           upd_secy secy_id (fun s => set_secy_secy_cnt
             (set_syc_out_octets_encrypted (u64 (syc_out_octets_encrypted (secy_secy_cnt s) + (cnt - offset)))
                (secy_secy_cnt s)) s) ;;;
           add_tcc_protected offset ;;;
           add_syc_protected offset
         else add_tcc_protected cnt
       else
         add_tcc_protected cnt ;;;
         add_syc_protected cnt) ;;;
      CNT64_RD fail port_no
        (page_reg LAN80XX_MACSEC_EGR_STAT_SA_COUNTERS_PAGE0_OUTPKTSTOOLONG_LO
                  LAN80XX_MACSEC_EGR_STAT_SA_COUNTERS_PAGE1_OUTPKTSTOOLONG_LO record) cnt (fun cnt =>
      upd_secy secy_id (fun s => set_secy_secy_cnt
        (set_syc_out_pkts_too_long (u64 (syc_out_pkts_too_long (secy_secy_cnt s) + cnt)) (secy_secy_cnt s)) s) ;;;
      sa <- look (fun c => tx_sa_of c secy_id an) ;;
      ret (MEPA_RC_OK, tsa_cnt sa))))
  end.

(** [for (an = 0; an < 4; an++) MEPA_RC(tx_sa_counters_get_(an))] is [for_rc]. *)
Definition lan80xx_macsec_tx_sc_counters_get_ (port_no secy_id : Z) : M (Z * mepa_macsec_tx_sc_counters_t) :=
  rc <- for_rc (fun an => r <- lan80xx_macsec_tx_sa_counters_get_ port_no an secy_id ;; ret (fst r))
          0 (Z.to_nat MEPA_MACSEC_SA_PER_SC_MAX) (ret MEPA_RC_OK) ;;
  if rc <? MEPA_RC_OK then ret (rc, mepa_macsec_tx_sc_counters_t_0) else
  upd_tx_sc secy_id (fun t => set_tsc_cnt
    (set_tcc_out_pkts_protected (u64 (tcc_out_pkts_protected (tsc_cnt t) + tac_out_pkts_protected (tsc_del_tx_sa_cnt t)))
      (set_tcc_out_pkts_encrypted (u64 (tcc_out_pkts_encrypted (tsc_cnt t) + tac_out_pkts_encrypted (tsc_del_tx_sa_cnt t)))
        (tsc_cnt t))) t) ;;;
  s <- look (fun c => secy_of c secy_id) ;;
  ret (MEPA_RC_OK, tsc_cnt (secy_tx_sc s)).

(** The counters of a received packet, in the order of the code. *)
Definition rx_pkt_counters : list ((Z -> ioreg_blk) * (Z -> Z -> ioreg_blk)
    * (mepa_macsec_rx_sa_counters_t -> Z) * (Z -> mepa_macsec_rx_sa_counters_t -> mepa_macsec_rx_sa_counters_t)) :=
  [ (LAN80XX_MACSEC_INGR_STAT_SA_COUNTERS_PAGE0_INPKTSOK_LO, LAN80XX_MACSEC_INGR_STAT_SA_COUNTERS_PAGE1_INPKTSOK_LO,
     rac_in_pkts_ok, set_rac_in_pkts_ok);
    (LAN80XX_MACSEC_INGR_STAT_SA_COUNTERS_PAGE0_INPKTSINVALID_LO, LAN80XX_MACSEC_INGR_STAT_SA_COUNTERS_PAGE1_INPKTSINVALID_LO,
     rac_in_pkts_invalid, set_rac_in_pkts_invalid);
    (LAN80XX_MACSEC_INGR_STAT_SA_COUNTERS_PAGE0_INPKTSNOTVALID_LO, LAN80XX_MACSEC_INGR_STAT_SA_COUNTERS_PAGE1_INPKTSNOTVALID_LO,
     rac_in_pkts_not_valid, set_rac_in_pkts_not_valid);
    (LAN80XX_MACSEC_INGR_STAT_SA_COUNTERS_PAGE0_INPKTSNOTUSINGSA_LO, LAN80XX_MACSEC_INGR_STAT_SA_COUNTERS_PAGE1_INPKTSNOTUSINGSA_LO,
     rac_in_pkts_not_using_sa, set_rac_in_pkts_not_using_sa);
    (LAN80XX_MACSEC_INGR_STAT_SA_COUNTERS_PAGE0_INPKTSUNUSEDSA_LO, LAN80XX_MACSEC_INGR_STAT_SA_COUNTERS_PAGE1_INPKTSUNUSEDSA_LO,
     rac_in_pkts_unused_sa, set_rac_in_pkts_unused_sa);
    (LAN80XX_MACSEC_INGR_STAT_SA_COUNTERS_PAGE0_INPKTSUNCHECKED_LO, LAN80XX_MACSEC_INGR_STAT_SA_COUNTERS_PAGE1_INPKTSUNCHECKED_LO,
     rac_in_pkts_unchecked, set_rac_in_pkts_unchecked);
    (LAN80XX_MACSEC_INGR_STAT_SA_COUNTERS_PAGE0_INPKTSDELAYED_LO, LAN80XX_MACSEC_INGR_STAT_SA_COUNTERS_PAGE1_INPKTSDELAYED_LO,
     rac_in_pkts_delayed, set_rac_in_pkts_delayed);
    (LAN80XX_MACSEC_INGR_STAT_SA_COUNTERS_PAGE0_INPKTSLATE_LO, LAN80XX_MACSEC_INGR_STAT_SA_COUNTERS_PAGE1_INPKTSLATE_LO,
     rac_in_pkts_late, set_rac_in_pkts_late) ].

(** Read each of them and add it; [k] gets the values. *)
Fixpoint rx_sa_read {A} (fail : Z -> M A) (l : list _) (port_no secy_id sc an record cnt : Z) (read : list Z)
    (k : list Z -> M A) : M A :=
  match l with
  | [] => k read
  | (page0, page1, get, set) :: l =>
      CNT64_RD fail port_no (page_reg page0 page1 record) cnt (fun cnt =>
      upd_rx_sa secy_id sc an (fun sa => set_rsa_cnt (set (u64 (get (rsa_cnt sa) + cnt)) (rsa_cnt sa)) sa) ;;;
      rx_sa_read fail l port_no secy_id sc an record cnt (read ++ [cnt]) k)
  end.

(** The packet counters of the chips A0 and A1 are random and count as 0. *)
Definition lan80xx_macsec_rx_sa_counters_get_ (port_no : Z) (sci : mepa_macsec_sci_t) (an secy_id : Z) :
    M (Z * mepa_macsec_rx_sa_counters_t) :=
  let zero := mepa_macsec_rx_sa_counters_t_0 in
  let fail rc := ret (rc, zero) in
  r <- lan80xx_sc_from_sci_get dev secy_id sci 0 ;;
  if fst r <? MEPA_RC_OK then ret (fst r, zero) else
  let sc := snd r in
  p <- look (fun c => rx_sc_slot c secy_id sc) ;;
  match p with None => ret (MEPA_RC_ERROR, zero) | Some _ =>
  p <- look (fun c => rx_sa_slot c secy_id sc an) ;;
  match p with None => ret (MEPA_RC_ERROR, zero) | Some _ =>
  sa <- look (fun c => rx_sa_of c secy_id sc an) ;;
  let record := rsa_record sa in
  rx_sa_read fail rx_pkt_counters port_no secy_id sc an record 0 [] (fun read =>
  let in_ok_pkts := default 0 (head read) in
  CNT64_RD fail port_no
    (page_reg LAN80XX_MACSEC_INGR_STAT_SA_COUNTERS_PAGE0_INOCTETSDECRYPTED_LO
              LAN80XX_MACSEC_INGR_STAT_SA_COUNTERS_PAGE1_INOCTETSDECRYPTED_LO record) (default 0 (last read)) (fun cnt =>
  data <- data_of dev ;;
  let ax := (p80_rev data =? LAN80XX_REV_A0) || (p80_rev data =? LAN80XX_REV_A1) in
  let in_ok_pkts := if ax then 0 else in_ok_pkts in
  (if ax then
     upd_rx_sa secy_id sc an (fun sa => set_rsa_cnt
       (set_rac_in_pkts_not_valid 0 (set_rac_in_pkts_invalid 0 (set_rac_in_pkts_ok 0 (rsa_cnt sa)))) sa)
   else ret tt) ;;;
  s <- look (fun c => secy_of c secy_id) ;;
  let validate := sc_validate_frames (secy_conf s) in
  let offset := u64 (in_ok_pkts * sc_confidentiality_offset (secy_conf s)) in
  let add_validated n := upd_rx_sc secy_id sc (fun r => set_rsc_cnt
        (set_rcc_in_octets_validated (u64 (rcc_in_octets_validated (rsc_cnt r) + n)) (rsc_cnt r)) r) in
  (if validate =? MEPA_MACSEC_VALIDATE_FRAMES_STRICT then
     if cnt >? offset then
       upd_rx_sc secy_id sc (fun r => set_rsc_cnt
         (set_rcc_in_octets_decrypted (u64 (rcc_in_octets_decrypted (rsc_cnt r) + (cnt - offset))) (rsc_cnt r)) r) ;;;
       add_validated offset
     else add_validated cnt
   else ret tt) ;;;
  (if validate =? MEPA_MACSEC_VALIDATE_FRAMES_DISABLED then
     upd_rx_sc secy_id sc (fun r =>
       set_rsc_in_octets_validation_disabled (u64 (rsc_in_octets_validation_disabled r + cnt)) r)
   else ret tt) ;;;
  sa <- look (fun c => rx_sa_of c secy_id sc an) ;;
  ret (MEPA_RC_OK, rsa_cnt sa)))
  end end.

(** [x.in_pkts_* += y.in_pkts_*], for the counters of an SC and of an SA. *)
Definition rcc_add (x : mepa_macsec_rx_sc_counters_t) (y : mepa_macsec_rx_sa_counters_t) : mepa_macsec_rx_sc_counters_t :=
  Mk_mepa_macsec_rx_sc_counters_t
    (u64 (rcc_in_pkts_unchecked x + rac_in_pkts_unchecked y)) (u64 (rcc_in_pkts_delayed x + rac_in_pkts_delayed y))
    (u64 (rcc_in_pkts_late x + rac_in_pkts_late y)) (u64 (rcc_in_pkts_ok x + rac_in_pkts_ok y))
    (u64 (rcc_in_pkts_invalid x + rac_in_pkts_invalid y)) (u64 (rcc_in_pkts_not_valid x + rac_in_pkts_not_valid y))
    (u64 (rcc_in_pkts_not_using_sa x + rac_in_pkts_not_using_sa y)) (u64 (rcc_in_pkts_unused_sa x + rac_in_pkts_unused_sa y))
    (rcc_in_octets_validated x) (rcc_in_octets_decrypted x).
Definition rac_add (x y : mepa_macsec_rx_sa_counters_t) : mepa_macsec_rx_sa_counters_t :=
  Mk_mepa_macsec_rx_sa_counters_t
    (u64 (rac_in_pkts_ok x + rac_in_pkts_ok y)) (u64 (rac_in_pkts_invalid x + rac_in_pkts_invalid y))
    (u64 (rac_in_pkts_not_valid x + rac_in_pkts_not_valid y)) (u64 (rac_in_pkts_not_using_sa x + rac_in_pkts_not_using_sa y))
    (u64 (rac_in_pkts_unused_sa x + rac_in_pkts_unused_sa y)) (u64 (rac_in_pkts_unchecked x + rac_in_pkts_unchecked y))
    (u64 (rac_in_pkts_delayed x + rac_in_pkts_delayed y)) (u64 (rac_in_pkts_late x + rac_in_pkts_late y)).
(** The octet counters of an SC are not cleared with its packet counters. *)
Definition rcc_clear_pkts (x : mepa_macsec_rx_sc_counters_t) : mepa_macsec_rx_sc_counters_t :=
  Mk_mepa_macsec_rx_sc_counters_t 0 0 0 0 0 0 0 0 (rcc_in_octets_validated x) (rcc_in_octets_decrypted x).

(** Is [secy->rx_sc[sc]->sa[an]] an association in use? *)
Definition rx_sa_live (c : conf_t) (secy sc an : Z) : option bool :=
  p ← rx_sa_slot c secy sc an;
  match p with None => Some false | Some p => sa ← mc_rx_sa c !! p; Some (rsa_in_use sa) end.
Definition tx_sa_live (c : conf_t) (secy an : Z) : option bool :=
  p ← tx_sa_slot c secy an;
  match p with None => Some false | Some p => sa ← mc_tx_sa c !! p; Some (tsa_in_use sa) end.

(** The packet counters of the SC are those of its associations, those it has
    and those it had. *)
Definition lan80xx_macsec_rx_sc_counters_get_ (port_no : Z) (sci : mepa_macsec_sci_t)
    (counters : mepa_macsec_rx_sc_counters_t) (secy_id : Z) : M (Z * mepa_macsec_rx_sc_counters_t) :=
  r <- lan80xx_sc_from_sci_get dev secy_id sci 0 ;;
  if fst r <? MEPA_RC_OK then ret (fst r, counters) else
  let sc := snd r in
  p <- look (fun c => rx_sc_slot c secy_id sc) ;;
  match p with None => ret (MEPA_RC_ERROR, counters) | Some _ =>
  upd_rx_sc secy_id sc (fun r => set_rsc_cnt (rcc_clear_pkts (rsc_cnt r)) r) ;;;
  rc <- for_rc (fun an =>
          live <- look (fun c => rx_sa_live c secy_id sc an) ;;
          if negb live then ret MEPA_RC_OK else
          r <- lan80xx_macsec_rx_sa_counters_get_ port_no sci an secy_id ;;
          if fst r <? MEPA_RC_OK then ret (fst r) else
          upd_rx_sc secy_id sc (fun x => set_rsc_cnt (rcc_add (rsc_cnt x) (snd r)) x) ;;; ret MEPA_RC_OK)
          0 (Z.to_nat MEPA_MACSEC_SA_PER_SC_MAX) (ret MEPA_RC_OK) ;;
  if rc <? MEPA_RC_OK then ret (rc, mepa_macsec_rx_sc_counters_t_0) else
  upd_rx_sc secy_id sc (fun x => set_rsc_cnt (rcc_add (rsc_cnt x) (rsc_del_rx_sa_cnt x)) x) ;;;
  r <- look (fun c => rx_sc_of c secy_id sc) ;;
  ret (MEPA_RC_OK, rsc_cnt r)
  end.

(** The messages for a missing channel or association do not end the call. *)
Definition lan80xx_macsec_txsa_counters_clear_ (an secy_id : Z) : M Z :=
  upd_tx_sa secy_id an (set_tsa_cnt mepa_macsec_tx_sa_counters_t_0) ;;; ret MEPA_RC_OK.
Definition lan80xx_macsec_rxsc_counters_clear_ (sci_id : mepa_macsec_sci_t) (secy_id : Z) : M Z :=
  c <- macsec ;;
  match find_sc c secy_id sci_id with
  | Some rxsc_idx =>
      upd_rx_sc secy_id (Z.of_nat rxsc_idx) (fun r =>
        set_rsc_del_rx_sa_cnt mepa_macsec_rx_sa_counters_t_0 (set_rsc_cnt mepa_macsec_rx_sc_counters_t_0 r)) ;;;
      ret MEPA_RC_OK
  | None => ret MEPA_RC_ERROR
  end.
Definition lan80xx_macsec_rxsa_counters_clear_ (sci_id : mepa_macsec_sci_t) (an secy_id : Z) : M Z :=
  r <- lan80xx_sc_from_sci_get dev secy_id sci_id 0 ;;
  if fst r <? MEPA_RC_OK then ret (fst r) else
  upd_rx_sa secy_id (snd r) an (set_rsa_cnt mepa_macsec_rx_sa_counters_t_0) ;;; ret MEPA_RC_OK.

(** ** Helpers of the functions below *)

(** [MEPA_RC(lan80xx_sc_from_sci_get(dev, secy, sci, &sc))] with [sc = 0] before. *)
Definition try_sc (secy_id : Z) (sci : mepa_macsec_sci_t) (k : Z -> M Z) : M Z :=
  r <- lan80xx_sc_from_sci_get dev secy_id sci 0 ;; if fst r <? MEPA_RC_OK then ret (fst r) else k (snd r).
(** The loop over [sa[i]] that looks for an association in use other than [an]. *)
Definition other_rx_sa (c : conf_t) (secy sc an : Z) : option bool :=
  r ← rx_sc_of c secy sc;
  Some (existsb (fun i => negb (Z.of_nat i =? an) &&
                   match rx_sa_of c secy sc (Z.of_nat i) with Some sa => rsa_in_use sa | None => false end)
          (seq 0 (Z.to_nat MEPA_MACSEC_SA_PER_SC_MAX))).
Definition other_tx_sa (c : conf_t) (secy an : Z) : option bool :=
  s ← secy_of c secy;
  Some (existsb (fun i => negb (Z.of_nat i =? an) &&
                   match tx_sa_of c secy (Z.of_nat i) with Some sa => tsa_in_use sa | None => false end)
          (seq 0 (Z.to_nat MEPA_MACSEC_SA_PER_SC_MAX))).
(** A loop whose body leaves the function with any code that is not OK. *)
Fixpoint for_ok (f : Z -> M Z) (i : Z) (n : nat) (k : M Z) : M Z :=
  match n with O => k | S n => f i ;;! for_ok f (i + 1) n k end.
(** A store to [secy->rx_sc[sc]->sa[an]] itself, and to [secy->tx_sc.sa[an]]. *)
Definition set_rx_sa_slot (secy sc an : Z) (v : option nat) : M unit :=
  upd_rx_sc secy sc (fun r => set_rsc_sa (upd_idx (fun _ => v) an (rsc_sa r)) r).
Definition set_tx_sa_slot (secy an : Z) (v : option nat) : M unit :=
  upd_tx_sc secy (fun t => set_tsc_sa (upd_idx (fun _ => v) an (tsc_sa t)) t).
(** [secy->pattern_record[action][direction]] and [secy->pattern[action][direction]] *)
Definition pattern_record_of (c : conf_t) (secy action direction : Z) : option Z :=
  s ← secy_of c secy; row ← idx (secy_pattern_record s) action; idx row direction.
Definition pattern_of (c : conf_t) (secy action direction : Z) : option mepa_macsec_match_pattern_t :=
  s ← secy_of c secy; row ← idx (secy_pattern s) action; idx row direction.
Definition upd_pattern_record (secy action direction v : Z) : M unit :=
  look (fun c => pattern_record_of c secy action direction) ;;;
  upd_secy secy (fun s => set_secy_pattern_record
    (upd_idx (upd_idx (fun _ => v) direction) action (secy_pattern_record s)) s).
Definition upd_pattern (secy action direction : Z) f : M unit :=
  look (fun c => pattern_of c secy action direction) ;;;
  upd_secy secy (fun s => set_secy_pattern (upd_idx (upd_idx f direction) action (secy_pattern s)) s).
Definition upd_rsa_status f sa := set_rsa_status (f (rsa_status sa)) sa.
Definition upd_tsa_status f sa := set_tsa_status (f (tsa_status sa)) sa.

(** ** Patterns *)

(** [secy] is the address of an element of the array, so it is not NULL. *)
Definition lan80xx_macsec_pattern_set_ (port_no secy_id direction action : Z)
    (pattern : mepa_macsec_match_pattern_t) : M Z :=
  let egr := direction =? MEPA_MACSEC_DIRECTION_EGRESS in
  rec0 <- look (fun c => pattern_record_of c secy_id action direction) ;;
  if negb (rec0 =? MACSEC_NOT_IN_USE) then ret MEPA_RC_ERROR else
  r <- lan80xx_record_empty_get dev port_no 0 egr ;;
  if negb (fst r =? MEPA_RC_OK) then dbg_counter_incr port_no MEPA_RC_ERR_MACSEC_EMPTY_RECORD else
  let record := snd r in
  if pat_priority pattern >? MEPA_MACSEC_MATCH_PRIORITY_LOWEST then
    dbg_counter_incr port_no MEPA_RC_ERR_MACSEC_PATTERN_PRIO_NOT_VALID else
  (if egr then modify (alter_tx_sa (fun sa => set_tsa_in_use true (set_tsa_record record sa)) (Z.to_nat record))
   else modify (alter_rx_sa (fun sa => set_rsa_in_use true (set_rsa_record record sa)) (Z.to_nat record))) ;;;
  upd_pattern_record secy_id action direction record ;;;
  ensure lan80xx_macsec_sa_tcam_key_mask_set dev port_no egr record secy_id secy_id pattern
    else dbg_counter_incr port_no MEPA_RC_ERR_MACSEC_COULD_NOT_PRG_SA_MATCH ;;
  ensure lan80xx_macsec_sa_tcam_policy_unctrl_drop dev port_no record egr action
    else dbg_counter_incr port_no MEPA_RC_ERR_MACSEC_COULD_NOT_PRG_SA_MATCH ;;
  ensure lan80xx_macsec_sa_enable dev port_no record egr true
    else dbg_counter_incr port_no MEPA_RC_ERR_MACSEC_COULD_NOT_ENA_SA ;;
  ret MEPA_RC_OK.

Definition lan80xx_macsec_pattern_del_ (port : mepa_macsec_port_t) (secy_id direction action : Z) : M Z :=
  let egr := direction =? MEPA_MACSEC_DIRECTION_EGRESS in
  record <- look (fun c => pattern_record_of c secy_id action direction) ;;
  if record =? MACSEC_NOT_IN_USE then
    dbg_counter_incr (mp_port_no port) MEPA_RC_ERR_MACSEC_PATTERN_NOT_SET else
  ensure lan80xx_macsec_sa_enable dev (mp_port_no port) record egr false
    else dbg_counter_incr (mp_port_no port) MEPA_RC_ERR_MACSEC_COULD_NOT_DISABLE_SA ;;
  ensure lan80xx_macsec_sa_inuse dev (mp_port_no port) record 0 0 egr false
    else dbg_counter_incr (mp_port_no port) MEPA_RC_ERR_MACSEC_COULD_NOT_SET_SA ;;
  ensure lan80xx_macsec_sa_tcam_key_mask_reset dev (mp_port_no port) egr record
    else dbg_counter_incr (mp_port_no port) MEPA_RC_ERR_MACSEC_COULD_NOT_PRG_SA_MATCH ;;
  (if egr then look (fun c => idx (mc_tx_sa c) record) ;;;
               modify (alter_tx_sa (set_tsa_in_use false) (Z.to_nat record))
   else look (fun c => idx (mc_rx_sa c) record) ;;;
        modify (alter_rx_sa (set_rsa_in_use false) (Z.to_nat record))) ;;;
  upd_pattern_record secy_id action direction MACSEC_NOT_IN_USE ;;;
  upd_pattern secy_id action direction (set_pat_match MEPA_MACSEC_MATCH_DISABLE) ;;;
  ret MEPA_RC_OK.

(** ** Finding a SecY *)

(** For a new SecY: the error for one that is in use with this name, or the
    first that is not in use, whichever comes first. *)
Fixpoint port_check_create (port : mepa_macsec_port_t) (l : list phy25g_macsec_internal_secy_t) (i : Z) : option (Z + unit) :=
  match l with
  | [] => None
  | s :: l =>
      if secy_in_use s && (sci_port_id (secy_sci s) =? mp_port_id port) && (secy_service_id s =? mp_service_id port)
      then Some (inr tt)
      else if negb (secy_in_use s) then Some (inl i) else port_check_create port l (i + 1)
  end.
Fixpoint port_check_find (port : mepa_macsec_port_t) (l : list phy25g_macsec_internal_secy_t) (i : Z) : option Z :=
  match l with
  | [] => None
  | s :: l =>
      if secy_in_use s && (sci_port_id (secy_sci s) =? mp_port_id port) && (secy_service_id s =? mp_service_id port)
      then Some i else port_check_find port l (i + 1)
  end.
(** The code and [*secy_id], 0 before the call. *)
Definition lan80xx_macsec_port_check (port : mepa_macsec_port_t) (create : bool) : M (Z * Z) :=
  rc <- lan80xx_port_macsec_enable_check dev port ;;
  if negb (rc =? MEPA_RC_OK) then ret (MEPA_RC_ERROR, 0) else
  c <- macsec ;;
  let secys := take CAP_SECY_CNT (mc_secy c) in
  let fail e := rc <- dbg_counter_incr (mp_port_no port) e ;; ret (rc, 0) in
  if create then
    match port_check_create port secys 0 with
    | Some (inl i) => ret (MEPA_RC_OK, i)
    | Some (inr _) => fail MEPA_RC_ERR_MACSEC_SECY_ALREADY_IN_USE
    | None => fail MEPA_RC_ERR_MACSEC_NO_SECY_VACANCY
    end
  else
    match port_check_find port secys 0 with
    | Some i => ret (MEPA_RC_OK, i)
    | None => fail MEPA_RC_ERR_MACSEC_NO_SECY_FOUND
    end.

(** ** Receive associations *)

Definition lan80xx_macsec_rx_sa_disable_ (secy_id : Z) (port : mepa_macsec_port_t) (sci : mepa_macsec_sci_t) (an : Z) : M Z :=
  if an >=? MEPA_MACSEC_SA_PER_SC_MAX then ret MEPA_RC_ERROR else
  try_sc secy_id sci (fun sc =>
  p <- look (fun c => rx_sc_slot c secy_id sc) ;;
  match p with None => ret MEPA_RC_ERROR | Some _ =>
  p <- look (fun c => rx_sa_slot c secy_id sc an) ;;
  (match p with
   | None => dbg_counter_incr (mp_port_no port) MEPA_RC_ERR_MACSEC_AN_NOT_EXIST
   | Some _ => ret MEPA_RC_OK
   end) ;;?
  (r <- look (fun c => rx_sc_of c secy_id sc) ;;
   sa <- look (fun c => rx_sa_of c secy_id sc an) ;;
   ensure lan80xx_macsec_sa_enable dev (mp_port_no port) (rsa_record sa) false false
     else dbg_counter_incr (mp_port_no port) MEPA_RC_ERR_MACSEC_COULD_NOT_DISABLE_SA ;;
   ensure lan80xx_macsec_sa_inuse dev (mp_port_no port) (rsa_record sa) (rsc_hw_sc_idx r) an false false
     else dbg_counter_incr (mp_port_no port) MEPA_RC_ERR_MACSEC_COULD_NOT_SET_SA ;;
   upd_rx_sa secy_id sc an (upd_rsa_status (set_rst_in_use false)) ;;;
   upd_rx_sa secy_id sc an (set_rsa_enabled false) ;;;
   t <- MEPA_UPTIME_SECONDS ;;
   upd_rx_sa secy_id sc an (upd_rsa_status (set_rst_stopped_time t)) ;;;
   ret MEPA_RC_OK)
  end).

Definition lan80xx_macsec_rx_sa_del_ (secy_id : Z) (port : mepa_macsec_port_t) (sci : mepa_macsec_sci_t) (an : Z) : M Z :=
  if an >=? MEPA_MACSEC_SA_PER_SC_MAX then ret MEPA_RC_ERROR else
  try_sc secy_id sci (fun sc =>
  p <- look (fun c => rx_sa_slot c secy_id sc an) ;;
  match p with None => ret MEPA_RC_ERROR | Some _ =>
  r <- look (fun c => rx_sc_of c secy_id sc) ;;
  sa <- look (fun c => rx_sa_of c secy_id sc an) ;;
  let record := rsa_record sa in
  ensure lan80xx_macsec_sa_inuse dev (mp_port_no port) record (rsc_hw_sc_idx r) an false false
    else dbg_counter_incr (mp_port_no port) MEPA_RC_ERR_MACSEC_COULD_NOT_SET_SA ;;
  ensure lan80xx_sa_sam_in_flight dev (mp_port_no port) false
    else dbg_counter_incr (mp_port_no port) MEPA_RC_ERR_MACSEC_COULD_NOT_EMPTY_INGRESS ;;
  ensure lan80xx_macsec_sa_enable dev (mp_port_no port) record false false
    else dbg_counter_incr (mp_port_no port) MEPA_RC_ERR_MACSEC_COULD_NOT_ENA_SA ;;
  (cnt <- lan80xx_macsec_rx_sa_counters_get_ (mp_port_no port) sci an secy_id ;;
   (if fst cnt =? MEPA_RC_OK then
      upd_rx_sc secy_id sc (fun r => set_rsc_del_rx_sa_cnt (rac_add (rsc_del_rx_sa_cnt r) (snd cnt)) r)
    else ret tt) ;;;
   sa_in_use <- look (fun c => other_rx_sa c secy_id sc an) ;;
   (if negb sa_in_use then
      sa <- look (fun c => rx_sa_of c secy_id sc an) ;;
      upd_rx_sc secy_id sc (fun r =>
        set_rsc_status (set_rcs_stopped_time (rst_stopped_time (rsa_status sa)) (rsc_status r)) r)
    else ret tt) ;;;
   look (fun c => idx (mc_rx_sa c) record) ;;;
   modify (alter_rx_sa (fun _ => phy25g_macsec_internal_rx_sa_t_0) (Z.to_nat record)) ;;;
   set_rx_sa_slot secy_id sc an None ;;;
   ensure lan80xx_macsec_sa_tcam_key_mask_reset dev (mp_port_no port) false record
     else dbg_counter_incr (mp_port_no port) MEPA_RC_ERR_MACSEC_COULD_NOT_PRG_SA_MATCH ;;
   ensure lan80xx_macsec_sa_xform_reset dev (mp_port_no port) false record
     else dbg_counter_incr (mp_port_no port) MEPA_RC_ERR_MACSEC_COULD_NOT_PRG_SA_FLOW ;;
   ret MEPA_RC_OK)
  end).

Definition lan80xx_macsec_rx_sa_activate_ (secy_id : Z) (port : mepa_macsec_port_t) (sci : mepa_macsec_sci_t) (an : Z) : M Z :=
  try_sc secy_id sci (fun sc =>
  lan80xx_is_sci_valid dev sci ;;?
  if an >=? MEPA_MACSEC_SA_PER_SC_MAX then ret MEPA_RC_ERROR else
  p <- look (fun c => rx_sa_slot c secy_id sc an) ;;
  match p with None => ret MEPA_RC_ERROR | Some _ =>
  r <- look (fun c => rx_sc_of c secy_id sc) ;;
  sa <- look (fun c => rx_sa_of c secy_id sc an) ;;
  ensure MACSEC_RC_COLD dev (lan80xx_macsec_sa_inuse dev (mp_port_no port) (rsa_record sa) (rsc_hw_sc_idx r) an false true)
    else dbg_counter_incr (mp_port_no port) MEPA_RC_ERR_MACSEC_COULD_NOT_SET_SA ;;
  ensure lan80xx_macsec_sa_enable dev (mp_port_no port) (rsa_record sa) false true
    else dbg_counter_incr (mp_port_no port) MEPA_RC_ERR_MACSEC_COULD_NOT_ENA_SA ;;
  (t <- MEPA_UPTIME_SECONDS ;;
   upd_rx_sa secy_id sc an (upd_rsa_status (set_rst_started_time t)) ;;;
   upd_rx_sa secy_id sc an (upd_rsa_status (set_rst_in_use true)) ;;;
   upd_rx_sa secy_id sc an (set_rsa_enabled true) ;;;
   sa_in_use <- look (fun c => other_rx_sa c secy_id sc an) ;;
   (if negb sa_in_use then
      t <- MEPA_UPTIME_SECONDS ;;
      upd_rx_sc secy_id sc (fun r => set_rsc_status (set_rcs_started_time t (rsc_status r)) r)
    else ret tt) ;;;
   ret MEPA_RC_OK)
  end).

(** ** Transmit associations *)

Definition lan80xx_macsec_tx_sa_activate_ (secy_id : Z) (port : mepa_macsec_port_t) (an : Z) : M Z :=
  if an >=? MEPA_MACSEC_SA_PER_SC_MAX then ret MEPA_RC_ERROR else
  p <- look (fun c => tx_sa_slot c secy_id an) ;;
  match p with None => ret MEPA_RC_ERROR | Some _ =>
  sa <- look (fun c => tx_sa_of c secy_id an) ;;
  if negb (tsa_in_use sa) then ret MEPA_RC_ERROR else
  s <- look (fun c => secy_of c secy_id) ;;
  let old_an := tcs_encoding_sa (tsc_status (secy_tx_sc s)) in
  old <- look (fun c => tx_sa_slot c secy_id old_an) ;;
  an_in_use <- (match old with
                | None => ret false
                | Some _ => o <- look (fun c => tx_sa_of c secy_id old_an) ;; ret (tsa_enabled o)
                end) ;;
  ensure MACSEC_RC_COLD dev (lan80xx_macsec_sa_inuse dev (mp_port_no port) (tsa_record sa) secy_id an true true)
    else dbg_counter_incr (mp_port_no port) MEPA_RC_ERR_MACSEC_COULD_NOT_SET_SA ;;
  ensure lan80xx_sa_sam_in_flight dev (mp_port_no port) true
    else dbg_counter_incr (mp_port_no port) MEPA_RC_ERR_MACSEC_COULD_NOT_EMPTY_EGRESS ;;
  ensure lan80xx_macsec_sa_enable dev (mp_port_no port) (tsa_record sa) true true
    else dbg_counter_incr (mp_port_no port) MEPA_RC_ERR_MACSEC_COULD_NOT_ENA_SA ;;
  ensure (if an_in_use && (old_an <? MEPA_MACSEC_SA_PER_SC_MAX) then
            o <- look (fun c => tx_sa_of c secy_id old_an) ;;
            lan80xx_macsec_sa_enable dev (mp_port_no port) (tsa_record o) true false
          else ret MEPA_RC_OK)
    else dbg_counter_incr (mp_port_no port) MEPA_RC_ERR_MACSEC_COULD_NOT_ENA_SA ;;
  (an_in_use <- (if an_in_use && (old_an <? MEPA_MACSEC_SA_PER_SC_MAX) then
                   upd_tx_sa secy_id old_an (set_tsa_enabled false) ;;;
                   upd_tx_sa secy_id old_an (upd_tsa_status (set_tst_in_use false)) ;;;
                   ret false
                 else ret an_in_use) ;;
   t <- MEPA_UPTIME_SECONDS ;;
   upd_tx_sa secy_id an (upd_tsa_status (set_tst_started_time t)) ;;;
   upd_tx_sa secy_id an (set_tsa_enabled true) ;;;
   upd_tx_sa secy_id an (upd_tsa_status (set_tst_in_use true)) ;;;
   other <- look (fun c => other_tx_sa c secy_id an) ;;
   (if negb (an_in_use || other) then
      t <- MEPA_UPTIME_SECONDS ;;
      upd_tx_sc secy_id (fun x => set_tsc_status (set_tcs_started_time t (tsc_status x)) x)
    else ret tt) ;;;
   upd_tx_sc secy_id (fun x => set_tsc_status (set_tcs_encoding_sa an (tsc_status x)) x) ;;;
   upd_tx_sc secy_id (fun x => set_tsc_status (set_tcs_enciphering_sa an (tsc_status x)) x) ;;;
   ret MEPA_RC_OK)
  end.

Definition lan80xx_macsec_tx_sa_disable_ (secy_id : Z) (port : mepa_macsec_port_t) (an : Z) : M Z :=
  if an >=? MEPA_MACSEC_SA_PER_SC_MAX then ret MEPA_RC_ERROR else
  p <- look (fun c => tx_sa_slot c secy_id an) ;;
  match p with None => dbg_counter_incr (mp_port_no port) MEPA_RC_ERR_MACSEC_AN_NOT_EXIST | Some _ =>
  sa <- look (fun c => tx_sa_of c secy_id an) ;;
  s <- look (fun c => secy_of c secy_id) ;;
  let encoding := an =? tcs_encoding_sa (tsc_status (secy_tx_sc s)) in
  ensure lan80xx_macsec_sa_enable dev (mp_port_no port) (tsa_record sa) true false
    else dbg_counter_incr (mp_port_no port) MEPA_RC_ERR_MACSEC_COULD_NOT_DISABLE_AN ;;
  ensure (if encoding then lan80xx_macsec_sa_inuse dev (mp_port_no port) (tsa_record sa) secy_id an true false
          else ret MEPA_RC_OK)
    else dbg_counter_incr (mp_port_no port) MEPA_RC_ERR_MACSEC_COULD_NOT_SET_SA ;;
  ensure (if encoding then lan80xx_macsec_sam_entry_ctrl dev (mp_port_no port) (tsa_record sa) true false
          else ret MEPA_RC_OK)
    else dbg_counter_incr (mp_port_no port) MEPA_RC_ERR_MACSEC_COULD_NOT_ENA_SA ;;
  ((if encoding then
      upd_tx_sc secy_id (fun x => set_tsc_status
        (set_tcs_enciphering_sa 0 (set_tcs_encoding_sa 0 (tsc_status x))) x)
    else ret tt) ;;;
   upd_tx_sa secy_id an (upd_tsa_status (set_tst_in_use false)) ;;;
   upd_tx_sa secy_id an (set_tsa_enabled false) ;;;
   t <- MEPA_UPTIME_SECONDS ;;
   upd_tx_sa secy_id an (upd_tsa_status (set_tst_stopped_time t)) ;;;
   ret MEPA_RC_OK)
  end.

Definition lan80xx_macsec_tx_sa_del_ (secy_id : Z) (port : mepa_macsec_port_t) (an : Z) : M Z :=
  if an >=? MEPA_MACSEC_SA_PER_SC_MAX then ret MEPA_RC_ERROR else
  p <- look (fun c => tx_sa_slot c secy_id an) ;;
  match p with None => ret MEPA_RC_ERROR | Some _ =>
  sa <- look (fun c => tx_sa_of c secy_id an) ;;
  let record := tsa_record sa in
  ensure lan80xx_macsec_sa_enable dev (mp_port_no port) record true false
    else dbg_counter_incr (mp_port_no port) MEPA_RC_ERR_MACSEC_COULD_NOT_DISABLE_SA ;;
  (rc <- lan80xx_sa_sam_in_flight dev (mp_port_no port) true ;;
   (if negb (rc =? MEPA_RC_OK) then
      dbg_counter_incr (mp_port_no port) MEPA_RC_ERR_MACSEC_COULD_NOT_EMPTY_EGRESS ;;; ret tt
    else ret tt) ;;;
   cnt <- lan80xx_macsec_tx_sa_counters_get_ (mp_port_no port) an secy_id ;;
   (if fst cnt =? MEPA_RC_OK then
      upd_tx_sc secy_id (fun x => set_tsc_del_tx_sa_cnt
        (Mk_mepa_macsec_tx_sa_counters_t
           (u64 (tac_out_pkts_protected (tsc_del_tx_sa_cnt x) + tac_out_pkts_protected (snd cnt)))
           (u64 (tac_out_pkts_encrypted (tsc_del_tx_sa_cnt x) + tac_out_pkts_encrypted (snd cnt)))) x)
    else ret tt) ;;;
   sa_in_use <- look (fun c => other_tx_sa c secy_id an) ;;
   (if negb sa_in_use then
      sa <- look (fun c => tx_sa_of c secy_id an) ;;
      upd_tx_sc secy_id (fun x => set_tsc_status
        (set_tcs_stopped_time (tst_stopped_time (tsa_status sa)) (tsc_status x)) x)
    else ret tt) ;;;
   look (fun c => idx (mc_tx_sa c) record) ;;;
   modify (alter_tx_sa (fun _ => phy25g_macsec_internal_tx_sa_t_0) (Z.to_nat record)) ;;;
   set_tx_sa_slot secy_id an None ;;;
   ensure lan80xx_macsec_sa_tcam_key_mask_reset dev (mp_port_no port) true record
     else dbg_counter_incr (mp_port_no port) MEPA_RC_ERR_MACSEC_COULD_NOT_PRG_SA_MATCH ;;
   ensure lan80xx_macsec_sa_xform_reset dev (mp_port_no port) true record
     else dbg_counter_incr (mp_port_no port) MEPA_RC_ERR_MACSEC_COULD_NOT_PRG_SA_FLOW ;;
   (set_tx_sa_slot secy_id an None ;;; ret MEPA_RC_OK))
  end.

(** ** Status and packet numbers *)

(** The register that holds the packet number of an association: 64 bits with
    extended packet numbers, else 32 bits. *)
Definition tx_pn_reg (record : Z) : ioreg_blk :=
  page_reg LAN80XX_MACSEC_EGR_CORE_TRANSFORM_RECORDS_PAGE0_XFORM_REC_X_W14
           LAN80XX_MACSEC_EGR_CORE_TRANSFORM_RECORDS_PAGE1_XFORM_REC_X_W14 record.
Definition rx_pn_reg (record : Z) : ioreg_blk :=
  page_reg LAN80XX_MACSEC_INGR_CORE_TRANSFORM_RECORDS_PAGE0_XFORM_REC_X_W14
           LAN80XX_MACSEC_INGR_CORE_TRANSFORM_RECORDS_PAGE1_XFORM_REC_X_W14 record.

(** [an] is not checked. *)
Definition lan80xx_macsec_tx_sa_status_get_ (secy_id : Z) (port : mepa_macsec_port_t) (an : Z) : M Z :=
  sa <- look (fun c => tx_sa_of c secy_id an) ;;
  s <- look (fun c => secy_of c secy_id) ;;
  let record := tsa_record sa in
  if is_xpn (sc_current_cipher_suite (secy_conf s)) then
    CNT64_RD ret (mp_port_no port) (tx_pn_reg record) 0 (fun value =>
    upd_tx_sa secy_id an (upd_tsa_status (set_tst_pn_next_pn value)) ;;; ret MEPA_RC_OK)
  else
    CSR_RD ret (mp_port_no port) (tx_pn_reg record) (uninit80 "val") (fun val =>
    let val := u32 (val + 1) in
    upd_tx_sa secy_id an (upd_tsa_status (set_tst_next_pn val)) ;;;
    upd_tx_sa secy_id an (upd_tsa_status (fun st => set_tst_pn_next_pn (set_pn (tst_pn_next_pn st) val) st)) ;;;
    ret MEPA_RC_OK).

(** The code and [*status], which is not stored without SC although the code
    is OK. *)
Definition lan80xx_macsec_rx_sa_status_get_ (secy_id : Z) (port : mepa_macsec_port_t) (sci : mepa_macsec_sci_t) (an : Z)
    (status : mepa_macsec_rx_sa_status_t) : M (Z * mepa_macsec_rx_sa_status_t) :=
  let fail rc := ret (rc, status) in
  r <- lan80xx_sc_from_sci_get dev secy_id sci 0 ;;
  if negb (fst r =? MEPA_RC_OK) then ret (MEPA_RC_OK, status) else
  let sc := snd r in
  if an >=? MEPA_MACSEC_SA_PER_SC_MAX then fail MEPA_RC_ERROR else
  p <- look (fun c => rx_sa_slot c secy_id sc an) ;;
  match p with None => fail MEPA_RC_ERROR | Some _ =>
  sa <- look (fun c => rx_sa_of c secy_id sc an) ;;
  if negb (rsa_in_use sa) then fail MEPA_RC_ERROR else
  s <- look (fun c => secy_of c secy_id) ;;
  r <- look (fun c => rx_sc_of c secy_id sc) ;;
  let window := rc_replay_window (rsc_conf r) in
  let done := sa <- look (fun c => rx_sa_of c secy_id sc an) ;; ret (MEPA_RC_OK, rsa_status sa) in
  if is_xpn (sc_current_cipher_suite (secy_conf s)) then
    CNT64_RD fail (mp_port_no port) (rx_pn_reg (rsa_record sa)) 0 (fun value =>
    upd_rx_sa secy_id sc an (upd_rsa_status (set_rst_pn_next_pn value)) ;;;
    upd_rx_sa secy_id sc an (upd_rsa_status (set_rst_pn_lowest_pn (if window >=? value then 1 else value - window))) ;;;
    done)
  else
    CSR_RD fail (mp_port_no port) (rx_pn_reg (rsa_record sa)) 0 (fun next_pn =>
    upd_rx_sa secy_id sc an (upd_rsa_status (set_rst_next_pn next_pn)) ;;;
    upd_rx_sa secy_id sc an (upd_rsa_status (set_rst_lowest_pn (if window >=? next_pn then 1 else next_pn - window))) ;;;
    done)
  end.

Definition lan80xx_macsec_rx_sa_next_pn_update_ (secy_id : Z) (port : mepa_macsec_port_t) (next_pn record : Z) : M Z :=
  s <- look (fun c => secy_of c secy_id) ;;
  let xpn := is_xpn (sc_current_cipher_suite (secy_conf s)) in
  (if xpn then
     CSR_WR (mp_port_no port) LAN80XX_MACSEC_INGR_CORE_EIP62_REGISTERS_NEXTPN_LO (next_pn .& 0xFFFF) ;;!
     CSR_WR (mp_port_no port) LAN80XX_MACSEC_INGR_CORE_EIP62_REGISTERS_NEXTPN_HI (u32 (next_pn .>> 32))
   else CSR_WR (mp_port_no port) LAN80XX_MACSEC_INGR_CORE_EIP62_REGISTERS_NEXTPN_LO (pn_of next_pn)) ;;!
  (let ctxt_addr := u32 (record * 24 + 14 * 4) .>> 4 in
   let value :=
     LAN80XX_F_MACSEC_INGR_CORE_EIP62_REGISTERS_NEXT_PN_CTRL_NEXT_PN_CTRL_NEXTPN_CONTEXT_ADDRESS ctxt_addr
     .| (if xpn then LAN80XX_M_MACSEC_INGR_CORE_EIP62_REGISTERS_NEXT_PN_CTRL_NEXT_PN_CTRL_SEQUENCE_NUMBER_SIZE else 0) in
   CSR_WR (mp_port_no port) LAN80XX_MACSEC_INGR_CORE_EIP62_REGISTERS_NEXT_PN_CTRL_NEXT_PN_CTRL value ;;!
   let value := LAN80XX_M_MACSEC_INGR_CORE_EIP62_REGISTERS_NEXT_PN_CTRL_NEXT_PN_CTRL_ENABLE_UPDATE in
   CSR_WRM (mp_port_no port) LAN80XX_MACSEC_INGR_CORE_EIP62_REGISTERS_NEXT_PN_CTRL_NEXT_PN_CTRL value value ;;!
   ret MEPA_RC_OK).

(** The loop that waits for the update does not read the register again: once
    entered it does not end, which is undefined here. *)
Definition lan80xx_macsec_rx_sa_lowest_pn_update_ (secy_id : Z) (port : mepa_macsec_port_t) (sci : mepa_macsec_sci_t)
    (an lowest_pn : Z) : M Z :=
  r <- lan80xx_sc_from_sci_get dev secy_id sci 0 ;;
  if negb (fst r =? MEPA_RC_OK) then ret MEPA_RC_OK else
  let sc := snd r in
  lan80xx_is_sci_valid dev sci ;;?
  if an >=? MEPA_MACSEC_SA_PER_SC_MAX then ret MEPA_RC_ERROR else
  p <- look (fun c => rx_sa_slot c secy_id sc an) ;;
  match p with None => ret MEPA_RC_ERROR | Some _ =>
  sa <- look (fun c => rx_sa_of c secy_id sc an) ;;
  if negb (rsa_in_use sa) then ret MEPA_RC_ERROR else
  s <- look (fun c => secy_of c secy_id) ;;
  let window := sc_replay_window (secy_conf s) in
  let pkt_num :=
    if is_xpn (sc_current_cipher_suite (secy_conf s)) then u64 (lowest_pn + window)
    else set_pn (u64 (uninit80 "pkt_num")) (u32 (pn_of lowest_pn + window)) in
  ensure lan80xx_macsec_rx_sa_next_pn_update_ secy_id port pkt_num (rsa_record sa) else ret MEPA_RC_ERROR ;;
  CSR_RD ret (mp_port_no port) LAN80XX_MACSEC_INGR_CORE_EIP62_REGISTERS_NEXT_PN_CTRL_NEXT_PN_CTRL 0 (fun next_pn =>
  if tb (next_pn .& LAN80XX_M_MACSEC_INGR_CORE_EIP62_REGISTERS_NEXT_PN_CTRL_NEXT_PN_CTRL_ENABLE_UPDATE)
     && negb (tb (next_pn .& LAN80XX_M_MACSEC_INGR_CORE_EIP62_REGISTERS_NEXT_PN_CTRL_NEXT_PN_CTRL_NEXTPN_WRITTEN))
  then undefined else ret MEPA_RC_OK)
  end.

(** ** Programming associations *)

(** The SCI that a receive channel matches. *)
Definition rx_cam_sci (conf : mepa_macsec_secy_conf_t) (sci : mepa_macsec_sci_t) : list Z * Z :=
  if tb (sc_always_include_sci conf) then (sci_mac_addr sci, sci_port_id sci)
  else if tb (sc_use_es conf) && tb (sc_use_scb conf) then (sci_mac_addr sci, 0)
  else if tb (sc_use_es conf) && negb (tb (sc_use_scb conf)) then (sci_mac_addr sci, 1)
  else (LAN80XX_MAC_ADDR_BROADCAST, LAN80XX_BROADCAST_PORT_ID).

Definition lan80xx_macsec_rx_sc_cam_set (port_no secy secyid sc : Z) : M Z :=
  r <- look (fun c => rx_sc_of c secy sc) ;;
  s <- look (fun c => secy_of c secy) ;;
  let hw_sc_idx := rsc_hw_sc_idx r in
  let '(mac_addr, port_id) := rx_cam_sci (secy_conf s) (rsc_sci r) in
  (if hw_sc_idx <? LAN80XX_MACSEC_SC_REC_PAGE0_NUM then
     CSR_WR port_no (LAN80XX_MACSEC_INGR_CORE_RXSC_CAM_KEY_PAGE0_RXSC_SCI_LO hw_sc_idx) (lan80xx_get_u32 mac_addr 0) ;;!
     CSR_WR port_no (LAN80XX_MACSEC_INGR_CORE_RXSC_CAM_KEY_PAGE0_RXSC_SCI_HI hw_sc_idx) (sci_hi mac_addr port_id) ;;!
     CSR_WR port_no (LAN80XX_MACSEC_INGR_CORE_RXSC_CAM_KEY_PAGE0_RXSC_CAM_CTRL hw_sc_idx)
       (LAN80XX_F_MACSEC_INGR_CORE_RXSC_CAM_KEY_PAGE0_RXSC_CAM_CTRL_VPORT_INDEX secyid)
   else
     let p0 := LAN80XX_MACSEC_SC_REC_PAGE0_NUM in
     CSR_WR port_no (LAN80XX_MACSEC_INGR_CORE_RXSC_CAM_KEY_PAGE1_RXSC_SCI_LO hw_sc_idx p0) (lan80xx_get_u32 mac_addr 0) ;;!
     CSR_WR port_no (LAN80XX_MACSEC_INGR_CORE_RXSC_CAM_KEY_PAGE1_RXSC_SCI_HI hw_sc_idx p0) (sci_hi mac_addr port_id) ;;!
     CSR_WR port_no (LAN80XX_MACSEC_INGR_CORE_RXSC_CAM_KEY_PAGE1_RXSC_CAM_CTRL hw_sc_idx p0)
       (LAN80XX_F_MACSEC_INGR_CORE_RXSC_CAM_KEY_PAGE0_RXSC_CAM_CTRL_VPORT_INDEX secyid)) ;;!
  CSR_WR port_no LAN80XX_MACSEC_INGR_CORE_RXSC_ENTRY_ENABLE_CTRL
    (LAN80XX_F_MACSEC_INGR_CORE_RXSC_ENTRY_ENABLE_CTRL_SC_INDEX_SET hw_sc_idx
     .| LAN80XX_M_MACSEC_INGR_CORE_RXSC_ENTRY_ENABLE_CTRL_SET_ENABLE) ;;!
  ret MEPA_RC_OK.

(** A failure of the programming leaves the association allocated. *)
Definition lan80xx_macsec_rx_sa_set_ (secy_id : Z) (port : mepa_macsec_port_t) (sci : mepa_macsec_sci_t) (an lowest_pn : Z)
    (sak : mepa_macsec_sak_t) (ssci : option (list Z)) : M Z :=
  try_sc secy_id sci (fun sc =>
  lan80xx_is_sci_valid dev sci ;;?
  (s <- look (fun c => secy_of c secy_id) ;;
   let xpn := is_xpn (sc_current_cipher_suite (secy_conf s)) in
   c <- macsec ;;
   (if xpn then ret (lan80xx_is_ssci_valid c false sci ssci sak) else ret MEPA_RC_OK) ;;?
   if an >=? MEPA_MACSEC_SA_PER_SC_MAX then ret MEPA_RC_ERROR else
   p <- look (fun c => rx_sa_slot c secy_id sc an) ;;
   match p with Some _ => dbg_counter_incr (mp_port_no port) MEPA_RC_ERR_MACSEC_RX_AN_ALREADY_IN_USE | None =>
   r <- lan80xx_record_empty_get dev (mp_port_no port) 0 false ;;
   if negb (fst r =? MEPA_RC_OK) then dbg_counter_incr (mp_port_no port) MEPA_RC_ERR_MACSEC_EMPTY_RECORD else
   let record := snd r in
   set_rx_sa_slot secy_id sc an (Some (Z.to_nat record)) ;;;
   upd_rx_sa secy_id sc an (set_rsa_record record) ;;;
   upd_rx_sa secy_id sc an (set_rsa_sak sak) ;;;
   (if xpn then upd_rx_sa secy_id sc an (set_rsa_ssci (default [] ssci)) else ret tt) ;;;
   upd_rx_sa secy_id sc an (upd_rsa_status (set_rst_lowest_pn (pn_of lowest_pn))) ;;;
   upd_rx_sa secy_id sc an (upd_rsa_status (set_rst_pn_lowest_pn lowest_pn)) ;;;
   upd_rx_sa secy_id sc an (set_rsa_in_use true) ;;;
   t <- MEPA_UPTIME_SECONDS ;;
   upd_rx_sa secy_id sc an (upd_rsa_status (set_rst_created_time t)) ;;;
   match_ <- look (fun c => pattern_of c secy_id MEPA_MACSEC_MATCH_ACTION_CONTROLLED_PORT MEPA_MACSEC_DIRECTION_INGRESS) ;;
   ensure lan80xx_macsec_sa_xform_set dev (mp_port_no port) false record secy_id an sc
     else dbg_counter_incr (mp_port_no port) MEPA_RC_ERR_MACSEC_COULD_NOT_PRG_XFORM ;;
   ensure lan80xx_macsec_sa_tcam_key_mask_set dev (mp_port_no port) false record secy_id secy_id match_
     else dbg_counter_incr (mp_port_no port) MEPA_RC_ERR_MACSEC_COULD_NOT_PRG_SA_MATCH ;;
   ensure lan80xx_macsec_sa_flow_set dev (mp_port_no port) false record secy_id an sc secy_id
            MEPA_MACSEC_MATCH_ACTION_CONTROLLED_PORT
     else dbg_counter_incr (mp_port_no port) MEPA_RC_ERR_MACSEC_COULD_NOT_PRG_SA_FLOW ;;
   ensure lan80xx_macsec_rx_sc_cam_set (mp_port_no port) secy_id secy_id sc
     else dbg_counter_incr (mp_port_no port) MEPA_RC_ERR_MACSEC_COULD_NOT_PRG_SA_MATCH ;;
   ret MEPA_RC_OK
   end)).

(** The code and what is stored on success: [*lowest_pn], which is
    [lowest_pn] before the call, [*sak], [*active] and [*ssci]. *)
Definition lan80xx_macsec_rx_sa_get_ (secy_id : Z) (port : mepa_macsec_port_t) (sci : mepa_macsec_sci_t) (an lowest_pn : Z) :
    M (Z * option (Z * mepa_macsec_sak_t * bool * list Z)) :=
  let fail rc := ret (rc, None) in
  r <- lan80xx_sc_from_sci_get dev secy_id sci 0 ;;
  if fst r <? MEPA_RC_OK then fail (fst r) else
  let sc := snd r in
  if an >=? MEPA_MACSEC_SA_PER_SC_MAX then fail MEPA_RC_ERROR else
  p <- look (fun c => rx_sa_slot c secy_id sc an) ;;
  match p with
  | None => rc <- dbg_counter_incr (mp_port_no port) MEPA_RC_ERR_MACSEC_AN_NOT_EXIST ;; fail rc
  | Some _ =>
      sa <- look (fun c => rx_sa_of c secy_id sc an) ;;
      s <- look (fun c => secy_of c secy_id) ;;
      r <- look (fun c => rx_sc_of c secy_id sc) ;;
      let window := rc_replay_window (rsc_conf r) in
      let done lowest_pn := ret (MEPA_RC_OK, Some (lowest_pn, rsa_sak sa, rst_in_use (rsa_status sa), rsa_ssci sa)) in
      if is_xpn (sc_current_cipher_suite (secy_conf s)) then
        CNT64_RD fail (mp_port_no port) (rx_pn_reg (rsa_record sa)) (uninit80 "value") (fun value =>
        done (if value >? window then value - window else 0))
      else
        CSR_RD fail (mp_port_no port) (rx_pn_reg (rsa_record sa)) 0 (fun val =>
        done (set_pn lowest_pn (if val >? window then val - window else 0)))
  end.

Definition lan80xx_macsec_tx_sa_set_ (secy_id : Z) (port : mepa_macsec_port_t) (an next_pn confidentiality : Z)
    (sak : mepa_macsec_sak_t) (ssci : option (list Z)) : M Z :=
  if an >=? MEPA_MACSEC_SA_PER_SC_MAX then ret MEPA_RC_ERROR else
  s <- look (fun c => secy_of c secy_id) ;;
  if negb (tsc_in_use (secy_tx_sc s)) then ret MEPA_RC_ERROR else
  if pn_of next_pn <? 1 then ret MEPA_RC_ERROR else
  let xpn := is_xpn (sc_current_cipher_suite (secy_conf s)) in
  c <- macsec ;;
  (if xpn then ret (lan80xx_is_ssci_valid c true (secy_sci s) ssci sak) else ret MEPA_RC_OK) ;;?
  p <- look (fun c => tx_sa_slot c secy_id an) ;;
  match p with Some _ => dbg_counter_incr (mp_port_no port) MEPA_RC_ERR_MACSEC_TX_AN_ALREADY_IN_USE | None =>
  r <- lan80xx_record_empty_get dev (mp_port_no port) 0 true ;;
  if negb (fst r =? MEPA_RC_OK) then dbg_counter_incr (mp_port_no port) MEPA_RC_ERR_MACSEC_EMPTY_RECORD else
  let record := snd r in
  set_tx_sa_slot secy_id an (Some (Z.to_nat record)) ;;;
  upd_tx_sa secy_id an (set_tsa_record record) ;;;
  upd_tx_sa secy_id an (set_tsa_sak sak) ;;;
  upd_tx_sa secy_id an (set_tsa_confidentiality confidentiality) ;;;
  (if xpn then upd_tx_sa secy_id an (set_tsa_ssci (default [] ssci)) else ret tt) ;;;
  upd_tx_sa secy_id an (upd_tsa_status (set_tst_next_pn (u32 (pn_of next_pn - 1)))) ;;;
  upd_tx_sa secy_id an (upd_tsa_status (set_tst_pn_next_pn next_pn)) ;;;
  upd_tx_sa secy_id an (set_tsa_in_use true) ;;;
  t <- MEPA_UPTIME_SECONDS ;;
  upd_tx_sa secy_id an (upd_tsa_status (set_tst_created_time t)) ;;;
  match_ <- look (fun c => pattern_of c secy_id MEPA_MACSEC_MATCH_ACTION_CONTROLLED_PORT MEPA_MACSEC_DIRECTION_EGRESS) ;;
  ensure lan80xx_macsec_sa_xform_set dev (mp_port_no port) true record secy_id an 0
    else dbg_counter_incr (mp_port_no port) MEPA_RC_ERR_MACSEC_COULD_NOT_PRG_XFORM ;;
  ensure lan80xx_macsec_sa_flow_set dev (mp_port_no port) true record secy_id an 0 secy_id
           MEPA_MACSEC_MATCH_ACTION_CONTROLLED_PORT
    else dbg_counter_incr (mp_port_no port) MEPA_RC_ERR_MACSEC_COULD_NOT_PRG_SA_FLOW ;;
  ensure lan80xx_macsec_sa_tcam_key_mask_set dev (mp_port_no port) true record secy_id secy_id match_
    else dbg_counter_incr (mp_port_no port) MEPA_RC_ERR_MACSEC_COULD_NOT_PRG_SA_MATCH ;;
  ret MEPA_RC_OK
  end.

(** ** Channels *)

Definition lan80xx_macsec_rx_sc_del_ (port : mepa_macsec_port_t) (sci : mepa_macsec_sci_t) (secy_id : Z) : M Z :=
  try_sc secy_id sci (fun sc =>
  for_ok (fun sa =>
    p <- look (fun c => rx_sa_slot c secy_id sc sa) ;;
    match p with None => ret MEPA_RC_OK | Some _ =>
    e <- look (fun c => rx_sa_of c secy_id sc sa) ;;
    ensure (if rst_in_use (rsa_status e) then lan80xx_macsec_rx_sa_disable_ secy_id port sci sa else ret MEPA_RC_OK)
      else dbg_counter_incr (mp_port_no port) MEPA_RC_ERR_MACSEC_COULD_NOT_DISABLE_SA ;;
    ensure lan80xx_macsec_rx_sa_del_ secy_id port sci sa
      else dbg_counter_incr (mp_port_no port) MEPA_RC_ERR_MACSEC_COULD_NOT_DEL_RX_SA ;;
    ret MEPA_RC_OK
    end) 0 (Z.to_nat MEPA_MACSEC_SA_PER_SC)
  (r <- look (fun c => rx_sc_of c secy_id sc) ;;
   CSR_WR (mp_port_no port) LAN80XX_MACSEC_INGR_CORE_RXSC_ENTRY_ENABLE_CTRL
     (LAN80XX_F_MACSEC_INGR_CORE_RXSC_ENTRY_ENABLE_CTRL_SC_INDEX_SET (rsc_hw_sc_idx r)) ;;!
   (if rsc_hw_sc_idx r <? 64 then
      modify (fun c => set_mc_rx_sc_hw_idx_in_use (mc_rx_sc_hw_idx_in_use c .& .~ (1 .<< rsc_hw_sc_idx r)) c)
    else undefined) ;;;
   upd_rx_sc secy_id sc (fun _ => phy25g_macsec_internal_rx_sc_t_0) ;;;
   upd_secy secy_id (fun s => set_secy_rx_sc (upd_idx (fun _ => None) sc (secy_rx_sc s)) s) ;;;
   lan80xx_macsec_update_glb_validate dev (mp_port_no port) ;;?
   ret MEPA_RC_OK)).

Definition lan80xx_macsec_rx_sc_add_ (port : mepa_macsec_port_t) (sci : mepa_macsec_sci_t) (secy_id : Z) : M Z :=
  c <- macsec ;;
  if negb (check_resources c true secy_id) then
    dbg_counter_incr (mp_port_no port) MEPA_RC_ERR_MACSEC_HW_RESOURCE_EXHUSTED else
  lan80xx_is_sci_valid dev sci ;;?
  if existsb (fun r => lan80xx_sci_cmp sci (rsc_sci r)) (take CAP_MAX_SC (mc_rx_sc c)) then
    dbg_counter_incr (mp_port_no port) MEPA_RC_ERR_MACSEC_SCI_ALREADY_EXISTS else
  s <- look (fun c => secy_of c secy_id) ;;
  let in_secy := first_below CAP_MAX_SC (fun sc => match secy_rx_sc s !! sc with Some None => true | _ => false end) in
  let in_conf := first_below CAP_MAX_SC (fun sc => match mc_rx_sc c !! sc with Some r => negb (rsc_in_use r) | None => false end) in
  match in_secy, in_conf with
  | Some sc_secy, Some sc_conf =>
      match first_below (Z.to_nat LAN80XX_MACSEC_MAX_RX_SC) (fun i => negb (Z.testbit (mc_rx_sc_hw_idx_in_use c) (Z.of_nat i))) with
      | None => dbg_counter_incr (mp_port_no port) MEPA_RC_ERR_MACSEC_SC_RESOURCE_NOT_FOUND
      | Some hw_sc_idx =>
          let hw := Z.of_nat hw_sc_idx in
          let sc := Z.of_nat sc_secy in
          modify (fun c => set_mc_rx_sc_hw_idx_in_use (mc_rx_sc_hw_idx_in_use c .| (1 .<< hw)) c) ;;;
          upd_secy secy_id (fun s => set_secy_rx_sc (upd_idx (fun _ => Some sc_conf) sc (secy_rx_sc s)) s) ;;;
          upd_rx_sc secy_id sc (set_rsc_sci sci) ;;;
          upd_rx_sc secy_id sc (set_rsc_conf (Mk_mepa_macsec_rx_sc_conf_t (sc_validate_frames (secy_conf s))
            (sc_replay_protect (secy_conf s)) (sc_replay_window (secy_conf s)) (sc_confidentiality_offset (secy_conf s)))) ;;;
          t <- MEPA_UPTIME_SECONDS ;;
          upd_rx_sc secy_id sc (fun r => set_rsc_status (set_rcs_created_time t (rsc_status r)) r) ;;;
          upd_rx_sc secy_id sc (set_rsc_in_use true) ;;;
          upd_rx_sc secy_id sc (set_rsc_hw_sc_idx hw) ;;;
          ret MEPA_RC_OK
      end
  | _, _ => dbg_counter_incr (mp_port_no port) MEPA_RC_ERR_MACSEC_SC_RESOURCE_NOT_FOUND
  end.

(** The associations of the transmit channel, before it or its SecY's
    configuration goes. *)
Definition tx_sas_del (port : mepa_macsec_port_t) (secy_id : Z) (k : M Z) : M Z :=
  for_ok (fun sa =>
    p <- look (fun c => tx_sa_slot c secy_id sa) ;;
    match p with None => ret MEPA_RC_OK | Some _ =>
    ensure lan80xx_macsec_tx_sa_disable_ secy_id port sa
      else dbg_counter_incr (mp_port_no port) MEPA_RC_ERR_MACSEC_COULD_NOT_DISABLE_SA ;;
    ensure lan80xx_macsec_tx_sa_del_ secy_id port sa
      else dbg_counter_incr (mp_port_no port) MEPA_RC_ERR_MACSEC_COULD_NOT_DEL_TX_SA ;;
    ret MEPA_RC_OK
    end) 0 (Z.to_nat MEPA_MACSEC_SA_PER_SC) k.
Definition lan80xx_macsec_tx_sc_del_ (port : mepa_macsec_port_t) (secy_id : Z) : M Z :=
  s <- look (fun c => secy_of c secy_id) ;;
  if negb (tsc_in_use (secy_tx_sc s)) then dbg_counter_incr (mp_port_no port) MEPA_RC_ERR_MACSEC_TX_SC_NOT_EXIST else
  tx_sas_del port secy_id
    (upd_secy secy_id (set_secy_tx_sc phy25g_macsec_internal_tx_sc_t_0) ;;; ret MEPA_RC_OK).

Definition lan80xx_macsec_tx_sc_set_ (secy_id : Z) : M Z :=
  s <- look (fun c => secy_of c secy_id) ;;
  lan80xx_is_sci_valid dev (secy_sci s) ;;?
  (t <- MEPA_UPTIME_SECONDS ;;
   upd_tx_sc secy_id (fun x => set_tsc_status (set_tcs_created_time t (tsc_status x)) x) ;;;
   t <- MEPA_UPTIME_SECONDS ;;
   upd_tx_sc secy_id (fun x => set_tsc_status (set_tcs_started_time t (tsc_status x)) x) ;;;
   upd_tx_sc secy_id (fun x => set_tsc_status (set_tcs_stopped_time 0 (tsc_status x)) x) ;;;
   upd_tx_sc secy_id (set_tsc_in_use true) ;;;
   upd_secy secy_id (fun s => set_secy_tx_sc
     (set_tsc_status (set_tcs_sci (secy_sci s) (tsc_status (secy_tx_sc s))) (secy_tx_sc s)) s) ;;;
   ret MEPA_RC_OK).

(** ** SecYs *)

(** What [secy_conf_add] stores in the SecY, [in_use] aside. *)
Definition secy_setup (port : mepa_macsec_port_t) (conf : mepa_macsec_secy_conf_t)
    (s : phy25g_macsec_internal_secy_t) : phy25g_macsec_internal_secy_t :=
  let reset_rec row := upd_idx (fun _ => MACSEC_NOT_IN_USE) 1 (upd_idx (fun _ => MACSEC_NOT_IN_USE) 0 row) in
  let reset_pat row := upd_idx (set_pat_match MEPA_MACSEC_MATCH_DISABLE) 1
                         (upd_idx (set_pat_match MEPA_MACSEC_MATCH_DISABLE) 0 row) in
  let lowest row := upd_idx (set_pat_priority MEPA_MACSEC_MATCH_PRIORITY_LOWEST) MEPA_MACSEC_DIRECTION_INGRESS
                      (upd_idx (set_pat_priority MEPA_MACSEC_MATCH_PRIORITY_LOWEST) MEPA_MACSEC_DIRECTION_EGRESS row) in
  let s := set_secy_conf conf s in
  let s := set_secy_sci (Mk_mepa_macsec_sci_t (sc_mac_addr conf) (mp_port_id port)) s in
  let s := set_secy_service_id (mp_service_id port) s in
  let s := set_secy_tag_bypass MEPA_MACSEC_BYPASS_TAG_ZERO s in
  let s := set_secy_pattern_record (map reset_rec (secy_pattern_record s)) s in
  let s := set_secy_pattern (map reset_pat (secy_pattern s)) s in
  set_secy_pattern (upd_idx lowest MEPA_MACSEC_MATCH_ACTION_CONTROLLED_PORT (secy_pattern s)) s.

(** Replay windows above 2^30 are not supported with extended numbers. *)
Definition window_too_large (suite window : Z) : bool := is_xpn suite && (window >? LAN80XX_MACSEC_REPLAY_WINDOW_SIZE).

Definition lan80xx_macsec_secy_conf_add_priv (port : mepa_macsec_port_t) (conf : mepa_macsec_secy_conf_t) : M Z :=
  if sc_confidentiality_offset conf >? 127 then ret MEPA_RC_ERROR else
  r <- lan80xx_macsec_port_check port true ;;
  if negb (fst r =? MEPA_RC_OK) then ret (fst r) else
  let secy_id := snd r in
  c <- macsec ;;
  if negb (check_resources c false 0) then
    dbg_counter_incr (mp_port_no port) MEPA_RC_ERR_MACSEC_HW_RESOURCE_EXHUSTED
  else if window_too_large (sc_current_cipher_suite conf) (sc_replay_window conf) then ret MEPA_RC_ERROR
  else
    upd_secy secy_id (secy_setup port conf) ;;;
    s <- look (fun c => secy_of c secy_id) ;;
    rc <- lan80xx_is_sci_valid dev (secy_sci s) ;;
    upd_secy secy_id (set_secy_in_use (rc =? MEPA_RC_OK)) ;;;
    ret rc.

(** The patterns in the order in which [secy_conf_del] removes them. *)
Definition del_patterns : list (Z * Z) :=
  [(MEPA_MACSEC_MATCH_ACTION_CONTROLLED_PORT, MEPA_MACSEC_DIRECTION_INGRESS);
   (MEPA_MACSEC_MATCH_ACTION_UNCONTROLLED_PORT, MEPA_MACSEC_DIRECTION_INGRESS);
   (MEPA_MACSEC_MATCH_ACTION_DROP, MEPA_MACSEC_DIRECTION_INGRESS);
   (MEPA_MACSEC_MATCH_ACTION_CONTROLLED_PORT, MEPA_MACSEC_DIRECTION_EGRESS);
   (MEPA_MACSEC_MATCH_ACTION_UNCONTROLLED_PORT, MEPA_MACSEC_DIRECTION_EGRESS);
   (MEPA_MACSEC_MATCH_ACTION_DROP, MEPA_MACSEC_DIRECTION_EGRESS)].
Fixpoint patterns_del (port : mepa_macsec_port_t) (secy_id : Z) (l : list (Z * Z)) (k : M Z) : M Z :=
  match l with
  | [] => k
  | (action, direction) :: l =>
      record <- look (fun c => pattern_record_of c secy_id action direction) ;;
      (if negb (record =? MACSEC_NOT_IN_USE) then lan80xx_macsec_pattern_del_ port secy_id direction action
       else ret MEPA_RC_OK) ;;?
      patterns_del port secy_id l k
  end.

Definition lan80xx_macsec_secy_conf_del_ (port : mepa_macsec_port_t) (secy_id : Z) : M Z :=
  s <- look (fun c => secy_of c secy_id) ;;
  (if tsc_in_use (secy_tx_sc s) then lan80xx_macsec_tx_sc_del_ port secy_id else ret MEPA_RC_OK) ;;?
  for_rc (fun sc =>
    p <- look (fun c => rx_sc_slot c secy_id sc) ;;
    match p with
    | None => ret MEPA_RC_OK
    | Some _ => r <- look (fun c => rx_sc_of c secy_id sc) ;; lan80xx_macsec_rx_sc_del_ port (rsc_sci r) secy_id
    end) 0 CAP_MAX_SC
  (patterns_del port secy_id del_patterns
    (upd_secy secy_id (fun _ => phy25g_macsec_internal_secy_t_0) ;;; ret MEPA_RC_OK)).

(** The associations of one receive channel, whose configuration changes. *)
Definition rx_sas_del (port : mepa_macsec_port_t) (secy_id sc : Z) (k : M Z) : M Z :=
  for_ok (fun sa =>
    p <- look (fun c => rx_sa_slot c secy_id sc sa) ;;
    match p with None => ret MEPA_RC_OK | Some _ =>
    r <- look (fun c => rx_sc_of c secy_id sc) ;;
    e <- look (fun c => rx_sa_of c secy_id sc sa) ;;
    ensure (if rst_in_use (rsa_status e) then lan80xx_macsec_rx_sa_disable_ secy_id port (rsc_sci r) sa else ret MEPA_RC_OK)
      else dbg_counter_incr (mp_port_no port) MEPA_RC_ERR_MACSEC_COULD_NOT_DISABLE_SA ;;
    ensure lan80xx_macsec_rx_sa_del_ secy_id port (rsc_sci r) sa
      else dbg_counter_incr (mp_port_no port) MEPA_RC_ERR_MACSEC_COULD_NOT_DEL_RX_SA ;;
    ret MEPA_RC_OK
    end) 0 (Z.to_nat MEPA_MACSEC_SA_PER_SC) k.
(** [rc] is the code of the last check of the SecY's identifier. *)
Fixpoint rx_scs_update (port : mepa_macsec_port_t) (conf : mepa_macsec_secy_conf_t) (secy_id sc : Z) (n : nat) (rc : Z) : M Z :=
  match n with
  | O => ret rc
  | S n =>
      p <- look (fun c => rx_sc_slot c secy_id sc) ;;
      match p with
      | None => rx_scs_update port conf secy_id (sc + 1) n rc
      | Some _ =>
          r <- look (fun c => rx_sc_of c secy_id sc) ;;
          if negb (rsc_in_use r) then rx_scs_update port conf secy_id (sc + 1) n rc else
          s <- look (fun c => secy_of c secy_id) ;;
          rc <- lan80xx_is_sci_valid dev (secy_sci s) ;;
          if negb (rc =? MEPA_RC_OK) then rx_scs_update port conf secy_id (sc + 1) n rc else
          upd_rx_sc secy_id sc (set_rsc_conf (Mk_mepa_macsec_rx_sc_conf_t (sc_validate_frames conf)
            (sc_replay_protect conf) (sc_replay_window conf) (sc_confidentiality_offset conf))) ;;;
          rx_sas_del port secy_id sc (rx_scs_update port conf secy_id (sc + 1) n rc)
      end
  end.
Definition lan80xx_macsec_secy_conf_update_priv (port : mepa_macsec_port_t) (conf : mepa_macsec_secy_conf_t) : M Z :=
  if sc_confidentiality_offset conf >? 127 then ret MEPA_RC_ERROR else
  r <- lan80xx_macsec_port_check port false ;;
  if negb (fst r =? MEPA_RC_OK) then ret (fst r) else
  let secy_id := snd r in
  if window_too_large (sc_current_cipher_suite conf) (sc_replay_window conf) then ret MEPA_RC_ERROR else
  upd_secy secy_id (fun s => set_secy_sci (Mk_mepa_macsec_sci_t (sc_mac_addr conf) (sci_port_id (secy_sci s)))
                               (set_secy_conf conf s)) ;;;
  tx_sas_del port secy_id (rx_scs_update port conf secy_id 0 CAP_MAX_SC MEPA_RC_OK).

Definition lan80xx_macsec_secy_controlled_set_ (port : mepa_macsec_port_t) (enable secy_id : Z) : M Z :=
  s <- look (fun c => secy_of c secy_id) ;;
  if secy_controlled_port_enabled s =? enable then ret MEPA_RC_OK else
  for_ok (fun sc =>
    p <- look (fun c => rx_sc_slot c secy_id sc) ;;
    match p with None => ret MEPA_RC_OK | Some _ =>
    for_ok (fun sa =>
      p <- look (fun c => rx_sa_slot c secy_id sc sa) ;;
      match p with None => ret MEPA_RC_OK | Some _ =>
      e <- look (fun c => rx_sa_of c secy_id sc sa) ;;
      if negb (rsa_enabled e) then ret MEPA_RC_OK else
      ensure lan80xx_macsec_sa_enable dev (mp_port_no port) (rsa_record e) false (tb enable)
        else dbg_counter_incr (mp_port_no port) MEPA_RC_ERR_MACSEC_COULD_NOT_DISABLE_SA ;;
      ret MEPA_RC_OK
      end) 0 (Z.to_nat MEPA_MACSEC_SA_PER_SC) (ret MEPA_RC_OK)
    end) 0 CAP_MAX_SC
  (for_ok (fun sa =>
     p <- look (fun c => tx_sa_slot c secy_id sa) ;;
     match p with None => ret MEPA_RC_OK | Some _ =>
     e <- look (fun c => tx_sa_of c secy_id sa) ;;
     if negb (tsa_enabled e) then ret MEPA_RC_OK else
     ensure lan80xx_macsec_sa_enable dev (mp_port_no port) (tsa_record e) true (tb enable)
       else dbg_counter_incr (mp_port_no port) MEPA_RC_ERR_MACSEC_COULD_NOT_DISABLE_SA ;;
     ret MEPA_RC_OK
     end) 0 (Z.to_nat MEPA_MACSEC_SA_PER_SC)
   (upd_secy secy_id (set_secy_controlled_port_enabled enable) ;;; ret MEPA_RC_OK)).
End MacsecSa.
