(* ===== verification/Lan80xxMacsecApi.v ===== *)
(** * Lan80xxMacsecApi: the MACsec API of the LAN80xx

    [lan80xx_macsec_private.c]: the functions whose names end in [_priv], which
    look for the SecY of a port and call what [Lan80xxMacsecSa] models, or read
    and write the tables themselves; and [lan80xx_macsec.c]: the driver's
    functions, which take the lock around them.

    A function that stores a result through a pointer returns the code and what
    it stored, [None] if it stored nothing; where the function it calls says what
    the pointer points to after the call in any case, so does this one. *)

From Stdlib Require Import ZArith Lia List Bool String.
From stdpp Require Import base gmap strings list.
From S2P Require Import Prelude Machine Lan80xxRegs Lan80xxMacsecTypes Lan80xxCsr Lan80xxMacsecRegs.
From S2P Require Import Lan80xxMacsec Lan80xxMacsecSa.

Section MacsecApi.
Context {B : Type} {CO : Callout80 B} {HO : Host B}.
Variable dev : Z.
Notation M := (M (env80 B) phy25g_phy_state_t).
Notation conf_t := phy25g_macsec_internal_conf_t.
Notation macsec := (Lan80xxMacsec.macsec dev).
Notation look := (Lan80xxMacsec.look dev).
Notation modify := (Lan80xxMacsec.modify dev).
Notation upd_secy := (Lan80xxMacsec.upd_secy dev).
Notation upd_tx_sc := (Lan80xxMacsec.upd_tx_sc dev).
Notation upd_rx_sc := (Lan80xxMacsec.upd_rx_sc dev).
Notation dbg_counter_incr := (Lan80xxMacsec.dbg_counter_incr dev).
Notation port_t := mepa_macsec_port_t.
Notation sci_t := mepa_macsec_sci_t.

(** [if ((rc = lan80xx_macsec_port_check(dev, port, 0, &secy_id)) == MEPA_RC_OK) rc = f(secy_id);] *)
Definition on_secy (port : port_t) (f : Z -> M Z) : M Z :=
  r <- lan80xx_macsec_port_check dev port false ;;
  if fst r =? MEPA_RC_OK then f (snd r) else ret (fst r).
(** With a result, which is [a] when there is no SecY. *)
Definition on_secy_get {A} (port : port_t) (a : A) (f : Z -> M (Z * A)) : M (Z * A) :=
  r <- lan80xx_macsec_port_check dev port false ;;
  if fst r =? MEPA_RC_OK then f (snd r) else ret (fst r, a).
(** [dbg_counter_incr] as the code of a function that goes on. *)
Definition ok_or (b : bool) (port : port_t) (e : Z) : M Z :=
  if b then ret MEPA_RC_OK else dbg_counter_incr (mp_port_no port) e.

(** ** SecYs *)

Definition lan80xx_macsec_secy_conf_del_priv (port : port_t) : M Z :=
  on_secy port (lan80xx_macsec_secy_conf_del_ dev port).
Definition lan80xx_macsec_secy_conf_get_priv (port : port_t) : M (Z * option mepa_macsec_secy_conf_t) :=
  on_secy_get port None (fun secy_id =>
  s <- look (fun c => secy_of c secy_id) ;; ret (MEPA_RC_OK, Some (secy_conf s))).
Definition lan80xx_macsec_secy_controlled_set_priv (port : port_t) (enable : Z) : M Z :=
  on_secy port (lan80xx_macsec_secy_controlled_set_ dev port enable).
Definition lan80xx_macsec_secy_controlled_get_priv (port : port_t) : M (Z * option Z) :=
  on_secy_get port None (fun secy_id =>
  s <- look (fun c => secy_of c secy_id) ;; ret (MEPA_RC_OK, Some (secy_controlled_port_enabled s))).

(** ** Channels *)

Definition lan80xx_macsec_tx_sc_set_priv (port : port_t) : M Z := on_secy port (lan80xx_macsec_tx_sc_set_ dev).

(** The SecY changes without the channel, too. *)
Definition lan80xx_macsec_tx_sc_update_priv (port : port_t) (conf : mepa_macsec_tx_sc_conf_t) : M Z :=
  if tc_confidentiality_offset conf >? 128 then ret MEPA_RC_ERROR else
  on_secy port (fun secy_id =>
  s <- look (fun c => secy_of c secy_id) ;;
  rc <- ok_or (tsc_in_use (secy_tx_sc s)) port MEPA_RC_ERR_MACSEC_TX_SC_NOT_EXIST ;;
  upd_secy secy_id (fun s => set_secy_conf
    (set_sc_confidentiality_offset (tc_confidentiality_offset conf)
      (set_sc_use_scb (tc_use_scb conf) (set_sc_use_es (tc_use_es conf)
        (set_sc_always_include_sci (tc_always_include_sci conf)
          (set_sc_protect_frames (tc_protect_frames conf) (secy_conf s)))))) s) ;;;
  ret rc).
Definition lan80xx_macsec_tx_sc_del_priv (port : port_t) : M Z := on_secy port (lan80xx_macsec_tx_sc_del_ dev port).

(** [for (an = 0; an < 4; an++) if (sa[an] != NULL && sa[an]->in_use)] *)
Definition any_sa {A} (l : list A) (in_use : A -> bool) (sa : list (option nat)) : option bool :=
  let step (r : option bool) (p : option (option nat)) : option bool :=
    b ← r; p ← p;
    match p with None => Some b | Some p => x ← l !! p; Some (b || in_use x) end in
  fold_left step (map (fun an => sa !! an) (seq 0 (Z.to_nat MEPA_MACSEC_SA_PER_SC_MAX))) (Some false).

Definition lan80xx_macsec_tx_sc_status_get_priv (port : port_t) : M (Z * option mepa_macsec_tx_sc_status_t) :=
  on_secy_get port None (fun secy_id =>
  s <- look (fun c => secy_of c secy_id) ;;
  rc <- ok_or (tsc_in_use (secy_tx_sc s)) port MEPA_RC_ERR_MACSEC_TX_SC_NOT_EXIST ;;
  transmitting <- look (fun c => s ← secy_of c secy_id; any_sa (mc_tx_sa c) tsa_in_use (tsc_sa (secy_tx_sc s))) ;;
  upd_tx_sc secy_id (fun t => set_tsc_status (set_tcs_transmitting transmitting (tsc_status t)) t) ;;;
  s <- look (fun c => secy_of c secy_id) ;;
  ret (rc, Some (tsc_status (secy_tx_sc s)))).
Definition lan80xx_macsec_tx_sc_get_conf_priv (port : port_t) : M (Z * option mepa_macsec_tx_sc_conf_t) :=
  on_secy_get port None (fun secy_id =>
  s <- look (fun c => secy_of c secy_id) ;;
  rc <- ok_or (tsc_in_use (secy_tx_sc s)) port MEPA_RC_ERR_MACSEC_TX_SC_NOT_EXIST ;;
  let conf := secy_conf s in
  ret (rc, Some (Mk_mepa_macsec_tx_sc_conf_t (sc_protect_frames conf) (sc_always_include_sci conf) (sc_use_es conf)
    (sc_use_scb conf) (sc_confidentiality_offset conf)))).

Definition lan80xx_macsec_rx_sc_add_priv (port : port_t) (sci : sci_t) : M Z :=
  on_secy port (lan80xx_macsec_rx_sc_add_ dev port sci).
Definition lan80xx_macsec_rx_sc_update_priv (port : port_t) (sci : sci_t) (conf : mepa_macsec_rx_sc_conf_t) : M Z :=
  if rc_confidentiality_offset conf >? 128 then ret MEPA_RC_ERROR else
  on_secy port (fun secy_id =>
  r <- lan80xx_sc_from_sci_get dev secy_id sci 0 ;;
  if negb (fst r =? MEPA_RC_OK) then ret (fst r) else
  s <- look (fun c => secy_of c secy_id) ;;
  if window_too_large (sc_current_cipher_suite (secy_conf s)) (rc_replay_window conf) then ret MEPA_RC_ERROR else
  upd_rx_sc secy_id (snd r) (set_rsc_conf conf) ;;; ret MEPA_RC_OK).
Definition lan80xx_macsec_rx_sc_get_conf_priv (port : port_t) (sci : sci_t) : M (Z * option mepa_macsec_rx_sc_conf_t) :=
  on_secy_get port None (fun secy_id =>
  r <- lan80xx_sc_from_sci_get dev secy_id sci 0 ;;
  if negb (fst r =? MEPA_RC_OK) then ret (fst r, None) else
  x <- look (fun c => rx_sc_of c secy_id (snd r)) ;; ret (MEPA_RC_OK, Some (rsc_conf x))).
Definition lan80xx_macsec_rx_sc_status_get_priv (port : port_t) (sci : sci_t) :
    M (Z * option mepa_macsec_rx_sc_status_t) :=
  on_secy_get port None (fun secy_id =>
  r <- lan80xx_sc_from_sci_get dev secy_id sci 0 ;;
  if negb (fst r =? MEPA_RC_OK) then ret (fst r, None) else
  let sc := snd r in
  receiving <- look (fun c => x ← rx_sc_of c secy_id sc; any_sa (mc_rx_sa c) rsa_in_use (rsc_sa x)) ;;
  upd_rx_sc secy_id sc (fun x => set_rsc_status (set_rcs_receiving receiving (rsc_status x)) x) ;;;
  x <- look (fun c => rx_sc_of c secy_id sc) ;;
  ret (MEPA_RC_OK, Some (rsc_status x))).
Definition lan80xx_macsec_rx_sc_del_priv (port : port_t) (sci : sci_t) : M Z :=
  on_secy port (lan80xx_macsec_rx_sc_del_ dev port sci).

(** ** Patterns *)

Definition tcam_action (action : Z) : bool :=
  (action =? MEPA_MACSEC_MATCH_ACTION_DROP) || (action =? MEPA_MACSEC_MATCH_ACTION_UNCONTROLLED_PORT).
Definition lan80xx_macsec_pattern_set_priv (port : port_t) (direction action : Z)
    (pattern : mepa_macsec_match_pattern_t) : M Z :=
  data <- data_of dev ;;
  if ((p80_rev data =? LAN80XX_REV_A0) || (p80_rev data =? LAN80XX_REV_A1)) && (action =? MEPA_MACSEC_MATCH_ACTION_DROP)
  then ret MEPA_RC_ERROR else
  if tb (pat_match pattern .& MEPA_MACSEC_MATCH_SMAC) then ret MEPA_RC_ERROR else
  r <- lan80xx_macsec_port_check dev port false ;;
  if negb (fst r =? MEPA_RC_OK) then dbg_counter_incr (mp_port_no port) MEPA_RC_ERR_MACSEC_NO_SECY_FOUND else
  let secy_id := snd r in
  let store := upd_pattern dev secy_id action direction (fun _ => pattern) ;;; ret MEPA_RC_OK in
  if tcam_action action then
    ensure MACSEC_RC_COLD dev (lan80xx_macsec_pattern_set_ dev (mp_port_no port) secy_id direction action pattern)
      else dbg_counter_incr (mp_port_no port) MEPA_RC_ERR_MACSEC_COULD_NOT_SET_PATTERN ;;
    store
  else store.
Definition lan80xx_macsec_pattern_get_priv (port : port_t) (direction action : Z) :
    M (Z * option mepa_macsec_match_pattern_t) :=
  on_secy_get port None (fun secy_id =>
  p <- look (fun c => pattern_of c secy_id action direction) ;;
  rc <- ok_or (negb (pat_match p =? MEPA_MACSEC_MATCH_DISABLE)) port MEPA_RC_ERR_MACSEC_NO_PATTERN_CFG ;;
  ret (rc, Some p)).
Definition lan80xx_macsec_pattern_del_priv (port : port_t) (direction action : Z) : M Z :=
  r <- lan80xx_macsec_port_check dev port false ;;
  if negb (fst r =? MEPA_RC_OK) then dbg_counter_incr (mp_port_no port) MEPA_RC_ERR_MACSEC_NO_SECY_FOUND else
  let secy_id := snd r in
  ensure (if tcam_action action then lan80xx_macsec_pattern_del_ dev port secy_id direction action else ret MEPA_RC_OK)
    else ret MEPA_RC_ERROR ;;
  (upd_pattern dev secy_id action direction
     (fun _ => set_pat_match MEPA_MACSEC_MATCH_DISABLE mepa_macsec_match_pattern_t_0) ;;;
   ret MEPA_RC_OK).

(** ** Transmit associations

    The packet number of 32 bits goes into a union of 64 bits that is not
    initialised. *)

Definition lan80xx_macsec_tx_sa_set_priv (port : port_t) (an next_pn confidentiality : Z) (sak : mepa_macsec_sak_t) : M Z :=
  let pkt_num := set_pn (u64 (uninit80 "pkt_num")) next_pn in
  on_secy port (fun secy_id => lan80xx_macsec_tx_sa_set_ dev secy_id port an pkt_num confidentiality sak None).
Definition lan80xx_macsec_tx_seca_set_priv (port : port_t) (an next_pn confidentiality : Z) (sak : mepa_macsec_sak_t)
    (ssci : option (list Z)) : M Z :=
  on_secy port (fun secy_id => lan80xx_macsec_tx_sa_set_ dev secy_id port an next_pn confidentiality sak ssci).

(** What both functions that read an association store: the packet number,
    [*confidentiality], [*sak], [*active] and [*ssci], which is not stored
    without association. *)
Definition tx_sa_read (port : port_t) (an : Z) (pn : mepa_macsec_tx_sa_status_t -> Z) :
    M (Z * option (Z * Z * mepa_macsec_sak_t * bool * option (list Z))) :=
  if an >=? MEPA_MACSEC_SA_PER_SC_MAX then ret (MEPA_RC_ERROR, None) else
  on_secy_get port None (fun secy_id =>
  p <- look (fun c => tx_sa_slot c secy_id an) ;;
  match p with
  | None =>
      rc <- dbg_counter_incr (mp_port_no port) MEPA_RC_ERR_MACSEC_AN_NOT_EXIST ;;
      ret (rc, Some (0, FALSE, mepa_macsec_sak_t_0, false, None))
  | Some _ =>
      sa <- look (fun c => tx_sa_of c secy_id an) ;;
      ret (MEPA_RC_OK, Some (pn (tsa_status sa), tsa_confidentiality sa, tsa_sak sa, tsa_enabled sa, Some (tsa_ssci sa)))
  end).
Definition lan80xx_macsec_tx_sa_get_priv (port : port_t) (an : Z) :
    M (Z * option (Z * Z * mepa_macsec_sak_t * bool)) :=
  r <- tx_sa_read port an tst_next_pn ;; ret (fst r, option_map fst (snd r)).
Definition lan80xx_macsec_tx_seca_get_priv (port : port_t) (an : Z) :
    M (Z * option (Z * Z * mepa_macsec_sak_t * bool * option (list Z))) :=
  tx_sa_read port an tst_pn_next_pn.

Definition lan80xx_macsec_tx_sa_del_priv (port : port_t) (an : Z) : M Z :=
  on_secy port (fun secy_id => lan80xx_macsec_tx_sa_del_ dev secy_id port an).
Definition lan80xx_macsec_tx_sa_activate_priv (port : port_t) (an : Z) : M Z :=
  on_secy port (fun secy_id => lan80xx_macsec_tx_sa_activate_ dev secy_id port an).
Definition lan80xx_macsec_tx_sa_disable_priv (port : port_t) (an : Z) : M Z :=
  on_secy port (fun secy_id => lan80xx_macsec_tx_sa_disable_ dev secy_id port an).
Definition lan80xx_macsec_tx_sa_status_get_priv (port : port_t) (an : Z) : M (Z * option mepa_macsec_tx_sa_status_t) :=
  on_secy_get port None (fun secy_id =>
  rc <- lan80xx_macsec_tx_sa_status_get_ dev secy_id port an ;;
  if negb (rc =? MEPA_RC_OK) then ret (rc, None) else
  sa <- look (fun c => tx_sa_of c secy_id an) ;; ret (MEPA_RC_OK, Some (tsa_status sa))).

(** ** Receive associations *)

Definition lan80xx_macsec_rx_sa_set_priv (port : port_t) (sci : sci_t) (an lowest_pn : Z) (sak : mepa_macsec_sak_t) : M Z :=
  let pkt_num := set_pn (u64 (uninit80 "pkt_num")) lowest_pn in
  on_secy port (fun secy_id => lan80xx_macsec_rx_sa_set_ dev secy_id port sci an pkt_num sak None).
(** The code, [*lowest_pn], and [*sak] and [*active]. *)
Definition lan80xx_macsec_rx_sa_get_priv (port : port_t) (sci : sci_t) (an : Z) :
    M (Z * Z * option (mepa_macsec_sak_t * bool)) :=
  r <- on_secy_get port None (fun secy_id =>
         lan80xx_macsec_rx_sa_get_ dev secy_id port sci an (u64 (uninit80 "pkt_num"))) ;;
  match r with
  | (rc, Some (pkt_num, sak, active, _)) =>
      ret (rc, if rc =? MEPA_RC_OK then pn_of pkt_num else 0, Some (sak, active))
  | (rc, None) => ret (rc, if rc =? MEPA_RC_OK then pn_of (u64 (uninit80 "pkt_num")) else 0, None)
  end.
Definition lan80xx_macsec_rx_seca_set_priv (port : port_t) (sci : sci_t) (an lowest_pn : Z) (sak : mepa_macsec_sak_t)
    (ssci : option (list Z)) : M Z :=
  on_secy port (fun secy_id => lan80xx_macsec_rx_sa_set_ dev secy_id port sci an lowest_pn sak ssci).
Definition lan80xx_macsec_rx_seca_get_priv (port : port_t) (sci : sci_t) (an lowest_pn : Z) :
    M (Z * option (Z * mepa_macsec_sak_t * bool * list Z)) :=
  on_secy_get port None (fun secy_id => lan80xx_macsec_rx_sa_get_ dev secy_id port sci an lowest_pn).
Definition lan80xx_macsec_rx_sa_activate_priv (port : port_t) (sci : sci_t) (an : Z) : M Z :=
  on_secy port (fun secy_id => lan80xx_macsec_rx_sa_activate_ dev secy_id port sci an).
Definition lan80xx_macsec_rx_sa_disable_priv (port : port_t) (sci : sci_t) (an : Z) : M Z :=
  on_secy port (fun secy_id => lan80xx_macsec_rx_sa_disable_ dev secy_id port sci an).
Definition lan80xx_macsec_rx_sa_del_priv (port : port_t) (sci : sci_t) (an : Z) : M Z :=
  on_secy port (fun secy_id => lan80xx_macsec_rx_sa_del_ dev secy_id port sci an).
Definition lan80xx_macsec_rx_sa_status_get_priv (port : port_t) (sci : sci_t) (an : Z)
    (status : mepa_macsec_rx_sa_status_t) : M (Z * mepa_macsec_rx_sa_status_t) :=
  on_secy_get port status (fun secy_id => lan80xx_macsec_rx_sa_status_get_ dev secy_id port sci an status).
Definition lan80xx_macsec_rx_sa_lowest_pn_update_priv (port : port_t) (sci : sci_t) (an lowest_pn : Z) : M Z :=
  let pkt_num := set_pn (u64 (uninit80 "pkt_num")) lowest_pn in
  on_secy port (fun secy_id => lan80xx_macsec_rx_sa_lowest_pn_update_ dev secy_id port sci an pkt_num).

Definition lan80xx_macsec_rxsa_an_status_get_ (secy_id : Z) (sci : sci_t) (an : Z) : M (Z * option bool) :=
  r <- lan80xx_sc_from_sci_get dev secy_id sci 0 ;;
  if fst r <? MEPA_RC_OK then ret (fst r, None) else
  live <- look (fun c => rx_sa_live c secy_id (snd r) an) ;; ret (MEPA_RC_OK, Some live).
Definition lan80xx_macsec_rxsa_an_status_get_priv (port : port_t) (sci : sci_t) (an : Z) : M (Z * option bool) :=
  if an >=? MEPA_MACSEC_SA_PER_SC_MAX then ret (MEPA_RC_ERROR, None) else
  on_secy_get port None (fun secy_id => lan80xx_macsec_rxsa_an_status_get_ secy_id sci an).

(** ** Counters *)

Definition lan80xx_macsec_tx_sa_counters_get_priv (port : port_t) (an : Z) : M (Z * option mepa_macsec_tx_sa_counters_t) :=
  on_secy_get port None (fun secy_id =>
  r <- lan80xx_macsec_tx_sa_counters_get_ dev (mp_port_no port) an secy_id ;; ret (fst r, Some (snd r))).
Definition lan80xx_macsec_tx_sc_counters_get_priv (port : port_t) : M (Z * option mepa_macsec_tx_sc_counters_t) :=
  on_secy_get port None (fun secy_id =>
  r <- lan80xx_macsec_tx_sc_counters_get_ dev (mp_port_no port) secy_id ;; ret (fst r, Some (snd r))).
Definition lan80xx_macsec_rx_sc_counters_get_priv (port : port_t) (sci : sci_t)
    (counters : mepa_macsec_rx_sc_counters_t) : M (Z * mepa_macsec_rx_sc_counters_t) :=
  on_secy_get port counters (fun secy_id =>
  lan80xx_macsec_rx_sc_counters_get_ dev (mp_port_no port) sci counters secy_id).
Definition lan80xx_macsec_rx_sa_counters_get_priv (port : port_t) (sci : sci_t) (an : Z) :
    M (Z * option mepa_macsec_rx_sa_counters_t) :=
  on_secy_get port None (fun secy_id =>
  r <- lan80xx_macsec_rx_sa_counters_get_ dev (mp_port_no port) sci an secy_id ;; ret (fst r, Some (snd r))).
Definition lan80xx_macsec_txsc_counters_clear_priv (port : port_t) : M Z :=
  on_secy port (fun secy_idx =>
  upd_tx_sc secy_idx (fun t => set_tsc_del_tx_sa_cnt mepa_macsec_tx_sa_counters_t_0
                                 (set_tsc_cnt mepa_macsec_tx_sc_counters_t_0 t)) ;;; ret MEPA_RC_OK).
Definition lan80xx_macsec_txsa_counters_clear_priv (port : port_t) (an : Z) : M Z :=
  on_secy port (lan80xx_macsec_txsa_counters_clear_ dev an).
Definition lan80xx_macsec_rxsc_counters_clear_priv (port : port_t) (sci : sci_t) : M Z :=
  on_secy port (lan80xx_macsec_rxsc_counters_clear_ dev sci).
Definition lan80xx_macsec_rxsa_counters_clear_priv (port : port_t) (sci : sci_t) (an : Z) : M Z :=
  on_secy port (lan80xx_macsec_rxsa_counters_clear_ dev sci an).
Definition lan80xx_macsec_secy_counters_clear_priv (port : port_t) : M Z :=
  on_secy port (fun secy_idx => upd_secy secy_idx (set_secy_secy_cnt mepa_macsec_secy_counters_t_0) ;;; ret MEPA_RC_OK).

(** ** Bypass *)

Definition upd_glb (f : phy25g_macsec_internal_glb_t -> phy25g_macsec_internal_glb_t) : M unit :=
  modify (fun c => set_mc_glb (f (mc_glb c)) c).
Definition lan80xx_macsec_bypass_mode_set_priv (port_no : Z) (bypass : mepa_macsec_bypass_mode_t) : M Z :=
  upd_glb (set_glb_bypass_mode bypass) ;;; ret MEPA_RC_OK.
Definition lan80xx_macsec_bypass_mode_get_priv (port_no : Z) : M (Z * mepa_macsec_bypass_mode_t) :=
  c <- macsec ;; ret (MEPA_RC_OK, glb_bypass_mode (mc_glb c)).
(** Without SecY both succeed. *)
Definition lan80xx_macsec_bypass_tag_set_priv (port : port_t) (tag : Z) : M Z :=
  c <- macsec ;;
  if negb (bm_mode (glb_bypass_mode (mc_glb c)) =? MEPA_MACSEC_BYPASS_TAG) then ret MEPA_RC_ERROR else
  on_secy port (fun secy_id => upd_secy secy_id (set_secy_tag_bypass tag) ;;; ret MEPA_RC_OK) ;;; ret MEPA_RC_OK.
Definition lan80xx_macsec_bypass_tag_get_priv (port : port_t) : M (Z * option Z) :=
  r <- on_secy_get port None (fun secy_id =>
         s <- look (fun c => secy_of c secy_id) ;; ret (MEPA_RC_OK, Some (secy_tag_bypass s))) ;;
  ret (MEPA_RC_OK, snd r).
Definition cleartags_set (enable : Z) (conf : phy25g_macsec_cleartags_conf_t) : M Z :=
  if enable =? 0 then
    upd_glb (fun g => set_glb_cleartags_conf phy25g_macsec_cleartags_conf_t_0 (set_glb_cleartags_init_done false g)) ;;;
    ret MEPA_RC_OK
  else
    c <- macsec ;;
    if bm_mode (glb_bypass_mode (mc_glb c)) =? MEPA_MACSEC_BYPASS_HDR then
      upd_glb (fun g => set_glb_cleartags_init_done true (set_glb_cleartags_conf conf g)) ;;; ret MEPA_RC_OK
    else ret MEPA_RC_ERROR.
Definition lan80xx_macsec_cleartags_config_set_priv (port_no enable : Z) (conf : phy25g_macsec_cleartags_conf_t) : M Z :=
  cleartags_set enable conf.
Definition lan80xx_macsec_cleartags_conf_set_priv (port_no enable : Z) (conf : phy25g_macsec_cleartags_conf_t) : M Z :=
  supported <- lan80xx_macsec_cleartags_supported dev port_no ;;
  if negb (tb supported) then ret MEPA_RC_ERROR else cleartags_set enable conf.
(** [enable] is passed by value. *)
Definition lan80xx_macsec_cleartags_conf_get_priv (port_no enable : Z) : M (Z * option phy25g_macsec_cleartags_conf_t) :=
  supported <- lan80xx_macsec_cleartags_supported dev port_no ;;
  if negb (tb supported) then ret (MEPA_RC_ERROR, None) else
  c <- macsec ;; ret (MEPA_RC_OK, Some (glb_cleartags_conf (mc_glb c))).
Definition lan80xx_macsec_dbg_counter_get_priv (port_no : Z) : M (Z * gmap string Z) :=
  c <- macsec ;; ret (MEPA_RC_OK, mc_rc_dbg_counters c).

(** ** The driver's functions *)

(** [MEPA_ENTER(dev); rc = ...; MEPA_EXIT(dev); return rc;] *)
Definition locked {A} (m : M A) : M A := enter ;;; r <- m ;; exit ;;; ret r.
Definition lan80xx_macsec_is_capable (port_no : Z) : M (Z * Z) :=
  locked (capable <- lan80xx_phy_is_macsec_capable dev ;; ret (MEPA_RC_OK, capable)).
Definition lan80xx_macsec_secy_conf_add (port : port_t) (conf : mepa_macsec_secy_conf_t) :=
  locked (lan80xx_macsec_secy_conf_add_priv dev port conf).
Definition lan80xx_macsec_secy_conf_get (port : port_t) := locked (lan80xx_macsec_secy_conf_get_priv port).
Definition lan80xx_macsec_secy_conf_del (port : port_t) := locked (lan80xx_macsec_secy_conf_del_priv port).
Definition lan80xx_macsec_secy_conf_update (port : port_t) (conf : mepa_macsec_secy_conf_t) :=
  locked (lan80xx_macsec_secy_conf_update_priv dev port conf).
Definition lan80xx_macsec_secy_controlled_set (port : port_t) (enable : Z) :=
  locked (lan80xx_macsec_secy_controlled_set_priv port enable).
Definition lan80xx_macsec_secy_controlled_get (port : port_t) :=
  locked (lan80xx_macsec_secy_controlled_get_priv port).
Definition lan80xx_macsec_pattern_set (port : port_t) (direction action : Z) (pattern : mepa_macsec_match_pattern_t) :=
  locked (lan80xx_macsec_pattern_set_priv port direction action pattern).
Definition lan80xx_macsec_pattern_get (port : port_t) (direction action : Z) :=
  locked (lan80xx_macsec_pattern_get_priv port direction action).
Definition lan80xx_macsec_pattern_del (port : port_t) (direction action : Z) :=
  locked (lan80xx_macsec_pattern_del_priv port direction action).
Definition lan80xx_macsec_tx_sc_set (port : port_t) := locked (lan80xx_macsec_tx_sc_set_priv port).
Definition lan80xx_macsec_tx_sc_update (port : port_t) (conf : mepa_macsec_tx_sc_conf_t) :=
  locked (lan80xx_macsec_tx_sc_update_priv port conf).
Definition lan80xx_macsec_tx_sc_del (port : port_t) := locked (lan80xx_macsec_tx_sc_del_priv port).
Definition lan80xx_macsec_tx_sc_status_get (port : port_t) := locked (lan80xx_macsec_tx_sc_status_get_priv port).
Definition lan80xx_macsec_tx_sc_get_conf (port : port_t) := locked (lan80xx_macsec_tx_sc_get_conf_priv port).
Definition lan80xx_macsec_rx_sc_add (port : port_t) (sci : sci_t) :=
  locked (lan80xx_macsec_rx_sc_add_priv port sci).
Definition lan80xx_macsec_rx_sc_update (port : port_t) (sci : sci_t) (conf : mepa_macsec_rx_sc_conf_t) :=
  locked (lan80xx_macsec_rx_sc_update_priv port sci conf).
Definition lan80xx_macsec_rx_sc_get_conf (port : port_t) (sci : sci_t) :=
  locked (lan80xx_macsec_rx_sc_get_conf_priv port sci).
Definition lan80xx_macsec_rx_sc_status_get (port : port_t) (sci : sci_t) :=
  locked (lan80xx_macsec_rx_sc_status_get_priv port sci).
Definition lan80xx_macsec_rx_sc_del (port : port_t) (sci : sci_t) :=
  locked (lan80xx_macsec_rx_sc_del_priv port sci).
Definition lan80xx_macsec_tx_sa_set (port : port_t) (an next_pn confidentiality : Z) (sak : mepa_macsec_sak_t) :=
  locked (lan80xx_macsec_tx_sa_set_priv port an next_pn confidentiality sak).
Definition lan80xx_macsec_tx_sa_get (port : port_t) (an : Z) := locked (lan80xx_macsec_tx_sa_get_priv port an).
Definition lan80xx_macsec_tx_seca_set (port : port_t) (an next_pn confidentiality : Z) (sak : mepa_macsec_sak_t) (ssci : option (list Z)) :=
  locked (lan80xx_macsec_tx_seca_set_priv port an next_pn confidentiality sak ssci).
Definition lan80xx_macsec_tx_seca_get (port : port_t) (an : Z) := locked (lan80xx_macsec_tx_seca_get_priv port an).
Definition lan80xx_macsec_tx_sa_del (port : port_t) (an : Z) := locked (lan80xx_macsec_tx_sa_del_priv port an).
Definition lan80xx_macsec_tx_sa_activate (port : port_t) (an : Z) :=
  locked (lan80xx_macsec_tx_sa_activate_priv port an).
Definition lan80xx_macsec_tx_sa_disable (port : port_t) (an : Z) :=
  locked (lan80xx_macsec_tx_sa_disable_priv port an).
Definition lan80xx_macsec_tx_sa_status_get (port : port_t) (an : Z) :=
  locked (lan80xx_macsec_tx_sa_status_get_priv port an).
Definition lan80xx_macsec_rx_sa_set (port : port_t) (sci : sci_t) (an lowest_pn : Z) (sak : mepa_macsec_sak_t) :=
  locked (lan80xx_macsec_rx_sa_set_priv port sci an lowest_pn sak).
Definition lan80xx_macsec_rx_sa_get (port : port_t) (sci : sci_t) (an : Z) :=
  locked (lan80xx_macsec_rx_sa_get_priv port sci an).
Definition lan80xx_macsec_rx_seca_set (port : port_t) (sci : sci_t) (an lowest_pn : Z) (sak : mepa_macsec_sak_t) (ssci : option (list Z)) :=
  locked (lan80xx_macsec_rx_seca_set_priv port sci an lowest_pn sak ssci).
Definition lan80xx_macsec_rx_seca_get (port : port_t) (sci : sci_t) (an lowest_pn : Z) :=
  locked (lan80xx_macsec_rx_seca_get_priv port sci an lowest_pn).
Definition lan80xx_macsec_rx_sa_activate (port : port_t) (sci : sci_t) (an : Z) :=
  locked (lan80xx_macsec_rx_sa_activate_priv port sci an).
Definition lan80xx_macsec_rx_sa_disable (port : port_t) (sci : sci_t) (an : Z) :=
  locked (lan80xx_macsec_rx_sa_disable_priv port sci an).
Definition lan80xx_macsec_rx_sa_del (port : port_t) (sci : sci_t) (an : Z) :=
  locked (lan80xx_macsec_rx_sa_del_priv port sci an).
Definition lan80xx_macsec_rx_sa_status_get (port : port_t) (sci : sci_t) (an : Z) (status : mepa_macsec_rx_sa_status_t) :=
  locked (lan80xx_macsec_rx_sa_status_get_priv port sci an status).
Definition lan80xx_macsec_rx_sa_lowest_pn_update (port : port_t) (sci : sci_t) (an lowest_pn : Z) :=
  locked (lan80xx_macsec_rx_sa_lowest_pn_update_priv port sci an lowest_pn).
Definition lan80xx_macsec_rxsa_an_status_get (port : port_t) (sci : sci_t) (an : Z) :=
  locked (lan80xx_macsec_rxsa_an_status_get_priv port sci an).
Definition lan80xx_macsec_tx_sa_counters_get (port : port_t) (an : Z) :=
  locked (lan80xx_macsec_tx_sa_counters_get_priv port an).
Definition lan80xx_macsec_tx_sc_counters_get (port : port_t) :=
  locked (lan80xx_macsec_tx_sc_counters_get_priv port).
Definition lan80xx_macsec_rx_sc_counters_get (port : port_t) (sci : sci_t) (counters : mepa_macsec_rx_sc_counters_t) :=
  locked (lan80xx_macsec_rx_sc_counters_get_priv port sci counters).
Definition lan80xx_macsec_rx_sa_counters_get (port : port_t) (sci : sci_t) (an : Z) :=
  locked (lan80xx_macsec_rx_sa_counters_get_priv port sci an).
Definition lan80xx_macsec_txsc_counters_clear (port : port_t) :=
  locked (lan80xx_macsec_txsc_counters_clear_priv port).
Definition lan80xx_macsec_txsa_counters_clear (port : port_t) (an : Z) :=
  locked (lan80xx_macsec_txsa_counters_clear_priv port an).
Definition lan80xx_macsec_rxsc_counters_clear (port : port_t) (sci : sci_t) :=
  locked (lan80xx_macsec_rxsc_counters_clear_priv port sci).
Definition lan80xx_macsec_rxsa_counters_clear (port : port_t) (sci : sci_t) (an : Z) :=
  locked (lan80xx_macsec_rxsa_counters_clear_priv port sci an).
Definition lan80xx_macsec_secy_counters_clear (port : port_t) :=
  locked (lan80xx_macsec_secy_counters_clear_priv port).
Definition lan80xx_macsec_debug_counters_clear (port_no : Z) :=
  locked (lan80xx_macsec_debug_counters_clear_priv dev port_no).
Definition lan80xx_macsec_port_get_next (port_no : Z) (search_macsec_port : option port_t) (found_macsec_port : port_t) :=
  locked (lan80xx_macsec_port_get_next_priv dev port_no search_macsec_port found_macsec_port).
Definition lan80xx_macsec_bypass_mode_set (port_no : Z) (bypass : mepa_macsec_bypass_mode_t) :=
  locked (lan80xx_macsec_bypass_mode_set_priv port_no bypass).
Definition lan80xx_macsec_bypass_mode_get (port_no : Z) := locked (lan80xx_macsec_bypass_mode_get_priv port_no).
Definition lan80xx_macsec_bypass_tag_set (port : port_t) (tag : Z) :=
  locked (lan80xx_macsec_bypass_tag_set_priv port tag).
Definition lan80xx_macsec_bypass_tag_get (port : port_t) := locked (lan80xx_macsec_bypass_tag_get_priv port).
Definition lan80xx_macsec_dbg_counter_get (port_no : Z) := locked (lan80xx_macsec_dbg_counter_get_priv port_no).
Definition lan80xx_macsec_port_enable_status_get (port_no : Z) :=
  locked (lan80xx_macsec_port_enable_status_get_priv dev port_no).
End MacsecApi.
