(* ===== verification/Lan80xxMacsecAlloc.v ===== *)
(** * Lan80xxMacsecAlloc: who owns a MACsec resource

    The abstract machine behind the MACsec tables of a LAN80xx port: which SecY
    holds which receive channel, which channel, transmit channel or match pattern
    holds which record of the SA tables, and which channel has which hardware
    index.  Everything else in the tables is left out.  The steps [astep] are the
    changes of ownership the driver makes; [wf] is the invariant, which they
    preserve: every resource in use has exactly one owner, and no other has one.
    [Lan80xxMacsecSim] shows that the driver's functions make these steps and no
    others. *)

From Stdlib Require Import ZArith Lia List Bool.
From stdpp Require Import base list.
From S2P Require Import Prelude Lan80xxMacsecTypes Lan80xxMacsecRegs.

(** ** Ownership

    [claim o] is the resource that the owner [o] holds. *)
Section Owned.
Context {O : Type} `{EqDecision O}.
Implicit Types (claim : O -> option nat) (used : nat -> bool).

Record owned claim used : Prop := Owned {
  owned_used : forall o r, claim o = Some r -> used r = true;
  owned_inj : forall o1 o2 r, claim o1 = Some r -> claim o2 = Some r -> o1 = o2;
  owned_by : forall r, used r = true -> exists o, claim o = Some r;
}.

Lemma owned_ext claim used claim' used' :
  owned claim used -> (forall o, claim' o = claim o) -> (forall r, used' r = used r) -> owned claim' used'.
Proof.
  intros [H1 H2 H3] Hc Hu. split.
  - intros o r. rewrite Hc, Hu. apply H1.
  - intros o1 o2 r. rewrite !Hc. apply H2.
  - intros r. rewrite Hu. intros Hr. destruct (H3 r Hr) as [o Ho]. exists o. by rewrite Hc.
Qed.
Lemma owned_take claim used claim' used' o r :
  owned claim used -> used r = false ->
  (forall o', claim' o' = if decide (o = o') then Some r else claim o') ->
  (forall r', used' r' = if decide (r = r') then true else used r') ->
  claim o = None -> owned claim' used'.
Proof.
  intros [H1 H2 H3] Hr Hc Hu Ho. split.
  - intros o' r'. rewrite Hc, Hu. case_decide; [intros [= ->]; by rewrite decide_True|].
    intros Hcl. case_decide; [done|]. by apply H1 in Hcl.
  - intros o1 o2 r'. rewrite !Hc. repeat case_decide; try congruence; intros Ha Hb; simplify_eq.
    + apply H1 in Hb. congruence.
    + apply H1 in Ha. congruence.
    + by apply (H2 _ _ r').
  - intros r'. rewrite Hu. case_decide; [subst r'; exists o; by rewrite Hc, decide_True|].
    intros Hus. destruct (H3 r' Hus) as [o' Ho']. exists o'. rewrite Hc, decide_False; [done|congruence].
Qed.
Lemma owned_give claim used claim' used' o r :
  owned claim used -> claim o = Some r ->
  (forall o', claim' o' = if decide (o = o') then None else claim o') ->
  (forall r', used' r' = if decide (r = r') then false else used r') ->
  owned claim' used'.
Proof.
  intros [H1 H2 H3] Ho Hc Hu. split.
  - intros o' r'. rewrite Hc, Hu. case_decide as Hn; [done|]. intros Hcl. rewrite decide_False; [by apply (H1 o')|].
    intros ->. apply Hn. by apply (H2 _ _ r').
  - intros o1 o2 r'. rewrite !Hc. repeat case_decide; try done. apply H2.
  - intros r'. rewrite Hu. case_decide; [done|]. intros Hr. destruct (H3 r' Hr) as [o' Ho'].
    exists o'. rewrite Hc, decide_False; [done|congruence].
Qed.
End Owned.

(** ** The abstract tables

    Of a SecY: the table [rx_sc], the transmit channel with its associations and
    [encoding_sa], the table [pattern_record], and the size of [pattern]. *)
Record secy_k := SecyK {
  ks_in_use : bool; ks_rx_sc : list (option nat); ks_tx_in_use : bool; ks_tx_sa : list (option nat);
  ks_enc : Z; ks_rec : list (list Z); ks_shape : list nat;
}.
Record rx_sc_k := RxScK { kc_in_use : bool; kc_sci : mepa_macsec_sci_t; kc_sa : list (option nat); kc_hw : Z }.
(** Of a record of a table of associations: [in_use] and [record]. *)
Record alloc := Alloc {
  k_secy : list secy_k; k_rx_sc : list rx_sc_k; k_rx_sa : list (bool * Z); k_tx_sa : list (bool * Z);
  k_hw : Z; k_tags : bool;
}.
Definition k_sa (k : alloc) (egr : bool) : list (bool * Z) := if egr then k_tx_sa k else k_rx_sa k.

Definition secy_k_0 : secy_k := SecyK false (replicate 64 None) false (replicate 4 None) 0 (replicate 3 (replicate 3 0)) [3;3;3]%nat.
Definition rx_sc_k_0 : rx_sc_k := RxScK false mepa_macsec_sci_t_0 (replicate 4 None) 0.

Definition set_ks_in_use b s := SecyK b (ks_rx_sc s) (ks_tx_in_use s) (ks_tx_sa s) (ks_enc s) (ks_rec s) (ks_shape s).
Definition put_rx_sc j v s :=
  SecyK (ks_in_use s) (alter (fun _ => v) j (ks_rx_sc s)) (ks_tx_in_use s) (ks_tx_sa s) (ks_enc s) (ks_rec s) (ks_shape s).
Definition set_ks_tx b sa e s := SecyK (ks_in_use s) (ks_rx_sc s) b sa e (ks_rec s) (ks_shape s).
Definition put_tx_sa an v s := set_ks_tx (ks_tx_in_use s) (alter (fun _ => v) an (ks_tx_sa s)) (ks_enc s) s.
Definition set_ks_rec l s :=
  SecyK (ks_in_use s) (ks_rx_sc s) (ks_tx_in_use s) (ks_tx_sa s) (ks_enc s) l (ks_shape s).
Definition put_rec a d v s := set_ks_rec (alter (alter (fun _ => v) d) a (ks_rec s)) s.
Definition put_sa an v x := RxScK (kc_in_use x) (kc_sci x) (alter (fun _ => v) an (kc_sa x)) (kc_hw x).

Section Updates.
Implicit Types k : alloc.
Definition on_secy i f k := Alloc (alter f i (k_secy k)) (k_rx_sc k) (k_rx_sa k) (k_tx_sa k) (k_hw k) (k_tags k).
Definition on_rx_sc p f k := Alloc (k_secy k) (alter f p (k_rx_sc k)) (k_rx_sa k) (k_tx_sa k) (k_hw k) (k_tags k).
Definition on_sa (egr : bool) r f k :=
  Alloc (k_secy k) (k_rx_sc k) (if egr then k_rx_sa k else alter f r (k_rx_sa k))
    (if egr then alter f r (k_tx_sa k) else k_tx_sa k) (k_hw k) (k_tags k).
Definition set_k_hw v k := Alloc (k_secy k) (k_rx_sc k) (k_rx_sa k) (k_tx_sa k) v (k_tags k).

Definition slot (l : list (option nat)) j : option nat := mjoin (l !! j).
Definition dir (egr : bool) : nat := if egr then 1%nat else 0%nat.
(** [pattern_record[a][d]] *)
Definition rec_of (s : secy_k) (a d : nat) : option Z := row ← ks_rec s !! a; row !! d.
Definition pat_slot (egr : bool) (s : secy_k) (a : nat) : option nat :=
  if ks_in_use s then
    v ← rec_of s a (dir egr); if v =? MACSEC_NOT_IN_USE then None else Some (Z.to_nat v)
  else None.

(** The owners: of a receive channel an entry of a SecY, of a hardware index a
    channel, of a record an entry of a channel (of a SecY for egress) or a
    pattern. *)
Definition sc_claim k (o : nat * nat) : option nat := s ← k_secy k !! fst o; slot (ks_rx_sc s) (snd o).
Definition sc_used k (p : nat) : bool := match k_rx_sc k !! p with Some x => kc_in_use x | None => false end.
Definition hw_claim k (p : nat) : option nat :=
  x ← k_rx_sc k !! p; if kc_in_use x then Some (Z.to_nat (kc_hw x)) else None.
Definition hw_used k (h : nat) : bool := bool_decide (h < 64)%nat && Z.testbit (k_hw k) (Z.of_nat h).
Definition sa_claim (egr : bool) k (o : nat * nat + nat * nat) : option nat :=
  match o with
  | inl (p, an) => if egr then s ← k_secy k !! p; slot (ks_tx_sa s) an else x ← k_rx_sc k !! p; slot (kc_sa x) an
  | inr (i, a) => s ← k_secy k !! i; pat_slot egr s a
  end.
Definition sa_used (egr : bool) k (r : nat) : bool := match k_sa k egr !! r with Some (b, _) => b | None => false end.

Record secy_wf (s : secy_k) : Prop := SecyWf {
  sw_rx_sc : length (ks_rx_sc s) = 64%nat;
  sw_tx_sa : length (ks_tx_sa s) = 4%nat;
  sw_enc : 0 <= ks_enc s < 4;
  sw_rec : length (ks_rec s) = 3%nat /\ Forall (fun row => length row = 3%nat /\ Forall (Z.le 0) row) (ks_rec s);
  sw_shape : ks_shape s = [3;3;3]%nat;
  sw_idle : ks_in_use s = false -> Forall (eq None) (ks_rx_sc s) /\ ks_tx_in_use s = false;
  sw_no_tx : ks_tx_in_use s = false -> Forall (eq None) (ks_tx_sa s);
}.
Record rx_sc_wf (x : rx_sc_k) : Prop := RxScWf {
  cw_sa : length (kc_sa x) = 4%nat;
  cw_idle : kc_in_use x = false -> Forall (eq None) (kc_sa x);
  cw_hw : 0 <= kc_hw x < 64;
}.
Record wf k : Prop := Wf {
  wf_secys : length (k_secy k) = 64%nat;
  wf_rx_scs : length (k_rx_sc k) = 64%nat;
  wf_sas : forall egr, length (k_sa k egr) = 128%nat;
  wf_secy : forall i s, k_secy k !! i = Some s -> secy_wf s;
  wf_rx_sc : forall p x, k_rx_sc k !! p = Some x -> rx_sc_wf x;
  wf_sci : forall p q x y, k_rx_sc k !! p = Some x -> k_rx_sc k !! q = Some y ->
    kc_in_use x = true -> kc_in_use y = true -> kc_sci x = kc_sci y -> p = q;
  wf_sc : owned (sc_claim k) (sc_used k);
  wf_hw : owned (hw_claim k) (hw_used k);
  wf_sa : forall egr, owned (sa_claim egr k) (sa_used egr k);
  wf_record : forall egr r v, k_sa k egr !! r = Some (true, v) -> v = Z.of_nat r;
  wf_tags : k_tags k = false;
}.
End Updates.

(** ** Steps *)

Inductive astep (k : alloc) : alloc -> Prop :=
  | as_rx_sa_new p an r x v :
      k_rx_sc k !! p = Some x -> kc_in_use x = true -> kc_sa x !! an = Some None -> k_sa k false !! r = Some (false, v) ->
      astep k (on_sa false r (fun _ => (true, Z.of_nat r)) (on_rx_sc p (put_sa an (Some r)) k))
  | as_rx_sa_del p an r x :
      k_rx_sc k !! p = Some x -> kc_sa x !! an = Some (Some r) ->
      astep k (on_rx_sc p (put_sa an None) (on_sa false r (fun _ => (false, 0)) k))
  | as_tx_sa_new i an r s v :
      k_secy k !! i = Some s -> ks_in_use s = true -> ks_tx_in_use s = true -> ks_tx_sa s !! an = Some None ->
      k_sa k true !! r = Some (false, v) ->
      astep k (on_sa true r (fun _ => (true, Z.of_nat r)) (on_secy i (put_tx_sa an (Some r)) k))
  | as_tx_sa_del i an r s :
      k_secy k !! i = Some s -> ks_tx_sa s !! an = Some (Some r) ->
      astep k (on_secy i (put_tx_sa an None) (on_sa true r (fun _ => (false, 0)) k))
  | as_pat_new egr i a r s v :
      k_secy k !! i = Some s -> ks_in_use s = true -> rec_of s a (dir egr) = Some MACSEC_NOT_IN_USE ->
      k_sa k egr !! r = Some (false, v) ->
      astep k (on_secy i (put_rec a (dir egr) (Z.of_nat r)) (on_sa egr r (fun _ => (true, Z.of_nat r)) k))
  | as_pat_del egr i a r s :
      k_secy k !! i = Some s -> pat_slot egr s a = Some r ->
      astep k (on_secy i (put_rec a (dir egr) MACSEC_NOT_IN_USE) (on_sa egr r (fun e => (false, snd e)) k))
  | as_rx_sc_new i j p h sci s x :
      k_secy k !! i = Some s -> ks_in_use s = true -> ks_rx_sc s !! j = Some None ->
      k_rx_sc k !! p = Some x -> kc_in_use x = false -> (h < 64)%nat -> Z.testbit (k_hw k) (Z.of_nat h) = false ->
      (forall q y, k_rx_sc k !! q = Some y -> kc_sci y <> sci) ->
      astep k (on_rx_sc p (fun x => RxScK true sci (kc_sa x) (Z.of_nat h))
                 (on_secy i (put_rx_sc j (Some p)) (set_k_hw (k_hw k .| (1 .<< Z.of_nat h)) k)))
  | as_rx_sc_del i j p s x :
      k_secy k !! i = Some s -> ks_rx_sc s !! j = Some (Some p) -> k_rx_sc k !! p = Some x -> Forall (eq None) (kc_sa x) ->
      astep k (on_secy i (put_rx_sc j None) (on_rx_sc p (fun _ => rx_sc_k_0) (set_k_hw (k_hw k .& .~ (1 .<< kc_hw x)) k)))
  | as_tx_sc_set i s :
      k_secy k !! i = Some s -> ks_in_use s = true ->
      astep k (on_secy i (fun s => set_ks_tx true (ks_tx_sa s) (ks_enc s) s) k)
  | as_tx_sc_del i s :
      k_secy k !! i = Some s -> Forall (eq None) (ks_tx_sa s) ->
      astep k (on_secy i (fun s => set_ks_tx false (replicate 4 None) 0 s) k)
  | as_encoding i e s :
      k_secy k !! i = Some s -> 0 <= e < 4 ->
      astep k (on_secy i (fun s => set_ks_tx (ks_tx_in_use s) (ks_tx_sa s) e s) k)
  | as_secy_add i b s :
      k_secy k !! i = Some s -> ks_in_use s = false ->
      astep k (on_secy i (fun s => set_ks_in_use b (set_ks_rec
        (map (fun row => alter (fun _ => MACSEC_NOT_IN_USE) 1%nat (alter (fun _ => MACSEC_NOT_IN_USE) 0%nat row)) (ks_rec s)) s)) k)
  | as_secy_del i s :
      k_secy k !! i = Some s -> Forall (eq None) (ks_rx_sc s) -> ks_tx_in_use s = false ->
      (forall egr a, (a < 3)%nat -> pat_slot egr s a = None) ->
      astep k (on_secy i (fun _ => secy_k_0) k).

(** ** The invariant is preserved *)

Lemma slot_alter l j v j' : is_Some (l !! j) -> slot (alter (fun _ => v) j l) j' = if decide (j = j') then v else slot l j'.
Proof.
  intros [x Hx]. unfold slot. rewrite list_lookup_alter. case_decide; [|done]. by rewrite Hx.
Qed.
Lemma slot_none l j : Forall (eq None) l -> slot l j = None.
Proof.
  intros Hl. unfold slot. destruct (l !! j) eqn:Hj; [|done]. by rewrite <- (Forall_lookup_1 _ _ _ _ Hl Hj).
Qed.
Lemma slot_some l j r : slot l j = Some r <-> l !! j = Some (Some r).
Proof. unfold slot. destruct (l !! j) as [[]|]; cbn; naive_solver. Qed.

Lemma k_sa_on_sa egr r f k e : k_sa (on_sa egr r f k) e = if eqb egr e then alter f r (k_sa k e) else k_sa k e.
Proof. by destruct egr, e. Qed.
Lemma sa_used_on_sa egr r b v k e r' : is_Some (k_sa k egr !! r) ->
  sa_used e (on_sa egr r (fun y => (b, v y)) k) r' =
  if decide (egr = e /\ r = r') then b else sa_used e k r'.
Proof.
  intros [[b' v'] Hr]. unfold sa_used. rewrite k_sa_on_sa.
  destruct (eqb_spec egr e) as [<-|Hn]; [|by rewrite decide_False by naive_solver].
  rewrite list_lookup_alter. case_decide as Hd; [|by rewrite decide_False by naive_solver].
  subst r'. rewrite Hr, decide_True by done. done.
Qed.

Section Claims.
Implicit Types k : alloc.
Lemma sc_claim_on_secy k i s f o : k_secy k !! i = Some s ->
  sc_claim (on_secy i f k) o = if decide (i = fst o) then slot (ks_rx_sc (f s)) (snd o) else sc_claim k o.
Proof.
  intros Hi. unfold sc_claim. cbn [k_secy on_secy]. rewrite list_lookup_alter. case_decide as Hd; [|done].
  by rewrite Hi.
Qed.
Lemma sa_claim_on_secy egr k i s f o : k_secy k !! i = Some s ->
  sa_claim egr (on_secy i f k) o =
  match o with
  | inl (p, an) => if decide (egr = true /\ i = p) then slot (ks_tx_sa (f s)) an else sa_claim egr k o
  | inr (p, a) => if decide (i = p) then pat_slot egr (f s) a else sa_claim egr k o
  end.
Proof.
  intros Hi. unfold sa_claim. cbn [k_secy k_rx_sc on_secy]. destruct o as [[p an]|[p a]].
  - destruct egr; [|by rewrite decide_False by naive_solver]. rewrite list_lookup_alter.
    destruct (decide (i = p)) as [<-|Hn]; [rewrite decide_True by done; by rewrite Hi|by rewrite decide_False by naive_solver].
  - rewrite list_lookup_alter. case_decide; [by rewrite Hi|done].
Qed.
Lemma sa_claim_on_rx_sc egr k p x f o : k_rx_sc k !! p = Some x ->
  sa_claim egr (on_rx_sc p f k) o =
  match o with
  | inl (q, an) => if decide (egr = false /\ p = q) then slot (kc_sa (f x)) an else sa_claim egr k o
  | inr _ => sa_claim egr k o
  end.
Proof.
  intros Hp. unfold sa_claim. cbn [k_secy k_rx_sc on_rx_sc]. destruct o as [[q an]|[q a]]; [|done].
  destruct egr; [by rewrite decide_False by naive_solver|]. rewrite list_lookup_alter.
  destruct (decide (p = q)) as [<-|Hn]; [rewrite decide_True by done; by rewrite Hp|by rewrite decide_False by naive_solver].
Qed.
Lemma sc_used_on_rx_sc k p x f q : k_rx_sc k !! p = Some x ->
  sc_used (on_rx_sc p f k) q = if decide (p = q) then kc_in_use (f x) else sc_used k q.
Proof.
  intros Hp. unfold sc_used. cbn [k_rx_sc on_rx_sc]. rewrite list_lookup_alter. case_decide; [by rewrite Hp|done].
Qed.
Lemma hw_claim_on_rx_sc k p x f q : k_rx_sc k !! p = Some x ->
  hw_claim (on_rx_sc p f k) q =
  if decide (p = q) then (if kc_in_use (f x) then Some (Z.to_nat (kc_hw (f x))) else None) else hw_claim k q.
Proof.
  intros Hp. unfold hw_claim. cbn [k_rx_sc on_rx_sc]. rewrite list_lookup_alter. case_decide; [by rewrite Hp|done].
Qed.

(** A SecY changes, but not what it owns. *)
Lemma wf_on_secy k i s f :
  wf k -> k_secy k !! i = Some s -> secy_wf (f s) ->
  (forall j, slot (ks_rx_sc (f s)) j = slot (ks_rx_sc s) j) ->
  (forall an, slot (ks_tx_sa (f s)) an = slot (ks_tx_sa s) an) ->
  (forall egr a, pat_slot egr (f s) a = pat_slot egr s a) -> wf (on_secy i f k).
Proof.
  intros W Hi Hf Hrx Htx Hpat. destruct W. split; try done.
  - cbn. by rewrite length_alter.
  - cbn. intros i' s'. rewrite list_lookup_alter. case_decide as Hd; [|by eauto]. subst i'. rewrite Hi. by intros [= <-].
  - eapply owned_ext; [done| |done]. intros [i' j]. rewrite (sc_claim_on_secy k i s) by done. cbn. case_decide; [|done].
    subst i'. unfold sc_claim. cbn. by rewrite Hi.
  - intros egr. eapply owned_ext; [done| |done]. intros o. rewrite (sa_claim_on_secy egr k i s) by done.
    destruct o as [[p an]|[p a]]; case_decide as Hd; try done.
    + destruct Hd as [-> ->]. cbn. by rewrite Hi, Htx.
    + subst p. cbn. by rewrite Hi, Hpat.
Qed.
(** A SecY or a channel changes what records it owns: [o] takes or gives [r].
    The other owners of the step's result are those of [k]. *)
Lemma wf_secy_put k i s f : wf k -> k_secy k !! i = Some s -> secy_wf (f s) ->
  forall i' s', k_secy (on_secy i f k) !! i' = Some s' -> secy_wf s'.
Proof.
  intros W Hi Hf i' s'. cbn. rewrite list_lookup_alter. case_decide; [|by apply (wf_secy k W)].
  subst i'. rewrite Hi. by intros [= <-].
Qed.
Lemma wf_rx_sc_put k p x f : wf k -> k_rx_sc k !! p = Some x -> rx_sc_wf (f x) ->
  forall q y, k_rx_sc (on_rx_sc p f k) !! q = Some y -> rx_sc_wf y.
Proof.
  intros W Hp Hf q y. cbn. rewrite list_lookup_alter. case_decide; [|by apply (wf_rx_sc k W)].
  subst q. rewrite Hp. by intros [= <-].
Qed.
Lemma wf_record_put k egr r b v : wf k -> (b = true -> v = Z.of_nat r) ->
  forall e r' v', k_sa (on_sa egr r (fun _ => (b, v)) k) e !! r' = Some (true, v') -> v' = Z.of_nat r'.
Proof.
  intros W Hv e r' v'. rewrite k_sa_on_sa. destruct (eqb egr e); [|by apply (wf_record k W)].
  rewrite list_lookup_alter. case_decide; [|by apply (wf_record k W)].
  subst r'. destruct (_ !! _); [|done]. cbn. intros [= -> <-]. auto.
Qed.
End Claims.

Section Preservation.
Implicit Types k : alloc.

Lemma put_sa_wf x an v : rx_sc_wf x -> (kc_in_use x = true \/ v = None) -> rx_sc_wf (put_sa an v x).
Proof.
  intros [Hl Hi Hh] Hv. split; cbn; [by rewrite length_alter| |done]. intros H. destruct Hv as [Hv| ->]; [congruence|].
  apply Forall_lookup. intros j y. rewrite list_lookup_alter. specialize (Hi H). rewrite Forall_lookup in Hi.
  case_decide; [|by apply Hi]. subst j. by destruct (kc_sa x !! an); intros [= <-].
Qed.
Lemma put_tx_sa_wf s an v : secy_wf s -> (ks_tx_in_use s = true \/ v = None) -> secy_wf (put_tx_sa an v s).
Proof.
  intros [H1 H2 H3 H4 H5 H6 H7] Hv. split; cbn; try done; [by rewrite length_alter|].
  intros H. destruct Hv as [Hv| ->]; [congruence|].
  apply Forall_lookup. intros j y. rewrite list_lookup_alter. specialize (H7 H). rewrite Forall_lookup in H7.
  case_decide; [|by apply H7]. subst j. by destruct (ks_tx_sa s !! an); intros [= <-].
Qed.

Lemma put_sa_lookup (l : list rx_sc_k) (p : nat) an v (q : nat) y : alter (put_sa an v) p l !! q = Some y ->
  exists x, l !! q = Some x /\ y = RxScK (kc_in_use x) (kc_sci x) (kc_sa y) (kc_hw y).
Proof.
  rewrite list_lookup_alter. case_decide.
  - subst q. destruct (l !! p) as [x|]; [|done]. intros [= <-]. by exists x.
  - intros Hy. exists y. split; [done|]. by destruct y.
Qed.

(** Only the ownership of records changes, and only on one side. *)
Lemma wf_rx_sa_change k p an v r b z x :
  wf k -> k_rx_sc k !! p = Some x -> (kc_in_use x = true \/ v = None) -> (b = true -> z = Z.of_nat r) ->
  owned (sa_claim false (on_rx_sc p (put_sa an v) k)) (sa_used false (on_sa false r (fun _ => (b, z)) k)) ->
  wf (on_sa false r (fun _ => (b, z)) (on_rx_sc p (put_sa an v) k)).
Proof.
  intros W Hp Hv Hz Ho. pose proof (wf_rx_sc k W p x Hp) as Hx. pose proof W as W0. destruct W. split; try done.
  - cbn. by rewrite length_alter.
  - intros []; cbn; rewrite ?length_alter; [apply (wf_sas0 true)|apply (wf_sas0 false)].
  - by apply (wf_rx_sc_put k p x); [done|done|apply put_sa_wf].
  - cbn. intros q1 q2 x1 x2 H1 H2 U1 U2 E.
    destruct (put_sa_lookup _ _ _ _ _ _ H1) as (y1 & Y1 & E1), (put_sa_lookup _ _ _ _ _ _ H2) as (y2 & Y2 & E2).
    rewrite E1, E2 in *. cbn in U1, U2, E. by apply (wf_sci0 q1 q2 y1 y2).
  - eapply owned_ext; [done|done|]. intros q. change (sc_used (on_rx_sc p (put_sa an v) k) q = sc_used k q).
    rewrite (sc_used_on_rx_sc k p x) by done. case_decide; [subst q|done]. unfold sc_used. by rewrite Hp.
  - eapply owned_ext; [done| |done]. intros q. change (hw_claim (on_rx_sc p (put_sa an v) k) q = hw_claim k q).
    rewrite (hw_claim_on_rx_sc k p x) by done. case_decide; [subst q|done]. unfold hw_claim. by rewrite Hp.
  - intros []; [|exact Ho]. eapply owned_ext; [apply (wf_sa0 true)|by intros []|done].
  - by apply (wf_record_put k false r b z).
Qed.
Lemma wf_tx_sa_change k i an v r b z s :
  wf k -> k_secy k !! i = Some s -> (ks_tx_in_use s = true \/ v = None) -> (b = true -> z = Z.of_nat r) ->
  owned (sa_claim true (on_secy i (put_tx_sa an v) k)) (sa_used true (on_sa true r (fun _ => (b, z)) k)) ->
  wf (on_sa true r (fun _ => (b, z)) (on_secy i (put_tx_sa an v) k)).
Proof.
  intros W Hi Hv Hz Ho. pose proof (wf_secy k W i s Hi) as Hs. pose proof W as W0. destruct W. split; try done.
  - cbn. by rewrite length_alter.
  - intros []; cbn; rewrite ?length_alter; [apply (wf_sas0 true)|apply (wf_sas0 false)].
  - by apply (wf_secy_put k i s); [done|done|apply put_tx_sa_wf].
  - eapply owned_ext; [done| |done]. intros o. change (sc_claim (on_secy i (put_tx_sa an v) k) o = sc_claim k o).
    rewrite (sc_claim_on_secy k i s) by done. case_decide as Hd; [|done]. unfold sc_claim. by rewrite <- Hd, Hi.
  - intros []; [exact Ho|]. eapply owned_ext; [apply (wf_sa0 false)| |done]. intros o.
    change (sa_claim false (on_secy i (put_tx_sa an v) k) o = sa_claim false k o).
    rewrite (sa_claim_on_secy false k i s) by done. destruct o as [[q an']|[q a]]; case_decide as Hd; [by destruct Hd|done| |done].
    subst q. cbn. by rewrite Hi.
  - by apply (wf_record_put k true r b z).
Qed.
End Preservation.

Section Patterns.
Implicit Types k : alloc.

Lemma rec_of_put s a d v a' d' : is_Some (rec_of s a d) ->
  rec_of (put_rec a d v s) a' d' = if decide (a = a' /\ d = d') then Some v else rec_of s a' d'.
Proof.
  unfold rec_of. cbn. destruct (ks_rec s !! a) as [row|] eqn:Ha; [|by intros [? ?]]. cbn. intros [y Hy].
  rewrite list_lookup_alter. destruct (decide (a = a')) as [<-|Hn]; [|by rewrite decide_False by naive_solver].
  rewrite Ha. cbn. rewrite list_lookup_alter. destruct (decide (d = d')) as [<-|Hn].
  - rewrite Hy. by rewrite decide_True.
  - by rewrite decide_False by naive_solver.
Qed.
Lemma dir_inj e e' : dir e = dir e' -> e = e'.
Proof. by destruct e, e'. Qed.
Lemma pat_slot_put egr s a v e a' : is_Some (rec_of s a (dir egr)) -> ks_in_use s = true ->
  pat_slot e (put_rec a (dir egr) v s) a' =
  if decide (egr = e /\ a = a') then (if v =? MACSEC_NOT_IN_USE then None else Some (Z.to_nat v)) else pat_slot e s a'.
Proof.
  intros Hr Hu. unfold pat_slot. change (ks_in_use (put_rec a (dir egr) v s)) with (ks_in_use s). rewrite Hu, rec_of_put by done.
  destruct (decide (egr = e /\ a = a')) as [[-> ->]|Hn]; [by rewrite decide_True|].
  rewrite decide_False; [done|]. intros [Ha Hd]. apply Hn. split; [by apply dir_inj|done].
Qed.
Lemma put_rec_wf s a d v : secy_wf s -> 0 <= v -> secy_wf (put_rec a d v s).
Proof.
  intros [H1 H2 H3 [H4 H4'] H5 H6 H7] Hv. split; cbn; try done. split; [by rewrite length_alter|].
  apply Forall_lookup. intros j row. rewrite list_lookup_alter. rewrite Forall_lookup in H4'. case_decide; [|by apply H4'].
  subst j. destruct (ks_rec s !! a) as [row0|] eqn:Ha; [|done]. cbn. intros [= <-]. destruct (H4' _ _ Ha) as [Hl Hf].
  split; [by rewrite length_alter|]. apply Forall_lookup. intros j y. rewrite list_lookup_alter.
  rewrite Forall_lookup in Hf. case_decide; [|by apply Hf]. subst j. destruct (row0 !! d); [|done]. by intros [= <-].
Qed.

(** A pattern takes or gives a record. *)
Lemma wf_pat_change egr k i a v r g s :
  wf k -> k_secy k !! i = Some s -> ks_in_use s = true -> is_Some (rec_of s a (dir egr)) -> 0 <= v ->
  (forall e, fst (g e) = true -> snd (g e) = Z.of_nat r) ->
  owned (sa_claim egr (on_secy i (put_rec a (dir egr) v) k)) (sa_used egr (on_sa egr r g k)) ->
  wf (on_secy i (put_rec a (dir egr) v) (on_sa egr r g k)).
Proof.
  intros W Hi Hu Hrec Hv Hg Ho. pose proof (wf_secy k W i s Hi) as Hs. pose proof W as W0. destruct W. split; try done.
  - cbn. by rewrite length_alter.
  - intros e. change (length (k_sa (on_sa egr r g k) e) = 128%nat). rewrite k_sa_on_sa.
    destruct (eqb egr e); rewrite ?length_alter; apply wf_sas0.
  - change (forall i' s', k_secy (on_secy i (put_rec a (dir egr) v) k) !! i' = Some s' -> secy_wf s').
    by apply (wf_secy_put k i s); [done|done|apply put_rec_wf].
  - eapply owned_ext; [done| |done]. intros o. change (sc_claim (on_secy i (put_rec a (dir egr) v) k) o = sc_claim k o).
    rewrite (sc_claim_on_secy k i s) by done. case_decide as Hd; [|done]. unfold sc_claim. by rewrite <- Hd, Hi.
  - intros e. destruct (decide (egr = e)) as [<-|Hne].
    + eapply owned_ext; [exact Ho| |done]. by intros [[]|[]]; destruct egr.
    + eapply owned_ext; [apply (wf_sa0 e)| |].
      * intros o. change (sa_claim e (on_secy i (put_rec a (dir egr) v) k) o = sa_claim e k o).
        rewrite (sa_claim_on_secy e k i s) by done. destruct o as [[q an']|[q a']]; case_decide as Hd; try done.
        -- destruct Hd as [-> ->]. cbn. by rewrite Hi.
        -- subst q. rewrite pat_slot_put, decide_False by (done || naive_solver). cbn. by rewrite Hi.
      * intros r'. change (sa_used e (on_sa egr r g k) r' = sa_used e k r'). unfold sa_used.
        rewrite k_sa_on_sa. by destruct egr, e.
  - intros e r' v'. change (k_sa (on_sa egr r g k) e !! r' = Some (true, v') -> v' = Z.of_nat r').
    rewrite k_sa_on_sa. destruct (eqb egr e); [|by apply wf_record0]. rewrite list_lookup_alter.
    case_decide; [|by apply wf_record0]. subst r'. destruct (k_sa k e !! r) as [y|]; [|done]. cbn. intros [= Hgy].
    specialize (Hg y). rewrite Hgy in Hg. by apply Hg.
Qed.
End Patterns.

Section Channels.
Implicit Types k : alloc.

Lemma sc_claim_put k i j v s o : k_secy k !! i = Some s -> is_Some (ks_rx_sc s !! j) ->
  sc_claim (on_secy i (put_rx_sc j v) k) o = if decide ((i, j) = o) then v else sc_claim k o.
Proof.
  intros Hi Hj. rewrite (sc_claim_on_secy k i s) by done. destruct o as [i' j']. cbn [fst snd].
  destruct (decide (i = i')) as [<-|Hn]; [|by rewrite decide_False by congruence].
  cbn. rewrite slot_alter by done. destruct (decide (j = j')) as [<-|Hn]; [by rewrite decide_True|].
  rewrite decide_False by congruence. unfold sc_claim. cbn. by rewrite Hi.
Qed.
Lemma nones n : Forall (eq None) (replicate n (@None nat)).
Proof. by apply Forall_replicate. Qed.
Lemma put_rx_sc_wf s j v : secy_wf s -> (ks_in_use s = true \/ v = None) -> secy_wf (put_rx_sc j v s).
Proof.
  intros [H1 H2 H3 H4 H5 H6 H7] Hv. split; cbn; try done; [by rewrite length_alter|].
  intros H. destruct Hv as [Hv| ->]; [congruence|]. destruct (H6 H) as [Hf Ht]. split; [|done].
  apply Forall_lookup. intros j' y. rewrite list_lookup_alter. rewrite Forall_lookup in Hf.
  case_decide; [|by apply Hf]. subst j'. by destruct (ks_rx_sc s !! j); intros [= <-].
Qed.
Lemma hw_bit_set w h r : 0 <= h -> Z.testbit (w .| (1 .<< h)) (Z.of_nat r) = (Z.of_nat r =? h) || Z.testbit w (Z.of_nat r).
Proof.
  intros Hh. rewrite Z.lor_spec, orb_comm. f_equal. rewrite Z.shiftl_spec by lia.
  destruct (Z.eqb_spec (Z.of_nat r) h) as [->|Hn]; [by rewrite Z.sub_diag|].
  destruct (Z.ltb_spec (Z.of_nat r) h); [rewrite Z.testbit_neg_r; [done|lia]|]. apply (testbit_small 1 1); lia.
Qed.
Lemma hw_bit_clear w h r : 0 <= h ->
  Z.testbit (w .& .~ (1 .<< h)) (Z.of_nat r) = negb (Z.of_nat r =? h) && Z.testbit w (Z.of_nat r).
Proof.
  intros Hh. rewrite Z.land_spec, Z.lnot_spec, andb_comm by lia. f_equal. f_equal.
  rewrite <- (orb_false_r (_ =? _)), <- (Z.testbit_0_l (Z.of_nat r)), <- hw_bit_set, Z.lor_0_l by done. done.
Qed.

(** A channel [p] is taken or given: [f] is its change. *)
Lemma wf_rx_sc_change k i j v p f w s x :
  wf k -> k_secy k !! i = Some s -> (ks_in_use s = true \/ v = None) -> is_Some (ks_rx_sc s !! j) ->
  k_rx_sc k !! p = Some x -> rx_sc_wf (f x) ->
  (kc_in_use (f x) = true -> forall q y, k_rx_sc k !! q = Some y -> kc_sci y <> kc_sci (f x)) ->
  (forall an, slot (kc_sa (f x)) an = slot (kc_sa x) an) ->
  let k' := on_rx_sc p f (on_secy i (put_rx_sc j v) (set_k_hw w k)) in
  owned (sc_claim k') (sc_used k') -> owned (hw_claim k') (hw_used k') -> wf k'.
Proof.
  intros W Hi Hv Hj Hp Hf Hsci Hsa k' Hsc Hhw. pose proof W as W0. destruct W. split; try done.
  - cbn. by rewrite length_alter.
  - cbn. by rewrite length_alter.
  - by apply (wf_secy_put k i s); [done|done|apply put_rx_sc_wf; [eauto|]].
  - by apply (wf_rx_sc_put k p x).
  - cbn. intros q1 q2 x1 x2. rewrite !list_lookup_alter, Hp. cbn.
    destruct (decide (p = q1)) as [<-|], (decide (p = q2)) as [<-|]; [done| | |apply wf_sci0].
    + intros [= <-] H2 U1 U2 E. by destruct (Hsci U1 _ _ H2).
    + intros H1 [= <-] U1 U2 E. by destruct (Hsci U2 _ _ H1).
  - intros e. eapply owned_ext; [apply (wf_sa0 e)| |done]. intros o. unfold k'.
    rewrite (sa_claim_on_rx_sc e _ p x) by done.
    destruct o as [[q an]|[q a]]; [case_decide as Hd|].
    + destruct Hd as [-> <-]. rewrite Hsa. cbn. by rewrite Hp.
    + change (sa_claim e (on_secy i (put_rx_sc j v) k) (inl (q, an)) = sa_claim e k (inl (q, an))).
      rewrite (sa_claim_on_secy e k i s) by done. case_decide as Hd'; [|done]. destruct Hd' as [-> <-]. cbn. by rewrite Hi.
    + change (sa_claim e (on_secy i (put_rx_sc j v) k) (inr (q, a)) = sa_claim e k (inr (q, a))).
      rewrite (sa_claim_on_secy e k i s) by done. case_decide as Hd'; [|done]. rewrite <- Hd'. cbn. by rewrite Hi.
Qed.

Lemma wf_rx_sc_new k i j p h sci s x :
  wf k -> k_secy k !! i = Some s -> ks_in_use s = true -> ks_rx_sc s !! j = Some None ->
  k_rx_sc k !! p = Some x -> kc_in_use x = false -> (h < 64)%nat -> Z.testbit (k_hw k) (Z.of_nat h) = false ->
  (forall q y, k_rx_sc k !! q = Some y -> kc_sci y <> sci) ->
  wf (on_rx_sc p (fun x => RxScK true sci (kc_sa x) (Z.of_nat h))
        (on_secy i (put_rx_sc j (Some p)) (set_k_hw (k_hw k .| (1 .<< Z.of_nat h)) k))).
Proof.
  intros W Hi Hu Hj Hp Hx Hh Hbit Hsci. pose proof (wf_rx_sc k W p x Hp) as [Xl Xi Xh].
  apply (wf_rx_sc_change _ _ _ _ _ _ _ s x); eauto; [split; cbn; [done|done|lia]| |].
  - eapply (owned_take _ _ _ _ (i, j) p); [apply (wf_sc k W)| | | |].
    + unfold sc_used. by rewrite Hp.
    + intros o. change (sc_claim (on_secy i (put_rx_sc j (Some p)) k) o = if decide ((i, j) = o) then Some p else sc_claim k o).
      apply (sc_claim_put k i j _ s); eauto.
    + intros q. rewrite (sc_used_on_rx_sc _ p x) by done. by case_decide.
    + unfold sc_claim. cbn. rewrite Hi. cbn. unfold slot. by rewrite Hj.
  - eapply (owned_take _ _ _ _ p h); [apply (wf_hw k W)| | | |].
    + unfold hw_used. by rewrite Hbit, andb_false_r.
    + intros q. rewrite (hw_claim_on_rx_sc _ p x) by done. case_decide; [|done]. cbn. by rewrite Nat2Z.id.
    + intros r. unfold hw_used. cbn [k_hw on_rx_sc on_secy set_k_hw]. rewrite hw_bit_set by lia.
      destruct (decide (h = r)) as [<-|Hn]; [rewrite Z.eqb_refl; by rewrite bool_decide_true|].
      rewrite (proj2 (Z.eqb_neq _ _)) by lia. done.
    + unfold hw_claim. rewrite Hp. cbn. by rewrite Hx.
Qed.
Lemma wf_rx_sc_del k i j p s x :
  wf k -> k_secy k !! i = Some s -> ks_rx_sc s !! j = Some (Some p) -> k_rx_sc k !! p = Some x -> Forall (eq None) (kc_sa x) ->
  wf (on_secy i (put_rx_sc j None) (on_rx_sc p (fun _ => rx_sc_k_0) (set_k_hw (k_hw k .& .~ (1 .<< kc_hw x)) k))).
Proof.
  intros W Hi Hj Hp Hx. pose proof (wf_rx_sc k W p x Hp) as [Xl Xi Xh].
  assert (sc_claim k (i, j) = Some p) as Hcl by (unfold sc_claim; cbn; rewrite Hi; cbn; by apply slot_some).
  assert (kc_in_use x = true) as Hu.
  { apply (owned_used _ _ (wf_sc k W)) in Hcl. unfold sc_used in Hcl. by rewrite Hp in Hcl. }
  change (wf (on_rx_sc p (fun _ => rx_sc_k_0) (on_secy i (put_rx_sc j None) (set_k_hw (k_hw k .& .~ (1 .<< kc_hw x)) k)))).
  apply (wf_rx_sc_change _ _ _ _ _ _ _ s x); eauto; [split; cbn; [done|intros _; apply (nones 4)|lia]| | |].
  - intros an. rewrite (slot_none (kc_sa x)) by done. apply slot_none, (nones 4).
  - eapply (owned_give _ _ _ _ (i, j) p); [apply (wf_sc k W)|done| |].
    + intros o. change (sc_claim (on_secy i (put_rx_sc j None) k) o = if decide ((i, j) = o) then None else sc_claim k o).
      apply (sc_claim_put k i j _ s); eauto.
    + intros q. rewrite (sc_used_on_rx_sc _ p x) by done. by case_decide.
  - eapply (owned_give _ _ _ _ p (Z.to_nat (kc_hw x))); [apply (wf_hw k W)| | |].
    + unfold hw_claim. rewrite Hp. cbn. by rewrite Hu.
    + intros q. rewrite (hw_claim_on_rx_sc _ p x) by done. by case_decide.
    + intros r. unfold hw_used. cbn [k_hw on_rx_sc on_secy set_k_hw]. rewrite hw_bit_clear by lia.
      destruct (decide (Z.to_nat (kc_hw x) = r)) as [<-|Hn]; [rewrite Z2Nat.id, Z.eqb_refl by lia; apply andb_false_r|].
      rewrite (proj2 (Z.eqb_neq _ _)) by lia. done.
Qed.
End Channels.

Section Steps.
Implicit Types k : alloc.

(** What the entry of a channel, or of a transmit channel, owns. *)
Lemma rx_claim_put k p an v x o : k_rx_sc k !! p = Some x -> is_Some (kc_sa x !! an) ->
  sa_claim false (on_rx_sc p (put_sa an v) k) o = if decide (inl (p, an) = o) then v else sa_claim false k o.
Proof.
  intros Hp Han. rewrite (sa_claim_on_rx_sc false k p x) by done. destruct o as [[q an']|[q a]]; [|by rewrite decide_False].
  destruct (decide (p = q)) as [<-|Hn]; [|rewrite !decide_False by (congruence || naive_solver); done].
  rewrite decide_True by done. cbn [kc_sa put_sa]. rewrite slot_alter by done.
  destruct (decide (an = an')) as [<-|Hn']; [by rewrite decide_True|]. rewrite decide_False by congruence. cbn. by rewrite Hp.
Qed.
Lemma tx_claim_put k i an v s o : k_secy k !! i = Some s -> is_Some (ks_tx_sa s !! an) ->
  sa_claim true (on_secy i (put_tx_sa an v) k) o = if decide (inl (i, an) = o) then v else sa_claim true k o.
Proof.
  intros Hi Han. rewrite (sa_claim_on_secy true k i s) by done. destruct o as [[q an']|[q a]].
  - destruct (decide (i = q)) as [<-|Hn]; [|rewrite !decide_False by (congruence || naive_solver); done].
    rewrite decide_True by done. cbn. rewrite slot_alter by done.
    destruct (decide (an = an')) as [<-|Hn']; [by rewrite decide_True|]. rewrite decide_False by congruence. by rewrite Hi.
  - rewrite (decide_False (P := inl _ = inr _)) by done. case_decide as Hd; [|done]. cbn. by rewrite <- Hd, Hi.
Qed.
Lemma pat_claim_put egr k i a v s o :
  k_secy k !! i = Some s -> ks_in_use s = true -> is_Some (rec_of s a (dir egr)) ->
  sa_claim egr (on_secy i (put_rec a (dir egr) v) k) o =
  if decide (inr (i, a) = o) then (if v =? MACSEC_NOT_IN_USE then None else Some (Z.to_nat v)) else sa_claim egr k o.
Proof.
  intros Hi Hu Hr. rewrite (sa_claim_on_secy egr k i s) by done. destruct o as [[q an]|[q a']].
  - rewrite (decide_False (P := inr _ = inl _)) by done. case_decide as Hd; [|done]. destruct Hd as [-> <-]. cbn. by rewrite Hi.
  - destruct (decide (i = q)) as [<-|Hn]; [|by rewrite decide_False by congruence]. rewrite pat_slot_put by done.
    destruct (decide (a = a')) as [<-|Hn]; [by rewrite !decide_True|]. rewrite !decide_False by (congruence || naive_solver).
    cbn. by rewrite Hi.
Qed.
Lemma sa_used_put egr r b v k r' : is_Some (k_sa k egr !! r) ->
  sa_used egr (on_sa egr r (fun y => (b, v y)) k) r' = if decide (r = r') then b else sa_used egr k r'.
Proof.
  intros Hr. rewrite sa_used_on_sa by done. destruct (decide (r = r')) as [<-|Hn]; [by rewrite decide_True|].
  rewrite decide_False; [done|]. by intros [_ ?].
Qed.
Lemma claimed_record egr k o r : wf k -> sa_claim egr k o = Some r -> is_Some (k_sa k egr !! r).
Proof.
  intros W Hcl. pose proof (owned_used _ _ (wf_sa k W egr) _ _ Hcl) as Hr. unfold sa_used in Hr.
  destruct (_ !! r); [eauto|done].
Qed.
Lemma free_record egr k r v : k_sa k egr !! r = Some (false, v) -> sa_used egr k r = false.
Proof. intros Hr. unfold sa_used. by rewrite Hr. Qed.

Lemma wf_rx_sa_new k p an r x v :
  wf k -> k_rx_sc k !! p = Some x -> kc_in_use x = true -> kc_sa x !! an = Some None -> k_sa k false !! r = Some (false, v) ->
  wf (on_sa false r (fun _ => (true, Z.of_nat r)) (on_rx_sc p (put_sa an (Some r)) k)).
Proof.
  intros W Hp Hu Han Hr. apply (wf_rx_sa_change k p an (Some r) r true (Z.of_nat r) x); eauto.
  eapply (owned_take _ _ _ _ (inl (p, an)) r); [apply (wf_sa k W false)|by eapply free_record| | |].
  - intros o. apply (rx_claim_put k p an (Some r) x); eauto.
  - intros r'. apply sa_used_put. eauto.
  - cbn. rewrite Hp. cbn. unfold slot. by rewrite Han.
Qed.
Lemma wf_rx_sa_del k p an r x :
  wf k -> k_rx_sc k !! p = Some x -> kc_sa x !! an = Some (Some r) ->
  wf (on_rx_sc p (put_sa an None) (on_sa false r (fun _ => (false, 0)) k)).
Proof.
  intros W Hp Han. change (wf (on_sa false r (fun _ => (false, 0)) (on_rx_sc p (put_sa an None) k))).
  assert (sa_claim false k (inl (p, an)) = Some r) as Hcl by (cbn; rewrite Hp; cbn; by apply slot_some).
  apply (wf_rx_sa_change k p an None r false 0 x); eauto; [done|].
  eapply (owned_give _ _ _ _ (inl (p, an)) r); [apply (wf_sa k W false)|done| |].
  - intros o. apply (rx_claim_put k p an None x); eauto.
  - intros r'. apply sa_used_put. by eapply claimed_record.
Qed.
Lemma wf_tx_sa_new k i an r s v :
  wf k -> k_secy k !! i = Some s -> ks_tx_in_use s = true -> ks_tx_sa s !! an = Some None -> k_sa k true !! r = Some (false, v) ->
  wf (on_sa true r (fun _ => (true, Z.of_nat r)) (on_secy i (put_tx_sa an (Some r)) k)).
Proof.
  intros W Hi Hu Han Hr. apply (wf_tx_sa_change k i an (Some r) r true (Z.of_nat r) s); eauto.
  eapply (owned_take _ _ _ _ (inl (i, an)) r); [apply (wf_sa k W true)|by eapply free_record| | |].
  - intros o. apply (tx_claim_put k i an (Some r) s); eauto.
  - intros r'. apply sa_used_put. eauto.
  - cbn. rewrite Hi. cbn. unfold slot. by rewrite Han.
Qed.
Lemma wf_tx_sa_del k i an r s :
  wf k -> k_secy k !! i = Some s -> ks_tx_sa s !! an = Some (Some r) ->
  wf (on_secy i (put_tx_sa an None) (on_sa true r (fun _ => (false, 0)) k)).
Proof.
  intros W Hi Han. change (wf (on_sa true r (fun _ => (false, 0)) (on_secy i (put_tx_sa an None) k))).
  assert (sa_claim true k (inl (i, an)) = Some r) as Hcl by (cbn; rewrite Hi; cbn; by apply slot_some).
  apply (wf_tx_sa_change k i an None r false 0 s); eauto; [done|].
  eapply (owned_give _ _ _ _ (inl (i, an)) r); [apply (wf_sa k W true)|done| |].
  - intros o. apply (tx_claim_put k i an None s); eauto.
  - intros r'. apply sa_used_put. by eapply claimed_record.
Qed.
Lemma wf_pat_new egr k i a r s v :
  wf k -> k_secy k !! i = Some s -> ks_in_use s = true -> rec_of s a (dir egr) = Some MACSEC_NOT_IN_USE ->
  k_sa k egr !! r = Some (false, v) ->
  wf (on_secy i (put_rec a (dir egr) (Z.of_nat r)) (on_sa egr r (fun _ => (true, Z.of_nat r)) k)).
Proof.
  intros W Hi Hu Hrec Hr. apply (wf_pat_change egr k i a _ r _ s); eauto; [lia|].
  assert (Z.of_nat r <> MACSEC_NOT_IN_USE) as Hlt.
  { apply lookup_lt_Some in Hr. rewrite (wf_sas k W) in Hr. change MACSEC_NOT_IN_USE with 65535. lia. }
  eapply (owned_take _ _ _ _ (inr (i, a)) r); [apply (wf_sa k W egr)|by eapply free_record| | |].
  - intros o. rewrite (pat_claim_put egr k i a _ s) by eauto. by rewrite (proj2 (Z.eqb_neq _ _) Hlt), Nat2Z.id.
  - intros r'. apply sa_used_put. eauto.
  - cbn. rewrite Hi. cbn. unfold pat_slot. by rewrite Hu, Hrec.
Qed.
Lemma wf_pat_del egr k i a r s :
  wf k -> k_secy k !! i = Some s -> pat_slot egr s a = Some r ->
  wf (on_secy i (put_rec a (dir egr) MACSEC_NOT_IN_USE) (on_sa egr r (fun e => (false, snd e)) k)).
Proof.
  intros W Hi Hp. assert (sa_claim egr k (inr (i, a)) = Some r) as Hcl by (cbn; by rewrite Hi).
  unfold pat_slot in Hp. destruct (ks_in_use s) eqn:Hu; [|done].
  assert (is_Some (rec_of s a (dir egr))) as Hrec by (destruct (rec_of s a (dir egr)); [eauto|done]).
  apply (wf_pat_change egr k i a _ r _ s); eauto; [done|done|].
  eapply (owned_give _ _ _ _ (inr (i, a)) r); [apply (wf_sa k W egr)|done| |].
  - intros o. by rewrite (pat_claim_put egr k i a _ s) by eauto.
  - intros r'. apply sa_used_put. by eapply claimed_record.
Qed.
End Steps.

Section Invariant.
Implicit Types k : alloc.

Lemma wf_secy_add k i b s :
  wf k -> k_secy k !! i = Some s -> ks_in_use s = false ->
  wf (on_secy i (fun s => set_ks_in_use b (set_ks_rec
        (map (fun row => alter (fun _ => MACSEC_NOT_IN_USE) 1%nat (alter (fun _ => MACSEC_NOT_IN_USE) 0%nat row)) (ks_rec s)) s)) k).
Proof.
  intros W Hi Hu. destruct (wf_secy k W i s Hi) as [H1 H2 H3 [H4 H4'] H5 H6 H7].
  apply (wf_on_secy k i s); try done.
  - split; cbn; try done; [|intros _; by apply H6]. split; [by rewrite length_map|].
    apply Forall_map. eapply Forall_impl; [exact H4'|]. intros row [Hl Hf]. split; [by rewrite !length_alter|].
    do 3 (destruct row as [|? row]; [done|]). cbn. rewrite !Forall_cons in Hf. destruct Hf as (? & ? & ? & ?).
    by repeat constructor.
  - intros egr a. unfold pat_slot at 2. rewrite Hu. unfold pat_slot. cbn [ks_in_use set_ks_in_use]. destruct b; [|done].
    unfold rec_of. cbn [ks_rec set_ks_in_use set_ks_rec]. rewrite list_lookup_fmap.
    destruct (ks_rec s !! a) as [row|] eqn:Ha; [|done]. destruct (Forall_lookup_1 _ _ _ _ H4' Ha) as [Hl _].
    do 3 (destruct row as [|? row]; [done|]). by destruct egr.
Qed.
Lemma wf_secy_del k i s :
  wf k -> k_secy k !! i = Some s -> Forall (eq None) (ks_rx_sc s) -> ks_tx_in_use s = false ->
  (forall egr a, (a < 3)%nat -> pat_slot egr s a = None) -> wf (on_secy i (fun _ => secy_k_0) k).
Proof.
  intros W Hi Hrx Htx Hpat. pose proof (wf_secy k W i s Hi) as [H1 H2 H3 [H4 H4'] H5 H6 H7].
  apply (wf_on_secy k i s); try done.
  - split; try done; cbn.
    + split; [done|]. repeat (constructor; [split; [done|by repeat constructor]|]). constructor.
    + intros _. split; [apply (nones 64)|done].
    + intros _. apply (nones 4).
  - intros j. rewrite !slot_none; [done|done|apply (nones 64)].
  - intros an. rewrite !slot_none; [done|by apply H7|apply (nones 4)].
  - intros egr a. transitivity (@None nat); [done|symmetry]. destruct (decide (a < 3)%nat) as [Ha|Ha]; [by apply Hpat|].
    unfold pat_slot, rec_of. rewrite (lookup_ge_None_2 (ks_rec s)) by lia. by destruct (ks_in_use s).
Qed.

(** Every step preserves the invariant, from tables of zeroes. *)
Lemma wf_step k k' : wf k -> astep k k' -> wf k'.
Proof.
  intros W []; eauto using wf_rx_sa_new, wf_rx_sa_del, wf_tx_sa_new, wf_tx_sa_del, wf_pat_new, wf_pat_del,
    wf_rx_sc_new, wf_rx_sc_del, wf_secy_add, wf_secy_del.
  - pose proof (wf_secy k W i s H) as []. apply (wf_on_secy k i s); try done. split; cbn; try done. intros Hf. congruence.
  - pose proof (wf_secy k W i s H) as []. apply (wf_on_secy k i s); try done.
    + split; cbn; try done; [|intros _; apply (nones 4)]. intros Hf. split; [by apply sw_idle0|done].
    + intros an. rewrite !slot_none; [done|done|apply (nones 4)].
  - pose proof (wf_secy k W i s H) as []. by apply (wf_on_secy k i s).
Qed.
Definition alloc_0 : alloc :=
  Alloc (replicate 64 secy_k_0) (replicate 64 rx_sc_k_0) (replicate 128 (false, 0)) (replicate 128 (false, 0)) 0 false.
Lemma owned_none {O} (claim : O -> option nat) used :
  (forall o, claim o = None) -> (forall r, used r = false) -> owned claim used.
Proof. intros Hc Hu. split; intros *; rewrite ?Hc, ?Hu; done. Qed.
Lemma wf_alloc_0 : wf alloc_0.
Proof.
  assert (forall i s, k_secy alloc_0 !! i = Some s -> s = secy_k_0) as HS.
  { intros i s H. by apply lookup_replicate in H as [-> _]. }
  assert (forall p x, k_rx_sc alloc_0 !! p = Some x -> x = rx_sc_k_0) as HX.
  { intros p x H. by apply lookup_replicate in H as [-> _]. }
  assert (forall egr r e, k_sa alloc_0 egr !! r = Some e -> e = (false, 0)) as HR.
  { intros egr r e H. destruct egr; by apply lookup_replicate in H as [-> _]. }
  split; try done.
  - by intros [].
  - intros i s ->%HS. split; cbn; try done.
    + split; [done|]. repeat (constructor; [split; [done|by repeat constructor]|]). constructor.
    + intros _. split; [apply (nones 64)|done].
    + intros _. apply (nones 4).
  - intros p x ->%HX. split; cbn; [done| |done]. intros _. apply (nones 4).
  - by intros p q x y ->%HX.
  - apply owned_none; [intros [i j]|intros p]; unfold sc_claim, sc_used; [cbn [fst]|].
    + destruct (k_secy _ !! i) eqn:E; [|done]. apply HS in E as ->. cbn [mbind option_bind]. apply slot_none, (nones 64).
    + destruct (k_rx_sc _ !! p) eqn:E; [|done]. by apply HX in E as ->.
  - apply owned_none; [intros p|intros h]; unfold hw_claim, hw_used.
    + destruct (k_rx_sc _ !! p) eqn:E; [|done]. by apply HX in E as ->.
    + rewrite Z.testbit_0_l. apply andb_false_r.
  - intros egr. apply owned_none; [intros [[p an]|[i a]]|intros r]; unfold sa_claim, sa_used.
    + destruct egr; [destruct (k_secy _ !! p) eqn:E; [|done]; apply HS in E as ->
                    |destruct (k_rx_sc _ !! p) eqn:E; [|done]; apply HX in E as ->]; apply slot_none, (nones 4).
    + destruct (k_secy _ !! i) eqn:E; [|done]. by apply HS in E as ->.
    + destruct (k_sa _ egr !! r) as [[]|] eqn:E; [|done]. apply HR in E. congruence.
  - intros egr r v H. apply HR in H. congruence.
Qed.
End Invariant.
