(* ===== verification/Lan80xxMacsecLogic.v ===== *)
(** * Lan80xxMacsecLogic: reasoning about the MACsec functions

    [skel] maps the tables of the driver to the abstract tables of
    [Lan80xxMacsecAlloc].  [awp m Q k]: from every state of the device whose
    tables map to [k], [m] runs to an end without undefined behaviour, whatever
    the callouts do and return, leaves everything but the MACsec tables as it was,
    makes no other call to the application than sleeps, and its result and the
    abstract tables satisfy [Q].  [hw k m]: [m] leaves [k] as it is and returns
    OK or a negative code. *)

From Stdlib Require Import ZArith Lia List Bool String.
From stdpp Require Import base gmap strings list.
From S2P Require Import Prelude Machine Lan80xxRegs Lan80xxMacsecTypes Lan80xxCsr Lan80xxMacsecRegs.
From S2P Require Import Lan80xxMacsec Lan80xxMacsecSa Lan80xxMacsecAlloc.

(** ** From the driver's tables to the abstract ones *)
Definition secy_skel (s : phy25g_macsec_internal_secy_t) : secy_k :=
  SecyK (secy_in_use s) (secy_rx_sc s) (tsc_in_use (secy_tx_sc s)) (tsc_sa (secy_tx_sc s))
    (tcs_encoding_sa (tsc_status (secy_tx_sc s))) (secy_pattern_record s) (map length (secy_pattern s)).
Definition rx_sc_skel (r : phy25g_macsec_internal_rx_sc_t) : rx_sc_k :=
  RxScK (rsc_in_use r) (rsc_sci r) (rsc_sa r) (rsc_hw_sc_idx r).
Definition rx_sa_skel (sa : phy25g_macsec_internal_rx_sa_t) : bool * Z := (rsa_in_use sa, rsa_record sa).
Definition tx_sa_skel (sa : phy25g_macsec_internal_tx_sa_t) : bool * Z := (tsa_in_use sa, tsa_record sa).
Definition skel (c : phy25g_macsec_internal_conf_t) : alloc :=
  Alloc (map secy_skel (mc_secy c)) (map rx_sc_skel (mc_rx_sc c)) (map rx_sa_skel (mc_rx_sa c))
    (map tx_sa_skel (mc_tx_sa c)) (mc_rx_sc_hw_idx_in_use c) (glb_cleartags_init_done (mc_glb c)).

(** [MEPA_MSLEEP], the only call to the application but for register accesses. *)
Definition is_sleep (e : event) : Prop := match e with EvSleep _ => True | _ => False end.

Section Awp.
Context {B : Type} {CO : Callout80 B} {HO : Host B}.
Variable dev : Z.
Notation M := (M (env80 B) phy25g_phy_state_t).
Notation conf_t := phy25g_macsec_internal_conf_t.
Implicit Types k : alloc.

Definition awp {A} (m : M A) (Q : A -> alloc -> Prop) k : Prop :=
  forall w d, w_data w !! dev = Some d -> skel (p80_macsec_conf d) = k ->
  exists a b c tr, m w = Some (a, World b (<[dev := set_p80_macsec_conf c d]> (w_data w)) (w_log w ++ tr)) /\
    Forall is_sleep tr /\ Q a (skel c).

Lemma set_same d : set_p80_macsec_conf (p80_macsec_conf d) d = d.
Proof. by destruct d. Qed.

Lemma awp_ret {A} (a : A) Q k : Q a k -> awp (ret a) Q k.
Proof.
  intros H w d Hd Hk. exists a, (w_bus w), (p80_macsec_conf d), []. rewrite set_same, insert_id, app_nil_r, Hk by done.
  split_and!; [by destruct w|constructor|done].
Qed.
Lemma awp_bind {A C} (m : M A) (f : A -> M C) Q k :
  awp m (fun a k' => awp (f a) Q k') k -> awp (bind m f) Q k.
Proof.
  intros H w d Hd Hk. destruct (H w d Hd Hk) as (a & b & c & tr & Hm & Ht & H').
  destruct (H' (World b (<[dev := set_p80_macsec_conf c d]> (w_data w)) (w_log w ++ tr)) (set_p80_macsec_conf c d))
    as (a' & b' & c' & tr' & Hm' & Ht' & HQ); [apply lookup_insert_eq|by destruct d|].
  exists a', b', c', (tr ++ tr'). unfold bind. rewrite Hm, Hm'. cbn. rewrite insert_insert_eq, app_assoc.
  split_and!; [by destruct d|by apply Forall_app|done].
Qed.
Lemma awp_mono {A} (m : M A) (Q Q' : A -> alloc -> Prop) k :
  awp m Q k -> (forall a k', Q a k' -> Q' a k') -> awp m Q' k.
Proof.
  intros H HQ w d Hd Hk. destruct (H w d Hd Hk) as (a & b & c & tr & Hm & Ht & HQa).
  exists a, b, c, tr. auto.
Qed.
Lemma awp_on_bus {A} (f : B -> A * B) Q k : (forall a, Q a k) -> awp (on_bus f) Q k.
Proof.
  intros H w d Hd Hk. unfold on_bus. destruct (f _) as [a b].
  eexists a, _, (p80_macsec_conf d), []. rewrite set_same, insert_id, app_nil_r, Hk by done.
  split_and!; [done|constructor|done].
Qed.
Lemma awp_msleep n Q k : Q tt k -> awp (msleep n) Q k.
Proof.
  intros H w d Hd Hk. exists tt, (w_bus w), (p80_macsec_conf d), [EvSleep n]. rewrite set_same, insert_id, Hk by done.
  split_and!; [done|by repeat constructor|done].
Qed.
Lemma awp_data_of (Q : phy25g_phy_state_t -> alloc -> Prop) k :
  (forall d, skel (p80_macsec_conf d) = k -> Q d k) -> awp (data_of dev) Q k.
Proof.
  intros H w d Hd Hk. exists d, (w_bus w), (p80_macsec_conf d), []. unfold data_of. rewrite Hd, set_same, insert_id, app_nil_r, Hk by done.
  split_and!; [by destruct w|constructor|auto].
Qed.
Lemma awp_macsec (Q : conf_t -> alloc -> Prop) k : (forall c, skel c = k -> Q c k) -> awp (macsec dev) Q k.
Proof. intros H. apply awp_bind, awp_data_of. intros d Hd. by apply awp_ret, H. Qed.
Lemma awp_look {A} (f : conf_t -> option A) Q k :
  (forall c, skel c = k -> exists a, f c = Some a /\ Q a k) -> awp (look dev f) Q k.
Proof. intros H. apply awp_bind, awp_macsec. intros c Hc. destruct (H c Hc) as (a & -> & HQ). by apply awp_ret. Qed.
Lemma awp_modify (f : conf_t -> conf_t) Q k :
  (forall c, skel c = k -> Q tt (skel (f c))) -> awp (modify dev f) Q k.
Proof.
  intros H w d Hd Hk. exists tt, (w_bus w), (f (p80_macsec_conf d)), []. unfold modify, upd. rewrite Hd, app_nil_r.
  split_and!; [done|constructor|by apply H].
Qed.
Lemma awp_modify_quiet (f : conf_t -> conf_t) Q k :
  (forall c, skel (f c) = skel c) -> Q tt k -> awp (modify dev f) Q k.
Proof. intros Hf HQ. apply awp_modify. intros c <-. by rewrite Hf. Qed.

(** ** Functions that leave the abstract tables as they are *)
Definition quiet k {A} (P : A -> Prop) (m : M A) : Prop :=
  forall Q : A -> alloc -> Prop, (forall a, P a -> Q a k) -> awp m Q k.
Notation any := (fun _ => True).
(** For a return code: OK or an error, which is negative. *)
Definition hw k (m : M Z) : Prop := quiet k (fun rc => rc <= 0) m.

Lemma quiet_bind k {A C} P R (m : M A) (f : A -> M C) :
  quiet k P m -> (forall a, P a -> quiet k R (f a)) -> quiet k R (bind m f).
Proof. intros Hm Hf Q HQ. apply awp_bind, Hm. intros a Ha. by apply Hf. Qed.
Lemma quiet_ret k {A} P (a : A) : P a -> quiet k P (ret a).
Proof. intros H Q HQ. by apply awp_ret, HQ. Qed.
Lemma quiet_weaken k {A} (P R : A -> Prop) (m : M A) : quiet k P m -> (forall a, P a -> R a) -> quiet k R m.
Proof. intros Hm HP Q HQ. apply Hm. auto. Qed.
Lemma quiet_if k {A} P (b : bool) (m n : M A) :
  (b = true -> quiet k P m) -> (b = false -> quiet k P n) -> quiet k P (if b then m else n).
Proof. destruct b; auto. Qed.
Lemma quiet_macsec k : quiet k (fun c => skel c = k) (macsec dev).
Proof. intros Q HQ. by apply awp_macsec. Qed.
Lemma quiet_data_of k : quiet k (fun d => skel (p80_macsec_conf d) = k) (data_of dev).
Proof. intros Q HQ. by apply awp_data_of. Qed.
Lemma quiet_look k {A} P (f : conf_t -> option A) :
  (forall c, skel c = k -> exists a, f c = Some a /\ P a) -> quiet k P (look dev f).
Proof.
  intros H Q HQ. apply awp_look. intros c Hc. destruct (H c Hc) as (a & Ha & HP). exists a. auto.
Qed.
Lemma quiet_modify k (f : conf_t -> conf_t) : (forall c, skel (f c) = skel c) -> quiet k any (modify dev f).
Proof. intros Hf Q HQ. apply awp_modify_quiet; auto. Qed.
Lemma quiet_on_bus k {A} (f : B -> A * B) : quiet k any (on_bus f).
Proof. intros Q HQ. apply awp_on_bus. auto. Qed.

Lemma hw_ret k rc : rc <= 0 -> hw k (ret rc).
Proof. intros H. by apply (quiet_ret k (fun rc => rc <= 0)). Qed.
Lemma hw_bind k {A} P (m : M A) (f : A -> M Z) :
  quiet k P m -> (forall a, P a -> hw k (f a)) -> hw k (bind m f).
Proof. apply quiet_bind. Qed.
Lemma hw_if k (b : bool) m n : (b = true -> hw k m) -> (b = false -> hw k n) -> hw k (if b then m else n).
Proof. apply quiet_if. Qed.
Lemma hw_or_rc k m n : hw k m -> hw k n -> hw k (or_rc m n).
Proof. intros Hm Hn. eapply quiet_bind; [apply Hm|]. intros rc Hrc. apply quiet_if; intros _; [by apply hw_ret|done]. Qed.
Lemma hw_try k m n : hw k m -> hw k n -> hw k (try_rc m n).
Proof. intros Hm Hn. eapply quiet_bind; [apply Hm|]. intros rc Hrc. apply quiet_if; intros _; [by apply hw_ret|done]. Qed.
Lemma hw_or_else k m e n : hw k m -> hw k e -> hw k n -> hw k (or_else m e n).
Proof. intros Hm He Hn. eapply quiet_bind; [apply Hm|]. intros rc Hrc. by apply quiet_if. Qed.
Lemma hw_for_rc k f i n m : (forall j, hw k (f j)) -> hw k m -> hw k (for_rc f i n m).
Proof. intros Hf Hm. revert i. induction n; intros i; cbn; [done|]. by apply hw_try. Qed.
End Awp.
Notation any := (fun _ => True).

(** ** Register accesses and the hardware of an association *)
Ltac codes := unfold MEPA_RC_OK, MEPA_RC_ERROR, MEPA_MACSEC_SA_PER_SC_MAX in *; lia.

Section Hardware.
Context {B : Type} {CO : Callout80 B} {HO : Host B}.
Variable dev : Z.
Notation M := (M (env80 B) phy25g_phy_state_t).
Notation conf_t := phy25g_macsec_internal_conf_t.
Implicit Types k : alloc.
Notation hw := (hw dev).
Notation awp := (awp dev).
Notation quiet k := (quiet dev k).

Lemma quiet_csr_rd k p mmd is32 a v : quiet k (fun r => fst r <= 0) (lan80xx_csr_rd dev p mmd is32 a v).
Proof.
  assert (MEPA_RC_ERROR <= 0) by done. unfold lan80xx_csr_rd.
  destruct spi_read as [f|]; [eapply quiet_bind; [apply quiet_on_bus|]; intros r _; case_match; apply quiet_ret; cbn; codes|].
  destruct mmd_read as [rd|]; [|by apply quiet_ret]. destruct mmd_read_inc as [rdi|]; [|by apply quiet_ret].
  destruct is32; [|eapply quiet_bind; [apply quiet_on_bus|]; intros r _; case_match; apply quiet_ret; cbn; codes].
  unfold lan80xx_get_base_adr. destruct (base_of mmd a) as [[]|]; [|by apply quiet_ret].
  cbv zeta. eapply quiet_bind; [apply quiet_on_bus|]. intros r _. case_match; apply quiet_ret; cbn; codes.
Qed.
Lemma quiet_csr_rd_64 k p reg v : quiet k (fun r => fst r <= 0) (_lan80xx_csr_rd_64 dev p reg v).
Proof.
  assert (MEPA_RC_ERROR <= 0) by done. unfold _lan80xx_csr_rd_64, lan80xx_csr_rd_64.
  destruct (negb _); [by apply quiet_ret|].
  destruct spi_read_64bit as [f|]; [eapply quiet_bind; [apply quiet_on_bus|]; intros r _; case_match; apply quiet_ret; cbn; codes|].
  destruct spi_read as [f|].
  { eapply quiet_bind; [apply quiet_on_bus|]. intros r _. case_match; [apply quiet_ret; cbn; codes|]. cbv zeta.
    eapply quiet_bind; [apply quiet_on_bus|]. intros r' _. case_match; apply quiet_ret; cbn; codes. }
  destruct mmd_read_inc as [rdi|]; [|by apply quiet_ret].
  unfold lan80xx_get_base_adr. destruct (base_of _ _) as [[]|]; [|by apply quiet_ret].
  cbv zeta. eapply quiet_bind; [apply quiet_on_bus|]. intros r _. case_match; apply quiet_ret; cbn; codes.
Qed.
Lemma hw_on_bus k (f : B -> Z * B) n : hw k n -> hw k (try_rc (on_bus f) n).
Proof.
  intros Hn. eapply quiet_bind; [apply quiet_on_bus|]. intros rc _. apply quiet_if; [|done].
  intros E. apply hw_ret. codes.
Qed.
Lemma hw_csr_wr k p mmd is32 a v : hw k (lan80xx_csr_wr dev p mmd is32 a v).
Proof.
  assert (hw k (ret MEPA_RC_OK : M Z)) as Hok by by apply hw_ret.
  unfold lan80xx_csr_wr. destruct spi_write; [by apply hw_on_bus|]. cbv zeta.
  destruct mmd_write; [|by apply hw_ret]. destruct is32; [|by apply hw_on_bus].
  unfold lan80xx_get_base_adr. destruct (base_of _ _) as [[]|]; [|by apply hw_ret].
  cbv zeta. by repeat apply hw_on_bus.
Qed.
Lemma hw_csr_wrm k p mmd is32 a v mask : hw k (lan80xx_csr_wrm dev p mmd is32 a v mask).
Proof.
  eapply quiet_bind; [apply quiet_csr_rd|]. intros r Hr. apply quiet_if; intros _; [apply hw_csr_wr|by apply hw_ret].
Qed.
Lemma hw_CSR_WR k p reg v : hw k (CSR_WR dev p reg v).
Proof. apply hw_csr_wr. Qed.
Lemma hw_CSR_WRM k p reg v mask : hw k (CSR_WRM dev p reg v mask).
Proof. apply hw_csr_wrm. Qed.
Lemma hw_warm_wrm k p reg v mask chk : hw k (_lan80xx_csr_warm_wrm dev p reg v mask chk).
Proof.
  assert (hw k (ret MEPA_RC_OK : M Z)) as Hok by by apply hw_ret.
  assert (hw k (try_rc (lan80xx_csr_wrm dev p (io_mmd reg) (io_is32 reg) (io_addr reg) v mask) (ret MEPA_RC_OK))) as Hwr.
  { apply hw_try; [apply hw_csr_wrm|done]. }
  eapply quiet_bind; [apply quiet_data_of|]. intros d _. apply quiet_if; intros _; [|done].
  eapply quiet_bind; [apply quiet_csr_rd|]. intros r Hr. apply quiet_if; intros _; [by apply hw_ret|]. by apply quiet_if.
Qed.
Lemma quiet_CSR_RD k {A} P (fail : Z -> M A) p reg v (f : Z -> M A) :
  (forall rc, rc < 0 -> quiet k P (fail rc)) -> (forall x, quiet k P (f x)) -> quiet k P (CSR_RD dev fail p reg v f).
Proof.
  intros Hf Hk. eapply quiet_bind; [apply quiet_csr_rd|]. intros r Hr. apply quiet_if; intros E; [|apply Hk].
  apply Hf. codes.
Qed.
Lemma quiet_CNT64_RD k {A} P (fail : Z -> M A) p reg v (f : Z -> M A) :
  (forall rc, rc < 0 -> quiet k P (fail rc)) -> (forall x, quiet k P (f x)) -> quiet k P (CNT64_RD dev fail p reg v f).
Proof.
  intros Hf Hk. eapply quiet_bind; [apply quiet_csr_rd_64|]. intros r Hr. apply quiet_if; intros E; [|apply Hk].
  apply Hf. codes.
Qed.
Lemma hw_cold k (m : M Z) : hw k m -> hw k (MACSEC_RC_COLD dev m).
Proof. intros Hm. eapply quiet_bind; [apply quiet_data_of|]. intros d _. apply quiet_if; intros _; [by apply hw_ret|done]. Qed.
(** The error counters are not part of the abstract tables; the code that is
    counted is negative. *)
Lemma quiet_dbg k p e : e < 0 -> quiet k (fun rc => rc < 0) (dbg_counter_incr dev p e : M Z).
Proof.
  intros He. unfold dbg_counter_incr. cbv zeta.
  destruct (rc_dbg_counter e); (eapply quiet_bind; [by apply quiet_modify|]); intros _ _; by apply quiet_ret.
Qed.
Lemma hw_dbg k p e : e < 0 -> hw k (dbg_counter_incr dev p e : M Z).
Proof. intros He. eapply quiet_weaken; [by apply quiet_dbg|]. cbn. lia. Qed.
Lemma quiet_uptime k : quiet k any (@MEPA_UPTIME_SECONDS B HO).
Proof. eapply quiet_bind; [apply quiet_on_bus|]. intros t _. by apply quiet_ret. Qed.
End Hardware.

(** ** The places of the tables

    [at_secy k i s]: the SecY [i] is [s] in [k]; [at_sc]: its channel [j] is the
    entry [p], which is [x]; [at_rx_sa], [at_tx_sa]: the association [an] is the
    record [r], which is [e]. *)
Definition at_secy k i s : Prop := 0 <= i /\ k_secy k !! Z.to_nat i = Some s.
Definition at_sc k i j s p x : Prop :=
  at_secy k i s /\ 0 <= j /\ ks_rx_sc s !! Z.to_nat j = Some (Some p) /\ k_rx_sc k !! p = Some x.
Definition at_rx_sa k i j an s p x r e : Prop :=
  at_sc k i j s p x /\ 0 <= an /\ kc_sa x !! Z.to_nat an = Some (Some r) /\ k_sa k false !! r = Some e.
Definition at_tx_sa k i an s r e : Prop :=
  at_secy k i s /\ 0 <= an /\ ks_tx_sa s !! Z.to_nat an = Some (Some r) /\ k_sa k true !! r = Some e.

Lemma idx_nat {A} (l : list A) i : 0 <= i -> idx l i = l !! Z.to_nat i.
Proof. intros Hi. unfold idx. by rewrite (proj2 (Z.ltb_ge _ _)). Qed.
Lemma map_lookup {A C} (f : A -> C) (l : list A) i y : map f l !! i = Some y -> exists x, l !! i = Some x /\ f x = y.
Proof. rewrite list_lookup_fmap. destruct (l !! i) as [x|]; [|done]. intros [= <-]. eauto. Qed.
Lemma map_alter_at {A C} (h : A -> C) f g (l : list A) i x :
  l !! i = Some x -> h (f x) = g (h x) -> map h (alter f i l) = alter g i (map h l).
Proof.
  intros Hx Hfg. apply list_eq. intros j. rewrite list_lookup_fmap, !list_lookup_alter, list_lookup_fmap.
  case_decide; [subst j|symmetry; apply list_lookup_fmap]. rewrite Hx. cbn. by rewrite Hfg.
Qed.

Section Places.
Implicit Types c : phy25g_macsec_internal_conf_t.
Lemma secy_at c k i s : skel c = k -> at_secy k i s -> exists s', secy_of c i = Some s' /\ secy_skel s' = s.
Proof. intros <- [Hi Hs]. unfold secy_of. rewrite idx_nat by done. by apply map_lookup. Qed.
Lemma rx_sc_slot_at c k i j s v : skel c = k -> at_secy k i s -> 0 <= j -> ks_rx_sc s !! Z.to_nat j = Some v ->
  rx_sc_slot c i j = Some v.
Proof.
  intros Hk Hs Hj Hv. destruct (secy_at c k i s Hk Hs) as (s' & Es & <-). unfold rx_sc_slot. rewrite Es. cbn.
  rewrite idx_nat by done. exact Hv.
Qed.
Lemma rx_sc_at c k i j s p x : skel c = k -> at_sc k i j s p x ->
  rx_sc_ptr c i j = Some p /\ exists r, mc_rx_sc c !! p = Some r /\ rx_sc_of c i j = Some r /\ rx_sc_skel r = x.
Proof.
  intros Hk (Hs & Hj & Hp & Hx). assert (rx_sc_ptr c i j = Some p) as Hptr.
  { unfold rx_sc_ptr. by rewrite (rx_sc_slot_at c k i j s (Some p)). }
  split; [done|]. rewrite <- Hk in Hx. apply map_lookup in Hx as (r & Er & Hr).
  exists r. unfold rx_sc_of. by rewrite Hptr.
Qed.
Lemma rx_sa_slot_at c k i j an s p x v : skel c = k -> at_sc k i j s p x -> 0 <= an -> kc_sa x !! Z.to_nat an = Some v ->
  rx_sa_slot c i j an = Some v.
Proof.
  intros Hk Hsc Han Hv. destruct (rx_sc_at c k i j s p x Hk Hsc) as (_ & r & _ & Er & <-).
  unfold rx_sa_slot. rewrite Er. cbn. rewrite idx_nat by done. exact Hv.
Qed.
Lemma rx_sa_at c k i j an s p x r e : skel c = k -> at_rx_sa k i j an s p x r e ->
  rx_sa_ptr c i j an = Some r /\ exists sa, mc_rx_sa c !! r = Some sa /\ rx_sa_of c i j an = Some sa /\ rx_sa_skel sa = e.
Proof.
  intros Hk (Hsc & Han & Hr & He). assert (rx_sa_ptr c i j an = Some r) as Hptr.
  { unfold rx_sa_ptr. by rewrite (rx_sa_slot_at c k i j an s p x (Some r)). }
  split; [done|]. rewrite <- Hk in He. apply map_lookup in He as (sa & Esa & Hsa).
  exists sa. unfold rx_sa_of. by rewrite Hptr.
Qed.
Lemma tx_sa_slot_at c k i an s v : skel c = k -> at_secy k i s -> 0 <= an -> ks_tx_sa s !! Z.to_nat an = Some v ->
  tx_sa_slot c i an = Some v.
Proof.
  intros Hk Hs Han Hv. destruct (secy_at c k i s Hk Hs) as (s' & Es & <-). unfold tx_sa_slot. rewrite Es. cbn.
  rewrite idx_nat by done. exact Hv.
Qed.
Lemma tx_sa_at c k i an s r e : skel c = k -> at_tx_sa k i an s r e ->
  tx_sa_ptr c i an = Some r /\ exists sa, mc_tx_sa c !! r = Some sa /\ tx_sa_of c i an = Some sa /\ tx_sa_skel sa = e.
Proof.
  intros Hk (Hs & Han & Hr & He). assert (tx_sa_ptr c i an = Some r) as Hptr.
  { unfold tx_sa_ptr. by rewrite (tx_sa_slot_at c k i an s (Some r)). }
  split; [done|]. rewrite <- Hk in He. apply map_lookup in He as (sa & Esa & Hsa).
  exists sa. unfold tx_sa_of. by rewrite Hptr.
Qed.
Lemma pattern_record_at c k i s a d v : skel c = k -> at_secy k i s -> 0 <= a -> 0 <= d ->
  rec_of s (Z.to_nat a) (Z.to_nat d) = Some v -> pattern_record_of c i a d = Some v.
Proof.
  intros Hk Hs Ha Hd Hv. destruct (secy_at c k i s Hk Hs) as (s' & Es & <-). unfold pattern_record_of. rewrite Es. cbn.
  rewrite idx_nat by done. unfold rec_of in Hv. cbn in Hv. destruct (_ !! _); [|done]. cbn in *. by rewrite idx_nat.
Qed.
Lemma pattern_at c k i s a d : skel c = k -> at_secy k i s -> ks_shape s = [3;3;3]%nat -> 0 <= a < 3 -> 0 <= d < 3 ->
  exists p, pattern_of c i a d = Some p.
Proof.
  intros Hk Hs Hsh Ha Hd. destruct (secy_at c k i s Hk Hs) as (s' & Es & <-). unfold pattern_of. rewrite Es. cbn in *.
  rewrite idx_nat by lia. assert (length (secy_pattern s') = 3%nat) as Hl by (rewrite <- (length_map length), Hsh; done).
  destruct (lookup_lt_is_Some_2 (secy_pattern s') (Z.to_nat a)) as [row Hrow]; [lia|]. rewrite Hrow. cbn.
  rewrite idx_nat by lia. apply lookup_lt_is_Some_2.
  assert (map length (secy_pattern s') !! Z.to_nat a = Some (length row)) as Hlen by by rewrite list_lookup_fmap, Hrow.
  rewrite Hsh in Hlen. destruct (Z.to_nat a) as [|[|[|]]]; cbn in Hlen; simplify_eq; lia.
Qed.
Lemma on_secy_skel c k i s f g : skel c = k -> at_secy k i s ->
  (forall s', secy_skel s' = s -> secy_skel (f s') = g s) -> skel (alter_secy f i c) = on_secy (Z.to_nat i) g k.
Proof.
  intros Hk Hs Hfg. pose proof Hs as [Hi _]. destruct (secy_at c k i s Hk Hs) as (s' & Es & Hs').
  unfold secy_of in Es. rewrite idx_nat in Es by done. subst k. unfold skel, on_secy, alter_secy, upd_idx. cbn.
  f_equal. apply (map_alter_at _ _ _ _ _ s'); [done|]. rewrite Hfg by done. by rewrite Hs'.
Qed.
End Places.
