(* ===== verification/Lan80xxMacsecQuiet.v ===== *)
(** * Lan80xxMacsecQuiet: what does not change who owns what

    The functions that program the hardware, count, and read or write the other
    members of the tables leave the abstract tables as they are and meet no
    undefined behaviour when the place they are given exists: [quiet], [hw] of
    [Lan80xxMacsecLogic].  The tactic [quiet_step] takes such a function apart; the
    database [macsec] has the lemmas about the functions it calls. *)

From Stdlib Require Import ZArith Lia List Bool String.
From stdpp Require Import base gmap strings list.
From S2P Require Import Prelude Machine Lan80xxRegs Lan80xxMacsecTypes Lan80xxCsr Lan80xxMacsecRegs.
From S2P Require Import Lan80xxMacsec Lan80xxMacsecSa Lan80xxMacsecAlloc Lan80xxMacsecLogic.

Create HintDb macsec discriminated.

Section Access.
Context {B : Type} {CO : Callout80 B} {HO : Host B}.
Variable dev : Z.
Notation M := (M (env80 B) phy25g_phy_state_t).
Notation conf_t := phy25g_macsec_internal_conf_t.
Implicit Types k : alloc.
Notation quiet k P m := (quiet dev k P (m : Machine.M (env80 B) phy25g_phy_state_t _)).
Notation hw k m := (Lan80xxMacsecLogic.hw dev k (m : Machine.M (env80 B) phy25g_phy_state_t Z)).

Lemma quiet_secy k i s : at_secy k i s -> quiet k (fun s' => secy_skel s' = s) (look dev (fun c => secy_of c i)).
Proof. intros H. apply quiet_look. intros c Hc. by apply (secy_at c k). Qed.
Lemma quiet_rx_sc_slot k i j s v : at_secy k i s -> 0 <= j -> ks_rx_sc s !! Z.to_nat j = Some v ->
  quiet k (eq v) (look dev (fun c => rx_sc_slot c i j)).
Proof. intros H Hj Hv. apply quiet_look. intros c Hc. exists v. split; [by apply (rx_sc_slot_at c k i j s)|done]. Qed.
Lemma quiet_rx_sc k i j s p x : at_sc k i j s p x -> quiet k (fun r => rx_sc_skel r = x) (look dev (fun c => rx_sc_of c i j)).
Proof. intros H. apply quiet_look. intros c Hc. destruct (rx_sc_at c k i j s p x Hc H) as (_ & r & _ & Er & Hr). eauto. Qed.
Lemma quiet_rx_sa_slot k i j an s p x v : at_sc k i j s p x -> 0 <= an -> kc_sa x !! Z.to_nat an = Some v ->
  quiet k (eq v) (look dev (fun c => rx_sa_slot c i j an)).
Proof. intros H Han Hv. apply quiet_look. intros c Hc. exists v. split; [by apply (rx_sa_slot_at c k i j an s p x)|done]. Qed.
Lemma quiet_rx_sa k i j an s p x r e : at_rx_sa k i j an s p x r e ->
  quiet k (fun sa => rx_sa_skel sa = e) (look dev (fun c => rx_sa_of c i j an)).
Proof. intros H. apply quiet_look. intros c Hc. destruct (rx_sa_at _ _ _ _ _ _ _ _ _ _ Hc H) as (_ & sa & _ & Es & Hs). eauto. Qed.
Lemma quiet_tx_sa_slot k i an s v : at_secy k i s -> 0 <= an -> ks_tx_sa s !! Z.to_nat an = Some v ->
  quiet k (eq v) (look dev (fun c => tx_sa_slot c i an)).
Proof. intros H Han Hv. apply quiet_look. intros c Hc. exists v. split; [by apply (tx_sa_slot_at c k i an s)|done]. Qed.
Lemma quiet_tx_sa k i an s r e : at_tx_sa k i an s r e ->
  quiet k (fun sa => tx_sa_skel sa = e) (look dev (fun c => tx_sa_of c i an)).
Proof. intros H. apply quiet_look. intros c Hc. destruct (tx_sa_at _ _ _ _ _ _ _ Hc H) as (_ & sa & _ & Es & Hs). eauto. Qed.
Lemma quiet_pattern_record k i s a d v : at_secy k i s -> 0 <= a -> 0 <= d -> rec_of s (Z.to_nat a) (Z.to_nat d) = Some v ->
  quiet k (eq v) (look dev (fun c => pattern_record_of c i a d)).
Proof. intros H Ha Hd Hv. apply quiet_look. intros c Hc. exists v. split; [by apply (pattern_record_at c k i s)|done]. Qed.
Lemma quiet_pattern k i s a d : at_secy k i s -> ks_shape s = [3;3;3]%nat -> 0 <= a < 3 -> 0 <= d < 3 ->
  quiet k any (look dev (fun c => pattern_of c i a d)).
Proof. intros H Hs Ha Hd. apply quiet_look. intros c Hc. destruct (pattern_at c k i s a d Hc H Hs Ha Hd) as [p Hp]. eauto. Qed.

(** Updates of other members. *)
Lemma quiet_upd_secy k i s f : at_secy k i s -> (forall s', secy_skel (f s') = secy_skel s') -> quiet k any (upd_secy dev i f).
Proof.
  intros H Hf. eapply quiet_bind; [by apply (quiet_secy k i s)|]. intros s' Hs'. intros Q HQ. apply awp_modify.
  intros c Hc. rewrite (on_secy_skel c k i s f (fun s => s)); [|done|done|intros ? <-; apply Hf].
  replace (on_secy _ _ k) with k; [auto|]. unfold on_secy. rewrite list_alter_id by done. by destruct k.
Qed.
Lemma quiet_upd_tx_sc k i s f : at_secy k i s ->
  (forall t, tsc_in_use (f t) = tsc_in_use t /\ tsc_sa (f t) = tsc_sa t /\
             tcs_encoding_sa (tsc_status (f t)) = tcs_encoding_sa (tsc_status t)) -> quiet k any (upd_tx_sc dev i f).
Proof.
  intros H Hf. apply (quiet_upd_secy k i s (fun s => set_secy_tx_sc (f (secy_tx_sc s)) s)); [done|]. intros s'.
  unfold secy_skel. cbn. by destruct (Hf (secy_tx_sc s')) as (-> & -> & ->).
Qed.
Lemma map_alter_quiet {A C} (h : A -> C) f (l : list A) i : (forall x, h (f x) = h x) -> map h (alter f i l) = map h l.
Proof.
  intros Hf. apply list_eq. intros j. rewrite !list_lookup_fmap, list_lookup_alter. case_decide; [subst j|done].
  destruct (l !! i); [|done]. cbn. by rewrite Hf.
Qed.
Lemma quiet_upd_rx_sc k i j s p x f : at_sc k i j s p x -> (forall r, rx_sc_skel (f r) = rx_sc_skel r) ->
  quiet k any (upd_rx_sc dev i j f).
Proof.
  intros H Hf. eapply (quiet_bind _ _ (eq p)).
  - apply quiet_look. intros c Hc. exists p. by destruct (rx_sc_at c k i j s p x Hc H) as [-> _].
  - intros ? <-. apply quiet_modify. intros c. unfold skel, alter_rx_sc. cbn. by rewrite map_alter_quiet.
Qed.
Lemma quiet_upd_rx_sa k i j an s p x r e f : at_rx_sa k i j an s p x r e -> (forall sa, rx_sa_skel (f sa) = rx_sa_skel sa) ->
  quiet k any (upd_rx_sa dev i j an f).
Proof.
  intros H Hf. eapply (quiet_bind _ _ (eq r)).
  - apply quiet_look. intros c Hc. exists r. by destruct (rx_sa_at _ _ _ _ _ _ _ _ _ _ Hc H) as [-> _].
  - intros ? <-. apply quiet_modify. intros c. unfold skel, alter_rx_sa. cbn. by rewrite map_alter_quiet.
Qed.
Lemma quiet_upd_tx_sa k i an s r e f : at_tx_sa k i an s r e -> (forall sa, tx_sa_skel (f sa) = tx_sa_skel sa) ->
  quiet k any (upd_tx_sa dev i an f).
Proof.
  intros H Hf. eapply (quiet_bind _ _ (eq r)).
  - apply quiet_look. intros c Hc. exists r. by destruct (tx_sa_at _ _ _ _ _ _ _ Hc H) as [-> _].
  - intros ? <-. apply quiet_modify. intros c. unfold skel, alter_tx_sa. cbn. by rewrite map_alter_quiet.
Qed.
Lemma quiet_upd_pattern k i s a d f : at_secy k i s -> ks_shape s = [3;3;3]%nat -> 0 <= a < 3 -> 0 <= d < 3 ->
  quiet k any (upd_pattern dev i a d f).
Proof.
  intros H Hs Ha Hd. eapply quiet_bind; [by apply (quiet_pattern k i s)|]. intros _ _.
  apply (quiet_upd_secy k i s); [done|]. intros s'. unfold secy_skel. cbn. f_equal.
  apply map_alter_quiet. intros row. apply length_alter.
Qed.
End Access.
#[export] Hint Resolve quiet_secy quiet_rx_sc_slot quiet_rx_sc quiet_rx_sa_slot quiet_rx_sa quiet_tx_sa_slot quiet_tx_sa
  quiet_pattern_record quiet_upd_secy quiet_upd_tx_sc quiet_upd_rx_sc quiet_upd_rx_sa quiet_upd_tx_sa : macsec.
#[export] Hint Resolve quiet_macsec quiet_data_of quiet_uptime quiet_on_bus : macsec.
#[export] Hint Resolve hw_csr_wr hw_csr_wrm hw_CSR_WR hw_CSR_WRM hw_warm_wrm : macsec.

(** [hw_step]: one step into a function that returns a code. *)
Ltac hw_step :=
  try (lazymatch goal with |- quiet ?d ?k (fun rc => rc <= 0) ?m => change (hw d k m) end);
  lazymatch goal with
  | |- hw _ _ (ret _) => apply hw_ret; first [done|codes]
  | |- hw _ _ (or_rc _ _) => apply hw_or_rc
  | |- hw _ _ (try_rc _ _) => apply hw_try
  | |- hw _ _ (or_else _ _ _) => apply hw_or_else
  | |- hw _ _ (if _ then _ else _) => apply hw_if; intros ?
  | |- hw _ _ (CSR_WR _ _ _ _) => apply hw_CSR_WR
  | |- hw _ _ (CSR_WRM _ _ _ _ _) => apply hw_CSR_WRM
  | |- hw _ _ (CSR_WARM_WR _ _ _ _) => apply hw_warm_wrm
  | |- hw _ _ (CSR_WARM_WRM _ _ _ _ _) => apply hw_warm_wrm
  | |- hw _ _ (lan80xx_csr_wr _ _ _ _ _ _) => apply hw_csr_wr
  | |- hw _ _ (dbg_counter_incr _ _ _) => by apply hw_dbg
  | |- hw _ _ (for_rc _ _ _ _) => apply hw_for_rc; [intros ?|]
  | |- hw _ _ (MACSEC_RC_COLD _ _) => apply hw_cold
  end.

Section Hardware.
Context {B : Type} {CO : Callout80 B} {HO : Host B}.
Variable dev : Z.
Notation M := (M (env80 B) phy25g_phy_state_t).
Implicit Types k : alloc.
Notation quiet k P m := (quiet dev k P (m : Machine.M (env80 B) phy25g_phy_state_t _)).
Notation hw k m := (Lan80xxMacsecLogic.hw dev k (m : Machine.M (env80 B) phy25g_phy_state_t Z)).

Lemma hw_flag32 k n (f : Z -> M Z) : n < 32 -> (forall m, hw k (f m)) -> hw k (flag32 n f).
Proof. intros Hn Hf. unfold flag32. by rewrite (proj2 (Z.ltb_lt _ _)). Qed.
Lemma hw_sa_enable k p record egr enable : record < 128 -> hw k (lan80xx_macsec_sa_enable dev p record egr enable).
Proof.
  intros Hr. unfold lan80xx_macsec_sa_enable. cbv zeta.
  repeat (hw_step || (apply hw_flag32; [|intros m])).
  all: unfold LAN80XX_MACSEC_SAM_ENTRY_SET1_NUM, LAN80XX_MACSEC_SAM_ENTRY_SET2_NUM, LAN80XX_MACSEC_SAM_ENTRY_SET3_NUM,
         LAN80XX_MACSEC_SAM_ENTRY_SET4_NUM in *; lia.
Qed.
Lemma hw_sa_inuse k p record sc an egr enable : hw k (lan80xx_macsec_sa_inuse dev p record sc an egr enable).
Proof. unfold lan80xx_macsec_sa_inuse. cbv zeta. repeat hw_step. Qed.
Lemma hw_sam_entry_ctrl k p record egr enable : hw k (lan80xx_macsec_sam_entry_ctrl dev p record egr enable).
Proof. unfold lan80xx_macsec_sam_entry_ctrl. repeat hw_step. Qed.
Lemma hw_update_glb_validate k p : hw k (lan80xx_macsec_update_glb_validate dev p).
Proof. eapply hw_bind; [apply quiet_macsec|]. intros c _. repeat hw_step. Qed.
Lemma hw_sam_in_flight k n p egr v : hw k (sam_in_flight dev n p egr v).
Proof.
  revert v. induction n as [|n IH]; intros v; cbn [sam_in_flight];
    (apply (quiet_CSR_RD dev k (fun rc => rc <= 0)); [intros rc Hrc; apply hw_ret; lia|intros x]);
    (eapply (hw_bind _ _ any); [intros Q HQ; by apply awp_msleep, HQ|intros _ _]); [by apply hw_dbg|].
  destruct n; [by apply hw_dbg|]. apply hw_if; intros _; [apply IH|by apply hw_ret].
Qed.
Lemma hw_sa_sam_in_flight k p egr : hw k (lan80xx_sa_sam_in_flight dev p egr).
Proof. apply hw_sam_in_flight. Qed.
Lemma hw_tcam_reset k p egr record : hw k (lan80xx_macsec_sa_tcam_key_mask_reset dev p egr record).
Proof. unfold lan80xx_macsec_sa_tcam_key_mask_reset. cbv zeta. hw_step; [apply hw_sam_entry_ctrl|]. repeat hw_step. Qed.
Lemma hw_unctrl_drop k p record egr action : hw k (lan80xx_macsec_sa_tcam_policy_unctrl_drop dev p record egr action).
Proof. unfold lan80xx_macsec_sa_tcam_policy_unctrl_drop. repeat hw_step. Qed.
Lemma hw_xform_reset k p egr record : hw k (lan80xx_macsec_sa_xform_reset dev p egr record).
Proof. unfold lan80xx_macsec_sa_xform_reset. repeat hw_step. Qed.
(** Without the parameters of a bypassed header. *)
Lemma hw_tcam_set k p egr record i s sc pat : k_tags k = false -> at_secy k i s ->
  hw k (lan80xx_macsec_sa_tcam_key_mask_set dev p egr record i sc pat).
Proof.
  intros Ht Hs. eapply hw_bind; [apply quiet_macsec|]. intros c Hc.
  assert (glb_cleartags_init_done (mc_glb c) = false) as -> by by rewrite <- Ht, <- Hc.
  rewrite andb_false_r. eapply hw_bind; [by apply (quiet_secy dev k i s)|]. intros s' _. cbv zeta. repeat hw_step.
Qed.
End Hardware.

(** ** The hardware of an association at its place *)
Section Programming.
Context {B : Type} {CO : Callout80 B} {HO : Host B}.
Variable dev : Z.
Notation M := (M (env80 B) phy25g_phy_state_t).
Implicit Types k : alloc.
Notation quiet k P m := (quiet dev k P (m : Machine.M (env80 B) phy25g_phy_state_t _)).
Notation hw k m := (Lan80xxMacsecLogic.hw dev k (m : Machine.M (env80 B) phy25g_phy_state_t Z)).

(** The association that [egr] selects exists. *)
Definition at_sa k (egr : bool) i an j : Prop :=
  if egr then exists s r e, at_tx_sa k i an s r e else exists s p x r e, at_rx_sa k i j an s p x r e.
Lemma at_rx_sa_secy k i j an s p x r e : at_rx_sa k i j an s p x r e -> at_secy k i s.
Proof. by intros [[? _] _]. Qed.
Lemma at_rx_sa_sc k i j an s p x r e : at_rx_sa k i j an s p x r e -> at_sc k i j s p x.
Proof. by intros [? _]. Qed.
Lemma at_sa_secy k egr i an j : at_sa k egr i an j -> exists s, at_secy k i s.
Proof. destruct egr; [intros (s & r & e & Hs & _)|intros (s & p & x & r & e & [Hs _] & _)]; by exists s. Qed.

Lemma quiet_sa_at k egr i an j : at_sa k egr i an j -> quiet k any (sa_at dev egr i an j).
Proof.
  intros H. unfold sa_at. destruct (at_sa_secy _ _ _ _ _ H) as [s Hs].
  eapply quiet_bind; [by apply (quiet_secy dev k i s)|]. intros s' _. apply quiet_if; intros ->.
  - destruct H as (s0 & r & e & H). eapply quiet_bind; [by eapply quiet_tx_sa|]. intros sa _. by apply quiet_ret.
  - destruct H as (s0 & p & x & r & e & H). eapply quiet_bind; [eapply quiet_rx_sc, at_rx_sa_sc, H|]. intros r' _.
    eapply quiet_bind; [by eapply quiet_rx_sa|]. intros sa _. by apply quiet_ret.
Qed.
Lemma hw_xform_set k p egr record i an j : at_sa k egr i an j -> hw k (lan80xx_macsec_sa_xform_set dev p egr record i an j).
Proof.
  intros H. unfold lan80xx_macsec_sa_xform_set. destruct (at_sa_secy _ _ _ _ _ H) as [s Hs].
  eapply hw_bind; [by apply (quiet_secy dev k i s)|]. intros s' _. cbv zeta.
  repeat hw_step; (eapply (hw_bind _ _ any); [|intros v _; apply hw_csr_wr]);
    (eapply quiet_bind; [by apply quiet_sa_at|]); intros sr _; by apply quiet_ret.
Qed.
Lemma hw_flow_write k p egr i tags fl off len : hw k (flow_write dev p egr i tags fl off len).
Proof. unfold flow_write. cbv zeta. repeat hw_step. Qed.
Lemma hw_flow_set k p egr record i an j id action : at_sa k egr i an j ->
  hw k (lan80xx_macsec_sa_flow_set dev p egr record i an j id action).
Proof.
  intros H. unfold lan80xx_macsec_sa_flow_set. cbv zeta. destruct (at_sa_secy _ _ _ _ _ H) as [s Hs].
  assert (forall fl, hw k (s <- look dev (fun c => secy_of c i) ;;
    c <- macsec dev ;;
    let '(off, len) := flow_offsets c (secy_tag_bypass s) in
    flow_write dev p egr id (glb_cleartags_conf (mc_glb c)) fl off len)) as Hprog.
  { intros fl. eapply hw_bind; [by apply (quiet_secy dev k i s)|]. intros s' _.
    eapply hw_bind; [apply quiet_macsec|]. intros c _. destruct (flow_offsets _ _). apply hw_flow_write. }
  eapply hw_bind; [by apply (quiet_secy dev k i s)|]. intros s' _. apply hw_if; intros ->.
  - destruct H as (s0 & r & e & H). eapply hw_bind; [by eapply quiet_tx_sa|]. intros sa _. apply Hprog.
  - destruct H as (s0 & q & x & r & e & H). eapply hw_bind; [eapply quiet_rx_sc, at_rx_sa_sc, H|]. intros r' _.
    repeat hw_step; [apply hw_update_glb_validate|apply Hprog].
Qed.
Lemma hw_cam_set k p i id j s q x : at_sc k i j s q x -> hw k (lan80xx_macsec_rx_sc_cam_set dev p i id j).
Proof.
  intros H. unfold lan80xx_macsec_rx_sc_cam_set. eapply hw_bind; [by eapply quiet_rx_sc|]. intros r _.
  eapply hw_bind; [eapply quiet_secy, (proj1 H)|]. intros s' _. cbv zeta. destruct (rx_cam_sci _ _). repeat hw_step.
Qed.

(** ** Finding a SecY and its channels *)
Definition afind k (s : secy_k) (sci : mepa_macsec_sci_t) : option nat :=
  first_below CAP_MAX_SC (fun i =>
    match slot (ks_rx_sc s) i ≫= (fun p => k_rx_sc k !! p) with
    | Some x => kc_in_use x && lan80xx_sci_cmp sci (kc_sci x)
    | None => false
    end).
Lemma find_sc_at c k i s sci : skel c = k -> at_secy k i s -> find_sc c i sci = afind k s sci.
Proof.
  intros Hk Hs. unfold find_sc, afind, first_below.
  assert (forall f g : nat -> bool, (forall n, f n = g n) -> List.find f (seq 0 CAP_MAX_SC) = List.find g (seq 0 CAP_MAX_SC)) as Hext.
  { intros f g Hfg. induction (seq 0 CAP_MAX_SC) as [|n l IH]; [done|]. cbn. by rewrite Hfg, IH. }
  apply Hext. intros n. destruct (secy_at c k i s Hk Hs) as (s' & Es & <-).
  unfold rx_sc_of, rx_sc_ptr, rx_sc_slot. rewrite Es. cbn. rewrite idx_nat, Nat2Z.id by lia.
  unfold slot. destruct (mjoin (secy_rx_sc s' !! n)) as [p|] eqn:Ep; [|done]. cbn. rewrite <- Hk.
  cbn. rewrite list_lookup_fmap. by destruct (mc_rx_sc c !! p).
Qed.
Lemma first_below_some n f i : first_below n f = Some i -> (i < n)%nat /\ f i = true.
Proof. unfold first_below. intros H. apply find_some in H as [H ?]. apply in_seq in H. split; [lia|done]. Qed.
Lemma first_below_none n f i : first_below n f = None -> (i < n)%nat -> f i = false.
Proof. unfold first_below. intros H Hi. apply (find_none _ _ H). apply in_seq. lia. Qed.
Lemma afind_some k s sci j : afind k s sci = Some j ->
  exists p x, (j < 64)%nat /\ ks_rx_sc s !! j = Some (Some p) /\ k_rx_sc k !! p = Some x /\ kc_in_use x = true /\ kc_sci x = sci.
Proof.
  intros H. apply first_below_some in H as [Hj H]. destruct (slot (ks_rx_sc s) j) as [p|] eqn:Ep; [|done].
  cbn in H. destruct (k_rx_sc k !! p) as [x|] eqn:Ex; [|done]. apply andb_true_iff in H as [Hu Hs].
  unfold lan80xx_sci_cmp in Hs. apply bool_decide_eq_true in Hs. apply slot_some in Ep. exists p, x. by rewrite Hs.
Qed.
(** A channel of a SecY is found under its identifier. *)
Lemma afind_own k i s j p x : wf k -> k_secy k !! i = Some s -> ks_rx_sc s !! j = Some (Some p) -> k_rx_sc k !! p = Some x ->
  afind k s (kc_sci x) = Some j /\ kc_in_use x = true.
Proof.
  intros W Hi Hj Hp. assert (sc_claim k (i, j) = Some p) as Hcl by (unfold sc_claim; cbn; rewrite Hi; cbn; by apply slot_some).
  assert (kc_in_use x = true) as Hu.
  { apply (owned_used _ _ (wf_sc k W)) in Hcl. unfold sc_used in Hcl. by rewrite Hp in Hcl. }
  split; [|done]. destruct (afind k s (kc_sci x)) as [j'|] eqn:E.
  - destruct (afind_some _ _ _ _ E) as (p' & x' & Hj' & Hp' & Hx' & Hu' & Hsci). f_equal.
    assert (p' = p) as -> by (by apply (wf_sci k W p' p x' x)).
    assert ((i, j') = (i, j)) as [= ->]; [|done]. apply (owned_inj _ _ (wf_sc k W) _ _ p); [|done].
    unfold sc_claim. cbn. rewrite Hi. cbn. by apply slot_some.
  - exfalso. eapply (first_below_none _ _ j) in E.
    + cbv beta in E. rewrite (proj2 (slot_some _ _ _) Hj) in E. cbn in E. rewrite Hp, Hu in E. unfold lan80xx_sci_cmp in E.
      by rewrite bool_decide_true in E.
    + apply lookup_lt_Some in Hj. rewrite (sw_rx_sc s (wf_secy k W i s Hi)) in Hj. done.
Qed.
End Programming.

(** ** What is at a place of well-formed tables *)
Section Wf.
Implicit Types k : alloc.
Lemma sc_cases k i s j : wf k -> at_secy k i s -> 0 <= j < 64 ->
  exists v, ks_rx_sc s !! Z.to_nat j = Some v /\ forall p, v = Some p -> exists x, at_sc k i j s p x /\ kc_in_use x = true.
Proof.
  intros W [Hi Hs] Hj. destruct (lookup_lt_is_Some_2 (ks_rx_sc s) (Z.to_nat j)) as [v Hv].
  { rewrite (sw_rx_sc s (wf_secy k W _ s Hs)). lia. }
  exists v. split; [done|]. intros p ->.
  assert (sc_claim k (Z.to_nat i, Z.to_nat j) = Some p) as Hcl by (unfold sc_claim; cbn; rewrite Hs; cbn; by apply slot_some).
  apply (owned_used _ _ (wf_sc k W)) in Hcl. unfold sc_used in Hcl. destruct (k_rx_sc k !! p) as [x|] eqn:Ex; [|done].
  exists x. split; [|done]. split; [done|]. split; [lia|done].
Qed.
Lemma record_at egr k o r : wf k -> sa_claim egr k o = Some r -> k_sa k egr !! r = Some (true, Z.of_nat r).
Proof.
  intros W Hcl. apply (owned_used _ _ (wf_sa k W egr)) in Hcl. unfold sa_used in Hcl.
  destruct (k_sa k egr !! r) as [[b v]|] eqn:Er; [|done]. subst b. by rewrite (wf_record k W egr r v Er).
Qed.
Lemma rx_sa_cases k i j s p x an : wf k -> at_sc k i j s p x -> 0 <= an < 4 ->
  exists v, kc_sa x !! Z.to_nat an = Some v /\ forall r, v = Some r -> at_rx_sa k i j an s p x r (true, Z.of_nat r) /\ (r < 128)%nat.
Proof.
  intros W Hsc Han. pose proof Hsc as (_ & _ & _ & Hx).
  destruct (lookup_lt_is_Some_2 (kc_sa x) (Z.to_nat an)) as [v Hv]; [rewrite (cw_sa x (wf_rx_sc k W _ x Hx)); lia|].
  exists v. split; [done|]. intros r ->.
  assert (sa_claim false k (inl (p, Z.to_nat an)) = Some r) as Hcl by (cbn; rewrite Hx; cbn; by apply slot_some).
  pose proof (record_at false k _ r W Hcl) as Hr. split; [split; [done|]; split; [lia|done]|].
  apply lookup_lt_Some in Hr. by rewrite (wf_sas k W) in Hr.
Qed.
Lemma tx_sa_cases k i s an : wf k -> at_secy k i s -> 0 <= an < 4 ->
  exists v, ks_tx_sa s !! Z.to_nat an = Some v /\ forall r, v = Some r -> at_tx_sa k i an s r (true, Z.of_nat r) /\ (r < 128)%nat.
Proof.
  intros W Hs Han. pose proof Hs as [Hi Hs'].
  destruct (lookup_lt_is_Some_2 (ks_tx_sa s) (Z.to_nat an)) as [v Hv]; [rewrite (sw_tx_sa s (wf_secy k W _ s Hs')); lia|].
  exists v. split; [done|]. intros r ->.
  assert (sa_claim true k (inl (Z.to_nat i, Z.to_nat an)) = Some r) as Hcl by (cbn; rewrite Hs'; cbn; by apply slot_some).
  pose proof (record_at true k _ r W Hcl) as Hr. split; [split; [done|]; split; [lia|done]|].
  apply lookup_lt_Some in Hr. by rewrite (wf_sas k W) in Hr.
Qed.
Lemma afind_at k i s sci j : wf k -> at_secy k i s -> afind k s sci = Some j ->
  exists p x, at_sc k i (Z.of_nat j) s p x /\ kc_in_use x = true /\ kc_sci x = sci /\ (j < 64)%nat.
Proof.
  intros W Hs H. destruct (afind_some _ _ _ _ H) as (p & x & Hj & Hp & Hx & Hu & Hsci). exists p, x.
  split; [|done]. split; [done|]. rewrite Nat2Z.id. split; [lia|done].
Qed.
End Wf.

Section Search.
Context {B : Type} {CO : Callout80 B} {HO : Host B}.
Variable dev : Z.
Notation M := (M (env80 B) phy25g_phy_state_t).
Implicit Types k : alloc.
Notation quiet k P m := (quiet dev k P (m : Machine.M (env80 B) phy25g_phy_state_t _)).
Notation hw k m := (Lan80xxMacsecLogic.hw dev k (m : Machine.M (env80 B) phy25g_phy_state_t Z)).

Lemma quiet_sc_from_sci k i s sci : at_secy k i s ->
  quiet k (fun r => match afind k s sci with Some j => r = (MEPA_RC_OK, Z.of_nat j) | None => fst r < 0 end)
    (lan80xx_sc_from_sci_get dev i sci 0).
Proof.
  intros Hs. eapply quiet_bind; [apply quiet_data_of|]. intros d Hd. rewrite (find_sc_at _ k i s) by done.
  destruct (afind k s sci) as [j|]; [by apply quiet_ret|].
  eapply quiet_bind; [by apply (quiet_dbg dev k)|]. intros rc Hrc. by apply quiet_ret.
Qed.
(** The rule of [try_sc]: without the channel the function fails. *)
Lemma awp_try_sc k i s sci f (Q : Z -> alloc -> Prop) : at_secy k i s ->
  (forall rc, rc < 0 -> Q rc k) -> (forall j, afind k s sci = Some j -> awp dev (f (Z.of_nat j)) Q k) ->
  awp dev (try_sc dev i sci f : M Z) Q k.
Proof.
  intros Hs Hfail Hf. apply awp_bind, (quiet_sc_from_sci k i s sci Hs). intros r Hr.
  destruct (afind k s sci) as [j|]; [subst r; by apply Hf|]. case_match eqn:E; [by apply awp_ret, Hfail|].
  codes.
Qed.
Lemma hw_try_sc k i s sci f : at_secy k i s -> (forall j, afind k s sci = Some j -> hw k (f (Z.of_nat j))) ->
  hw k (try_sc dev i sci f).
Proof. intros Hs Hf Q HQ. apply (awp_try_sc k i s); [done|intros rc Hrc; apply HQ; lia|]. intros j Hj. by apply Hf. Qed.
Lemma hw_sci_valid k sci : hw k (lan80xx_is_sci_valid dev sci).
Proof. eapply hw_bind; [apply quiet_data_of|]. intros d _. repeat hw_step. Qed.
Lemma quiet_enable_check k port : quiet k (fun rc => rc = 0 \/ rc < 0) (lan80xx_port_macsec_enable_check dev port).
Proof.
  eapply quiet_bind; [apply quiet_macsec|]. intros c _. apply quiet_if; intros _; [|apply quiet_ret; by left].
  eapply quiet_weaken; [by apply (quiet_dbg dev k)|]. auto.
Qed.

(** [port_check] finds a SecY in use, or one that is not. *)
Lemma port_check_find_some port l i j : port_check_find port l i = Some j ->
  exists s, l !! Z.to_nat (j - i) = Some s /\ i <= j /\ secy_in_use s = true.
Proof.
  revert i. induction l as [|s l IH]; intros i; cbn; [done|]. case_match eqn:E.
  - intros [= ->]. exists s. rewrite Z.sub_diag. split_and!; [done|lia|]. by destruct (secy_in_use s).
  - intros H. destruct (IH _ H) as (s' & Hs & Hle & Hu). exists s'. split_and!; [|lia|done].
    replace (Z.to_nat (j - i)) with (S (Z.to_nat (j - (i + 1)))) by lia. done.
Qed.
Lemma port_check_create_some port l i j : port_check_create port l i = Some (inl j) ->
  exists s, l !! Z.to_nat (j - i) = Some s /\ i <= j /\ secy_in_use s = false.
Proof.
  revert i. induction l as [|s l IH]; intros i; cbn; [done|]. case_match; [done|]. case_match eqn:E.
  - intros [= ->]. exists s. rewrite Z.sub_diag. split_and!; [done|lia|]. by destruct (secy_in_use s).
  - intros H'. destruct (IH _ H') as (s' & Hs & Hle & Hu). exists s'. split_and!; [|lia|done].
    replace (Z.to_nat (j - i)) with (S (Z.to_nat (j - (i + 1)))) by lia. done.
Qed.
Lemma quiet_port_check k port create :
  quiet k (fun r => (fst r = MEPA_RC_OK /\ exists s, at_secy k (snd r) s /\ ks_in_use s = negb create) \/ fst r < 0)
    (lan80xx_macsec_port_check dev port create).
Proof.
  eapply quiet_bind; [apply quiet_enable_check|]. intros rc Hrc.
  apply quiet_if; intros _; [apply quiet_ret; by right|].
  eapply quiet_bind; [apply quiet_macsec|]. intros c Hc. cbv zeta.
  assert (forall e, e < 0 -> quiet k (fun r => (fst r = MEPA_RC_OK /\ exists s, at_secy k (snd r) s /\ ks_in_use s = negb create) \/ fst r < 0)
    (rc <- dbg_counter_incr dev (mp_port_no port) e ;; ret (rc, 0))) as Hfail.
  { intros e He. eapply quiet_bind; [by apply (quiet_dbg dev k)|]. intros rc' Hrc'. apply quiet_ret. by right. }
  assert (forall j s, take CAP_SECY_CNT (mc_secy c) !! Z.to_nat (j - 0) = Some s -> 0 <= j -> secy_in_use s = negb create ->
    exists s, at_secy k j s /\ ks_in_use s = negb create) as Hat.
  { intros j s Hj H0 Hu. rewrite Z.sub_0_r in Hj. exists (secy_skel s). split; [|done]. split; [done|]. rewrite <- Hc. cbn.
    rewrite list_lookup_fmap. apply lookup_take_Some in Hj as [-> _]. done. }
  destruct create.
  - destruct (port_check_create _ _ _) as [[j|]|] eqn:E; [|by apply Hfail..].
    destruct (port_check_create_some _ _ _ _ E) as (s & Hs & Hle & Hu). apply quiet_ret. left. split; [done|]. by eapply Hat.
  - destruct (port_check_find _ _ _) as [j|] eqn:E; [|by apply Hfail].
    destruct (port_check_find_some _ _ _ _ E) as (s & Hs & Hle & Hu). apply quiet_ret. left. split; [done|]. by eapply Hat.
Qed.
End Search.

(** [quiet_step]: one step into a function with any result.  The places are among
    the hypotheses. *)
Ltac quiet_bind1 m :=
  lazymatch m with
  | look _ (fun c => secy_of c _) => eapply quiet_bind; [eapply quiet_secy; eassumption|intros ? ?]
  | look _ (fun c => rx_sc_of c _ _) => eapply quiet_bind; [eapply quiet_rx_sc; eassumption|intros ? ?]
  | look _ (fun c => rx_sa_of c _ _ _) => eapply quiet_bind; [eapply quiet_rx_sa; eassumption|intros ? ?]
  | look _ (fun c => tx_sa_of c _ _) => eapply quiet_bind; [eapply quiet_tx_sa; eassumption|intros ? ?]
  | upd_secy _ _ _ => eapply quiet_bind; [eapply quiet_upd_secy; [eassumption|done]|intros _ _]
  | upd_tx_sc _ _ _ => eapply quiet_bind; [eapply quiet_upd_tx_sc; [eassumption|done]|intros _ _]
  | upd_rx_sc _ _ _ _ => eapply quiet_bind; [eapply quiet_upd_rx_sc; [eassumption|done]|intros _ _]
  | upd_rx_sa _ _ _ _ _ => eapply quiet_bind; [eapply quiet_upd_rx_sa; [eassumption|done]|intros _ _]
  | upd_tx_sa _ _ _ _ => eapply quiet_bind; [eapply quiet_upd_tx_sa; [eassumption|done]|intros _ _]
  | macsec _ => eapply quiet_bind; [apply quiet_macsec|intros ? ?]
  | data_of _ => eapply quiet_bind; [apply quiet_data_of|intros ? ?]
  | MEPA_UPTIME_SECONDS => eapply quiet_bind; [apply quiet_uptime|intros ? _]
  | dbg_counter_incr _ _ _ => eapply quiet_bind; [by apply quiet_dbg|intros ? ?]
  | (if _ then _ else _) => eapply (quiet_bind _ _ (fun _ => True)); [apply quiet_if; intros ?|intros ? _]
  end.
Ltac quiet_step :=
  lazymatch goal with
  | |- quiet _ _ _ (ret _) => apply quiet_ret; cbv beta in *; cbn; first [done|codes]
  | |- quiet _ _ _ (if _ then _ else _) => apply quiet_if; intros ?
  | |- quiet _ _ _ (CNT64_RD _ _ _ _ _ _) => apply quiet_CNT64_RD; [intros ? ?|intros ?]
  | |- quiet _ _ _ (CSR_RD _ _ _ _ _ _) => apply quiet_CSR_RD; [intros ? ?|intros ?]
  | |- quiet _ _ _ (bind ?m _) => quiet_bind1 m
  | |- quiet _ _ _ (upd_secy _ _ _) => eapply quiet_upd_secy; [eassumption|done]
  | |- quiet _ _ _ (upd_tx_sc _ _ _) => eapply quiet_upd_tx_sc; [eassumption|done]
  | |- quiet _ _ _ (upd_rx_sc _ _ _ _) => eapply quiet_upd_rx_sc; [eassumption|done]
  | |- quiet _ _ _ (upd_rx_sa _ _ _ _ _) => eapply quiet_upd_rx_sa; [eassumption|done]
  | |- quiet _ _ _ (upd_tx_sa _ _ _ _) => eapply quiet_upd_tx_sa; [eassumption|done]
  end; cbv beta zeta in *; cbn [fst snd] in *.

(** ** Counters *)
Section Counters.
Context {B : Type} {CO : Callout80 B} {HO : Host B}.
Variable dev : Z.
Notation M := (M (env80 B) phy25g_phy_state_t).
Variable k : alloc.
Hypothesis W : wf k.
Notation quiet P m := (quiet dev k P (m : Machine.M (env80 B) phy25g_phy_state_t _)).
Notation hw m := (Lan80xxMacsecLogic.hw dev k (m : Machine.M (env80 B) phy25g_phy_state_t Z)).
Notation code := (fun r => fst r <= 0).

Lemma hw_for_range f a n m : (forall j, a <= j < a + Z.of_nat n -> hw (f j)) -> hw m -> hw (for_rc f a n m).
Proof.
  intros Hf Hm. revert a Hf. induction n as [|n IH]; intros a Hf; cbn; [done|].
  apply hw_try; [apply Hf; lia|]. apply IH. intros j Hj. apply Hf. lia.
Qed.
Lemma hw_for_ok f a n m : (forall j, a <= j < a + Z.of_nat n -> hw (f j)) -> hw m -> hw (for_ok f a n m).
Proof.
  intros Hf Hm. revert a Hf. induction n as [|n IH]; intros a Hf; cbn; [done|].
  apply hw_or_rc; [apply Hf; lia|]. apply IH. intros j Hj. apply Hf. lia.
Qed.
Lemma hw_fst {A} (m : M (Z * A)) : quiet code m -> hw (r <- m ;; ret (fst r)).
Proof. intros Hm. eapply hw_bind; [apply Hm|]. intros r Hr. by apply hw_ret. Qed.

Lemma quiet_tx_sa_counters i s port an : at_secy k i s -> 0 <= an ->
  quiet code (lan80xx_macsec_tx_sa_counters_get_ dev port an i).
Proof.
  intros Hs Han. unfold lan80xx_macsec_tx_sa_counters_get_. cbv zeta. do 3 quiet_step; [quiet_step..|].
  destruct (tx_sa_cases k i s an W Hs) as (v & Hv & Hr); [codes|].
  eapply quiet_bind; [by eapply quiet_tx_sa_slot|]. intros ? <-.
  destruct v as [r|]; [|quiet_step]. destruct (Hr r eq_refl) as [Hsa _]. clear Hr. repeat quiet_step.
Qed.
Lemma quiet_tx_sc_counters i s port : at_secy k i s -> quiet code (lan80xx_macsec_tx_sc_counters_get_ dev port i).
Proof.
  intros Hs. unfold lan80xx_macsec_tx_sc_counters_get_. eapply quiet_bind.
  { apply hw_for_range; [|by apply hw_ret]. intros j Hj. apply hw_fst, (quiet_tx_sa_counters i s); [done|lia]. }
  intros rc Hrc. cbv beta in Hrc. repeat quiet_step.
Qed.

Lemma quiet_rx_sa_read {A} P (fail : Z -> M A) l port i j an s p x r e record cnt rd f : at_rx_sa k i j an s p x r e ->
  (forall rc, rc < 0 -> quiet P (fail rc)) -> (forall rd, quiet P (f rd)) ->
  quiet P (rx_sa_read dev fail l port i j an record cnt rd f).
Proof.
  intros Hsa Hfail Hf. revert cnt rd. induction l as [|[[[? ?] ?] ?] l IH]; intros cnt rd; cbn; [done|].
  apply quiet_CNT64_RD; [done|]. intros y. quiet_step. apply IH.
Qed.
Lemma quiet_find i s sci {A} P (f : Z * Z -> M A) : at_secy k i s ->
  (forall rc, rc < 0 -> quiet P (f (rc, 0))) ->
  (forall j p x, at_sc k i j s p x -> kc_in_use x = true -> kc_sci x = sci -> afind k s sci = Some (Z.to_nat j) ->
     quiet P (f (MEPA_RC_OK, j))) ->
  quiet P (bind (lan80xx_sc_from_sci_get dev i sci 0) f).
Proof.
  intros Hs Hfail Hf. eapply quiet_bind.
  - eapply quiet_bind; [apply quiet_data_of|]. intros d Hd. rewrite (find_sc_at _ k i s) by done.
    instantiate (1 := fun r => match afind k s sci with Some j => r = (MEPA_RC_OK, Z.of_nat j) | None => fst r < 0 /\ snd r = 0 end).
    destruct (afind k s sci) as [j|]; [by apply quiet_ret|].
    eapply quiet_bind; [by apply (quiet_dbg dev k)|]. intros rc Hrc. by apply quiet_ret.
  - intros r Hr. cbv beta in Hr. destruct (afind k s sci) as [j|] eqn:E.
    + subst r. destruct (afind_at k i s sci j W Hs E) as (p & x & Hsc & Hu & Hsci & Hj).
      apply (Hf (Z.of_nat j) p x); try done. by rewrite Nat2Z.id.
    + destruct r as [rc v]. cbn in Hr. destruct Hr as [Hr ->]. by apply Hfail.
Qed.
(** The association of a channel, and of a transmit channel, if there is one. *)
Lemma quiet_rx_slot i j an s p x {A} P (f : option nat -> M A) : at_sc k i j s p x -> 0 <= an < 4 ->
  quiet P (f None) ->
  (forall r, (r < 128)%nat -> at_rx_sa k i j an s p x r (true, Z.of_nat r) -> quiet P (f (Some r))) ->
  quiet P (bind (look dev (fun c => rx_sa_slot c i j an)) f).
Proof.
  intros Hsc Han Hn Hf. destruct (rx_sa_cases k i j s p x an W Hsc Han) as (v & Hv & Hr).
  eapply quiet_bind; [eapply quiet_rx_sa_slot; [done|lia|done]|]. intros ? <-. destruct v as [r|]; [|done].
  destruct (Hr r eq_refl). by apply Hf.
Qed.
Lemma quiet_tx_slot i an s {A} P (f : option nat -> M A) : at_secy k i s -> 0 <= an < 4 ->
  quiet P (f None) ->
  (forall r, (r < 128)%nat -> at_tx_sa k i an s r (true, Z.of_nat r) -> quiet P (f (Some r))) ->
  quiet P (bind (look dev (fun c => tx_sa_slot c i an)) f).
Proof.
  intros Hs Han Hn Hf. destruct (tx_sa_cases k i s an W Hs Han) as (v & Hv & Hr).
  eapply quiet_bind; [eapply quiet_tx_sa_slot; [done|lia|done]|]. intros ? <-. destruct v as [r|]; [|done].
  destruct (Hr r eq_refl). by apply Hf.
Qed.
Lemma quiet_sc_slot i j s {A} P (f : option nat -> M A) : at_secy k i s -> 0 <= j < 64 ->
  quiet P (f None) -> (forall p x, at_sc k i j s p x -> kc_in_use x = true -> quiet P (f (Some p))) ->
  quiet P (bind (look dev (fun c => rx_sc_slot c i j)) f).
Proof.
  intros Hs Hj Hn Hf. destruct (sc_cases k i s j W Hs Hj) as (v & Hv & Hx).
  eapply quiet_bind; [eapply quiet_rx_sc_slot; [done|lia|done]|]. intros ? <-. destruct v as [p|]; [|done].
  destruct (Hx p eq_refl) as (x & Hsc & Hu). by apply (Hf p x).
Qed.
Lemma quiet_own_slot i j s p x {A} P (f : option nat -> M A) : at_sc k i j s p x -> quiet P (f (Some p)) ->
  quiet P (bind (look dev (fun c => rx_sc_slot c i j)) f).
Proof.
  intros Hsc Hf. eapply quiet_bind; [eapply quiet_rx_sc_slot; apply Hsc|]. by intros ? <-.
Qed.

Lemma quiet_rx_sa_counters i s sci port an : at_secy k i s -> 0 <= an < 4 ->
  quiet code (lan80xx_macsec_rx_sa_counters_get_ dev port sci an i).
Proof.
  intros Hs Han. unfold lan80xx_macsec_rx_sa_counters_get_. cbv zeta. eapply quiet_find; [done|..].
  - intros rc Hrc. quiet_step; [quiet_step|codes].
  - intros j p x Hsc Hu Hsci _. quiet_step; [quiet_step|]. cbn [snd].
    eapply quiet_own_slot; [done|]. eapply quiet_rx_slot; [done|done|quiet_step|].
    intros r Hr Hsa. quiet_step. eapply quiet_rx_sa_read; [done|intros rc Hrc; quiet_step|].
    intros rd. repeat quiet_step.
Qed.
Lemma quiet_rx_live i j an s p x : at_sc k i j s p x -> 0 <= an < 4 ->
  quiet any (look dev (fun c => rx_sa_live c i j an)).
Proof.
  intros Hsc Han. apply quiet_look. intros c Hc. destruct (rx_sa_cases k i j s p x an W Hsc Han) as (v & Hv & Hr).
  unfold rx_sa_live. rewrite (rx_sa_slot_at c k i j an s p x v Hc Hsc) by (done || lia). cbn.
  destruct v as [r|]; [|eauto]. destruct (Hr r eq_refl) as [Hsa _].
  destruct (rx_sa_at _ _ _ _ _ _ _ _ _ _ Hc Hsa) as (_ & sa & -> & _). cbn. eauto.
Qed.
Lemma quiet_rx_sc_counters i s sci port cnt : at_secy k i s ->
  quiet code (lan80xx_macsec_rx_sc_counters_get_ dev port sci cnt i).
Proof.
  intros Hs. unfold lan80xx_macsec_rx_sc_counters_get_. eapply quiet_find; [done|..].
  - intros rc Hrc. quiet_step; [quiet_step|codes].
  - intros j p x Hsc Hu Hsci _. quiet_step; [quiet_step|]. cbv zeta. eapply quiet_own_slot; [done|]. quiet_step.
    eapply (quiet_bind _ _ (fun rc => rc <= 0)); [|intros rc Hrc; repeat quiet_step].
    apply hw_for_range; [|by apply hw_ret]. intros an Han. eapply hw_bind; [by eapply quiet_rx_live|]. intros live _.
    apply hw_if; intros _; [by apply hw_ret|]. eapply hw_bind; [by eapply quiet_rx_sa_counters|]. intros r Hr.
    apply hw_if; intros _; [by apply hw_ret|]. eapply hw_bind; [by eapply quiet_upd_rx_sc|]. intros _ _. by apply hw_ret.
Qed.

Lemma hw_rxsc_clear i s sci : at_secy k i s -> hw (lan80xx_macsec_rxsc_counters_clear_ dev sci i).
Proof.
  intros Hs. eapply hw_bind; [apply quiet_macsec|]. intros c Hc. rewrite (find_sc_at c k i s) by done.
  destruct (afind k s sci) as [j|] eqn:E; [|by apply hw_ret].
  destruct (afind_at k i s sci j W Hs E) as (p & x & Hsc & _).
  eapply hw_bind; [by eapply quiet_upd_rx_sc|]. intros _ _. by apply hw_ret.
Qed.
End Counters.

(** ** Associations *)
Section Associations.
Context {B : Type} {CO : Callout80 B} {HO : Host B}.
Variable dev : Z.
Notation M := (M (env80 B) phy25g_phy_state_t).
Variable k : alloc.
Hypothesis W : wf k.
Notation quiet P m := (quiet dev k P (m : Machine.M (env80 B) phy25g_phy_state_t _)).
Notation hw m := (Lan80xxMacsecLogic.hw dev k (m : Machine.M (env80 B) phy25g_phy_state_t Z)).
Notation code := (fun r => fst r <= 0).

(** [try_sc] in well-formed tables. *)
Lemma hw_in_sc i s sci f : at_secy k i s ->
  (forall j p x, at_sc k i j s p x -> kc_in_use x = true -> kc_sci x = sci -> 0 <= j < 64 -> hw (f j)) -> hw (try_sc dev i sci f).
Proof.
  intros Hs Hf. apply (hw_try_sc dev k i s); [done|]. intros j Hj.
  destruct (afind_at k i s sci j W Hs Hj) as (p & x & Hsc & Hu & Hsci & Hlt). apply (Hf _ p x); try done. lia.
Qed.
Lemma hw_fail p e (n : M Z) : e < 0 -> hw (try_rc (dbg_counter_incr dev p e) n).
Proof.
  intros He. eapply quiet_bind; [by apply (quiet_dbg dev k)|]. intros rc Hrc. cbv beta in Hrc. apply quiet_if; intros E; [apply hw_ret; lia|codes].
Qed.
Lemma quiet_other_rx_sa i j an s p x : at_sc k i j s p x -> quiet any (look dev (fun c => other_rx_sa c i j an)).
Proof.
  intros Hsc. apply quiet_look. intros c Hc. destruct (rx_sc_at c k i j s p x Hc Hsc) as (_ & r & _ & Er & _).
  unfold other_rx_sa. rewrite Er. cbn. eauto.
Qed.
Lemma quiet_other_tx_sa i an s : at_secy k i s -> quiet any (look dev (fun c => other_tx_sa c i an)).
Proof.
  intros Hs. apply quiet_look. intros c Hc. destruct (secy_at c k i s Hc Hs) as (s' & Es & _).
  unfold other_tx_sa. rewrite Es. cbn. eauto.
Qed.
Lemma hw_uptime (f : Z -> M Z) : (forall t, hw (f t)) -> hw (t <- MEPA_UPTIME_SECONDS ;; f t).
Proof. intros Hf. eapply hw_bind; [apply quiet_uptime|]. intros t _. apply Hf. Qed.
Lemma hw_rx_sa_disable i s sci port an : at_secy k i s -> 0 <= an -> hw (lan80xx_macsec_rx_sa_disable_ dev i port sci an).
Proof.
  intros Hs Han. unfold lan80xx_macsec_rx_sa_disable_. hw_step; [hw_step|]. apply (hw_in_sc i s); [done|].
  intros j p x Hsc Hu Hsci Hj. eapply quiet_own_slot; [done|]. eapply (quiet_rx_slot dev k W); [done|codes|..].
  - by apply hw_fail.
  - intros r Hr Hsa. hw_step; [hw_step|].
    eapply hw_bind; [by eapply quiet_rx_sc|]. intros x' Hx'. eapply hw_bind; [by eapply quiet_rx_sa|]. intros sa [= _ Hsa'].
    hw_step; [apply hw_sa_enable; lia|by apply hw_dbg|]. hw_step; [apply hw_sa_inuse|by apply hw_dbg|].
    unfold hw. repeat quiet_step.
Qed.
Lemma hw_rx_sa_activate i s sci port an : at_secy k i s -> 0 <= an -> hw (lan80xx_macsec_rx_sa_activate_ dev i port sci an).
Proof.
  intros Hs Han. unfold lan80xx_macsec_rx_sa_activate_. apply (hw_in_sc i s); [done|].
  intros j p x Hsc Hu Hsci Hj. hw_step; [apply hw_sci_valid|]. hw_step; [hw_step|].
  eapply (quiet_rx_slot dev k W); [done|codes|by apply hw_ret|].
  intros r Hr Hsa. eapply hw_bind; [by eapply quiet_rx_sc|]. intros x' Hx'.
  eapply hw_bind; [by eapply quiet_rx_sa|]. intros sa [= _ Hsa'].
  hw_step; [hw_step; apply hw_sa_inuse|by apply hw_dbg|]. hw_step; [apply hw_sa_enable; lia|by apply hw_dbg|].
  unfold hw. repeat quiet_step. eapply quiet_bind; [by eapply quiet_other_rx_sa|]. intros b _. repeat quiet_step.
Qed.
Lemma quiet_rx_sa_status i s sci port an st : at_secy k i s -> 0 <= an ->
  quiet code (lan80xx_macsec_rx_sa_status_get_ dev i port sci an st).
Proof.
  intros Hs Han. unfold lan80xx_macsec_rx_sa_status_get_. cbv zeta. eapply quiet_find; [done|done|..].
  - intros rc Hrc. quiet_step; [quiet_step|codes].
  - intros j p x Hsc Hu Hsci _. quiet_step; [quiet_step|]. quiet_step; [quiet_step|].
    eapply (quiet_rx_slot dev k W); [done|codes|quiet_step|]. intros r Hr Hsa. repeat quiet_step.
Qed.
Lemma quiet_rx_sa_get i s sci port an pn : at_secy k i s -> 0 <= an ->
  quiet code (lan80xx_macsec_rx_sa_get_ dev i port sci an pn).
Proof.
  intros Hs Han. unfold lan80xx_macsec_rx_sa_get_. cbv zeta. eapply quiet_find; [done|done|..].
  - intros rc Hrc. quiet_step; [quiet_step|codes].
  - intros j p x Hsc Hu Hsci _. quiet_step; [quiet_step|]. quiet_step; [quiet_step|].
    eapply (quiet_rx_slot dev k W); [done|codes|repeat quiet_step|]. intros r Hr Hsa. repeat quiet_step.
Qed.
Lemma hw_controlled_set i s port en : at_secy k i s -> hw (lan80xx_macsec_secy_controlled_set_ dev port en i).
Proof.
  intros Hs. unfold lan80xx_macsec_secy_controlled_set_. eapply hw_bind; [by eapply quiet_secy|]. intros s' Hs'.
  hw_step; [hw_step|]. apply hw_for_ok.
  - intros j Hj. eapply (quiet_sc_slot dev k W); [done|change CAP_MAX_SC with 64%nat in Hj; lia|by apply hw_ret|].
    intros p x Hsc Hu. apply hw_for_ok; [|by apply hw_ret]. intros an Han.
    eapply (quiet_rx_slot dev k W); [done|change (Z.to_nat MEPA_MACSEC_SA_PER_SC) with 4%nat in Han; lia|by apply hw_ret|].
    intros r Hr Hsa. eapply hw_bind; [by eapply quiet_rx_sa|]. intros sa [= _ Hsa']. hw_step; [hw_step|].
    hw_step; [apply hw_sa_enable; lia|by apply hw_dbg|by apply hw_ret].
  - apply hw_for_ok; [|unfold hw; repeat quiet_step]. intros an Han.
    eapply (quiet_tx_slot dev k W); [done|change (Z.to_nat MEPA_MACSEC_SA_PER_SC) with 4%nat in Han; lia|by apply hw_ret|].
    intros r Hr Hsa. eapply hw_bind; [by eapply quiet_tx_sa|]. intros sa [= _ Hsa']. hw_step; [hw_step|].
    hw_step; [apply hw_sa_enable; lia|by apply hw_dbg|by apply hw_ret].
Qed.
End Associations.
