(* ===== verification/Lan80xxMacsecSim.v ===== *)
(** * Lan80xxMacsecSim: the MACsec functions make the steps of the abstract machine

    From well-formed tables each function of the driver that creates or removes an
    association, a channel, a pattern or a SecY runs to an end without undefined
    behaviour, and what it does to the ownership is a sequence of steps of
    [Lan80xxMacsecAlloc.astep]: [steps].  Between two steps, and when it fails,
    too, the tables are well-formed.  [Lan80xxMacsecSpec] puts the functions
    together. *)

From Stdlib Require Import ZArith Lia List Bool String Relation_Operators.
From stdpp Require Import base gmap strings list relations.
From S2P Require Import Prelude Machine Lan80xxRegs Lan80xxMacsecTypes Lan80xxCsr Lan80xxMacsecRegs.
From S2P Require Import Lan80xxMacsec Lan80xxMacsecSa Lan80xxMacsecAlloc Lan80xxMacsecLogic.
From S2P Require Import Lan80xxMacsecQuiet.

(** What a function that returns a code does from [k]. *)
Definition steps (k : alloc) (rc : Z) (k' : alloc) : Prop := rc <= 0 /\ rtc astep k k'.
Lemma wf_steps k k' : wf k -> rtc astep k k' -> wf k'.
Proof. intros W H. induction H; [done|]. eauto using wf_step. Qed.
Lemma steps_refl k rc : rc <= 0 -> steps k rc k.
Proof. by split. Qed.
Lemma steps_once k k' rc : rc <= 0 -> astep k k' -> steps k rc k'.
Proof. intros Hrc H. split; [done|]. by apply rtc_once. Qed.
#[export] Hint Resolve steps_refl steps_once : macsec.

(** ** Rules *)
Section Rules.
Context {B : Type} {CO : Callout80 B} {HO : Host B}.
Variable dev : Z.
Notation M := (M (env80 B) phy25g_phy_state_t).
Implicit Types (k : alloc) (Q : Z -> alloc -> Prop).
Notation quiet k P m := (quiet dev k P (m : Machine.M (env80 B) phy25g_phy_state_t _)).
Notation hw k m := (Lan80xxMacsecLogic.hw dev k (m : Machine.M (env80 B) phy25g_phy_state_t Z)).
Notation awp m Q k := (Lan80xxMacsecLogic.awp dev (m : Machine.M (env80 B) phy25g_phy_state_t _) Q k).

Lemma awp_quiet {A C} P (m : M A) (f : A -> M C) T k :
  quiet k P m -> (forall a, P a -> awp (f a) T k) -> awp (bind m f) T k.
Proof. intros Hm Hf. apply awp_bind, Hm, Hf. Qed.
Lemma awp_hw_try m n Q k : hw k m -> (forall rc, rc < 0 -> Q rc k) -> awp n Q k -> awp (try_rc m n) Q k.
Proof.
  intros Hm Hf Hn. eapply awp_quiet; [apply Hm|]. intros rc Hrc. cbv beta in *. case_match eqn:E; [|done].
  apply awp_ret, Hf. codes.
Qed.
Lemma awp_hw_or m n Q k : hw k m -> (forall rc, rc < 0 -> Q rc k) -> awp n Q k -> awp (or_rc m n) Q k.
Proof.
  intros Hm Hf Hn. eapply awp_quiet; [apply Hm|]. intros rc Hrc. cbv beta in *. case_match eqn:E; [|done].
  apply awp_ret, Hf. codes.
Qed.
Lemma awp_hw_ensure m p e n Q k : hw k m -> e < 0 -> (forall rc, rc < 0 -> Q rc k) -> awp n Q k ->
  awp (ensure m else dbg_counter_incr dev p e ;; n) Q k.
Proof.
  intros Hm He Hf Hn. eapply awp_quiet; [apply Hm|]. intros rc Hrc. case_match; [|done].
  by apply (quiet_dbg dev k p e He).
Qed.
Lemma awp_dbg p e Q k : e < 0 -> (forall rc, rc < 0 -> Q rc k) -> awp (dbg_counter_incr dev p e) Q k.
Proof. intros He. by apply quiet_dbg. Qed.
(** After a call with its own condition. *)
Lemma awp_call_try m n Q k R : awp m R k -> (forall rc k', R rc k' -> rc < 0 -> Q rc k') ->
  (forall rc k', R rc k' -> 0 <= rc -> awp n Q k') -> awp (try_rc m n) Q k.
Proof.
  intros Hm Hf Hn. apply awp_bind. eapply awp_mono; [apply Hm|]. intros rc k' HR. case_match eqn:E.
  - apply awp_ret. apply Hf; [done|]. codes.
  - apply (Hn rc); [done|]. codes.
Qed.
Lemma awp_call_or m n Q k R : awp m R k -> (forall rc k', R rc k' -> rc <> 0 -> Q rc k') ->
  (forall k', R 0 k' -> awp n Q k') -> awp (or_rc m n) Q k.
Proof.
  intros Hm Hf Hn. apply awp_bind. eapply awp_mono; [apply Hm|]. intros rc k' HR. case_match eqn:E.
  - apply awp_ret. apply Hf; [done|]. codes.
  - apply Hn. assert (rc = 0) as -> by codes. done.
Qed.
Lemma awp_call_ensure m p e n Q k R : awp m R k -> e < 0 -> (forall rc rc' k', R rc k' -> rc <> 0 -> rc' < 0 -> Q rc' k') ->
  (forall k', R 0 k' -> awp n Q k') -> awp (ensure m else dbg_counter_incr dev p e ;; n) Q k.
Proof.
  intros Hm He Hf Hn. apply awp_bind. eapply awp_mono; [apply Hm|]. intros rc k' HR. case_match eqn:E.
  - apply awp_dbg; [done|]. intros rc' Hrc'. apply (Hf rc); [done| |done]. codes.
  - apply Hn. assert (rc = 0) as -> by codes. done.
Qed.

(** Updates of the members that the abstract tables have. *)
Lemma awp_upd_secy i s f g T k : at_secy k i s -> (forall s', secy_skel (f s') = g (secy_skel s')) ->
  T tt (on_secy (Z.to_nat i) g k) -> awp (upd_secy dev i f) T k.
Proof.
  intros Hs Hf HQ. eapply awp_quiet; [by eapply quiet_secy|]. intros s' _. apply awp_modify. intros c Hc.
  rewrite (on_secy_skel c k i s f g); [done|done|done|]. intros s'' <-. apply Hf.
Qed.
Lemma awp_upd_tx_sc i s f g T k : at_secy k i s -> 
  (forall s', secy_skel (set_secy_tx_sc (f (secy_tx_sc s')) s') = g (secy_skel s')) ->
  T tt (on_secy (Z.to_nat i) g k) -> awp (upd_tx_sc dev i f) T k.
Proof. intros Hs Hf HQ. by apply (awp_upd_secy i s (fun s => set_secy_tx_sc (f (secy_tx_sc s)) s) g). Qed.
Lemma awp_upd_rx_sc i j s p x f g T k : at_sc k i j s p x -> (forall r, rx_sc_skel (f r) = g (rx_sc_skel r)) ->
  T tt (on_rx_sc p g k) -> awp (upd_rx_sc dev i j f) T k.
Proof.
  intros Hsc Hf HQ. eapply (awp_quiet (eq p)).
  - apply quiet_look. intros c Hc. exists p. by destruct (rx_sc_at c k i j s p x Hc Hsc) as [-> _].
  - intros ? <-. apply awp_modify. intros c Hc. destruct (rx_sc_at c k i j s p x Hc Hsc) as (_ & r & Er & _).
    replace (skel (alter_rx_sc f p c)) with (on_rx_sc p g k); [done|]. rewrite <- Hc. unfold skel, on_rx_sc, alter_rx_sc. cbn.
    f_equal. symmetry. by apply (map_alter_at _ _ _ _ _ r).
Qed.
Lemma awp_modify_rx_sa r e f g T k : k_sa k false !! r = Some e -> (forall sa, rx_sa_skel (f sa) = g (rx_sa_skel sa)) ->
  T tt (on_sa false r g k) -> awp (modify dev (alter_rx_sa f r)) T k.
Proof.
  intros Hr Hf HQ. apply awp_modify. intros c Hc. rewrite <- Hc in Hr. apply map_lookup in Hr as (sa & Er & _).
  replace (skel (alter_rx_sa f r c)) with (on_sa false r g k); [done|]. rewrite <- Hc. unfold skel, on_sa, alter_rx_sa. cbn.
  f_equal. symmetry. by apply (map_alter_at _ _ _ _ _ sa).
Qed.
Lemma awp_modify_tx_sa r e f g T k : k_sa k true !! r = Some e -> (forall sa, tx_sa_skel (f sa) = g (tx_sa_skel sa)) ->
  T tt (on_sa true r g k) -> awp (modify dev (alter_tx_sa f r)) T k.
Proof.
  intros Hr Hf HQ. apply awp_modify. intros c Hc. rewrite <- Hc in Hr. apply map_lookup in Hr as (sa & Er & _).
  replace (skel (alter_tx_sa f r c)) with (on_sa true r g k); [done|]. rewrite <- Hc. unfold skel, on_sa, alter_tx_sa. cbn.
  f_equal. symmetry. by apply (map_alter_at _ _ _ _ _ sa).
Qed.
Lemma awp_upd_rx_sa i j an s p x r e f g T k : at_rx_sa k i j an s p x r e ->
  (forall sa, rx_sa_skel (f sa) = g (rx_sa_skel sa)) -> T tt (on_sa false r g k) -> awp (upd_rx_sa dev i j an f) T k.
Proof.
  intros Hsa Hf HQ. eapply (awp_quiet (eq r)).
  - apply quiet_look. intros c Hc. exists r. by destruct (rx_sa_at _ _ _ _ _ _ _ _ _ _ Hc Hsa) as [-> _].
  - intros ? <-. by eapply awp_modify_rx_sa; [apply Hsa|..].
Qed.
Lemma awp_upd_tx_sa i an s r e f g T k : at_tx_sa k i an s r e ->
  (forall sa, tx_sa_skel (f sa) = g (tx_sa_skel sa)) -> T tt (on_sa true r g k) -> awp (upd_tx_sa dev i an f) T k.
Proof.
  intros Hsa Hf HQ. eapply (awp_quiet (eq r)).
  - apply quiet_look. intros c Hc. exists r. by destruct (tx_sa_at _ _ _ _ _ _ _ Hc Hsa) as [-> _].
  - intros ? <-. by eapply awp_modify_tx_sa; [apply Hsa|..].
Qed.
Lemma awp_set_rx_sa_slot i j an s p x v T k : at_sc k i j s p x -> T tt (on_rx_sc p (put_sa (Z.to_nat an) v) k) ->
  awp (set_rx_sa_slot dev i j an v) T k.
Proof. intros Hsc HQ. by apply (awp_upd_rx_sc i j s p x _ (put_sa (Z.to_nat an) v)). Qed.
Lemma awp_set_tx_sa_slot i an s v T k : at_secy k i s -> T tt (on_secy (Z.to_nat i) (put_tx_sa (Z.to_nat an) v) k) ->
  awp (set_tx_sa_slot dev i an v) T k.
Proof. intros Hs HQ. by apply (awp_upd_tx_sc i s _ (put_tx_sa (Z.to_nat an) v)). Qed.

(** The record that is found is not in use. *)
Definition free_rec k egr (r : Z * Z) : Prop :=
  fst r = MEPA_RC_OK /\ exists n v, snd r = Z.of_nat n /\ k_sa k egr !! n = Some (false, v).
Lemma quiet_record_empty k port egr :
  quiet k (fun r => free_rec k egr r \/ fst r < 0) (lan80xx_record_empty_get dev port 0 egr).
Proof.
  eapply quiet_bind; [apply quiet_macsec|]. intros c Hc. destruct (empty_record c egr) as [n|] eqn:E.
  - apply quiet_ret. left. split; [done|]. cbn [snd]. apply first_below_some in E as [Hn E]. exists n. rewrite <- Hc.
    destruct egr; (destruct (_ !! n) as [sa|] eqn:Es in E; [|done]); apply negb_true_iff in E; eexists; (split; [done|]);
      cbn; rewrite list_lookup_fmap, Es; cbn; [unfold tx_sa_skel|unfold rx_sa_skel]; by rewrite E.
  - eapply quiet_bind; [by apply (quiet_dbg dev k)|]. intros rc Hrc. apply quiet_ret. by right.
Qed.
(** The rule for the search: if there is none, the function fails. *)
Lemma awp_record_empty k port p e egr Q (f : Z * Z -> M Z) : e < 0 -> (forall rc, rc < 0 -> Q rc k) ->
  (forall n v, k_sa k egr !! n = Some (false, v) -> awp (f (MEPA_RC_OK, Z.of_nat n)) Q k) ->
  awp (r <- lan80xx_record_empty_get dev port 0 egr ;;
       if negb (fst r =? MEPA_RC_OK) then dbg_counter_incr dev p e else f r) Q k.
Proof.
  intros He Hfail Hf. eapply awp_quiet; [apply quiet_record_empty|]. intros [rc r] [(Hr & n & v & Hn & Hv)|Hr]; cbn in *.
  - subst. by apply (Hf n v).
  - case_match eqn:E; [by apply awp_dbg|]. codes.
Qed.
End Rules.

(** ** Places after an update *)
Section After.
Implicit Types k : alloc.
Lemma at_sc_on_rx_sc k i j s p x f : at_sc k i j s p x -> at_sc (on_rx_sc p f k) i j s p (f x).
Proof.
  intros (Hs & Hj & Hp & Hx). split; [done|]. split; [done|]. split; [done|]. cbn. rewrite list_lookup_alter, decide_True by done.
  by rewrite Hx.
Qed.
Lemma k_sa_on_sa_here egr k r f e : k_sa k egr !! r = Some e -> k_sa (on_sa egr r f k) egr !! r = Some (f e).
Proof.
  intros He. rewrite k_sa_on_sa, eqb_reflx, list_lookup_alter, decide_True by done. by rewrite He.
Qed.
Lemma at_rx_sa_on_sa k i j an s p x r e f : at_rx_sa k i j an s p x r e -> at_rx_sa (on_sa false r f k) i j an s p x r (f e).
Proof.
  intros (Hsc & Han & Hr & He). split; [done|]. split; [done|]. split; [done|]. by apply k_sa_on_sa_here.
Qed.
Lemma at_tx_sa_on_sa k i an s r e f : at_tx_sa k i an s r e -> at_tx_sa (on_sa true r f k) i an s r (f e).
Proof.
  intros (Hs & Han & Hr & He). split; [done|]. split; [done|]. split; [done|]. by apply k_sa_on_sa_here.
Qed.
Lemma at_secy_on_secy k i s f : at_secy k i s -> at_secy (on_secy (Z.to_nat i) f k) i (f s).
Proof. intros [Hi Hs]. split; [done|]. cbn. rewrite list_lookup_alter, decide_True by done. by rewrite Hs. Qed.
Lemma at_rx_sa_put k i j an s p x r e : at_sc k i j s p x -> 0 <= an -> is_Some (kc_sa x !! Z.to_nat an) ->
  k_sa k false !! r = Some e ->
  at_rx_sa (on_rx_sc p (put_sa (Z.to_nat an) (Some r)) k) i j an s p (put_sa (Z.to_nat an) (Some r) x) r e.
Proof.
  intros Hsc Han [v Hv] He. split; [by apply at_sc_on_rx_sc|]. split; [done|]. split; [|done]. cbn.
  rewrite list_lookup_alter, decide_True by done. by rewrite Hv.
Qed.
Lemma at_tx_sa_put k i an s r e : at_secy k i s -> 0 <= an -> is_Some (ks_tx_sa s !! Z.to_nat an) ->
  k_sa k true !! r = Some e ->
  at_tx_sa (on_secy (Z.to_nat i) (put_tx_sa (Z.to_nat an) (Some r)) k) i an (put_tx_sa (Z.to_nat an) (Some r) s) r e.
Proof.
  intros Hs Han [v Hv] He. split; [by apply at_secy_on_secy|]. split; [done|]. split; [|done]. cbn.
  rewrite list_lookup_alter, decide_True by done. by rewrite Hv.
Qed.

(** Two updates of one entry are one. *)
Lemma alter_twice {A} (l : list A) r e f g h : l !! r = Some e -> g (f e) = h e -> alter g r (alter f r l) = alter h r l.
Proof.
  intros He Hgf. apply list_eq. intros n. rewrite !list_lookup_alter. repeat case_decide; try done. subst n. rewrite He. cbn. by rewrite Hgf.
Qed.
Lemma on_sa_twice egr k r e f g h : k_sa k egr !! r = Some e -> g (f e) = h e ->
  on_sa egr r g (on_sa egr r f k) = on_sa egr r h k.
Proof. intros He Hgf. unfold on_sa. destruct egr; cbn in *; f_equal; by eapply alter_twice. Qed.
Lemma on_secy_twice k i s f g h : k_secy k !! i = Some s -> g (f s) = h s -> on_secy i g (on_secy i f k) = on_secy i h k.
Proof. intros Hs Hgf. unfold on_secy. cbn. f_equal. by eapply alter_twice. Qed.
Lemma on_rx_sc_twice k i s f g h : k_rx_sc k !! i = Some s -> g (f s) = h s -> on_rx_sc i g (on_rx_sc i f k) = on_rx_sc i h k.
Proof. intros Hs Hgf. unfold on_rx_sc. cbn. f_equal. by eapply alter_twice. Qed.
End After.

Lemma at_secy_shape k i s : wf k -> at_secy k i s -> ks_shape s = [3;3;3]%nat.
Proof. intros W [_ Hs]. apply (sw_shape s (wf_secy k W _ s Hs)). Qed.
Lemma awp_of_hw {B} {CO : Callout80 B} {HO : Host B} dev k (m : M (env80 B) phy25g_phy_state_t Z) (Q : Z -> alloc -> Prop) :
  hw dev k m -> (forall rc, rc <= 0 -> Q rc k) -> awp dev m Q k.
Proof. intros Hm. apply Hm. Qed.

(** ** New associations and patterns *)
Section Create.
Context {B : Type} {CO : Callout80 B} {HO : Host B}.
Variable dev : Z.
Notation M := (M (env80 B) phy25g_phy_state_t).
Variable k : alloc.
Hypothesis W : wf k.
Notation hw k m := (Lan80xxMacsecLogic.hw dev k (m : Machine.M (env80 B) phy25g_phy_state_t Z)).
Notation awp m Q k := (Lan80xxMacsecLogic.awp dev (m : Machine.M (env80 B) phy25g_phy_state_t _) Q k).

Lemma at_secy_in_use i s : at_secy k i s -> forall j p x, at_sc k i j s p x -> ks_in_use s = true.
Proof.
  intros [Hi Hs] j p x (_ & Hj & Hp & Hx). destruct (ks_in_use s) eqn:E; [done|exfalso].
  destruct (sw_idle s (wf_secy k W _ s Hs) E) as [Hf _]. by pose proof (Forall_lookup_1 _ _ _ _ Hf Hp).
Qed.
Lemma awp_in_sc i s sci f Q : at_secy k i s -> (forall rc, rc < 0 -> Q rc k) ->
  (forall j p x, at_sc k i j s p x -> kc_in_use x = true -> kc_sci x = sci -> 0 <= j < 64 -> awp (f j) Q k) ->
  awp (try_sc dev i sci f) Q k.
Proof.
  intros Hs Hfail Hf. apply (awp_try_sc dev k i s); [done|done|]. intros j Hj.
  destruct (afind_at k i s sci j W Hs Hj) as (p & x & Hsc & Hu & Hsci & Hlt). apply (Hf _ p x); try done. lia.
Qed.

Lemma awp_rx_sa_set i s port sci an pn sak ssci : at_secy k i s -> 0 <= an ->
  awp (lan80xx_macsec_rx_sa_set_ dev i port sci an pn sak ssci) (steps k) k.
Proof.
  intros Hs Han. assert (forall rc, rc < 0 -> steps k rc k) as Hneg by (intros; apply steps_refl; lia).
  unfold lan80xx_macsec_rx_sa_set_. apply (awp_in_sc i s); [done|done|].
  intros j p x Hsc Hu Hsci Hj. apply awp_hw_try; [apply hw_sci_valid|done|].
  eapply awp_quiet; [by eapply quiet_secy|]. intros s' _. cbv zeta. eapply awp_quiet; [apply quiet_macsec|]. intros c _.
  apply awp_hw_try; [|done|].
  { hw_step; apply hw_ret; [|done]. unfold lan80xx_is_ssci_valid. destruct ssci; [|done]. by case_match. }
  destruct (an >=? MEPA_MACSEC_SA_PER_SC_MAX) eqn:Ean; [by apply awp_ret, Hneg|].
  destruct (rx_sa_cases k i j s p x an W Hsc) as (v & Hv & Hr); [codes|].
  eapply awp_quiet; [eapply quiet_rx_sa_slot; done|]. intros ? <-. destruct v as [r|]; [by apply awp_dbg|].
  apply awp_record_empty; [done|done|]. intros n v Hn. cbn [snd].
  apply awp_bind. eapply awp_set_rx_sa_slot; [done|]. rewrite Nat2Z.id.
  assert (at_rx_sa (on_rx_sc p (put_sa (Z.to_nat an) (Some n)) k) i j an s p (put_sa (Z.to_nat an) (Some n) x) n (false, v)) as H1.
  { apply at_rx_sa_put; eauto. }
  set (k1 := on_rx_sc _ _ k) in *. set (x' := put_sa _ _ x) in *. clearbody x'.
  apply awp_bind. eapply (awp_upd_rx_sa dev i j an s p x' n _ _ (fun e => (fst e, Z.of_nat n))); [done..|].
  apply (at_rx_sa_on_sa _ _ _ _ _ _ _ _ _ (fun e => (fst e, Z.of_nat n))) in H1 as H2. set (k2 := on_sa _ _ _ k1) in *.
  do 4 (eapply awp_quiet; [repeat quiet_step; by eapply quiet_upd_rx_sa|intros _ _]).
  apply awp_bind. eapply (awp_upd_rx_sa dev i j an s p x' n _ _ (fun e => (true, snd e))); [done..|].
  apply (at_rx_sa_on_sa _ _ _ _ _ _ _ _ _ (fun e => (true, snd e))) in H2 as H3. cbn in H3.
  set (k3 := on_sa _ _ _ k2) in *.
  assert (k3 = on_sa false n (fun _ => (true, Z.of_nat n)) k1) as E3 by (by eapply on_sa_twice; [apply H1|]).
  assert (astep k k3) as Hstep by (rewrite E3; subst k1; eapply as_rx_sa_new; eauto; apply Hsc).
  pose proof (wf_step k k3 W Hstep) as W3. clearbody k3. clear k2 k1 H1 H2 E3.
  apply (awp_of_hw dev k3); [|intros rc Hrc; by apply steps_once]. pose proof H3 as [[Hs3 _] _].
  apply hw_uptime. intros t. eapply hw_bind; [by eapply quiet_upd_rx_sa|intros _ _].
  eapply hw_bind; [apply (quiet_pattern dev k3 i s); [done|by eapply at_secy_shape|done|done]|]. intros pat _.
  hw_step; [apply hw_xform_set; by exists s, p, x', n, (true, Z.of_nat n)|by apply hw_dbg|].
  hw_step; [eapply hw_tcam_set; [apply (wf_tags k3 W3)|done]|by apply hw_dbg|].
  hw_step; [apply hw_flow_set; by exists s, p, x', n, (true, Z.of_nat n)|by apply hw_dbg|].
  hw_step; [eapply hw_cam_set, H3|by apply hw_dbg|by apply hw_ret].
Qed.
Lemma awp_tx_sa_set i s port an pn conf sak ssci : at_secy k i s -> ks_in_use s = true -> 0 <= an ->
  awp (lan80xx_macsec_tx_sa_set_ dev i port an pn conf sak ssci) (steps k) k.
Proof.
  intros Hs Hin Han. assert (forall rc, rc < 0 -> steps k rc k) as Hneg by (intros; apply steps_refl; lia).
  unfold lan80xx_macsec_tx_sa_set_. destruct (an >=? MEPA_MACSEC_SA_PER_SC_MAX) eqn:Ean; [by apply awp_ret, Hneg|].
  eapply awp_quiet; [by eapply quiet_secy|]. intros s' Hs'.
  destruct (tsc_in_use (secy_tx_sc s')) eqn:Etx; [|by apply awp_ret, Hneg].
  assert (ks_tx_in_use s = true) as Htx by by rewrite <- Hs'. cbn [negb].
  destruct (pn_of pn <? 1); [by apply awp_ret, Hneg|]. cbv zeta. eapply awp_quiet; [apply quiet_macsec|]. intros c _.
  apply awp_hw_try; [|done|].
  { hw_step; apply hw_ret; [|done]. unfold lan80xx_is_ssci_valid. destruct ssci; [|done]. by case_match. }
  destruct (tx_sa_cases k i s an W Hs) as (v & Hv & Hr); [codes|].
  eapply awp_quiet; [eapply quiet_tx_sa_slot; done|]. intros ? <-. destruct v as [r|]; [by apply awp_dbg|].
  apply awp_record_empty; [done|done|]. intros n v Hn. cbn [snd].
  apply awp_bind. eapply awp_set_tx_sa_slot; [done|]. rewrite Nat2Z.id.
  assert (at_tx_sa (on_secy (Z.to_nat i) (put_tx_sa (Z.to_nat an) (Some n)) k) i an (put_tx_sa (Z.to_nat an) (Some n) s) n (false, v)) as H1.
  { apply at_tx_sa_put; eauto. }
  set (k1 := on_secy _ _ k) in *. set (x' := put_tx_sa _ _ s) in *. clearbody x'.
  apply awp_bind. eapply (awp_upd_tx_sa dev i an x' n _ _ (fun e => (fst e, Z.of_nat n))); [done..|].
  apply (at_tx_sa_on_sa _ _ _ _ _ _ (fun e => (fst e, Z.of_nat n))) in H1 as H2. set (k2 := on_sa _ _ _ k1) in *.
  do 5 (eapply awp_quiet; [repeat quiet_step; by eapply quiet_upd_tx_sa|intros _ _]).
  apply awp_bind. eapply (awp_upd_tx_sa dev i an x' n _ _ (fun e => (true, snd e))); [done..|].
  apply (at_tx_sa_on_sa _ _ _ _ _ _ (fun e => (true, snd e))) in H2 as H3. cbn in H3.
  set (k3 := on_sa _ _ _ k2) in *.
  assert (k3 = on_sa true n (fun _ => (true, Z.of_nat n)) k1) as E3 by (by eapply on_sa_twice; [apply H1|]).
  assert (astep k k3) as Hstep by (rewrite E3; subst k1; eapply as_tx_sa_new; eauto; apply Hs).
  pose proof (wf_step k k3 W Hstep) as W3. clearbody k3. clear k2 k1 H1 H2 E3.
  apply (awp_of_hw dev k3); [|intros rc Hrc; by apply steps_once]. pose proof H3 as [Hs3 _].
  apply hw_uptime. intros t. eapply hw_bind; [by eapply quiet_upd_tx_sa|intros _ _].
  eapply hw_bind; [apply (quiet_pattern dev k3 i x'); [done|by eapply at_secy_shape|done|done]|]. intros pat _.
  hw_step; [apply hw_xform_set; by exists x', n, (true, Z.of_nat n)|by apply hw_dbg|].
  hw_step; [apply hw_flow_set; by exists x', n, (true, Z.of_nat n)|by apply hw_dbg|].
  hw_step; [eapply hw_tcam_set; [apply (wf_tags k3 W3)|done]|by apply hw_dbg|by apply hw_ret].
Qed.

(** A pattern's place. *)
Lemma rec_cases i s a d : at_secy k i s -> 0 <= a < 3 -> 0 <= d < 3 ->
  exists v, rec_of s (Z.to_nat a) (Z.to_nat d) = Some v /\ 0 <= v.
Proof.
  intros [_ Hs] Ha Hd. destruct (sw_rec s (wf_secy k W _ s Hs)) as [Hl Hf].
  destruct (lookup_lt_is_Some_2 (ks_rec s) (Z.to_nat a)) as [row Hrow]; [lia|].
  destruct (Forall_lookup_1 _ _ _ _ Hf Hrow) as [Hl' Hf'].
  destruct (lookup_lt_is_Some_2 row (Z.to_nat d)) as [v Hv]; [lia|]. exists v. unfold rec_of. rewrite Hrow. cbn.
  split; [done|]. by apply (Forall_lookup_1 _ _ _ _ Hf' Hv).
Qed.
Lemma awp_upd_pattern_record k' i s a d v T : at_secy k' i s -> 0 <= a -> 0 <= d ->
  is_Some (rec_of s (Z.to_nat a) (Z.to_nat d)) ->
  T tt (on_secy (Z.to_nat i) (put_rec (Z.to_nat a) (Z.to_nat d) v) k') -> awp (upd_pattern_record dev i a d v) T k'.
Proof.
  intros Hs Ha Hd [v' Hv] HT. eapply awp_quiet; [by eapply quiet_pattern_record|]. intros _ _.
  by apply (awp_upd_secy dev i s _ (put_rec (Z.to_nat a) (Z.to_nat d) v)).
Qed.
End Create.

(** ** Patterns *)
Section Patterns.
Context {B : Type} {CO : Callout80 B} {HO : Host B}.
Variable dev : Z.
Notation M := (M (env80 B) phy25g_phy_state_t).
Variable k : alloc.
Hypothesis W : wf k.
Notation hw k m := (Lan80xxMacsecLogic.hw dev k (m : Machine.M (env80 B) phy25g_phy_state_t Z)).
Notation awp m Q k := (Lan80xxMacsecLogic.awp dev (m : Machine.M (env80 B) phy25g_phy_state_t _) Q k).

Definition is_egr (d : Z) : bool := d =? MEPA_MACSEC_DIRECTION_EGRESS.
Lemma dir_of d : 0 <= d < 2 -> Z.to_nat d = dir (is_egr d).
Proof. intros Hd. assert (d = 0 \/ d = 1) as [-> | ->] by lia; done. Qed.

Lemma awp_pattern_set i s port d a pat : at_secy k i s -> ks_in_use s = true -> 0 <= d < 2 -> 0 <= a < 3 ->
  awp (lan80xx_macsec_pattern_set_ dev port i d a pat) (steps k) k.
Proof.
  intros Hs Hin Hd Ha. assert (forall rc, rc < 0 -> steps k rc k) as Hneg by (intros; apply steps_refl; lia).
  unfold lan80xx_macsec_pattern_set_. fold (is_egr d). cbv zeta.
  destruct (rec_cases k W i s a d Hs Ha) as (v & Hv & Hpos); [lia|].
  eapply awp_quiet; [eapply quiet_pattern_record; (done || lia)|]. intros ? <-.
  destruct (v =? MACSEC_NOT_IN_USE) eqn:Ev; [|by apply awp_ret, Hneg]. apply Z.eqb_eq in Ev as ->. cbn [negb].
  apply awp_record_empty; [done|done|]. intros n v Hn. cbn [snd].
  case_match; [by apply awp_dbg|].
  apply awp_bind. eapply (awp_mono dev _ (fun _ k1 => k1 = on_sa (is_egr d) n (fun _ => (true, Z.of_nat n)) k)).
  { rewrite Nat2Z.id. destruct (is_egr d); [eapply (awp_modify_tx_sa dev n _ _ (fun _ => (true, Z.of_nat n)))|eapply (awp_modify_rx_sa dev n _ _ (fun _ => (true, Z.of_nat n)))]; done. }
  intros _ k1 E1. assert (at_secy k1 i s) as Hs1 by by rewrite E1.
  apply awp_bind. eapply (awp_upd_pattern_record dev k1 i s a d (Z.of_nat n)); [done|lia|lia|eauto|].
  set (k2 := on_secy _ _ k1).
  assert (astep k k2) as Hstep.
  { subst k1 k2. rewrite (dir_of d) in Hv by done. rewrite (dir_of d) by done. eapply as_pat_new; eauto. apply Hs. }
  pose proof (wf_step k k2 W Hstep) as W2. apply (at_secy_on_secy _ _ _ (put_rec (Z.to_nat a) (Z.to_nat d) (Z.of_nat n))) in Hs1 as Hs2.
  fold k2 in Hs2. clearbody k2. assert (n < 128)%nat as Hlt by (apply lookup_lt_Some in Hn; by rewrite (wf_sas k W) in Hn).
  apply (awp_of_hw dev k2); [|intros rc Hrc; by apply steps_once].
  hw_step; [eapply hw_tcam_set; [apply (wf_tags k2 W2)|done]|by apply hw_dbg|].
  hw_step; [apply hw_unctrl_drop|by apply hw_dbg|]. hw_step; [apply hw_sa_enable; lia|by apply hw_dbg|by apply hw_ret].
Qed.

Lemma awp_pattern_del i s port d a : at_secy k i s -> ks_in_use s = true -> 0 <= d < 2 -> 0 <= a < 3 ->
  awp (lan80xx_macsec_pattern_del_ dev port i d a)
    (fun rc k' => (rc < 0 /\ k' = k) \/ (rc = 0 /\ astep k k' /\ at_secy k' i (put_rec (Z.to_nat a) (Z.to_nat d) MACSEC_NOT_IN_USE s))) k.
Proof.
  intros Hs Hin Hd Ha. unfold lan80xx_macsec_pattern_del_. fold (is_egr d). cbv zeta.
  set (Q := fun rc k' => _).
  assert (forall rc, rc < 0 -> Q rc k) as Hneg by by left.
  destruct (rec_cases k W i s a d Hs Ha) as (v & Hv & Hpos); [lia|].
  eapply awp_quiet; [eapply quiet_pattern_record; (done || lia)|]. intros ? <-.
  destruct (v =? MACSEC_NOT_IN_USE) eqn:Ev; [by apply awp_dbg|].
  assert (pat_slot (is_egr d) s (Z.to_nat a) = Some (Z.to_nat v)) as Hp.
  { unfold pat_slot. rewrite Hin, <- (dir_of d), Hv by done. cbn. by rewrite Ev. }
  assert (k_sa k (is_egr d) !! Z.to_nat v = Some (true, v)) as Hr.
  { rewrite <- (Z2Nat.id v) at 2 by done. apply (record_at (is_egr d) k (inr (Z.to_nat i, Z.to_nat a))); [done|]. cbn.
    destruct Hs as [_ ->]. done. }
  assert (v < 128) as Hlt by (apply lookup_lt_Some in Hr; rewrite (wf_sas k W) in Hr; lia).
  apply awp_hw_ensure; [by apply hw_sa_enable|done|done|]. apply awp_hw_ensure; [apply hw_sa_inuse|done|done|].
  apply awp_hw_ensure; [apply hw_tcam_reset|done|done|].
  apply awp_bind. eapply (awp_mono dev _ (fun _ k1 => k1 = on_sa (is_egr d) (Z.to_nat v) (fun e => (false, snd e)) k)).
  { destruct (is_egr d).
    - eapply (awp_quiet dev (fun _ => True)); [apply quiet_look; intros c Hc; rewrite idx_nat by done|intros _ _; by eapply (awp_modify_tx_sa dev _ _ _ (fun e => (false, snd e)))].
      rewrite <- Hc in Hr. apply map_lookup in Hr as (sa & -> & _). eauto.
    - eapply (awp_quiet dev (fun _ => True)); [apply quiet_look; intros c Hc; rewrite idx_nat by done|intros _ _; by eapply (awp_modify_rx_sa dev _ _ _ (fun e => (false, snd e)))].
      rewrite <- Hc in Hr. apply map_lookup in Hr as (sa & -> & _). eauto. }
  intros _ k1 E1. assert (at_secy k1 i s) as Hs1 by by rewrite E1.
  apply awp_bind. eapply (awp_upd_pattern_record dev k1 i s a d MACSEC_NOT_IN_USE); [done|lia|lia|eauto|].
  apply (at_secy_on_secy _ _ _ (put_rec (Z.to_nat a) (Z.to_nat d) MACSEC_NOT_IN_USE)) in Hs1 as Hs2.
  set (k2 := on_secy _ _ k1) in *. assert (astep k k2) as Hstep.
  { subst k1 k2. rewrite (dir_of d) by done. eapply as_pat_del; eauto. apply Hs. }
  pose proof (wf_step k k2 W Hstep) as W2. clearbody k2.
  eapply awp_quiet; [apply (quiet_upd_pattern dev k2 i (put_rec (Z.to_nat a) (Z.to_nat d) MACSEC_NOT_IN_USE s)); [done|by eapply at_secy_shape|lia|lia]|].
  intros _ _. apply awp_ret. by right.
Qed.
End Patterns.

Lemma at_tx_sa_on_secy k i an s r e f : at_tx_sa k i an s r e -> ks_tx_sa (f s) = ks_tx_sa s ->
  at_tx_sa (on_secy (Z.to_nat i) f k) i an (f s) r e.
Proof.
  intros (Hs & Han & Hr & He) Hf. split; [by apply at_secy_on_secy|]. split; [done|]. split; [by rewrite Hf|done].
Qed.

(** ** Removing associations *)
Section Remove.
Context {B : Type} {CO : Callout80 B} {HO : Host B}.
Variable dev : Z.
Notation M := (M (env80 B) phy25g_phy_state_t).
Implicit Types k : alloc.
Notation quiet k P m := (quiet dev k P (m : Machine.M (env80 B) phy25g_phy_state_t _)).
Notation hw k m := (Lan80xxMacsecLogic.hw dev k (m : Machine.M (env80 B) phy25g_phy_state_t Z)).
Notation awp m Q k := (Lan80xxMacsecLogic.awp dev (m : Machine.M (env80 B) phy25g_phy_state_t _) Q k).

Lemma awp_this_sc k i j s p x f Q : wf k -> at_sc k i j s p x -> awp (f j) Q k -> awp (try_sc dev i (kc_sci x) f) Q k.
Proof.
  intros W Hsc Hf. pose proof Hsc as (Hs & Hj & Hp & Hx).
  destruct (afind_own k (Z.to_nat i) s (Z.to_nat j) p x W (proj2 Hs) Hp Hx) as [E _].
  apply awp_bind, (quiet_sc_from_sci dev k i s _ Hs). intros r Hr. rewrite E in Hr. subst r. cbn.
  by rewrite Z2Nat.id.
Qed.
(** A function of a channel of the SecY, from what it does to a channel. *)
Lemma awp_sci k i s sci f Q : wf k -> at_secy k i s -> (forall rc, rc < 0 -> Q rc k) ->
  (forall j p x, at_sc k i j s p x -> sci = kc_sci x -> awp (try_sc dev i sci f) Q k) -> awp (try_sc dev i sci f) Q k.
Proof.
  intros W Hs Hfail Hf. destruct (afind k s sci) as [j|] eqn:E.
  - destruct (afind_at k i s sci j W Hs E) as (p & x & Hsc & _ & <- & _). by eapply Hf.
  - apply (awp_try_sc dev k i s); [done|done|]. intros j. by rewrite E.
Qed.

(** What the removal of the association [an] of a channel does. *)
Definition rx_sa_gone k i j s p x an (rc : Z) k' : Prop :=
  (rc < 0 /\ k' = k) \/ (rc <= 0 /\ astep k k' /\ at_sc k' i j s p (put_sa (Z.to_nat an) None x)).
Lemma awp_rx_sa_del k i j s p x port an : wf k -> at_sc k i j s p x -> 0 <= an ->
  awp (lan80xx_macsec_rx_sa_del_ dev i port (kc_sci x) an) (rx_sa_gone k i j s p x an) k.
Proof.
  intros W Hsc Han. set (Q := rx_sa_gone k i j s p x an).
  assert (forall rc, rc < 0 -> Q rc k) as Hneg by by left.
  unfold lan80xx_macsec_rx_sa_del_. destruct (an >=? MEPA_MACSEC_SA_PER_SC_MAX) eqn:Ean; [by apply awp_ret, Hneg|].
  eapply awp_this_sc; [done|done|].
  destruct (rx_sa_cases k i j s p x an W Hsc) as (v & Hv & Hr); [codes|].
  eapply awp_quiet; [by eapply quiet_rx_sa_slot|]. intros ? <-. destruct v as [r|]; [|by apply awp_ret, Hneg].
  destruct (Hr r eq_refl) as [Hsa Hlt]. clear Hr.
  eapply awp_quiet; [by eapply quiet_rx_sc|]. intros x' Hx'. eapply awp_quiet; [by eapply quiet_rx_sa|]. intros sa [= _ ->].
  cbv zeta. apply awp_hw_ensure; [apply hw_sa_inuse|done|done|]. apply awp_hw_ensure; [apply hw_sa_sam_in_flight|done|done|].
  apply awp_hw_ensure; [apply hw_sa_enable; lia|done|done|].
  eapply awp_quiet; [eapply (quiet_rx_sa_counters dev k W i s); [apply Hsc|codes]|]. intros cnt _.
  eapply (awp_quiet dev (fun _ => True)); [repeat quiet_step|intros _ _].
  eapply awp_quiet; [by eapply quiet_other_rx_sa|]. intros b _.
  eapply (awp_quiet dev (fun _ => True)); [repeat quiet_step|intros _ _].
  pose proof Hsa as (_ & _ & _ & He). eapply (awp_quiet dev (fun _ => True)).
  { apply quiet_look. intros c Hc. rewrite idx_nat, Nat2Z.id by lia. rewrite <- Hc in He. apply map_lookup in He as (sa' & -> & _). eauto. }
  intros _ _. rewrite Nat2Z.id. apply awp_bind. eapply (awp_modify_rx_sa dev r _ _ (fun _ => (false, 0))); [done|done|].
  apply awp_bind. eapply awp_set_rx_sa_slot; [exact Hsc|]. apply (at_sc_on_rx_sc _ _ _ _ _ _ (put_sa (Z.to_nat an) None)) in Hsc as H2.
  assert (astep k (on_rx_sc p (put_sa (Z.to_nat an) None) (on_sa false r (fun _ => (false, 0)) k))) as Hstep.
  { eapply as_rx_sa_del; [apply Hsc|apply Hsa]. }
  apply awp_of_hw; [|intros rc Hrc; by right].
  hw_step; [apply hw_tcam_reset|by apply hw_dbg|]. hw_step; [apply hw_xform_reset|by apply hw_dbg|by apply hw_ret].
Qed.

(** The same for the transmit channel. *)
Definition tx_sa_gone k i s an (rc : Z) k' : Prop :=
  (rc < 0 /\ k' = k) \/ (rc <= 0 /\ astep k k' /\ at_secy k' i (put_tx_sa (Z.to_nat an) None s)).
Lemma awp_tx_sa_del k i s port an : wf k -> at_secy k i s -> 0 <= an ->
  awp (lan80xx_macsec_tx_sa_del_ dev i port an) (tx_sa_gone k i s an) k.
Proof.
  intros W Hs Han. set (Q := tx_sa_gone k i s an).
  assert (forall rc, rc < 0 -> Q rc k) as Hneg by by left.
  unfold lan80xx_macsec_tx_sa_del_. destruct (an >=? MEPA_MACSEC_SA_PER_SC_MAX) eqn:Ean; [by apply awp_ret, Hneg|].
  destruct (tx_sa_cases k i s an W Hs) as (v & Hv & Hr); [codes|].
  eapply awp_quiet; [by eapply quiet_tx_sa_slot|]. intros ? <-. destruct v as [r|]; [|by apply awp_ret, Hneg].
  destruct (Hr r eq_refl) as [Hsa Hlt]. clear Hr. eapply awp_quiet; [by eapply quiet_tx_sa|]. intros sa [= _ ->].
  cbv zeta. apply awp_hw_ensure; [apply hw_sa_enable; lia|done|done|].
  eapply awp_quiet; [apply hw_sa_sam_in_flight|]. intros rc _.
  eapply (awp_quiet dev (fun _ => True)); [repeat quiet_step|intros _ _].
  eapply awp_quiet; [by eapply (quiet_tx_sa_counters dev k W i s)|]. intros cnt _.
  eapply (awp_quiet dev (fun _ => True)); [repeat quiet_step|intros _ _].
  eapply awp_quiet; [by eapply quiet_other_tx_sa|]. intros b _.
  eapply (awp_quiet dev (fun _ => True)); [repeat quiet_step|intros _ _].
  pose proof Hsa as (_ & _ & _ & He). eapply (awp_quiet dev (fun _ => True)).
  { apply quiet_look. intros c Hc. rewrite idx_nat, Nat2Z.id by lia. rewrite <- Hc in He. apply map_lookup in He as (sa' & -> & _). eauto. }
  intros _ _. rewrite Nat2Z.id. apply awp_bind. eapply (awp_modify_tx_sa dev r _ _ (fun _ => (false, 0))); [done|done|].
  apply awp_bind. eapply awp_set_tx_sa_slot; [exact Hs|].
  set (k2 := on_secy _ _ _). assert (at_secy k2 i (put_tx_sa (Z.to_nat an) None s)) as H2 by by apply at_secy_on_secy.
  assert (astep k k2) as Hstep by (eapply as_tx_sa_del; [apply Hs|apply Hsa]).
  assert (on_secy (Z.to_nat i) (put_tx_sa (Z.to_nat an) None) k2 = k2) as Hidem.
  { eapply on_secy_twice; [apply Hs|]. unfold put_tx_sa, set_ks_tx. cbn. f_equal. by eapply alter_twice. }
  clearbody k2. assert (forall rc, rc <= 0 -> Q rc k2) as Hpos by by right.
  apply awp_hw_ensure; [apply hw_tcam_reset|done|intros; apply Hpos; lia|].
  apply awp_hw_ensure; [apply hw_xform_reset|done|intros; apply Hpos; lia|].
  apply awp_bind. eapply awp_set_tx_sa_slot; [done|]. rewrite Hidem. by apply awp_ret, Hpos.
Qed.

(** The association that the channel encodes with. *)
Definition with_enc e s := set_ks_tx (ks_tx_in_use s) (ks_tx_sa s) e s.
Lemma with_enc_same s : with_enc (ks_enc s) s = s.
Proof. by destruct s. Qed.
Definition tx_disabled k i s (rc : Z) k' : Prop :=
  (rc < 0 /\ k' = k) \/ (rc = 0 /\ rtc astep k k' /\ exists e, at_secy k' i (with_enc e s)).
Lemma awp_tx_sa_disable k i s port an : wf k -> at_secy k i s -> 0 <= an ->
  awp (lan80xx_macsec_tx_sa_disable_ dev i port an) (tx_disabled k i s) k.
Proof.
  intros W Hs Han. set (Q := tx_disabled k i s). assert (forall rc, rc < 0 -> Q rc k) as Hneg by by left.
  unfold lan80xx_macsec_tx_sa_disable_. destruct (an >=? MEPA_MACSEC_SA_PER_SC_MAX) eqn:Ean; [by apply awp_ret, Hneg|].
  destruct (tx_sa_cases k i s an W Hs) as (v & Hv & Hr); [codes|].
  eapply awp_quiet; [by eapply quiet_tx_sa_slot|]. intros ? <-. destruct v as [r|]; [|by apply awp_dbg].
  destruct (Hr r eq_refl) as [Hsa Hlt]. clear Hr. eapply awp_quiet; [by eapply quiet_tx_sa|]. intros sa [= _ Hrec].
  eapply awp_quiet; [by eapply quiet_secy|]. intros s' _. cbv zeta.
  apply awp_hw_ensure; [apply hw_sa_enable; lia|done|done|].
  apply awp_hw_ensure; [hw_step; [apply hw_sa_inuse|by apply hw_ret]|done|done|].
  apply awp_hw_ensure; [hw_step; [apply hw_sam_entry_ctrl|by apply hw_ret]|done|done|].
  match goal with |- awp (bind _ ?t) _ _ =>
    assert (forall k1 s1, at_tx_sa k1 i an s1 r (true, Z.of_nat r) -> quiet k1 (eq 0) (t tt)) as Htail
  end.
  { intros k1 s1 H1. repeat quiet_step. }
  apply awp_bind. case_match.
  - eapply (awp_upd_tx_sc dev i s _ (with_enc 0)); [done|done|]. eapply Htail; [by apply at_tx_sa_on_secy|]. intros ? <-. right.
    split; [done|]. split; [|exists 0; by apply at_secy_on_secy]. apply rtc_once. eapply as_encoding; [apply Hs|lia].
  - apply awp_ret. eapply Htail; [done|]. intros ? <-. right. split; [done|]. split; [done|]. exists (ks_enc s). by rewrite with_enc_same.
Qed.
Lemma awp_tx_sa_activate k i s port an : wf k -> at_secy k i s -> 0 <= an ->
  awp (lan80xx_macsec_tx_sa_activate_ dev i port an) (steps k) k.
Proof.
  intros W Hs Han. set (Q := steps k). assert (forall rc, rc < 0 -> Q rc k) as Hneg by (intros; apply steps_refl; lia).
  unfold lan80xx_macsec_tx_sa_activate_. destruct (an >=? MEPA_MACSEC_SA_PER_SC_MAX) eqn:Ean; [by apply awp_ret, Hneg|].
  destruct (tx_sa_cases k i s an W Hs) as (v & Hv & Hr); [codes|].
  eapply awp_quiet; [by eapply quiet_tx_sa_slot|]. intros ? <-. destruct v as [r|]; [|by apply awp_ret, Hneg].
  destruct (Hr r eq_refl) as [Hsa Hlt]. clear Hr. eapply awp_quiet; [by eapply quiet_tx_sa|]. intros sa [= _ Hrec].
  case_match; [by apply awp_ret, Hneg|]. eapply awp_quiet; [by eapply quiet_secy|]. intros s' Hs'. cbv zeta.
  assert (tcs_encoding_sa (tsc_status (secy_tx_sc s')) = ks_enc s) as -> by by rewrite <- Hs'.
  pose proof (sw_enc s (wf_secy k W _ s (proj2 Hs))) as Henc.
  destruct (tx_sa_cases k i s (ks_enc s) W Hs Henc) as (v & Hv' & Hr).
  eapply awp_quiet; [eapply quiet_tx_sa_slot; (done || lia)|]. intros ? <-.
  eapply (awp_quiet dev (fun b => b = true -> exists r, at_tx_sa k i (ks_enc s) s r (true, Z.of_nat r) /\ (r < 128)%nat)).
  { destruct v as [r'|]; [|by apply quiet_ret]. destruct (Hr r' eq_refl) as [Hsa' Hlt'].
    eapply quiet_bind; [by eapply quiet_tx_sa|]. intros o _. apply quiet_ret. eauto. }
  intros b Hb. apply awp_hw_ensure; [hw_step; apply hw_sa_inuse|done|done|].
  apply awp_hw_ensure; [apply hw_sa_sam_in_flight|done|done|]. apply awp_hw_ensure; [apply hw_sa_enable; lia|done|done|].
  apply awp_hw_ensure; [|done|done|].
  { hw_step; [|by apply hw_ret]. destruct (Hb (proj1 (andb_prop _ _ H0))) as (r' & Hsa' & Hlt').
    eapply hw_bind; [by eapply quiet_tx_sa|]. intros o [= _ Ho]. apply hw_sa_enable. lia. }
  eapply (awp_quiet dev (fun _ => True)).
  { apply quiet_if; [|by intros; apply quiet_ret]. intros E. destruct (Hb (proj1 (andb_prop _ _ E))) as (r' & Hsa' & Hlt').
    repeat quiet_step. }
  intros b' _. eapply awp_quiet; [apply quiet_uptime|]. intros t _.
  do 3 (eapply awp_quiet; [by eapply quiet_upd_tx_sa|intros _ _]). eapply awp_quiet; [by eapply quiet_other_tx_sa|]. intros o _.
  eapply (awp_quiet dev (fun _ => True)); [repeat quiet_step|intros _ _].
  apply awp_bind. eapply (awp_upd_tx_sc dev i s _ (with_enc an)); [done|done|].
  apply awp_of_hw; [|intros rc Hrc; apply steps_once; [done|eapply as_encoding; [apply Hs|codes]]].
  pose proof (at_secy_on_secy k i s (with_enc an) Hs). unfold hw. repeat quiet_step.
Qed.
End Remove.

(** ** Channels *)
Section Channels.
Context {B : Type} {CO : Callout80 B} {HO : Host B}.
Variable dev : Z.
Notation M := (M (env80 B) phy25g_phy_state_t).
Implicit Types (k : alloc) (I : Z -> alloc -> Prop).
Notation quiet k P m := (quiet dev k P (m : Machine.M (env80 B) phy25g_phy_state_t _)).
Notation hw k m := (Lan80xxMacsecLogic.hw dev k (m : Machine.M (env80 B) phy25g_phy_state_t Z)).
Notation awp m Q k := (Lan80xxMacsecLogic.awp dev (m : Machine.M (env80 B) phy25g_phy_state_t _) Q k).

(** Loops, with an invariant. *)
Lemma awp_for_ok I f a n m Q k : I a k ->
  (forall j k, a <= j < a + Z.of_nat n -> I j k -> awp (f j) (fun rc k' => (rc <> 0 -> Q rc k') /\ (rc = 0 -> I (j + 1) k')) k) ->
  (forall k, I (a + Z.of_nat n) k -> awp m Q k) -> awp (for_ok f a n m) Q k.
Proof.
  revert a k. induction n as [|n IH]; intros a k Ha Hf Hm; cbn [for_ok]; [apply Hm; by rewrite Z.add_0_r|].
  eapply (awp_call_or dev); [apply Hf; [lia|done]| |].
  - intros rc k' [H1 _] Hrc. by apply H1.
  - intros k' [_ H2]. apply IH; [by apply H2| |].
    + intros j k1 Hj. apply Hf. lia.
    + intros k1. replace (a + 1 + Z.of_nat n) with (a + Z.of_nat (S n)) by lia. apply Hm.
Qed.
Lemma awp_for_rc I f a n m Q k : I a k ->
  (forall j k, a <= j < a + Z.of_nat n -> I j k -> awp (f j) (fun rc k' => (rc < 0 -> Q rc k') /\ (0 <= rc -> I (j + 1) k')) k) ->
  (forall k, I (a + Z.of_nat n) k -> awp m Q k) -> awp (for_rc f a n m) Q k.
Proof.
  revert a k. induction n as [|n IH]; intros a k Ha Hf Hm; cbn [for_rc]; [apply Hm; by rewrite Z.add_0_r|].
  eapply (awp_call_try dev); [apply Hf; [lia|done]| |].
  - intros rc k' [H1 _] Hrc. by apply H1.
  - intros rc k' [_ H2] Hrc. apply IH; [by apply H2| |].
    + intros j k1 Hj. apply Hf. lia.
    + intros k1. replace (a + 1 + Z.of_nat n) with (a + Z.of_nat (S n)) by lia. apply Hm.
Qed.

(** An association of a channel goes. *)
Definition with_sa x sa := RxScK (kc_in_use x) (kc_sci x) sa (kc_hw x).
Lemma with_sa_same x : with_sa x (kc_sa x) = x.
Proof. by destruct x. Qed.
Lemma awp_rx_sa_drop k i j s p x port an (b : bool) Q : wf k -> at_sc k i j s p x -> 0 <= an ->
  (forall rc k', rc < 0 -> rtc astep k k' -> Q rc k') ->
  (forall k', rtc astep k k' -> at_sc k' i j s p (put_sa (Z.to_nat an) None x) -> Q 0 k') ->
  awp (ensure (if b then lan80xx_macsec_rx_sa_disable_ dev i port (kc_sci x) an else ret MEPA_RC_OK)
         else dbg_counter_incr dev (mp_port_no port) MEPA_RC_ERR_MACSEC_COULD_NOT_DISABLE_SA ;;
       ensure lan80xx_macsec_rx_sa_del_ dev i port (kc_sci x) an
         else dbg_counter_incr dev (mp_port_no port) MEPA_RC_ERR_MACSEC_COULD_NOT_DEL_RX_SA ;;
       ret MEPA_RC_OK) Q k.
Proof.
  intros W Hsc Han Hfail Hok. assert (forall rc, rc < 0 -> Q rc k) as Hneg by (intros; by apply Hfail).
  apply awp_hw_ensure; [destruct b; [by apply (hw_rx_sa_disable dev k W i s); [apply Hsc|]|by apply hw_ret]|done|done|].
  eapply awp_call_ensure; [by apply awp_rx_sa_del|done|..].
  - intros rc rc' k' [[Hrc ->]|(Hrc & Hstep & _)] Hn Hneg'; apply Hfail; [done|done|done|by apply rtc_once].
  - intros k' [[Hrc _]|(_ & Hstep & Hsc')]; [lia|]. apply awp_ret, Hok; [by apply rtc_once|done].
Qed.
(** The places of a channel that are empty. *)
Definition empty_below {A} (l : list (option A)) (n : Z) : Prop := forall a, (a < Z.to_nat n)%nat -> l !! a = Some None.
Lemma empty_below_next {A} (l : list (option A)) n : 0 <= n -> empty_below l n -> l !! Z.to_nat n = Some None -> empty_below l (n + 1).
Proof.
  intros Hn Hl Hv a Ha. destruct (decide (a = Z.to_nat n)) as [->|Hne]; [done|]. apply Hl. lia.
Qed.
Lemma empty_below_put {A} (l : list (option A)) n : 0 <= n -> is_Some (l !! Z.to_nat n) -> empty_below l n ->
  empty_below (alter (fun _ => None) (Z.to_nat n) l) (n + 1).
Proof.
  intros Hn [v Hv] Hl a Ha. rewrite list_lookup_alter. case_decide as E; [subst a; by rewrite Hv|]. apply Hl. lia.
Qed.
Lemma empty_all {A} (l : list (option A)) : empty_below l (Z.of_nat (length l)) -> Forall (eq None) l.
Proof.
  intros Hl. apply Forall_lookup_2. intros a v Hv. pose proof (lookup_lt_Some _ _ _ Hv). rewrite Hl in Hv by lia. congruence.
Qed.

(** All associations of a channel go: before the channel does, and when its
    configuration changes. *)
Definition rx_sas_inv k i j s p x (an : Z) k' : Prop :=
  rtc astep k k' /\ exists sa, at_sc k' i j s p (with_sa x sa) /\ empty_below sa an.
Lemma rx_sas_next k i j s p x an (b : bool) port Q k1 sa r :
  wf k -> rtc astep k k1 -> at_sc k1 i j s p (with_sa x sa) -> empty_below sa an -> 0 <= an < 4 ->
  sa !! Z.to_nat an = Some (Some r) -> (forall rc k', rc < 0 -> rtc astep k k' -> Q rc k') ->
  awp (ensure (if b then lan80xx_macsec_rx_sa_disable_ dev i port (kc_sci x) an else ret MEPA_RC_OK)
         else dbg_counter_incr dev (mp_port_no port) MEPA_RC_ERR_MACSEC_COULD_NOT_DISABLE_SA ;;
       ensure lan80xx_macsec_rx_sa_del_ dev i port (kc_sci x) an
         else dbg_counter_incr dev (mp_port_no port) MEPA_RC_ERR_MACSEC_COULD_NOT_DEL_RX_SA ;;
       ret MEPA_RC_OK) (fun rc k' => (rc <> 0 -> Q rc k') /\ (rc = 0 -> rx_sas_inv k i j s p x (an + 1) k')) k1.
Proof.
  intros W Hk1 Hsc He Han Hr Hfail. pose proof (wf_steps k k1 W Hk1) as W1.
  apply (awp_rx_sa_drop k1 i j s p (with_sa x sa)); [done|done|lia|..].
  - intros rc k' Hrc Hk'. split; [|lia]. intros _. apply Hfail; [done|by etrans].
  - intros k' Hk' Hsc'. split; [done|]. intros _. split; [by etrans|].
    exists (alter (fun _ => None) (Z.to_nat an) sa). split; [done|]. apply empty_below_put; [lia|by rewrite Hr|done].
Qed.
Lemma rx_sas_start k i j s p x : at_sc k i j s p x -> rx_sas_inv k i j s p x 0 k.
Proof. intros Hsc. split; [done|]. exists (kc_sa x). split; [by rewrite with_sa_same|]. intros a Ha. lia. Qed.

Lemma awp_rx_sas_del k i j s p x port (m : M Z) Q : wf k -> at_sc k i j s p x ->
  (forall rc k', rc < 0 -> rtc astep k k' -> Q rc k') ->
  (forall k', rtc astep k k' -> at_secy k' i s -> awp m Q k') -> awp (rx_sas_del dev port i j m) Q k.
Proof.
  intros W Hsc Hfail Hok. apply (awp_for_ok (rx_sas_inv k i j s p x)).
  - by apply rx_sas_start.
  - intros an k1 Han (Hk1 & sa & Hsc1 & He). change (Z.to_nat MEPA_MACSEC_SA_PER_SC) with 4%nat in Han.
    pose proof (wf_steps k k1 W Hk1) as W1.
    destruct (rx_sa_cases k1 i j s p (with_sa x sa) an W1 Hsc1) as (v & Hv & Hr); [lia|].
    eapply awp_quiet; [eapply quiet_rx_sa_slot; [done|lia|done]|]. intros ? <-. destruct v as [r|].
    + destruct (Hr r eq_refl) as [Hsa _].
      eapply awp_quiet; [by eapply quiet_rx_sc|]. intros x' Hx'. eapply awp_quiet; [by eapply quiet_rx_sa|]. intros e _.
      assert (rsc_sci x' = kc_sci x) as -> by (change (kc_sci (rx_sc_skel x') = kc_sci x); by rewrite Hx').
      by eapply rx_sas_next.
    + apply awp_ret. split; [done|]. intros _. split; [done|]. exists sa. split; [done|]. apply empty_below_next; [lia|done|done].
  - intros k' (Hk' & sa & [Hs' _] & _). by apply Hok.
Qed.

(** A channel goes. *)
Lemma awp_rx_sc_del k i j s p x port : wf k -> at_sc k i j s p x ->
  awp (lan80xx_macsec_rx_sc_del_ dev port (kc_sci x) i)
    (fun rc k' => rc <= 0 /\ rtc astep k k' /\ (rc = 0 -> at_secy k' i (put_rx_sc (Z.to_nat j) None s))) k.
Proof.
  intros W Hsc. unfold lan80xx_macsec_rx_sc_del_. eapply awp_this_sc; [done|done|].
  set (Q := fun rc k' => _).
  assert (forall rc k', rc < 0 -> rtc astep k k' -> Q rc k') as Hfail by (intros; split; [lia|split; [done|lia]]).
  apply (awp_for_ok (rx_sas_inv k i j s p x)).
  - by apply rx_sas_start.
  - intros an k1 Han (Hk1 & sa & Hsc1 & He). change (Z.to_nat MEPA_MACSEC_SA_PER_SC) with 4%nat in Han.
    pose proof (wf_steps k k1 W Hk1) as W1.
    destruct (rx_sa_cases k1 i j s p (with_sa x sa) an W1 Hsc1) as (v & Hv & Hr); [lia|].
    eapply awp_quiet; [eapply quiet_rx_sa_slot; [done|lia|done]|]. intros ? <-. destruct v as [r|].
    + destruct (Hr r eq_refl) as [Hsa _]. eapply awp_quiet; [by eapply quiet_rx_sa|]. intros e _. by eapply rx_sas_next.
    + apply awp_ret. split; [done|]. intros _. split; [done|]. exists sa. split; [done|]. apply empty_below_next; [lia|done|done].
  - intros k1 (Hk1 & sa & Hsc1 & He). change (Z.to_nat MEPA_MACSEC_SA_PER_SC) with 4%nat in He.
    pose proof (wf_steps k k1 W Hk1) as W1. set (x1 := with_sa x sa) in *.
    pose proof Hsc1 as (Hs1 & Hj & Hp & Hx1). pose proof (wf_rx_sc k1 W1 p x1 Hx1) as [Hlen _ Hhw].
    eapply awp_quiet; [by eapply quiet_rx_sc|]. intros r Hr.
    assert (rsc_hw_sc_idx r = kc_hw x1) as -> by (change (kc_hw (rx_sc_skel r) = kc_hw x1); by rewrite Hr).
    apply awp_hw_or; [apply hw_CSR_WR|intros; by apply Hfail|].
    rewrite (proj2 (Z.ltb_lt _ _)) by lia. apply awp_bind.
    eapply (awp_modify dev _ (fun _ k2 => awp _ Q k2)). intros c Hc.
    change (skel (set_mc_rx_sc_hw_idx_in_use (mc_rx_sc_hw_idx_in_use c .& .~ (1 .<< kc_hw x1)) c))
      with (set_k_hw (k_hw (skel c) .& .~ (1 .<< kc_hw x1)) (skel c)). rewrite Hc.
    apply awp_bind. eapply (awp_upd_rx_sc dev i j s p x1 _ (fun _ => rx_sc_k_0)); [done|done|].
    apply awp_bind. eapply (awp_upd_secy dev i s _ (put_rx_sc (Z.to_nat j) None)); [done|done|].
    set (k2 := on_secy _ _ _).
    assert (at_secy k2 i (put_rx_sc (Z.to_nat j) None s)) as Hs2 by by apply at_secy_on_secy.
    assert (astep k1 k2) as Hstep.
    { eapply as_rx_sc_del; [apply Hs1|done|done|]. apply empty_all. by rewrite Hlen. }
    assert (rtc astep k k2) as Hk2 by (etrans; [done|by apply rtc_once]). clearbody k2.
    apply awp_hw_try; [apply hw_update_glb_validate|intros; by apply Hfail|]. by apply awp_ret.
Qed.
End Channels.

(** ** New channels *)
Section NewChannels.
Context {B : Type} {CO : Callout80 B} {HO : Host B}.
Variable dev : Z.
Notation M := (M (env80 B) phy25g_phy_state_t).
Implicit Types (k : alloc).
Notation quiet k P m := (quiet dev k P (m : Machine.M (env80 B) phy25g_phy_state_t _)).
Notation hw k m := (Lan80xxMacsecLogic.hw dev k (m : Machine.M (env80 B) phy25g_phy_state_t Z)).
Notation awp m Q k := (Lan80xxMacsecLogic.awp dev (m : Machine.M (env80 B) phy25g_phy_state_t _) Q k).

Lemma awp_rx_sc_add k i s port sci : wf k -> at_secy k i s -> ks_in_use s = true ->
  awp (lan80xx_macsec_rx_sc_add_ dev port sci i) (steps k) k.
Proof.
  intros W Hs Hin. assert (forall rc, rc < 0 -> steps k rc k) as Hneg by (intros; apply steps_refl; lia).
  eapply awp_quiet; [apply quiet_macsec|]. intros c Hc. case_match; [by apply awp_dbg|].
  apply awp_hw_try; [apply hw_sci_valid|done|].
  destruct (existsb _ _) eqn:Eex; [by apply awp_dbg|].
  assert (forall q y, k_rx_sc k !! q = Some y -> kc_sci y <> sci) as Hnew.
  { intros q y Hq <-. pose proof (lookup_lt_Some _ _ _ Hq) as Hlt. rewrite (wf_rx_scs k W) in Hlt.
    rewrite <- Hc in Hq. apply map_lookup in Hq as (r & Hr & Hry).
    assert (existsb (fun r => lan80xx_sci_cmp (kc_sci y) (rsc_sci r)) (take CAP_MAX_SC (mc_rx_sc c)) = true) as Ht; [|congruence].
    apply existsb_exists. exists r. split.
    - apply list_elem_of_In, list_elem_of_lookup. exists q. by rewrite lookup_take_lt.
    - rewrite <- Hry. unfold lan80xx_sci_cmp. by apply bool_decide_eq_true. }
  eapply awp_quiet; [by eapply quiet_secy|]. intros s' Hs'. cbv zeta.
  destruct (first_below CAP_MAX_SC (fun sc => match secy_rx_sc s' !! sc with Some None => true | _ => false end)) as [j|] eqn:Ej;
    [|by apply awp_dbg].
  destruct (first_below CAP_MAX_SC (fun sc => match mc_rx_sc c !! sc with Some r => _ | None => false end)) as [p|] eqn:Ep;
    [|by apply awp_dbg].
  destruct (first_below (Z.to_nat LAN80XX_MACSEC_MAX_RX_SC) _) as [h|] eqn:Eh; [|by apply awp_dbg].
  apply first_below_some in Ej as [Hj Ej], Ep as [Hp Ep], Eh as [Hh Eh].
  assert (ks_rx_sc s !! j = Some None) as Hsj.
  { rewrite <- Hs'. cbn. by destruct (secy_rx_sc s' !! j) as [[]|]. }
  destruct (mc_rx_sc c !! p) as [r|] eqn:Er; [|done]. apply negb_true_iff in Ep, Eh.
  assert (k_rx_sc k !! p = Some (rx_sc_skel r)) as Hkp by (rewrite <- Hc; cbn; by rewrite list_lookup_fmap, Er).
  set (x := rx_sc_skel r) in *. assert (Z.testbit (k_hw k) (Z.of_nat h) = false) as Hbit by (by rewrite <- Hc).
  apply awp_bind, (awp_modify dev _ (fun _ k2 => awp _ (steps k) k2)). intros c' Hc'.
  change (skel (set_mc_rx_sc_hw_idx_in_use (mc_rx_sc_hw_idx_in_use c' .| (1 .<< Z.of_nat h)) c'))
    with (set_k_hw (k_hw (skel c') .| (1 .<< Z.of_nat h)) (skel c')). rewrite Hc'.
  set (k1 := set_k_hw _ k). assert (at_secy k1 i s) as Hs1 by done.
  apply awp_bind. eapply (awp_upd_secy dev i s _ (put_rx_sc j (Some p))); [done|intros; unfold secy_skel, upd_idx; cbn; by rewrite Nat2Z.id|].
  set (k2 := on_secy _ _ k1). assert (at_sc k2 i (Z.of_nat j) (put_rx_sc j (Some p) s) p x) as H2.
  { split; [by apply at_secy_on_secy|]. split; [lia|]. split; [|done]. cbn.
    by rewrite Nat2Z.id, list_lookup_alter, decide_True, Hsj by done. }
  apply awp_bind. eapply (awp_upd_rx_sc dev i _ _ p x _ (fun x => RxScK (kc_in_use x) sci (kc_sa x) (kc_hw x))); [done|done|].
  apply (at_sc_on_rx_sc _ _ _ _ _ _ (fun x => RxScK (kc_in_use x) sci (kc_sa x) (kc_hw x))) in H2 as H3.
  set (k3 := on_rx_sc _ _ k2) in *.
  eapply awp_quiet; [by eapply quiet_upd_rx_sc|intros _ _]. eapply awp_quiet; [apply quiet_uptime|intros t _].
  eapply awp_quiet; [by eapply quiet_upd_rx_sc|intros _ _].
  apply awp_bind. eapply (awp_upd_rx_sc dev i _ _ p _ _ (fun x => RxScK true (kc_sci x) (kc_sa x) (kc_hw x))); [done|done|].
  apply (at_sc_on_rx_sc _ _ _ _ _ _ (fun x => RxScK true (kc_sci x) (kc_sa x) (kc_hw x))) in H3 as H4.
  set (k4 := on_rx_sc _ _ k3) in *.
  apply awp_bind. eapply (awp_upd_rx_sc dev i _ _ p _ _ (fun x => RxScK (kc_in_use x) (kc_sci x) (kc_sa x) (Z.of_nat h))); [done|done|].
  apply awp_ret, steps_once; [done|]. unfold k4.
  erewrite (on_rx_sc_twice k3 p _ _ _ (fun x => RxScK true (kc_sci x) (kc_sa x) (Z.of_nat h))); [|apply H3|reflexivity]. unfold k3.
  erewrite (on_rx_sc_twice k2 p x _ _ (fun x => RxScK true sci (kc_sa x) (Z.of_nat h))); [|apply H2|reflexivity].
  eapply as_rx_sc_new; [apply Hs|done|done|done|done|done|done|done].
Qed.

Lemma awp_tx_sc_set k i s : wf k -> at_secy k i s -> ks_in_use s = true -> awp (lan80xx_macsec_tx_sc_set_ dev i) (steps k) k.
Proof.
  intros W Hs Hin. eapply awp_quiet; [by eapply quiet_secy|]. intros s' _.
  apply awp_hw_try; [apply hw_sci_valid|intros; apply steps_refl; lia|].
  eapply awp_quiet; [apply quiet_uptime|intros t _]. eapply awp_quiet; [by eapply quiet_upd_tx_sc|intros _ _].
  eapply awp_quiet; [apply quiet_uptime|intros t' _]. do 2 (eapply awp_quiet; [by eapply quiet_upd_tx_sc|intros _ _]).
  apply awp_bind. eapply (awp_upd_tx_sc dev i s _ (fun s => set_ks_tx true (ks_tx_sa s) (ks_enc s) s)); [done|done|].
  apply awp_of_hw; [|intros rc Hrc; apply steps_once; [done|eapply as_tx_sc_set; [apply Hs|done]]].
  pose proof (at_secy_on_secy k i s (fun s => set_ks_tx true (ks_tx_sa s) (ks_enc s) s) Hs). unfold hw. repeat quiet_step.
Qed.

(** The associations of the transmit channel go. *)
Definition tx_sas_inv k i s (an : Z) k' : Prop :=
  rtc astep k k' /\ exists sa e, at_secy k' i (set_ks_tx (ks_tx_in_use s) sa e s) /\ empty_below sa an.
Lemma awp_tx_sas_del k i s port (m : M Z) Q : wf k -> at_secy k i s ->
  (forall rc k', rc < 0 -> rtc astep k k' -> Q rc k') ->
  (forall k' sa e, rtc astep k k' -> at_secy k' i (set_ks_tx (ks_tx_in_use s) sa e s) -> Forall (eq None) sa -> awp m Q k') ->
  awp (tx_sas_del dev port i m) Q k.
Proof.
  intros W Hs Hfail Hok. apply (awp_for_ok dev (tx_sas_inv k i s)).
  - split; [done|]. exists (ks_tx_sa s), (ks_enc s). split; [by destruct s|]. intros a Ha. lia.
  - intros an k1 Han (Hk1 & sa & e & Hs1 & He). change (Z.to_nat MEPA_MACSEC_SA_PER_SC) with 4%nat in Han.
    pose proof (wf_steps k k1 W Hk1) as W1.
    destruct (tx_sa_cases k1 i (set_ks_tx (ks_tx_in_use s) sa e s) an W1 Hs1) as (v & Hv & _); [lia|].
    eapply awp_quiet; [eapply quiet_tx_sa_slot; [done|lia|done]|]. intros ? <-. destruct v as [r|].
    + assert (forall rc k', rc < 0 -> rtc astep k1 k' -> (rc <> 0 -> Q rc k') /\ (rc = 0 -> tx_sas_inv k i s (an + 1) k')) as Hfail'.
      { intros rc k' Hrc Hk'. split; [|lia]. intros _. apply Hfail; [done|by etrans]. }
      eapply awp_call_ensure; [apply awp_tx_sa_disable; [done|done|lia]|done|..].
      { intros rc rc' k' [[_ ->]|(Hrc & Hk' & _)] Hn Hneg; by apply Hfail'. }
      intros k2 [[]|(_ & Hk2 & e2 & Hs2)]; [lia|]. pose proof (wf_steps k1 k2 W1 Hk2) as W2.
      eapply awp_call_ensure; [apply (awp_tx_sa_del dev k2); [done|done|lia]|done|..].
      { intros rc rc' k' [[_ ->]|(Hrc & Hstep & _)] Hn Hneg; apply Hfail'; try done. etrans; [done|by apply rtc_once]. }
      intros k3 [[]|(_ & Hstep & Hs3)]; [lia|]. apply awp_ret. split; [done|]. intros _.
      split; [do 2 (etrans; [done|]); by apply rtc_once|].
      exists (alter (fun _ => None) (Z.to_nat an) sa), e2. split; [done|]. apply empty_below_put; [lia|by exists (Some r)|done].
    + apply awp_ret. split; [done|]. intros _. split; [done|]. exists sa, e. split; [done|].
      apply empty_below_next; [lia|done|done].
  - intros k' (Hk' & sa & e & Hs' & He). eapply Hok; [done|done|].
    pose proof (wf_steps k k' W Hk') as W'. apply empty_all. change sa with (ks_tx_sa (set_ks_tx (ks_tx_in_use s) sa e s)).
    by rewrite (sw_tx_sa _ (wf_secy k' W' _ _ (proj2 Hs'))).
Qed.
Lemma awp_tx_sc_del k i s port : wf k -> at_secy k i s ->
  awp (lan80xx_macsec_tx_sc_del_ dev port i)
    (fun rc k' => rc <= 0 /\ rtc astep k k' /\ (rc = 0 -> at_secy k' i (set_ks_tx false (replicate 4 None) 0 s))) k.
Proof.
  intros W Hs. set (Q := fun rc k' => _).
  assert (forall rc k', rc < 0 -> rtc astep k k' -> Q rc k') as Hfail by (intros; split; [lia|split; [done|lia]]).
  eapply awp_quiet; [by eapply quiet_secy|]. intros s' _. case_match; [apply awp_dbg; [done|intros; by apply Hfail]|].
  apply (awp_tx_sas_del k i s); [done|done|done|]. intros k1 sa e Hk1 Hs1 Hsa.
  apply awp_bind. eapply (awp_upd_secy dev i _ _ (fun s => set_ks_tx false (replicate 4 None) 0 s)); [done|done|].
  apply awp_ret. split; [done|]. split.
  - etrans; [done|]. apply rtc_once. eapply as_tx_sc_del; [apply Hs1|done].
  - intros _. by apply (at_secy_on_secy k1 i _ (fun s => set_ks_tx false (replicate 4 None) 0 s)) in Hs1.
Qed.
End NewChannels.

(** ** SecYs *)
Section Secys.
Context {B : Type} {CO : Callout80 B} {HO : Host B}.
Variable dev : Z.
Notation M := (M (env80 B) phy25g_phy_state_t).
Implicit Types (k : alloc).
Notation quiet k P m := (quiet dev k P (m : Machine.M (env80 B) phy25g_phy_state_t _)).
Notation hw k m := (Lan80xxMacsecLogic.hw dev k (m : Machine.M (env80 B) phy25g_phy_state_t Z)).
Notation awp m Q k := (Lan80xxMacsecLogic.awp dev (m : Machine.M (env80 B) phy25g_phy_state_t _) Q k).

Definition idle_rec (l : list (list Z)) : list (list Z) :=
  map (fun row => alter (fun _ => MACSEC_NOT_IN_USE) 1%nat (alter (fun _ => MACSEC_NOT_IN_USE) 0%nat row)) l.
Lemma secy_setup_skel port conf s : secy_skel (secy_setup port conf s) = set_ks_rec (idle_rec (ks_rec (secy_skel s))) (secy_skel s).
Proof.
  unfold secy_skel, secy_setup, set_ks_rec, idle_rec, upd_idx. cbn. f_equal.
  rewrite map_alter_quiet by (intros row; by rewrite !length_alter). rewrite map_map. apply map_ext.
  intros row. by rewrite !length_alter.
Qed.
Lemma awp_secy_add k port conf : wf k -> awp (lan80xx_macsec_secy_conf_add_priv dev port conf) (steps k) k.
Proof.
  intros W. assert (forall rc, rc < 0 -> steps k rc k) as Hneg by (intros; apply steps_refl; lia).
  unfold lan80xx_macsec_secy_conf_add_priv. case_match; [by apply awp_ret, Hneg|].
  eapply awp_quiet; [apply quiet_port_check|]. intros [rc i] Hr. cbn [fst snd negb] in *.
  destruct Hr as [(-> & s & Hs & Hin)|Hr]; [|case_match eqn:E; [by apply awp_ret, Hneg|codes]].
  change (negb (MEPA_RC_OK =? MEPA_RC_OK)) with false. cbv iota zeta. eapply awp_quiet; [apply quiet_macsec|]. intros c _.
  case_match; [by apply awp_dbg|].
  case_match; [by apply awp_ret, Hneg|].
  apply awp_bind. eapply (awp_upd_secy dev i s _ (fun s => set_ks_rec (idle_rec (ks_rec s)) s)); [done|apply secy_setup_skel|].
  apply (at_secy_on_secy _ _ _ (fun s => set_ks_rec (idle_rec (ks_rec s)) s)) in Hs as Hs1. set (k1 := on_secy _ _ k) in *.
  eapply awp_quiet; [by eapply quiet_secy|]. intros s' _. eapply awp_quiet; [apply hw_sci_valid|]. intros rc Hrc. cbv beta in Hrc.
  apply awp_bind. eapply (awp_upd_secy dev i _ _ (set_ks_in_use (rc =? MEPA_RC_OK))); [done|done|].
  apply awp_ret, steps_once; [done|]. unfold k1.
  erewrite (on_secy_twice k _ s _ _ (fun s => set_ks_in_use (rc =? MEPA_RC_OK) (set_ks_rec (idle_rec (ks_rec s)) s)));
    [|apply Hs|reflexivity].
  eapply as_secy_add; [apply Hs|done].
Qed.

(** The records of the patterns, after the removal of those of [l]. *)
Definition idle_at (s : secy_k) (ad : Z * Z) : Prop := rec_of s (Z.to_nat (fst ad)) (Z.to_nat (snd ad)) = Some MACSEC_NOT_IN_USE.
Lemma awp_patterns_del l k i s port m Q : wf k -> at_secy k i s -> ks_in_use s = true ->
  Forall (fun ad => 0 <= fst ad < 3 /\ 0 <= snd ad < 2) l ->
  (forall rc k', rc < 0 -> rtc astep k k' -> Q rc k') ->
  (forall k' rows, rtc astep k k' -> at_secy k' i (set_ks_rec rows s) ->
     (forall ad, idle_at s ad \/ ad ∈ l -> idle_at (set_ks_rec rows s) ad) -> awp m Q k') ->
  awp (patterns_del dev port i l m) Q k.
Proof.
  intros W Hs Hin Hl Hfail Hok. revert k s W Hs Hin Hfail Hok. induction Hl as [|[a d] l [Ha Hd] Hl IH]; intros k s W Hs Hin Hfail Hok; cbn [patterns_del].
  { eapply (Hok k (ks_rec s)); [done|by destruct s|]. intros ad [|Hn]; [by destruct s|]. by apply elem_of_nil in Hn. }
  cbn [fst snd] in *. destruct (rec_cases k W i s a d Hs Ha) as (v & Hv & _); [lia|].
  eapply awp_quiet; [eapply quiet_pattern_record; (done || lia)|]. intros ? <-.
  destruct (v =? MACSEC_NOT_IN_USE) eqn:Ev; cbn [negb].
  - apply Z.eqb_eq in Ev as ->. apply awp_hw_try; [by apply hw_ret|intros; by apply Hfail|]. apply (IH k s); try done.
    intros k' rows Hk' Hs' Hidle. apply (Hok k' rows); [done|done|]. intros ad [Had|Had]; [apply Hidle; by left|].
    apply elem_of_cons in Had as [->|Had]; apply Hidle; [by left|by right].
  - eapply awp_call_try; [by apply (awp_pattern_del dev k W i s)|..].
    + intros rc k' [(_ & ->)|(Hrc & Hstep & _)] Hneg; apply Hfail; try done. by apply rtc_once.
    + intros rc k' [[? _]|(_ & Hstep & Hs')] Hpos; [lia|]. pose proof (wf_step k k' W Hstep) as W'.
      eapply (IH k' _ W' Hs'); [done| |].
      * intros rc' k2 Hrc' Hk2. apply Hfail; [done|]. etrans; [by apply rtc_once|done].
      * intros k2 rows Hk2 Hs2 Hidle. apply (Hok k2 rows); [etrans; [by apply rtc_once|done]|done|].
        assert (forall ad, idle_at s ad \/ ad = (a, d) -> idle_at (put_rec (Z.to_nat a) (Z.to_nat d) MACSEC_NOT_IN_USE s) ad) as Hput.
        { intros ad Had. unfold idle_at. rewrite rec_of_put by eauto. case_decide as Hn; [done|].
          destruct Had as [Had| ->]; [done|]. by destruct Hn. }
        intros ad [Had|Had]; [apply Hidle; left; apply Hput; by left|].
        apply elem_of_cons in Had as [Had|Had]; apply Hidle; [left; apply Hput; by right|by right].
Qed.

(** A SecY that is removed holds nothing. *)
Lemma awp_secy_del k i s port : wf k -> at_secy k i s -> ks_in_use s = true ->
  awp (lan80xx_macsec_secy_conf_del_ dev port i) (fun rc k' => steps k rc k' /\ (rc = 0 -> at_secy k' i secy_k_0)) k.
Proof.
  intros W Hs Hin. set (Q := fun rc k' => _).
  assert (forall rc k', rc < 0 -> rtc astep k k' -> Q rc k') as Hfail by (intros; split; [split; [lia|done]|lia]).
  eapply awp_quiet; [by eapply quiet_secy|]. intros s' Hs'.
  eapply (awp_call_try dev _ _ _ _ (fun rc k' => rc <= 0 /\ rtc astep k k' /\
    (rc = 0 -> exists s1, at_secy k' i s1 /\ ks_in_use s1 = true /\ ks_tx_in_use s1 = false))).
  { case_match eqn:Etx.
    - eapply awp_mono; [by apply (awp_tx_sc_del dev k i s)|]. intros rc k' (Hrc & Hk' & Hs1). split; [done|]. split; [done|].
      intros E. eexists. split; [by apply Hs1|done].
    - apply awp_ret. split; [done|]. split; [done|]. intros _. exists s. split; [done|]. split; [done|]. by rewrite <- Hs'. }
  { intros rc k' (_ & Hk' & _) Hneg. by apply Hfail. }
  intros rc k1 (Hrc & Hk1 & Hs1) Hpos. destruct Hs1 as (s1 & Hs1 & Hin1 & Htx1); [lia|].
  apply (awp_for_rc dev (fun j k' => rtc astep k k' /\ exists s', at_secy k' i s' /\ ks_in_use s' = true /\ ks_tx_in_use s' = false
    /\ empty_below (ks_rx_sc s') j)).
  { split; [done|]. exists s1. split_and!; try done. intros a Ha. lia. }
  - intros j k2 Hj (Hk2 & s2 & Hs2 & Hin2 & Htx2 & He). change CAP_MAX_SC with 64%nat in Hj.
    pose proof (wf_steps k k2 W Hk2) as W2. destruct (sc_cases k2 i s2 j W2 Hs2) as (v & Hv & Hx); [lia|].
    eapply awp_quiet; [eapply quiet_rx_sc_slot; [done|lia|done]|]. intros ? <-. destruct v as [p|].
    + destruct (Hx p eq_refl) as (x & Hsc & Hu). eapply awp_quiet; [by eapply quiet_rx_sc|]. intros r Hr.
      assert (rsc_sci r = kc_sci x) as -> by (change (kc_sci (rx_sc_skel r) = kc_sci x); by rewrite Hr).
      eapply awp_mono; [by eapply awp_rx_sc_del|]. intros rc' k3 (Hrc' & Hk3 & Hs3). split.
      * intros Hneg. apply Hfail; [done|by etrans].
      * intros Hpos'. split; [by etrans|]. eexists. split; [apply Hs3; lia|]. split; [done|]. split; [done|]. cbn.
        apply empty_below_put; [lia|by exists (Some p)|done].
    + apply awp_ret. split; [done|]. intros _. split; [done|]. exists s2. split_and!; try done.
      apply empty_below_next; [lia|done|done].
  - intros k2 (Hk2 & s2 & Hs2 & Hin2 & Htx2 & He). change CAP_MAX_SC with 64%nat in He. pose proof (wf_steps k k2 W Hk2) as W2.
    apply (awp_patterns_del _ k2 i s2); [done|done|done|by repeat constructor| |].
    { intros rc' k' Hneg Hk'. apply Hfail; [done|by etrans]. }
    intros k3 rows Hk3 Hs3 Hidle. apply awp_bind. eapply (awp_upd_secy dev i _ _ (fun _ => secy_k_0)); [done|done|].
    assert (astep k3 (on_secy (Z.to_nat i) (fun _ => secy_k_0) k3)) as Hstep.
    { eapply as_secy_del; [apply Hs3| |done|].
      - apply empty_all. cbn. by rewrite (sw_rx_sc _ (wf_secy k2 W2 _ _ (proj2 Hs2))).
      - intros egr a Ha. unfold pat_slot. cbn [ks_in_use set_ks_rec]. rewrite Hin2.
        assert (idle_at (set_ks_rec rows s2) (Z.of_nat a, if egr then 1 else 0)) as Hi.
        { apply Hidle. right. destruct a as [|[|[|]]]; [| | |lia]; destruct egr; unfold del_patterns; set_solver. }
        unfold idle_at in Hi. cbn [fst snd] in Hi. rewrite Nat2Z.id in Hi.
        replace (Z.to_nat (if egr then 1 else 0)) with (dir egr) in Hi by by destruct egr. by rewrite Hi. }
    apply awp_ret. split; [split; [done|]|].
    + do 2 (etrans; [done|]). by apply rtc_once.
    + intros _. by apply (at_secy_on_secy k3 i _ (fun _ => secy_k_0)) in Hs3.
Qed.

Lemma awp_rx_scs_update port conf i n : forall k s j rc Q, wf k -> at_secy k i s -> 0 <= j -> j + Z.of_nat n <= 64 -> rc <= 0 ->
  (forall rc k', rc <= 0 -> rtc astep k k' -> Q rc k') -> awp (rx_scs_update dev port conf i j n rc) Q k.
Proof.
  induction n as [|n IH]; intros k s j rc Q W Hs Hj Hn Hrc HQ; cbn [rx_scs_update]; [apply awp_ret; by apply HQ|].
  assert (forall rc, rc <= 0 -> awp (rx_scs_update dev port conf i (j + 1) n rc) Q k) as Hnext.
  { intros rc' Hrc'. apply (IH k s); [done|done|lia|lia|done|done]. }
  destruct (sc_cases k i s j W Hs) as (v & Hv & Hx); [lia|].
  eapply awp_quiet; [eapply quiet_rx_sc_slot; done|]. intros ? <-. destruct v as [p|]; [|by apply Hnext].
  destruct (Hx p eq_refl) as (x & Hsc & Hu). eapply awp_quiet; [by eapply quiet_rx_sc|]. intros r Hr.
  case_match; [by apply Hnext|]. eapply awp_quiet; [by eapply quiet_secy|]. intros s' _.
  eapply awp_quiet; [apply hw_sci_valid|]. intros rc' Hrc'. cbv beta in Hrc'. case_match; [by apply Hnext|].
  eapply awp_quiet; [by eapply quiet_upd_rx_sc|intros _ _]. eapply awp_rx_sas_del; [done|done|..].
  - intros rc2 k' Hneg Hk'. apply HQ; [lia|done].
  - intros k' Hk' Hs'. apply (IH k' s); [by eapply wf_steps|done|lia|lia|done|].
    intros rc2 k2 Hrc2 Hk2. apply HQ; [done|by etrans].
Qed.
Lemma awp_secy_update k port conf : wf k -> awp (lan80xx_macsec_secy_conf_update_priv dev port conf) (steps k) k.
Proof.
  intros W. assert (forall rc, rc < 0 -> steps k rc k) as Hneg by (intros; apply steps_refl; lia).
  unfold lan80xx_macsec_secy_conf_update_priv. case_match; [by apply awp_ret, Hneg|].
  eapply awp_quiet; [apply quiet_port_check|]. intros [rc i] Hr. cbn [fst snd negb] in *.
  destruct Hr as [(-> & s & Hs & Hin)|Hr]; [|case_match eqn:E; [by apply awp_ret, Hneg|codes]].
  change (negb (MEPA_RC_OK =? MEPA_RC_OK)) with false. cbv iota zeta. case_match; [by apply awp_ret, Hneg|].
  eapply awp_quiet; [by eapply quiet_upd_secy|intros _ _]. eapply awp_tx_sas_del; [done|done|..].
  - intros rc k' Hrc Hk'. split; [lia|done].
  - intros k' sa e Hk' Hs' _. eapply awp_rx_scs_update; [by eapply wf_steps|done|done|done|done|].
    intros rc k2 Hrc Hk2. split; [done|by etrans].
Qed.
End Secys.
