(* ===== verification/Lan80xxMacsecSpec.v ===== *)
(** * Lan80xxMacsecSpec: what the MACsec functions of the LAN80xx promise

    [macsec_call] lists the calls of the driver with their arguments; the
    theorems say that a call with arguments in range runs to an end, keeps the
    tables well-formed and does what the abstract machine of
    [Lan80xxMacsecAlloc] does, and what follows for a sequence of calls and for
    the removal of a SecY.

    Not among the calls, so that nothing is said of them: the entry points of
    [lan80xx_macsec.c] that [Lan80xxMacsecApi] does not model; and, of those it
    does, the read of the status and the clear of the counters of an association
    ([lan80xx_macsec_tx_sa_status_get], [lan80xx_macsec_txsa_counters_clear],
    [lan80xx_macsec_rxsa_counters_clear]), which go through a null pointer when
    it does not exist, the update of the lowest packet number
    ([lan80xx_macsec_rx_sa_lowest_pn_update]), whose loop need not end, the
    parameters of bypassed headers, and the capability and the status of the
    port. *)

From Stdlib Require Import ZArith Lia List Bool String Relation_Operators.
From stdpp Require Import base gmap strings list relations.
From S2P Require Import Prelude Machine Lan80xxRegs Lan80xxMacsecTypes Lan80xxCsr Lan80xxMacsecRegs.
From S2P Require Import Lan80xxMacsec Lan80xxMacsecSa Lan80xxMacsecAlloc Lan80xxMacsecLogic.
From S2P Require Import Lan80xxMacsecQuiet Lan80xxMacsecSim Lan80xxMacsecApi.

(** ** The calls *)
Inductive macsec_call :=
  | SecyAdd (port : mepa_macsec_port_t) (conf : mepa_macsec_secy_conf_t)
  | SecyGet (port : mepa_macsec_port_t)
  | SecyUpdate (port : mepa_macsec_port_t) (conf : mepa_macsec_secy_conf_t)
  | SecyDel (port : mepa_macsec_port_t)
  | ControlledSet (port : mepa_macsec_port_t) (enable : Z)
  | ControlledGet (port : mepa_macsec_port_t)
  | PatternSet (port : mepa_macsec_port_t) (direction action : Z) (pattern : mepa_macsec_match_pattern_t)
  | PatternGet (port : mepa_macsec_port_t) (direction action : Z)
  | PatternDel (port : mepa_macsec_port_t) (direction action : Z)
  | TxScSet (port : mepa_macsec_port_t)
  | TxScUpdate (port : mepa_macsec_port_t) (conf : mepa_macsec_tx_sc_conf_t)
  | TxScDel (port : mepa_macsec_port_t)
  | TxScStatusGet (port : mepa_macsec_port_t)
  | TxScGetConf (port : mepa_macsec_port_t)
  | RxScAdd (port : mepa_macsec_port_t) (sci : mepa_macsec_sci_t)
  | RxScUpdate (port : mepa_macsec_port_t) (sci : mepa_macsec_sci_t) (conf : mepa_macsec_rx_sc_conf_t)
  | RxScGetConf (port : mepa_macsec_port_t) (sci : mepa_macsec_sci_t)
  | RxScStatusGet (port : mepa_macsec_port_t) (sci : mepa_macsec_sci_t)
  | RxScDel (port : mepa_macsec_port_t) (sci : mepa_macsec_sci_t)
  | TxSaSet (port : mepa_macsec_port_t) (an next_pn conf : Z) (sak : mepa_macsec_sak_t)
  | TxSaGet (port : mepa_macsec_port_t) (an : Z)
  | TxSecaSet (port : mepa_macsec_port_t) (an next_pn conf : Z) (sak : mepa_macsec_sak_t) (ssci : option (list Z))
  | TxSecaGet (port : mepa_macsec_port_t) (an : Z)
  | TxSaDel (port : mepa_macsec_port_t) (an : Z)
  | TxSaActivate (port : mepa_macsec_port_t) (an : Z)
  | TxSaDisable (port : mepa_macsec_port_t) (an : Z)
  | RxSaSet (port : mepa_macsec_port_t) (sci : mepa_macsec_sci_t) (an lowest_pn : Z) (sak : mepa_macsec_sak_t)
  | RxSaGet (port : mepa_macsec_port_t) (sci : mepa_macsec_sci_t) (an : Z)
  | RxSecaSet (port : mepa_macsec_port_t) (sci : mepa_macsec_sci_t) (an lowest_pn : Z) (sak : mepa_macsec_sak_t)
      (ssci : option (list Z))
  | RxSecaGet (port : mepa_macsec_port_t) (sci : mepa_macsec_sci_t) (an lowest_pn : Z)
  | RxSaActivate (port : mepa_macsec_port_t) (sci : mepa_macsec_sci_t) (an : Z)
  | RxSaDisable (port : mepa_macsec_port_t) (sci : mepa_macsec_sci_t) (an : Z)
  | RxSaDel (port : mepa_macsec_port_t) (sci : mepa_macsec_sci_t) (an : Z)
  | RxSaStatusGet (port : mepa_macsec_port_t) (sci : mepa_macsec_sci_t) (an : Z) (status : mepa_macsec_rx_sa_status_t)
  | RxsaAnStatusGet (port : mepa_macsec_port_t) (sci : mepa_macsec_sci_t) (an : Z)
  | TxSaCountersGet (port : mepa_macsec_port_t) (an : Z)
  | TxScCountersGet (port : mepa_macsec_port_t)
  | RxScCountersGet (port : mepa_macsec_port_t) (sci : mepa_macsec_sci_t) (counters : mepa_macsec_rx_sc_counters_t)
  | RxSaCountersGet (port : mepa_macsec_port_t) (sci : mepa_macsec_sci_t) (an : Z)
  | TxscCountersClear (port : mepa_macsec_port_t)
  | RxscCountersClear (port : mepa_macsec_port_t) (sci : mepa_macsec_sci_t)
  | SecyCountersClear (port : mepa_macsec_port_t)
  | DebugCountersClear (port_no : Z)
  | DbgCounterGet (port_no : Z)
  | PortGetNext (port_no : Z) (search : option mepa_macsec_port_t) (found : mepa_macsec_port_t)
  | BypassModeSet (port_no : Z) (bypass : mepa_macsec_bypass_mode_t)
  | BypassModeGet (port_no : Z)
  | BypassTagSet (port : mepa_macsec_port_t) (tag : Z)
  | BypassTagGet (port : mepa_macsec_port_t).

(** The association number is [u16]; the directions and the actions are those
    of the enumerations that have a place in the tables. *)
Definition in_range (call : macsec_call) : Prop :=
  match call with
  | PatternSet _ d a _ | PatternGet _ d a | PatternDel _ d a => 0 <= d < 2 /\ 0 <= a < 3
  | TxSaSet _ an _ _ _ | TxSaGet _ an | TxSecaSet _ an _ _ _ _ | TxSecaGet _ an | TxSaDel _ an | TxSaActivate _ an
  | TxSaDisable _ an | RxSaSet _ _ an _ _ | RxSaGet _ _ an | RxSecaSet _ _ an _ _ _ | RxSecaGet _ _ an _
  | RxSaActivate _ _ an | RxSaDisable _ _ an | RxSaDel _ _ an | RxSaStatusGet _ _ an _ | RxsaAnStatusGet _ _ an
  | TxSaCountersGet _ an => 0 <= an
  | RxSaCountersGet _ _ an => 0 <= an < MEPA_MACSEC_SA_PER_SC_MAX
  | _ => True
  end.

Section Calls.
Context {B : Type} {CO : Callout80 B} {HO : Host B}.
Variable dev : Z.
Notation M := (M (env80 B) phy25g_phy_state_t).

Definition code_of {A} (m : M (Z * A)) : M Z := r <- m ;; ret (fst r).
(** The driver's function, and the code it returns. *)
Definition run_call (call : macsec_call) : M Z :=
  match call with
  | SecyAdd port conf => lan80xx_macsec_secy_conf_add dev port conf
  | SecyGet port => code_of (lan80xx_macsec_secy_conf_get dev port)
  | SecyUpdate port conf => lan80xx_macsec_secy_conf_update dev port conf
  | SecyDel port => lan80xx_macsec_secy_conf_del dev port
  | ControlledSet port enable => lan80xx_macsec_secy_controlled_set dev port enable
  | ControlledGet port => code_of (lan80xx_macsec_secy_controlled_get dev port)
  | PatternSet port d a pat => lan80xx_macsec_pattern_set dev port d a pat
  | PatternGet port d a => code_of (lan80xx_macsec_pattern_get dev port d a)
  | PatternDel port d a => lan80xx_macsec_pattern_del dev port d a
  | TxScSet port => lan80xx_macsec_tx_sc_set dev port
  | TxScUpdate port conf => lan80xx_macsec_tx_sc_update dev port conf
  | TxScDel port => lan80xx_macsec_tx_sc_del dev port
  | TxScStatusGet port => code_of (lan80xx_macsec_tx_sc_status_get dev port)
  | TxScGetConf port => code_of (lan80xx_macsec_tx_sc_get_conf dev port)
  | RxScAdd port sci => lan80xx_macsec_rx_sc_add dev port sci
  | RxScUpdate port sci conf => lan80xx_macsec_rx_sc_update dev port sci conf
  | RxScGetConf port sci => code_of (lan80xx_macsec_rx_sc_get_conf dev port sci)
  | RxScStatusGet port sci => code_of (lan80xx_macsec_rx_sc_status_get dev port sci)
  | RxScDel port sci => lan80xx_macsec_rx_sc_del dev port sci
  | TxSaSet port an pn conf sak => lan80xx_macsec_tx_sa_set dev port an pn conf sak
  | TxSaGet port an => code_of (lan80xx_macsec_tx_sa_get dev port an)
  | TxSecaSet port an pn conf sak ssci => lan80xx_macsec_tx_seca_set dev port an pn conf sak ssci
  | TxSecaGet port an => code_of (lan80xx_macsec_tx_seca_get dev port an)
  | TxSaDel port an => lan80xx_macsec_tx_sa_del dev port an
  | TxSaActivate port an => lan80xx_macsec_tx_sa_activate dev port an
  | TxSaDisable port an => lan80xx_macsec_tx_sa_disable dev port an
  | RxSaSet port sci an pn sak => lan80xx_macsec_rx_sa_set dev port sci an pn sak
  | RxSaGet port sci an =>
      r <- lan80xx_macsec_rx_sa_get dev port sci an ;; ret (fst (fst r))
  | RxSecaSet port sci an pn sak ssci => lan80xx_macsec_rx_seca_set dev port sci an pn sak ssci
  | RxSecaGet port sci an pn => code_of (lan80xx_macsec_rx_seca_get dev port sci an pn)
  | RxSaActivate port sci an => lan80xx_macsec_rx_sa_activate dev port sci an
  | RxSaDisable port sci an => lan80xx_macsec_rx_sa_disable dev port sci an
  | RxSaDel port sci an => lan80xx_macsec_rx_sa_del dev port sci an
  | RxSaStatusGet port sci an st => code_of (lan80xx_macsec_rx_sa_status_get dev port sci an st)
  | RxsaAnStatusGet port sci an => code_of (lan80xx_macsec_rxsa_an_status_get dev port sci an)
  | TxSaCountersGet port an => code_of (lan80xx_macsec_tx_sa_counters_get dev port an)
  | TxScCountersGet port => code_of (lan80xx_macsec_tx_sc_counters_get dev port)
  | RxScCountersGet port sci cnt => code_of (lan80xx_macsec_rx_sc_counters_get dev port sci cnt)
  | RxSaCountersGet port sci an => code_of (lan80xx_macsec_rx_sa_counters_get dev port sci an)
  | TxscCountersClear port => lan80xx_macsec_txsc_counters_clear dev port
  | RxscCountersClear port sci => lan80xx_macsec_rxsc_counters_clear dev port sci
  | SecyCountersClear port => lan80xx_macsec_secy_counters_clear dev port
  | DebugCountersClear port_no => lan80xx_macsec_debug_counters_clear dev port_no
  | DbgCounterGet port_no => code_of (lan80xx_macsec_dbg_counter_get dev port_no)
  | PortGetNext port_no search found => code_of (lan80xx_macsec_port_get_next dev port_no search found)
  | BypassModeSet port_no bypass => lan80xx_macsec_bypass_mode_set dev port_no bypass
  | BypassModeGet port_no => code_of (lan80xx_macsec_bypass_mode_get dev port_no)
  | BypassTagSet port tag => lan80xx_macsec_bypass_tag_set dev port tag
  | BypassTagGet port => code_of (lan80xx_macsec_bypass_tag_get dev port)
  end.
Fixpoint run_calls (l : list macsec_call) : M unit :=
  match l with [] => ret tt | call :: l => run_call call ;;; run_calls l end.
End Calls.

(** ** The rules for a call *)
Section Locked.
Context {B : Type} {CO : Callout80 B} {HO : Host B}.
Variable dev : Z.
Notation M := (M (env80 B) phy25g_phy_state_t).
Implicit Types (k : alloc) (Q : Z -> alloc -> Prop).
Notation quiet k P m := (quiet dev k P (m : Machine.M (env80 B) phy25g_phy_state_t _)).
Notation hw k m := (Lan80xxMacsecLogic.hw dev k (m : Machine.M (env80 B) phy25g_phy_state_t Z)).
Notation awp m Q k := (Lan80xxMacsecLogic.awp dev (m : Machine.M (env80 B) phy25g_phy_state_t _) Q k).

(** The log of a call: the lock around sleeps. *)
Definition call_log (tr : list event) : list event :=
  (if enter80 then [EvEnter] else []) ++ tr ++ (if exit80 then [EvExit] else []).
(** [awp] for a function that takes the lock. *)
Definition lwp {A} (m : M A) (Q : A -> alloc -> Prop) k : Prop :=
  forall w d, w_data w !! dev = Some d -> skel (p80_macsec_conf d) = k ->
  exists a b c tr, m w = Some (a, World b (<[dev := set_p80_macsec_conf c d]> (w_data w)) (w_log w ++ call_log tr)) /\
    Forall is_sleep tr /\ Q a (skel c).

Definition entered (w : world (env80 B) phy25g_phy_state_t) : world (env80 B) phy25g_phy_state_t :=
  World (w_bus w) (w_data w) (w_log w ++ (if enter80 then [EvEnter] else [])).
Lemma locked_run {A} (m : M A) w a b D tr :
  m (entered w) = Some (a, World b D (w_log (entered w) ++ tr)) -> locked m w = Some (a, World b D (w_log w ++ call_log tr)).
Proof.
  intros E. unfold locked.
  assert (enter w = Some (tt, entered w)) as Hen.
  { unfold enter, entered. destruct enter80; [done|]. rewrite app_nil_r. by destruct w. }
  unfold bind at 1. rewrite Hen. unfold bind at 1. rewrite E. cbn [entered w_data w_log]. unfold bind, exit, call_log.
  destruct exit80; unfold log, ret; cbn; rewrite ?app_nil_r, <- ?app_assoc; done.
Qed.
Lemma lwp_locked {A} (m : M A) (Q : A -> alloc -> Prop) k : awp m Q k -> lwp (locked m) Q k.
Proof.
  intros H w d Hd Hk. destruct (H (entered w) d Hd Hk) as (a & b & c & tr & E & Ht & HQ).
  exists a, b, c, tr. split_and!; [by apply locked_run|done|done].
Qed.
Lemma lwp_result {A} (m : M A) (g : A -> Z) Q k : awp m (fun r k' => Q (g r) k') k -> lwp (r <- locked m ;; ret (g r)) Q k.
Proof.
  intros H w d Hd Hk. destruct (lwp_locked m _ k H w d Hd Hk) as (r & b & c & tr & E & Ht & HQ).
  exists (g r), b, c, tr. split_and!; [|done|done]. unfold bind. by rewrite E.
Qed.

(** A function of a SecY. *)
Lemma awp_on_secy port f Q k : (forall rc, rc < 0 -> Q rc k) ->
  (forall i s, at_secy k i s -> ks_in_use s = true -> awp (f i) Q k) -> awp (on_secy dev port f) Q k.
Proof.
  intros Hfail Hf. eapply awp_quiet; [apply quiet_port_check|]. intros [rc i] [(Hrc & s & Hs & Hin)|Hr]; cbn [fst snd] in *.
  - subst rc. by eapply Hf.
  - case_match eqn:E; [codes|]. by apply awp_ret, Hfail.
Qed.
Lemma quiet_on_secy_get {A} port (a : A) f P k : (forall rc, rc < 0 -> P (rc, a)) ->
  (forall i s, at_secy k i s -> ks_in_use s = true -> quiet k P (f i)) -> quiet k P (on_secy_get dev port a f).
Proof.
  intros Hfail Hf. eapply quiet_bind; [apply quiet_port_check|]. intros [rc i] [(Hrc & s & Hs & Hin)|Hr]; cbn [fst snd] in *.
  - subst rc. by eapply Hf.
  - apply quiet_if; intros E; [codes|]. by apply quiet_ret, Hfail.
Qed.
Lemma hw_on_secy port f k : (forall i s, at_secy k i s -> ks_in_use s = true -> hw k (f i)) -> hw k (on_secy dev port f).
Proof. intros Hf Q HQ. apply awp_on_secy; [intros; apply HQ; lia|]. intros i s Hs Hin. by apply (Hf i s). Qed.
(** From functions that change nothing. *)
Lemma lwp_hw m k : hw k m -> lwp (locked m) (steps k) k.
Proof. intros Hm. apply lwp_locked, Hm. intros rc Hrc. by apply steps_refl. Qed.
Lemma lwp_get {A} (m : M (Z * A)) k : quiet k (fun r => fst r <= 0) m -> lwp (code_of (locked m)) (steps k) k.
Proof. intros Hm. apply lwp_result, Hm. intros rc Hrc. by apply steps_refl. Qed.
Lemma lwp_secy port f k : (forall i s, at_secy k i s -> ks_in_use s = true -> awp (f i) (steps k) k) ->
  lwp (locked (on_secy dev port f)) (steps k) k.
Proof. intros Hf. apply lwp_locked, awp_on_secy; [intros; apply steps_refl; lia|done]. Qed.
Lemma lwp_secy_get {A} port (a : A) f k : (forall i s, at_secy k i s -> ks_in_use s = true -> quiet k (fun r => fst r <= 0) (f i)) ->
  lwp (code_of (locked (on_secy_get dev port a f))) (steps k) k.
Proof. intros Hf. apply lwp_get, quiet_on_secy_get; [intros; cbn; lia|done]. Qed.
End Locked.

(** ** The functions that read and write the tables themselves *)
Section Api.
Context {B : Type} {CO : Callout80 B} {HO : Host B}.
Variable dev : Z.
Notation M := (M (env80 B) phy25g_phy_state_t).
Variable k : alloc.
Hypothesis W : wf k.
Notation quiet k P m := (quiet dev k P (m : Machine.M (env80 B) phy25g_phy_state_t _)).
Notation hw k m := (Lan80xxMacsecLogic.hw dev k (m : Machine.M (env80 B) phy25g_phy_state_t Z)).
Notation awp m Q k := (Lan80xxMacsecLogic.awp dev (m : Machine.M (env80 B) phy25g_phy_state_t _) Q k).
Notation code := (fun r => fst r <= 0).

Lemma hw_ok_or b port e : e < 0 -> hw k (ok_or dev b port e).
Proof. intros He. unfold ok_or. destruct b; [by apply hw_ret|by apply hw_dbg]. Qed.
Lemma any_sa_some {A} (l : list A) f sa :
  (forall an, (an < 4)%nat -> exists v, sa !! an = Some v /\ forall r, v = Some r -> is_Some (l !! r)) -> is_Some (any_sa l f sa).
Proof.
  intros H. unfold any_sa. change (seq 0 _) with [0;1;2;3]%nat. cbn.
  destruct (H 0%nat ltac:(lia)) as (v0 & -> & H0), (H 1%nat ltac:(lia)) as (v1 & -> & H1),
    (H 2%nat ltac:(lia)) as (v2 & -> & H2), (H 3%nat ltac:(lia)) as (v3 & -> & H3). cbn.
  destruct v0 as [r0|]; [destruct (H0 r0 eq_refl) as [? ->]|]; cbn;
  (destruct v1 as [r1|]; [destruct (H1 r1 eq_refl) as [? ->]|]; cbn);
  (destruct v2 as [r2|]; [destruct (H2 r2 eq_refl) as [? ->]|]; cbn);
  (destruct v3 as [r3|]; [destruct (H3 r3 eq_refl) as [? ->]|]; cbn); eauto.
Qed.
Lemma quiet_any_tx i s : at_secy k i s ->
  quiet k any (look dev (fun c => s ← secy_of c i; any_sa (mc_tx_sa c) tsa_in_use (tsc_sa (secy_tx_sc s)))).
Proof.
  intros Hs. apply quiet_look. intros c Hc. destruct (secy_at c k i s Hc Hs) as (s' & -> & Hs'). cbn.
  destruct (any_sa_some (mc_tx_sa c) tsa_in_use (tsc_sa (secy_tx_sc s'))) as [b ->]; [|eauto]. intros an Han.
  destruct (tx_sa_cases k i s (Z.of_nat an) W Hs) as (v & Hv & Hr); [lia|]. rewrite Nat2Z.id, <- Hs' in Hv. exists v.
  split; [exact Hv|]. intros r ->. destruct (Hr r eq_refl) as [(_ & _ & _ & Hk) _]. rewrite <- Hc in Hk.
  apply map_lookup in Hk as (sa & -> & _). eauto.
Qed.
Lemma quiet_any_rx i j s p x : at_sc k i j s p x ->
  quiet k any (look dev (fun c => x ← rx_sc_of c i j; any_sa (mc_rx_sa c) rsa_in_use (rsc_sa x))).
Proof.
  intros Hsc. apply quiet_look. intros c Hc. destruct (rx_sc_at c k i j s p x Hc Hsc) as (_ & r & _ & -> & Hr). cbn.
  destruct (any_sa_some (mc_rx_sa c) rsa_in_use (rsc_sa r)) as [b ->]; [|eauto]. intros an Han.
  destruct (rx_sa_cases k i j s p x (Z.of_nat an) W Hsc) as (v & Hv & Hr'); [lia|]. rewrite Nat2Z.id, <- Hr in Hv. exists v.
  split; [exact Hv|]. intros r' ->. destruct (Hr' r' eq_refl) as [(_ & _ & _ & Hk) _]. rewrite <- Hc in Hk.
  apply map_lookup in Hk as (sa & -> & _). eauto.
Qed.

Lemma hw_tx_sc_update port conf : hw k (lan80xx_macsec_tx_sc_update_priv dev port conf).
Proof.
  unfold lan80xx_macsec_tx_sc_update_priv. hw_step; [hw_step|]. apply hw_on_secy. intros i s Hs _.
  eapply hw_bind; [by eapply quiet_secy|]. intros s' _. eapply hw_bind; [by apply hw_ok_or|]. intros rc Hrc.
  eapply hw_bind; [by eapply quiet_upd_secy|]. intros _ _. by apply hw_ret.
Qed.
Lemma quiet_tx_sc_status port : quiet k code (lan80xx_macsec_tx_sc_status_get_priv dev port).
Proof.
  apply quiet_on_secy_get; [cbn; lia|]. intros i s Hs _. eapply quiet_bind; [by eapply quiet_secy|]. intros s' Hs'.
  eapply (quiet_bind _ _ (fun rc => rc <= 0)); [by apply hw_ok_or|]. intros rc Hrc. eapply quiet_bind; [by eapply quiet_any_tx|]. intros b _.
  repeat quiet_step.
Qed.
Lemma quiet_tx_sc_conf port : quiet k code (lan80xx_macsec_tx_sc_get_conf_priv dev port).
Proof.
  apply quiet_on_secy_get; [cbn; lia|]. intros i s Hs _. eapply quiet_bind; [by eapply quiet_secy|]. intros s' Hs'.
  eapply (quiet_bind _ _ (fun rc => rc <= 0)); [by apply hw_ok_or|]. intros rc Hrc. cbv zeta. repeat quiet_step.
Qed.
Lemma hw_rx_sc_update port sci conf : hw k (lan80xx_macsec_rx_sc_update_priv dev port sci conf).
Proof.
  unfold lan80xx_macsec_rx_sc_update_priv. hw_step; [hw_step|]. apply hw_on_secy. intros i s Hs _.
  eapply (quiet_find dev k W); [done|..].
  - intros rc Hrc. cbn [fst snd]. hw_step; [hw_step|codes].
  - intros j p x Hsc Hu Hsci _. cbn [fst snd]. hw_step; [hw_step|].
    eapply hw_bind; [by eapply quiet_secy|]. intros s' _. hw_step; [hw_step|].
    eapply hw_bind; [by eapply quiet_upd_rx_sc|]. intros _ _. by apply hw_ret.
Qed.
Lemma quiet_rx_sc_conf port sci : quiet k code (lan80xx_macsec_rx_sc_get_conf_priv dev port sci).
Proof.
  apply quiet_on_secy_get; [cbn; lia|]. intros i s Hs _. eapply (quiet_find dev k W); [done|..].
  - intros rc Hrc. quiet_step; [quiet_step|codes].
  - intros j p x Hsc Hu Hsci _. repeat quiet_step.
Qed.
Lemma quiet_rx_sc_status port sci : quiet k code (lan80xx_macsec_rx_sc_status_get_priv dev port sci).
Proof.
  apply quiet_on_secy_get; [cbn; lia|]. intros i s Hs _. eapply (quiet_find dev k W); [done|..].
  - intros rc Hrc. quiet_step; [quiet_step|codes].
  - intros j p x Hsc Hu Hsci _. quiet_step; [quiet_step|]. eapply quiet_bind; [by eapply quiet_any_rx|]. intros b _.
    repeat quiet_step.
Qed.
Lemma quiet_pattern_get port d a : 0 <= d < 2 -> 0 <= a < 3 -> quiet k code (lan80xx_macsec_pattern_get_priv dev port d a).
Proof.
  intros Hd Ha. apply quiet_on_secy_get; [cbn; lia|]. intros i s Hs _.
  eapply quiet_bind; [apply (quiet_pattern dev k i s); [done|by eapply at_secy_shape|lia|lia]|]. intros p _.
  eapply (quiet_bind _ _ (fun rc => rc <= 0)); [by apply hw_ok_or|]. intros rc Hrc. by apply quiet_ret.
Qed.
Lemma quiet_tx_sa_read port an pn : 0 <= an -> quiet k code (tx_sa_read dev port an pn).
Proof.
  intros Han. unfold tx_sa_read. quiet_step; [quiet_step|]. apply quiet_on_secy_get; [cbn; lia|]. intros i s Hs _.
  eapply (quiet_tx_slot dev k W); [done|codes|..].
  - eapply quiet_bind; [by apply quiet_dbg|]. intros rc Hrc. apply quiet_ret. cbn. cbv beta in Hrc. lia.
  - intros r Hr Hsa. repeat quiet_step.
Qed.
Lemma quiet_rx_an_status port sci an : 0 <= an -> quiet k code (lan80xx_macsec_rxsa_an_status_get_priv dev port sci an).
Proof.
  intros Han. unfold lan80xx_macsec_rxsa_an_status_get_priv. quiet_step; [quiet_step|].
  apply quiet_on_secy_get; [cbn; lia|]. intros i s Hs _. eapply (quiet_find dev k W); [done|..].
  - intros rc Hrc. quiet_step; [quiet_step|codes].
  - intros j p x Hsc Hu Hsci _. quiet_step; [quiet_step|].
    eapply quiet_bind; [eapply (quiet_rx_live dev k W); [done|codes]|]. intros b _. by apply quiet_ret.
Qed.
Lemma quiet_next port_no search found : quiet k code (lan80xx_macsec_port_get_next_priv dev port_no search found).
Proof.
  eapply quiet_bind; [apply quiet_macsec|]. intros c _. apply quiet_ret.
  generalize (lan80xx_macsec_secy_in_use_inter_getnext c). intros l. generalize false at 2. induction l as [|i l IH]; intros b; [done|].
  cbn. destruct (secy_of c i); [|apply IH]. destruct search; [|done]. destruct b; [done|]. case_match; apply IH.
Qed.
Lemma hw_upd_glb f : (forall g, glb_cleartags_init_done (f g) = glb_cleartags_init_done g) -> hw k (upd_glb dev f ;;; ret MEPA_RC_OK).
Proof.
  intros Hf. eapply hw_bind; [apply quiet_modify|intros _ _; by apply hw_ret]. intros c. unfold skel. cbn. by rewrite Hf.
Qed.
Lemma hw_tag_set port tag : hw k (lan80xx_macsec_bypass_tag_set_priv dev port tag).
Proof.
  eapply hw_bind; [apply quiet_macsec|]. intros c _. hw_step; [hw_step|].
  eapply hw_bind; [apply hw_on_secy|intros _ _; by apply hw_ret]. intros i s Hs _. unfold hw. repeat quiet_step.
Qed.

(** The place of a SecY stays. *)
Lemma at_secy_after k' i s : rtc astep k k' -> at_secy k i s -> exists s', at_secy k' i s'.
Proof.
  intros Hk' [Hi Hs]. pose proof (wf_steps k k' W Hk') as W'. apply lookup_lt_Some in Hs. rewrite (wf_secys k W) in Hs.
  destruct (lookup_lt_is_Some_2 (k_secy k') (Z.to_nat i)) as [s' Hs']; [by rewrite (wf_secys k' W')|]. by exists s'.
Qed.
Lemma awp_store k' i s d a f : rtc astep k k' -> at_secy k i s -> 0 <= d < 2 -> 0 <= a < 3 ->
  awp (upd_pattern dev i a d f ;;; ret MEPA_RC_OK) (steps k) k'.
Proof.
  intros Hk' Hs Hd Ha. destruct (at_secy_after k' i s Hk' Hs) as [s' Hs'].
  eapply awp_quiet; [apply (quiet_upd_pattern dev k' i s'); [done|eapply at_secy_shape; [by eapply wf_steps|done]|lia|lia]|].
  intros _ _. by apply awp_ret.
Qed.
Lemma awp_pattern_set_priv port d a pat : 0 <= d < 2 -> 0 <= a < 3 ->
  awp (lan80xx_macsec_pattern_set_priv dev port d a pat) (steps k) k.
Proof.
  intros Hd Ha. assert (forall rc, rc < 0 -> steps k rc k) as Hneg by (intros; apply steps_refl; lia).
  eapply awp_quiet; [apply quiet_data_of|]. intros data _. case_match; [by apply awp_ret, Hneg|].
  case_match; [by apply awp_ret, Hneg|]. eapply awp_quiet; [apply quiet_port_check|]. intros [rc i] Hr. cbn [fst snd negb] in *.
  destruct Hr as [(-> & s & Hs & Hin)|Hr]; [|case_match eqn:E; [by apply awp_dbg|codes]].
  change (negb (MEPA_RC_OK =? MEPA_RC_OK)) with false. cbv iota zeta. case_match; [|by eapply awp_store].
  eapply (awp_call_ensure dev _ _ _ _ _ _ (steps k)); [|done|..].
  - eapply awp_quiet; [apply quiet_data_of|]. intros data' _. case_match; [by apply awp_ret, steps_refl|].
    by apply (awp_pattern_set dev k W i s).
  - intros rc rc' k' [_ Hk'] _ Hrc'. split; [lia|done].
  - intros k' [_ Hk']. by eapply awp_store.
Qed.
Lemma awp_pattern_del_priv port d a : 0 <= d < 2 -> 0 <= a < 3 ->
  awp (lan80xx_macsec_pattern_del_priv dev port d a) (steps k) k.
Proof.
  intros Hd Ha. eapply awp_quiet; [apply quiet_port_check|]. intros [rc i] Hr. cbn [fst snd negb] in *.
  destruct Hr as [(-> & s & Hs & Hin)|Hr]; [|case_match eqn:E; [apply awp_dbg; [done|]; intros; apply steps_refl; lia|codes]].
  change (negb (MEPA_RC_OK =? MEPA_RC_OK)) with false. cbv iota zeta.
  apply awp_bind. eapply (awp_mono dev _ (steps k)).
  - case_match; [|by apply awp_ret, steps_refl]. eapply awp_mono; [by apply (awp_pattern_del dev k W i s)|].
    intros rc k' [[Hrc ->]|(-> & Hstep & _)]; [apply steps_refl; lia|by apply steps_once].
  - intros rc k' [Hrc Hk']. case_match; [by apply awp_ret|by eapply awp_store].
Qed.
End Api.

(** ** Every call *)
Section Every.
Context {B : Type} {CO : Callout80 B} {HO : Host B}.
Variable dev : Z.
Notation M := (M (env80 B) phy25g_phy_state_t).

Lemma quiet_pair {A} k (m : M (Z * A)) : quiet dev k (fun r => fst r <= 0) m ->
  quiet dev k (fun r => fst r <= 0) (r <- m ;; ret (fst r, Some (snd r)) : M (Z * option A)).
Proof. intros Hm. eapply quiet_bind; [apply Hm|]. intros r Hr. by apply quiet_ret. Qed.

Lemma run_call_lwp k call : wf k -> in_range call -> lwp dev (run_call dev call) (steps k) k.
Proof.
  intros W Hr. destruct call; cbn [in_range] in Hr; unfold run_call.
  - by apply lwp_locked, awp_secy_add.
  - apply lwp_secy_get. intros i s Hs _. repeat quiet_step.
  - by apply lwp_locked, awp_secy_update.
  - apply lwp_secy. intros i s Hs Hin. eapply awp_mono; [by apply (awp_secy_del dev k i s)|]. by intros rc k' [].
  - apply lwp_secy. intros i s Hs Hin. apply awp_of_hw; [by apply (hw_controlled_set dev k W i s)|apply steps_refl].
  - apply lwp_secy_get. intros i s Hs _. repeat quiet_step.
  - destruct Hr. by apply lwp_locked, awp_pattern_set_priv.
  - destruct Hr. by apply lwp_get, quiet_pattern_get.
  - destruct Hr. by apply lwp_locked, awp_pattern_del_priv.
  - apply lwp_secy. intros i s Hs Hin. by apply (awp_tx_sc_set dev k i s).
  - by apply lwp_hw, hw_tx_sc_update.
  - apply lwp_secy. intros i s Hs Hin. eapply awp_mono; [by apply (awp_tx_sc_del dev k i s)|]. by intros rc k' (? & ? & _).
  - by apply lwp_get, quiet_tx_sc_status.
  - by apply lwp_get, quiet_tx_sc_conf.
  - apply lwp_secy. intros i s Hs Hin. by apply (awp_rx_sc_add dev k i s).
  - by apply lwp_hw, hw_rx_sc_update.
  - by apply lwp_get, quiet_rx_sc_conf.
  - by apply lwp_get, quiet_rx_sc_status.
  - apply lwp_secy. intros i s Hs Hin. apply (awp_sci dev k i s); [done|done|intros; apply steps_refl; lia|].
    intros j p x Hsc ->. eapply awp_mono; [by eapply (awp_rx_sc_del dev k)|]. by intros rc k' (? & ? & _).
  - apply lwp_secy. intros i s Hs Hin. by apply (awp_tx_sa_set dev k W i s).
  - apply lwp_get. eapply quiet_bind; [by apply quiet_tx_sa_read|]. intros r Hrc. by apply quiet_ret.
  - apply lwp_secy. intros i s Hs Hin. by apply (awp_tx_sa_set dev k W i s).
  - by apply lwp_get, quiet_tx_sa_read.
  - apply lwp_secy. intros i s Hs Hin. eapply awp_mono; [by apply (awp_tx_sa_del dev k i s)|].
    intros rc k' [[Hrc ->]|(Hrc & Hstep & _)]; [apply steps_refl; lia|by apply steps_once].
  - apply lwp_secy. intros i s Hs Hin. by apply (awp_tx_sa_activate dev k i s).
  - apply lwp_secy. intros i s Hs Hin. eapply awp_mono; [by apply (awp_tx_sa_disable dev k i s)|].
    intros rc k' [[Hrc ->]|(-> & Hk' & _)]; [apply steps_refl; lia|done].
  - apply lwp_secy. intros i s Hs Hin. by apply (awp_rx_sa_set dev k W i s).
  - apply lwp_result. eapply awp_quiet.
    { apply (quiet_on_secy_get dev _ _ _ (fun r => fst r <= 0)); [cbn; lia|]. intros i s Hs _. by eapply (quiet_rx_sa_get dev k W). }
    intros [rc [[[[pn x] act] ss]|]] Hrc; by apply awp_ret, steps_refl.
  - apply lwp_secy. intros i s Hs Hin. by apply (awp_rx_sa_set dev k W i s).
  - apply lwp_secy_get. intros i s Hs _. by eapply (quiet_rx_sa_get dev k W).
  - apply lwp_secy. intros i s Hs Hin. apply awp_of_hw; [by apply (hw_rx_sa_activate dev k W i s)|apply steps_refl].
  - apply lwp_secy. intros i s Hs Hin. apply awp_of_hw; [by apply (hw_rx_sa_disable dev k W i s)|apply steps_refl].
  - apply lwp_secy. intros i s Hs Hin. destruct (Z.ltb_spec an MEPA_MACSEC_SA_PER_SC_MAX) as [Han|Han].
    + unfold lan80xx_macsec_rx_sa_del_ at 1. rewrite Z.geb_leb, (proj2 (Z.leb_gt _ _) Han).
      apply (awp_sci dev k i s); [done|done|intros; apply steps_refl; lia|].
      intros j p x Hsc ->. pose proof (awp_rx_sa_del dev k i j s p x port an W Hsc Hr) as Hdel.
      unfold lan80xx_macsec_rx_sa_del_ in Hdel. rewrite Z.geb_leb, (proj2 (Z.leb_gt _ _) Han) in Hdel.
      eapply awp_mono; [exact Hdel|].
      intros rc k' [[Hrc ->]|(Hrc & Hstep & _)]; [apply steps_refl; lia|by apply steps_once].
    + unfold lan80xx_macsec_rx_sa_del_. rewrite Z.geb_leb, (proj2 (Z.leb_le _ _) Han). by apply awp_ret, steps_refl.
  - apply lwp_secy_get. intros i s Hs _. by eapply (quiet_rx_sa_status dev k W).
  - by apply lwp_get, quiet_rx_an_status.
  - apply lwp_secy_get. intros i s Hs _. by eapply quiet_pair, (quiet_tx_sa_counters dev k W).
  - apply lwp_secy_get. intros i s Hs _. by eapply quiet_pair, (quiet_tx_sc_counters dev k W).
  - apply lwp_secy_get. intros i s Hs _. by eapply (quiet_rx_sc_counters dev k W).
  - apply lwp_secy_get. intros i s Hs _. by eapply quiet_pair, (quiet_rx_sa_counters dev k W).
  - apply lwp_secy. intros i s Hs Hin. apply awp_of_hw; [|apply steps_refl]. unfold hw. repeat quiet_step.
  - apply lwp_secy. intros i s Hs Hin. apply awp_of_hw; [|apply steps_refl]. by eapply hw_rxsc_clear.
  - apply lwp_secy. intros i s Hs Hin. apply awp_of_hw; [|apply steps_refl]. unfold hw. repeat quiet_step.
  - apply lwp_hw. eapply hw_bind; [by apply quiet_modify|]. intros _ _. by apply hw_ret.
  - apply lwp_get. eapply quiet_bind; [apply quiet_macsec|]. intros c _. by apply quiet_ret.
  - by apply lwp_get, quiet_next.
  - by apply lwp_hw, hw_upd_glb.
  - apply lwp_get. eapply quiet_bind; [apply quiet_macsec|]. intros c _. by apply quiet_ret.
  - by apply lwp_hw, hw_tag_set.
  - apply lwp_get. eapply (quiet_bind _ _ (fun r => fst r <= 0)).
    + apply quiet_on_secy_get; [cbn; lia|]. intros i s Hs _. repeat quiet_step.
    + intros r Hrc. by apply quiet_ret.
Qed.
End Every.

(** ** Who holds what, in the tables of the driver *)

(** The transmit record [r] is that of the association [an] of the SecY [i], or
    of its egress pattern for the action [a]. *)
Definition tx_holds (c : phy25g_macsec_internal_conf_t) (o : Z * Z + Z * Z) (r : nat) : Prop :=
  match o with
  | inl (i, an) => tx_sa_ptr c i an = Some r
  | inr (i, a) => exists s, secy_of c i = Some s /\ secy_in_use s = true /\
      pattern_record_of c i a MEPA_MACSEC_DIRECTION_EGRESS = Some (Z.of_nat r) /\ Z.of_nat r <> MACSEC_NOT_IN_USE
  end.
(** The receive record [r] is that of the association [an] of the channel [j] of
    the SecY [i], or of its ingress pattern for the action [a]. *)
Definition rx_holds (c : phy25g_macsec_internal_conf_t) (o : Z * Z * Z + Z * Z) (r : nat) : Prop :=
  match o with
  | inl (i, j, an) => rx_sa_ptr c i j an = Some r
  | inr (i, a) => exists s, secy_of c i = Some s /\ secy_in_use s = true /\
      pattern_record_of c i a MEPA_MACSEC_DIRECTION_INGRESS = Some (Z.of_nat r) /\ Z.of_nat r <> MACSEC_NOT_IN_USE
  end.
(** No record, channel or hardware index has two holders, and the ones in use
    are the ones that are held. *)
Record exclusive (c : phy25g_macsec_internal_conf_t) : Prop := Exclusive {
  ex_tx : forall o1 o2 r, tx_holds c o1 r -> tx_holds c o2 r -> o1 = o2;
  ex_rx : forall o1 o2 r, rx_holds c o1 r -> rx_holds c o2 r -> o1 = o2;
  ex_sc : forall i j i' j' p, rx_sc_ptr c i j = Some p -> rx_sc_ptr c i' j' = Some p -> i = i' /\ j = j';
  ex_tx_used : forall r sa, mc_tx_sa c !! r = Some sa -> (tsa_in_use sa = true <-> exists o, tx_holds c o r);
  ex_rx_used : forall r sa, mc_rx_sa c !! r = Some sa -> (rsa_in_use sa = true <-> exists o, rx_holds c o r);
  ex_sc_used : forall p x, mc_rx_sc c !! p = Some x -> (rsc_in_use x = true <-> exists i j, rx_sc_ptr c i j = Some p);
  ex_hw_used : forall h, 0 <= h < 64 -> (Z.testbit (mc_rx_sc_hw_idx_in_use c) h = true <->
    exists p x, mc_rx_sc c !! p = Some x /\ rsc_in_use x = true /\ rsc_hw_sc_idx x = h);
  ex_hw : forall p q x y, mc_rx_sc c !! p = Some x -> mc_rx_sc c !! q = Some y -> rsc_in_use x = true -> rsc_in_use y = true ->
    rsc_hw_sc_idx x = rsc_hw_sc_idx y \/ rsc_sci x = rsc_sci y -> p = q;
}.

(** The first SecY in use with the port and the service of [port], as the driver
    looks it up. *)
Definition secy_named (c : phy25g_macsec_internal_conf_t) (port : mepa_macsec_port_t) (i : Z) : Prop :=
  (exists s, secy_of c i = Some s /\ secy_in_use s = true /\
     sci_port_id (secy_sci s) = mp_port_id port /\ secy_service_id s = mp_service_id port) /\
  forall j s, j < i -> secy_of c j = Some s -> secy_in_use s = true ->
    sci_port_id (secy_sci s) = mp_port_id port -> secy_service_id s = mp_service_id port -> False.

(** The SecY [i] is not in use and holds nothing, and what is in use is held by
    others. *)
Definition released (c : phy25g_macsec_internal_conf_t) (i : Z) : Prop :=
  (exists s', secy_of c i = Some s' /\ secy_in_use s' = false /\ tsc_in_use (secy_tx_sc s') = false /\
     tsc_sa (secy_tx_sc s') = replicate 4 None /\ secy_rx_sc s' = replicate 64 None) /\
  (forall r sa, mc_tx_sa c !! r = Some sa -> tsa_in_use sa = true ->
     exists i' n, i' <> i /\ (tx_holds c (inl (i', n)) r \/ tx_holds c (inr (i', n)) r)) /\
  (forall r sa, mc_rx_sa c !! r = Some sa -> rsa_in_use sa = true ->
     exists i' j n, i' <> i /\ (rx_holds c (inl (i', j, n)) r \/ rx_holds c (inr (i', n)) r)) /\
  (forall p x, mc_rx_sc c !! p = Some x -> rsc_in_use x = true -> exists i' j, i' <> i /\ rx_sc_ptr c i' j = Some p) /\
  (forall h, 0 <= h < 64 -> Z.testbit (mc_rx_sc_hw_idx_in_use c) h = true ->
     exists i' j p x, i' <> i /\ rx_sc_ptr c i' j = Some p /\ mc_rx_sc c !! p = Some x /\ rsc_hw_sc_idx x = h).

Section Holders.
Variable c : phy25g_macsec_internal_conf_t.
Hypothesis W : wf (skel c).

Lemma idx_of_nat {A} (l : list A) n : idx l (Z.of_nat n) = l !! n.
Proof. rewrite idx_nat by lia. by rewrite Nat2Z.id. Qed.
Lemma idx_some {A} (l : list A) i x : idx l i = Some x -> exists n, i = Z.of_nat n /\ l !! n = Some x.
Proof.
  unfold idx. case_match eqn:E; [done|]. apply Z.ltb_ge in E. intros Hx. exists (Z.to_nat i). split; [lia|done].
Qed.
Lemma secys n : k_secy (skel c) !! n = secy_skel <$> mc_secy c !! n.
Proof. cbn. by rewrite list_lookup_fmap. Qed.

Definition Zpair (o : nat * nat) : Z * Z := (Z.of_nat (fst o), Z.of_nat (snd o)).
Lemma Zpair_inj o o' : Zpair o = Zpair o' -> o = o'.
Proof. destruct o, o'. intros [= ? ?]. f_equal; lia. Qed.

Lemma sc_held i j p : rx_sc_ptr c i j = Some p <-> exists o, (i, j) = Zpair o /\ sc_claim (skel c) o = Some p.
Proof.
  unfold sc_claim. setoid_rewrite secys. unfold rx_sc_ptr, rx_sc_slot, secy_of. split.
  - destruct (idx (mc_secy c) i) as [s|] eqn:Es; [|done]. cbn. apply idx_some in Es as (n & -> & Es).
    destruct (idx (secy_rx_sc s) j) as [v|] eqn:Ej; [|done]. apply idx_some in Ej as (m & -> & Ej). cbn. intros ->.
    exists (n, m). split; [done|]. cbn. rewrite Es. cbn. by apply slot_some.
  - intros ([n m] & [= -> ->] & H). cbn in H. rewrite idx_of_nat. destruct (mc_secy c !! n) as [s|]; [|done]. cbn in *.
    by rewrite idx_of_nat.
Qed.
Lemma pat_held (egr : bool) i a r :
  (exists s, secy_of c i = Some s /\ secy_in_use s = true /\
     pattern_record_of c i a (if egr then MEPA_MACSEC_DIRECTION_EGRESS else MEPA_MACSEC_DIRECTION_INGRESS) = Some (Z.of_nat r) /\
     Z.of_nat r <> MACSEC_NOT_IN_USE) <->
  exists o, (i, a) = Zpair o /\ sa_claim egr (skel c) (inr o) = Some r.
Proof.
  unfold sa_claim, pattern_record_of, secy_of. split.
  - intros (s & Es & Hu & Hp & Hn). rewrite Es in Hp. cbn in Hp. apply idx_some in Es as (n & -> & Es).
    destruct (idx (secy_pattern_record s) a) as [row|] eqn:Ea; [|done]. apply idx_some in Ea as (m & -> & Ea). cbn in Hp.
    exists (n, m). split; [done|]. rewrite secys, Es. cbn. unfold pat_slot. cbn. rewrite Hu. unfold rec_of. cbn. rewrite Ea. cbn.
    replace (row !! dir egr) with (Some (Z.of_nat r)) by (rewrite <- Hp; by destruct egr). cbn.
    rewrite (proj2 (Z.eqb_neq _ _) Hn). by rewrite Nat2Z.id.
  - intros ([n m] & [= -> ->] & H). rewrite secys in H. rewrite idx_of_nat. destruct (mc_secy c !! n) as [s|] eqn:Es; [|done].
    cbn in *. unfold pat_slot in H. cbn in H. destruct (secy_in_use s) eqn:Hu; [|done]. unfold rec_of in H. cbn in H.
    exists s. rewrite idx_of_nat. destruct (secy_pattern_record s !! m) as [row|] eqn:Em; [|done]. cbn in *.
    destruct (row !! dir egr) as [v|] eqn:Ev; [|done]. cbn in H. destruct (v =? MACSEC_NOT_IN_USE) eqn:Ev'; [done|].
    injection H as <-. assert (0 <= v) as Hv.
    { assert (k_secy (skel c) !! n = Some (secy_skel s)) as Hk by by rewrite secys, Es.
      destruct (sw_rec _ (wf_secy _ W _ _ Hk)) as [_ Hf]. destruct (Forall_lookup_1 _ _ _ _ Hf Em) as [_ Hrow].
      by apply (Forall_lookup_1 _ _ _ _ Hrow Ev). }
    rewrite Z2Nat.id by done. split_and!; [done|done| |by apply Z.eqb_neq].
    rewrite <- Ev. by destruct egr.
Qed.
Definition Zown (o : nat * nat + nat * nat) : Z * Z + Z * Z :=
  match o with inl o => inl (Zpair o) | inr o => inr (Zpair o) end.
Lemma tx_held o r : tx_holds c o r <-> exists o', o = Zown o' /\ sa_claim true (skel c) o' = Some r.
Proof.
  destruct o as [[i an]|[i a]]; cbn [tx_holds].
  - unfold tx_sa_ptr, tx_sa_slot, secy_of. split.
    + destruct (idx (mc_secy c) i) as [s|] eqn:Es; [|done]. cbn. apply idx_some in Es as (n & -> & Es).
      destruct (idx _ an) as [v|] eqn:Ej; [|done]. apply idx_some in Ej as (m & -> & Ej). cbn. intros ->.
      exists (inl (n, m)). split; [done|]. unfold sa_claim. rewrite secys, Es. cbn. by apply slot_some.
    + intros ([[n m]|] & [= -> ->] & H). unfold sa_claim in H. rewrite secys in H. rewrite idx_of_nat.
      destruct (mc_secy c !! n) as [s|]; [|done]. cbn in *. by rewrite idx_of_nat.
  - rewrite (pat_held true). split.
    + intros (o & -> & H). by exists (inr o).
    + intros ([?|o] & E & Hc); [done|]. exists o. split; [|done]. unfold Zown in E. congruence.
Qed.
(** A receive record is reached through a channel, which has one SecY. *)
Lemma rx_held o r : rx_holds c o r <->
  match o with
  | inl (i, j, an) => exists p n, rx_sc_ptr c i j = Some p /\ an = Z.of_nat n /\ sa_claim false (skel c) (inl (p, n)) = Some r
  | inr o => exists o', o = Zpair o' /\ sa_claim false (skel c) (inr o') = Some r
  end.
Proof.
  destruct o as [[[i j] an]|[i a]]; [|apply (pat_held false)]. cbn [rx_holds].
  unfold rx_sa_ptr, rx_sa_slot, rx_sc_of. split.
  - destruct (rx_sc_ptr c i j) as [p|] eqn:Ep; [|done]. cbn. destruct (mc_rx_sc c !! p) as [x|] eqn:Ex; [|done]. cbn.
    destruct (idx _ an) as [v|] eqn:Ej; [|done]. apply idx_some in Ej as (m & -> & Ej). cbn. intros ->.
    exists p, m. split; [done|]. split; [done|]. rewrite list_lookup_fmap, Ex. cbn. by apply slot_some.
  - intros (p & n & -> & -> & Hc). cbn in *. rewrite list_lookup_fmap in Hc. destruct (mc_rx_sc c !! p) as [x|]; [|done].
    cbn in *. by rewrite idx_of_nat.
Qed.

Lemma wf_exclusive : exclusive c.
Proof.
  assert (forall r sa, mc_tx_sa c !! r = Some sa -> sa_used true (skel c) r = tsa_in_use sa) as Htx.
  { intros r sa Hr. unfold sa_used. cbn. by rewrite list_lookup_fmap, Hr. }
  assert (forall r sa, mc_rx_sa c !! r = Some sa -> sa_used false (skel c) r = rsa_in_use sa) as Hrx.
  { intros r sa Hr. unfold sa_used. cbn. by rewrite list_lookup_fmap, Hr. }
  assert (forall p x, mc_rx_sc c !! p = Some x -> k_rx_sc (skel c) !! p = Some (rx_sc_skel x)) as Hsc.
  { intros p x Hp. cbn. by rewrite list_lookup_fmap, Hp. }
  assert (forall p x, mc_rx_sc c !! p = Some x -> (rsc_in_use x = true <-> exists i j, rx_sc_ptr c i j = Some p)) as Hused.
  { intros p x Hp. assert (sc_used (skel c) p = rsc_in_use x) as <- by (unfold sc_used; by rewrite (Hsc p x)). split.
    - intros Hu. destruct (owned_by _ _ (wf_sc _ W) p Hu) as [o Ho]. exists (Z.of_nat (fst o)), (Z.of_nat (snd o)). apply sc_held. eauto.
    - intros (i & j & Hij). apply sc_held in Hij as (o & _ & Ho). by apply (owned_used _ _ (wf_sc _ W) o). }
  assert (forall i j i' j' p, rx_sc_ptr c i j = Some p -> rx_sc_ptr c i' j' = Some p -> i = i' /\ j = j') as Hscs.
  { intros i j i' j' p (o & E & Ho)%sc_held (o' & E' & Ho')%sc_held.
    pose proof (owned_inj _ _ (wf_sc _ W) _ _ _ Ho Ho'). subst o'. rewrite <- E' in E. by injection E. }
  split; try done.
  - intros o1 o2 r (o & -> & Ho)%tx_held (o' & -> & Ho')%tx_held. f_equal. by apply (owned_inj _ _ (wf_sa _ W true) _ _ r).
  - intros o1 o2 r Ho1%rx_held Ho2%rx_held.
    destruct o1 as [[[i j] an]|o1], o2 as [[[i' j'] an']|o2].
    + destruct Ho1 as (p & n & Hp & -> & Hc), Ho2 as (p' & n' & Hp' & -> & Hc').
      pose proof (owned_inj _ _ (wf_sa _ W false) _ _ _ Hc Hc') as [= <- <-]. by destruct (Hscs _ _ _ _ _ Hp Hp') as [<- <-].
    + destruct Ho1 as (p & n & Hp & -> & Hc), Ho2 as (o' & -> & Hc').
      by pose proof (owned_inj _ _ (wf_sa _ W false) _ _ _ Hc Hc').
    + destruct Ho1 as (o' & -> & Hc'), Ho2 as (p & n & Hp & -> & Hc).
      by pose proof (owned_inj _ _ (wf_sa _ W false) _ _ _ Hc Hc').
    + destruct Ho1 as (o & -> & Hc), Ho2 as (o' & -> & Hc').
      by pose proof (owned_inj _ _ (wf_sa _ W false) _ _ _ Hc Hc') as [= <-].
  - intros r sa Hr. rewrite <- (Htx r sa Hr). split.
    + intros Hu. destruct (owned_by _ _ (wf_sa _ W true) r Hu) as [o Ho]. exists (Zown o). apply tx_held. eauto.
    + intros [o (o' & _ & Ho)%tx_held]. by apply (owned_used _ _ (wf_sa _ W true) o').
  - intros r sa Hr. rewrite <- (Hrx r sa Hr). split.
    + intros Hu. destruct (owned_by _ _ (wf_sa _ W false) r Hu) as [[[p n]|o] Ho].
      * assert (exists x, mc_rx_sc c !! p = Some x /\ rsc_in_use x = true) as (x & Hx & Hin).
        { cbn in Ho. rewrite list_lookup_fmap in Ho. destruct (mc_rx_sc c !! p) as [x|] eqn:Ex; [|done]. exists x. split; [done|].
          cbn in Ho. destruct (rsc_in_use x) eqn:Eu; [done|exfalso].
          destruct (wf_rx_sc _ W p _ (Hsc p x Ex)) as [_ Hidle _]. by rewrite (slot_none (rsc_sa x) n (Hidle Eu)) in Ho. }
        apply (Hused p x Hx) in Hin as (i & j & Hij). exists (inl (i, j, Z.of_nat n)). apply rx_held. eauto.
      * exists (inr (Zpair o)). apply rx_held. eauto.
    + intros [o Ho%rx_held]. destruct o as [[[i j] an]|o].
      * destruct Ho as (p & n & _ & _ & Ho). by apply (owned_used _ _ (wf_sa _ W false) _ _ Ho).
      * destruct Ho as (o' & _ & Ho). by apply (owned_used _ _ (wf_sa _ W false) _ _ Ho).
  - intros h Hh. assert (hw_used (skel c) (Z.to_nat h) = Z.testbit (mc_rx_sc_hw_idx_in_use c) h) as <-.
    { unfold hw_used. rewrite bool_decide_true by lia. by rewrite Z2Nat.id by lia. }
    split.
    + intros Hu. destruct (owned_by _ _ (wf_hw _ W) _ Hu) as [p Hp]. unfold hw_claim in Hp.
      cbn in Hp. rewrite list_lookup_fmap in Hp. destruct (mc_rx_sc c !! p) as [x|] eqn:Ex; [|done]. cbn in Hp.
      destruct (rsc_in_use x) eqn:Eu; [|done]. injection Hp as Hp.
      pose proof (cw_hw _ (wf_rx_sc _ W p _ (Hsc p x Ex))) as Hr. cbn in Hr. exists p, x. split_and!; [done|done|lia].
    + intros (p & x & Hp & Hu & <-). apply (owned_used _ _ (wf_hw _ W) p). unfold hw_claim. rewrite (Hsc p x Hp). cbn. by rewrite Hu.
  - intros p q x y Hp Hq Hx Hy [Hh|Hs].
    + apply (owned_inj _ _ (wf_hw _ W) _ _ (Z.to_nat (rsc_hw_sc_idx x))); unfold hw_claim.
      * rewrite (Hsc p x Hp). cbn. by rewrite Hx.
      * rewrite (Hsc q y Hq). cbn. by rewrite Hy, Hh.
    + by apply (wf_sci _ W p q (rx_sc_skel x) (rx_sc_skel y)); auto.
Qed.
End Holders.

(** ** The SecY of a call *)
Section Named.
Context {B : Type} {CO : Callout80 B} {HO : Host B}.
Variable dev : Z.

Lemma port_check_find_first port l i j : port_check_find port l i = Some j ->
  (exists s, l !! Z.to_nat (j - i) = Some s /\ secy_in_use s = true /\
     sci_port_id (secy_sci s) = mp_port_id port /\ secy_service_id s = mp_service_id port) /\ i <= j /\
  forall n s, (n < Z.to_nat (j - i))%nat -> l !! n = Some s -> secy_in_use s = true ->
    sci_port_id (secy_sci s) = mp_port_id port -> secy_service_id s = mp_service_id port -> False.
Proof.
  revert i. induction l as [|s l IH]; intros i; cbn [port_check_find]; [done|]. case_match eqn:E.
  - intros [= <-]. apply andb_prop in E as [[Eu Ep]%andb_prop Es]. apply Z.eqb_eq in Ep, Es.
    rewrite Z.sub_diag. split; [by exists s|]. split; [lia|]. intros n ? Hn. cbn in Hn. lia.
  - intros H. destruct (IH _ H) as (Hs & Hle & Hn). replace (Z.to_nat (j - i)) with (S (Z.to_nat (j - (i + 1)))) by lia.
    split; [exact Hs|]. split; [lia|]. intros [|n] s' Hlt; [|intros Hs'; apply (Hn n); [lia|done]].
    intros [= <-] Hu Hp Hv. by rewrite Hu, Hp, Hv, !Z.eqb_refl in E.
Qed.
Lemma port_check_named port w d r (w' : world (env80 B) phy25g_phy_state_t) : w_data w !! dev = Some d ->
  lan80xx_macsec_port_check dev port false w = Some (r, w') -> fst r = MEPA_RC_OK ->
  w' = w /\ secy_named (p80_macsec_conf d) port (snd r).
Proof.
  intros Hd. unfold lan80xx_macsec_port_check, lan80xx_port_macsec_enable_check. intros H Hr.
  assert (forall A e g (w1 : world (env80 B) phy25g_phy_state_t) (x : A) w2, e < 0 -> w_data w1 !! dev = Some d ->
    (rc <- dbg_counter_incr dev (mp_port_no port) e ;; ret (g rc)) w1 = Some (x, w2) ->
    exists rc, rc < 0 /\ x = g rc) as Hneg.
  { intros A e g w1 x w2 He Hd1 Hx.
    destruct (quiet_dbg dev (skel (p80_macsec_conf d)) (mp_port_no port) e He (fun a _ => a < 0) (fun a Ha => Ha) w1 d Hd1 eq_refl)
      as (a & b & c & tr & E & _ & Ha). unfold bind in Hx. rewrite E in Hx. injection Hx as <- _. by exists a. }
  assert (Lan80xxMacsec.macsec dev w = Some (p80_macsec_conf d, w)) as Hm by (unfold Lan80xxMacsec.macsec, data_of, bind; by rewrite Hd).
  destruct (glb_init_enable (mc_glb (p80_macsec_conf d)) =? 0) eqn:Ee.
  { exfalso. unfold bind at 1 2 in H. rewrite Hm, Ee in H.
    destruct (dbg_counter_incr dev (mp_port_no port) MEPA_RC_ERR_MACSEC_NOT_ENABLED w) as [[rc w1]|] eqn:Ec; [|done].
    destruct (Hneg Z MEPA_RC_ERR_MACSEC_NOT_ENABLED (fun rc => rc) w rc w1) as (rc' & Hrc & ->); [done|done|unfold bind; by rewrite Ec|].
    rewrite (proj2 (Z.eqb_neq _ _)) in H by (change MEPA_RC_OK with 0; lia). by injection H as <- _. }
  unfold bind at 1 2 in H. rewrite Hm, Ee in H. change (ret MEPA_RC_OK w) with (Some (MEPA_RC_OK, w)) in H.
  cbv iota beta in H. change (negb (MEPA_RC_OK =? MEPA_RC_OK)) with false in H. cbv iota in H. unfold bind at 1 in H. rewrite Hm in H.
  destruct (port_check_find _ _ _) as [i|] eqn:Ef; [|exfalso].
  - injection H as <- <-. split; [done|]. cbn [snd].
    destruct (port_check_find_first _ _ _ _ Ef) as ((s & Hs & Hin) & Hi & Hn). rewrite Z.sub_0_r in *.
    apply lookup_take_Some in Hs as [Hs _]. split.
    + exists s. split; [|done]. unfold secy_of. by rewrite idx_nat by done.
    + intros j s' Hj Hs' Hu. unfold secy_of in Hs'. apply idx_some in Hs' as (n & -> & Hs').
      pose proof (port_check_find_some _ _ _ _ Ef) as (s0 & Hs0 & _). rewrite Z.sub_0_r in Hs0. apply lookup_take_Some in Hs0 as [_ Hlt].
      apply (Hn n s'); [lia| |done]. rewrite lookup_take_lt; [done|lia].
  - destruct (Hneg (Z * Z)%type MEPA_RC_ERR_MACSEC_NO_SECY_FOUND (fun rc => (rc, 0)) w r w') as (rc & Hrc & ->); [done|done|exact H|].
    cbn in Hr. change MEPA_RC_OK with 0 in Hr. lia.
Qed.
End Named.

(** ** The promises *)
Section Promises.
Context {B : Type} {CO : Callout80 B} {HO : Host B}.
Variable dev : Z.
Notation M := (M (env80 B) phy25g_phy_state_t).

Lemma run_calls_wf l w d : w_data w !! dev = Some d -> wf (skel (p80_macsec_conf d)) -> Forall in_range l ->
  exists w' c, run_calls dev l w = Some (tt, w') /\ w_data w' = <[dev := set_p80_macsec_conf c d]> (w_data w) /\
    rtc astep (skel (p80_macsec_conf d)) (skel c).
Proof.
  revert w d. induction l as [|call l IH]; intros w d Hd W Hl; cbn [run_calls].
  - exists w, (p80_macsec_conf d). rewrite set_same, insert_id by done. done.
  - apply Forall_cons in Hl as [Hc Hl].
    destruct (run_call_lwp dev _ call W Hc w d Hd eq_refl) as (rc & b & c & tr & E & _ & _ & Hsteps).
    unfold bind at 1. rewrite E.
    destruct (IH (World b (<[dev:=set_p80_macsec_conf c d]> (w_data w)) (w_log w ++ call_log tr)) (set_p80_macsec_conf c d))
      as (w' & c' & Hrun & Hdata & Hsteps'); [apply lookup_insert_eq|by eapply wf_steps|done|].
    exists w', c'. split; [done|]. split; [rewrite Hdata; cbn; rewrite insert_insert_eq; by destruct d|]. by etrans.
Qed.

(** C4. Any one of the 49 calls listed in [macsec_call] (adding, reading, changing
    and removing SecYs, match patterns, transmit and receive channels and their
    associations, with or without extended packet numbers; their status; the
    counters of associations and channels and the debug counters; the controlled
    port; the next port; the bypass mode and tag; the other entry points of the
    MACsec driver are not covered), with arguments in range (a direction 0 or 1, an
    action 0 to 2, an association number that is not negative, and below 4 where
    the counters of a receive association are read), for a device
    whose tables are well-formed, whatever the register accesses and the clock
    return: it ends without undefined behaviour, returns OK or a negative code, changes nothing but the
    MACsec tables of the device, apart from register accesses and the clock makes
    no calls to the application but sleeps between one entry and one exit of the
    lock, and what it does to the ownership
    of records, channels and hardware indices is a sequence of steps of the
    abstract machine; so the tables are well-formed again, also when it fails. *)
Theorem macsec_call_steps w d call :
  w_data w !! dev = Some d -> wf (skel (p80_macsec_conf d)) -> in_range call ->
  exists rc b c tr,
    run_call dev call w = Some (rc, World b (<[dev := set_p80_macsec_conf c d]> (w_data w)) (w_log w ++ call_log tr)) /\
    Forall is_sleep tr /\ rc <= MEPA_RC_OK /\
    rtc astep (skel (p80_macsec_conf d)) (skel c) /\ wf (skel c).
Proof.
  intros Hd W Hc. destruct (run_call_lwp dev _ call W Hc w d Hd eq_refl) as (rc & b & c & tr & E & Ht & Hrc & Hsteps).
  exists rc, b, c, tr. split_and!; try done. by eapply wf_steps.
Qed.

(** C5. After any sequence of the 49 calls listed in [macsec_call] (the other entry
    points of the MACsec driver are not covered), with arguments in range (a
    direction 0 or 1, an action 0 to 2, an association number that is not
    negative, and below 4 where the counters of a receive association are read),
    from tables in which nothing is in use: no record of an
    association, no channel and no hardware index of a channel has two holders;
    no two channels in use have the same identifier; the records marked in use
    are exactly those that an association or a pattern holds, the channels in
    use exactly those that a SecY holds, and the hardware indices marked in
    [rx_sc_hw_idx_in_use] exactly those of the channels in use: nothing is shared
    or lost. *)
Theorem macsec_calls_exclusive w d l :
  w_data w !! dev = Some d -> skel (p80_macsec_conf d) = alloc_0 -> Forall in_range l ->
  exists w' c, run_calls dev l w = Some (tt, w') /\ w_data w' = <[dev := set_p80_macsec_conf c d]> (w_data w) /\ exclusive c.
Proof.
  intros Hd H0 Hl. assert (wf (skel (p80_macsec_conf d))) as W by (rewrite H0; apply wf_alloc_0).
  destruct (run_calls_wf l w d Hd W Hl) as (w' & c & Hrun & Hdata & Hsteps).
  exists w', c. split_and!; try done. apply wf_exclusive. by eapply wf_steps.
Qed.

Lemma secy_del_run w d port w' :
  w_data w !! dev = Some d -> wf (skel (p80_macsec_conf d)) ->
  run_call dev (SecyDel port) w = Some (MEPA_RC_OK, w') ->
  exists i c b tr, secy_named (p80_macsec_conf d) port i /\
    w' = World b (<[dev := set_p80_macsec_conf c d]> (w_data w)) (w_log w ++ call_log tr) /\
    rtc astep (skel (p80_macsec_conf d)) (skel c) /\ at_secy (skel c) i secy_k_0.
Proof.
  intros Hd W Hrun. set (k := skel (p80_macsec_conf d)) in *.
  destruct (quiet_port_check dev k port false
      (fun r k' => k' = k /\ ((fst r = MEPA_RC_OK /\ exists s, at_secy k (snd r) s /\ ks_in_use s = true) \/ fst r < 0)) ltac:(done)
      (entered w) d Hd eq_refl) as (r & b1 & c1 & tr1 & E1 & _ & _ & Hr).
  assert (forall rc w2, on_secy dev port (lan80xx_macsec_secy_conf_del_ dev port) (entered w) =
    Some (rc, World (w_bus w2) (w_data w2) (w_log (entered w) ++ w_log w2)) -> rc = MEPA_RC_OK /\
    w' = World (w_bus w2) (w_data w2) (w_log w ++ call_log (w_log w2))) as Hrun'.
  { intros rc w2 E. apply locked_run in E. change (run_call dev (SecyDel port) w) with
      (locked (on_secy dev port (lan80xx_macsec_secy_conf_del_ dev port)) w) in Hrun. rewrite E in Hrun. by injection Hrun as <- <-. }
  unfold on_secy, bind in Hrun'. rewrite E1 in Hrun'. destruct Hr as [(Hr & s & Hs & Hin)|Hr].
  - destruct (port_check_named dev port (entered w) d r _ Hd E1 Hr) as [Ew Hnamed]. rewrite Ew, Hr in Hrun'.
    destruct (awp_secy_del dev k (snd r) s port W Hs Hin (entered w) d Hd eq_refl) as (rc & b & c & tr & E & _ & [_ Hsteps] & H0).
    destruct (Hrun' rc (World b (<[dev := set_p80_macsec_conf c d]> (w_data w)) tr) E) as [-> ->].
    exists (snd r), c, b, tr. split_and!; [done|done|done|by apply H0].
  - exfalso. rewrite (proj2 (Z.eqb_neq _ _)) in Hrun' by (change MEPA_RC_OK with 0; lia).
    destruct (Hrun' (fst r) (World b1 (<[dev:=set_p80_macsec_conf c1 d]> (w_data w)) tr1) eq_refl) as [E _].
    change MEPA_RC_OK with 0 in E. lia.
Qed.

(** C6. [lan80xx_macsec_secy_conf_del] that returns OK, from well-formed tables,
    has worked on the SecY that [port] names: the first one in use with its port
    and its service identifier.  Afterwards this SecY is not in use and holds no
    transmit channel, no association and no receive channel; and every record of
    an association, receive channel and hardware index of a channel that is in
    use then is held by another SecY: all that this one held is free again. *)
Theorem macsec_secy_del_releases w d port w' :
  w_data w !! dev = Some d -> wf (skel (p80_macsec_conf d)) ->
  run_call dev (SecyDel port) w = Some (MEPA_RC_OK, w') ->
  exists i d', secy_named (p80_macsec_conf d) port i /\ w_data w' !! dev = Some d' /\ released (p80_macsec_conf d') i.
Proof.
  intros Hd W Hrun. set (k := skel (p80_macsec_conf d)) in *.
  destruct (secy_del_run w d port w' Hd W Hrun) as (i & c & b & tr & Hnamed & -> & Hsteps & Hs').
  exists i, (set_p80_macsec_conf c d). split; [done|]. split; [apply lookup_insert_eq|].
  change (p80_macsec_conf (set_p80_macsec_conf c d)) with c.
  assert (wf (skel c)) as Wc by (by eapply wf_steps). pose proof (wf_exclusive c Wc) as [_ _ _ Xt Xr Xs Xh _].
  destruct (secy_at c _ i _ eq_refl Hs') as (s2 & Es2 & Hs2). 
  pose proof (f_equal ks_in_use Hs2 : secy_in_use s2 = false) as Hin2.
  pose proof (f_equal ks_rx_sc Hs2 : secy_rx_sc s2 = replicate 64 None) as Hrx2.
  pose proof (f_equal ks_tx_in_use Hs2 : tsc_in_use (secy_tx_sc s2) = false) as Htx2.
  pose proof (f_equal ks_tx_sa Hs2 : tsc_sa (secy_tx_sc s2) = replicate 4 None) as Hsa2.
  assert (forall j, rx_sc_ptr c i j <> None -> False) as Hnosc.
  { intros j Hj. unfold rx_sc_ptr, rx_sc_slot in Hj. rewrite Es2 in Hj. cbn in Hj. rewrite Hrx2 in Hj.
    destruct (idx _ j) as [v|] eqn:Ej in Hj; [|done]. apply idx_some in Ej as (n & _ & Ej).
    apply lookup_replicate in Ej as [-> _]. done. }
  assert (forall p x, mc_rx_sc c !! p = Some x -> rsc_in_use x = true -> exists i' j, i' <> i /\ rx_sc_ptr c i' j = Some p) as Hsc.
  { intros p x Hp Hu. apply (Xs p x Hp) in Hu as (i' & j & Hij). exists i', j. split; [|done]. intros ->.
    apply (Hnosc j). by rewrite Hij. }
  split; [by exists s2|]. split; [|split; [|split]].
  - intros r sa Hr Hu. apply (Xt r sa Hr) in Hu as [[[i' n]|[i' n]] Ho]; exists i', n; (split; [|by auto]); intros ->; cbn in Ho.
    + unfold tx_sa_ptr, tx_sa_slot in Ho. rewrite Es2 in Ho. cbn in Ho. rewrite Hsa2 in Ho.
      destruct (idx _ n) as [v|] eqn:Ej in Ho; [|done]. apply idx_some in Ej as (m & _ & Ej).
      apply lookup_replicate in Ej as [-> _]. done.
    + destruct Ho as (s3 & Es3 & Hin3 & _). congruence.
  - intros r sa Hr Hu. apply (Xr r sa Hr) in Hu as [[[[i' j] n]|[i' n]] Ho].
    + exists i', j, n. split; [|by auto]. intros ->. apply (Hnosc j). cbn in Ho. unfold rx_sa_ptr, rx_sa_slot, rx_sc_of in Ho.
      by destruct (rx_sc_ptr c i j).
    + exists i', 0, n. split; [|by auto]. intros ->. destruct Ho as (s3 & Es3 & Hin3 & _). congruence.
  - intros p x Hp Hu. by apply (Hsc p x Hp).
  - intros h Hh Hb. apply (Xh h Hh) in Hb as (p & x & Hp & Hu & Hx). destruct (Hsc p x Hp Hu) as (i' & j & Hn & Hij).
    by exists i', j, p, x.
Qed.
End Promises.

(** ** A device whose registers all read 0 *)
Section Example.
#[local] Instance zero_bus : Callout80 unit := {|
  spi_read := Some (fun _ _ _ _ b => ((MEPA_RC_OK, Some 0), b));
  spi_write := Some (fun _ _ _ _ _ b => (MEPA_RC_OK, b));
  spi_read_64bit := Some (fun _ _ _ _ b => ((MEPA_RC_OK, Some 0), b));
  mmd_read := None; mmd_read_inc := None; mmd_write := None;
  gpio := fun _ _ b => (MEPA_RC_OK, b); enter80 := true; exit80 := true; uninit80 := fun _ => 0;
|}.
#[local] Instance zero_host : Host unit := {| uptime := fun b => (7, b); big_endian := false |}.

(** MACsec is enabled and nothing is in use. *)
Definition enabled_conf : phy25g_macsec_internal_conf_t :=
  set_mc_glb (Mk_phy25g_macsec_internal_glb_t mepa_macsec_bypass_mode_t_0 phy25g_macsec_cleartags_conf_t_0 false 1)
    phy25g_macsec_internal_conf_t_0.
Definition enabled_world : world (env80 unit) phy25g_phy_state_t :=
  World (Env80 tt []) {[ 1 := Mk_phy25g_phy_state_t 0 0 None None 0 false 2 0 0 enabled_conf ]} [].

Definition port_0 : mepa_macsec_port_t := Mk_mepa_macsec_port_t 0 0 1.
Definition conf_0 : mepa_macsec_secy_conf_t := set_sc_mac_addr [0;1;2;3;4;5] mepa_macsec_secy_conf_t_0.
Definition sci_1 : mepa_macsec_sci_t := Mk_mepa_macsec_sci_t [0;1;2;3;4;6] 1.
Definition setup_calls : list macsec_call :=
  [SecyAdd port_0 conf_0; TxScSet port_0; TxSaSet port_0 0 1 TRUE mepa_macsec_sak_t_0; TxSaSet port_0 3 1 TRUE mepa_macsec_sak_t_0;
   RxScAdd port_0 sci_1; RxSaSet port_0 sci_1 1 0 mepa_macsec_sak_t_0;
   PatternSet port_0 MEPA_MACSEC_DIRECTION_EGRESS MEPA_MACSEC_MATCH_ACTION_UNCONTROLLED_PORT mepa_macsec_match_pattern_t_0].
Definition setup_world : world (env80 unit) phy25g_phy_state_t :=
  match run_calls 1 setup_calls enabled_world with Some (_, w) => w | None => enabled_world end.
Definition tables (w : world (env80 unit) phy25g_phy_state_t) : phy25g_macsec_internal_conf_t :=
  match w_data w !! 1 with Some d => p80_macsec_conf d | None => enabled_conf end.

(** The calls take records, a channel and a hardware index, and the removal of
    the SecY gives all of them back. *)
Example setup_takes :
  let c := tables setup_world in
  (tx_sa_ptr c 0 0, tx_sa_ptr c 0 3, rx_sa_ptr c 0 0 1, mc_rx_sc_hw_idx_in_use c) = (Some 0%nat, Some 1%nat, Some 0%nat, 1) /\
  pattern_record_of c 0 MEPA_MACSEC_MATCH_ACTION_UNCONTROLLED_PORT MEPA_MACSEC_DIRECTION_EGRESS = Some 2.
Proof. vm_compute. done. Qed.
Lemma enabled_skel d : w_data enabled_world !! 1 = Some d -> skel (p80_macsec_conf d) = alloc_0.
Proof. intros E. injection E as <-. reflexivity. Qed.
Lemma setup_in_range : Forall in_range setup_calls.
Proof. by repeat constructor. Qed.

Lemma macsec_call_steps_witness :
  exists rc b c tr d, w_data enabled_world !! 1 = Some d /\
    run_call 1 (SecyAdd port_0 conf_0) enabled_world =
      Some (rc, World b (<[1 := set_p80_macsec_conf c d]> (w_data enabled_world)) (w_log enabled_world ++ call_log tr)) /\
    rc <= MEPA_RC_OK /\ wf (skel c).
Proof.
  destruct (w_data enabled_world !! 1) as [d|] eqn:Hd; [|discriminate].
  assert (wf (skel (p80_macsec_conf d))) as W by (rewrite (enabled_skel d Hd); apply wf_alloc_0).
  destruct (macsec_call_steps 1 enabled_world d (SecyAdd port_0 conf_0) Hd W I) as (rc & b & c & tr & E & _ & Hrc & _ & Wc).
  exists rc, b, c, tr, d. auto.
Defined.
Lemma macsec_calls_exclusive_witness :
  exists w' c d, run_calls 1 setup_calls enabled_world = Some (tt, w') /\ w_data w' !! 1 = Some (set_p80_macsec_conf c d) /\
    exclusive c.
Proof.
  destruct (w_data enabled_world !! 1) as [d|] eqn:Hd; [|discriminate].
  destruct (macsec_calls_exclusive 1 enabled_world d setup_calls Hd (enabled_skel d Hd) setup_in_range) as (w' & c & E & Hw & Hc).
  exists w', c, d. split; [exact E|]. split; [rewrite Hw; apply lookup_insert_eq|exact Hc].
Defined.
Lemma macsec_secy_del_releases_witness :
  exists w' i d', run_call 1 (SecyDel port_0) setup_world = Some (MEPA_RC_OK, w') /\
    secy_named (tables setup_world) port_0 i /\ w_data w' !! 1 = Some d' /\
    released (p80_macsec_conf d') i.
Proof.
  destruct (w_data enabled_world !! 1) as [d|] eqn:Hd; [|discriminate].
  assert (wf (skel (p80_macsec_conf d))) as W by (rewrite (enabled_skel d Hd); apply wf_alloc_0).
  destruct (run_calls_wf 1 setup_calls enabled_world d Hd W setup_in_range) as (w1 & c & E & Hw & Hsteps).
  assert (setup_world = w1) as Hs by (unfold setup_world; by rewrite E).
  assert (fst <$> run_call 1 (SecyDel port_0) setup_world = Some MEPA_RC_OK) as Hok by (vm_compute; reflexivity).
  destruct (run_call 1 (SecyDel port_0) setup_world) as [[rc w']|] eqn:Hrun; [|discriminate]. injection Hok as ->.
  rewrite Hs in Hrun.
  destruct (macsec_secy_del_releases 1 w1 (set_p80_macsec_conf c d) port_0 w') as (i & d' & Hn & Hd' & Hrel);
    [rewrite Hw; apply lookup_insert_eq|exact (wf_steps _ _ W Hsteps)|exact Hrun|].
  assert (tables setup_world = c) as Ht by (unfold tables; rewrite Hs, Hw, lookup_insert_eq; reflexivity).
  exists w', i, d'. rewrite Ht. auto.
Defined.
End Example.
