(* ===== verification/MepaFamilies.v ===== *)
(** * MepaFamilies: which driver a PHY gets

    The list of driver families that [mepa_create] of [mepa/common/src/phy.c]
    fills when it is first called, and the theorem that a PHY that matches a
    row of one of Microchip's own drivers is probed by that driver only, and
    after it by the default driver, which matches every PHY.

    The tables of the drivers that are not developed as such (those of
    [mepa/vtss], [mepa/aqr], [mepa/intel], the LAN887x) and of the LAN867x and
    LAN80xx are here, as the source fills them. *)

From Stdlib Require Import ZArith Lia List Bool String.
From stdpp Require Import base list.
From S2P Require Import Prelude MepaCore MepaCoreSpec MepaApi Lan8814Api Ksz9031 Lan884x DummyPhy Lan8770Api Lan8x8xApi.

(** ** Tables *)
#[local] Open Scope string_scope.
#[local] Open Scope list_scope.
Definition LAN867X_PHY_ID : Z := 0x0007c160.
Definition LAN867X_PHY_ID_MASK : Z := 0xFFFFFFF0.
Definition mepa_lan867x_driver_init : list mepa_driver_t :=
  [ Mk_mepa_driver_t LAN867X_PHY_ID LAN867X_PHY_ID_MASK
    [ ("mepa_driver_probe", "lan867x_probe");
      ("mepa_driver_delete", "lan867x_delete");
      ("mepa_driver_reset", "lan867x_reset");
      ("mepa_driver_poll", "lan867x_poll");
      ("mepa_driver_conf_set", "lan867x_conf_set");
      ("mepa_driver_conf_get", "lan867x_conf_get");
      ("mepa_driver_if_get", "lan867x_if_get");
      ("mepa_driver_media_get", "lan867x_media_get");
      ("mepa_driver_clause22_read", "lan867x_reg_read");
      ("mepa_driver_clause22_write", "lan867x_reg_write");
      ("mepa_driver_clause45_read", "lan867x_mmd_reg_read");
      ("mepa_driver_clause45_write", "lan867x_mmd_reg_write");
      ("mepa_capability", "lan867x_capability");
      ("mepa_driver_phy_info_get", "lan867x_info_get");
      ("mepa_debug_info_dump", "lan867x_debug_info");
      ("mepa_t1s", "lan867x_t1s_driver") ] ].

Definition lan80xx_ids : list Z :=
  [0x8044; 0x8043; 0x8042; 0x8024; 0x8023; 0x8022; 0x8268; 0x8267; 0x8264; 0x8263; 0x8262].
(** [MEPA_LAN80XX_MSEC] is [msec]. *)
Definition lan80xx_driver_create (msec : bool) (id : Z) : mepa_driver_t :=
  let ts_supported := negb ((id =? 0x8262) || (id =? 0x8022) || (id =? 0x8042))%Z in
  Mk_mepa_driver_t id 0x00FFFF (
    [ ("mepa_driver_delete", "lan80xx_delete");
      ("mepa_driver_reset", "lan80xx_reset");
      ("mepa_driver_poll", "lan80xx_poll");
      ("mepa_driver_probe", "lan80xx_probe");
      ("mepa_driver_conf_set", "lan80xx_conf_set");
      ("mepa_driver_conf_get", "lan80xx_conf_get");
      ("mepa_driver_if_get", "lan80xx_if_get");
      ("mepa_driver_if_set", "lan80xx_if_set");
      ("mepa_driver_power_set", "lan80xx_power_set");
      ("mepa_driver_clause45_read", "lan80xx_clause45_read");
      ("mepa_driver_clause45_write", "lan80xx_clause45_write");
      ("mepa_driver_loopback_set", "lan80xx_loopback_set");
      ("mepa_driver_loopback_get", "lan80xx_loopback_get");
      ("mepa_driver_gpio_mode_set", "lan80xx_gpio_mode_set");
      ("mepa_driver_gpio_out_set", "lan80xx_gpio_write");
      ("mepa_driver_gpio_in_get", "lan80xx_gpio_read");
      ("mepa_driver_link_base_port", "lan80xx_link_base_port");
      ("mepa_driver_phy_i2c_read", "lan80xx_phy_i2c_read");
      ("mepa_driver_phy_i2c_write", "lan80xx_phy_i2c_write");
      ("mepa_driver_phy_info_get", "lan80xx_phy_info_get");
      ("mepa_driver_prbs_set", "lan80xx_prbs_set");
      ("mepa_driver_prbs_get", "lan80xx_prbs_get");
      ("mepa_driver_prbs_monitor_set", "lan80xx_prbs_monitor_set");
      ("mepa_driver_prbs_monitor_get", "lan80xx_prbs_monitor_get");
      ("mepa_driver_chip_temp_get", "lan80xx_chip_temp_get");
      ("mepa_driver_warmrestart_conf_get", "lan80xx_restart_conf_get");
      ("mepa_driver_warmrestart_conf_set", "lan80xx_restart_conf_set");
      ("mepa_capability", "lan80xx_phy_capability");
      ("mepa_debug_info_dump", "lan80xx_debug_info_dump");
      ("mepa_driver_synce_clock_conf_set", "lan80xx_synce_clk_conf_set");
      ("mepa_driver_framepreempt_set", "lan80xx_framepreempt_set");
      ("mepa_driver_framepreempt_get", "lan80xx_framepreempt_get") ] ++
    (if ts_supported then [("mepa_ts", "lan80xx_ts_drivers")] else []) ++
    (if msec && existsb (Z.eqb id) [0x8044; 0x8042; 0x8024; 0x8022; 0x8268; 0x8264; 0x8262]
     then [("mepa_macsec", "lan80xx_macsec_drivers")] else [])).
Definition mepa_lan80xx_driver_init (msec : bool) : list mepa_driver_t := map (lan80xx_driver_create msec) lan80xx_ids.

Definition mepa_mscc_driver_init : list mepa_driver_t :=
  [ Mk_mepa_driver_t 0x000706e0 0xffffffe0 [
      ("mepa_driver_delete", "mscc_1g_delete"); ("mepa_driver_reset", "mscc_1g_reset");
      ("mepa_driver_poll", "mscc_1g_poll"); ("mepa_driver_conf_set", "mscc_1g_conf_set");
      ("mepa_driver_conf_get", "phy_1g_conf_get"); ("mepa_driver_if_set", "mscc_if_set");
      ("mepa_driver_if_get", "mscc_1g_if_get"); ("mepa_driver_power_set", "mscc_1g_power_set");
      ("mepa_driver_cable_diag_start", "mscc_1g_veriphy_start");
      ("mepa_driver_cable_diag_get", "mscc_1g_veriphy_get"); ("mepa_driver_media_set", "mscc_1g_media_set");
      ("mepa_driver_probe", "mscc_1g_probe"); ("mepa_driver_aneg_status_get", "mscc_1g_status_1g_get");
      ("mepa_driver_clause22_read", "phy_1g_read"); ("mepa_driver_clause22_write", "phy_1g_write");
      ("mepa_driver_event_enable_set", "phy_1g_event_enable_set");
      ("mepa_driver_event_enable_get", "phy_1g_event_enable_get"); ("mepa_driver_event_poll", "phy_1g_event_poll");
      ("mepa_driver_loopback_set", "phy_1g_loopback_set"); ("mepa_driver_loopback_get", "phy_1g_loopback_get");
      ("mepa_driver_gpio_mode_set", "phy_1g_gpio_mode"); ("mepa_driver_gpio_out_set", "phy_1g_gpio_set");
      ("mepa_driver_gpio_in_get", "phy_1g_gpio_get");
      ("mepa_driver_synce_clock_conf_set", "phy_1g_synce_clk_conf_set");
      ("mepa_driver_link_base_port", "phy_1g_link_base_port"); ("mepa_capability", "phy_1g_capability");
      ("mepa_driver_phy_info_get", "phy_1g_info_get"); ("mepa_driver_isolate_mode_conf", "phy_isolate_mode_conf");
      ("mepa_debug_info_dump", "phy_debug_info_dump") ];
    Mk_mepa_driver_t 0x000704a0 0xfffffff0 [
      ("mepa_driver_delete", "mscc_1g_delete"); ("mepa_driver_reset", "mscc_1g_reset");
      ("mepa_driver_poll", "mscc_1g_poll"); ("mepa_driver_conf_set", "mscc_1g_conf_set");
      ("mepa_driver_conf_get", "phy_1g_conf_get"); ("mepa_driver_if_set", "mscc_if_set");
      ("mepa_driver_if_get", "mscc_1g_if_get"); ("mepa_driver_power_set", "mscc_1g_power_set");
      ("mepa_driver_cable_diag_start", "mscc_1g_veriphy_start");
      ("mepa_driver_cable_diag_get", "mscc_1g_veriphy_get"); ("mepa_driver_media_set", "mscc_1g_media_set");
      ("mepa_driver_probe", "mscc_1g_probe"); ("mepa_driver_aneg_status_get", "mscc_1g_status_1g_get");
      ("mepa_driver_clause22_read", "phy_1g_read"); ("mepa_driver_clause22_write", "phy_1g_write");
      ("mepa_driver_event_enable_set", "phy_1g_event_enable_set");
      ("mepa_driver_event_enable_get", "phy_1g_event_enable_get"); ("mepa_driver_event_poll", "phy_1g_event_poll");
      ("mepa_driver_loopback_set", "phy_1g_loopback_set"); ("mepa_driver_loopback_get", "phy_1g_loopback_get");
      ("mepa_driver_gpio_mode_set", "phy_1g_gpio_mode"); ("mepa_driver_gpio_out_set", "phy_1g_gpio_set");
      ("mepa_driver_gpio_in_get", "phy_1g_gpio_get");
      ("mepa_driver_synce_clock_conf_set", "phy_1g_synce_clk_conf_set");
      ("mepa_driver_link_base_port", "phy_1g_link_base_port"); ("mepa_capability", "tesla_1g_capability");
      ("mepa_driver_phy_info_get", "phy_1g_info_get"); ("mepa_driver_isolate_mode_conf", "phy_isolate_mode_conf");
      ("mepa_driver_chip_temp_get", "phy_1g_chip_temp_get"); ("mepa_driver_phy_i2c_read", "phy_1g_i2c_read");
      ("mepa_driver_phy_i2c_write", "phy_1g_i2c_write");
      ("mepa_driver_phy_i2c_clock_select", "phy_1g_i2c_clock_select");
      ("mepa_driver_warmrestart_conf_get", "phy_1g_warmrestart_conf_get");
      ("mepa_driver_warmrestart_conf_end", "phy_1g_warmrestart_conf_end");
      ("mepa_driver_warmrestart_conf_set", "phy_1g_warmrestart_conf_set");
      ("mepa_driver_eee_mode_conf_set", "phy_eee_mode_conf_set");
      ("mepa_driver_eee_mode_conf_get", "phy_eee_mode_conf_get");
      ("mepa_driver_eee_status_get", "phy_eee_status_get"); ("mepa_debug_info_dump", "phy_debug_info_dump");
      ("mepa_driver_phy_qsgmii_sync", "phy_1g_qsgmii_sync"); ("mepa_ts", "vtss_ts_drivers") ];
    Mk_mepa_driver_t 0x000707c0 0xfffffff0 [
      ("mepa_driver_delete", "mscc_1g_delete"); ("mepa_driver_reset", "mscc_1g_reset");
      ("mepa_driver_poll", "mscc_1g_poll"); ("mepa_driver_conf_set", "mscc_1g_conf_set");
      ("mepa_driver_conf_get", "phy_1g_conf_get"); ("mepa_driver_if_set", "mscc_if_set");
      ("mepa_driver_if_get", "mscc_1g_if_get"); ("mepa_driver_power_set", "mscc_1g_power_set");
      ("mepa_driver_cable_diag_start", "mscc_1g_veriphy_start");
      ("mepa_driver_cable_diag_get", "mscc_1g_veriphy_get"); ("mepa_driver_media_set", "mscc_1g_media_set");
      ("mepa_driver_probe", "mscc_1g_probe"); ("mepa_driver_aneg_status_get", "mscc_1g_status_1g_get");
      ("mepa_driver_clause22_read", "phy_1g_read"); ("mepa_driver_clause22_write", "phy_1g_write");
      ("mepa_driver_event_enable_set", "phy_1g_event_enable_set");
      ("mepa_driver_event_enable_get", "phy_1g_event_enable_get"); ("mepa_driver_event_poll", "phy_1g_event_poll");
      ("mepa_driver_loopback_set", "phy_1g_loopback_set"); ("mepa_driver_loopback_get", "phy_1g_loopback_get");
      ("mepa_driver_gpio_mode_set", "phy_1g_gpio_mode"); ("mepa_driver_gpio_out_set", "phy_1g_gpio_set");
      ("mepa_driver_gpio_in_get", "phy_1g_gpio_get");
      ("mepa_driver_synce_clock_conf_set", "phy_1g_synce_clk_conf_set");
      ("mepa_driver_link_base_port", "phy_1g_link_base_port"); ("mepa_driver_phy_info_get", "phy_1g_info_get");
      ("mepa_driver_isolate_mode_conf", "phy_isolate_mode_conf"); ("mepa_debug_info_dump", "phy_debug_info_dump");
      ("mepa_driver_phy_i2c_read", "phy_1g_i2c_read"); ("mepa_driver_phy_i2c_write", "phy_1g_i2c_write");
      ("mepa_driver_phy_i2c_clock_select", "phy_1g_i2c_clock_select"); ("mepa_capability", "viper_1g_capability");
      ("mepa_driver_phy_fefi_set", "phy_1g_fefi_set"); ("mepa_driver_phy_fefi_get", "phy_1g_fefi_get");
      ("mepa_driver_phy_fefi_detect", "phy_1g_fefi_detect"); ("mepa_driver_chip_temp_get", "phy_1g_chip_temp_get");
      ("mepa_driver_warmrestart_conf_get", "phy_1g_warmrestart_conf_get");
      ("mepa_driver_warmrestart_conf_end", "phy_1g_warmrestart_conf_end");
      ("mepa_driver_warmrestart_conf_set", "phy_1g_warmrestart_conf_set");
      ("mepa_driver_eee_mode_conf_set", "phy_eee_mode_conf_set");
      ("mepa_driver_eee_mode_conf_get", "phy_eee_mode_conf_get");
      ("mepa_driver_eee_status_get", "phy_eee_status_get"); ("mepa_ts", "vtss_ts_drivers");
      ("mepa_macsec", "vtss_macsec_drivers") ];
    Mk_mepa_driver_t 0x00070400 0xfffffc00 [
      ("mepa_driver_delete", "mscc_1g_delete"); ("mepa_driver_reset", "mscc_1g_reset");
      ("mepa_driver_poll", "mscc_1g_poll"); ("mepa_driver_conf_set", "mscc_1g_conf_set");
      ("mepa_driver_conf_get", "phy_1g_conf_get"); ("mepa_driver_if_set", "mscc_if_set");
      ("mepa_driver_if_get", "mscc_1g_if_get"); ("mepa_driver_power_set", "mscc_1g_power_set");
      ("mepa_driver_cable_diag_start", "mscc_1g_veriphy_start");
      ("mepa_driver_cable_diag_get", "mscc_1g_veriphy_get"); ("mepa_driver_media_set", "mscc_1g_media_set");
      ("mepa_driver_probe", "mscc_1g_probe"); ("mepa_driver_aneg_status_get", "mscc_1g_status_1g_get");
      ("mepa_driver_clause22_read", "phy_1g_read"); ("mepa_driver_clause22_write", "phy_1g_write");
      ("mepa_driver_event_enable_set", "phy_1g_event_enable_set");
      ("mepa_driver_event_enable_get", "phy_1g_event_enable_get"); ("mepa_driver_event_poll", "phy_1g_event_poll");
      ("mepa_driver_loopback_set", "phy_1g_loopback_set"); ("mepa_driver_loopback_get", "phy_1g_loopback_get");
      ("mepa_driver_gpio_mode_set", "phy_1g_gpio_mode"); ("mepa_driver_gpio_out_set", "phy_1g_gpio_set");
      ("mepa_driver_gpio_in_get", "phy_1g_gpio_get");
      ("mepa_driver_synce_clock_conf_set", "phy_1g_synce_clk_conf_set");
      ("mepa_driver_link_base_port", "phy_1g_link_base_port"); ("mepa_capability", "phy_1g_capability");
      ("mepa_driver_phy_info_get", "phy_1g_info_get"); ("mepa_driver_isolate_mode_conf", "phy_isolate_mode_conf");
      ("mepa_debug_info_dump", "phy_debug_info_dump"); ("mepa_driver_phy_qsgmii_sync", "phy_1g_qsgmii_sync") ];
    Mk_mepa_driver_t 0x000FC400 0xfffffc00 [
      ("mepa_driver_delete", "mscc_1g_delete"); ("mepa_driver_reset", "mscc_1g_reset");
      ("mepa_driver_poll", "mscc_1g_poll"); ("mepa_driver_conf_set", "mscc_1g_conf_set");
      ("mepa_driver_conf_get", "phy_1g_conf_get"); ("mepa_driver_if_set", "mscc_if_set");
      ("mepa_driver_if_get", "mscc_1g_if_get"); ("mepa_driver_power_set", "mscc_1g_power_set");
      ("mepa_driver_cable_diag_start", "mscc_1g_veriphy_start");
      ("mepa_driver_cable_diag_get", "mscc_1g_veriphy_get"); ("mepa_driver_media_set", "mscc_1g_media_set");
      ("mepa_driver_probe", "mscc_1g_probe"); ("mepa_driver_aneg_status_get", "mscc_1g_status_1g_get");
      ("mepa_driver_clause22_read", "phy_1g_read"); ("mepa_driver_clause22_write", "phy_1g_write");
      ("mepa_driver_event_enable_set", "phy_1g_event_enable_set");
      ("mepa_driver_event_enable_get", "phy_1g_event_enable_get"); ("mepa_driver_event_poll", "phy_1g_event_poll");
      ("mepa_driver_loopback_set", "phy_1g_loopback_set"); ("mepa_driver_loopback_get", "phy_1g_loopback_get");
      ("mepa_driver_gpio_mode_set", "phy_1g_gpio_mode"); ("mepa_driver_gpio_out_set", "phy_1g_gpio_set");
      ("mepa_driver_gpio_in_get", "phy_1g_gpio_get");
      ("mepa_driver_synce_clock_conf_set", "phy_1g_synce_clk_conf_set"); ("mepa_capability", "phy_1g_capability");
      ("mepa_driver_phy_info_get", "phy_1g_info_get"); ("mepa_driver_isolate_mode_conf", "phy_isolate_mode_conf");
      ("mepa_debug_info_dump", "phy_debug_info_dump") ] ].
Definition mepa_malibu_driver_init : list mepa_driver_t :=
  [ Mk_mepa_driver_t (drv_id malibu_drivers) (drv_mask malibu_drivers) (drv_slots malibu_drivers ++
      [ ("mepa_ts", "vtss_ts_drivers"); ("mepa_macsec", "vtss_macsec_drivers") ]) ].
Definition mepa_venice_driver_init : list mepa_driver_t :=
  [ Mk_mepa_driver_t 0x8400 0x0000FF00 [
      ("mepa_driver_delete", "phy_10g_delete"); ("mepa_driver_reset", "venice_10g_reset");
      ("mepa_driver_poll", "phy_10g_poll"); ("mepa_driver_conf_set", "phy_10g_conf_set");
      ("mepa_driver_if_set", "mscc_if_set"); ("mepa_driver_if_get", "venice_10g_if_get");
      ("mepa_driver_probe", "phy_10g_probe"); ("mepa_capability", "venice_10g_capability");
      ("mepa_driver_phy_info_get", "phy_10g_info_get"); ("mepa_ts", "vtss_ts_drivers") ] ].
Definition default_driver : mepa_driver_t :=
  Mk_mepa_driver_t 0x0 0x00 [
    ("mepa_driver_delete", "mscc_1g_delete"); ("mepa_driver_reset", "mscc_1g_reset");
    ("mepa_driver_poll", "mscc_1g_poll"); ("mepa_driver_conf_set", "mscc_1g_conf_set");
    ("mepa_driver_conf_get", "phy_1g_conf_get"); ("mepa_driver_if_set", "mscc_if_set");
    ("mepa_driver_if_get", "mscc_1g_if_get"); ("mepa_driver_power_set", "mscc_1g_power_set");
    ("mepa_driver_cable_diag_start", "mscc_1g_veriphy_start"); ("mepa_driver_cable_diag_get", "mscc_1g_veriphy_get");
    ("mepa_driver_media_set", "mscc_1g_media_set"); ("mepa_driver_probe", "mscc_1g_probe");
    ("mepa_driver_aneg_status_get", "mscc_1g_status_1g_get"); ("mepa_driver_clause22_read", "phy_1g_read");
    ("mepa_driver_clause22_write", "phy_1g_write"); ("mepa_driver_event_enable_set", "phy_1g_event_enable_set");
    ("mepa_driver_event_enable_get", "phy_1g_event_enable_get"); ("mepa_driver_event_poll", "phy_1g_event_poll");
    ("mepa_driver_loopback_set", "phy_1g_loopback_set"); ("mepa_driver_loopback_get", "phy_1g_loopback_get");
    ("mepa_driver_gpio_mode_set", "phy_1g_gpio_mode"); ("mepa_driver_gpio_out_set", "phy_1g_gpio_set");
    ("mepa_driver_gpio_in_get", "phy_1g_gpio_get");
    ("mepa_driver_synce_clock_conf_set", "phy_1g_synce_clk_conf_set"); ("mepa_capability", "phy_1g_capability");
    ("mepa_driver_phy_info_get", "phy_1g_info_get"); ("mepa_driver_isolate_mode_conf", "phy_isolate_mode_conf");
    ("mepa_debug_info_dump", "phy_debug_info_dump"); ("mepa_driver_phy_i2c_read", "phy_1g_i2c_read");
    ("mepa_driver_phy_i2c_write", "phy_1g_i2c_write") ].
Definition mepa_default_phy_driver_init : list mepa_driver_t := [default_driver].
Definition mepa_aqr_driver_init : list mepa_driver_t :=
  [ Mk_mepa_driver_t 0xB552 0x0000FFff [
      ("mepa_driver_delete", "aqr_delete"); ("mepa_driver_poll", "aqr_poll");
      ("mepa_driver_conf_set", "aqr_conf_set"); ("mepa_driver_if_set", "aqr_407_if_set");
      ("mepa_driver_if_get", "aqr_if_get"); ("mepa_driver_cable_diag_start", "aqr_veriphy_start");
      ("mepa_driver_cable_diag_get", "aqr_veriphy_get"); ("mepa_driver_probe", "aqr_probe");
      ("mepa_driver_aneg_status_get", "aqr_status_1g_get"); ("mepa_capability", "aqr_capability");
      ("mepa_driver_phy_info_get", "aqr_info_get"); ("mepa_driver_clause45_read", "aqr_mmd_read");
      ("mepa_driver_clause45_write", "aqr_mmd_write") ];
    Mk_mepa_driver_t 0xB582 0x0000FFff [
      ("mepa_driver_delete", "aqr_delete"); ("mepa_driver_poll", "aqr_poll");
      ("mepa_driver_conf_set", "aqr_conf_set"); ("mepa_driver_if_set", "aqr_407_if_set");
      ("mepa_driver_if_get", "aqr_if_get"); ("mepa_driver_cable_diag_start", "aqr_veriphy_start");
      ("mepa_driver_cable_diag_get", "aqr_veriphy_get"); ("mepa_driver_probe", "aqr_probe");
      ("mepa_driver_aneg_status_get", "aqr_status_1g_get"); ("mepa_capability", "aqr_capability");
      ("mepa_driver_phy_info_get", "aqr_info_get") ];
    Mk_mepa_driver_t 0xB581 0x00000FFff [
      ("mepa_driver_delete", "aqr_delete"); ("mepa_driver_poll", "aqr_poll");
      ("mepa_driver_conf_set", "aqr_conf_set"); ("mepa_driver_if_set", "aqr_407_if_set");
      ("mepa_driver_if_get", "aqr_if_get"); ("mepa_driver_cable_diag_start", "aqr_veriphy_start");
      ("mepa_driver_cable_diag_get", "aqr_veriphy_get"); ("mepa_driver_probe", "aqr_probe");
      ("mepa_driver_aneg_status_get", "aqr_status_1g_get"); ("mepa_capability", "aqr_capability");
      ("mepa_driver_phy_info_get", "aqr_info_get") ];
    Mk_mepa_driver_t 0xB692 0x0000FFff [
      ("mepa_driver_delete", "aqr_delete"); ("mepa_driver_poll", "aqr_poll");
      ("mepa_driver_conf_set", "aqr_409_conf_set"); ("mepa_driver_if_set", "aqr_407_if_set");
      ("mepa_driver_if_get", "aqr_409_if_get"); ("mepa_driver_cable_diag_start", "aqr_veriphy_start");
      ("mepa_driver_cable_diag_get", "aqr_veriphy_get"); ("mepa_driver_probe", "aqr_probe");
      ("mepa_driver_aneg_status_get", "aqr_status_1g_get"); ("mepa_capability", "aqr_capability");
      ("mepa_driver_phy_info_get", "aqr_info_get") ];
    Mk_mepa_driver_t 0xB572 0x0000FFff [
      ("mepa_driver_delete", "aqr_delete"); ("mepa_driver_poll", "aqr_poll");
      ("mepa_driver_conf_set", "aqr_409_conf_set"); ("mepa_driver_if_set", "aqr_407_if_set");
      ("mepa_driver_if_get", "aqr_409_if_get"); ("mepa_driver_cable_diag_start", "aqr_veriphy_start");
      ("mepa_driver_cable_diag_get", "aqr_veriphy_get"); ("mepa_driver_probe", "aqr_probe");
      ("mepa_driver_aneg_status_get", "aqr_status_1g_get"); ("mepa_capability", "aqr_capability");
      ("mepa_driver_phy_info_get", "aqr_info_get") ];
    Mk_mepa_driver_t 0xB6E0 0x0000FFff [
      ("mepa_driver_delete", "aqr_delete"); ("mepa_driver_poll", "aqr_poll");
      ("mepa_driver_conf_set", "aqr_conf_set"); ("mepa_driver_if_set", "aqr_gen3a_if_set");
      ("mepa_driver_if_get", "aqr_if_get"); ("mepa_driver_cable_diag_start", "aqr_veriphy_start");
      ("mepa_driver_cable_diag_get", "aqr_veriphy_get"); ("mepa_driver_probe", "aqr_probe");
      ("mepa_driver_aneg_status_get", "aqr_status_1g_get"); ("mepa_capability", "aqr_capability");
      ("mepa_driver_phy_info_get", "aqr_info_get") ];
    Mk_mepa_driver_t 0xB700 0x0000FFff [
      ("mepa_driver_delete", "aqr_delete"); ("mepa_driver_poll", "aqr_poll");
      ("mepa_driver_conf_set", "aqr_conf_set"); ("mepa_driver_if_set", "aqr_gen3a_if_set");
      ("mepa_driver_if_get", "aqr_if_get"); ("mepa_driver_cable_diag_start", "aqr_veriphy_start");
      ("mepa_driver_cable_diag_get", "aqr_veriphy_get"); ("mepa_driver_probe", "aqr_probe");
      ("mepa_driver_aneg_status_get", "aqr_status_1g_get"); ("mepa_capability", "aqr_capability");
      ("mepa_driver_phy_info_get", "aqr_info_get") ];
    Mk_mepa_driver_t 0xB6E2 0x0000FFff [
      ("mepa_driver_delete", "aqr_delete"); ("mepa_driver_poll", "aqr_poll");
      ("mepa_driver_conf_set", "aqr_conf_set"); ("mepa_driver_if_set", "aqr_gen3b_if_set");
      ("mepa_driver_if_get", "aqr_if_get"); ("mepa_driver_cable_diag_start", "aqr_veriphy_start");
      ("mepa_driver_cable_diag_get", "aqr_veriphy_get"); ("mepa_driver_probe", "aqr_probe");
      ("mepa_driver_aneg_status_get", "aqr_status_1g_get"); ("mepa_capability", "aqr_capability");
      ("mepa_driver_phy_info_get", "aqr_info_get") ];
    Mk_mepa_driver_t 0xB6F0 0x0000FFff [
      ("mepa_driver_delete", "aqr_delete"); ("mepa_driver_poll", "aqr_poll");
      ("mepa_driver_conf_set", "aqr_conf_set"); ("mepa_driver_if_set", "aqr_gen3a_if_set");
      ("mepa_driver_if_get", "aqr_if_get"); ("mepa_driver_cable_diag_start", "aqr_veriphy_start");
      ("mepa_driver_cable_diag_get", "aqr_veriphy_get"); ("mepa_driver_probe", "aqr_probe");
      ("mepa_driver_aneg_status_get", "aqr_status_1g_get"); ("mepa_capability", "aqr_capability");
      ("mepa_driver_phy_info_get", "aqr_info_get") ];
    Mk_mepa_driver_t 0xB710 0x0000FFff [
      ("mepa_driver_delete", "aqr_delete"); ("mepa_driver_poll", "aqr_poll");
      ("mepa_driver_conf_set", "aqr_conf_set"); ("mepa_driver_if_set", "aqr_gen3a_if_set");
      ("mepa_driver_if_get", "aqr_if_get"); ("mepa_driver_cable_diag_start", "aqr_veriphy_start");
      ("mepa_driver_cable_diag_get", "aqr_veriphy_get"); ("mepa_driver_probe", "aqr_probe");
      ("mepa_driver_aneg_status_get", "aqr_status_1g_get"); ("mepa_capability", "aqr_capability");
      ("mepa_driver_phy_info_get", "aqr_info_get") ];
    Mk_mepa_driver_t 0xB6F2 0x0000FFff [
      ("mepa_driver_delete", "aqr_delete"); ("mepa_driver_poll", "aqr_poll");
      ("mepa_driver_conf_set", "aqr_conf_set"); ("mepa_driver_if_set", "aqr_gen3b_if_set");
      ("mepa_driver_if_get", "aqr_if_get"); ("mepa_driver_cable_diag_start", "aqr_veriphy_start");
      ("mepa_driver_cable_diag_get", "aqr_veriphy_get"); ("mepa_driver_probe", "aqr_probe");
      ("mepa_driver_aneg_status_get", "aqr_status_1g_get"); ("mepa_capability", "aqr_capability");
      ("mepa_driver_phy_info_get", "aqr_info_get") ] ].
Definition INTL_PHY_CHIPID : Z := 0x67c9dc00.
Definition mepa_intel_driver_init : list mepa_driver_t :=
  [ Mk_mepa_driver_t INTL_PHY_CHIPID 0xffff0000 [
      ("mepa_driver_delete", "intl_delete"); ("mepa_driver_reset", "intl_reset"); ("mepa_driver_poll", "intl_poll");
      ("mepa_driver_conf_get", "intl_conf_get"); ("mepa_driver_conf_set", "intl_conf_set");
      ("mepa_driver_if_get", "intl_if_get"); ("mepa_driver_probe", "intl_probe");
      ("mepa_driver_aneg_status_get", "intl_status_1g_get"); ("mepa_capability", "intl_capability");
      ("mepa_driver_phy_info_get", "intl_info_get"); ("mepa_driver_clause22_read", "intl_miim_read");
      ("mepa_driver_clause22_write", "intl_miim_write"); ("mepa_driver_clause45_read", "intl_mmd_read");
      ("mepa_driver_clause45_write", "intl_mmd_write"); ("mepa_driver_event_enable_set", "intl_event_enable_set");
      ("mepa_driver_event_poll", "intl_event_poll"); ("mepa_driver_if_set", "intl_if_set");
      ("mepa_debug_info_dump", "intl_debug_info_dump") ] ].
Definition LAN8870_PHY_ID : Z := 0x7C1F2.
Definition LAN887X_PHY_ID_MASK : Z := 0xFFFF2.
(** [MEPA_OPT_TC10] is [tc10]. *)
Definition mepa_lan887x_driver_init (tc10 : bool) : list mepa_driver_t :=
  [ Mk_mepa_driver_t LAN8870_PHY_ID LAN887X_PHY_ID_MASK ([
      ("mepa_driver_delete", "lan887x_delete"); ("mepa_driver_reset", "lan887x_reset");
      ("mepa_driver_poll", "lan887x_poll"); ("mepa_driver_probe", "lan887x_probe");
      ("mepa_driver_aneg_status_get", "lan887x_aneg_status_get"); ("mepa_driver_conf_set", "lan887x_conf_set");
      ("mepa_driver_conf_get", "lan887x_conf_get"); ("mepa_driver_if_set", "lan887x_if_set");
      ("mepa_driver_if_get", "lan887x_if_get"); ("mepa_driver_media_set", "lan887x_media_set");
      ("mepa_driver_media_get", "lan887x_media_get"); ("mepa_driver_event_enable_set", "lan887x_event_enable_set");
      ("mepa_driver_event_enable_get", "lan887x_event_enable_get");
      ("mepa_driver_event_poll", "lan887x_event_status_poll");
      ("mepa_driver_gpio_mode_set", "lan887x_gpio_mode_set"); ("mepa_driver_gpio_out_set", "lan887x_gpio_out_set");
      ("mepa_driver_gpio_in_get", "lan887x_gpio_in_get"); ("mepa_driver_loopback_set", "lan887x_loopback_set");
      ("mepa_driver_loopback_get", "lan887x_loopback_get"); ("mepa_capability", "lan887x_capability");
      ("mepa_driver_phy_info_get", "lan887x_info_get"); ("mepa_debug_info_dump", "lan887x_debug_info");
      ("mepa_driver_clause22_read", "lan887x_reg_read"); ("mepa_driver_clause22_write", "lan887x_reg_write");
      ("mepa_driver_clause45_read", "lan887x_mmd_reg_read"); ("mepa_driver_clause45_write", "lan887x_mmd_reg_write");
      ("mepa_driver_sqi_read", "lan887x_sqi_read"); ("mepa_driver_isolate_mode_conf", "lan887x_isolate_mode_set");
      ("mepa_driver_cable_diag_start", "lan887x_cable_diag_start");
      ("mepa_driver_cable_diag_get", "lan887x_cable_diag_get") ] ++
      if tc10 then [("mepa_tc10", "lan887x_tc10_drivers")] else []) ].

#[local] Open Scope Z_scope.
#[local] Open Scope mepa_scope.
#[local] Open Scope list_scope.

(** ** The first call of [mepa_create] *)

(** The build options, [MEPA_HAS_...]; [opt_tc10] and [lan80xx_msec] are
    [MEPA_OPT_TC10] and [MEPA_LAN80XX_MSEC]. *)
Record build := Build {
  has_vtss : bool; has_aqr : bool; has_gpy2211 : bool; has_lan8814 : bool; has_ksz9031 : bool; has_lan8770 : bool;
  has_lan884x : bool; has_lan887x : bool; has_lan867x : bool; has_lan80xx : bool; has_dummy_phy : bool;
  has_lan8x8x : bool; opt_tc10 : bool; lan80xx_msec : bool }.

Definition PHY_FAMILIES : nat := 16.

(** [#if defined(c)] around an assignment to an entry that is empty. *)
Definition when (c : bool) (l : list mepa_driver_t) : list mepa_driver_t := if c then l else [].

Definition families (b : build) : list (list mepa_driver_t) :=
  [ when (has_vtss b) mepa_mscc_driver_init;
    when (has_vtss b) mepa_malibu_driver_init;
    when (has_vtss b) mepa_venice_driver_init;
    when (has_aqr b) mepa_aqr_driver_init;
    when (has_gpy2211 b) mepa_intel_driver_init;
    when (has_lan8814 b) lan8814_drivers;
    when (has_ksz9031 b) mepa_ksz9031_driver_init;
    when (has_lan8770 b) mepa_lan8770_driver_init;
    when (has_lan884x b) mepa_lan884x_driver_init;
    when (has_lan887x b) (mepa_lan887x_driver_init (opt_tc10 b));
    when (has_lan867x b) mepa_lan867x_driver_init;
    when (has_lan80xx b) (mepa_lan80xx_driver_init (lan80xx_msec b));
    when (has_dummy_phy b) mepa_dummy_driver_init;
    when (has_lan8x8x b) mepa_lan8x8x_driver_init;
    when (has_vtss b) mepa_default_phy_driver_init;
    [] ].

(** The static variables of [phy.c], and their first values. *)
Record core := Core { MEPA_init_done : bool; MEPA_phy_lib : list (list mepa_driver_t) }.
Definition core_0 : core := Core false (repeat [] PHY_FAMILIES).

Definition core_init (b : build) (c : core) : core :=
  if MEPA_init_done c then c else Core true (families b).

(** [mepa_create], over its static variables and the rest of the world. *)
Definition core_create {W Dev : Type} (b : build) (probe : mepa_driver_t -> W -> option Dev * W)
    (phy_id_get : W -> Z * W) (dummy_phy_cap : Z) (c : core) (w : W) : core * (option Dev * W) :=
  let c := core_init b c in
  (c, mepa_create probe phy_id_get dummy_phy_cap (MEPA_phy_lib c) w).

(** The entries of Microchip's own drivers. *)
Definition microchip_drivers (b : build) : list mepa_driver_t := concat (take 9 (drop 5 (families b))).

(** ** Rows that no identifier matches both *)

Definition disjoint (d d' : mepa_driver_t) : bool :=
  negb ((Z.lxor (drv_id d) (drv_id d') .& (drv_mask d .& drv_mask d')) =? 0).
Fixpoint pairwise (l : list mepa_driver_t) : bool :=
  match l with
  | [] => true
  | d :: l => forallb (disjoint d) l && pairwise l
  end.
Definition matching (id : Z) (l : list mepa_driver_t) : list mepa_driver_t := List.filter (drv_matches id) l.

Lemma disjoint_sym d d' : disjoint d d' = disjoint d' d.
Proof. unfold disjoint. by rewrite Z.lxor_comm, (Z.land_comm (drv_mask d)). Qed.

Lemma disjoint_matches d d' id : drv_matches id d = true -> disjoint d d' = true -> drv_matches id d' = false.
Proof.
  unfold drv_matches, disjoint. intros Hd Hx. apply Z.eqb_eq in Hd. apply negb_true_iff, Z.eqb_neq in Hx.
  apply Z.eqb_neq. intros Hd'. apply Hx. apply Z.bits_inj'. intros i Hi.
  apply (f_equal (fun z => Z.testbit z i)) in Hd, Hd'. rewrite !Z.land_spec in Hd, Hd'.
  rewrite !Z.land_spec, Z.lxor_spec, Z.bits_0.
  destruct (Z.testbit (drv_mask d) i), (Z.testbit (drv_mask d') i); rewrite ?andb_true_r, ?andb_false_r in *; try done.
  rewrite Hd, Hd'. by rewrite xorb_nilpotent.
Qed.

Lemma matching_none d id l : drv_matches id d = true -> forallb (disjoint d) l = true -> matching id l = [].
Proof.
  intros Hd. induction l as [|d' l IH]; [done|]. intros [H1 Hl]%andb_true_iff.
  unfold matching. cbn [List.filter]. rewrite (disjoint_matches _ _ _ Hd H1). by apply IH.
Qed.

Lemma forallb_sublist (f : mepa_driver_t -> bool) l k : sublist l k -> forallb f k = true -> forallb f l = true.
Proof.
  induction 1 as [|x l k _ IH|x l k _ IH]; cbn [forallb]; [done| |]; intros [H1 H2]%andb_true_iff; [|by apply IH].
  by rewrite H1, IH.
Qed.

Lemma pairwise_sublist l k : sublist l k -> pairwise k = true -> pairwise l = true.
Proof.
  induction 1 as [|x l k Hs IH|x l k Hs IH]; cbn [pairwise]; [done| |]; intros [H1 H2]%andb_true_iff; [|by apply IH].
  by rewrite (forallb_sublist _ _ _ Hs H1), IH.
Qed.

(** Among rows that are pairwise disjoint, the one that matches is alone. *)
Lemma matching_one d id l : In d l -> pairwise l = true -> drv_matches id d = true -> matching id l = [d].
Proof.
  induction l as [|d' l IH]; [done|]. intros Hin [H1 H2]%andb_true_iff Hd. unfold matching. cbn [List.filter].
  destruct Hin as [->|Hin].
  - rewrite Hd. f_equal. by apply (matching_none d).
  - rewrite forallb_forall in H1. specialize (H1 _ Hin). rewrite disjoint_sym in H1.
    rewrite (disjoint_matches _ _ _ Hd H1). by apply IH.
Qed.

Lemma matching_app id l k : matching id (l ++ k) = matching id l ++ matching id k.
Proof. apply List.filter_app. Qed.

(** ** The families of a build, within those of the build with everything *)

Lemma when_sublist c l : sublist (when c l) l.
Proof. destruct c; [done|]. apply sublist_nil_l. Qed.

(** The rows before Intel's, and Microchip's. *)
Definition first_rows : list mepa_driver_t :=
  mepa_mscc_driver_init ++ mepa_malibu_driver_init ++ mepa_venice_driver_init ++ mepa_aqr_driver_init ++ [].
Definition microchip_rows (tc10 msec : bool) : list mepa_driver_t :=
  lan8814_drivers ++ mepa_ksz9031_driver_init ++ mepa_lan8770_driver_init ++ mepa_lan884x_driver_init ++
  mepa_lan887x_driver_init tc10 ++ mepa_lan867x_driver_init ++ mepa_lan80xx_driver_init msec ++
  mepa_dummy_driver_init ++ mepa_lan8x8x_driver_init ++ [].

Lemma first_sublist b : sublist (concat (take 4 (families b))) first_rows.
Proof. unfold families, first_rows. cbn [take concat]. repeat apply sublist_app; try apply when_sublist. done. Qed.

Lemma microchip_sublist b : sublist (microchip_drivers b) (microchip_rows (opt_tc10 b) (lan80xx_msec b)).
Proof.
  unfold microchip_drivers, families, microchip_rows. cbn [take drop concat].
  repeat apply sublist_app; try apply when_sublist. done.
Qed.

Lemma microchip_pairwise tc10 msec : pairwise (microchip_rows tc10 msec) = true.
Proof. destruct tc10, msec; vm_compute; reflexivity. Qed.

Lemma microchip_first tc10 msec :
  forallb (fun d => forallb (disjoint d) first_rows) (microchip_rows tc10 msec) = true.
Proof. destruct tc10, msec; vm_compute; reflexivity. Qed.

Lemma families_split b :
  concat (families b) = concat (take 4 (families b)) ++ when (has_gpy2211 b) mepa_intel_driver_init ++
    microchip_drivers b ++ when (has_vtss b) [default_driver].
Proof. unfold microchip_drivers, families. cbn [take drop concat]. by rewrite !app_nil_r, <- !app_assoc. Qed.

Lemma intel_none id c : (c = true -> id .>> 16 <> 0x67c9) -> 0 <= id < 2 ^ 32 ->
  matching id (when c mepa_intel_driver_init) = [].
Proof.
  intros Hc Hid. destruct c; [|done]. specialize (Hc eq_refl).
  unfold matching, when, mepa_intel_driver_init. cbn [List.filter].
  unfold drv_matches. cbn [drv_id drv_mask]. destruct (Z.eqb_spec (INTL_PHY_CHIPID .& 0xffff0000) (id .& 0xffff0000)) as [E|]; [|done].
  exfalso. apply Hc. apply (f_equal (fun z => z .>> 16)) in E. rewrite !Z.shiftr_land in E.
  change (INTL_PHY_CHIPID .>> 16) with 0x67c9 in E. change (0xffff0000 .>> 16) with (Z.ones 16) in E.
  rewrite Z.land_ones, (Z.land_ones (id .>> 16)) in E by lia. rewrite Z.mod_small in E by lia.
  rewrite E, Z.mod_small; [done|]. rewrite Z.shiftr_div_pow2 by lia. split; [apply Z.div_pos; lia|].
  apply Z.div_lt_upper_bound; lia.
Qed.

Lemma default_matches id : drv_matches id default_driver = true.
Proof. unfold drv_matches, default_driver. cbn [drv_id drv_mask]. by rewrite !Z.land_0_r. Qed.

(** The rows that match, in the order of the search. *)
Lemma families_matching b d id : In d (microchip_drivers b) -> drv_matches id d = true -> 0 <= id < 2 ^ 32 ->
  (has_gpy2211 b = true -> id .>> 16 <> 0x67c9) ->
  matching id (concat (families b)) = d :: when (has_vtss b) [default_driver].
Proof.
  intros Hd Hm Hid Hi. rewrite families_split, !matching_app, intel_none by done.
  rewrite (matching_one d id (microchip_drivers b)) by (done || apply (pairwise_sublist _ _ (microchip_sublist b)), microchip_pairwise).
  assert (matching id (concat (take 4 (families b))) = []) as ->.
  { apply (matching_none d); [done|]. apply (forallb_sublist _ _ _ (first_sublist b)).
    pose proof (microchip_first (opt_tc10 b) (lan80xx_msec b)) as H.
    apply (forallb_sublist _ _ _ (microchip_sublist b)) in H. rewrite forallb_forall in H. by apply H. }
  cbn [app]. f_equal. unfold when, matching. destruct (has_vtss b); [|done]. cbn [List.filter]. by rewrite default_matches.
Qed.

(** ** The search *)

Section Search.
Context {W Dev : Type} (probe : mepa_driver_t -> W -> option Dev * W).

(** Only the matching rows count; the families are searched as one list
    ([create_search_concat]). *)
Lemma create_family_matching id l w : create_family probe id l w = create_family probe id (matching id l) w.
Proof.
  revert w. induction l as [|d l IH]; intros w; [done|]. unfold matching. cbn [List.filter create_family].
  destruct (drv_matches id d) eqn:E; [|apply IH]. cbn [create_family]. rewrite E.
  destruct (probe d w) as [[dev|] w']; [done|apply IH].
Qed.
End Search.

(** Identifiers have 32 bits. *)
Lemma land16_range x : 0 <= x .& 0xFFFF < 2 ^ 16.
Proof. change 0xFFFF with (Z.ones 16). rewrite Z.land_ones by lia. apply Z.mod_pos_bound. lia. Qed.

Lemma lor_bound n x y : 0 <= n -> 0 <= x < 2 ^ n -> 0 <= y < 2 ^ n -> 0 <= x .| y < 2 ^ n.
Proof.
  intros Hn Hx Hy. assert (x .| y = (x .| y) mod 2 ^ n) as ->; [|apply Z.mod_pos_bound; lia].
  by rewrite <- Z.land_ones, Z.land_lor_distr_l, !Z.land_ones, !Z.mod_small by lia.
Qed.

Lemma id_of_regs_range r2 r3 : 0 <= u32 ((r2 .& 0xFFFF) .<< 16) .| (r3 .& 0xFFFF) < 2 ^ 32.
Proof.
  pose proof (land16_range r3) as H3. pose proof (u32_range ((r2 .& 0xFFFF) .<< 16)) as H2.
  apply lor_bound; lia.
Qed.

Lemma mepa_phy_id_get_range {B} le (co : id_callout B) port_no b id b' :
  mepa_phy_id_get le co port_no b = (id, b') -> 0 <= id < 2 ^ 32.
Proof.
  unfold mepa_phy_id_get. destruct (id_read le co _ _ _ 0 b) as [r3 b1].
  pose proof (land16_range r3) as H3. destruct (existsb _ _); [intros [= <- _]; lia|].
  destruct (id_read le co _ _ _ 0 b1) as [r2 b2]. destruct (_ && _); [intros [= <- _]; lia|].
  repeat match goal with |- context [match ?x with _ => _ end] =>
    lazymatch x with context [match _ with _ => _ end] => fail | _ => destruct x end end;
  intros [= <- _]; apply id_of_regs_range.
Qed.

(** ** The theorem *)

(** C3. The driver of a PHY: whatever drivers the library is built with, on the
    first call of [mepa_create] and on every later one, a PHY whose identifier
    matches a row of one of Microchip's drivers is probed through that row and
    through no other; only when this probe fails is the default driver of
    [vtss.c] probed, if it was built in.  (Intel's driver takes every identifier
    with its upper half, which some of the other masks do not look at; such a
    PHY goes to that driver first, see [intel_overlap].) *)
Theorem mepa_create_picks {B Dev} (le : bool) (co : id_callout B) (port_no : Z) (b : build)
    (probe : mepa_driver_t -> B -> option Dev * B) (dummy_phy_cap : Z) (c : core) (w : B) (d : mepa_driver_t) id w1 :
  c = core_0 \/ c = core_init b core_0 ->
  (if dummy_phy_cap >? 0 then (0xdeadbeef, w) else mepa_phy_id_get le co port_no w) = (id, w1) ->
  In d (microchip_drivers b) -> drv_matches id d = true ->
  (has_gpy2211 b = true -> id .>> 16 <> 0x67c9) ->
  core_create b probe (mepa_phy_id_get le co port_no) dummy_phy_cap c w =
    (core_init b core_0,
     let '(dev, w2) := probe d w1 in
     match dev with
     | Some dev => (Some dev, w2)
     | None => if has_vtss b then probe default_driver w2 else (None, w2)
     end).
Proof.
  intros Hc Hid Hd Hm Hi. unfold core_create.
  assert (core_init b c = core_init b core_0) as -> by (by destruct Hc as [-> | ->]).
  f_equal. unfold mepa_create. rewrite Hid. cbn [core_init core_0 MEPA_init_done MEPA_phy_lib].
  rewrite create_search_concat, create_family_matching, (families_matching b d) by
    (done || (destruct (dummy_phy_cap >? 0); [injection Hid as <- <-; lia|by apply mepa_phy_id_get_range in Hid])).
  cbn [create_family]. rewrite Hm. destruct (probe d w1) as [[dev|] w2]; [done|].
  unfold when. destruct (has_vtss b); [|done]. cbn [create_family]. rewrite default_matches.
  by destruct (probe default_driver w2) as [[dev|] w3].
Qed.

Definition build_all : build :=
  Build true true true true true true true true true true true true true true.
(** A LAN867x behind MIIM, and probes that fail but for the default driver; the
    world lists the rows that were probed. *)
Definition lan867x_phy : id_callout (list Z) :=
  Build_id_callout _ None None (Some (fun a log => (Some (if a =? 2 then 0x0007 else if a =? 3 then 0xc162 else 0), log))).
Definition probe_default (d : mepa_driver_t) (log : list Z) : option Z * list Z :=
  (if drv_id d =? 0 then Some 7 else None, log ++ [drv_id d]).

Lemma mepa_create_picks_witness :
  core_create build_all probe_default (mepa_phy_id_get true lan867x_phy 0) 0 core_0 [] =
    (core_init build_all core_0, (Some 7, [LAN867X_PHY_ID; 0])).
Proof.
  refine (eq_trans (mepa_create_picks true lan867x_phy 0 build_all probe_default 0 core_0 []
    (List.hd default_driver mepa_lan867x_driver_init) 0x7c162 [] _ _ _ _ _) _).
  - by left.
  - vm_compute. reflexivity.
  - apply in_concat. exists mepa_lan867x_driver_init. split; [do 5 right; left|left]; reflexivity.
  - vm_compute. reflexivity.
  - intros _. vm_compute. discriminate.
  - reflexivity.
Defined.

(** Intel's row and a row of the LAN80xx overlap. *)
Example intel_overlap :
  map drv_id (matching 0x67c98042 (concat (take 14 (families build_all)))) = [INTL_PHY_CHIPID; 0x8042].
Proof. vm_compute. reflexivity. Qed.
